(* ===== verification/_CoqProject ===== *)
-Q . S2P
Prelude.v
MetalUtil.v
MetalList.v
MetalIo.v
StrUtil.v
Vring.v
Virtqueue.v
VirtqueueInv.v
VirtqueueRefine.v
VirtqueueSys.v
VirtqueueRuns.v
Virtio.v
Rpmsg.v
RpmsgInv.v
RpmsgVirtio.v
RpmsgBuf.v
RpmsgTx.v
RpmsgTxApi.v
RpmsgRx.v
RpmsgDelivery.v
ElfLoader.v
ElfSpec.v
Remoteproc.v
RscTable.v
RemoteprocSpec.v
RscSpec.v
RemoteprocVirtio.v
RpvSpec.v
RpvCreate.v
RemoteprocLoad.v
LoadSpec.v
MetalMutex.v
MetalIrq.v
IrqSpec.v
MetalDevice.v
RpmsgRpc.v
RpcSpec.v
VirtioMmio.v
MmioSpec.v
RpmsgRetarget.v
RetargetSpec.v
OpenampApp.v
AppSpec.v
OpenampDev.v
MergePass.v
Dlist.v
DlistRep.v
DlistSpec.v
DlistProps.v
DlistPair.v
DlistSort.v
SysfsUtils.v
SysfsSpec.v
SysfsLink.v
SysfsAttr.v
SysfsAttrSpec.v
SysfsLaws.v
SysfsDevice.v
SysfsDeviceSpec.v
SysfsClass.v
RpcDemod.v
ForwardSpec.v
ForwardCalls.v
RpmsgInit.v
RpmsgBack.v
RpmsgInitDev.v
LinuxIrq.v
LinuxIrqSpec.v
LinuxIrqSys.v
LinuxSys.v
LinuxSysSpec.v
LinuxDevice.v
LinuxDevSpec.v
LinuxCond.v
