(* ===== verification/Prelude.v ===== *)
(** * OpenAMP core: verification library

    OpenAMP lets a host and a remote processor exchange messages through memory
    they share.  This library models the core of the repository, the C code of
    src/openamp/open-amp/lib, the parts of src/openamp/libmetal/lib it stands on, and
    src/operation_interface on top of them, and proves what the parts promise each
    other.

    ** The program and its parts

    A host describes the memories of a remote processor, loads firmware into them
    and starts it (remoteproc.c, elf_loader.c).  The firmware carries a resource
    table; its virtio entries (rsc_table_parser.c) give identifiers for
    notifications and the places of the rings.  A virtio device is made for such an
    entry (remoteproc_virtio.c); its virtqueues (virtqueue.c, virtio.c) carry
    buffers between the driver and the device.  RPMsg (rpmsg_virtio.c) sends
    messages in these buffers between endpoints (rpmsg.c).  libmetal has the lists,
    the bitmaps and the I/O regions all of them use; its Linux port (lib/system/linux)
    serves interrupts in a thread, opens devices found in sysfs, and maps shared memory.

    ** Which file models what

    - Prelude: results of C code ([res], a value or a [fault]), machine integers,
      arrays, the byte memory, tactics and hints.
    - MetalUtil: utilities.h (bitmaps of endpoint addresses and identifiers).
      MetalList: list.h on a heap of cells.  MetalIo: io.h and io.c.  StrUtil:
      utils/utilities.c.
    - Vring: virtio_ring.h.  Virtqueue: virtqueue.c and virtqueue.h, one [virtqueue]
      per side and the shared [vring].  VirtqueueInv: the abstract two-party queue
      and the relation to it; VirtqueueRefine: one refinement lemma per operation;
      VirtqueueSys: the theorems; VirtqueueRuns: interleavings and notifications.
    - Virtio: virtio.c and virtio.h, with the dispatch table as a record of
      functions.
    - Rpmsg: rpmsg.c, rpmsg_internal.h and rpmsg.h over a [world] (memory,
      endpoints, device, transport state).  RpmsgInv: the registry, proved against
      the class [Transport].
    - RpmsgVirtio: rpmsg_virtio.c.  RpmsgBuf: pools, held counters, the reclaimer;
      RpmsgTx and RpmsgTxApi: the transmit side and its invariant, with the instance
      of [Transport]; RpmsgRx and RpmsgDelivery: the receive side of the device and the
      way of a message from the driver to the device; RpmsgInit: the start of the
      transport as driver; RpmsgBack: sending in the device role, the receive side of the
      driver, and the way of a message back; RpmsgInitDev: the start as device.
    - ElfLoader: elf_loader.c and elf_loader.h.  ElfSpec: the one-pass parser it is
      compared with.
    - Remoteproc: remoteproc.c (life cycle, memories, identifiers) over an [rpworld]
      (memory, [struct remoteproc], rest).  RscTable: rsc_table_parser.c.
      RemoteprocVirtio: remoteproc_virtio.c and the part of remoteproc.c that makes
      devices.  RemoteprocLoad: [remoteproc_load] and [remoteproc_load_noblock].
      RemoteprocSpec, RscSpec, RpvSpec, RpvCreate and LoadSpec: their theorems.
    - MetalMutex: the mutex of the Linux port (linux/mutex.h), each atomic operation
      and futex call a step of a thread.  MetalIrq: irq.c and softirq.c, with IrqSpec.
      MetalDevice: device.c, shmem.c, dma.c and init.c.
    - The Linux port: LinuxIrq, linux/irq.c over the world of MetalIrq, with LinuxIrqSpec
      (one pass of the thread) and LinuxIrqSys (the thread and its clients as a step
      relation); LinuxSys, linux/init.c, utilities.c and shmem.c over the class [os] of
      system calls, with LinuxSysSpec; LinuxDevice, linux/device.c over [os] and the class
      [sysfs], with LinuxDevSpec; LinuxCond, linux/condition.h and condition.c, each
      atomic operation and futex call a step.
    - RpmsgRpc: the remote procedure calls (service/rpmsg/rpc), with RpcSpec.
      RpmsgRetarget: the system calls forwarded to the other side
      (proxy/rpmsg_retarget.c), with RetargetSpec.
    - VirtioMmio: the virtio driver over memory-mapped registers (virtio_mmio_drv.c),
      with MmioSpec; the device is a parameter, its registers the classes
      [FeatureRegs], [IrqRegs] and [QueueRegs].
    - RpcDemod: the server that carries out forwarded system calls on the host
      (apps/examples/rpc_demo/rpc_demod.c) over the class [files]; ForwardSpec: the server
      and the client each on their own; ForwardCalls: the two together.
    - Dlist: the lists of sysfsutils (lib/dlist.c), nodes and lists on heaps with an
      explicit allocator.  DlistRep: the sequence a list stands for; DlistSpec: markers,
      removal, insertion, moves; DlistProps: the queue operations, sorted insertion and
      destruction; MergePass: merge sort by passes on sequences; DlistPair and DlistSort:
      the sort of the linked list refines it.
    - sysfsutils on these lists: SysfsUtils, lib/sysfs_utils.c and the macros of
      lib/sysfs.h over the class [sysfs_fs], with SysfsSpec (bounded copies, the last name
      of a path) and SysfsLink (the target of a link); SysfsAttr, lib/sysfs_attr.c over the
      heap of Dlist and the class [sysfs_io], with SysfsAttrSpec and SysfsLaws (what a call
      takes from the heap and gives back); SysfsDevice, opening in
      lib/sysfs_device.c, sysfs_driver.c and sysfs_bus.c, with SysfsDeviceSpec; SysfsClass,
      opening in lib/sysfs_class.c and sysfs_module.c and the parents of devices.
    - OpenampApp: the application nodes of src/operation_interface and the echo node
      of src/openamp_demo, with AppSpec.  OpenampDev: the creation of the AMP device
      (operation_interface.c) over a parameter for the operating system.

    ** What the theorems show

    - The virtqueue refines a queue of chains: each operation, on every branch, in
      the driver and the device role, with and without the event index.  A chain
      that is empty or too long is refused by the debug build (VQUEUE_DEBUG) only; the
      release build runs past the free descriptors.  Every interleaving of the two sides is free of
      faults, first-in first-out and loses no buffer; no interrupt is lost.
    - The endpoint registry keeps addresses unique and endpoints found, as long as
      one of the 128 dynamic addresses is free; creation undoes itself when its announcement
      fails.  The transmit side owns every buffer in one place
      at a time, a send puts header and payload where the descriptor says, waits at
      most its 15 seconds (with a wait callback that succeeds there is no such bound), and the zero-copy calls keep the same invariant; the
      receive side delivers each message once and returns its buffer exactly when
      nobody holds it; a payload sent arrives unaltered at the endpoint addressed, from
      the driver to the device and back.  [rpmsg_init_vdev] as driver establishes the
      invariant of the transmit side and offers every receive buffer; the driver's
      receive callback offers each buffer again.  As device it ends once the driver is
      ready; the driver may write the memory meanwhile, and the queues hold what it has
      offered by then.  Of the rings only the word that suppresses the notifications of the
      transmit queue is changed.
    - The ELF loader, fed piece by piece, reads what a one-pass parser reads, and
      hands over every loadable segment once; [remoteproc_load] puts them in the
      memories of the processor.  The life cycle refines an automaton.  The
      entry of a virtio device is answered with the identifiers of a first-free allocator:
      the least free ones, a requested one if it is free; when there is none the answer is
      one in use.  A request beyond the bitmap makes the whole entry fail and gives back
      the others.  A virtio device is made once, with its rings at the
      mapped addresses; the two sides agree on features and status, the driver rings the bell
      at each change, and only the device waits.
    - Lists, bitmaps, I/O regions, string copies and the layout of a ring are
      specified on every branch.
    - The futex mutex excludes and loses no wake-up, in any interleaving of the atomic
      operations of any number of threads.  Interrupt controllers keep disjoint
      ranges and get their interrupts; a dispatch serves each pending software
      interrupt once.  Registering a second bus of a name is not refused.
    - In the Linux port no change of the enabled interrupts is lost to the serving
      thread, one pass of it runs exactly the handlers of the ready descriptors, opening
      a device or a shared memory holds exactly its resources or none, closing a device gives
      them back and takes it out of the tables of the devices (its entry in the table of the
      interrupts stays), a shared memory has the largest page size that can be had, the table
      of page sizes is well formed and sorted, and no thread sleeps through a broadcast.
    - A remote call reaches the service of the low byte of its identifier; its answer
      loses four bytes.  A forwarded system call returns once it is answered, with
      the answer cut to the caller's buffer; the text of [_write] is not terminated.
      The bytes client and server exchange are read back as what the other side wrote:
      [_open], [_close], [_read] and [_write] give the result of the call on the host, a read
      as long as its answer fits a message (480 bytes).
    - The linked lists are double-ended queues, keep a sorted order on insertion, and are
      destroyed with each element deleted once; their merge sort ends, is stable, and
      leaves sound links; filtering deletes exactly the refused elements.
    - A link of sysfs is resolved to the directory that is left when its text has climbed,
      and the rest of the text; a device that is opened has the names its links stand for.
      The list of the links in a directory has each of them once, in alphabetical order if
      no name is a prefix of another, and closing it restores the heap; reading an attribute replaces its value and frees the old one.
    - Over memory-mapped registers the driver accepts what both sides offer, programs
      the registers of exactly the queue it sets up, serves every virtqueue once per
      interrupt and acknowledges what it saw; a device that was registered cannot
      create its virtqueues.
    - The application nodes are a map from names of at most twenty bytes to endpoints;
      the shared memory of the AMP device is divided without overlap; the whole of
      its creation is evaluated on configurations that fit and that do not.

    ** Conventions and bounds

    Machine integers are [Z] with the wrap-around written out ([u8], [u16], [u32],
    [u64], [i32]); memory is a finite map from addresses to bytes; a null pointer is
    0 or [None].  A [fault] stands for what C leaves undefined, a failed assertion,
    a lock taken twice by its owner, or fuel used up; theorems that a call returns
    show that there is none.  A mutex is a flag and a call is one step: calls of the
    two processors interleave, the accesses inside one call do not; MetalMutex, where
    each atomic operation is a step, justifies the flag.  Fuel: a loop
    over a list, a ring or a table takes its length; the loop over the headers of an
    image needs five rounds (the short file header and one per table), the loop over
    the segments one round per program header and two more; the wait for a transmit
    buffer takes the ticks of its 15 seconds; a wait for the other processor takes
    as many rounds as the theorem's hypothesis about that processor says, and the
    polling of a forwarded system call one round per poll until its answer; the sort of a
    list of n elements takes 2 n + 7 for each of its loops, n at most 2^31; resolving a link
    that climbs k directories takes k + 2.  The word
    size is 64 bits, the byte order little endian.

    ** Parameters

    Platform operations, callbacks of the user, allocators and the image store are
    arguments of the definitions; theorems name what they rely on ([life_ops],
    [doorbell], [serves], [image_store], [polite], [calm]), each with a concrete
    instance in a witness.  System calls and the calls of sysfsutils and libhugetlbfs are
    the classes [os] and [sysfs]; [os_laws] and [sysfs_laws] say what the port relies on:
    which resources a call takes and gives back.  For attributes and lists of directories
    SysfsLaws proves what [sysfs_laws] asks, of the functions of SysfsAttr; for classes,
    devices and drivers, whose closing is not modelled, it is assumed.  [files] are the files of the host,
    with [FilesLaws]; [MallocFresh] and [HeapFresh] say that an allocator hands out memory not in
    use.  [sysfs_fs] and [sysfs_io] are the kinds, the links and the contents of files as
    sysfsutils asks the system for them.

    ** Not modelled

    Caches and memory barriers (one call is one step); formatted output and logs;
    the ports of libmetal to systems other than Linux (their bodies are calls of those
    systems); the command loop of the demonstration; libhugetlbfs, and of
    sysfsutils the trees of devices, the lists of buses, classes and modules and the command
    line tools, which are bundled third-party code; applications, examples and tests.
    Left open: sending with reclaimed buffers in the device role. *)

From Stdlib Require Export ZArith Lia.
From stdpp Require Export base tactics list gmap strings numbers.

#[global] Open Scope Z_scope.

(** ** Results of C code

    A C function either returns, or hits behaviour the C standard or the
    library's own assertions exclude.  [Fault] makes that explicit: it is never
    a value the program can test. *)

(** Why a run is not a return: a failed [metal_assert], an array access or a
    pointer outside its object, a division by zero, a lock taken twice by its
    owner, a signed result beyond its type, or a loop that used up the fuel of the
    model. *)
Inductive fault : Type :=
| Assert_failed
| Out_of_bounds
| Div_by_zero
| Deadlock
| Overflow
| No_fuel.

Inductive res (A : Type) : Type :=
| Ok (a : A)
| Fault (f : fault).
Arguments Ok {A} a.
Arguments Fault {A} f.

#[global] Instance fault_eq_dec : EqDecision fault.
Proof. solve_decision. Defined.

#[global] Instance res_ret : MRet res := fun A a => Ok a.
#[global] Instance res_bind : MBind res := fun A B k m =>
  match m with
  | Ok a => k a
  | Fault f => Fault f
  end.

Lemma bind_ok {A B} (m : res A) (k : A -> res B) a r : m = Ok a -> k a = r -> mbind k m = r.
Proof. intros -> <-. reflexivity. Qed.

Lemma bind_then {A B C} (m : res A) (f : A -> res B) (g : B -> res C) b r :
  mbind f m = Ok b -> g b = r -> mbind (fun a => mbind g (f a)) m = r.
Proof. destruct m as [a|e]; cbn; [|discriminate]. intros -> <-. reflexivity. Qed.

(** [metal_assert(b)] *)
Definition rassert (b : bool) : res unit :=
  if b then Ok tt else Fault Assert_failed.

(** The error numbers the sources use. *)
Definition ENOENT : Z := 2.
Definition ENXIO : Z := 6.
Definition EEXIST : Z := 17.
Definition ENODEV : Z := 19.
Definition EINVAL : Z := 22.
Definition ERANGE : Z := 34.

(** ** Machine integers: [Z] with the wrap-around written out *)

Definition u8 (z : Z) : Z := z mod 256.
Definition u16 (z : Z) : Z := z mod 65536.
Definition u32 (z : Z) : Z := z mod 4294967296.
Definition u64 (z : Z) : Z := z mod 18446744073709551616.

(** Conversion to a signed 32-bit [int] (two's complement). *)
Definition i32 (z : Z) : Z := (z + 2147483648) mod 4294967296 - 2147483648.

(** The sum of two [int]s; C leaves an overflow undefined. *)
Definition iadd (a b : Z) : res Z :=
  if (-2147483648 <=? a + b) && (a + b <? 2147483648) then Ok (a + b) else Fault Overflow.

Definition is_u8 (z : Z) : Prop := 0 <= z < 256.
Definition is_u16 (z : Z) : Prop := 0 <= z < 65536.
Definition is_u32 (z : Z) : Prop := 0 <= z < 4294967296.
Definition is_u64 (z : Z) : Prop := 0 <= z < 18446744073709551616.

#[global] Arguments u8 : simpl never.
#[global] Arguments u16 : simpl never.
#[global] Arguments u32 : simpl never.
#[global] Arguments u64 : simpl never.
#[global] Arguments i32 : simpl never.
#[global] Arguments Z.eqb : simpl never.
#[global] Arguments Z.ltb : simpl never.
#[global] Arguments Z.leb : simpl never.
#[global] Arguments Z.land : simpl never.
#[global] Arguments Z.lor : simpl never.
#[global] Arguments Z.shiftl : simpl never.
#[global] Arguments Z.shiftr : simpl never.
#[global] Arguments Z.testbit : simpl never.
#[global] Arguments Z.modulo : simpl never.
#[global] Arguments Z.div : simpl never.

(** ** C arrays: lists indexed by [Z], with the out-of-range access a fault *)

Definition zget {A} (l : list A) (i : Z) : option A :=
  if 0 <=? i then l !! Z.to_nat i else None.

Definition zset {A} (l : list A) (i : Z) (x : A) : list A :=
  if 0 <=? i then <[Z.to_nat i := x]> l else l.

Definition zlen {A} (l : list A) : Z := Z.of_nat (length l).

Definition rget {A} (l : list A) (i : Z) : res A :=
  match zget l i with
  | Some x => Ok x
  | None => Fault Out_of_bounds
  end.

Definition rset {A} (l : list A) (i : Z) (x : A) : res (list A) :=
  match zget l i with
  | Some _ => Ok (zset l i x)
  | None => Fault Out_of_bounds
  end.

(** The integers [s, s+1, ..., s+n-1]. *)
Definition zseq (s : Z) (n : nat) : list Z := (fun k => s + Z.of_nat k) <$> seq 0 n.

(** ** Bytes: little-endian integers and a byte-addressed memory *)

Fixpoint le_val (bs : list Z) : Z :=
  match bs with
  | [] => 0
  | b :: bs' => b + 256 * le_val bs'
  end.

Fixpoint le_bytes (n : nat) (v : Z) : list Z :=
  match n with
  | O => []
  | S n' => v mod 256 :: le_bytes n' (v / 256)
  end.

Definition load8 (m : gmap Z Z) (a : Z) : res Z :=
  match m !! a with
  | Some b => Ok b
  | None => Fault Out_of_bounds
  end.

Definition store8 (m : gmap Z Z) (a v : Z) : res (gmap Z Z) :=
  match m !! a with
  | Some _ => Ok (<[a := v]> m)
  | None => Fault Out_of_bounds
  end.

Fixpoint loadn (n : nat) (m : gmap Z Z) (a : Z) : res (list Z) :=
  match n with
  | O => Ok []
  | S n' => b ← load8 m a; bs ← loadn n' m (a + 1); Ok (b :: bs)
  end.

Fixpoint storen (m : gmap Z Z) (a : Z) (bs : list Z) : res (gmap Z Z) :=
  match bs with
  | [] => Ok m
  | b :: bs' => m' ← store8 m a b; storen m' (a + 1) bs'
  end.

(** A 32-bit load. *)
Definition rd32 (m : gmap Z Z) (a : Z) : res Z := bs ← loadn 4 m a; Ok (le_val bs).

(** The memory holds the bytes [bs] from [a] on; the addresses [a .. a+n-1] are
    mapped; the memory with [bs] written from [a] on. *)
Fixpoint has_bytes (m : gmap Z Z) (a : Z) (bs : list Z) : Prop :=
  match bs with
  | [] => True
  | b :: bs' => m !! a = Some b /\ has_bytes m (a + 1) bs'
  end.

Definition mapped (m : gmap Z Z) (a n : Z) : Prop :=
  forall i, a <= i < a + n -> is_Some (m !! i).

Fixpoint put_bytes (m : gmap Z Z) (a : Z) (bs : list Z) : gmap Z Z :=
  match bs with
  | [] => m
  | b :: bs' => put_bytes (<[a := b]> m) (a + 1) bs'
  end.

(** ** Tactics *)

(** Linear arithmetic with division and modulo by constants. *)
Ltac mlia := Z.to_euclidean_division_equations; lia.

(** Unfold the widths and finish arithmetically. *)
Ltac width := unfold is_u8, is_u16, is_u32, is_u64, u8, u16, u32, u64, i32 in *; mlia.

(** Step through the [res] monad in a hypothesis [H : ... = Ok _]. *)
Ltac res_step H :=
  match type of H with
  | mbind _ ?m = _ =>
      let E := fresh "E" in
      destruct m eqn:E; cbn [mbind res_bind] in H; [|discriminate H]
  end.
Ltac res_inv H :=
  repeat first
    [ res_step H
    | progress cbn [mbind res_bind mret res_ret] in H
    | match type of H with Ok _ = Ok _ => injection H as H; subst end
    | match type of H with Ok _ = Fault _ => discriminate H end
    | match type of H with Fault _ = Ok _ => discriminate H end ].

(** Run the first instruction of a monadic goal: [run tac] proves with [tac] what
    it returns and leaves the rest. *)
Ltac run_with tac := eapply bind_ok; [tac|]; cbv beta iota.
Tactic Notation "run" tactic3(tac) := run_with tac.

(** Turn boolean comparisons in the context into propositions. *)
Ltac zbool :=
  repeat match goal with
  | H : (_ =? _) = true |- _ => apply Z.eqb_eq in H
  | H : (_ =? _) = false |- _ => apply Z.eqb_neq in H
  | H : (_ <? _) = true |- _ => apply Z.ltb_lt in H
  | H : (_ <? _) = false |- _ => apply Z.ltb_ge in H
  | H : (_ <=? _) = true |- _ => apply Z.leb_le in H
  | H : (_ <=? _) = false |- _ => apply Z.leb_gt in H
  | H : (_ && _)%bool = true |- _ => apply andb_true_iff in H as [? ?]
  | H : (_ || _)%bool = false |- _ => apply orb_false_iff in H as [? ?]
  | H : negb _ = true |- _ => apply negb_true_iff in H
  | H : negb _ = false |- _ => apply negb_false_iff in H
  end.

(** Case on the boolean tested by the goal. *)
Ltac zcase :=
  match goal with
  | |- context [ if ?b then _ else _ ] =>
      lazymatch b with
      | context [ if _ then _ else _ ] => fail
      | _ => destruct b eqn:?; zbool
      end
  end.

(** ** Lemmas shared by the components *)

Section arrays.
Context {A : Type}.
Implicit Types (l : list A) (i j : Z) (x y : A).

Lemma zget_Some_lt l i x : zget l i = Some x -> 0 <= i < zlen l.
Proof.
  unfold zget, zlen. zcase; [|done]. intros H%lookup_lt_Some. lia.
Qed.

Lemma zget_is_Some l i : 0 <= i < zlen l -> exists x, zget l i = Some x.
Proof.
  unfold zget, zlen. intros Hi. zcase; [|lia].
  apply lookup_lt_is_Some_2. lia.
Qed.

Lemma zget_None_ge l i : 0 <= i -> zlen l <= i -> zget l i = None.
Proof.
  unfold zget, zlen. intros. zcase; [|done]. apply lookup_ge_None_2. lia.
Qed.

Lemma zlen_nonneg l : 0 <= zlen l.
Proof. unfold zlen. lia. Qed.

Lemma zlen_app l1 l2 : zlen (l1 ++ l2) = zlen l1 + zlen l2.
Proof. unfold zlen. rewrite length_app. lia. Qed.

Lemma zlen_cons x l : zlen (x :: l) = 1 + zlen l.
Proof. unfold zlen. cbn [length]. lia. Qed.

Lemma zlen_zset l i x : zlen (zset l i x) = zlen l.
Proof. unfold zlen, zset. zcase; [|done]. by rewrite length_insert. Qed.

Lemma zget_zset_eq l i x : 0 <= i < zlen l -> zget (zset l i x) i = Some x.
Proof.
  unfold zget, zset, zlen. intros. zcase; [|lia].
  apply list_lookup_insert_eq. lia.
Qed.

Lemma zget_zset_ne l i j x : i <> j -> zget (zset l i x) j = zget l j.
Proof.
  unfold zget, zset. intros. zcase; [|done]. zcase; [|done].
  apply list_lookup_insert_ne. lia.
Qed.

Lemma zset_zset l i x y : zset (zset l i x) i y = zset l i y.
Proof. unfold zset. zcase; [|done]. apply list_insert_insert_eq. Qed.

Lemma zset_id l i x : zget l i = Some x -> zset l i x = l.
Proof. unfold zget, zset. zcase; [|done]. apply list_insert_id. Qed.

Lemma zset_app_mid (l1 l2 : list A) x y : zset (l1 ++ x :: l2) (zlen l1) y = l1 ++ y :: l2.
Proof.
  unfold zset, zlen. zcase; [|lia]. rewrite Nat2Z.id, insert_app_r_alt by lia.
  by rewrite Nat.sub_diag.
Qed.

Lemma rget_ok l i : 0 <= i < zlen l -> exists x, rget l i = Ok x /\ zget l i = Some x.
Proof.
  intros Hi. destruct (zget_is_Some l i Hi) as [x Hx].
  exists x. unfold rget. by rewrite Hx.
Qed.

Lemma rget_Some l i x : zget l i = Some x -> rget l i = Ok x.
Proof. unfold rget. by intros ->. Qed.

Lemma rget_inv l i x : rget l i = Ok x -> zget l i = Some x.
Proof. unfold rget. destruct (zget l i); congruence. Qed.

Lemma rset_ok l i x : 0 <= i < zlen l -> rset l i x = Ok (zset l i x).
Proof. intros [y Hy]%zget_is_Some. unfold rset. by rewrite Hy. Qed.

Lemma zget_app_l l1 l2 i : i < zlen l1 -> zget (l1 ++ l2) i = zget l1 i.
Proof.
  unfold zget, zlen. intros. zcase; [|done]. apply lookup_app_l. lia.
Qed.

Lemma zget_app_r l1 l2 i :
  zlen l1 <= i -> zget (l1 ++ l2) i = zget l2 (i - zlen l1).
Proof.
  unfold zget, zlen. intros. zcase; [|lia]. zcase; [|lia].
  rewrite lookup_app_r by lia. f_equal. lia.
Qed.

Lemma zget_app_mid (l1 l2 : list A) x : zget (l1 ++ x :: l2) (zlen l1) = Some x.
Proof. rewrite zget_app_r, Z.sub_diag by lia. done. Qed.

Lemma zget_cons_0 x l : zget (x :: l) 0 = Some x.
Proof. done. Qed.

Lemma zget_cons_S x l i : 0 < i -> zget (x :: l) i = zget l (i - 1).
Proof.
  intros. change (x :: l) with ([x] ++ l). rewrite zget_app_r; [done|].
  unfold zlen. cbn. lia.
Qed.

Lemma zget_ext l1 l2 :
  zlen l1 = zlen l2 -> (forall i, 0 <= i < zlen l1 -> zget l1 i = zget l2 i) -> l1 = l2.
Proof.
  unfold zlen. intros Hlen H. apply list_eq. intros k.
  destruct (decide (k < length l1)%nat) as [Hk|Hk].
  - specialize (H (Z.of_nat k) ltac:(lia)). revert H. unfold zget.
    zcase; [|lia]. by rewrite Nat2Z.id.
  - by rewrite !lookup_ge_None_2 by lia.
Qed.

Lemma zget_replicate n x i : 0 <= i < Z.of_nat n -> zget (replicate n x) i = Some x.
Proof.
  intros. unfold zget. zcase; [|lia]. apply lookup_replicate_2. lia.
Qed.

Lemma Forall_zget (P : A -> Prop) l i x : Forall P l -> zget l i = Some x -> P x.
Proof.
  intros Hl. unfold zget. zcase; [|done]. apply (Forall_lookup_1 _ _ _ _ Hl).
Qed.

Lemma Forall_zset (P : A -> Prop) l i x : Forall P l -> P x -> Forall P (zset l i x).
Proof. intros. unfold zset. zcase; [|done]. by apply Forall_insert. Qed.

Lemma zget_inj l i j x : NoDup l -> zget l i = Some x -> zget l j = Some x -> i = j.
Proof.
  unfold zget. intros Hl. do 2 (zcase; [|done]). intros Hi Hj.
  pose proof (NoDup_lookup _ _ _ _ Hl Hi Hj). lia.
Qed.

Lemma zlen_replicate n x : zlen (replicate n x) = Z.of_nat n.
Proof. unfold zlen. by rewrite length_replicate. Qed.
End arrays.

(** The length is the same for every order of the elements. *)
#[global] Instance zlen_Permutation A : Proper (Permutation ==> eq) (@zlen A).
Proof. intros l k H. unfold zlen. by rewrite H. Qed.

Lemma elem_of_zseq s n k : k ∈ zseq s n <-> s <= k < s + Z.of_nat n.
Proof.
  unfold zseq. rewrite list_elem_of_fmap. split.
  - intros (y & -> & Hy%elem_of_seq). lia.
  - intros Hk. exists (Z.to_nat (k - s)). rewrite elem_of_seq. lia.
Qed.

Lemma NoDup_zseq s n : NoDup (zseq s n).
Proof.
  unfold zseq. apply NoDup_fmap_2; [|apply NoDup_seq].
  intros a b. lia.
Qed.

Lemma length_zseq s n : length (zseq s n) = n.
Proof. unfold zseq. by rewrite length_fmap, length_seq. Qed.

Lemma zseq_S s n : zseq s (S n) = s :: zseq (s + 1) n.
Proof.
  unfold zseq. cbn [seq fmap list_fmap]. f_equal; [lia|].
  rewrite <- fmap_S_seq, <- list_fmap_compose.
  apply list_fmap_ext. intros ? k _. cbn. lia.
Qed.

(** Arithmetic of widths. *)

Lemma u16_range z : is_u16 (u16 z).
Proof. width. Qed.
Lemma u32_range z : is_u32 (u32 z).
Proof. width. Qed.
Lemma u64_range z : is_u64 (u64 z).
Proof. width. Qed.
Lemma u8_range z : is_u8 (u8 z).
Proof. width. Qed.

Lemma u8_id z : is_u8 z -> u8 z = z.
Proof. width. Qed.
Lemma u16_id z : is_u16 z -> u16 z = z.
Proof. width. Qed.
Lemma u32_id z : is_u32 z -> u32 z = z.
Proof. width. Qed.
Lemma u64_id z : is_u64 z -> u64 z = z.
Proof. width. Qed.

Lemma land_u32 a b : is_u32 a -> 0 <= b -> is_u32 (Z.land a b).
Proof.
  intros [H1 H2] Hb. split; [apply Z.land_nonneg; by left|].
  destruct (Z.eq_dec (Z.land a b) 0) as [->|Hne]; [done|].
  assert (0 < Z.land a b) by (pose proof (proj2 (Z.land_nonneg a b) (or_introl H1)); lia).
  change 4294967296 with (2 ^ 32). apply Z.log2_lt_pow2; [done|].
  pose proof (Z.log2_land a b H1 Hb). assert (Z.log2 a < 32).
  { destruct (Z.eq_dec a 0) as [->|]; [done|]. apply Z.log2_lt_pow2; [lia|]. done. }
  lia.
Qed.
Lemma i32_id z : -2147483648 <= z < 2147483648 -> i32 z = z.
Proof. width. Qed.

Lemma iadd_ok a b : -2147483648 <= a + b < 2147483648 -> iadd a b = Ok (a + b).
Proof.
  intros H. unfold iadd. by rewrite (proj2 (Z.leb_le _ _)), (proj2 (Z.ltb_lt _ _)) by lia.
Qed.

Lemma u16_add_l a b : u16 (u16 a + b) = u16 (a + b).
Proof. unfold u16. apply Zplus_mod_idemp_l. Qed.
Lemma u16_sub_l a b : u16 (u16 a - b) = u16 (a - b).
Proof. unfold u16. apply Zminus_mod_idemp_l. Qed.
Lemma u16_sub_r a b : u16 (a - u16 b) = u16 (a - b).
Proof. unfold u16. apply Zminus_mod_idemp_r. Qed.
Lemma u16_u16 a : u16 (u16 a) = u16 a.
Proof. unfold u16. apply Zmod_mod. Qed.

(** Two free-running 16-bit indices that are less than 2^16 apart are equal
    exactly when the counters are. *)
Lemma u16_eq_close a b : a <= b < a + 65536 -> u16 a = u16 b <-> a = b.
Proof. split; width. Qed.

Lemma u16_ne_close a b : a < b < a + 65536 -> u16 a <> u16 b.
Proof. width. Qed.

Lemma u16_diff_close a b : a <= b < a + 65536 -> u16 (u16 b - u16 a) = b - a.
Proof. intros. width. Qed.

(** The rings' sizes are powers of two: masking is the remainder. *)
Definition pow2 (n : Z) : Prop := exists k, 0 <= k /\ n = 2 ^ k.

Lemma pow2_pos n : pow2 n -> 0 < n.
Proof. intros (k & Hk & ->). apply Z.pow_pos_nonneg; lia. Qed.

Lemma land_mask n z : pow2 n -> Z.land z (n - 1) = z mod n.
Proof.
  intros (k & Hk & ->). rewrite <- Z.land_ones by done.
  by rewrite Z.ones_equiv, Z.sub_1_r.
Qed.

(** The power-of-two test of the C code: [n & (n - 1)]. *)
Lemma land_pred_pow2 n : 0 < n -> Z.land n (n - 1) = 0 <-> pow2 n.
Proof.
  intros Hn. split.
  - intros H. exists (Z.log2 n). split; [apply Z.log2_nonneg|].
    pose proof (Z.log2_spec n Hn) as [Hlo Hhi].
    destruct (decide (n = 2 ^ Z.log2 n)) as [|Hne]; [done|exfalso].
    assert (Hl : Z.log2 (n - 1) = Z.log2 n)
      by (apply Z.log2_unique; [apply Z.log2_nonneg|lia]).
    pose proof (Z.pow_pos_nonneg 2 (Z.log2 n) ltac:(lia) (Z.log2_nonneg n)).
    assert (Hb : Z.testbit (n - 1) (Z.log2 n) = true)
      by (rewrite <- Hl; apply Z.bit_log2; lia).
    apply (f_equal (fun z => Z.testbit z (Z.log2 n))) in H.
    by rewrite Z.land_spec, Z.bit_log2, Hb, Z.testbit_0_l in H.
  - intros Hp. rewrite land_mask by done. apply Z_mod_same_full.
Qed.

(** A free-running 16-bit index selects the slot of its counter. *)
Lemma land_mask_u16 n z : pow2 n -> n <= 32768 -> Z.land (u16 z) (n - 1) = z mod n.
Proof.
  intros Hn Hle. rewrite land_mask by done. unfold u16.
  destruct Hn as (k & Hk & ->).
  assert (k <= 16) by (apply (Z.pow_le_mono_r_iff 2); [lia..|]; change (2 ^ 16) with 65536; lia).
  change 65536 with (2 ^ 16). replace 16 with (k + (16 - k)) by lia.
  rewrite Z.pow_add_r by lia.
  rewrite Z.rem_mul_r by (apply Z.pow_nonzero || apply Z.pow_pos_nonneg; lia).
  rewrite Z.mul_comm, Z_mod_plus_full. apply Zmod_mod.
Qed.

(** Distinct counters less than [n] apart use distinct slots. *)
Lemma mod_slot_inj n a b : 0 < n -> a <= b < a + n -> a mod n = b mod n -> a = b.
Proof.
  intros Hn Hab Heq.
  assert (H : (b - a) mod n = 0).
  { rewrite Zminus_mod, Heq, Z.sub_diag. apply Zmod_0_l. }
  rewrite Z.mod_small in H by lia. lia.
Qed.

(** Bytes. *)

Lemma length_le_bytes n v : length (le_bytes n v) = n.
Proof. revert v. induction n as [|n IH]; intros v; cbn; [done|]. by rewrite IH. Qed.

Lemma zlen_le_bytes n v : zlen (le_bytes n v) = Z.of_nat n.
Proof. unfold zlen. by rewrite length_le_bytes. Qed.

Lemma le_bytes_val bs : Forall is_u8 bs -> le_bytes (length bs) (le_val bs) = bs.
Proof.
  induction 1 as [|b bs Hb Hbs IH]; cbn [le_val le_bytes length]; [done|]. f_equal.
  - width.
  - rewrite <- IH at 3. f_equal. width.
Qed.

Lemma le_val_bytes n v : 0 <= v -> le_val (le_bytes n v) = v mod 256 ^ Z.of_nat n.
Proof.
  revert v. induction n as [|n IH]; intros v Hv; [cbn; by rewrite Z.mod_1_r|].
  cbn [le_val le_bytes]. rewrite IH by mlia.
  rewrite Nat2Z.inj_succ, Z.pow_succ_r, Z.rem_mul_r by lia. done.
Qed.

Lemma le_val_bound bs : Forall is_u8 bs -> 0 <= le_val bs < 256 ^ zlen bs.
Proof.
  unfold zlen. induction 1 as [|b bs Hb Hbs IH]; cbn [le_val length]; [done|].
  rewrite Nat2Z.inj_succ, Z.pow_succ_r by lia. unfold is_u8 in Hb. nia.
Qed.

Lemma le_bytes_u8 n v : Forall is_u8 (le_bytes n v).
Proof. revert v. induction n as [|n IH]; intros v; cbn; constructor; [width|done]. Qed.

Section memory.
Implicit Types (m : gmap Z Z) (a b n : Z) (bs : list Z).

Lemma loadn_ok m a bs : has_bytes m a bs -> loadn (length bs) m a = Ok bs.
Proof.
  revert a. induction bs as [|b bs IH]; intros a; cbn; [done|]. intros [Hb Hbs].
  unfold load8. rewrite Hb. cbn. by rewrite IH.
Qed.

(** A message [bs] in memory is read back whole. *)
Lemma loadn_zlen m a bs n : n = zlen bs -> has_bytes m a bs -> loadn (Z.to_nat n) m a = Ok bs.
Proof. intros -> H. unfold zlen. rewrite Nat2Z.id. by apply loadn_ok. Qed.

Lemma rd32_ok m a v : is_u32 v -> has_bytes m a (le_bytes 4 v) -> rd32 m a = Ok v.
Proof.
  intros Hv H. unfold rd32. apply loadn_ok in H. rewrite length_le_bytes in H. rewrite H.
  cbn [mbind res_bind]. rewrite le_val_bytes by (unfold is_u32 in Hv; lia).
  rewrite Z.mod_small; [done|]. unfold is_u32 in Hv. lia.
Qed.

Lemma mapped_insert m a n k v : mapped m a n -> mapped (<[k := v]> m) a n.
Proof. intros H i Hi. rewrite lookup_insert. case_decide; eauto. Qed.

Lemma mapped_sub m a n b k : mapped m a n -> a <= b -> b + k <= a + n -> mapped m b k.
Proof. intros H H1 H2 i Hi. apply H. lia. Qed.

Lemma mapped_put m a n k bs : mapped m a n -> mapped (put_bytes m k bs) a n.
Proof.
  revert m k. induction bs as [|b bs IH]; intros m k H; cbn; [done|].
  by apply IH, mapped_insert.
Qed.

Lemma storen_ok m a bs : mapped m a (zlen bs) -> storen m a bs = Ok (put_bytes m a bs).
Proof.
  revert m a. induction bs as [|b bs IH]; intros m a H; cbn; [done|].
  rewrite zlen_cons in H. pose proof (zlen_nonneg bs). unfold store8.
  destruct (H a ltac:(lia)) as [v Hv]. rewrite Hv. cbn. apply IH.
  apply mapped_insert. intros i Hi. apply H. lia.
Qed.

Lemma lookup_put m a bs i :
  put_bytes m a bs !! i =
    if (a <=? i) && (i <? a + zlen bs) then zget bs (i - a) else m !! i.
Proof.
  revert m a. induction bs as [|b bs IH]; intros m a; cbn.
  { unfold zlen. cbn. zcase; [lia|done]. }
  rewrite IH, zlen_cons. pose proof (zlen_nonneg bs).
  destruct (decide (i = a)) as [->|Hne].
  - rewrite lookup_insert_eq, Z.sub_diag, zget_cons_0.
    repeat zcase; zbool; try lia; done.
  - rewrite lookup_insert_ne by done.
    destruct ((a + 1 <=? i) && (i <? a + 1 + zlen bs)) eqn:E1;
      destruct ((a <=? i) && (i <? a + (1 + zlen bs))) eqn:E2; zbool; try done.
    + rewrite zget_cons_S by lia. f_equal. lia.
    + apply andb_false_iff in E2 as [?|?]; zbool; lia.
    + apply andb_false_iff in E1 as [?|?]; zbool; lia.
Qed.

Lemma has_bytes_lookup m a bs :
  has_bytes m a bs <-> forall i, 0 <= i < zlen bs -> m !! (a + i) = zget bs i.
Proof.
  revert a. induction bs as [|b bs IH]; intros a; cbn [has_bytes].
  { unfold zlen. cbn. split; [lia|done]. }
  rewrite IH, zlen_cons. split.
  - intros [Hb H] i Hi. destruct (decide (i = 0)) as [->|]; [by rewrite Z.add_0_r|].
    rewrite zget_cons_S by lia. rewrite <- H by lia. f_equal. lia.
  - intros H. pose proof (zlen_nonneg bs). split.
    + rewrite <- (Z.add_0_r a). by rewrite H by lia.
    + intros i Hi. specialize (H (i + 1) ltac:(lia)). rewrite zget_cons_S in H by lia.
      replace (a + 1 + i) with (a + (i + 1)) by lia. rewrite H. f_equal. lia.
Qed.

Lemma has_bytes_put m a bs : has_bytes (put_bytes m a bs) a bs.
Proof.
  apply has_bytes_lookup. intros i Hi. rewrite lookup_put.
  rewrite (proj2 (Z.leb_le _ _)), (proj2 (Z.ltb_lt _ _)) by lia. cbn. f_equal. lia.
Qed.

Lemma has_bytes_put_disjoint m a bs k ks :
  k + zlen ks <= a \/ a + zlen bs <= k ->
  has_bytes m a bs -> has_bytes (put_bytes m k ks) a bs.
Proof.
  rewrite !has_bytes_lookup. intros Hd H i Hi. rewrite lookup_put.
  destruct ((k <=? a + i) && (a + i <? k + zlen ks)) eqn:E; zbool; [lia|auto].
Qed.

Lemma has_bytes_app m a bs1 bs2 :
  has_bytes m a (bs1 ++ bs2) <-> has_bytes m a bs1 /\ has_bytes m (a + zlen bs1) bs2.
Proof.
  revert a. induction bs1 as [|b bs1 IH]; intros a; cbn [app has_bytes].
  { unfold zlen. cbn. rewrite Z.add_0_r. tauto. }
  rewrite IH, zlen_cons. replace (a + 1 + zlen bs1) with (a + (1 + zlen bs1)) by lia. tauto.
Qed.

Lemma put_bytes_app m a bs1 bs2 :
  put_bytes m a (bs1 ++ bs2) = put_bytes (put_bytes m a bs1) (a + zlen bs1) bs2.
Proof.
  revert m a. induction bs1 as [|b bs1 IH]; intros m a; cbn [app put_bytes].
  { unfold zlen. cbn. by rewrite Z.add_0_r. }
  rewrite IH, zlen_cons. f_equal. lia.
Qed.

Lemma has_bytes_mapped m a bs : has_bytes m a bs -> mapped m a (zlen bs).
Proof.
  rewrite has_bytes_lookup. intros H i Hi. specialize (H (i - a) ltac:(lia)).
  replace (a + (i - a)) with i in H by lia. rewrite H. apply zget_is_Some. lia.
Qed.
End memory.

(** ** Hint databases *)

Create HintDb amp.
Create Rewrite HintDb amp_len.
Create Rewrite HintDb amp_u16.
#[export] Hint Resolve u8_range u16_range u32_range u64_range pow2_pos zlen_nonneg : amp.
#[export] Hint Rewrite @zlen_zset @zlen_app @zlen_cons @zlen_replicate : amp_len.
#[export] Hint Rewrite u16_add_l u16_sub_l u16_sub_r u16_u16 : amp_u16.
