(* ===== verification/MetalUtil.v ===== *)
(** * libmetal utilities (lib/utilities.h): bitmaps, logarithm, alignment

    The bitmaps hold the endpoint addresses of rpmsg.c and the notification
    identifiers of remoteproc.c.  A bitmap is the C array of [unsigned long]
    words, 64 bits wide. *)

From S2P Require Import Prelude.

(** ** Definitions *)

Definition METAL_BITS_PER_ULONG : Z := 64.

Definition metal_bit (bit : Z) : Z := u64 (Z.shiftl 1 bit).

Definition metal_div_round_up (num den : Z) : Z := (num + den - 1) / den.

Definition metal_bitmap_longs (x : Z) : Z := metal_div_round_up x METAL_BITS_PER_ULONG.

(** [size & ~(align - 1)] on [unsigned long]. *)
Definition metal_align_down (size align : Z) : Z :=
  Z.land (u64 size) (u64 (Z.lnot (align - 1))).

Definition metal_align_up (size align : Z) : Z :=
  metal_align_down (size + align - 1) align.

(** The [int] index is converted to [unsigned long] by the division. *)
Definition metal_bitmap_set_bit (bitmap : list Z) (bit : Z) : res (list Z) :=
  let b := u64 bit in
  w ← rget bitmap (b / METAL_BITS_PER_ULONG);
  rset bitmap (b / METAL_BITS_PER_ULONG)
    (Z.lor w (metal_bit (Z.land b (METAL_BITS_PER_ULONG - 1)))).

Definition metal_bitmap_is_bit_set (bitmap : list Z) (bit : Z) : res Z :=
  let b := u64 bit in
  w ← rget bitmap (b / METAL_BITS_PER_ULONG);
  Ok (if Z.land w (metal_bit (Z.land b (METAL_BITS_PER_ULONG - 1))) =? 0 then 0 else 1).

Definition metal_bitmap_clear_bit (bitmap : list Z) (bit : Z) : res (list Z) :=
  let b := u64 bit in
  w ← rget bitmap (b / METAL_BITS_PER_ULONG);
  rset bitmap (b / METAL_BITS_PER_ULONG)
    (Z.land w (u64 (Z.lnot (metal_bit (Z.land b (METAL_BITS_PER_ULONG - 1)))))).

Definition metal_bitmap_is_bit_clear (bitmap : list Z) (bit : Z) : res Z :=
  v ← metal_bitmap_is_bit_set bitmap bit;
  Ok (if v =? 0 then 1 else 0).

(** The loop of [metal_bitmap_next_set_bit]; [fuel] bounds the iterations. *)
Fixpoint next_set_loop (fuel : nat) (bitmap : list Z) (bit max : Z) : res Z :=
  match fuel with
  | O => Fault No_fuel
  | S fuel' =>
      if bit <? max then
        v ← metal_bitmap_is_bit_set bitmap (i32 bit);
        if v =? 0 then next_set_loop fuel' bitmap (u32 (bit + 1)) max else Ok bit
      else Ok bit
  end.

Definition metal_bitmap_next_set_bit (bitmap : list Z) (start max : Z) : res Z :=
  next_set_loop (S (Z.to_nat (max - start))) bitmap start max.

(** The loop of [metal_bitmap_next_clear_bit]: it runs over [max] consecutive
    positions modulo [max]. *)
Fixpoint next_clear_loop (fuel : nat) (bitmap : list Z) (bit limit max : Z) : res Z :=
  match fuel with
  | O => Fault No_fuel
  | S fuel' =>
      if bit <? limit then
        if max =? 0 then Fault Div_by_zero else
        v ← metal_bitmap_is_bit_clear bitmap (i32 (bit mod max));
        if v =? 0 then next_clear_loop fuel' bitmap (u32 (bit + 1)) limit max else Ok bit
      else Ok bit
  end.

Definition metal_bitmap_next_clear_bit (bitmap : list Z) (start max : Z) : res Z :=
  bit ← next_clear_loop (S (Z.to_nat max)) bitmap start (u32 (max + start)) max;
  if max =? 0 then Fault Div_by_zero else Ok (bit mod max).

(** [for (result = 0; (1UL << result) < in; result++)] *)
Fixpoint log2_loop (fuel : nat) (result inp : Z) : res Z :=
  match fuel with
  | O => Fault No_fuel
  | S fuel' =>
      if u64 (Z.shiftl 1 result) <? inp then log2_loop fuel' (result + 1) inp else Ok result
  end.

Definition metal_log2 (inp : Z) : res Z :=
  _ ← rassert (Z.land inp (u64 (inp - 1)) =? 0);
  log2_loop 65 0 inp.

(** ** Specification of a bitmap: the set of its bits *)

(** Bit [i] of the bitmap. *)
Definition bm_test (bitmap : list Z) (i : Z) : bool :=
  match zget bitmap (i / 64) with
  | Some w => Z.testbit w (i mod 64)
  | None => false
  end.

(** Every word is an [unsigned long]. *)
Definition bm_wf (bitmap : list Z) : Prop := Forall is_u64 bitmap.

(** The number of bits, small enough for the C [int] index. *)
Definition bm_bits (bitmap : list Z) : Z := 64 * zlen bitmap.

(** All bits below [max] are set. *)
Definition bm_full (bitmap : list Z) (max : Z) : Prop :=
  forall i, 0 <= i < max -> bm_test bitmap i = true.

(** ** Lemmas *)

Lemma metal_bit_pow k : 0 <= k < 64 -> metal_bit k = 2 ^ k.
Proof.
  intros Hk. unfold metal_bit. rewrite Z.shiftl_mul_pow2, Z.mul_1_l by lia.
  apply u64_id. split; [apply Z.pow_nonneg; lia|].
  change 18446744073709551616 with (2 ^ 64). apply Z.pow_lt_mono_r; lia.
Qed.

Lemma land_pow2_eqb w k : 0 <= k -> (Z.land w (2 ^ k) =? 0) = negb (Z.testbit w k).
Proof.
  intros Hk. destruct (Z.testbit w k) eqn:E; cbn.
  - apply Z.eqb_neq. intros H. apply (f_equal (fun z => Z.testbit z k)) in H.
    rewrite Z.land_spec, E, Z.pow2_bits_true, Z.testbit_0_l in H by done. done.
  - apply Z.eqb_eq, Z.bits_inj'. intros j Hj. rewrite Z.land_spec, Z.testbit_0_l.
    destruct (decide (j = k)) as [->|Hne]; [by rewrite E|].
    rewrite Z.pow2_bits_false by lia. apply andb_false_r.
Qed.

Lemma testbit_lor_pow2 w k j :
  0 <= k -> Z.testbit (Z.lor w (2 ^ k)) j = if j =? k then true else Z.testbit w j.
Proof.
  intros Hk. rewrite Z.lor_spec. zcase; subst.
  - rewrite Z.pow2_bits_true by done. apply orb_true_r.
  - rewrite Z.pow2_bits_false by lia. apply orb_false_r.
Qed.

Lemma testbit_u64 z j : 0 <= j < 64 -> Z.testbit (u64 z) j = Z.testbit z j.
Proof.
  intros. unfold u64. change 18446744073709551616 with (2 ^ 64).
  apply Z.mod_pow2_bits_low. lia.
Qed.

Lemma testbit_andnot w k j :
  0 <= k < 64 -> 0 <= j < 64 ->
  Z.testbit (Z.land w (u64 (Z.lnot (2 ^ k)))) j = if j =? k then false else Z.testbit w j.
Proof.
  intros Hk Hj. rewrite Z.land_spec, testbit_u64, Z.lnot_spec by lia. zcase; subst.
  - rewrite Z.pow2_bits_true by lia. apply andb_false_r.
  - rewrite Z.pow2_bits_false by lia. apply andb_true_r.
Qed.

Lemma is_u64_bits z : is_u64 z <-> 0 <= z /\ forall j, 64 <= j -> Z.testbit z j = false.
Proof.
  unfold is_u64. change 18446744073709551616 with (2 ^ 64). split.
  - intros [H0 H1]. split; [done|]. intros j Hj.
    destruct (decide (z = 0)) as [->|Hz]; [apply Z.testbit_0_l|].
    apply Z.bits_above_log2; [lia|].
    assert (Z.log2 z < 64) by (apply Z.log2_lt_pow2; lia). lia.
  - intros [H0 H]. split; [done|].
    destruct (decide (z = 0)) as [->|Hz]; [done|].
    apply Z.log2_lt_pow2; [lia|].
    destruct (decide (Z.log2 z < 64)); [done|].
    assert (Hb : Z.testbit z (Z.log2 z) = true) by (apply Z.bit_log2; lia).
    rewrite H in Hb by lia. done.
Qed.

Lemma is_u64_lor_pow2 w k : is_u64 w -> 0 <= k < 64 -> is_u64 (Z.lor w (2 ^ k)).
Proof.
  rewrite !is_u64_bits. intros [H0 H] Hk. split.
  - apply Z.lor_nonneg. split; [done|]. apply Z.pow_nonneg. lia.
  - intros j Hj. rewrite testbit_lor_pow2 by lia. zcase; [lia|]. by apply H.
Qed.

Lemma is_u64_land w v : is_u64 w -> is_u64 (Z.land w v).
Proof.
  rewrite !is_u64_bits. intros [H0 H]. split.
  - apply Z.land_nonneg. by left.
  - intros j Hj. by rewrite Z.land_spec, H.
Qed.

Section bitmap.
Implicit Types (bm : list Z) (i j : Z).

Lemma bm_index bm i :
  0 <= i < bm_bits bm -> bm_bits bm <= 2147483648 ->
  u64 i = i /\ 0 <= i / 64 < zlen bm /\ 0 <= i mod 64 < 64 /\ Z.land i 63 = i mod 64.
Proof.
  unfold bm_bits. intros Hi Hb. split_and!; try mlia.
  - apply u64_id. unfold is_u64. lia.
  - change 63 with (64 - 1). apply land_mask. exists 6. lia.
Qed.

Lemma is_bit_set_spec bm i :
  0 <= i < bm_bits bm -> bm_bits bm <= 2147483648 ->
  metal_bitmap_is_bit_set bm i = Ok (if bm_test bm i then 1 else 0).
Proof.
  intros Hi Hb. destruct (bm_index bm i Hi Hb) as (Hu & Hd & Hm & Hl).
  unfold metal_bitmap_is_bit_set, bm_test, METAL_BITS_PER_ULONG. rewrite Hu.
  change (64 - 1) with 63. rewrite Hl.
  destruct (zget_is_Some bm _ Hd) as [w Hw]. rewrite (rget_Some _ _ _ Hw), Hw. cbn.
  rewrite metal_bit_pow, land_pow2_eqb by lia. by destruct (Z.testbit _ _).
Qed.

Lemma is_bit_clear_spec bm i :
  0 <= i < bm_bits bm -> bm_bits bm <= 2147483648 ->
  metal_bitmap_is_bit_clear bm i = Ok (if bm_test bm i then 0 else 1).
Proof.
  intros Hi Hb. unfold metal_bitmap_is_bit_clear. rewrite is_bit_set_spec by done. cbn.
  by destruct (bm_test bm i).
Qed.

(** What a single-word update does to the bits. *)
Lemma bm_test_zset bm i j w :
  0 <= i < bm_bits bm -> 0 <= j ->
  bm_test (zset bm (i / 64) w) j =
    if j / 64 =? i / 64 then Z.testbit w (j mod 64) else bm_test bm j.
Proof.
  unfold bm_bits. intros Hi Hj. unfold bm_test. zcase.
  - rewrite Heqb, zget_zset_eq by mlia. done.
  - by rewrite zget_zset_ne by lia.
Qed.

Lemma div_mod_64_eq i j : (j / 64 =? i / 64) = true -> (j mod 64 =? i mod 64) = (j =? i).
Proof. intros. zbool. destruct (Z.eqb_spec j i); apply Z.eqb_eq || apply Z.eqb_neq; mlia. Qed.

Lemma div_64_ne i j : (j / 64 =? i / 64) = false -> (j =? i) = false.
Proof. intros. zbool. apply Z.eqb_neq. congruence. Qed.

Lemma set_bit_spec bm i :
  bm_wf bm -> 0 <= i < bm_bits bm -> bm_bits bm <= 2147483648 ->
  exists bm', metal_bitmap_set_bit bm i = Ok bm' /\ bm_wf bm' /\ zlen bm' = zlen bm /\
    forall j, 0 <= j -> bm_test bm' j = if j =? i then true else bm_test bm j.
Proof.
  intros Hwf Hi Hb. destruct (bm_index bm i Hi Hb) as (Hu & Hd & Hm & Hl).
  unfold metal_bitmap_set_bit, METAL_BITS_PER_ULONG. rewrite Hu.
  change (64 - 1) with 63. rewrite Hl.
  destruct (zget_is_Some bm _ Hd) as [w Hw]. rewrite (rget_Some _ _ _ Hw). cbn.
  rewrite rset_ok, metal_bit_pow by lia. eexists. split_and!; [done|..].
  - apply Forall_zset; [done|]. apply is_u64_lor_pow2; [|lia]. by eapply Forall_zget.
  - apply zlen_zset.
  - intros j Hj. rewrite bm_test_zset by done. destruct (j / 64 =? i / 64) eqn:E.
    + rewrite testbit_lor_pow2, (div_mod_64_eq i j E) by lia.
      destruct (j =? i); [done|]. unfold bm_test. zbool. by rewrite E, Hw.
    + by rewrite (div_64_ne i j E).
Qed.

Lemma clear_bit_spec bm i :
  bm_wf bm -> 0 <= i < bm_bits bm -> bm_bits bm <= 2147483648 ->
  exists bm', metal_bitmap_clear_bit bm i = Ok bm' /\ bm_wf bm' /\ zlen bm' = zlen bm /\
    forall j, 0 <= j -> bm_test bm' j = if j =? i then false else bm_test bm j.
Proof.
  intros Hwf Hi Hb. destruct (bm_index bm i Hi Hb) as (Hu & Hd & Hm & Hl).
  unfold metal_bitmap_clear_bit, METAL_BITS_PER_ULONG. rewrite Hu.
  change (64 - 1) with 63. rewrite Hl.
  destruct (zget_is_Some bm _ Hd) as [w Hw]. rewrite (rget_Some _ _ _ Hw). cbn.
  rewrite rset_ok, metal_bit_pow by lia. eexists. split_and!; [done|..].
  - apply Forall_zset; [done|]. apply is_u64_land. by eapply Forall_zget.
  - apply zlen_zset.
  - intros j Hj. rewrite bm_test_zset by done. destruct (j / 64 =? i / 64) eqn:E.
    + rewrite testbit_andnot, (div_mod_64_eq i j E) by mlia.
      destruct (j =? i); [done|]. unfold bm_test. zbool. by rewrite E, Hw.
    + by rewrite (div_64_ne i j E).
Qed.
End bitmap.

(** ** Loops over the bitmap *)

Section loops.
Context (bm : list Z) (max : Z).
Hypothesis Hmax : 0 < max <= bm_bits bm.
Hypothesis Hbits : bm_bits bm <= 2147483648.

Lemma next_clear_loop_spec fuel bit limit :
  0 <= bit <= limit -> limit < 4294967296 -> (Z.to_nat (limit - bit) < fuel)%nat ->
  exists r, next_clear_loop fuel bm bit limit max = Ok r /\ bit <= r <= limit /\
    (forall k, bit <= k < r -> bm_test bm (k mod max) = true) /\
    (r < limit -> bm_test bm (r mod max) = false).
Proof.
  revert bit. induction fuel as [|fuel IH]; intros bit Hb Hl Hf; [lia|].
  cbn [next_clear_loop]. destruct (bit <? limit) eqn:E; zbool; cycle 1.
  { exists bit. split_and!; [done|lia..]. }
  pose proof (Z.mod_pos_bound bit max ltac:(lia)) as Hm.
  rewrite (proj2 (Z.eqb_neq max 0)), i32_id, is_bit_clear_spec by lia. cbn.
  destruct (bm_test bm (bit mod max)) eqn:T; cbn.
  - rewrite u32_id by (unfold is_u32; lia).
    destruct (IH (bit + 1)) as (r & -> & Hr & Hset & Hclr); [lia..|].
    exists r. split_and!; [done|lia..| |done].
    intros k Hk. destruct (decide (k = bit)) as [->|]; [done|]. apply Hset. lia.
  - exists bit. split_and!; [done|lia..|done].
Qed.

Lemma next_set_loop_spec fuel bit :
  0 <= bit -> (Z.to_nat (max - bit) < fuel)%nat ->
  exists r, next_set_loop fuel bm bit max = Ok r /\ bit <= r /\
    (forall k, bit <= k < r -> bm_test bm k = false) /\
    (r < max -> bm_test bm r = true) /\ (bit <= max -> r <= max).
Proof.
  revert bit. induction fuel as [|fuel IH]; intros bit Hb Hf; [lia|].
  cbn [next_set_loop]. destruct (bit <? max) eqn:E; zbool; cycle 1.
  { exists bit. split_and!; [done|lia..]. }
  rewrite i32_id, is_bit_set_spec by lia. cbn.
  destruct (bm_test bm bit) eqn:T; cbn.
  - exists bit. split_and!; [done|lia..|done|lia].
  - rewrite u32_id by (unfold is_u32; lia).
    destruct (IH (bit + 1)) as (r & -> & Hr & Hclr & Hset & Hle); [lia..|].
    exists r. split_and!; [done|lia..| |done|lia].
    intros k Hk. destruct (decide (k = bit)) as [->|]; [done|]. apply Hclr. lia.
Qed.
End loops.

(** Every position modulo [max] is met by the [max] steps from [start]. *)
Lemma mod_window start max i :
  0 < max -> 0 <= i < max ->
  exists k, start <= k < start + max /\ k mod max = i.
Proof.
  intros Hm Hi. exists (start + (i - start) mod max).
  pose proof (Z.mod_pos_bound (i - start) max Hm). split; [lia|].
  rewrite Zplus_mod_idemp_r. replace (start + (i - start)) with i by lia.
  by apply Z.mod_small.
Qed.

Section next_clear.
Context (bm : list Z) (start max : Z).
Hypothesis Hmax : 0 < max <= bm_bits bm.
Hypothesis Hbits : bm_bits bm <= 2147483648.
Hypothesis Hstart : 0 <= start < 2147483648.

Lemma next_clear_bit_run :
  exists r, metal_bitmap_next_clear_bit bm start max = Ok (r mod max) /\
    start <= r <= start + max /\
    (forall k, start <= k < r -> bm_test bm (k mod max) = true) /\
    (r < start + max -> bm_test bm (r mod max) = false).
Proof.
  unfold metal_bitmap_next_clear_bit.
  rewrite u32_id, (Z.add_comm max) by (unfold is_u32; lia).
  destruct (next_clear_loop_spec bm max Hmax Hbits (S (Z.to_nat max)) start (start + max))
    as (r & -> & Hr & Hset & Hclr); [lia..|].
  cbn. rewrite (proj2 (Z.eqb_neq max 0)) by lia. by exists r.
Qed.

(** A clear bit below [max] is found, the first one met in cyclic order from
    [start]. *)
Lemma next_clear_bit_found i :
  0 <= i < max -> bm_test bm i = false ->
  exists r, metal_bitmap_next_clear_bit bm start max = Ok (r mod max) /\
    start <= r < start + max /\ bm_test bm (r mod max) = false /\
    (forall k, start <= k < r -> bm_test bm (k mod max) = true).
Proof.
  intros Hi Hclr. destruct next_clear_bit_run as (r & Hrun & Hr & Hset & Hend).
  destruct (decide (r < start + max)) as [Hlt|Hge].
  - exists r. split_and!; auto; lia.
  - destruct (mod_window start max i) as (k & Hk & Hki); [lia..|].
    rewrite <- Hki, Hset in Hclr by lia. done.
Qed.

(** With every bit set the function still returns an index below [max]: the
    position of [start], whose bit is set. *)
Lemma next_clear_bit_full :
  bm_full bm max ->
  metal_bitmap_next_clear_bit bm start max = Ok (start mod max).
Proof.
  intros Hfull. destruct next_clear_bit_run as (r & Hrun & Hr & Hset & Hend).
  pose proof (Z.mod_pos_bound r max ltac:(lia)).
  destruct (decide (r < start + max)) as [Hlt|Hge].
  - specialize (Hend Hlt). rewrite Hfull in Hend by lia. done.
  - rewrite Hrun. replace r with (start + 1 * max) by lia. by rewrite Z_mod_plus_full.
Qed.
End next_clear.

(** ** metal_log2 and alignment *)

Lemma log2_loop_spec fuel r k :
  0 <= r <= k -> k < 64 -> (Z.to_nat (k - r) < fuel)%nat -> log2_loop fuel r (2 ^ k) = Ok k.
Proof.
  revert r. induction fuel as [|fuel IH]; intros r Hr Hk Hf; [lia|].
  cbn [log2_loop]. fold (metal_bit r). rewrite metal_bit_pow by lia. zcase.
  - assert (r < k) by (apply (Z.pow_lt_mono_r_iff 2); lia). apply IH; lia.
  - f_equal. destruct (decide (r < k)) as [Hlt|]; [|lia].
    pose proof (Z.pow_lt_mono_r 2 r k). lia.
Qed.

Lemma align_down_spec size align :
  pow2 align -> align <= 9223372036854775808 -> is_u64 size ->
  metal_align_down size align = size - size mod align.
Proof.
  intros Hp Hle Hs. unfold metal_align_down. rewrite (u64_id size) by done.
  destruct Hp as (k & Hk & ->).
  assert (Hk64 : k <= 63) by (apply (Z.pow_le_mono_r_iff 2); [lia..|done]).
  transitivity (Z.ldiff size (Z.ones k)).
  - apply Z.bits_inj'. intros j Hj. rewrite Z.land_spec, Z.ldiff_spec.
    rewrite Z.ones_equiv, <- Z.sub_1_r.
    destruct (decide (j < 64)).
    + by rewrite testbit_u64, Z.lnot_spec by lia.
    + by rewrite (proj2 (proj1 (is_u64_bits size) Hs)) by lia.
  - rewrite Z.ldiff_ones_r, Z.shiftr_div_pow2, Z.shiftl_mul_pow2 by done.
    pose proof (Z_div_mod_eq_full size (2 ^ k)). lia.
Qed.

(** ** Properties *)

(** setting or clearing a bit of a well-formed bitmap succeeds, changes that
    bit and no other, and keeps the words in range; the test reads the bit
    back. *)
Theorem bitmap_set_clear_test (bm : list Z) (i : Z) (Hwf : bm_wf bm)
    (Hi : 0 <= i < bm_bits bm) (Hb : bm_bits bm <= 2147483648) :
  (exists bm1, metal_bitmap_set_bit bm i = Ok bm1 /\ bm_wf bm1 /\ zlen bm1 = zlen bm /\
     metal_bitmap_is_bit_set bm1 i = Ok 1 /\
     forall j, 0 <= j -> j <> i -> bm_test bm1 j = bm_test bm j) /\
  (exists bm2, metal_bitmap_clear_bit bm i = Ok bm2 /\ bm_wf bm2 /\ zlen bm2 = zlen bm /\
     metal_bitmap_is_bit_set bm2 i = Ok 0 /\
     forall j, 0 <= j -> j <> i -> bm_test bm2 j = bm_test bm j).
Proof.
  split; [destruct (set_bit_spec bm i) as (bm' & Hr & Hw & Hl & Ht)
         |destruct (clear_bit_spec bm i) as (bm' & Hr & Hw & Hl & Ht)]; try done;
    exists bm'; (split_and!; [done..| |]);
    try (rewrite is_bit_set_spec, Ht, Z.eqb_refl by (unfold bm_bits in *; lia); done);
    intros j Hj Hne; rewrite Ht by done; by rewrite (proj2 (Z.eqb_neq j i)).
Qed.

Lemma bitmap_set_clear_test_witness :
  exists bm1, metal_bitmap_set_bit [5; 0] 70 = Ok bm1 /\ bm_test bm1 1 = bm_test [5; 0] 1.
Proof.
  assert (Hwf : bm_wf [5; 0]) by (repeat constructor; done).
  destruct (bitmap_set_clear_test [5; 0] 70 Hwf) as [(b & Hs & _ & _ & _ & Hj) _];
    [split; vm_compute; done | vm_compute; done |].
  exists b. split; [exact Hs | apply Hj; lia].
Defined.

(** [metal_bitmap_next_clear_bit] scans [max] positions from [start] modulo
    [max]: if some bit below [max] is clear it returns the first clear one in
    that order, and otherwise it returns [start mod max], an index below [max]
    whose bit is set. *)
Theorem next_clear_bit_spec (bm : list Z) (start max : Z)
    (Hmax : 0 < max <= bm_bits bm) (Hbits : bm_bits bm <= 2147483648)
    (Hstart : 0 <= start < 2147483648) :
  (forall i, 0 <= i < max -> bm_test bm i = false ->
     exists r, metal_bitmap_next_clear_bit bm start max = Ok (r mod max) /\
       start <= r < start + max /\ bm_test bm (r mod max) = false /\
       (forall k, start <= k < r -> bm_test bm (k mod max) = true)) /\
  (bm_full bm max ->
     metal_bitmap_next_clear_bit bm start max = Ok (start mod max) /\
     bm_test bm (start mod max) = true).
Proof.
  split.
  - by apply next_clear_bit_found.
  - intros Hfull. split; [by apply next_clear_bit_full|].
    apply Hfull, Z.mod_pos_bound. lia.
Qed.

Lemma next_clear_bit_spec_witness :
  metal_bitmap_next_clear_bit [7] 1 3 = Ok 1 /\ bm_test [7] 1 = true.
Proof.
  destruct (next_clear_bit_spec [7] 1 3) as [_ H];
    [split; vm_compute; done | vm_compute; done | lia |].
  apply H. intros i Hi. assert (i = 0 \/ i = 1 \/ i = 2) as [-> | [-> | ->]] by lia;
    reflexivity.
Defined.

(** [metal_log2] returns the exponent of a power of two, and its assertion
    stops it on every other positive value. *)
Theorem metal_log2_spec :
  (forall k, 0 <= k < 64 -> metal_log2 (2 ^ k) = Ok k) /\
  (forall n, 0 < n < 18446744073709551616 -> ~ pow2 n -> metal_log2 n = Fault Assert_failed).
Proof.
  split.
  - intros k Hk. unfold metal_log2.
    assert (0 < 2 ^ k < 2 ^ 64)
      by (split; [apply Z.pow_pos_nonneg | apply Z.pow_lt_mono_r]; lia).
    rewrite u64_id by (unfold is_u64; lia).
    rewrite (proj2 (land_pred_pow2 (2 ^ k) ltac:(lia))) by (exists k; lia).
    apply log2_loop_spec; lia.
  - intros n Hn Hp. unfold metal_log2. rewrite u64_id by (unfold is_u64; lia).
    rewrite (proj2 (Z.eqb_neq _ 0)); [done|]. by rewrite land_pred_pow2 by lia.
Qed.
