(* ===== verification/MetalList.v ===== *)
(** * libmetal lists (lib/list.h)

    The doubly linked circular lists that hold the endpoints of a device, the
    buffers to reclaim, the memories and virtio devices of a remoteproc and the
    application nodes.  The nodes live in a heap of cells; the C writes are
    performed one by one, in the order of the source. *)

From S2P Require Import Prelude.

(** ** Definitions *)

Record metal_list := mk_list { ml_next : Z; ml_prev : Z }.

Definition hget (h : gmap Z metal_list) (p : Z) : res metal_list :=
  match h !! p with
  | Some n => Ok n
  | None => Fault Out_of_bounds
  end.

(** [p->next = v] and [p->prev = v] *)
Definition set_next (h : gmap Z metal_list) (p v : Z) : res (gmap Z metal_list) :=
  n ← hget h p; Ok (<[p := mk_list v (ml_prev n)]> h).

Definition set_prev (h : gmap Z metal_list) (p v : Z) : res (gmap Z metal_list) :=
  n ← hget h p; Ok (<[p := mk_list (ml_next n) v]> h).

Definition metal_list_init (h : gmap Z metal_list) (l : Z) : res (gmap Z metal_list) :=
  h ← set_prev h l l;
  set_next h l l.

Definition metal_list_add_before (h : gmap Z metal_list) (node new_node : Z)
  : res (gmap Z metal_list) :=
  n ← hget h node;
  h ← set_prev h new_node (ml_prev n);
  h ← set_next h new_node node;
  nn ← hget h new_node;
  h ← set_prev h (ml_next nn) new_node;
  nn ← hget h new_node;
  set_next h (ml_prev nn) new_node.

Definition metal_list_add_after (h : gmap Z metal_list) (node new_node : Z)
  : res (gmap Z metal_list) :=
  h ← set_prev h new_node node;
  n ← hget h node;
  h ← set_next h new_node (ml_next n);
  nn ← hget h new_node;
  h ← set_prev h (ml_next nn) new_node;
  nn ← hget h new_node;
  set_next h (ml_prev nn) new_node.

Definition metal_list_add_head h l node := metal_list_add_after h l node.

Definition metal_list_add_tail h l node := metal_list_add_before h l node.

Definition metal_list_is_empty (h : gmap Z metal_list) (l : Z) : res bool :=
  n ← hget h l; Ok (ml_next n =? l).

Definition metal_list_del (h : gmap Z metal_list) (node : Z) : res (gmap Z metal_list) :=
  n ← hget h node;
  h ← set_prev h (ml_next n) (ml_prev n);
  n ← hget h node;
  h ← set_next h (ml_prev n) (ml_next n);
  h ← set_prev h node node;
  set_next h node node.

(** [NULL] is [None]. *)
Definition metal_list_first (h : gmap Z metal_list) (l : Z) : res (option Z) :=
  e ← metal_list_is_empty h l;
  if (e : bool) then Ok None else n ← hget h l; Ok (Some (ml_next n)).

(** [metal_list_for_each]: the nodes the loop variable takes, in order. *)
Fixpoint for_each_loop (fuel : nat) (h : gmap Z metal_list) (l node : Z) : res (list Z) :=
  match fuel with
  | O => Fault No_fuel
  | S fuel' =>
      if node =? l then Ok []
      else n ← hget h node; rest ← for_each_loop fuel' h l (ml_next n); Ok (node :: rest)
  end.

Definition metal_list_for_each (fuel : nat) (h : gmap Z metal_list) (l : Z) : res (list Z) :=
  n ← hget h l; for_each_loop fuel h l (ml_next n).

Definition metal_list_find_node (fuel : nat) (h : gmap Z metal_list) (l node : Z) : res bool :=
  ns ← metal_list_for_each fuel h l;
  Ok (existsb (Z.eqb node) ns).

(** ** Specification: the list a head node stands for *)

Definition nx (h : gmap Z metal_list) (p : Z) : option Z := ml_next <$> h !! p.
Definition pv (h : gmap Z metal_list) (p : Z) : option Z := ml_prev <$> h !! p.

(** Adjacent nodes of the path [a :: l] point to each other. *)
Fixpoint links (h : gmap Z metal_list) (a : Z) (l : list Z) : Prop :=
  match l with
  | [] => True
  | b :: l' => nx h a = Some b /\ pv h b = Some a /\ links h b l'
  end.

(** The nodes of the path but the last one. *)
Fixpoint srcs (a : Z) (l : list Z) : list Z :=
  match l with
  | [] => []
  | b :: l' => a :: srcs b l'
  end.

(** [head] is the head node of a circular list with the nodes [l]. *)
Definition is_dlist (h : gmap Z metal_list) (head : Z) (l : list Z) : Prop :=
  NoDup (head :: l) /\ links h head (l ++ [head]).

(** ** Lemmas: single writes *)

(** The heaps after [p->next = v] and [p->prev = v]. *)
Definition anext (h : gmap Z metal_list) (p v : Z) : gmap Z metal_list :=
  alter (fun n => mk_list v (ml_prev n)) p h.
Definition aprev (h : gmap Z metal_list) (p v : Z) : gmap Z metal_list :=
  alter (fun n => mk_list (ml_next n) v) p h.

Section writes.
Implicit Types (h : gmap Z metal_list) (p q v : Z).

Lemma is_Some_anext h p v q : is_Some (anext h p v !! q) <-> is_Some (h !! q).
Proof. unfold anext. rewrite lookup_alter. case_decide; subst; by rewrite ?fmap_is_Some. Qed.
Lemma is_Some_aprev h p v q : is_Some (aprev h p v !! q) <-> is_Some (h !! q).
Proof. unfold aprev. rewrite lookup_alter. case_decide; subst; by rewrite ?fmap_is_Some. Qed.

Lemma nx_aprev h p v q : nx (aprev h p v) q = nx h q.
Proof.
  unfold nx, aprev. rewrite lookup_alter. case_decide; subst; [|done]. by destruct (h !! q).
Qed.
Lemma pv_anext h p v q : pv (anext h p v) q = pv h q.
Proof.
  unfold pv, anext. rewrite lookup_alter. case_decide; subst; [|done]. by destruct (h !! q).
Qed.
Lemma nx_anext h p v q : is_Some (h !! p) -> nx (anext h p v) q = if q =? p then Some v else nx h q.
Proof.
  intros [n Hn]. unfold nx, anext. destruct (Z.eqb_spec q p) as [->|].
  - by rewrite lookup_alter_eq, Hn.
  - by rewrite lookup_alter_ne by done.
Qed.
Lemma pv_aprev h p v q : is_Some (h !! p) -> pv (aprev h p v) q = if q =? p then Some v else pv h q.
Proof.
  intros [n Hn]. unfold pv, aprev. destruct (Z.eqb_spec q p) as [->|].
  - by rewrite lookup_alter_eq, Hn.
  - by rewrite lookup_alter_ne by done.
Qed.

Lemma lookup_anext_ne h p v q : q <> p -> anext h p v !! q = h !! q.
Proof. intros. by apply lookup_alter_ne. Qed.
Lemma lookup_aprev_ne h p v q : q <> p -> aprev h p v !! q = h !! q.
Proof. intros. by apply lookup_alter_ne. Qed.

Lemma set_next_ok h p v : is_Some (h !! p) -> set_next h p v = Ok (anext h p v).
Proof.
  intros [n Hn]. unfold set_next, hget, anext. rewrite Hn. cbn.
  f_equal. apply map_eq. intros q. rewrite lookup_insert, lookup_alter.
  case_decide; subst; by rewrite ?Hn.
Qed.
Lemma set_prev_ok h p v : is_Some (h !! p) -> set_prev h p v = Ok (aprev h p v).
Proof.
  intros [n Hn]. unfold set_prev, hget, aprev. rewrite Hn. cbn.
  f_equal. apply map_eq. intros q. rewrite lookup_insert, lookup_alter.
  case_decide; subst; by rewrite ?Hn.
Qed.

Lemma nx_Some_is h p v : nx h p = Some v -> is_Some (h !! p).
Proof. unfold nx. destruct (h !! p); [eauto|done]. Qed.
Lemma pv_Some_is h p v : pv h p = Some v -> is_Some (h !! p).
Proof. unfold pv. destruct (h !! p); [eauto|done]. Qed.
Lemma is_Some_nx h p : is_Some (h !! p) -> exists v, nx h p = Some v.
Proof. intros [n Hn]. unfold nx. rewrite Hn. by eexists. Qed.
Lemma is_Some_pv h p : is_Some (h !! p) -> exists v, pv h p = Some v.
Proof. intros [n Hn]. unfold pv. rewrite Hn. by eexists. Qed.

Lemma hget_ok h p a b : nx h p = Some a -> pv h p = Some b -> hget h p = Ok (mk_list a b).
Proof.
  unfold nx, pv, hget. destruct (h !! p) as [[a' b']|]; [|done]. cbn. congruence.
Qed.
End writes.

(** Read through a sequence of writes, deciding the tests of addresses. *)
Ltac dl_side := repeat first [rewrite is_Some_anext | rewrite is_Some_aprev]; first [assumption | done].
Ltac dl :=
  repeat first
    [ rewrite nx_aprev | rewrite pv_anext
    | rewrite nx_anext by dl_side | rewrite pv_aprev by dl_side
    | rewrite Z.eqb_refl
    | match goal with
      | |- context [ ?a =? ?b ] => rewrite (proj2 (Z.eqb_neq a b)) by congruence
      end ];
  first [assumption | done | idtac].

(** ** Lemmas: paths *)

Section paths.
Implicit Types (h : gmap Z metal_list) (a b p q : Z) (l : list Z).

Lemma links_app h a l1 b l2 :
  links h a (l1 ++ b :: l2) <-> links h a (l1 ++ [b]) /\ links h b l2.
Proof.
  revert a. induction l1 as [|c l1 IH]; intros a; cbn; [tauto|]. rewrite IH. tauto.
Qed.

Lemma links_frame h h' a l :
  (forall q, q ∈ srcs a l -> nx h' q = nx h q) ->
  (forall q, q ∈ l -> pv h' q = pv h q) ->
  links h a l -> links h' a l.
Proof.
  revert a. induction l as [|b l IH]; intros a Hn Hp; [done|]. cbn. intros (H1 & H2 & H3).
  split_and!.
  - rewrite Hn; [done|]. cbn. left.
  - rewrite Hp; [done|]. left.
  - apply IH; [intros q Hq; apply Hn; cbn; by right | intros q Hq; apply Hp; by right | done].
Qed.

Lemma srcs_app a l b : srcs a (l ++ [b]) = a :: l.
Proof. revert a. induction l as [|c l IH]; intros a; cbn; [done|]. by rewrite IH. Qed.

Lemma srcs_incl a l q : q ∈ srcs a l -> q ∈ a :: l.
Proof.
  revert a. induction l as [|b l IH]; intros a; cbn; [by intros ?%elem_of_nil|].
  intros [->|Hq]%elem_of_cons; [left|]. right. by apply IH.
Qed.

(** The last node of [head :: l]. *)
Lemma snoc_view a l : exists l' p, a :: l = l' ++ [p].
Proof.
  revert a. induction l as [|b l IH]; intros a; [by exists [], a|].
  destruct (IH b) as (l' & p & ->). by exists (a :: l'), p.
Qed.

Lemma links_end h a l b :
  links h a (l ++ [b]) -> exists l' p, a :: l = l' ++ [p] /\ nx h p = Some b /\ pv h b = Some p.
Proof.
  revert a. induction l as [|c l IH]; intros a; cbn.
  - intros (H1 & H2 & _). by exists [], a.
  - intros (_ & _ & H). destruct (IH c H) as (l' & p & -> & H1 & H2). by exists (a :: l'), p.
Qed.

(** The path to the last node does not read its [next]. *)
Lemma srcs_last_notin a l l' p : NoDup (a :: l) -> a :: l = l' ++ [p] -> p ∉ srcs a l.
Proof.
  revert a l'. induction l as [|b l IH]; intros a l' Hnd Heq; cbn; [apply not_elem_of_nil|].
  destruct l' as [|a' l']; cbn in Heq; [discriminate|].
  injection Heq as <- Heq. rewrite list.NoDup_cons in Hnd. destruct Hnd as [Ha Hnd].
  rewrite not_elem_of_cons. split; [|by apply (IH b l')].
  intros ->. apply Ha. rewrite Heq. apply elem_of_app. right. left.
Qed.

Lemma links_snoc h a l l' p b :
  a :: l = l' ++ [p] ->
  links h a (l ++ [b]) <-> links h a l /\ nx h p = Some b /\ pv h b = Some p.
Proof.
  revert a l'. induction l as [|c l IH]; intros a l' Heq; cbn.
  - destruct l' as [|? [|]]; simplify_eq/=. tauto.
  - destruct l' as [|a' l']; [done|]. injection Heq as <- Heq.
    rewrite (IH c l' Heq). tauto.
Qed.
End paths.

(** ** Lemmas: the operations *)

Section operations.
Implicit Types (h : gmap Z metal_list) (head new node x p b : Z) (l : list Z).

(** The cell of [new] is spliced between [p] and [x]. *)
Definition spliced h h' p new x : Prop :=
  (forall q, nx h' q = if q =? p then Some new else if q =? new then Some x else nx h q) /\
  (forall q, pv h' q = if q =? x then Some new else if q =? new then Some p else pv h q) /\
  (forall q, q <> p -> q <> new -> q <> x -> h' !! q = h !! q).

Lemma add_before_run h node new p :
  pv h node = Some p -> is_Some (h !! p) -> is_Some (h !! new) -> new <> node -> new <> p ->
  exists h', metal_list_add_before h node new = Ok h' /\ spliced h h' p new node.
Proof.
  intros Hpv Hp Hnew Hne1 Hne2. pose proof (pv_Some_is _ _ _ Hpv) as Hnode.
  destruct (is_Some_nx _ _ Hnode) as [b Hb].
  unfold metal_list_add_before. rewrite (hget_ok h node b p) by done. cbn.
  rewrite set_prev_ok by done. cbn. rewrite set_next_ok by dl_side. cbn.
  rewrite (hget_ok _ new node p) by dl. cbn. rewrite set_prev_ok by dl_side. cbn.
  rewrite (hget_ok _ new node p) by dl. cbn. rewrite set_next_ok by dl_side.
  eexists. split; [done|]. split_and!; intros q; intros; dl.
  by rewrite lookup_anext_ne, lookup_aprev_ne, lookup_anext_ne, lookup_aprev_ne.
Qed.

Lemma add_after_run h node new x :
  nx h node = Some x -> is_Some (h !! x) -> is_Some (h !! new) -> new <> node -> new <> x ->
  exists h', metal_list_add_after h node new = Ok h' /\ spliced h h' node new x.
Proof.
  intros Hnx Hx Hnew Hne1 Hne2. pose proof (nx_Some_is _ _ _ Hnx) as Hnode.
  destruct (is_Some_pv _ _ Hnode) as [b Hb].
  unfold metal_list_add_after. rewrite set_prev_ok by done. cbn.
  rewrite (hget_ok _ node x b) by dl. cbn. rewrite set_next_ok by dl_side. cbn.
  rewrite (hget_ok _ new x node) by dl. cbn. rewrite set_prev_ok by dl_side. cbn.
  rewrite (hget_ok _ new x node) by dl. cbn. rewrite set_next_ok by dl_side.
  eexists. split; [done|]. split_and!; intros q; intros; dl.
  by rewrite lookup_anext_ne, lookup_aprev_ne, lookup_anext_ne, lookup_aprev_ne.
Qed.

(** The boundary of [l1] and [l2] in a circular list: the two half paths, the
    edge between them, and what the halves do not read. *)
Lemma dlist_boundary h head l1 l2 l' p x rest :
  is_dlist h head (l1 ++ l2) -> head :: l1 = l' ++ [p] -> l2 ++ [head] = x :: rest ->
  links h head l1 /\ nx h p = Some x /\ pv h x = Some p /\ links h x rest /\
  (p ∉ srcs head l1) /\ (x ∉ l1) /\ (p ∉ srcs x rest) /\ (x ∉ rest).
Proof.
  intros [Hnd Hl] Hp Hx. rewrite <- app_assoc, Hx, links_app in Hl. destruct Hl as [Hl1 Hl2].
  rewrite (links_snoc _ _ _ _ _ _ Hp) in Hl1. destruct Hl1 as (Hl1 & Hpx & Hxp).
  assert (Hpin : p ∈ head :: l1) by (rewrite Hp; apply elem_of_app; right; left).
  rewrite app_comm_cons, list.NoDup_app in Hnd. destruct Hnd as (Hnd1 & Hdisj & Hnd2).
  split_and!; try done.
  - by apply srcs_last_notin with l'.
  - rewrite list.NoDup_cons in Hnd1.
    destruct l2 as [|y l2]; cbn in Hx; injection Hx as -> Hx; [tauto|].
    intros Hin. apply (Hdisj x); [by right|left].
  - destruct l2 as [|y l2]; cbn in Hx; injection Hx as -> <-; [apply not_elem_of_nil|].
    rewrite srcs_app. by apply Hdisj.
  - destruct l2 as [|y l2]; cbn in Hx; injection Hx as -> <-; [apply not_elem_of_nil|].
    rewrite list.NoDup_cons in Hnd2. rewrite elem_of_app, list_elem_of_singleton.
    intros [?| ->]; [tauto|]. apply (Hdisj head); left.
Qed.

Lemma dlist_join h head l1 l2 l' p x rest :
  NoDup (head :: l1 ++ l2) -> head :: l1 = l' ++ [p] -> l2 ++ [head] = x :: rest ->
  links h head l1 -> nx h p = Some x -> pv h x = Some p -> links h x rest ->
  is_dlist h head (l1 ++ l2).
Proof.
  intros Hnd Hp Hx Hl1 H1 H2 Hl2. split; [done|].
  rewrite <- app_assoc, Hx, links_app, (links_snoc _ _ _ _ _ _ Hp). tauto.
Qed.

(** The halves read only nodes of the list. *)
Lemma dlist_half_in head l1 l2 x rest q :
  l2 ++ [head] = x :: rest -> q ∈ l1 \/ q ∈ srcs head l1 \/ q ∈ rest \/ q ∈ srcs x rest ->
  q ∈ head :: l1 ++ l2.
Proof.
  intros Hx. rewrite elem_of_cons, elem_of_app.
  intros [Hq|[Hq%srcs_incl|[Hq|Hq%srcs_incl]]]; [tauto|set_solver|..].
  - assert (q ∈ x :: rest) as Hin by by right. rewrite <- Hx in Hin. set_solver.
  - rewrite <- Hx in Hq. set_solver.
Qed.

(** Splicing a fresh node into the circular list at the boundary of [l1] and
    [l2]. *)
Lemma spliced_dlist h h' head l1 l2 l' p x rest new :
  is_dlist h head (l1 ++ l2) -> new ∉ head :: l1 ++ l2 ->
  head :: l1 = l' ++ [p] -> l2 ++ [head] = x :: rest ->
  spliced h h' p new x ->
  is_dlist h' head (l1 ++ new :: l2).
Proof.
  intros Hd Hnew Hp Hx (Hn & Hv & _).
  destruct (dlist_boundary _ _ _ _ _ _ _ _ Hd Hp Hx) as (Hl1 & _ & _ & Hl2 & Ha & Hb & Hc & He).
  pose proof (fun q => dlist_half_in head l1 l2 x rest q Hx) as Hin.
  assert (Hpn : new <> p) by (intros ->; apply Hnew; rewrite app_comm_cons, Hp; set_solver).
  assert (Hxn : new <> x)
    by (intros ->; apply Hnew; destruct l2; cbn in Hx; injection Hx as -> _; set_solver).
  assert (Hhalf : forall a l, p ∉ srcs a l -> x ∉ l ->
            (forall q, q ∈ l \/ q ∈ srcs a l -> q <> new) -> links h a l -> links h' a l).
  { intros a l H1 H2 H3. apply links_frame; intros q Hq; rewrite ?Hn, ?Hv.
    - rewrite (proj2 (Z.eqb_neq q p)), (proj2 (Z.eqb_neq q new)); [done|auto|congruence].
    - rewrite (proj2 (Z.eqb_neq q x)), (proj2 (Z.eqb_neq q new)); [done|auto|congruence]. }
  apply dlist_join with l' p new (x :: rest); cbn [app links]; rewrite ?Hx; try done.
  - assert (head :: l1 ++ new :: l2 ≡ₚ new :: head :: l1 ++ l2) as ->
      by (symmetry; apply (Permutation_middle (head :: l1))).
    apply NoDup_cons_2; [done|apply Hd].
  - apply Hhalf; try done. intros q Hq ->. apply Hnew, Hin. tauto.
  - by rewrite Hn, Z.eqb_refl.
  - by rewrite Hv, Z.eqb_refl, (proj2 (Z.eqb_neq new x)).
  - split_and!.
    + by rewrite Hn, Z.eqb_refl, (proj2 (Z.eqb_neq new p)).
    + by rewrite Hv, Z.eqb_refl.
    + apply Hhalf; try done. intros q Hq ->. apply Hnew, Hin. tauto.
Qed.

Lemma del_run h x p y :
  pv h x = Some p -> nx h x = Some y -> is_Some (h !! p) -> is_Some (h !! y) -> x <> p -> x <> y ->
  exists h', metal_list_del h x = Ok h' /\
    (forall q, nx h' q = if q =? x then Some x else if q =? p then Some y else nx h q) /\
    (forall q, pv h' q = if q =? x then Some x else if q =? y then Some p else pv h q) /\
    (forall q, q <> p -> q <> x -> q <> y -> h' !! q = h !! q).
Proof.
  intros Hpv Hnx Hp Hy Hne1 Hne2. pose proof (pv_Some_is _ _ _ Hpv) as Hxs.
  unfold metal_list_del. rewrite (hget_ok h x y p) by done. cbn.
  rewrite set_prev_ok by done. cbn. rewrite (hget_ok _ x y p) by dl. cbn.
  rewrite set_next_ok by dl_side. cbn. rewrite set_prev_ok by dl_side. cbn.
  rewrite set_next_ok by dl_side.
  eexists. split; [done|]. split_and!; intros q; intros; dl.
  by rewrite lookup_anext_ne, lookup_aprev_ne, lookup_anext_ne, lookup_aprev_ne.
Qed.

(** The neighbours of a node of a circular list. *)
Lemma dlist_neighbours h head l1 x l2 l' p y rest :
  is_dlist h head (l1 ++ x :: l2) -> head :: l1 = l' ++ [p] -> l2 ++ [head] = y :: rest ->
  nx h p = Some x /\ pv h x = Some p /\ nx h x = Some y /\ pv h y = Some x /\ x <> p /\ x <> y /\
  p ∈ head :: l1 /\ y ∈ head :: l2.
Proof.
  intros Hd Hp Hy. assert (Hx : (x :: l2) ++ [head] = x :: y :: rest) by (cbn; by rewrite Hy).
  destruct (dlist_boundary _ _ _ _ _ _ _ _ Hd Hp Hx) as (_ & Hpx & Hxp & (Hxy & Hyx & _) & _ & _ & Hc & He).
  cbn in Hc. rewrite not_elem_of_cons in Hc, He. destruct Hc as [Hc _], He as [He _].
  split_and!; [done..|congruence|congruence|rewrite Hp; set_solver|].
  assert (y ∈ l2 ++ [head]) as Hin by (rewrite Hy; left). set_solver.
Qed.

(** The links pass [x], between [p] and [y], by. *)
Definition unlinked h h' p x y : Prop :=
  (forall q, q <> x -> nx h' q = if q =? p then Some y else nx h q) /\
  (forall q, q <> x -> pv h' q = if q =? y then Some p else pv h q).

Lemma unlinked_dlist h h' head l1 x l2 l' p y rest :
  is_dlist h head (l1 ++ x :: l2) -> head :: l1 = l' ++ [p] -> l2 ++ [head] = y :: rest ->
  unlinked h h' p x y -> is_dlist h' head (l1 ++ l2).
Proof.
  intros Hd Hp Hy [Hn Hv]. pose proof Hd as [Hnd _].
  assert (Hx : (x :: l2) ++ [head] = x :: y :: rest) by (cbn; by rewrite Hy).
  assert (Hd2 : is_dlist h head ((l1 ++ [x]) ++ l2)) by by rewrite <- app_assoc.
  destruct (dlist_boundary _ _ _ _ _ _ _ _ Hd Hp Hx)
    as (Hl1 & Hpx & Hxp & (Hxy & Hyx & Hl2) & Ha & Hb & Hc & He).
  assert (Hp2 : head :: l1 ++ [x] = (head :: l1) ++ [x]) by done.
  destruct (dlist_boundary _ _ _ _ _ _ _ _ Hd2 Hp2 Hy) as (_ & _ & _ & _ & Ha2 & Hb2 & Hc2 & He2).
  rewrite srcs_app in Ha2. rewrite not_elem_of_app in Hb2. rewrite not_elem_of_cons in Ha2.
  cbn in Hc. rewrite not_elem_of_cons in Hc, He.
  destruct Hc as [Hpx' Hc], He as [Hxy' He], Ha2 as [Hxh Ha2], Hb2 as [Hb2 _].
  assert (Hhalf : forall a l, p ∉ srcs a l -> x ∉ srcs a l -> y ∉ l -> x ∉ l ->
            links h a l -> links h' a l).
  { intros a l H1 H2 H3 H4. apply links_frame; intros q Hq; rewrite ?Hn, ?Hv by congruence.
    - by rewrite (proj2 (Z.eqb_neq q p)) by congruence.
    - by rewrite (proj2 (Z.eqb_neq q y)) by congruence. }
  apply dlist_join with l' p y rest; try done.
  - rewrite app_comm_cons, <- (Permutation_middle (head :: l1)) in Hnd. by apply NoDup_cons_1_2 in Hnd.
  - apply Hhalf; try done. intros ?%srcs_incl. set_solver.
  - by rewrite Hn, Z.eqb_refl.
  - by rewrite Hv, Z.eqb_refl.
  - by apply Hhalf.
Qed.

Lemma del_dlist h head l1 x l2 :
  is_dlist h head (l1 ++ x :: l2) ->
  exists h', metal_list_del h x = Ok h' /\ is_dlist h' head (l1 ++ l2) /\ is_dlist h' x [] /\
    (forall q, q ∉ head :: l1 ++ x :: l2 -> h' !! q = h !! q).
Proof.
  intros Hd. destruct (snoc_view head l1) as (l' & p & Hp).
  destruct (l2 ++ [head]) as [|y rest] eqn:Hy; [by destruct l2|].
  destruct (dlist_neighbours _ _ _ _ _ _ _ _ _ Hd Hp Hy) as (Hpx & Hxp & Hxy & Hyx & Hne & Hne' & Hpin & Hyin).
  destruct (del_run h x p y) as (h' & Hrun & Hn & Hv & Hf);
    [done|done|by eapply nx_Some_is|by eapply pv_Some_is|done|done|].
  exists h'. split_and!; [done| | |].
  - eapply unlinked_dlist; [done..|]. split; intros q Hq; rewrite ?Hn, ?Hv; by rewrite (proj2 (Z.eqb_neq q x)).
  - split; [apply NoDup_singleton|]. cbn. by rewrite Hn, Hv, Z.eqb_refl.
  - intros q Hq. apply Hf; intros ->; apply Hq; set_solver.
Qed.
End operations.

Lemma for_each_loop_spec h head a l fuel :
  head ∉ l -> links h a (l ++ [head]) -> (length l < fuel)%nat ->
  forall n, nx h a = Some n -> for_each_loop fuel h head n = Ok l.
Proof.
  revert a fuel. induction l as [|b l IH]; intros a fuel Hh Hl Hf n Hn; cbn in Hl, Hf.
  - destruct Hl as (Ha & _). destruct fuel; [lia|]. cbn.
    assert (n = head) as -> by congruence. by rewrite Z.eqb_refl.
  - destruct Hl as (Ha & Hb & Hl). destruct fuel as [|fuel]; [lia|]. cbn.
    assert (b = n) as -> by congruence. rewrite not_elem_of_cons in Hh. destruct Hh as [Hne Hh].
    rewrite (proj2 (Z.eqb_neq n head)) by congruence.
    destruct (is_Some_nx h n) as [m Hm]; [by eapply pv_Some_is|].
    rewrite (hget_ok h n m a) by done. cbn.
    by rewrite (IH n fuel) by (done || lia).
Qed.

Lemma dlist_nx h head l :
  is_dlist h head l -> nx h head = Some (default head (hd_error l)) /\ is_Some (h !! head).
Proof.
  intros [_ Hl]. destruct l; cbn in Hl; destruct Hl as (Hn & _); eauto using nx_Some_is.
Qed.

(** ** Properties *)

(** inserting a fresh node at the tail or at the head of a circular list
    gives the circular list with the node appended or prepended, writes no cell
    outside the list, and [metal_list_init] starts from the empty list. *)
Theorem metal_list_add_spec (h : gmap Z metal_list) (head new : Z) (l : list Z)
    (Hd : is_dlist h head l) (Hnew : new ∉ head :: l) (Hcell : is_Some (h !! new)) :
  (exists h1, metal_list_add_tail h head new = Ok h1 /\ is_dlist h1 head (l ++ [new]) /\
     forall q, q ∉ head :: new :: l -> h1 !! q = h !! q) /\
  (exists h2, metal_list_add_head h head new = Ok h2 /\ is_dlist h2 head (new :: l) /\
     forall q, q ∉ head :: new :: l -> h2 !! q = h !! q) /\
  (exists h3, metal_list_init h head = Ok h3 /\ is_dlist h3 head []).
Proof.
  destruct (dlist_nx _ _ _ Hd) as [_ Hhead].
  pose proof Hd as [Hnd _]. split_and!.
  - destruct (snoc_view head l) as (l' & p & Hp).
    assert (Hd' : is_dlist h head (l ++ [])) by by rewrite app_nil_r.
    destruct (dlist_boundary h head l [] l' p head [] Hd' Hp eq_refl) as (_ & Hpx & Hxp & _).
    assert (p ∈ head :: l) by (rewrite Hp; set_solver).
    destruct (add_before_run h head new p) as (h1 & Hrun & Hsp);
      [done|by eapply nx_Some_is|done|set_solver|set_solver|].
    exists h1. split_and!; [done| |].
    + by apply (spliced_dlist h h1 head l [] l' p head [] new); rewrite ?app_nil_r.
    + intros q Hq. destruct Hsp as (_ & _ & Hf). apply Hf; set_solver.
  - destruct (l ++ [head]) as [|x rest] eqn:Hx; [by destruct l|].
    destruct (dlist_boundary h head [] l [] head x rest Hd eq_refl Hx) as (_ & Hpx & Hxp & _).
    assert (x ∈ head :: l) by (destruct l; cbn in Hx; injection Hx as -> _; set_solver).
    destruct (add_after_run h head new x) as (h2 & Hrun & Hsp);
      [done|by eapply pv_Some_is|done|set_solver|set_solver|].
    exists h2. split_and!; [done| |].
    + by apply (spliced_dlist h h2 head [] l [] head x rest new).
    + intros q Hq. destruct Hsp as (_ & _ & Hf). apply Hf; set_solver.
  - unfold metal_list_init. rewrite set_prev_ok by done. cbn. rewrite set_next_ok by dl_side.
    eexists. split; [done|]. split; [apply NoDup_singleton|]. cbn. split_and!; dl.
Qed.

(** A list at 100 with the nodes 1 and 2, and a cell 3 outside it. *)
Definition demo_heap : gmap Z metal_list :=
  {[ 100 := mk_list 1 2; 1 := mk_list 2 100; 2 := mk_list 100 1; 3 := mk_list 0 0 ]}.

Lemma demo_heap_dlist : is_dlist demo_heap 100 [1; 2].
Proof.
  split; [|cbn; repeat split].
  apply (bool_decide_unpack (NoDup [100; 1; 2])). vm_compute. exact I.
Qed.

Lemma metal_list_add_spec_witness :
  exists h1, metal_list_add_tail demo_heap 100 3 = Ok h1 /\ is_dlist h1 100 [1; 2; 3].
Proof.
  destruct (metal_list_add_spec demo_heap 100 3 [1; 2]) as [(h1 & Hr & Hd & _) _];
    [apply demo_heap_dlist | set_solver | by eexists |].
  exists h1. split; [exact Hr | exact Hd].
Defined.

(** deleting a node of a circular list leaves the list of the other nodes in
    their order, makes the node a list of its own, and a second deletion of the
    same node changes nothing in the list. *)
Theorem metal_list_del_spec (h : gmap Z metal_list) (head x : Z) (l1 l2 : list Z)
    (Hd : is_dlist h head (l1 ++ x :: l2)) :
  exists h', metal_list_del h x = Ok h' /\ is_dlist h' head (l1 ++ l2) /\ is_dlist h' x [] /\
    (forall q, q ∉ head :: l1 ++ x :: l2 -> h' !! q = h !! q) /\
    metal_list_del h' x = Ok h'.
Proof.
  destruct (del_dlist _ _ _ _ _ Hd) as (h' & Hrun & H1 & H2 & Hf).
  exists h'. split_and!; try done.
  destruct H2 as [_ (Hn & Hp & _)].
  unfold metal_list_del. rewrite (hget_ok h' x x x) by done. cbn.
  assert (Hs : is_Some (h' !! x)) by by eapply nx_Some_is.
  rewrite set_prev_ok by done. cbn. rewrite (hget_ok _ x x x) by dl. cbn.
  rewrite set_next_ok by dl_side. cbn. rewrite set_prev_ok by dl_side. cbn.
  rewrite set_next_ok by dl_side. f_equal. apply map_eq. intros q.
  destruct (decide (q = x)) as [->|Hne].
  - unfold anext, aprev. rewrite !lookup_alter_eq. unfold nx, pv in Hn, Hp.
    destruct (h' !! x) as [[a b]|]; [|done]. cbn in *. congruence.
  - by rewrite lookup_anext_ne, lookup_aprev_ne, lookup_anext_ne, lookup_aprev_ne.
Qed.

Lemma metal_list_del_spec_witness :
  exists h', metal_list_del demo_heap 1 = Ok h' /\ is_dlist h' 100 [2] /\
    metal_list_del h' 1 = Ok h'.
Proof.
  destruct (metal_list_del_spec demo_heap 100 1 [] [2] demo_heap_dlist)
    as (h' & Hr & Hd & _ & _ & Hid).
  exists h'. split; [exact Hr | split; [exact Hd | exact Hid]].
Defined.

(** the [metal_list_for_each] loop visits exactly the nodes of the list, in
    order, and stops after that many steps; the membership test, the emptiness
    test and the first node agree with the list. *)
Theorem metal_list_traverse_spec (h : gmap Z metal_list) (head : Z) (l : list Z) (fuel : nat)
    (Hd : is_dlist h head l) (Hf : (length l < fuel)%nat) :
  metal_list_for_each fuel h head = Ok l /\
  (forall x, metal_list_find_node fuel h head x = Ok (bool_decide (x ∈ l))) /\
  metal_list_is_empty h head = Ok (bool_decide (l = [])) /\
  metal_list_first h head = Ok (hd_error l).
Proof.
  destruct (dlist_nx _ _ _ Hd) as [Hn Hs]. destruct (is_Some_pv _ _ Hs) as [b Hb].
  pose proof Hd as [Hnd Hl]. rewrite list.NoDup_cons in Hnd. destruct Hnd as [Hh _].
  assert (Heach : metal_list_for_each fuel h head = Ok l).
  { unfold metal_list_for_each. rewrite (hget_ok h head _ b Hn Hb). cbn.
    by apply (for_each_loop_spec h head head l). }
  assert (Hempty : metal_list_is_empty h head = Ok (bool_decide (l = []))).
  { unfold metal_list_is_empty. rewrite (hget_ok h head _ b Hn Hb). cbn. f_equal.
    destruct l as [|x l]; cbn; [by rewrite Z.eqb_refl|].
    apply Z.eqb_neq. set_solver. }
  split_and!; [done| |done|].
  - intros x. unfold metal_list_find_node. rewrite Heach. cbn. f_equal.
    destruct (bool_decide_reflect (x ∈ l)) as [Hx|Hx].
    + apply existsb_exists. exists x. split; [by apply list_elem_of_In|apply Z.eqb_refl].
    + apply not_true_iff_false. intros (y & Hy & Heq)%existsb_exists.
      apply Z.eqb_eq in Heq. subst y. apply Hx. by apply list_elem_of_In.
  - unfold metal_list_first. rewrite Hempty. cbn. destruct l as [|x l]; cbn; [done|].
    by rewrite (hget_ok h head _ b Hn Hb).
Qed.

Lemma metal_list_traverse_spec_witness :
  metal_list_for_each 3 demo_heap 100 = Ok [1; 2] /\ metal_list_first demo_heap 100 = Ok (Some 1).
Proof.
  destruct (metal_list_traverse_spec demo_heap 100 [1; 2] 3 demo_heap_dlist) as (H1 & _ & _ & H4);
    [cbn; lia|]. split; [exact H1 | exact H4].
Defined.
