(* ===== verification/MetalIo.v ===== *)
(** * libmetal I/O regions (lib/io.h, lib/io.c)

    Conversion between virtual addresses, offsets and physical addresses of a
    shared memory region, and the block operations on its bytes.  Addresses and
    offsets are [unsigned long]; a null pointer is 0. *)

From S2P Require Import Prelude MetalUtil.

(** ** Definitions *)

Definition METAL_BAD_OFFSET : Z := 18446744073709551615.
Definition METAL_BAD_PHYS : Z := 18446744073709551615.
Definition METAL_BAD_VA : Z := 18446744073709551615.

(** The optional operations of a region, code of the region's owner: a pointer
    that is [NULL] is [None]; [op_close] is the address of the function, 0 for [NULL]. *)
Record metal_io_ops := mk_ops {
  op_read : option (gmap Z Z -> Z -> Z -> res Z);
  op_write : option (gmap Z Z -> Z -> Z -> Z -> res (gmap Z Z));
  op_block_read : option (gmap Z Z -> Z -> Z -> Z -> res (gmap Z Z * Z));
  op_block_write : option (gmap Z Z -> Z -> Z -> Z -> res (gmap Z Z * Z));
  op_block_set : option (gmap Z Z -> Z -> Z -> Z -> res (gmap Z Z));
  op_close : Z;
  op_offset_to_phys : option (Z -> Z);
  op_phys_to_offset : option (Z -> Z)
}.

Definition nops : metal_io_ops := mk_ops None None None None None 0 None None.

Record metal_io_region := mk_io {
  io_virt : Z;
  io_physmap : option (list Z);
  io_size : Z;
  io_page_shift : Z;
  io_page_mask : Z;
  io_mem_flags : Z;
  io_ops : metal_io_ops
}.

(** On Linux [metal_sys_io_mem_map] expands to nothing. *)
Definition metal_io_init (virt : Z) (physmap : option (list Z)) (size page_shift mem_flags : Z)
    (ops : option metal_io_ops) : metal_io_region :=
  mk_io virt physmap size page_shift
    (if 64 <=? page_shift then u64 (-1) else u64 (u64 (Z.shiftl 1 page_shift) - 1))
    mem_flags
    (match ops with Some o => o | None => nops end).

(** [call_close] is the call through the pointer, over the rest of the program's
    state; the region is cleared. *)
Definition metal_io_finish {Env : Type} (call_close : Z -> Env -> metal_io_region -> res Env) (env : Env)
    (io : metal_io_region) : res (Env * metal_io_region) :=
  env ← (if negb (op_close (io_ops io) =? 0) then call_close (op_close (io_ops io)) env io else Ok env);
  Ok (env, mk_io 0 None 0 0 0 0 nops).

Definition metal_io_region_size (io : metal_io_region) : Z := io_size io.

Definition metal_io_virt (io : metal_io_region) (offset : Z) : Z :=
  if negb (io_virt io =? METAL_BAD_VA) && (offset <? io_size io)
  then u64 (io_virt io + offset) else 0.

Definition metal_io_virt_to_offset (io : metal_io_region) (virt : Z) : Z :=
  let offset := u64 (virt - io_virt io) in
  if offset <? io_size io then offset else METAL_BAD_OFFSET.

Definition metal_io_phys (io : metal_io_region) (offset : Z) : res Z :=
  match op_offset_to_phys (io_ops io) with
  | None =>
      let page := if 64 <=? io_page_shift io then 0 else Z.shiftr offset (io_page_shift io) in
      match io_physmap io with
      | Some physmap =>
          if offset <? io_size io then
            base ← rget physmap page;
            Ok (u64 (base + Z.land offset (io_page_mask io)))
          else Ok METAL_BAD_PHYS
      | None => Ok METAL_BAD_PHYS
      end
  | Some f => Ok (f offset)
  end.

(** The [do ... while] of [metal_io_phys_to_offset]. *)
Fixpoint phys_to_offset_loop (fuel : nat) (io : metal_io_region) (offset phys : Z) : res Z :=
  match fuel with
  | O => Fault No_fuel
  | S fuel' =>
      p ← metal_io_phys io offset;
      if p =? phys then Ok offset
      else
        let offset' := u64 (offset + u64 (io_page_mask io + 1)) in
        if offset' <? io_size io then phys_to_offset_loop fuel' io offset' phys
        else Ok METAL_BAD_OFFSET
  end.

(** One iteration per page of the region. *)
Definition p2o_fuel (io : metal_io_region) : nat :=
  S (Z.to_nat (io_size io / (io_page_mask io + 1))).

Definition metal_io_phys_to_offset (io : metal_io_region) (phys : Z) : res Z :=
  match op_phys_to_offset (io_ops io) with
  | None =>
      offset ←
        (if io_page_mask io =? METAL_BAD_PHYS then
           match io_physmap io with
           | Some physmap => base ← rget physmap 0; Ok (u64 (phys - base))
           | None => Fault Out_of_bounds
           end
         else Ok (Z.land phys (io_page_mask io)));
      phys_to_offset_loop (p2o_fuel io) io offset phys
  | Some f => Ok (f phys)
  end.

Definition metal_io_phys_to_virt (io : metal_io_region) (phys : Z) : res Z :=
  o ← metal_io_phys_to_offset io phys; Ok (metal_io_virt io o).

Definition metal_io_virt_to_phys (io : metal_io_region) (virt : Z) : res Z :=
  metal_io_phys io (metal_io_virt_to_offset io virt).

(** The atomic loads and stores of 1, 2, 4 and 8 bytes. *)
Definition io_width_ok (width : Z) : bool :=
  (width =? 1) || (width =? 2) || (width =? 4) || (width =? 8).

Definition metal_io_read (io : metal_io_region) (m : gmap Z Z) (offset width : Z) : res Z :=
  let ptr := metal_io_virt io offset in
  match op_read (io_ops io) with
  | Some f => f m offset width
  | None =>
      if negb (ptr =? 0) && io_width_ok width then
        bs ← loadn (Z.to_nat width) m ptr; Ok (le_val bs)
      else Fault Assert_failed
  end.

Definition metal_io_write (io : metal_io_region) (m : gmap Z Z) (offset value width : Z)
  : res (gmap Z Z) :=
  let ptr := metal_io_virt io offset in
  match op_write (io_ops io) with
  | Some f => f m offset value width
  | None =>
      if negb (ptr =? 0) && io_width_ok width then
        storen m ptr (le_bytes (Z.to_nat width) value)
      else Fault Assert_failed
  end.

(** [sizeof(int)] *)
Definition INT_SIZE : Z := 4.

(** The three copy loops: bytes until both pointers are aligned, words, and the
    remaining bytes.  State: memory, destination, source, remaining length. *)
Fixpoint copy_head (fuel : nat) (m : gmap Z Z) (dst src len : Z)
  : res (gmap Z Z * Z * Z * Z) :=
  match fuel with
  | O => Fault No_fuel
  | S fuel' =>
      if negb (len =? 0) && (negb (dst mod INT_SIZE =? 0) || negb (src mod INT_SIZE =? 0)) then
        v ← load8 m src; m' ← store8 m dst v;
        copy_head fuel' m' (dst + 1) (src + 1) (len - 1)
      else Ok (m, dst, src, len)
  end.

Fixpoint copy_words (fuel : nat) (m : gmap Z Z) (dst src len : Z)
  : res (gmap Z Z * Z * Z * Z) :=
  match fuel with
  | O => Fault No_fuel
  | S fuel' =>
      if INT_SIZE <=? len then
        bs ← loadn 4 m src; m' ← storen m dst (le_bytes 4 (le_val bs));
        copy_words fuel' m' (dst + INT_SIZE) (src + INT_SIZE) (len - INT_SIZE)
      else Ok (m, dst, src, len)
  end.

Fixpoint copy_tail (fuel : nat) (m : gmap Z Z) (dst src len : Z) : res (gmap Z Z) :=
  match fuel with
  | O => Fault No_fuel
  | S fuel' =>
      if negb (len =? 0) then
        v ← load8 m src; m' ← store8 m dst v;
        copy_tail fuel' m' (dst + 1) (src + 1) (len - 1)
      else Ok m
  end.

Definition copy_loops (m : gmap Z Z) (dst src len : Z) : res (gmap Z Z) :=
  let fuel := S (Z.to_nat len) in
  '(m, dst, src, len) ← copy_head fuel m dst src len;
  '(m, dst, src, len) ← copy_words fuel m dst src len;
  copy_tail fuel m dst src len.

(** [if ((offset + len) > io->size) len = io->size - offset;] *)
Definition clip_len (io : metal_io_region) (offset len : Z) : Z :=
  if io_size io <? u64 (offset + len) then i32 (io_size io - offset) else len.

(** [dst] is the address of the destination buffer. *)
Definition metal_io_block_read (io : metal_io_region) (m : gmap Z Z) (offset dst len : Z)
  : res (gmap Z Z * Z) :=
  let ptr := metal_io_virt io offset in
  if ptr =? 0 then Ok (m, - ERANGE)
  else
    let len := clip_len io offset len in
    match op_block_read (io_ops io) with
    | Some f => f m offset dst len
    | None => m' ← copy_loops m dst ptr len; Ok (m', len)
    end.

(** [src] is the address of the source buffer. *)
Definition metal_io_block_write (io : metal_io_region) (m : gmap Z Z) (offset src len : Z)
  : res (gmap Z Z * Z) :=
  let ptr := metal_io_virt io offset in
  if ptr =? 0 then Ok (m, - ERANGE)
  else
    let len := clip_len io offset len in
    match op_block_write (io_ops io) with
    | Some f => f m offset src len
    | None => m' ← copy_loops m ptr src len; Ok (m', len)
    end.

Fixpoint set_head (fuel : nat) (m : gmap Z Z) (ptr value len : Z) : res (gmap Z Z * Z * Z) :=
  match fuel with
  | O => Fault No_fuel
  | S fuel' =>
      if negb (len =? 0) && negb (ptr mod INT_SIZE =? 0) then
        m' ← store8 m ptr value; set_head fuel' m' (ptr + 1) value (len - 1)
      else Ok (m, ptr, len)
  end.

Fixpoint set_words (fuel : nat) (m : gmap Z Z) (ptr cint len : Z) : res (gmap Z Z * Z * Z) :=
  match fuel with
  | O => Fault No_fuel
  | S fuel' =>
      if INT_SIZE <=? len then
        m' ← storen m ptr (le_bytes 4 cint);
        set_words fuel' m' (ptr + INT_SIZE) cint (len - INT_SIZE)
      else Ok (m, ptr, len)
  end.

Fixpoint set_tail (fuel : nat) (m : gmap Z Z) (ptr value len : Z) : res (gmap Z Z) :=
  match fuel with
  | O => Fault No_fuel
  | S fuel' =>
      if negb (len =? 0) then
        m' ← store8 m ptr value; set_tail fuel' m' (ptr + 1) value (len - 1)
      else Ok m
  end.

(** The value byte repeated in an [unsigned int]. *)
Definition set_cint (value : Z) : Z :=
  fold_left (fun cint i => Z.lor cint (u32 (Z.shiftl value (8 * i)))) [1; 2; 3] value.

Definition metal_io_block_set (io : metal_io_region) (m : gmap Z Z) (offset value len : Z)
  : res (gmap Z Z * Z) :=
  let ptr := metal_io_virt io offset in
  if ptr =? 0 then Ok (m, - ERANGE)
  else
    let len := clip_len io offset len in
    match op_block_set (io_ops io) with
    | Some f => m' ← f m offset value len; Ok (m', len)
    | None =>
        let fuel := S (Z.to_nat len) in
        '(m, ptr, len1) ← set_head fuel m ptr value len;
        '(m, ptr, len2) ← set_words fuel m ptr (set_cint value) len1;
        m ← set_tail fuel m ptr value len2;
        Ok (m, len)
    end.

(** ** Well-formed regions *)

(** A region without operations of its own: either one page for everything (the
    page shift is at least 64, as [openamp_dev_create] makes it) or pages of
    [2 ^ page_shift] bytes, page-aligned and pairwise distinct. *)
Record io_wf (io : metal_io_region) (physmap : list Z) : Prop := {
  wf_nops : io_ops io = nops;
  wf_map : io_physmap io = Some physmap;
  wf_bases : Forall is_u64 physmap;
  wf_virt : 0 < io_virt io /\ io_virt io + io_size io <= METAL_BAD_VA;
  wf_size : 0 <= io_size io;
  wf_pages :
    (64 <= io_page_shift io /\ io_page_mask io = METAL_BAD_PHYS /\ physmap <> []) \/
    (0 <= io_page_shift io < 64 /\ io_page_mask io = 2 ^ io_page_shift io - 1 /\
     io_size io <= zlen physmap * 2 ^ io_page_shift io /\
     io_size io + 2 ^ io_page_shift io <= 18446744073709551616 /\ NoDup physmap /\
     Forall (fun b => b mod 2 ^ io_page_shift io = 0) physmap)
}.

(** ** Lemmas: addresses *)

Section addresses.
Context (io : metal_io_region) (physmap : list Z).
Hypothesis Hwf : io_wf io physmap.

Lemma io_size_bound : 0 <= io_size io < 18446744073709551615.
Proof. destruct Hwf as [_ _ _ [? Hv] ? _]. unfold METAL_BAD_VA in Hv. lia. Qed.

Lemma virt_of_offset offset :
  0 <= offset < io_size io ->
  metal_io_virt io offset = io_virt io + offset /\ io_virt io + offset <> 0 /\
  metal_io_virt_to_offset io (io_virt io + offset) = offset.
Proof.
  intros Ho. destruct Hwf as [_ _ _ [? Hv] ? _]. unfold METAL_BAD_VA in Hv.
  unfold metal_io_virt, metal_io_virt_to_offset, METAL_BAD_VA.
  replace (io_virt io + offset - io_virt io) with offset by lia.
  rewrite (proj2 (Z.eqb_neq _ _)), (proj2 (Z.ltb_lt offset (io_size io))) by lia. cbn.
  rewrite !u64_id by (unfold is_u64; lia).
  rewrite (proj2 (Z.ltb_lt offset (io_size io))) by lia. lia.
Qed.

Lemma virt_bad_offset : metal_io_virt io METAL_BAD_OFFSET = 0.
Proof.
  unfold metal_io_virt, METAL_BAD_OFFSET. pose proof io_size_bound.
  rewrite (proj2 (Z.ltb_ge _ (io_size io))) by lia. by rewrite andb_false_r.
Qed.

Lemma phys_out_of_range offset : io_size io <= offset -> metal_io_phys io offset = Ok METAL_BAD_PHYS.
Proof.
  intros Ho. unfold metal_io_phys. rewrite (wf_nops _ _ Hwf), (wf_map _ _ Hwf). cbn.
  by rewrite (proj2 (Z.ltb_ge _ _)).
Qed.

(** One page for the whole region. *)
Lemma phys_single base rest offset :
  physmap = base :: rest -> 64 <= io_page_shift io -> io_page_mask io = METAL_BAD_PHYS ->
  0 <= offset < io_size io -> metal_io_phys io offset = Ok (u64 (base + offset)).
Proof.
  intros Hb Hs Hm Ho. pose proof io_size_bound.
  unfold metal_io_phys. rewrite (wf_nops _ _ Hwf), (wf_map _ _ Hwf), Hb, Hm. cbn.
  rewrite (proj2 (Z.leb_le _ _)), (proj2 (Z.ltb_lt _ _)) by lia. cbn.
  change METAL_BAD_PHYS with (Z.ones 64). rewrite Z.land_ones by lia.
  by rewrite Z.mod_small by lia.
Qed.

Lemma p2o_single base rest phys :
  physmap = base :: rest -> 64 <= io_page_shift io -> io_page_mask io = METAL_BAD_PHYS ->
  is_u64 phys -> phys <> METAL_BAD_PHYS ->
  metal_io_phys_to_offset io phys =
    Ok (if u64 (phys - base) <? io_size io then u64 (phys - base) else METAL_BAD_OFFSET).
Proof.
  intros Hb Hs Hm Hp Hne. pose proof io_size_bound.
  unfold metal_io_phys_to_offset. rewrite (wf_nops _ _ Hwf), (wf_map _ _ Hwf), Hb, Hm, Z.eqb_refl.
  cbn [nops op_phys_to_offset]. change (rget (base :: rest) 0) with (Ok base).
  cbn [mbind res_bind].
  unfold p2o_fuel. rewrite Hm. pose proof (u64_range (phys - base)) as Hr. unfold is_u64 in Hr.
  cbn [phys_to_offset_loop]. destruct (u64 (phys - base) <? io_size io) eqn:E; zbool.
  - rewrite (phys_single base rest) by (done || lia). cbn.
    rewrite (proj2 (Z.eqb_eq _ phys)); [done|]. unfold is_u64 in Hp. width.
  - rewrite phys_out_of_range by lia. cbn. rewrite (proj2 (Z.eqb_neq _ phys)) by congruence.
    rewrite Hm. change (u64 (METAL_BAD_PHYS + 1)) with 0. rewrite Z.add_0_r, u64_id by done.
    by rewrite (proj2 (Z.ltb_ge _ _)).
Qed.
End addresses.

(** A page-aligned base leaves room for its page below 2^64. *)
Lemma aligned_room b k : 0 <= k < 64 -> is_u64 b -> b mod 2 ^ k = 0 -> b + 2 ^ k <= 18446744073709551616.
Proof.
  intros Hk Hb Hm. unfold is_u64 in Hb.
  assert (H64 : 18446744073709551616 = 2 ^ (64 - k) * 2 ^ k).
  { rewrite <- Z.pow_add_r by lia. by replace (64 - k + k) with 64 by lia. }
  pose proof (Z.pow_pos_nonneg 2 k ltac:(lia) ltac:(lia)).
  pose proof (Z.pow_pos_nonneg 2 (64 - k) ltac:(lia) ltac:(lia)).
  apply Z.div_exact in Hm; [|lia]. rewrite H64 in Hb |- *. clear H64.
  generalize dependent (b / 2 ^ k). generalize dependent (2 ^ (64 - k)).
  generalize dependent (2 ^ k). intros K HK A Hb HA q ->.
  assert (q < A) by nia. nia.
Qed.

Section paged.
Context (io : metal_io_region) (physmap : list Z).
Hypothesis Hwf : io_wf io physmap.
Let P : Z := 2 ^ io_page_shift io.
Hypothesis Hshift : 0 <= io_page_shift io < 64.
Hypothesis Hmask : io_page_mask io = P - 1.
Hypothesis Hcover : io_size io <= zlen physmap * P.
Hypothesis Hroom : io_size io + P <= 18446744073709551616.
Hypothesis Hnodup : NoDup physmap.
Hypothesis Halign : Forall (fun b => b mod P = 0) physmap.

Lemma page_pos : 0 < P <= 9223372036854775808.
Proof.
  unfold P. split; [apply Z.pow_pos_nonneg; lia|].
  change 9223372036854775808 with (2 ^ 63). apply Z.pow_le_mono_r; lia.
Qed.

Lemma page_land z : Z.land z (io_page_mask io) = z mod P.
Proof. rewrite Hmask. apply land_mask. exists (io_page_shift io). split; [lia|done]. Qed.

Lemma phys_paged j r base :
  0 <= r < P -> 0 <= j -> r + j * P < io_size io -> zget physmap j = Some base ->
  metal_io_phys io (r + j * P) = Ok (base + r).
Proof.
  intros Hr Hj Hlt Hb. pose proof page_pos.
  unfold metal_io_phys. rewrite (wf_nops _ _ Hwf), (wf_map _ _ Hwf). cbn.
  rewrite (proj2 (Z.leb_gt _ _)), (proj2 (Z.ltb_lt _ _)) by lia.
  rewrite page_land, Z.shiftr_div_pow2 by lia. fold P.
  rewrite Z.div_add, Z.div_small, Z.add_0_l, Z_mod_plus_full, Z.mod_small by lia.
  rewrite (rget_Some _ _ _ Hb). cbn. f_equal. apply u64_id.
  pose proof (Forall_zget _ _ _ _ (wf_bases _ _ Hwf) Hb) as Hbs.
  pose proof (Forall_zget _ _ _ _ Halign Hb) as Hal.
  pose proof (aligned_room base (io_page_shift io) Hshift Hbs Hal). fold P in H0.
  unfold is_u64 in *. lia.
Qed.

(** The page of an offset inside the region has a base. *)
Lemma page_base j r : 0 <= r < P -> 0 <= j -> r + j * P < io_size io -> exists base, zget physmap j = Some base.
Proof. intros. apply zget_is_Some. pose proof page_pos. nia. Qed.

Lemma p2o_loop_found r page base j fuel :
  0 <= r < P -> 0 <= j <= page -> r + page * P < io_size io -> zget physmap page = Some base ->
  (Z.to_nat (page - j) < fuel)%nat ->
  phys_to_offset_loop fuel io (r + j * P) (base + r) = Ok (r + page * P).
Proof.
  intros Hr. revert j. induction fuel as [|fuel IH]; intros j Hj Hlt Hb Hf; [lia|].
  pose proof page_pos. cbn [phys_to_offset_loop].
  destruct (page_base j r) as [bj Hbj]; [lia|lia|nia|].
  rewrite (phys_paged j r bj) by (lia || nia || done). cbn.
  destruct (decide (j = page)) as [->|Hne].
  - assert (bj = base) as -> by congruence. by rewrite Z.eqb_refl.
  - rewrite (proj2 (Z.eqb_neq _ _)); cycle 1.
    { intros Heq. apply Hne. assert (bj = base) as -> by lia. by eapply zget_inj. }
    rewrite Hmask. replace (P - 1 + 1) with P by lia.
    assert (r + (j + 1) * P < io_size io) by nia.
    rewrite (u64_id P), u64_id by (unfold is_u64; lia).
    replace (r + j * P + P) with (r + (j + 1) * P) by lia.
    rewrite (proj2 (Z.ltb_lt _ _)) by lia. apply IH; lia || done.
Qed.

Lemma p2o_loop_total offset phys fuel :
  0 <= offset < 18446744073709551616 - P -> (1 <= fuel)%nat ->
  io_size io - offset <= Z.of_nat fuel * P ->
  exists o, phys_to_offset_loop fuel io offset phys = Ok o /\
    (o = METAL_BAD_OFFSET \/ metal_io_phys io o = Ok phys).
Proof.
  revert offset. induction fuel as [|fuel IH]; intros offset Ho H1 Hf; [lia|].
  pose proof page_pos. cbn [phys_to_offset_loop].
  assert (exists p, metal_io_phys io offset = Ok p) as [p Hp].
  { destruct (decide (offset < io_size io)).
    - rewrite (Z.div_mod offset P), Z.add_comm, (Z.mul_comm P) by lia.
      pose proof (Z.mod_pos_bound offset P).
      pose proof (Z.div_pos offset P). pose proof (Z.div_mod offset P).
      destruct (page_base (offset / P) (offset mod P)) as [b Hb]; [lia..|].
      eexists. apply phys_paged; eauto; lia.
    - eexists. apply (phys_out_of_range io physmap); [done|lia]. }
  rewrite Hp. cbn. destruct (p =? phys) eqn:E; zbool; [subst; eauto|].
  rewrite Hmask. replace (P - 1 + 1) with P by lia.
  rewrite (u64_id P), u64_id by (unfold is_u64; lia).
  destruct (offset + P <? io_size io) eqn:E2; zbool; [|by eauto].
  apply IH; [lia| |lia]. destruct fuel; [lia|lia].
Qed.
Lemma paged_split offset :
  0 <= offset -> offset = offset mod P + offset / P * P /\ 0 <= offset mod P < P /\ 0 <= offset / P.
Proof.
  pose proof page_pos. intros. pose proof (Z.div_mod offset P ltac:(lia)).
  pose proof (Z.mod_pos_bound offset P ltac:(lia)).
  pose proof (Z.div_pos offset P ltac:(lia) ltac:(lia)). lia.
Qed.

Lemma p2o_paged_unfold phys :
  metal_io_phys_to_offset io phys = phys_to_offset_loop (p2o_fuel io) io (phys mod P) phys.
Proof.
  unfold metal_io_phys_to_offset. rewrite (wf_nops _ _ Hwf). cbn [nops op_phys_to_offset].
  pose proof page_pos.
  rewrite (proj2 (Z.eqb_neq _ _)) by (rewrite Hmask; unfold METAL_BAD_PHYS; lia).
  cbn [mbind res_bind]. by rewrite page_land.
Qed.

Lemma p2o_fuel_paged : p2o_fuel io = S (Z.to_nat (io_size io / P)).
Proof. unfold p2o_fuel. rewrite Hmask. by replace (P - 1 + 1) with P by lia. Qed.

Lemma paged_roundtrip offset :
  0 <= offset < io_size io ->
  exists phys, metal_io_phys io offset = Ok phys /\ metal_io_phys_to_offset io phys = Ok offset.
Proof.
  intros Ho. pose proof page_pos. destruct (paged_split offset) as (Hoff & Hm & Hd); [lia|].
  destruct (page_base (offset / P) (offset mod P)) as [base Hb]; [lia..|].
  exists (base + offset mod P). split.
  - rewrite Hoff at 1. apply phys_paged; done || lia.
  - pose proof (Forall_zget _ _ _ _ Halign Hb) as Hbm. cbn beta in Hbm.
    rewrite p2o_paged_unfold, Zplus_mod, Hbm, Z.add_0_l, !Zmod_mod.
    pose proof (p2o_loop_found (offset mod P) (offset / P) base 0 (p2o_fuel io)) as Hl.
    rewrite Z.mul_0_l, Z.add_0_r, <- Hoff in Hl. apply Hl; try lia; try done.
    rewrite p2o_fuel_paged. assert (offset / P <= io_size io / P) by (apply Z.div_le_mono; lia). lia.
Qed.

Lemma paged_total phys :
  exists o, metal_io_phys_to_offset io phys = Ok o /\
    (o = METAL_BAD_OFFSET \/ metal_io_phys io o = Ok phys).
Proof.
  rewrite p2o_paged_unfold, p2o_fuel_paged. pose proof page_pos.
  pose proof (Z.mod_pos_bound phys P ltac:(lia)). pose proof (io_size_bound _ _ Hwf).
  apply p2o_loop_total; [lia|lia|].
  pose proof (Z.div_mod (io_size io) P ltac:(lia)).
  pose proof (Z.mod_pos_bound (io_size io) P ltac:(lia)).
  pose proof (Z.div_pos (io_size io) P ltac:(lia) ltac:(lia)). nia.
Qed.
End paged.

(** Every offset of the region has a physical address. *)
Lemma phys_of_offset (io : metal_io_region) (physmap : list Z) (Hwf : io_wf io physmap) (offset : Z) :
  0 <= offset < io_size io ->
  exists phys, metal_io_phys io offset = Ok phys /\
    (phys <> METAL_BAD_PHYS -> metal_io_phys_to_offset io phys = Ok offset).
Proof.
  intros Ho. destruct (wf_pages _ _ Hwf) as [(Hs & Hm & Hne)|(Hs & Hm & Hc & Hr & Hnd & Hal)].
  - destruct physmap as [|base rest]; [done|]. eexists. split.
    + by apply (phys_single io (base :: rest) Hwf base rest).
    + intros Hbad. rewrite (p2o_single io (base :: rest) Hwf base rest); try done; [|apply u64_range].
      pose proof (io_size_bound _ _ Hwf).
      replace (u64 (u64 (base + offset) - base)) with offset by width.
      by rewrite (proj2 (Z.ltb_lt _ _)) by lia.
  - destruct (paged_roundtrip io physmap) with (offset := offset) as (phys & H1 & H2); eauto.
Qed.

(** ** Properties: addresses *)

(** inside a well-formed region the three kinds of addresses convert back and
    forth: an offset has a virtual and a physical address, and
    [metal_io_virt_to_offset], [metal_io_phys_to_offset] and
    [metal_io_phys_to_virt] return it. *)
Theorem io_address_roundtrip (io : metal_io_region) (physmap : list Z) (offset : Z)
    (Hwf : io_wf io physmap) (Ho : 0 <= offset < io_size io) :
  exists phys,
    metal_io_phys io offset = Ok phys /\
    metal_io_virt io offset = io_virt io + offset /\
    metal_io_virt_to_offset io (io_virt io + offset) = offset /\
    metal_io_virt_to_phys io (io_virt io + offset) = Ok phys /\
    (phys <> METAL_BAD_PHYS ->
       metal_io_phys_to_offset io phys = Ok offset /\
       metal_io_phys_to_virt io phys = Ok (io_virt io + offset)).
Proof.
  destruct (virt_of_offset io physmap Hwf offset Ho) as (Hv & _ & Hvo).
  destruct (phys_of_offset io physmap Hwf offset Ho) as (phys & Hp & Hback).
  exists phys. split_and!; try done.
  - unfold metal_io_virt_to_phys. by rewrite Hvo.
  - intros Hbad. split; [auto|]. unfold metal_io_phys_to_virt.
    rewrite (Hback Hbad). cbn. by rewrite Hv.
Qed.

Definition demo_region : metal_io_region :=
  metal_io_init 4096 (Some [1048576; 2097152]) 300 8 0 None.

Lemma demo_region_wf : io_wf demo_region [1048576; 2097152].
Proof.
  split; try done.
  - repeat constructor; done.
  - right. cbn. split_and!; try done.
    + apply (bool_decide_unpack (NoDup [1048576; 2097152])). vm_compute. exact I.
    + repeat constructor; done.
Qed.

Lemma io_address_roundtrip_witness :
  metal_io_phys demo_region 290 = Ok 2097186 /\ metal_io_phys_to_offset demo_region 2097186 = Ok 290.
Proof.
  destruct (io_address_roundtrip demo_region [1048576; 2097152] 290 demo_region_wf)
    as (phys & Hp & _ & _ & _ & Hb); [cbn; lia|].
  assert (phys = 2097186) as -> by (vm_compute in Hp; congruence).
  split; [exact Hp | apply Hb; unfold METAL_BAD_PHYS; lia].
Defined.

(** [metal_io_phys_to_offset] terminates on every physical address of a
    well-formed region, and what it returns for an address other than
    [METAL_BAD_PHYS] is [METAL_BAD_OFFSET] or an offset whose physical address
    is the argument. *)
Theorem phys_to_offset_total (io : metal_io_region) (physmap : list Z) (phys : Z)
    (Hwf : io_wf io physmap) (Hp : is_u64 phys) (Hbad : phys <> METAL_BAD_PHYS) :
  exists o, metal_io_phys_to_offset io phys = Ok o /\
    (o = METAL_BAD_OFFSET \/ (0 <= o < io_size io /\ metal_io_phys io o = Ok phys)).
Proof.
  assert (Hin : forall o, metal_io_phys io o = Ok phys -> o < io_size io).
  { intros o Ho. destruct (decide (o < io_size io)) as [|Hge]; [done|].
    rewrite (phys_out_of_range io physmap Hwf) in Ho by lia. congruence. }
  destruct (wf_pages _ _ Hwf) as [(Hs & Hm & Hne)|(Hs & Hm & Hc & Hr & Hnd & Hal)].
  - destruct physmap as [|base rest]; [done|].
    rewrite (p2o_single io (base :: rest) Hwf base rest) by done.
    eexists. split; [done|]. zcase; [right|by left].
    pose proof (u64_range (phys - base)) as Hu. split; [unfold is_u64 in Hu; lia|].
    rewrite (phys_single io (base :: rest) Hwf base rest) by (done || unfold is_u64 in Hu; lia).
    f_equal. unfold is_u64 in Hp. width.
  - destruct (paged_total io physmap) with (phys := phys) as (o & Ho & [->|H2]); eauto.
    exists o. split; [done|]. right. split; [|done]. split; [|by apply Hin].
    destruct (decide (0 <= o)) as [|Hneg]; [done|exfalso].
    revert H2. unfold metal_io_phys. rewrite (wf_nops _ _ Hwf), (wf_map _ _ Hwf). cbn.
    rewrite (proj2 (Z.leb_gt _ _)) by lia. zcase; [|by intros [=]].
    unfold rget, zget. rewrite (proj2 (Z.leb_gt 0 _)); [done|].
    apply Z.shiftr_neg. lia.
Qed.

Lemma phys_to_offset_total_witness :
  exists o, metal_io_phys_to_offset demo_region 2097186 = Ok o /\
    (o = METAL_BAD_OFFSET \/ (0 <= o < io_size demo_region /\ metal_io_phys demo_region o = Ok 2097186)).
Proof.
  apply (phys_to_offset_total demo_region [1048576; 2097152] 2097186 demo_region_wf);
    [unfold is_u64; lia | unfold METAL_BAD_PHYS; lia].
Defined.

(** ** Lemmas: block operations *)

(** The rest of a copy that has moved the first [k] bytes. *)
Record copy_state (m : gmap Z Z) (dst src : Z) (bs : list Z) : Prop := {
  cs_src : has_bytes m src bs;
  cs_dst : mapped m dst (zlen bs);
  cs_u8 : Forall is_u8 bs;
  cs_dis : dst + zlen bs <= src \/ src + zlen bs <= dst
}.

Lemma copy_state_step m dst src bs1 bs2 :
  copy_state m dst src (bs1 ++ bs2) ->
  copy_state (put_bytes m dst bs1) (dst + zlen bs1) (src + zlen bs1) bs2.
Proof.
  intros [H1 H2 H3 H4]. apply has_bytes_app in H1 as [_ H1]. rewrite zlen_app in *.
  pose proof (zlen_nonneg bs1). pose proof (zlen_nonneg bs2). apply Forall_app in H3 as [_ H3].
  split; [|apply mapped_put; intros i Hi; apply H2; lia|done|lia].
  apply has_bytes_put_disjoint; [lia|done].
Qed.

Lemma copy_byte m dst src b bs :
  copy_state m dst src (b :: bs) ->
  load8 m src = Ok b /\ store8 m dst b = Ok (put_bytes m dst [b]).
Proof.
  intros [[H1 _] H2 _ _]. unfold load8, store8. rewrite H1. rewrite zlen_cons in H2.
  pose proof (zlen_nonneg bs). destruct (H2 dst ltac:(lia)) as [v ->]. done.
Qed.

Lemma copy_tail_spec fuel m dst src bs :
  copy_state m dst src bs -> (length bs < fuel)%nat ->
  copy_tail fuel m dst src (zlen bs) = Ok (put_bytes m dst bs).
Proof.
  revert m dst src bs. induction fuel as [|fuel IH]; intros m dst src bs Hc Hf; [lia|].
  cbn [copy_tail]. destruct bs as [|b bs]; [done|]. rewrite zlen_cons. pose proof (zlen_nonneg bs).
  rewrite (proj2 (Z.eqb_neq _ _)) by lia. cbn [negb].
  destruct (copy_byte _ _ _ _ _ Hc) as [E1 E2]. rewrite E1. cbn [mbind res_bind]. rewrite E2.
  cbn [mbind res_bind].
  replace (1 + zlen bs - 1) with (zlen bs) by lia.
  rewrite (IH _ (dst + 1) (src + 1)); [done| |cbn in Hf; lia].
  exact (copy_state_step m dst src [b] bs Hc).
Qed.

(** The head loop stops after a prefix [bs1]. *)
Lemma copy_head_spec fuel m dst src bs :
  copy_state m dst src bs -> (length bs < fuel)%nat ->
  exists bs1 bs2, bs = bs1 ++ bs2 /\
    copy_head fuel m dst src (zlen bs)
      = Ok (put_bytes m dst bs1, dst + zlen bs1, src + zlen bs1, zlen bs2).
Proof.
  revert m dst src bs. induction fuel as [|fuel IH]; intros m dst src bs Hc Hf; [lia|].
  cbn [copy_head]. destruct (negb (zlen bs =? 0) && _) eqn:E; cycle 1.
  { exists [], bs. change (zlen []) with 0. by rewrite !Z.add_0_r. }
  destruct bs as [|b bs]; [done|]. rewrite zlen_cons.
  destruct (copy_byte _ _ _ _ _ Hc) as [E1 E2]. rewrite E1. cbn [mbind res_bind]. rewrite E2.
  cbn [mbind res_bind].
  replace (1 + zlen bs - 1) with (zlen bs) by lia.
  destruct (IH (put_bytes m dst [b]) (dst + 1) (src + 1) bs) as (bs1 & bs2 & -> & Hr);
    [exact (copy_state_step m dst src [b] _ Hc)|cbn in Hf; lia|].
  exists (b :: bs1), bs2. split; [done|]. rewrite Hr, zlen_cons, !Z.add_assoc. done.
Qed.

Lemma copy_words_spec fuel m dst src bs :
  copy_state m dst src bs -> (length bs < fuel)%nat ->
  exists bs1 bs2, bs = bs1 ++ bs2 /\
    copy_words fuel m dst src (zlen bs)
      = Ok (put_bytes m dst bs1, dst + zlen bs1, src + zlen bs1, zlen bs2).
Proof.
  revert m dst src bs. induction fuel as [|fuel IH]; intros m dst src bs Hc Hf; [lia|].
  cbn [copy_words]. unfold INT_SIZE. destruct (4 <=? zlen bs) eqn:E; zbool; cycle 1.
  { exists [], bs. change (zlen []) with 0. by rewrite !Z.add_0_r. }
  assert (Hlen : (4 <= length bs)%nat) by (unfold zlen in E; lia).
  rewrite <- (take_drop 4 bs) in Hc. set (b4 := take 4 bs) in *. set (r := drop 4 bs) in *.
  assert (H4 : length b4 = 4%nat) by (unfold b4; rewrite length_take; lia).
  assert (Hz4 : zlen b4 = 4) by (unfold zlen; lia).
  assert (Hbs : bs = b4 ++ r) by (symmetry; apply take_drop).
  assert (Hr : zlen bs - 4 = zlen r) by (rewrite Hbs, zlen_app; lia).
  pose proof Hc as [S1 S2 S3 S4]. apply has_bytes_app in S1 as [S1 _]. apply Forall_app in S3 as [S3 _].
  pose proof (loadn_ok _ _ _ S1) as Hload. rewrite H4 in Hload. rewrite Hload. cbn [mbind res_bind].
  pose proof (le_bytes_val b4 S3) as Hle. rewrite H4 in Hle. rewrite Hle.
  rewrite storen_ok by (intros i Hi; apply S2; rewrite zlen_app; pose proof (zlen_nonneg r); lia).
  cbn [mbind res_bind]. rewrite Hr. pose proof (copy_state_step _ _ _ _ _ Hc) as Hc'. rewrite Hz4 in Hc'.
  destruct (IH _ (dst + 4) (src + 4) r Hc') as (bs1 & bs2 & Hsplit & Hrun).
  { unfold r. rewrite length_drop. lia. }
  exists (b4 ++ bs1), bs2. split; [by rewrite <- app_assoc, <- Hsplit|].
  by rewrite Hrun, zlen_app, Hz4, put_bytes_app, Hz4, !Z.add_assoc.
Qed.

Lemma copy_loops_spec m dst src bs :
  copy_state m dst src bs -> copy_loops m dst src (zlen bs) = Ok (put_bytes m dst bs).
Proof.
  intros Hc. unfold copy_loops.
  assert (Hfuel : Z.to_nat (zlen bs) = length bs) by (unfold zlen; lia). rewrite Hfuel.
  destruct (copy_head_spec (S (length bs)) m dst src bs Hc) as (b1 & r1 & -> & ->); [lia|].
  cbn [mbind res_bind]. pose proof (copy_state_step _ _ _ _ _ Hc) as Hc1.
  destruct (copy_words_spec (S (length (b1 ++ r1))) _ _ _ r1 Hc1) as (b2 & r2 & -> & ->).
  { rewrite length_app. lia. }
  cbn [mbind res_bind]. pose proof (copy_state_step _ _ _ _ _ Hc1) as Hc2.
  rewrite copy_tail_spec; [|done|rewrite !length_app; lia].
  by rewrite !put_bytes_app.
Qed.

Lemma set_cint_bytes v : is_u8 v -> le_bytes 4 (set_cint v) = [v; v; v; v].
Proof.
  intros Hv. assert (Hall : forallb (fun v => bool_decide (le_bytes 4 (set_cint v) = [v; v; v; v]))
    (zseq 0 256) = true) by (vm_compute; reflexivity).
  rewrite forallb_forall in Hall. specialize (Hall v).
  assert (Hin : List.In v (zseq 0 256)) by (apply list_elem_of_In, elem_of_zseq; unfold is_u8 in Hv; lia).
  apply Hall in Hin. by apply bool_decide_eq_true in Hin.
Qed.

Definition fill (n v : Z) : list Z := replicate (Z.to_nat n) v.

Lemma zlen_fill n v : 0 <= n -> zlen (fill n v) = n.
Proof. intros. unfold fill. rewrite zlen_replicate. lia. Qed.

Lemma fill_add a b v : 0 <= a -> 0 <= b -> fill (a + b) v = fill a v ++ fill b v.
Proof. intros. unfold fill. rewrite Z2Nat.inj_add by lia. apply replicate_add. Qed.

Lemma put_fill_add m a n k v :
  0 <= n -> 0 <= k -> put_bytes (put_bytes m a (fill n v)) (a + n) (fill k v) = put_bytes m a (fill (n + k) v).
Proof. intros. rewrite fill_add by done. by rewrite put_bytes_app, zlen_fill. Qed.

Lemma store_fill m a v : mapped m a 1 -> store8 m a v = Ok (put_bytes m a (fill 1 v)).
Proof. intros H. unfold store8. destruct (H a ltac:(lia)) as [x ->]. done. Qed.

Lemma set_tail_spec fuel m a v n :
  0 <= n -> mapped m a n -> (Z.to_nat n < fuel)%nat ->
  set_tail fuel m a v n = Ok (put_bytes m a (fill n v)).
Proof.
  revert m a n. induction fuel as [|fuel IH]; intros m a n Hn Hm Hf; [lia|]. cbn [set_tail].
  destruct (n =? 0) eqn:E; zbool; cbn [negb]; [by subst|].
  rewrite store_fill by (intros i Hi; apply Hm; lia). cbn [mbind res_bind].
  rewrite IH; [|lia|apply mapped_put; intros i Hi; apply Hm; lia|lia].
  rewrite put_fill_add by lia. do 3 f_equal. lia.
Qed.

Lemma set_head_spec fuel m a v n :
  0 <= n -> mapped m a n -> (Z.to_nat n < fuel)%nat ->
  exists k, 0 <= k <= n /\ set_head fuel m a v n = Ok (put_bytes m a (fill k v), a + k, n - k).
Proof.
  revert m a n. induction fuel as [|fuel IH]; intros m a n Hn Hm Hf; [lia|]. cbn [set_head].
  destruct (negb (n =? 0) && _) eqn:E; zbool; cycle 1.
  { exists 0. split; [lia|]. by rewrite Z.add_0_r, Z.sub_0_r. }
  rewrite store_fill by (intros i Hi; apply Hm; lia). cbn [mbind res_bind].
  destruct (IH (put_bytes m a (fill 1 v)) (a + 1) (n - 1)) as (k & Hk & ->);
    [lia|apply mapped_put; intros i Hi; apply Hm; lia|lia|].
  exists (1 + k). split; [lia|]. rewrite put_fill_add by lia. do 2 f_equal; [|lia]. f_equal; lia.
Qed.

Lemma set_words_spec fuel m a v n :
  is_u8 v -> 0 <= n -> mapped m a n -> (Z.to_nat n < fuel)%nat ->
  exists k, 0 <= k <= n /\ set_words fuel m a (set_cint v) n = Ok (put_bytes m a (fill k v), a + k, n - k).
Proof.
  intros Hv. revert m a n. induction fuel as [|fuel IH]; intros m a n Hn Hm Hf; [lia|].
  cbn [set_words]. unfold INT_SIZE. destruct (4 <=? n) eqn:E; zbool; cycle 1.
  { exists 0. split; [lia|]. by rewrite Z.add_0_r, Z.sub_0_r. }
  rewrite set_cint_bytes by done. change [v; v; v; v] with (fill 4 v).
  rewrite storen_ok by (rewrite zlen_fill by lia; intros i Hi; apply Hm; lia). cbn [mbind res_bind].
  destruct (IH (put_bytes m a (fill 4 v)) (a + 4) (n - 4)) as (k & Hk & ->);
    [lia|apply mapped_put; intros i Hi; apply Hm; lia|lia|].
  exists (4 + k). split; [lia|]. rewrite put_fill_add by lia. do 2 f_equal; [|lia]. f_equal; lia.
Qed.

Section blocks.
Context (io : metal_io_region) (physmap : list Z).
Hypothesis Hwf : io_wf io physmap.

Lemma clip_fits offset len :
  0 <= offset -> 0 <= len -> offset + len <= io_size io -> clip_len io offset len = len.
Proof.
  intros. pose proof (io_size_bound _ _ Hwf). unfold clip_len.
  rewrite u64_id by (unfold is_u64; lia). by rewrite (proj2 (Z.ltb_ge _ _)) by lia.
Qed.

Lemma clip_cuts offset len :
  0 <= offset < io_size io -> 0 <= len < 2147483648 -> io_size io < offset + len ->
  io_size io <= 9223372036854775808 -> clip_len io offset len = io_size io - offset.
Proof.
  intros. unfold clip_len. rewrite u64_id by (unfold is_u64; lia).
  rewrite (proj2 (Z.ltb_lt _ _)) by lia. apply i32_id. lia.
Qed.

Lemma virt_ptr offset :
  0 <= offset < io_size io -> metal_io_virt io offset = io_virt io + offset /\
  (io_virt io + offset =? 0) = false.
Proof.
  intros Ho. destruct (virt_of_offset _ _ Hwf offset Ho) as (H1 & H2 & _).
  split; [done|by apply Z.eqb_neq].
Qed.

Lemma block_write_run m offset src bs :
  0 <= offset < io_size io -> offset + zlen bs <= io_size io ->
  copy_state m (io_virt io + offset) src bs ->
  metal_io_block_write io m offset src (zlen bs) = Ok (put_bytes m (io_virt io + offset) bs, zlen bs).
Proof.
  intros Ho Hl Hc. destruct (virt_ptr offset Ho) as [E1 E2]. unfold metal_io_block_write.
  rewrite E1, E2, clip_fits by (done || apply zlen_nonneg || lia).
  rewrite (wf_nops _ _ Hwf). cbn [nops op_block_write]. by rewrite copy_loops_spec.
Qed.

Lemma block_read_run m offset dst bs :
  0 <= offset < io_size io -> offset + zlen bs <= io_size io ->
  copy_state m dst (io_virt io + offset) bs ->
  metal_io_block_read io m offset dst (zlen bs) = Ok (put_bytes m dst bs, zlen bs).
Proof.
  intros Ho Hl Hc. destruct (virt_ptr offset Ho) as [E1 E2]. unfold metal_io_block_read.
  rewrite E1, E2, clip_fits by (done || apply zlen_nonneg || lia).
  rewrite (wf_nops _ _ Hwf). cbn [nops op_block_read]. by rewrite copy_loops_spec.
Qed.

Lemma block_set_run m offset v len n :
  0 <= offset < io_size io -> is_u8 v -> clip_len io offset len = n -> 0 <= n ->
  mapped m (io_virt io + offset) n ->
  metal_io_block_set io m offset v len = Ok (put_bytes m (io_virt io + offset) (fill n v), n).
Proof.
  intros Ho Hv Hc Hn Hm. destruct (virt_ptr offset Ho) as [E1 E2]. unfold metal_io_block_set.
  rewrite E1, E2, Hc, (wf_nops _ _ Hwf). cbn [nops op_block_set].
  destruct (set_head_spec (S (Z.to_nat n)) m (io_virt io + offset) v n) as (k & Hk & ->); [done..|lia|].
  cbn [mbind res_bind].
  destruct (set_words_spec (S (Z.to_nat n)) (put_bytes m (io_virt io + offset) (fill k v))
    (io_virt io + offset + k) v (n - k)) as (j & Hj & ->); [done|lia| |lia|].
  { apply mapped_put. intros i Hi. apply Hm. lia. }
  cbn [mbind res_bind]. rewrite set_tail_spec; [|lia| |lia].
  2:{ do 2 apply mapped_put. intros i Hi. apply Hm. lia. }
  cbn [mbind res_bind]. rewrite !put_fill_add by lia.
  do 4 f_equal. lia.
Qed.
End blocks.

Lemma has_bytes_mapped_fill m a n v b k :
  a <= b -> b + k <= a + n -> mapped (put_bytes m a (fill n v)) b k.
Proof.
  intros H1 H2 i Hi. rewrite lookup_put, zlen_fill by lia.
  rewrite (proj2 (Z.leb_le _ _)), (proj2 (Z.ltb_lt _ _)) by lia. cbn [andb].
  apply zget_is_Some. rewrite zlen_fill by lia. lia.
Qed.

(** the block operations are [memcpy] and [memset] limited to the region.
    Within the region, writing from or reading to a buffer that does not overlap
    it copies exactly the bytes asked for, whatever the alignment of the two
    pointers, and returns their number; setting fills the bytes with the value
    and stops at the end of the region, returning what it set; an offset outside
    the region gives [-ERANGE] and changes nothing. *)
Theorem io_block_ops_spec (io : metal_io_region) (physmap : list Z) (m : gmap Z Z) (offset : Z)
  (Hwf : io_wf io physmap) (Hsize : io_size io <= 9223372036854775808) :
  (forall src bs, 0 <= offset < io_size io -> offset + zlen bs <= io_size io ->
     copy_state m (io_virt io + offset) src bs ->
     metal_io_block_write io m offset src (zlen bs)
       = Ok (put_bytes m (io_virt io + offset) bs, zlen bs)) /\
  (forall dst bs, 0 <= offset < io_size io -> offset + zlen bs <= io_size io ->
     copy_state m dst (io_virt io + offset) bs ->
     metal_io_block_read io m offset dst (zlen bs) = Ok (put_bytes m dst bs, zlen bs)) /\
  (forall v len, 0 <= offset < io_size io -> is_u8 v -> 0 <= len < 2147483648 ->
     let n := Z.min len (io_size io - offset) in
     mapped m (io_virt io + offset) n ->
     metal_io_block_set io m offset v len = Ok (put_bytes m (io_virt io + offset) (fill n v), n)) /\
  (forall a v len, io_size io <= offset ->
     metal_io_block_write io m offset a len = Ok (m, - ERANGE) /\
     metal_io_block_read io m offset a len = Ok (m, - ERANGE) /\
     metal_io_block_set io m offset v len = Ok (m, - ERANGE)).
Proof.
  split_and!.
  - intros src bs. by apply (block_write_run io physmap).
  - intros dst bs. by apply (block_read_run io physmap).
  - intros v len Ho Hv Hl n Hm. apply (block_set_run io physmap); try done; [|lia].
    unfold n. destruct (decide (offset + len <= io_size io)).
    + rewrite Z.min_l by lia. apply (clip_fits io physmap); done || lia.
    + rewrite Z.min_r by lia. apply (clip_cuts io); done || lia.
  - intros a v len Ho. unfold metal_io_block_write, metal_io_block_read, metal_io_block_set.
    unfold metal_io_virt. rewrite (proj2 (Z.ltb_ge _ _)), andb_false_r by lia. done.
Qed.

Lemma io_block_ops_spec_witness :
  exists m, metal_io_block_set demo_region (put_bytes ∅ 4096 (fill 300 9)) 290 7 64 = Ok (m, 10) /\
    m = put_bytes (put_bytes ∅ 4096 (fill 300 9)) (4096 + 290) (fill 10 7).
Proof.
  destruct (io_block_ops_spec demo_region [1048576; 2097152] (put_bytes ∅ 4096 (fill 300 9)) 290
    demo_region_wf) as (_ & _ & H & _); [cbn; lia|].
  specialize (H 7 64). cbn zeta in H. change (Z.min 64 (io_size demo_region - 290)) with 10 in H.
  change (io_virt demo_region) with 4096 in H. eexists. split; [|reflexivity]. apply H.
  - cbn. lia.
  - unfold is_u8. lia.
  - lia.
  - apply has_bytes_mapped_fill; lia.
Defined.
