(* ===== verification/StrUtil.v ===== *)
(** * Bounded strings (lib/utils/utilities.c and the C string functions used)

    A [char] array is the list of its bytes; reading or writing beyond its end
    is a fault. *)

From S2P Require Import Prelude.

(** ** Definitions *)

(** The [while (--nleft != 0)] of [safe_strcpy]: [k] is [nleft] after the
    decrement of the test; [i] is the position of both pointers.  The result is
    the array, the final position and the final [nleft]. *)
Fixpoint strcpy_loop (k : nat) (dst src : list Z) (i : Z) : res (list Z * Z * Z) :=
  match k with
  | O => Ok (dst, i, 0)
  | S k' =>
      c ← rget src i;
      dst' ← rset dst i c;
      if c =? 0 then Ok (dst', i + 1, Z.of_nat (S k'))
      else strcpy_loop k' dst' src (i + 1)
  end.

(** [memset(&dst[i], 0, n)] *)
Fixpoint zero_fill (n : nat) (dst : list Z) (i : Z) : res (list Z) :=
  match n with
  | O => Ok dst
  | S n' => dst' ← rset dst i 0; zero_fill n' dst' (i + 1)
  end.

Definition safe_strcpy (dst : list Z) (d_size : Z) (src : list Z) (s_size : Z)
  : res (list Z * Z) :=
  let size := Z.min s_size d_size in
  if d_size =? 0 then Ok (dst, 0)
  else
    '(dst, i, nleft) ← strcpy_loop (Z.to_nat size) dst src 0;
    dst ← (if size <? d_size then zero_fill (Z.to_nat (d_size - size + nleft)) dst i
           else rset dst (d_size - 1) 0);
    Ok (dst, size - nleft).

(** [strncmp(a, b, n) == 0] *)
Fixpoint strncmp_eq (n : nat) (a b : list Z) (i : Z) : res bool :=
  match n with
  | O => Ok true
  | S n' =>
      x ← rget a i;
      y ← rget b i;
      if negb (x =? y) then Ok false
      else if x =? 0 then Ok true
      else strncmp_eq n' a b (i + 1)
  end.

(** ** Strings *)

(** The array [a] holds the string [s] and its terminator. *)
Definition is_cstr (a s : list Z) : Prop :=
  Forall (fun c => c <> 0) s /\ exists rest, a = s ++ 0 :: rest.

(** ** Lemmas *)

(** The loop writes over a prefix of [dst] that has been copied already. *)
Lemma strcpy_loop_str k pre s rest old :
  Forall (fun c => c <> 0) s -> (length s < k)%nat -> (length s < length old)%nat ->
  strcpy_loop k (pre ++ old) (pre ++ s ++ 0 :: rest) (zlen pre)
  = Ok (pre ++ s ++ 0 :: drop (S (length s)) old, zlen pre + zlen s + 1, Z.of_nat (k - length s)).
Proof.
  intros Hs. revert k pre old. induction Hs as [|c s Hc Hs IH]; intros k pre old Hk Ho.
  - destruct k as [|k]; [cbn in Hk; lia|]. destruct old as [|x old]; [cbn in Ho; lia|].
    cbn [strcpy_loop app length drop].
    rewrite (rget_Some _ _ 0) by apply zget_app_mid. cbn [mbind res_bind].
    rewrite rset_ok.
    2:{ rewrite zlen_app, zlen_cons. pose proof (zlen_nonneg pre). pose proof (zlen_nonneg old). lia. }
    cbn [mbind res_bind]. rewrite zset_app_mid. rewrite Z.eqb_refl. change (zlen (@nil Z)) with 0.
    by rewrite Z.add_0_r, drop_0.
  - destruct k as [|k]; [cbn in Hk; lia|]. destruct old as [|x old]; [cbn in Ho; lia|].
    cbn [length] in Hk, Ho. pose proof (IH k (pre ++ [c]) old ltac:(lia) ltac:(lia)) as Hrun.
    cbn [strcpy_loop length app].
    rewrite (rget_Some _ _ c) by apply zget_app_mid. cbn [mbind res_bind].
    rewrite rset_ok.
    2:{ rewrite zlen_app, zlen_cons. pose proof (zlen_nonneg pre). pose proof (zlen_nonneg old). lia. }
    cbn [mbind res_bind]. rewrite zset_app_mid, (proj2 (Z.eqb_neq _ _) Hc).
    rewrite <- !app_assoc in Hrun. cbn [app] in Hrun. rewrite zlen_app in Hrun.
    change (zlen [c]) with 1 in Hrun. rewrite Hrun, zlen_cons. do 3 f_equal. lia.
Qed.

Lemma strcpy_loop_full k pre src old rest :
  Forall (fun c => c <> 0) src -> length src = k -> (k <= length old)%nat ->
  strcpy_loop k (pre ++ old) (pre ++ src ++ rest) (zlen pre)
  = Ok (pre ++ src ++ drop k old, zlen pre + zlen src, 0).
Proof.
  intros Hs. revert k pre old. induction Hs as [|c s Hc Hs IH]; intros k pre old Hk Ho.
  - subst k. cbn. change (zlen (@nil Z)) with 0. by rewrite Z.add_0_r, drop_0.
  - destruct k as [|k]; [done|]. destruct old as [|x old]; [cbn in Ho; lia|].
    cbn [length] in Hk, Ho. cbn [strcpy_loop app drop].
    rewrite (rget_Some _ _ c) by apply zget_app_mid. cbn [mbind res_bind].
    rewrite rset_ok.
    2:{ rewrite zlen_app, zlen_cons. pose proof (zlen_nonneg pre). pose proof (zlen_nonneg old). lia. }
    cbn [mbind res_bind]. rewrite zset_app_mid, (proj2 (Z.eqb_neq _ _) Hc).
    specialize (IH k (pre ++ [c]) old ltac:(lia) ltac:(lia)). rewrite <- !app_assoc in IH.
    cbn [app] in IH. rewrite zlen_app in IH. change (zlen [c]) with 1 in IH.
    rewrite IH, zlen_cons. do 3 f_equal. lia.
Qed.

Lemma zset_last {A} (l : list A) x : l <> [] -> zset l (zlen l - 1) x = take (length l - 1) l ++ [x].
Proof.
  intros Hl. destruct (exists_last Hl) as (l' & y & ->).
  rewrite zlen_app. change (zlen [y]) with 1. replace (zlen l' + 1 - 1) with (zlen l') by lia.
  rewrite zset_app_mid, length_app. cbn [length]. rewrite Nat.add_sub, take_app_length. done.
Qed.

Lemma zero_fill_overrun n dst i :
  0 <= i -> (0 < n)%nat -> zlen dst < i + Z.of_nat n -> zero_fill n dst i = Fault Out_of_bounds.
Proof.
  revert dst i. induction n as [|n IH]; intros dst i Hi Hpos Hn; [lia|]. cbn [zero_fill].
  destruct (decide (i < zlen dst)) as [Hlt|Hge].
  - rewrite rset_ok by lia. cbn [mbind res_bind]. apply IH; rewrite ?zlen_zset; lia.
  - unfold rset. by rewrite zget_None_ge by lia.
Qed.

Lemma strncmp_str n pre s t ra rb :
  Forall (fun c => c <> 0) s -> Forall (fun c => c <> 0) t ->
  strncmp_eq n (pre ++ s ++ 0 :: ra) (pre ++ t ++ 0 :: rb) (zlen pre)
  = Ok (bool_decide (take n s = take n t)).
Proof.
  intros Hs. revert n pre t. induction Hs as [|c s Hc Hs IH]; intros n pre t Ht;
    (destruct n as [|n]; [by rewrite bool_decide_true|]);
    (destruct Ht as [|d t Hd Ht]); cbn [strncmp_eq app take];
    rewrite !(rget_Some _ _ _ (zget_app_mid _ _ _)); cbn [mbind res_bind].
  - rewrite bool_decide_true by done. by rewrite Z.eqb_refl.
  - rewrite bool_decide_false by done. by rewrite (proj2 (Z.eqb_neq 0 d)) by auto.
  - rewrite bool_decide_false by done. by rewrite (proj2 (Z.eqb_neq c 0)) by auto.
  - destruct (c =? d) eqn:E; zbool; cbn [negb].
    + subst d. rewrite (proj2 (Z.eqb_neq c 0)) by auto.
      specialize (IH n (pre ++ [c]) t Ht). rewrite <- !app_assoc in IH. cbn [app] in IH.
      rewrite zlen_app in IH. change (zlen [c]) with 1 in IH. rewrite IH. f_equal.
      apply bool_decide_ext. split; congruence.
    + rewrite bool_decide_false; [done|]. congruence.
Qed.

(** The copy keeps bytes bytes. *)
Lemma rset_u8 l i x l' : rset l i x = Ok l' -> Forall is_u8 l -> is_u8 x -> Forall is_u8 l'.
Proof. unfold rset. destruct (zget l i); [|done]. intros [= <-] Hl Hx. by apply Forall_zset. Qed.

Lemma strcpy_loop_u8 k dst src i d j r :
  strcpy_loop k dst src i = Ok (d, j, r) -> Forall is_u8 dst -> Forall is_u8 src -> Forall is_u8 d.
Proof.
  revert dst i. induction k as [|k IH]; intros dst i E Hd Hs; cbn [strcpy_loop] in E.
  { by injection E as <- <- <-. }
  res_step E. res_step E. pose proof (Forall_zget _ _ _ _ Hs (rget_inv _ _ _ E0)) as Hc.
  pose proof (rset_u8 _ _ _ _ E1 Hd Hc) as Hd'. destruct (_ =? 0); [|by eapply IH].
  by injection E as <- <- <-.
Qed.

Lemma zero_fill_u8 k dst i d : zero_fill k dst i = Ok d -> Forall is_u8 dst -> Forall is_u8 d.
Proof.
  revert dst i. induction k as [|k IH]; intros dst i E Hd; cbn [zero_fill] in E.
  { by injection E as <-. }
  res_step E. eapply IH; [exact E|]. by eapply rset_u8.
Qed.

Lemma safe_strcpy_u8 dst d_size src s_size d r :
  safe_strcpy dst d_size src s_size = Ok (d, r) -> Forall is_u8 dst -> Forall is_u8 src ->
  Forall is_u8 d.
Proof.
  unfold safe_strcpy. intros E Hd Hs. destruct (d_size =? 0); [by injection E as <- <-|].
  res_step E. match goal with p : (_ * _ * _)%type |- _ => destruct p as [[d1 i] nl] end.
  pose proof (strcpy_loop_u8 _ _ _ _ _ _ _ E0 Hd Hs) as Hd1. res_step E. injection E as <- <-.
  destruct (_ <? _); [by eapply zero_fill_u8|by eapply rset_u8].
Qed.

(** Copying between arrays of one size [n], as every caller in rpmsg.c does. *)
Lemma safe_strcpy_same (n : Z) (dst src s : list Z) :
  0 < n -> zlen dst = n -> is_cstr src s ->
  exists dst' r, safe_strcpy dst n src n = Ok (dst', r) /\ zlen dst' = n /\
    is_cstr dst' (take (Z.to_nat (n - 1)) s) /\ r = Z.min n (zlen s).
Proof.
  intros Hn Hd (Hs & rest & ->). unfold safe_strcpy. rewrite Z.min_id.
  rewrite (proj2 (Z.eqb_neq _ _)), (proj2 (Z.ltb_ge _ _)) by lia.
  destruct (decide (zlen s < n)) as [Hlt|Hge].
  - pose proof (strcpy_loop_str (Z.to_nat n) [] s rest dst Hs) as Hrun. cbn [app] in Hrun.
    change (zlen []) with 0 in Hrun. rewrite Hrun by (unfold zlen in *; lia). cbn [mbind res_bind].
    assert (Hl : zlen (s ++ 0 :: drop (S (length s)) dst) = n).
    { rewrite zlen_app, zlen_cons. unfold zlen in *. rewrite length_drop. lia. }
    rewrite rset_ok by (rewrite Hl; lia). cbn [mbind res_bind].
    eexists _, _. split; [done|]. rewrite zlen_zset. split; [done|].
    rewrite take_ge by (unfold zlen in *; lia). split; [|unfold zlen in *; lia]. split; [done|].
    destruct (decide (zlen s = n - 1)) as [E|Hne].
    + rewrite <- E. rewrite zset_app_mid. eauto.
    + unfold zset. rewrite (proj2 (Z.leb_le _ _)) by lia.
      rewrite insert_app_r_alt by (unfold zlen in *; lia).
      destruct (Z.to_nat (n - 1) - length s)%nat as [|k] eqn:Ek; [unfold zlen in *; lia|].
      cbn. eauto.
  - pose proof (strcpy_loop_full (Z.to_nat n) [] (take (Z.to_nat n) s) dst (drop (Z.to_nat n) s ++ 0 :: rest))
      as Hrun. cbn [app] in Hrun. change (zlen []) with 0 in Hrun.
    rewrite app_assoc, take_drop in Hrun. rewrite Hrun; clear Hrun.
    2:{ by apply Forall_take. }
    2:{ rewrite length_take. unfold zlen in *. lia. }
    2:{ unfold zlen in *. lia. }
    cbn [mbind res_bind]. rewrite (drop_ge dst), app_nil_r by (unfold zlen in *; lia).
    assert (Hl : length (take (Z.to_nat n) s) = Z.to_nat n) by (rewrite length_take; unfold zlen in *; lia).
    assert (Hz : zlen (take (Z.to_nat n) s) = n) by (unfold zlen; lia).
    rewrite rset_ok by lia. cbn [mbind res_bind]. eexists _, _. split; [done|].
    rewrite zlen_zset. split; [done|]. split; [|lia]. rewrite <- Hz at 2.
    rewrite zset_last by (intros E; rewrite E in Hl; cbn in Hl; lia).
    rewrite Hl, take_take. replace (Z.to_nat n - 1)%nat with (Z.to_nat (n - 1)) by lia.
    rewrite Nat.min_l by lia. split; [by apply Forall_take|eauto].
Qed.

(** [safe_strcpy] between arrays of the same size leaves a terminated
    string: the source cut to one byte less than the size, without writing
    outside the destination; the result is the number of bytes copied before the
    terminator. *)
Theorem safe_strcpy_terminates_string (n : Z) (dst src s : list Z)
  (Hn : 0 < n) (Hd : zlen dst = n) (Hs : is_cstr src s) :
  exists dst' r, safe_strcpy dst n src n = Ok (dst', r) /\ zlen dst' = n /\
    is_cstr dst' (take (Z.to_nat (n - 1)) s) /\ r = Z.min n (zlen s).
Proof. by apply safe_strcpy_same. Qed.

Lemma safe_strcpy_terminates_string_witness :
  exists dst' r, safe_strcpy [9; 9; 9] 3 [65; 66; 67; 68; 0] 3 = Ok (dst', r) /\ zlen dst' = 3 /\
    is_cstr dst' [65; 66] /\ r = 3.
Proof.
  apply (safe_strcpy_terminates_string 3 [9; 9; 9] [65; 66; 67; 68; 0] [65; 66; 67; 68]);
    [lia|done|]. split; [repeat constructor; lia|]. by exists [].
Defined.

(** with a source bound below the destination's size, [safe_strcpy] clears
    one byte too many: whenever the source ends within its bound, the [memset]
    after the copy reaches one byte past the end of the destination. *)
Theorem safe_strcpy_overrun (d_size s_size : Z) (dst src s : list Z)
  (Hd : zlen dst = d_size) (Hlt : s_size < d_size) (Hs : is_cstr src s) (Hfit : zlen s < s_size) :
  safe_strcpy dst d_size src s_size = Fault Out_of_bounds.
Proof.
  destruct Hs as (Hs & rest & ->). pose proof (zlen_nonneg s). unfold safe_strcpy.
  rewrite Z.min_l by lia. rewrite (proj2 (Z.eqb_neq _ _)), (proj2 (Z.ltb_lt _ _)) by lia.
  pose proof (strcpy_loop_str (Z.to_nat s_size) [] s rest dst Hs) as Hrun. cbn [app] in Hrun.
  change (zlen []) with 0 in Hrun. rewrite Hrun by (unfold zlen in *; lia). cbn [mbind res_bind].
  rewrite zero_fill_overrun; [done|lia|unfold zlen in *; lia|].
  rewrite zlen_app, zlen_cons. unfold zlen in *. rewrite length_drop. lia.
Qed.

Lemma safe_strcpy_overrun_witness :
  safe_strcpy [9; 9; 9; 9] 4 [65; 0; 7] 3 = Fault Out_of_bounds.
Proof.
  apply (safe_strcpy_overrun 4 3 [9; 9; 9; 9] [65; 0; 7] [65]); try reflexivity.
  split; [repeat constructor; lia|]. by exists [7].
Defined.
