(* ===== verification/Vring.v ===== *)
(** * The virtio ring (lib/include/openamp/virtio_ring.h)

    The shared structure of a split virtqueue: the descriptor table, the
    available ring written by the driver and the used ring written by the
    device; the size and the layout of the memory that holds them; the event
    test of [VIRTIO_RING_F_EVENT_IDX]. *)

From S2P Require Import Prelude MetalUtil.

(** ** Definitions *)

Definition VRING_DESC_F_NEXT : Z := 1.
Definition VRING_DESC_F_WRITE : Z := 2.
Definition VRING_DESC_F_INDIRECT : Z := 4.
Definition VRING_USED_F_NO_NOTIFY : Z := 1.
Definition VRING_AVAIL_F_NO_INTERRUPT : Z := 1.

Record vring_desc := mk_desc {
  d_addr : Z;
  d_len : Z;
  d_flags : Z;
  d_next : Z
}.

Record vring_avail := mk_avail {
  avail_flags : Z;
  avail_idx : Z;
  avail_ring : list Z;
  (** [vring_used_event]: [avail->ring[num]] *)
  used_event : Z
}.

Record vring_used_elem := mk_uelem {
  ue_id : Z;
  ue_len : Z
}.

Record vring_used := mk_used {
  used_flags : Z;
  used_idx : Z;
  used_ring : list vring_used_elem;
  (** [vring_avail_event]: [used->ring[num].event] *)
  avail_event : Z
}.

(** The contents of the ring memory. *)
Record vring := mk_vring {
  r_desc : list vring_desc;
  r_avail : vring_avail;
  r_used : vring_used
}.

(** [sizeof] of the packed structures. *)
Definition SIZEOF_VRING_DESC : Z := 16.
Definition SIZEOF_VRING_AVAIL : Z := 4.
Definition SIZEOF_VRING_USED : Z := 4.
Definition SIZEOF_VRING_USED_ELEM : Z := 8.
Definition SIZEOF_UINT16 : Z := 2.

(** [size] is an [int]: every assignment converts the 64-bit value. *)
Definition vring_size (num align : Z) : Z :=
  let size := i32 (u64 (num * SIZEOF_VRING_DESC)) in
  let size := i32 (u64 (size + (SIZEOF_VRING_AVAIL + num * SIZEOF_UINT16 + SIZEOF_UINT16))) in
  let size := i32 (metal_align_down (size + align - 1) align) in
  i32 (u64 (size + (SIZEOF_VRING_USED + num * SIZEOF_VRING_USED_ELEM + SIZEOF_UINT16))).

(** The addresses [vring_init] computes. *)
Record vring_layout := mk_layout {
  vr_num : Z;
  vr_desc : Z;
  vr_avail : Z;
  vr_used : Z
}.

Definition vring_init (num p align : Z) : vring_layout :=
  let avail := u64 (p + num * SIZEOF_VRING_DESC) in
  let ring_num := u64 (avail + SIZEOF_VRING_AVAIL + num * SIZEOF_UINT16) in
  mk_layout num p avail
    (metal_align_down (ring_num + SIZEOF_UINT16 + align - 1) align).

Definition vring_need_event (event_idx new_idx old : Z) : bool :=
  u16 (new_idx - event_idx - 1) <? u16 (new_idx - old).

(** ** Memory of a ring *)

(** The largest ring: [VQ_RING_DESC_CHAIN_END] descriptors. *)
Definition VRING_MAX : Z := 32768.

(** What the layout has to provide: the three parts in order, none overlapping
    the next, the used ring aligned, and all of it in [vring_size] bytes. *)
Record layout_ok (l : vring_layout) (p align : Z) : Prop := {
  lay_desc : vr_desc l = p;
  lay_avail : vr_avail l = vr_desc l + vr_num l * SIZEOF_VRING_DESC;
  lay_used :
    vr_avail l + SIZEOF_VRING_AVAIL + vr_num l * SIZEOF_UINT16 + SIZEOF_UINT16 <= vr_used l;
  lay_align : vr_used l mod align = 0;
  lay_end :
    vr_used l + SIZEOF_VRING_USED + vr_num l * SIZEOF_VRING_USED_ELEM + SIZEOF_UINT16
    = p + vring_size (vr_num l) align
}.

(** ** Theorems *)

Lemma align_up_spec x align :
  pow2 align -> align <= 4096 -> 0 <= x -> x + align <= 18446744073709551616 ->
  metal_align_down (x + align - 1) align = x + (- x) mod align.
Proof.
  intros Hp Hle Hx Hb. pose proof (pow2_pos _ Hp) as Hpos.
  rewrite align_down_spec by (done || unfold is_u64 in *; lia).
  pose proof (Z.mod_pos_bound (- x) align Hpos).
  pose proof (Z.mod_pos_bound (x + align - 1) align Hpos).
  pose proof (Z_div_mod_eq_full (x + align - 1) align) as E1.
  pose proof (Z_div_mod_eq_full (- x) align) as E2.
  assert ((x + align - 1) / align = - (- x / align)) by nia. nia.
Qed.

Lemma align_up_mod x align : 0 < align -> (x + (- x) mod align) mod align = 0.
Proof.
  intros. rewrite Zplus_mod_idemp_r, Z.add_opp_diag_r. apply Zmod_0_l.
Qed.

Lemma vring_size_eq num align :
  pow2 align -> align <= 4096 -> 0 <= num <= VRING_MAX ->
  vring_size num align =
    let s := 18 * num + 6 in s + (- s) mod align + 8 * num + 6.
Proof.
  intros Hp Hle Hn. pose proof (pow2_pos _ Hp) as Hpos. unfold VRING_MAX in Hn.
  unfold vring_size, SIZEOF_VRING_DESC, SIZEOF_VRING_AVAIL, SIZEOF_VRING_USED,
    SIZEOF_VRING_USED_ELEM, SIZEOF_UINT16. cbn zeta.
  rewrite (u64_id (num * 16)), (i32_id (num * 16)) by (unfold is_u64; lia).
  rewrite (u64_id (num * 16 + _)), (i32_id (num * 16 + _)) by (unfold is_u64; lia).
  replace (num * 16 + (4 + num * 2 + 2)) with (18 * num + 6) by lia.
  rewrite align_up_spec by (done || lia).
  pose proof (Z.mod_pos_bound (- (18 * num + 6)) align Hpos).
  rewrite (i32_id (18 * num + 6 + _)) by lia.
  rewrite u64_id, i32_id by (unfold is_u64; lia). lia.
Qed.

Lemma layout_of_init (num p align : Z)
  (Hal : pow2 align) (Hmax : align <= 4096) (Hnum : 0 <= num <= VRING_MAX)
  (Hp : 0 <= p) (Hpal : p mod align = 0) (Hend : p + 2097152 <= 18446744073709551616) :
  layout_ok (vring_init num p align) p align /\ vr_num (vring_init num p align) = num.
Proof.
  pose proof (pow2_pos _ Hal) as Hpos. unfold VRING_MAX in *.
  remember (18 * num + 6) as s eqn:Hs.
  assert (Hu : vr_used (vring_init num p align) = p + s + (- (p + s)) mod align).
  { unfold vring_init, SIZEOF_VRING_DESC, SIZEOF_VRING_AVAIL, SIZEOF_UINT16, vr_used.
    rewrite (u64_id (p + _)) by (unfold is_u64; lia).
    rewrite u64_id by (unfold is_u64; lia).
    replace (p + num * 16 + 4 + num * 2 + 2) with (p + s) by lia.
    apply align_up_spec; done || lia. }
  assert (Hsh : (- (p + s)) mod align = (- s) mod align).
  { replace (- (p + s)) with (- p + - s) by lia. rewrite Zplus_mod.
    rewrite (Z_mod_zero_opp_full p align Hpal), Z.add_0_l. apply Zmod_mod. }
  pose proof (Z.mod_pos_bound (- (p + s)) align Hpos).
  split; [split|done].
  - done.
  - unfold vring_init, vr_avail, vr_desc, vr_num, SIZEOF_VRING_DESC.
    rewrite u64_id by (unfold is_u64; lia). done.
  - rewrite Hu. unfold vring_init, vr_avail, vr_num, SIZEOF_VRING_DESC, SIZEOF_VRING_AVAIL,
      SIZEOF_UINT16. rewrite u64_id by (unfold is_u64; lia). lia.
  - rewrite Hu. by apply align_up_mod.
  - rewrite Hu, Hsh. unfold vring_init, vr_num, SIZEOF_VRING_USED, SIZEOF_VRING_USED_ELEM,
      SIZEOF_UINT16. rewrite vring_size_eq by (done || unfold VRING_MAX; lia).
    cbn zeta. rewrite <- Hs. lia.
Qed.

(** the layout of [vring_init] is the one the two sides agree on.  For every
    ring of at most 2^15 descriptors at an aligned address, the descriptor
    table, the available ring with its event index and the used ring with its
    event index follow each other without overlap, the used ring is aligned, and
    the last byte of the used ring's event index is the last byte of the
    [vring_size] bytes that are reserved and cleared for the ring: no byte is
    used beyond them and none is left over. *)
Theorem vring_init_layout (num p align : Z)
  (Hal : pow2 align) (Hmax : align <= 4096) (Hnum : 0 <= num <= VRING_MAX)
  (Hp : 0 <= p) (Hpal : p mod align = 0) (Hend : p + 2097152 <= 18446744073709551616) :
  layout_ok (vring_init num p align) p align /\ vr_num (vring_init num p align) = num.
Proof. by apply layout_of_init. Qed.

Lemma vring_init_layout_witness :
  layout_ok (vring_init 256 1048576 4) 1048576 4 /\ vr_num (vring_init 256 1048576 4) = 256.
Proof.
  apply vring_init_layout; [exists 2; lia|unfold VRING_MAX; (done || lia)..].
Defined.

(** the test of the event index answers the question its comment asks.  When
    the producer's index went from [old] to [old + k] (k < 2^16 entries), an
    event is due exactly when the entry the other side waits for is among those
    k entries, whatever the wrap-around of the 16-bit indices. *)
Theorem vring_need_event_spec (event_idx old k : Z)
  (He : is_u16 event_idx) (Ho : is_u16 old) (Hk : 0 <= k < 65536) :
  vring_need_event event_idx (u16 (old + k)) old = true <->
  exists i, 0 <= i < k /\ u16 (old + i) = event_idx.
Proof.
  unfold vring_need_event. rewrite Z.ltb_lt. split.
  - intros H. exists (u16 (event_idx - old)). revert H. width.
  - intros (i & Hi & <-). width.
Qed.

Lemma vring_need_event_spec_witness :
  vring_need_event 1 (u16 (65534 + 4)) 65534 = true <->
  exists i, 0 <= i < 4 /\ u16 (65534 + i) = 1.
Proof. apply vring_need_event_spec; unfold is_u16; lia. Defined.
