(* ===== verification/Virtqueue.v ===== *)
(** * Virtqueues (lib/virtio/virtqueue.c, lib/include/openamp/virtqueue.h)

    Each side of a ring keeps a [virtqueue] of its own; the [vring] is the
    memory both sides see.  An operation takes the caller's virtqueue and the
    ring and returns both; the cache maintenance macros expand to nothing on the
    configuration of this repository and the fences order the writes of one
    operation, which is one step here.  Function pointers are addresses, 0 for
    [NULL]; a call through one is a value of the result. *)

From S2P Require Import Prelude MetalUtil MetalIo Vring.

(** ** Configuration and data *)

Definition ERROR_VRING_FULL : Z := -3001.
Definition ERROR_NO_MEM : Z := -3004.
Definition ERROR_VRING_ALIGN : Z := -3006.
Definition ERROR_VRING_NO_BUFF : Z := -3007.
Definition ERROR_VQUEUE_INVLD_PARAM : Z := -3008.
Definition VQUEUE_SUCCESS : Z := 0.
Definition VQ_RING_DESC_CHAIN_END : Z := 32768.
Definition VIRTIO_RING_F_EVENT_IDX : Z := 536870912.
Definition VIRTIO_DEV_DRIVER : Z := 0.
Definition VIRTIO_DEV_DEVICE : Z := 1.

(** The preprocessor's choices: the debug checks, and the two code size options,
    [None] when the macro is not defined. *)
Record build := mk_build {
  VQUEUE_DEBUG : bool;
  VIRTIO_DRIVER_SUPPORT : option Z;
  VIRTIO_DEVICE_SUPPORT : option Z
}.

Definition VIRTIO_ENABLED (option : Z) : bool := option =? 1.

(** The fields of [struct virtio_device] the virtqueue reads. *)
Record virtio_device := mk_vdev {
  vdev_notifyid : Z;
  vdev_features : Z;
  vdev_role : Z
}.

Definition VIRTIO_ROLE_IS_DRIVER (b : build) (vdev : virtio_device) : bool :=
  match VIRTIO_DRIVER_SUPPORT b with
  | Some o => VIRTIO_ENABLED o && (vdev_role vdev =? VIRTIO_DEV_DRIVER)
  | None => vdev_role vdev =? VIRTIO_DEV_DRIVER
  end.

Definition VIRTIO_ROLE_IS_DEVICE (b : build) (vdev : virtio_device) : bool :=
  match VIRTIO_DEVICE_SUPPORT b with
  | Some o => VIRTIO_ENABLED o && (vdev_role vdev =? VIRTIO_DEV_DEVICE)
  | None => vdev_role vdev =? VIRTIO_DEV_DEVICE
  end.

Record virtqueue_buf := mk_buf {
  vb_buf : Z;
  vb_len : Z
}.

Record vq_desc_extra := mk_dextra {
  dx_cookie : Z;
  dx_ndescs : Z
}.

Record virtqueue := mk_vq {
  vq_name : string;
  vq_queue_index : Z;
  vq_nentries : Z;
  vq_callback : Z;
  vq_notify : Z;
  vq_ring : vring_layout;
  vq_free_cnt : Z;
  vq_queued_cnt : Z;
  vq_shm_io : metal_io_region;
  vq_desc_head_idx : Z;
  vq_used_cons_idx : Z;
  vq_available_idx : Z;
  vq_inuse : bool;
  vq_descx : list vq_desc_extra
}.

Record vring_alloc_info := mk_alloc {
  ai_vaddr : Z;
  ai_align : Z;
  ai_num_descs : Z
}.

(** Assignments to single fields. *)
Definition set_free_cnt (vq : virtqueue) (x : Z) : virtqueue :=
  mk_vq (vq_name vq) (vq_queue_index vq) (vq_nentries vq) (vq_callback vq) (vq_notify vq)
    (vq_ring vq) x (vq_queued_cnt vq) (vq_shm_io vq) (vq_desc_head_idx vq)
    (vq_used_cons_idx vq) (vq_available_idx vq) (vq_inuse vq) (vq_descx vq).
Definition set_queued_cnt (vq : virtqueue) (x : Z) : virtqueue :=
  mk_vq (vq_name vq) (vq_queue_index vq) (vq_nentries vq) (vq_callback vq) (vq_notify vq)
    (vq_ring vq) (vq_free_cnt vq) x (vq_shm_io vq) (vq_desc_head_idx vq)
    (vq_used_cons_idx vq) (vq_available_idx vq) (vq_inuse vq) (vq_descx vq).
Definition set_desc_head_idx (vq : virtqueue) (x : Z) : virtqueue :=
  mk_vq (vq_name vq) (vq_queue_index vq) (vq_nentries vq) (vq_callback vq) (vq_notify vq)
    (vq_ring vq) (vq_free_cnt vq) (vq_queued_cnt vq) (vq_shm_io vq) x
    (vq_used_cons_idx vq) (vq_available_idx vq) (vq_inuse vq) (vq_descx vq).
Definition set_used_cons_idx (vq : virtqueue) (x : Z) : virtqueue :=
  mk_vq (vq_name vq) (vq_queue_index vq) (vq_nentries vq) (vq_callback vq) (vq_notify vq)
    (vq_ring vq) (vq_free_cnt vq) (vq_queued_cnt vq) (vq_shm_io vq) (vq_desc_head_idx vq)
    x (vq_available_idx vq) (vq_inuse vq) (vq_descx vq).
Definition set_available_idx (vq : virtqueue) (x : Z) : virtqueue :=
  mk_vq (vq_name vq) (vq_queue_index vq) (vq_nentries vq) (vq_callback vq) (vq_notify vq)
    (vq_ring vq) (vq_free_cnt vq) (vq_queued_cnt vq) (vq_shm_io vq) (vq_desc_head_idx vq)
    (vq_used_cons_idx vq) x (vq_inuse vq) (vq_descx vq).
Definition set_inuse (vq : virtqueue) (x : bool) : virtqueue :=
  mk_vq (vq_name vq) (vq_queue_index vq) (vq_nentries vq) (vq_callback vq) (vq_notify vq)
    (vq_ring vq) (vq_free_cnt vq) (vq_queued_cnt vq) (vq_shm_io vq) (vq_desc_head_idx vq)
    (vq_used_cons_idx vq) (vq_available_idx vq) x (vq_descx vq).
Definition set_descx (vq : virtqueue) (x : list vq_desc_extra) : virtqueue :=
  mk_vq (vq_name vq) (vq_queue_index vq) (vq_nentries vq) (vq_callback vq) (vq_notify vq)
    (vq_ring vq) (vq_free_cnt vq) (vq_queued_cnt vq) (vq_shm_io vq) (vq_desc_head_idx vq)
    (vq_used_cons_idx vq) (vq_available_idx vq) (vq_inuse vq) x.

Definition ring_set_desc (r : vring) (d : list vring_desc) : vring :=
  mk_vring d (r_avail r) (r_used r).
Definition ring_set_avail (r : vring) (a : vring_avail) : vring :=
  mk_vring (r_desc r) a (r_used r).
Definition ring_set_used (r : vring) (u : vring_used) : vring :=
  mk_vring (r_desc r) (r_avail r) u.

Definition NULL_IO : metal_io_region := metal_io_init 0 None 0 0 0 None.

(** [virtqueue_allocate]: zeroed memory with room for the descriptors' extra
    data. *)
Definition virtqueue_allocate (num_desc_extra : Z) : virtqueue :=
  mk_vq "" 0 0 0 0 (mk_layout 0 0 0 0) 0 0 NULL_IO 0 0 0 false
    (replicate (Z.to_nat num_desc_extra) (mk_dextra 0 0)).

Definition virtqueue_set_shmem_io (vq : virtqueue) (io : metal_io_region) : virtqueue :=
  mk_vq (vq_name vq) (vq_queue_index vq) (vq_nentries vq) (vq_callback vq) (vq_notify vq)
    (vq_ring vq) (vq_free_cnt vq) (vq_queued_cnt vq) io (vq_desc_head_idx vq)
    (vq_used_cons_idx vq) (vq_available_idx vq) (vq_inuse vq) (vq_descx vq).

Definition virtqueue_empty (vq : virtqueue) : bool := vq_nentries vq =? vq_free_cnt vq.
Definition virtqueue_full (vq : virtqueue) : bool := vq_free_cnt vq =? 0.

(** ** Operations *)

Section operations.
Variable bld : build.
(** The device [vq->vq_dev] points to. *)
Variable dev : virtio_device.

Definition VQASSERT (exp : bool) : res unit :=
  if VQUEUE_DEBUG bld then rassert exp else Ok tt.

Definition VQ_PARAM_CHK (condition : bool) (status err : Z) : Z :=
  if VQUEUE_DEBUG bld && (status =? 0) && condition then err else status.

Definition VQUEUE_BUSY (vq : virtqueue) : res virtqueue :=
  if VQUEUE_DEBUG bld
  then _ ← VQASSERT (negb (vq_inuse vq)); Ok (set_inuse vq true)
  else Ok vq.

Definition VQUEUE_IDLE (vq : virtqueue) : virtqueue :=
  if VQUEUE_DEBUG bld then set_inuse vq false else vq.

Definition VQ_RING_ASSERT_VALID_IDX (vq : virtqueue) (idx : Z) : res unit :=
  VQASSERT (idx <? vq_nentries vq).

Definition VQ_RING_ASSERT_CHAIN_TERM (vq : virtqueue) : res unit :=
  VQASSERT (vq_desc_head_idx vq =? VQ_RING_DESC_CHAIN_END).

Definition event_idx_on : bool :=
  negb (Z.land (vdev_features dev) VIRTIO_RING_F_EVENT_IDX =? 0).

Definition virtqueue_phys_to_virt (vq : virtqueue) (phys : Z) : res Z :=
  metal_io_phys_to_virt (vq_shm_io vq) phys.

Definition virtqueue_virt_to_phys (vq : virtqueue) (buf : Z) : res Z :=
  metal_io_virt_to_phys (vq_shm_io vq) buf.

(** [vr->desc[i].next = next] *)
Definition set_next_at (desc : list vring_desc) (i next : Z) : res (list vring_desc) :=
  d ← rget desc i;
  rset desc i (mk_desc (d_addr d) (d_len d) (d_flags d) next).

(** The loop of [vq_ring_init] over [i < size - 1]. *)
Fixpoint ring_init_loop (k : nat) (i : Z) (desc : list vring_desc) : res (list vring_desc) :=
  match k with
  | O => Ok desc
  | S k' => desc' ← set_next_at desc i (u16 (i + 1)); ring_init_loop k' (i + 1) desc'
  end.

Definition vq_ring_init (vq : virtqueue) (ring : vring) (ring_mem alignment : Z)
  : res (virtqueue * vring) :=
  let size := vq_nentries vq in
  let vq' :=
    mk_vq (vq_name vq) (vq_queue_index vq) (vq_nentries vq) (vq_callback vq) (vq_notify vq)
      (vring_init size ring_mem alignment) (vq_free_cnt vq) (vq_queued_cnt vq) (vq_shm_io vq)
      (vq_desc_head_idx vq) (vq_used_cons_idx vq) (vq_available_idx vq) (vq_inuse vq)
      (vq_descx vq) in
  if VIRTIO_ROLE_IS_DRIVER bld dev then
    desc ← ring_init_loop (Z.to_nat (size - 1)) 0 (r_desc ring);
    desc ← set_next_at desc (Z.max 0 (size - 1)) VQ_RING_DESC_CHAIN_END;
    Ok (vq', ring_set_desc ring desc)
  else Ok (vq', ring).

(** [info] is [None] for a null [ring] argument. *)
Definition virtqueue_create (id : Z) (name : string) (info : option vring_alloc_info)
    (callback notify : Z) (vq : virtqueue) (ring : vring) : res (Z * virtqueue * vring) :=
  let num := match info with Some i => ai_num_descs i | None => 0 end in
  let status := VQUEUE_SUCCESS in
  let status :=
    VQ_PARAM_CHK (match info with None => true | _ => false end) status
      ERROR_VQUEUE_INVLD_PARAM in
  let status := VQ_PARAM_CHK (num =? 0) status ERROR_VQUEUE_INVLD_PARAM in
  let status := VQ_PARAM_CHK (negb (Z.land num (num - 1) =? 0)) status ERROR_VRING_ALIGN in
  if status =? VQUEUE_SUCCESS then
    match info with
    | None => Fault Out_of_bounds
    | Some i =>
        let vq' :=
          mk_vq name id (ai_num_descs i) callback notify (vq_ring vq) (ai_num_descs i)
            (vq_queued_cnt vq) (vq_shm_io vq) (vq_desc_head_idx vq) (vq_used_cons_idx vq)
            (vq_available_idx vq) (vq_inuse vq) (vq_descx vq) in
        '(vq', ring') ← vq_ring_init vq' ring (ai_vaddr i) (i32 (ai_align i));
        Ok (status, vq', ring')
    end
  else Ok (status, vq, ring).

(** The loop of [vq_ring_add_buffer]: [k] descriptors remain, [i] is the index in
    the buffer list, [idx] the descriptor to fill. *)
Fixpoint ring_add_loop (k : nat) (vq : virtqueue) (desc : list vring_desc) (idx i : Z)
    (buf_list : list virtqueue_buf) (readable needed : Z) : res (list vring_desc * Z) :=
  match k with
  | O => Ok (desc, idx)
  | S k' =>
      _ ← VQASSERT (negb (idx =? VQ_RING_DESC_CHAIN_END));
      dp ← rget desc idx;
      b ← rget buf_list i;
      addr ← virtqueue_virt_to_phys vq (vb_buf b);
      let flags := 0 in
      let flags := if i <? needed - 1 then Z.lor flags VRING_DESC_F_NEXT else flags in
      let flags := if readable <=? i then Z.lor flags VRING_DESC_F_WRITE else flags in
      desc ← rset desc idx (mk_desc addr (u32 (vb_len b)) flags (d_next dp));
      ring_add_loop k' vq desc (d_next dp) (i + 1) buf_list readable needed
  end.

Definition vq_ring_add_buffer (vq : virtqueue) (desc : list vring_desc) (head_idx : Z)
    (buf_list : list virtqueue_buf) (readable writable : Z) : res (list vring_desc * Z) :=
  let needed := readable + writable in
  ring_add_loop (Z.to_nat needed) vq desc head_idx 0 buf_list readable needed.

Definition vq_ring_update_avail (vq : virtqueue) (ring : vring) (desc_idx : Z)
  : res (virtqueue * vring) :=
  let av := r_avail ring in
  let i := Z.land (avail_idx av) (vq_nentries vq - 1) in
  slots ← rset (avail_ring av) i desc_idx;
  Ok (set_queued_cnt vq (u16 (vq_queued_cnt vq + 1)),
      ring_set_avail ring
        (mk_avail (avail_flags av) (u16 (avail_idx av + 1)) slots (used_event av))).

Definition virtqueue_add_buffer (vq : virtqueue) (ring : vring)
    (buf_list : list virtqueue_buf) (readable writable cookie : Z)
  : res (Z * virtqueue * vring) :=
  let needed := readable + writable in
  let status := VQUEUE_SUCCESS in
  let status := VQ_PARAM_CHK (needed <? 1) status ERROR_VQUEUE_INVLD_PARAM in
  let status := VQ_PARAM_CHK (vq_free_cnt vq <? needed) status ERROR_VRING_FULL in
  vq ← VQUEUE_BUSY vq;
  '(vq, ring) ←
    (if status =? VQUEUE_SUCCESS then
       _ ← VQASSERT (negb (cookie =? 0));
       let head_idx := vq_desc_head_idx vq in
       _ ← VQ_RING_ASSERT_VALID_IDX vq head_idx;
       dxp ← rget (vq_descx vq) head_idx;
       _ ← VQASSERT (dx_cookie dxp =? 0);
       descx ← rset (vq_descx vq) head_idx (mk_dextra cookie (u16 needed));
       let vq := set_descx vq descx in
       '(desc, idx) ← vq_ring_add_buffer vq (r_desc ring) head_idx buf_list readable writable;
       let ring := ring_set_desc ring desc in
       let vq := set_desc_head_idx vq idx in
       let vq := set_free_cnt vq (u16 (vq_free_cnt vq - needed)) in
       _ ← (if vq_free_cnt vq =? 0 then VQ_RING_ASSERT_CHAIN_TERM vq
            else VQ_RING_ASSERT_VALID_IDX vq idx);
       vq_ring_update_avail vq ring head_idx
     else Ok (vq, ring));
  Ok (status, VQUEUE_IDLE vq, ring).

(** The [while] of [vq_ring_free_chain]: [i] is the descriptor [dp] points to. *)
Fixpoint free_chain_loop (fuel : nat) (vq : virtqueue) (desc : list vring_desc) (i ndescs : Z)
  : res (Z * Z) :=
  match fuel with
  | O => Fault No_fuel
  | S fuel' =>
      dp ← rget desc i;
      if negb (Z.land (d_flags dp) VRING_DESC_F_NEXT =? 0) then
        _ ← VQ_RING_ASSERT_VALID_IDX vq (d_next dp);
        free_chain_loop fuel' vq desc (d_next dp) (u16 (ndescs - 1))
      else Ok (i, ndescs)
  end.

(** A chain visits each descriptor once: the fuel is the size of the table. *)
Definition vq_ring_free_chain (vq : virtqueue) (ring : vring) (desc_idx : Z)
  : res (virtqueue * vring) :=
  let desc := r_desc ring in
  _ ← VQ_RING_ASSERT_VALID_IDX vq desc_idx;
  dp ← rget desc desc_idx;
  dxp ← rget (vq_descx vq) desc_idx;
  _ ← (if vq_free_cnt vq =? 0 then VQ_RING_ASSERT_CHAIN_TERM vq else Ok tt);
  let vq := set_free_cnt vq (u16 (vq_free_cnt vq + dx_ndescs dxp)) in
  let ndescs := u16 (dx_ndescs dxp - 1) in
  '(last, ndescs) ←
    (if Z.land (d_flags dp) VRING_DESC_F_INDIRECT =? 0
     then free_chain_loop (length desc) vq desc desc_idx ndescs
     else Ok (desc_idx, ndescs));
  descx ← rset (vq_descx vq) desc_idx (mk_dextra (dx_cookie dxp) ndescs);
  _ ← VQASSERT (ndescs =? 0);
  desc ← set_next_at desc last (vq_desc_head_idx vq);
  Ok (set_desc_head_idx (set_descx vq descx) desc_idx, ring_set_desc ring desc).

(** The result is [None] for a null pointer returned because the used ring has
    nothing new, otherwise the cookie, the length and the slot of the used
    ring. *)
Definition virtqueue_get_buffer (vq : virtqueue) (ring : vring)
  : res (virtqueue * vring * option (Z * Z * Z)) :=
  if vq_used_cons_idx vq =? used_idx (r_used ring) then Ok (vq, ring, None)
  else
    vq ← VQUEUE_BUSY vq;
    let slot := Z.land (vq_used_cons_idx vq) (vq_nentries vq - 1) in
    let vq := set_used_cons_idx vq (u16 (vq_used_cons_idx vq + 1)) in
    uep ← rget (used_ring (r_used ring)) slot;
    let desc_idx := u16 (ue_id uep) in
    '(vq, ring) ← vq_ring_free_chain vq ring desc_idx;
    dx ← rget (vq_descx vq) desc_idx;
    descx ← rset (vq_descx vq) desc_idx (mk_dextra 0 (dx_ndescs dx));
    Ok (VQUEUE_IDLE (set_descx vq descx), ring, Some (dx_cookie dx, ue_len uep, slot)).

Definition virtqueue_get_buffer_length (ring : vring) (idx : Z) : res Z :=
  d ← rget (r_desc ring) idx; Ok (d_len d).

Definition virtqueue_get_buffer_addr (vq : virtqueue) (ring : vring) (idx : Z) : res Z :=
  d ← rget (r_desc ring) idx; virtqueue_phys_to_virt vq (d_addr d).

(** Whether the queue freed still held buffers (the warning logged). *)
Definition virtqueue_free (vq : virtqueue) : bool := negb (vq_free_cnt vq =? vq_nentries vq).

(** The result is [None] for a null pointer returned because the available ring
    has nothing new, otherwise the buffer, its descriptor and its length. *)
Definition virtqueue_get_available_buffer (vq : virtqueue) (ring : vring)
  : res (virtqueue * option (Z * Z * Z)) :=
  if vq_available_idx vq =? avail_idx (r_avail ring) then Ok (vq, None)
  else
    vq ← VQUEUE_BUSY vq;
    let head_idx := Z.land (vq_available_idx vq) (vq_nentries vq - 1) in
    let vq := set_available_idx vq (u16 (vq_available_idx vq + 1)) in
    idx ← rget (avail_ring (r_avail ring)) head_idx;
    buffer ← virtqueue_get_buffer_addr vq ring idx;
    len ← virtqueue_get_buffer_length ring idx;
    Ok (VQUEUE_IDLE vq, Some (buffer, idx, len)).

Definition virtqueue_add_consumed_buffer (vq : virtqueue) (ring : vring) (head_idx len : Z)
  : res (Z * virtqueue * vring) :=
  if vq_nentries vq <=? head_idx then Ok (ERROR_VRING_NO_BUFF, vq, ring)
  else
    vq ← VQUEUE_BUSY vq;
    let us := r_used ring in
    let i := Z.land (used_idx us) (vq_nentries vq - 1) in
    slots ← rset (used_ring us) i (mk_uelem head_idx len);
    let ring :=
      ring_set_used ring
        (mk_used (used_flags us) (u16 (used_idx us + 1)) slots (avail_event us)) in
    let vq := set_queued_cnt vq (u16 (vq_queued_cnt vq + 1)) in
    Ok (VQUEUE_SUCCESS, VQUEUE_IDLE vq, ring).

Definition set_used_event (ring : vring) (e : Z) : vring :=
  let av := r_avail ring in
  ring_set_avail ring (mk_avail (avail_flags av) (avail_idx av) (avail_ring av) e).
Definition set_avail_event (ring : vring) (e : Z) : vring :=
  let us := r_used ring in
  ring_set_used ring (mk_used (used_flags us) (used_idx us) (used_ring us) e).
Definition set_avail_flags (ring : vring) (f : Z) : vring :=
  let av := r_avail ring in
  ring_set_avail ring (mk_avail f (avail_idx av) (avail_ring av) (used_event av)).
Definition set_used_flags (ring : vring) (f : Z) : vring :=
  let us := r_used ring in
  ring_set_used ring (mk_used f (used_idx us) (used_ring us) (avail_event us)).

Definition virtqueue_nused (vq : virtqueue) (ring : vring) : res Z :=
  let nused := u16 (used_idx (r_used ring) - vq_used_cons_idx vq) in
  _ ← VQASSERT (nused <=? vq_nentries vq); Ok nused.

Definition virtqueue_navail (vq : virtqueue) (ring : vring) : res Z :=
  let navail := u16 (avail_idx (r_avail ring) - vq_available_idx vq) in
  _ ← VQASSERT (navail <=? vq_nentries vq); Ok navail.

Definition vq_ring_enable_interrupt (vq : virtqueue) (ring : vring) (ndesc : Z)
  : res (vring * Z) :=
  let ring :=
    if event_idx_on then
      let ring :=
        if VIRTIO_ROLE_IS_DRIVER bld dev
        then set_used_event ring (u16 (vq_used_cons_idx vq + ndesc)) else ring in
      if VIRTIO_ROLE_IS_DEVICE bld dev
      then set_avail_event ring (u16 (vq_available_idx vq + ndesc)) else ring
    else
      let ring :=
        if VIRTIO_ROLE_IS_DRIVER bld dev
        then set_avail_flags ring
               (Z.land (avail_flags (r_avail ring)) (u16 (Z.lnot VRING_AVAIL_F_NO_INTERRUPT)))
        else ring in
      if VIRTIO_ROLE_IS_DEVICE bld dev
      then set_used_flags ring
             (Z.land (used_flags (r_used ring)) (u16 (Z.lnot VRING_USED_F_NO_NOTIFY)))
      else ring in
  used_more ←
    (if VIRTIO_ROLE_IS_DRIVER bld dev
     then n ← virtqueue_nused vq ring; Ok (ndesc <? n) else Ok false);
  if used_more : bool then Ok (ring, 1)
  else
    avail_more ←
      (if VIRTIO_ROLE_IS_DEVICE bld dev
       then n ← virtqueue_navail vq ring; Ok (ndesc <? n) else Ok false);
    if avail_more : bool then Ok (ring, 1) else Ok (ring, 0).

Definition virtqueue_enable_cb (vq : virtqueue) (ring : vring) : res (vring * Z) :=
  vq_ring_enable_interrupt vq ring 0.

Definition virtqueue_disable_cb (vq : virtqueue) (ring : vring) : res (virtqueue * vring) :=
  vq ← VQUEUE_BUSY vq;
  let ring :=
    if event_idx_on then
      let ring :=
        if VIRTIO_ROLE_IS_DRIVER bld dev
        then set_used_event ring (u16 (vq_used_cons_idx vq - vq_nentries vq - 1)) else ring in
      if VIRTIO_ROLE_IS_DEVICE bld dev
      then set_avail_event ring (u16 (vq_available_idx vq - vq_nentries vq - 1)) else ring
    else
      let ring :=
        if VIRTIO_ROLE_IS_DRIVER bld dev
        then set_avail_flags ring
               (Z.lor (avail_flags (r_avail ring)) VRING_AVAIL_F_NO_INTERRUPT)
        else ring in
      if VIRTIO_ROLE_IS_DEVICE bld dev
      then set_used_flags ring (Z.lor (used_flags (r_used ring)) VRING_USED_F_NO_NOTIFY)
      else ring in
  Ok (VQUEUE_IDLE vq, ring).

Definition vq_ring_must_notify (vq : virtqueue) (ring : vring) : bool :=
  if event_idx_on then
    if VIRTIO_ROLE_IS_DRIVER bld dev then
      let new_idx := avail_idx (r_avail ring) in
      let prev_idx := u16 (new_idx - vq_queued_cnt vq) in
      vring_need_event (avail_event (r_used ring)) new_idx prev_idx
    else if VIRTIO_ROLE_IS_DEVICE bld dev then
      let new_idx := used_idx (r_used ring) in
      let prev_idx := u16 (new_idx - vq_queued_cnt vq) in
      vring_need_event (used_event (r_avail ring)) new_idx prev_idx
    else false
  else if VIRTIO_ROLE_IS_DRIVER bld dev then
    Z.land (used_flags (r_used ring)) VRING_USED_F_NO_NOTIFY =? 0
  else if VIRTIO_ROLE_IS_DEVICE bld dev then
    Z.land (avail_flags (r_avail ring)) VRING_AVAIL_F_NO_INTERRUPT =? 0
  else false.

(** The function called, if any: [vq->notify(vq)]. *)
Definition vq_ring_notify (vq : virtqueue) : option Z :=
  if vq_notify vq =? 0 then None else Some (vq_notify vq).

(** The notify function rings the other side's doorbell; it does not touch the
    queue. *)
Definition virtqueue_kick (vq : virtqueue) (ring : vring) : res (virtqueue * option Z) :=
  vq ← VQUEUE_BUSY vq;
  let call := if vq_ring_must_notify vq ring then vq_ring_notify vq else None in
  Ok (VQUEUE_IDLE (set_queued_cnt vq 0), call).

(** The callback called, if any: [vq->callback(vq)]. *)
Definition virtqueue_notification (vq : virtqueue) : option Z :=
  if vq_callback vq =? 0 then None else Some (vq_callback vq).

Definition virtqueue_get_desc_size (vq : virtqueue) (ring : vring) : res (virtqueue * Z) :=
  if vq_available_idx vq =? avail_idx (r_avail ring) then Ok (vq, 0)
  else
    vq ← VQUEUE_BUSY vq;
    let head_idx := Z.land (vq_available_idx vq) (vq_nentries vq - 1) in
    idx ← rget (avail_ring (r_avail ring)) head_idx;
    d ← rget (r_desc ring) idx;
    Ok (VQUEUE_IDLE vq, d_len d).

End operations.
