(* ===== verification/VirtqueueInv.v ===== *)
(** * The virtqueue as a two-party queue: specification and invariant

    The abstract queue a ring implements, the relation between the abstract
    state and the two virtqueues with their shared ring, and the lemmas on
    descriptor chains and ring slots that the refinement rests on. *)

From S2P Require Import Prelude MetalUtil MetalIo Vring Virtqueue.

(** ** The abstract queue *)

(** A chain of buffers the driver added: the descriptors it occupies (the first
    is its identity), its buffers (address, length, writable by the device) and
    the driver's cookie. *)
Record chain := mk_chain {
  c_idxs : list Z;
  c_bufs : list (Z * Z * bool);
  c_cookie : Z
}.

Definition c_head (c : chain) : Z := hd VQ_RING_DESC_CHAIN_END (c_idxs c).

(** Chains offered to the device in the order of the offers, chains the device
    works on, chains the device returned in the order of the returns with their
    lengths, the free descriptors, and the number of chains reclaimed so far. *)
Record queue := mk_queue {
  q_avail : list chain;
  q_held : list chain;
  q_used : list (chain * Z);
  q_free : list Z;
  q_recl : Z
}.

Definition q_live (q : queue) : list chain := q_avail q ++ q_held q ++ (q_used q).*1.

#[global] Arguments q_live : simpl never.

Definition q_init (n : Z) : queue := mk_queue [] [] [] (zseq 0 (Z.to_nat n)) 0.

(** The driver offers a chain on the first descriptors of the free list. *)
Definition q_add (q : queue) (bufs : list (Z * Z * bool)) (cookie : Z) : queue :=
  let c := mk_chain (take (length bufs) (q_free q)) bufs cookie in
  mk_queue (q_avail q ++ [c]) (q_held q) (q_used q) (drop (length bufs) (q_free q)) (q_recl q).

(** The device takes the oldest offer. *)
Definition q_take (q : queue) : option (chain * queue) :=
  match q_avail q with
  | [] => None
  | c :: rest => Some (c, mk_queue rest (q_held q ++ [c]) (q_used q) (q_free q) (q_recl q))
  end.

(** The device returns the chain [c], at position [k] of those it holds. *)
Definition q_consume (q : queue) (k : nat) (c : chain) (len : Z) : queue :=
  mk_queue (q_avail q) (delete k (q_held q)) (q_used q ++ [(c, len)]) (q_free q) (q_recl q).

(** The driver reclaims the oldest return. *)
Definition q_reclaim (q : queue) : option (chain * Z * queue) :=
  match q_used q with
  | [] => None
  | (c, len) :: rest =>
      Some (c, len, mk_queue (q_avail q) (q_held q) rest (c_idxs c ++ q_free q) (q_recl q + 1))
  end.

(** Counters: chains returned, taken and offered since the creation. *)
Definition q_cons (q : queue) : Z := q_recl q + zlen (q_used q).
Definition q_taken (q : queue) : Z := q_cons q + zlen (q_held q).
Definition q_added (q : queue) : Z := q_taken q + zlen (q_avail q).

(** ** The concrete representation *)

(** [desc.flags] of a buffer. *)
Definition dflags (more w : bool) : Z :=
  Z.lor (if more then VRING_DESC_F_NEXT else 0) (if w then VRING_DESC_F_WRITE else 0).

(** The descriptors [idxs] describe the buffers [bufs], linked by [next]. *)
Fixpoint chain_path (desc : list vring_desc) (idxs : list Z) (bufs : list (Z * Z * bool)) : Prop :=
  match idxs, bufs with
  | i :: idxs', (a, l, w) :: bufs' =>
      exists nx, zget desc i = Some (mk_desc a l (dflags (bool_decide (idxs' <> [])) w) nx) /\
        match idxs' with
        | [] => bufs' = []
        | j :: _ => nx = j /\ chain_path desc idxs' bufs'
        end
  | _, _ => False
  end.

(** The free list: linked by [next], ended by [VQ_RING_DESC_CHAIN_END]. *)
Fixpoint free_path (desc : list vring_desc) (l : list Z) : Prop :=
  match l with
  | [] => True
  | i :: l' =>
      (exists d, zget desc i = Some d /\ d_next d = hd VQ_RING_DESC_CHAIN_END l') /\
      free_path desc l'
  end.

(** The queue [q] is in the ring's slots from the counter [base] on. *)
Definition in_slots {A} (slots : list A) (n base : Z) (q : list A) : Prop :=
  forall i x, zget q i = Some x -> zget slots ((base + i) mod n) = Some x.

(** The driver's extra data: cookie and length of every chain in flight, no
    cookie elsewhere. *)
Record descx_ok (n : Z) (live : list chain) (descx : list vq_desc_extra) : Prop := {
  dx_len : zlen descx = n;
  dx_live : forall c, c ∈ live ->
    zget descx (c_head c) = Some (mk_dextra (c_cookie c) (zlen (c_idxs c)));
  dx_clear : forall i, 0 <= i < n -> (forall c, c ∈ live -> c_head c <> i) ->
    exists dx, zget descx i = Some dx /\ dx_cookie dx = 0
}.

(** The shared memory represents [q]. *)
Record ring_rel (n : Z) (q : queue) (ring : vring) : Prop := {
  rr_pow2 : pow2 n;
  rr_max : n <= VQ_RING_DESC_CHAIN_END;
  rr_desc_len : zlen (r_desc ring) = n;
  rr_avail_len : zlen (avail_ring (r_avail ring)) = n;
  rr_used_len : zlen (used_ring (r_used ring)) = n;
  rr_perm : q_free q ++ (q_live q ≫= c_idxs) ≡ₚ zseq 0 (Z.to_nat n);
  rr_chains : Forall (fun c => chain_path (r_desc ring) (c_idxs c) (c_bufs c)) (q_live q);
  rr_free : free_path (r_desc ring) (q_free q);
  rr_avail_idx : avail_idx (r_avail ring) = u16 (q_added q);
  rr_used_idx : used_idx (r_used ring) = u16 (q_cons q);
  rr_avail : in_slots (avail_ring (r_avail ring)) n (q_taken q) (c_head <$> q_avail q);
  rr_used : in_slots (used_ring (r_used ring)) n (q_recl q)
    ((fun '(c, len) => mk_uelem (c_head c) len) <$> q_used q)
}.

(** The driver's virtqueue represents [q]. *)
Record drv_rel (n : Z) (q : queue) (vq : virtqueue) : Prop := {
  dr_n : vq_nentries vq = n;
  dr_free : vq_free_cnt vq = zlen (q_free q);
  dr_head : vq_desc_head_idx vq = hd VQ_RING_DESC_CHAIN_END (q_free q);
  dr_cons : vq_used_cons_idx vq = u16 (q_recl q);
  dr_idle : vq_inuse vq = false;
  dr_descx : descx_ok n (q_live q) (vq_descx vq)
}.

(** The device's virtqueue represents [q]. *)
Record dev_rel (n : Z) (q : queue) (vq : virtqueue) : Prop := {
  de_n : vq_nentries vq = n;
  de_avail : vq_available_idx vq = u16 (q_taken q);
  de_idle : vq_inuse vq = false
}.

Record vq_rel (n : Z) (q : queue) (drv devq : virtqueue) (ring : vring) : Prop := {
  vr_ring : ring_rel n q ring;
  vr_drv : drv_rel n q drv;
  vr_dev : dev_rel n q devq
}.

(** ** Lemmas: slots of a ring *)

Section slots.
Context {A : Type}.
Implicit Types (slots q : list A) (n base : Z).

Lemma in_slots_nil slots n base : in_slots slots n base [].
Proof. intros i x Hi. apply zget_Some_lt in Hi. unfold zlen in Hi. cbn in Hi. lia. Qed.

Lemma in_slots_pop slots n base x q :
  in_slots slots n base (x :: q) ->
  zget slots (base mod n) = Some x /\ in_slots slots n (base + 1) q.
Proof.
  intros H. split.
  - specialize (H 0 x eq_refl). by rewrite Z.add_0_r in H.
  - intros i y Hi. pose proof (zget_Some_lt _ _ _ Hi).
    replace (base + 1 + i) with (base + (i + 1)) by lia. apply H.
    rewrite zget_cons_S by lia. by replace (i + 1 - 1) with i by lia.
Qed.

Lemma in_slots_push slots n base q x :
  0 < n -> zlen slots = n -> zlen q < n -> in_slots slots n base q ->
  in_slots (zset slots ((base + zlen q) mod n) x) n base (q ++ [x]).
Proof.
  intros Hn Hl Hq H i y Hi. pose proof (zget_Some_lt _ _ _ Hi) as Hb.
  rewrite zlen_app in Hb. change (zlen [x]) with 1 in Hb.
  pose proof (Z.mod_pos_bound (base + zlen q) n Hn).
  destruct (decide (i = zlen q)) as [->|Hne].
  - rewrite zget_app_r, Z.sub_diag in Hi by lia. rewrite zget_zset_eq by lia. done.
  - rewrite zget_app_l in Hi by lia. rewrite zget_zset_ne; [by apply H|].
    intros Heq. symmetry in Heq. apply mod_slot_inj in Heq; lia.
Qed.
End slots.

(** ** Lemmas: descriptor chains *)

Lemma dflags_next more w : negb (Z.land (dflags more w) VRING_DESC_F_NEXT =? 0) = more.
Proof. destruct more, w; reflexivity. Qed.

Lemma dflags_indirect more w : (Z.land (dflags more w) VRING_DESC_F_INDIRECT =? 0) = true.
Proof. destruct more, w; reflexivity. Qed.

Lemma chain_path_ext desc desc' idxs bufs :
  (forall i, i ∈ idxs -> zget desc' i = zget desc i) ->
  chain_path desc idxs bufs -> chain_path desc' idxs bufs.
Proof.
  revert bufs. induction idxs as [|i idxs IH]; intros [|[[a l] w] bufs] He; try done.
  cbn [chain_path]. intros (nx & Hi & Hr). exists nx. split.
  - rewrite He by constructor. done.
  - destruct idxs as [|j idxs]; [done|]. destruct Hr as [-> Hr]. split; [done|].
    apply IH; [|done]. intros k Hk. apply He. by constructor.
Qed.

Lemma free_path_ext desc desc' l :
  (forall i, i ∈ l -> zget desc' i = zget desc i) ->
  free_path desc l -> free_path desc' l.
Proof.
  induction l as [|i l IH]; intros He; cbn [free_path]; [done|].
  intros [(d & Hd & Hn) Hl]. split.
  - exists d. rewrite He by constructor. done.
  - apply IH; [|done]. intros k Hk. apply He. by constructor.
Qed.

Lemma chain_path_length desc idxs bufs : chain_path desc idxs bufs -> length idxs = length bufs.
Proof.
  revert bufs. induction idxs as [|i idxs IH]; intros [|[[a l] w] bufs]; try done.
  cbn [chain_path]. intros (nx & _ & Hr). cbn [length]. f_equal.
  destruct idxs as [|j idxs]; [by subst|]. apply IH, Hr.
Qed.

Lemma chain_path_nonempty desc idxs bufs :
  chain_path desc idxs bufs -> exists i rest, idxs = i :: rest.
Proof. destruct idxs as [|i rest]; [done|eauto]. Qed.

Lemma chain_path_head desc idxs bufs :
  chain_path desc idxs bufs ->
  exists a l w bufs' more nx, bufs = (a, l, w) :: bufs' /\
    zget desc (hd VQ_RING_DESC_CHAIN_END idxs) = Some (mk_desc a l (dflags more w) nx).
Proof.
  destruct idxs as [|i idxs], bufs as [|[[a l] w] bufs]; try done.
  cbn [chain_path hd]. intros (nx & Hi & _). do 6 eexists. split; [done|exact Hi].
Qed.

(** Writing [next] of the last descriptor puts the chain in front of the free
    list. *)
Lemma chain_to_free desc idxs bufs free last d :
  chain_path desc idxs bufs -> NoDup (idxs ++ free) ->
  list.last idxs = Some last -> zget desc last = Some d ->
  free_path desc free ->
  free_path
    (zset desc last (mk_desc (d_addr d) (d_len d) (d_flags d) (hd VQ_RING_DESC_CHAIN_END free)))
    (idxs ++ free).
Proof.
  set (d' := mk_desc _ _ _ _). intros Hc Hnd Hlast Hd Hf.
  pose proof (zget_Some_lt _ _ _ Hd) as Hlt.
  revert bufs Hc Hnd Hlast. induction idxs as [|i idxs IH]; intros bufs Hc Hnd Hlast; [done|].
  destruct bufs as [|[[a l] w] bufs]; [done|]. destruct Hc as (nx & Hi & Hr).
  change ((i :: idxs) ++ free) with (i :: (idxs ++ free)) in *.
  apply list.NoDup_cons in Hnd as [Hni Hnd]. destruct idxs as [|j idxs].
  - injection Hlast as ->. split.
    + exists d'. split; [by apply zget_zset_eq|done].
    + apply (free_path_ext desc); [|done]. intros k Hk.
      apply zget_zset_ne. by intros ->.
  - destruct Hr as [-> Hr]. rewrite last_cons_cons in Hlast. split.
    + exists (mk_desc a l (dflags (bool_decide (j :: idxs <> [])) w) j). split; [|done].
      rewrite zget_zset_ne; [done|]. intros ->. apply Hni.
      apply elem_of_app. left. by apply last_Some_elem_of.
    + by apply (IH bufs).
Qed.

(** The buffers of a list as the descriptors will hold them: physical address,
    32-bit length, and writable from position [readable] on. *)
Fixpoint bufs_of (io : metal_io_region) (i readable : Z) (bl : list virtqueue_buf)
    (bs : list (Z * Z * bool)) : Prop :=
  match bl, bs with
  | [], [] => True
  | b :: bl', (a, l, w) :: bs' =>
      metal_io_virt_to_phys io (vb_buf b) = Ok a /\ l = u32 (vb_len b) /\
      w = (readable <=? i) /\ bufs_of io (i + 1) readable bl' bs'
  | _, _ => False
  end.

Lemma bufs_of_length io i readable bl bs : bufs_of io i readable bl bs -> length bl = length bs.
Proof.
  revert i bs. induction bl as [|b bl IH]; intros i [|[[a l] w] bs]; try done.
  cbn [bufs_of length]. intros (_ & _ & _ & H). f_equal. by eapply IH.
Qed.

Lemma vqassert_true bld b : b = true -> VQASSERT bld b = Ok tt.
Proof. intros ->. unfold VQASSERT. by destruct (VQUEUE_DEBUG bld). Qed.

Lemma vqassert_lt bld a b : a < b -> VQASSERT bld (a <? b) = Ok tt.
Proof. intros. apply vqassert_true. by apply Z.ltb_lt. Qed.

Lemma vqassert_eq bld a b : a = b -> VQASSERT bld (a =? b) = Ok tt.
Proof. intros ->. apply vqassert_true. apply Z.eqb_refl. Qed.

Lemma vqassert_ne bld a b : a <> b -> VQASSERT bld (negb (a =? b)) = Ok tt.
Proof. intros. apply vqassert_true. by rewrite (proj2 (Z.eqb_neq _ _)). Qed.

(** The flags the C code accumulates. *)
Lemma add_flags i needed readable :
  (let flags := 0 in
   let flags := if i <? needed - 1 then Z.lor flags VRING_DESC_F_NEXT else flags in
   if readable <=? i then Z.lor flags VRING_DESC_F_WRITE else flags)
  = dflags (i <? needed - 1) (readable <=? i).
Proof. unfold dflags. by destruct (i <? needed - 1), (readable <=? i). Qed.

Lemma ring_add_loop_spec bld vq buf_list readable needed use rest desc i bl bs :
  NoDup (use ++ rest) -> (VQ_RING_DESC_CHAIN_END ∉ use) -> free_path desc (use ++ rest) ->
  length use = length bl -> bufs_of (vq_shm_io vq) i readable bl bs ->
  0 <= i -> needed = i + zlen bl -> (forall j, 0 <= j -> zget buf_list (i + j) = zget bl j) ->
  exists desc',
    ring_add_loop bld (length use) vq desc (hd VQ_RING_DESC_CHAIN_END (use ++ rest)) i buf_list
      readable needed = Ok (desc', hd VQ_RING_DESC_CHAIN_END rest) /\
    (use <> [] -> chain_path desc' use bs) /\
    (forall j, (j ∉ use) -> zget desc' j = zget desc j) /\ zlen desc' = zlen desc.
Proof.
  revert desc i bl bs. induction use as [|x use IH]; intros desc i bl bs Hnd Hend Hf Hlen Hb Hi Hn Hbl.
  { exists desc. done. }
  destruct bl as [|b bl]; [done|]. destruct bs as [|[[a l] w] bs]; [done|].
  destruct Hb as (Ha & -> & -> & Hb). cbn [app] in Hnd, Hf.
  destruct Hf as [(d & Hd & Hnext) Hf]. apply list.NoDup_cons in Hnd as [Hx Hnd].
  rewrite not_elem_of_cons in Hend. destruct Hend as [Hxe Hend].
  pose proof (zget_Some_lt _ _ _ Hd) as Hlt. rewrite zlen_cons in Hn.
  set (d' := mk_desc a (u32 (vb_len b)) (dflags (i <? needed - 1) (readable <=? i)) (d_next d)).
  assert (Hone : zget buf_list i = Some b).
  { specialize (Hbl 0 ltac:(lia)). by rewrite Z.add_0_r in Hbl. }
  destruct (IH (zset desc x d') (i + 1) bl bs) as (desc' & Hrun & Hc & Hsame & Hl); try done.
  - apply (free_path_ext desc); [|done]. intros k Hk. apply zget_zset_ne. by intros ->.
  - cbn in Hlen. lia.
  - lia.
  - lia.
  - intros j Hj. replace (i + 1 + j) with (i + (j + 1)) by lia. rewrite Hbl by lia.
    rewrite zget_cons_S by lia. f_equal. lia.
  - exists desc'. split; [|split; [|split]].
    + cbn [ring_add_loop app hd length]. rewrite vqassert_ne by done. cbn [mbind res_bind].
      rewrite (rget_Some _ _ _ Hd). cbn [mbind res_bind]. rewrite (rget_Some _ _ _ Hone).
      cbn [mbind res_bind]. unfold virtqueue_virt_to_phys. rewrite Ha. cbn [mbind res_bind].
      rewrite add_flags. rewrite rset_ok by done. cbn [mbind res_bind]. rewrite Hnext at 2. exact Hrun.
    + intros _. exists (d_next d). rewrite Hsame by (intros Hin; apply Hx, elem_of_app; by left).
      rewrite zget_zset_eq by done. unfold d'. cbn in Hlen. destruct use as [|y use].
      * destruct bl; [|done]. destruct bs; [|done]. cbn in Hn. split; [|done]. do 3 f_equal.
        rewrite Hn. apply Z.ltb_ge. change (zlen (@nil virtqueue_buf)) with 0. lia.
      * split; [|split; [done|by apply Hc]]. do 3 f_equal. rewrite bool_decide_true by done.
        apply Z.ltb_lt. destruct bl; [done|]. rewrite zlen_cons in Hn. pose proof (zlen_nonneg bl). lia.
    + intros j [Hjx Hj]%not_elem_of_cons. rewrite Hsame by done. by apply zget_zset_ne.
    + by rewrite Hl, zlen_zset.
Qed.

Lemma free_chain_loop_spec bld vq desc idxs bufs n fuel nd :
  vq_nentries vq = n -> chain_path desc idxs bufs -> Forall (fun i => 0 <= i < n) idxs ->
  (length idxs <= fuel)%nat -> zlen idxs - 1 <= nd < 65536 ->
  exists last,
    free_chain_loop bld fuel vq desc (hd VQ_RING_DESC_CHAIN_END idxs) nd
      = Ok (last, nd - (zlen idxs - 1)) /\
    list.last idxs = Some last /\ is_Some (zget desc last).
Proof.
  intros Hn. revert idxs bufs nd.
  induction fuel as [|fuel IH]; intros idxs bufs nd Hc Hr Hfuel Hnd.
  { destruct idxs; [done|cbn in Hfuel; lia]. }
  destruct idxs as [|i idxs], bufs as [|[[a l] w] bufs]; try done.
  destruct Hc as (nx & Hi & Hc). cbn [hd free_chain_loop].
  rewrite (rget_Some _ _ _ Hi). cbn [mbind res_bind d_flags d_next].
  rewrite dflags_next. rewrite zlen_cons in *. destruct idxs as [|j idxs].
  - rewrite bool_decide_false by (by intros H). exists i.
    change (zlen (@nil Z)) with 0. replace (nd - (1 + 0 - 1)) with nd by lia. eauto.
  - rewrite bool_decide_true by done. destruct Hc as [-> Hc].
    apply Forall_cons_1 in Hr as [_ Hr]. pose proof (Forall_cons_1 _ _ _ Hr) as [Hj _].
    unfold VQ_RING_ASSERT_VALID_IDX. rewrite vqassert_lt by lia. cbn [mbind res_bind].
    rewrite zlen_cons in *. pose proof (zlen_nonneg idxs).
    rewrite u16_id by (unfold is_u16; lia).
    destruct (IH (j :: idxs) bufs (nd - 1)) as (last & Hrun & Hl & Hs); try done.
    + cbn in *. lia.
    + rewrite zlen_cons. lia.
    + exists last. cbn [hd] in Hrun. rewrite Hrun, zlen_cons, last_cons_cons.
      split; [do 2 f_equal; lia|done].
Qed.
