(* ===== verification/VirtqueueRefine.v ===== *)
(** * The virtqueue operations refine the abstract queue

    One lemma per operation: from related states the C code does not fault,
    returns what the abstract operation returns and ends in related states, in
    the debug and in the release build. *)

From S2P Require Import Prelude MetalUtil MetalIo Vring Virtqueue VirtqueueInv.

(** What no operation after the creation changes. *)
Definition vq_conf (vq : virtqueue) : Z * Z * Z * metal_io_region :=
  (vq_nentries vq, vq_callback vq, vq_notify vq, vq_shm_io vq).

(** Step over an instruction of the [res] monad whose result was rewritten. *)
Ltac rstep := cbn [mbind res_bind].

Lemma busy_ok bld vq :
  vq_inuse vq = false -> VQUEUE_BUSY bld vq = Ok (set_inuse vq (VQUEUE_DEBUG bld)).
Proof.
  intros H. unfold VQUEUE_BUSY, VQASSERT. rewrite H.
  destruct (VQUEUE_DEBUG bld); [done|]. destruct vq; cbn in *. by subst.
Qed.

Lemma idle_ok bld vq :
  vq_inuse vq = VQUEUE_DEBUG bld -> VQUEUE_IDLE bld vq = set_inuse vq false.
Proof.
  intros H. unfold VQUEUE_IDLE. destruct (VQUEUE_DEBUG bld); [done|].
  destruct vq; cbn in *. by subst.
Qed.

(** ** Consequences of the invariant *)

Lemma length_bind_ge {A B} (f : A -> list B) (l : list A) :
  Forall (fun x => f x <> []) l -> (length l <= length (l ≫= f))%nat.
Proof.
  induction 1 as [|x l Hx Hl IH]; [done|]. rewrite bind_cons, length_app.
  destruct (f x); [done|]. cbn [length]. lia.
Qed.

Section relation.
Context {n : Z} {q : queue} {ring : vring}.
Hypothesis H : ring_rel n q ring.

Lemma rel_nodup : NoDup (q_free q ++ (q_live q ≫= c_idxs)).
Proof. rewrite (rr_perm _ _ _ H). apply NoDup_zseq. Qed.

Lemma rel_pos : 0 < n.
Proof. apply pow2_pos, (rr_pow2 _ _ _ H). Qed.

Lemma rel_range i : i ∈ q_free q ++ (q_live q ≫= c_idxs) -> 0 <= i < n.
Proof.
  rewrite (rr_perm _ _ _ H), elem_of_zseq. pose proof rel_pos. lia.
Qed.

Lemma rel_free_range i : i ∈ q_free q -> 0 <= i < n.
Proof. intros Hi. apply rel_range, elem_of_app. by left. Qed.

Lemma rel_live_range c i : c ∈ q_live q -> i ∈ c_idxs c -> 0 <= i < n.
Proof.
  intros Hc Hi. apply rel_range, elem_of_app. right. apply list_elem_of_bind. eauto.
Qed.

Lemma rel_free_live i c : i ∈ q_free q -> c ∈ q_live q -> i ∉ c_idxs c.
Proof.
  intros Hi Hc Hin. destruct (proj1 (list.NoDup_app _ _) rel_nodup) as (_ & Hd & _).
  apply (Hd i Hi), list_elem_of_bind. eauto.
Qed.

Lemma rel_path c : c ∈ q_live q -> chain_path (r_desc ring) (c_idxs c) (c_bufs c).
Proof. intros Hc. exact (proj1 (list.Forall_forall _ _) (rr_chains _ _ _ H) c Hc). Qed.

Lemma rel_head_in c : c ∈ q_live q -> c_head c ∈ c_idxs c.
Proof.
  intros (i & rest & E)%rel_path%chain_path_nonempty. unfold c_head. rewrite E. constructor.
Qed.

Lemma rel_head_range c : c ∈ q_live q -> 0 <= c_head c < n.
Proof. intros Hc. eapply rel_live_range; [done|]. by apply rel_head_in. Qed.

Lemma rel_count : zlen (q_free q) + zlen (q_live q ≫= c_idxs) = n.
Proof.
  pose proof (Permutation_length (rr_perm _ _ _ H)) as E.
  rewrite length_app, length_zseq in E. pose proof rel_pos. unfold zlen. lia.
Qed.

Lemma rel_count_le : zlen (q_free q) + zlen (q_live q) <= n.
Proof.
  pose proof rel_count as E. enough (zlen (q_live q) <= zlen (q_live q ≫= c_idxs)) by lia.
  unfold zlen. apply inj_le, length_bind_ge, list.Forall_forall. intros c Hc.
  destruct (chain_path_nonempty _ _ _ (rel_path c Hc)) as (i & rest & ->). done.
Qed.

Lemma live_split :
  zlen (q_live q) = zlen (q_avail q) + zlen (q_held q) + zlen (q_used q).
Proof. unfold q_live, zlen. rewrite !length_app, length_fmap. lia. Qed.

Lemma rel_bounds :
  0 <= zlen (q_avail q) /\ 0 <= zlen (q_held q) /\ 0 <= zlen (q_used q) /\
  0 <= zlen (q_free q) /\
  zlen (q_free q) + zlen (q_avail q) + zlen (q_held q) + zlen (q_used q) <= n /\ n <= 32768.
Proof.
  pose proof rel_count_le. rewrite live_split in *. pose proof (rr_max _ _ _ H).
  unfold VQ_RING_DESC_CHAIN_END in *. unfold zlen in *. lia.
Qed.

Lemma rel_slot_bound z : 0 <= z mod n < n.
Proof. apply Z.mod_pos_bound, rel_pos. Qed.

Lemma rel_mask z : Z.land (u16 z) (n - 1) = z mod n.
Proof. apply land_mask_u16; [apply H|apply H]. Qed.
End relation.

(** ** Adding a chain *)

Lemma q_live_add q bs cookie :
  q_live (q_add q bs cookie) ≡ₚ
    mk_chain (take (length bs) (q_free q)) bs cookie :: q_live q.
Proof. unfold q_live, q_add. cbn. rewrite <- app_assoc. cbn. symmetry. apply Permutation_middle. Qed.

Lemma descx_ok_perm n live live' descx :
  live ≡ₚ live' -> descx_ok n live descx -> descx_ok n live' descx.
Proof.
  intros Hp [H1 H2 H3]. split; [done| |].
  - intros c Hc. apply H2. by rewrite Hp.
  - intros i Hi Hc. apply H3; [done|]. intros c' Hc'. apply Hc. by rewrite <- Hp.
Qed.

Lemma descx_ok_add n live descx c nd :
  descx_ok n live descx -> 0 <= c_head c < n -> (forall c', c' ∈ live -> c_head c' <> c_head c) ->
  nd = zlen (c_idxs c) ->
  descx_ok n (c :: live) (zset descx (c_head c) (mk_dextra (c_cookie c) nd)).
Proof.
  intros [H1 H2 H3] Hh Hd ->. split.
  - by rewrite zlen_zset.
  - intros c' [->|Hc']%elem_of_cons; [apply zget_zset_eq; lia|].
    rewrite zget_zset_ne; [by apply H2|]. by apply not_eq_sym, Hd.
  - intros i Hi Hc'. rewrite zget_zset_ne by (apply Hc'; constructor).
    apply H3; [done|]. intros c'' Hc''. apply Hc'. by constructor.
Qed.

Lemma ring_rel_add n q ring bs cookie desc' :
  ring_rel n q ring ->
  let use := take (length bs) (q_free q) in
  (0 < length bs)%nat -> (length bs <= length (q_free q))%nat ->
  chain_path desc' use bs -> (forall j, (j ∉ use) -> zget desc' j = zget (r_desc ring) j) ->
  zlen desc' = zlen (r_desc ring) ->
  ring_rel n (q_add q bs cookie)
    (mk_vring desc'
       (mk_avail (avail_flags (r_avail ring)) (u16 (avail_idx (r_avail ring) + 1))
          (zset (avail_ring (r_avail ring)) (q_added q mod n) (hd VQ_RING_DESC_CHAIN_END (q_free q)))
          (used_event (r_avail ring)))
       (r_used ring)).
Proof.
  intros H use Hpos Hle Hc Hsame Hlen. pose proof (rel_bounds H) as Hb.
  pose proof (rel_nodup H) as Hnd. rewrite <- (take_drop (length bs) (q_free q)) in Hnd at 1.
  fold use in Hnd. apply list.NoDup_app in Hnd as (Hfd & _ & _).
  apply list.NoDup_app in Hfd as (_ & Hfd & _).
  assert (Huse : forall i, i ∈ use -> i ∈ q_free q).
  { intros i Hi. rewrite <- (take_drop (length bs) (q_free q)). apply elem_of_app. by left. }
  assert (Hh : hd VQ_RING_DESC_CHAIN_END (q_free q) = hd VQ_RING_DESC_CHAIN_END use).
  { subst use. destruct (length bs); [lia|]. by destruct (q_free q). }
  split; cbn [r_desc r_avail r_used avail_ring avail_idx]; try apply H.
  - by rewrite Hlen, (rr_desc_len _ _ _ H).
  - rewrite zlen_zset. apply H.
  - rewrite q_live_add, bind_cons. cbn [q_add q_free c_idxs]. fold use.
    rewrite app_assoc, (Permutation_app_comm (drop _ _) use). subst use.
    rewrite take_drop. apply H.
  - rewrite q_live_add. apply list.Forall_cons. split; [exact Hc|].
    apply list.Forall_forall. intros c Hc'. apply (chain_path_ext (r_desc ring)).
    + intros i Hi. apply Hsame. intros Hu. apply Huse in Hu. by apply (rel_free_live H i c).
    + by apply (rel_path H).
  - apply (free_path_ext (r_desc ring)).
    + intros i Hi. apply Hsame. intros Hu. by apply (Hfd i Hu).
    + cbn [q_add q_free]. pose proof (rr_free _ _ _ H) as Hf.
      rewrite <- (take_drop (length bs) (q_free q)) in Hf. revert Hf. fold use.
      generalize use. intros u. induction u as [|x u IH]; [done|]. intros [_ ?]. auto.
  - rewrite (rr_avail_idx _ _ _ H), u16_add_l. unfold q_added, q_taken, q_cons, q_add. cbn.
    rewrite zlen_app. change (zlen [_]) with 1. f_equal. lia.
  - cbn [q_add q_avail]. rewrite fmap_app. unfold q_added.
    replace (zlen (q_avail q)) with (zlen (c_head <$> q_avail q)) by (unfold zlen; by rewrite length_fmap).
    cbn [fmap list_fmap]. unfold c_head at 2. cbn [c_idxs]. rewrite Hh.
    apply in_slots_push; [apply (rel_pos H)|apply H| |apply H].
    unfold zlen. rewrite length_fmap. unfold zlen in Hb. lia.
Qed.

Lemma param_chk_ok bld c s e : c = false -> VQ_PARAM_CHK bld c s e = s.
Proof. intros ->. unfold VQ_PARAM_CHK. by rewrite andb_false_r. Qed.

(** The state the driver's virtqueue is left in by a successful addition. *)
Definition add_result (bld : build) (drv : virtqueue) (descx : list vq_desc_extra) (head needed : Z)
  : virtqueue :=
  set_inuse
    (set_queued_cnt
       (set_free_cnt
          (set_desc_head_idx (set_descx (set_inuse drv (VQUEUE_DEBUG bld)) descx) head)
          (u16 (vq_free_cnt drv - needed)))
       (u16 (vq_queued_cnt drv + 1))) false.

Lemma drv_rel_add bld n q ring drv bs cookie :
  ring_rel n q ring -> drv_rel n q drv ->
  (0 < length bs)%nat -> (length bs <= length (q_free q))%nat ->
  drv_rel n (q_add q bs cookie)
    (add_result bld drv
       (zset (vq_descx drv) (vq_desc_head_idx drv) (mk_dextra cookie (zlen bs)))
       (hd VQ_RING_DESC_CHAIN_END (drop (length bs) (q_free q))) (zlen bs)).
Proof.
  intros H [D1 D2 D3 D4 D5 D6] Hpos Hle. pose proof (rel_bounds H) as Hb.
  split; cbn; try done.
  - rewrite D2, u16_id by (unfold is_u16, zlen in *; lia).
    unfold zlen. rewrite length_drop. lia.
  - set (c := mk_chain (take (length bs) (q_free q)) bs cookie).
    apply (descx_ok_perm _ (c :: q_live q)); [symmetry; apply q_live_add|].
    assert (Hh : vq_desc_head_idx drv = c_head c).
    { rewrite D3. unfold c, c_head. cbn. destruct (length bs); [lia|]. by destruct (q_free q). }
    assert (Hin : c_head c ∈ q_free q).
    { rewrite <- Hh, D3. destruct (q_free q); [cbn in Hle; lia|constructor]. }
    rewrite Hh. apply (descx_ok_add n (q_live q) (vq_descx drv) c); [done| | |].
    + by apply (rel_free_range H).
    + intros c' Hc' E. apply (rel_free_live H _ _ Hin Hc'). rewrite <- E. by apply (rel_head_in H).
    + unfold zlen. cbn. rewrite length_take. lia.
Qed.

Lemma free_nonempty (l : list Z) : (0 < length l)%nat -> exists x l', l = x :: l'.
Proof. destruct l; [cbn; lia|eauto]. Qed.

Lemma hd_drop_range n q ring k :
  ring_rel n q ring -> (k < length (q_free q))%nat ->
  hd VQ_RING_DESC_CHAIN_END (drop k (q_free q)) < n.
Proof.
  intros H Hk. destruct (drop k (q_free q)) as [|x l] eqn:E.
  { apply (f_equal length) in E. rewrite length_drop in E. cbn in E. lia. }
  cbn. apply (rel_free_range H). rewrite <- (take_drop k (q_free q)), E.
  apply elem_of_app. right. constructor.
Qed.

Lemma free_head_clear n q ring drv :
  ring_rel n q ring -> drv_rel n q drv -> (0 < length (q_free q))%nat ->
  0 <= vq_desc_head_idx drv < n /\
  exists dx, zget (vq_descx drv) (vq_desc_head_idx drv) = Some dx /\ dx_cookie dx = 0.
Proof.
  intros H [D1 D2 D3 D4 D5 D6] Hl. rewrite D3.
  assert (Hin : hd VQ_RING_DESC_CHAIN_END (q_free q) ∈ q_free q)
    by (destruct (q_free q); [cbn in Hl; lia|constructor]).
  split; [by apply (rel_free_range H)|]. apply (dx_clear _ _ _ D6); [by apply (rel_free_range H)|].
  intros c Hc Eh. apply (rel_free_live H _ c Hin Hc). rewrite <- Eh. by apply (rel_head_in H).
Qed.

Lemma add_ring_run bld n q ring vq bl bs readable writable :
  ring_rel n q ring -> bufs_of (vq_shm_io vq) 0 readable bl bs ->
  zlen bs = readable + writable -> (length bs <= length (q_free q))%nat ->
  exists desc',
    vq_ring_add_buffer bld vq (r_desc ring) (hd VQ_RING_DESC_CHAIN_END (q_free q)) bl readable
      writable = Ok (desc', hd VQ_RING_DESC_CHAIN_END (drop (length bs) (q_free q))) /\
    ((0 < length bs)%nat -> chain_path desc' (take (length bs) (q_free q)) bs) /\
    (forall j, (j ∉ take (length bs) (q_free q)) -> zget desc' j = zget (r_desc ring) j) /\
    zlen desc' = zlen (r_desc ring).
Proof.
  intros H Hbs Hneed Hle. pose proof (bufs_of_length _ _ _ _ _ Hbs) as Hlen.
  pose proof (take_drop (length bs) (q_free q)) as Htd. pose proof (rel_bounds H).
  destruct (ring_add_loop_spec bld vq bl readable (readable + writable)
    (take (length bs) (q_free q)) (drop (length bs) (q_free q)) (r_desc ring) 0 bl bs)
    as (desc' & Hrun & Hpath & Hsame & Hdl).
  { rewrite Htd. pose proof (rel_nodup H) as Hnd. by apply list.NoDup_app in Hnd as [? _]. }
  { intros Hx. assert (Hx' : VQ_RING_DESC_CHAIN_END ∈ q_free q)
      by (rewrite <- Htd; apply elem_of_app; by left).
    apply (rel_free_range H) in Hx'. unfold VQ_RING_DESC_CHAIN_END in Hx'. lia. }
  { rewrite Htd. apply H. }
  { rewrite length_take. lia. }
  { exact Hbs. } { lia. } { unfold zlen in *. lia. } { done. }
  exists desc'. split; [|split; [|done]].
  - rewrite Htd, length_take_le in Hrun by done. unfold vq_ring_add_buffer.
    by replace (Z.to_nat (readable + writable)) with (length bs) by (unfold zlen in *; lia).
  - intros Hl. apply Hpath. intros E. apply (f_equal length) in E.
    rewrite length_take in E. cbn in E. lia.
Qed.

Lemma free_term_assert bld vq idx :
  vq_desc_head_idx vq = idx -> (vq_free_cnt vq = 0 -> idx = VQ_RING_DESC_CHAIN_END) ->
  (vq_free_cnt vq <> 0 -> idx < vq_nentries vq) ->
  (if vq_free_cnt vq =? 0 then VQ_RING_ASSERT_CHAIN_TERM bld vq
   else VQ_RING_ASSERT_VALID_IDX bld vq idx) = Ok tt.
Proof.
  intros <- H0 H1. unfold VQ_RING_ASSERT_CHAIN_TERM, VQ_RING_ASSERT_VALID_IDX.
  zcase; [apply vqassert_eq|apply vqassert_lt]; auto.
Qed.

Lemma update_avail_run n q ring vq desc' head :
  ring_rel n q ring -> vq_nentries vq = n ->
  vq_ring_update_avail vq (ring_set_desc ring desc') head =
    Ok (set_queued_cnt vq (u16 (vq_queued_cnt vq + 1)),
        mk_vring desc'
          (mk_avail (avail_flags (r_avail ring)) (u16 (avail_idx (r_avail ring) + 1))
             (zset (avail_ring (r_avail ring)) (q_added q mod n) head)
             (used_event (r_avail ring)))
          (r_used ring)).
Proof.
  intros H Hn. unfold vq_ring_update_avail. cbn [ring_set_desc r_avail].
  rewrite Hn, (rr_avail_idx _ _ _ H), (rel_mask H).
  rewrite rset_ok by (rewrite (rr_avail_len _ _ _ H); apply (rel_slot_bound H)). done.
Qed.

Lemma free_tail n q ring drv k :
  ring_rel n q ring -> drv_rel n q drv -> (k <= length (q_free q))%nat ->
  let idx := hd VQ_RING_DESC_CHAIN_END (drop k (q_free q)) in
  (u16 (vq_free_cnt drv - Z.of_nat k) = 0 -> idx = VQ_RING_DESC_CHAIN_END) /\
  (u16 (vq_free_cnt drv - Z.of_nat k) <> 0 -> idx < vq_nentries drv).
Proof.
  intros H D Hk. pose proof (rel_bounds H) as Hb. cbn zeta.
  rewrite (dr_free _ _ _ D), u16_id by (unfold is_u16, zlen in *; lia).
  split; intros Hz.
  - by rewrite drop_ge by (unfold zlen in *; lia).
  - rewrite (dr_n _ _ _ D). apply (hd_drop_range n q ring); [done|unfold zlen in *; lia].
Qed.

Lemma add_buffer_refines bld n q drv devq ring bl bs readable writable cookie :
  vq_rel n q drv devq ring ->
  bufs_of (vq_shm_io drv) 0 readable bl bs -> zlen bs = readable + writable ->
  1 <= zlen bs <= zlen (q_free q) -> cookie <> 0 ->
  exists drv' ring',
    virtqueue_add_buffer bld drv ring bl readable writable cookie
      = Ok (VQUEUE_SUCCESS, drv', ring') /\
    vq_rel n (q_add q bs cookie) drv' devq ring' /\ vq_conf drv' = vq_conf drv.
Proof.
  intros [H D E] Hbs Hneed Hfit Hck. pose proof D as [D1 D2 D3 D4 D5 D6].
  pose proof (rel_bounds H) as Hb.
  assert (Hl1 : (0 < length bs)%nat) by (unfold zlen in *; lia).
  assert (Hl2 : (length bs <= length (q_free q))%nat) by (unfold zlen in *; lia).
  destruct (free_head_clear _ _ _ _ H D ltac:(lia)) as (Hhr & dx & Hdx & Hdx0).
  pose proof (drv_rel_add bld _ _ _ _ bs cookie H D Hl1 Hl2) as Hdrv.
  set (descx := zset (vq_descx drv) (vq_desc_head_idx drv) (mk_dextra cookie (zlen bs))) in *.
  set (vq1 := set_descx (set_inuse drv (VQUEUE_DEBUG bld)) descx).
  destruct (add_ring_run bld n q ring vq1 bl bs readable writable H Hbs Hneed Hl2)
    as (desc' & Hrun & Hpath & Hsame & Hdl).
  pose proof (free_tail _ _ _ _ (length bs) H D Hl2) as Htail. fold (zlen bs) in Htail.
  eexists _, _. split; [|split; [split|]].
  - unfold virtqueue_add_buffer. rewrite !param_chk_ok by (apply Z.ltb_ge; lia).
    run (by apply busy_ok). change (VQUEUE_SUCCESS =? VQUEUE_SUCCESS) with true. cbn iota.
    eapply bind_ok.
    { run (by apply vqassert_ne).
      run (apply vqassert_lt; change (vq_desc_head_idx drv < vq_nentries drv); lia).
      run (exact (rget_Some _ _ _ Hdx)).
      run (by apply vqassert_eq).
      run (apply rset_ok; exact (zget_Some_lt _ _ _ Hdx)).
      rewrite <- Hneed, (u16_id (zlen bs)) by (unfold is_u16; lia). fold descx vq1.
      run (rewrite <- D3 in Hrun; exact Hrun).
      run (apply free_term_assert; [done|exact (proj1 Htail)|exact (proj2 Htail)]).
      apply (update_avail_run n q ring); [done|exact D1]. }
    cbv beta iota. by rewrite idle_ok.
  - change (vq_desc_head_idx (set_inuse drv _)) with (vq_desc_head_idx drv).
    rewrite D3. by apply ring_rel_add; auto.
  - exact Hdrv.
  - destruct E. by split.
  - done.
Qed.

(** ** Reclaiming a chain *)

Definition q_rest (q : queue) (rest : list (chain * Z)) (c : chain) : queue :=
  mk_queue (q_avail q) (q_held q) rest (c_idxs c ++ q_free q) (q_recl q + 1).

Lemma q_live_reclaim q c len rest :
  q_used q = (c, len) :: rest -> q_live q ≡ₚ c :: q_live (q_rest q rest c).
Proof.
  intros E. unfold q_live, q_rest. cbn. rewrite E. cbn.
  rewrite app_assoc, <- Permutation_middle, <- app_assoc. done.
Qed.

Lemma descx_ok_remove n c live descx nd :
  descx_ok n (c :: live) descx -> 0 <= c_head c < n ->
  (forall c', c' ∈ live -> c_head c' <> c_head c) ->
  descx_ok n live (zset descx (c_head c) (mk_dextra 0 nd)).
Proof.
  intros [H1 H2 H3] Hh Hd. split.
  - by rewrite zlen_zset.
  - intros c' Hc'. rewrite zget_zset_ne by (apply not_eq_sym; auto).
    apply H2. by constructor.
  - intros i Hi Hc'. destruct (decide (i = c_head c)) as [->|Hne].
    + exists (mk_dextra 0 nd). split; [|done]. apply zget_zset_eq. lia.
    + rewrite zget_zset_ne by done. apply H3; [done|].
      intros c'' [->|Hc'']%elem_of_cons; auto.
Qed.

(** The chains left are disjoint from the chain taken out. *)
Lemma rel_disjoint n q ring c live :
  ring_rel n q ring -> q_live q ≡ₚ c :: live ->
  forall c', c' ∈ live -> forall i, i ∈ c_idxs c -> i ∉ c_idxs c'.
Proof.
  intros H Hp c' Hc' i Hi Hi'. pose proof (rel_nodup H) as Hnd.
  apply list.NoDup_app in Hnd as (_ & _ & Hnd). rewrite Hp, bind_cons in Hnd.
  apply list.NoDup_app in Hnd as (_ & Hd & _). apply (Hd i Hi), list_elem_of_bind. eauto.
Qed.

Lemma ring_rel_reclaim n q ring c len rest last d :
  ring_rel n q ring -> q_used q = (c, len) :: rest ->
  list.last (c_idxs c) = Some last -> zget (r_desc ring) last = Some d ->
  ring_rel n (q_rest q rest c)
    (ring_set_desc ring
       (zset (r_desc ring) last
          (mk_desc (d_addr d) (d_len d) (d_flags d) (hd VQ_RING_DESC_CHAIN_END (q_free q))))).
Proof.
  intros H E Hlast Hd. pose proof (q_live_reclaim _ _ _ _ E) as Hp.
  assert (Hc : c ∈ q_live q) by (rewrite Hp; constructor).
  pose proof (rel_disjoint _ _ _ _ _ H Hp) as Hdis. apply last_Some_elem_of in Hlast as Hin.
  split; cbn [ring_set_desc r_desc r_avail r_used]; try apply H.
  - rewrite zlen_zset. apply H.
  - rewrite <- (rr_perm _ _ _ H), Hp, bind_cons. cbn [q_rest q_free].
    by rewrite (Permutation_app_comm (c_idxs c) (q_free q)), <- app_assoc.
  - apply list.Forall_forall. intros c' Hc'. apply (chain_path_ext (r_desc ring)).
    + intros i Hi. apply zget_zset_ne. intros <-. by apply (Hdis c' Hc' last).
    + apply (rel_path H). rewrite Hp. by constructor.
  - apply (chain_to_free _ _ (c_bufs c)); [by apply (rel_path H)| |done|done|apply H].
    pose proof (rel_nodup H) as Hnd. rewrite Hp, bind_cons, app_assoc in Hnd.
    apply list.NoDup_app in Hnd as (Hnd & _ & _).
    by rewrite (Permutation_app_comm (q_free q)) in Hnd.
  - rewrite (rr_avail_idx _ _ _ H). unfold q_added, q_taken, q_cons, q_rest. cbn.
    rewrite E, zlen_cons. f_equal. lia.
  - rewrite (rr_used_idx _ _ _ H). unfold q_cons, q_rest. cbn. rewrite E, zlen_cons. f_equal. lia.
  - pose proof (rr_avail _ _ _ H) as Ha. unfold q_taken, q_cons, q_rest in *. cbn.
    rewrite E, zlen_cons in Ha. by replace (q_recl q + 1 + zlen rest) with (q_recl q + (1 + zlen rest)) by lia.
  - pose proof (rr_used _ _ _ H) as Hu. rewrite E in Hu. cbn [fmap list_fmap] in Hu.
    by apply in_slots_pop in Hu as [_ Hu].
Qed.

Lemma chain_size n q ring c :
  ring_rel n q ring -> c ∈ q_live q -> 1 <= zlen (c_idxs c) /\ zlen (c_idxs c) + zlen (q_free q) <= n.
Proof.
  intros H Hc. destruct (chain_path_nonempty _ _ _ (rel_path H c Hc)) as (i & r & E).
  split; [rewrite E, zlen_cons; pose proof (zlen_nonneg r); lia|].
  pose proof (rel_count H) as Hn. destruct (proj1 (elem_of_Permutation _ _) Hc) as [live Hp].
  rewrite Hp, bind_cons, zlen_app in Hn. pose proof (zlen_nonneg (live ≫= c_idxs)). lia.
Qed.

Lemma free_chain_run bld n q ring vq c :
  ring_rel n q ring -> c ∈ q_live q -> vq_nentries vq = n ->
  vq_free_cnt vq = zlen (q_free q) ->
  vq_desc_head_idx vq = hd VQ_RING_DESC_CHAIN_END (q_free q) ->
  zget (vq_descx vq) (c_head c) = Some (mk_dextra (c_cookie c) (zlen (c_idxs c))) ->
  exists last d,
    vq_ring_free_chain bld vq ring (c_head c) =
      Ok (set_desc_head_idx
            (set_descx (set_free_cnt vq (zlen (c_idxs c) + zlen (q_free q)))
               (zset (vq_descx vq) (c_head c) (mk_dextra (c_cookie c) 0))) (c_head c),
          ring_set_desc ring
            (zset (r_desc ring) last
               (mk_desc (d_addr d) (d_len d) (d_flags d) (hd VQ_RING_DESC_CHAIN_END (q_free q))))) /\
    list.last (c_idxs c) = Some last /\ zget (r_desc ring) last = Some d.
Proof.
  intros H Hc Hn Hf Hh Hdx. pose proof (rel_bounds H) as Hb.
  destruct (chain_size _ _ _ _ H Hc) as [Hs1 Hs2].
  destruct (chain_path_head _ _ _ (rel_path H c Hc)) as (a & l & w & bs & more & nx & _ & Hdp).
  pose proof (rr_desc_len _ _ _ H) as Hdl.
  set (vq1 := set_free_cnt vq (zlen (c_idxs c) + zlen (q_free q))).
  destruct (free_chain_loop_spec bld vq1 (r_desc ring) (c_idxs c) (c_bufs c) n
    (length (r_desc ring)) (zlen (c_idxs c) - 1)) as (last & Hloop & Hlast & d & Hd); try done.
  { by apply (rel_path H). }
  { apply list.Forall_forall. intros i Hi. by apply (rel_live_range H c). }
  { unfold zlen in *. lia. } { lia. }
  exists last, d. split; [|done]. unfold vq_ring_free_chain, VQ_RING_ASSERT_VALID_IDX.
  pose proof (rel_head_range H c Hc).
  run (apply vqassert_lt; lia). run (exact (rget_Some _ _ _ Hdp)). run (exact (rget_Some _ _ _ Hdx)).
  eapply (bind_ok _ _ tt).
  { unfold VQ_RING_ASSERT_CHAIN_TERM. zcase; [|done]. apply vqassert_eq. rewrite Hh.
    destruct (q_free q) as [|z fl]; [done|]. rewrite zlen_cons in *. pose proof (zlen_nonneg fl). lia. }
  cbn [dx_ndescs dx_cookie d_flags]. rewrite dflags_indirect, Hf.
  rewrite (u16_id (zlen (q_free q) + _)), (u16_id (_ - 1)) by (unfold is_u16; lia).
  rewrite (Z.add_comm (zlen (q_free q))). fold vq1.
  run (exact Hloop). rewrite Z.sub_diag.
  run (apply rset_ok; exact (zget_Some_lt _ _ _ Hdx)). run (by apply vqassert_eq).
  unfold set_next_at. run (run (exact (rget_Some _ _ _ Hd)); apply rset_ok; exact (zget_Some_lt _ _ _ Hd)).
  change (vq_desc_head_idx vq1) with (vq_desc_head_idx vq). by rewrite Hh.
Qed.

Lemma drv_rel_reclaim n q ring drv c len rest b :
  ring_rel n q ring -> drv_rel n q drv -> q_used q = (c, len) :: rest ->
  let vq := set_used_cons_idx (set_inuse drv b) (u16 (vq_used_cons_idx drv + 1)) in
  drv_rel n (q_rest q rest c)
    (set_inuse
       (set_descx
          (set_desc_head_idx
             (set_descx (set_free_cnt vq (zlen (c_idxs c) + zlen (q_free q)))
                (zset (vq_descx vq) (c_head c) (mk_dextra (c_cookie c) 0))) (c_head c))
          (zset (zset (vq_descx vq) (c_head c) (mk_dextra (c_cookie c) 0)) (c_head c) (mk_dextra 0 0)))
       false).
Proof.
  intros H [D1 D2 D3 D4 D5 D6] E. pose proof (q_live_reclaim _ _ _ _ E) as Hp.
  assert (Hc : c ∈ q_live q) by (rewrite Hp; constructor).
  destruct (chain_path_nonempty _ _ _ (rel_path H c Hc)) as (i & r & Ei).
  split; cbn.
  - done.
  - by rewrite zlen_app.
  - unfold c_head. by rewrite Ei.
  - rewrite D4, u16_add_l. done.
  - done.
  - rewrite zset_zset. apply descx_ok_remove.
    + by apply (descx_ok_perm _ (q_live q)).
    + by apply (rel_head_range H).
    + intros c' Hc' Eh. apply (rel_disjoint _ _ _ _ _ H Hp c' Hc' (c_head c)).
      * by apply (rel_head_in H).
      * rewrite <- Eh. apply (rel_head_in H). rewrite Hp. by constructor.
Qed.

Lemma dev_rel_reclaim n q devq c len rest :
  dev_rel n q devq -> q_used q = (c, len) :: rest -> dev_rel n (q_rest q rest c) devq.
Proof.
  intros [E1 E2 E3] E. split; [done| |done]. rewrite E2. unfold q_taken, q_cons, q_rest. cbn.
  rewrite E, zlen_cons. f_equal. lia.
Qed.

Lemma get_buffer_refines bld n q drv devq ring :
  vq_rel n q drv devq ring ->
  match q_reclaim q with
  | None => virtqueue_get_buffer bld drv ring = Ok (drv, ring, None)
  | Some (c, len, q') =>
      exists drv' ring',
        virtqueue_get_buffer bld drv ring
          = Ok (drv', ring', Some (c_cookie c, len, q_recl q mod n)) /\
        vq_rel n q' drv' devq ring' /\ vq_conf drv' = vq_conf drv
  end.
Proof.
  intros [H D E]. pose proof D as [D1 D2 D3 D4 D5 D6]. pose proof (rel_bounds H) as Hb.
  unfold q_reclaim. destruct (q_used q) as [|[c len] rest] eqn:Eu.
  { unfold virtqueue_get_buffer. rewrite D4, (rr_used_idx _ _ _ H). unfold q_cons.
    rewrite Eu. change (zlen []) with 0. by rewrite Z.add_0_r, Z.eqb_refl. }
  rewrite zlen_cons in Hb. pose proof (zlen_nonneg rest).
  assert (Hc : c ∈ q_live q) by (rewrite (q_live_reclaim _ _ _ _ Eu); constructor).
  pose proof (rel_head_range H c Hc) as Hr.
  pose proof (dx_live _ _ _ D6 c Hc) as Hdx.
  pose proof (rr_used _ _ _ H) as Hu. rewrite Eu in Hu. apply in_slots_pop in Hu as [Hslot _].
  set (vq := set_used_cons_idx (set_inuse drv (VQUEUE_DEBUG bld)) (u16 (vq_used_cons_idx drv + 1))).
  destruct (free_chain_run bld n q ring vq c H Hc D1 D2 D3 Hdx) as (last & d & Hrun & Hlast & Hd).
  eexists _, _. split; [|split; [split|]].
  - unfold virtqueue_get_buffer. rewrite D4, (rr_used_idx _ _ _ H), (proj2 (Z.eqb_neq _ _)).
    2:{ unfold q_cons. rewrite Eu, zlen_cons. apply u16_ne_close. lia. }
    run (by apply busy_ok). cbn [set_inuse vq_used_cons_idx vq_nentries].
    rewrite D1, D4, (rel_mask H). run (exact (rget_Some _ _ _ Hslot)). cbn [ue_id].
    rewrite u16_id by (unfold is_u16; lia). rewrite <- D4.
    run (exact Hrun).
    run (apply rget_Some, zget_zset_eq; exact (zget_Some_lt _ _ _ Hdx)).
    run (apply rset_ok; cbn [set_desc_head_idx set_descx vq_descx]; rewrite zlen_zset;
         exact (zget_Some_lt _ _ _ Hdx)).
    cbn [dx_cookie dx_ndescs ue_len]. by rewrite idle_ok.
  - by apply (ring_rel_reclaim n q ring c len rest).
  - by apply (drv_rel_reclaim n q ring drv c len rest).
  - by apply (dev_rel_reclaim _ _ _ _ len).
  - done.
Qed.

(** ** The device's side *)

Lemma q_live_take q c rest :
  q_avail q = c :: rest ->
  q_live (mk_queue rest (q_held q ++ [c]) (q_used q) (q_free q) (q_recl q)) ≡ₚ q_live q.
Proof.
  intros E. unfold q_live. cbn. rewrite E, <- app_assoc. cbn.
  by rewrite (app_assoc rest), <- Permutation_middle, <- app_assoc.
Qed.

Lemma ring_rel_take n q ring c rest :
  ring_rel n q ring -> q_avail q = c :: rest ->
  ring_rel n (mk_queue rest (q_held q ++ [c]) (q_used q) (q_free q) (q_recl q)) ring.
Proof.
  intros H E. split; try apply H.
  - rewrite (q_live_take _ _ _ E). apply H.
  - rewrite (q_live_take _ _ _ E). apply H.
  - rewrite (rr_avail_idx _ _ _ H). unfold q_added, q_taken, q_cons. cbn.
    rewrite E, zlen_app, zlen_cons. change (zlen [c]) with 1. f_equal. lia.
  - pose proof (rr_avail _ _ _ H) as Ha. rewrite E in Ha. apply in_slots_pop in Ha as [_ Ha].
    unfold q_taken, q_cons in *. cbn. rewrite zlen_app. change (zlen [c]) with 1.
    by rewrite Z.add_assoc.
Qed.

Lemma drv_rel_same n q q' drv :
  drv_rel n q drv -> q_free q' = q_free q -> q_recl q' = q_recl q -> q_live q' ≡ₚ q_live q ->
  drv_rel n q' drv.
Proof.
  intros [D1 D2 D3 D4 D5 D6] Hf Hr Hl. split; rewrite ?Hf, ?Hr; try done.
  by apply (descx_ok_perm _ (q_live q)).
Qed.

(** The device can translate the first buffer's address. *)
Lemma get_available_refines bld n q drv devq ring :
  vq_rel n q drv devq ring ->
  match q_take q with
  | None => virtqueue_get_available_buffer bld devq ring = Ok (devq, None)
  | Some (c, q') =>
      forall a l w bs buffer, c_bufs c = (a, l, w) :: bs ->
        metal_io_phys_to_virt (vq_shm_io devq) a = Ok buffer ->
        exists devq',
          virtqueue_get_available_buffer bld devq ring = Ok (devq', Some (buffer, c_head c, l)) /\
          vq_rel n q' drv devq' ring /\ vq_conf devq' = vq_conf devq
  end.
Proof.
  intros [H D [E1 E2 E3]]. pose proof (rel_bounds H) as Hb.
  unfold q_take. destruct (q_avail q) as [|c rest] eqn:Ea.
  { unfold virtqueue_get_available_buffer. rewrite E2, (rr_avail_idx _ _ _ H). unfold q_added.
    rewrite Ea. change (zlen []) with 0. by rewrite Z.add_0_r, Z.eqb_refl. }
  intros a l w bs buffer Hbs Hbuf. rewrite zlen_cons in Hb. pose proof (zlen_nonneg rest).
  assert (Hc : c ∈ q_live q) by (unfold q_live; rewrite Ea; constructor).
  destruct (chain_path_head _ _ _ (rel_path H c Hc)) as (a' & l' & w' & bs' & more & nx & Hbs' & Hd).
  rewrite Hbs in Hbs'. injection Hbs' as <- <- <- <-. fold (c_head c) in Hd.
  pose proof (rr_avail _ _ _ H) as Ha. rewrite Ea in Ha. apply in_slots_pop in Ha as [Hslot _].
  eexists. split; [|split; [split|]].
  - unfold virtqueue_get_available_buffer. rewrite E2, (rr_avail_idx _ _ _ H), (proj2 (Z.eqb_neq _ _)).
    2:{ unfold q_added. rewrite Ea, zlen_cons. apply u16_ne_close. lia. }
    run (by apply busy_ok). cbn [set_inuse vq_available_idx vq_nentries].
    rewrite E1, E2, (rel_mask H). run (exact (rget_Some _ _ _ Hslot)).
    unfold virtqueue_get_buffer_addr, virtqueue_get_buffer_length.
    run (run (exact (rget_Some _ _ _ Hd)); exact Hbuf).
    run (run (exact (rget_Some _ _ _ Hd)); reflexivity). by rewrite idle_ok.
  - by apply ring_rel_take.
  - by apply (drv_rel_same _ q); [..|apply q_live_take].
  - split; cbn; [done| |done]. rewrite u16_add_l. unfold q_taken, q_cons. cbn.
    rewrite zlen_app. change (zlen [c]) with 1. f_equal. lia.
  - done.
Qed.

Lemma q_live_consume q k c len :
  q_held q !! k = Some c -> q_live (q_consume q k c len) ≡ₚ q_live q.
Proof.
  intros Hk. unfold q_live, q_consume. cbn. rewrite fmap_app. cbn [fmap list_fmap fst].
  apply Permutation_app_head. rewrite (delete_Permutation _ _ _ Hk) at 2. cbn.
  by rewrite app_assoc, <- Permutation_cons_append.
Qed.

Lemma zlen_delete {A} (l : list A) k x : l !! k = Some x -> zlen (delete k l) = zlen l - 1.
Proof.
  intros Hk. pose proof (lookup_lt_Some _ _ _ Hk). unfold zlen.
  rewrite length_delete by eauto. lia.
Qed.

Lemma ring_rel_consume n q ring k c len :
  ring_rel n q ring -> q_held q !! k = Some c ->
  ring_rel n (q_consume q k c len)
    (ring_set_used ring
       (mk_used (used_flags (r_used ring)) (u16 (used_idx (r_used ring) + 1))
          (zset (used_ring (r_used ring)) (q_cons q mod n) (mk_uelem (c_head c) len))
          (avail_event (r_used ring)))).
Proof.
  intros H Hk. pose proof (rel_bounds H) as Hb. pose proof (zlen_delete _ _ _ Hk) as Hd.
  pose proof (zlen_nonneg (delete k (q_held q))).
  split; cbn [ring_set_used r_desc r_avail r_used used_ring used_idx]; try apply H.
  - rewrite zlen_zset. apply H.
  - rewrite (q_live_consume _ _ _ _ Hk). apply H.
  - rewrite (q_live_consume _ _ _ _ Hk). apply H.
  - rewrite (rr_avail_idx _ _ _ H). unfold q_added, q_taken, q_cons. cbn.
    rewrite Hd, zlen_app. change (zlen [_]) with 1. f_equal. lia.
  - rewrite (rr_used_idx _ _ _ H), u16_add_l. unfold q_cons. cbn.
    rewrite zlen_app. change (zlen [_]) with 1. f_equal. lia.
  - pose proof (rr_avail _ _ _ H) as Ha. unfold q_taken, q_cons in *. cbn.
    rewrite Hd, zlen_app. change (zlen [_]) with 1.
    replace (q_recl q + (zlen (q_used q) + 1) + (zlen (q_held q) - 1))
      with (q_recl q + zlen (q_used q) + zlen (q_held q)) by lia. done.
  - pose proof (rr_used _ _ _ H) as Hu. cbn [q_consume q_used q_recl]. rewrite fmap_app.
    unfold q_cons. set (f := fun '(c, len) => mk_uelem (c_head c) len) in *.
    replace (zlen (q_used q)) with (zlen (f <$> q_used q)) by (unfold zlen; by rewrite length_fmap).
    apply (in_slots_push _ _ _ (f <$> q_used q)); [apply (rel_pos H)|apply H| |done].
    unfold zlen in *. rewrite length_fmap. lia.
Qed.

Lemma add_consumed_refines bld n q drv devq ring k c len :
  vq_rel n q drv devq ring -> q_held q !! k = Some c ->
  exists devq' ring',
    virtqueue_add_consumed_buffer bld devq ring (c_head c) len = Ok (VQUEUE_SUCCESS, devq', ring') /\
    vq_rel n (q_consume q k c len) drv devq' ring' /\ vq_conf devq' = vq_conf devq.
Proof.
  intros [H D [E1 E2 E3]] Hk.
  assert (Hc : c ∈ q_live q).
  { unfold q_live. rewrite !elem_of_app. right. left. by eapply list_elem_of_lookup_2. }
  pose proof (rel_head_range H c Hc).
  eexists _, _. split; [|split; [split|]].
  - unfold virtqueue_add_consumed_buffer. rewrite (proj2 (Z.leb_gt _ _)) by lia.
    run (by apply busy_ok). cbn [set_inuse vq_nentries].
    rewrite E1, (rr_used_idx _ _ _ H), (rel_mask H).
    run (apply rset_ok; rewrite (rr_used_len _ _ _ H); apply (rel_slot_bound H)).
    rewrite idle_ok by done. rewrite <- (rr_used_idx _ _ _ H). done.
  - by apply ring_rel_consume.
  - apply (drv_rel_same _ q); [done..|by apply q_live_consume].
  - split; cbn; [done| |done]. rewrite E2. unfold q_taken, q_cons, q_consume. cbn.
    rewrite (zlen_delete _ _ _ Hk), zlen_app. change (zlen [_]) with 1. f_equal. lia.
  - done.
Qed.

(** ** Operations that do not move buffers *)

(** The ring up to its flags and event indices. *)
Definition ring_core (r : vring) :=
  (r_desc r, avail_idx (r_avail r), avail_ring (r_avail r), used_idx (r_used r),
   used_ring (r_used r)).

Lemma ring_rel_core n q r r' : ring_core r' = ring_core r -> ring_rel n q r -> ring_rel n q r'.
Proof.
  intros E [H1 H2 H3 H4 H5 H6 H7 H8 H9 H10 H11 H12].
  injection E as E1 E2 E3 E4 E5.
  split; rewrite ?E1, ?E2, ?E3, ?E4, ?E5; done.
Qed.

Lemma set_inuse_back vq b : vq_inuse vq = false -> set_inuse (set_inuse vq b) false = vq.
Proof. destruct vq. cbn. by intros ->. Qed.

Lemma disable_cb_core bld dev vq ring :
  vq_inuse vq = false ->
  exists ring', virtqueue_disable_cb bld dev vq ring = Ok (vq, ring') /\
    ring_core ring' = ring_core ring.
Proof.
  intros Hi. unfold virtqueue_disable_cb. rewrite busy_ok by done. rstep.
  rewrite idle_ok, set_inuse_back by done. eexists. split; [done|].
  destruct (event_idx_on dev), (VIRTIO_ROLE_IS_DRIVER bld dev), (VIRTIO_ROLE_IS_DEVICE bld dev); done.
Qed.

Lemma kick_core bld dev vq ring :
  vq_inuse vq = false ->
  virtqueue_kick bld dev vq ring =
    Ok (set_queued_cnt vq 0,
        if vq_ring_must_notify bld dev vq ring then vq_ring_notify vq else None).
Proof.
  intros Hi. unfold virtqueue_kick. rewrite busy_ok by done. rstep.
  rewrite idle_ok by done. destruct vq. cbn in *. subst. done.
Qed.

Lemma drv_rel_queued n q vq x : drv_rel n q vq -> drv_rel n q (set_queued_cnt vq x).
Proof. by intros []. Qed.
Lemma dev_rel_queued n q vq x : dev_rel n q vq -> dev_rel n q (set_queued_cnt vq x).
Proof. by intros []. Qed.

#[export] Hint Resolve ring_rel_core drv_rel_queued dev_rel_queued : amp.

Lemma nused_run bld n q drv devq ring :
  vq_rel n q drv devq ring -> virtqueue_nused bld drv ring = Ok (zlen (q_used q)).
Proof.
  intros [H D E]. pose proof (rel_bounds H) as Hb. unfold virtqueue_nused.
  rewrite (rr_used_idx _ _ _ H), (dr_cons _ _ _ D), (dr_n _ _ _ D). unfold q_cons.
  rewrite u16_diff_close by lia. replace (q_recl q + zlen (q_used q) - q_recl q) with (zlen (q_used q)) by lia.
  rewrite vqassert_true by (apply Z.leb_le; lia). done.
Qed.

Lemma navail_run bld n q drv devq ring :
  vq_rel n q drv devq ring -> virtqueue_navail bld devq ring = Ok (zlen (q_avail q)).
Proof.
  intros [H D E]. pose proof (rel_bounds H) as Hb. unfold virtqueue_navail.
  rewrite (rr_avail_idx _ _ _ H), (de_avail _ _ _ E), (de_n _ _ _ E). unfold q_added.
  rewrite u16_diff_close by lia.
  replace (q_taken q + zlen (q_avail q) - q_taken q) with (zlen (q_avail q)) by lia.
  rewrite vqassert_true by (apply Z.leb_le; lia). done.
Qed.
