(* ===== verification/VirtqueueSys.v ===== *)
(** * The virtqueue: its theorems

    Creation establishes the invariant; each operation refines the abstract
    queue on every branch; runs of a driver and a device that share a ring; the
    notification protocol. *)

From S2P Require Import Prelude MetalUtil MetalIo Vring Virtqueue VirtqueueInv VirtqueueRefine.

(** ** Creation *)

(** The ring memory after [memset]. *)
Definition zero_ring (n : Z) : vring :=
  mk_vring (replicate (Z.to_nat n) (mk_desc 0 0 0 0))
    (mk_avail 0 0 (replicate (Z.to_nat n) 0) 0)
    (mk_used 0 0 (replicate (Z.to_nat n) (mk_uelem 0 0)) 0).

Lemma ring_init_loop_spec k i desc :
  0 <= i -> i + Z.of_nat k <= zlen desc -> zlen desc <= 65536 ->
  exists desc', ring_init_loop k i desc = Ok desc' /\ zlen desc' = zlen desc /\
    (forall j, i <= j < i + Z.of_nat k -> exists d, zget desc' j = Some d /\ d_next d = u16 (j + 1)) /\
    (forall j, j < i \/ i + Z.of_nat k <= j -> zget desc' j = zget desc j).
Proof.
  revert i desc. induction k as [|k IH]; intros i desc Hi Hk Hmax.
  { exists desc. split_and!; try done. intros j Hj. lia. }
  cbn [ring_init_loop]. unfold set_next_at.
  destruct (rget_ok desc i ltac:(lia)) as (d & Hd & Hz).
  set (d' := mk_desc (d_addr d) (d_len d) (d_flags d) (u16 (i + 1))).
  destruct (IH (i + 1) (zset desc i d')) as (desc' & Hrun & Hl & Hin & Hout);
    [lia|rewrite zlen_zset; lia..|].
  exists desc'. rewrite zlen_zset in Hl. split; [|split; [done|split]].
  - run (run (exact Hd); apply rset_ok; lia). done.
  - intros j Hj. destruct (decide (j = i)) as [->|Hne]; [|apply Hin; lia].
    exists d'. split; [|done]. rewrite Hout by lia. apply zget_zset_eq. lia.
  - intros j Hj. rewrite Hout by lia. apply zget_zset_ne. lia.
Qed.

Lemma hd_zseq s k : hd VQ_RING_DESC_CHAIN_END (zseq s (S k)) = s.
Proof. by rewrite zseq_S. Qed.

Lemma free_path_zseq desc k s :
  (forall j, s <= j < s + Z.of_nat k -> exists d, zget desc j = Some d /\
     d_next d = if j =? s + Z.of_nat k - 1 then VQ_RING_DESC_CHAIN_END else j + 1) ->
  free_path desc (zseq s k).
Proof.
  revert s. induction k as [|k IH]; intros s Hj; [done|]. rewrite zseq_S. cbn [free_path]. split.
  - destruct (Hj s ltac:(lia)) as (d & Hd & Hn). exists d. split; [done|]. rewrite Hn.
    destruct k as [|k]; [by rewrite (proj2 (Z.eqb_eq _ _)) by lia|].
    rewrite hd_zseq. by rewrite (proj2 (Z.eqb_neq _ _)) by lia.
  - apply IH. intros j Hr. destruct (Hj j ltac:(lia)) as (d & Hd & Hn). exists d. split; [done|].
    rewrite Hn. by replace (s + Z.of_nat (S k) - 1) with (s + 1 + Z.of_nat k - 1) by lia.
Qed.

Lemma ring_init_run bld dev vq ring mem align n :
  VIRTIO_ROLE_IS_DRIVER bld dev = true -> vq_nentries vq = n -> zlen (r_desc ring) = n ->
  1 <= n <= VQ_RING_DESC_CHAIN_END ->
  exists desc vq',
    vq_ring_init bld dev vq ring mem align = Ok (vq', ring_set_desc ring desc) /\
    zlen desc = n /\ free_path desc (zseq 0 (Z.to_nat n)) /\
    vq' = mk_vq (vq_name vq) (vq_queue_index vq) n (vq_callback vq) (vq_notify vq)
      (vring_init n mem align) (vq_free_cnt vq) (vq_queued_cnt vq) (vq_shm_io vq)
      (vq_desc_head_idx vq) (vq_used_cons_idx vq) (vq_available_idx vq) (vq_inuse vq)
      (vq_descx vq).
Proof.
  intros Hr Hn Hl Hb. unfold VQ_RING_DESC_CHAIN_END in Hb.
  destruct (ring_init_loop_spec (Z.to_nat (n - 1)) 0 (r_desc ring))
    as (d1 & Hrun & Hl1 & Hin & Hout); [lia..|].
  destruct (rget_ok d1 (n - 1) ltac:(lia)) as (d & Hd & Hz).
  eexists _, _. split; [|split; [|split]].
  - unfold vq_ring_init. rewrite Hr, Hn. run (exact Hrun).
    rewrite Z.max_r by lia. unfold set_next_at.
    run (run (exact Hd); apply rset_ok; lia). reflexivity.
  - by rewrite zlen_zset, Hl1, Hl.
  - apply free_path_zseq. intros j Hj. rewrite Z2Nat.id in * by lia.
    destruct (decide (j = n - 1)) as [->|Hne].
    + eexists. split; [apply zget_zset_eq; lia|]. cbn. by rewrite (proj2 (Z.eqb_eq _ _)) by lia.
    + rewrite zget_zset_ne by lia. destruct (Hin j ltac:(lia)) as (e & He & Hne').
      exists e. split; [done|]. rewrite Hne', (proj2 (Z.eqb_neq _ _)) by lia.
      apply u16_id. unfold is_u16. lia.
  - done.
Qed.

Lemma init_rel n drv devq ring :
  pow2 n -> n <= VQ_RING_DESC_CHAIN_END ->
  zlen (r_desc ring) = n -> free_path (r_desc ring) (zseq 0 (Z.to_nat n)) ->
  r_avail ring = r_avail (zero_ring n) -> r_used ring = r_used (zero_ring n) ->
  vq_nentries drv = n -> vq_free_cnt drv = n -> vq_desc_head_idx drv = 0 ->
  vq_used_cons_idx drv = 0 -> vq_inuse drv = false ->
  vq_descx drv = replicate (Z.to_nat n) (mk_dextra 0 0) ->
  vq_nentries devq = n -> vq_available_idx devq = 0 -> vq_inuse devq = false ->
  vq_rel n (q_init n) drv devq ring.
Proof.
  intros Hp Hmax Hl Hf Ha Hu D1 D2 D3 D4 D5 D6 E1 E2 E3. pose proof (pow2_pos _ Hp).
  split; split; rewrite ?Ha, ?Hu; cbn; try done.
  - rewrite zlen_replicate. lia.
  - rewrite zlen_replicate. lia.
  - by rewrite app_nil_r.
  - apply in_slots_nil.
  - apply in_slots_nil.
  - rewrite D2. unfold zlen. rewrite length_zseq. lia.
  - rewrite D3. destruct (Z.to_nat n) eqn:En; [lia|]. by rewrite hd_zseq.
  - split.
    + rewrite D6, zlen_replicate. lia.
    + intros c Hc. by apply not_elem_of_nil in Hc.
    + intros i Hi _. exists (mk_dextra 0 0). split; [|done]. rewrite D6. apply zget_replicate. lia.
Qed.

Lemma create_status b n :
  pow2 n ->
  VQ_PARAM_CHK b (negb (Z.land n (n - 1) =? 0))
    (VQ_PARAM_CHK b (n =? 0) (VQ_PARAM_CHK b false VQUEUE_SUCCESS ERROR_VQUEUE_INVLD_PARAM)
       ERROR_VQUEUE_INVLD_PARAM) ERROR_VRING_ALIGN = VQUEUE_SUCCESS.
Proof.
  intros Hp. pose proof (pow2_pos _ Hp). rewrite !param_chk_ok; [done|done|by apply Z.eqb_neq; lia|].
  apply negb_false_iff, Z.eqb_eq. by apply land_pred_pow2.
Qed.

(** The virtqueue a successful creation leaves. *)
Definition new_vq (id : Z) (name : string) (info : vring_alloc_info) (cb nt : Z) : virtqueue :=
  let n := ai_num_descs info in
  mk_vq name id n cb nt (vring_init n (ai_vaddr info) (i32 (ai_align info))) n 0 NULL_IO 0 0 0 false
    (replicate (Z.to_nat n) (mk_dextra 0 0)).

Lemma create_driver_run b d id name info cb nt :
  pow2 (ai_num_descs info) -> ai_num_descs info <= VQ_RING_DESC_CHAIN_END ->
  VIRTIO_ROLE_IS_DRIVER b d = true ->
  let n := ai_num_descs info in
  exists desc,
    virtqueue_create b d id name (Some info) cb nt (virtqueue_allocate n) (zero_ring n)
      = Ok (VQUEUE_SUCCESS, new_vq id name info cb nt, ring_set_desc (zero_ring n) desc) /\
    zlen desc = n /\ free_path desc (zseq 0 (Z.to_nat n)).
Proof.
  intros Hp Hmax Hd n. pose proof (pow2_pos _ Hp) as Hpos. fold n in Hp, Hmax, Hpos.
  destruct (ring_init_run b d (mk_vq name id n cb nt (mk_layout 0 0 0 0) n 0 NULL_IO 0 0 0 false
    (replicate (Z.to_nat n) (mk_dextra 0 0))) (zero_ring n) (ai_vaddr info) (i32 (ai_align info)) n)
    as (desc & drv & Hrun & Hl & Hf & Edrv); [done..| |lia|].
  { cbn. rewrite zlen_replicate. lia. }
  exists desc. split; [|done]. unfold virtqueue_create. fold n. rewrite create_status by done.
  change (VQUEUE_SUCCESS =? VQUEUE_SUCCESS) with true. cbn iota. run (exact Hrun). by rewrite Edrv.
Qed.

Lemma create_device_run b d id name info cb nt ring :
  pow2 (ai_num_descs info) -> VIRTIO_ROLE_IS_DRIVER b d = false ->
  virtqueue_create b d id name (Some info) cb nt (virtqueue_allocate (ai_num_descs info)) ring
    = Ok (VQUEUE_SUCCESS, new_vq id name info cb nt, ring).
Proof.
  intros Hp He. unfold virtqueue_create. rewrite create_status by done.
  change (VQUEUE_SUCCESS =? VQUEUE_SUCCESS) with true. cbn iota. unfold vq_ring_init.
  by rewrite He.
Qed.

(** [virtqueue_create] on the two sides of a cleared ring yields an empty
    queue.  Both sides allocate a virtqueue with [num] extra slots; the driver
    side links the whole descriptor table into the free list, the device side
    leaves it alone.  In the debug and the release build the creation returns
    [VQUEUE_SUCCESS] for a power of two up to 2^15, and the states represent the
    queue with no chain in flight and every descriptor free. *)
Theorem virtqueue_create_init (bd be : build) (dd de : virtio_device) (id : Z) (name : string)
  (info : vring_alloc_info) (cbd nd cbe ne : Z)
  (Hp : pow2 (ai_num_descs info)) (Hmax : ai_num_descs info <= VQ_RING_DESC_CHAIN_END)
  (Hd : VIRTIO_ROLE_IS_DRIVER bd dd = true) (He : VIRTIO_ROLE_IS_DRIVER be de = false) :
  let n := ai_num_descs info in
  exists drv devq ring,
    virtqueue_create bd dd id name (Some info) cbd nd (virtqueue_allocate n) (zero_ring n)
      = Ok (VQUEUE_SUCCESS, drv, ring) /\
    virtqueue_create be de id name (Some info) cbe ne (virtqueue_allocate n) ring
      = Ok (VQUEUE_SUCCESS, devq, ring) /\
    vq_rel n (q_init n) drv devq ring /\
    virtqueue_empty drv = true /\ virtqueue_free drv = false.
Proof.
  intros n. destruct (create_driver_run bd dd id name info cbd nd Hp Hmax Hd) as (desc & Hrun & Hl & Hf).
  eexists _, _, _. split; [exact Hrun|]. split; [by apply create_device_run|].
  split; [by apply init_rel|]. unfold virtqueue_empty, virtqueue_free. cbn. by rewrite !Z.eqb_refl.
Qed.

Definition demo_release : build := mk_build false None None.
Definition demo_debug : build := mk_build true None None.

Lemma virtqueue_create_init_witness :
  exists drv devq ring,
    virtqueue_create demo_debug (mk_vdev 0 0 0) 0 "tx" (Some (mk_alloc 4096 4 8)) 1 2
      (virtqueue_allocate 8) (zero_ring 8) = Ok (VQUEUE_SUCCESS, drv, ring) /\
    virtqueue_create demo_release (mk_vdev 0 0 1) 0 "tx" (Some (mk_alloc 4096 4 8)) 3 4
      (virtqueue_allocate 8) ring = Ok (VQUEUE_SUCCESS, devq, ring) /\
    vq_rel 8 (q_init 8) drv devq ring /\ virtqueue_empty drv = true /\ virtqueue_free drv = false.
Proof.
  apply (virtqueue_create_init demo_debug demo_release (mk_vdev 0 0 0) (mk_vdev 0 0 1) 0 "tx"
    (mk_alloc 4096 4 8)).
  - exists 3. split; [lia|done].
  - vm_compute. done.
  - reflexivity.
  - reflexivity.
Defined.

(** ** The operations *)

(** Two sides of a ring of 8 descriptors over a region of 64 KiB, just created:
    states to evaluate the operations on. *)
Definition demo_io : metal_io_region := metal_io_init 4096 (Some [1048576]) 65536 64 0 None.
Definition demo_vq (free : Z) : virtqueue :=
  mk_vq "vq" 0 8 1 2 (vring_init 8 4096 4) free 0 demo_io 0 0 0 false
    (replicate 8 (mk_dextra 0 0)).
Definition demo_ring : vring :=
  ring_set_desc (zero_ring 8)
    ((fun k => mk_desc 0 0 0 (if k =? 7 then VQ_RING_DESC_CHAIN_END else k + 1)) <$> zseq 0 8).

Lemma demo_rel : vq_rel 8 (q_init 8) (demo_vq 8) (demo_vq 8) demo_ring.
Proof.
  apply init_rel; try done.
  - exists 3. split; [lia|done].
  - vm_compute. repeat split; eexists; split; reflexivity.
Qed.

Lemma add_buffer_refused bld drv ring bl readable writable cookie err :
  VQ_PARAM_CHK bld (vq_free_cnt drv <? readable + writable)
    (VQ_PARAM_CHK bld (readable + writable <? 1) VQUEUE_SUCCESS ERROR_VQUEUE_INVLD_PARAM)
    ERROR_VRING_FULL = err ->
  err <> VQUEUE_SUCCESS -> vq_inuse drv = false ->
  virtqueue_add_buffer bld drv ring bl readable writable cookie = Ok (err, drv, ring).
Proof.
  intros He Hne Hi. unfold virtqueue_add_buffer. rewrite He, busy_ok by done. rstep.
  rewrite (proj2 (Z.eqb_neq _ _) Hne). rstep. by rewrite idle_ok, set_inuse_back by done.
Qed.

(** A chain longer than the free list runs into the mark that ends it: the next
    descriptor index is [VQ_RING_DESC_CHAIN_END], outside the table. *)
Lemma ring_add_loop_overrun bld vq buf_list readable needed l : forall k desc i,
  NoDup l -> free_path desc l -> zlen desc <= VQ_RING_DESC_CHAIN_END -> (length l < k)%nat ->
  exists e, ring_add_loop bld k vq desc (hd VQ_RING_DESC_CHAIN_END l) i buf_list readable needed
    = Fault e.
Proof.
  induction l as [|x l IH]; intros k desc i Hnd Hf Hmax Hk; (destruct k as [|k]; [cbn in Hk; lia|]);
    cbn [hd ring_add_loop].
  - destruct (VQASSERT _ _); [|by eexists]. cbn [mbind res_bind]. unfold rget.
    rewrite (zget_None_ge desc) by done. by eexists.
  - destruct Hf as [(d & Hd & Hnext) Hf]. apply list.NoDup_cons in Hnd as [Hx Hnd].
    destruct (VQASSERT _ _); [|by eexists]. cbn [mbind res_bind].
    rewrite (rget_Some _ _ _ Hd). cbn [mbind res_bind].
    destruct (rget buf_list i) as [b|]; [|by eexists]. cbn [mbind res_bind].
    destruct (virtqueue_virt_to_phys vq (vb_buf b)) as [pa|]; [|by eexists]. cbn [mbind res_bind].
    rewrite rset_ok by exact (zget_Some_lt _ _ _ Hd). cbn [mbind res_bind]. rewrite Hnext.
    apply IH; [done| |by rewrite zlen_zset|cbn in Hk; lia].
    apply (free_path_ext desc); [|done]. intros j Hj. apply zget_zset_ne. by intros ->.
Qed.

Lemma add_buffer_overrun bld n q drv devq ring bl readable writable cookie :
  vq_rel n q drv devq ring -> VQUEUE_DEBUG bld = false -> zlen (q_free q) < readable + writable ->
  exists e, virtqueue_add_buffer bld drv ring bl readable writable cookie = Fault e.
Proof.
  intros [H D E] Hdbg Hlong. pose proof D as [D1 D2 D3 D4 D5 D6]. unfold virtqueue_add_buffer.
  unfold VQ_PARAM_CHK. rewrite Hdbg, busy_ok by done. rstep.
  destruct (VQASSERT _ _); [|by eexists]. rstep. destruct (VQ_RING_ASSERT_VALID_IDX _ _ _); [|by eexists].
  rstep. destruct (rget _ _) as [dx|]; [|by eexists]. rstep. destruct (VQASSERT _ _); [|by eexists].
  rstep. destruct (rset _ _ _) as [descx|]; [|by eexists]. rstep. unfold vq_ring_add_buffer.
  change (vq_desc_head_idx (set_inuse drv _)) with (vq_desc_head_idx drv). rewrite D3.
  match goal with |- context [ring_add_loop _ _ ?vq _ _ _ ?b _ _] =>
    destruct (ring_add_loop_overrun bld vq b readable (readable + writable) (q_free q)
      (Z.to_nat (readable + writable)) (r_desc ring) 0) as [e He] end.
  - exact (proj1 (proj1 (list.NoDup_app _ _) (rel_nodup H))).
  - exact (rr_free _ _ _ H).
  - rewrite (rr_desc_len _ _ _ H). exact (rr_max _ _ _ H).
  - unfold zlen in *. lia.
  - rewrite He. by eexists.
Qed.

(** C4: [virtqueue_add_buffer].  A chain of at least one buffer that fits the
    free descriptors, with a cookie, is written to the first descriptors of the
    free list (physical addresses, lengths, readable buffers before writable
    ones, chaining and write flags), linked, and made the youngest entry of the
    available ring.  Only the build with [VQUEUE_DEBUG] refuses a chain that does
    not fit, or an empty one: with its error code, changing nothing.  Without
    [VQUEUE_DEBUG] (the default) the caller has to keep to the free descriptors:
    a longer chain makes the function leave the descriptor table. *)
Theorem virtqueue_add_buffer_spec (bld : build) (n : Z) (q : queue) (drv devq : virtqueue)
  (ring : vring) (bl : list virtqueue_buf) (readable writable cookie : Z)
  (Hrel : vq_rel n q drv devq ring) :
  (forall bs, bufs_of (vq_shm_io drv) 0 readable bl bs -> zlen bs = readable + writable ->
     1 <= readable + writable <= zlen (q_free q) -> cookie <> 0 ->
     exists drv' ring',
       virtqueue_add_buffer bld drv ring bl readable writable cookie
         = Ok (VQUEUE_SUCCESS, drv', ring') /\
       vq_rel n (q_add q bs cookie) drv' devq ring' /\ vq_conf drv' = vq_conf drv) /\
  (VQUEUE_DEBUG bld = true -> zlen (q_free q) < readable + writable ->
     virtqueue_add_buffer bld drv ring bl readable writable cookie
       = Ok (ERROR_VRING_FULL, drv, ring)) /\
  (VQUEUE_DEBUG bld = true -> readable + writable < 1 ->
     virtqueue_add_buffer bld drv ring bl readable writable cookie
       = Ok (ERROR_VQUEUE_INVLD_PARAM, drv, ring)) /\
  (VQUEUE_DEBUG bld = false -> zlen (q_free q) < readable + writable ->
     exists e, virtqueue_add_buffer bld drv ring bl readable writable cookie = Fault e).
Proof.
  pose proof Hrel as [H [D1 D2 D3 D4 D5 D6] _]. pose proof (rel_bounds H).
  split; [|split; [|split]].
  - intros bs Hbs Hz Hfit Hck. apply add_buffer_refines; try done. lia.
  - intros Hdbg Hfull. apply add_buffer_refused with (err := ERROR_VRING_FULL); try done.
    rewrite (param_chk_ok _ (_ <? 1)) by (apply Z.ltb_ge; lia). unfold VQ_PARAM_CHK.
    by rewrite Hdbg, D2, (proj2 (Z.ltb_lt _ _)) by lia.
  - intros Hdbg Hneg. apply add_buffer_refused with (err := ERROR_VQUEUE_INVLD_PARAM); try done.
    unfold VQ_PARAM_CHK. by rewrite Hdbg, (proj2 (Z.ltb_lt _ 1)) by lia.
  - intros Hdbg Hlong. by apply (add_buffer_overrun bld n q drv devq).
Qed.

Definition demo_bufs : list virtqueue_buf := [mk_buf 8192 512; mk_buf 12288 16].
Definition demo_phys : list (Z * Z * bool) := [(1052672, 512, false); (1056768, 16, true)].

Lemma demo_bufs_of : bufs_of demo_io 0 1 demo_bufs demo_phys.
Proof. vm_compute. repeat split. Qed.

Lemma virtqueue_add_buffer_spec_witness :
  exists drv' ring',
    virtqueue_add_buffer demo_debug (demo_vq 8) demo_ring demo_bufs 1 1 77
      = Ok (VQUEUE_SUCCESS, drv', ring') /\
    vq_rel 8 (q_add (q_init 8) demo_phys 77) drv' (demo_vq 8) ring' /\
    vq_conf drv' = vq_conf (demo_vq 8).
Proof.
  apply (proj1 (virtqueue_add_buffer_spec demo_debug 8 (q_init 8) (demo_vq 8) (demo_vq 8) demo_ring
    demo_bufs 1 1 77 demo_rel) demo_phys demo_bufs_of).
  - reflexivity.
  - vm_compute. done.
  - done.
Defined.

(** C6: [virtqueue_get_available_buffer].  It returns [NULL] exactly when no
    offer is pending, and otherwise the oldest offer: the first buffer of the
    chain translated to the device's address space, the head descriptor and the
    length the driver wrote; only the device's own index moves. *)
Theorem virtqueue_get_available_buffer_spec (bld : build) (n : Z) (q : queue)
  (drv devq : virtqueue) (ring : vring) (Hrel : vq_rel n q drv devq ring) :
  (q_avail q = [] -> virtqueue_get_available_buffer bld devq ring = Ok (devq, None)) /\
  (forall c rest a l w bs buffer, q_avail q = c :: rest -> c_bufs c = (a, l, w) :: bs ->
     metal_io_phys_to_virt (vq_shm_io devq) a = Ok buffer ->
     exists devq',
       virtqueue_get_available_buffer bld devq ring = Ok (devq', Some (buffer, c_head c, l)) /\
       vq_rel n (mk_queue rest (q_held q ++ [c]) (q_used q) (q_free q) (q_recl q)) drv devq' ring /\
       vq_conf devq' = vq_conf devq).
Proof.
  pose proof (get_available_refines bld n q drv devq ring Hrel) as H. unfold q_take in H. split.
  - intros E. by rewrite E in H.
  - intros c rest a l w bs buffer E Hbs Hbuf. rewrite E in H. by apply (H a l w bs buffer).
Qed.

Lemma virtqueue_get_available_buffer_spec_witness :
  exists drv ring devq',
    vq_rel 8 (q_add (q_init 8) demo_phys 77) drv (demo_vq 8) ring /\
    virtqueue_get_available_buffer demo_release (demo_vq 8) ring = Ok (devq', Some (8192, 0, 512)).
Proof.
  destruct (add_buffer_refines demo_release 8 (q_init 8) (demo_vq 8) (demo_vq 8) demo_ring
    demo_bufs demo_phys 1 1 77 demo_rel demo_bufs_of) as (drv & ring & _ & Hrel & _);
    [reflexivity|vm_compute; done|done|].
  destruct (proj2 (virtqueue_get_available_buffer_spec demo_release 8 _ drv (demo_vq 8) ring Hrel)
    _ [] 1052672 512 false [(1056768, 16, true)] 8192 eq_refl eq_refl) as (devq' & E & _);
    [vm_compute; done|].
  exists drv, ring, devq'. split; [exact Hrel|exact E].
Defined.

(** C7: [virtqueue_add_consumed_buffer].  Returning a chain the device holds
    makes it the youngest entry of the used ring with its length; a head index
    that is no descriptor is refused with [ERROR_VRING_NO_BUFF] and nothing
    changes. *)
Theorem virtqueue_add_consumed_buffer_spec (bld : build) (n : Z) (q : queue)
  (drv devq : virtqueue) (ring : vring) (len : Z) (Hrel : vq_rel n q drv devq ring) :
  (forall k c, q_held q !! k = Some c ->
     exists devq' ring',
       virtqueue_add_consumed_buffer bld devq ring (c_head c) len
         = Ok (VQUEUE_SUCCESS, devq', ring') /\
       vq_rel n (q_consume q k c len) drv devq' ring' /\ vq_conf devq' = vq_conf devq) /\
  (forall head, n <= head ->
     virtqueue_add_consumed_buffer bld devq ring head len = Ok (ERROR_VRING_NO_BUFF, devq, ring)).
Proof.
  split.
  - intros k c Hk. by apply add_consumed_refines.
  - intros head Hh. unfold virtqueue_add_consumed_buffer.
    rewrite (de_n _ _ _ (vr_dev _ _ _ _ _ Hrel)). by rewrite (proj2 (Z.leb_le _ _)).
Qed.

(** A ring with one chain the device holds. *)
Definition demo_chain : chain := mk_chain [0; 1] demo_phys 77.
Definition demo_held : queue := mk_queue [] [demo_chain] [] [2; 3; 4; 5; 6; 7] 0.

Lemma demo_held_rel : exists drv devq ring, vq_rel 8 demo_held drv devq ring.
Proof.
  destruct (add_buffer_refines demo_release 8 (q_init 8) (demo_vq 8) (demo_vq 8) demo_ring
    demo_bufs demo_phys 1 1 77 demo_rel demo_bufs_of) as (drv & ring & _ & Hrel & _);
    [reflexivity|vm_compute; done|done|].
  pose proof (get_available_refines demo_release 8 _ drv (demo_vq 8) ring Hrel) as Hg.
  destruct (Hg 1052672 512 false [(1056768, 16, true)] 8192 eq_refl) as (devq' & _ & Hrel' & _);
    [vm_compute; done|]. eauto.
Qed.

Lemma virtqueue_add_consumed_buffer_spec_witness :
  exists drv devq ring devq' ring',
    virtqueue_add_consumed_buffer demo_release devq ring 0 16 = Ok (VQUEUE_SUCCESS, devq', ring') /\
    vq_rel 8 (mk_queue [] [] [(demo_chain, 16)] [2; 3; 4; 5; 6; 7] 0) drv devq' ring'.
Proof.
  destruct demo_held_rel as (drv & devq & ring & Hrel).
  destruct (proj1 (virtqueue_add_consumed_buffer_spec demo_release 8 demo_held drv devq ring 16 Hrel)
    0%nat demo_chain eq_refl) as (devq' & ring' & E & Hrel' & _).
  exists drv, devq, ring, devq', ring'. split; [exact E|exact Hrel'].
Defined.

(** C5: [virtqueue_get_buffer].  It returns [NULL] exactly when nothing was
    returned since the last call, and otherwise the cookie of the chain that was
    returned first, with the length the device reported; all its descriptors go
    back to the front of the free list and the free count grows by their
    number. *)
Theorem virtqueue_get_buffer_spec (bld : build) (n : Z) (q : queue) (drv devq : virtqueue)
  (ring : vring) (Hrel : vq_rel n q drv devq ring) :
  (q_used q = [] -> virtqueue_get_buffer bld drv ring = Ok (drv, ring, None)) /\
  (forall c len rest, q_used q = (c, len) :: rest ->
     exists drv' ring',
       virtqueue_get_buffer bld drv ring
         = Ok (drv', ring', Some (c_cookie c, len, q_recl q mod n)) /\
       vq_rel n (mk_queue (q_avail q) (q_held q) rest (c_idxs c ++ q_free q) (q_recl q + 1))
         drv' devq ring' /\
       vq_free_cnt drv' = vq_free_cnt drv + zlen (c_idxs c)).
Proof.
  pose proof (get_buffer_refines bld n q drv devq ring Hrel) as H. unfold q_reclaim in H. split.
  - intros E. by rewrite E in H.
  - intros c len rest E. rewrite E in H. destruct H as (drv' & ring' & Hrun & Hrel' & _).
    exists drv', ring'. split; [done|split; [done|]].
    rewrite (dr_free _ _ _ (vr_drv _ _ _ _ _ Hrel')), (dr_free _ _ _ (vr_drv _ _ _ _ _ Hrel)).
    cbn. rewrite zlen_app. lia.
Qed.

Lemma virtqueue_get_buffer_spec_witness :
  exists drv devq ring drv' ring',
    vq_rel 8 (mk_queue [] [] [(demo_chain, 16)] [2; 3; 4; 5; 6; 7] 0) drv devq ring /\
    virtqueue_get_buffer demo_debug drv ring = Ok (drv', ring', Some (77, 16, 0)) /\
    vq_free_cnt drv' = vq_free_cnt drv + 2.
Proof.
  destruct demo_held_rel as (drv & devq0 & ring0 & Hrel0).
  destruct (add_consumed_refines demo_release 8 demo_held drv devq0 ring0 0 demo_chain 16 Hrel0 eq_refl)
    as (devq & ring & _ & Hrel & _).
  destruct (proj2 (virtqueue_get_buffer_spec demo_debug 8 _ drv devq ring Hrel)
    demo_chain 16 [] eq_refl) as (drv' & ring' & E & _ & F).
  exists drv, devq, ring, drv', ring'. split; [exact Hrel|split; [exact E|exact F]].
Defined.
