(* ===== verification/VirtqueueRuns.v ===== *)
(** * Runs of a driver and a device over one ring

    Every interleaving of the operations of the two sides, at the granularity of
    one call, is a list of operations.  The observer's lists record what was
    offered, taken, returned and reclaimed. *)

From S2P Require Import Prelude MetalUtil MetalIo Vring Virtqueue VirtqueueInv.
From S2P Require Import VirtqueueRefine VirtqueueSys.

(** ** The system *)

Inductive op : Type :=
| OpAdd (bl : list virtqueue_buf) (readable writable cookie : Z)
| OpGetBuffer
| OpKickDriver
| OpEnableDriver
| OpDisableDriver
| OpGetAvailable
| OpConsume (k : nat) (len : Z)
| OpKickDevice
| OpEnableDevice
| OpDisableDevice.

(** The two virtqueues, the ring, the heads the device holds, and what was
    observed: the buffers and cookies offered, the addresses and lengths taken,
    the cookies and lengths of the chains returned, and of those reclaimed. *)
Record sys := mk_sys {
  s_drv : virtqueue;
  s_dev : virtqueue;
  s_ring : vring;
  s_held : list Z;
  s_added : list (list (Z * Z * bool) * Z);
  s_taken : list (Z * Z);
  s_cons : list (Z * Z);
  s_recl : list (Z * Z)
}.

Definition sys_set (s : sys) (drv devq : virtqueue) (ring : vring) : sys :=
  mk_sys drv devq ring (s_held s) (s_added s) (s_taken s) (s_cons s) (s_recl s).

Fixpoint phys_bufs (io : metal_io_region) (i readable : Z) (bl : list virtqueue_buf)
  : res (list (Z * Z * bool)) :=
  match bl with
  | [] => Ok []
  | b :: bl' =>
      a ← metal_io_virt_to_phys io (vb_buf b);
      bs ← phys_bufs io (i + 1) readable bl';
      Ok ((a, u32 (vb_len b), readable <=? i) :: bs)
  end.

Section system.
(** The build and the device structure of each side. *)
Variables (bd be : build) (dd de : virtio_device).

Definition exec (s : sys) (o : op) : res sys :=
  match o with
  | OpAdd bl r w cookie =>
      bs ← phys_bufs (vq_shm_io (s_drv s)) 0 r bl;
      '(_, drv, ring) ← virtqueue_add_buffer bd (s_drv s) (s_ring s) bl r w cookie;
      Ok (mk_sys drv (s_dev s) ring (s_held s) (s_added s ++ [(bs, cookie)]) (s_taken s)
            (s_cons s) (s_recl s))
  | OpGetBuffer =>
      '(drv, ring, r) ← virtqueue_get_buffer bd (s_drv s) (s_ring s);
      Ok (mk_sys drv (s_dev s) ring (s_held s) (s_added s) (s_taken s) (s_cons s)
            (match r with Some (ck, len, _) => s_recl s ++ [(ck, len)] | None => s_recl s end))
  | OpKickDriver =>
      '(drv, _) ← virtqueue_kick bd dd (s_drv s) (s_ring s);
      Ok (sys_set s drv (s_dev s) (s_ring s))
  | OpEnableDriver =>
      '(ring, _) ← virtqueue_enable_cb bd dd (s_drv s) (s_ring s);
      Ok (sys_set s (s_drv s) (s_dev s) ring)
  | OpDisableDriver =>
      '(drv, ring) ← virtqueue_disable_cb bd dd (s_drv s) (s_ring s);
      Ok (sys_set s drv (s_dev s) ring)
  | OpGetAvailable =>
      '(devq, r) ← virtqueue_get_available_buffer be (s_dev s) (s_ring s);
      Ok (match r with
          | Some (buf, idx, len) =>
              mk_sys (s_drv s) devq (s_ring s) (s_held s ++ [idx]) (s_added s)
                (s_taken s ++ [(buf, len)]) (s_cons s) (s_recl s)
          | None => sys_set s (s_drv s) devq (s_ring s)
          end)
  | OpConsume k len =>
      match s_held s !! k with
      | None => Ok s
      | Some idx =>
          dx ← rget (vq_descx (s_drv s)) idx;
          '(_, devq, ring) ← virtqueue_add_consumed_buffer be (s_dev s) (s_ring s) idx len;
          Ok (mk_sys (s_drv s) devq ring (delete k (s_held s)) (s_added s) (s_taken s)
                (s_cons s ++ [(dx_cookie dx, len)]) (s_recl s))
      end
  | OpKickDevice =>
      '(devq, _) ← virtqueue_kick be de (s_dev s) (s_ring s);
      Ok (sys_set s (s_drv s) devq (s_ring s))
  | OpEnableDevice =>
      '(ring, _) ← virtqueue_enable_cb be de (s_dev s) (s_ring s);
      Ok (sys_set s (s_drv s) (s_dev s) ring)
  | OpDisableDevice =>
      '(devq, ring) ← virtqueue_disable_cb be de (s_dev s) (s_ring s);
      Ok (sys_set s (s_drv s) devq ring)
  end.

Fixpoint exec_all (s : sys) (os : list op) : res sys :=
  match os with
  | [] => Ok s
  | o :: os' => s' ← exec s o; exec_all s' os'
  end.

(** What the callers have to respect: an offer fits in the free descriptors (the
    release build does not test it), has a cookie, and its buffers lie in
    memory both sides can address.  Everything else is unconditional. *)
Definition allowed (s : sys) (o : op) : Prop :=
  match o with
  | OpAdd bl r w cookie =>
      cookie <> 0 /\ 1 <= r + w <= vq_free_cnt (s_drv s) /\ zlen bl = r + w /\
      exists bs, phys_bufs (vq_shm_io (s_drv s)) 0 r bl = Ok bs /\
        Forall (fun '(a, _, _) => exists v, metal_io_phys_to_virt (vq_shm_io (s_dev s)) a = Ok v) bs
  | _ => True
  end.

Fixpoint all_allowed (s : sys) (os : list op) : Prop :=
  match os with
  | [] => True
  | o :: os' => allowed s o /\ forall s', exec s o = Ok s' -> all_allowed s' os'
  end.

(** ** The invariant of a run *)

(** What the device sees of a chain: the address and length of its first
    buffer. *)
Definition seen_as (io : metal_io_region) (t : Z * Z) (m : list (Z * Z * bool) * Z) : Prop :=
  exists a w bs, m.1 = (a, t.2, w) :: bs /\ metal_io_phys_to_virt io a = Ok t.1.

Definition msg (c : chain) : list (Z * Z * bool) * Z := (c_bufs c, c_cookie c).

Record sys_inv (n : Z) (dio eio : metal_io_region) (s : sys) (q : queue) : Prop := {
  si_rel : vq_rel n q (s_drv s) (s_dev s) (s_ring s);
  si_dio : vq_shm_io (s_drv s) = dio;
  si_eio : vq_shm_io (s_dev s) = eio;
  si_held : s_held s = c_head <$> q_held q;
  si_addr : Forall (fun c => Forall (fun '(a, _, _) =>
    exists v, metal_io_phys_to_virt eio a = Ok v) (c_bufs c)) (q_avail q);
  si_taken : exists tk, s_added s = tk ++ (msg <$> q_avail q) /\ Forall2 (seen_as eio) (s_taken s) tk;
  si_cons : s_cons s = s_recl s ++ ((fun '(c, len) => (c_cookie c, len)) <$> q_used q);
  si_cookies : (s_recl s).*1 ++ (c_cookie <$> q_live q) ≡ₚ (s_added s).*2
}.

Lemma phys_bufs_of io i readable bl bs :
  phys_bufs io i readable bl = Ok bs -> bufs_of io i readable bl bs.
Proof.
  revert i bs. induction bl as [|b bl IH]; intros i bs E; cbn [phys_bufs] in E; res_inv E; [done|].
  cbn [bufs_of]. auto.
Qed.

Lemma conf_io vq vq' : vq_conf vq' = vq_conf vq -> vq_shm_io vq' = vq_shm_io vq.
Proof. unfold vq_conf. congruence. Qed.

Context {n : Z} {dio eio : metal_io_region}.

Lemma exec_add s q bl r w cookie :
  sys_inv n dio eio s q -> allowed s (OpAdd bl r w cookie) ->
  exists s' q', exec s (OpAdd bl r w cookie) = Ok s' /\ sys_inv n dio eio s' q'.
Proof.
  intros [S1 S2 S3 S4 S5 S6 S7 S8] (Hck & Hfit & Hl & bs & Hph & Hv).
  pose proof (phys_bufs_of _ _ _ _ _ Hph) as Hbs. pose proof (bufs_of_length _ _ _ _ _ Hbs) as Hlen.
  rewrite (dr_free _ _ _ (vr_drv _ _ _ _ _ S1)) in Hfit.
  assert (Hz : zlen bs = r + w) by (unfold zlen in *; lia).
  destruct (add_buffer_refines bd n q _ _ _ bl bs r w cookie S1 Hbs Hz) as (drv & ring & Hrun & Hrel & Hc);
    [lia|done|].
  eexists _, (q_add q bs cookie). split.
  - unfold exec. run (exact Hph). run (exact Hrun). reflexivity.
  - split; cbn; try done.
    + by rewrite (conf_io _ _ Hc).
    + apply Forall_app. split; [done|]. apply list.Forall_singleton. cbn. by rewrite S3 in Hv.
    + destruct S6 as (tk & Ha & Ht). exists tk. split; [|done].
      by rewrite Ha, fmap_app, <- app_assoc.
    + rewrite q_live_add, fmap_app, <- S8. cbn.
      rewrite <- Permutation_middle. apply Permutation_cons_append.
Qed.

Lemma exec_get_buffer s q :
  sys_inv n dio eio s q ->
  exists s' q', exec s OpGetBuffer = Ok s' /\ sys_inv n dio eio s' q'.
Proof.
  intros [S1 S2 S3 S4 S5 S6 S7 S8]. pose proof (get_buffer_refines bd n q _ _ _ S1) as Hg.
  unfold q_reclaim in Hg. destruct (q_used q) as [|[c len] rest] eqn:Eu.
  - eexists _, q. split; [unfold exec; run (exact Hg); reflexivity|]. split; cbn; rewrite ?Eu; done.
  - destruct Hg as (drv & ring & Hrun & Hrel & Hc). eexists _, (q_rest q rest c). split.
    { unfold exec. run (exact Hrun). reflexivity. }
    split; cbn; try done.
    + by rewrite (conf_io _ _ Hc).
    + by rewrite S7, <- app_assoc.
    + rewrite <- S8, (q_live_reclaim _ _ _ _ Eu), fmap_app. cbn [fmap list_fmap].
      by rewrite <- app_assoc.
Qed.

Lemma exec_get_available s q :
  sys_inv n dio eio s q ->
  exists s' q', exec s OpGetAvailable = Ok s' /\ sys_inv n dio eio s' q'.
Proof.
  intros [S1 S2 S3 S4 S5 S6 S7 S8]. pose proof (get_available_refines be n q _ _ _ S1) as Hg.
  unfold q_take in Hg. destruct (q_avail q) as [|c rest] eqn:Ea.
  - eexists _, q. split; [unfold exec; run (exact Hg); reflexivity|]. split; cbn; rewrite ?Ea; done.
  - assert (Hc : c ∈ q_live q) by (unfold q_live; rewrite Ea; constructor).
    destruct (chain_path_head _ _ _ (rel_path (vr_ring _ _ _ _ _ S1) c Hc))
      as (a & l & w & bs & _ & _ & Hb & _).
    apply Forall_cons_1 in S5 as [S5 S5']. rewrite Hb in S5. apply Forall_cons_1 in S5 as [[v Hv] _].
    rewrite <- S3 in Hv. destruct (Hg a l w bs v Hb Hv) as (devq & Hrun & Hrel & Hcf).
    eexists _, (mk_queue rest (q_held q ++ [c]) (q_used q) (q_free q) (q_recl q)).
    split; [unfold exec; run (exact Hrun); reflexivity|]. split; cbn; try done.
    + by rewrite (conf_io _ _ Hcf).
    + by rewrite S4, fmap_app.
    + destruct S6 as (tk & Ha & Ht). exists (tk ++ [msg c]). rewrite Ha, <- app_assoc.
      split; [done|]. apply Forall2_app; [done|]. constructor; [|constructor].
      exists a, w, bs. cbn. by rewrite <- S3.
    + by rewrite (q_live_take _ _ _ Ea).
Qed.

Lemma exec_consume s q k len :
  sys_inv n dio eio s q ->
  exists s' q', exec s (OpConsume k len) = Ok s' /\ sys_inv n dio eio s' q'.
Proof.
  intros S. pose proof S as [S1 S2 S3 S4 S5 S6 S7 S8]. cbn [exec].
  rewrite S4, list_lookup_fmap. destruct (q_held q !! k) as [c|] eqn:Ek; cbn; [|eauto].
  assert (Hc : c ∈ q_live q).
  { unfold q_live. rewrite !elem_of_app. right. left. by eapply list_elem_of_lookup_2. }
  pose proof (dx_live _ _ _ (dr_descx _ _ _ (vr_drv _ _ _ _ _ S1)) c Hc) as Hdx.
  destruct (add_consumed_refines be n q _ _ _ k c len S1 Ek) as (devq & ring & Hrun & Hrel & Hcf).
  eexists _, (q_consume q k c len). split.
  { run (exact (rget_Some _ _ _ Hdx)). run (exact Hrun). reflexivity. }
  split; cbn; try done.
  - by rewrite (conf_io _ _ Hcf).
  - by rewrite list_fmap_delete.
  - by rewrite S7, fmap_app, <- app_assoc.
  - by rewrite (q_live_consume _ _ _ _ Ek).
Qed.

Lemma vq_rel_core q drv devq r r' :
  ring_core r' = ring_core r -> vq_rel n q drv devq r -> vq_rel n q drv devq r'.
Proof. intros E [H D F]. split; eauto with amp. Qed.

(** The ring [vq_ring_enable_interrupt] leaves. *)
Definition enabled_ring (b : build) (d : virtio_device) (vq : virtqueue) (ring : vring) : vring :=
  if event_idx_on d then
    let ring := if VIRTIO_ROLE_IS_DRIVER b d
                then set_used_event ring (u16 (vq_used_cons_idx vq + 0)) else ring in
    if VIRTIO_ROLE_IS_DEVICE b d
    then set_avail_event ring (u16 (vq_available_idx vq + 0)) else ring
  else
    let ring := if VIRTIO_ROLE_IS_DRIVER b d
                then set_avail_flags ring (Z.land (avail_flags (r_avail ring))
                       (u16 (Z.lnot VRING_AVAIL_F_NO_INTERRUPT))) else ring in
    if VIRTIO_ROLE_IS_DEVICE b d
    then set_used_flags ring (Z.land (used_flags (r_used ring))
           (u16 (Z.lnot VRING_USED_F_NO_NOTIFY))) else ring.

Lemma enabled_ring_core b d vq ring : ring_core (enabled_ring b d vq ring) = ring_core ring.
Proof.
  unfold enabled_ring.
  by destruct (event_idx_on d), (VIRTIO_ROLE_IS_DRIVER b d), (VIRTIO_ROLE_IS_DEVICE b d).
Qed.

Lemma enable_driver_run b d q drv devq ring :
  vq_rel n q drv devq ring -> VIRTIO_ROLE_IS_DEVICE b d = false ->
  exists r, virtqueue_enable_cb b d drv ring = Ok (enabled_ring b d drv ring, r).
Proof.
  intros H Hr. unfold virtqueue_enable_cb, vq_ring_enable_interrupt.
  fold (enabled_ring b d drv ring). rewrite Hr.
  destruct (VIRTIO_ROLE_IS_DRIVER b d); rstep; [|eauto].
  rewrite (nused_run b n q drv devq).
  - rstep. destruct (0 <? zlen (q_used q)); eauto.
  - eapply vq_rel_core; [apply enabled_ring_core|exact H].
Qed.

Lemma enable_device_run b d q drv devq ring :
  vq_rel n q drv devq ring -> VIRTIO_ROLE_IS_DRIVER b d = false ->
  exists r, virtqueue_enable_cb b d devq ring = Ok (enabled_ring b d devq ring, r).
Proof.
  intros H Hr. unfold virtqueue_enable_cb, vq_ring_enable_interrupt.
  fold (enabled_ring b d devq ring). rewrite Hr. rstep.
  destruct (VIRTIO_ROLE_IS_DEVICE b d); rstep; [|eauto].
  rewrite (navail_run b n q drv devq).
  - rstep. destruct (0 <? zlen (q_avail q)); eauto.
  - eapply vq_rel_core; [apply enabled_ring_core|exact H].
Qed.

(** Replacing the states by others that represent the same queue. *)
Lemma sys_inv_set s q drv devq ring :
  sys_inv n dio eio s q -> vq_rel n q drv devq ring ->
  vq_shm_io drv = vq_shm_io (s_drv s) -> vq_shm_io devq = vq_shm_io (s_dev s) ->
  sys_inv n dio eio (sys_set s drv devq ring) q.
Proof. intros [] H Hd He. split; cbn; try done; congruence. Qed.

Lemma exec_quiet s q o :
  VIRTIO_ROLE_IS_DEVICE bd dd = false -> VIRTIO_ROLE_IS_DRIVER be de = false ->
  sys_inv n dio eio s q ->
  match o with
  | OpKickDriver | OpEnableDriver | OpDisableDriver
  | OpKickDevice | OpEnableDevice | OpDisableDevice => True
  | _ => False
  end ->
  exists s' q', exec s o = Ok s' /\ sys_inv n dio eio s' q'.
Proof.
  intros Rd Re S Ho. pose proof (si_rel _ _ _ _ _ S) as Hrel. pose proof Hrel as [H D E].
  pose proof (dr_idle _ _ _ D) as Id. pose proof (de_idle _ _ _ E) as Ie.
  destruct o; try done; cbn [exec].
  - rewrite kick_core by done. eexists _, q. split; [done|]. apply sys_inv_set; try done.
    split; auto with amp.
  - destruct (enable_driver_run bd dd q _ _ _ Hrel Rd) as [r ->]. eexists _, q. split; [done|].
    apply sys_inv_set; try done. eapply vq_rel_core; [apply enabled_ring_core|done].
  - destruct (disable_cb_core bd dd _ (s_ring s) Id) as (ring & -> & Hc). eexists _, q. split; [done|].
    apply sys_inv_set; try done. by eapply vq_rel_core.
  - rewrite kick_core by done. eexists _, q. split; [done|]. apply sys_inv_set; try done.
    split; auto with amp.
  - destruct (enable_device_run be de q _ _ _ Hrel Re) as [r ->]. eexists _, q. split; [done|].
    apply sys_inv_set; try done. eapply vq_rel_core; [apply enabled_ring_core|done].
  - destruct (disable_cb_core be de _ (s_ring s) Ie) as (ring & -> & Hc). eexists _, q. split; [done|].
    apply sys_inv_set; try done. by eapply vq_rel_core.
Qed.

Hypothesis Rd : VIRTIO_ROLE_IS_DEVICE bd dd = false.
Hypothesis Re : VIRTIO_ROLE_IS_DRIVER be de = false.

Lemma exec_step s q o :
  sys_inv n dio eio s q -> allowed s o ->
  exists s' q', exec s o = Ok s' /\ sys_inv n dio eio s' q'.
Proof.
  intros S Ha. destruct o.
  - by eapply exec_add.
  - by eapply exec_get_buffer.
  - by eapply exec_quiet.
  - by eapply exec_quiet.
  - by eapply exec_quiet.
  - by eapply exec_get_available.
  - by eapply exec_consume.
  - by eapply exec_quiet.
  - by eapply exec_quiet.
  - by eapply exec_quiet.
Qed.

Lemma exec_all_inv s q os :
  sys_inv n dio eio s q -> all_allowed s os ->
  exists s' q', exec_all s os = Ok s' /\ sys_inv n dio eio s' q'.
Proof.
  revert s q. induction os as [|o os IH]; intros s q S Ha; cbn [exec_all]; [eauto|].
  destruct Ha as [Ha Hs]. destruct (exec_step s q o S Ha) as (s1 & q1 & E & S1).
  rewrite E. rstep. eapply IH; [exact S1|by apply Hs].
Qed.

End system.

(** ** Theorems *)

Definition sys_init (drv devq : virtqueue) (ring : vring) : sys :=
  mk_sys drv devq ring [] [] [] [] [].

Lemma sys_init_inv n drv devq ring :
  vq_rel n (q_init n) drv devq ring ->
  sys_inv n (vq_shm_io drv) (vq_shm_io devq) (sys_init drv devq ring) (q_init n).
Proof. intros H. split; cbn; try done. exists []. split; [done|constructor]. Qed.

(** C3: every run of a driver and a device on a new queue is safe and delivers
    in order.  Whatever the interleaving of the calls of the two sides, as long as
    offers fit in the free descriptors: no call faults (no access outside a ring,
    no failed debug assertion, no endless chain); the buffers the device takes are
    the offers, in the order of the offers, with nothing lost, repeated or
    altered; the driver gets back the cookies and lengths of the chains in the
    order in which the device returned them; and the cookies offered are exactly
    those reclaimed and those still in flight, which are at most the ring's
    size. *)
Theorem virtqueue_runs_fifo (bd be : build) (dd de : virtio_device) (n : Z)
  (drv devq : virtqueue) (ring : vring) (os : list op)
  (Rd : VIRTIO_ROLE_IS_DEVICE bd dd = false) (Re : VIRTIO_ROLE_IS_DRIVER be de = false)
  (Hinit : vq_rel n (q_init n) drv devq ring)
  (Hall : all_allowed bd be dd de (sys_init drv devq ring) os) :
  exists s, exec_all bd be dd de (sys_init drv devq ring) os = Ok s /\
    Forall2 (seen_as (vq_shm_io devq)) (s_taken s) (take (length (s_taken s)) (s_added s)) /\
    s_recl s = take (length (s_recl s)) (s_cons s) /\
    exists inflight, (s_recl s).*1 ++ inflight ≡ₚ (s_added s).*2 /\
      zlen inflight + vq_free_cnt (s_drv s) <= n.
Proof.
  destruct (exec_all_inv bd be dd de Rd Re _ _ os (sys_init_inv n drv devq ring Hinit) Hall)
    as (s & q & Hrun & S).
  exists s. split; [done|]. destruct S as [S1 S2 S3 S4 S5 (tk & Ha & Ht) S7 S8]. split_and!.
  - rewrite Ha, (Forall2_length Ht), take_app_length. done.
  - by rewrite S7, take_app_length.
  - exists (c_cookie <$> q_live q). split; [done|].
    rewrite (dr_free _ _ _ (vr_drv _ _ _ _ _ S1)).
    pose proof (rel_count_le (vr_ring _ _ _ _ _ S1)). unfold zlen in *. rewrite length_fmap. lia.
Qed.

(** Two offers, the second returned first. *)
Definition demo_ops : list op :=
  [OpAdd demo_bufs 1 1 77; OpKickDriver; OpGetAvailable; OpAdd [mk_buf 16384 64] 0 1 78;
   OpGetAvailable; OpConsume 1 64; OpConsume 0 16; OpKickDevice; OpGetBuffer; OpGetBuffer;
   OpGetBuffer].

Lemma virtqueue_runs_fifo_witness :
  exists s, exec_all demo_debug demo_debug (mk_vdev 0 0 0) (mk_vdev 0 0 1)
      (sys_init (demo_vq 8) (demo_vq 8) demo_ring) demo_ops = Ok s /\
    s_taken s = [(8192, 512); (16384, 64)] /\ s_recl s = [(78, 64); (77, 16)] /\
    s_recl s = take (length (s_recl s)) (s_cons s).
Proof.
  destruct (virtqueue_runs_fifo demo_debug demo_debug (mk_vdev 0 0 0) (mk_vdev 0 0 1) 8
    (demo_vq 8) (demo_vq 8) demo_ring demo_ops) as (s & E & _ & F & _).
  - reflexivity.
  - reflexivity.
  - exact demo_rel.
  - cbn [all_allowed demo_ops].
    repeat (split; [|intros s' Es'; vm_compute in Es'; injection Es' as <-]); try exact I;
      cbn [allowed]; (split; [done|]); (split; [vm_compute; done|]); (split; [reflexivity|]);
      eexists; (split; [vm_compute; reflexivity|]);
      repeat constructor; eexists; vm_compute; reflexivity.
  - exists s. split; [exact E|]. vm_compute in E. injection E as <-. split; [reflexivity|].
    split; [reflexivity|exact F].
Defined.

(** ** Notifications *)

(** The device returns several chains before it notifies. *)
Fixpoint consume_all (b : build) (vq : virtqueue) (ring : vring) (hs : list (Z * Z))
  : res (virtqueue * vring) :=
  match hs with
  | [] => Ok (vq, ring)
  | (h, len) :: hs' =>
      '(_, vq, ring) ← virtqueue_add_consumed_buffer b vq ring h len;
      consume_all b vq ring hs'
  end.

Lemma consume_all_effect b vq ring hs vq' ring' :
  vq_inuse vq = false -> Forall (fun '(h, _) => h < vq_nentries vq) hs ->
  is_u16 (used_idx (r_used ring)) -> is_u16 (vq_queued_cnt vq) ->
  consume_all b vq ring hs = Ok (vq', ring') ->
  vq_conf vq' = vq_conf vq /\ vq_inuse vq' = false /\ r_avail ring' = r_avail ring /\
  used_idx (r_used ring') = u16 (used_idx (r_used ring) + zlen hs) /\
  vq_queued_cnt vq' = u16 (vq_queued_cnt vq + zlen hs).
Proof.
  revert vq ring. induction hs as [|[h len] hs IH]; intros vq ring Hi Hh Hu Hq E.
  { cbn in E. res_inv E. change (zlen []) with 0. rewrite !Z.add_0_r, !u16_id by done. done. }
  apply Forall_cons_1 in Hh as [Hh Hhs]. cbn [consume_all] in E.
  unfold virtqueue_add_consumed_buffer in E. rewrite (proj2 (Z.leb_gt _ _) Hh) in E.
  rewrite busy_ok in E by done. cbn [mbind res_bind] in E.
  destruct (rset _ _ _) as [slots|f] in E; [|discriminate E]. cbn [mbind res_bind] in E.
  rewrite idle_ok in E by done.
  apply IH in E as (C1 & C2 & C3 & C4 & C5); [|done..|apply u16_range|apply u16_range].
  rewrite zlen_cons. cbn in C4, C5. rewrite u16_add_l in C4, C5.
  rewrite C1, C2, C3, C4, C5. split_and!; try done; f_equal; lia.
Qed.

(** What an enabling call that reports nothing pending left in the ring. *)
Lemma enable_zero_ring b d vq ring ring1 :
  VIRTIO_ROLE_IS_DRIVER b d = true -> VIRTIO_ROLE_IS_DEVICE b d = false ->
  virtqueue_enable_cb b d vq ring = Ok (ring1, 0) ->
  ring1 = enabled_ring b d vq ring /\
  u16 (used_idx (r_used ring) - vq_used_cons_idx vq) = 0.
Proof.
  intros Rd Re E. unfold virtqueue_enable_cb, vq_ring_enable_interrupt in E.
  fold (enabled_ring b d vq ring) in E. rewrite Rd, Re in E. unfold virtqueue_nused in E.
  assert (Hc : used_idx (r_used (enabled_ring b d vq ring)) = used_idx (r_used ring)).
  { pose proof (enabled_ring_core b d vq ring) as Hc. by injection Hc. }
  rewrite Hc in E. destruct (VQASSERT _ _) in E; [|discriminate E]. cbn [mbind res_bind] in E.
  pose proof (u16_range (used_idx (r_used ring) - vq_used_cons_idx vq)) as [Hr _].
  destruct (0 <? _) eqn:Hz in E; zbool; [discriminate E|]. injection E as <-. split; [done|lia].
Qed.

Lemma no_interrupt_cleared f : Z.land (Z.land f (u16 (Z.lnot 1))) 1 = 0.
Proof. by rewrite <- Z.land_assoc, Z.land_0_r. Qed.

(** C8: no interrupt is lost.  When the driver re-enables callbacks and the call
    reports that nothing is pending, then after the device has returned one or
    more chains its next [virtqueue_kick] calls the notify function, with the
    event index as with the flag, whatever the device had queued before and
    whatever the wrap-around of the indices. *)
Theorem no_lost_interrupt (bd be : build) (dd de : virtio_device) (drv devq devq' : virtqueue)
  (ring ring1 ring' : vring) (hs : list (Z * Z))
  (Rd : VIRTIO_ROLE_IS_DRIVER bd dd = true) (Rd' : VIRTIO_ROLE_IS_DEVICE bd dd = false)
  (Re : VIRTIO_ROLE_IS_DEVICE be de = true) (Re' : VIRTIO_ROLE_IS_DRIVER be de = false)
  (Hf : event_idx_on dd = event_idx_on de)
  (Hu : is_u16 (used_idx (r_used ring))) (Hc : is_u16 (vq_used_cons_idx drv))
  (Hq : is_u16 (vq_queued_cnt devq)) (Hidle : vq_inuse devq = false) (Hn : vq_notify devq <> 0)
  (Hen : virtqueue_enable_cb bd dd drv ring = Ok (ring1, 0))
  (Hhs : hs <> []) (Hb : Forall (fun '(h, _) => h < vq_nentries devq) hs)
  (Hlen : vq_queued_cnt devq + zlen hs < 65536)
  (Hrun : consume_all be devq ring1 hs = Ok (devq', ring')) :
  virtqueue_kick be de devq' ring' = Ok (set_queued_cnt devq' 0, Some (vq_notify devq)).
Proof.
  destruct (enable_zero_ring _ _ _ _ _ Rd Rd' Hen) as [-> Hz].
  assert (Huc : used_idx (r_used (enabled_ring bd dd drv ring)) = used_idx (r_used ring))
    by (pose proof (enabled_ring_core bd dd drv ring) as Hc'; by injection Hc').
  assert (Heq : vq_used_cons_idx drv = used_idx (r_used ring)) by (clear - Hz Hu Hc; width).
  apply consume_all_effect in Hrun as (C1 & C2 & C3 & C4 & C5); [|rewrite ?Huc; done..].
  rewrite kick_core by done.
  assert (Hnt : vq_notify devq' = vq_notify devq) by (by injection C1).
  unfold vq_ring_notify. rewrite Hnt, (proj2 (Z.eqb_neq _ _) Hn).
  enough (Hm : vq_ring_must_notify be de devq' ring' = true) by (by rewrite Hm).
  assert (Hk : 1 <= zlen hs) by (destruct hs; [done|rewrite zlen_cons; pose proof (zlen_nonneg hs); lia]).
  unfold vq_ring_must_notify. rewrite Re, Re', C3, C4, C5, Huc, <- Hf.
  unfold enabled_ring. rewrite Rd, Rd'. destruct (event_idx_on dd); cbn.
  - unfold vring_need_event. apply Z.ltb_lt. rewrite Heq, Z.add_0_r.
    clear - Hu Hq Hlen Hk. width.
  - apply Z.eqb_eq. apply no_interrupt_cleared.
Qed.

Lemma no_lost_interrupt_witness :
  let dd := mk_vdev 0 VIRTIO_RING_F_EVENT_IDX 0 in
  let de := mk_vdev 0 VIRTIO_RING_F_EVENT_IDX 1 in
  exists ring1 devq' ring',
    virtqueue_enable_cb demo_debug dd (demo_vq 8) demo_ring = Ok (ring1, 0) /\
    consume_all demo_debug (demo_vq 8) ring1 [(3, 10); (5, 20)] = Ok (devq', ring') /\
    virtqueue_kick demo_debug de devq' ring' = Ok (set_queued_cnt devq' 0, Some 2).
Proof.
  cbn zeta. eexists _, _, _. split; [vm_compute; reflexivity|]. split; [vm_compute; reflexivity|].
  eapply (no_lost_interrupt demo_debug demo_debug (mk_vdev 0 VIRTIO_RING_F_EVENT_IDX 0)
    (mk_vdev 0 VIRTIO_RING_F_EVENT_IDX 1) (demo_vq 8) (demo_vq 8) _ demo_ring _ _ [(3, 10); (5, 20)]);
    try reflexivity; try (vm_compute; done).
  repeat constructor.
Defined.
