(* ===== verification/Virtio.v ===== *)
(** * Virtio devices (lib/virtio/virtio.c, lib/include/openamp/virtio.h)

    The device structure with its vrings, the dispatch table of the transport
    below it, the wrappers that call through the table, and the creation of the
    virtqueues.  The contents of a ring are read from the byte memory when its
    virtqueue is created; from then on the ring is the typed [vring]. *)

From S2P Require Import Prelude MetalUtil MetalIo Vring Virtqueue.
From S2P Require Import VirtqueueInv VirtqueueRefine VirtqueueSys.

(** ** Definitions *)

Definition VIRTIO_CONFIG_STATUS_DRIVER_OK : Z := 4.
Definition VIRTIO_CONFIG_STATUS_NEEDS_RESET : Z := 64.

(** The devices' names. *)
Definition virtio_ident_table : list (Z * string) :=
  [(1, "Network"); (2, "Block"); (3, "Console"); (4, "Entropy"); (5, "Balloon");
   (6, "IOMemory"); (8, "SCSI"); (9, "9P Transport"); (10, "MAC80211 WLAN");
   (11, "Remoteproc Serial"); (16, "GPU"); (18, "Input"); (19, "Vsock Transport");
   (25, "Sound"); (26, "File System"); (29, "MAC80211 HWSIM"); (34, "I2C Adapter");
   (40, "Bluetooth"); (41, "GPIO")].

Fixpoint ident_loop (t : list (Z * string)) (devid : Z) : option string :=
  match t with
  | [] => None
  | (id, name) :: t' => if id =? devid then Some name else ident_loop t' devid
  end.

Definition virtio_dev_name (devid : Z) : option string := ident_loop virtio_ident_table devid.

Record virtio_vring_info := mk_vinfo {
  vi_vq : virtqueue;
  vi_ring : vring;
  vi_info : vring_alloc_info;
  vi_notifyid : Z;
  vi_io : metal_io_region
}.

(** [struct virtio_device] with the state [B] of the transport below it. *)
Record vdev (B : Type) := mk_vd {
  vd_dev : virtio_device;
  vd_back : B;
  vd_vrings : list virtio_vring_info
}.
Arguments mk_vd {B} _ _ _.
Arguments vd_dev {B} _.
Arguments vd_back {B} _.
Arguments vd_vrings {B} _.

Definition vd_set_vrings {B} (v : vdev B) (l : list virtio_vring_info) : vdev B :=
  mk_vd (vd_dev v) (vd_back v) l.
Definition vd_set_features {B} (v : vdev B) (f : Z) : vdev B :=
  mk_vd (mk_vdev (vdev_notifyid (vd_dev v)) f (vdev_role (vd_dev v))) (vd_back v) (vd_vrings v).

(** The dispatch table; a null entry is [None], the notify entry is the address
    of the function. *)
Record virtio_dispatch (B : Type) := mk_dispatch {
  f_create_virtqueues : option (vdev B -> gmap Z Z -> Z -> list string -> list Z ->
                                res (vdev B * gmap Z Z * Z));
  f_delete_virtqueues : option (vdev B -> res (vdev B));
  f_get_status : option (vdev B -> res Z);
  f_set_status : option (vdev B -> Z -> res (vdev B));
  f_get_features : option (vdev B -> res Z);
  f_set_features : option (vdev B -> Z -> res (vdev B));
  f_negotiate_features : option (vdev B -> Z -> res (vdev B * Z));
  f_reset_device : option (vdev B -> res (vdev B));
  f_read_config : option (vdev B -> Z -> Z -> res (list Z));
  f_write_config : option (vdev B -> Z -> list Z -> res (vdev B));
  f_notify : Z
}.
Arguments mk_dispatch {B} _ _ _ _ _ _ _ _ _ _ _.
Arguments f_create_virtqueues {B} _.
Arguments f_delete_virtqueues {B} _.
Arguments f_get_status {B} _.
Arguments f_set_status {B} _.
Arguments f_get_features {B} _.
Arguments f_set_features {B} _.
Arguments f_negotiate_features {B} _.
Arguments f_reset_device {B} _.
Arguments f_read_config {B} _.
Arguments f_write_config {B} _.
Arguments f_notify {B} _.

(** A descriptor, a slot of the available ring and an entry of the used ring from
    their bytes. *)
Definition desc_of_bytes (bs : list Z) : vring_desc :=
  mk_desc (le_val (take 8 bs)) (le_val (take 4 (drop 8 bs))) (le_val (take 2 (drop 12 bs)))
    (le_val (drop 14 bs)).
Definition uelem_of_bytes (bs : list Z) : vring_used_elem :=
  mk_uelem (le_val (take 4 bs)) (le_val (drop 4 bs)).

(** An array of [k] objects of [size] bytes. *)
Fixpoint load_array {A} (k : nat) (size : nat) (f : list Z -> A) (m : gmap Z Z) (a : Z)
  : res (list A) :=
  match k with
  | O => Ok []
  | S k' =>
      bs ← loadn size m a;
      l ← load_array k' size f m (a + Z.of_nat size);
      Ok (f bs :: l)
  end.

(** The ring at the addresses of a layout. *)
Definition vring_load (m : gmap Z Z) (l : vring_layout) : res vring :=
  let k := Z.to_nat (vr_num l) in
  desc ← load_array k 16 desc_of_bytes m (vr_desc l);
  af ← loadn 2 m (vr_avail l);
  ai ← loadn 2 m (vr_avail l + 2);
  ar ← load_array k 2 le_val m (vr_avail l + SIZEOF_VRING_AVAIL);
  ue ← loadn 2 m (vr_avail l + SIZEOF_VRING_AVAIL + 2 * vr_num l);
  uf ← loadn 2 m (vr_used l);
  ui ← loadn 2 m (vr_used l + 2);
  ur ← load_array k 8 uelem_of_bytes m (vr_used l + SIZEOF_VRING_USED);
  ae ← loadn 2 m (vr_used l + SIZEOF_VRING_USED + 8 * vr_num l);
  Ok (mk_vring desc (mk_avail (le_val af) (le_val ai) ar (le_val ue))
        (mk_used (le_val uf) (le_val ui) ur (le_val ae))).

Section virtio.
Context {B : Type}.
Variable bld : build.
(** [vdev->func]; [None] for a null pointer. *)
Variable func : option (virtio_dispatch B).

(** The entry of the dispatch table, if the table and the entry exist. *)
Definition entry {A} (sel : virtio_dispatch B -> option A) : option A :=
  match func with Some f => sel f | None => None end.

Definition virtio_delete_virtqueues (v : vdev B) : res (vdev B) :=
  match entry f_delete_virtqueues with Some f => f v | None => Ok v end.

(** The status returned and, on success, the value. *)
Definition virtio_get_status (v : vdev B) : res (Z * Z) :=
  match entry f_get_status with
  | Some f => s ← f v; Ok (0, s)
  | None => Ok (- ENXIO, 0)
  end.

Definition virtio_set_status (v : vdev B) (status : Z) : res (vdev B * Z) :=
  match entry f_set_status with
  | Some f => v ← f v status; Ok (v, 0)
  | None => Ok (v, - ENXIO)
  end.

Definition virtio_get_features (v : vdev B) : res (vdev B * Z * Z) :=
  match entry f_get_features with
  | Some f =>
      features ← f v;
      Ok (if VIRTIO_ROLE_IS_DEVICE bld (vd_dev v) then vd_set_features v features else v,
          0, features)
  | None => Ok (v, - ENXIO, 0)
  end.

Definition virtio_set_features (v : vdev B) (features : Z) : res (vdev B * Z) :=
  match entry f_set_features with
  | Some f => v ← f v features; Ok (v, 0)
  | None => Ok (v, - ENXIO)
  end.

Definition virtio_negotiate_features (v : vdev B) (features : Z) : res (vdev B * Z * Z) :=
  match entry f_negotiate_features with
  | Some f => '(v, final) ← f v features; Ok (vd_set_features v final, 0, final)
  | None => Ok (v, - ENXIO, 0)
  end.

Definition virtio_reset_device (v : vdev B) : res (vdev B * Z) :=
  match entry f_reset_device with
  | Some f => v ← f v; Ok (v, 0)
  | None => Ok (v, - ENXIO)
  end.

(** The status returned and, on success, the bytes; [dst] is whether the pointer is
    not null. *)
Definition virtio_read_config (v : vdev B) (offset : Z) (dst : bool) (len : Z) : res (Z * list Z) :=
  if negb dst then Ok (- EINVAL, [])
  else
    match entry f_read_config with
    | Some f => bs ← f v offset len; Ok (0, bs)
    | None => Ok (- ENXIO, [])
    end.

(** [src] is [None] for a null pointer. *)
Definition virtio_write_config (v : vdev B) (offset : Z) (src : option (list Z)) : res (vdev B * Z) :=
  match src with
  | None => Ok (v, - EINVAL)
  | Some bs =>
      match entry f_write_config with
      | Some f => v ← f v offset bs; Ok (v, 0)
      | None => Ok (v, - ENXIO)
      end
  end.

(** [v] is [None] for a null pointer.  The guard of the code returns only when the
    pointer is null and the bit is out of range. *)
Definition virtio_has_feature (v : option (vdev B)) (feature_bit : Z) : res (option (vdev B) * bool) :=
  match v with
  | None => if 32 <=? feature_bit then Ok (v, false) else Fault Out_of_bounds
  | Some v =>
      v ← (if vdev_features (vd_dev v) =? 0 then '(v, _, _) ← virtio_get_features v; Ok v else Ok v);
      if 64 <=? feature_bit then Fault Overflow
      else Ok (Some v, negb (Z.land (vdev_features (vd_dev v)) (Z.shiftl 1 feature_bit) =? 0))
  end.

(** The buffer allocator of a device, [vdev->mmops]: its entries are [None] for null
    pointers. *)
Definition virtio_alloc_buf (alloc : option (vdev B -> Z -> Z -> res (vdev B * Z))) (v : vdev B) (buf : bool)
    (size align : Z) : res (vdev B * Z * Z) :=
  if negb buf then Ok (v, - EINVAL, 0)
  else
    match alloc with
    | None => Ok (v, - ENXIO, 0)
    | Some f => '(v, b) ← f v size align; Ok (v, if b =? 0 then - 12 else 0, b)
    end.

Definition virtio_free_buf (free : option (vdev B -> Z -> res (vdev B))) (v : vdev B) (buf : Z)
  : res (vdev B * Z) :=
  match free with
  | None => Ok (v, - ENXIO)
  | Some f => v ← f v buf; Ok (v, 0)
  end.

Definition set_vring (vi : virtio_vring_info) (vq : virtqueue) (ring : vring) : virtio_vring_info :=
  mk_vinfo vq ring (vi_info vi) (vi_notifyid vi) (vi_io vi).

(** The loop over the vrings in [virtio_create_virtqueues]: [k] remain. *)
Fixpoint create_loop (k : nat) (i : Z) (v : vdev B) (m : gmap Z Z) (names : list string)
    (callbacks : list Z) : res (vdev B * gmap Z Z * Z) :=
  match k with
  | O => Ok (v, m, 0)
  | S k' =>
      vi ← rget (vd_vrings v) i;
      let info := vi_info vi in
      '(m, _) ←
        (if VIRTIO_ROLE_IS_DRIVER bld (vd_dev v) then
           let offset := metal_io_virt_to_offset (vi_io vi) (ai_vaddr info) in
           metal_io_block_set (vi_io vi) m offset 0
             (vring_size (ai_num_descs info) (ai_align info))
         else Ok (m, 0));
      name ← rget names i;
      cb ← rget callbacks i;
      notify ← (match func with Some f => Ok (f_notify f) | None => Fault Out_of_bounds end);
      ring ← vring_load m (vring_init (ai_num_descs info) (ai_vaddr info) (i32 (ai_align info)));
      '(ret, vq, ring) ←
        virtqueue_create bld (vd_dev v) i name (Some info) cb notify (vi_vq vi) ring;
      vrings ← rset (vd_vrings v) i (set_vring vi vq ring);
      let v := vd_set_vrings v vrings in
      if negb (ret =? 0) then Ok (v, m, ret)
      else create_loop k' (i + 1) v m names callbacks
  end.

Definition virtio_create_virtqueues (v : vdev B) (m : gmap Z Z) (nvqs : Z) (names : list string)
    (callbacks : list Z) : res (vdev B * gmap Z Z * Z) :=
  match entry f_create_virtqueues with
  | Some f => f v m nvqs names callbacks
  | None =>
      if zlen (vd_vrings v) <? nvqs then Ok (v, m, ERROR_VQUEUE_INVLD_PARAM)
      else create_loop (Z.to_nat nvqs) 0 v m names callbacks
  end.
End virtio.

(** ** Lemmas *)

(** The bytes [a .. a+n-1] are zero. *)
Definition zeros (m : gmap Z Z) (a n : Z) : Prop := forall i, a <= i < a + n -> m !! i = Some 0.

Lemma loadn_zeros k m a : zeros m a (Z.of_nat k) -> loadn k m a = Ok (replicate k 0).
Proof.
  intros H. rewrite <- (length_replicate k 0) at 1. apply loadn_ok, has_bytes_lookup.
  rewrite zlen_replicate. intros i Hi. rewrite H by lia. by rewrite zget_replicate.
Qed.

Lemma zeros_sub m a n b k : zeros m a n -> a <= b -> b + k <= a + n -> zeros m b k.
Proof. intros H H1 H2 i Hi. apply H. lia. Qed.

Lemma load_array_zeros {A} k size (f : list Z -> A) m a :
  zeros m a (Z.of_nat k * Z.of_nat size) ->
  load_array k size f m a = Ok (replicate k (f (replicate size 0))).
Proof.
  revert a. induction k as [|k IH]; intros a H; [done|]. cbn [load_array].
  rewrite loadn_zeros by (eapply zeros_sub; [exact H|lia..]). cbn [mbind res_bind].
  rewrite IH by (eapply zeros_sub; [exact H|nia..]). done.
Qed.

Lemma vring_load_zeros m l p align :
  layout_ok l p align -> 0 <= vr_num l -> zeros m p (vring_size (vr_num l) align) ->
  vring_load m l = Ok (zero_ring (vr_num l)).
Proof.
  intros [L1 L2 L3 L4 L5] Hn Hz.
  unfold SIZEOF_VRING_DESC, SIZEOF_VRING_AVAIL, SIZEOF_UINT16, SIZEOF_VRING_USED,
    SIZEOF_VRING_USED_ELEM in *.
  unfold vring_load, SIZEOF_VRING_AVAIL, SIZEOF_VRING_USED.
  run (apply load_array_zeros; eapply zeros_sub; [exact Hz|lia..]).
  do 2 run (apply loadn_zeros; eapply zeros_sub; [exact Hz|lia..]).
  run (apply load_array_zeros; eapply zeros_sub; [exact Hz|lia..]).
  do 3 run (apply loadn_zeros; eapply zeros_sub; [exact Hz|lia..]).
  run (apply load_array_zeros; eapply zeros_sub; [exact Hz|lia..]).
  run (apply loadn_zeros; eapply zeros_sub; [exact Hz|lia..]). done.
Qed.

(** ** Creation of the virtqueues *)

(** A vring as the device's owner sets it up: memory inside its region, aligned,
    a power of two of descriptors, a virtqueue just allocated. *)
Record vring_ready (m : gmap Z Z) (vi : virtio_vring_info) : Prop := {
  vy_io : exists pm, io_wf (vi_io vi) pm;
  vy_size : io_size (vi_io vi) <= 9223372036854775808;
  vy_num : pow2 (ai_num_descs (vi_info vi)) /\ ai_num_descs (vi_info vi) <= VRING_MAX;
  vy_align : pow2 (ai_align (vi_info vi)) /\ ai_align (vi_info vi) <= 4096;
  vy_aligned : ai_vaddr (vi_info vi) mod ai_align (vi_info vi) = 0;
  vy_room : io_virt (vi_io vi) <= ai_vaddr (vi_info vi) /\
    ai_vaddr (vi_info vi) + vring_size (ai_num_descs (vi_info vi)) (ai_align (vi_info vi))
      <= io_virt (vi_io vi) + io_size (vi_io vi);
  vy_top : ai_vaddr (vi_info vi) + 2097152 <= 18446744073709551616;
  vy_mapped : mapped m (ai_vaddr (vi_info vi))
    (vring_size (ai_num_descs (vi_info vi)) (ai_align (vi_info vi)));
  vy_vq : vi_vq vi = virtqueue_allocate (ai_num_descs (vi_info vi))
}.

Lemma vring_ready_put m vi a bs : vring_ready m vi -> vring_ready (put_bytes m a bs) vi.
Proof. intros []. split; try done. by apply mapped_put. Qed.

(** What a vring holds after the creation: an empty queue. *)
Definition vring_created (vi vi' : virtio_vring_info) (i : Z) (name : string)
    (cb notify : Z) : Prop :=
  let n := ai_num_descs (vi_info vi) in
  vi_info vi' = vi_info vi /\ vi_io vi' = vi_io vi /\ vi_notifyid vi' = vi_notifyid vi /\
  vi_vq vi' = new_vq i name (vi_info vi) cb notify /\
  vq_rel n (q_init n) (vi_vq vi') (vi_vq vi') (vi_ring vi').

Lemma vring_size_pos num align :
  pow2 align -> align <= 4096 -> 0 <= num <= VRING_MAX ->
  0 < vring_size num align < 2097152.
Proof.
  intros Hp Ha Hn. pose proof (pow2_pos _ Hp) as Hpos. rewrite vring_size_eq by done. cbn zeta.
  pose proof (Z.mod_pos_bound (- (18 * num + 6)) align Hpos). unfold VRING_MAX in Hn. lia.
Qed.

(** Clearing the memory of a vring in the driver role, then reading the ring. *)
Lemma clear_vring m vi :
  vring_ready m vi ->
  let n := ai_num_descs (vi_info vi) in
  let size := vring_size n (ai_align (vi_info vi)) in
  let m' := put_bytes m (ai_vaddr (vi_info vi)) (fill size 0) in
  metal_io_block_set (vi_io vi) m (metal_io_virt_to_offset (vi_io vi) (ai_vaddr (vi_info vi))) 0 size
    = Ok (m', size) /\
  vring_load m' (vring_init n (ai_vaddr (vi_info vi)) (i32 (ai_align (vi_info vi))))
    = Ok (zero_ring n).
Proof.
  intros [[pm Y1] Y2 [Y3 Y3'] [Y4 Y4'] Y5 [Y6 Y6'] Y7 Y8 Y9] n size m'.
  pose proof (pow2_pos _ Y3). pose proof (pow2_pos _ Y4). unfold VRING_MAX in Y3'.
  destruct (vring_size_pos n (ai_align (vi_info vi))) as [Hs1 Hs2]; [done|done|unfold VRING_MAX; lia|].
  fold n size in Y6', Hs1, Hs2, Y8. set (vaddr := ai_vaddr (vi_info vi)) in *. set (io := vi_io vi) in *.
  pose proof (proj1 (wf_virt _ _ Y1)) as Hv.
  destruct (virt_of_offset io pm Y1 (vaddr - io_virt io) ltac:(lia)) as (_ & _ & Ho).
  replace (io_virt io + (vaddr - io_virt io)) with vaddr in Ho by lia. rewrite Ho.
  rewrite (i32_id (ai_align _)) by lia. split.
  - pose proof (block_set_run io pm Y1 m (vaddr - io_virt io) 0 size size) as Hb.
    replace (io_virt io + (vaddr - io_virt io)) with vaddr in Hb by lia.
    apply Hb; [lia|done| |lia|done]. apply (clip_fits io pm Y1); lia.
  - destruct (layout_of_init n vaddr (ai_align (vi_info vi))) as [Hl Hn]; try done.
    { unfold VRING_MAX. lia. } { lia. }
    rewrite (vring_load_zeros m' _ vaddr (ai_align (vi_info vi)) Hl); rewrite Hn; [done|lia|].
    intros i Hi. unfold m'. rewrite lookup_put, zlen_fill by lia. fold size in Hi.
    rewrite (proj2 (Z.leb_le _ _)), (proj2 (Z.ltb_lt _ _)) by lia. cbn [andb].
    unfold fill. apply zget_replicate. lia.
Qed.

Section create.
Context {B : Type} (bld : build) (f : virtio_dispatch B).

(** One round of the loop. *)
Lemma create_step v m names cbs i vi name cb k :
  VIRTIO_ROLE_IS_DRIVER bld (vd_dev v) = true ->
  zget (vd_vrings v) i = Some vi -> zget names i = Some name -> zget cbs i = Some cb ->
  vring_ready m vi ->
  exists vi' m',
    create_loop bld (Some f) (S k) i v m names cbs
      = create_loop bld (Some f) k (i + 1) (vd_set_vrings v (zset (vd_vrings v) i vi')) m' names cbs /\
    vring_created vi vi' i name cb (f_notify f) /\
    m' = put_bytes m (ai_vaddr (vi_info vi))
           (fill (vring_size (ai_num_descs (vi_info vi)) (ai_align (vi_info vi))) 0).
Proof.
  intros Hd Hvi Hnm Hcb Hy. destruct (clear_vring m vi Hy) as [Hset Hload].
  pose proof (vy_num _ _ Hy) as [Hp Hmax]. unfold VRING_MAX in Hmax.
  destruct (create_driver_run bld (vd_dev v) i name (vi_info vi) cb (f_notify f) Hp Hmax Hd)
    as (desc & Hcr & Hl & Hf).
  eexists _, _. split; [|split].
  - cbn [create_loop]. rewrite (rget_Some _ _ _ Hvi). cbn [mbind res_bind]. rewrite Hd, Hset.
    cbn [mbind res_bind]. rewrite (rget_Some _ _ _ Hnm). cbn [mbind res_bind].
    rewrite (rget_Some _ _ _ Hcb). cbn [mbind res_bind]. rewrite Hload. cbn [mbind res_bind].
    rewrite (vy_vq _ _ Hy), Hcr. cbn [mbind res_bind].
    rewrite rset_ok by exact (zget_Some_lt _ _ _ Hvi). cbn [mbind res_bind].
    change (negb (VQUEUE_SUCCESS =? 0)) with false. cbn iota. reflexivity.
  - unfold vring_created, set_vring. cbn. split_and!; try done. by apply init_rel.
  - reflexivity.
Qed.

Lemma create_loop_spec k i v m names cbs :
  VIRTIO_ROLE_IS_DRIVER bld (vd_dev v) = true -> 0 <= i ->
  i + Z.of_nat k <= zlen (vd_vrings v) -> i + Z.of_nat k <= zlen names -> i + Z.of_nat k <= zlen cbs ->
  (forall j vi, i <= j < i + Z.of_nat k -> zget (vd_vrings v) j = Some vi -> vring_ready m vi) ->
  exists v' m', create_loop bld (Some f) k i v m names cbs = Ok (v', m', 0) /\
    vd_dev v' = vd_dev v /\ vd_back v' = vd_back v /\ zlen (vd_vrings v') = zlen (vd_vrings v) /\
    forall j vi, zget (vd_vrings v) j = Some vi ->
      if (i <=? j) && (j <? i + Z.of_nat k) then
        exists vi' name cb, zget (vd_vrings v') j = Some vi' /\ zget names j = Some name /\
          zget cbs j = Some cb /\ vring_created vi vi' j name cb (f_notify f)
      else zget (vd_vrings v') j = Some vi.
Proof.
  revert i v m. induction k as [|k IH]; intros i v m Hd Hi Hk Hn Hc Hy.
  { exists v, m. split_and!; try done. intros j vi Hj. zcase; [lia|done]. }
  destruct (zget_is_Some (vd_vrings v) i) as [vi Hvi]; [lia|].
  destruct (zget_is_Some names i) as [name Hnm]; [lia|].
  destruct (zget_is_Some cbs i) as [cb Hcb]; [lia|].
  destruct (create_step v m names cbs i vi name cb k Hd Hvi Hnm Hcb) as (vi' & m' & -> & Hcr & Em).
  { apply (Hy i); [lia|done]. }
  destruct (IH (i + 1) (vd_set_vrings v (zset (vd_vrings v) i vi')) m') as (v' & m'' & Hrun & H1 & H2 & H3 & H4);
    cbn [vd_set_vrings vd_dev vd_vrings]; rewrite ?zlen_zset; try done; try lia.
  { intros j vj Hj. rewrite zget_zset_ne by lia. intros Hz. rewrite Em. apply vring_ready_put, (Hy j); [lia|done]. }
  exists v', m''. split_and!; try done; [by rewrite H3; cbn; rewrite zlen_zset|].
  intros j vj Hj. destruct (decide (j = i)) as [->|Hne].
  - rewrite (proj2 (Z.leb_le _ _)), (proj2 (Z.ltb_lt _ _)) by lia. cbn [andb].
    specialize (H4 i vi'). rewrite (proj2 (Z.leb_gt _ _)) in H4 by lia. cbn [andb] in H4.
    exists vi', name, cb. split; [apply H4, zget_zset_eq; lia|]. by replace vj with vi by congruence.
  - specialize (H4 j vj). cbn [vd_set_vrings vd_vrings] in H4. rewrite zget_zset_ne in H4 by lia.
    specialize (H4 Hj). pose proof (zget_Some_lt _ _ _ Hj).
    replace ((i <=? j) && (j <? i + Z.of_nat (S k))) with ((i + 1 <=? j) && (j <? i + 1 + Z.of_nat k)); [done|].
    apply eq_true_iff_eq. rewrite !andb_true_iff, !Z.leb_le, !Z.ltb_lt. lia.
Qed.
End create.

(** ** Theorems *)

(** [virtio_create_virtqueues] of the driver on vrings whose memory lies in
    their regions: it returns 0, every ring is cleared in memory and read back as
    an empty ring, every virtqueue represents the empty queue of its size and
    carries its own name, callback and the device's notify function; asking for
    more queues than there are vrings is refused with nothing changed. *)
Theorem virtio_create_virtqueues_spec {B : Type} (bld : build) (f : virtio_dispatch B)
  (v : vdev B) (m : gmap Z Z) (nvqs : Z) (names : list string) (cbs : list Z)
  (Hd : VIRTIO_ROLE_IS_DRIVER bld (vd_dev v) = true) (Hf : f_create_virtqueues f = None)
  (Hn : 0 <= nvqs) (Hnames : nvqs <= zlen names) (Hcbs : nvqs <= zlen cbs)
  (Hy : forall j vi, zget (vd_vrings v) j = Some vi -> vring_ready m vi) :
  (zlen (vd_vrings v) < nvqs ->
     virtio_create_virtqueues bld (Some f) v m nvqs names cbs
       = Ok (v, m, ERROR_VQUEUE_INVLD_PARAM)) /\
  (nvqs <= zlen (vd_vrings v) ->
     exists v' m', virtio_create_virtqueues bld (Some f) v m nvqs names cbs = Ok (v', m', 0) /\
       zlen (vd_vrings v') = zlen (vd_vrings v) /\
       forall j vi, zget (vd_vrings v) j = Some vi ->
         if j <? nvqs then
           exists vi' name cb, zget (vd_vrings v') j = Some vi' /\ zget names j = Some name /\
             zget cbs j = Some cb /\ vring_created vi vi' j name cb (f_notify f)
         else zget (vd_vrings v') j = Some vi).
Proof.
  unfold virtio_create_virtqueues, entry. rewrite Hf. split; intros Hz.
  - by rewrite (proj2 (Z.ltb_lt _ _)).
  - rewrite (proj2 (Z.ltb_ge _ _)) by done.
    destruct (create_loop_spec bld f (Z.to_nat nvqs) 0 v m names cbs) as (v' & m' & Hrun & _ & _ & Hl & Hj);
      [done|lia..|eauto|].
    exists v', m'. split; [done|]. split; [done|]. intros j vi Hvi. specialize (Hj j vi Hvi).
    pose proof (zget_Some_lt _ _ _ Hvi). rewrite Z2Nat.id in Hj by done.
    by rewrite (proj2 (Z.leb_le 0 j)) in Hj by lia.
Qed.

Definition demo_dispatch : virtio_dispatch unit :=
  mk_dispatch None None None None None None None None None None 9.
Definition demo_vinfo (a : Z) : virtio_vring_info :=
  mk_vinfo (virtqueue_allocate 4) (zero_ring 4) (mk_alloc a 4 4) 1
    (metal_io_init 4096 (Some [1048576]) 4096 64 0 None).
Definition demo_vdev : vdev unit := mk_vd (mk_vdev 0 0 0) tt [demo_vinfo 4096; demo_vinfo 5120].

Lemma demo_ready a : a = 4096 \/ a = 5120 ->
  vring_ready (put_bytes ∅ 4096 (fill 4096 170)) (demo_vinfo a).
Proof.
  intros Ha. assert (Hs : vring_size 4 4 = 118) by reflexivity.
  assert (pow2 4) by (exists 2; lia). split; cbn [demo_vinfo vi_io vi_info ai_num_descs ai_align ai_vaddr].
  - exists [1048576]. split; try done; [repeat constructor; done|]. by left.
  - done.
  - done.
  - done.
  - by destruct Ha as [-> | ->].
  - rewrite Hs. cbn. lia.
  - lia.
  - rewrite Hs. apply has_bytes_mapped_fill; lia.
  - done.
Qed.

Lemma virtio_create_virtqueues_spec_witness :
  exists v' m' vi',
    virtio_create_virtqueues demo_release (Some demo_dispatch) demo_vdev
      (put_bytes ∅ 4096 (fill 4096 170)) 2 ["rx_vq"; "tx_vq"] [7; 8] = Ok (v', m', 0) /\
    zget (vd_vrings v') 1 = Some vi' /\
    vring_created (demo_vinfo 5120) vi' 1 "tx_vq" 8 9.
Proof.
  destruct (virtio_create_virtqueues_spec demo_release demo_dispatch demo_vdev
    (put_bytes ∅ 4096 (fill 4096 170)) 2 ["rx_vq"; "tx_vq"] [7; 8]) as [_ H]; try done.
  - intros j vi Hj. pose proof (zget_Some_lt _ _ _ Hj) as Hr.
    change (zlen (vd_vrings demo_vdev)) with 2 in Hr.
    assert (j = 0 \/ j = 1) as [-> | ->] by lia; injection Hj as <-; apply demo_ready; auto.
  - destruct H as (v' & m' & E & _ & Hj); [done|].
    destruct (Hj 1 (demo_vinfo 5120) eq_refl) as (vi' & name & cb & E1 & E2 & E3 & E4).
    injection E2 as <-. injection E3 as <-. exists v', m', vi'.
    split; [exact E|split; [exact E1|exact E4]].
Defined.
