(* ===== verification/Rpmsg.v ===== *)
(** * The RPMsg core (lib/rpmsg/rpmsg.c, rpmsg_internal.h, openamp/rpmsg.h)

    Endpoints, their addresses and the calls that forward to the transport.  The
    C program has one heap: the [world] holds the byte memory, the endpoint
    structures, the device structure and the transport's own state, whose type
    is a parameter.  The transport's operations and the user's callbacks are
    functions on the world.  The list of endpoints is the sequence its nodes
    form; MetalList shows that the pointer operations append, remove and
    visit.  The mutex is a flag: acquiring it twice is a deadlock. *)

From S2P Require Import Prelude MetalUtil StrUtil.

(** ** Data *)

Definition RPMSG_NAME_SIZE : Z := 32.
Definition RPMSG_ADDR_BMP_SIZE : Z := 128.
Definition RPMSG_NS_EPT_ADDR : Z := 53.
Definition RPMSG_RESERVED_ADDRESSES : Z := 1024.
Definition RPMSG_ADDR_ANY : Z := 4294967295.
Definition RPMSG_SUCCESS : Z := 0.
Definition RPMSG_ERR_NO_BUFF : Z := -2002.
Definition RPMSG_ERR_PARAM : Z := -2003.
Definition RPMSG_ERR_ADDR : Z := -2007.
Definition RPMSG_ERR_PERM : Z := -2008.
Definition RPMSG_EOPNOTSUPP : Z := -2009.
Definition RPMSG_NS_CREATE : Z := 0.
Definition RPMSG_NS_DESTROY : Z := 1.

(** [ept_rdev] is whether the pointer to the device is set; function pointers
    are addresses, 0 for [NULL]. *)
Record rpmsg_endpoint := mk_ept {
  ept_name : list Z;
  ept_rdev : bool;
  ept_addr : Z;
  ept_dest_addr : Z;
  ept_refcnt : Z;
  ept_release_cb : Z;
  ept_cb : Z;
  ept_ns_unbind_cb : Z;
  ept_priv : Z
}.

(** What [memset] leaves of an endpoint. *)
Definition zero_ept : rpmsg_endpoint := mk_ept (replicate 32 0) false 0 0 0 0 0 0 0.

Record rpmsg_device := mk_rdev {
  rd_endpoints : list Z;
  rd_bitmap : list Z;
  rd_bitnext : Z;
  rd_lock : bool;
  rd_ns_bind_cb : Z;
  rd_ns_unbind_cb : Z;
  rd_support_ns : bool
}.

Definition ept_set_refcnt (e : rpmsg_endpoint) (x : Z) : rpmsg_endpoint :=
  mk_ept (ept_name e) (ept_rdev e) (ept_addr e) (ept_dest_addr e) x (ept_release_cb e)
    (ept_cb e) (ept_ns_unbind_cb e) (ept_priv e).
Definition ept_set_dest (e : rpmsg_endpoint) (x : Z) : rpmsg_endpoint :=
  mk_ept (ept_name e) (ept_rdev e) (ept_addr e) x (ept_refcnt e) (ept_release_cb e)
    (ept_cb e) (ept_ns_unbind_cb e) (ept_priv e).
Definition ept_clear_rdev (e : rpmsg_endpoint) : rpmsg_endpoint :=
  mk_ept (ept_name e) false (ept_addr e) (ept_dest_addr e) (ept_refcnt e) (ept_release_cb e)
    (ept_cb e) (ept_ns_unbind_cb e) (ept_priv e).

Definition rd_set_endpoints (d : rpmsg_device) (l : list Z) : rpmsg_device :=
  mk_rdev l (rd_bitmap d) (rd_bitnext d) (rd_lock d) (rd_ns_bind_cb d) (rd_ns_unbind_cb d)
    (rd_support_ns d).
Definition rd_set_bitmap (d : rpmsg_device) (b : list Z) : rpmsg_device :=
  mk_rdev (rd_endpoints d) b (rd_bitnext d) (rd_lock d) (rd_ns_bind_cb d) (rd_ns_unbind_cb d)
    (rd_support_ns d).
Definition rd_set_bitnext (d : rpmsg_device) (n : Z) : rpmsg_device :=
  mk_rdev (rd_endpoints d) (rd_bitmap d) n (rd_lock d) (rd_ns_bind_cb d) (rd_ns_unbind_cb d)
    (rd_support_ns d).
Definition rd_set_lock (d : rpmsg_device) (b : bool) : rpmsg_device :=
  mk_rdev (rd_endpoints d) (rd_bitmap d) (rd_bitnext d) b (rd_ns_bind_cb d) (rd_ns_unbind_cb d)
    (rd_support_ns d).

(** The heap; [T] is the transport's state. *)
Record world (T : Type) := mk_world {
  w_mem : gmap Z Z;
  w_epts : gmap Z rpmsg_endpoint;
  w_rdev : rpmsg_device;
  w_tr : T
}.
Arguments mk_world {T} _ _ _ _.
Arguments w_mem {T} _.
Arguments w_epts {T} _.
Arguments w_rdev {T} _.
Arguments w_tr {T} _.

(** ** Addresses *)

Definition rpmsg_get_address (bitmap : list Z) (start size : Z) : res (list Z * Z) :=
  nextbit ← metal_bitmap_next_clear_bit bitmap start size;
  if nextbit <? u32 size then
    bitmap' ← metal_bitmap_set_bit bitmap (i32 nextbit);
    Ok (bitmap', u32 (RPMSG_RESERVED_ADDRESSES + nextbit))
  else Ok (bitmap, RPMSG_ADDR_ANY).

Definition rpmsg_release_address (bitmap : list Z) (size addr : Z) : res (list Z) :=
  let addr := i32 (i32 addr - RPMSG_RESERVED_ADDRESSES) in
  if (0 <=? addr) && (addr <? size) then metal_bitmap_clear_bit bitmap addr else Ok bitmap.

Definition rpmsg_is_address_set (bitmap : list Z) (size addr : Z) : res Z :=
  let addr := i32 (i32 addr - RPMSG_RESERVED_ADDRESSES) in
  if (0 <=? addr) && (addr <? size) then metal_bitmap_is_bit_set bitmap addr
  else Ok RPMSG_ERR_PARAM.

Definition rpmsg_set_address (bitmap : list Z) (size addr : Z) : res (list Z * Z) :=
  let addr := i32 (i32 addr - RPMSG_RESERVED_ADDRESSES) in
  if (0 <=? addr) && (addr <? size) then
    bitmap' ← metal_bitmap_set_bit bitmap addr; Ok (bitmap', RPMSG_SUCCESS)
  else Ok (bitmap, RPMSG_ERR_PARAM).

(** ** The calls *)

Section rpmsg.
Context {T : Type}.

(** The transport's operations; a null function pointer is [None]. *)
Record rpmsg_device_ops := mk_rops {
  ops_send_offchannel_raw : option (world T -> Z -> Z -> Z -> Z -> Z -> res (world T * Z));
  ops_hold_rx_buffer : option (world T -> Z -> res (world T));
  ops_release_rx_buffer : option (world T -> Z -> res (world T));
  ops_get_tx_payload_buffer : option (world T -> Z -> res (world T * Z * Z));
  ops_send_offchannel_nocopy : option (world T -> Z -> Z -> Z -> Z -> res (world T * Z));
  ops_release_tx_buffer : option (world T -> Z -> res (world T * Z));
  ops_get_rx_buffer_size : option (world T -> res (world T * Z));
  ops_get_tx_buffer_size : option (world T -> res (world T * Z))
}.

(** The user's callbacks, by the address of the function. *)
Record callbacks := mk_callbacks {
  call_release : Z -> world T -> Z -> res (world T);
  call_ept : Z -> world T -> Z -> Z -> Z -> Z -> Z -> res (world T * Z);
  call_ns_unbind : Z -> world T -> Z -> res (world T);
  call_ns_bind : Z -> world T -> list Z -> Z -> res (world T)
}.

Variable ops : rpmsg_device_ops.
Variable env : callbacks.
(** The address of the local variable [ns_msg] of [rpmsg_send_ns_message]. *)
Variable ns_slot : Z.

Definition set_mem (w : world T) (m : gmap Z Z) : world T :=
  mk_world m (w_epts w) (w_rdev w) (w_tr w).
Definition set_epts (w : world T) (e : gmap Z rpmsg_endpoint) : world T :=
  mk_world (w_mem w) e (w_rdev w) (w_tr w).
Definition set_rdev (w : world T) (d : rpmsg_device) : world T :=
  mk_world (w_mem w) (w_epts w) d (w_tr w).

Definition get_ept (w : world T) (ept : Z) : res rpmsg_endpoint :=
  match w_epts w !! ept with
  | Some e => Ok e
  | None => Fault Out_of_bounds
  end.
Definition put_ept (w : world T) (ept : Z) (e : rpmsg_endpoint) : world T :=
  set_epts w (<[ept := e]> (w_epts w)).

Definition metal_mutex_acquire (w : world T) : res (world T) :=
  if rd_lock (w_rdev w) then Fault Deadlock else Ok (set_rdev w (rd_set_lock (w_rdev w) true)).
Definition metal_mutex_release (w : world T) : world T :=
  set_rdev w (rd_set_lock (w_rdev w) false).

Definition rpmsg_ept_incref (w : world T) (ept : Z) : res (world T) :=
  if ept =? 0 then Ok w
  else e ← get_ept w ept; Ok (put_ept w ept (ept_set_refcnt e (u32 (ept_refcnt e + 1)))).

Definition rpmsg_ept_decref (w : world T) (ept : Z) : res (world T) :=
  if ept =? 0 then Ok w
  else
    e ← get_ept w ept;
    let e := ept_set_refcnt e (u32 (ept_refcnt e - 1)) in
    let w := put_ept w ept e in
    if ept_refcnt e =? 0 then
      if ept_release_cb e =? 0 then Ok (put_ept w ept (ept_clear_rdev e))
      else call_release env (ept_release_cb e) w ept
    else Ok w.

(** [!ept || !ept->rdev] *)
Definition no_device (w : world T) (ept : Z) : res bool :=
  if ept =? 0 then Ok true else e ← get_ept w ept; Ok (negb (ept_rdev e)).

Definition rpmsg_send_offchannel_raw (w : world T) (ept src dst data len wait : Z)
  : res (world T * Z) :=
  bad ← no_device w ept;
  if bad || (data =? 0) || (dst =? RPMSG_ADDR_ANY) || (len <? 0) then Ok (w, RPMSG_ERR_PARAM)
  else
    match ops_send_offchannel_raw ops with
    | Some f => f w src dst data len wait
    | None => Ok (w, RPMSG_ERR_PARAM)
    end.

(** [sizeof(struct rpmsg_ns_msg)] *)
Definition SIZEOF_NS_MSG : Z := 40.

Definition rpmsg_send_ns_message (w : world T) (ept flags : Z) : res (world T * Z) :=
  e ← get_ept w ept;
  name ← loadn (Z.to_nat RPMSG_NAME_SIZE) (w_mem w) ns_slot;
  '(name, _) ← safe_strcpy name RPMSG_NAME_SIZE (ept_name e) RPMSG_NAME_SIZE;
  m ← storen (w_mem w) ns_slot (name ++ le_bytes 4 (ept_addr e) ++ le_bytes 4 (u32 flags));
  '(w, ret) ← rpmsg_send_offchannel_raw (set_mem w m) ept (ept_addr e) RPMSG_NS_EPT_ADDR
                ns_slot SIZEOF_NS_MSG 1;
  Ok (w, if ret <? 0 then ret else RPMSG_SUCCESS).

Definition rpmsg_hold_rx_buffer (w : world T) (ept rxbuf : Z) : res (world T) :=
  bad ← no_device w ept;
  if bad || (rxbuf =? 0) then Ok w
  else match ops_hold_rx_buffer ops with Some f => f w rxbuf | None => Ok w end.

Definition rpmsg_release_rx_buffer (w : world T) (ept rxbuf : Z) : res (world T) :=
  bad ← no_device w ept;
  if bad || (rxbuf =? 0) then Ok w
  else match ops_release_rx_buffer ops with Some f => f w rxbuf | None => Ok w end.

Definition rpmsg_release_tx_buffer (w : world T) (ept buf : Z) : res (world T * Z) :=
  bad ← no_device w ept;
  if bad || (buf =? 0) then Ok (w, RPMSG_ERR_PARAM)
  else
    match ops_release_tx_buffer ops with
    | Some f => f w buf
    | None => Ok (w, RPMSG_ERR_PERM)
    end.

(** The buffer and its length; the pointer [len] is not null. *)
Definition rpmsg_get_tx_payload_buffer (w : world T) (ept wait : Z) : res (world T * Z * Z) :=
  bad ← no_device w ept;
  if bad : bool then Ok (w, 0, 0)
  else
    match ops_get_tx_payload_buffer ops with
    | Some f => f w wait
    | None => Ok (w, 0, 0)
    end.

Definition rpmsg_get_tx_buffer_size (w : world T) (ept : Z) : res (world T * Z) :=
  bad ← no_device w ept;
  if bad : bool then Ok (w, RPMSG_ERR_PARAM)
  else
    match ops_get_tx_buffer_size ops with
    | Some f => f w
    | None => Ok (w, RPMSG_EOPNOTSUPP)
    end.

Definition rpmsg_get_rx_buffer_size (w : world T) (ept : Z) : res (world T * Z) :=
  bad ← no_device w ept;
  if bad : bool then Ok (w, RPMSG_ERR_PARAM)
  else
    match ops_get_rx_buffer_size ops with
    | Some f => f w
    | None => Ok (w, RPMSG_EOPNOTSUPP)
    end.

Definition rpmsg_send_offchannel_nocopy (w : world T) (ept src dst data len : Z)
  : res (world T * Z) :=
  bad ← no_device w ept;
  if bad || (data =? 0) || (dst =? RPMSG_ADDR_ANY) || (len <? 0) then Ok (w, RPMSG_ERR_PARAM)
  else
    match ops_send_offchannel_nocopy ops with
    | Some f => f w src dst data len
    | None => Ok (w, RPMSG_ERR_PARAM)
    end.

(** The inline senders of rpmsg.h. *)
Definition rpmsg_send (w : world T) (ept data len : Z) : res (world T * Z) :=
  if ept =? 0 then Ok (w, RPMSG_ERR_PARAM)
  else e ← get_ept w ept;
       rpmsg_send_offchannel_raw w ept (ept_addr e) (ept_dest_addr e) data len 1.

Definition rpmsg_sendto (w : world T) (ept data len dst : Z) : res (world T * Z) :=
  if ept =? 0 then Ok (w, RPMSG_ERR_PARAM)
  else e ← get_ept w ept; rpmsg_send_offchannel_raw w ept (ept_addr e) dst data len 1.

Definition rpmsg_send_offchannel (w : world T) (ept src dst data len : Z) : res (world T * Z) :=
  rpmsg_send_offchannel_raw w ept src dst data len 1.

Definition rpmsg_trysend (w : world T) (ept data len : Z) : res (world T * Z) :=
  if ept =? 0 then Ok (w, RPMSG_ERR_PARAM)
  else e ← get_ept w ept;
       rpmsg_send_offchannel_raw w ept (ept_addr e) (ept_dest_addr e) data len 0.

Definition rpmsg_trysendto (w : world T) (ept data len dst : Z) : res (world T * Z) :=
  if ept =? 0 then Ok (w, RPMSG_ERR_PARAM)
  else e ← get_ept w ept; rpmsg_send_offchannel_raw w ept (ept_addr e) dst data len 0.

Definition rpmsg_trysend_offchannel (w : world T) (ept src dst data len : Z) : res (world T * Z) :=
  rpmsg_send_offchannel_raw w ept src dst data len 0.

Definition rpmsg_sendto_nocopy (w : world T) (ept data len dst : Z) : res (world T * Z) :=
  if ept =? 0 then Ok (w, RPMSG_ERR_PARAM)
  else e ← get_ept w ept; rpmsg_send_offchannel_nocopy w ept (ept_addr e) dst data len.

Definition rpmsg_send_nocopy (w : world T) (ept data len : Z) : res (world T * Z) :=
  if ept =? 0 then Ok (w, RPMSG_ERR_PARAM)
  else e ← get_ept w ept;
       rpmsg_send_offchannel_nocopy w ept (ept_addr e) (ept_dest_addr e) data len.

(** The loop of [rpmsg_get_endpoint] over the list; [name] is [None] for a null
    pointer. *)
Fixpoint get_endpoint_loop (w : world T) (l : list Z) (name : option (list Z))
    (addr dest_addr : Z) : res Z :=
  match l with
  | [] => Ok 0
  | ept :: l' =>
      e ← get_ept w ept;
      if negb (addr =? RPMSG_ADDR_ANY) && (ept_addr e =? addr) then Ok ept
      else
        name_match ←
          match name with
          | Some nm => strncmp_eq (Z.to_nat RPMSG_NAME_SIZE) (ept_name e) nm 0
          | None => Ok false
          end;
        if negb name_match then get_endpoint_loop w l' name addr dest_addr
        else if negb (dest_addr =? RPMSG_ADDR_ANY) && (ept_dest_addr e =? dest_addr) then Ok ept
        else if (addr =? RPMSG_ADDR_ANY) && (ept_dest_addr e =? RPMSG_ADDR_ANY) then Ok ept
        else get_endpoint_loop w l' name addr dest_addr
  end.

Definition rpmsg_get_endpoint (w : world T) (name : option (list Z)) (addr dest_addr : Z) : res Z :=
  get_endpoint_loop w (rd_endpoints (w_rdev w)) name addr dest_addr.

Definition rpmsg_get_ept_from_addr (w : world T) (addr : Z) : res Z :=
  rpmsg_get_endpoint w None addr RPMSG_ADDR_ANY.

Definition rpmsg_unregister_endpoint (w : world T) (ept : Z) : res (world T) :=
  w ← metal_mutex_acquire w;
  e ← get_ept w ept;
  let d := w_rdev w in
  bitmap ←
    (if ept_addr e =? RPMSG_ADDR_ANY then Ok (rd_bitmap d)
     else rpmsg_release_address (rd_bitmap d) RPMSG_ADDR_BMP_SIZE (ept_addr e));
  let d := rd_set_bitmap d bitmap in
  let d := rd_set_endpoints d (filter (fun x => x <> ept) (rd_endpoints d)) in
  w ← rpmsg_ept_decref (set_rdev w d) ept;
  Ok (metal_mutex_release w).

Definition rpmsg_register_endpoint (w : world T) (ept : Z) (name : option (list Z))
    (src dest cb ns_unbind_cb priv : Z) : res (world T) :=
  e ← get_ept w ept;
  name' ←
    match name with
    | Some nm =>
        '(n, _) ← safe_strcpy (ept_name e) RPMSG_NAME_SIZE nm RPMSG_NAME_SIZE; Ok n
    | None => rset (ept_name e) 0 0
    end;
  let e := mk_ept name' true src dest 1 (ept_release_cb e) cb ns_unbind_cb priv in
  let w := put_ept w ept e in
  let d := w_rdev w in
  Ok (set_rdev w (rd_set_endpoints d (rd_endpoints d ++ [ept]))).

(** The choice of the address in [rpmsg_create_ept]: the world, the address, the
    status and whether the function goes on. *)
Definition create_address (w : world T) (src : Z) : res (world T * Z * Z * bool) :=
  let d := w_rdev w in
  if src =? RPMSG_ADDR_ANY then
    '(bitmap, addr) ← rpmsg_get_address (rd_bitmap d) (rd_bitnext d) RPMSG_ADDR_BMP_SIZE;
    let d := rd_set_bitmap d bitmap in
    if addr =? RPMSG_ADDR_ANY then Ok (set_rdev w d, addr, RPMSG_ERR_ADDR, false)
    else
      let d := rd_set_bitnext d (u32 (addr + 1) mod RPMSG_ADDR_BMP_SIZE) in
      Ok (set_rdev w d, addr, RPMSG_SUCCESS, true)
  else if RPMSG_RESERVED_ADDRESSES <=? src then
    status ← rpmsg_is_address_set (rd_bitmap d) RPMSG_ADDR_BMP_SIZE src;
    if status =? 0 then
      '(bitmap, _) ← rpmsg_set_address (rd_bitmap d) RPMSG_ADDR_BMP_SIZE src;
      Ok (set_rdev w (rd_set_bitmap d bitmap), src, status, true)
    else if 0 <? status then Ok (w, src, RPMSG_ERR_ADDR, false)
    else Ok (w, src, status, false)
  else Ok (w, src, RPMSG_SUCCESS, true).

(** The rest of [rpmsg_create_ept] once the address is chosen. *)
Definition create_register (w : world T) (ept : Z) (name : option (list Z))
    (addr dest cb unbind_cb status : Z) : res (world T * Z) :=
  e ← get_ept w ept;
  w ← rpmsg_register_endpoint w ept name addr dest cb unbind_cb (ept_priv e);
  let w := metal_mutex_release w in
  e ← get_ept w ept;
  c ← rget (ept_name e) 0;
  '(w, status) ←
    (if negb (c =? 0) && rd_support_ns (w_rdev w) && (ept_dest_addr e =? RPMSG_ADDR_ANY)
     then rpmsg_send_ns_message w ept RPMSG_NS_CREATE
     else Ok (w, status));
  if negb (status =? 0) then
    w ← rpmsg_unregister_endpoint w ept; Ok (w, status)
  else Ok (w, status).

Definition rpmsg_create_ept (w : world T) (ept : Z) (name : option (list Z))
    (src dest cb unbind_cb : Z) : res (world T * Z) :=
  if (ept =? 0) || (cb =? 0) then Ok (w, RPMSG_ERR_PARAM)
  else
    w ← metal_mutex_acquire w;
    '(w, addr, status, go_on) ← create_address w src;
    if go_on : bool then create_register w ept name addr dest cb unbind_cb status
    else Ok (metal_mutex_release w, status).

Definition rpmsg_destroy_ept (w : world T) (ept : Z) : res (world T) :=
  bad ← no_device w ept;
  if bad : bool then Ok w
  else
    e ← get_ept w ept;
    c ← rget (ept_name e) 0;
    w ←
      (if negb (c =? 0) && rd_support_ns (w_rdev w) && (RPMSG_RESERVED_ADDRESSES <=? ept_addr e)
       then '(w, _) ← rpmsg_send_ns_message w ept RPMSG_NS_DESTROY; Ok w
       else Ok w);
    rpmsg_unregister_endpoint w ept.

Definition is_rpmsg_ept_ready (w : world T) (ept : Z) : res bool :=
  if ept =? 0 then Ok false
  else e ← get_ept w ept; Ok (ept_rdev e && negb (ept_dest_addr e =? RPMSG_ADDR_ANY)).

End rpmsg.
Arguments rpmsg_device_ops : clear implicits.
Arguments callbacks : clear implicits.
