(* ===== verification/RpmsgInv.v ===== *)
(** * The endpoint registry: invariant and theorems

    What [rpmsg_create_ept], [rpmsg_destroy_ept] and [rpmsg_get_endpoint] do to
    the list of endpoints and to the address bitmap, proved against the
    interface of the transport. *)

From S2P Require Import Prelude MetalUtil StrUtil Rpmsg.

(** ** The interface of a transport *)

(** What the core relies on: the transport keeps an invariant of its own over
    the memory and its state, sending a message from readable memory returns,
    and it leaves the endpoints and the device structure alone.  The memory of
    the local [ns_msg] belongs to the caller. *)
Class Transport {T : Type} (ops : rpmsg_device_ops T) (ns_slot : Z) := {
  tr_ok : gmap Z Z -> T -> Prop;
  tr_slot_null : ns_slot <> 0;
  tr_slot_mapped : forall m t, tr_ok m t ->
    exists bs, zlen bs = SIZEOF_NS_MSG /\ has_bytes m ns_slot bs /\ Forall is_u8 bs;
  tr_slot_write : forall m t bs, tr_ok m t -> zlen bs = SIZEOF_NS_MSG -> Forall is_u8 bs ->
    tr_ok (put_bytes m ns_slot bs) t;
  tr_send : forall f, ops_send_offchannel_raw ops = Some f ->
    forall w src dst bs wait, tr_ok (w_mem w) (w_tr w) -> rd_lock (w_rdev w) = false ->
      zlen bs = SIZEOF_NS_MSG -> has_bytes (w_mem w) ns_slot bs ->
      exists w' r, f w src dst ns_slot SIZEOF_NS_MSG wait = Ok (w', r) /\
        w_epts w' = w_epts w /\ w_rdev w' = w_rdev w /\ tr_ok (w_mem w') (w_tr w')
}.

(** ** The invariant of the registry *)

(** Addresses of registered endpoints: reserved ones, or those of the bitmap. *)
Definition addr_ok (a : Z) : Prop := 0 <= a < RPMSG_RESERVED_ADDRESSES + RPMSG_ADDR_BMP_SIZE.

(** The array [char name[RPMSG_NAME_SIZE]]. *)
Definition char_array (l : list Z) : Prop := zlen l = RPMSG_NAME_SIZE /\ Forall is_u8 l.

Record ept_ok (e : rpmsg_endpoint) : Prop := {
  eo_rdev : ept_rdev e = true;
  eo_ref : 1 <= ept_refcnt e < 4294967296;
  eo_name : char_array (ept_name e);
  eo_str : exists s, is_cstr (ept_name e) s;
  eo_addr : addr_ok (ept_addr e)
}.

Record reg_inv (d : rpmsg_device) (E : gmap Z rpmsg_endpoint) : Prop := {
  ri_wf : bm_wf (rd_bitmap d);
  ri_len : zlen (rd_bitmap d) = 2;
  ri_next : 0 <= rd_bitnext d < RPMSG_ADDR_BMP_SIZE;
  ri_nodup : NoDup (rd_endpoints d);
  ri_ept : forall x, x ∈ rd_endpoints d -> exists e, E !! x = Some e /\ ept_ok e;
  ri_set : forall x e, x ∈ rd_endpoints d -> E !! x = Some e ->
    RPMSG_RESERVED_ADDRESSES <= ept_addr e ->
    bm_test (rd_bitmap d) (ept_addr e - RPMSG_RESERVED_ADDRESSES) = true;
  ri_uniq : forall x y ex ey, x ∈ rd_endpoints d -> y ∈ rd_endpoints d ->
    E !! x = Some ex -> E !! y = Some ey -> RPMSG_RESERVED_ADDRESSES <= ept_addr ex ->
    ept_addr ex = ept_addr ey -> x = y
}.

Lemma reg_inv_lock d E b : reg_inv d E -> reg_inv (rd_set_lock d b) E.
Proof. by intros []. Qed.

#[export] Hint Resolve reg_inv_lock : amp.

(** An address no registered endpoint has: reserved addresses are not tracked. *)
Definition addr_free (d : rpmsg_device) (a : Z) : Prop :=
  RPMSG_RESERVED_ADDRESSES <= a ->
  bm_test (rd_bitmap d) (a - RPMSG_RESERVED_ADDRESSES) = false.

(** Adding an endpoint with a free address whose bit gets set. *)
Lemma reg_inv_add d E x e bm next :
  reg_inv d E -> (x ∉ rd_endpoints d) -> ept_ok e -> addr_free d (ept_addr e) ->
  bm_wf bm -> zlen bm = 2 -> 0 <= next < RPMSG_ADDR_BMP_SIZE ->
  (forall j, 0 <= j -> bm_test bm j =
     if (RPMSG_RESERVED_ADDRESSES <=? ept_addr e) && (j =? ept_addr e - RPMSG_RESERVED_ADDRESSES)
     then true else bm_test (rd_bitmap d) j) ->
  reg_inv (rd_set_endpoints (rd_set_bitnext (rd_set_bitmap d bm) next) (rd_endpoints d ++ [x]))
    (<[x := e]> E).
Proof.
  intros [I1 I2 I3 I4 I5 I6 I7] Hx He Hfree Hwf Hlen Hnext Hbm.
  assert (Hne : forall y, y ∈ rd_endpoints d -> <[x := e]> E !! y = E !! y).
  { intros y Hy. apply lookup_insert_ne. by intros ->. }
  assert (Hclash : forall y ey, y ∈ rd_endpoints d -> E !! y = Some ey ->
            RPMSG_RESERVED_ADDRESSES <= ept_addr e -> ept_addr ey <> ept_addr e).
  { intros y ey Hy Ey Ha Heq. specialize (Hfree Ha). rewrite <- Heq in Hfree, Ha.
    by rewrite (I6 y ey Hy Ey Ha) in Hfree. }
  split; cbn; try done.
  - apply list.NoDup_app. split; [done|]. split; [|apply NoDup_singleton].
    intros y Hy ->%list_elem_of_singleton. done.
  - intros y [Hy| ->%list_elem_of_singleton]%elem_of_app; [rewrite Hne by done; auto|].
    exists e. split; [apply lookup_insert_eq|done].
  - intros y ey [Hy| ->%list_elem_of_singleton]%elem_of_app.
    + rewrite Hne by done. intros Ey Ha. rewrite Hbm by lia. rewrite (I6 y ey Hy Ey Ha). by destruct (_ && _).
    + rewrite lookup_insert_eq. intros [= <-] Ha. rewrite Hbm by lia.
      by rewrite (proj2 (Z.leb_le _ _) Ha), Z.eqb_refl.
  - intros y z ey ez [Hy| ->%list_elem_of_singleton]%elem_of_app
      [Hz| ->%list_elem_of_singleton]%elem_of_app; rewrite ?lookup_insert_eq.
    + rewrite (Hne y), (Hne z) by done. eauto.
    + rewrite (Hne y) by done. intros Ey [= <-] Ha Heq. exfalso. apply (Hclash y ey Hy Ey); [by rewrite <- Heq|done].
    + rewrite (Hne z) by done. intros [= <-] Ez Ha Heq. exfalso. by apply (Hclash z ez Hz Ez Ha).
    + done.
Qed.

(** Removing an endpoint clears at most the bit of its address. *)
Lemma reg_inv_remove d E x e e' bm :
  reg_inv d E -> x ∈ rd_endpoints d -> E !! x = Some e ->
  bm_wf bm -> zlen bm = 2 ->
  (forall j, 0 <= j -> bm_test bm j =
     if (RPMSG_RESERVED_ADDRESSES <=? ept_addr e) && (j =? ept_addr e - RPMSG_RESERVED_ADDRESSES)
     then false else bm_test (rd_bitmap d) j) ->
  reg_inv (rd_set_endpoints (rd_set_bitmap d bm) (filter (fun y => y <> x) (rd_endpoints d)))
    (<[x := e']> E).
Proof.
  intros [I1 I2 I3 I4 I5 I6 I7] Hx Ex Hwf Hlen Hbm.
  split; cbn; try done.
  - by apply list.NoDup_filter.
  - intros y [Hne Hy]%list_elem_of_filter. rewrite lookup_insert_ne by done. auto.
  - intros y ey [Hne Hy]%list_elem_of_filter. rewrite lookup_insert_ne by done. intros Ey Ha.
    rewrite Hbm by lia. rewrite (I6 y ey Hy Ey Ha). destruct (_ && _) eqn:E1; [|done]. zbool.
    exfalso. apply Hne. apply (I7 y x ey e); try done. lia.
  - intros y z ey ez [Hy1 Hy]%list_elem_of_filter [Hz1 Hz]%list_elem_of_filter.
    rewrite !lookup_insert_ne by done. eauto.
Qed.

(** ** Addresses *)

Section addresses.
Context (bm : list Z).
Hypothesis Hwf : bm_wf bm.
Hypothesis Hlen : zlen bm = 2.

Lemma bm_bits_128 : bm_bits bm = RPMSG_ADDR_BMP_SIZE.
Proof. unfold bm_bits. by rewrite Hlen. Qed.

Lemma get_address_free start i :
  0 <= start < RPMSG_ADDR_BMP_SIZE -> 0 <= i < RPMSG_ADDR_BMP_SIZE -> bm_test bm i = false ->
  exists bm' b, rpmsg_get_address bm start RPMSG_ADDR_BMP_SIZE
      = Ok (bm', RPMSG_RESERVED_ADDRESSES + b) /\
    0 <= b < RPMSG_ADDR_BMP_SIZE /\ bm_test bm b = false /\ bm_wf bm' /\ zlen bm' = 2 /\
    forall j, 0 <= j -> bm_test bm' j = if j =? b then true else bm_test bm j.
Proof.
  unfold RPMSG_ADDR_BMP_SIZE. intros Hs Hi Hc. pose proof bm_bits_128 as Hb.
  unfold RPMSG_ADDR_BMP_SIZE in Hb.
  destruct (next_clear_bit_found bm start 128 ltac:(lia) ltac:(lia) ltac:(lia) i Hi Hc)
    as (r & Hrun & Hr & Hclr & _).
  pose proof (Z.mod_pos_bound r 128 ltac:(lia)) as Hm.
  destruct (set_bit_spec bm (r mod 128) Hwf) as (bm' & Hset & Hw & Hl & Ht); [lia..|].
  exists bm', (r mod 128). split; [|split_and!; try (done || lia)].
  unfold rpmsg_get_address. rewrite Hrun. cbn [mbind res_bind].
  change (u32 128) with 128. rewrite (proj2 (Z.ltb_lt _ _)) by lia.
  rewrite i32_id by lia. rewrite Hset. cbn [mbind res_bind]. unfold RPMSG_RESERVED_ADDRESSES.
  by rewrite u32_id by (unfold is_u32; lia).
Qed.

Lemma addr_index a :
  0 <= a < 4294967296 ->
  (0 <=? i32 (i32 a - RPMSG_RESERVED_ADDRESSES)) && (i32 (i32 a - RPMSG_RESERVED_ADDRESSES) <? RPMSG_ADDR_BMP_SIZE)
  = (RPMSG_RESERVED_ADDRESSES <=? a) && (a <? RPMSG_RESERVED_ADDRESSES + RPMSG_ADDR_BMP_SIZE) /\
  ((RPMSG_RESERVED_ADDRESSES <=? a) && (a <? RPMSG_RESERVED_ADDRESSES + RPMSG_ADDR_BMP_SIZE) = true ->
   i32 (i32 a - RPMSG_RESERVED_ADDRESSES) = a - RPMSG_RESERVED_ADDRESSES).
Proof.
  unfold RPMSG_RESERVED_ADDRESSES, RPMSG_ADDR_BMP_SIZE. intros Ha. split.
  - apply eq_true_iff_eq. rewrite !andb_true_iff, !Z.leb_le, !Z.ltb_lt. width.
  - rewrite andb_true_iff, Z.leb_le, Z.ltb_lt. width.
Qed.

Lemma release_address_spec a :
  addr_ok a ->
  exists bm', rpmsg_release_address bm RPMSG_ADDR_BMP_SIZE a = Ok bm' /\ bm_wf bm' /\ zlen bm' = 2 /\
    forall j, 0 <= j -> bm_test bm' j =
      if (RPMSG_RESERVED_ADDRESSES <=? a) && (j =? a - RPMSG_RESERVED_ADDRESSES)
      then false else bm_test bm j.
Proof.
  intros Ha. unfold addr_ok, RPMSG_RESERVED_ADDRESSES, RPMSG_ADDR_BMP_SIZE in Ha.
  destruct (addr_index a ltac:(lia)) as [E1 E2]. unfold rpmsg_release_address. rewrite E1.
  pose proof bm_bits_128 as Hb. unfold RPMSG_ADDR_BMP_SIZE in Hb.
  destruct (_ && _) eqn:E in |- *.
  - rewrite E2 by done. unfold RPMSG_RESERVED_ADDRESSES, RPMSG_ADDR_BMP_SIZE in *. zbool.
    destruct (clear_bit_spec bm (a - 1024) Hwf) as (bm' & Hr & Hw & Hl & Ht); [lia..|].
    exists bm'. split_and!; try (done || lia). intros j Hj.
    rewrite Ht, (proj2 (Z.leb_le _ _)) by lia. done.
  - exists bm. split_and!; try done. intros j Hj. unfold RPMSG_RESERVED_ADDRESSES, RPMSG_ADDR_BMP_SIZE in *.
    destruct (1024 <=? a) eqn:F; [|done]. zbool. rewrite (proj2 (Z.ltb_lt _ _)) in E by lia. done.
Qed.

Lemma is_address_set_spec a :
  RPMSG_RESERVED_ADDRESSES <= a < RPMSG_RESERVED_ADDRESSES + RPMSG_ADDR_BMP_SIZE ->
  rpmsg_is_address_set bm RPMSG_ADDR_BMP_SIZE a
  = Ok (if bm_test bm (a - RPMSG_RESERVED_ADDRESSES) then 1 else 0).
Proof.
  intros Ha. pose proof bm_bits_128 as Hb.
  unfold RPMSG_RESERVED_ADDRESSES, RPMSG_ADDR_BMP_SIZE in *.
  unfold rpmsg_is_address_set. destruct (addr_index a) as [E1 E2]; [lia|].
  unfold RPMSG_RESERVED_ADDRESSES, RPMSG_ADDR_BMP_SIZE in *. rewrite E1, E2;
    rewrite (proj2 (Z.leb_le _ _)), (proj2 (Z.ltb_lt _ _)) by lia; [|done]. cbn.
  apply is_bit_set_spec; lia.
Qed.

Lemma set_address_spec a :
  RPMSG_RESERVED_ADDRESSES <= a < RPMSG_RESERVED_ADDRESSES + RPMSG_ADDR_BMP_SIZE ->
  exists bm', rpmsg_set_address bm RPMSG_ADDR_BMP_SIZE a = Ok (bm', RPMSG_SUCCESS) /\
    bm_wf bm' /\ zlen bm' = 2 /\
    forall j, 0 <= j -> bm_test bm' j = if j =? a - RPMSG_RESERVED_ADDRESSES then true else bm_test bm j.
Proof.
  intros Ha. pose proof bm_bits_128 as Hb.
  unfold RPMSG_RESERVED_ADDRESSES, RPMSG_ADDR_BMP_SIZE in *.
  unfold rpmsg_set_address. destruct (addr_index a) as [E1 E2]; [lia|].
  unfold RPMSG_RESERVED_ADDRESSES, RPMSG_ADDR_BMP_SIZE in *. rewrite E1, E2;
    rewrite (proj2 (Z.leb_le _ _)), (proj2 (Z.ltb_lt _ _)) by lia; [|done]. cbn.
  destruct (set_bit_spec bm (a - 1024) Hwf) as (bm' & Hr & Hw & Hl & Ht); [lia..|].
  exists bm'. rewrite Hr. cbn. split_and!; try (done || lia).
Qed.
End addresses.

(** ** The calls on the registry *)

(** The name argument: a null pointer or a terminated string. *)
Definition name_arg (name : option (list Z)) : Prop :=
  match name with Some nm => (exists s, is_cstr nm s) /\ Forall is_u8 nm | None => True end.

(** The name stored: cut to 31 bytes, empty for a null pointer. *)
Definition stored_as (name : option (list Z)) (stored : list Z) : Prop :=
  char_array stored /\
  match name with
  | Some nm => forall s, is_cstr nm s -> is_cstr stored (take 31 s)
  | None => is_cstr stored []
  end.

Lemma cstr_inj a s t : is_cstr a s -> is_cstr a t -> s = t.
Proof.
  intros (Hs & ra & ->) (Ht & rb & E). revert t Ht E.
  induction Hs as [|c s Hc Hs IH]; intros t Ht E; destruct Ht as [|d t Hd Ht]; try done.
  - injection E as E1 E2. by symmetry in E1.
  - injection E as E1 E2. done.
  - injection E as -> E. f_equal. by apply IH.
Qed.

Lemma store_name old name :
  char_array old -> name_arg name ->
  exists stored, stored_as name stored /\
    match name with
    | Some nm => '(n, _) ← safe_strcpy old RPMSG_NAME_SIZE nm RPMSG_NAME_SIZE; Ok n
    | None => rset old 0 0
    end = Ok stored.
Proof.
  unfold stored_as, RPMSG_NAME_SIZE. intros Hl Hn. destruct name as [nm|].
  - destruct Hl as [Hl Hlu]. destruct Hn as [[s Hs] Hnu].
    destruct (safe_strcpy_same 32 old nm s) as (d & r & Hr & Hd & Hc & _); [done..|].
    exists d. rewrite Hr. split; [|done]. split.
    { split; [done|]. by apply (safe_strcpy_u8 _ _ _ _ _ _ Hr). }
    intros t Ht. by rewrite <- (cstr_inj nm s t Hs Ht).
  - destruct Hl as [Hl Hlu]. exists (zset old 0 0). split; [|apply rset_ok; rewrite Hl; unfold RPMSG_NAME_SIZE; lia]. split.
    { split; [by rewrite zlen_zset|]. by apply Forall_zset. }
    split; [constructor|]. destruct old as [|x old]; [done|]. by exists old.
Qed.

Section registry.
Context {T : Type} (ops : rpmsg_device_ops T) (env : callbacks T) (ns_slot : Z).
Context `{!Transport ops ns_slot}.
Implicit Types w : world T.

(** The registry of a world: its endpoints and device, with the lock free. *)
Record w_ok w : Prop := {
  wo_reg : reg_inv (w_rdev w) (w_epts w);
  wo_lock : rd_lock (w_rdev w) = false;
  wo_tr : tr_ok (w_mem w) (w_tr w)
}.

Lemma acquire_run w :
  rd_lock (w_rdev w) = false ->
  metal_mutex_acquire w = Ok (set_rdev w (rd_set_lock (w_rdev w) true)).
Proof. intros E. unfold metal_mutex_acquire. by rewrite E. Qed.

Lemma get_ept_run w x e : w_epts w !! x = Some e -> get_ept w x = Ok e.
Proof. intros E. unfold get_ept. by rewrite E. Qed.

Lemma ns_message_run w ept e flags :
  tr_ok (w_mem w) (w_tr w) -> rd_lock (w_rdev w) = false -> ept <> 0 ->
  w_epts w !! ept = Some e -> ept_rdev e = true -> (exists s, is_cstr (ept_name e) s) ->
  Forall is_u8 (ept_name e) ->
  exists w' r, rpmsg_send_ns_message ops ns_slot w ept flags = Ok (w', r) /\ r <= 0 /\
    w_epts w' = w_epts w /\ w_rdev w' = w_rdev w /\ tr_ok (w_mem w') (w_tr w').
Proof.
  intros Ht Hl Hne He Hr [s Hs] Hu. unfold rpmsg_send_ns_message. rewrite (get_ept_run _ _ _ He).
  cbn [mbind res_bind]. destruct (tr_slot_mapped _ _ Ht) as (bs & Hz & Hb & Hbu). unfold SIZEOF_NS_MSG in Hz.
  rewrite <- (take_drop 32 bs) in Hb. apply has_bytes_app in Hb as Hb'. destruct Hb' as [Hb1 _].
  assert (H32 : length (take 32 bs) = 32%nat) by (rewrite length_take; unfold zlen in Hz; lia).
  pose proof (loadn_ok _ _ _ Hb1) as Hload. rewrite H32 in Hload.
  change (Z.to_nat RPMSG_NAME_SIZE) with 32%nat. rewrite Hload. cbn [mbind res_bind].
  destruct (safe_strcpy_same 32 (take 32 bs) (ept_name e) s) as (nm & r0 & Hc & Hn & _);
    [lia|unfold zlen; lia|done|].
  unfold RPMSG_NAME_SIZE. rewrite Hc. cbn [mbind res_bind].
  set (msg := nm ++ le_bytes 4 (ept_addr e) ++ le_bytes 4 (u32 flags)).
  assert (Hm : zlen msg = SIZEOF_NS_MSG).
  { unfold msg, zlen. rewrite !length_app, !length_le_bytes. unfold zlen in Hn, Hz.
    unfold SIZEOF_NS_MSG. lia. }
  assert (Hmu : Forall is_u8 msg).
  { unfold msg. rewrite !Forall_app. split_and!; try apply le_bytes_u8.
    apply (safe_strcpy_u8 _ _ _ _ _ _ Hc); [by apply list.Forall_take|done]. }
  rewrite storen_ok.
  2:{ apply has_bytes_mapped in Hb. rewrite take_drop, Hz in Hb. by rewrite Hm. }
  cbn [mbind res_bind]. unfold rpmsg_send_offchannel_raw, no_device.
  rewrite (proj2 (Z.eqb_neq _ _) Hne). cbn [set_mem w_epts].
  unfold get_ept. cbn [w_epts set_mem]. rewrite He. cbn [mbind res_bind]. rewrite Hr.
  rewrite (proj2 (Z.eqb_neq _ _) tr_slot_null). cbn [negb orb].
  change (RPMSG_NS_EPT_ADDR =? RPMSG_ADDR_ANY) with false.
  change (SIZEOF_NS_MSG <? 0) with false. cbn [orb].
  destruct (ops_send_offchannel_raw ops) as [f|] eqn:Ef.
  - destruct (tr_send f Ef (set_mem w (put_bytes (w_mem w) ns_slot msg)) (ept_addr e)
      RPMSG_NS_EPT_ADDR msg 1) as (w' & r & Hrun & H1 & H2 & H3); try done.
    { cbn. by apply tr_slot_write. }
    { cbn. apply has_bytes_put. }
    rewrite Hrun. cbn [mbind res_bind]. eexists _, _. split; [done|]. split; [|done].
    destruct (r <? 0) eqn:E; zbool; unfold RPMSG_SUCCESS; lia.
  - cbn [mbind res_bind]. eexists _, _. split; [done|]. split; [done|]. cbn. split_and!; try done.
    by apply tr_slot_write.
Qed.

Lemma register_run w ept e0 name src dest cb ub priv :
  w_epts w !! ept = Some e0 -> char_array (ept_name e0) -> name_arg name ->
  exists stored, stored_as name stored /\
    rpmsg_register_endpoint w ept name src dest cb ub priv =
      Ok (set_rdev
            (put_ept w ept (mk_ept stored true src dest 1 (ept_release_cb e0) cb ub priv))
            (rd_set_endpoints (w_rdev w) (rd_endpoints (w_rdev w) ++ [ept]))).
Proof.
  intros He Hl Hn. destruct (store_name (ept_name e0) name Hl Hn) as (stored & Hs & Hrun).
  exists stored. split; [done|]. unfold rpmsg_register_endpoint.
  rewrite (get_ept_run _ _ _ He). cbn [mbind res_bind]. rewrite Hrun. done.
Qed.

Lemma unregister_run w ept e :
  reg_inv (w_rdev w) (w_epts w) -> rd_lock (w_rdev w) = false -> ept <> 0 ->
  ept ∈ rd_endpoints (w_rdev w) ->
  w_epts w !! ept = Some e -> ept_refcnt e = 1 -> ept_release_cb e = 0 ->
  exists w' bm', rpmsg_unregister_endpoint env w ept = Ok w' /\
    w_mem w' = w_mem w /\ w_tr w' = w_tr w /\
    reg_inv (w_rdev w') (w_epts w') /\ rd_lock (w_rdev w') = false /\
    rd_endpoints (w_rdev w') = filter (fun y => y <> ept) (rd_endpoints (w_rdev w)) /\
    rd_bitmap (w_rdev w') = bm' /\ rd_bitnext (w_rdev w') = rd_bitnext (w_rdev w) /\
    (forall j, 0 <= j -> bm_test bm' j =
       if (RPMSG_RESERVED_ADDRESSES <=? ept_addr e) && (j =? ept_addr e - RPMSG_RESERVED_ADDRESSES)
       then false else bm_test (rd_bitmap (w_rdev w)) j) /\
    (exists e', w_epts w' !! ept = Some e' /\ ept_rdev e' = false) /\
    (forall y, y <> ept -> w_epts w' !! y = w_epts w !! y).
Proof.
  intros HI Hl Hne Hin He Hr1 Hrel. pose proof HI as [I1 I2 I3 I4 I5 I6 I7].
  destruct (I5 ept Hin) as (e1 & E1 & Hok). rewrite He in E1. injection E1 as <-.
  destruct (release_address_spec _ I1 I2 _ (eo_addr _ Hok)) as (bm' & Hrun & Hw & Hz & Ht).
  unfold rpmsg_unregister_endpoint. rewrite acquire_run by done. cbn [mbind res_bind].
  rewrite (get_ept_run (set_rdev w _) _ _ He). cbn [mbind res_bind set_rdev w_rdev rd_bitmap rd_set_lock].
  assert (Ha : ept_addr e <> RPMSG_ADDR_ANY).
  { pose proof (eo_addr _ Hok) as Ha. unfold addr_ok, RPMSG_RESERVED_ADDRESSES, RPMSG_ADDR_BMP_SIZE in Ha.
    unfold RPMSG_ADDR_ANY. lia. }
  rewrite (proj2 (Z.eqb_neq _ _) Ha), Hrun. cbn [mbind res_bind]. unfold rpmsg_ept_decref.
  rewrite (proj2 (Z.eqb_neq _ _) Hne). unfold get_ept. cbn [set_rdev w_epts]. rewrite He.
  cbn [mbind res_bind]. cbn [ept_set_refcnt ept_refcnt ept_release_cb]. rewrite Hr1, Hrel.
  change (u32 (1 - 1)) with 0. rewrite !Z.eqb_refl. cbn [mbind res_bind].
  eexists _, bm'. split; [done|]. cbn. split_and!; try done.
  - rewrite insert_insert_eq.
    exact (reg_inv_remove (rd_set_lock (w_rdev w) false) _ ept e _ bm'
      (reg_inv_lock _ _ _ HI) Hin He Hw Hz Ht).
  - eexists. split; [apply lookup_insert_eq|done].
  - intros y Hy. by rewrite !lookup_insert_ne.
Qed.

(** What [rpmsg_create_ept] promises for the address [a]. *)
Definition created w w' ept name a dest cb ub (status : Z) : Prop :=
  status = RPMSG_SUCCESS /\
  rd_endpoints (w_rdev w') = rd_endpoints (w_rdev w) ++ [ept] /\
  exists e, w_epts w' !! ept = Some e /\ stored_as name (ept_name e) /\ ept_addr e = a /\
    ept_dest_addr e = dest /\ ept_cb e = cb /\ ept_ns_unbind_cb e = ub /\
    ept_refcnt e = 1 /\ ept_rdev e = true.

(** The transport refused the announcement: the registry is as before. *)
Definition rolled_back w w' ept (status : Z) : Prop :=
  status < 0 /\
  rd_endpoints (w_rdev w') = rd_endpoints (w_rdev w) /\
  (forall j, 0 <= j -> bm_test (rd_bitmap (w_rdev w')) j = bm_test (rd_bitmap (w_rdev w)) j) /\
  exists e, w_epts w' !! ept = Some e /\ ept_rdev e = false.

(** The name is announced: there is one, the device takes part in the name service, and the
    endpoint has no destination yet. *)
Definition announces w (name : option (list Z)) dest : bool :=
  match name with Some nm => negb (hd 0 nm =? 0) | None => false end && rd_support_ns (w_rdev w) &&
  (dest =? RPMSG_ADDR_ANY).

(** The endpoint is registered; if its name is announced, the registration stands when the
    announcement [w2] to [w3] is sent, and is undone, with its error, exactly when it is not. *)
Definition create_outcome w w' ept name a dest cb ub (status : Z) : Prop :=
  exists w2, created w w2 ept name a dest cb ub RPMSG_SUCCESS /\
    if announces w name dest then
      exists w3, rpmsg_send_ns_message ops ns_slot w2 ept RPMSG_NS_CREATE = Ok (w3, status) /\
        ((status = RPMSG_SUCCESS /\ w' = w3 /\ created w w' ept name a dest cb ub status) \/
         (status < 0 /\ rolled_back w w' ept status))
    else w' = w2 /\ status = RPMSG_SUCCESS.

Lemma outcome_cases w w' ept name a dest cb ub status :
  create_outcome w w' ept name a dest cb ub status ->
  created w w' ept name a dest cb ub status \/ rolled_back w w' ept status.
Proof.
  intros (w2 & Hc & H). destruct (announces w name dest).
  - destruct H as (w3 & _ & [(_ & _ & H)|(_ & H)]); [by left|by right].
  - destruct H as [-> ->]. by left.
Qed.

(** The first byte of the stored name decides like the first byte of the name. *)
Lemma stored_head name stored c :
  name_arg name -> stored_as name stored -> rget stored 0 = Ok c ->
  negb (c =? 0) = match name with Some nm => negb (hd 0 nm =? 0) | None => false end.
Proof.
  intros Hn [_ Hs] Hc. destruct name as [nm|].
  - destruct Hn as [[s Hn] _]. specialize (Hs s Hn). destruct Hn as (Hz & r & ->). destruct Hs as (_ & r' & ->).
    destruct s as [|x s]; cbn in Hc |- *; injection Hc as <-; [done|]. done.
  - destruct Hs as (_ & r & ->). by injection Hc as <-.
Qed.

Lemma filter_app_fresh (l : list Z) x : (x ∉ l) -> filter (fun y => y <> x) (l ++ [x]) = l.
Proof.
  intros Hx. rewrite list.filter_app. rewrite (list.filter_cons_False _ x []) by auto. rewrite app_nil_r.
  induction l as [|y l IH]; [done|]. apply not_elem_of_cons in Hx as [Hy Hx].
  rewrite list.filter_cons_True by auto. by rewrite IH.
Qed.

Section create.
Context (w : world T) (ept : Z) (e0 : rpmsg_endpoint) (name : option (list Z)).
Hypothesis Hok : w_ok w.
Hypothesis Hept : ept <> 0.
Hypothesis He0 : w_epts w !! ept = Some e0.
Hypothesis Hlen : char_array (ept_name e0).
Hypothesis Hrel : ept_release_cb e0 = 0.
Hypothesis Hfresh : ept ∉ rd_endpoints (w_rdev w).
Hypothesis Hname : name_arg name.

Lemma stored_str stored : stored_as name stored -> exists s, is_cstr stored s.
Proof.
  intros [_ H]. destruct name as [nm|]; [|eauto]. destruct Hname as [[s Hs] _]. eauto.
Qed.

Lemma create_announce w2 e a dest cb ub :
  w_ok w2 -> created w w2 ept name a dest cb ub RPMSG_SUCCESS -> w_epts w2 !! ept = Some e ->
  ept_ok e -> ept_addr e = a -> ept_refcnt e = 1 -> ept_release_cb e = 0 -> addr_free (w_rdev w) a ->
  (forall j, 0 <= j -> bm_test (rd_bitmap (w_rdev w2)) j =
     if (RPMSG_RESERVED_ADDRESSES <=? a) && (j =? a - RPMSG_RESERVED_ADDRESSES)
     then true else bm_test (rd_bitmap (w_rdev w)) j) ->
  exists w' status,
    ('(w3, st) ← (if announces w name dest then rpmsg_send_ns_message ops ns_slot w2 ept RPMSG_NS_CREATE
                  else Ok (w2, RPMSG_SUCCESS));
     if negb (st =? 0) then w4 ← rpmsg_unregister_endpoint env w3 ept; Ok (w4, st)
     else Ok (w3, st)) = Ok (w', status) /\ w_ok w' /\
    rd_bitnext (w_rdev w') = rd_bitnext (w_rdev w2) /\
    create_outcome w w' ept name a dest cb ub status.
Proof.
  intros [HI2 Hl2 Ht2] Hcr He Hek Ea Hr1 Hrl Hfree Hbm. unfold create_outcome. destruct (announces w name dest); cycle 1.
  { eexists _, _. split; [done|]. split; [done|]. split; [done|]. by exists w2. }
  destruct (ns_message_run w2 ept e RPMSG_NS_CREATE Ht2 Hl2 Hept He (eo_rdev _ Hek) (eo_str _ Hek)
    (proj2 (eo_name _ Hek)))
    as (w3 & st & Hrun & Hst & H3e & H3d & H3t).
  rewrite Hrun. cbn [mbind res_bind]. destruct (st =? 0) eqn:Est; zbool; cbn [negb].
  - subst st. eexists _, _. split; [done|]. split; [by split; rewrite ?H3e, ?H3d|]. split; [by rewrite H3d|].
    exists w2. split; [done|]. exists w3. split; [done|]. left. split; [done|]. split; [done|].
    unfold created. rewrite H3e, H3d. exact Hcr.
  - assert (Hend : rd_endpoints (w_rdev w3) = rd_endpoints (w_rdev w) ++ [ept]) by (rewrite H3d; apply Hcr).
    destruct (unregister_run w3 ept e) as (w4 & bm4 & Hun & H4m & H4t & H4r & H4l & H4e & H4b & H4n & H4bm & H4x & _);
      rewrite ?H3e, ?H3d; try done.
    { rewrite <- H3d, Hend. apply elem_of_app. right. constructor. }
    rewrite Hun. cbn [mbind res_bind]. eexists _, _. split; [done|]. split.
    { split; [done|done|]. by rewrite H4m, H4t. }
    split; [by rewrite H4n, H3d|]. exists w2. split; [done|]. exists w3. split; [done|].
    right. split; [lia|]. split; [lia|]. split; [by rewrite H4e, Hend, filter_app_fresh|]. split; [|done].
    intros j Hj. rewrite H4b, H4bm by done. rewrite H3d, Hbm, Ea by done.
    destruct (RPMSG_RESERVED_ADDRESSES <=? a) eqn:Ear; zbool; [|done].
    destruct (j =? _) eqn:Ej; zbool; [|done]. subst j. by rewrite Hfree.
Qed.

Lemma create_register_run a dest cb ub bm next :
  addr_ok a -> addr_free (w_rdev w) a ->
  bm_wf bm -> zlen bm = 2 -> 0 <= next < RPMSG_ADDR_BMP_SIZE ->
  (forall j, 0 <= j -> bm_test bm j =
     if (RPMSG_RESERVED_ADDRESSES <=? a) && (j =? a - RPMSG_RESERVED_ADDRESSES)
     then true else bm_test (rd_bitmap (w_rdev w)) j) ->
  exists w' status,
    create_register ops env ns_slot
      (set_rdev w (rd_set_bitnext (rd_set_bitmap (rd_set_lock (w_rdev w) true) bm) next))
      ept name a dest cb ub RPMSG_SUCCESS = Ok (w', status) /\ w_ok w' /\
    rd_bitnext (w_rdev w') = next /\ create_outcome w w' ept name a dest cb ub status.
Proof.
  intros Ha Hfree Hwf Hl2 Hnx Hbm. destruct Hok as [HI Hlk Htr].
  set (d1 := rd_set_bitnext (rd_set_bitmap (rd_set_lock (w_rdev w) true) bm) next).
  destruct (register_run (set_rdev w d1) ept e0 name a dest cb ub (ept_priv e0) He0 Hlen Hname)
    as (stored & Hst & Hreg).
  set (e := mk_ept stored true a dest 1 (ept_release_cb e0) cb ub (ept_priv e0)) in *.
  set (d2 := rd_set_lock (rd_set_endpoints d1 (rd_endpoints (w_rdev w) ++ [ept])) false).
  set (w2 := set_rdev (put_ept (set_rdev w d1) ept e) d2).
  destruct (stored_str stored Hst) as [s Hs].
  assert (Hek : ept_ok e) by (split; cbn; try done; [apply Hst|eauto]).
  assert (HI2 : reg_inv d2 (<[ept := e]> (w_epts w))).
  { exact (reg_inv_lock _ _ false (reg_inv_add (rd_set_lock (w_rdev w) true) (w_epts w) ept e bm next
      (reg_inv_lock _ _ _ HI) Hfresh Hek Hfree Hwf Hl2 Hnx Hbm)). }
  assert (He2 : w_epts w2 !! ept = Some e) by apply lookup_insert_eq.
  assert (Hcr : created w w2 ept name a dest cb ub RPMSG_SUCCESS).
  { split; [done|]. split; [done|]. exists e. split; [done|]. split_and!; try done; apply Hst. }
  unfold create_register. rewrite (get_ept_run (set_rdev w d1) _ _ He0). cbn [mbind res_bind].
  rewrite Hreg. cbn [mbind res_bind].
  match goal with |- context [get_ept ?x ept] => change (get_ept x ept) with (get_ept w2 ept) end.
  rewrite (get_ept_run w2 _ _ He2). cbn [mbind res_bind].
  destruct (rget_ok (ept_name e) 0) as (c & Hc & _).
  { rewrite (proj1 (eo_name _ Hek)). unfold RPMSG_NAME_SIZE. lia. }
  rewrite Hc. cbn [mbind res_bind].
  assert (Hns : negb (c =? 0) && rd_support_ns (w_rdev w2) && (ept_dest_addr e =? RPMSG_ADDR_ANY) = announces w name dest).
  { unfold announces. by rewrite (stored_head name stored c Hname Hst Hc). }
  match goal with |- context [negb (c =? 0) && rd_support_ns ?d && ?x] =>
    change (negb (c =? 0) && rd_support_ns d && x) with (negb (c =? 0) && rd_support_ns (w_rdev w2) && (ept_dest_addr e =? RPMSG_ADDR_ANY)) end.
  rewrite Hns. apply (create_announce w2 e a dest cb ub); try done.
Qed.
End create.
End registry.

(** ** Theorems *)

(** A transport that accepts every message, to evaluate the core on. *)
Definition demo_ops : rpmsg_device_ops unit :=
  mk_rops (Some (fun w _ _ _ len _ => Ok (w, len))) None None None None None None None.
Definition demo_env : callbacks unit :=
  mk_callbacks (fun _ w _ => Ok w) (fun _ w _ _ _ _ _ => Ok (w, 0)) (fun _ w _ => Ok w)
    (fun _ w _ _ => Ok w).
Definition demo_slot : Z := 4096.
Definition demo_mem : gmap Z Z := put_bytes ∅ demo_slot (replicate 40 170).
Definition demo_ept : rpmsg_endpoint := mk_ept (replicate 32 7) false 0 0 0 0 0 0 0.
Definition demo_world : world unit :=
  mk_world demo_mem {[ 100 := demo_ept; 200 := demo_ept ]}
    (mk_rdev [] [0; 0] 0 false 0 0 true) tt.

#[export, program] Instance demo_transport : Transport demo_ops demo_slot := {
  tr_ok m _ := exists bs, zlen bs = SIZEOF_NS_MSG /\ has_bytes m demo_slot bs /\ Forall is_u8 bs
}.
Next Obligation. done. Qed.
Next Obligation. done. Qed.
Next Obligation. intros m t bs _ Hl Hu. exists bs. split; [done|]. split; [apply has_bytes_put|done]. Qed.
Next Obligation.
  intros f [= <-] w src dst bs wait Ht Hl Hz Hb. eexists _, _. split; [done|]. done.
Qed.

Lemma demo_w_ok : w_ok demo_ops demo_slot demo_world.
Proof.
  split; [|done|].
  - split; cbn.
    + repeat constructor; done.
    + done.
    + done.
    + constructor.
    + intros x Hx. by apply not_elem_of_nil in Hx.
    + intros x e Hx. by apply not_elem_of_nil in Hx.
    + intros x y ex ey Hx. by apply not_elem_of_nil in Hx.
  - exists (replicate 40 170). split; [done|]. split; [apply has_bytes_put|].
    apply list.Forall_replicate. unfold is_u8. lia.
Qed.

Lemma create_dynamic_run {T : Type} (ops : rpmsg_device_ops T) (env : callbacks T)
  (ns_slot : Z) (TR : Transport ops ns_slot) (w : world T) (ept : Z) (e0 : rpmsg_endpoint)
  (name : option (list Z)) (dest cb ub i : Z)
  (Hok : w_ok ops ns_slot w) (Hept : ept <> 0) (Hcb : cb <> 0)
  (He0 : w_epts w !! ept = Some e0) (Hlen : char_array (ept_name e0))
  (Hrel : ept_release_cb e0 = 0) (Hfresh : (ept ∉ rd_endpoints (w_rdev w)))
  (Hname : name_arg name)
  (Hi : 0 <= i < RPMSG_ADDR_BMP_SIZE) (Hclr : bm_test (rd_bitmap (w_rdev w)) i = false) :
  exists w' status b,
    rpmsg_create_ept ops env ns_slot w ept name RPMSG_ADDR_ANY dest cb ub = Ok (w', status) /\
    0 <= b < RPMSG_ADDR_BMP_SIZE /\ bm_test (rd_bitmap (w_rdev w)) b = false /\
    w_ok ops ns_slot w' /\ rd_bitnext (w_rdev w') = (b + 1) mod RPMSG_ADDR_BMP_SIZE /\
    create_outcome ops ns_slot w w' ept name (RPMSG_RESERVED_ADDRESSES + b) dest cb ub status.
Proof.
  pose proof Hok as [[I1 I2 I3 I4 I5 I6 I7] Hl Ht].
  destruct (get_address_free _ I1 I2 _ i I3 Hi Hclr) as (bm & b & Hrun & Hb & Hc & Hwf & Hz & Hbm).
  unfold rpmsg_create_ept. rewrite (proj2 (Z.eqb_neq _ _) Hept), (proj2 (Z.eqb_neq _ _) Hcb).
  cbn [orb]. rewrite acquire_run by done. cbn [mbind res_bind]. unfold create_address.
  rewrite Z.eqb_refl. cbn [set_rdev w_rdev rd_set_lock rd_bitmap rd_bitnext]. rewrite Hrun.
  cbn [mbind res_bind]. unfold RPMSG_RESERVED_ADDRESSES, RPMSG_ADDR_BMP_SIZE, RPMSG_ADDR_ANY in *.
  rewrite (proj2 (Z.eqb_neq _ _)) by lia. cbn [mbind res_bind].
  destruct (create_register_run ops env ns_slot w ept e0 name Hok Hept He0 Hlen Hrel Hfresh Hname
    (1024 + b) dest cb ub bm (u32 (1024 + b + 1) mod 128)) as (w' & status & Hr & Hok' & Hnext & Hres).
  - unfold addr_ok, RPMSG_RESERVED_ADDRESSES, RPMSG_ADDR_BMP_SIZE. lia.
  - intros _. unfold RPMSG_RESERVED_ADDRESSES. by replace (1024 + b - 1024) with b by lia.
  - done.
  - done.
  - apply Z.mod_pos_bound. done.
  - intros j Hj. rewrite Hbm by done. unfold RPMSG_RESERVED_ADDRESSES.
    rewrite (proj2 (Z.leb_le _ _)) by lia. by replace (1024 + b - 1024) with b by lia.
  - exists w', status, b. split; [exact Hr|]. split; [done|]. split; [done|]. split; [done|]. split; [|done].
    rewrite Hnext, u32_id by (unfold is_u32; lia). replace (1024 + b + 1) with (b + 1 + 8 * 128) by lia. by rewrite Z_mod_plus_full.
Qed.

(** C9: [rpmsg_create_ept] without a source address.  While a dynamic address is
    free, the endpoint gets one no registered endpoint has, its bit is marked, it
    becomes the last of the device's endpoints with the name cut to 31 bytes, one
    reference and the callbacks given, and the registry's invariant (addresses
    unique and marked, structures in range) holds again with the lock released.
    The name is announced when there is one, the name service is supported and no
    destination is given; exactly when that announcement fails is the registration
    undone: its error is returned, and the list and the bitmap are those before the
    call.  The next search starts behind the address in either case.  With every
    dynamic address taken, an address in use is handed out, see
    [rpmsg_get_address_exhausted]. *)
Theorem rpmsg_create_ept_dynamic {T : Type} (ops : rpmsg_device_ops T) (env : callbacks T)
  (ns_slot : Z) (TR : Transport ops ns_slot) (w : world T) (ept : Z) (e0 : rpmsg_endpoint)
  (name : option (list Z)) (dest cb ub i : Z)
  (Hok : w_ok ops ns_slot w) (Hept : ept <> 0) (Hcb : cb <> 0)
  (He0 : w_epts w !! ept = Some e0) (Hlen : char_array (ept_name e0))
  (Hrel : ept_release_cb e0 = 0) (Hfresh : (ept ∉ rd_endpoints (w_rdev w)))
  (Hname : name_arg name)
  (Hi : 0 <= i < RPMSG_ADDR_BMP_SIZE) (Hclr : bm_test (rd_bitmap (w_rdev w)) i = false) :
  exists w' status b,
    rpmsg_create_ept ops env ns_slot w ept name RPMSG_ADDR_ANY dest cb ub = Ok (w', status) /\
    0 <= b < RPMSG_ADDR_BMP_SIZE /\ bm_test (rd_bitmap (w_rdev w)) b = false /\
    w_ok ops ns_slot w' /\ rd_bitnext (w_rdev w') = (b + 1) mod RPMSG_ADDR_BMP_SIZE /\
    create_outcome ops ns_slot w w' ept name (RPMSG_RESERVED_ADDRESSES + b) dest cb ub status.
Proof. exact (create_dynamic_run ops env ns_slot TR w ept e0 name dest cb ub i Hok Hept Hcb He0 Hlen Hrel Hfresh Hname Hi Hclr). Qed.

Lemma demo_ept_name : char_array (ept_name demo_ept).
Proof. split; [done|]. apply list.Forall_replicate. unfold is_u8. lia. Qed.

Lemma rpmsg_create_ept_dynamic_witness :
  exists w' status b,
    rpmsg_create_ept demo_ops demo_env demo_slot demo_world 100 (Some [110; 115; 0]) RPMSG_ADDR_ANY
      RPMSG_ADDR_ANY 5 0 = Ok (w', status) /\
    status = 0 /\ rd_endpoints (w_rdev w') = [100] /\ 0 <= b < 128 /\ w_ok demo_ops demo_slot w'.
Proof.
  destruct (rpmsg_create_ept_dynamic demo_ops demo_env demo_slot demo_transport demo_world 100 demo_ept
    (Some [110; 115; 0]) RPMSG_ADDR_ANY 5 0 9 demo_w_ok) as (w' & st & b & E & Hb & _ & Hok & _).
  - lia.
  - lia.
  - by apply lookup_insert_eq.
  - exact demo_ept_name.
  - reflexivity.
  - by apply not_elem_of_nil.
  - split; [|repeat constructor; unfold is_u8; lia].
    exists [110; 115]. split; [repeat constructor; lia|]. by exists [].
  - unfold RPMSG_ADDR_BMP_SIZE. lia.
  - reflexivity.
  - assert (Hv : match rpmsg_create_ept demo_ops demo_env demo_slot demo_world 100
        (Some [110; 115; 0]) RPMSG_ADDR_ANY RPMSG_ADDR_ANY 5 0 with
      | Ok (w1, s1) => (s1, rd_endpoints (w_rdev w1)) | Fault _ => (1, []) end = (0, [100]))
      by (vm_compute; reflexivity).
    exists w', st, b. split; [exact E|]. rewrite E in Hv. injection Hv as -> ->.
    split; [reflexivity|]. split; [reflexivity|]. split; [exact Hb|exact Hok].
Defined.



Lemma destroy_ept_run {T : Type} (ops : rpmsg_device_ops T) (env : callbacks T)
  (ns_slot : Z) (TR : Transport ops ns_slot) (w : world T) (ept : Z) (e : rpmsg_endpoint)
  (Hok : w_ok ops ns_slot w) (Hept : ept <> 0) (Hin : ept ∈ rd_endpoints (w_rdev w))
  (He : w_epts w !! ept = Some e) (Href : ept_refcnt e = 1) (Hrel : ept_release_cb e = 0) :
  exists w', rpmsg_destroy_ept ops env ns_slot w ept = Ok w' /\ w_ok ops ns_slot w' /\
    rd_endpoints (w_rdev w') = filter (fun y => y <> ept) (rd_endpoints (w_rdev w)) /\
    (forall j, 0 <= j -> bm_test (rd_bitmap (w_rdev w')) j =
       if (RPMSG_RESERVED_ADDRESSES <=? ept_addr e) && (j =? ept_addr e - RPMSG_RESERVED_ADDRESSES)
       then false else bm_test (rd_bitmap (w_rdev w)) j) /\
    (forall y, y <> ept -> w_epts w' !! y = w_epts w !! y) /\
    rpmsg_destroy_ept ops env ns_slot w' ept = Ok w'.
Proof.
  pose proof Hok as [HI Hl Ht]. destruct (ri_ept _ _ HI ept Hin) as (e1 & E1 & Hek).
  rewrite He in E1. injection E1 as <-.
  assert (Hns : exists w1,
    (if negb (hd 0 (ept_name e) =? 0) && rd_support_ns (w_rdev w) && (RPMSG_RESERVED_ADDRESSES <=? ept_addr e)
     then '(w1, _) ← rpmsg_send_ns_message ops ns_slot w ept RPMSG_NS_DESTROY; Ok w1 else Ok w) = Ok w1 /\
    w_epts w1 = w_epts w /\ w_rdev w1 = w_rdev w /\ tr_ok (w_mem w1) (w_tr w1)).
  { destruct (_ && _); [|eauto].
    destruct (ns_message_run ops ns_slot w ept e RPMSG_NS_DESTROY Ht Hl Hept He (eo_rdev _ Hek) (eo_str _ Hek)
    (proj2 (eo_name _ Hek)))
      as (w1 & r & -> & _ & H1). cbn [mbind res_bind]. eauto. }
  destruct Hns as (w1 & Hns & N1 & N2 & N3).
  destruct (unregister_run env w1 ept e) as (w' & bm & Hun & Um & Ut & Ur & Ul & Ue & Ub & _ & Ubm & (e' & Ue' & Ur') & Uo);
    rewrite ?N1, ?N2; try done.
  exists w'. split_and!.
  - unfold rpmsg_destroy_ept, no_device. rewrite (proj2 (Z.eqb_neq _ _) Hept), (get_ept_run _ _ _ He).
    cbn [mbind res_bind]. rewrite (eo_rdev _ Hek). cbn [negb].
    rewrite (rget_Some (ept_name e) 0 (hd 0 (ept_name e))).
    2:{ pose proof (proj1 (eo_name _ Hek)) as Hz. by destruct (ept_name e). }
    cbn [mbind res_bind]. rewrite Hns. exact Hun.
  - split; [done|done|]. by rewrite Um, Ut.
  - by rewrite Ue, N2.
  - intros j Hj. by rewrite Ub, Ubm, N2.
  - intros y Hy. by rewrite Uo, N1.
  - unfold rpmsg_destroy_ept, no_device. rewrite (proj2 (Z.eqb_neq _ _) Hept), (get_ept_run _ _ _ Ue').
    cbn [mbind res_bind]. by rewrite Ur'.
Qed.

(** [rpmsg_destroy_ept] on a registered endpoint that nobody else holds takes
    it out of the list, frees its dynamic address and no other, detaches it from
    the device (so a second destruction does nothing), leaves all other endpoints
    alone and keeps the registry's invariant, whether or not the announcement of
    the destruction could be sent. *)
Theorem rpmsg_destroy_ept_spec {T : Type} (ops : rpmsg_device_ops T) (env : callbacks T)
  (ns_slot : Z) (TR : Transport ops ns_slot) (w : world T) (ept : Z) (e : rpmsg_endpoint)
  (Hok : w_ok ops ns_slot w) (Hept : ept <> 0) (Hin : ept ∈ rd_endpoints (w_rdev w))
  (He : w_epts w !! ept = Some e) (Href : ept_refcnt e = 1) (Hrel : ept_release_cb e = 0) :
  exists w', rpmsg_destroy_ept ops env ns_slot w ept = Ok w' /\ w_ok ops ns_slot w' /\
    rd_endpoints (w_rdev w') = filter (fun y => y <> ept) (rd_endpoints (w_rdev w)) /\
    (forall j, 0 <= j -> bm_test (rd_bitmap (w_rdev w')) j =
       if (RPMSG_RESERVED_ADDRESSES <=? ept_addr e) && (j =? ept_addr e - RPMSG_RESERVED_ADDRESSES)
       then false else bm_test (rd_bitmap (w_rdev w)) j) /\
    (forall y, y <> ept -> w_epts w' !! y = w_epts w !! y) /\
    rpmsg_destroy_ept ops env ns_slot w' ept = Ok w'.
Proof. exact (destroy_ept_run ops env ns_slot TR w ept e Hok Hept Hin He Href Hrel). Qed.

(** A registered endpoint named "ns" with address 1027. *)
Definition demo_ept3 : rpmsg_endpoint :=
  mk_ept ([110; 115; 0] ++ replicate 29 7) true 1027 RPMSG_ADDR_ANY 1 0 5 0 0.
Definition demo_world3 : world unit :=
  mk_world demo_mem {[ 100 := demo_ept3 ]} (mk_rdev [100] [8; 0] 4 false 0 0 true) tt.

Lemma demo_w_ok3 : w_ok demo_ops demo_slot demo_world3.
Proof.
  assert (Hlk : forall x e, x ∈ [100] -> w_epts demo_world3 !! x = Some e -> x = 100 /\ e = demo_ept3).
  { intros x e ->%list_elem_of_singleton. cbn. rewrite lookup_singleton_eq. by intros [= <-]. }
  split; [|done|exists (replicate 40 170); split; [done|]; split;
    [apply has_bytes_put|apply list.Forall_replicate; unfold is_u8; lia]].
  split; cbn [demo_world3 w_rdev rd_bitmap rd_bitnext rd_endpoints].
  - repeat constructor; done.
  - done.
  - done.
  - apply NoDup_singleton.
  - intros x ->%list_elem_of_singleton. exists demo_ept3. split; [by apply lookup_singleton_eq|].
    split; try done.
    + split; [done|]. apply Forall_app. split; [repeat constructor; unfold is_u8; lia|].
      apply list.Forall_replicate. unfold is_u8. lia.
    + exists [110; 115]. split; [repeat constructor; lia|]. by eexists.
  - intros x e Hx Ex _. by destruct (Hlk x e Hx Ex) as [_ ->].
  - intros x y ex ey Hx Hy Ex Ey _ _. destruct (Hlk x ex Hx Ex) as [-> _].
    by destruct (Hlk y ey Hy Ey) as [-> _].
Qed.

Lemma rpmsg_destroy_ept_spec_witness :
  exists w', rpmsg_destroy_ept demo_ops demo_env demo_slot demo_world3 100 = Ok w' /\
    w_ok demo_ops demo_slot w' /\ rd_endpoints (w_rdev w') = [] /\
    bm_test (rd_bitmap (w_rdev w')) 3 = false.
Proof.
  destruct (rpmsg_destroy_ept_spec demo_ops demo_env demo_slot demo_transport demo_world3 100 demo_ept3
    demo_w_ok3) as (w' & E & Hok & Hl & Hb & _).
  - done.
  - constructor.
  - by apply lookup_singleton_eq.
  - done.
  - done.
  - exists w'. split; [exact E|]. split; [exact Hok|]. split; [exact Hl|].
    rewrite Hb by done. reflexivity.
Defined.

(** When an endpoint answers a lookup: by its own address, or else by name with
    the destination address it is bound to, or unbound when no address is
    asked for. *)
Definition ept_answers (e : rpmsg_endpoint) (name : option (list Z)) (addr dest : Z) : Prop :=
  (addr <> RPMSG_ADDR_ANY /\ ept_addr e = addr) \/
  (exists nm s t, name = Some nm /\ is_cstr nm s /\ is_cstr (ept_name e) t /\
     take 32 s = take 32 t /\
     ((dest <> RPMSG_ADDR_ANY /\ ept_dest_addr e = dest) \/
      (addr = RPMSG_ADDR_ANY /\ ept_dest_addr e = RPMSG_ADDR_ANY))).

(** The endpoint [x] is the first of [l] that answers, or 0 and none does. *)
Definition first_answer {T} (w : world T) (l : list Z) (name : option (list Z)) (addr dest x : Z)
  : Prop :=
  let answers y := exists e, w_epts w !! y = Some e /\ ept_answers e name addr dest in
  (x = 0 /\ forall y, y ∈ l -> ~ answers y) \/
  exists l1 l2, l = l1 ++ x :: l2 /\ answers x /\ forall y, y ∈ l1 -> ~ answers y.

Section lookup.
Context {T : Type} (w : world T) (name : option (list Z)) (addr dest : Z).

Lemma first_answer_here x l e :
  w_epts w !! x = Some e -> ept_answers e name addr dest -> first_answer w (x :: l) name addr dest x.
Proof.
  intros He Ha. right. exists [], l. split; [done|]. split; [eauto|].
  intros y Hy. by apply not_elem_of_nil in Hy.
Qed.

Lemma first_answer_skip a l e x :
  w_epts w !! a = Some e -> ~ ept_answers e name addr dest ->
  first_answer w l name addr dest x -> first_answer w (a :: l) name addr dest x.
Proof.
  intros He Hno. assert (Hna : ~ exists e, w_epts w !! a = Some e /\ ept_answers e name addr dest).
  { intros (e' & E & Ha). rewrite He in E. by injection E as <-. }
  intros [[-> Hall]|(l1 & l2 & -> & Hans & Hall)].
  - left. split; [done|]. intros y [->|Hy]%elem_of_cons; auto.
  - right. exists (a :: l1), l2. split_and!; try done. intros y [->|Hy]%elem_of_cons; auto.
Qed.

Definition name_matches (e : rpmsg_endpoint) : Prop :=
  exists nm s t, name = Some nm /\ is_cstr nm s /\ is_cstr (ept_name e) t /\ take 32 s = take 32 t.

Lemma name_match_run e t :
  name_arg name -> is_cstr (ept_name e) t ->
  exists b : bool,
    match name with
    | Some nm => strncmp_eq (Z.to_nat RPMSG_NAME_SIZE) (ept_name e) nm 0
    | None => Ok false
    end = Ok b /\ (b = true <-> name_matches e).
Proof.
  intros Hn Ht. unfold name_matches. destruct name as [nm|]; [|exists false; split; [done|]; naive_solver].
  destruct Hn as [[s Hs] _]. pose proof Hs as (Fs & rs & ->). pose proof Ht as (Ft & rt & Et).
  rewrite Et. eexists. split; [apply (strncmp_str _ [] t s rt rs); done|].
  rewrite bool_decide_eq_true. change (Z.to_nat RPMSG_NAME_SIZE) with 32%nat. split.
  - intros Heq. exists (s ++ 0 :: rs), s, t. rewrite <- Et. done.
  - intros (nm & s' & t' & [= <-] & Hs' & Ht' & Heq). rewrite <- Et in Ht'.
    by rewrite (cstr_inj _ _ _ Hs Hs'), (cstr_inj _ _ _ Ht Ht').
Qed.

Lemma answers_by_name e : name_matches e ->
  (dest <> RPMSG_ADDR_ANY /\ ept_dest_addr e = dest) \/
  (addr = RPMSG_ADDR_ANY /\ ept_dest_addr e = RPMSG_ADDR_ANY) ->
  ept_answers e name addr dest.
Proof. intros (nm & s & t & H1 & H2 & H3 & H4) H. right. exists nm, s, t. done. Qed.

Lemma get_endpoint_loop_spec l :
  (forall x, x ∈ l -> exists e s, w_epts w !! x = Some e /\ is_cstr (ept_name e) s) ->
  name_arg name ->
  exists x, get_endpoint_loop w l name addr dest = Ok x /\ first_answer w l name addr dest x.
Proof.
  intros Hl Hn. induction l as [|a l IH].
  { exists 0. split; [done|]. left. split; [done|]. intros y Hy. by apply not_elem_of_nil in Hy. }
  destruct (Hl a) as (e & t & He & Ht); [constructor|].
  destruct IH as (x & Hx & Hres); [intros y Hy; apply Hl; by constructor|].
  cbn [get_endpoint_loop]. rewrite (get_ept_run _ _ _ He). cbn [mbind res_bind].
  destruct (negb (addr =? RPMSG_ADDR_ANY) && (ept_addr e =? addr)) eqn:E1.
  { zbool. exists a. split; [done|]. apply (first_answer_here _ _ e He). by left. }
  destruct (name_match_run e t Hn Ht) as (b & -> & Hb). cbn [mbind res_bind].
  assert (Hskip : ~ (addr <> RPMSG_ADDR_ANY /\ ept_addr e = addr) ->
    ~ (name_matches e /\ ((dest <> RPMSG_ADDR_ANY /\ ept_dest_addr e = dest) \/
                          (addr = RPMSG_ADDR_ANY /\ ept_dest_addr e = RPMSG_ADDR_ANY))) ->
    first_answer w (a :: l) name addr dest x).
  { intros H1 H2. apply (first_answer_skip _ _ e _ He); [|done].
    intros [H|(nm & s & t' & K1 & K2 & K3 & K4 & K5)]; [done|]. apply H2. split; [|done].
    exists nm, s, t'. done. }
  assert (Hno1 : ~ (addr <> RPMSG_ADDR_ANY /\ ept_addr e = addr)).
  { intros [H1 H2]. by rewrite (proj2 (Z.eqb_neq _ _) H1), (proj2 (Z.eqb_eq _ _) H2) in E1. }
  destruct b; cbn [negb].
  2:{ exists x. split; [done|]. apply Hskip; [done|]. intros [H _]. by apply Hb in H. }
  pose proof (proj1 Hb eq_refl) as Hnm.
  destruct (negb (dest =? RPMSG_ADDR_ANY) && (ept_dest_addr e =? dest)) eqn:E2.
  { zbool. exists a. split; [done|]. apply (first_answer_here _ _ e He), answers_by_name; auto. }
  destruct ((addr =? RPMSG_ADDR_ANY) && (ept_dest_addr e =? RPMSG_ADDR_ANY)) eqn:E3.
  { zbool. exists a. split; [done|]. apply (first_answer_here _ _ e He), answers_by_name; auto. }
  exists x. split; [done|]. apply Hskip; [done|]. intros [_ [[K1 K2]|[K1 K2]]].
  - by rewrite (proj2 (Z.eqb_neq _ _) K1), (proj2 (Z.eqb_eq _ _) K2) in E2.
  - by rewrite (proj2 (Z.eqb_eq _ _) K1), (proj2 (Z.eqb_eq _ _) K2) in E3.
Qed.
End lookup.

(** The lookup reads the list and the endpoints only. *)
Lemma get_endpoint_ext {T : Type} (w w' : world T) name addr dest :
  rd_endpoints (w_rdev w') = rd_endpoints (w_rdev w) -> w_epts w' = w_epts w ->
  rpmsg_get_endpoint w' name addr dest = rpmsg_get_endpoint w name addr dest.
Proof.
  intros E1 E2. unfold rpmsg_get_endpoint. rewrite E1. clear E1.
  induction (rd_endpoints (w_rdev w)) as [|x l IH]; [done|]. cbn [get_endpoint_loop].
  unfold get_ept. rewrite E2. destruct (w_epts w !! x); [|done]. cbn [mbind res_bind].
  destruct (_ && _); [done|]. match goal with |- context [mbind _ ?m] => destruct m end; [|done].
  cbn [mbind res_bind]. by rewrite IH.
Qed.

Lemma registered_names {T : Type} (w : world T) :
  reg_inv (w_rdev w) (w_epts w) ->
  forall x, x ∈ rd_endpoints (w_rdev w) -> exists e s, w_epts w !! x = Some e /\ is_cstr (ept_name e) s.
Proof.
  intros HI x Hx. destruct (ri_ept _ _ HI x Hx) as (e & He & Hek).
  destruct (eo_str _ Hek) as [s Hs]. eauto.
Qed.

(** A dynamic address leads to its endpoint. *)
Lemma ept_from_addr_run {T : Type} (w : world T) x e :
  reg_inv (w_rdev w) (w_epts w) -> x ∈ rd_endpoints (w_rdev w) -> w_epts w !! x = Some e ->
  RPMSG_RESERVED_ADDRESSES <= ept_addr e -> rpmsg_get_ept_from_addr w (ept_addr e) = Ok x.
Proof.
  intros HI Hx He Ha. pose proof (registered_names w HI) as Hl.
  unfold rpmsg_get_ept_from_addr, rpmsg_get_endpoint.
  destruct (ri_ept _ _ HI x Hx) as (e1 & E1 & Hek). rewrite He in E1. injection E1 as <-.
  pose proof (eo_addr _ Hek) as Hr. unfold addr_ok, RPMSG_RESERVED_ADDRESSES, RPMSG_ADDR_BMP_SIZE in Hr.
  assert (Hany : ept_addr e <> RPMSG_ADDR_ANY) by (unfold RPMSG_ADDR_ANY; lia).
  destruct (get_endpoint_loop_spec w None (ept_addr e) RPMSG_ADDR_ANY _ Hl I) as (y & -> & Hres).
  f_equal. destruct Hres as [[-> Hall]|(l1 & l2 & El & (ey & Ey & Hans) & _)].
  - exfalso. apply (Hall x Hx). exists e. split; [done|]. by left.
  - destruct Hans as [[_ Heq]|(nm & s & t & [=] & _)].
    symmetry. eapply (ri_uniq _ _ HI x y e ey); try done. rewrite El. apply elem_of_app. right. constructor.
Qed.

(** [rpmsg_get_endpoint] returns the first endpoint of the list that answers
    the lookup: the one with the local address asked for, or one whose name is the
    name asked for (on 32 bytes) and that is bound to the destination address
    given, or unbound when no local address is asked for; and [NULL] exactly when
    none does.  For a dynamic address the answer is unique. *)
Theorem rpmsg_get_endpoint_spec {T : Type} (w : world T) (name : option (list Z)) (addr dest : Z)
  (HI : reg_inv (w_rdev w) (w_epts w)) (Hn : name_arg name) :
  (exists x, rpmsg_get_endpoint w name addr dest = Ok x /\
     first_answer w (rd_endpoints (w_rdev w)) name addr dest x) /\
  (forall x e, x ∈ rd_endpoints (w_rdev w) -> w_epts w !! x = Some e ->
     RPMSG_RESERVED_ADDRESSES <= ept_addr e -> rpmsg_get_ept_from_addr w (ept_addr e) = Ok x).
Proof.
  split; [|by intros x e; apply ept_from_addr_run].
  apply get_endpoint_loop_spec; [by apply registered_names|done].
Qed.

Lemma rpmsg_get_endpoint_spec_witness :
  rpmsg_get_ept_from_addr demo_world3 1027 = Ok 100 /\
  exists x, rpmsg_get_endpoint demo_world3 (Some [110; 115; 0]) RPMSG_ADDR_ANY 9 = Ok x /\
    first_answer demo_world3 [100] (Some [110; 115; 0]) RPMSG_ADDR_ANY 9 x.
Proof.
  assert (Hn : name_arg (Some [110; 115; 0])).
  { split; [|repeat constructor; unfold is_u8; lia].
    exists [110; 115]. split; [repeat constructor; lia|]. by exists []. }
  destruct (rpmsg_get_endpoint_spec demo_world3 (Some [110; 115; 0]) RPMSG_ADDR_ANY 9
    (wo_reg _ _ _ demo_w_ok3) Hn) as [H1 H2].
  split; [|exact H1].
  apply (H2 100 demo_ept3); [constructor|by apply lookup_singleton_eq|done].
Defined.

(** when every dynamic address is taken, [rpmsg_get_address] does not report
    it: it returns the address of the position it starts at, which is in use, and
    not [RPMSG_ADDR_ANY]; so the exhaustion test of [rpmsg_create_ept] never
    fires. *)
Theorem rpmsg_get_address_exhausted (bm : list Z) (start : Z)
  (Hwf : bm_wf bm) (Hlen : zlen bm = 2) (Hstart : 0 <= start < RPMSG_ADDR_BMP_SIZE)
  (Hfull : bm_full bm RPMSG_ADDR_BMP_SIZE) :
  exists bm', rpmsg_get_address bm start RPMSG_ADDR_BMP_SIZE
      = Ok (bm', RPMSG_RESERVED_ADDRESSES + start) /\
    rpmsg_is_address_set bm RPMSG_ADDR_BMP_SIZE (RPMSG_RESERVED_ADDRESSES + start) = Ok 1 /\
    RPMSG_RESERVED_ADDRESSES + start <> RPMSG_ADDR_ANY.
Proof.
  pose proof (bm_bits_128 _ Hlen) as Hb.
  rewrite is_address_set_spec by (done || unfold RPMSG_RESERVED_ADDRESSES in *; lia).
  unfold RPMSG_ADDR_BMP_SIZE, RPMSG_RESERVED_ADDRESSES, RPMSG_ADDR_ANY in *.
  replace (1024 + start - 1024) with start by lia. rewrite Hfull by lia.
  destruct (set_bit_spec bm start Hwf) as (bm' & Hset & _); [lia..|].
  exists bm'. split; [|split; [done|lia]]. unfold rpmsg_get_address.
  rewrite next_clear_bit_full by (done || lia). cbn [mbind res_bind].
  rewrite (Z.mod_small start 128) by lia. change (u32 128) with 128.
  rewrite (proj2 (Z.ltb_lt _ _)) by lia. rewrite i32_id by lia. rewrite Hset. cbn [mbind res_bind].
  unfold RPMSG_RESERVED_ADDRESSES. by rewrite u32_id by (unfold is_u32; lia).
Qed.

Lemma rpmsg_get_address_exhausted_witness :
  exists bm', rpmsg_get_address [18446744073709551615; 18446744073709551615] 5 RPMSG_ADDR_BMP_SIZE
      = Ok (bm', RPMSG_RESERVED_ADDRESSES + 5) /\
    rpmsg_is_address_set [18446744073709551615; 18446744073709551615] RPMSG_ADDR_BMP_SIZE
      (RPMSG_RESERVED_ADDRESSES + 5) = Ok 1 /\
    RPMSG_RESERVED_ADDRESSES + 5 <> RPMSG_ADDR_ANY.
Proof.
  apply (rpmsg_get_address_exhausted [18446744073709551615; 18446744073709551615] 5).
  - repeat constructor; done.
  - done.
  - done.
  - intros i Hi. unfold RPMSG_ADDR_BMP_SIZE in Hi. unfold bm_test.
    assert (H64 : forall k, 0 <= k < 64 -> Z.testbit 18446744073709551615 k = true).
    { intros k Hk. change 18446744073709551615 with (Z.ones 64). apply Z.ones_spec_low. lia. }
    pose proof (Z.mod_pos_bound i 64 ltac:(lia)).
    assert (i / 64 = 0 \/ i / 64 = 1) as [-> | ->] by mlia; cbn; by apply H64.
Defined.
