(* ===== verification/RpmsgVirtio.v ===== *)
(** * RPMsg over virtio (lib/rpmsg/rpmsg_virtio.c)

    The transport of the RPMsg core: buffers of a shared region travel through
    two virtqueues.  The transport's state is [rpmsg_virtio]; its operations act
    on the [world] of the core.  The list of reclaimed buffers lives in the
    buffers themselves, as the C code overlays it: its nodes are pointers in the
    byte memory. *)

From S2P Require Import Prelude MetalUtil MetalIo StrUtil Vring Virtqueue Virtio Rpmsg.

(** ** Data *)

Definition RPMSG_NUM_VRINGS : Z := 2.
Definition RPMSG_TICK_COUNT : Z := 15000000.
Definition RPMSG_TICKS_PER_INTERVAL : Z := 1000.
Definition RPMSG_BUFFER_SIZE : Z := 512.
Definition VIRTIO_RPMSG_F_NS : Z := 0.
(** [sizeof(struct rpmsg_hdr)]: src, dst, reserved, len, flags. *)
Definition SIZEOF_HDR : Z := 16.
Definition HDR_DST : Z := 4.
Definition HDR_RESERVED : Z := 8.
Definition HDR_LEN : Z := 12.
(** Offset of [idx] in [struct vbuff_reclaimer_t], after the list node. *)
Definition RECLAIMER_IDX : Z := 16.

Record rpmsg_virtio_shm_pool := mk_pool {
  sp_base : Z;
  sp_avail : Z;
  sp_size : Z
}.

Record rpmsg_virtio_config := mk_config {
  h2r_buf_size : Z;
  r2h_buf_size : Z;
  split_shpool : bool
}.

Definition RPMSG_VIRTIO_DEFAULT_CONFIG : rpmsg_virtio_config :=
  mk_config RPMSG_BUFFER_SIZE RPMSG_BUFFER_SIZE false.

(** [rv_rvq] and [rv_svq] are positions in the device's vrings (-1 for a null
    pointer), [rv_shpool] a position in the array of pools, [rv_reclaimer] the address of the list head;
    [rv_calls] records the notify functions called. *)
Record rpmsg_virtio (B : Type) := mk_rv {
  rv_config : rpmsg_virtio_config;
  rv_vdev : vdev B;
  rv_rvq : Z;
  rv_svq : Z;
  rv_shbuf_io : metal_io_region;
  rv_pools : list rpmsg_virtio_shm_pool;
  rv_shpool : Z;
  rv_reclaimer : Z;
  rv_notify_wait_cb : Z;
  rv_calls : list Z
}.
Arguments mk_rv {B} _ _ _ _ _ _ _ _ _ _.
Arguments rv_config {B} _.
Arguments rv_vdev {B} _.
Arguments rv_rvq {B} _.
Arguments rv_svq {B} _.
Arguments rv_shbuf_io {B} _.
Arguments rv_pools {B} _.
Arguments rv_shpool {B} _.
Arguments rv_reclaimer {B} _.
Arguments rv_notify_wait_cb {B} _.
Arguments rv_calls {B} _.

Definition rv_set_vdev {B} (r : rpmsg_virtio B) (v : vdev B) : rpmsg_virtio B :=
  mk_rv (rv_config r) v (rv_rvq r) (rv_svq r) (rv_shbuf_io r) (rv_pools r) (rv_shpool r)
    (rv_reclaimer r) (rv_notify_wait_cb r) (rv_calls r).
Definition rv_set_pools {B} (r : rpmsg_virtio B) (p : list rpmsg_virtio_shm_pool) : rpmsg_virtio B :=
  mk_rv (rv_config r) (rv_vdev r) (rv_rvq r) (rv_svq r) (rv_shbuf_io r) p (rv_shpool r)
    (rv_reclaimer r) (rv_notify_wait_cb r) (rv_calls r).
Definition rv_set_calls {B} (r : rpmsg_virtio B) (c : list Z) : rpmsg_virtio B :=
  mk_rv (rv_config r) (rv_vdev r) (rv_rvq r) (rv_svq r) (rv_shbuf_io r) (rv_pools r) (rv_shpool r)
    (rv_reclaimer r) (rv_notify_wait_cb r) c.

(** ** Shared memory pools *)

(** The buffer, 0 when the pool cannot provide it. *)
Definition rpmsg_virtio_shm_pool_get_buffer (shpool : rpmsg_virtio_shm_pool) (size : Z)
  : rpmsg_virtio_shm_pool * Z :=
  if (size =? 0) || (sp_avail shpool <? size) then (shpool, 0)
  else
    (mk_pool (sp_base shpool) (u64 (sp_avail shpool - size)) (sp_size shpool),
     u64 (u64 (sp_base shpool + sp_size shpool) - sp_avail shpool)).

Definition rpmsg_virtio_init_shm_pool (shpool : rpmsg_virtio_shm_pool) (shb size : Z)
  : rpmsg_virtio_shm_pool :=
  if (shb =? 0) || (size =? 0) then shpool else mk_pool shb size size.

(** ** Memory accesses *)

Definition ld (n : nat) (m : gmap Z Z) (a : Z) : res Z := bs ← loadn n m a; Ok (le_val bs).
Definition st (n : nat) (m : gmap Z Z) (a v : Z) : res (gmap Z Z) := storen m a (le_bytes n v).

(** [node->next] and [node->prev] of a list node in memory. *)
Definition ld_next (m : gmap Z Z) (node : Z) : res Z := ld 8 m node.
Definition ld_prev (m : gmap Z Z) (node : Z) : res Z := ld 8 m (node + 8).

Definition mem_list_init (m : gmap Z Z) (l : Z) : res (gmap Z Z) :=
  m ← st 8 m l l; st 8 m (l + 8) l.

(** [metal_list_add_tail]: before the list head. *)
Definition mem_list_add_tail (m : gmap Z Z) (l node : Z) : res (gmap Z Z) :=
  p ← ld_prev m l;
  m ← st 8 m (node + 8) p;
  m ← st 8 m node l;
  nx ← ld_next m node;
  m ← st 8 m (nx + 8) node;
  pv ← ld_prev m node;
  st 8 m pv node.

Definition mem_list_del (m : gmap Z Z) (node : Z) : res (gmap Z Z) :=
  nx ← ld_next m node;
  pv ← ld_prev m node;
  m ← st 8 m (nx + 8) pv;
  pv ← ld_prev m node;
  nx ← ld_next m node;
  m ← st 8 m pv nx;
  m ← st 8 m (node + 8) node;
  st 8 m node node.

(** [metal_list_first]: 0 for an empty list. *)
Definition mem_list_first (m : gmap Z Z) (l : Z) : res Z :=
  nx ← ld_next m l; Ok (if nx =? l then 0 else nx).

(** The held counter in the upper half of [reserved]. *)
Definition RPMSG_BUF_HELD_MASK : Z := 4294901760.
Definition RPMSG_BUF_HELD_COUNTER (reserved : Z) : Z :=
  Z.shiftr (Z.land reserved RPMSG_BUF_HELD_MASK) 16.
Definition RPMSG_BUF_HELD_INC (reserved : Z) : Z := u32 (reserved + Z.shiftl 1 16).
Definition RPMSG_BUF_HELD_DEC (reserved : Z) : Z := u32 (reserved - Z.shiftl 1 16).
Definition RPMSG_BUF_INDEX (reserved : Z) : Z :=
  u16 (Z.land reserved (u32 (Z.lnot RPMSG_BUF_HELD_MASK))).

Definition RPMSG_LOCATE_HDR (p : Z) : Z := p - SIZEOF_HDR.
Definition RPMSG_LOCATE_DATA (p : Z) : Z := p + SIZEOF_HDR.

(** ** Operations *)

Section rpmsg_virtio.
Context {B : Type}.
Abbreviation W := (world (rpmsg_virtio B)).

Variable bld : build.
(** [VQ_RX_EMPTY_NOTIFY] *)
Variable empty_notify : bool.
Variable func : option (virtio_dispatch B).
Variable env : callbacks (rpmsg_virtio B).
(** What the rest of the system does while this side sleeps, and the optional
    wait callback. *)
Variable sleep : W -> W.
Variable wait_cb : Z -> W -> Z -> res (W * Z).
(** Addresses of the local variables [rp_hdr] and [name], and of the name
    service callback. *)
Variables hdr_slot name_slot ns_cb : Z.

Definition tr (w : W) : rpmsg_virtio B := w_tr w.
Definition set_tr (w : W) (t : rpmsg_virtio B) : W := mk_world (w_mem w) (w_epts w) (w_rdev w) t.
Definition dev_of (w : W) : virtio_device := vd_dev (rv_vdev (tr w)).

Definition vring_at (w : W) (i : Z) : res virtio_vring_info := rget (vd_vrings (rv_vdev (tr w))) i.

Definition vring_put (w : W) (i : Z) (vq : virtqueue) (ring : vring) : res W :=
  vi ← vring_at w i;
  l ← rset (vd_vrings (rv_vdev (tr w))) i (set_vring vi vq ring);
  Ok (set_tr w (rv_set_vdev (tr w) (vd_set_vrings (rv_vdev (tr w)) l))).

Definition is_driver (w : W) : bool := VIRTIO_ROLE_IS_DRIVER bld (dev_of w).
Definition is_device (w : W) : bool := VIRTIO_ROLE_IS_DEVICE bld (dev_of w).

(** The virtqueue calls on the queue at position [i]. *)
Definition vq_add_buffer (w : W) (i : Z) (bl : list virtqueue_buf) (readable writable cookie : Z)
  : res (W * Z) :=
  vi ← vring_at w i;
  '(ret, vq, ring) ← virtqueue_add_buffer bld (vi_vq vi) (vi_ring vi) bl readable writable cookie;
  w ← vring_put w i vq ring; Ok (w, ret).

Definition vq_add_consumed (w : W) (i idx len : Z) : res (W * Z) :=
  vi ← vring_at w i;
  '(ret, vq, ring) ← virtqueue_add_consumed_buffer bld (vi_vq vi) (vi_ring vi) idx len;
  w ← vring_put w i vq ring; Ok (w, ret).

(** The buffer (0 for [NULL]), its length and its index. *)
Definition vq_get_buffer (w : W) (i : Z) : res (W * Z * Z * Z) :=
  vi ← vring_at w i;
  '(vq, ring, r) ← virtqueue_get_buffer bld (vi_vq vi) (vi_ring vi);
  w ← vring_put w i vq ring;
  Ok (match r with Some (cookie, len, idx) => (w, cookie, len, idx) | None => (w, 0, 0, 0) end).

Definition vq_get_available (w : W) (i : Z) : res (W * Z * Z * Z) :=
  vi ← vring_at w i;
  '(vq, r) ← virtqueue_get_available_buffer bld (vi_vq vi) (vi_ring vi);
  w ← vring_put w i vq (vi_ring vi);
  Ok (match r with Some (buf, idx, len) => (w, buf, len, idx) | None => (w, 0, 0, 0) end).

Definition vq_kick (w : W) (i : Z) : res W :=
  vi ← vring_at w i;
  '(vq, call) ← virtqueue_kick bld (dev_of w) (vi_vq vi) (vi_ring vi);
  w ← vring_put w i vq (vi_ring vi);
  Ok (match call with
      | Some f => set_tr w (rv_set_calls (tr w) (rv_calls (tr w) ++ [f]))
      | None => w
      end).

Definition vq_buffer_length (w : W) (i idx : Z) : res Z :=
  vi ← vring_at w i; virtqueue_get_buffer_length (vi_ring vi) idx.

Definition vq_desc_size (w : W) (i : Z) : res (W * Z) :=
  vi ← vring_at w i;
  '(vq, size) ← virtqueue_get_desc_size bld (vi_vq vi) (vi_ring vi);
  w ← vring_put w i vq (vi_ring vi); Ok (w, size).

Definition rpmsg_virtio_return_buffer (w : W) (buffer len idx : Z) : res W :=
  w ← (if is_driver w then
         '(w, ret) ← vq_add_buffer w (rv_rvq (tr w)) [mk_buf buffer (i32 len)] 0 1 buffer;
         _ ← rassert (ret =? VQUEUE_SUCCESS); Ok w
       else Ok w);
  if is_device w then
    '(w, ret) ← vq_add_consumed w (rv_rvq (tr w)) idx len;
    _ ← rassert (ret =? VQUEUE_SUCCESS); Ok w
  else Ok w.

Definition rpmsg_virtio_enqueue_buffer (w : W) (buffer len idx : Z) : res (W * Z) :=
  if is_driver w then vq_add_buffer w (rv_svq (tr w)) [mk_buf buffer (i32 len)] 1 0 buffer
  else if is_device w then vq_add_consumed w (rv_svq (tr w)) idx len
  else Ok (w, 0).

(** The buffer (0 for [NULL]), its length and its index. *)
Definition rpmsg_virtio_get_tx_buffer (w : W) : res (W * Z * Z * Z) :=
  node ← mem_list_first (w_mem w) (rv_reclaimer (tr w));
  if negb (node =? 0) then
    m ← mem_list_del (w_mem w) node;
    idx ← ld 2 m (node + RECLAIMER_IDX);
    let w := set_mem w m in
    let len := if is_driver w then h2r_buf_size (rv_config (tr w)) else 0 in
    len ← (if is_device w then vq_buffer_length w (rv_svq (tr w)) idx else Ok len);
    Ok (w, node, len, idx)
  else if is_driver w then
    '(w, data, len, idx) ← vq_get_buffer w (rv_svq (tr w));
    vi ← vring_at w (rv_svq (tr w));
    if (data =? 0) && negb (vq_free_cnt (vi_vq vi) =? 0) then
      let size := h2r_buf_size (rv_config (tr w)) in
      pool ← rget (rv_pools (tr w)) (rv_shpool (tr w));
      let '(pool, data) := rpmsg_virtio_shm_pool_get_buffer pool size in
      pools ← rset (rv_pools (tr w)) (rv_shpool (tr w)) pool;
      Ok (set_tr w (rv_set_pools (tr w) pools), data, size, 0)
    else Ok (w, data, len, idx)
  else if is_device w then vq_get_available w (rv_svq (tr w))
  else Ok (w, 0, 0, 0).

Definition rpmsg_virtio_get_rx_buffer (w : W) : res (W * Z * Z * Z) :=
  '(w, data, len, idx) ←
    (if is_driver w then vq_get_buffer w (rv_rvq (tr w)) else Ok (w, 0, 0, 0));
  if is_device w then vq_get_available w (rv_rvq (tr w)) else Ok (w, data, len, idx).

(** The busy wait, [fuel] rounds of it.  The device shares its memory and the
    virtio device with the driver on the other processor: [poll] is what the driver
    does to both between two rounds. *)
Fixpoint rpmsg_virtio_wait_remote_ready (fuel : nat)
    (poll : gmap Z Z * vdev B -> gmap Z Z * vdev B) (p : gmap Z Z * vdev B)
  : res (gmap Z Z * vdev B * Z) :=
  match fuel with
  | O => Fault No_fuel
  | S fuel' =>
      let '(m, v) := p in
      '(ret, status) ← virtio_get_status func v;
      if negb (ret =? 0) then Ok (m, v, ret)
      else if negb (Z.land status VIRTIO_CONFIG_STATUS_NEEDS_RESET =? 0) then
        '(v, ret) ← virtio_set_status func v 0;
        if negb (ret =? 0) then Ok (m, v, ret)
        else rpmsg_virtio_wait_remote_ready fuel' poll (poll (m, v))
      else if negb (Z.land status VIRTIO_CONFIG_STATUS_DRIVER_OK =? 0) then Ok (m, v, 0)
      else rpmsg_virtio_wait_remote_ready fuel' poll (poll (m, v))
  end.

(** Whether the buffer is to be released. *)
Definition rpmsg_virtio_buf_held_dec_test (m : gmap Z Z) (rp_hdr : Z) : res (gmap Z Z * bool) :=
  reserved ← ld 4 m (rp_hdr + HDR_RESERVED);
  if RPMSG_BUF_HELD_COUNTER reserved <=? 0 then Ok (m, false)
  else
    let reserved := RPMSG_BUF_HELD_DEC reserved in
    m ← st 4 m (rp_hdr + HDR_RESERVED) reserved;
    if 0 <? RPMSG_BUF_HELD_COUNTER reserved then Ok (m, false) else Ok (m, true).

(** [RPMSG_BUF_HELD_INC(rp_hdr)] *)
Definition held_inc (m : gmap Z Z) (rp_hdr : Z) : res (gmap Z Z) :=
  reserved ← ld 4 m (rp_hdr + HDR_RESERVED);
  st 4 m (rp_hdr + HDR_RESERVED) (RPMSG_BUF_HELD_INC reserved).

Definition rpmsg_virtio_hold_rx_buffer (w : W) (rxbuf : Z) : res W :=
  w ← metal_mutex_acquire w;
  m ← held_inc (w_mem w) (RPMSG_LOCATE_HDR rxbuf);
  Ok (metal_mutex_release (set_mem w m)).

Definition rpmsg_virtio_release_rx_buffer_nolock (w : W) (rp_hdr : Z) : res W :=
  reserved ← ld 4 (w_mem w) (rp_hdr + HDR_RESERVED);
  let idx := RPMSG_BUF_INDEX reserved in
  len ← vq_buffer_length w (rv_rvq (tr w)) idx;
  rpmsg_virtio_return_buffer w rp_hdr len idx.

Definition rpmsg_virtio_release_rx_buffer (w : W) (rxbuf : Z) : res W :=
  let rp_hdr := RPMSG_LOCATE_HDR rxbuf in
  w ← metal_mutex_acquire w;
  '(m, last) ← rpmsg_virtio_buf_held_dec_test (w_mem w) rp_hdr;
  let w := set_mem w m in
  w ← (if last : bool then
         w ← rpmsg_virtio_release_rx_buffer_nolock w rp_hdr;
         vq_kick w (rv_rvq (tr w))
       else Ok w);
  Ok (metal_mutex_release w).

Definition rpmsg_virtio_notify_wait (w : W) (i : Z) : res (W * Z) :=
  vi ← vring_at w i;
  if rv_notify_wait_cb (tr w) =? 0 then Ok (w, RPMSG_EOPNOTSUPP)
  else
    vring_info ← vring_at w (vq_queue_index (vi_vq vi));
    wait_cb (rv_notify_wait_cb (tr w)) w (vi_notifyid vring_info).

(** The [while (1)] of [rpmsg_virtio_get_tx_payload_buffer]. *)
Fixpoint tx_wait_loop (fuel : nat) (w : W) (tick_count : Z) : res (W * Z * Z * Z) :=
  match fuel with
  | O => Fault No_fuel
  | S fuel' =>
      w ← metal_mutex_acquire w;
      '(w, rp_hdr, len, idx) ← rpmsg_virtio_get_tx_buffer w;
      let w := metal_mutex_release w in
      if negb (rp_hdr =? 0) || (tick_count =? 0) then Ok (w, rp_hdr, len, idx)
      else
        '(w, status) ← rpmsg_virtio_notify_wait w (rv_rvq (tr w));
        if status =? RPMSG_EOPNOTSUPP then tx_wait_loop fuel' (sleep w) (tick_count - 1)
        else if negb (status =? RPMSG_SUCCESS) then Ok (w, rp_hdr, len, idx)
        else tx_wait_loop fuel' w tick_count
  end.

(** Enough rounds for the 15 seconds of ticks; a wait callback that keeps
    succeeding without a buffer uses the same number of rounds. *)
Definition tx_fuel (tick_count : Z) : nat := S (2 * Z.to_nat tick_count).

(** The payload buffer (0 for [NULL]) and its size. *)
Definition rpmsg_virtio_get_tx_payload_buffer (w : W) (wait : Z) : res (W * Z * Z) :=
  '(status, virtio_status) ← virtio_get_status func (rv_vdev (tr w));
  if negb (status =? 0) || (Z.land virtio_status VIRTIO_CONFIG_STATUS_DRIVER_OK =? 0)
  then Ok (w, 0, 0)
  else
    let tick_count := if negb (wait =? 0) then RPMSG_TICK_COUNT / RPMSG_TICKS_PER_INTERVAL else 0 in
    '(w, rp_hdr, len, idx) ← tx_wait_loop (tx_fuel tick_count) w tick_count;
    if rp_hdr =? 0 then Ok (w, 0, 0)
    else
      m ← st 4 (w_mem w) (rp_hdr + HDR_RESERVED) idx;
      m ← held_inc m rp_hdr;
      Ok (set_mem w m, RPMSG_LOCATE_DATA rp_hdr, u32 (len - SIZEOF_HDR)).

(** The bytes of a header. *)
Definition hdr_bytes (src dst reserved len flags : Z) : list Z :=
  le_bytes 4 src ++ le_bytes 4 dst ++ le_bytes 4 reserved ++ le_bytes 2 len ++ le_bytes 2 flags.

Definition rpmsg_virtio_send_offchannel_nocopy (w : W) (src dst data len : Z) : res (W * Z) :=
  let hdr := RPMSG_LOCATE_HDR data in
  reserved ← ld 4 (w_mem w) (hdr + HDR_RESERVED);
  let idx := u16 reserved in
  m ← storen (w_mem w) hdr_slot (hdr_bytes src dst 0 (u16 len) 0);
  let io := rv_shbuf_io (tr w) in
  '(m, status) ← metal_io_block_write io m (metal_io_virt_to_offset io hdr) hdr_slot SIZEOF_HDR;
  _ ← rassert (status =? SIZEOF_HDR);
  w ← metal_mutex_acquire (set_mem w m);
  buff_len ← (if is_driver w then Ok (h2r_buf_size (rv_config (tr w)))
              else vq_buffer_length w (rv_svq (tr w)) idx);
  '(w, status) ← rpmsg_virtio_enqueue_buffer w hdr buff_len idx;
  _ ← rassert (status =? VQUEUE_SUCCESS);
  w ← vq_kick w (rv_svq (tr w));
  Ok (metal_mutex_release w, len).

Definition rpmsg_virtio_release_tx_buffer (w : W) (txbuf : Z) : res (W * Z) :=
  let rp_hdr := RPMSG_LOCATE_HDR txbuf in
  w ← metal_mutex_acquire w;
  '(m, last) ← rpmsg_virtio_buf_held_dec_test (w_mem w) rp_hdr;
  m ← (if last : bool then
         reserved ← ld 4 m (rp_hdr + HDR_RESERVED);
         m ← st 2 m (rp_hdr + RECLAIMER_IDX) (RPMSG_BUF_INDEX reserved);
         mem_list_add_tail m (rv_reclaimer (tr w)) rp_hdr
       else Ok m);
  Ok (metal_mutex_release (set_mem w m), RPMSG_SUCCESS).

Definition rpmsg_virtio_send_offchannel_raw (w : W) (src dst data len wait : Z) : res (W * Z) :=
  '(w, buffer, buff_len) ← rpmsg_virtio_get_tx_payload_buffer w wait;
  if buffer =? 0 then Ok (w, RPMSG_ERR_NO_BUFF)
  else
    let len := if i32 buff_len <? len then i32 buff_len else len in
    let io := rv_shbuf_io (tr w) in
    '(m, status) ← metal_io_block_write io (w_mem w) (metal_io_virt_to_offset io buffer) data len;
    _ ← rassert (status =? len);
    rpmsg_virtio_send_offchannel_nocopy (set_mem w m) src dst buffer len.

Definition rpmsg_virtio_tx_callback (w : W) : W := w.

(** The offsets of [addr] and [flags] in [struct rpmsg_ns_msg]. *)
Definition NS_ADDR : Z := 32.
Definition NS_FLAGS : Z := 36.

Definition rpmsg_virtio_ns_callback (w : W) (data len : Z) : res (W * Z) :=
  if negb (len =? SIZEOF_NS_MSG) then Ok (w, RPMSG_SUCCESS)
  else
    let io := rv_shbuf_io (tr w) in
    '(m, _) ← metal_io_block_read io (w_mem w) (metal_io_virt_to_offset io data) name_slot
                RPMSG_NAME_SIZE;
    let w := set_mem w m in
    name ← loadn (Z.to_nat RPMSG_NAME_SIZE) m name_slot;
    dest ← ld 4 m (data + NS_ADDR);
    w ← metal_mutex_acquire w;
    ept ← rpmsg_get_endpoint w (Some name) RPMSG_ADDR_ANY dest;
    ept_to_release ←
      (if ept =? 0 then Ok false
       else e ← get_ept w ept; Ok (negb (ept_release_cb e =? 0)));
    flags ← ld 4 (w_mem w) (data + NS_FLAGS);
    if negb (Z.land flags RPMSG_NS_DESTROY =? 0) then
      w ← (if ept =? 0 then Ok w
           else e ← get_ept w ept; Ok (put_ept w ept (ept_set_dest e RPMSG_ADDR_ANY)));
      w ← (if ept_to_release : bool then rpmsg_ept_incref w ept else Ok w);
      let w := metal_mutex_release w in
      w ← (if ept =? 0 then Ok w
           else
             e ← get_ept w ept;
             if ept_ns_unbind_cb e =? 0 then Ok w
             else call_ns_unbind env (ept_ns_unbind_cb e) w ept);
      w ← (if rd_ns_unbind_cb (w_rdev w) =? 0 then Ok w
           else call_ns_bind env (rd_ns_unbind_cb (w_rdev w)) w name dest);
      w ← (if ept_to_release : bool then
             w ← metal_mutex_acquire w;
             w ← rpmsg_ept_decref env w ept;
             Ok (metal_mutex_release w)
           else Ok w);
      Ok (w, RPMSG_SUCCESS)
    else if ept =? 0 then
      let w := metal_mutex_release w in
      w ← (if rd_ns_bind_cb (w_rdev w) =? 0 then Ok w
           else call_ns_bind env (rd_ns_bind_cb (w_rdev w)) w name dest);
      Ok (w, RPMSG_SUCCESS)
    else
      e ← get_ept w ept;
      Ok (metal_mutex_release (put_ept w ept (ept_set_dest e dest)), RPMSG_SUCCESS).

(** [ept->cb(...)]: the name service's own callback or one of the user's. *)
Definition ept_callback (cb : Z) (w : W) (ept data len src priv : Z) : res (W * Z) :=
  if cb =? ns_cb then rpmsg_virtio_ns_callback w data len
  else call_ept env cb w ept data len src priv.

(** Delivery of the message in [rp_hdr] outside the lock. *)
Definition rx_deliver (w : W) (ept rp_hdr : Z) : res W :=
  if ept =? 0 then Ok w
  else
    e ← get_ept w ept;
    src ← ld 4 (w_mem w) rp_hdr;
    let w := if ept_dest_addr e =? RPMSG_ADDR_ANY then put_ept w ept (ept_set_dest e src) else w in
    e ← get_ept w ept;
    len ← ld 2 (w_mem w) (rp_hdr + HDR_LEN);
    '(w, status) ←
      ept_callback (ept_cb e) w ept (RPMSG_LOCATE_DATA rp_hdr) len src (ept_priv e);
    _ ← rassert (0 <=? status);
    Ok w.

(** The [while (1)] of [rpmsg_virtio_rx_callback]; [fuel] bounds the messages. *)
Fixpoint rx_loop (fuel : nat) (w : W) (release : bool) : res W :=
  match fuel with
  | O => Fault No_fuel
  | S fuel' =>
      w ← metal_mutex_acquire w;
      '(w, rp_hdr, len, idx) ← rpmsg_virtio_get_rx_buffer w;
      if rp_hdr =? 0 then
        w ← (if empty_notify && release then vq_kick w (rv_rvq (tr w)) else Ok w);
        Ok (metal_mutex_release w)
      else
        m ← st 4 (w_mem w) (rp_hdr + HDR_RESERVED) idx;
        let w := set_mem w m in
        dst ← ld 4 m (rp_hdr + HDR_DST);
        ept ← rpmsg_get_ept_from_addr w dst;
        w ← rpmsg_ept_incref w ept;
        m ← held_inc (w_mem w) rp_hdr;
        let w := metal_mutex_release (set_mem w m) in
        w ← rx_deliver w ept rp_hdr;
        w ← metal_mutex_acquire w;
        w ← rpmsg_ept_decref env w ept;
        '(m, last) ← rpmsg_virtio_buf_held_dec_test (w_mem w) rp_hdr;
        let w := set_mem w m in
        '(w, release) ←
          (if last : bool then
             w ← rpmsg_virtio_release_rx_buffer_nolock w rp_hdr;
             if empty_notify then Ok (w, true)
             else w ← vq_kick w (rv_rvq (tr w)); Ok (w, release)
           else Ok (w, release));
        rx_loop fuel' (metal_mutex_release w) release
  end.

Definition rpmsg_virtio_rx_callback (fuel : nat) (w : W) : res W := rx_loop fuel w false.

Definition rpmsg_virtio_get_tx_buffer_size (w : W) : res (W * Z) :=
  w ← metal_mutex_acquire w;
  let size := if is_driver w then i32 (h2r_buf_size (rv_config (tr w)) - SIZEOF_HDR) else 0 in
  '(w, size) ←
    (if is_device w then
       '(w, d) ← vq_desc_size w (rv_svq (tr w)); Ok (w, i32 (i32 d - SIZEOF_HDR))
     else Ok (w, size));
  let size := if size <=? 0 then RPMSG_ERR_NO_BUFF else size in
  Ok (metal_mutex_release w, size).

Definition rpmsg_virtio_get_rx_buffer_size (w : W) : res (W * Z) :=
  w ← metal_mutex_acquire w;
  let size := if is_driver w then i32 (r2h_buf_size (rv_config (tr w)) - SIZEOF_HDR) else 0 in
  '(w, size) ←
    (if is_device w then
       '(w, d) ← vq_desc_size w (rv_rvq (tr w)); Ok (w, i32 (i32 d - SIZEOF_HDR))
     else Ok (w, size));
  let size := if size <=? 0 then RPMSG_ERR_NO_BUFF else size in
  Ok (metal_mutex_release w, size).

(** The transport as the core sees it. *)
Definition rpmsg_virtio_ops : rpmsg_device_ops (rpmsg_virtio B) :=
  mk_rops (Some rpmsg_virtio_send_offchannel_raw) (Some rpmsg_virtio_hold_rx_buffer)
    (Some rpmsg_virtio_release_rx_buffer) (Some rpmsg_virtio_get_tx_payload_buffer)
    (Some rpmsg_virtio_send_offchannel_nocopy) (Some rpmsg_virtio_release_tx_buffer)
    (Some rpmsg_virtio_get_rx_buffer_size) (Some rpmsg_virtio_get_tx_buffer_size).

(** The loop of [rpmsg_init_vdev_with_config] that gives the receive queue its
    buffers from the first pool: the world, the status and whether to go on. *)
Fixpoint rx_fill_loop (k : nat) (w : W) : res (W * Z) :=
  match k with
  | O => Ok (w, RPMSG_SUCCESS)
  | S k' =>
      let size := r2h_buf_size (rv_config (tr w)) in
      pool ← rget (rv_pools (tr w)) 0;
      let '(pool, buffer) := rpmsg_virtio_shm_pool_get_buffer pool size in
      pools ← rset (rv_pools (tr w)) 0 pool;
      let w := set_tr w (rv_set_pools (tr w) pools) in
      if buffer =? 0 then Ok (w, RPMSG_ERR_NO_BUFF)
      else
        let io := rv_shbuf_io (tr w) in
        '(m, _) ← metal_io_block_set io (w_mem w) (metal_io_virt_to_offset io buffer) 0 (i32 size);
        '(w, status) ←
          vq_add_buffer (set_mem w m) (rv_rvq (tr w)) [mk_buf buffer (i32 size)] 0 1 buffer;
        if negb (status =? RPMSG_SUCCESS) then Ok (w, status) else rx_fill_loop k' w
  end.

(** [vq->shm_io = shm_io] for the first [k] vrings from [i] on. *)
Fixpoint set_io_loop (k : nat) (i : Z) (io : metal_io_region) (vrings : list virtio_vring_info)
  : res (list virtio_vring_info) :=
  match k with
  | O => Ok vrings
  | S k' =>
      vi ← rget vrings i;
      vrings ← rset vrings i (set_vring vi (virtqueue_set_shmem_io (vi_vq vi) io) (vi_ring vi));
      set_io_loop k' (i + 1) io vrings
  end.

(** A zeroed [struct rpmsg_device] with the bind callback set. *)
Definition zero_rdev (ns_bind_cb : Z) : rpmsg_device :=
  mk_rdev [] (replicate 2 0) 0 false ns_bind_cb 0 false.

(** Addresses of the embedded name service endpoint, of the rx and tx callbacks
    and of the [rpmsg_virtio_device]. *)
Variables ns_ept rx_cb tx_cb rvdev : Z.
(** The peer's progress during the busy wait of the device role. *)
Variables (ready_fuel : nat) (poll : gmap Z Z * vdev B -> gmap Z Z * vdev B).

(** The end of [rpmsg_init_vdev_with_config], from the endpoints on. *)
Definition init_finish (w : W) : res (W * Z) :=
  let d := rd_set_endpoints (w_rdev w) [] in
  let w := set_rdev w d in
  w ← (if rd_support_ns d then
         rpmsg_register_endpoint w ns_ept (Some [78; 83; 0]) RPMSG_NS_EPT_ADDR RPMSG_NS_EPT_ADDR
           ns_cb 0 rvdev
       else Ok w);
  if is_driver w then
    '(v, status) ← virtio_set_status func (rv_vdev (tr w)) VIRTIO_CONFIG_STATUS_DRIVER_OK;
    let w := set_tr w (rv_set_vdev (tr w) v) in
    if negb (status =? 0) then
      v ← virtio_delete_virtqueues func (rv_vdev (tr w));
      Ok (set_tr w (rv_set_vdev (tr w) v), status)
    else Ok (w, RPMSG_SUCCESS)
  else Ok (w, RPMSG_SUCCESS).

(** The middle: the virtqueues, their callbacks and the receive buffers. *)
Definition init_queues (w : W) : res (W * Z) :=
  let drv := is_driver w in
  let names := if drv then ["rx_vq"; "tx_vq"] else ["tx_vq"; "rx_vq"] in
  let cbs := if drv then [rx_cb; tx_cb] else [tx_cb; rx_cb] in
  m ← mem_list_init (w_mem w) (rv_reclaimer (tr w));
  '(v, m, status) ←
    virtio_create_virtqueues bld func (rv_vdev (tr w)) m RPMSG_NUM_VRINGS names cbs;
  let t := rv_set_vdev (tr w) v in
  let w := set_tr (set_mem w m) t in
  if negb (status =? RPMSG_SUCCESS) then Ok (w, status)
  else
    let rvq := if drv then 0 else 1 in
    let svq := if drv then 1 else 0 in
    let t := mk_rv (rv_config t) v rvq svq (rv_shbuf_io t) (rv_pools t) (rv_shpool t)
               (rv_reclaimer t) (rv_notify_wait_cb t) (rv_calls t) in
    let w := set_tr w t in
    vi ← vring_at w svq;
    '(vq, ring) ← virtqueue_disable_cb bld (dev_of w) (vi_vq vi) (vi_ring vi);
    w ← vring_put w svq vq ring;
    vrings ← set_io_loop (Z.to_nat RPMSG_NUM_VRINGS) 0 (rv_shbuf_io t) (vd_vrings (rv_vdev (tr w)));
    let w := set_tr w (rv_set_vdev (tr w) (vd_set_vrings (rv_vdev (tr w)) vrings)) in
    '(w, status) ←
      (if drv then vi ← vring_at w rvq; rx_fill_loop (Z.to_nat (vq_nentries (vi_vq vi))) w
       else Ok (w, RPMSG_SUCCESS));
    if negb (status =? RPMSG_SUCCESS) then
      v ← virtio_delete_virtqueues func (rv_vdev (tr w));
      Ok (set_tr w (rv_set_vdev (tr w) v), status)
    else init_finish w.

(** [config] is [None] for a null pointer, [pools] the array [shpool] points to,
    empty for a null pointer.  The [memset] of the device clears the name service
    endpoint embedded in it. *)
Definition rpmsg_init_vdev_with_config (w : W) (v : vdev B) (ns_bind_cb : Z)
    (shm_io : metal_io_region) (pools : list rpmsg_virtio_shm_pool)
    (config : option rpmsg_virtio_config) : res (W * Z) :=
  let t := tr w in
  let t := mk_rv (rv_config t) v (rv_rvq t) (rv_svq t) (rv_shbuf_io t) (rv_pools t) (rv_shpool t)
             (rv_reclaimer t) 0 (rv_calls t) in
  let w := put_ept (set_rdev (set_tr w t) (zero_rdev ns_bind_cb)) ns_ept zero_ept in
  let drv := is_driver w in
  match (if drv then config else Some (rv_config t)) with
  | None => Ok (w, RPMSG_ERR_PARAM)
  | Some c =>
      let w := set_tr w (mk_rv c v (rv_rvq t) (rv_svq t) (rv_shbuf_io t) (rv_pools t) (rv_shpool t)
                 (rv_reclaimer t) 0 (rv_calls t)) in
      '(m, v, status) ←
        (if is_device w then rpmsg_virtio_wait_remote_ready ready_fuel poll (w_mem w, v)
         else Ok (w_mem w, v, 0));
      let w := set_tr (set_mem w m) (rv_set_vdev (tr w) v) in
      if negb (status =? 0) then Ok (w, status)
      else
        '(v, status, features) ← virtio_get_features bld func v;
        let w := set_tr w (rv_set_vdev (tr w) v) in
        if negb (status =? 0) then Ok (w, status)
        else
          let d := w_rdev w in
          let ns := negb (Z.land features (Z.shiftl 1 VIRTIO_RPMSG_F_NS) =? 0) in
          let w := set_rdev w (mk_rdev (rd_endpoints d) (rd_bitmap d) (rd_bitnext d) (rd_lock d)
                     (rd_ns_bind_cb d) (rd_ns_unbind_cb d) ns) in
          let shpool := if drv && split_shpool c then 1 else 0 in
          let t := tr w in
          let with_io io :=
            set_tr w (mk_rv (rv_config t) v (rv_rvq t) (rv_svq t) io
                        (if drv then pools else rv_pools t) (if drv then shpool else rv_shpool t)
                        (rv_reclaimer t) 0 (rv_calls t)) in
          if drv then
            match pools with
            | [] => Ok (with_io (rv_shbuf_io t), RPMSG_ERR_PARAM)
            | p0 :: _ =>
                p ← rget pools shpool;
                if (sp_size p0 =? 0) || (sp_size p =? 0)
                then Ok (with_io (rv_shbuf_io t), RPMSG_ERR_NO_BUFF)
                else init_queues (with_io shm_io)
            end
          else init_queues (with_io shm_io)
  end.

Definition rpmsg_init_vdev (w : W) (v : vdev B) (ns_bind_cb : Z) (shm_io : metal_io_region)
    (pools : list rpmsg_virtio_shm_pool) : res (W * Z) :=
  rpmsg_init_vdev_with_config w v ns_bind_cb shm_io pools
    (match VIRTIO_DRIVER_SUPPORT bld with
     | Some o => if VIRTIO_ENABLED o then Some RPMSG_VIRTIO_DEFAULT_CONFIG else None
     | None => None
     end).

(** The [while] of [rpmsg_deinit_vdev]: the first endpoint is destroyed until the
    list is empty. *)
Fixpoint destroy_loop (fuel : nat) (ns_slot : Z) (w : W) : res W :=
  match rd_endpoints (w_rdev w) with
  | [] => Ok w
  | ept :: _ =>
      match fuel with
      | O => Fault No_fuel
      | S fuel' =>
          w ← rpmsg_destroy_ept rpmsg_virtio_ops env ns_slot w ept;
          destroy_loop fuel' ns_slot w
      end
  end.

Definition rpmsg_deinit_vdev (ns_slot : Z) (w : W) : res W :=
  w ← destroy_loop (length (rd_endpoints (w_rdev w))) ns_slot w;
  let t := tr w in
  let t := mk_rv (rv_config t) (rv_vdev t) (-1) (-1) (rv_shbuf_io t) (rv_pools t) (rv_shpool t)
             (rv_reclaimer t) (rv_notify_wait_cb t) (rv_calls t) in
  v ← virtio_delete_virtqueues func (rv_vdev t);
  Ok (set_tr w (rv_set_vdev t v)).

End rpmsg_virtio.
