(* ===== verification/RpmsgBuf.v ===== *)
(** * Buffers of the RPMsg transport: pools, held counters and the reclaimer

    The properties of the buffer bookkeeping of rpmsg_virtio.c: the shared
    memory pools hand out disjoint buffers, the held counter in a header counts
    its users, and the list of reclaimed buffers overlaid on the buffers'
    memory is a queue. *)

From S2P Require Import Prelude MetalUtil MetalIo Virtqueue Virtio Rpmsg RpmsgVirtio.

(** ** Memory: words and what a step leaves alone *)

Definition mem_wf (m : gmap Z Z) : Prop := forall k v, m !! k = Some v -> is_u8 v.

(** [m'] comes from [m] by writing bytes inside the ranges [rs]. *)
Record memstep (rs : list (Z * Z)) (m m' : gmap Z Z) : Prop := {
  ms_same : forall k, (forall a s, (a, s) ∈ rs -> k < a \/ a + s <= k) -> m' !! k = m !! k;
  ms_dom : forall k, is_Some (m !! k) -> is_Some (m' !! k);
  ms_u8 : mem_wf m -> mem_wf m'
}.

Lemma memstep_refl rs m : memstep rs m m.
Proof. by split. Qed.

Lemma memstep_trans rs m1 m2 m3 : memstep rs m1 m2 -> memstep rs m2 m3 -> memstep rs m1 m3.
Proof.
  intros [A1 A2 A3] [B1 B2 B3]. split; [|auto|auto].
  intros k Hk. rewrite B1 by done. by apply A1.
Qed.

#[global] Instance memstep_preorder rs : PreOrder (memstep rs).
Proof. split; [intros m; apply memstep_refl|intros a b c; apply memstep_trans]. Qed.

(** Every range of [rs] lies inside one of [rs']. *)
Definition covers (rs rs' : list (Z * Z)) : Prop :=
  forall a s, (a, s) ∈ rs -> exists a' s', (a', s') ∈ rs' /\ a' <= a /\ a + s <= a' + s'.

Lemma memstep_weaken rs rs' m m' : covers rs rs' -> memstep rs m m' -> memstep rs' m m'.
Proof.
  intros Hc [A1 A2 A3]. split; [|done|done]. intros k Hk. apply A1. intros a s Hin.
  destruct (Hc a s Hin) as (a' & s' & Hin' & Ha & Hs). specialize (Hk a' s' Hin'). lia.
Qed.

Lemma covers_one a s rs a' s' : (a', s') ∈ rs -> a' <= a -> a + s <= a' + s' -> covers [(a, s)] rs.
Proof. intros Hin H1 H2 b t Hb. apply list_elem_of_singleton in Hb. simplify_eq. eauto. Qed.

Lemma memstep_put m a bs : Forall is_u8 bs -> memstep [(a, zlen bs)] m (put_bytes m a bs).
Proof.
  intros Hb. split.
  - intros k Hk. specialize (Hk a (zlen bs) ltac:(constructor)). rewrite lookup_put.
    destruct (_ && _) eqn:E; [zbool; lia|done].
  - intros k Hk. rewrite lookup_put. destruct (_ && _) eqn:E; [|done]. zbool.
    apply zget_is_Some. lia.
  - intros Hw k v. rewrite lookup_put. destruct (_ && _); [|apply Hw].
    intros Hv. exact (Forall_zget _ _ _ _ Hb Hv).
Qed.

Lemma memstep_bytes rs m m' a bs :
  memstep rs m m' -> (forall b s, (b, s) ∈ rs -> a + zlen bs <= b \/ b + s <= a) ->
  has_bytes m a bs -> has_bytes m' a bs.
Proof.
  rewrite !has_bytes_lookup. intros [A1 _ _] Hd H i Hi. rewrite A1; [by apply H|].
  intros b s Hin. specialize (Hd b s Hin). lia.
Qed.

Lemma memstep_mapped rs m m' a n : memstep rs m m' -> mapped m a n -> mapped m' a n.
Proof. intros [_ A2 _] H i Hi. by apply A2, H. Qed.

(** The [n]-byte integer [v] is at [a]. *)
Definition word (n : nat) (m : gmap Z Z) (a v : Z) : Prop := has_bytes m a (le_bytes n v).

Lemma ld_word n m a v : word n m a v -> 0 <= v < 256 ^ Z.of_nat n -> ld n m a = Ok v.
Proof.
  intros H Hv. unfold ld. pose proof (loadn_ok _ _ _ H) as E. rewrite length_le_bytes in E.
  rewrite E. cbn [mbind res_bind]. rewrite le_val_bytes by lia. by rewrite Z.mod_small by lia.
Qed.

Lemma st_word n m a v : mapped m a (Z.of_nat n) -> st n m a v = Ok (put_bytes m a (le_bytes n v)).
Proof. intros H. apply storen_ok. by rewrite zlen_le_bytes. Qed.

Lemma word_put n m a v : word n (put_bytes m a (le_bytes n v)) a v.
Proof. apply has_bytes_put. Qed.

Lemma word_put_ne n k m a v b u :
  a + Z.of_nat n <= b \/ b + Z.of_nat k <= a -> word n m a v -> word n (put_bytes m b (le_bytes k u)) a v.
Proof. intros Hd H. apply has_bytes_put_disjoint; [|done]. rewrite !zlen_le_bytes. lia. Qed.

Lemma word_mapped n m a v : word n m a v -> mapped m a (Z.of_nat n).
Proof. intros H%has_bytes_mapped. by rewrite zlen_le_bytes in H. Qed.

(** Mapped memory holds some integer. *)
Lemma mapped_word n m a :
  mem_wf m -> mapped m a (Z.of_nat n) -> exists v, word n m a v /\ 0 <= v < 256 ^ Z.of_nat n.
Proof.
  intros Hw. revert a. induction n as [|n IH]; intros a Hm; [exists 0; cbn; lia|].
  destruct (IH (a + 1)) as (v & Hv & Hb); [intros i Hi; apply Hm; lia|].
  destruct (Hm a ltac:(lia)) as [b Eb]. pose proof (Hw a b Eb) as Hu. unfold is_u8 in Hu.
  exists (b + 256 * v). rewrite Nat2Z.inj_succ, Z.pow_succ_r by lia. split; [|lia].
  unfold word. cbn [le_bytes has_bytes].
  replace ((b + 256 * v) mod 256) with b by mlia.
  replace ((b + 256 * v) / 256) with v by mlia. done.
Qed.

(** ** The reclaimer: a doubly linked list in the buffers *)

Definition link (m : gmap Z Z) (e : Z * Z) : Prop :=
  word 8 m e.1 e.2 /\ word 8 m (e.2 + 8) e.1.

(** Distinct elements of [l] are at least [s] bytes apart. *)
Definition apart (s : Z) (l : list Z) : Prop :=
  NoDup l /\ forall a b, a ∈ l -> b ∈ l -> a <> b -> a + s <= b \/ b + s <= a.

#[global] Instance apart_Permutation s : Proper (Permutation ==> iff) (apart s).
Proof.
  intros l k H. unfold apart. rewrite H. split; intros [Hn Ha]; (split; [done|]); intros a b Hin Hin'.
  - apply Ha; by rewrite H.
  - apply Ha; by rewrite <- H.
Qed.

Lemma apart_mono s s' l : s' <= s -> apart s l -> apart s' l.
Proof. intros Hs [Hn Ha]. split; [done|]. intros a b H1 H2 H3. specialize (Ha a b H1 H2 H3). lia. Qed.

Lemma apart_cons s x l :
  apart s (x :: l) <-> (x ∉ l) /\ (forall a, a ∈ l -> a + s <= x \/ x + s <= a) /\ apart s l.
Proof.
  unfold apart. rewrite list.NoDup_cons. split.
  - intros [[Hx Hn] Ha]. split; [done|]. split.
    + intros a Hin. apply Ha; [by constructor|constructor|]. by intros ->.
    + split; [done|]. intros a b H1 H2. apply Ha; by constructor.
  - intros (Hx & Hd & Hn & Ha). split; [done|]. intros a b H1 H2 Hne.
    apply elem_of_cons in H1 as [->|H1]; apply elem_of_cons in H2 as [->|H2]; [done| | |by apply Ha].
    + specialize (Hd b H2). lia.
    + by apply Hd.
Qed.

(** The circular list with head [l] and the nodes [nodes]. *)
Record rlist (m : gmap Z Z) (l : Z) (nodes : list Z) : Prop := {
  rl_edges : Forall (link m) (zip (l :: nodes) (nodes ++ [l]));
  rl_apart : apart 16 (l :: nodes);
  rl_u64 : Forall (fun a => 0 < a < 18446744073709551616) (l :: nodes)
}.

Lemma rlist_in m l nodes a :
  rlist m l nodes -> a ∈ l :: nodes -> 0 < a < 18446744073709551616.
Proof. intros [_ _ H] Ha. exact (proj1 (list.Forall_forall _ _) H a Ha). Qed.

Lemma ld_link8 m a v : word 8 m a v -> 0 < v < 18446744073709551616 -> ld 8 m a = Ok v.
Proof. intros H Hv. apply ld_word; [done|]. change (256 ^ Z.of_nat 8) with 18446744073709551616. lia. Qed.

Lemma st8 m a v : mapped m a 8 -> st 8 m a v = Ok (put_bytes m a (le_bytes 8 v)).
Proof. intros H. by apply st_word. Qed.

Lemma edges_snoc (l : Z) (nodes : list Z) :
  exists pre p, l :: nodes = pre ++ [p] /\ length pre = length nodes /\
    forall z, zip (l :: nodes) (nodes ++ [z]) = zip pre nodes ++ [(p, z)].
Proof.
  destruct (exists_last (l:=l :: nodes)) as (pre & p & E); [done|]. exists pre, p.
  assert (Hl : length pre = length nodes).
  { apply (f_equal length) in E. rewrite length_app in E. cbn in E. lia. }
  split; [done|]. split; [done|]. intros z. rewrite E. by rewrite zip_with_app.
Qed.

Lemma zip_in {A B} (xs : list A) (ys : list B) x y : (x, y) ∈ zip xs ys -> x ∈ xs /\ y ∈ ys.
Proof.
  intros (x' & y' & k & [= -> ->] & Hx & Hy)%elem_of_lookup_zip_with.
  split; by eapply list_elem_of_lookup_2.
Qed.

Lemma link_put m e k v :
  e.1 + 8 <= k \/ k + 8 <= e.1 -> e.2 + 16 <= k \/ k <= e.2 ->
  link m e -> link (put_bytes m k (le_bytes 8 v)) e.
Proof. intros H1 H2 [A B]. split; apply word_put_ne; try done; lia. Qed.

(** The ranges of the list's nodes. *)
Definition nodes_of (l : list Z) : list (Z * Z) := (fun a => (a, 16)) <$> l.

Lemma nodes_of_in a l : a ∈ l -> (a, 16) ∈ nodes_of l.
Proof. intros H. apply list_elem_of_fmap. eauto. Qed.

Lemma memstep_node m a v b l :
  b ∈ l -> b <= a -> a <= b + 8 -> memstep (nodes_of l) m (put_bytes m a (le_bytes 8 v)).
Proof.
  intros Hb H1 H2. eapply memstep_weaken; [|apply memstep_put, le_bytes_u8].
  rewrite zlen_le_bytes. eapply covers_one; [by apply nodes_of_in|lia..].
Qed.

(** The links that stay: writing the new node, [l->prev] and [p->next]. *)
Lemma inner_edges m l nodes pre p node v1 v2 v3 v4 :
  l :: nodes = pre ++ [p] -> apart 16 (l :: nodes) ->
  (forall a, a ∈ l :: nodes -> a + 16 <= node \/ node + 16 <= a) ->
  Forall (link m) (zip pre nodes) ->
  Forall
    (link
       (put_bytes
          (put_bytes
             (put_bytes (put_bytes m (node + 8) (le_bytes 8 v1)) node (le_bytes 8 v2)) (l + 8)
             (le_bytes 8 v3)) p (le_bytes 8 v4))) (zip pre nodes).
Proof.
  intros El [Hnodup Hsep] Hnd He. apply list.Forall_forall. intros [x y] Hxy.
  assert (Hp : p ∈ l :: nodes) by (rewrite El; apply elem_of_app; right; constructor).
  pose proof (zip_in _ _ _ _ Hxy) as [Hx Hy].
  assert (Hx' : x ∈ l :: nodes) by (rewrite El; apply elem_of_app; by left).
  assert (Hy' : y ∈ l :: nodes) by (by constructor).
  assert (Hxp : x <> p).
  { intros ->. rewrite El in Hnodup. apply list.NoDup_app in Hnodup as (_ & Hd & _).
    apply (Hd p Hx). constructor. }
  assert (Hyl : y <> l) by (intros ->; by apply list.NoDup_cons in Hnodup as [? _]).
  pose proof (Hsep x p Hx' Hp Hxp). pose proof (Hsep y l Hy' ltac:(constructor) Hyl).
  pose proof (Hnd x Hx'). pose proof (Hnd y Hy').
  assert (x = l \/ x + 16 <= l \/ l + 16 <= x).
  { destruct (decide (x = l)); [by left|right]. apply Hsep; [done|constructor|done]. }
  assert (y = p \/ y + 16 <= p \/ p + 16 <= y).
  { destruct (decide (y = p)); [by left|right]. by apply Hsep. }
  do 4 (apply link_put; [cbn; lia..|]). exact (proj1 (list.Forall_forall _ _) He _ Hxy).
Qed.

Lemma rlist_add_tail m l nodes node :
  rlist m l nodes -> apart 16 (node :: l :: nodes) -> 0 < node < 18446744073709551616 ->
  mapped m node 16 ->
  exists m', mem_list_add_tail m l node = Ok m' /\ rlist m' l (nodes ++ [node]) /\
    memstep (nodes_of (node :: l :: nodes)) m m'.
Proof.
  intros H Hap Hu Hmap. pose proof (rlist_in _ _ _ l H ltac:(constructor)) as Hlu.
  destruct H as [He Ha Hru]. destruct (edges_snoc l nodes) as (pre & p & El & Hlen & Hz).
  rewrite Hz in He. apply Forall_app in He as [He [Hpl Hlp]%Forall_singleton].
  assert (Hp : p ∈ l :: nodes) by (rewrite El; apply elem_of_app; right; constructor).
  pose proof (proj1 (list.Forall_forall _ _) Hru p Hp) as Hpu. cbn beta in Hpu.
  apply apart_cons in Hap as (Hnn & Hnd & _). pose proof (Hnd l ltac:(constructor)) as Hdl.
  pose proof (Hnd p Hp) as Hdp. pose proof Ha as [Hnodup Hsep].
  cbn [fst snd] in Hpl, Hlp. pose proof (word_mapped _ _ _ _ Hpl) as Hmp.
  pose proof (word_mapped _ _ _ _ Hlp) as Hml.
  assert (Hpp : p + 8 <= l + 8 \/ l + 16 <= p).
  { destruct (decide (p = l)) as [->|Hne]; [lia|]. specialize (Hsep p l Hp ltac:(constructor) Hne). lia. }
  eexists. split; [|split].
  - unfold mem_list_add_tail, ld_prev, ld_next.
    run (by apply ld_link8).
    run (apply st8; eapply mapped_sub; [exact Hmap|lia..]).
    run (apply st8, mapped_put; eapply mapped_sub; [exact Hmap|lia..]).
    run (apply ld_link8; [apply word_put|done]).
    run (by apply st8, mapped_put, mapped_put).
    run (apply ld_link8; [|exact Hpu]; do 2 (apply word_put_ne; [lia|]); apply word_put).
    by apply st8, mapped_put, mapped_put, mapped_put.
  - split.
    + rewrite <- app_assoc. cbn [app].
      change (nodes ++ [node; l]) with (nodes ++ [node] ++ [l]). rewrite app_assoc.
      rewrite app_comm_cons, zip_with_app by (cbn; rewrite length_app; cbn; lia).
      rewrite Hz. apply Forall_app. split; [apply Forall_app; split|].
      * by apply (inner_edges m l nodes pre p node).
      * constructor; [|constructor]. split; cbn [fst snd]; [apply word_put|].
        apply word_put_ne; [lia|]. apply word_put_ne; [lia|]. apply word_put_ne; [lia|]. apply word_put.
      * constructor; [|constructor]. split; cbn [fst snd].
        -- do 2 (apply word_put_ne; [lia|]). apply word_put.
        -- apply word_put_ne; [lia|]. apply word_put.
    + assert (Hpm : l :: nodes ++ [node] ≡ₚ node :: l :: nodes)
        by (change (l :: nodes ++ [node]) with ((l :: nodes) ++ [node]); by rewrite Permutation_app_comm).
      rewrite Hpm. apply apart_cons. done.
    + change (l :: nodes ++ [node]) with ((l :: nodes) ++ [node]). apply Forall_app.
      split; [done|]. by apply Forall_singleton.
  - etransitivity; [apply (memstep_node _ (node + 8) p node); [constructor|lia..]|].
    etransitivity; [apply (memstep_node _ node l node); [constructor|lia..]|].
    etransitivity; [apply (memstep_node _ (l + 8) node l); [constructor; constructor|lia..]|].
    apply (memstep_node _ p node p); [by constructor|lia..].
Qed.

Lemma rlist_first m l nodes :
  rlist m l nodes -> mem_list_first m l = Ok (hd 0 nodes).
Proof.
  intros H. pose proof H as [He [Hn _] _].
  assert (exists y tl, nodes ++ [l] = y :: tl /\ y ∈ l :: nodes) as (y & tl & Ey & Hy).
  { destruct nodes as [|x r]; do 2 eexists; (split; [reflexivity|]); [constructor|right; left]. }
  rewrite Ey in He. cbn [zip zip_with] in He. apply Forall_cons_1 in He as [[Hx _] _].
  unfold mem_list_first, ld_next. run (apply ld_link8; [exact Hx|by apply (rlist_in m l nodes)]).
  destruct nodes as [|x r]; cbn in Ey; injection Ey as <- _; cbn [fst snd hd].
  - by rewrite Z.eqb_refl.
  - rewrite (proj2 (Z.eqb_neq _ _)); [done|]. intros ->. apply list.NoDup_cons in Hn as [Hn _].
    apply Hn. constructor.
Qed.

(** The links that stay: [y->prev], [l->next] and the removed node change. *)
Lemma rest_edges m l x rest y tl v1 v2 v3 v4 :
  rest ++ [l] = y :: tl -> apart 16 (x :: l :: rest) -> Forall (link m) (zip rest tl) ->
  Forall
    (link
       (put_bytes
          (put_bytes
             (put_bytes (put_bytes m (y + 8) (le_bytes 8 v1)) l (le_bytes 8 v2)) (x + 8)
             (le_bytes 8 v3)) x (le_bytes 8 v4))) (zip rest tl).
Proof.
  intros Ey (Hxn & Hxd & [Hnd Hsep])%apart_cons He.
  apply list.Forall_forall. intros [a b] Hab. pose proof (zip_in _ _ _ _ Hab) as [Hia Hib].
  assert (Hp : l :: rest ≡ₚ y :: tl) by (rewrite <- Ey; apply Permutation_cons_append).
  assert (Hb : b ∈ l :: rest) by (rewrite Hp; by right).
  assert (Hy : y ∈ l :: rest) by (rewrite Hp; left).
  assert (Ha : a ∈ l :: rest) by (by right).
  assert (Hal : a <> l) by (intros ->; by apply list.NoDup_cons in Hnd as [? _]).
  assert (Hby : b <> y) by (intros ->; rewrite Hp in Hnd; by apply list.NoDup_cons in Hnd as [? _]).
  pose proof (Hxd a Ha). pose proof (Hxd b Hb). pose proof (Hsep b y Hb Hy Hby).
  pose proof (Hsep a l Ha ltac:(left) Hal).
  assert (a = y \/ a + 16 <= y \/ y + 16 <= a).
  { destruct (decide (a = y)); [by left|right]. by apply Hsep. }
  assert (b = l \/ b + 16 <= l \/ l + 16 <= b).
  { destruct (decide (b = l)); [by left|right]. apply Hsep; [done|left|done]. }
  do 4 (apply link_put; [cbn; lia..|]). exact (proj1 (list.Forall_forall _ _) He _ Hab).
Qed.

Lemma rlist_del m l x rest :
  rlist m l (x :: rest) ->
  exists m', mem_list_del m x = Ok m' /\ rlist m' l rest /\
    memstep (nodes_of (l :: x :: rest)) m m'.
Proof.
  intros H. pose proof (rlist_in _ _ _ x H ltac:(right; left)) as Hxu.
  pose proof (rlist_in _ _ _ l H ltac:(left)) as Hlu. pose proof H as [He Ha Hru].
  assert (exists y tl, rest ++ [l] = y :: tl /\ y ∈ l :: rest) as (y & tl & Ey & Hy).
  { destruct rest as [|z r]; do 2 eexists; (split; [reflexivity|]); [constructor|right; left]. }
  assert (Hperm : l :: x :: rest ≡ₚ x :: l :: rest) by constructor.
  assert (Hyu : 0 < y < 18446744073709551616).
  { apply (rlist_in m l (x :: rest)); [done|]. rewrite Hperm. by constructor. }
  cbn [app zip zip_with] in He. rewrite Ey in He. cbn [zip zip_with] in He.
  apply Forall_cons_1 in He as [[Hlx Hxl] He]. apply Forall_cons_1 in He as [[Hxy Hyx] He].
  cbn [fst snd] in *. rewrite Hperm in Ha. apply apart_cons in Ha as (Hxn & Hxd & Har).
  pose proof (Hxd y Hy) as Hdy. pose proof (Hxd l ltac:(constructor)) as Hdl.
  eexists. split; [|split].
  - unfold mem_list_del, ld_prev, ld_next.
    run (by apply ld_link8). run (by apply ld_link8).
    run (apply st8; by apply word_mapped in Hyx).
    run (apply ld_link8; [apply word_put_ne; [lia|exact Hxl]|done]).
    run (apply ld_link8; [apply word_put_ne; [lia|exact Hxy]|done]).
    run (apply st8, mapped_put; by apply word_mapped in Hlx).
    run (apply st8, mapped_put, mapped_put; by apply word_mapped in Hxl).
    apply st8. do 3 apply mapped_put. by apply word_mapped in Hxy.
  - split; [| |rewrite Hperm in Hru; by apply Forall_cons_1 in Hru as [_ Hru]].
    + rewrite Ey. cbn [zip zip_with]. pose proof Har as [Hnd Hsep]. constructor.
      * split; cbn [fst snd]; do 2 (apply word_put_ne; [lia|]); [apply word_put|].
        apply word_put_ne; [|apply word_put].
        destruct (decide (y = l)) as [->|Hne]; [lia|].
        specialize (Hsep y l Hy ltac:(constructor) Hne). lia.
      * apply rest_edges; [done| |done]. by apply apart_cons.
    + done.
  - etransitivity; [apply (memstep_node _ (y + 8) l y); [rewrite Hperm; by right|lia..]|].
    etransitivity; [apply (memstep_node _ l y l); [left|lia..]|].
    etransitivity; [apply (memstep_node _ (x + 8) x x); [right; left|lia..]|].
    apply (memstep_node _ x x x); [right; left|lia..].
Qed.

Lemma rlist_init m l :
  mapped m l 16 -> 0 < l < 18446744073709551616 ->
  exists m', mem_list_init m l = Ok m' /\ rlist m' l [] /\ memstep [(l, 16)] m m'.
Proof.
  intros Hm Hl. eexists. split; [|split].
  - unfold mem_list_init. run (apply st8; eapply mapped_sub; [exact Hm|lia..]).
    apply st8, mapped_put. eapply mapped_sub; [exact Hm|lia..].
  - split.
    + constructor; [|constructor]. split; cbn [fst snd]; [|apply word_put].
      apply word_put_ne; [lia|]. apply word_put.
    + split; [repeat constructor; by apply not_elem_of_nil|].
      intros a b ->%list_elem_of_singleton ->%list_elem_of_singleton. done.
    + by constructor.
  - change [(l, 16)] with (nodes_of [l]).
    etransitivity; [apply (memstep_node _ l l l); [left|lia..]|].
    apply (memstep_node _ (l + 8) l l); [left|lia..].
Qed.

Lemma rlist_step rs m m' l nodes :
  memstep rs m m' -> (forall x a s, x ∈ l :: nodes -> (a, s) ∈ rs -> x + 16 <= a \/ a + s <= x) ->
  rlist m l nodes -> rlist m' l nodes.
Proof.
  intros Hs Hd [He Ha Hu]. split; [|done|done]. apply list.Forall_forall. intros [x y] Hxy.
  pose proof (zip_in _ _ _ _ Hxy) as [Hx Hy].
  assert (Hy' : y ∈ l :: nodes).
  { apply elem_of_app in Hy as [?|Hy]; [by right|]. apply list_elem_of_singleton in Hy as ->. left. }
  destruct (proj1 (list.Forall_forall _ _) He _ Hxy) as [H1 H2].
  split; (eapply memstep_bytes; [exact Hs| |done]); cbn [fst snd]; rewrite zlen_le_bytes;
    intros b s Hin; [specialize (Hd x b s Hx Hin)|specialize (Hd y b s Hy' Hin)]; lia.
Qed.

(** ** The held counter *)

Lemma land_low_mask r : Z.land r (u32 (Z.lnot RPMSG_BUF_HELD_MASK)) = r mod 65536.
Proof. change (u32 (Z.lnot RPMSG_BUF_HELD_MASK)) with (Z.ones 16). by rewrite Z.land_ones. Qed.

Lemma buf_index idx c : is_u16 idx -> 0 <= c -> RPMSG_BUF_INDEX (idx + 65536 * c) = idx.
Proof.
  intros Hi Hc. unfold RPMSG_BUF_INDEX. rewrite land_low_mask. unfold is_u16, u16 in *. mlia.
Qed.

Lemma held_counter idx c :
  is_u16 idx -> 0 <= c < 65536 -> RPMSG_BUF_HELD_COUNTER (idx + 65536 * c) = c.
Proof.
  intros Hi Hc. unfold RPMSG_BUF_HELD_COUNTER, RPMSG_BUF_HELD_MASK, is_u16 in *.
  apply Z.bits_inj'. intros k Hk. rewrite Z.shiftr_spec, Z.land_spec by done.
  change 4294901760 with (Z.shiftl (Z.ones 16) 16). rewrite Z.shiftl_spec by lia.
  replace (k + 16 - 16) with k by lia. rewrite Z.testbit_ones by lia.
  rewrite <- (Z.shiftr_spec (idx + 65536 * c) 16) by done. rewrite Z.shiftr_div_pow2 by lia.
  replace ((idx + 65536 * c) / 2 ^ 16) with c by (change (2 ^ 16) with 65536; mlia).
  destruct (decide (k < 16)).
  - rewrite (proj2 (Z.leb_le _ _)), (proj2 (Z.ltb_lt _ _)) by lia. by rewrite andb_true_r.
  - rewrite (proj2 (Z.ltb_ge _ _)), !andb_false_r by lia. symmetry.
    apply (Z.bits_above_log2 c k); [lia|]. destruct (decide (c = 0)) as [->|]; [cbn; lia|].
    apply Z.log2_lt_pow2; [lia|]. assert (2 ^ 16 <= 2 ^ k) by (apply Z.pow_le_mono_r; lia). lia.
Qed.

Section held.
Context (h idx : Z).
Hypothesis Hidx : is_u16 idx.

(** The header at [h] belongs to the descriptor [idx] and has [c] users. *)
Definition held_at (m : gmap Z Z) (c : Z) : Prop := word 4 m (h + HDR_RESERVED) (idx + 65536 * c).

Lemma held_ld m c : held_at m c -> 0 <= c < 65536 -> ld 4 m (h + HDR_RESERVED) = Ok (idx + 65536 * c).
Proof.
  intros H Hc. apply ld_word; [done|]. unfold is_u16 in *. change (256 ^ Z.of_nat 4) with 4294967296. lia.
Qed.

Lemma held_st m c v :
  held_at m c ->
  st 4 m (h + HDR_RESERVED) v = Ok (put_bytes m (h + HDR_RESERVED) (le_bytes 4 v)) /\
  memstep [(h + HDR_RESERVED, 4)] m (put_bytes m (h + HDR_RESERVED) (le_bytes 4 v)).
Proof.
  intros H. split; [apply st_word; by apply word_mapped in H|]. apply (memstep_put _ _ (le_bytes 4 v)), le_bytes_u8.
Qed.

Lemma held_inc_run m c :
  held_at m c -> 0 <= c < 65535 ->
  exists m', held_inc m h = Ok m' /\ held_at m' (c + 1) /\ memstep [(h + HDR_RESERVED, 4)] m m'.
Proof.
  intros H Hc. destruct (held_st m c (idx + 65536 * (c + 1)) H) as [Hs Hm].
  eexists. split; [|split; [apply word_put|exact Hm]].
  unfold held_inc. run (apply (held_ld m c); [done|lia]). rewrite <- Hs. f_equal. unfold RPMSG_BUF_HELD_INC.
  change (Z.shiftl 1 16) with 65536. unfold is_u16 in *. width.
Qed.

Lemma dec_test_run m c :
  held_at m c -> 1 <= c < 65536 ->
  exists m', rpmsg_virtio_buf_held_dec_test m h = Ok (m', c =? 1) /\ held_at m' (c - 1) /\
    memstep [(h + HDR_RESERVED, 4)] m m'.
Proof.
  intros H Hc. destruct (held_st m c (idx + 65536 * (c - 1)) H) as [Hs Hm].
  eexists. split; [|split; [apply word_put|exact Hm]].
  unfold rpmsg_virtio_buf_held_dec_test. run (apply (held_ld m c); [done|lia]).
  rewrite held_counter, (proj2 (Z.leb_gt _ _)) by (done || lia).
  replace (RPMSG_BUF_HELD_DEC (idx + 65536 * c)) with (idx + 65536 * (c - 1)); cycle 1.
  { unfold RPMSG_BUF_HELD_DEC. change (Z.shiftl 1 16) with 65536. unfold is_u16 in *. width. }
  run (exact Hs). rewrite held_counter by (done || lia).
  destruct (c =? 1) eqn:E; zbool; [subst|rewrite (proj2 (Z.ltb_lt _ _)) by lia]; done.
Qed.

(** [k] users take the buffer; [k] users drop it, with the answers they get. *)
Fixpoint holds (k : nat) (m : gmap Z Z) : res (gmap Z Z) :=
  match k with
  | O => Ok m
  | S k' => m ← held_inc m h; holds k' m
  end.
Fixpoint drops (k : nat) (m : gmap Z Z) : res (gmap Z Z * list bool) :=
  match k with
  | O => Ok (m, [])
  | S k' =>
      '(m, last) ← rpmsg_virtio_buf_held_dec_test m h;
      '(m, bs) ← drops k' m;
      Ok (m, last :: bs)
  end.

Lemma holds_run k m c :
  held_at m c -> 0 <= c -> c + Z.of_nat k < 65536 ->
  exists m', holds k m = Ok m' /\ held_at m' (c + Z.of_nat k).
Proof.
  revert m c. induction k as [|k IH]; intros m c H Hc Hk.
  { exists m. by rewrite Z.add_0_r. }
  destruct (held_inc_run m c H) as (m1 & E & H1 & _); [lia|].
  destruct (IH m1 (c + 1) H1) as (m2 & E2 & H2); [lia..|].
  exists m2. split; [|by replace (c + Z.of_nat (S k)) with (c + 1 + Z.of_nat k) by lia].
  cbn [holds]. by run (exact E).
Qed.

Lemma drops_run k m :
  held_at m (Z.of_nat (S k)) -> Z.of_nat (S k) < 65536 ->
  exists m', drops (S k) m = Ok (m', replicate k false ++ [true]) /\ held_at m' 0.
Proof.
  revert m. induction k as [|k IH]; intros m H Hk;
    destruct (dec_test_run m _ H) as (m1 & E & H1 & _); try lia.
  - exists m1. split; [|done]. cbn [drops]. by run (exact E).
  - replace (Z.of_nat (S (S k)) - 1) with (Z.of_nat (S k)) in H1 by lia.
    destruct (IH m1 H1) as (m2 & E2 & H2); [lia|]. exists m2. split; [|done].
    change (drops (S (S k)) m) with
      ('(m, last) ← rpmsg_virtio_buf_held_dec_test m h; '(m, bs) ← drops (S k) m; Ok (m, last :: bs)).
    run (exact E). rewrite (proj2 (Z.eqb_neq _ _)) by lia. by run (exact E2).
Qed.
End held.

(** the held counter.  A received buffer with the header at [h] starts with its
    descriptor index in [reserved]; when it is held once for the delivery and [k]
    more times by users, the first [k] releases keep it, the last one says that
    it is to be returned, and the index is still there. *)
Theorem held_counter_balanced (h idx : Z) (m : gmap Z Z) (k : nat)
    (Hidx : is_u16 idx) (Hm : word 4 m (h + HDR_RESERVED) idx) (Hk : Z.of_nat (S k) < 65536) :
  exists m1 m2, holds h (S k) m = Ok m1 /\
    drops h (S k) m1 = Ok (m2, replicate k false ++ [true]) /\
    ld 4 m2 (h + HDR_RESERVED) = Ok idx /\ RPMSG_BUF_INDEX idx = idx.
Proof.
  destruct (holds_run h idx Hidx (S k) m 0) as (m1 & E1 & H1); [|lia..|].
  { unfold held_at. by rewrite Z.mul_0_r, Z.add_0_r. }
  destruct (drops_run h idx Hidx k m1 H1 Hk) as (m2 & E2 & H2). exists m1, m2.
  split_and!; [done|done| |].
  - rewrite (held_ld h idx Hidx m2 0 H2) by lia. f_equal. lia.
  - rewrite <- (buf_index idx 0) at 2 by (done || lia). f_equal. lia.
Qed.

Lemma held_counter_balanced_witness :
  exists m1 m2, holds 64 3 (put_bytes ∅ 72 (le_bytes 4 7)) = Ok m1 /\
    drops 64 3 m1 = Ok (m2, [false; false; true]) /\ ld 4 m2 72 = Ok 7.
Proof.
  destruct (held_counter_balanced 64 7 (put_bytes ∅ 72 (le_bytes 4 7)) 2) as (m1 & m2 & E1 & E2 & E3 & _).
  - unfold is_u16. lia.
  - apply has_bytes_put.
  - lia.
  - exists m1, m2. done.
Defined.

(** ** The shared memory pool *)

(** [k] requests for buffers of [size] bytes. *)
Fixpoint pool_gets (k : nat) (pool : rpmsg_virtio_shm_pool) (size : Z)
  : rpmsg_virtio_shm_pool * list Z :=
  match k with
  | O => (pool, [])
  | S k' =>
      let '(pool, b) := rpmsg_virtio_shm_pool_get_buffer pool size in
      let '(pool, bs) := pool_gets k' pool size in
      (pool, b :: bs)
  end.

(** A pool that has handed out its first [base + used - base] bytes. *)
Record pool_ok (p : rpmsg_virtio_shm_pool) : Prop := {
  po_base : 0 < sp_base p;
  po_size : sp_base p + sp_size p < 18446744073709551616;
  po_avail : 0 <= sp_avail p <= sp_size p
}.

(** The next buffer of the pool. *)
Definition pool_next (p : rpmsg_virtio_shm_pool) : Z := sp_base p + sp_size p - sp_avail p.

Lemma pool_get_run p size :
  pool_ok p -> 0 < size <= sp_avail p ->
  rpmsg_virtio_shm_pool_get_buffer p size =
    (mk_pool (sp_base p) (sp_avail p - size) (sp_size p), pool_next p).
Proof.
  intros [H1 H2 H3] Hs. unfold rpmsg_virtio_shm_pool_get_buffer.
  rewrite (proj2 (Z.eqb_neq _ _)), (proj2 (Z.ltb_ge _ _)) by lia. cbn [orb]. unfold pool_next.
  rewrite !u64_id by (unfold is_u64; rewrite ?u64_id by (unfold is_u64; lia); lia). done.
Qed.

Lemma pool_get_none p size :
  sp_avail p < size -> rpmsg_virtio_shm_pool_get_buffer p size = (p, 0).
Proof.
  intros H. unfold rpmsg_virtio_shm_pool_get_buffer.
  by rewrite (proj2 (Z.ltb_lt _ _)), orb_true_r by done.
Qed.

Lemma pool_gets_run k p size :
  pool_ok p -> 0 < size -> Z.of_nat k * size <= sp_avail p ->
  pool_gets k p size =
    (mk_pool (sp_base p) (sp_avail p - Z.of_nat k * size) (sp_size p),
     (fun i => pool_next p + Z.of_nat i * size) <$> seq 0 k).
Proof.
  revert p. induction k as [|k IH]; intros p Hp Hs Hk.
  { cbn. rewrite Z.sub_0_r. by destruct p. }
  cbn [pool_gets]. rewrite pool_get_run by (done || nia). pose proof Hp as [P1 P2 P3].
  rewrite IH; [|split; cbn; nia|done|cbn; nia]. cbn [sp_base sp_avail sp_size]. f_equal; [f_equal; nia|].
  cbn [seq fmap list_fmap]. f_equal; [lia|]. rewrite <- fmap_S_seq, <- list_fmap_compose.
  apply list_fmap_ext. intros ? i _. unfold pool_next. cbn. nia.
Qed.

(** a shared memory pool of [len] bytes at [base] gives, to any number of
    requests for [size] bytes that fit, consecutive buffers that lie in the pool
    and do not overlap; the first request that does not fit gets the null pointer
    and leaves the pool as it is, as does a request for 0 bytes. *)
Theorem shm_pool_buffers (p0 : rpmsg_virtio_shm_pool) (base len size : Z) (k : nat)
    (Hb : 0 < base) (Hr : base + len < 18446744073709551616) (Hl : 0 < len) (Hs : 0 < size)
    (Hk : Z.of_nat k * size <= len) :
  let '(p, bufs) := pool_gets k (rpmsg_virtio_init_shm_pool p0 base len) size in
  length bufs = k /\ apart size bufs /\
  Forall (fun b => base <= b /\ b + size <= base + len) bufs /\
  rpmsg_virtio_shm_pool_get_buffer p 0 = (p, 0) /\
  (len < (Z.of_nat k + 1) * size -> rpmsg_virtio_shm_pool_get_buffer p size = (p, 0)).
Proof.
  unfold rpmsg_virtio_init_shm_pool. rewrite !(proj2 (Z.eqb_neq _ _)) by lia. cbn [orb].
  rewrite pool_gets_run; [|split; cbn; lia|done|cbn; lia]. unfold pool_next. cbn [sp_base sp_avail sp_size].
  split_and!.
  - by rewrite length_fmap, length_seq.
  - split.
    + apply NoDup_fmap_2; [|apply NoDup_seq]. intros i j E. nia.
    + intros a b (i & -> & Hi)%list_elem_of_fmap (j & -> & Hj)%list_elem_of_fmap Hne.
      assert (i <> j) by (intros ->; done). nia.
  - apply list.Forall_forall. intros b (i & -> & Hi%elem_of_seq)%list_elem_of_fmap. nia.
  - reflexivity.
  - intros Hf. apply pool_get_none. cbn. lia.
Qed.

Lemma shm_pool_buffers_witness :
  pool_gets 3 (rpmsg_virtio_init_shm_pool (mk_pool 0 0 0) 4096 100) 30
    = (mk_pool 4096 10 100, [4096; 4126; 4156]) /\
  apart 30 [4096; 4126; 4156].
Proof.
  pose proof (shm_pool_buffers (mk_pool 0 0 0) 4096 100 30 3
    ltac:(lia) ltac:(lia) ltac:(lia) ltac:(lia) ltac:(lia)) as H.
  assert (E : pool_gets 3 (rpmsg_virtio_init_shm_pool (mk_pool 0 0 0) 4096 100) 30
    = (mk_pool 4096 10 100, [4096; 4126; 4156])) by (vm_compute; reflexivity).
  rewrite E in H. destruct H as (_ & H & _). split; [exact E|exact H].
Defined.
