(* ===== verification/RpmsgTx.v ===== *)
(** * Transmission in the driver role (rpmsg_virtio.c)

    The invariant of the transmit side: every transmit buffer is held by a
    caller, reclaimed, in flight in the virtqueue, or still in the pool; the
    buffers do not overlap; and the callers and the reclaimer never own more
    buffers than there are free descriptors, so that a send always finds one.
    The operations keep it, and a message is found in shared memory where the
    descriptor says. *)

From S2P Require Import Prelude MetalUtil MetalIo Vring Virtqueue VirtqueueInv VirtqueueRefine.
From S2P Require Import VirtqueueSys Virtio Rpmsg RpmsgInv RpmsgVirtio RpmsgBuf.

(** What the operations never change. *)
Definition tx_fixed {B} (t : rpmsg_virtio B) :=
  (rv_config t, rv_shbuf_io t, rv_reclaimer t, rv_svq t, rv_rvq t, rv_shpool t,
   rv_notify_wait_cb t, vd_dev (rv_vdev t), vd_back (rv_vdev t)).

(** The [s] bytes at [a] are outside the region; inside it. *)
Definition out_of (io : metal_io_region) (a s : Z) : Prop :=
  a + s <= io_virt io \/ io_virt io + io_size io <= a.
Definition inside (io : metal_io_region) (a s : Z) : Prop :=
  io_virt io <= a /\ a + s <= io_virt io + io_size io.

Section tx.
Context {B : Type} (bld : build) (hdr_slot n : Z).
Implicit Types (t : rpmsg_virtio B) (m : gmap Z Z) (w : world (rpmsg_virtio B)).

Definition tx_size t : Z := h2r_buf_size (rv_config t).

Record tx_env t : Prop := {
  te_drv : VIRTIO_ROLE_IS_DRIVER bld (vd_dev (rv_vdev t)) = true;
  te_dev : VIRTIO_ROLE_IS_DEVICE bld (vd_dev (rv_vdev t)) = false;
  te_wait : rv_notify_wait_cb t = 0;
  te_io : exists physmap, io_wf (rv_shbuf_io t) physmap;
  te_size : 18 <= tx_size t < 2147483648;
  te_out : out_of (rv_shbuf_io t) (rv_reclaimer t) 16 /\ out_of (rv_shbuf_io t) hdr_slot 16 /\
    (rv_reclaimer t + 16 <= hdr_slot \/ hdr_slot + 16 <= rv_reclaimer t)
}.

Record tx_mem m t (nodes : list Z) : Prop := {
  tm_wf : mem_wf m;
  tm_map : mapped m (io_virt (rv_shbuf_io t)) (io_size (rv_shbuf_io t));
  tm_hdr : mapped m hdr_slot 16;
  tm_list : rlist m (rv_reclaimer t) nodes
}.

(** A message in flight: one buffer for the device to read. *)
Definition tx_chain t (c : chain) : Prop :=
  exists a, c_bufs c = [(a, tx_size t, false)] /\
    metal_io_virt_to_phys (rv_shbuf_io t) (c_cookie c) = Ok a.

Record tx_queue t (vi : virtio_vring_info) (q : queue) (devq : virtqueue) : Prop := {
  tq_vring : zget (vd_vrings (rv_vdev t)) (rv_svq t) = Some vi;
  tq_rel : vq_rel n q (vi_vq vi) devq (vi_ring vi);
  tq_io : vq_shm_io (vi_vq vi) = rv_shbuf_io t;
  tq_chain : Forall (tx_chain t) (q_live q);
  tq_lens : Forall (fun u => u.2 = tx_size t) (q_used q);
  tq_rvq : 0 <= rv_rvq t < zlen (vd_vrings (rv_vdev t))
}.

Definition tx_bufs (q : queue) (held nodes : list Z) : list Z :=
  held ++ nodes ++ (c_cookie <$> q_live q).

Record tx_owns t (q : queue) (held nodes : list Z) (pool : rpmsg_virtio_shm_pool) : Prop := {
  to_apart : apart (tx_size t) (tx_bufs q held nodes);
  to_in : Forall (fun b => inside (rv_shbuf_io t) b (tx_size t) /\ b + tx_size t <= pool_next pool)
    (tx_bufs q held nodes);
  to_pool : zget (rv_pools t) (rv_shpool t) = Some pool;
  to_ok : pool_ok pool;
  to_room : inside (rv_shbuf_io t) (pool_next pool) (sp_avail pool);
  to_count : zlen held + zlen nodes <= zlen (q_free q)
}.

Record tx_inv m t (q : queue) (devq : virtqueue) (held nodes : list Z) : Prop := {
  ti_env : tx_env t;
  ti_mem : tx_mem m t nodes;
  ti_queue : exists vi, tx_queue t vi q devq;
  ti_owns : exists pool, tx_owns t q held nodes pool
}.

(** ** Steps on the transport's state *)

Definition put_vring t (i : Z) (vi : virtio_vring_info) (vq : virtqueue) (ring : vring)
  : rpmsg_virtio B :=
  rv_set_vdev t (vd_set_vrings (rv_vdev t) (zset (vd_vrings (rv_vdev t)) i (set_vring vi vq ring))).

Lemma vring_at_run w i vi :
  zget (vd_vrings (rv_vdev (w_tr w))) i = Some vi -> vring_at w i = Ok vi.
Proof. apply rget_Some. Qed.

Lemma vring_put_run w i vi vq ring :
  zget (vd_vrings (rv_vdev (w_tr w))) i = Some vi ->
  vring_put w i vq ring = Ok (set_tr w (put_vring (w_tr w) i vi vq ring)).
Proof.
  intros H. unfold vring_put. run (by apply vring_at_run).
  run (apply rset_ok; exact (zget_Some_lt _ _ _ H)). done.
Qed.

Lemma put_vring_get t i vi vq ring :
  zget (vd_vrings (rv_vdev t)) i = Some vi ->
  zget (vd_vrings (rv_vdev (put_vring t i vi vq ring))) i = Some (set_vring vi vq ring).
Proof. intros H. apply zget_zset_eq. exact (zget_Some_lt _ _ _ H). Qed.

Lemma tx_env_fixed t t' : tx_fixed t' = tx_fixed t -> tx_env t -> tx_env t'.
Proof.
  intros E [H1 H2 H3 H4 H5 H6]. injection E as E1 E2 E3 E4 E5 E6 E7 E8 E9.
  split; unfold tx_size in *; rewrite ?E1, ?E2, ?E3, ?E7, ?E8; done.
Qed.

Lemma tx_mem_fixed m t t' nodes : tx_fixed t' = tx_fixed t -> tx_mem m t nodes -> tx_mem m t' nodes.
Proof.
  intros E [H1 H2 H3 H4]. injection E as E1 E2 E3 E4 E5 E6 E7 E8 E9.
  split; rewrite ?E2, ?E3; done.
Qed.

Lemma tx_chain_fixed t t' c : tx_fixed t' = tx_fixed t -> tx_chain t c -> tx_chain t' c.
Proof.
  intros E (a & H1 & H2). injection E as E1 E2 E3 E4 E5 E6 E7 E8 E9. exists a.
  unfold tx_size in *. rewrite E1, E2. done.
Qed.

(** The memory steps that leave the invariant's memory part alone. *)
Lemma tx_mem_step rs m m' t nodes :
  memstep rs m m' ->
  (forall x a s, x ∈ rv_reclaimer t :: nodes -> (a, s) ∈ rs -> x + 16 <= a \/ a + s <= x) ->
  tx_mem m t nodes -> tx_mem m' t nodes.
Proof.
  intros Hs Hd [H1 H2 H3 H4]. split.
  - by apply (ms_u8 _ _ _ Hs).
  - by eapply memstep_mapped.
  - by eapply memstep_mapped.
  - by eapply rlist_step.
Qed.

Lemma put_vring_id t i vi :
  zget (vd_vrings (rv_vdev t)) i = Some vi -> put_vring t i vi (vi_vq vi) (vi_ring vi) = t.
Proof.
  intros H. unfold put_vring. replace (set_vring vi (vi_vq vi) (vi_ring vi)) with vi by (by destruct vi).
  rewrite zset_id by done. by destruct t as [? [] ? ? ? ? ? ? ? ?].
Qed.

(** ** Taking a transmit buffer *)

(** The buffer the next request gets: the oldest reclaimed one, else the oldest
    the device returned, else a new one while a descriptor is free. *)
Definition tx_take t (q : queue) (nodes : list Z) (pool : rpmsg_virtio_shm_pool)
  : option (Z * queue * list Z * rpmsg_virtio_shm_pool) :=
  match nodes with
  | x :: rest => Some (x, q, rest, pool)
  | [] =>
      match q_reclaim q with
      | Some (c, _, q') => Some (c_cookie c, q', [], pool)
      | None =>
          if (zlen (q_free q) =? 0) || (sp_avail pool <? tx_size t) then None
          else
            Some (pool_next pool, q, [],
                  mk_pool (sp_base pool) (sp_avail pool - tx_size t) (sp_size pool))
      end
  end.

Lemma tx_owns_move t q q' held held' nodes nodes' pool :
  tx_owns t q held nodes pool -> tx_bufs q' held' nodes' ≡ₚ tx_bufs q held nodes ->
  zlen held' + zlen nodes' <= zlen (q_free q') -> tx_owns t q' held' nodes' pool.
Proof. intros [H1 H2 H3 H4 H5 H6] Hp Hc. split; try done; by rewrite Hp. Qed.

Lemma tx_owns_fixed t t' q held nodes pool :
  tx_fixed t' = tx_fixed t -> rv_pools t' = rv_pools t ->
  tx_owns t q held nodes pool -> tx_owns t' q held nodes pool.
Proof.
  intros E Ep [H1 H2 H3 H4 H5 H6]. injection E as E1 E2 E3 E4 E5 E6 E7 E8 E9.
  split; unfold tx_size in *; rewrite ?E1, ?E2, ?E6, ?Ep; done.
Qed.

Lemma tx_queue_fixed t t' vi q devq :
  tx_fixed t' = tx_fixed t -> vd_vrings (rv_vdev t') = vd_vrings (rv_vdev t) ->
  tx_queue t vi q devq -> tx_queue t' vi q devq.
Proof.
  intros E Ev [H1 H2 H3 H4 H5 H6]. pose proof E as E'. injection E' as E1 E2 E3 E4 E5 E6 E7 E8 E9.
  split; unfold tx_size in *; rewrite ?E1, ?E2, ?E4, ?E5, ?Ev; try done.
  apply (list.Forall_impl _ _ _ H4). intros c. by apply tx_chain_fixed.
Qed.

(** A buffer of the transmit side: where it is. *)
Lemma tx_buf_in t q held nodes pool b :
  tx_owns t q held nodes pool -> b ∈ tx_bufs q held nodes -> inside (rv_shbuf_io t) b (tx_size t).
Proof. intros H Hb. exact (proj1 (proj1 (list.Forall_forall _ _) (to_in _ _ _ _ _ H) b Hb)). Qed.

Lemma inside_pos t a s :
  tx_env t -> inside (rv_shbuf_io t) a s -> 0 <= s -> 0 < a < 18446744073709551616.
Proof.
  intros He [H1 H2] Hs. destruct (te_io _ He) as [pm Hw]. pose proof (wf_virt _ _ Hw) as [H3 H4].
  unfold METAL_BAD_VA in H4. lia.
Qed.

Lemma get_tx_reclaimed w q devq held x rest :
  tx_inv (w_mem w) (w_tr w) q devq held (x :: rest) ->
  exists m' idx,
    rpmsg_virtio_get_tx_buffer bld w = Ok (set_mem w m', x, tx_size (w_tr w), idx) /\
    is_u16 idx /\ memstep (nodes_of (rv_reclaimer (w_tr w) :: x :: rest)) (w_mem w) m' /\
    tx_inv m' (w_tr w) q devq (x :: held) rest.
Proof.
  intros [He [M1 M2 M3 M4] Hq [pool Ho]].
  destruct (rlist_del _ _ _ _ M4) as (m' & Hdel & Hl & Hs).
  assert (Hx : x ∈ tx_bufs q held (x :: rest)) by (unfold tx_bufs; set_solver).
  pose proof (tx_buf_in _ _ _ _ _ _ Ho Hx) as Hin. pose proof (te_size _ He) as Hsz.
  pose proof (ms_u8 _ _ _ Hs M1) as M1'.
  destruct (mapped_word 2 m' (x + RECLAIMER_IDX)) as (v & Hv & Hvb); [done| |].
  { eapply memstep_mapped; [exact Hs|]. eapply mapped_sub; [exact M2|..];
      unfold inside, RECLAIMER_IDX in *; lia. }
  exists m', v. split; [|split; [|split]].
  - unfold rpmsg_virtio_get_tx_buffer. run (apply (rlist_first _ _ _ M4)). cbn [hd].
    rewrite (proj2 (Z.eqb_neq _ _)) by (pose proof (inside_pos _ _ _ He Hin); lia). cbn [negb].
    run (exact Hdel). run (by apply ld_word). unfold is_driver, is_device, dev_of, tr.
    cbn [set_mem w_tr]. rewrite (te_drv _ He), (te_dev _ He). done.
  - exact Hvb.
  - exact Hs.
  - split; [done| |done|].
    + split; [done| | |done]; by eapply memstep_mapped.
    + exists pool. eapply tx_owns_move; [exact Ho| |].
      * unfold tx_bufs. cbn [app]. by rewrite <- Permutation_middle.
      * pose proof (to_count _ _ _ _ _ Ho) as Hc. rewrite !zlen_cons in *. lia.
Qed.

(** One descriptor per message in flight. *)
Lemma tx_chain_idxs t vi q devq c :
  tx_queue t vi q devq -> c ∈ q_live q -> zlen (c_idxs c) = 1.
Proof.
  intros [_ [Hr _ _] _ Hc _ _] Hin. pose proof (chain_path_length _ _ _ (rel_path Hr c Hin)) as E.
  destruct (proj1 (list.Forall_forall _ _) Hc c Hin) as (a & Eb & _). rewrite Eb in E.
  unfold zlen. by rewrite E.
Qed.

Lemma tx_queue_reclaim t vi q devq c len rest drv' ring' :
  tx_queue t vi q devq -> q_used q = (c, len) :: rest ->
  vq_rel n (q_rest q rest c) drv' devq ring' -> vq_conf drv' = vq_conf (vi_vq vi) ->
  tx_queue (put_vring t (rv_svq t) vi drv' ring') (set_vring vi drv' ring') (q_rest q rest c) devq.
Proof.
  intros [H1 H2 H3 H4 H5 H6] E Hr Hcf. injection Hcf as _ _ _ Hio.
  split; cbn [set_vring vi_vq vi_ring]; try done.
  - by apply put_vring_get.
  - by rewrite Hio.
  - rewrite (q_live_reclaim _ _ _ _ E) in H4. by apply Forall_cons_1 in H4 as [_ H4].
  - rewrite E in H5. by apply Forall_cons_1 in H5 as [_ H5].
  - unfold put_vring. cbn. by rewrite zlen_zset.
Qed.

Lemma get_tx_used w q devq held c len rest :
  tx_inv (w_mem w) (w_tr w) q devq held [] -> q_used q = (c, len) :: rest ->
  exists t' idx,
    rpmsg_virtio_get_tx_buffer bld w = Ok (set_tr w t', c_cookie c, tx_size (w_tr w), idx) /\
    is_u16 idx /\ tx_fixed t' = tx_fixed (w_tr w) /\
    tx_inv (w_mem w) t' (q_rest q rest c) devq (c_cookie c :: held) [].
Proof.
  intros [He Hm [vi Hq] [pool Ho]] E. pose proof Hq as [Q1 Q2 Q3 Q4 Q5 Q6].
  pose proof (q_live_reclaim _ _ _ _ E) as Hp.
  pose proof (get_buffer_refines bld n q (vi_vq vi) devq (vi_ring vi) Q2) as Hg.
  unfold q_reclaim in Hg. rewrite E in Hg. destruct Hg as (drv' & ring' & Hrun & Hrel & Hcf).
  assert (len = tx_size (w_tr w)) as ->.
  { rewrite E in Q5. by apply Forall_cons_1 in Q5 as [Q5 _]. }
  assert (Hc : c ∈ q_live q) by (rewrite Hp; left).
  assert (Hb : c_cookie c ∈ tx_bufs q held [])
    by (unfold tx_bufs; apply elem_of_app; right; by apply list_elem_of_fmap_2).
  pose proof (tx_buf_in _ _ _ _ _ _ Ho Hb) as Hin. pose proof (te_size _ He) as Hsz.
  eexists _, (q_recl q mod n). split; [|split; [|split]].
  - unfold rpmsg_virtio_get_tx_buffer. run (apply (rlist_first _ _ _ (tm_list _ _ _ Hm))). cbn [hd].
    change (negb (0 =? 0)) with false. cbn iota. unfold is_driver, dev_of, tr. rewrite (te_drv _ He).
    run (unfold vq_get_buffer; run (by apply vring_at_run); run (exact Hrun);
         run (by apply vring_put_run); reflexivity).
    run (apply vring_at_run; by apply put_vring_get).
    rewrite (proj2 (Z.eqb_neq _ _)) by (pose proof (inside_pos _ _ _ He Hin); lia). reflexivity.
  - pose proof (rel_slot_bound (vr_ring _ _ _ _ _ Q2) (q_recl q)).
    pose proof (rel_bounds (vr_ring _ _ _ _ _ Q2)). unfold is_u16. lia.
  - done.
  - split.
    + by apply (tx_env_fixed (w_tr w)).
    + by apply (tx_mem_fixed _ (w_tr w)).
    + eexists. by eapply tx_queue_reclaim.
    + exists pool. apply (tx_owns_fixed (w_tr w)); [done..|]. eapply tx_owns_move; [exact Ho| |].
      * unfold tx_bufs. cbn [app]. rewrite Hp. cbn [fmap list_fmap]. by rewrite Permutation_middle.
      * pose proof (to_count _ _ _ _ _ Ho) as Hn. unfold q_rest. cbn [q_free].
        rewrite zlen_app, zlen_cons. rewrite (tx_chain_idxs _ _ _ _ _ Hq Hc). lia.
Qed.


(** With nothing to reuse, up to the request to the pool. *)
Lemma get_tx_empty w q devq held vi pool :
  tx_inv (w_mem w) (w_tr w) q devq held [] -> q_used q = [] ->
  tx_queue (w_tr w) vi q devq -> zget (rv_pools (w_tr w)) (rv_shpool (w_tr w)) = Some pool ->
  rpmsg_virtio_get_tx_buffer bld w =
    if zlen (q_free q) =? 0 then Ok (w, 0, 0, 0)
    else
      let '(pool', b) := rpmsg_virtio_shm_pool_get_buffer pool (tx_size (w_tr w)) in
      Ok (set_tr w (rv_set_pools (w_tr w) (zset (rv_pools (w_tr w)) (rv_shpool (w_tr w)) pool')),
          b, tx_size (w_tr w), 0).
Proof.
  intros [He Hm _ _] E [Q1 Q2 Q3 Q4 Q5 Q6] Hpool.
  pose proof (get_buffer_refines bld n q (vi_vq vi) devq (vi_ring vi) Q2) as Hrun.
  unfold q_reclaim in Hrun. rewrite E in Hrun.
  assert (Hw : set_tr w (w_tr w) = w) by (by destruct w).
  unfold rpmsg_virtio_get_tx_buffer. run (apply (rlist_first _ _ _ (tm_list _ _ _ Hm))). cbn [hd].
  change (negb (0 =? 0)) with false. cbn iota. unfold is_driver, dev_of, tr. rewrite (te_drv _ He).
  run (unfold vq_get_buffer; run (by apply vring_at_run); run (exact Hrun);
       run (by apply vring_put_run); rewrite put_vring_id, Hw by done; reflexivity).
  run (by apply vring_at_run). rewrite (dr_free _ _ _ (vr_drv _ _ _ _ _ Q2)).
  change (0 =? 0) with true. cbn [andb]. destruct (zlen (q_free q) =? 0); [done|]. cbn [negb].
  run (by apply rget_Some).
  change (h2r_buf_size (rv_config (w_tr w))) with (tx_size (w_tr w)).
  destruct (rpmsg_virtio_shm_pool_get_buffer pool (tx_size (w_tr w))) as [pool' b].
  run (apply rset_ok; exact (zget_Some_lt _ _ _ Hpool)). reflexivity.
Qed.

Lemma rv_set_pools_id t : rv_set_pools t (rv_pools t) = t.
Proof. by destruct t. Qed.

Lemma get_tx_none w q devq held pool :
  tx_inv (w_mem w) (w_tr w) q devq held [] -> q_used q = [] ->
  tx_owns (w_tr w) q held [] pool ->
  (zlen (q_free q) =? 0) || (sp_avail pool <? tx_size (w_tr w)) = true ->
  exists len, rpmsg_virtio_get_tx_buffer bld w = Ok (w, 0, len, 0).
Proof.
  intros H E Ho Hz. destruct (ti_queue _ _ _ _ _ _ H) as [vi Hq].
  rewrite (get_tx_empty _ _ _ _ _ _ H E Hq (to_pool _ _ _ _ _ Ho)).
  destruct (zlen (q_free q) =? 0); [eauto|]. cbn [orb] in Hz. zbool.
  rewrite pool_get_none by done. rewrite zset_id by apply (to_pool _ _ _ _ _ Ho).
  rewrite rv_set_pools_id. exists (tx_size (w_tr w)). by destruct w.
Qed.

Lemma tx_owns_fresh t q held pool :
  let pool' := mk_pool (sp_base pool) (sp_avail pool - tx_size t) (sp_size pool) in
  tx_owns t q held [] pool -> 0 < tx_size t <= sp_avail pool -> zlen held < zlen (q_free q) ->
  tx_owns (rv_set_pools t (zset (rv_pools t) (rv_shpool t) pool')) q (pool_next pool :: held) [] pool'.
Proof.
  intros pool' [H1 H2 H3 [P1 P2 P3] H5 H6] Hs Hc. unfold inside in H5.
  assert (Hn : pool_next pool' = pool_next pool + tx_size t) by (unfold pool_next; cbn; lia).
  assert (Hlow : forall b, b ∈ tx_bufs q held [] -> b + tx_size t <= pool_next pool).
  { intros b Hb. exact (proj2 (proj1 (list.Forall_forall _ _) H2 b Hb)). }
  split.
  - apply apart_cons. split_and!; [|by intros a Ha; left; apply Hlow|done].
    intros Hin. specialize (Hlow _ Hin). change (tx_size (rv_set_pools t _)) with (tx_size t) in *. lia.
  - constructor.
    + rewrite Hn. change (tx_size (rv_set_pools t _)) with (tx_size t). unfold inside. cbn. lia.
    + apply (list.Forall_impl _ _ _ H2). intros b [Hb1 Hb2]. split; [done|]. rewrite Hn.
      change (tx_size (rv_set_pools t _)) with (tx_size t). lia.
  - apply zget_zset_eq. exact (zget_Some_lt _ _ _ H3).
  - split; cbn; lia.
  - rewrite Hn. unfold inside. cbn. lia.
  - rewrite zlen_cons. change (zlen (@nil Z)) with 0. lia.
Qed.

Lemma get_tx_fresh w q devq held pool :
  let pool' := mk_pool (sp_base pool) (sp_avail pool - tx_size (w_tr w)) (sp_size pool) in
  tx_inv (w_mem w) (w_tr w) q devq held [] -> q_used q = [] -> tx_owns (w_tr w) q held [] pool ->
  zlen held < zlen (q_free q) -> tx_size (w_tr w) <= sp_avail pool ->
  exists t',
    rpmsg_virtio_get_tx_buffer bld w = Ok (set_tr w t', pool_next pool, tx_size (w_tr w), 0) /\
    tx_fixed t' = tx_fixed (w_tr w) /\ tx_inv (w_mem w) t' q devq (pool_next pool :: held) [].
Proof.
  intros pool' H E Ho Hc Hs. pose proof H as [He Hm [vi Hq] _]. pose proof (te_size _ He) as Hsz.
  eexists. split; [|split].
  - rewrite (get_tx_empty _ _ _ _ _ _ H E Hq (to_pool _ _ _ _ _ Ho)).
    rewrite (proj2 (Z.eqb_neq _ _)) by (pose proof (zlen_nonneg held); lia).
    rewrite pool_get_run by (apply (to_ok _ _ _ _ _ Ho) || lia). reflexivity.
  - done.
  - split.
    + by apply (tx_env_fixed (w_tr w)).
    + by apply (tx_mem_fixed _ (w_tr w)).
    + exists vi. by apply (tx_queue_fixed (w_tr w)).
    + exists pool'. apply tx_owns_fresh; done || lia.
Qed.

(** The request, whatever the state. *)
Lemma get_tx_run w q devq held nodes pool :
  tx_inv (w_mem w) (w_tr w) q devq held nodes -> tx_owns (w_tr w) q held nodes pool ->
  (q_free q <> [] -> zlen held < zlen (q_free q)) ->
  match tx_take (w_tr w) q nodes pool with
  | None => exists len, rpmsg_virtio_get_tx_buffer bld w = Ok (w, 0, len, 0)
  | Some (b, q', nodes', _) =>
      exists m' t' idx,
        rpmsg_virtio_get_tx_buffer bld w = Ok (set_tr (set_mem w m') t', b, tx_size (w_tr w), idx) /\
        is_u16 idx /\ tx_fixed t' = tx_fixed (w_tr w) /\
        memstep (nodes_of (rv_reclaimer (w_tr w) :: nodes)) (w_mem w) m' /\
        tx_inv m' t' q' devq (b :: held) nodes'
  end.
Proof.
  intros H Ho Hroom. unfold tx_take. destruct nodes as [|x rest].
  - unfold q_reclaim. destruct (q_used q) as [|[c len] rest] eqn:E.
    + destruct (_ || _) eqn:Ez; [by eapply get_tx_none|].
      apply orb_false_iff in Ez as [E1 E2]. zbool.
      assert (Hf : q_free q <> []) by (intros Hf; by rewrite Hf in E1).
      destruct (get_tx_fresh w q devq held pool H E Ho (Hroom Hf)) as (t' & R1 & R2 & R3); [lia|].
      exists (w_mem w), t', 0. by split_and!.
    + destruct (get_tx_used w q devq held c len rest H E) as (t' & idx & R1 & R2 & R3 & R4).
      exists (w_mem w), t', idx. by split_and!.
  - destruct (get_tx_reclaimed w q devq held x rest H) as (m' & idx & R1 & R2 & R3 & R4).
    exists m', (w_tr w), idx. by split_and!.
Qed.


(** ** Waiting for a buffer *)

(** What an operation of the transmit side leaves alone in the world: everything
    but the transport, the shared region and the reclaimer's head. *)
Record keeps w w' : Prop := {
  k_rdev : w_rdev w' = w_rdev w;
  k_epts : w_epts w' = w_epts w;
  k_fixed : tx_fixed (w_tr w') = tx_fixed (w_tr w);
  k_bytes : forall a bs, out_of (rv_shbuf_io (w_tr w)) a (zlen bs) ->
    a + zlen bs <= rv_reclaimer (w_tr w) \/ rv_reclaimer (w_tr w) + 16 <= a ->
    has_bytes (w_mem w) a bs -> has_bytes (w_mem w') a bs
}.

Lemma keeps_refl w : keeps w w.
Proof. by split. Qed.

Lemma keeps_trans w1 w2 w3 : keeps w1 w2 -> keeps w2 w3 -> keeps w1 w3.
Proof.
  intros [A1 A2 A3 A4] [B1 B2 B3 B4]. split; try congruence.
  intros a bs H1 H2 H3. pose proof A3 as E. injection E as _ E2 E3 _ _ _ _ _ _.
  apply B4; rewrite ?E2, ?E3; auto.
Qed.

#[local] Instance keeps_preorder : PreOrder keeps.
Proof. split; [intros w; apply keeps_refl|intros a b c; apply keeps_trans]. Qed.

(** The other side's progress while this one sleeps: it takes and returns
    messages and touches neither the descriptors this side owns nor its memory. *)
Definition quiet (sleep : world (rpmsg_virtio B) -> world (rpmsg_virtio B)) : Prop :=
  forall w q devq held nodes, tx_inv (w_mem w) (w_tr w) q devq held nodes ->
    exists q' devq', tx_inv (w_mem (sleep w)) (w_tr (sleep w)) q' devq' held nodes /\
      q_free q' = q_free q /\ keeps w (sleep w).

Lemma unlock_relock (d : rpmsg_device) :
  rd_lock d = false -> rd_set_lock (rd_set_lock d true) false = d.
Proof. destruct d. cbn. by intros ->. Qed.

(** A request under the lock. *)
Lemma locked_get_run w q devq held nodes pool :
  tx_inv (w_mem w) (w_tr w) q devq held nodes -> tx_owns (w_tr w) q held nodes pool ->
  rd_lock (w_rdev w) = false -> (q_free q <> [] -> zlen held < zlen (q_free q)) ->
  exists w' b len idx,
    ('(w, b, len, idx) ← rpmsg_virtio_get_tx_buffer bld (set_rdev w (rd_set_lock (w_rdev w) true));
     Ok (metal_mutex_release w, b, len, idx)) = Ok (w', b, len, idx) /\ keeps w w' /\
    match tx_take (w_tr w) q nodes pool with
    | None => w' = w /\ b = 0
    | Some (b', q', nodes', _) =>
        b = b' /\ len = tx_size (w_tr w) /\ is_u16 idx /\
        memstep (nodes_of (rv_reclaimer (w_tr w) :: nodes)) (w_mem w) (w_mem w') /\
        tx_inv (w_mem w') (w_tr w') q' devq (b :: held) nodes'
    end.
Proof.
  intros H Ho Hl Hroom. pose proof (get_tx_run (set_rdev w (rd_set_lock (w_rdev w) true)) q devq held
    nodes pool H Ho Hroom) as Hg. cbn [set_rdev w_tr] in Hg.
  destruct (tx_take (w_tr w) q nodes pool) as [[[[b q'] nodes'] pool']|].
  - destruct Hg as (m' & t' & idx & R1 & R2 & R3 & R4 & R5).
    exists (mk_world m' (w_epts w) (w_rdev w) t'), b, (tx_size (w_tr w)), idx. split; [|split].
    + run (exact R1). unfold metal_mutex_release, set_tr, set_mem, set_rdev. cbn.
      by rewrite unlock_relock.
    + split; try done. intros a bs Ho1 Ho2 Hb. eapply memstep_bytes; [exact R4| |done].
      intros k s (x & [= -> ->] & Hx)%list_elem_of_fmap. apply elem_of_cons in Hx as [->|Hx]; [done|].
      assert (Hxb : x ∈ tx_bufs q held nodes) by (unfold tx_bufs; set_solver).
      pose proof (tx_buf_in _ _ _ _ _ _ Ho Hxb) as Hi. pose proof (te_size _ (ti_env _ _ _ _ _ _ H)).
      unfold inside, out_of in *. lia.
    + by split_and!.
  - destruct Hg as (len & R). exists w, 0, len, 0. split; [|split; [apply keeps_refl|done]].
    run (exact R). unfold metal_mutex_release, set_rdev. cbn. rewrite unlock_relock by done. by destruct w.
Qed.

(** The result of asking for a buffer, waiting or not. *)
Definition tx_result w w' (b len idx : Z) (held nodes : list Z) : Prop :=
  keeps w w' /\
  ((b = 0 /\ exists q devq, tx_inv (w_mem w') (w_tr w') q devq held nodes) \/
   (b <> 0 /\ len = tx_size (w_tr w) /\ is_u16 idx /\
    exists q devq nodes', tx_inv (w_mem w') (w_tr w') q devq (b :: held) nodes')).

Lemma tx_inv_nonzero m t q devq b held nodes : tx_inv m t q devq (b :: held) nodes -> b <> 0.
Proof.
  intros [He _ _ [pool Ho]] ->. assert (Hb : 0 ∈ tx_bufs q (0 :: held) nodes) by (unfold tx_bufs; set_solver).
  pose proof (tx_buf_in _ _ _ _ _ _ Ho Hb) as Hi. pose proof (te_size _ He).
  pose proof (inside_pos _ _ _ He Hi). lia.
Qed.

(** One round of the wait. *)
Lemma wait_step sleep wait_cb fuel w tick w1 b len idx :
  rd_lock (w_rdev w) = false ->
  ('(w, b, len, idx) ← rpmsg_virtio_get_tx_buffer bld (set_rdev w (rd_set_lock (w_rdev w) true));
   Ok (metal_mutex_release w, b, len, idx)) = Ok (w1, b, len, idx) ->
  tx_wait_loop bld sleep wait_cb (S fuel) w tick =
    if negb (b =? 0) || (tick =? 0) then Ok (w1, b, len, idx)
    else
      '(w, status) ← rpmsg_virtio_notify_wait wait_cb w1 (rv_rvq (tr w1));
      if status =? RPMSG_EOPNOTSUPP then tx_wait_loop bld sleep wait_cb fuel (sleep w) (tick - 1)
      else if negb (status =? RPMSG_SUCCESS) then Ok (w, b, len, idx)
      else tx_wait_loop bld sleep wait_cb fuel w tick.
Proof.
  intros Hl R. cbn [tx_wait_loop]. rewrite acquire_run by done. cbn [mbind res_bind] in R |- *.
  destruct (rpmsg_virtio_get_tx_buffer bld _) as [[[[w2 b2] len2] idx2]|f]; [|discriminate R].
  cbn [mbind res_bind] in R |- *. injection R as -> -> -> ->. reflexivity.
Qed.

Lemma tx_wait_run sleep wait_cb fuel w tick q devq held nodes :
  quiet sleep -> tx_inv (w_mem w) (w_tr w) q devq held nodes -> rd_lock (w_rdev w) = false ->
  (q_free q <> [] -> zlen held < zlen (q_free q)) -> 0 <= tick -> (Z.to_nat tick < fuel)%nat ->
  exists w' b len idx, tx_wait_loop bld sleep wait_cb fuel w tick = Ok (w', b, len, idx) /\
    tx_result w w' b len idx held nodes.
Proof.
  intros Hq. revert w tick q devq. induction fuel as [|fuel IH]; intros w tick q devq H Hl Hroom Ht Hf; [lia|].
  destruct (ti_owns _ _ _ _ _ _ H) as [pool Ho].
  destruct (locked_get_run w q devq held nodes pool H Ho Hl Hroom) as (w1 & b & len & idx & R & K & D).
  pose proof (wait_step sleep wait_cb fuel w tick _ _ _ _ Hl R) as Hrun.
  destruct (tx_take (w_tr w) q nodes pool) as [[[[b' q'] nodes'] pool']|].
  - destruct D as (<- & -> & Hi & Hs & Hinv). exists w1, b, (tx_size (w_tr w)), idx.
    pose proof (tx_inv_nonzero _ _ _ _ _ _ _ Hinv) as Hb.
    rewrite Hrun, (proj2 (Z.eqb_neq _ _)) by done. split; [done|]. split; [done|]. right. eauto 10.
  - destruct D as [-> ->]. change (negb (0 =? 0)) with false in Hrun. cbn [orb] in Hrun.
    destruct (tick =? 0) eqn:Et; zbool.
    { exists w, 0, len, idx. split; [done|]. split; [apply keeps_refl|]. left. eauto. }
    destruct (ti_queue _ _ _ _ _ _ H) as [vi Hqu].
    destruct (zget_is_Some _ _ (tq_rvq _ _ _ _ Hqu)) as [vr Hvr].
    destruct (Hq w q devq held nodes H) as (q2 & devq2 & H2 & Hfree & K2).
    destruct (IH (sleep w) (tick - 1) q2 devq2 H2) as (w3 & b & len3 & idx3 & R3 & K3 & D3);
      [by rewrite (k_rdev _ _ K2)|by rewrite Hfree|lia|lia|].
    exists w3, b, len3, idx3. split.
    + rewrite Hrun. run (unfold rpmsg_virtio_notify_wait; run (by apply vring_at_run); unfold tr;
        rewrite (te_wait _ (ti_env _ _ _ _ _ _ H)); reflexivity). exact R3.
    + split; [by etransitivity|]. pose proof (k_fixed _ _ K2) as Ef. injection Ef as Ef _ _ _ _ _ _ _ _.
      unfold tx_size in D3 |- *. rewrite Ef in D3. exact D3.
Qed.


(** ** Writing into a held buffer *)

(** The ranges a holder of [b] writes. *)
Definition own_ranges t (b : Z) (rs : list (Z * Z)) : Prop :=
  forall a s, (a, s) ∈ rs -> (b <= a /\ a + s <= b + tx_size t) \/ (hdr_slot <= a /\ a + s <= hdr_slot + 16).

Lemma tx_inv_write rs m m' t q devq b held nodes :
  tx_inv m t q devq (b :: held) nodes -> memstep rs m m' -> own_ranges t b rs ->
  tx_inv m' t q devq (b :: held) nodes.
Proof.
  intros [He Hm Hq [pool Ho]] Hs Hr. split; [done| |done|by exists pool].
  apply (tx_mem_step rs m); [done| |done]. intros x a s Hx Has. specialize (Hr a s Has).
  pose proof (te_out _ He) as (O1 & O2 & O3). pose proof (te_size _ He).
  assert (Hb : inside (rv_shbuf_io t) b (tx_size t)).
  { apply (tx_buf_in _ _ _ _ _ _ Ho). unfold tx_bufs. set_solver. }
  apply elem_of_cons in Hx as [->|Hx]; [unfold inside, out_of in *; lia|].
  assert (Hxin : inside (rv_shbuf_io t) x (tx_size t)).
  { apply (tx_buf_in _ _ _ _ _ _ Ho). unfold tx_bufs. set_solver. }
  pose proof (to_apart _ _ _ _ _ Ho) as Hap. unfold tx_bufs in Hap. cbn [app] in Hap.
  apply apart_cons in Hap as (_ & Hd & _). specialize (Hd x ltac:(set_solver)).
  unfold inside, out_of in *. lia.
Qed.

Lemma keeps_mem rs w m' :
  memstep rs (w_mem w) m' ->
  (forall a s, (a, s) ∈ rs -> inside (rv_shbuf_io (w_tr w)) a s) -> keeps w (set_mem w m').
Proof.
  intros Hs Hr. split; try done. intros a bs H1 H2 Hb. eapply memstep_bytes; [exact Hs| |done].
  intros k s Hin. specialize (Hr k s Hin). unfold out_of, inside in *. lia.
Qed.

Lemma held_inside t q devq m b held nodes :
  tx_inv m t q devq (b :: held) nodes -> inside (rv_shbuf_io t) b (tx_size t).
Proof.
  intros [_ _ _ [pool Ho]]. apply (tx_buf_in _ _ _ _ _ _ Ho). unfold tx_bufs. set_solver.
Qed.

Lemma mapped_in m t q devq b held nodes a s :
  tx_inv m t q devq (b :: held) nodes -> b <= a -> a + s <= b + tx_size t -> mapped m a s.
Proof.
  intros H H1 H2. pose proof (held_inside _ _ _ _ _ _ _ H) as [I1 I2].
  eapply mapped_sub; [exact (tm_map _ _ _ (ti_mem _ _ _ _ _ _ H))|lia..].
Qed.

(** The header of a buffer just taken. *)
Lemma mark_held w q devq b held nodes idx :
  tx_inv (w_mem w) (w_tr w) q devq (b :: held) nodes -> is_u16 idx ->
  exists m', (m ← st 4 (w_mem w) (b + HDR_RESERVED) idx; held_inc m b) = Ok m' /\
    held_at b idx m' 1 /\ memstep [(b + HDR_RESERVED, 4)] (w_mem w) m'.
Proof.
  intros H Hi. pose proof (te_size _ (ti_env _ _ _ _ _ _ H)). unfold HDR_RESERVED in *.
  set (m1 := put_bytes (w_mem w) (b + 8) (le_bytes 4 idx)).
  destruct (held_inc_run b idx Hi m1 0) as (m2 & R & Hh & Hs); [|lia|].
  { unfold held_at. rewrite Z.mul_0_r, Z.add_0_r. apply word_put. }
  exists m2. split; [|split; [done|]].
  - run (apply st_word; eapply mapped_in; [exact H|lia..]). exact R.
  - etransitivity; [|exact Hs]. apply (memstep_put _ _ (le_bytes 4 idx)), le_bytes_u8.
Qed.

(** ** The payload buffer *)

Definition payload_result w w' (p len : Z) (held nodes : list Z) : Prop :=
  keeps w w' /\
  ((p = 0 /\ len = 0 /\ exists q devq, tx_inv (w_mem w') (w_tr w') q devq held nodes) \/
   (exists b idx q devq nodes', p = b + SIZEOF_HDR /\ len = tx_size (w_tr w) - SIZEOF_HDR /\
      is_u16 idx /\ held_at b idx (w_mem w') 1 /\
      tx_inv (w_mem w') (w_tr w') q devq (b :: held) nodes')).

Lemma mark_run w q devq b held nodes idx :
  tx_inv (w_mem w) (w_tr w) q devq (b :: held) nodes -> is_u16 idx ->
  exists m',
    (m ← st 4 (w_mem w) (b + HDR_RESERVED) idx;
     m ← held_inc m b;
     Ok (set_mem w m, RPMSG_LOCATE_DATA b, u32 (tx_size (w_tr w) - SIZEOF_HDR)))
      = Ok (set_mem w m', b + SIZEOF_HDR, tx_size (w_tr w) - SIZEOF_HDR) /\
    held_at b idx m' 1 /\ memstep [(b + HDR_RESERVED, 4)] (w_mem w) m' /\
    keeps w (set_mem w m') /\ tx_inv m' (w_tr w) q devq (b :: held) nodes.
Proof.
  intros H Hi. destruct (mark_held w q devq b held nodes idx H Hi) as (m' & R & Hh & Hs).
  pose proof (te_size _ (ti_env _ _ _ _ _ _ H)) as Hsz. exists m'. split; [|split_and!; try done].
  - destruct (st 4 (w_mem w) _ idx) as [m1|]; [|discriminate R]. cbn [mbind res_bind] in R |- *.
    rewrite R. cbn [mbind res_bind]. unfold SIZEOF_HDR. by rewrite u32_id by (unfold is_u32; lia).
  - apply (keeps_mem [(b + HDR_RESERVED, 4)]); [done|].
    intros a s [= -> ->]%list_elem_of_singleton. pose proof (held_inside _ _ _ _ _ _ _ H).
    unfold inside, HDR_RESERVED in *. lia.
  - eapply tx_inv_write; [exact H|exact Hs|]. intros a s [= -> ->]%list_elem_of_singleton. left.
    unfold HDR_RESERVED. lia.
Qed.

Lemma payload_finish w w1 b len idx held nodes :
  tx_result w w1 b len idx held nodes ->
  exists w' p len',
    (if b =? 0 then Ok (w1, 0, 0)
     else
       m ← st 4 (w_mem w1) (b + HDR_RESERVED) idx;
       m ← held_inc m b;
       Ok (set_mem w1 m, RPMSG_LOCATE_DATA b, u32 (len - SIZEOF_HDR))) = Ok (w', p, len') /\
    payload_result w w' p len' held nodes.
Proof.
  intros [K [[-> Hi]|(Hb & -> & Hi & q & devq & nodes' & H)]].
  { exists w1, 0, 0. split; [done|]. split; [done|]. by left. }
  rewrite (proj2 (Z.eqb_neq _ _)) by done.
  destruct (mark_run w1 q devq b held nodes' idx H Hi) as (m' & R & Hh & Hs & K' & H').
  assert (Ef : tx_size (w_tr w1) = tx_size (w_tr w)).
  { pose proof (k_fixed _ _ K) as Ef. injection Ef as Ef _ _ _ _ _ _ _ _. unfold tx_size. by rewrite Ef. }
  rewrite <- Ef. eexists _, _, _. split; [exact R|]. split; [by etransitivity|]. right.
  exists b, idx, q, devq, nodes'. rewrite Ef. by split_and!.
Qed.

(** Without waiting. *)
Lemma get_payload_now func sleep wait_cb w st q devq held nodes pool :
  tx_inv (w_mem w) (w_tr w) q devq held nodes -> tx_owns (w_tr w) q held nodes pool ->
  rd_lock (w_rdev w) = false -> (q_free q <> [] -> zlen held < zlen (q_free q)) ->
  virtio_get_status func (rv_vdev (w_tr w)) = Ok (0, st) ->
  Z.land st VIRTIO_CONFIG_STATUS_DRIVER_OK <> 0 ->
  match tx_take (w_tr w) q nodes pool with
  | None => rpmsg_virtio_get_tx_payload_buffer bld func sleep wait_cb w 0 = Ok (w, 0, 0)
  | Some (b, q', nodes', _) =>
      exists w' idx,
        rpmsg_virtio_get_tx_payload_buffer bld func sleep wait_cb w 0
          = Ok (w', b + SIZEOF_HDR, tx_size (w_tr w) - SIZEOF_HDR) /\
        is_u16 idx /\ held_at b idx (w_mem w') 1 /\ keeps w w' /\
        memstep ((b + HDR_RESERVED, 4) :: nodes_of (rv_reclaimer (w_tr w) :: nodes))
          (w_mem w) (w_mem w') /\
        tx_inv (w_mem w') (w_tr w') q' devq (b :: held) nodes'
  end.
Proof.
  intros H Ho Hl Hroom Hst Hok. unfold rpmsg_virtio_get_tx_payload_buffer, tr. rewrite Hst.
  cbn [mbind res_bind]. change (negb (0 =? 0)) with false. rewrite (proj2 (Z.eqb_neq _ 0)) by done.
  cbn [orb]. destruct (locked_get_run w q devq held nodes pool H Ho Hl Hroom)
    as (w1 & b & len & idx & R & K & D).
  pose proof (wait_step sleep wait_cb 0 w 0 _ _ _ _ Hl R) as Hrun.
  change (tx_fuel 0) with 1%nat. rewrite Hrun, orb_true_r. cbn [mbind res_bind].
  destruct (tx_take (w_tr w) q nodes pool) as [[[[b' q'] nodes'] pool']|].
  - destruct D as (<- & -> & Hi & Hs & Hinv).
    rewrite (proj2 (Z.eqb_neq _ _)) by exact (tx_inv_nonzero _ _ _ _ _ _ _ Hinv).
    destruct (mark_run w1 q' devq b held nodes' idx Hinv Hi) as (m' & R' & Hh & Hs' & K' & H').
    assert (Ef : tx_size (w_tr w1) = tx_size (w_tr w)).
    { pose proof (k_fixed _ _ K) as Ef. injection Ef as Ef _ _ _ _ _ _ _ _. unfold tx_size. by rewrite Ef. }
    rewrite Ef in R'. exists (set_mem w1 m'), idx. split_and!; try done; [by etransitivity|].
    transitivity (w_mem w1).
    + eapply memstep_weaken; [|exact Hs]. intros a s Has. exists a, s. split; [by right|lia].
    + eapply memstep_weaken; [|exact Hs']. eapply covers_one; [left|lia..].
  - destruct D as [-> ->]. done.
Qed.

Lemma get_payload_run func sleep wait_cb w wait st q devq held nodes :
  quiet sleep -> tx_inv (w_mem w) (w_tr w) q devq held nodes -> rd_lock (w_rdev w) = false ->
  (q_free q <> [] -> zlen held < zlen (q_free q)) ->
  virtio_get_status func (rv_vdev (w_tr w)) = Ok (0, st) ->
  Z.land st VIRTIO_CONFIG_STATUS_DRIVER_OK <> 0 ->
  exists w' p len,
    rpmsg_virtio_get_tx_payload_buffer bld func sleep wait_cb w wait = Ok (w', p, len) /\
    payload_result w w' p len held nodes.
Proof.
  intros Hq H Hl Hroom Hst Hok. unfold rpmsg_virtio_get_tx_payload_buffer.
  set (tick := if negb (wait =? 0) then RPMSG_TICK_COUNT / RPMSG_TICKS_PER_INTERVAL else 0).
  assert (Ht : 0 <= tick) by (unfold tick; by destruct (negb (wait =? 0))).
  destruct (tx_wait_run sleep wait_cb (tx_fuel tick) w tick q devq held nodes Hq H Hl Hroom Ht)
    as (w1 & b & len & idx & R & D); [unfold tx_fuel; lia|].
  destruct (payload_finish _ _ _ _ _ _ _ D) as (w' & p & len' & R' & D').
  exists w', p, len'. split; [|done]. run (exact Hst).
  change (negb (0 =? 0)) with false. rewrite (proj2 (Z.eqb_neq _ 0)) by done. cbn [orb].
  run (exact R). exact R'.
Qed.


(** ** Sending a held buffer *)

Lemma hdr_bytes_u8 src dst reserved len flags : Forall is_u8 (hdr_bytes src dst reserved len flags).
Proof. unfold hdr_bytes. rewrite !Forall_app. split_and!; apply le_bytes_u8. Qed.

Lemma zlen_hdr_bytes src dst reserved len flags : zlen (hdr_bytes src dst reserved len flags) = 16.
Proof. unfold hdr_bytes. by rewrite !zlen_app, !zlen_le_bytes. Qed.

Lemma region_offset io physmap b s :
  io_wf io physmap -> inside io b s -> 0 < s ->
  0 <= b - io_virt io < io_size io /\ metal_io_virt_to_offset io b = b - io_virt io /\
  exists a, metal_io_virt_to_phys io b = Ok a.
Proof.
  intros Hw [H1 H2] Hs. assert (Hr : 0 <= b - io_virt io < io_size io) by lia.
  destruct (virt_of_offset io physmap Hw _ Hr) as (_ & _ & Ho).
  replace (io_virt io + (b - io_virt io)) with b in Ho by lia.
  destruct (phys_of_offset io physmap Hw _ Hr) as (a & Ha & _).
  split; [done|split; [done|]]. exists a. unfold metal_io_virt_to_phys. by rewrite Ho.
Qed.

(** Copying bytes from local memory into a held buffer. *)
Lemma region_write m t q devq b held nodes dst src bs :
  tx_inv m t q devq (b :: held) nodes -> b <= dst -> dst + zlen bs <= b + tx_size t -> 0 < tx_size t ->
  dst < b + tx_size t -> has_bytes m src bs -> Forall is_u8 bs -> out_of (rv_shbuf_io t) src (zlen bs) ->
  metal_io_block_write (rv_shbuf_io t) m (metal_io_virt_to_offset (rv_shbuf_io t) dst) src (zlen bs)
    = Ok (put_bytes m dst bs, zlen bs).
Proof.
  intros H H1 H2 H3 H3' H4 H5 H6. destruct (te_io _ (ti_env _ _ _ _ _ _ H)) as [pm Hw].
  pose proof (held_inside _ _ _ _ _ _ _ H) as [I1 I2]. pose proof (zlen_nonneg bs).
  assert (Hr : 0 <= dst - io_virt (rv_shbuf_io t) < io_size (rv_shbuf_io t)) by lia.
  destruct (virt_of_offset _ pm Hw _ Hr) as (_ & _ & Ho).
  replace (io_virt (rv_shbuf_io t) + (dst - io_virt (rv_shbuf_io t))) with dst in Ho by lia.
  rewrite Ho, (block_write_run _ pm Hw); [|done|lia|].
  - do 3 f_equal. lia.
  - replace (io_virt (rv_shbuf_io t) + (dst - io_virt (rv_shbuf_io t))) with dst by lia.
    split; [done|eapply mapped_in; [exact H|lia..]|done|]. unfold out_of in H6. lia.
Qed.

Lemma add_buffer_used drv ring bl r wr cookie ret drv' ring' :
  virtqueue_add_buffer bld drv ring bl r wr cookie = Ok (ret, drv', ring') ->
  r_used ring' = r_used ring.
Proof.
  intros H. unfold virtqueue_add_buffer, vq_ring_update_avail in H. res_step H. res_step H.
  match goal with p : (_ * _)%type |- _ => destruct p as [vq1 ring1] end. simplify_eq.
  destruct (VQ_PARAM_CHK bld _ _ _ =? VQUEUE_SUCCESS); [|by simplify_eq].
  do 5 res_step E0. res_step E0. match goal with p : (_ * _)%type |- _ => destruct p as [desc idx] end.
  res_step E0. res_step E0. by simplify_eq.
Qed.



(** The queue and the owners after a message. *)
Lemma tx_queue_add t vi q devq b a drv' ring' :
  tx_queue t vi q devq -> metal_io_virt_to_phys (rv_shbuf_io t) b = Ok a ->
  vq_rel n (q_add q [(a, tx_size t, false)] b) drv' devq ring' -> vq_conf drv' = vq_conf (vi_vq vi) ->
  tx_queue (put_vring t (rv_svq t) vi drv' ring') (set_vring vi drv' ring')
    (q_add q [(a, tx_size t, false)] b) devq.
Proof.
  intros [H1 H2 H3 H4 H5 H6] Ha Hr Hcf. injection Hcf as _ _ _ Hio.
  split; cbn [set_vring vi_vq vi_ring]; try done.
  - by apply put_vring_get.
  - by rewrite Hio.
  - rewrite q_live_add. constructor; [by exists a|done].
  - unfold put_vring. cbn. by rewrite zlen_zset.
Qed.

Lemma tx_owns_add t q b bs held nodes pool :
  length bs = 1%nat -> tx_owns t q (b :: held) nodes pool -> tx_owns t (q_add q bs b) held nodes pool.
Proof.
  intros Hl Ho. pose proof (to_count _ _ _ _ _ Ho) as Hc. eapply tx_owns_move; [exact Ho| |].
  - unfold tx_bufs. rewrite q_live_add. cbn [fmap list_fmap c_cookie app].
    rewrite (app_assoc held). rewrite <- Permutation_middle. by rewrite <- app_assoc.
  - rewrite zlen_cons in Hc. unfold q_add. cbn [q_free]. rewrite Hl.
    destruct (q_free q) as [|x l]; [change (zlen []) with 0 in Hc; pose proof (zlen_nonneg held);
      pose proof (zlen_nonneg nodes); lia|]. change (drop 1 (x :: l)) with l.
    rewrite zlen_cons in Hc. lia.
Qed.

(** Notification is not suppressed, and the queue has a notify function. *)
Definition notifies t (vi : virtio_vring_info) (f : Z) : Prop :=
  event_idx_on (vd_dev (rv_vdev t)) = false /\ vq_notify (vi_vq vi) = f /\ f <> 0 /\
  Z.land (used_flags (r_used (vi_ring vi))) VRING_USED_F_NO_NOTIFY = 0.

Lemma kick_run w vi q devq :
  tx_env (w_tr w) -> tx_queue (w_tr w) vi q devq ->
  exists t', vq_kick bld w (rv_svq (w_tr w)) = Ok (set_tr w t') /\
    tx_fixed t' = tx_fixed (w_tr w) /\ rv_pools t' = rv_pools (w_tr w) /\
    (exists vi', tx_queue t' vi' q devq) /\
    (forall f, notifies (w_tr w) vi f -> rv_calls t' = rv_calls (w_tr w) ++ [f]).
Proof.
  intros He Hq. pose proof Hq as [Q1 Q2 Q3 Q4 Q5 Q6].
  pose proof (kick_core bld (dev_of w) (vi_vq vi) (vi_ring vi) (dr_idle _ _ _ (vr_drv _ _ _ _ _ Q2))) as Hk.
  set (t1 := put_vring (w_tr w) (rv_svq (w_tr w)) vi (set_queued_cnt (vi_vq vi) 0) (vi_ring vi)).
  assert (Hq1 : tx_queue t1 (set_vring vi (set_queued_cnt (vi_vq vi) 0) (vi_ring vi)) q devq).
  { split; cbn [set_vring vi_vq vi_ring]; try done; [by apply put_vring_get| |].
    - destruct Q2 as [R1 R2 R3]. split; [done|by apply drv_rel_queued|done].
    - unfold t1, put_vring. cbn. by rewrite zlen_zset. }
  set (call := if vq_ring_must_notify bld (dev_of w) (vi_vq vi) (vi_ring vi)
               then vq_ring_notify (vi_vq vi) else None) in Hk.
  exists (match call with Some f => rv_set_calls t1 (rv_calls t1 ++ [f]) | None => t1 end).
  split; [|split_and!].
  - unfold vq_kick. run (by apply vring_at_run). run (exact Hk). run (by apply vring_put_run).
    by destruct call.
  - by destruct call.
  - by destruct call.
  - eexists. destruct call; [|exact Hq1]. by apply (tx_queue_fixed t1).
  - intros f (N1 & N2 & N3 & N4). unfold call, vq_ring_must_notify, vq_ring_notify, dev_of, tr.
    rewrite N1, (te_drv _ He), N4, N2. change (0 =? 0) with true. cbn iota.
    by rewrite (proj2 (Z.eqb_neq _ _)).
Qed.

(** [rpmsg_virtio_enqueue_buffer] and the kick, under the lock. *)
Lemma enqueue_run w q devq b held nodes a vi :
  tx_inv (w_mem w) (w_tr w) q devq (b :: held) nodes -> tx_queue (w_tr w) vi q devq ->
  metal_io_virt_to_phys (rv_shbuf_io (w_tr w)) b = Ok a ->
  exists t', (forall idx,
    ('(w, status) ← rpmsg_virtio_enqueue_buffer bld w b (tx_size (w_tr w)) idx;
     _ ← rassert (status =? VQUEUE_SUCCESS);
     vq_kick bld w (rv_svq (tr w))) = Ok (set_tr w t')) /\
    tx_fixed t' = tx_fixed (w_tr w) /\
    tx_inv (w_mem w) t' (q_add q [(a, tx_size (w_tr w), false)] b) devq held nodes /\
    (forall f, notifies (w_tr w) vi f -> rv_calls t' = rv_calls (w_tr w) ++ [f]).
Proof.
  intros [He Hm _ [pool Ho]] Hq Ha. pose proof Hq as [Q1 Q2 Q3 Q4 Q5 Q6]. pose proof (te_size _ He) as Hsz.
  assert (Hb : b <> 0).
  { apply (tx_inv_nonzero (w_mem w) (w_tr w) q devq b held nodes). split; eauto. }
  pose proof (to_count _ _ _ _ _ Ho) as Hc. rewrite zlen_cons in Hc.
  pose proof (zlen_nonneg held). pose proof (zlen_nonneg nodes).
  destruct (add_buffer_refines bld n q (vi_vq vi) devq (vi_ring vi) [mk_buf b (i32 (tx_size (w_tr w)))]
    [(a, tx_size (w_tr w), false)] 1 0 b Q2) as (drv' & ring' & Hrun & Hrel & Hcf); [|done| |done|].
  { cbn [bufs_of vb_buf vb_len]. rewrite Q3. split_and!; try done.
    rewrite i32_id by lia. by rewrite u32_id by (unfold is_u32; lia). }
  { change (zlen [_]) with 1. lia. }
  pose proof (add_buffer_used _ _ _ _ _ _ _ _ _ Hrun) as Hu.
  set (t1 := put_vring (w_tr w) (rv_svq (w_tr w)) vi drv' ring').
  pose proof (tx_queue_add _ _ _ _ _ _ _ _ Hq Ha Hrel Hcf) as Hq1.
  destruct (kick_run (set_tr w t1) _ _ _ (tx_env_fixed (w_tr w) t1 eq_refl He) Hq1)
    as (t' & R & F & P & [vi' Hq'] & N).
  exists t'. split; [|split; [|split]].
  - intros idx. unfold rpmsg_virtio_enqueue_buffer, is_driver, dev_of, tr. rewrite (te_drv _ He).
    run (unfold vq_add_buffer; run (by apply vring_at_run); run (exact Hrun);
         run (by apply vring_put_run); reflexivity). run (reflexivity). exact R.
  - by rewrite F.
  - split.
    + by apply (tx_env_fixed (w_tr w)); [rewrite F|].
    + by apply (tx_mem_fixed _ (w_tr w)); [rewrite F|].
    + by exists vi'.
    + exists pool. apply (tx_owns_fixed t1); [done..|]. apply (tx_owns_fixed (w_tr w)); [done..|].
      by apply tx_owns_add.
  - intros f (N1 & N2 & N3 & N4). apply N. injection Hcf as _ _ Hnt _. split_and!; try done.
    + by cbn; rewrite Hnt.
    + cbn. by rewrite Hu.
Qed.


(** What a sent message leaves: the chain is offered to the device, its buffer
    starts with the header, and nothing else of the memory changed but the local
    copy of the header. *)
Record sent w w' (q : queue) (devq : virtqueue) (b src dst len : Z) (held nodes : list Z) : Prop := {
  se_rdev : w_rdev w' = w_rdev w;
  se_epts : w_epts w' = w_epts w;
  se_fixed : tx_fixed (w_tr w') = tx_fixed (w_tr w);
  se_mem : memstep [(hdr_slot, 16); (b, 16)] (w_mem w) (w_mem w');
  se_hdr : has_bytes (w_mem w') b (hdr_bytes src dst 0 (u16 len) 0);
  se_inv : exists a, metal_io_virt_to_phys (rv_shbuf_io (w_tr w)) b = Ok a /\
    tx_inv (w_mem w') (w_tr w') (q_add q [(a, tx_size (w_tr w), false)] b) devq held nodes;
  se_call : forall vi f, tx_queue (w_tr w) vi q devq -> notifies (w_tr w) vi f ->
    rv_calls (w_tr w') = rv_calls (w_tr w) ++ [f]
}.

Lemma put_two m a1 bs1 a2 bs2 :
  Forall is_u8 bs1 -> Forall is_u8 bs2 ->
  memstep [(a1, zlen bs1); (a2, zlen bs2)] m (put_bytes (put_bytes m a1 bs1) a2 bs2).
Proof.
  intros H1 H2. transitivity (put_bytes m a1 bs1).
  - eapply memstep_weaken; [|by apply memstep_put]. eapply covers_one; [left|lia..].
  - eapply memstep_weaken; [|by apply memstep_put]. eapply covers_one; [right; left|lia..].
Qed.

Lemma tx_queue_uniq t vi vi' q q' devq devq' :
  tx_queue t vi q devq -> tx_queue t vi' q' devq' -> vi = vi'.
Proof. intros [H _ _ _ _ _] [H' _ _ _ _ _]. congruence. Qed.

Lemma nocopy_run w q devq b held nodes src dst len :
  tx_inv (w_mem w) (w_tr w) q devq (b :: held) nodes -> rd_lock (w_rdev w) = false ->
  exists w', rpmsg_virtio_send_offchannel_nocopy bld hdr_slot w src dst (b + SIZEOF_HDR) len
      = Ok (w', len) /\ sent w w' q devq b src dst len held nodes.
Proof.
  intros H Hl. pose proof H as [He Hm [vi Hq] _]. pose proof (te_size _ He) as Hsz.
  destruct (te_io _ He) as [pm Hw]. pose proof (te_out _ He) as (_ & Hout & _).
  pose proof (held_inside _ _ _ _ _ _ _ H) as Hin.
  destruct (region_offset _ pm b (tx_size (w_tr w)) Hw Hin) as (_ & _ & a & Ha); [lia|].
  destruct (mapped_word 4 (w_mem w) (b + HDR_RESERVED)) as (r & Hr & Hrb);
    [apply Hm|eapply mapped_in; [exact H|unfold HDR_RESERVED; lia..]|].
  set (hb := hdr_bytes src dst 0 (u16 len) 0).
  pose proof (hdr_bytes_u8 src dst 0 (u16 len) 0 : Forall is_u8 hb) as Hu8.
  pose proof (zlen_hdr_bytes src dst 0 (u16 len) 0 : zlen hb = 16) as Hz.
  set (m1 := put_bytes (w_mem w) hdr_slot hb). set (m2 := put_bytes m1 b hb).
  pose proof (put_two (w_mem w) hdr_slot hb b hb Hu8 Hu8 : memstep _ (w_mem w) m2) as Hs.
  rewrite Hz in Hs.
  assert (H1 : tx_inv m1 (w_tr w) q devq (b :: held) nodes).
  { eapply tx_inv_write; [exact H|by apply memstep_put|].
    intros k s [= -> ->]%list_elem_of_singleton. right. lia. }
  assert (H2 : tx_inv m2 (w_tr w) q devq (b :: held) nodes).
  { eapply tx_inv_write; [exact H1|by apply memstep_put|].
    intros k s [= -> ->]%list_elem_of_singleton. left. lia. }
  destruct (enqueue_run (set_rdev (set_mem w m2) (rd_set_lock (w_rdev w) true)) q devq b held nodes a vi
    H2 Hq Ha) as (t' & R & F & I & N).
  exists (mk_world m2 (w_epts w) (w_rdev w) t'). split.
  - unfold rpmsg_virtio_send_offchannel_nocopy, RPMSG_LOCATE_HDR.
    replace (b + SIZEOF_HDR - SIZEOF_HDR) with b by lia.
    run (by apply ld_word). run (apply storen_ok; fold hb; rewrite Hz; apply Hm). unfold tr.
    run (replace SIZEOF_HDR with (zlen hb); eapply region_write; [exact H1|lia..|apply has_bytes_put|done|by rewrite Hz]).
    rewrite Hz. run (reflexivity). run (by apply acquire_run).
    unfold is_driver, dev_of, tr. cbn [set_rdev set_mem w_tr]. rewrite (te_drv _ He).
    cbn [mbind res_bind]. specialize (R (u16 r)). unfold set_rdev, set_mem in R |- *.
    cbn [w_mem w_epts w_rdev w_tr] in R |- *.
    change (h2r_buf_size (rv_config (w_tr w))) with (tx_size (w_tr w)).
    destruct (rpmsg_virtio_enqueue_buffer bld _ b _ _) as [[w3 st]|]; [|discriminate R].
    cbn [mbind res_bind] in R |- *. destruct (rassert _); [|discriminate R].
    cbn [mbind res_bind] in R |- *. run (exact R).
    unfold metal_mutex_release, set_tr, set_rdev. cbn [w_mem w_epts w_rdev w_tr].
    by rewrite unlock_relock.
  - split; try done; [apply has_bytes_put|by exists a|].
    intros vi' f Hq' Hn. rewrite <- (tx_queue_uniq _ _ _ _ _ _ _ Hq Hq') in Hn. by apply N.
Qed.


(** ** Copying and sending *)

(** The length of the payload that fits. *)
Definition fit_len t (bs : list Z) : Z := Z.min (zlen bs) (tx_size t - SIZEOF_HDR).

(** The message in the buffer [b] after a send of the payload [bs] that started
    in [w] and finished in [w']. *)
Record message_sent w w' (q : queue) (devq : virtqueue) (b src dst : Z) (bs held nodes : list Z)
  : Prop := {
  mse_rdev : w_rdev w' = w_rdev w;
  mse_epts : w_epts w' = w_epts w;
  mse_fixed : tx_fixed (w_tr w') = tx_fixed (w_tr w);
  mse_mem : memstep [(hdr_slot, 16); (b, tx_size (w_tr w))] (w_mem w) (w_mem w');
  mse_bytes : has_bytes (w_mem w') b
    (hdr_bytes src dst 0 (u16 (fit_len (w_tr w) bs)) 0 ++ take (Z.to_nat (fit_len (w_tr w) bs)) bs);
  mse_inv : exists a, metal_io_virt_to_phys (rv_shbuf_io (w_tr w)) b = Ok a /\
    tx_inv (w_mem w') (w_tr w') (q_add q [(a, tx_size (w_tr w), false)] b) devq held nodes;
  mse_call : forall vi f, tx_queue (w_tr w) vi q devq -> notifies (w_tr w) vi f ->
    rv_calls (w_tr w') = rv_calls (w_tr w) ++ [f]
}.

Lemma has_bytes_u8 m a bs : mem_wf m -> has_bytes m a bs -> Forall is_u8 bs.
Proof.
  intros Hw. revert a. induction bs as [|b bs IH]; intros a; [constructor|]. intros [Hb H].
  constructor; [by eapply Hw|by eapply IH].
Qed.

Lemma take_bytes m a bs k : has_bytes m a bs -> has_bytes m a (take k bs).
Proof. rewrite <- (take_drop k bs) at 1. intros H%has_bytes_app. apply H. Qed.

Lemma zlen_take (bs : list Z) k : 0 <= k <= zlen bs -> zlen (take (Z.to_nat k) bs) = k.
Proof. unfold zlen. rewrite length_take. lia. Qed.

Lemma raw_finish w q devq b held nodes src dst data bs :
  tx_inv (w_mem w) (w_tr w) q devq (b :: held) nodes -> rd_lock (w_rdev w) = false ->
  has_bytes (w_mem w) data bs -> out_of (rv_shbuf_io (w_tr w)) data (zlen bs) ->
  let buff_len := tx_size (w_tr w) - SIZEOF_HDR in
  let io := rv_shbuf_io (w_tr w) in
  exists w',
    (let len := if i32 buff_len <? zlen bs then i32 buff_len else zlen bs in
     '(m, status) ← metal_io_block_write io (w_mem w) (metal_io_virt_to_offset io (b + SIZEOF_HDR)) data len;
     _ ← rassert (status =? len);
     rpmsg_virtio_send_offchannel_nocopy bld hdr_slot (set_mem w m) src dst (b + SIZEOF_HDR) len)
      = Ok (w', fit_len (w_tr w) bs) /\
    message_sent w w' q devq b src dst bs held nodes.
Proof.
  intros H Hl Hb Ho buff_len io. pose proof (te_size _ (ti_env _ _ _ _ _ _ H)) as Hsz.
  pose proof (te_out _ (ti_env _ _ _ _ _ _ H)) as (_ & Hout & _).
  pose proof (held_inside _ _ _ _ _ _ _ H) as Hin.
  assert (Hk : (if i32 buff_len <? zlen bs then i32 buff_len else zlen bs) = fit_len (w_tr w) bs).
  { unfold fit_len, buff_len, SIZEOF_HDR. rewrite i32_id by lia. zcase; lia. }
  cbn zeta. rewrite Hk. pose proof (zlen_nonneg bs).
  assert (Hkr : 0 <= fit_len (w_tr w) bs <= zlen bs /\ fit_len (w_tr w) bs <= tx_size (w_tr w) - 16)
    by (unfold fit_len, SIZEOF_HDR; lia).
  remember (fit_len (w_tr w) bs) as k eqn:Ek.
  pose proof (zlen_take bs k ltac:(lia)) as Hz. set (bk := take (Z.to_nat k) bs) in *.
  pose proof (take_bytes _ _ _ (Z.to_nat k) Hb : has_bytes _ _ bk) as Hbk.
  pose proof (has_bytes_u8 _ _ _ (tm_wf _ _ _ (ti_mem _ _ _ _ _ _ H)) Hbk) as Hu.
  pose proof (region_write (w_mem w) (w_tr w) q devq b held nodes (b + SIZEOF_HDR) data bk H) as Hwr.
  set (m1 := put_bytes (w_mem w) (b + SIZEOF_HDR) bk) in *. unfold SIZEOF_HDR in *.
  assert (Hs1 : memstep [(b + 16, k)] (w_mem w) m1) by (rewrite <- Hz; by apply memstep_put).
  assert (H1 : tx_inv m1 (w_tr w) q devq (b :: held) nodes).
  { eapply tx_inv_write; [exact H|exact Hs1|]. intros a s [= -> ->]%list_elem_of_singleton. left. lia. }
  destruct (nocopy_run (set_mem w m1) q devq b held nodes src dst k H1 Hl) as (w' & R & [S1 S2 S3 S4 S5 S6 S7]).
  exists w'. split.
  - rewrite <- Hz at 1. run (apply Hwr; try (done || lia); unfold out_of in *; rewrite Hz; lia).
    rewrite Hz, Z.eqb_refl. run (reflexivity). exact R.
  - split; try done.
    + transitivity m1.
      * eapply memstep_weaken; [|exact Hs1]. eapply covers_one; [right; left|lia..].
      * eapply memstep_weaken; [|exact S4]. intros a s [[= -> ->]|[= -> ->]%list_elem_of_singleton]%elem_of_cons.
        -- exists hdr_slot, 16. split; [left|lia].
        -- exists b, (tx_size (w_tr w)). split; [right; left|lia].
    + rewrite <- Ek. apply has_bytes_app. split; [done|]. rewrite zlen_hdr_bytes. fold bk.
      eapply memstep_bytes; [exact S4| |apply has_bytes_put].
      intros a s [[= -> ->]|[= -> ->]%list_elem_of_singleton]%elem_of_cons; rewrite Hz;
        unfold inside, out_of in *; lia.
Qed.


(** Taking a buffer removes at most one message from those in flight. *)
Lemma tx_take_live t q nodes pool b q' nodes' pool' c :
  tx_take t q nodes pool = Some (b, q', nodes', pool') -> c ∈ q_live q' -> c ∈ q_live q.
Proof.
  unfold tx_take, q_reclaim. destruct nodes as [|x rest]; [|by intros [= <- <- <- <-]].
  destruct (q_used q) as [|[c0 len] rest] eqn:E.
  - destruct (_ || _); [done|]. by intros [= <- <- <- <-].
  - intros [= <- <- <- <-] Hc. rewrite (q_live_reclaim _ _ _ _ E). by right.
Qed.

(** The messages in flight survive a send into another buffer. *)
Lemma in_flight_kept m m1 m2 t t1 q q' devq b held nodes nodes' c msg pool :
  tx_owns t q held nodes pool -> tx_inv m1 t1 q' devq (b :: held) nodes' -> tx_fixed t1 = tx_fixed t ->
  memstep ((b + HDR_RESERVED, 4) :: nodes_of (rv_reclaimer t :: nodes)) m m1 ->
  memstep [(hdr_slot, 16); (b, tx_size t)] m1 m2 ->
  c ∈ q_live q' -> c ∈ q_live q -> zlen msg <= tx_size t ->
  has_bytes m (c_cookie c) msg -> has_bytes m2 (c_cookie c) msg.
Proof.
  intros Ho H Ef Hs1 Hs2 Hc' Hc Hz Hm. pose proof (tx_env_fixed _ _ (eq_sym Ef) (ti_env _ _ _ _ _ _ H)) as He.
  pose proof (te_size _ He) as Hsz. pose proof (te_out _ He) as (O1 & O2 & _).
  assert (Esz : tx_size t1 = tx_size t) by (injection Ef as Ef _ _ _ _ _ _ _ _; unfold tx_size; by rewrite Ef).
  assert (Hin : c_cookie c ∈ tx_bufs q held nodes).
  { unfold tx_bufs. rewrite !elem_of_app. do 2 right. by apply list_elem_of_fmap_2. }
  pose proof (tx_buf_in _ _ _ _ _ _ Ho Hin) as Hi.
  destruct (ti_owns _ _ _ _ _ _ H) as [pool' Ho'].
  assert (Hd : c_cookie c + tx_size t <= b \/ b + tx_size t <= c_cookie c).
  { pose proof (to_apart _ _ _ _ _ Ho') as Hap. unfold tx_bufs in Hap. cbn [app] in Hap.
    apply apart_cons in Hap as (_ & Hd & _). rewrite <- Esz. apply Hd. rewrite !elem_of_app. do 2 right.
    by apply list_elem_of_fmap_2. }
  eapply memstep_bytes; [exact Hs2| |eapply memstep_bytes; [exact Hs1| |exact Hm]].
  - intros a s [[= -> ->]|[= -> ->]%list_elem_of_singleton]%elem_of_cons;
      unfold inside, out_of in *; lia.
  - intros a s [[= -> ->]|Hn]%elem_of_cons; [unfold HDR_RESERVED; lia|].
    apply list_elem_of_fmap in Hn as (x & [= -> ->] & Hx).
    apply elem_of_cons in Hx as [->|Hx]; [unfold inside, out_of in *; lia|].
    pose proof (to_apart _ _ _ _ _ Ho) as [Hnd Hap].
    assert (Hxb : x ∈ tx_bufs q held nodes) by (unfold tx_bufs; set_solver).
    assert (Hne : c_cookie c <> x).
    { intros <-. unfold tx_bufs in Hnd. apply list.NoDup_app in Hnd as (_ & _ & Hnd).
      apply list.NoDup_app in Hnd as (_ & Hnd & _). apply (Hnd _ Hx). by apply list_elem_of_fmap_2. }
    specialize (Hap _ _ Hin Hxb Hne). lia.
Qed.

(** ** Giving a buffer back *)

(** The last user's release: the buffer becomes the tail of the reclaimer. *)
Lemma reclaim_run m t q devq b idx held nodes :
  tx_inv m t q devq (b :: held) nodes -> is_u16 idx -> held_at b idx m 0 ->
  exists m',
    (reserved ← ld 4 m (b + HDR_RESERVED);
     m ← st 2 m (b + RECLAIMER_IDX) (RPMSG_BUF_INDEX reserved);
     mem_list_add_tail m (rv_reclaimer t) b) = Ok m' /\
    tx_inv m' t q devq held (nodes ++ [b]).
Proof.
  intros H Hi Hh. pose proof (te_size _ (ti_env _ _ _ _ _ _ H)) as Hsz.
  set (m2 := put_bytes m (b + RECLAIMER_IDX) (le_bytes 2 idx)).
  assert (H2 : tx_inv m2 t q devq (b :: held) nodes).
  { apply (tx_inv_write [(b + RECLAIMER_IDX, 2)] m); [done|apply (memstep_put _ _ (le_bytes 2 idx)), le_bytes_u8|].
    intros a s [= -> ->]%list_elem_of_singleton. left. unfold RECLAIMER_IDX. lia. }
  pose proof H2 as [He [M1 M2 M3 M4] Hq [pool Ho]]. pose proof (te_out _ He) as (O1 & _ & _).
  pose proof (held_inside _ _ _ _ _ _ _ H2) as Hin.
  destruct (rlist_add_tail m2 (rv_reclaimer t) nodes b) as (m3 & R3 & L3 & Hs3); [done| | | |].
  { pose proof (to_apart _ _ _ _ _ Ho) as Hap. unfold tx_bufs in Hap. cbn [app] in Hap.
    apply apart_cons in Hap as (Hn & Hd & _). apply apart_cons. split_and!; [| |apply (rl_apart _ _ _ M4)].
    - apply not_elem_of_cons. split; [unfold inside, out_of in *; lia|]. set_solver.
    - intros a [->|Ha]%elem_of_cons; [unfold inside, out_of in *; lia|].
      specialize (Hd a ltac:(set_solver)). lia. }
  { exact (inside_pos _ _ _ He Hin ltac:(lia)). }
  { eapply mapped_in; [exact H2|lia..]. }
  exists m3. split.
  - run (apply (held_ld b idx Hi m 0); [done|lia]). rewrite buf_index by (done || lia).
    run (apply st_word; eapply mapped_in; [exact H|unfold RECLAIMER_IDX; lia..]). exact R3.
  - split; [done| |done|].
    + split; [by apply (ms_u8 _ _ _ Hs3)| | |done]; by eapply memstep_mapped.
    + exists pool. eapply tx_owns_move; [exact Ho| |].
      * unfold tx_bufs. cbn [app]. rewrite <- app_assoc. cbn [app].
        rewrite (app_assoc held nodes). rewrite <- Permutation_middle. by rewrite <- app_assoc.
      * pose proof (to_count _ _ _ _ _ Ho) as Hcn. rewrite zlen_cons in Hcn. rewrite zlen_app.
        change (zlen [b]) with 1. lia.
Qed.

Lemma release_tx_run w q devq b idx c held nodes :
  tx_inv (w_mem w) (w_tr w) q devq (b :: held) nodes -> rd_lock (w_rdev w) = false ->
  is_u16 idx -> held_at b idx (w_mem w) c -> 1 <= c < 65536 ->
  exists m', rpmsg_virtio_release_tx_buffer w (b + SIZEOF_HDR) = Ok (set_mem w m', RPMSG_SUCCESS) /\
    (if c =? 1 then tx_inv m' (w_tr w) q devq held (nodes ++ [b])
     else held_at b idx m' (c - 1) /\ tx_inv m' (w_tr w) q devq (b :: held) nodes).
Proof.
  intros H Hl Hi Hh Hc. pose proof (te_size _ (ti_env _ _ _ _ _ _ H)) as Hsz.
  destruct (dec_test_run b idx Hi (w_mem w) c Hh Hc) as (m1 & R & Hh1 & Hs1).
  assert (H1 : tx_inv m1 (w_tr w) q devq (b :: held) nodes).
  { eapply tx_inv_write; [exact H|exact Hs1|]. intros a s [= -> ->]%list_elem_of_singleton.
    left. unfold HDR_RESERVED. lia. }
  assert (Hback : forall m, metal_mutex_release (set_mem (set_rdev w (rd_set_lock (w_rdev w) true)) m)
            = set_mem w m).
  { intros m. unfold metal_mutex_release, set_mem, set_rdev. cbn. by rewrite unlock_relock. }
  unfold rpmsg_virtio_release_tx_buffer, RPMSG_LOCATE_HDR.
  replace (b + SIZEOF_HDR - SIZEOF_HDR) with b by lia. rewrite acquire_run by done.
  cbn [mbind res_bind set_rdev w_mem w_tr]. rewrite R. cbn [mbind res_bind].
  destruct (c =? 1) eqn:Ec; zbool.
  - subst c. destruct (reclaim_run m1 (w_tr w) q devq b idx held nodes H1 Hi Hh1) as (m' & R' & H').
    exists m'. split; [|done]. run (exact R'). by rewrite Hback.
  - exists m1. cbn [mbind res_bind]. by rewrite Hback.
Qed.
(** Sending without waiting: a buffer is taken, then filled and offered. *)
Lemma trysend_run func sleep wait_cb w q devq nodes pool src dst data st bs :
  tx_inv (w_mem w) (w_tr w) q devq [] nodes -> tx_owns (w_tr w) q [] nodes pool ->
  rd_lock (w_rdev w) = false -> virtio_get_status func (rv_vdev (w_tr w)) = Ok (0, st) ->
  Z.land st VIRTIO_CONFIG_STATUS_DRIVER_OK <> 0 ->
  has_bytes (w_mem w) data bs -> out_of (rv_shbuf_io (w_tr w)) data (zlen bs) ->
  data + zlen bs <= rv_reclaimer (w_tr w) \/ rv_reclaimer (w_tr w) + 16 <= data ->
  let run :=
    rpmsg_virtio_send_offchannel_raw bld func sleep wait_cb hdr_slot w src dst data (zlen bs) 0 in
  match tx_take (w_tr w) q nodes pool with
  | None => run = Ok (w, RPMSG_ERR_NO_BUFF)
  | Some (b, q', nodes', _) =>
      exists w1 w', run = Ok (w', fit_len (w_tr w) bs) /\ keeps w w1 /\
        memstep ((b + HDR_RESERVED, 4) :: nodes_of (rv_reclaimer (w_tr w) :: nodes)) (w_mem w) (w_mem w1) /\
        tx_inv (w_mem w1) (w_tr w1) q' devq [b] nodes' /\
        message_sent w1 w' q' devq b src dst bs [] nodes'
  end.
Proof.
  intros Hinv Ho Hl Hst Hok Hb Hout Hrec. cbn zeta. unfold rpmsg_virtio_send_offchannel_raw, tr.
  assert (Hroom : q_free q <> [] -> zlen (@nil Z) < zlen (q_free q)).
  { change (zlen []) with 0. destruct (q_free q) as [|x l]; [done|]. rewrite zlen_cons.
    pose proof (zlen_nonneg l). lia. }
  pose proof (get_payload_now func sleep wait_cb w st q devq [] nodes pool Hinv Ho Hl Hroom Hst Hok) as Hg.
  destruct (tx_take (w_tr w) q nodes pool) as [[[[b q'] nodes'] pool']|] eqn:Et; [|by rewrite Hg].
  destruct Hg as (w1 & idx & R & Hi & Hh & K & Hs1 & H1). rewrite R. cbn [mbind res_bind].
  pose proof (k_fixed _ _ K) as Ef. injection Ef as E1 E2 E3 E4 E5 E6 E7 E8 E9.
  assert (Esz : tx_size (w_tr w1) = tx_size (w_tr w)) by (unfold tx_size; by rewrite E1).
  pose proof (te_size _ (ti_env _ _ _ _ _ _ H1)) as Hsz. pose proof (held_inside _ _ _ _ _ _ _ H1) as Hin.
  rewrite (proj2 (Z.eqb_neq _ _)) by
    (pose proof (inside_pos _ _ _ (ti_env _ _ _ _ _ _ H1) Hin); unfold SIZEOF_HDR; lia).
  destruct (raw_finish w1 q' devq b [] nodes' src dst data bs H1) as (w' & R' & S).
  { by rewrite (k_rdev _ _ K). }
  { by apply (k_bytes _ _ K). }
  { by rewrite E2. }
  unfold fit_len in R' |- *. rewrite Esz in R'. exists w1, w'. done.
Qed.
End tx.

(** ** Properties *)


(** A driver with a region of 256 bytes: two buffers of 32 bytes in the pool. *)
Definition demo_tx_io : metal_io_region := metal_io_init 4096 (Some [1048576]) 256 64 0 None.
Definition demo_tx_vi : virtio_vring_info :=
  mk_vinfo
    (mk_vq "tx" 1 8 1 2 (vring_init 8 4096 4) 8 0 demo_tx_io 0 0 0 false (replicate 8 (mk_dextra 0 0)))
    demo_ring (mk_alloc 0 4 8) 0 demo_tx_io.
(** The device's side of the queue, as created. *)
Definition demo_tx_dev : virtqueue := vi_vq demo_tx_vi.
Definition demo_tx : rpmsg_virtio unit :=
  mk_rv (mk_config 32 32 false) (mk_vd (mk_vdev 0 0 0) tt [demo_tx_vi; demo_tx_vi]) 0 1 demo_tx_io
    [mk_pool 4096 64 64] 0 1024 0 [].
Definition demo_tx_mem : gmap Z Z :=
  put_bytes
    (put_bytes (put_bytes (put_bytes ∅ 4096 (fill 256 0)) 2048 (fill 16 0)) 1024
       (le_bytes 8 1024 ++ le_bytes 8 1024)) 3072 [10; 20; 30].
Definition demo_tx_world : world (rpmsg_virtio unit) :=
  mk_world demo_tx_mem ∅ (mk_rdev [] [0; 0] 0 false 0 0 true) demo_tx.
Definition demo_tx_func : option (virtio_dispatch unit) :=
  Some (mk_dispatch None None (Some (fun _ => Ok VIRTIO_CONFIG_STATUS_DRIVER_OK)) None None None None None None None 2).

Lemma demo_tx_env : tx_env demo_release 2048 demo_tx.
Proof.
  split; try done.
  - exists [1048576]. split; try done; [repeat constructor; done|]. left. done.
  - unfold out_of. cbn. lia.
Qed.

Lemma mem_wf_put m a bs : mem_wf m -> Forall is_u8 bs -> mem_wf (put_bytes m a bs).
Proof. intros Hm Hb. by apply (ms_u8 _ _ _ (memstep_put m a bs Hb)). Qed.

Lemma fill_u8 k v : is_u8 v -> Forall is_u8 (fill k v).
Proof. intros Hv. unfold fill. by apply list.Forall_replicate. Qed.

Lemma demo_tx_memory : tx_mem 2048 demo_tx_mem demo_tx [].
Proof.
  split.
  - unfold demo_tx_mem. repeat apply mem_wf_put; try (apply fill_u8; unfold is_u8; lia).
    + intros k v Hk. by rewrite lookup_empty in Hk.
    + apply Forall_app. split; apply le_bytes_u8.
    + repeat constructor; unfold is_u8; lia.
  - do 3 apply mapped_put. apply has_bytes_mapped_fill; cbn; lia.
  - do 2 apply mapped_put. apply has_bytes_mapped_fill; lia.
  - assert (H : has_bytes demo_tx_mem 1024 (le_bytes 8 1024 ++ le_bytes 8 1024)).
    { apply has_bytes_put_disjoint; [vm_compute; intuition discriminate|apply has_bytes_put]. }
    apply has_bytes_app in H as [H1 H2]. split.
    + constructor; [|constructor]. split; [exact H1|exact H2].
    + split; [repeat constructor; by apply not_elem_of_nil|].
      intros a b ->%list_elem_of_singleton ->%list_elem_of_singleton. done.
    + repeat constructor.
Qed.

Lemma demo_tx_queue : tx_queue 8 demo_tx demo_tx_vi (q_init 8) demo_tx_dev.
Proof.
  split; try done. cbn [demo_tx_vi vi_vq vi_ring].
  apply init_rel; try done.
  - exists 3. split; [lia|done].
  - vm_compute. repeat split; eexists; split; reflexivity.
Qed.

Lemma demo_tx_owns : tx_owns demo_tx (q_init 8) [] [] (mk_pool 4096 64 64).
Proof.
  split; try done. split; [constructor|]. intros a b Ha. by apply not_elem_of_nil in Ha.
Qed.

Lemma demo_tx_inv : tx_inv demo_release 2048 8 demo_tx_mem demo_tx (q_init 8) demo_tx_dev [] [].
Proof.
  split; [exact demo_tx_env|exact demo_tx_memory|exists demo_tx_vi; exact demo_tx_queue|].
  exists (mk_pool 4096 64 64). exact demo_tx_owns.
Qed.

