(* ===== verification/RpmsgTxApi.v ===== *)
(** * The transmit calls of rpmsg_virtio.c: waiting, zero copy and the core's interface

    Properties of the transmit side that build on the invariant of RpmsgTx: a
    send that may wait, the calls of the zero-copy interface, and the proof that
    the virtio transport provides what the core of rpmsg.c asks of a transport. *)

From S2P Require Import Prelude MetalUtil MetalIo Vring Virtqueue VirtqueueInv VirtqueueRefine.
From S2P Require Import VirtqueueSys Virtio Rpmsg RpmsgInv RpmsgVirtio RpmsgBuf RpmsgTx.

Section api.
Context {B : Type} (bld : build) (func : option (virtio_dispatch B)) (hdr_slot n : Z).
Context (sleep : world (rpmsg_virtio B) -> world (rpmsg_virtio B)).
Context (wait_cb : Z -> world (rpmsg_virtio B) -> Z -> res (world (rpmsg_virtio B) * Z)).
Implicit Types (w : world (rpmsg_virtio B)) (t : rpmsg_virtio B).

(** The device does not accept messages: its status cannot be read or the driver
    has not finished. *)
Definition not_ready w : Prop :=
  exists r st, virtio_get_status func (rv_vdev (w_tr w)) = Ok (r, st) /\
    (r <> 0 \/ Z.land st VIRTIO_CONFIG_STATUS_DRIVER_OK = 0).
Definition ready w : Prop :=
  exists st, virtio_get_status func (rv_vdev (w_tr w)) = Ok (0, st) /\
    Z.land st VIRTIO_CONFIG_STATUS_DRIVER_OK <> 0.

Lemma status_cases w r st :
  virtio_get_status func (rv_vdev (w_tr w)) = Ok (r, st) -> ready w \/ not_ready w.
Proof.
  intros E. destruct (decide (r = 0)) as [->|Hr]; [|right; exists r, st; auto].
  destruct (decide (Z.land st VIRTIO_CONFIG_STATUS_DRIVER_OK = 0)); [right; exists 0, st; auto|].
  left. exists st. auto.
Qed.

Lemma payload_not_ready w wait :
  not_ready w -> rpmsg_virtio_get_tx_payload_buffer bld func sleep wait_cb w wait = Ok (w, 0, 0).
Proof.
  intros (r & st & E & H). unfold rpmsg_virtio_get_tx_payload_buffer. run (exact E).
  destruct H as [H|H]; [rewrite (proj2 (Z.eqb_neq _ _)) by done|rewrite H, orb_true_r]; done.
Qed.

(** A send of the payload [bs] from [w]: the message is in flight, or there was
    no buffer. *)
Definition send_result w w' (ret src dst : Z) (bs : list Z) (nodes : list Z) : Prop :=
  w_rdev w' = w_rdev w /\ w_epts w' = w_epts w /\ tx_fixed (w_tr w') = tx_fixed (w_tr w) /\
  ((ret = RPMSG_ERR_NO_BUFF /\
    exists q devq, tx_inv bld hdr_slot n (w_mem w') (w_tr w') q devq [] nodes) \/
   (ret = fit_len (w_tr w) bs /\
    exists b a q devq nodes',
      has_bytes (w_mem w') b (hdr_bytes src dst 0 (u16 ret) 0 ++ take (Z.to_nat ret) bs) /\
      metal_io_virt_to_phys (rv_shbuf_io (w_tr w)) b = Ok a /\
      tx_inv bld hdr_slot n (w_mem w') (w_tr w') (q_add q [(a, tx_size (w_tr w), false)] b) devq []
        nodes')).

Lemma send_ready w wait q devq nodes src dst data bs :
  quiet bld hdr_slot n sleep -> tx_inv bld hdr_slot n (w_mem w) (w_tr w) q devq [] nodes ->
  rd_lock (w_rdev w) = false -> ready w ->
  has_bytes (w_mem w) data bs -> out_of (rv_shbuf_io (w_tr w)) data (zlen bs) ->
  data + zlen bs <= rv_reclaimer (w_tr w) \/ rv_reclaimer (w_tr w) + 16 <= data ->
  exists w' ret,
    rpmsg_virtio_send_offchannel_raw bld func sleep wait_cb hdr_slot w src dst data (zlen bs) wait
      = Ok (w', ret) /\ send_result w w' ret src dst bs nodes /\ mapped (w_mem w') data (zlen bs).
Proof.
  intros Hq H Hl (st & Hst & Hok) Hb Ho Hr.
  assert (Hroom : q_free q <> [] -> zlen (@nil Z) < zlen (q_free q)).
  { change (zlen []) with 0. destruct (q_free q) as [|x l]; [done|]. rewrite zlen_cons.
    pose proof (zlen_nonneg l). lia. }
  destruct (get_payload_run bld hdr_slot n func sleep wait_cb w wait st q devq [] nodes Hq H Hl Hroom Hst Hok)
    as (w1 & p & len & R & K & D). unfold rpmsg_virtio_send_offchannel_raw, tr. rewrite R.
  cbn [mbind res_bind]. destruct D as [(-> & -> & q1 & d1 & H1)|(b & idx & q1 & d1 & nodes1 & -> & -> & Hi & Hh & H1)].
  { exists w1, RPMSG_ERR_NO_BUFF. split; [done|]. split; [|by apply has_bytes_mapped, (k_bytes _ _ K)].
    split_and!; try apply K. left. eauto. }
  pose proof (k_fixed _ _ K) as Ef. injection Ef as E1 E2 E3 E4 E5 E6 E7 E8 E9.
  assert (Esz : tx_size (w_tr w1) = tx_size (w_tr w)) by (unfold tx_size; by rewrite E1).
  assert (Efl : fit_len (w_tr w1) bs = fit_len (w_tr w) bs) by (unfold fit_len; by rewrite Esz).
  pose proof (te_size _ _ _ (ti_env _ _ _ _ _ _ _ _ _ H1)) as Hsz.
  pose proof (held_inside _ _ _ _ _ _ _ _ _ _ H1) as Hin.
  rewrite (proj2 (Z.eqb_neq _ _)) by
    (pose proof (inside_pos _ _ _ _ _ (ti_env _ _ _ _ _ _ _ _ _ H1) Hin); unfold SIZEOF_HDR; lia).
  destruct (raw_finish bld hdr_slot n w1 q1 d1 b [] nodes1 src dst data bs H1) as (w' & R' & S).
  { by rewrite (k_rdev _ _ K). }
  { by apply (k_bytes _ _ K). }
  { by rewrite E2. }
  destruct S as [S1 S2 S3 S4 S5 (a & Ha & S6) _]. rewrite E2 in Ha. rewrite Efl in R', S5. rewrite Esz in R', S6.
  exists w', (fit_len (w_tr w) bs). split; [exact R'|]. split; cycle 1.
  { eapply memstep_mapped; [exact S4|]. by apply has_bytes_mapped, (k_bytes _ _ K). }
  split_and!; [by rewrite S1, (k_rdev _ _ K)|by rewrite S2, (k_epts _ _ K)|by rewrite S3, (k_fixed _ _ K)|].
  right. split; [done|]. exists b, a, q1, d1, nodes1. done.
Qed.
End api.

(** With a wait callback that succeeds while no buffer comes, the wait does not end: the
    ticks are counted only where there is no callback. *)
Lemma tx_wait_loop_unbounded {B : Type} bld sleep (wait_cb : Z -> world (rpmsg_virtio B) -> Z -> res (world (rpmsg_virtio B) * Z))
    fuel w wa wb tick_count len idx :
  metal_mutex_acquire w = Ok wa -> rpmsg_virtio_get_tx_buffer bld wa = Ok (wb, 0, len, idx) ->
  rpmsg_virtio_notify_wait wait_cb (metal_mutex_release wb) (rv_rvq (w_tr wb)) = Ok (w, RPMSG_SUCCESS) ->
  tick_count <> 0 -> tx_wait_loop bld sleep wait_cb fuel w tick_count = Fault No_fuel.
Proof.
  intros Ha Hg Hn Ht. induction fuel as [|fuel IH]; [done|]. cbn [tx_wait_loop]. rewrite Ha. cbn [mbind res_bind].
  rewrite Hg. cbn [mbind res_bind]. rewrite (proj2 (Z.eqb_neq _ _) Ht). cbn [orb negb].
  change (0 =? 0) with true. cbn [orb negb]. change (rv_rvq (tr _)) with (rv_rvq (w_tr wb)).
  rewrite Hn. cbn [mbind res_bind]. exact IH.
Qed.


Lemma quiet_id {B} bld hdr_slot n : quiet bld hdr_slot n (@id (world (rpmsg_virtio B))).
Proof. intros w q devq held nodes H. exists q, devq. by split_and!. Qed.

Lemma demo_tx_bytes : has_bytes (w_mem demo_tx_world) 3072 [10; 20; 30].
Proof. apply has_bytes_put. Qed.

Lemma demo_tx_out : out_of (rv_shbuf_io (w_tr demo_tx_world)) 3072 (zlen [10; 20; 30]).
Proof. left. vm_compute. discriminate. Qed.


(** the zero-copy send.  A caller that holds the payload buffer of [b], with the
    payload [bs] written behind the header, and calls
    [rpmsg_virtio_send_offchannel_nocopy] always finds a free descriptor: the
    call returns the length, the buffer holds the header followed by the payload
    and is the newest chain offered to the device, the caller no longer owns it,
    nothing but the header changed, and the device is notified unless it asked
    not to be. *)
Theorem rpmsg_virtio_send_nocopy_spec {B : Type} (bld : build) (hdr_slot n : Z)
    (w : world (rpmsg_virtio B)) (q : queue) (devq : virtqueue) (b : Z) (held nodes : list Z)
    (src dst : Z) (bs : list Z)
    (Hinv : tx_inv bld hdr_slot n (w_mem w) (w_tr w) q devq (b :: held) nodes)
    (Hl : rd_lock (w_rdev w) = false) (Hlen : zlen bs <= tx_size (w_tr w) - SIZEOF_HDR)
    (Hb : has_bytes (w_mem w) (b + SIZEOF_HDR) bs) :
  exists w' a,
    rpmsg_virtio_send_offchannel_nocopy bld hdr_slot w src dst (b + SIZEOF_HDR) (zlen bs)
      = Ok (w', zlen bs) /\
    has_bytes (w_mem w') b (hdr_bytes src dst 0 (u16 (zlen bs)) 0 ++ bs) /\
    metal_io_virt_to_phys (rv_shbuf_io (w_tr w)) b = Ok a /\
    tx_inv bld hdr_slot n (w_mem w') (w_tr w') (q_add q [(a, tx_size (w_tr w), false)] b) devq held nodes /\
    memstep [(hdr_slot, 16); (b, 16)] (w_mem w) (w_mem w') /\
    w_rdev w' = w_rdev w /\ w_epts w' = w_epts w /\
    (forall vi f, tx_queue n (w_tr w) vi q devq -> notifies (w_tr w) vi f ->
       rv_calls (w_tr w') = rv_calls (w_tr w) ++ [f]).
Proof.
  destruct (nocopy_run bld hdr_slot n w q devq b held nodes src dst (zlen bs) Hinv Hl)
    as (w' & R & [S1 S2 S3 S4 S5 (a & Ha & S6) S7]).
  pose proof (held_inside _ _ _ _ _ _ _ _ _ _ Hinv) as Hin.
  pose proof (te_out _ _ _ (ti_env _ _ _ _ _ _ _ _ _ Hinv)) as (_ & Ho & _).
  exists w', a. split_and!; try done. apply has_bytes_app. split; [done|]. rewrite zlen_hdr_bytes.
  unfold SIZEOF_HDR in *. eapply memstep_bytes; [exact S4| |exact Hb].
  intros x s [[= -> ->]|[= -> ->]%list_elem_of_singleton]%elem_of_cons;
    unfold inside, out_of in *; pose proof (zlen_nonneg bs); lia.
Qed.

(** The demo driver after one buffer of the pool was taken. *)
Lemma demo_tx_taken :
  exists w : world (rpmsg_virtio unit), tx_inv demo_release 2048 8 (w_mem w) (w_tr w) (q_init 8) demo_tx_dev [4096] [] /\
    rd_lock (w_rdev w) = false /\ tx_size (w_tr w) = 32 /\
    exists idx, is_u16 idx /\ held_at 4096 idx (w_mem w) 1.
Proof.
  pose proof (get_payload_now demo_release 2048 8 demo_tx_func id (fun _ w _ => Ok (w, 0)) demo_tx_world
    VIRTIO_CONFIG_STATUS_DRIVER_OK (q_init 8) demo_tx_dev [] [] (mk_pool 4096 64 64) demo_tx_inv demo_tx_owns
    eq_refl) as H. change (w_tr demo_tx_world) with demo_tx in H.
  assert (E : tx_take demo_tx (q_init 8) [] (mk_pool 4096 64 64)
    = Some (4096, q_init 8, [], mk_pool 4096 32 64)) by (vm_compute; reflexivity).
  rewrite E in H. destruct H as (w & idx & _ & Hi & Hh & K & _ & Hinv).
  - intros _. vm_compute. reflexivity.
  - reflexivity.
  - vm_compute. discriminate.
  - exists w. split; [exact Hinv|]. split; [by rewrite (k_rdev _ _ K)|]. split; [|by exists idx].
    pose proof (k_fixed _ _ K) as Ef. injection Ef as Ef _ _ _ _ _ _ _ _. unfold tx_size. by rewrite Ef.
Qed.

Lemma rpmsg_virtio_send_nocopy_spec_witness :
  exists w w' : world (rpmsg_virtio unit),
    rpmsg_virtio_send_offchannel_nocopy demo_release 2048 w 1024 53 (4096 + SIZEOF_HDR) 0 = Ok (w', 0) /\
    has_bytes (w_mem w') 4096 (hdr_bytes 1024 53 0 0 0).
Proof.
  destruct demo_tx_taken as (w & Hinv & Hl & Hs & _). exists w.
  destruct (rpmsg_virtio_send_nocopy_spec demo_release 2048 8 w (q_init 8) demo_tx_dev 4096 [] [] 1024 53 []
    Hinv Hl) as (w' & a & R & Hm & _).
  - rewrite Hs. vm_compute. discriminate.
  - exact I.
  - exists w'. split; [exact R|]. by rewrite app_nil_r in Hm.
Defined.

(** giving back a payload buffer without sending it.  While others still hold
    the buffer, [rpmsg_virtio_release_tx_buffer] only counts one user less; the
    release of the last user makes it the last of the reclaimed buffers, whose
    first one the next request gets, and the invariant is kept. *)
Theorem rpmsg_virtio_release_tx_spec {B : Type} (bld : build) (hdr_slot n : Z)
    (w : world (rpmsg_virtio B)) (q : queue) (devq : virtqueue) (b idx c : Z) (held nodes : list Z)
    (Hinv : tx_inv bld hdr_slot n (w_mem w) (w_tr w) q devq (b :: held) nodes)
    (Hl : rd_lock (w_rdev w) = false) (Hi : is_u16 idx) (Hh : held_at b idx (w_mem w) c)
    (Hc : 1 <= c < 65536) :
  exists m', rpmsg_virtio_release_tx_buffer w (b + SIZEOF_HDR) = Ok (set_mem w m', RPMSG_SUCCESS) /\
    (c <> 1 -> held_at b idx m' (c - 1) /\
       tx_inv bld hdr_slot n m' (w_tr w) q devq (b :: held) nodes) /\
    (c = 1 -> tx_inv bld hdr_slot n m' (w_tr w) q devq held (nodes ++ [b]) /\
       exists w2 idx2,
         rpmsg_virtio_get_tx_buffer bld (set_mem w m')
           = Ok (w2, hd b nodes, tx_size (w_tr w), idx2)).
Proof.
  destruct (release_tx_run bld hdr_slot n w q devq b idx c held nodes Hinv Hl Hi Hh Hc) as (m' & R & H').
  exists m'. split; [exact R|]. split; intros Ec.
  - by rewrite (proj2 (Z.eqb_neq _ _)) in H'.
  - subst c. cbn in H'. split; [exact H'|].
    assert (exists x rest, nodes ++ [b] = x :: rest /\ x = hd b nodes) as (x & rest & E & ->).
    { destruct nodes as [|x r]; eexists _, _; split; reflexivity. }
    rewrite E in H'. destruct (get_tx_reclaimed bld hdr_slot n (set_mem w m') q devq held _ _ H')
      as (m2 & idx2 & R2 & _). eauto.
Qed.

Lemma rpmsg_virtio_release_tx_spec_witness :
  exists (w : world (rpmsg_virtio unit)) m' w2 idx2,
    rpmsg_virtio_release_tx_buffer w (4096 + SIZEOF_HDR) = Ok (set_mem w m', RPMSG_SUCCESS) /\
    rpmsg_virtio_get_tx_buffer demo_release (set_mem w m') = Ok (w2, 4096, 32, idx2).
Proof.
  destruct demo_tx_taken as (w & Hinv & Hl & Hs & idx & Hi & Hh). exists w.
  destruct (rpmsg_virtio_release_tx_spec demo_release 2048 8 w (q_init 8) demo_tx_dev 4096 idx 1 [] []
    Hinv Hl Hi Hh) as (m' & R & _ & H); [lia|].
  destruct (H eq_refl) as (_ & w2 & idx2 & R2). rewrite Hs in R2. exists m', w2, idx2. done.
Defined.

(** ** The interface of the core *)

Section interface.
Context {B : Type} (bld : build) (func : option (virtio_dispatch B)) (hdr_slot ns_slot n : Z).
Context (sleep : world (rpmsg_virtio B) -> world (rpmsg_virtio B)).
Context (wait_cb : Z -> world (rpmsg_virtio B) -> Z -> res (world (rpmsg_virtio B) * Z)).
Hypothesis Hquiet : quiet bld hdr_slot n sleep.
(** The device's status can be read. *)
Hypothesis Hstatus : forall v, exists r st, virtio_get_status func v = Ok (r, st).
Hypothesis Hslot : ns_slot <> 0.

(** The local variables are apart from each other and from the shared memory. *)
Definition slots_apart (t : rpmsg_virtio B) : Prop :=
  out_of (rv_shbuf_io t) ns_slot SIZEOF_NS_MSG /\
  (ns_slot + SIZEOF_NS_MSG <= rv_reclaimer t \/ rv_reclaimer t + 16 <= ns_slot).

Definition virtio_ok (m : gmap Z Z) (t : rpmsg_virtio B) : Prop :=
  (exists q devq nodes, tx_inv bld hdr_slot n m t q devq [] nodes) /\ slots_apart t /\
  exists bs, zlen bs = SIZEOF_NS_MSG /\ has_bytes m ns_slot bs /\ Forall is_u8 bs.

Lemma virtio_ok_write m t bs :
  virtio_ok m t -> zlen bs = SIZEOF_NS_MSG -> Forall is_u8 bs -> virtio_ok (put_bytes m ns_slot bs) t.
Proof.
  intros ((q & devq & nodes & [He Hm Hq [pool Ho]]) & Hs & _) Hz Hu. split; [|split; [done|]].
  - exists q, devq, nodes. split; [done| |done|by exists pool].
    apply (tx_mem_step hdr_slot [(ns_slot, zlen bs)] m); [by apply memstep_put| |done].
    intros x a s Hx [= -> ->]%list_elem_of_singleton. destruct Hs as [H1 H2]. rewrite Hz.
    pose proof (te_size _ _ _ He).
    apply elem_of_cons in Hx as [->|Hx]; [lia|].
    assert (Hin : inside (rv_shbuf_io t) x (tx_size t)).
    { apply (tx_buf_in _ _ _ _ _ _ Ho). unfold tx_bufs. set_solver. }
    unfold out_of, inside in *. lia.
  - exists bs. split_and!; [done|apply has_bytes_put|done].
Qed.

Lemma mapped_bytes m a k :
  mem_wf m -> 0 <= k -> mapped m a k -> exists bs, zlen bs = k /\ has_bytes m a bs /\ Forall is_u8 bs.
Proof.
  intros Hw Hk Hm. destruct (mapped_word (Z.to_nat k) m a Hw) as (v & Hv & _); [by rewrite Z2Nat.id|].
  exists (le_bytes (Z.to_nat k) v). split_and!; [by rewrite zlen_le_bytes, Z2Nat.id|done|apply le_bytes_u8].
Qed.

Lemma slots_apart_fixed t t' : tx_fixed t' = tx_fixed t -> slots_apart t -> slots_apart t'.
Proof. unfold slots_apart. intros E. injection E as _ E2 E3 _ _ _ _ _ _. by rewrite E2, E3. Qed.

Lemma virtio_ok_send w src dst bs wait :
  virtio_ok (w_mem w) (w_tr w) -> rd_lock (w_rdev w) = false ->
  zlen bs = SIZEOF_NS_MSG -> has_bytes (w_mem w) ns_slot bs ->
  exists w' r,
    rpmsg_virtio_send_offchannel_raw bld func sleep wait_cb hdr_slot w src dst ns_slot SIZEOF_NS_MSG wait
      = Ok (w', r) /\
    w_epts w' = w_epts w /\ w_rdev w' = w_rdev w /\ virtio_ok (w_mem w') (w_tr w').
Proof.
  intros Hok Hl Hz Hb. pose proof Hok as ((q & devq & nodes & H) & Hs & _).
  destruct (Hstatus (rv_vdev (w_tr w))) as (r & st & Est).
  destruct (status_cases func w r st Est) as [Hr|Hn].
  - destruct Hs as [Hs1 Hs2]. rewrite <- Hz in Hs1, Hs2 |- *.
    destruct (send_ready bld func hdr_slot n sleep wait_cb w wait q devq nodes src dst ns_slot bs
      Hquiet H Hl Hr Hb Hs1 Hs2) as (w' & ret & R & (K1 & K2 & K3 & D) & M).
    assert (Hinv : exists q devq nodes, tx_inv bld hdr_slot n (w_mem w') (w_tr w') q devq [] nodes)
      by (destruct D as [(_ & q' & d' & D)|(_ & b & a & q' & d' & nd & _ & _ & D)]; eauto).
    exists w', ret. split_and!; try done. split; [done|].
    split; [by apply (slots_apart_fixed (w_tr w)), Hok|]. destruct Hinv as (q' & d' & nd & Hinv).
    apply mapped_bytes; [apply (ti_mem _ _ _ _ _ _ _ _ _ Hinv)|done|by rewrite <- Hz].
  - exists w, RPMSG_ERR_NO_BUFF. split_and!; try done.
    unfold rpmsg_virtio_send_offchannel_raw. by rewrite payload_not_ready.
Qed.

(** The virtio transport in the driver role implements the core's interface. *)
#[export, program] Instance virtio_transport
  : Transport (rpmsg_virtio_ops bld func sleep wait_cb hdr_slot) ns_slot := {
  tr_ok := virtio_ok
}.
Next Obligation. exact Hslot. Qed.
Next Obligation. intros m t (_ & _ & H). exact H. Qed.
Next Obligation. intros m t bs. apply virtio_ok_write. Qed.
Next Obligation.
  intros f [= <-] w src dst bs wait Hok Hl Hz Hb. by apply (virtio_ok_send w src dst bs wait).
Qed.
End interface.

(** C15: the virtio transport in the driver role is a transport in the sense of the
    core: whatever the state of its queue, sending the name service announcement
    returns, leaves the endpoints, the address bitmap and the lock alone, and
    leaves the transport in a state from which this holds again.  So the
    properties of endpoint creation and destruction hold over it. *)
Theorem rpmsg_virtio_is_transport {B : Type} (bld : build) (func : option (virtio_dispatch B))
    (hdr_slot ns_slot n : Z) (sleep : world (rpmsg_virtio B) -> world (rpmsg_virtio B))
    (wait_cb : Z -> world (rpmsg_virtio B) -> Z -> res (world (rpmsg_virtio B) * Z))
    (m : gmap Z Z) (t : rpmsg_virtio B) (q : queue) (devq : virtqueue) (nodes bs : list Z)
    (Hquiet : quiet bld hdr_slot n sleep)
    (Hstatus : forall v, exists r st, virtio_get_status func v = Ok (r, st))
    (Hslot : ns_slot <> 0)
    (Hinv : tx_inv bld hdr_slot n m t q devq [] nodes) (Hap : slots_apart ns_slot t)
    (Hz : zlen bs = SIZEOF_NS_MSG) (Hb : has_bytes m ns_slot bs) :
  exists TR : Transport (rpmsg_virtio_ops bld func sleep wait_cb hdr_slot) ns_slot,
    @tr_ok _ _ _ TR m t.
Proof.
  exists (virtio_transport bld func hdr_slot ns_slot n sleep wait_cb Hquiet Hstatus Hslot).
  split; [by exists q, devq, nodes|]. split; [done|]. exists bs. split_and!; try done.
  apply (has_bytes_u8 m ns_slot); [|done]. apply (ti_mem _ _ _ _ _ _ _ _ _ Hinv).
Qed.

Definition demo_ns_mem : gmap Z Z := put_bytes demo_tx_mem 3000 (fill 40 7).

Lemma demo_ns_inv : tx_inv demo_release 2048 8 demo_ns_mem demo_tx (q_init 8) demo_tx_dev [] [].
Proof.
  destruct demo_tx_inv as [He Hm Hq Ho]. split; [exact He| |exact Hq|exact Ho].
  apply (tx_mem_step 2048 [(3000, zlen (fill 40 7))] demo_tx_mem); [| |exact Hm].
  - apply memstep_put, fill_u8. unfold is_u8. lia.
  - intros x a s ->%list_elem_of_singleton [= -> ->]%list_elem_of_singleton. left. vm_compute. discriminate.
Qed.

Lemma rpmsg_virtio_is_transport_witness :
  exists TR : Transport (rpmsg_virtio_ops demo_release demo_tx_func id (fun _ w _ => Ok (w, 0)) 2048) 3000,
    @tr_ok _ _ _ TR demo_ns_mem demo_tx.
Proof.
  apply (rpmsg_virtio_is_transport demo_release demo_tx_func 2048 3000 8 id (fun _ w _ => Ok (w, 0))
    demo_ns_mem demo_tx (q_init 8) demo_tx_dev [] (fill 40 7) (quiet_id _ _ _)).
  - intros v. eexists _, _. reflexivity.
  - lia.
  - exact demo_ns_inv.
  - split; [left|right]; vm_compute; discriminate.
  - reflexivity.
  - apply has_bytes_put.
Defined.
