(* ===== verification/RpmsgRx.v ===== *)
(** * Reception in the device role (rpmsg_virtio.c)

    One round of [rpmsg_virtio_rx_callback]: the oldest message is taken, its
    endpoint called with the payload, and the buffer returned to the driver
    unless the endpoint kept it; and the way of a message from the driver's send
    to the endpoint on the device's side. *)

From S2P Require Import Prelude MetalUtil MetalIo Vring Virtqueue VirtqueueInv VirtqueueRefine.
From S2P Require Import VirtqueueSys Virtio Rpmsg RpmsgInv RpmsgVirtio RpmsgBuf RpmsgTx.

Section rx.
Context {B : Type} (bld : build) (empty_notify : bool) (env : callbacks (rpmsg_virtio B)).
Context (name_slot ns_cb n : Z).
Implicit Types (w : world (rpmsg_virtio B)) (t : rpmsg_virtio B).

Record rx_env t : Prop := {
  re_drv : VIRTIO_ROLE_IS_DRIVER bld (vd_dev (rv_vdev t)) = false;
  re_dev : VIRTIO_ROLE_IS_DEVICE bld (vd_dev (rv_vdev t)) = true
}.

(** The device's receive queue represents [q]. *)
Definition rx_queue t (q : queue) (drv : virtqueue) (vi : virtio_vring_info) : Prop :=
  zget (vd_vrings (rv_vdev t)) (rv_rvq t) = Some vi /\ vq_rel n q drv (vi_vq vi) (vi_ring vi).

(** The transport is the same as far as reception is concerned. *)
Definition rx_same t t' : Prop :=
  vd_dev (rv_vdev t') = vd_dev (rv_vdev t) /\ rv_rvq t' = rv_rvq t /\
  zget (vd_vrings (rv_vdev t')) (rv_rvq t') = zget (vd_vrings (rv_vdev t)) (rv_rvq t).

Lemma rx_env_same t t' : rx_same t t' -> rx_env t -> rx_env t'.
Proof. intros (E & _ & _) [H1 H2]. split; by rewrite E. Qed.

Lemma rx_queue_same t t' q drv vi : rx_same t t' -> rx_queue t q drv vi -> rx_queue t' q drv vi.
Proof. intros (_ & _ & E) [H1 H2]. split; [by rewrite E|done]. Qed.

(** ** Taking the oldest message *)

Lemma get_rx_run w q drv vi c rest a l wr b :
  rx_env (w_tr w) -> rx_queue (w_tr w) q drv vi ->
  q_avail q = c :: rest -> c_bufs c = [(a, l, wr)] ->
  metal_io_phys_to_virt (vq_shm_io (vi_vq vi)) a = Ok b ->
  exists t' vi',
    rpmsg_virtio_get_rx_buffer bld w = Ok (set_tr w t', b, l, c_head c) /\
    rx_env t' /\ rx_queue t' (mk_queue rest (q_held q ++ [c]) (q_used q) (q_free q) (q_recl q)) drv vi' /\
    vq_conf (vi_vq vi') = vq_conf (vi_vq vi).
Proof.
  intros He [Hv Hr] Ha Hc Hp. pose proof (get_available_refines bld n q drv (vi_vq vi) (vi_ring vi) Hr) as Hg.
  unfold q_take in Hg. rewrite Ha in Hg. destruct (Hg a l wr [] b Hc Hp) as (devq' & Hrun & Hrel & Hcf).
  eexists _, _. split; [|split; [|split]].
  - unfold rpmsg_virtio_get_rx_buffer, is_driver, is_device, dev_of, tr. rewrite (re_drv _ He).
    run (reflexivity). rewrite (re_dev _ He). unfold vq_get_available.
    run (by apply vring_at_run). run (exact Hrun). run (by apply vring_put_run). reflexivity.
  - by destruct He as [H1 H2].
  - split; [by apply put_vring_get|exact Hrel].
  - exact Hcf.
Qed.

Lemma get_rx_empty w q drv vi :
  rx_env (w_tr w) -> rx_queue (w_tr w) q drv vi -> q_avail q = [] ->
  rpmsg_virtio_get_rx_buffer bld w = Ok (w, 0, 0, 0).
Proof.
  intros He [Hv Hr] Ha. pose proof (get_available_refines bld n q drv (vi_vq vi) (vi_ring vi) Hr) as Hg.
  unfold q_take in Hg. rewrite Ha in Hg.
  unfold rpmsg_virtio_get_rx_buffer, is_driver, is_device, dev_of, tr. rewrite (re_drv _ He).
  run (reflexivity). rewrite (re_dev _ He). unfold vq_get_available.
  run (by apply vring_at_run). run (exact Hg). run (by apply vring_put_run).
  rewrite put_vring_id by done. by destruct w.
Qed.

(** ** Returning a buffer *)

Lemma kick_rx w q drv vi :
  rx_env (w_tr w) -> rx_queue (w_tr w) q drv vi ->
  exists t' vi', vq_kick bld w (rv_rvq (w_tr w)) = Ok (set_tr w t') /\ rx_env t' /\
    rx_queue t' q drv vi' /\ vq_conf (vi_vq vi') = vq_conf (vi_vq vi).
Proof.
  intros He [Hv Hr]. pose proof Hr as [R1 R2 R3].
  pose proof (kick_core bld (dev_of w) (vi_vq vi) (vi_ring vi) (de_idle _ _ _ R3)) as Hk.
  set (t1 := put_vring (w_tr w) (rv_rvq (w_tr w)) vi (set_queued_cnt (vi_vq vi) 0) (vi_ring vi)).
  set (call := if vq_ring_must_notify bld (dev_of w) (vi_vq vi) (vi_ring vi)
               then vq_ring_notify (vi_vq vi) else None) in Hk.
  exists (match call with Some f => rv_set_calls t1 (rv_calls t1 ++ [f]) | None => t1 end),
    (set_vring vi (set_queued_cnt (vi_vq vi) 0) (vi_ring vi)).
  assert (Hq1 : rx_queue t1 q drv (set_vring vi (set_queued_cnt (vi_vq vi) 0) (vi_ring vi))).
  { split; [by apply put_vring_get|]. split; [done|done|by apply dev_rel_queued]. }
  assert (He1 : rx_env t1) by (by destruct He).
  split; [|split_and!].
  - unfold vq_kick. run (by apply vring_at_run). run (exact Hk). run (by apply vring_put_run).
    by destruct call.
  - destruct call; [|done]. by destruct He1.
  - by destruct call.
  - done.
Qed.

(** The chain [c], last taken, goes back with its length. *)
Lemma return_rx w q0 drv vi c a l wr b k :
  rx_env (w_tr w) -> rx_queue (w_tr w) q0 drv vi ->
  q_held q0 !! k = Some c -> c_bufs c = [(a, l, wr)] ->
  held_at b (c_head c) (w_mem w) 0 ->
  exists t' vi', rpmsg_virtio_release_rx_buffer_nolock bld w b = Ok (set_tr w t') /\ rx_env t' /\
    rx_queue t' (q_consume q0 k c l) drv vi' /\ vq_conf (vi_vq vi') = vq_conf (vi_vq vi).
Proof.
  intros He [Hv Hr] Hk Hc Hh. pose proof Hr as [R1 R2 R3].
  assert (Hin : c ∈ q_live q0).
  { unfold q_live. rewrite !elem_of_app. right. left. by eapply list_elem_of_lookup_2. }
  pose proof (rel_head_range R1 c Hin) as Hhr. pose proof (rel_bounds R1) as Hb.
  assert (Hi : is_u16 (c_head c)) by (unfold is_u16; lia).
  destruct (chain_path_head _ _ _ (rel_path R1 c Hin)) as (a' & l' & w' & bs & more & nx & Eb & Ed).
  rewrite Hc in Eb. injection Eb as <- <- <- <-. fold (c_head c) in Ed.
  destruct (add_consumed_refines bld n q0 drv (vi_vq vi) (vi_ring vi) k c l Hr Hk)
    as (devq' & ring' & Hrun & Hrel & Hcf).
  eexists _, _. split; [|split; [|split]].
  - unfold rpmsg_virtio_release_rx_buffer_nolock. run (by apply (held_ld b (c_head c) Hi (w_mem w) 0); [|lia]).
    rewrite buf_index by (done || lia).
    run (unfold vq_buffer_length; run (by apply vring_at_run); unfold virtqueue_get_buffer_length;
         run (by apply rget_Some); reflexivity).
    unfold rpmsg_virtio_return_buffer, is_driver, is_device, dev_of, tr. rewrite (re_drv _ He).
    run (reflexivity). rewrite (re_dev _ He).
    run (unfold vq_add_consumed; run (by apply vring_at_run); run (exact Hrun);
         run (by apply vring_put_run); reflexivity). run (reflexivity). reflexivity.
  - by destruct He.
  - split; [by apply put_vring_get|exact Hrel].
  - exact Hcf.
Qed.

(** ** One round *)

(** The rest of a round after the delivery, in the words of the loop. *)
Definition rx_after (fuel : nat) w (ept rp_hdr : Z) (release : bool) : res (world (rpmsg_virtio B)) :=
  w ← metal_mutex_acquire w;
  w ← rpmsg_ept_decref env w ept;
  '(m, last) ← rpmsg_virtio_buf_held_dec_test (w_mem w) rp_hdr;
  let w := set_mem w m in
  '(w, release) ←
    (if last : bool then
       w ← rpmsg_virtio_release_rx_buffer_nolock bld w rp_hdr;
       if empty_notify then Ok (w, true)
       else w ← vq_kick bld w (rv_rvq (tr w)); Ok (w, release)
     else Ok (w, release));
  rx_loop bld empty_notify env name_slot ns_cb fuel (metal_mutex_release w) release.

(** A message in memory, as a header at [b] announces it. *)
Record msg_at (m : gmap Z Z) (b src dst len : Z) : Prop := {
  mg_src : word 4 m b src /\ is_u32 src;
  mg_dst : word 4 m (b + HDR_DST) dst /\ is_u32 dst;
  mg_len : word 2 m (b + HDR_LEN) len /\ is_u16 len;
  mg_res : mapped m (b + HDR_RESERVED) 4
}.

(** The endpoint while its callback runs: one more reference, bound to the sender
    if it was unbound. *)
Definition ept_called (e : rpmsg_endpoint) (src : Z) : rpmsg_endpoint :=
  let e := ept_set_refcnt e (u32 (ept_refcnt e + 1)) in
  if ept_dest_addr e =? RPMSG_ADDR_ANY then ept_set_dest e src else e.

Record before_call w w1 (q : queue) (drv : virtqueue) (vi : virtio_vring_info) (c : chain)
    (rest : list chain) (ept : Z) (e : rpmsg_endpoint) (b src : Z) : Prop := {
  bc_rdev : w_rdev w1 = w_rdev w;
  bc_epts : w_epts w1 = <[ept := ept_called e src]> (w_epts w);
  bc_mem : memstep [(b + HDR_RESERVED, 4)] (w_mem w) (w_mem w1);
  bc_held : held_at b (c_head c) (w_mem w1) 1;
  bc_env : rx_env (w_tr w1);
  bc_queue : exists vi',
    rx_queue (w_tr w1) (mk_queue rest (q_held q ++ [c]) (q_used q) (q_free q) (q_recl q)) drv vi' /\
    vq_conf (vi_vq vi') = vq_conf (vi_vq vi)
}.

Lemma deliver_run w ept e b src dst len :
  msg_at (w_mem w) b src dst len -> ept <> 0 -> ept_cb e <> ns_cb ->
  w_epts w !! ept = Some (ept_set_refcnt e (u32 (ept_refcnt e + 1))) ->
  rx_deliver env name_slot ns_cb w ept b =
    ('(w2, st) ← call_ept env (ept_cb e)
       (mk_world (w_mem w) (<[ept := ept_called e src]> (w_epts w)) (w_rdev w) (w_tr w))
       ept (b + SIZEOF_HDR) len src (ept_priv e);
     _ ← rassert (0 <=? st); Ok w2).
Proof.
  intros [[Ms Ms'] _ [Ml Ml'] _] Hne Hcb He. unfold rx_deliver. rewrite (proj2 (Z.eqb_neq _ _) Hne).
  rewrite (get_ept_run _ _ _ He). cbn [mbind res_bind].
  rewrite (ld_word 4 _ _ _ Ms) by exact Ms'. cbn [mbind res_bind].
  set (e1 := ept_set_refcnt e _) in *.
  assert (Hw : (if ept_dest_addr e1 =? RPMSG_ADDR_ANY then put_ept w ept (ept_set_dest e1 src) else w) =
    mk_world (w_mem w) (<[ept := ept_called e src]> (w_epts w)) (w_rdev w) (w_tr w)).
  { unfold ept_called. fold e1. destruct (ept_dest_addr e1 =? RPMSG_ADDR_ANY); [done|].
    rewrite insert_id by done. by destruct w. }
  rewrite Hw. set (w' := mk_world _ _ _ _). rewrite (get_ept_run w' ept (ept_called e src)) by apply lookup_insert_eq.
  cbn [mbind res_bind]. change (w_mem w') with (w_mem w). rewrite (ld_word 2 _ _ _ Ml) by exact Ml'.
  cbn [mbind res_bind]. unfold ept_callback.
  replace (ept_cb (ept_called e src)) with (ept_cb e)
    by (unfold ept_called; by destruct (ept_dest_addr _ =? _)).
  replace (ept_priv (ept_called e src)) with (ept_priv e)
    by (unfold ept_called; by destruct (ept_dest_addr _ =? _)).
  rewrite (proj2 (Z.eqb_neq _ _) Hcb). done.
Qed.

Lemma msg_at_step rs m m' b src dst len :
  memstep rs m m' -> (forall a s, (a, s) ∈ rs -> b + HDR_RESERVED <= a /\ a + s <= b + HDR_LEN) ->
  msg_at m b src dst len -> msg_at m' b src dst len.
Proof.
  intros Hs Hr [[M1 M1'] [M2 M2'] [M3 M3'] M4]. unfold HDR_DST, HDR_LEN, HDR_RESERVED in *.
  split; [| | |by eapply memstep_mapped]; (split; [|done]); (eapply memstep_bytes; [exact Hs| |done]);
    intros a s Hin; specialize (Hr a s Hin); rewrite zlen_le_bytes; unfold HDR_DST, HDR_LEN in *; lia.
Qed.


(** The header of a buffer just received. *)
Lemma mark_rx m b src dst len idx :
  msg_at m b src dst len -> is_u16 idx ->
  let m1 := put_bytes m (b + HDR_RESERVED) (le_bytes 4 idx) in
  st 4 m (b + HDR_RESERVED) idx = Ok m1 /\ msg_at m1 b src dst len /\
  exists m2, held_inc m1 b = Ok m2 /\ held_at b idx m2 1 /\ msg_at m2 b src dst len /\
    memstep [(b + HDR_RESERVED, 4)] m m2.
Proof.
  intros H Hi m1.
  assert (Hs1 : memstep [(b + HDR_RESERVED, 4)] m m1) by apply (memstep_put _ _ (le_bytes 4 idx)), le_bytes_u8.
  assert (Hr : forall a s, (a, s) ∈ [(b + HDR_RESERVED, 4)] -> b + HDR_RESERVED <= a /\ a + s <= b + HDR_LEN).
  { intros a s [= -> ->]%list_elem_of_singleton. unfold HDR_RESERVED, HDR_LEN. lia. }
  pose proof (msg_at_step _ _ _ _ _ _ _ Hs1 Hr H) as H1.
  destruct (held_inc_run b idx Hi m1 0) as (m2 & R & Hh & Hs2); [|lia|].
  { unfold held_at. rewrite Z.mul_0_r, Z.add_0_r. apply word_put. }
  split; [by apply st_word, (mg_res _ _ _ _ _ H)|]. split; [done|]. exists m2. split_and!; try done.
  - by apply (msg_at_step _ _ _ _ _ _ _ Hs2 Hr).
  - by etransitivity.
Qed.

(** The start of a round, up to the delivery, for a buffer [b] the queue gave:
    [ept] is 0 when no endpoint has the message's destination. *)
Lemma round_start w fuel release t1 b l idx src dst len ept E1 :
  let w0 := set_rdev w (rd_set_lock (w_rdev w) true) in
  rd_lock (w_rdev w) = false -> rpmsg_virtio_get_rx_buffer bld w0 = Ok (set_tr w0 t1, b, l, idx) ->
  is_u16 idx -> b <> 0 -> msg_at (w_mem w) b src dst len -> rpmsg_get_ept_from_addr w dst = Ok ept ->
  (forall w', w_epts w' = w_epts w -> rpmsg_ept_incref w' ept = Ok (set_epts w' E1)) ->
  exists m2,
    rx_loop bld empty_notify env name_slot ns_cb (S fuel) w release =
      (w2 ← rx_deliver env name_slot ns_cb (mk_world m2 E1 (w_rdev w) t1) ept b;
       rx_after fuel w2 ept b release) /\
    memstep [(b + HDR_RESERVED, 4)] (w_mem w) m2 /\ held_at b idx m2 1 /\ msg_at m2 b src dst len.
Proof.
  intros w0 Hl R Hi Hb Hm Hf Hinc.
  destruct (mark_rx _ _ _ _ _ _ Hm Hi) as (S1 & M1 & m2 & S2 & Hh & M2 & Hs).
  set (m1 := put_bytes (w_mem w) (b + HDR_RESERVED) (le_bytes 4 idx)) in *.
  exists m2. split; [|done].
  cbn [rx_loop]. rewrite acquire_run by done. cbn [mbind res_bind]. fold w0. rewrite R. cbn [mbind res_bind].
  rewrite (proj2 (Z.eqb_neq _ _) Hb). change (w_mem (set_tr w0 t1)) with (w_mem w). rewrite S1.
  cbn [mbind res_bind]. rewrite (ld_word 4 m1 _ dst) by apply M1. cbn [mbind res_bind].
  set (wb := set_mem (set_tr w0 t1) m1).
  assert (Hf' : rpmsg_get_ept_from_addr wb dst = Ok ept) by (rewrite <- Hf; by apply get_endpoint_ext).
  rewrite Hf'. cbn [mbind res_bind]. rewrite Hinc by done. cbn [mbind res_bind].
  change (w_mem (set_epts wb E1)) with m1. rewrite S2. cbn [mbind res_bind].
  assert (Hw : metal_mutex_release (set_mem (set_epts wb E1) m2) = mk_world m2 E1 (w_rdev w) t1).
  { unfold metal_mutex_release, set_mem, set_epts, set_rdev, wb, w0. cbn. by rewrite unlock_relock. }
  by rewrite Hw.
Qed.

Lemma rx_round_start w fuel release q drv vi c rest a l wr b src dst len ept E1 :
  rx_env (w_tr w) -> rx_queue (w_tr w) q drv vi -> rd_lock (w_rdev w) = false ->
  q_avail q = c :: rest -> c_bufs c = [(a, l, wr)] ->
  metal_io_phys_to_virt (vq_shm_io (vi_vq vi)) a = Ok b -> b <> 0 ->
  msg_at (w_mem w) b src dst len -> rpmsg_get_ept_from_addr w dst = Ok ept ->
  (forall w', w_epts w' = w_epts w -> rpmsg_ept_incref w' ept = Ok (set_epts w' E1)) ->
  exists m2 t1 vi1,
    rx_loop bld empty_notify env name_slot ns_cb (S fuel) w release =
      (w2 ← rx_deliver env name_slot ns_cb (mk_world m2 E1 (w_rdev w) t1) ept b;
       rx_after fuel w2 ept b release) /\
    is_u16 (c_head c) /\ memstep [(b + HDR_RESERVED, 4)] (w_mem w) m2 /\
    held_at b (c_head c) m2 1 /\ msg_at m2 b src dst len /\ rx_env t1 /\
    rx_queue t1 (mk_queue rest (q_held q ++ [c]) (q_used q) (q_free q) (q_recl q)) drv vi1 /\
    vq_conf (vi_vq vi1) = vq_conf (vi_vq vi).
Proof.
  intros He Hq Hl Ha Hc Hp Hb Hm Hf Hinc.
  destruct (get_rx_run (set_rdev w (rd_set_lock (w_rdev w) true)) q drv vi c rest a l wr b He Hq Ha Hc Hp)
    as (t1 & vi1 & R & He1 & Hq1 & Hcf).
  assert (Hi : is_u16 (c_head c)).
  { destruct Hq as [_ [R1 _ _]]. assert (Hin : c ∈ q_live q)
      by (unfold q_live; rewrite Ha; left). pose proof (rel_head_range R1 c Hin). pose proof (rel_bounds R1).
    unfold is_u16. lia. }
  destruct (round_start w fuel release t1 b l (c_head c) src dst len ept E1 Hl R Hi Hb Hm Hf Hinc)
    as (m2 & Hr & Hs & Hh & M2).
  exists m2, t1, vi1. split; [exact Hr|done].
Qed.

Lemma incref_run w ept e :
  ept <> 0 -> w_epts w !! ept = Some e ->
  forall w', w_epts w' = w_epts w ->
  rpmsg_ept_incref w' ept = Ok (set_epts w' (<[ept := ept_set_refcnt e (u32 (ept_refcnt e + 1))]> (w_epts w))).
Proof.
  intros Hne He w' Ew. unfold rpmsg_ept_incref. rewrite (proj2 (Z.eqb_neq _ _) Hne).
  rewrite <- Ew in He |- *. by rewrite (get_ept_run _ _ _ He).
Qed.

(** The delivery to an endpoint of the user, in the world of [round_start]. *)
Lemma round_call m2 t1 w fuel release ept e b src dst len :
  msg_at m2 b src dst len -> ept <> 0 -> ept_cb e <> ns_cb ->
  (w2 ← rx_deliver env name_slot ns_cb
          (mk_world m2 (<[ept := ept_set_refcnt e (u32 (ept_refcnt e + 1))]> (w_epts w)) (w_rdev w) t1) ept b;
   rx_after fuel w2 ept b release) =
  ('(w2, st) ← call_ept env (ept_cb e)
     (mk_world m2 (<[ept := ept_called e src]> (w_epts w)) (w_rdev w) t1) ept (b + SIZEOF_HDR) len src (ept_priv e);
   _ ← rassert (0 <=? st);
   rx_after fuel w2 ept b release).
Proof.
  intros M2 Hne Hcb. set (e1 := ept_set_refcnt e (u32 (ept_refcnt e + 1))).
  set (wd := mk_world m2 (<[ept := e1]> (w_epts w)) (w_rdev w) t1).
  pose proof (deliver_run wd ept e b src dst len M2 Hne Hcb (lookup_insert_eq _ _ _)) as Hd.
  change (w_mem wd) with m2 in Hd. change (w_rdev wd) with (w_rdev w) in Hd. change (w_tr wd) with t1 in Hd.
  change (w_epts wd) with (<[ept := e1]> (w_epts w)) in Hd. rewrite insert_insert_eq in Hd.
  rewrite Hd. destruct (call_ept env (ept_cb e) _ _ _ _ _ _) as [[w2 st]|f]; [|done].
  cbn [mbind res_bind]. by destruct (rassert (0 <=? st)).
Qed.

Lemma rx_round w fuel release q drv vi c rest a l wr b src dst len ept e :
  rx_env (w_tr w) -> rx_queue (w_tr w) q drv vi -> rd_lock (w_rdev w) = false ->
  q_avail q = c :: rest -> c_bufs c = [(a, l, wr)] ->
  metal_io_phys_to_virt (vq_shm_io (vi_vq vi)) a = Ok b -> b <> 0 ->
  msg_at (w_mem w) b src dst len ->
  rpmsg_get_ept_from_addr w dst = Ok ept -> ept <> 0 -> w_epts w !! ept = Some e -> ept_cb e <> ns_cb ->
  exists w1, before_call w w1 q drv vi c rest ept e b src /\ is_u16 (c_head c) /\
    rx_loop bld empty_notify env name_slot ns_cb (S fuel) w release =
      ('(w2, st) ← call_ept env (ept_cb e) w1 ept (b + SIZEOF_HDR) len src (ept_priv e);
       _ ← rassert (0 <=? st);
       rx_after fuel w2 ept b release).
Proof.
  intros He Hq Hl Ha Hc Hp Hb Hm Hf Hne Hept Hcb.
  destruct (rx_round_start w fuel release q drv vi c rest a l wr b src dst len ept _ He Hq Hl Ha Hc Hp Hb Hm Hf
    (incref_run w ept e Hne Hept)) as (m2 & t1 & vi1 & R & Hi & Hs & Hh & M2 & He1 & Hq1 & Hcf).
  exists (mk_world m2 (<[ept := ept_called e src]> (w_epts w)) (w_rdev w) t1). split; [|split; [done|]].
  { split; try done. by exists vi1. }
  rewrite R. by apply (round_call m2 t1 w fuel release ept e b src dst len).
Qed.

(** The callback respected the transport: the receive queue is untouched, the
    endpoint is still there with the reference the transport took, and the buffer
    has [cnt] users, the transport among them. *)
Record polite w1 w2 (ept : Z) (e2 : rpmsg_endpoint) (b idx cnt : Z) : Prop := {
  pl_tr : rx_same (w_tr w1) (w_tr w2);
  pl_lock : rd_lock (w_rdev w2) = false;
  pl_ept : w_epts w2 !! ept = Some e2 /\ 2 <= ept_refcnt e2 < 4294967296;
  pl_held : held_at b idx (w_mem w2) cnt /\ 1 <= cnt < 65536
}.

(** The world after the round: the reference is dropped, and the buffer is back
    with the driver or kept for its other users. *)
Record after_call w2 w3 (qh : queue) (drv : virtqueue) (vi : virtio_vring_info) (k : nat) (c : chain)
    (l : Z) (E' : gmap Z rpmsg_endpoint) (b cnt : Z) : Prop := {
  ac_rdev : w_rdev w3 = w_rdev w2;
  ac_epts : w_epts w3 = E';
  ac_mem : memstep [(b + HDR_RESERVED, 4)] (w_mem w2) (w_mem w3);
  ac_held : held_at b (c_head c) (w_mem w3) (cnt - 1);
  ac_env : rx_env (w_tr w3);
  ac_queue : exists vi',
    rx_queue (w_tr w3) (if cnt =? 1 then q_consume qh k c l else qh) drv vi' /\
    vq_conf (vi_vq vi') = vq_conf (vi_vq vi)
}.

Lemma decref_keep w ept e2 :
  ept <> 0 -> w_epts w !! ept = Some e2 -> 2 <= ept_refcnt e2 < 4294967296 ->
  rpmsg_ept_decref env w ept = Ok (put_ept w ept (ept_set_refcnt e2 (ept_refcnt e2 - 1))).
Proof.
  intros Hne He Hr. unfold rpmsg_ept_decref. rewrite (proj2 (Z.eqb_neq _ _) Hne).
  rewrite (get_ept_run _ _ _ He). cbn [mbind res_bind].
  rewrite u32_id by (unfold is_u32; lia). cbn [ept_set_refcnt ept_refcnt].
  by rewrite (proj2 (Z.eqb_neq _ 0)) by lia.
Qed.

(** The buffer goes back and the other side is told, or will be at the end. *)
Definition give_back w (b : Z) (release : bool) : res (world (rpmsg_virtio B) * bool) :=
  w ← rpmsg_virtio_release_rx_buffer_nolock bld w b;
  if empty_notify then Ok (w, true)
  else w ← vq_kick bld w (rv_rvq (tr w)); Ok (w, release).

Lemma give_back_run w qh drv vi k c a l wr b release :
  rx_env (w_tr w) -> rx_queue (w_tr w) qh drv vi -> q_held qh !! k = Some c ->
  c_bufs c = [(a, l, wr)] -> held_at b (c_head c) (w_mem w) 0 ->
  exists t' vi' release',
    give_back w b release = Ok (set_tr w t', release') /\
    rx_env t' /\ rx_queue t' (q_consume qh k c l) drv vi' /\ vq_conf (vi_vq vi') = vq_conf (vi_vq vi).
Proof.
  intros He Hq Hk Hc Hh. unfold give_back.
  destruct (return_rx w qh drv vi c a l wr b k He Hq Hk Hc Hh) as (t1 & vi1 & R1 & He1 & Hq1 & C1).
  destruct empty_notify.
  - exists t1, vi1, true. split_and!; try done. by run (exact R1).
  - destruct (kick_rx (set_tr w t1) _ drv vi1 He1 Hq1) as (t2 & vi2 & R2 & He2 & Hq2 & C2).
    exists t2, vi2, release. split_and!; try done; [|by rewrite C2].
    run (exact R1). by run (exact R2).
Qed.

(** The end of a round, once the reference on the endpoint is dropped: the loop goes
    on, after the buffer was given back if nobody else holds it. *)
Lemma round_after w2 fuel ept E' b idx cnt release :
  is_u16 idx -> rd_lock (w_rdev w2) = false ->
  rpmsg_ept_decref env (set_rdev w2 (rd_set_lock (w_rdev w2) true)) ept
    = Ok (set_epts (set_rdev w2 (rd_set_lock (w_rdev w2) true)) E') ->
  held_at b idx (w_mem w2) cnt -> 1 <= cnt < 65536 ->
  exists m3, memstep [(b + HDR_RESERVED, 4)] (w_mem w2) m3 /\ held_at b idx m3 (cnt - 1) /\
    let wl := mk_world m3 E' (rd_set_lock (w_rdev w2) true) (w_tr w2) in
    forall t3 release',
      (if cnt =? 1 then give_back wl b release else Ok (wl, release)) = Ok (set_tr wl t3, release') ->
      rx_after fuel w2 ept b release =
        rx_loop bld empty_notify env name_slot ns_cb fuel (mk_world m3 E' (w_rdev w2) t3) release'.
Proof.
  intros Hi Hl Hdec Hh Hcnt.
  destruct (dec_test_run b idx Hi (w_mem w2) cnt Hh Hcnt) as (m3 & Rd & Hh3 & Hs3).
  exists m3. split; [done|split; [done|]]. intros wl t3 release' Hg.
  assert (Hfin : metal_mutex_release (set_tr wl t3) = mk_world m3 E' (w_rdev w2) t3).
  { unfold metal_mutex_release, set_tr, set_rdev, wl. cbn. by rewrite unlock_relock. }
  unfold rx_after. rewrite acquire_run by done. cbn [mbind res_bind].
  rewrite Hdec. cbn [mbind res_bind].
  match goal with |- context [w_mem ?x] => change (w_mem x) with (w_mem w2) end.
  rewrite Rd. cbn [mbind res_bind].
  match goal with |- context [set_mem ?x m3] => change (set_mem x m3) with wl end.
  rewrite <- Hfin. unfold give_back in Hg. destruct (cnt =? 1).
  - rewrite Hg. reflexivity.
  - injection Hg as <- <-. by cbn [mbind res_bind].
Qed.

Lemma rx_after_gen w2 fuel ept E' b cnt release qh drv vi k c a l wr :
  rx_env (w_tr w2) -> rx_queue (w_tr w2) qh drv vi -> q_held qh !! k = Some c ->
  c_bufs c = [(a, l, wr)] -> is_u16 (c_head c) -> rd_lock (w_rdev w2) = false ->
  rpmsg_ept_decref env (set_rdev w2 (rd_set_lock (w_rdev w2) true)) ept
    = Ok (set_epts (set_rdev w2 (rd_set_lock (w_rdev w2) true)) E') ->
  held_at b (c_head c) (w_mem w2) cnt -> 1 <= cnt < 65536 ->
  exists w3 release', after_call w2 w3 qh drv vi k c l E' b cnt /\
    rx_after fuel w2 ept b release =
      rx_loop bld empty_notify env name_slot ns_cb fuel w3 release'.
Proof.
  intros He Hq Hk Hc Hi Hl Hdec Hh Hcnt.
  destruct (round_after w2 fuel ept E' b (c_head c) cnt release Hi Hl Hdec Hh Hcnt) as (m3 & Hs3 & Hh3 & Hr).
  set (wl := mk_world m3 E' (rd_set_lock (w_rdev w2) true) (w_tr w2)) in Hr. cbn zeta in Hr.
  destruct (cnt =? 1) eqn:Ec; zbool.
  - subst cnt. destruct (give_back_run wl qh drv vi k c a l wr b release He Hq Hk Hc Hh3)
      as (t3 & vi3 & release' & R & He3 & Hq3 & C3).
    eexists _, release'. split; [|exact (Hr _ _ R)]. split; try done. cbn. by exists vi3.
  - eexists _, release. split; [|exact (Hr (w_tr w2) _ eq_refl)].
    split; try done. rewrite (proj2 (Z.eqb_neq _ _) Ec). by exists vi.
Qed.

Lemma rx_after_run w1 w2 fuel ept e2 b cnt release qh drv vi k c a l wr :
  rx_env (w_tr w1) -> rx_queue (w_tr w1) qh drv vi -> q_held qh !! k = Some c ->
  c_bufs c = [(a, l, wr)] -> ept <> 0 -> is_u16 (c_head c) ->
  polite w1 w2 ept e2 b (c_head c) cnt ->
  exists w3 release',
    after_call w2 w3 qh drv vi k c l
      (<[ept := ept_set_refcnt e2 (ept_refcnt e2 - 1)]> (w_epts w2)) b cnt /\
    rx_after fuel w2 ept b release =
      rx_loop bld empty_notify env name_slot ns_cb fuel w3 release'.
Proof.
  intros He1 Hq1 Hk Hc Hne Hi [Hs Hl [Hept Href] [Hh Hcnt]].
  apply (rx_after_gen w2 fuel ept _ b cnt release qh drv vi k c a l wr); try done.
  - exact (rx_env_same _ _ Hs He1).
  - exact (rx_queue_same _ _ _ _ _ Hs Hq1).
  - exact (decref_keep (set_rdev w2 (rd_set_lock (w_rdev w2) true)) ept e2 Hne Hept Href).
Qed.


(** ** All messages *)

(** A message waiting in the receive queue. *)
Record rxmsg := mk_rxmsg {
  x_chain : chain;
  x_addr : Z;
  x_len : Z;
  x_wr : bool;
  x_buf : Z;
  x_src : Z;
  x_dst : Z;
  x_size : Z
}.

(** What deliveries leave alone in an endpoint. *)
Definition ept_view (e : rpmsg_endpoint) : Z * Z * Z := (ept_addr e, ept_cb e, ept_refcnt e).
Definition same_view (E E' : gmap Z rpmsg_endpoint) : Prop :=
  forall x, ept_view <$> (E' !! x) = ept_view <$> (E !! x).

(** The destination is a registered endpoint other than the name service, or
    nobody. *)
Definition dst_ok w (dst : Z) : Prop :=
  exists ept, rpmsg_get_ept_from_addr w dst = Ok ept /\
    (ept = 0 \/ (ept <> 0 /\ exists e, w_epts w !! ept = Some e /\ ept_cb e <> ns_cb /\
       1 <= ept_refcnt e < 4294967295)).

Record msg_ready (io : metal_io_region) w (x : rxmsg) : Prop := {
  my_bufs : c_bufs (x_chain x) = [(x_addr x, x_len x, x_wr x)];
  my_virt : metal_io_phys_to_virt io (x_addr x) = Ok (x_buf x);
  my_buf : x_buf x <> 0 /\ inside io (x_buf x) 16;
  my_msg : msg_at (w_mem w) (x_buf x) (x_src x) (x_dst x) (x_size x);
  my_dst : dst_ok w (x_dst x)
}.

(** A callback that reads its message and returns. *)
Definition calm (io : metal_io_region) : Prop :=
  forall cb w ept data len src priv, rd_lock (w_rdev w) = false ->
  exists w' st, call_ept env cb w ept data len src priv = Ok (w', st) /\ 0 <= st /\
    w_tr w' = w_tr w /\ w_rdev w' = w_rdev w /\ w_epts w' = w_epts w /\
    (forall k, io_virt io <= k < io_virt io + io_size io -> w_mem w' !! k = w_mem w !! k).

Lemma find_view w w' dst :
  rd_endpoints (w_rdev w') = rd_endpoints (w_rdev w) -> same_view (w_epts w) (w_epts w') ->
  rpmsg_get_ept_from_addr w' dst = rpmsg_get_ept_from_addr w dst.
Proof.
  intros E1 Hv. unfold rpmsg_get_ept_from_addr, rpmsg_get_endpoint. rewrite E1. clear E1.
  induction (rd_endpoints (w_rdev w)) as [|x l IH]; [done|]. cbn [get_endpoint_loop]. unfold get_ept.
  specialize (Hv x). destruct (w_epts w' !! x) as [e'|], (w_epts w !! x) as [e|]; try done.
  cbn [mbind res_bind]. injection Hv as -> _ _. destruct (_ && _); [done|]. cbn [negb]. apply IH.
Qed.

Lemma dst_ok_view w w' dst :
  rd_endpoints (w_rdev w') = rd_endpoints (w_rdev w) -> same_view (w_epts w) (w_epts w') ->
  dst_ok w dst -> dst_ok w' dst.
Proof.
  intros E1 Hv (ept & Hf & H). exists ept. rewrite (find_view w w') by done. split; [done|].
  destruct H as [?|(Hne & e & He & Hc & Hr)]; [by left|right]. split; [done|].
  specialize (Hv ept). rewrite He in Hv. destruct (w_epts w' !! ept) as [e'|]; [|done].
  injection Hv as _ E2 E3. exists e'. by rewrite E2, E3.
Qed.

Lemma msg_at_far rs m m' b src dst len :
  memstep rs m m' -> (forall a s, (a, s) ∈ rs -> a + s <= b \/ b + 16 <= a) ->
  msg_at m b src dst len -> msg_at m' b src dst len.
Proof.
  intros Hs Hr [[M1 M1'] [M2 M2'] [M3 M3'] M4]. unfold HDR_DST, HDR_LEN, HDR_RESERVED in *.
  split; [| | |by eapply memstep_mapped]; (split; [|done]); (eapply memstep_bytes; [exact Hs| |done]);
    intros a s Hin; specialize (Hr a s Hin); rewrite zlen_le_bytes; unfold HDR_DST, HDR_LEN in *; lia.
Qed.

Lemma region_same_bytes (io : metal_io_region) (m m' : gmap Z Z) a bs :
  (forall k, io_virt io <= k < io_virt io + io_size io -> m' !! k = m !! k) ->
  inside io a (zlen bs) -> has_bytes m a bs -> has_bytes m' a bs.
Proof.
  rewrite !has_bytes_lookup. intros Hk [H1 H2] H i Hi. rewrite Hk by lia. by apply H.
Qed.

Lemma msg_at_region (io : metal_io_region) (m m' : gmap Z Z) b src dst len :
  (forall k, io_virt io <= k < io_virt io + io_size io -> m' !! k = m !! k) ->
  inside io b 16 -> msg_at m b src dst len -> msg_at m' b src dst len.
Proof.
  intros Hk Hi [[M1 M1'] [M2 M2'] [M3 M3'] M4]. unfold inside, HDR_DST, HDR_LEN, HDR_RESERVED in *.
  split; [| | |intros i Hx; unfold HDR_RESERVED in Hx; rewrite Hk by lia; apply M4; lia]; (split; [|done]);
    (eapply region_same_bytes; [exact Hk| |done]); rewrite zlen_le_bytes;
    unfold inside, HDR_DST, HDR_LEN; lia.
Qed.

(** The queue after the oldest message was taken and returned. *)
Definition q_served (q : queue) (rest : list chain) (c : chain) (l : Z) : queue :=
  mk_queue rest (q_held q) (q_used q ++ [(c, l)]) (q_free q) (q_recl q).

Lemma served_eq q rest c l :
  q_consume (mk_queue rest (q_held q ++ [c]) (q_used q) (q_free q) (q_recl q)) (length (q_held q)) c l
  = q_served q rest c l.
Proof. unfold q_consume, q_served. cbn. f_equal. by rewrite delete_middle, app_nil_r. Qed.

Lemma view_called e src :
  1 <= ept_refcnt e < 4294967295 ->
  ept_view (ept_set_refcnt (ept_called e src) (ept_refcnt (ept_called e src) - 1)) = ept_view e /\
  2 <= ept_refcnt (ept_called e src) < 4294967296.
Proof.
  intros Hr. assert (E : ept_refcnt (ept_called e src) = ept_refcnt e + 1).
  { unfold ept_called. destruct (ept_dest_addr _ =? _); cbn; rewrite u32_id by (unfold is_u32; lia); done. }
  rewrite E. split; [|lia]. unfold ept_view. cbn. f_equal; [|lia].
  unfold ept_called. by destruct (ept_dest_addr _ =? _).
Qed.


(** What one round does to the rest of the world. *)
Record served (io : metal_io_region) w w3 (q : queue) (drv : virtqueue) (rest : list chain) (x : rxmsg)
  : Prop := {
  sv_env : rx_env (w_tr w3);
  sv_queue : exists vi, rx_queue (w_tr w3) (q_served q rest (x_chain x) (x_len x)) drv vi /\
    vq_shm_io (vi_vq vi) = io;
  sv_rdev : w_rdev w3 = w_rdev w;
  sv_epts : same_view (w_epts w) (w_epts w3);
  sv_msgs : forall b src dst len, inside io b 16 -> b + 16 <= x_buf x \/ x_buf x + 16 <= b ->
    msg_at (w_mem w) b src dst len -> msg_at (w_mem w3) b src dst len
}.

Lemma held_taken q rest c :
  q_held (mk_queue rest (q_held q ++ [c]) (q_used q) (q_free q) (q_recl q)) !! length (q_held q) = Some c.
Proof. cbn. by rewrite lookup_app_r, Nat.sub_diag by done. Qed.

Lemma hdr_far rs b b' :
  rs = [(b + HDR_RESERVED, 4)] -> b' + 16 <= b \/ b + 16 <= b' ->
  forall a s, (a, s) ∈ rs -> a + s <= b' \/ b' + 16 <= a.
Proof. intros -> H a s [= -> ->]%list_elem_of_singleton. unfold HDR_RESERVED. lia. Qed.

Lemma rx_one_nobody io w fuel release q drv vi x rest :
  rx_env (w_tr w) -> rx_queue (w_tr w) q drv vi -> rd_lock (w_rdev w) = false ->
  vq_shm_io (vi_vq vi) = io -> q_avail q = x_chain x :: rest -> msg_ready io w x ->
  rpmsg_get_ept_from_addr w (x_dst x) = Ok 0 ->
  exists w3 release',
    rx_loop bld empty_notify env name_slot ns_cb (S fuel) w release =
      rx_loop bld empty_notify env name_slot ns_cb fuel w3 release' /\ served io w w3 q drv rest x.
Proof.
  intros He Hq Hl Hio Ha [M1 M2 [M3 M3'] M4 M5] Hf. rewrite <- Hio in M2.
  destruct (rx_round_start w fuel release q drv vi (x_chain x) rest _ _ _ _ _ _ _ 0 (w_epts w)
    He Hq Hl Ha M1 M2 M3 M4 Hf) as (m2 & t1 & vi1 & R & Hi & Hs & Hh & M6 & He1 & Hq1 & Hcf).
  { intros w' Ew. unfold rpmsg_ept_incref. cbn. by destruct w'; cbn in *; subst. }
  set (w1 := mk_world m2 (w_epts w) (w_rdev w) t1) in R.
  destruct (rx_after_gen w1 fuel 0 (w_epts w) (x_buf x) 1 release _ drv vi1 (length (q_held q)) (x_chain x) _ _ _
    He1 Hq1 (held_taken _ _ _) M1 Hi Hl eq_refl Hh ltac:(lia)) as (w3 & release' & [A1 A2 A3 A4 A5 (vi3 & A6 & A7)] & R3).
  exists w3, release'. split; [by rewrite R, <- R3|]. cbn in A6. rewrite served_eq in A6.
  split; try done.
  - exists vi3. split; [done|]. injection A7 as _ _ _ ->. injection Hcf as _ _ _ ->. done.
  - intros k. by rewrite A2.
  - intros b' src dst len Hin Hfar Hm. pose proof (hdr_far _ _ _ eq_refl Hfar) as Hd.
    eapply msg_at_far; [exact A3|exact Hd|]. by eapply msg_at_far.
Qed.

Lemma rx_one_called io w fuel release q drv vi x rest ept e :
  calm io -> rx_env (w_tr w) -> rx_queue (w_tr w) q drv vi -> rd_lock (w_rdev w) = false ->
  vq_shm_io (vi_vq vi) = io -> q_avail q = x_chain x :: rest -> msg_ready io w x ->
  rpmsg_get_ept_from_addr w (x_dst x) = Ok ept -> ept <> 0 -> w_epts w !! ept = Some e ->
  ept_cb e <> ns_cb -> 1 <= ept_refcnt e < 4294967295 ->
  exists w3 release',
    rx_loop bld empty_notify env name_slot ns_cb (S fuel) w release =
      rx_loop bld empty_notify env name_slot ns_cb fuel w3 release' /\ served io w w3 q drv rest x.
Proof.
  intros Hcalm He Hq Hl Hio Ha [M1 M2 [M3 M3'] M4 M5] Hf Hne Hept Hcb Href. rewrite <- Hio in M2.
  destruct (rx_round w fuel release q drv vi (x_chain x) rest _ _ _ _ _ _ _ ept e
    He Hq Hl Ha M1 M2 M3 M4 Hf Hne Hept Hcb) as (w1 & [B1 B2 B3 B4 B5 (vi1 & B6 & B7)] & Hi & R).
  destruct (Hcalm (ept_cb e) w1 ept (x_buf x + SIZEOF_HDR) (x_size x) (x_src x) (ept_priv e))
    as (w2 & st & Rc & Hst & C1 & C2 & C3 & C4); [by rewrite B1|].
  rewrite Rc in R. cbn [mbind res_bind] in R. rewrite (proj2 (Z.leb_le _ _) Hst) in R. cbn [rassert mbind res_bind] in R.
  destruct (view_called e (x_src x) Href) as [V1 V2].
  assert (Hpol : polite w1 w2 ept (ept_called e (x_src x)) (x_buf x) (c_head (x_chain x)) 1).
  { split; [by rewrite C1|by rewrite C2, B1| |split; [|lia]].
    - split; [|done]. rewrite C3, B2. apply lookup_insert_eq.
    - eapply region_same_bytes; [exact C4| |exact B4]. rewrite zlen_le_bytes.
      unfold inside, HDR_RESERVED in *. lia. }
  destruct (rx_after_run w1 w2 fuel ept _ (x_buf x) 1 release _ drv vi1 (length (q_held q)) (x_chain x) _ _ _
    B5 B6 (held_taken _ _ _) M1 Hne Hi Hpol) as (w3 & release' & [A1 A2 A3 A4 A5 (vi3 & A6 & A7)] & R3).
  exists w3, release'. split; [by rewrite R, <- R3|]. cbn in A6. rewrite served_eq in A6.
  split; try done.
  - exists vi3. split; [done|]. injection A7 as _ _ _ ->. injection B7 as _ _ _ ->. done.
  - by rewrite A1, C2, B1.
  - intros k. rewrite A2, C3, B2. rewrite insert_insert_eq.
    destruct (decide (k = ept)) as [->|Hk]; [|by rewrite lookup_insert_ne].
    rewrite lookup_insert_eq, Hept. cbn [fmap option_fmap option_map]. by rewrite V1.
  - intros b' src dst len Hin Hfar Hm. pose proof (hdr_far _ _ _ eq_refl Hfar) as Hd.
    eapply msg_at_far; [exact A3|exact Hd|]. eapply msg_at_region; [exact C4|done|]. by eapply msg_at_far.
Qed.


Lemma rx_done w fuel release q drv vi :
  rx_env (w_tr w) -> rx_queue (w_tr w) q drv vi -> rd_lock (w_rdev w) = false -> q_avail q = [] ->
  exists t' vi',
    rx_loop bld empty_notify env name_slot ns_cb (S fuel) w release = Ok (set_tr w t') /\
    rx_env t' /\ rx_queue t' q drv vi' /\ vq_conf (vi_vq vi') = vq_conf (vi_vq vi).
Proof.
  intros He Hq Hl Ha. set (w0 := set_rdev w (rd_set_lock (w_rdev w) true)).
  pose proof (get_rx_empty w0 q drv vi He Hq Ha) as R.
  assert (Hw : forall t, metal_mutex_release (set_tr w0 t) = set_tr w t).
  { intros t. unfold metal_mutex_release, set_tr, set_rdev, w0. cbn. by rewrite unlock_relock. }
  assert (Hrun : rx_loop bld empty_notify env name_slot ns_cb (S fuel) w release =
    (w ← (if empty_notify && release then vq_kick bld w0 (rv_rvq (tr w0)) else Ok w0);
     Ok (metal_mutex_release w))).
  { cbn [rx_loop]. rewrite acquire_run by done. cbn [mbind res_bind]. fold w0. rewrite R. done. }
  rewrite Hrun. destruct (empty_notify && release).
  - destruct (kick_rx w0 q drv vi He Hq) as (t2 & vi2 & R2 & He2 & Hq2 & C2).
    exists t2, vi2. split_and!; try done. run (exact R2). by rewrite Hw.
  - exists (w_tr w), vi. split_and!; try done. cbn [mbind res_bind]. by rewrite <- Hw.
Qed.

Definition q_all_served (q : queue) (ms : list rxmsg) : queue :=
  mk_queue [] (q_held q) (q_used q ++ ((fun x => (x_chain x, x_len x)) <$> ms)) (q_free q) (q_recl q).

Lemma rx_all io ms w fuel release q drv vi :
  calm io -> rx_env (w_tr w) -> rx_queue (w_tr w) q drv vi -> rd_lock (w_rdev w) = false ->
  vq_shm_io (vi_vq vi) = io -> q_avail q = x_chain <$> ms -> Forall (msg_ready io w) ms ->
  apart 16 (x_buf <$> ms) -> (length ms < fuel)%nat ->
  exists w' vi',
    rx_loop bld empty_notify env name_slot ns_cb fuel w release = Ok w' /\ rx_env (w_tr w') /\
    rx_queue (w_tr w') (q_all_served q ms) drv vi' /\ w_rdev w' = w_rdev w /\
    same_view (w_epts w) (w_epts w').
Proof.
  intros Hcalm. revert w fuel release q vi. induction ms as [|x ms IH];
    intros w fuel release q vi He Hq Hl Hio Ha Hm Hap Hf; (destruct fuel as [|fuel]; [cbn in Hf; lia|]).
  { destruct (rx_done w fuel release q drv vi He Hq Hl Ha) as (t' & vi' & R & He' & Hq' & _).
    exists (set_tr w t'), vi'. split_and!; try done.
    unfold q_all_served. cbn in Ha |- *. rewrite app_nil_r. destruct q. cbn in *. by subst. }
  apply Forall_cons_1 in Hm as [Hx Hm]. cbn [fmap list_fmap] in Ha, Hap.
  apply apart_cons in Hap as (_ & Hd & Hap). cbn [length] in Hf.
  assert (Hone : exists w3 release',
    rx_loop bld empty_notify env name_slot ns_cb (S fuel) w release =
      rx_loop bld empty_notify env name_slot ns_cb fuel w3 release' /\
    served io w w3 q drv (x_chain <$> ms) x).
  { destruct (my_dst _ _ _ Hx) as (ept & Hfd & [->|(Hne & e & Hept & Hcb & Href)]);
      [by eapply rx_one_nobody|by eapply rx_one_called]. }
  destruct Hone as (w3 & release' & R & [S1 (vi3 & S2 & S2') S3 S4 S5]).
  destruct (IH w3 fuel release' _ vi3 S1 S2) as (w' & vi' & R' & He' & Hq' & Hr' & Hv'); try done.
  - by rewrite S3.
  - apply list.Forall_forall. intros y Hy. pose proof (proj1 (list.Forall_forall _ _) Hm y Hy) as [Y1 Y2 Y3 Y4 Y5].
    split; try done.
    + apply S5; [apply Y3| |done]. apply Hd. by apply list_elem_of_fmap_2.
    + eapply dst_ok_view; [by rewrite S3|exact S4|done].
  - lia.
  - exists w', vi'. split_and!; try done; [by rewrite R| |by rewrite Hr', S3|intros k; by rewrite Hv', S4].
    unfold q_all_served, q_served in *. cbn in *. by rewrite <- app_assoc in Hq'.
Qed.

End rx.
