(* ===== verification/RpmsgDelivery.v ===== *)
(** * Messages from sender to receiver

    The properties of reception in the device role, and the composition of the
    driver's send with the device's reception over the same queue and memory. *)

From S2P Require Import Prelude MetalUtil MetalIo Vring Virtqueue VirtqueueInv VirtqueueRefine.
From S2P Require Import VirtqueueSys Virtio Rpmsg RpmsgInv RpmsgVirtio RpmsgBuf RpmsgTx RpmsgRx.

(** one round of [rpmsg_virtio_rx_callback] in the device role.  The oldest
    message of the receive queue is delivered to the endpoint with its
    destination address: the callback is called once, outside the lock, with the
    payload behind the header, the length and the source of the header, while the
    endpoint has one more reference and is bound to the sender if it was unbound.
    When the callback returns, the reference is dropped, and the buffer goes back
    to the driver with its length exactly when nobody else holds it; the loop
    goes on with the rest of the queue. *)
Theorem rpmsg_virtio_rx_round_spec {B : Type} (bld : build) (empty_notify : bool)
    (env : callbacks (rpmsg_virtio B)) (name_slot ns_cb n : Z) (w : world (rpmsg_virtio B)) (fuel : nat)
    (release : bool) (q : queue) (drv : virtqueue) (vi : virtio_vring_info) (c : chain)
    (rest : list chain) (a l : Z) (wr : bool) (b src dst len ept : Z) (e : rpmsg_endpoint)
    (payload : list Z)
    (He : rx_env bld (w_tr w)) (Hq : rx_queue n (w_tr w) q drv vi) (Hl : rd_lock (w_rdev w) = false)
    (Ha : q_avail q = c :: rest) (Hc : c_bufs c = [(a, l, wr)])
    (Hp : metal_io_phys_to_virt (vq_shm_io (vi_vq vi)) a = Ok b) (Hb : b <> 0)
    (Hm : msg_at (w_mem w) b src dst len) (Hpay : has_bytes (w_mem w) (b + SIZEOF_HDR) payload)
    (Hf : rpmsg_get_ept_from_addr w dst = Ok ept) (Hne : ept <> 0) (Hept : w_epts w !! ept = Some e)
    (Hcb : ept_cb e <> ns_cb) :
  exists w1, before_call bld n w w1 q drv vi c rest ept e b src /\
    has_bytes (w_mem w1) (b + SIZEOF_HDR) payload /\
    forall w2 st e2 cnt,
      call_ept env (ept_cb e) w1 ept (b + SIZEOF_HDR) len src (ept_priv e) = Ok (w2, st) -> 0 <= st ->
      polite w1 w2 ept e2 b (c_head c) cnt ->
      exists w3 release' vi1,
        rx_loop bld empty_notify env name_slot ns_cb (S fuel) w release =
          rx_loop bld empty_notify env name_slot ns_cb fuel w3 release' /\
        after_call bld n w2 w3
          (mk_queue rest (q_held q ++ [c]) (q_used q) (q_free q) (q_recl q)) drv vi1 (length (q_held q)) c l
          (<[ept := ept_set_refcnt e2 (ept_refcnt e2 - 1)]> (w_epts w2)) b cnt.
Proof.
  destruct (rx_round bld empty_notify env name_slot ns_cb n w fuel release q drv vi c rest a l wr b src dst len
    ept e He Hq Hl Ha Hc Hp Hb Hm Hf Hne Hept Hcb) as (w1 & Hbc & Hi & R).
  exists w1. split; [done|]. split.
  { eapply memstep_bytes; [exact (bc_mem _ _ _ _ _ _ _ _ _ _ _ _ _ Hbc)| |exact Hpay].
    intros x s [= -> ->]%list_elem_of_singleton. unfold HDR_RESERVED, SIZEOF_HDR. lia. }
  intros w2 st e2 cnt Rc Hst Hpol. destruct Hbc as [B1 B2 B3 B4 B5 (vi1 & B6 & B7)].
  destruct (rx_after_run bld empty_notify env name_slot ns_cb n w1 w2 fuel ept e2 b cnt release _ drv vi1
    (length (q_held q)) c a l wr B5 B6 (held_taken _ _ _) Hc Hne Hi Hpol) as (w3 & release' & Hac & R3).
  exists w3, release', vi1. split; [|done]. rewrite R, Rc. cbn [mbind res_bind].
  rewrite (proj2 (Z.leb_le _ _) Hst). exact R3.
Qed.

(** C16: [rpmsg_virtio_rx_callback] in the device role empties the receive queue.
    For callbacks that read their message and return, it ends after one round
    per message, having returned every buffer to the driver in the order of the
    messages with its length, whether or not an endpoint had the message's
    destination; the lock is free, and the endpoints keep their addresses,
    callbacks and references. *)
Theorem rpmsg_virtio_rx_callback_spec {B : Type} (bld : build) (empty_notify : bool)
    (env : callbacks (rpmsg_virtio B)) (name_slot ns_cb n : Z) (io : metal_io_region)
    (ms : list rxmsg) (w : world (rpmsg_virtio B)) (fuel : nat) (q : queue) (drv : virtqueue)
    (vi : virtio_vring_info)
    (Hcalm : calm env io) (He : rx_env bld (w_tr w)) (Hq : rx_queue n (w_tr w) q drv vi)
    (Hl : rd_lock (w_rdev w) = false) (Hio : vq_shm_io (vi_vq vi) = io)
    (Ha : q_avail q = x_chain <$> ms) (Hm : Forall (msg_ready ns_cb io w) ms)
    (Hap : apart 16 (x_buf <$> ms)) (Hf : (length ms < fuel)%nat) :
  exists w' vi',
    rpmsg_virtio_rx_callback bld empty_notify env name_slot ns_cb fuel w = Ok w' /\
    rx_queue n (w_tr w')
      (mk_queue [] (q_held q) (q_used q ++ ((fun x => (x_chain x, x_len x)) <$> ms)) (q_free q) (q_recl q))
      drv vi' /\
    w_rdev w' = w_rdev w /\ same_view (w_epts w) (w_epts w').
Proof.
  destruct (rx_all bld empty_notify env name_slot ns_cb n io ms w fuel false q drv vi
    Hcalm He Hq Hl Hio Ha Hm Hap Hf) as (w' & vi' & R & _ & Hq' & Hr & Hv).
  exists w', vi'. done.
Qed.

(** ** From the driver's send to the device's callback *)

(** The device's side of the driver's world [wd]: the same ring, the device's
    virtqueue [devq], and the same bytes in the shared region. *)
Record other_side {B B' : Type} (n : Z) (wd : world (rpmsg_virtio B)) (wv : world (rpmsg_virtio B'))
    (devq : virtqueue) (vi : virtio_vring_info) : Prop := {
  os_vring : zget (vd_vrings (rv_vdev (w_tr wv))) (rv_rvq (w_tr wv)) = Some vi;
  os_vq : vi_vq vi = devq;
  os_ring : exists vd, zget (vd_vrings (rv_vdev (w_tr wd))) (rv_svq (w_tr wd)) = Some vd /\
    vi_ring vi = vi_ring vd;
  os_io : vq_shm_io devq = rv_shbuf_io (w_tr wd);
  os_mem : forall k, io_virt (rv_shbuf_io (w_tr wd)) <= k <
      io_virt (rv_shbuf_io (w_tr wd)) + io_size (rv_shbuf_io (w_tr wd)) ->
    w_mem wv !! k = w_mem wd !! k
}.

Lemma hdr_msg_at m b src dst r len fl :
  has_bytes m b (hdr_bytes src dst r len fl) -> is_u32 src -> is_u32 dst -> is_u16 len ->
  msg_at m b src dst len.
Proof.
  unfold hdr_bytes. rewrite !has_bytes_app, !zlen_le_bytes.
  change (Z.of_nat 4) with 4. change (Z.of_nat 2) with 2.
  intros (H1 & H2 & H3 & H4 & H5) Hs Hd Hl. unfold HDR_RESERVED, HDR_DST, HDR_LEN.
  replace (b + 4 + 4) with (b + 8) in * by lia. replace (b + 8 + 4) with (b + 12) in * by lia.
  split; [done|done|done|]. exact (word_mapped 4 m (b + 8) r H3).
Qed.

Lemma virt_phys_back io physmap b s a :
  io_wf io physmap -> inside io b s -> 0 < s -> metal_io_virt_to_phys io b = Ok a -> a <> METAL_BAD_PHYS ->
  metal_io_phys_to_virt io a = Ok b.
Proof.
  intros Hw [H1 H2] Hs Ha Hbad. assert (Hr : 0 <= b - io_virt io < io_size io) by lia.
  destruct (virt_of_offset io physmap Hw _ Hr) as (Hv & _ & Ho).
  replace (io_virt io + (b - io_virt io)) with b in Hv, Ho by lia.
  destruct (phys_of_offset io physmap Hw _ Hr) as (a' & Ha' & Hback).
  unfold metal_io_virt_to_phys in Ha. rewrite Ho, Ha' in Ha. injection Ha as ->.
  unfold metal_io_phys_to_virt. rewrite (Hback Hbad). cbn. by rewrite Hv.
Qed.

(** C1: a message arrives.  The driver sends a payload that fits to the address
    [dst], with a buffer available and the device up to date; the send returns the
    payload's length.  Whatever the device's world, as long as it sees the same
    ring, the same shared bytes and has an endpoint with that address, its receive
    callback calls that endpoint's callback with exactly the payload sent, its
    length and the sender's address. *)
Theorem rpmsg_virtio_message_delivered {B B' : Type} (bd be : build) (func : option (virtio_dispatch B))
    (sleep : world (rpmsg_virtio B) -> world (rpmsg_virtio B))
    (wait_cb : Z -> world (rpmsg_virtio B) -> Z -> res (world (rpmsg_virtio B) * Z))
    (hdr_slot n : Z) (wd : world (rpmsg_virtio B)) (q q' : queue) (devq : virtqueue)
    (nodes nodes' : list Z) (pool pool' : rpmsg_virtio_shm_pool) (b src dst data st : Z) (bs : list Z)
    (Hinv : tx_inv bd hdr_slot n (w_mem wd) (w_tr wd) q devq [] nodes)
    (Ho : tx_owns (w_tr wd) q [] nodes pool) (Hl : rd_lock (w_rdev wd) = false)
    (Hst : virtio_get_status func (rv_vdev (w_tr wd)) = Ok (0, st))
    (Hok : Z.land st VIRTIO_CONFIG_STATUS_DRIVER_OK <> 0)
    (Hb : has_bytes (w_mem wd) data bs) (Hout : out_of (rv_shbuf_io (w_tr wd)) data (zlen bs))
    (Hrec : data + zlen bs <= rv_reclaimer (w_tr wd) \/ rv_reclaimer (w_tr wd) + 16 <= data)
    (Htake : tx_take (w_tr wd) q nodes pool = Some (b, q', nodes', pool')) (Hup : q_avail q' = [])
    (Hfit : zlen bs <= tx_size (w_tr wd) - SIZEOF_HDR) (H16 : zlen bs < 65536)
    (Hsrc : is_u32 src) (Hdst : is_u32 dst)
    (Hphys : forall a, metal_io_virt_to_phys (rv_shbuf_io (w_tr wd)) b = Ok a -> a <> METAL_BAD_PHYS) :
  exists wd',
    rpmsg_virtio_send_offchannel_raw bd func sleep wait_cb hdr_slot wd src dst data (zlen bs) 0
      = Ok (wd', zlen bs) /\
    forall (empty_notify : bool) (env : callbacks (rpmsg_virtio B')) (name_slot ns_cb : Z)
      (wv : world (rpmsg_virtio B')) (vi : virtio_vring_info) (ept : Z) (e : rpmsg_endpoint) (fuel : nat),
      rx_env be (w_tr wv) -> other_side n wd' wv devq vi -> rd_lock (w_rdev wv) = false ->
      rpmsg_get_ept_from_addr wv dst = Ok ept -> ept <> 0 -> w_epts wv !! ept = Some e ->
      ept_cb e <> ns_cb ->
      exists w1, has_bytes (w_mem w1) (b + SIZEOF_HDR) bs /\ rd_lock (w_rdev w1) = false /\
        w_epts w1 !! ept = Some (ept_called e src) /\
        rpmsg_virtio_rx_callback be empty_notify env name_slot ns_cb (S fuel) wv =
          ('(w2, st) ← call_ept env (ept_cb e) w1 ept (b + SIZEOF_HDR) (zlen bs) src (ept_priv e);
           _ ← rassert (0 <=? st);
           rx_after be empty_notify env name_slot ns_cb fuel w2 ept b false).
Proof.
  pose proof (trysend_run bd hdr_slot n func sleep wait_cb wd q devq nodes pool src dst data st bs
    Hinv Ho Hl Hst Hok Hb Hout Hrec) as Hrun. rewrite Htake in Hrun. cbn zeta in Hrun.
  destruct Hrun as (w1 & wd' & R & K & _ & H1 & [S1 S2 S3 S4 S5 (a & Ha & S6) _]).
  assert (Ef : fit_len (w_tr wd) bs = zlen bs) by (unfold fit_len; lia). rewrite Ef in R.
  pose proof (k_fixed _ _ K) as Ek. injection Ek as E1 E2 _ _ _ _ _ _ _.
  assert (Efl : fit_len (w_tr w1) bs = zlen bs) by (unfold fit_len, tx_size in *; rewrite E1; lia).
  assert (E2' : rv_shbuf_io (w_tr wd') = rv_shbuf_io (w_tr w1)) by (injection S3; congruence).
  rewrite Efl, firstn_all2 in S5 by (unfold zlen; lia).
  rewrite u16_id in S5 by (unfold is_u16; pose proof (zlen_nonneg bs); lia).
  pose proof (held_inside _ _ _ _ _ _ _ _ _ _ H1) as Hin. pose proof (ti_env _ _ _ _ _ _ _ _ _ H1) as He1.
  pose proof (te_size _ _ _ He1) as Hsz. destruct (te_io _ _ _ He1) as [pm Hwf].
  exists wd'. split; [exact R|]. intros en env ns nsc wv vi ept e fuel Henv [O1 O2 (vd & O3 & O3') O4 O5] Hlv Hf Hne Hept Hcb.
  destruct (ti_queue _ _ _ _ _ _ _ _ _ S6) as [vd' [Q1 Q2 _ _ _ _]].
  assert (vd' = vd) as -> by congruence.
  assert (Hq : rx_queue n (w_tr wv) (q_add q' [(a, tx_size (w_tr w1), false)] b) (vi_vq vd) vi).
  { split; [done|]. by rewrite O2, O3'. }
  rewrite E2' in O4, O5.
  assert (Hmsg : has_bytes (w_mem wv) b (hdr_bytes src dst 0 (zlen bs) 0 ++ bs)).
  { eapply region_same_bytes; [exact O5| |exact S5]. rewrite zlen_app, zlen_hdr_bytes.
    unfold inside, fit_len, SIZEOF_HDR in *. lia. }
  apply has_bytes_app in Hmsg as [Hh Hp]. rewrite zlen_hdr_bytes in Hp.
  destruct (rx_round be en env ns nsc n wv fuel false _ _ vi (mk_chain (take 1 (q_free q')) [(a, tx_size (w_tr w1), false)] b)
    [] a (tx_size (w_tr w1)) false b src dst (zlen bs) ept e Henv Hq Hlv) as (w2 & Hbc & _ & Rv); try done.
  - unfold q_add. cbn. by rewrite Hup.
  - rewrite O2, O4. eapply virt_phys_back; [exact Hwf|exact Hin|lia|exact Ha|]. apply Hphys. by rewrite <- E2.
  - pose proof (inside_pos _ _ _ _ _ He1 Hin). lia.
  - eapply hdr_msg_at; [exact Hh|done|done|]. unfold is_u16. pose proof (zlen_nonneg bs). lia.
  - exists w2. split_and!; [|by rewrite (bc_rdev _ _ _ _ _ _ _ _ _ _ _ _ _ Hbc)| |exact Rv].
    + eapply memstep_bytes; [exact (bc_mem _ _ _ _ _ _ _ _ _ _ _ _ _ Hbc)| |exact Hp].
      intros x s [= -> ->]%list_elem_of_singleton. unfold HDR_RESERVED, SIZEOF_HDR. lia.
    + rewrite (bc_epts _ _ _ _ _ _ _ _ _ _ _ _ _ Hbc). apply lookup_insert_eq.
Qed.

(** ** A device with one endpoint, to evaluate the receive side on *)

Definition demo_rx_env : callbacks (rpmsg_virtio unit) :=
  mk_callbacks (fun _ w _ => Ok w) (fun _ w _ _ _ _ _ => Ok (w, 0)) (fun _ w _ => Ok w)
    (fun _ w _ _ => Ok w).
Definition demo_rx_ept : rpmsg_endpoint :=
  mk_ept ([110; 115; 0] ++ replicate 29 7) true 1027 RPMSG_ADDR_ANY 1 0 5 0 0.
(** The device's world over a ring and a memory. *)
Definition demo_rx_world (m : gmap Z Z) (ring : vring) : world (rpmsg_virtio unit) :=
  mk_world m {[ 100 := demo_rx_ept ]} (mk_rdev [100] [8; 0] 4 false 0 0 true)
    (mk_rv (mk_config 32 32 false)
       (mk_vd (mk_vdev 0 0 1) tt [mk_vinfo demo_tx_dev ring (mk_alloc 0 4 8) 0 demo_tx_io]) 0 0 demo_tx_io
       [] 0 1024 0 []).
Definition demo_rx_mem : gmap Z Z :=
  put_bytes (put_bytes ∅ 4096 (fill 256 0)) 4096 (hdr_bytes 5 1027 0 3 0 ++ [7; 8; 9]).
Definition demo_rx_queue : queue := q_add (q_init 8) [(1048576, 32, false)] 4096.
Definition demo_rx_chain : chain := mk_chain [0] [(1048576, 32, false)] 4096.

Lemma demo_rx_ring : exists drv ring, vq_rel 8 demo_rx_queue drv demo_tx_dev ring.
Proof.
  destruct (add_buffer_refines demo_release 8 (q_init 8) demo_tx_dev demo_tx_dev demo_ring
    [mk_buf 4096 32] [(1048576, 32, false)] 1 0 4096) as (drv & ring & _ & H & _).
  - exact (tq_rel _ _ _ _ _ demo_tx_queue).
  - vm_compute. repeat split.
  - reflexivity.
  - vm_compute. intuition discriminate.
  - lia.
  - exists drv, ring. exact H.
Qed.

Lemma demo_rx_role m ring : rx_env demo_release (w_tr (demo_rx_world m ring)).
Proof. by split. Qed.

Lemma demo_rx_found m ring :
  rpmsg_get_ept_from_addr (demo_rx_world m ring) 1027 = Ok 100 /\
  w_epts (demo_rx_world m ring) !! 100 = Some demo_rx_ept.
Proof. split; [vm_compute; reflexivity|apply lookup_singleton_eq]. Qed.

Lemma demo_rx_bytes : has_bytes demo_rx_mem 4096 (hdr_bytes 5 1027 0 3 0 ++ [7; 8; 9]).
Proof. apply has_bytes_put. Qed.

Lemma demo_rx_msg : msg_at demo_rx_mem 4096 5 1027 3.
Proof.
  pose proof demo_rx_bytes as H. apply has_bytes_app in H as [H _].
  eapply hdr_msg_at; [exact H| | |]; unfold is_u32, is_u16; lia.
Qed.

Lemma demo_polite n (w w1 : world (rpmsg_virtio unit)) q drv vi b :
  before_call demo_release n w w1 q drv vi demo_rx_chain [] 100 demo_rx_ept b 5 ->
  rd_lock (w_rdev w) = false ->
  polite w1 w1 100 (ept_called demo_rx_ept 5) b 0 1.
Proof.
  intros [B1 B2 B3 B4 B5 B6] Hl. split; [done|by rewrite B1| |split; [exact B4|lia]].
  split; [rewrite B2; apply lookup_insert_eq|vm_compute; intuition discriminate].
Qed.

Lemma rpmsg_virtio_rx_round_spec_witness :
  exists ring (w1 w3 : world (rpmsg_virtio unit)) release',
    has_bytes (w_mem w1) (4096 + SIZEOF_HDR) [7; 8; 9] /\
    rx_loop demo_release false demo_rx_env 0 99 2 (demo_rx_world demo_rx_mem ring) false =
      rx_loop demo_release false demo_rx_env 0 99 1 w3 release'.
Proof.
  destruct demo_rx_ring as (drv & ring & Hrel). exists ring.
  pose proof demo_rx_bytes as Hb. apply has_bytes_app in Hb as [_ Hb]. rewrite zlen_hdr_bytes in Hb.
  set (w := demo_rx_world demo_rx_mem ring).
  set (vi := mk_vinfo demo_tx_dev ring (mk_alloc 0 4 8) 0 demo_tx_io).
  destruct (rpmsg_virtio_rx_round_spec demo_release false demo_rx_env 0 99 8 w 1 false demo_rx_queue drv vi
    demo_rx_chain [] 1048576 32 false 4096 5 1027 3 100 demo_rx_ept [7; 8; 9]
    (demo_rx_role _ _) (conj eq_refl Hrel) eq_refl eq_refl eq_refl) as (w1 & Hbc & Hp & Hk).
  - vm_compute. reflexivity.
  - lia.
  - exact demo_rx_msg.
  - exact Hb.
  - apply demo_rx_found.
  - lia.
  - apply demo_rx_found.
  - cbn. lia.
  - destruct (Hk w1 0 (ept_called demo_rx_ept 5) 1) as (w3 & r & vi1 & E & _).
    + reflexivity.
    + lia.
    + exact (demo_polite 8 w w1 _ _ _ 4096 Hbc eq_refl).
    + exists w1, w3, r. split; [exact Hp|exact E].
Defined.

Lemma demo_calm io : calm demo_rx_env io.
Proof. intros cb w ept data len src priv Hl. exists w, 0. by split_and!. Qed.

Lemma rpmsg_virtio_rx_callback_spec_witness :
  exists ring drv w' vi',
    rpmsg_virtio_rx_callback demo_release true demo_rx_env 0 99 2 (demo_rx_world demo_rx_mem ring) = Ok w' /\
    rx_queue 8 (w_tr w') (mk_queue [] [] [(demo_rx_chain, 32)] [1; 2; 3; 4; 5; 6; 7] 0) drv vi'.
Proof.
  destruct demo_rx_ring as (drv & ring & Hrel). exists ring, drv.
  set (w := demo_rx_world demo_rx_mem ring).
  set (vi := mk_vinfo demo_tx_dev ring (mk_alloc 0 4 8) 0 demo_tx_io).
  destruct (rpmsg_virtio_rx_callback_spec demo_release true demo_rx_env 0 99 8 demo_tx_io
    [mk_rxmsg demo_rx_chain 1048576 32 false 4096 5 1027 3] w 2 demo_rx_queue drv vi
    (demo_calm _) (demo_rx_role _ _) (conj eq_refl Hrel) eq_refl eq_refl eq_refl) as (w' & vi' & R & Hq & _).
  - constructor; [|constructor]. split.
    + reflexivity.
    + vm_compute. reflexivity.
    + split; [cbn; lia|]. vm_compute. intuition discriminate.
    + exact demo_rx_msg.
    + exists 100. split; [apply demo_rx_found|]. right. split; [lia|]. exists demo_rx_ept.
      split; [apply demo_rx_found|]. vm_compute. intuition discriminate.
  - split; [apply NoDup_singleton|].
    intros x y ->%list_elem_of_singleton ->%list_elem_of_singleton. done.
  - cbn. lia.
  - exists w', vi'. split; [exact R|exact Hq].
Defined.

(** The driver's world after the demo message. *)
Definition demo_sent : world (rpmsg_virtio unit) :=
  match rpmsg_virtio_send_offchannel_raw demo_release demo_tx_func id (fun _ w _ => Ok (w, 0)) 2048
          demo_tx_world 5 1027 3072 3 0 with
  | Ok (w, _) => w
  | Fault _ => demo_tx_world
  end.
Definition demo_sent_vi : virtio_vring_info :=
  match zget (vd_vrings (rv_vdev (w_tr demo_sent))) 1 with Some vi => vi | None => demo_tx_vi end.

Lemma demo_sent_vring :
  zget (vd_vrings (rv_vdev (w_tr demo_sent))) (rv_svq (w_tr demo_sent)) = Some demo_sent_vi /\
  rv_shbuf_io (w_tr demo_sent) = demo_tx_io.
Proof. split; vm_compute; reflexivity. Qed.

Lemma demo_other_side (wd : world (rpmsg_virtio unit)) (vi : virtio_vring_info) :
  zget (vd_vrings (rv_vdev (w_tr wd))) (rv_svq (w_tr wd)) = Some vi -> rv_shbuf_io (w_tr wd) = demo_tx_io ->
  other_side 8 wd (demo_rx_world (w_mem wd) (vi_ring vi)) demo_tx_dev
    (mk_vinfo demo_tx_dev (vi_ring vi) (mk_alloc 0 4 8) 0 demo_tx_io).
Proof. intros E1 E2. split; try done. by exists vi. Qed.

Lemma rpmsg_virtio_message_delivered_witness :
  exists w1 : world (rpmsg_virtio unit), has_bytes (w_mem w1) (4096 + SIZEOF_HDR) [10; 20; 30] /\
    rpmsg_virtio_rx_callback demo_release false demo_rx_env 0 99 2
      (demo_rx_world (w_mem demo_sent) (vi_ring demo_sent_vi)) =
      rx_after demo_release false demo_rx_env 0 99 1 w1 100 4096 false.
Proof.
  destruct (@rpmsg_virtio_message_delivered unit unit demo_release demo_release demo_tx_func id
    (fun _ w _ => Ok (w, 0)) 2048 8 demo_tx_world (q_init 8) (q_init 8) demo_tx_dev [] []
    (mk_pool 4096 64 64) (mk_pool 4096 32 64) 4096 5 1027 3072 VIRTIO_CONFIG_STATUS_DRIVER_OK [10; 20; 30]
    demo_tx_inv demo_tx_owns eq_refl eq_refl ltac:(done) (has_bytes_put _ _ _)) as (wd' & R & H).
  - left. vm_compute. discriminate.
  - right. vm_compute. discriminate.
  - vm_compute. reflexivity.
  - reflexivity.
  - vm_compute. discriminate.
  - vm_compute. reflexivity.
  - unfold is_u32. lia.
  - unfold is_u32. lia.
  - intros a Ha. assert (Ea : metal_io_virt_to_phys demo_tx_io 4096 = Ok 1048576) by (vm_compute; reflexivity).
    change (rv_shbuf_io (w_tr demo_tx_world)) with demo_tx_io in Ha. rewrite Ea in Ha. injection Ha as <-.
    unfold METAL_BAD_PHYS. lia.
  - assert (Ew : demo_sent = wd') by (unfold demo_sent; change 3 with (zlen [10; 20; 30]); by rewrite R).
    rewrite <- Ew in H.
    destruct (H false demo_rx_env 0 99 _ _ 100 demo_rx_ept 1%nat (demo_rx_role _ _)
      (demo_other_side _ _ (proj1 demo_sent_vring) (proj2 demo_sent_vring)) eq_refl
      (proj1 (demo_rx_found _ _)) ltac:(lia) (proj2 (demo_rx_found _ _)) ltac:(cbn; lia)) as (w1 & Hp & _ & _ & E).
    exists w1. split; [exact Hp|exact E].
Defined.
