(* ===== verification/ElfLoader.v ===== *)
(** * The ELF loader (lib/remoteproc/elf_loader.c, openamp/elf_loader.h)

    A pointer to image data is the list of the bytes from it on, [None] for
    [NULL]; a read beyond the last byte is a fault.  The headers the loader keeps
    are the bytes it copied: a field is read at its offset in the structure of
    the file's class (LP64, little endian).  The memory allocator is a parameter
    with its own state that may refuse a request. *)

From S2P Require Import Prelude MetalIo StrUtil.

(** ** Data *)

Definition RPROC_ENOMEM : Z := 1.
Definition RPROC_EINVAL : Z := 2.
Definition RPROC_ENODEV : Z := 3.
Definition RPROC_EAGAIN : Z := 4.
Definition RPROC_ERR_RSC_TAB_TRUNC : Z := 5.
Definition RPROC_ERR_RSC_TAB_VER : Z := 6.
Definition RPROC_ERR_RSC_TAB_RSVD : Z := 7.
Definition RPROC_ERR_RSC_TAB_NP : Z := 10.
Definition RPROC_ERR_RSC_TAB_NS : Z := 11.
Definition RPROC_ERR_LOADER_STATE : Z := 12.

Definition RPROC_LOAD_ANYADDR : Z := 18446744073709551615.
Definition RPROC_LOADER_NOT_READY : Z := 0.
Definition RPROC_LOADER_READY_TO_LOAD : Z := 0x10000.
Definition RPROC_LOADER_POST_DATA_LOAD : Z := 0x20000.
Definition RPROC_LOADER_LOAD_COMPLETE : Z := 0x40000.
Definition RPROC_LOADER_MASK : Z := 0x00FF0000.

Definition ELF_STATE_INIT : Z := 0.
Definition ELF_STATE_WAIT_FOR_PHDRS : Z := 0x100.
Definition ELF_STATE_WAIT_FOR_SHDRS : Z := 0x200.
Definition ELF_STATE_WAIT_FOR_SHSTRTAB : Z := 0x400.
Definition ELF_STATE_HDRS_COMPLETE : Z := 0x800.
Definition ELF_STATE_MASK : Z := 0xFF00.
Definition ELF_NEXT_SEGMENT_MASK : Z := 0x00FF.

Definition EI_CLASS : Z := 4.
Definition ELFCLASS64 : Z := 2.
Definition ELFMAG : list Z := [127; 69; 76; 70].
Definition SELFMAG : Z := 4.
Definition PT_NULL : Z := 0.
Definition PT_LOAD : Z := 1.

(** [n] bytes at [off]; the little-endian integer there. *)
Definition bytes_at (bs : list Z) (off n : Z) : res (list Z) :=
  if (0 <=? off) && (0 <=? n) && (off + n <=? zlen bs) then
    Ok (take (Z.to_nat n) (drop (Z.to_nat off) bs))
  else Fault Out_of_bounds.

Definition field (bs : list Z) (base : Z) (f : Z * Z) : res Z :=
  l ← bytes_at bs (base + f.1) f.2; Ok (le_val l).

(** Offsets and widths in [Elf32_Ehdr] and [Elf64_Ehdr]. *)
Definition e_entry (is64 : bool) : Z * Z := if is64 then (24, 8) else (24, 4).
Definition e_phoff (is64 : bool) : Z * Z := if is64 then (32, 8) else (28, 4).
Definition e_shoff (is64 : bool) : Z * Z := if is64 then (40, 8) else (32, 4).
Definition e_phentsize (is64 : bool) : Z * Z := if is64 then (54, 2) else (42, 2).
Definition e_phnum (is64 : bool) : Z * Z := if is64 then (56, 2) else (44, 2).
Definition e_shentsize (is64 : bool) : Z * Z := if is64 then (58, 2) else (46, 2).
Definition e_shnum (is64 : bool) : Z * Z := if is64 then (60, 2) else (48, 2).
Definition e_shstrndx (is64 : bool) : Z * Z := if is64 then (62, 2) else (50, 2).
Definition sizeof_Ehdr (is64 : bool) : Z := if is64 then 64 else 52.

(** ... in [Elf32_Phdr] and [Elf64_Phdr]. *)
Definition p_type (is64 : bool) : Z * Z := (0, 4).
Definition p_offset (is64 : bool) : Z * Z := if is64 then (8, 8) else (4, 4).
Definition p_vaddr (is64 : bool) : Z * Z := if is64 then (16, 8) else (8, 4).
Definition p_paddr (is64 : bool) : Z * Z := if is64 then (24, 8) else (12, 4).
Definition p_filesz (is64 : bool) : Z * Z := if is64 then (32, 8) else (16, 4).
Definition p_memsz (is64 : bool) : Z * Z := if is64 then (40, 8) else (20, 4).
Definition sizeof_Phdr (is64 : bool) : Z := if is64 then 56 else 32.

(** ... in [Elf32_Shdr] and [Elf64_Shdr]. *)
Definition sh_name (is64 : bool) : Z * Z := (0, 4).
Definition sh_type (is64 : bool) : Z * Z := (4, 4).
Definition sh_flags (is64 : bool) : Z * Z := if is64 then (8, 8) else (8, 4).
Definition sh_addr (is64 : bool) : Z * Z := if is64 then (16, 8) else (12, 4).
Definition sh_offset (is64 : bool) : Z * Z := if is64 then (24, 8) else (16, 4).
Definition sh_size (is64 : bool) : Z * Z := if is64 then (32, 8) else (20, 4).
Definition sh_link (is64 : bool) : Z * Z := if is64 then (40, 4) else (24, 4).
Definition sh_info (is64 : bool) : Z * Z := if is64 then (44, 4) else (28, 4).
Definition sh_addralign (is64 : bool) : Z * Z := if is64 then (48, 8) else (32, 4).
Definition sh_entsize (is64 : bool) : Z * Z := if is64 then (56, 8) else (36, 4).
Definition sizeof_Shdr (is64 : bool) : Z := if is64 then 64 else 40.

(** [struct elf32_info] and [struct elf64_info]: the bytes of the file header, the
    state, and the tables copied from the image ([None]: the pointer is null). *)
Record elf_info := mk_einfo {
  ei_ehdr : list Z;
  ei_load_state : Z;
  ei_phdrs : option (list Z);
  ei_shdrs : option (list Z);
  ei_shstrtab : option (list Z)
}.

Definition ei_set_ehdr (i : elf_info) (b : list Z) : elf_info :=
  mk_einfo b (ei_load_state i) (ei_phdrs i) (ei_shdrs i) (ei_shstrtab i).
Definition ei_set_state (i : elf_info) (s : Z) : elf_info :=
  mk_einfo (ei_ehdr i) s (ei_phdrs i) (ei_shdrs i) (ei_shstrtab i).
Definition ei_set_phdrs (i : elf_info) (b : option (list Z)) : elf_info :=
  mk_einfo (ei_ehdr i) (ei_load_state i) b (ei_shdrs i) (ei_shstrtab i).
Definition ei_set_shdrs (i : elf_info) (b : option (list Z)) : elf_info :=
  mk_einfo (ei_ehdr i) (ei_load_state i) (ei_phdrs i) b (ei_shstrtab i).
Definition ei_set_shstrtab (i : elf_info) (b : option (list Z)) : elf_info :=
  mk_einfo (ei_ehdr i) (ei_load_state i) (ei_phdrs i) (ei_shdrs i) b.

(** What [elf_parse_segment] and [elf_parse_section] write to their pointers. *)
Record segment := mk_seg {
  sg_type : Z;
  sg_offset : Z;
  sg_vaddr : Z;
  sg_paddr : Z;
  sg_filesz : Z;
  sg_memsz : Z
}.

Record section := mk_sect {
  st_type : Z;
  st_flags : Z;
  st_addr : Z;
  st_offset : Z;
  st_size : Z;
  st_link : Z;
  st_info : Z;
  st_addralign : Z;
  st_entsize : Z
}.

(** ** The file header *)

Definition elf_is_64 (elf_info : list Z) : res bool :=
  c ← rget elf_info EI_CLASS; Ok (c =? ELFCLASS64).

Definition elf_ehdr_size (elf_info : option (list Z)) : res Z :=
  match elf_info with
  | None => Ok (sizeof_Ehdr true)
  | Some bs => c ← elf_is_64 bs; Ok (sizeof_Ehdr c)
  end.

Definition elf_phoff (i : elf_info) : res Z :=
  c ← elf_is_64 (ei_ehdr i); field (ei_ehdr i) 0 (e_phoff c).
Definition elf_phentsize (i : elf_info) : res Z :=
  c ← elf_is_64 (ei_ehdr i); field (ei_ehdr i) 0 (e_phentsize c).
Definition elf_phnum (i : elf_info) : res Z :=
  c ← elf_is_64 (ei_ehdr i); field (ei_ehdr i) 0 (e_phnum c).
Definition elf_shoff (i : elf_info) : res Z :=
  c ← elf_is_64 (ei_ehdr i); field (ei_ehdr i) 0 (e_shoff c).
Definition elf_shentsize (i : elf_info) : res Z :=
  c ← elf_is_64 (ei_ehdr i); field (ei_ehdr i) 0 (e_shentsize c).
Definition elf_shnum (i : elf_info) : res Z :=
  c ← elf_is_64 (ei_ehdr i); field (ei_ehdr i) 0 (e_shnum c).
Definition elf_shstrndx (i : elf_info) : res Z :=
  c ← elf_is_64 (ei_ehdr i); field (ei_ehdr i) 0 (e_shstrndx c).

(** ** Program and section headers: a pointer to an entry is its offset in the table *)

Definition elf_parse_segment (i : elf_info) (elf_phdr : Z) : res segment :=
  c ← elf_is_64 (ei_ehdr i);
  match ei_phdrs i with
  | None => Fault Out_of_bounds
  | Some t =>
      ty ← field t elf_phdr (p_type c);
      off ← field t elf_phdr (p_offset c);
      va ← field t elf_phdr (p_vaddr c);
      pa ← field t elf_phdr (p_paddr c);
      fs ← field t elf_phdr (p_filesz c);
      ms ← field t elf_phdr (p_memsz c);
      Ok (mk_seg ty off va pa fs ms)
  end.

Definition elf_get_segment_from_index (i : elf_info) (index : Z) : res (option Z) :=
  c ← elf_is_64 (ei_ehdr i);
  match ei_phdrs i with
  | None => Ok None
  | Some _ =>
      phnum ← field (ei_ehdr i) 0 (e_phnum c);
      if (index <? 0) || (phnum <=? index) then Ok None
      else Ok (Some (index * sizeof_Phdr c))
  end.

(** [strcmp(name, &table[i + off]) == 0]; the loop of [strcmp] ends at the
    terminator of [name] at the latest. *)
Fixpoint strcmp_eq (fuel : nat) (name table : list Z) (i off : Z) : res bool :=
  match fuel with
  | O => Fault No_fuel
  | S fuel' =>
      x ← rget name i;
      y ← rget table (off + i);
      if negb (x =? y) then Ok false
      else if x =? 0 then Ok true
      else strcmp_eq fuel' name table (i + 1) off
  end.

(** The loop over the section headers: [k] remain from the entry at [shdr]. *)
Fixpoint section_name_loop (k : nat) (is64 : bool) (shdrs name_table name : list Z) (shdr : Z)
  : res (option Z) :=
  match k with
  | O => Ok None
  | S k' =>
      off ← field shdrs shdr (sh_name is64);
      eq ← strcmp_eq (S (length name)) name name_table 0 off;
      if negb eq then
        section_name_loop k' is64 shdrs name_table name (shdr + sizeof_Shdr is64)
      else Ok (Some shdr)
  end.

Definition elf_get_section_from_name (i : elf_info) (name : list Z) : res (option Z) :=
  c ← elf_is_64 (ei_ehdr i);
  match ei_shdrs i, ei_shstrtab i with
  | Some shdrs, Some name_table =>
      shnum ← field (ei_ehdr i) 0 (e_shnum c);
      section_name_loop (Z.to_nat shnum) c shdrs name_table name 0
  | _, _ => Ok None
  end.

Definition elf_get_section_from_index (i : elf_info) (index : Z) : res (option Z) :=
  c ← elf_is_64 (ei_ehdr i);
  match ei_shdrs i with
  | None => Ok None
  | Some _ =>
      shnum ← field (ei_ehdr i) 0 (e_shnum c);
      if (index <? 0) || (shnum <=? index) then Ok None
      else Ok (Some (index * sizeof_Shdr c))
  end.

(** The fields of [unsigned int] type are truncated by the assignments. *)
Definition elf_parse_section (i : elf_info) (elf_shdr : Z) : res section :=
  c ← elf_is_64 (ei_ehdr i);
  match ei_shdrs i with
  | None => Fault Out_of_bounds
  | Some t =>
      ty ← field t elf_shdr (sh_type c);
      flags ← field t elf_shdr (sh_flags c);
      addr ← field t elf_shdr (sh_addr c);
      off ← field t elf_shdr (sh_offset c);
      size ← field t elf_shdr (sh_size c);
      link ← field t elf_shdr (sh_link c);
      info ← field t elf_shdr (sh_info c);
      align ← field t elf_shdr (sh_addralign c);
      ent ← field t elf_shdr (sh_entsize c);
      Ok (mk_sect ty (u32 flags) addr off size link info (u32 align) ent)
  end.

(** The values [elf_next_load_segment] leaves behind its pointers. *)
Record next_seg := mk_next {
  ns_nseg : Z;
  ns_da : Z;
  ns_noffset : Z;
  ns_nfsize : Z;
  ns_nmsize : Z
}.

(** The [while (p_type != PT_LOAD)] of [elf_next_load_segment]. *)
Fixpoint next_load_loop (fuel : nat) (i : elf_info) (p_type : Z) (phdr : option Z) (n : next_seg)
  : res (option Z * next_seg) :=
  match fuel with
  | O => Fault No_fuel
  | S fuel' =>
      if p_type =? PT_LOAD then Ok (phdr, n)
      else
        phdr ← elf_get_segment_from_index i (ns_nseg n);
        match phdr with
        | None => Ok (None, n)
        | Some p =>
            s ← elf_parse_segment i p;
            next_load_loop fuel' i (sg_type s) phdr
              (mk_next (ns_nseg n + 1) (sg_paddr s) (sg_offset s) (sg_filesz s) (sg_memsz s))
        end
  end.

(** The index grows by one at every turn and stops at [e_phnum]. *)
Definition elf_next_load_segment (i : option elf_info) (n : next_seg)
  : res (option Z * next_seg) :=
  match i with
  | None => Ok (None, n)
  | Some i => phnum ← elf_phnum i; next_load_loop (S (S (Z.to_nat phnum))) i PT_NULL None n
  end.

Definition elf_info_size (img_data : list Z) : res Z :=
  c ← elf_is_64 img_data; Ok (if (c : bool) then 96 else 80).

Definition elf_identify (img_data : option (list Z)) (len : Z) : res Z :=
  match img_data with
  | None => Ok (- RPROC_EINVAL)
  | Some bs =>
      if len <? SELFMAG then Ok (- RPROC_EINVAL)
      else m ← bytes_at bs 0 SELFMAG;
           if decide (m = ELFMAG) then Ok 0 else Ok (- RPROC_EINVAL)
  end.

(** ** Loading the headers *)

Section elf.
Context {A : Type}.
(** [metal_allocate_memory]: the next state of the allocator and whether it
    served the request. *)
Variable metal_allocate_memory : A -> Z -> A * bool.

(** The state of a call: the allocator, [*img_info], and the values behind
    [noffset] and [nlen]. *)
Record hstate := mk_hs {
  hs_alloc : A;
  hs_info : option elf_info;
  hs_noffset : Z;
  hs_nlen : Z
}.

Definition hs_set_info (h : hstate) (i : elf_info) : hstate :=
  mk_hs (hs_alloc h) (Some i) (hs_noffset h) (hs_nlen h).
Definition hs_request (h : hstate) (off len : Z) : hstate :=
  mk_hs (hs_alloc h) (hs_info h) off len.
Definition hs_set_nlen (h : hstate) (len : Z) : hstate :=
  mk_hs (hs_alloc h) (hs_info h) (hs_noffset h) len.
Definition hs_set_alloc (h : hstate) (a : A) : hstate :=
  mk_hs a (hs_info h) (hs_noffset h) (hs_nlen h).

(** A part of [elf_load_header] returns, or the next part runs. *)
Inductive ctl : Type :=
| Return (ret : Z)
| Next.

(** [*img_info]; the assertion on it. *)
Definition the_info (h : hstate) : res elf_info :=
  match hs_info h with Some i => Ok i | None => Fault Assert_failed end.

(** [memcpy] of [n] bytes at [off] of the image. *)
Definition image_at (img_data : option (list Z)) (off n : Z) : res (list Z) :=
  match img_data with
  | Some bs => bytes_at bs off n
  | None => if n =? 0 then Ok [] else Fault Out_of_bounds
  end.

(** The branch for [ELF_STATE_INIT].  [*img_info], when it is already set, is an
    object of the class of the image. *)
Definition load_ehdr (img_data : option (list Z)) (len : Z) (h : hstate) : res (hstate * ctl) :=
  tmpsize ← elf_ehdr_size img_data;
  if len <? tmpsize then Ok (hs_request h 0 tmpsize, Return ELF_STATE_INIT)
  else
    match img_data with
    | None => Fault Out_of_bounds
    | Some bs =>
        infosize ← elf_info_size bs;
        let '(a, info) :=
          match hs_info h with
          | Some i => (hs_alloc h, Some i)
          | None =>
              let '(a, ok) := metal_allocate_memory (hs_alloc h) infosize in
              (a, if ok then
                    Some (mk_einfo (replicate (Z.to_nat tmpsize) 0) 0 None None None)
                  else None)
          end in
        let h := mk_hs a info (hs_noffset h) (hs_nlen h) in
        match info with
        | None => Ok (h, Return (- RPROC_ENOMEM))
        | Some i =>
            if negb (zlen (ei_ehdr i) =? tmpsize) then Fault Out_of_bounds
            else
              hdr ← bytes_at bs 0 tmpsize;
              Ok (hs_set_info h (ei_set_state (ei_set_ehdr i hdr) ELF_STATE_WAIT_FOR_PHDRS), Next)
        end
    end.

(** A table of the image at [toff], [tsize] bytes long, when the image data at
    [offset], [len] bytes long, holds it; the request for it otherwise. *)
Definition load_table (img_data : option (list Z)) (offset len toff tsize : Z)
    (set : elf_info -> option (list Z) -> elf_info) (i : elf_info) (h : hstate)
  : res (hstate * ctl) :=
  if (toff <? offset) || (u64 (offset + len) <? u64 (toff + tsize)) then
    Ok (hs_request h toff tsize, Return (ei_load_state i))
  else
    let '(a, ok) := metal_allocate_memory (hs_alloc h) tsize in
    if (ok : bool) then
      t ← image_at img_data (toff - offset) tsize;
      Ok (hs_set_info (hs_set_alloc h a) (set i (Some t)), Next)
    else Ok (hs_set_info (hs_set_alloc h a) (set i None), Return (- RPROC_ENOMEM)).

Definition load_phdrs (img_data : option (list Z)) (offset len : Z) (h : hstate)
  : res (hstate * ctl) :=
  i ← the_info h;
  if ei_load_state i =? ELF_STATE_WAIT_FOR_PHDRS then
    phdrs_offset ← elf_phoff i;
    phnum ← elf_phnum i;
    phentsize ← elf_phentsize i;
    let phdrs_size := u64 (phnum * phentsize) in
    '(h, c) ← load_table img_data offset len phdrs_offset phdrs_size ei_set_phdrs i h;
    match c with
    | Return r => Ok (h, Return r)
    | Next =>
        i ← the_info h;
        Ok (hs_set_info h
              (ei_set_state i (Z.lor ELF_STATE_WAIT_FOR_SHDRS RPROC_LOADER_READY_TO_LOAD)), Next)
    end
  else Ok (h, Next).

(** [( *load_state & ~mask) | bits] *)
Definition set_bits (s mask bits : Z) : Z := Z.lor (Z.land s (Z.lnot mask)) bits.

Definition load_shdrs (img_data : option (list Z)) (offset len : Z) (h : hstate)
  : res (hstate * ctl) :=
  i ← the_info h;
  if negb (Z.land (ei_load_state i) ELF_STATE_WAIT_FOR_SHDRS =? 0) then
    shdrs_offset ← elf_shoff i;
    shnum ← elf_shnum i;
    if shnum =? 0 then
      let s := set_bits (ei_load_state i) ELF_STATE_MASK ELF_STATE_HDRS_COMPLETE in
      Ok (hs_set_nlen (hs_set_info h (ei_set_state i s)) 0, Return s)
    else
      shentsize ← elf_shentsize i;
      let shdrs_size := u64 (shnum * shentsize) in
      '(h, c) ← load_table img_data offset len shdrs_offset shdrs_size ei_set_shdrs i h;
      match c with
      | Return r => Ok (h, Return r)
      | Next =>
          i ← the_info h;
          Ok (hs_set_info h (ei_set_state i
                (set_bits (ei_load_state i) ELF_STATE_MASK ELF_STATE_WAIT_FOR_SHSTRTAB)), Next)
      end
  else Ok (h, Next).

Definition load_shstrtab (img_data : option (list Z)) (offset len : Z) (h : hstate)
  : res (hstate * ctl) :=
  i ← the_info h;
  if negb (Z.land (ei_load_state i) ELF_STATE_WAIT_FOR_SHSTRTAB =? 0) then
    shstrndx ← elf_shstrndx i;
    shdr ← elf_get_section_from_index i shstrndx;
    match shdr with
    | None => Ok (h, Return (- RPROC_EINVAL))
    | Some shdr =>
        s ← elf_parse_section i shdr;
        '(h, c) ← load_table img_data offset len (st_offset s) (st_size s) ei_set_shstrtab i h;
        match c with
        | Return r => Ok (h, Return r)
        | Next =>
            i ← the_info h;
            let s := set_bits (ei_load_state i) ELF_STATE_MASK ELF_STATE_HDRS_COMPLETE in
            Ok (hs_set_nlen (hs_set_info h (ei_set_state i s)) 0, Return s)
        end
    end
  else Ok (h, Next).

(** The parts after the file header, with the test of the state between. *)
Definition load_tables (img_data : option (list Z)) (offset len last_load_state : Z) (h : hstate)
  : res (hstate * Z) :=
  i ← the_info h;
  if negb (last_load_state =? ei_load_state i) then Ok (h, - RPROC_EINVAL)
  else
    '(h, c) ← load_phdrs img_data offset len h;
    match c with
    | Return r => Ok (h, r)
    | Next =>
        '(h, c) ← load_shdrs img_data offset len h;
        match c with
        | Return r => Ok (h, r)
        | Next =>
            '(h, c) ← load_shstrtab img_data offset len h;
            match c with
            | Return r => Ok (h, r)
            | Next => Ok (h, last_load_state)
            end
        end
    end.

Definition elf_load_header (img_data : option (list Z)) (offset len last_load_state : Z)
    (h : hstate) : res (hstate * Z) :=
  if last_load_state =? ELF_STATE_INIT then
    '(h, c) ← load_ehdr img_data len h;
    match c with
    | Return r => Ok (h, r)
    | Next => load_tables img_data offset len ELF_STATE_WAIT_FOR_PHDRS h
    end
  else load_tables img_data offset len last_load_state h.

(** ** Loading the data *)

(** ... and the values behind [da], [padding] and [nmemsize]. *)
Record lstate := mk_ls {
  ls_h : hstate;
  ls_da : Z;
  ls_padding : Z;
  ls_nmemsize : Z
}.

Definition ls_set_h (l : lstate) (h : hstate) : lstate :=
  mk_ls h (ls_da l) (ls_padding l) (ls_nmemsize l).
Definition ls_set_da (l : lstate) (da : Z) : lstate :=
  mk_ls (ls_h l) da (ls_padding l) (ls_nmemsize l).
Definition ls_set_info (l : lstate) (i : elf_info) : lstate :=
  ls_set_h l (hs_set_info (ls_h l) i).

(** The branch for [RPROC_LOADER_READY_TO_LOAD]: the next segment. *)
Definition load_segment (i : elf_info) (l : lstate) : res lstate :=
  '(phdr, n) ← elf_next_load_segment (Some i)
    (mk_next (Z.land (ei_load_state i) ELF_NEXT_SEGMENT_MASK) (ls_da l)
       (hs_noffset (ls_h l)) 0 0);
  phnums ← elf_phnum i;
  let found := match phdr with Some _ => true | None => false end in
  let h := ls_h l in
  let l := mk_ls (mk_hs (hs_alloc h) (hs_info h) (ns_noffset n)
                    (if found then ns_nfsize n else hs_nlen h))
             (ns_da n) (ls_padding l) (if found then ns_nmsize n else ls_nmemsize l) in
  let s := ei_load_state i in
  let '(s, l) :=
    if ns_nseg n =? phnums then
      if found then (set_bits s RPROC_LOADER_MASK RPROC_LOADER_POST_DATA_LOAD, l)
      else (set_bits s RPROC_LOADER_MASK RPROC_LOADER_LOAD_COMPLETE,
            ls_set_da l RPROC_LOAD_ANYADDR)
    else (s, l) in
  let s := set_bits s ELF_NEXT_SEGMENT_MASK (Z.land (ns_nseg n) ELF_NEXT_SEGMENT_MASK) in
  Ok (ls_set_info l (ei_set_state i s)).

(** The branch for [RPROC_LOADER_POST_DATA_LOAD]; [Return] is the early return. *)
Definition post_data_load (img_data : option (list Z)) (offset len last_load_state : Z)
    (i : elf_info) (l : lstate) : res (lstate * ctl) :=
  if Z.land (ei_load_state i) ELF_STATE_HDRS_COMPLETE =? 0 then
    '(h, last) ← elf_load_header img_data offset len last_load_state (ls_h l);
    let l := ls_set_h l h in
    if last <? 0 then Ok (l, Return last)
    else
      i ← the_info h;
      let l :=
        if negb (Z.land last ELF_STATE_HDRS_COMPLETE =? 0) then
          ls_set_h l (hs_set_nlen (hs_set_info h (ei_set_state i
            (set_bits (ei_load_state i) RPROC_LOADER_MASK RPROC_LOADER_LOAD_COMPLETE))) 0)
        else l in
      Ok (ls_set_da l RPROC_LOAD_ANYADDR, Next)
  else
    Ok (ls_set_h l (hs_set_nlen (hs_set_info (ls_h l) (ei_set_state i
          (set_bits (ei_load_state i) RPROC_LOADER_MASK RPROC_LOADER_LOAD_COMPLETE))) 0), Next).

(** From [metal_assert(img_info && *img_info)] on. *)
Definition load_data (img_data : option (list Z)) (offset len last_load_state : Z) (l : lstate)
  : res (lstate * Z) :=
  i ← the_info (ls_h l);
  let l := mk_ls (ls_h l) (ls_da l) 0 (ls_nmemsize l) in
  '(l, c) ←
    (if negb (Z.land (ei_load_state i) RPROC_LOADER_READY_TO_LOAD =? 0) then
       l ← load_segment i l; Ok (l, Next)
     else if negb (Z.land (ei_load_state i) RPROC_LOADER_POST_DATA_LOAD =? 0) then
       post_data_load img_data offset len last_load_state i l
     else Ok (l, Next));
  match c with
  | Return r => Ok (l, r)
  | Next => i ← the_info (ls_h l); Ok (l, ei_load_state i)
  end.

Definition elf_load (img_data : option (list Z)) (offset len last_load_state : Z) (l : lstate)
  : res (lstate * Z) :=
  if Z.land last_load_state RPROC_LOADER_MASK =? RPROC_LOADER_NOT_READY then
    '(h, last) ← elf_load_header img_data offset len last_load_state (ls_h l);
    let l := ls_set_h l h in
    if Z.land last RPROC_LOADER_MASK =? RPROC_LOADER_NOT_READY then
      Ok (ls_set_da l RPROC_LOAD_ANYADDR, last)
    else load_data img_data offset len last l
  else load_data img_data offset len last_load_state l.
End elf.

Arguments mk_hs {A} _ _ _ _.
Arguments hs_alloc {A} _.
Arguments hs_info {A} _.
Arguments hs_noffset {A} _.
Arguments hs_nlen {A} _.
Arguments mk_ls {A} _ _ _ _.
Arguments ls_h {A} _.
Arguments ls_da {A} _.
Arguments ls_padding {A} _.
Arguments ls_nmemsize {A} _.

(** ** The other entries of [elf_ops] *)

Definition elf_get_entry (i : option elf_info) : res Z :=
  match i with
  | None => Ok METAL_BAD_PHYS
  | Some i => c ← elf_is_64 (ei_ehdr i); field (ei_ehdr i) 0 (e_entry c)
  end.

(** [.resource_table] and its terminator. *)
Definition rsc_sect_name : list Z :=
  [46; 114; 101; 115; 111; 117; 114; 99; 101; 95; 116; 97; 98; 108; 101; 0].

(** The values behind [da], [offset] and [size], and the return value. *)
Definition elf_locate_rsc_table (i : option elf_info) (da offset size : Z)
  : res (Z * Z * Z * Z) :=
  match i with
  | None => Ok (da, offset, size, - RPROC_EINVAL)
  | Some i =>
      if Z.land (ei_load_state i) ELF_STATE_HDRS_COMPLETE =? 0 then
        Ok (da, offset, size, - RPROC_ERR_LOADER_STATE)
      else
        shdr ← elf_get_section_from_name i rsc_sect_name;
        match shdr with
        | None => Ok (da, offset, 0, 0)
        | Some shdr =>
            s ← elf_parse_section i shdr;
            Ok (st_addr s, st_offset s, st_size s, 0)
        end
  end.

Definition elf_get_load_state (i : option elf_info) : Z :=
  match i with None => - RPROC_EINVAL | Some i => ei_load_state i end.

(** The blocks [elf_release] frees: the tables that were allocated, then the
    information itself. *)
Inductive block : Type := Bphdrs | Bshdrs | Bshstrtab | Binfo.

Definition elf_release (i : option elf_info) : list block :=
  let free (p : option (list Z)) b := match p with Some _ => [b] | None => [] end in
  match i with
  | None => []
  | Some i =>
      free (ei_phdrs i) Bphdrs ++ free (ei_shdrs i) Bshdrs ++
      free (ei_shstrtab i) Bshstrtab ++ [Binfo]
  end.
