(* ===== verification/ElfSpec.v ===== *)
(** * The ELF loader against a one-pass parser

    [elf_load_header] is called with whatever part of the image is at hand and
    asks for the table it misses; [elf_load] is called once per segment.  The
    reference here reads a complete image at once.  The first part shows that a
    call that is given a part of the image takes over the tables it contains, as
    the reference reads them, and asks for the next one; the second that the
    sequence of calls to [elf_load] yields every loadable segment once, in order. *)

From S2P Require Import Prelude MetalIo StrUtil ElfLoader.

(** ** Reference *)

(** A table of the image: its offset, its size and its bytes. *)
Record table := mk_table {
  tb_off : Z;
  tb_size : Z;
  tb_bytes : list Z
}.

Definition table_at (img : list Z) (off size : Z) : res table :=
  t ← bytes_at img off size; Ok (mk_table off size t).

(** The file header, the program headers and, when the file has sections, the
    section headers and the names of the sections. *)
Record elf_parts := mk_parts {
  ep_ehdr : list Z;
  ep_ph : table;
  ep_sh : option (table * table)
}.

(** The information at the stages of the loading of the headers. *)
Definition info_ehdr (p : elf_parts) : elf_info :=
  mk_einfo (ep_ehdr p) ELF_STATE_WAIT_FOR_PHDRS None None None.
Definition info_phdrs (p : elf_parts) : elf_info :=
  mk_einfo (ep_ehdr p) 0x10200 (Some (tb_bytes (ep_ph p))) None None.
Definition info_shdrs (p : elf_parts) : elf_info :=
  mk_einfo (ep_ehdr p) 0x10400 (Some (tb_bytes (ep_ph p)))
    (tb_bytes ∘ fst <$> ep_sh p) None.
Definition info_done (p : elf_parts) : elf_info :=
  mk_einfo (ep_ehdr p) 0x10800 (Some (tb_bytes (ep_ph p)))
    (tb_bytes ∘ fst <$> ep_sh p) (tb_bytes ∘ snd <$> ep_sh p).

Definition parse_sections (img : list Z) (i : elf_info) : res (option (table * table)) :=
  shoff ← elf_shoff i;
  shnum ← elf_shnum i;
  if shnum =? 0 then Ok None
  else
    shentsize ← elf_shentsize i;
    sh ← table_at img shoff (shnum * shentsize);
    shstrndx ← elf_shstrndx i;
    let i := ei_set_shdrs i (Some (tb_bytes sh)) in
    shdr ← elf_get_section_from_index i shstrndx;
    match shdr with
    | None => Fault Out_of_bounds
    | Some shdr =>
        s ← elf_parse_section i shdr;
        str ← table_at img (st_offset s) (st_size s);
        Ok (Some (sh, str))
    end.

(** The parts of a complete image. *)
Definition parse_elf (img : list Z) : res elf_parts :=
  c ← elf_is_64 img;
  hdr ← bytes_at img 0 (sizeof_Ehdr c);
  let i := mk_einfo hdr 0 None None None in
  phoff ← elf_phoff i;
  phnum ← elf_phnum i;
  phentsize ← elf_phentsize i;
  ph ← table_at img phoff (phnum * phentsize);
  sh ← parse_sections img i;
  Ok (mk_parts hdr ph sh).

(** An image small enough for its offsets to be [size_t]. *)
Definition image_wf (img : list Z) : Prop :=
  Forall is_u8 img /\ zlen img < 9223372036854775808.

(** A demonstration image: three segments, of which two are loadable, and two
    sections. *)
Definition demo_phdr (ty off pa fs ms : Z) : list Z :=
  le_bytes 4 ty ++ le_bytes 4 off ++ le_bytes 4 pa ++ le_bytes 4 pa ++ le_bytes 4 fs ++
  le_bytes 4 ms ++ le_bytes 4 0 ++ le_bytes 4 0.
Definition demo_shdr (name addr off size : Z) : list Z :=
  le_bytes 4 name ++ le_bytes 4 1 ++ le_bytes 4 0 ++ le_bytes 4 addr ++ le_bytes 4 off ++
  le_bytes 4 size ++ le_bytes 16 0.
Definition demo_image : list Z :=
  ELFMAG ++ [1; 1; 1] ++ replicate 9 0 ++
  le_bytes 2 2 ++ le_bytes 2 40 ++ le_bytes 4 1 ++ le_bytes 4 0x8000 ++ le_bytes 4 52 ++
  le_bytes 4 172 ++ le_bytes 4 0 ++ le_bytes 2 52 ++ le_bytes 2 32 ++ le_bytes 2 3 ++
  le_bytes 2 40 ++ le_bytes 2 2 ++ le_bytes 2 0 ++
  demo_phdr 1 148 0x8000 8 16 ++ demo_phdr 4 0 0 0 0 ++ demo_phdr 1 156 0x9000 16 16 ++
  replicate 8 7 ++ (rsc_sect_name) ++
  demo_shdr 0 0 156 16 ++ demo_shdr 0 0x9000 156 16.

Example demo_parse : exists p, parse_elf demo_image = Ok p /\ is_Some (ep_sh p).
Proof. vm_compute. eexists. split; [reflexivity|]. eexists. reflexivity. Qed.

(** ** Bytes and fields *)

Lemma bytes_at_inv bs off n l :
  bytes_at bs off n = Ok l ->
  0 <= off /\ 0 <= n /\ off + n <= zlen bs /\ l = take (Z.to_nat n) (drop (Z.to_nat off) bs) /\
  zlen l = n.
Proof.
  unfold bytes_at. destruct (_ && _) eqn:E; [|done].
  rewrite !andb_true_iff, !Z.leb_le in E. destruct E as [[H1 H2] H3]. intros [= <-].
  split_and!; try done. unfold zlen in *. rewrite length_take, length_drop. lia.
Qed.

Lemma bytes_at_ok bs off n :
  0 <= off -> 0 <= n -> off + n <= zlen bs ->
  bytes_at bs off n = Ok (take (Z.to_nat n) (drop (Z.to_nat off) bs)).
Proof.
  intros. unfold bytes_at. by rewrite !(proj2 (Z.leb_le _ _)) by lia.
Qed.

(** A part of the image read through a chunk of it. *)
Lemma bytes_at_chunk img o len ch off n l :
  bytes_at img o len = Ok ch -> bytes_at img off n = Ok l -> o <= off -> off + n <= o + len ->
  bytes_at ch (off - o) n = Ok l.
Proof.
  intros Hc Hl H1 H2. apply bytes_at_inv in Hc as (?&?&?&->&Hlen).
  apply bytes_at_inv in Hl as (?&?&?&->&_).
  rewrite bytes_at_ok by lia. f_equal.
  rewrite skipn_firstn_comm, drop_drop, take_take. f_equal; [lia|]. f_equal. lia.
Qed.

Lemma bytes_at_u8 bs off n l : Forall is_u8 bs -> bytes_at bs off n = Ok l -> Forall is_u8 l.
Proof.
  intros Hu Hl. apply bytes_at_inv in Hl as (_&_&_&->&_).
  by apply Forall_take, Forall_drop.
Qed.

Lemma field_bound bs base f v :
  Forall is_u8 bs -> field bs base f = Ok v -> 0 <= v < 256 ^ f.2.
Proof.
  unfold field. intros Hu H. destruct (bytes_at _ _ _) as [l|] eqn:E; [|done].
  injection H as <-. pose proof (bytes_at_u8 _ _ _ _ Hu E) as Hl.
  apply bytes_at_inv in E as (_&_&_&_&<-). by apply le_val_bound.
Qed.

(** Unfolds one bind of a hypothesis that a computation succeeded. *)
Ltac bind_inv H x E :=
  match type of H with
  | mbind _ ?m = Ok _ => destruct m as [x|] eqn:E; cbn [mbind res_bind] in H; [|discriminate H]
  end.

(** ** What a parsed image provides *)

Record sections_at (img : list Z) (p : elf_parts) (sh str : table) : Prop := {
  sa_off : elf_shoff (info_ehdr p) = Ok (tb_off sh);
  sa_num : exists n s, elf_shnum (info_ehdr p) = Ok n /\ n <> 0 /\
    elf_shentsize (info_ehdr p) = Ok s /\ tb_size sh = n * s /\ 0 <= n < 65536 /\ 0 <= s < 65536;
  sa_bytes : bytes_at img (tb_off sh) (tb_size sh) = Ok (tb_bytes sh);
  sa_str : exists ndx shdr s, elf_shstrndx (info_ehdr p) = Ok ndx /\
    elf_get_section_from_index (info_shdrs p) ndx = Ok (Some shdr) /\
    elf_parse_section (info_shdrs p) shdr = Ok s /\
    st_offset s = tb_off str /\ st_size s = tb_size str;
  sa_str_bytes : bytes_at img (tb_off str) (tb_size str) = Ok (tb_bytes str)
}.

Record parsed (img : list Z) (p : elf_parts) : Prop := {
  pd_ehdr : exists c, elf_is_64 img = Ok c /\ elf_is_64 (ep_ehdr p) = Ok c /\
    bytes_at img 0 (sizeof_Ehdr c) = Ok (ep_ehdr p);
  pd_phoff : elf_phoff (info_ehdr p) = Ok (tb_off (ep_ph p));
  pd_phnum : exists n s, elf_phnum (info_ehdr p) = Ok n /\ elf_phentsize (info_ehdr p) = Ok s /\
    tb_size (ep_ph p) = n * s /\ 0 <= n < 65536 /\ 0 <= s < 65536;
  pd_phdrs : bytes_at img (tb_off (ep_ph p)) (tb_size (ep_ph p)) = Ok (tb_bytes (ep_ph p));
  pd_sections : match ep_sh p with
    | None => exists o, elf_shoff (info_ehdr p) = Ok o /\ elf_shnum (info_ehdr p) = Ok 0
    | Some (sh, str) => sections_at img p sh str
    end
}.

Lemma half_bound bs base f v :
  Forall is_u8 bs -> f.2 = 2 -> field bs base f = Ok v -> 0 <= v < 65536.
Proof. intros Hu Hf H. apply field_bound in H; [|done]. by rewrite Hf in H. Qed.

(** A 16-bit field of the file header. *)
Lemma ehdr_half (g : bool -> Z * Z) i v :
  Forall is_u8 (ei_ehdr i) -> (forall c, (g c).2 = 2) ->
  (c ← elf_is_64 (ei_ehdr i); field (ei_ehdr i) 0 (g c)) = Ok v -> 0 <= v < 65536.
Proof. intros Hu Hg H. bind_inv H c E. by apply half_bound in H. Qed.

Lemma is_64_prefix img c hdr :
  elf_is_64 img = Ok c -> bytes_at img 0 (sizeof_Ehdr c) = Ok hdr -> elf_is_64 hdr = Ok c.
Proof.
  intros Hc Hh. apply bytes_at_inv in Hh as (_&_&Hz&->&_). rewrite Z2Nat.inj_0. cbn [drop].
  revert Hc. unfold elf_is_64, rget, zget, EI_CLASS. cbn [Z.leb Z.compare].
  rewrite lookup_take_lt; [done|]. destruct c; cbn; lia.
Qed.

Lemma table_at_inv img off size t :
  table_at img off size = Ok t ->
  tb_off t = off /\ tb_size t = size /\ bytes_at img (tb_off t) (tb_size t) = Ok (tb_bytes t).
Proof. unfold table_at. intros H. bind_inv H b E. by injection H as <-. Qed.

(** The section part of a parsed image. *)
Lemma parse_sections_inv img p s0 :
  Forall is_u8 (ep_ehdr p) ->
  parse_sections img (mk_einfo (ep_ehdr p) 0 None None None) = Ok s0 -> s0 = ep_sh p ->
  match ep_sh p with
  | None => exists o, elf_shoff (info_ehdr p) = Ok o /\ elf_shnum (info_ehdr p) = Ok 0
  | Some (sh, str) => sections_at img p sh str
  end.
Proof.
  intros Hu H Hs. unfold parse_sections in H. bind_inv H o Eo. bind_inv H n En.
  destruct (Z.eqb_spec n 0) as [->|Hn].
  { injection H as <-. rewrite <- Hs. by exists o. }
  bind_inv H es Ees. bind_inv H sh Esh. bind_inv H ndx Endx. bind_inv H shdr Eshdr.
  destruct shdr as [shdr|]; [|done]. bind_inv H s Es. bind_inv H str Estr.
  injection H as <-. rewrite <- Hs.
  apply table_at_inv in Esh as (Ho&Hz&Hb). apply table_at_inv in Estr as (Ho'&Hz'&Hb').
  assert (Hn16 : 0 <= n < 65536)
    by (apply (ehdr_half e_shnum) in En; [done..| by intros []]).
  assert (Hs16 : 0 <= es < 65536)
    by (apply (ehdr_half e_shentsize) in Ees; [done..| by intros []]).
  split; try done; [by rewrite Ho|by exists n, es|].
  exists ndx, shdr, s. split_and!; try done; unfold info_shdrs; rewrite <- Hs; done.
Qed.

Lemma parse_elf_inv img p : Forall is_u8 img -> parse_elf img = Ok p -> parsed img p.
Proof.
  intros Hu H. unfold parse_elf in H. bind_inv H c Ec. bind_inv H hdr Eh. bind_inv H po Epo.
  bind_inv H pn Epn. bind_inv H pe Epe. bind_inv H ph Eph. bind_inv H sh Esh.
  injection H as <-. pose proof (bytes_at_u8 _ _ _ _ Hu Eh) as Hu'.
  apply table_at_inv in Eph as (Ho&Hz&Hb).
  assert (Hn16 : 0 <= pn < 65536)
    by (apply (ehdr_half e_phnum) in Epn; [done..| by intros []]).
  assert (Hs16 : 0 <= pe < 65536)
    by (apply (ehdr_half e_phentsize) in Epe; [done..| by intros []]).
  split; cbn [ep_ehdr ep_ph ep_sh].
  - exists c. split_and!; try done. by apply is_64_prefix with img.
  - by rewrite Ho.
  - by exists pn, pe.
  - done.
  - by apply (parse_sections_inv img (mk_parts hdr ph sh) sh).
Qed.

(** ** One call of [elf_load_header] *)

(** The stages: what the information holds and which table is wanted next. *)
Inductive stage : Type := Want_phdrs | Want_shdrs | Want_shstrtab.

Definition stage_rank (s : stage) : nat :=
  match s with Want_phdrs => 0 | Want_shdrs => 1 | Want_shstrtab => 2 end.

Definition stage_info (p : elf_parts) (s : stage) : elf_info :=
  match s with
  | Want_phdrs => info_ehdr p
  | Want_shdrs => info_phdrs p
  | Want_shstrtab => info_shdrs p
  end.

Definition stage_table (p : elf_parts) (s : stage) (t : table) : Prop :=
  match s with
  | Want_phdrs => t = ep_ph p
  | Want_shdrs => exists str, ep_sh p = Some (t, str)
  | Want_shstrtab => exists sh, ep_sh p = Some (sh, t)
  end.

(** Whether the chunk at [o], [len] bytes long, contains the table. *)
Definition in_chunk (o len : Z) (t : table) : Prop :=
  o <= tb_off t /\ tb_off t + tb_size t <= o + len.

Lemma the_info_some {A} (h : hstate (A := A)) i : hs_info h = Some i -> the_info h = Ok i.
Proof. unfold the_info. by intros ->. Qed.

(** Evaluates the test the goal branches on. *)
Ltac eval_test :=
  match goal with
  | |- context [if ?b then _ else _] =>
      let v := eval vm_compute in b in
      lazymatch v with true => change b with true | false => change b with false end;
      cbv iota
  end.

Section headers.
Context {A : Type}.
Variable alloc : A -> Z -> A * bool.
Hypothesis alloc_serves : forall a n, (alloc a n).2 = true.

(** The call that starts at stage [s0] either finishes, or stops at a stage whose
    table the chunk does not contain and asks for that table. *)
Definition header_outcome (p : elf_parts) (s0 : stage) (o len : Z) (h : hstate (A := A)) (ret : Z)
  : Prop :=
  (hs_info h = Some (info_done p) /\ hs_nlen h = 0 /\ ret = ei_load_state (info_done p)) \/
  exists s t, (stage_rank s0 <= stage_rank s)%nat /\ stage_table p s t /\ ~ in_chunk o len t /\
    hs_info h = Some (stage_info p s) /\ hs_noffset h = tb_off t /\ hs_nlen h = tb_size t /\
    ret = ei_load_state (stage_info p s).

Lemma load_table_spec img o len ch t set i (h : hstate (A := A)) :
  image_wf img -> bytes_at img o len = Ok ch ->
  bytes_at img (tb_off t) (tb_size t) = Ok (tb_bytes t) ->
  (~ in_chunk o len t /\
   load_table alloc (Some ch) o len (tb_off t) (tb_size t) set i h
   = Ok (hs_request h (tb_off t) (tb_size t), Return (ei_load_state i))) \/
  (in_chunk o len t /\ exists a,
   load_table alloc (Some ch) o len (tb_off t) (tb_size t) set i h
   = Ok (hs_set_info (hs_set_alloc h a) (set i (Some (tb_bytes t))), Next)).
Proof.
  intros [Hu Hz] Hc Ht. pose proof (bytes_at_inv _ _ _ _ Hc) as (?&?&?&_).
  pose proof (bytes_at_inv _ _ _ _ Ht) as (?&?&?&_). unfold load_table, in_chunk.
  rewrite !u64_id by (unfold is_u64; lia).
  destruct (Z.ltb_spec (tb_off t) o) as [|Ho]; cbn [orb]; [left; split; [lia|done]|].
  destruct (Z.ltb_spec (o + len) (tb_off t + tb_size t)) as [|Hl]; [left; split; [lia|done]|].
  right. split; [lia|]. pose proof (alloc_serves (hs_alloc h) (tb_size t)) as Ha.
  destruct (alloc _ _) as [a ok]. cbn [snd] in Ha. subst ok. exists a. cbn [image_at].
  by rewrite (bytes_at_chunk img o len ch (tb_off t) (tb_size t) (tb_bytes t)) by done.
Qed.

Lemma load_shstrtab_spec img p o len ch sh str h :
  image_wf img -> bytes_at img o len = Ok ch -> ep_sh p = Some (sh, str) ->
  sections_at img p sh str -> hs_info h = Some (info_shdrs p) ->
  exists h' r, load_shstrtab alloc (Some ch) o len h = Ok (h', Return r) /\
    header_outcome p Want_shstrtab o len h' r.
Proof.
  intros Hw Hc Hs [_ _ _ (ndx&shdr&s&H1&H2&H3&H4&H5) Hb] Hi.
  unfold load_shstrtab. rewrite (the_info_some h _ Hi). cbn [mbind res_bind]. eval_test.
  change (elf_shstrndx (info_shdrs p)) with (elf_shstrndx (info_ehdr p)).
  rewrite H1. cbn [mbind res_bind]. rewrite H2. cbn [mbind res_bind]. rewrite H3.
  cbn [mbind res_bind]. rewrite H4, H5.
  destruct (load_table_spec img o len ch str ei_set_shstrtab (info_shdrs p) h Hw Hc Hb)
    as [[Hn ->]|[Hin [a ->]]]; cbn [mbind res_bind].
  - eexists _, _. split; [reflexivity|]. right. exists Want_shstrtab, str.
    split_and!; try done. by exists sh.
  - eexists _, _. split; [reflexivity|]. left. unfold info_done, info_shdrs.
    rewrite Hs. done.
Qed.

Lemma load_shdrs_spec img p o len ch h :
  image_wf img -> bytes_at img o len = Ok ch -> parsed img p ->
  hs_info h = Some (info_phdrs p) ->
  exists h', 
    (exists r, load_shdrs alloc (Some ch) o len h = Ok (h', Return r) /\
       header_outcome p Want_shdrs o len h' r) \/
    (load_shdrs alloc (Some ch) o len h = Ok (h', Next) /\ hs_info h' = Some (info_shdrs p) /\
     exists sh str, ep_sh p = Some (sh, str) /\ sections_at img p sh str).
Proof.
  intros Hw Hc [_ _ _ _ Hsec] Hi. unfold load_shdrs. rewrite (the_info_some h _ Hi).
  cbn [mbind res_bind]. eval_test.
  change (elf_shoff (info_phdrs p)) with (elf_shoff (info_ehdr p)).
  change (elf_shnum (info_phdrs p)) with (elf_shnum (info_ehdr p)).
  change (elf_shentsize (info_phdrs p)) with (elf_shentsize (info_ehdr p)).
  destruct (ep_sh p) as [[sh str]|] eqn:Hs.
  - pose proof Hsec as [Ho (n&es&Hn&Hn0&Hes&Hsz&?&?) Hb _ _].
    rewrite Ho, Hn. cbn [mbind res_bind]. rewrite (proj2 (Z.eqb_neq _ _) Hn0), Hes.
    cbn [mbind res_bind]. rewrite <- Hsz, u64_id
      by (unfold is_u64; pose proof (bytes_at_inv _ _ _ _ Hb); destruct Hw; nia).
    destruct (load_table_spec img o len ch sh ei_set_shdrs (info_phdrs p) h Hw Hc Hb)
      as [[Hni ->]|[Hin [a ->]]]; cbn [mbind res_bind].
    + eexists. left. eexists. split; [reflexivity|]. right. exists Want_shdrs, sh.
      split_and!; try done. by exists str.
    + eexists. right. split; [reflexivity|]. split; [|by exists sh, str].
      unfold info_shdrs. by rewrite Hs.
  - destruct Hsec as (off&Ho&Hn). rewrite Ho, Hn. cbn [mbind res_bind]. eval_test.
    eexists. left. eexists. split; [reflexivity|]. left. unfold info_done. by rewrite Hs.
Qed.

Lemma load_phdrs_spec img p o len ch h :
  image_wf img -> bytes_at img o len = Ok ch -> parsed img p -> hs_info h = Some (info_ehdr p) ->
  exists h',
    (exists r, load_phdrs alloc (Some ch) o len h = Ok (h', Return r) /\
       header_outcome p Want_phdrs o len h' r) \/
    (load_phdrs alloc (Some ch) o len h = Ok (h', Next) /\ hs_info h' = Some (info_phdrs p)).
Proof.
  intros Hw Hc [_ Ho (n&es&Hn&Hes&Hsz&?&?) Hb _] Hi. unfold load_phdrs.
  rewrite (the_info_some h _ Hi). cbn [mbind res_bind]. eval_test. rewrite Ho, Hn, Hes. cbn [mbind res_bind].
  rewrite <- Hsz, u64_id
    by (unfold is_u64; pose proof (bytes_at_inv _ _ _ _ Hb); destruct Hw; nia).
  destruct (load_table_spec img o len ch (ep_ph p) ei_set_phdrs (info_ehdr p) h Hw Hc Hb)
    as [[Hni ->]|[Hin [a ->]]]; cbn [mbind res_bind].
  - eexists. left. eexists. split; [reflexivity|]. right. exists Want_phdrs, (ep_ph p).
    split_and!; done.
  - eexists. right. split; reflexivity.
Qed.

Lemma outcome_weaken p s0 s1 o len h r :
  (stage_rank s0 <= stage_rank s1)%nat ->
  header_outcome p s1 o len h r -> header_outcome p s0 o len h r.
Proof.
  intros Hle [H|(s&t&H1&H)]; [by left|right]. exists s, t. split; [lia|done].
Qed.

(** Unless a stage returns, the next one runs. *)
Lemma load_tables_spec img p o len ch s0 t0 h :
  image_wf img -> bytes_at img o len = Ok ch -> parsed img p ->
  s0 = Want_phdrs \/ s0 = Want_shdrs \/ stage_table p s0 t0 ->
  hs_info h = Some (stage_info p s0) ->
  exists h' r,
    load_tables alloc (Some ch) o len (ei_load_state (stage_info p s0)) h = Ok (h', r) /\
    header_outcome p s0 o len h' r.
Proof.
  intros Hw Hc Hp Hs0 Hi. unfold load_tables. rewrite (the_info_some h _ Hi).
  cbn [mbind res_bind]. rewrite Z.eqb_refl. cbn [negb].
  assert (Hstr : forall sh str h1, ep_sh p = Some (sh, str) -> sections_at img p sh str ->
    hs_info h1 = Some (info_shdrs p) -> exists h' r,
    load_shstrtab alloc (Some ch) o len h1 = Ok (h', Return r) /\
    header_outcome p s0 o len h' r).
  { intros sh str h1 E1 E2 E3.
    destruct (load_shstrtab_spec img p o len ch sh str h1) as (h'&r&E&Ho); [done..|].
    exists h', r. split; [done|]. apply (outcome_weaken p _ Want_shstrtab); [|done].
    destruct s0; cbn; lia. }
  assert (Hsh : s0 <> Want_shstrtab -> forall h1, hs_info h1 = Some (info_phdrs p) ->
    exists h' r, ('(h, c) ← load_shdrs alloc (Some ch) o len h1;
      match c with Return r => Ok (h, r) | Next =>
        '(h, c) ← load_shstrtab alloc (Some ch) o len h;
        match c with Return r => Ok (h, r)
          | Next => Ok (h, ei_load_state (stage_info p s0)) end end) = Ok (h', r) /\
      header_outcome p s0 o len h' r).
  { intros Hne h1 E1. destruct (load_shdrs_spec img p o len ch h1 Hw Hc Hp E1)
      as (h2&[(r&E&Ho)|(E&E2&sh&str&E3&E4)]); rewrite E; cbn [mbind res_bind].
    - exists h2, r. split; [done|]. apply (outcome_weaken p _ Want_shdrs); [|done].
      destruct s0; cbn; (lia || done).
    - destruct (Hstr sh str h2 E3 E4 E2) as (h'&r&E5&Ho). rewrite E5.
      by exists h', r. }
  destruct s0; cbn [stage_info] in *.
  - destruct (load_phdrs_spec img p o len ch h Hw Hc Hp Hi) as (h1&[(r&E&Ho)|(E&E1)]);
      rewrite E; cbn [mbind res_bind]; [by exists h1, r|by apply Hsh].
  - unfold load_phdrs. rewrite (the_info_some h _ Hi). cbn [mbind res_bind]. eval_test.
    by apply Hsh.
  - destruct Hs0 as [?|[?|[sh Hsh0]]]; [done..|].
    pose proof (pd_sections _ _ Hp) as Hsec. rewrite Hsh0 in Hsec.
    unfold load_phdrs. rewrite (the_info_some h _ Hi). cbn [mbind res_bind]. eval_test.
    cbn [mbind res_bind].
    unfold load_shdrs. rewrite (the_info_some h _ Hi). cbn [mbind res_bind]. eval_test.
    cbn [mbind res_bind].
    destruct (Hstr sh t0 h Hsh0 Hsec Hi) as (h'&r&E5&Ho). rewrite E5. by exists h', r.
Qed.

(** The first call: a chunk from the start of the image, long enough to show the
    class. *)
Lemma load_header_init img p len ch a no nl :
  image_wf img -> 5 <= len -> bytes_at img 0 len = Ok ch -> parsed img p ->
  exists h' r, elf_load_header alloc (Some ch) 0 len ELF_STATE_INIT (mk_hs a None no nl)
               = Ok (h', r) /\
    (r = ELF_STATE_INIT /\ h' = mk_hs a None 0 (zlen (ep_ehdr p)) /\ len < zlen (ep_ehdr p) \/
     header_outcome p Want_phdrs 0 len h' r /\ zlen (ep_ehdr p) <= len).
Proof.
  intros Hw Hlen Hc Hp. destruct (pd_ehdr _ _ Hp) as (c&H1&H2&H3).
  assert (H64 : elf_is_64 ch = Ok c).
  { apply bytes_at_inv in Hc as (_&_&_&->&_). rewrite Z2Nat.inj_0. cbn [drop].
    revert H1. unfold elf_is_64, rget, zget, EI_CLASS. cbn [Z.leb Z.compare].
    rewrite lookup_take_lt; [done|lia]. }
  pose proof (bytes_at_inv _ _ _ _ H3) as (_&_&_&_&Hz).
  unfold elf_load_header. eval_test. unfold load_ehdr, elf_ehdr_size, elf_info_size.
  rewrite H64, Hz. cbn [mbind res_bind].
  destruct (Z.ltb_spec len (sizeof_Ehdr c)) as [Hl|Hl]; cbn [mbind res_bind].
  { eexists _, _. split; [reflexivity|]. by left. }
  cbn [hs_info hs_alloc]. pose proof (alloc_serves a (if c then 96 else 80)) as Ha.
  destruct (alloc _ _) as [a' ok]. cbn [snd] in Ha. subst ok. cbn [ei_ehdr].
  rewrite zlen_replicate, Z2Nat.id, Z.eqb_refl by (destruct c; cbn; lia). cbn [negb].
  assert (Eh : bytes_at ch 0 (sizeof_Ehdr c) = Ok (ep_ehdr p))
    by (apply (bytes_at_chunk img 0 len ch 0 (sizeof_Ehdr c)); (done || lia)).
  rewrite Eh.
  cbn [mbind res_bind].
  destruct (load_tables_spec img p 0 len ch Want_phdrs (ep_ph p)
    (mk_hs a' (Some (info_ehdr p)) no nl)) as (h'&r&E&Ho); [by eauto..|].
  exists h', r. split; [exact E|]. right. by split.
Qed.
End headers.

(** ** The segments *)

(** The program headers, parsed. *)
Fixpoint parse_phdrs (k : nat) (i : elf_info) (idx : Z) : res (list segment) :=
  match k with
  | O => Ok []
  | S k' =>
      p ← elf_get_segment_from_index i idx;
      match p with
      | None => Fault Out_of_bounds
      | Some p =>
          s ← elf_parse_segment i p;
          l ← parse_phdrs k' i (idx + 1);
          Ok (s :: l)
      end
  end.

Definition program_headers (i : elf_info) : res (list segment) :=
  n ← elf_phnum i; parse_phdrs (Z.to_nat n) i 0.

Definition loadable (s : segment) : bool := sg_type s =? PT_LOAD.

(** The state while segments are loaded: the stage [hs] of the headers and the
    index [n] of the next segment. *)
Definition ready_state (hs n : Z) : Z := RPROC_LOADER_READY_TO_LOAD + hs + n.

Definition hdr_states : list Z :=
  [ELF_STATE_WAIT_FOR_SHDRS; ELF_STATE_WAIT_FOR_SHSTRTAB; ELF_STATE_HDRS_COMPLETE].

(** The bit operations on the states of interest, checked one by one. *)
Definition state_bits_ok (hs n : Z) : bool :=
  let s := ready_state hs n in
  (Z.land s RPROC_LOADER_MASK =? RPROC_LOADER_READY_TO_LOAD) &&
  negb (Z.land s RPROC_LOADER_READY_TO_LOAD =? 0) &&
  (Z.land s ELF_NEXT_SEGMENT_MASK =? n) &&
  (Z.land s (Z.lnot ELF_NEXT_SEGMENT_MASK) =? RPROC_LOADER_READY_TO_LOAD + hs) &&
  forallb (fun b => (Z.land (set_bits s RPROC_LOADER_MASK b) (Z.lnot ELF_NEXT_SEGMENT_MASK)
                     =? b + hs) && (Z.lor (b + hs) n =? b + hs + n))
    [RPROC_LOADER_READY_TO_LOAD; RPROC_LOADER_POST_DATA_LOAD; RPROC_LOADER_LOAD_COMPLETE].

Lemma state_bits_all :
  forallb (fun hs => forallb (state_bits_ok hs) (zseq 0 256)) hdr_states = true.
Proof. vm_compute. reflexivity. Qed.

Lemma state_bits hs n :
  hs ∈ hdr_states -> 0 <= n < 256 -> state_bits_ok hs n = true.
Proof.
  intros Hh Hn. pose proof state_bits_all as H. rewrite forallb_forall in H.
  specialize (H hs (proj1 (list_elem_of_In _ _) Hh)). rewrite forallb_forall in H.
  apply H, list_elem_of_In, elem_of_zseq. lia.
Qed.

Lemma segment_mask m : Z.land m ELF_NEXT_SEGMENT_MASK = m mod 256.
Proof. change ELF_NEXT_SEGMENT_MASK with (Z.ones 8). by rewrite Z.land_ones. Qed.

(** The loader's bits [b] replaced (or kept) and the index set to [m]. *)
Lemma ready_state_bits hs n :
  hs ∈ hdr_states -> 0 <= n < 256 ->
  let s := ready_state hs n in
  Z.land s RPROC_LOADER_MASK = RPROC_LOADER_READY_TO_LOAD /\
  (Z.land s RPROC_LOADER_READY_TO_LOAD =? 0) = false /\
  Z.land s ELF_NEXT_SEGMENT_MASK = n /\
  (forall m, set_bits s ELF_NEXT_SEGMENT_MASK (Z.land m ELF_NEXT_SEGMENT_MASK)
             = ready_state hs (m mod 256)) /\
  (forall m b, b = RPROC_LOADER_POST_DATA_LOAD \/ b = RPROC_LOADER_LOAD_COMPLETE ->
     set_bits (set_bits s RPROC_LOADER_MASK b) ELF_NEXT_SEGMENT_MASK
       (Z.land m ELF_NEXT_SEGMENT_MASK) = b + hs + m mod 256).
Proof.
  intros Hh Hn s. pose proof (state_bits hs n Hh Hn) as H. unfold state_bits_ok in H.
  cbn [forallb] in H. rewrite !andb_true_iff, !Z.eqb_eq, negb_true_iff in H.
  destruct H as [[[[H1 H2] H3] H4] [H5 [H6 [H7 _]]]].
  split_and!; try done; intros m; [|intros b Hb]; rewrite segment_mask;
    pose proof (Z.mod_pos_bound m 256 eq_refl) as Hm;
    pose proof (state_bits hs (m mod 256) Hh Hm) as H; unfold state_bits_ok in H;
    cbn [forallb] in H; rewrite !andb_true_iff, !Z.eqb_eq, negb_true_iff in H;
    destruct H as [_ [[_ L1] [[_ L2] [[_ L3] _]]]];
    unfold set_bits at 1.
  - subst s. by rewrite H4.
  - subst s. destruct Hb as [-> | ->]; [by rewrite (proj1 H6)|by rewrite (proj1 H7)].
Qed.

(** The entry at every index of the table, and none beyond. *)
Lemma parse_phdrs_spec k i idx l :
  parse_phdrs k i idx = Ok l -> 0 <= idx ->
  length l = k /\ forall j s, zget l j = Some s ->
    exists p, elf_get_segment_from_index i (idx + j) = Ok (Some p) /\ elf_parse_segment i p = Ok s.
Proof.
  revert idx l. induction k as [|k IH]; intros idx l H Hidx.
  { injection H as <-. split; [done|]. intros j s Hj. apply zget_Some_lt in Hj.
    unfold zlen in Hj. cbn in Hj. lia. }
  cbn [parse_phdrs] in H. bind_inv H p Ep. destruct p as [p|]; [|done]. bind_inv H s Es.
  bind_inv H l' El. injection H as <-. apply IH in El as [Hl Hj]; [|lia]. split; [cbn; lia|].
  intros j s' Hs. destruct (decide (j = 0)) as [->|Hne].
  - rewrite zget_cons_0 in Hs. injection Hs as <-. exists p. by rewrite Z.add_0_r.
  - pose proof (zget_Some_lt _ _ _ Hs). rewrite zget_cons_S in Hs by lia.
    apply Hj in Hs as (p'&E&E'). exists p'. split; [|done]. rewrite <- E. f_equal. lia.
Qed.

Record phdr_table (i : elf_info) (segs : list segment) : Prop := {
  pt_num : elf_phnum i = Ok (zlen segs);
  pt_entry : forall k s, zget segs k = Some s ->
    exists p, elf_get_segment_from_index i k = Ok (Some p) /\ elf_parse_segment i p = Ok s;
  pt_end : elf_get_segment_from_index i (zlen segs) = Ok None
}.

Lemma program_headers_inv i segs :
  Forall is_u8 (ei_ehdr i) -> program_headers i = Ok segs -> phdr_table i segs.
Proof.
  intros Hu H. unfold program_headers in H. bind_inv H n En.
  assert (Hn : 0 <= n) by (apply (ehdr_half e_phnum) in En; [lia|done|by intros []]).
  apply parse_phdrs_spec in H as [Hl Hs]; [|lia].
  assert (Hz : n = zlen segs) by (unfold zlen; lia). subst n. split; [done|done|].
  unfold elf_phnum in En. unfold elf_get_segment_from_index. bind_inv En c Ec.
  cbn [mbind res_bind]. destruct (ei_phdrs i); [|done]. rewrite En. cbn [mbind res_bind].
  by rewrite Z.leb_refl, orb_true_r.
Qed.

(** The next loadable segment of the entries [l] that start at index [n], and the
    index after it. *)
Fixpoint next_ref (l : list segment) (n : Z) : option segment * Z :=
  match l with
  | [] => (None, n)
  | s :: l' => if loadable s then (Some s, n + 1) else next_ref l' (n + 1)
  end.

Lemma next_load_loop_spec i segs l pre ty ph n fuel :
  phdr_table i segs -> segs = pre ++ l -> ns_nseg n = zlen pre -> ty <> PT_LOAD ->
  (S (length l) < fuel)%nat ->
  exists ph' n', next_load_loop fuel i ty ph n = Ok (ph', n') /\
    ns_nseg n' = (next_ref l (zlen pre)).2 /\
    match (next_ref l (zlen pre)).1 with
    | Some s => is_Some ph' /\ ns_da n' = sg_paddr s /\ ns_noffset n' = sg_offset s /\
        ns_nfsize n' = sg_filesz s /\ ns_nmsize n' = sg_memsz s
    | None => ph' = None
    end.
Proof.
  intros Ht. revert pre ty ph n fuel.
  induction l as [|s l IH]; intros pre ty ph n [|fuel] -> Hn Hty Hf; try (cbn in Hf; lia);
    cbn [next_load_loop next_ref]; rewrite (proj2 (Z.eqb_neq _ _) Hty), Hn.
  - replace (zlen pre) with (zlen (pre ++ @nil segment)) by by rewrite app_nil_r.
    rewrite (pt_end _ _ Ht). cbn [mbind res_bind]. eexists _, _. split; [done|].
    by rewrite Hn, app_nil_r.
  - destruct (pt_entry _ _ Ht (zlen pre) s) as (p&Hp&Hs).
    { rewrite zget_app_r, Z.sub_diag by lia. apply zget_cons_0. }
    rewrite Hp. cbn [mbind res_bind]. rewrite Hs. cbn [mbind res_bind]. unfold loadable.
    destruct (Z.eqb_spec (sg_type s) PT_LOAD) as [E|E].
    + destruct fuel as [|fuel]; [cbn in Hf; lia|]. cbn [next_load_loop]. rewrite E.
      eexists _, _. split; [reflexivity|]. cbn. split; [done|]. by split; [eexists|].
    + replace (zlen pre + 1) with (zlen (pre ++ [s]))
        by (rewrite zlen_app; unfold zlen at 2; cbn; lia).
      apply IH; [by rewrite <- app_assoc|done|done|cbn in Hf; lia].
Qed.

Lemma next_ref_cases l n :
  (List.filter loadable l = [] /\ next_ref l n = (None, n + zlen l)) \/
  exists sk s l', l = sk ++ s :: l' /\ next_ref l n = (Some s, n + zlen sk + 1) /\
    List.filter loadable l = s :: List.filter loadable l'.
Proof.
  revert n. induction l as [|s l IH]; intros n; cbn [List.filter next_ref].
  { left. unfold zlen. cbn. by rewrite Z.add_0_r. }
  destruct (loadable s) eqn:E.
  - right. exists [], s, l. split_and!; try done. unfold zlen. cbn. f_equal. lia.
  - destruct (IH (n + 1)) as [[H1 H2]|(sk&s'&l'&->&H2&H3)].
    + left. split; [done|]. rewrite H2, zlen_cons. f_equal. lia.
    + right. exists (s :: sk), s', l'. split_and!; try done. rewrite H2, zlen_cons. f_equal. lia.
Qed.

Lemma phdr_table_state i segs s : phdr_table i segs -> phdr_table (ei_set_state i s) segs.
Proof. intros [H1 H2 H3]. split; [exact H1|exact H2|exact H3]. Qed.

(** What a call of [elf_load] hands over for a segment. *)
Record placement := mk_place {
  pl_da : Z;
  pl_offset : Z;
  pl_filesz : Z;
  pl_memsz : Z
}.

Definition place (s : segment) : placement :=
  mk_place (sg_paddr s) (sg_offset s) (sg_filesz s) (sg_memsz s).

Section segments.
Context {A : Type}.
Variable alloc : A -> Z -> A * bool.

(** The state after the entry that ends at index [n] of [num]. *)
Definition after_segment (hs num n : Z) : Z :=
  if n =? num then RPROC_LOADER_POST_DATA_LOAD + hs + n mod 256 else ready_state hs (n mod 256).

(** One call while segments remain to be looked at. *)
Lemma elf_load_ready img o len (h : hstate (A := A)) i segs pre l hs pad ms :
  hs_info h = Some i -> phdr_table i segs -> segs = pre ++ l ->
  zlen pre < 256 -> hs ∈ hdr_states -> ei_load_state i = ready_state hs (zlen pre) ->
  exists l' r, elf_load alloc img o len (ready_state hs (zlen pre))
      (mk_ls h RPROC_LOAD_ANYADDR pad ms) = Ok (l', r) /\ ls_padding l' = 0 /\
    hs_info (ls_h l') = Some (ei_set_state i r) /\ hs_alloc (ls_h l') = hs_alloc h /\
    match next_ref l (zlen pre) with
    | (Some s, n) => r = after_segment hs (zlen segs) n /\
        mk_place (ls_da l') (hs_noffset (ls_h l')) (hs_nlen (ls_h l')) (ls_nmemsize l') = place s
    | (None, n) => r = RPROC_LOADER_LOAD_COMPLETE + hs + n mod 256 /\
        ls_da l' = RPROC_LOAD_ANYADDR /\ hs_nlen (ls_h l') = hs_nlen h
    end.
Proof.
  intros Hi Ht Hsegs Hpre Hhs Hst. pose proof (zlen_nonneg pre) as H0.
  destruct (ready_state_bits hs (zlen pre) Hhs ltac:(lia)) as (B1&B2&B3&B4&B5).
  unfold elf_load. rewrite B1. eval_test. unfold load_data. cbn [ls_h].
  rewrite (the_info_some h i Hi). cbn [mbind res_bind]. rewrite Hst, B2. cbn [negb].
  unfold load_segment, elf_next_load_segment. rewrite (pt_num _ _ Ht). cbn [mbind res_bind].
  rewrite Hst, B3. cbn [ls_da ls_h].
  destruct (next_load_loop_spec i segs l pre PT_NULL None
    (mk_next (zlen pre) RPROC_LOAD_ANYADDR (hs_noffset h) 0 0)
    (S (S (Z.to_nat (zlen segs)))) Ht Hsegs eq_refl) as (ph'&n'&E&En&Er).
  { done. } { rewrite Hsegs. unfold zlen. rewrite length_app. lia. }
  rewrite E. cbn [mbind res_bind].
  assert (Hle : (next_ref l (zlen pre)).1 = None -> ns_nseg n' = zlen segs).
  { destruct (next_ref_cases l (zlen pre)) as [[_ Hr]|(?&?&?&_&Hr&_)]; rewrite Hr in *; [|done].
    intros _. rewrite En, Hsegs. cbn. by rewrite zlen_app. }
  destruct (next_ref l (zlen pre)) as [[s|] n]; cbn [fst snd] in *; subst n.
  - destruct Er as ([q ->]&E1&E2&E3&E4). unfold after_segment.
    destruct (Z.eqb_spec (ns_nseg n') (zlen segs)) as [Heq|Hne];
      (eexists _, _; split; [reflexivity|]); cbn -[set_bits].
    + rewrite B5 by by left. unfold place. by rewrite E1, E2, E3, E4.
    + rewrite B4. unfold place. by rewrite E1, E2, E3, E4.
  - subst ph'. rewrite (Hle eq_refl), Z.eqb_refl. eexists _, _. split; [reflexivity|].
    cbn -[set_bits]. rewrite B5 by by right. done.
Qed.

(** The state once the last segment was handed over, the headers being complete. *)
Definition post_state (n : Z) : Z := RPROC_LOADER_POST_DATA_LOAD + ELF_STATE_HDRS_COMPLETE + n.
Definition complete_state (n : Z) : Z := RPROC_LOADER_LOAD_COMPLETE + ELF_STATE_HDRS_COMPLETE + n.

Definition post_bits_ok (n : Z) : bool :=
  let s := post_state n in
  (Z.land s RPROC_LOADER_MASK =? RPROC_LOADER_POST_DATA_LOAD) &&
  (Z.land s RPROC_LOADER_READY_TO_LOAD =? 0) &&
  negb (Z.land s RPROC_LOADER_POST_DATA_LOAD =? 0) &&
  negb (Z.land s ELF_STATE_HDRS_COMPLETE =? 0) &&
  (set_bits s RPROC_LOADER_MASK RPROC_LOADER_LOAD_COMPLETE =? complete_state n).

Lemma post_bits n : 0 <= n < 256 -> post_bits_ok n = true.
Proof.
  intros Hn. assert (H : forallb post_bits_ok (zseq 0 256) = true) by (vm_compute; reflexivity).
  rewrite forallb_forall in H. apply H, list_elem_of_In, elem_of_zseq. lia.
Qed.

(** The call after the last segment. *)
Lemma elf_load_post img o len (h : hstate (A := A)) i n da pad ms :
  hs_info h = Some i -> ei_load_state i = post_state n -> 0 <= n < 256 ->
  elf_load alloc img o len (post_state n) (mk_ls h da pad ms)
  = Ok (mk_ls (mk_hs (hs_alloc h) (Some (ei_set_state i (complete_state n))) (hs_noffset h) 0)
          da 0 ms, complete_state n).
Proof.
  intros Hi Hst Hn. pose proof (post_bits n Hn) as H. unfold post_bits_ok in H.
  rewrite !andb_true_iff, !negb_true_iff, !Z.eqb_eq in H. destruct H as [[[[B1 B2] B3] B4] B5].
  unfold elf_load. rewrite B1. eval_test. unfold load_data. cbn [ls_h].
  rewrite (the_info_some h i Hi). cbn [mbind res_bind]. rewrite Hst, B2, Z.eqb_refl, B3.
  cbn [negb]. unfold post_data_load. rewrite Hst, B4, B5. reflexivity.
Qed.

(** The calls of [elf_load] for an image whose headers are complete, as the caller
    makes them: the outputs are reset before each, and the last one yields no
    address. *)
Fixpoint load_all (fuel : nat) (last : Z) (h : hstate (A := A))
  : res (list placement * hstate (A := A) * Z) :=
  match fuel with
  | O => Fault No_fuel
  | S fuel' =>
      '(l, ret) ← elf_load alloc None 0 0 last (mk_ls (hs_request h 0 0) RPROC_LOAD_ANYADDR 0 0);
      let h := ls_h l in
      if ls_da l =? RPROC_LOAD_ANYADDR then Ok ([], h, ret)
      else
        '(rest, h', r) ← load_all fuel' ret h;
        Ok (mk_place (ls_da l) (hs_noffset h) (hs_nlen h) (ls_nmemsize l) :: rest, h', r)
  end.

Lemma load_all_last fuel (h : hstate (A := A)) i n :
  (0 < fuel)%nat -> hs_info h = Some i -> ei_load_state i = post_state n -> 0 <= n < 256 ->
  exists h', load_all fuel (post_state n) h = Ok ([], h', complete_state n) /\
    hs_info h' = Some (ei_set_state i (complete_state n)) /\ hs_nlen h' = 0.
Proof.
  intros Hf Hi Hst Hn. destruct fuel as [|fuel]; [lia|]. cbn [load_all].
  rewrite (elf_load_post None 0 0 (hs_request h 0 0) i n) by done.
  cbn [mbind res_bind ls_da ls_h]. rewrite Z.eqb_refl. by eexists.
Qed.

Lemma load_all_from fuel (h : hstate (A := A)) i segs pre l :
  hs_info h = Some i -> phdr_table i segs -> segs = pre ++ l -> zlen segs <= 256 ->
  zlen pre < 256 -> ei_load_state i = ready_state ELF_STATE_HDRS_COMPLETE (zlen pre) ->
  Forall (fun s => sg_paddr s <> RPROC_LOAD_ANYADDR) l -> (length l + 1 < fuel)%nat ->
  exists h', load_all fuel (ready_state ELF_STATE_HDRS_COMPLETE (zlen pre)) h
    = Ok (place <$> List.filter loadable l, h', complete_state (zlen segs mod 256)) /\
    hs_info h' = Some (ei_set_state i (complete_state (zlen segs mod 256))) /\ hs_nlen h' = 0.
Proof.
  revert h i pre l. induction fuel as [|fuel IH]; [intros; lia|].
  intros h i pre l Hi Ht Hs Hnum Hpre Hst Hda Hf. cbn [load_all].
  destruct (elf_load_ready None 0 0 (hs_request h 0 0) i segs pre l ELF_STATE_HDRS_COMPLETE 0 0)
    as (l1&r&E&Ep&Ei&Ea&Er); try done.
  { by apply list_elem_of_In; right; right; left. }
  rewrite E. cbn [mbind res_bind].
  destruct (next_ref_cases l (zlen pre)) as [[Hfl Hr]|(sk&s&l'&Hl&Hr&Hfl)]; rewrite Hr in Er.
  - destruct Er as (->&Eda&Enl). rewrite Eda, Z.eqb_refl, Hfl.
    rewrite <- zlen_app, <- Hs in *. by eexists.
  - destruct Er as (->&Hp). injection Hp as E1 E2 E3 E4. rewrite Hfl. cbn [fmap list_fmap].
    assert (Hds : sg_paddr s <> RPROC_LOAD_ANYADDR /\ Forall (fun s => sg_paddr s <> RPROC_LOAD_ANYADDR) l').
    { rewrite Hl in Hda. apply Forall_app in Hda as [_ Hda]. by apply Forall_cons_1 in Hda. }
    rewrite E1, (proj2 (Z.eqb_neq _ _) (proj1 Hds)).
    assert (Hz : zlen segs = zlen pre + zlen sk + 1 + zlen l')
      by (rewrite Hs, Hl, !zlen_app, zlen_cons; lia).
    unfold after_segment in *. destruct (Z.eqb_spec (zlen pre + zlen sk + 1) (zlen segs)) as [Heq|Hne].
    + assert (l' = []) as -> by (apply nil_length_inv; unfold zlen in *; lia).
      assert (Hf' : (0 < fuel)%nat) by (rewrite Hl, length_app in Hf; cbn in Hf; lia).
      rewrite Heq in *. destruct (load_all_last fuel (ls_h l1) _ (zlen segs mod 256) Hf' Ei)
        as (h'&E'&Hh'); [done|by apply Z.mod_pos_bound|].
      change (RPROC_LOADER_POST_DATA_LOAD + _ + _) with (post_state (zlen segs mod 256)).
      rewrite E'. cbn [mbind res_bind]. exists h'. by rewrite E2, E3, E4.
    + assert (Hpre' : zlen pre + zlen sk + 1 = zlen (pre ++ sk ++ [s]))
        by (rewrite !zlen_app; change (zlen [s]) with 1; lia).
      pose proof (zlen_nonneg l'). rewrite Hpre' in *.
      rewrite Z.mod_small in * by (pose proof (zlen_nonneg (pre ++ sk ++ [s])); lia).
      destruct (IH (ls_h l1) _ (pre ++ sk ++ [s]) l' Ei) as (h'&E'&Hh'&Hn').
      * by apply phdr_table_state.
      * by rewrite Hs, Hl, <- !app_assoc.
      * done.
      * lia.
      * done.
      * exact (proj2 Hds).
      * rewrite Hl, length_app in Hf. cbn in Hf. lia.
      * rewrite E'. cbn [mbind res_bind]. exists h'. by rewrite E2, E3, E4.
Qed.

(** Once the headers of an image with at most 256 program headers are
    loaded, the calls of [elf_load] hand over exactly the loadable segments, in
    the order of the table, each with its physical address, its offset in the
    image and its sizes; they end, in the state that marks the load complete. *)
Theorem elf_load_all_segments (h : hstate (A := A)) i segs :
  Forall is_u8 (ei_ehdr i) -> program_headers i = Ok segs -> zlen segs <= 256 ->
  Forall (fun s => sg_paddr s <> RPROC_LOAD_ANYADDR) segs ->
  hs_info h = Some i -> ei_load_state i = ready_state ELF_STATE_HDRS_COMPLETE 0 ->
  exists h', load_all (length segs + 2) (ei_load_state i) h
    = Ok (place <$> List.filter loadable segs, h', complete_state (zlen segs mod 256)) /\
    hs_info h' = Some (ei_set_state i (complete_state (zlen segs mod 256))) /\ hs_nlen h' = 0.
Proof.
  intros Hu Hph Hn Hda Hi Hst. apply program_headers_inv in Hph; [|done]. rewrite Hst.
  apply (load_all_from _ h i segs [] segs); done || lia.
Qed.

(** The index of the next segment has 8 bits: in a file with more than 256
    program headers, once the one with index 255 is handed over the loader is
    again in the state in which the first one comes next. *)
Theorem elf_load_index_wraps (h : hstate (A := A)) i segs pre s l img o len pad ms :
  Forall is_u8 (ei_ehdr i) -> program_headers i = Ok segs -> segs = pre ++ s :: l ->
  zlen pre = 255 -> loadable s = true -> l <> [] -> hs_info h = Some i ->
  ei_load_state i = ready_state ELF_STATE_HDRS_COMPLETE 255 ->
  exists l', elf_load alloc img o len (ei_load_state i) (mk_ls h RPROC_LOAD_ANYADDR pad ms)
    = Ok (l', ready_state ELF_STATE_HDRS_COMPLETE 0) /\
    hs_info (ls_h l') = Some (ei_set_state i (ready_state ELF_STATE_HDRS_COMPLETE 0)).
Proof.
  intros Hu Hph Hs Hpre Hld Hl Hi Hst. apply program_headers_inv in Hph; [|done].
  rewrite Hst, <- Hpre.
  destruct (elf_load_ready img o len h i segs pre (s :: l) ELF_STATE_HDRS_COMPLETE pad ms)
    as (l1&r&E&_&Ei&_&Er); try done; [lia|by repeat constructor|by rewrite Hpre|].
  cbn [next_ref] in Er. rewrite Hld in Er. destruct Er as [Er _].
  assert (Hr : r = ready_state ELF_STATE_HDRS_COMPLETE 0).
  { rewrite Er, Hpre, Hs, zlen_app, zlen_cons, Hpre. unfold after_segment.
    destruct (Z.eqb_spec (255 + 1) (255 + (1 + zlen l))) as [E1|]; [|done].
    destruct Hl. apply nil_length_inv. unfold zlen in E1. lia. }
  exists l1. rewrite <- Hr. by split.
Qed.
End segments.

(** ** Witnesses *)

Definition demo_alloc (a : unit) (n : Z) : unit * bool := (tt, true).

Definition demo_parts : elf_parts :=
  match parse_elf demo_image with Ok p => p | Fault _ => mk_parts [] (mk_table 0 0 []) None end.

Definition demo_segs : list segment :=
  match program_headers (info_done demo_parts) with Ok l => l | Fault _ => [] end.

Definition u8_b (x : Z) : bool := (0 <=? x) && (x <? 256).

Lemma all_u8 l : forallb u8_b l = true -> Forall is_u8 l.
Proof.
  rewrite forallb_forall, list.Forall_forall. intros H x Hx. apply list_elem_of_In, H in Hx. unfold u8_b in Hx. rewrite andb_true_iff, Z.leb_le, Z.ltb_lt in Hx. done.
Qed.

Lemma elf_load_all_segments_witness : exists h',
  load_all demo_alloc 5 (ready_state ELF_STATE_HDRS_COMPLETE 0)
    (mk_hs tt (Some (info_done demo_parts)) 0 0)
  = Ok ([mk_place 0x8000 148 8 16; mk_place 0x9000 156 16 16], h', complete_state 3) /\
  hs_info h' = Some (ei_set_state (info_done demo_parts) (complete_state 3)) /\ hs_nlen h' = 0.
Proof.
  apply (elf_load_all_segments demo_alloc (mk_hs tt (Some (info_done demo_parts)) 0 0)
    (info_done demo_parts) demo_segs).
  - apply all_u8. vm_compute. reflexivity.
  - vm_compute. reflexivity.
  - vm_compute. discriminate.
  - repeat constructor; vm_compute; discriminate.
  - reflexivity.
  - reflexivity.
Defined.

(** A file with 257 loadable program headers. *)
Definition demo_big : elf_info :=
  mk_einfo (ELFMAG ++ [1] ++ replicate 39 0 ++ le_bytes 2 257 ++ replicate 6 0)
    (ready_state ELF_STATE_HDRS_COMPLETE 255)
    (Some (concat (replicate 257 (demo_phdr 1 148 0x8000 8 16)))) None None.

Definition demo_seg : segment := mk_seg 1 148 0x8000 0x8000 8 16.

Lemma elf_load_index_wraps_witness : exists l',
  elf_load demo_alloc None 0 0 (ready_state ELF_STATE_HDRS_COMPLETE 255)
    (mk_ls (mk_hs tt (Some demo_big) 0 0) RPROC_LOAD_ANYADDR 0 0)
  = Ok (l', ready_state ELF_STATE_HDRS_COMPLETE 0) /\
  hs_info (ls_h l') = Some (ei_set_state demo_big (ready_state ELF_STATE_HDRS_COMPLETE 0)).
Proof.
  apply (elf_load_index_wraps demo_alloc (mk_hs tt (Some demo_big) 0 0) demo_big
    (replicate 255 demo_seg ++ demo_seg :: [demo_seg]) (replicate 255 demo_seg) demo_seg [demo_seg]).
  - apply all_u8. vm_compute. reflexivity.
  - vm_compute. reflexivity.
  - reflexivity.
  - reflexivity.
  - reflexivity.
  - discriminate.
  - reflexivity.
  - reflexivity.
Defined.
