(* ===== verification/Remoteproc.v ===== *)
(** * Remote processors (lib/remoteproc/remoteproc.c, openamp/remoteproc.h)

    The life cycle of a remote processor, its memories and the notification
    identifiers of its subdevices.  The [rpworld] holds the byte memory, the
    [struct remoteproc] and the rest of the program's state, whose type is a
    parameter; the platform's operations are functions on it, [None] where the
    pointer is null.  A pointer to the [struct remoteproc] is whether it is
    non-null.  The list of memories is the sequence its nodes form. *)

From S2P Require Import Prelude MetalUtil MetalIo StrUtil ElfLoader.

(** ** Data *)

Definition RSC_NOTIFY_ID_ANY : Z := 0xFFFFFFFF.
Definition RPROC_MAX_NAME_LEN : Z := 32.

Definition RPROC_OFFLINE : Z := 0.
Definition RPROC_CONFIGURED : Z := 1.
Definition RPROC_READY : Z := 2.
Definition RPROC_RUNNING : Z := 3.
Definition RPROC_SUSPENDED : Z := 4.
Definition RPROC_ERROR : Z := 5.
Definition RPROC_STOPPED : Z := 6.

(** [rm_io] is [None] for a null pointer. *)
Record remoteproc_mem := mk_rmem {
  rm_da : Z;
  rm_pa : Z;
  rm_size : Z;
  rm_name : list Z;
  rm_io : option metal_io_region
}.

(** [rp_vdevs] are the addresses of the virtio devices on the list; [rp_loader] is
    whether the loader (the ELF loader is the only one) was selected. *)
Record remoteproc := mk_rproc {
  rp_lock : bool;
  rp_rsc_table : Z;
  rp_rsc_len : Z;
  rp_rsc_io : option metal_io_region;
  rp_mems : list remoteproc_mem;
  rp_vdevs : list Z;
  rp_bitmap : Z;
  rp_bootaddr : Z;
  rp_loader : bool;
  rp_state : Z;
  rp_priv : Z
}.

Definition rp_set_lock (r : remoteproc) (b : bool) : remoteproc :=
  mk_rproc b (rp_rsc_table r) (rp_rsc_len r) (rp_rsc_io r) (rp_mems r) (rp_vdevs r)
    (rp_bitmap r) (rp_bootaddr r) (rp_loader r) (rp_state r) (rp_priv r).
Definition rp_set_rsc (r : remoteproc) (t len : Z) (io : option metal_io_region) : remoteproc :=
  mk_rproc (rp_lock r) t len io (rp_mems r) (rp_vdevs r)
    (rp_bitmap r) (rp_bootaddr r) (rp_loader r) (rp_state r) (rp_priv r).
Definition rp_set_mems (r : remoteproc) (l : list remoteproc_mem) : remoteproc :=
  mk_rproc (rp_lock r) (rp_rsc_table r) (rp_rsc_len r) (rp_rsc_io r) l (rp_vdevs r)
    (rp_bitmap r) (rp_bootaddr r) (rp_loader r) (rp_state r) (rp_priv r).
Definition rp_set_vdevs (r : remoteproc) (l : list Z) : remoteproc :=
  mk_rproc (rp_lock r) (rp_rsc_table r) (rp_rsc_len r) (rp_rsc_io r) (rp_mems r) l
    (rp_bitmap r) (rp_bootaddr r) (rp_loader r) (rp_state r) (rp_priv r).
Definition rp_set_bitmap (r : remoteproc) (b : Z) : remoteproc :=
  mk_rproc (rp_lock r) (rp_rsc_table r) (rp_rsc_len r) (rp_rsc_io r) (rp_mems r) (rp_vdevs r)
    b (rp_bootaddr r) (rp_loader r) (rp_state r) (rp_priv r).
Definition rp_set_boot (r : remoteproc) (a : Z) : remoteproc :=
  mk_rproc (rp_lock r) (rp_rsc_table r) (rp_rsc_len r) (rp_rsc_io r) (rp_mems r) (rp_vdevs r)
    (rp_bitmap r) a (rp_loader r) (rp_state r) (rp_priv r).
Definition rp_set_loader (r : remoteproc) (b : bool) : remoteproc :=
  mk_rproc (rp_lock r) (rp_rsc_table r) (rp_rsc_len r) (rp_rsc_io r) (rp_mems r) (rp_vdevs r)
    (rp_bitmap r) (rp_bootaddr r) b (rp_state r) (rp_priv r).
Definition rp_set_state (r : remoteproc) (s : Z) : remoteproc :=
  mk_rproc (rp_lock r) (rp_rsc_table r) (rp_rsc_len r) (rp_rsc_io r) (rp_mems r) (rp_vdevs r)
    (rp_bitmap r) (rp_bootaddr r) (rp_loader r) s (rp_priv r).

Record rpworld (P : Type) := mk_rw {
  rw_mem : gmap Z Z;
  rw_rproc : remoteproc;
  rw_rest : P
}.
Arguments mk_rw {P} _ _ _.
Arguments rw_mem {P} _.
Arguments rw_rproc {P} _.
Arguments rw_rest {P} _.

Section world.
Context {P : Type}.
Definition rw_set_mem (w : rpworld P) (m : gmap Z Z) : rpworld P :=
  mk_rw m (rw_rproc w) (rw_rest w).
Definition rw_set_rproc (w : rpworld P) (r : remoteproc) : rpworld P :=
  mk_rw (rw_mem w) r (rw_rest w).
Definition rw_set_rest (w : rpworld P) (p : P) : rpworld P := mk_rw (rw_mem w) (rw_rproc w) p.

(** [struct remoteproc_ops].  [init] may refuse the instance; [mmap] returns the
    values behind [pa], [da] and [io] ([None]: not written) and the address;
    [get_mem] returns the memory it found. *)
Record remoteproc_ops := mk_rpops {
  rop_init : option (rpworld P -> Z -> res (rpworld P * bool));
  rop_remove : option (rpworld P -> res (rpworld P));
  rop_mmap : option (rpworld P -> Z -> Z -> Z -> Z ->
                     res (rpworld P * Z * Z * option metal_io_region * Z));
  rop_handle_rsc : option (rpworld P -> Z -> Z -> res (rpworld P * Z));
  rop_config : option (rpworld P -> Z -> res (rpworld P * Z));
  rop_start : option (rpworld P -> res (rpworld P * Z));
  rop_stop : option (rpworld P -> res (rpworld P * Z));
  rop_shutdown : option (rpworld P -> res (rpworld P * Z));
  rop_notify : option (rpworld P -> Z -> res (rpworld P * Z));
  rop_get_mem : option (rpworld P -> option (list Z) -> Z -> Z -> Z -> Z ->
                        res (rpworld P * option remoteproc_mem))
}.

Definition rp_acquire (w : rpworld P) : res (rpworld P) :=
  if rp_lock (rw_rproc w) then Fault Deadlock
  else Ok (rw_set_rproc w (rp_set_lock (rw_rproc w) true)).
Definition rp_release (w : rpworld P) : rpworld P :=
  rw_set_rproc w (rp_set_lock (rw_rproc w) false).
End world.
Arguments remoteproc_ops P : clear implicits.

(** ** Addresses of a memory *)

Definition remoteproc_datopa (mem : remoteproc_mem) (da : Z) : Z :=
  u64 (rm_pa mem + da - rm_da mem).
Definition remoteproc_patoda (mem : remoteproc_mem) (pa : Z) : Z :=
  u64 (rm_da mem + pa - rm_pa mem).

(** [strlen]: the position of the terminator. *)
Fixpoint strlen_loop (fuel : nat) (s : list Z) (i : Z) : res Z :=
  match fuel with
  | O => Fault No_fuel
  | S fuel' => c ← rget s i; if c =? 0 then Ok i else strlen_loop fuel' s (i + 1)
  end.
Definition strlen (s : list Z) : res Z := strlen_loop (S (length s)) s 0.

(** A range of [size] bytes from [a] in a memory at [start], [msize] long. *)
Definition in_range (a size start msize : Z) : bool :=
  let e := u64 (start + msize) in (start <=? a) && (u64 (a + size) <=? e) && (a <? e).

(** The test of one memory in [remoteproc_get_mem]: [None] is the [return NULL]
    when there is no criterion. *)
Definition mem_matches (mem : remoteproc_mem) (name : option (list Z)) (pa da va size : Z)
  : res (option bool) :=
  match name with
  | Some n => b ← strncmp_eq (Z.to_nat RPROC_MAX_NAME_LEN) n (rm_name mem) 0; Ok (Some b)
  | None =>
      if negb (pa =? METAL_BAD_PHYS) then Ok (Some (in_range pa size (rm_pa mem) (rm_size mem)))
      else if negb (da =? METAL_BAD_PHYS) then
        Ok (Some (in_range da size (rm_da mem) (rm_size mem)))
      else if negb (va =? 0) then
        match rm_io mem with
        | None => Fault Out_of_bounds
        | Some io => Ok (Some (negb (metal_io_virt_to_offset io va =? METAL_BAD_OFFSET)))
        end
      else Ok None
  end.

(** The loop over the memories: [inl] is a [return]. *)
Fixpoint get_mem_loop (mems : list remoteproc_mem) (name : option (list Z)) (pa da va size : Z)
  : res (option remoteproc_mem + unit) :=
  match mems with
  | [] => Ok (inr tt)
  | mem :: mems' =>
      m ← mem_matches mem name pa da va size;
      match m with
      | None => Ok (inl None)
      | Some true => Ok (inl (Some mem))
      | Some false => get_mem_loop mems' name pa da va size
      end
  end.

(** ** The operations *)

Section remoteproc.
Context {P : Type}.
Variable ops : remoteproc_ops P.

Definition remoteproc_get_mem (w : rpworld P) (name : option (list Z)) (pa da va size : Z)
  : res (rpworld P * option remoteproc_mem) :=
  too_long ← (match name with
              | Some n => l ← strlen n; Ok (RPROC_MAX_NAME_LEN <? l)
              | None => Ok false
              end);
  if (too_long : bool) then Ok (w, None)
  else
    r ← get_mem_loop (rp_mems (rw_rproc w)) name pa da va size;
    match r with
    | inl m => Ok (w, m)
    | inr _ =>
        match rop_get_mem ops with
        | None => Ok (w, None)
        | Some f => f w name pa da va size
        end
    end.

(** [rproc] is whether the pointer is non-null. *)
Definition remoteproc_init (rproc : bool) (has_ops : bool) (w : rpworld P) (priv : Z)
  : res (rpworld P * bool) :=
  if negb rproc || negb has_ops then Ok (w, false)
  else
    let w := rw_set_rproc w (mk_rproc false 0 0 None [] [] 0 0 false RPROC_OFFLINE priv) in
    match rop_init ops with Some f => f w priv | None => Ok (w, true) end.

Definition remoteproc_remove (rproc : bool) (w : rpworld P) : res (rpworld P * Z) :=
  if negb rproc then Ok (w, - RPROC_EINVAL)
  else
    w ← rp_acquire w;
    '(w, ret) ←
      (if rp_state (rw_rproc w) =? RPROC_OFFLINE then
         w ← (match rop_remove ops with Some f => f w | None => Ok w end); Ok (w, 0)
       else Ok (w, - RPROC_EAGAIN));
    Ok (rp_release w, ret).

(** [if (!ret) rproc->state = s] *)
Definition set_state_on_success (w : rpworld P) (ret s : Z) : rpworld P :=
  if ret =? 0 then rw_set_rproc w (rp_set_state (rw_rproc w) s) else w.

Definition remoteproc_config (rproc : bool) (w : rpworld P) (data : Z) : res (rpworld P * Z) :=
  if negb rproc then Ok (w, - RPROC_ENODEV)
  else
    w ← rp_acquire w;
    '(w, ret) ←
      (if rp_state (rw_rproc w) =? RPROC_OFFLINE then
         '(w, ret) ← (match rop_config ops with Some f => f w data | None => Ok (w, 0) end);
         Ok (set_state_on_success w ret RPROC_READY, ret)
       else Ok (w, - RPROC_EINVAL));
    Ok (rp_release w, ret).

Definition remoteproc_start (rproc : bool) (w : rpworld P) : res (rpworld P * Z) :=
  if negb rproc then Ok (w, - RPROC_ENODEV)
  else
    w ← rp_acquire w;
    '(w, ret) ←
      (if rp_state (rw_rproc w) =? RPROC_READY then
         '(w, ret) ← (match rop_start ops with
                      | Some f => f w
                      | None => Ok (w, - RPROC_ENODEV)
                      end);
         Ok (set_state_on_success w ret RPROC_RUNNING, ret)
       else Ok (w, - RPROC_EINVAL));
    Ok (rp_release w, ret).

Definition remoteproc_stop (rproc : bool) (w : rpworld P) : res (rpworld P * Z) :=
  if negb rproc then Ok (w, - RPROC_ENODEV)
  else
    w ← rp_acquire w;
    '(w, ret) ←
      (if negb (rp_state (rw_rproc w) =? RPROC_STOPPED) &&
          negb (rp_state (rw_rproc w) =? RPROC_OFFLINE) then
         '(w, ret) ← (match rop_stop ops with
                      | Some f => f w
                      | None => Ok (w, - RPROC_ENODEV)
                      end);
         Ok (if ret =? 0 then
               rw_set_rproc w (rp_set_bitmap (rp_set_state (rw_rproc w) RPROC_STOPPED) 0)
             else w, ret)
       else Ok (w, 0));
    Ok (rp_release w, ret).

Definition remoteproc_shutdown (rproc : bool) (w : rpworld P) : res (rpworld P * Z) :=
  if negb rproc then Ok (w, - RPROC_ENODEV)
  else
    w ← rp_acquire w;
    '(w, ret) ←
      (if negb (rp_state (rw_rproc w) =? RPROC_OFFLINE) then
         '(w, ret) ←
           (if negb (rp_state (rw_rproc w) =? RPROC_STOPPED) then
              match rop_stop ops with Some f => f w | None => Ok (w, 0) end
            else Ok (w, 0));
         if ret =? 0 then
           '(w, ret) ← (match rop_shutdown ops with Some f => f w | None => Ok (w, ret) end);
           Ok (set_state_on_success w ret RPROC_OFFLINE, ret)
         else Ok (w, ret)
       else Ok (w, 0));
    Ok (rp_release w, ret).

(** [mem] is the object the pointer refers to, [None] for a null pointer. *)
Definition remoteproc_init_mem (mem : option remoteproc_mem) (name : option (list Z))
    (pa da size : Z) (io : option metal_io_region) : res (option remoteproc_mem) :=
  match mem, io with
  | Some m, Some _ =>
      if size =? 0 then Ok mem
      else
        n ← (match name with
             | Some n =>
                 '(a, _) ← safe_strcpy (rm_name m) RPROC_MAX_NAME_LEN n RPROC_MAX_NAME_LEN; Ok a
             | None => rset (rm_name m) 0 0
             end);
        Ok (Some (mk_rmem da pa size n io))
  | _, _ => Ok mem
  end.

Definition remoteproc_add_mem (rproc : bool) (w : rpworld P) (mem : option remoteproc_mem)
  : rpworld P :=
  match mem with
  | Some m =>
      if rproc then rw_set_rproc w (rp_set_mems (rw_rproc w) (rp_mems (rw_rproc w) ++ [m])) else w
  | None => w
  end.

(** [mem ? mem->io : NULL] *)
Definition io_of_mem (mem : option remoteproc_mem) : option metal_io_region :=
  match mem with Some m => rm_io m | None => None end.

Definition remoteproc_get_io_with_name (rproc : bool) (w : rpworld P) (name : option (list Z))
  : res (rpworld P * option metal_io_region) :=
  if negb rproc then Ok (w, None)
  else '(w, mem) ← remoteproc_get_mem w name METAL_BAD_PHYS METAL_BAD_PHYS 0 0;
       Ok (w, io_of_mem mem).

Definition remoteproc_get_io_with_pa (rproc : bool) (w : rpworld P) (pa : Z)
  : res (rpworld P * option metal_io_region) :=
  if negb rproc then Ok (w, None)
  else '(w, mem) ← remoteproc_get_mem w None pa METAL_BAD_PHYS 0 0; Ok (w, io_of_mem mem).

(** [offset] is whether the pointer is non-null; the value written is returned. *)
Definition remoteproc_get_io_with_da (rproc : bool) (w : rpworld P) (da : Z) (offset : bool)
  : res (rpworld P * option metal_io_region * option Z) :=
  if negb rproc || negb offset then Ok (w, None, None)
  else
    '(w, mem) ← remoteproc_get_mem w None METAL_BAD_PHYS da 0 0;
    match mem with
    | None => Ok (w, None, None)
    | Some m =>
        match rm_io m with
        | None => Fault Out_of_bounds
        | Some io =>
            off ← metal_io_phys_to_offset io (remoteproc_datopa m da);
            Ok (w, Some io, Some off)
        end
    end.

Definition remoteproc_get_io_with_va (rproc : bool) (w : rpworld P) (va : Z)
  : res (rpworld P * option metal_io_region) :=
  if negb rproc then Ok (w, None)
  else '(w, mem) ← remoteproc_get_mem w None METAL_BAD_PHYS METAL_BAD_PHYS va 0;
       Ok (w, io_of_mem mem).

(** A pointer argument is [None] when null and the value behind it otherwise; the
    result holds the values behind [pa], [da] and [io] and the address. *)
Record mmap_out := mk_mo {
  mo_pa : option Z;
  mo_da : option Z;
  mo_io : option (option metal_io_region);
  mo_va : Z
}.

Definition remoteproc_mmap (rproc : bool) (w : rpworld P) (pa da : option Z) (size attribute : Z)
    (io : option (option metal_io_region)) : res (rpworld P * mmap_out) :=
  if negb rproc || (size =? 0) || match pa, da with None, None => true | _, _ => false end then
    Ok (w, mk_mo pa da io 0)
  else
    let lpa := from_option id METAL_BAD_PHYS pa in
    let lda := from_option id METAL_BAD_PHYS da in
    '(w, mem) ← remoteproc_get_mem w None lpa lda 0 size;
    '(w, lpa, lda, io, va) ←
      (match mem with
       | Some m =>
           let '(lpa, lda) :=
             if negb (lpa =? METAL_BAD_PHYS) then (lpa, remoteproc_patoda m lpa)
             else if negb (lda =? METAL_BAD_PHYS) then (remoteproc_datopa m lda, lda)
             else (lpa, lda) in
           let io := match io with Some _ => Some (rm_io m) | None => None end in
           match rm_io m with
           | None => Fault Out_of_bounds
           | Some r => va ← metal_io_phys_to_virt r lpa; Ok (w, lpa, lda, io, va)
           end
       | None =>
           match rop_mmap ops with
           | None => Ok (w, lpa, lda, io, 0)
           | Some f =>
               '(w, lpa, lda, nio, va) ← f w lpa lda size attribute;
               let io := match io, nio with Some _, Some r => Some (Some r) | _, _ => io end in
               Ok (w, lpa, lda, io, va)
           end
       end);
    Ok (w, mk_mo ((fun _ => lpa) <$> pa) ((fun _ => lda) <$> da) io va).

(** ** Notification identifiers *)

Definition remoteproc_allocate_id (w : rpworld P) (start fin : Z) : res (rpworld P * Z) :=
  let start := if start =? RSC_NOTIFY_ID_ANY then 0 else start in
  let fin := if fin =? RSC_NOTIFY_ID_ANY then METAL_BITS_PER_ULONG else fin in
  if (start <? 64) && (fin <=? 64) then
    notifyid ← metal_bitmap_next_clear_bit [rp_bitmap (rw_rproc w)] start fin;
    if negb (notifyid =? fin) then
      bm ← metal_bitmap_set_bit [rp_bitmap (rw_rproc w)] (i32 notifyid);
      b ← rget bm 0;
      Ok (rw_set_rproc w (rp_set_bitmap (rw_rproc w) b), notifyid)
    else Ok (w, RSC_NOTIFY_ID_ANY)
  else Ok (w, RSC_NOTIFY_ID_ANY).

Definition remoteproc_virtio_notify (w : rpworld P) (id : Z) : res (rpworld P * Z) :=
  match rop_notify ops with Some f => f w id | None => Ok (w, 0) end.
End remoteproc.
