(* ===== verification/RscTable.v ===== *)
(** * Resource tables (lib/remoteproc/rsc_table_parser.c, remoteproc.c)

    A resource table is bytes in memory, written by the firmware and updated in
    place; a field is read and written at its offset in the packed structure. *)

From S2P Require Import Prelude MetalUtil MetalIo ElfLoader Remoteproc.

(** ** Data *)

Definition RSC_CARVEOUT : Z := 0.
Definition RSC_DEVMEM : Z := 1.
Definition RSC_TRACE : Z := 2.
Definition RSC_VDEV : Z := 3.
Definition RSC_LAST : Z := 4.
Definition RSC_VENDOR_START : Z := 128.
Definition RSC_VENDOR_END : Z := 512.
Definition FW_RSC_U32_ADDR_ANY : Z := 0xFFFFFFFF.
Definition RSC_TAB_SUPPORTED_VERSION : Z := 1.

(** [struct resource_table]: [ver], [num], [reserved[2]], [offset[]]. *)
Definition RT_ver : Z := 0.
Definition RT_num : Z := 4.
Definition RT_reserved (k : Z) : Z := 8 + 4 * k.
Definition RT_offset (k : Z) : Z := 16 + 4 * k.
Definition SIZEOF_RESOURCE_TABLE : Z := 16.

(** [struct fw_rsc_carveout], [fw_rsc_trace], [fw_rsc_vendor]. *)
Definition CO_da : Z := 4.
Definition CO_pa : Z := 8.
Definition CO_len : Z := 12.
Definition CO_flags : Z := 16.
Definition CO_reserved : Z := 20.
Definition TR_da : Z := 4.
Definition TR_len : Z := 8.
Definition VEND_len : Z := 4.

(** [struct fw_rsc_vdev] and its vrings. *)
Definition VD_id : Z := 4.
Definition VD_notifyid : Z := 8.
Definition VD_dfeatures : Z := 12.
Definition VD_gfeatures : Z := 16.
Definition VD_config_len : Z := 20.
Definition VD_status : Z := 24.
Definition VD_num_of_vrings : Z := 25.
Definition VD_vring (k : Z) : Z := 28 + 20 * k.
Definition VR_da : Z := 0.
Definition VR_align : Z := 4.
Definition VR_num : Z := 8.
Definition VR_notifyid : Z := 12.

Definition ld (n : nat) (m : gmap Z Z) (a : Z) : res Z := bs ← loadn n m a; Ok (le_val bs).
Definition ld32 := ld 4.
Definition ld8 := ld 1.
Definition st32 (m : gmap Z Z) (a v : Z) : res (gmap Z Z) := storen m a (le_bytes 4 v).

(** ** The handlers *)

Section rsc.
Context {P : Type}.
Variable ops : remoteproc_ops P.

(** [rsc] is not null: it is an address inside the table. *)
Definition handle_carve_out_rsc (w : rpworld P) (rsc : Z) : res (rpworld P * Z) :=
  let m := rw_mem w in
  reserved ← ld32 m (rsc + CO_reserved);
  if negb (reserved =? 0) then Ok (w, - RPROC_ERR_RSC_TAB_RSVD)
  else
    pa ← ld32 m (rsc + CO_pa);
    da ← ld32 m (rsc + CO_da);
    size ← ld32 m (rsc + CO_len);
    attribute ← ld32 m (rsc + CO_flags);
    '(w, o) ← remoteproc_mmap ops true w (Some pa) (Some da) size attribute None;
    Ok (w, if negb (mo_va o =? 0) then 0 else - RPROC_EINVAL).

Definition handle_trace_rsc (w : rpworld P) (rsc : Z) : res (rpworld P * Z) :=
  da ← ld32 (rw_mem w) (rsc + TR_da);
  if negb (da =? FW_RSC_U32_ADDR_ANY) then
    len ← ld32 (rw_mem w) (rsc + TR_len);
    Ok (w, if negb (len =? 0) then 0 else - RPROC_ERR_RSC_TAB_NS)
  else Ok (w, - RPROC_ERR_RSC_TAB_NS).

(** [notifyid == RSC_NOTIFY_ID_ANY ? RSC_NOTIFY_ID_ANY : notifyid + 1] *)
Definition id_end (notifyid : Z) : Z :=
  if notifyid =? RSC_NOTIFY_ID_ANY then RSC_NOTIFY_ID_ANY else u32 (notifyid + 1).

(** An identifier for the one stored at [a]: it is stored there and [true], or
    there was none to allocate. *)
Definition assign_id (w : rpworld P) (a : Z) : res (rpworld P * bool) :=
  notifyid ← ld32 (rw_mem w) a;
  '(w, notifyid) ← remoteproc_allocate_id w notifyid (id_end notifyid);
  if negb (notifyid =? RSC_NOTIFY_ID_ANY) then
    m ← st32 (rw_mem w) a notifyid; Ok (rw_set_mem w m, true)
  else Ok (w, false).

(** The loop over the vrings: [k] remain from [i]; the second result is the index
    at which there was no identifier left. *)
Fixpoint assign_loop (k : nat) (i : Z) (rsc : Z) (w : rpworld P) : res (rpworld P * option Z) :=
  match k with
  | O => Ok (w, None)
  | S k' =>
      '(w, ok) ← assign_id w (rsc + VD_vring i + VR_notifyid);
      if (ok : bool) then assign_loop k' (i + 1) rsc w else Ok (w, Some i)
  end.

Definition clear_id (w : rpworld P) (a : Z) : res (rpworld P) :=
  id ← ld32 (rw_mem w) a;
  bm ← metal_bitmap_clear_bit [rp_bitmap (rw_rproc w)] (i32 id);
  b ← rget bm 0;
  Ok (rw_set_rproc w (rp_set_bitmap (rw_rproc w) b)).

(** [for (i--; i >= 0; i--)]: the vrings below [k], from the last. *)
Fixpoint undo_loop (k : nat) (rsc : Z) (w : rpworld P) : res (rpworld P) :=
  match k with
  | O => Ok w
  | S k' => w ← clear_id w (rsc + VD_vring (Z.of_nat k') + VR_notifyid); undo_loop k' rsc w
  end.

Definition handle_vdev_rsc (w : rpworld P) (rsc : Z) : res (rpworld P * Z) :=
  '(w, ok) ← assign_id w (rsc + VD_notifyid);
  if negb ok then Ok (w, - RPROC_ERR_RSC_TAB_NP)
  else
    num_vrings ← ld8 (rw_mem w) (rsc + VD_num_of_vrings);
    '(w, stop) ← assign_loop (Z.to_nat num_vrings) 0 rsc w;
    match stop with
    | None => Ok (w, 0)
    | Some i =>
        w ← undo_loop (Z.to_nat i) rsc w;
        w ← clear_id w (rsc + VD_notifyid);
        Ok (w, - RPROC_ERR_RSC_TAB_NP)
    end.

Definition handle_vendor_rsc (w : rpworld P) (rsc : Z) : res (rpworld P * Z) :=
  match rop_handle_rsc ops with
  | Some f => len ← ld32 (rw_mem w) (rsc + VEND_len); f w rsc len
  | None => Ok (w, - RPROC_ERR_RSC_TAB_NS)
  end.

Definition handle_dummy_rsc (w : rpworld P) (rsc : Z) : res (rpworld P * Z) :=
  Ok (w, - RPROC_ERR_RSC_TAB_NS).

Definition rsc_handler_table : list (rpworld P -> Z -> res (rpworld P * Z)) :=
  [handle_carve_out_rsc; handle_dummy_rsc; handle_trace_rsc; handle_vdev_rsc].

(** The resource at [hdr], of type [rsc_type]; a type of no range leaves the
    status alone. *)
Definition handle_rsc (w : rpworld P) (hdr rsc_type status : Z) : res (rpworld P * Z) :=
  if rsc_type <? RSC_LAST then f ← rget rsc_handler_table rsc_type; f w hdr
  else if (RSC_VENDOR_START <=? rsc_type) && (rsc_type <=? RSC_VENDOR_END) then
    handle_vendor_rsc w hdr
  else Ok (w, status).

(** The loop over the offsets: [k] remain from [idx].  The number of entries is
    read again at every test. *)
Fixpoint rsc_loop (k : nat) (idx : Z) (w : rpworld P) (rsc_table : Z)
    (io : option metal_io_region) (status : Z) : res (rpworld P * Z) :=
  match k with
  | O => Fault No_fuel
  | S k' =>
      num ← ld32 (rw_mem w) (rsc_table + RT_num);
      if num <=? idx then Ok (w, status)
      else
        off ← ld32 (rw_mem w) (rsc_table + RT_offset idx);
        let hdr := rsc_table + off in
        if match io with
           | Some r => metal_io_virt_to_offset r hdr =? METAL_BAD_OFFSET
           | None => false
           end then Ok (w, - RPROC_ERR_RSC_TAB_TRUNC)
        else
          rsc_type ← ld32 (rw_mem w) hdr;
          '(w, status) ← handle_rsc w hdr rsc_type status;
          if status =? - RPROC_ERR_RSC_TAB_NS then rsc_loop k' (idx + 1) w rsc_table io 0
          else if negb (status =? 0) then Ok (w, status)
          else rsc_loop k' (idx + 1) w rsc_table io status
  end.

(** Every iteration but the last has an index below the number of entries, at most
    [2 ^ 32 - 1] of them; the bound is the one the table has when the loop starts. *)
Definition handle_rsc_table (w : rpworld P) (rsc_table size : Z) (io : option metal_io_region)
  : res (rpworld P * Z) :=
  if size <? SIZEOF_RESOURCE_TABLE then Ok (w, - RPROC_ERR_RSC_TAB_TRUNC)
  else
    ver ← ld32 (rw_mem w) (rsc_table + RT_ver);
    if negb (ver =? RSC_TAB_SUPPORTED_VERSION) then Ok (w, - RPROC_ERR_RSC_TAB_VER)
    else
      num ← ld32 (rw_mem w) (rsc_table + RT_num);
      let offset := u32 (SIZEOF_RESOURCE_TABLE + num * 4) in
      if size <? offset then Ok (w, - RPROC_ERR_RSC_TAB_TRUNC)
      else
        r0 ← ld32 (rw_mem w) (rsc_table + RT_reserved 0);
        r1 ← ld32 (rw_mem w) (rsc_table + RT_reserved 1);
        if negb (r0 =? 0) || negb (r1 =? 0) then Ok (w, - RPROC_ERR_RSC_TAB_RSVD)
        else rsc_loop (S (Z.to_nat num)) 0 w rsc_table io 0.

(** ** Finding a resource *)

(** The loop of [find_rsc]: [k] remain from [i]; [rsc_index] were of the type. *)
Fixpoint find_loop (k : nat) (i : Z) (m : gmap Z Z) (r_table rsc_type index rsc_index : Z)
  : res Z :=
  match k with
  | O => Ok 0
  | S k' =>
      off ← ld32 m (r_table + RT_offset i);
      lrsc_type ← ld32 m (r_table + off);
      if lrsc_type =? rsc_type then
        if rsc_index =? index then Ok off
        else find_loop k' (i + 1) m r_table rsc_type index (u32 (rsc_index + 1))
      else find_loop k' (i + 1) m r_table rsc_type index rsc_index
  end.

Definition find_rsc (m : gmap Z Z) (rsc_table rsc_type index : Z) : res Z :=
  _ ← rassert (negb (rsc_table =? 0));
  num ← ld32 m (rsc_table + RT_num);
  find_loop (Z.to_nat num) 0 m rsc_table rsc_type index 0.

(** ** Setting the table *)

Definition remoteproc_parse_rsc_table (w : rpworld P) (rsc_table rsc_size : Z)
  : res (rpworld P * Z) :=
  if rsc_table =? 0 then Ok (w, - RPROC_EINVAL)
  else
    '(w, io) ← remoteproc_get_io_with_va ops true w rsc_table;
    handle_rsc_table w rsc_table rsc_size io.

Definition remoteproc_set_rsc_table (rproc : bool) (w : rpworld P) (rsc_table rsc_size : Z)
  : res (rpworld P * Z) :=
  if negb rproc || (rsc_table =? 0) || (rsc_size =? 0) then Ok (w, - RPROC_EINVAL)
  else
    '(w, io) ← remoteproc_get_io_with_va ops true w rsc_table;
    match io with
    | None => Ok (w, - RPROC_EINVAL)
    | Some _ =>
        '(w, ret) ← remoteproc_parse_rsc_table w rsc_table rsc_size;
        Ok (if ret =? 0 then rw_set_rproc w (rp_set_rsc (rw_rproc w) rsc_table rsc_size io)
            else w, ret)
    end.
End rsc.
