(* ===== verification/RemoteprocSpec.v ===== *)
(** * The life cycle, the identifiers and the memories of a remote processor

    The calls that change the state of a remote processor refine an automaton; the
    allocation of notification identifiers and the translation of addresses are
    specified on every branch. *)

From S2P Require Import Prelude MetalUtil MetalIo StrUtil ElfLoader Remoteproc.

(** ** The life cycle *)

Inductive rp_call : Type :=
| Config (data : Z)
| Start
| Stop
| Shutdown
| Remove.

(** The automaton: call, state, returned value, next state. *)
Inductive rp_step : rp_call -> Z -> Z -> Z -> Prop :=
| config_ok d : rp_step (Config d) RPROC_OFFLINE 0 RPROC_READY
| config_err d r : r <> 0 -> rp_step (Config d) RPROC_OFFLINE r RPROC_OFFLINE
| config_refused d s : s <> RPROC_OFFLINE -> rp_step (Config d) s (- RPROC_EINVAL) s
| start_ok : rp_step Start RPROC_READY 0 RPROC_RUNNING
| start_err r : r <> 0 -> rp_step Start RPROC_READY r RPROC_READY
| start_refused s : s <> RPROC_READY -> rp_step Start s (- RPROC_EINVAL) s
| stop_ok s : s <> RPROC_STOPPED -> s <> RPROC_OFFLINE -> rp_step Stop s 0 RPROC_STOPPED
| stop_err s r : s <> RPROC_STOPPED -> s <> RPROC_OFFLINE -> r <> 0 -> rp_step Stop s r s
| stop_idle s : s = RPROC_STOPPED \/ s = RPROC_OFFLINE -> rp_step Stop s 0 s
| shutdown_ok s : s <> RPROC_OFFLINE -> rp_step Shutdown s 0 RPROC_OFFLINE
| shutdown_err s r : s <> RPROC_OFFLINE -> r <> 0 -> rp_step Shutdown s r s
| shutdown_idle : rp_step Shutdown RPROC_OFFLINE 0 RPROC_OFFLINE
| remove_ok : rp_step Remove RPROC_OFFLINE 0 RPROC_OFFLINE
| remove_refused s : s <> RPROC_OFFLINE -> rp_step Remove s (- RPROC_EAGAIN) s.

(** A sequence of calls with the values they return. *)
Inductive rp_steps : list (rp_call * Z) -> Z -> Z -> Prop :=
| steps_nil s : rp_steps [] s s
| steps_cons c r l s s1 s2 : rp_step c s r s1 -> rp_steps l s1 s2 -> rp_steps ((c, r) :: l) s s2.

Section life.
Context {P : Type}.
Variable ops : remoteproc_ops P.

Definition rp_same (w w' : rpworld P) : Prop :=
  rp_state (rw_rproc w') = rp_state (rw_rproc w) /\ rp_lock (rw_rproc w') = rp_lock (rw_rproc w).

(** A platform operation returns, and leaves the state and the lock alone. *)
Definition op_calm (f : rpworld P -> res (rpworld P * Z)) : Prop :=
  forall w, exists w' r, f w = Ok (w', r) /\ rp_same w w'.

Definition opt_calm (f : option (rpworld P -> res (rpworld P * Z))) : Prop :=
  match f with Some g => op_calm g | None => True end.

Record life_ops : Prop := {
  lo_config : match rop_config ops with Some f => forall d, op_calm (fun w => f w d) | None => True end;
  lo_start : opt_calm (rop_start ops);
  lo_stop : opt_calm (rop_stop ops);
  lo_shutdown : opt_calm (rop_shutdown ops);
  lo_remove : match rop_remove ops with
    | Some f => forall w, exists w', f w = Ok w' /\ rp_same w w'
    | None => True
    end
}.

Definition rp_do (c : rp_call) (w : rpworld P) : res (rpworld P * Z) :=
  match c with
  | Config d => remoteproc_config ops true w d
  | Start => remoteproc_start ops true w
  | Stop => remoteproc_stop ops true w
  | Shutdown => remoteproc_shutdown ops true w
  | Remove => remoteproc_remove ops true w
  end.

Fixpoint rp_run (l : list rp_call) (w : rpworld P) : res (rpworld P * list (rp_call * Z)) :=
  match l with
  | [] => Ok (w, [])
  | c :: l' =>
      '(w, r) ← rp_do c w;
      '(w, t) ← rp_run l' w;
      Ok (w, (c, r) :: t)
  end.

Hypothesis Hops : life_ops.

(** A call behaves as a transition: it returns with the lock free. *)
Definition transition (c : rp_call) (w : rpworld P) (x : res (rpworld P * Z)) : Prop :=
  exists w' r, x = Ok (w', r) /\ rp_lock (rw_rproc w') = false /\
    rp_step c (rp_state (rw_rproc w)) r (rp_state (rw_rproc w')).

(** Optional operations, with the value returned when there is none. *)
Definition call_or (f : option (rpworld P -> res (rpworld P * Z))) (dflt : Z) (w : rpworld P)
  : res (rpworld P * Z) :=
  match f with Some g => g w | None => Ok (w, dflt) end.

Lemma call_or_calm f dflt : opt_calm f -> op_calm (call_or f dflt).
Proof.
  intros Hf w. destruct f as [g|]; [apply Hf|]. by exists w, dflt.
Qed.

Lemma acquire_free (w : rpworld P) :
  rp_lock (rw_rproc w) = false -> exists w1, rp_acquire w = Ok w1 /\
    rp_state (rw_rproc w1) = rp_state (rw_rproc w).
Proof. unfold rp_acquire. intros ->. by eexists. Qed.

Ltac take_lock w :=
  match goal with H : rp_lock (rw_rproc w) = false |- _ =>
    let w1 := fresh "w" in let E := fresh "E" in let Hs := fresh "Hs" in
    destruct (acquire_free w H) as (w1 & E & Hs); rewrite E; cbn [mbind res_bind];
    rewrite <- Hs
  end.

(** Ends a branch: the world and the value are those of the goal. *)
Ltac finish_call := eexists _, _; split; [reflexivity|]; split; [reflexivity|]; cbn.

Lemma config_refines w d :
  rp_lock (rw_rproc w) = false -> transition (Config d) w (remoteproc_config ops true w d).
Proof.
  intros Hl. unfold transition, remoteproc_config. cbn [negb]. take_lock w.
  destruct (Z.eqb_spec (rp_state (rw_rproc w0)) RPROC_OFFLINE) as [Ho|Ho]; cycle 1.
  { cbn [mbind res_bind]. finish_call. by constructor. }
  assert (Hc : exists w' r, (match rop_config ops with Some f => f w0 d | None => Ok (w0, 0) end)
    = Ok (w', r) /\ rp_same w0 w').
  { pose proof (lo_config Hops) as H. destruct (rop_config ops); [apply H|by exists w0, 0]. }
  destruct Hc as (w'&r&->&[Hst _]). cbn [mbind res_bind]. unfold set_state_on_success.
  rewrite Ho in *. destruct (Z.eqb_spec r 0) as [->|Hr]; finish_call; [constructor|].
  rewrite Hst. by constructor.
Qed.

(** A processor that is ready is not configured again: the call is refused, whatever the
    platform would do. *)
Lemma remoteproc_config_ready_refused w d :
  rp_lock (rw_rproc w) = false -> rp_state (rw_rproc w) = RPROC_READY ->
  exists w', remoteproc_config ops true w d = Ok (w', - RPROC_EINVAL) /\
    rp_state (rw_rproc w') = RPROC_READY /\ rp_lock (rw_rproc w') = false.
Proof.
  intros Hl Hs. unfold remoteproc_config. cbn [negb].
  destruct (acquire_free w Hl) as (w1 & -> & Hw). cbn [mbind res_bind]. rewrite Hw, Hs.
  change (RPROC_READY =? RPROC_OFFLINE) with false. cbn iota. cbn [mbind res_bind]. eexists. split; [reflexivity|]. split; [by cbn; rewrite Hw|done].
Qed.

Lemma start_refines w :
  rp_lock (rw_rproc w) = false -> transition Start w (remoteproc_start ops true w).
Proof.
  intros Hl. unfold transition, remoteproc_start. cbn [negb]. take_lock w.
  destruct (Z.eqb_spec (rp_state (rw_rproc w0)) RPROC_READY) as [Ho|Ho]; cycle 1.
  { cbn [mbind res_bind]. finish_call. by constructor. }
  fold (call_or (rop_start ops) (- RPROC_ENODEV) w0).
  destruct (call_or_calm _ (- RPROC_ENODEV) (lo_start Hops) w0) as (w'&r&->&[Hst _]).
  cbn [mbind res_bind]. unfold set_state_on_success. rewrite Ho in *.
  destruct (Z.eqb_spec r 0) as [->|Hr]; finish_call; [constructor|].
  rewrite Hst. by constructor.
Qed.

Lemma stop_refines w :
  rp_lock (rw_rproc w) = false -> transition Stop w (remoteproc_stop ops true w).
Proof.
  intros Hl. unfold transition, remoteproc_stop. cbn [negb]. take_lock w.
  destruct (Z.eqb_spec (rp_state (rw_rproc w0)) RPROC_STOPPED) as [Ho|Ho]; cbn [negb andb].
  { cbn [mbind res_bind]. finish_call. apply stop_idle. by left. }
  destruct (Z.eqb_spec (rp_state (rw_rproc w0)) RPROC_OFFLINE) as [Hf|Hf]; cbn [negb].
  { cbn [mbind res_bind]. finish_call. apply stop_idle. by right. }
  fold (call_or (rop_stop ops) (- RPROC_ENODEV) w0).
  destruct (call_or_calm _ (- RPROC_ENODEV) (lo_stop Hops) w0) as (w'&r&->&[Hst _]).
  cbn [mbind res_bind]. destruct (Z.eqb_spec r 0) as [->|Hr]; finish_call; [by constructor|].
  rewrite Hst. by constructor.
Qed.

Lemma shutdown_refines w :
  rp_lock (rw_rproc w) = false -> transition Shutdown w (remoteproc_shutdown ops true w).
Proof.
  intros Hl. unfold transition, remoteproc_shutdown. cbn [negb]. take_lock w.
  destruct (Z.eqb_spec (rp_state (rw_rproc w0)) RPROC_OFFLINE) as [Hf|Hf]; cbn [negb].
  { cbn [mbind res_bind]. finish_call. rewrite Hf. apply shutdown_idle. }
  assert (Hc : exists w' r, (if negb (rp_state (rw_rproc w0) =? RPROC_STOPPED)
      then call_or (rop_stop ops) 0 w0 else Ok (w0, 0)) = Ok (w', r) /\ rp_same w0 w').
  { destruct (negb _); [|by exists w0, 0]. apply call_or_calm, (lo_stop Hops). }
  unfold call_or in Hc. destruct Hc as (w1&r1&->&[Hs1 Hl1]). cbn [mbind res_bind].
  destruct (Z.eqb_spec r1 0) as [->|Hr1]; cycle 1.
  { cbn [mbind res_bind]. finish_call. rewrite Hs1. by constructor. }
  fold (call_or (rop_shutdown ops) 0 w1).
  destruct (call_or_calm _ 0 (lo_shutdown Hops) w1) as (w2&r2&->&[Hs2 _]).
  cbn [mbind res_bind]. unfold set_state_on_success.
  destruct (Z.eqb_spec r2 0) as [->|Hr2]; finish_call; [by constructor|].
  rewrite Hs2, Hs1. by constructor.
Qed.

Lemma remove_refines w :
  rp_lock (rw_rproc w) = false -> transition Remove w (remoteproc_remove ops true w).
Proof.
  intros Hl. unfold transition, remoteproc_remove. cbn [negb]. take_lock w.
  destruct (Z.eqb_spec (rp_state (rw_rproc w0)) RPROC_OFFLINE) as [Hf|Hf]; cycle 1.
  { cbn [mbind res_bind]. finish_call. by constructor. }
  assert (Hc : exists w', (match rop_remove ops with Some f => f w0 | None => Ok w0 end) = Ok w' /\
    rp_same w0 w').
  { pose proof (lo_remove Hops) as H. destruct (rop_remove ops); [apply H|by exists w0]. }
  destruct Hc as (w'&->&[Hst _]). cbn [mbind res_bind]. finish_call.
  rewrite Hst, Hf. constructor.
Qed.

Lemma rp_do_refines c w :
  rp_lock (rw_rproc w) = false -> transition c w (rp_do c w).
Proof.
  intros Hl. destruct c; cbn [rp_do].
  - by apply config_refines.
  - by apply start_refines.
  - by apply stop_refines.
  - by apply shutdown_refines.
  - by apply remove_refines.
Qed.
End life.

(** The states the automaton reaches from [RPROC_OFFLINE]. *)
Definition life_state (s : Z) : Prop :=
  s = RPROC_OFFLINE \/ s = RPROC_READY \/ s = RPROC_RUNNING \/ s = RPROC_STOPPED.

Lemma rp_step_life c s r s' : rp_step c s r s' -> life_state s -> life_state s'.
Proof. unfold life_state. destruct 1; tauto. Qed.

(** The processor runs only after a successful start that was not followed by a
    successful stop or shutdown. *)
Definition ends_run (c : rp_call) (r : Z) : Prop :=
  r = 0 /\ (c = Stop \/ c = Shutdown).

Lemma rp_step_running c s r :
  rp_step c s r RPROC_RUNNING -> (c = Start /\ r = 0 /\ s = RPROC_READY) \/
    (s = RPROC_RUNNING /\ ~ ends_run c r).
Proof.
  unfold ends_run. intros Hs. inversion Hs as [| | | | | | | |? Hi| | | | |]; subst;
    try (by left); try done; right; (split; [done|]); intros [Hr [Hc|Hc]]; try done.
  by destruct Hi.
Qed.

Lemma rp_step_ready c s r :
  rp_step c s r RPROC_READY -> (exists d, c = Config d /\ r = 0 /\ s = RPROC_OFFLINE) \/
    s = RPROC_READY.
Proof. intros Hs. inversion Hs; subst; try (by right); try done. left. by eexists. Qed.

Lemma rp_steps_snoc l c r s s2 :
  rp_steps (l ++ [(c, r)]) s s2 -> exists s1, rp_steps l s s1 /\ rp_step c s1 r s2.
Proof.
  revert s. induction l as [|[c' r'] l IH]; intros s H; cbn in H; inversion H; subst.
  - match goal with H : rp_steps [] _ _ |- _ => inversion H; subst end.
    eexists. split; [constructor|done].
  - match goal with H : rp_steps (_ ++ _) _ _ |- _ => apply IH in H as (s1'&H1&H2) end.
    eexists. split; [by econstructor|done].
Qed.

Lemma rp_steps_ready l s :
  rp_steps l s RPROC_READY -> s = RPROC_OFFLINE ->
  exists d l1 l2, l = l1 ++ (Config d, 0) :: l2.
Proof.
  induction l as [|[c r] l IH] using rev_ind; intros H ->; [by inversion H|].
  apply rp_steps_snoc in H as (s1&H1&H2).
  apply rp_step_ready in H2 as [(d&->&->&_)| ->].
  - by exists d, l, [].
  - destruct (IH H1 eq_refl) as (d&l1&l2&->). exists d, l1, (l2 ++ [(c, r)]).
    by rewrite <- app_assoc.
Qed.

Lemma rp_steps_running l s :
  rp_steps l s RPROC_RUNNING -> s = RPROC_OFFLINE ->
  exists d l0 l1 l2, l = (l0 ++ (Config d, 0) :: l1) ++ (Start, 0) :: l2 /\
    Forall (fun x => ~ ends_run x.1 x.2) l2.
Proof.
  induction l as [|[c r] l IH] using rev_ind; intros H ->; [by inversion H|].
  apply rp_steps_snoc in H as (s1&H1&H2).
  apply rp_step_running in H2 as [(->&->&->)|[-> Hn]].
  - destruct (rp_steps_ready _ _ H1 eq_refl) as (d&l0&l1&->). by exists d, l0, l1, [].
  - destruct (IH H1 eq_refl) as (d&l0&l1&l2&->&Hf).
    exists d, l0, l1, (l2 ++ [(c, r)]). split; [by rewrite <- app_assoc|].
    apply Forall_app. split; [done|]. by constructor.
Qed.


(** A platform whose operations count the starts. *)
Definition demo_rpops : remoteproc_ops Z :=
  mk_rpops None None None None None
    (Some (fun w => Ok (rw_set_rest w (rw_rest w + 1), 0)))
    (Some (fun w => Ok (w, 0))) None None None.

Definition demo_rpworld (mems : list remoteproc_mem) (bm : Z) : rpworld Z :=
  mk_rw ∅ (mk_rproc false 0 0 None mems [] bm 0 false RPROC_OFFLINE 0) 0.

Lemma demo_life : life_ops demo_rpops.
Proof. split; cbn; try done; intros w; by eexists _, _. Qed.


(** ** Notification identifiers *)

(** Identifier [i] is allocated in the bitmap [b]. *)
Definition id_taken (b i : Z) : bool := bm_test [b] i.

(** The bitmap [b'] is [b] with the bit of [id] set to [v]. *)
Definition id_update (b b' id : Z) (v : bool) : Prop :=
  is_u64 b' /\ forall j, 0 <= j -> id_taken b' j = if j =? id then v else id_taken b j.

Definition with_bitmap {P} (w : rpworld P) (b : Z) : rpworld P :=
  rw_set_rproc w (rp_set_bitmap (rw_rproc w) b).

Lemma one_word {A} (l : list A) : zlen l = 1 -> exists x, l = [x].
Proof. destruct l as [|x [|y l]]; rewrite ?zlen_cons; intros H; [done|by exists x|]. 
  pose proof (zlen_nonneg l). lia. Qed.

Lemma bm_wf_one b : is_u64 b -> bm_wf [b].
Proof. intros Hb. apply Forall_singleton, Hb. Qed.

Lemma set_id_run b id :
  is_u64 b -> 0 <= id < 64 ->
  exists b', metal_bitmap_set_bit [b] (i32 id) = Ok [b'] /\ id_update b b' id true.
Proof.
  intros Hb Hid. rewrite i32_id by lia.
  destruct (set_bit_spec [b] id) as (bm'&E&Hw&Hz&Hj);
    [by apply bm_wf_one|unfold bm_bits, zlen; cbn; lia|unfold bm_bits, zlen; cbn; lia|].
  destruct (one_word bm' Hz) as [b' ->]. exists b'. split; [done|]. split; [|exact Hj].
  by apply Forall_cons_1 in Hw as [Hw _].
Qed.

Lemma clear_id_run b id :
  is_u64 b -> 0 <= id < 64 ->
  exists b', metal_bitmap_clear_bit [b] (i32 id) = Ok [b'] /\ id_update b b' id false.
Proof.
  intros Hb Hid. rewrite i32_id by lia.
  destruct (clear_bit_spec [b] id) as (bm'&E&Hw&Hz&Hj);
    [by apply bm_wf_one|unfold bm_bits, zlen; cbn; lia|unfold bm_bits, zlen; cbn; lia|].
  destruct (one_word bm' Hz) as [b' ->]. exists b'. split; [done|]. split; [|exact Hj].
  by apply Forall_cons_1 in Hw as [Hw _].
Qed.

Section ids.
Context {P : Type} (w : rpworld P).
Abbreviation b := (rp_bitmap (rw_rproc w)).
Hypothesis Hb : is_u64 b.

(** The range searched for a request. *)
Definition id_start (start : Z) : Z := if start =? RSC_NOTIFY_ID_ANY then 0 else start.
Definition id_limit (fin : Z) : Z := if fin =? RSC_NOTIFY_ID_ANY then 64 else fin.

Lemma allocate_id_unfold start fin :
  remoteproc_allocate_id w start fin =
    if (id_start start <? 64) && (id_limit fin <=? 64) then
      notifyid ← metal_bitmap_next_clear_bit [b] (id_start start) (id_limit fin);
      if negb (notifyid =? id_limit fin) then
        bm ← metal_bitmap_set_bit [b] (i32 notifyid);
        x ← rget bm 0;
        Ok (with_bitmap w x, notifyid)
      else Ok (w, RSC_NOTIFY_ID_ANY)
    else Ok (w, RSC_NOTIFY_ID_ANY).
Proof. reflexivity. Qed.

Lemma allocate_id_found start fin i :
  0 <= id_start start < 64 -> 0 < id_limit fin <= 64 ->
  0 <= i < id_limit fin -> id_taken b i = false ->
  exists r b', remoteproc_allocate_id w start fin
      = Ok (with_bitmap w b', r mod id_limit fin) /\
    id_start start <= r < id_start start + id_limit fin /\
    id_taken b (r mod id_limit fin) = false /\
    (forall k, id_start start <= k < r -> id_taken b (k mod id_limit fin) = true) /\
    id_update b b' (r mod id_limit fin) true.
Proof.
  intros Hs Hf Hi Hfree. rewrite allocate_id_unfold.
  rewrite (proj2 (Z.ltb_lt _ _)), (proj2 (Z.leb_le _ _)) by lia. cbn [andb].
  destruct (next_clear_bit_found [b] (id_start start) (id_limit fin)) with (i := i)
    as (r&E&Hr&Hc&Hk); try done; try lia; try (unfold bm_bits, zlen; cbn; lia).
  rewrite E. cbn [mbind res_bind].
  pose proof (Z.mod_pos_bound r (id_limit fin) ltac:(lia)) as Hm.
  rewrite (proj2 (Z.eqb_neq _ _)) by lia. cbn [negb].
  destruct (set_id_run b (r mod id_limit fin) Hb) as (b'&E'&Hu); [lia|].
  rewrite E'. cbn [mbind res_bind]. exists r, b'. done.
Qed.

Lemma allocate_id_exhausted start fin :
  0 <= id_start start < 64 -> 0 < id_limit fin <= 64 ->
  (forall i, 0 <= i < id_limit fin -> id_taken b i = true) ->
  exists b', remoteproc_allocate_id w start fin
      = Ok (with_bitmap w b', id_start start mod id_limit fin) /\
    is_u64 b' /\ forall j, 0 <= j -> id_taken b' j = id_taken b j.
Proof.
  intros Hs Hf Hfull. rewrite allocate_id_unfold.
  rewrite (proj2 (Z.ltb_lt _ _)), (proj2 (Z.leb_le _ _)) by lia. cbn [andb].
  rewrite (next_clear_bit_full [b] (id_start start) (id_limit fin))
    by (done || lia || (unfold bm_bits, zlen; cbn; lia)).
  cbn [mbind res_bind].
  pose proof (Z.mod_pos_bound (id_start start) (id_limit fin) ltac:(lia)) as Hm.
  rewrite (proj2 (Z.eqb_neq _ _)) by lia. cbn [negb].
  destruct (set_id_run b (id_start start mod id_limit fin) Hb) as (b'&E'&Hu&Hj); [lia|].
  rewrite E'. cbn [mbind res_bind]. exists b'. split_and!; try done. intros j Hj0.
  rewrite Hj by done. destruct (Z.eqb_spec j (id_start start mod id_limit fin)) as [->|]; [|done].
  symmetry. by apply Hfull.
Qed.

Lemma allocate_id_refused start fin :
  64 <= id_start start \/ 64 < id_limit fin ->
  remoteproc_allocate_id w start fin = Ok (w, RSC_NOTIFY_ID_ANY).
Proof.
  intros H. rewrite allocate_id_unfold.
  destruct H; [rewrite (proj2 (Z.ltb_ge _ _)) by lia; done|].
  rewrite (proj2 (Z.leb_gt (id_limit fin) 64)) by lia. by rewrite andb_false_r.
Qed.
End ids.

(** A notification identifier is allocated below the limit of the request: if
    one is free there, the first free one in cyclic order from the start of the
    request is taken, and the bitmap gains that identifier only; if all are taken
    no free one is invented, but the call does not fail either: it returns the
    identifier of the start, which is in use.  A request beyond the 64 identifiers
    is refused. *)
Theorem remoteproc_allocate_id_spec {P} (w : rpworld P) (start fin : Z) :
  is_u64 (rp_bitmap (rw_rproc w)) -> 0 <= start -> 0 < fin ->
  let b := rp_bitmap (rw_rproc w) in
  let s := id_start start in
  let f := id_limit fin in
  (64 <= s \/ 64 < f -> remoteproc_allocate_id w start fin = Ok (w, RSC_NOTIFY_ID_ANY)) /\
  (s < 64 -> f <= 64 ->
   (forall i, 0 <= i < f -> id_taken b i = false ->
    exists r b', remoteproc_allocate_id w start fin = Ok (with_bitmap w b', r mod f) /\
      s <= r < s + f /\ id_taken b (r mod f) = false /\
      (forall k, s <= k < r -> id_taken b (k mod f) = true) /\
      id_update b b' (r mod f) true) /\
   ((forall i, 0 <= i < f -> id_taken b i = true) ->
    exists b', remoteproc_allocate_id w start fin = Ok (with_bitmap w b', s mod f) /\
      id_taken b (s mod f) = true /\ is_u64 b' /\
      forall j, 0 <= j -> id_taken b' j = id_taken b j)).
Proof.
  intros Hb Hs Hf b s f.
  assert (Hs0 : 0 <= s) by (subst s; unfold id_start; destruct (_ =? _); lia).
  assert (Hf0 : 0 < f) by (subst f; unfold id_limit; destruct (_ =? _); lia).
  split; [by apply allocate_id_refused|]. intros Hs1 Hf1. split.
  - intros i Hi Hfree. by apply (allocate_id_found w Hb start fin i).
  - intros Hfull.
    destruct (allocate_id_exhausted w Hb start fin) as (b'&E&Hu&Hj); [lia..|done|].
    exists b'. split_and!; try done. apply Hfull, Z.mod_pos_bound. lia.
Qed.

Lemma remoteproc_allocate_id_spec_witness :
  (exists b', remoteproc_allocate_id (demo_rpworld [] 7) 2 3
     = Ok (with_bitmap (demo_rpworld [] 7) b', 2) /\ id_taken 7 2 = true) /\
  (exists b', remoteproc_allocate_id (demo_rpworld [] 5) 2 3
     = Ok (with_bitmap (demo_rpworld [] 5) b', 1)).
Proof.
  split.
  - destruct (remoteproc_allocate_id_spec (demo_rpworld [] 7) 2 3) as [_ H];
      [by vm_compute|lia|lia|].
    destruct (H ltac:(vm_compute; reflexivity) ltac:(vm_compute; discriminate)) as [_ Hfull].
    destruct Hfull as (b'&E&Ht&_).
    + intros i Hi. change (id_limit 3) with 3 in Hi.
      assert (i = 0 \/ i = 1 \/ i = 2) as [-> | [-> | ->]] by lia; reflexivity.
    + exists b'. split; [exact E|exact Ht].
  - eexists. vm_compute. reflexivity.
Defined.

(** ** Memories *)

(** A memory whose I/O region maps its physical range in order. *)
Record mem_ok (m : remoteproc_mem) (io : metal_io_region) (physmap : list Z) : Prop := {
  mk_io_of : rm_io m = Some io;
  mk_wf : io_wf io physmap;
  mk_size : 0 < rm_size m <= io_size io;
  mk_da : 0 <= rm_da m /\ rm_da m + rm_size m < METAL_BAD_PHYS;
  mk_pa : 0 <= rm_pa m /\ rm_pa m + rm_size m < METAL_BAD_PHYS;
  mk_linear : forall o, 0 <= o < rm_size m -> metal_io_phys io o = Ok (rm_pa m + o)
}.

Definition mem_wf (m : remoteproc_mem) : Prop := exists io physmap, mem_ok m io physmap.

(** The range of [size] bytes from the device (physical) address is in the memory. *)
Definition covers_da (m : remoteproc_mem) (da size : Z) : Prop :=
  rm_da m <= da /\ da + size <= rm_da m + rm_size m.
Definition covers_pa (m : remoteproc_mem) (pa size : Z) : Prop :=
  rm_pa m <= pa /\ pa + size <= rm_pa m + rm_size m.

Lemma in_range_spec a size start msize :
  0 <= a -> 0 <= size -> a + size < 18446744073709551616 ->
  0 <= start -> 0 < msize -> start + msize < METAL_BAD_PHYS ->
  in_range a size start msize = true <->
  start <= a /\ a + size <= start + msize /\ a < start + msize.
Proof.
  unfold in_range, METAL_BAD_PHYS. intros. rewrite !u64_id by (unfold is_u64; lia).
  rewrite !andb_true_iff, !Z.leb_le, Z.ltb_lt. tauto.
Qed.

(** The translation inside a memory. *)
Lemma mem_translate m io physmap o :
  mem_ok m io physmap -> 0 <= o < rm_size m ->
  remoteproc_datopa m (rm_da m + o) = rm_pa m + o /\
  remoteproc_patoda m (rm_pa m + o) = rm_da m + o /\
  metal_io_phys_to_virt io (rm_pa m + o) = Ok (io_virt io + o) /\
  metal_io_phys_to_offset io (rm_pa m + o) = Ok o /\ io_virt io + o <> 0.
Proof.
  intros [Hi Hw Hs Hd Hp Hl] Ho. unfold METAL_BAD_PHYS in *.
  destruct (virt_of_offset io physmap Hw o ltac:(lia)) as (Hv&Hn&_).
  destruct (phys_of_offset io physmap Hw o ltac:(lia)) as (phys&E&Hb).
  rewrite Hl in E by done. injection E as <-.
  assert (Ep : metal_io_phys_to_offset io (rm_pa m + o) = Ok o)
    by (apply Hb; unfold METAL_BAD_PHYS; lia).
  unfold remoteproc_datopa, remoteproc_patoda, metal_io_phys_to_virt. rewrite Ep.
  cbn [mbind res_bind]. rewrite Hv. split_and!; try done;
    [replace (rm_pa m + (rm_da m + o) - rm_da m) with (rm_pa m + o) by lia |
     replace (rm_da m + (rm_pa m + o) - rm_pa m) with (rm_da m + o) by lia];
    rewrite u64_id; (done || unfold is_u64; lia).
Qed.

(** The search finds the first memory that contains the range. *)
Lemma get_mem_loop_da mems pre m post da size :
  mems = pre ++ m :: post -> Forall mem_wf mems -> 0 <= da < METAL_BAD_PHYS -> 0 < size ->
  Forall (fun x => ~ covers_da x da size) pre -> covers_da m da size ->
  get_mem_loop mems None METAL_BAD_PHYS da 0 size = Ok (inl (Some m)).
Proof.
  intros -> Hall Hda Hsz Hpre [Hc1 Hc2]. apply Forall_app in Hall as [Hwp Hwm].
  apply Forall_cons_1 in Hwm as [(io&pm&Hm) _].
  assert (Hb : da + size < 18446744073709551616)
    by (destruct (mk_da _ _ _ Hm); unfold METAL_BAD_PHYS in *; lia).
  induction pre as [|x pre IH]; cbn [app get_mem_loop]; unfold mem_matches;
    rewrite Z.eqb_refl, (proj2 (Z.eqb_neq da METAL_BAD_PHYS)) by lia; cbn [negb mbind res_bind].
  - rewrite (proj2 (in_range_spec da size (rm_da m) (rm_size m) ltac:(lia) ltac:(lia) Hb
      (proj1 (mk_da _ _ _ Hm)) (proj1 (mk_size _ _ _ Hm)) (proj2 (mk_da _ _ _ Hm)))) by lia.
    done.
  - apply Forall_cons_1 in Hwp as [(iox&pmx&Hx) Hwp]. apply Forall_cons_1 in Hpre as [Hn Hpre].
    destruct (in_range da size (rm_da x) (rm_size x)) eqn:E; [|by apply IH].
    apply in_range_spec in E as (?&?&?); [by destruct Hn|lia..| | |];
      [apply (mk_da _ _ _ Hx)|apply (mk_size _ _ _ Hx)|apply (mk_da _ _ _ Hx)].
Qed.

Lemma get_mem_loop_none mems da size :
  Forall mem_wf mems -> 0 <= da < METAL_BAD_PHYS -> 0 < size ->
  da + size < 18446744073709551616 -> Forall (fun x => ~ covers_da x da size) mems ->
  get_mem_loop mems None METAL_BAD_PHYS da 0 size = Ok (inr tt).
Proof.
  intros Hw Hda Hsz Hb Hn. induction mems as [|x mems IH]; [done|]. cbn [get_mem_loop].
  apply Forall_cons_1 in Hw as [(iox&pmx&Hx) Hw]. apply Forall_cons_1 in Hn as [Hnx Hn].
  unfold mem_matches. rewrite Z.eqb_refl, (proj2 (Z.eqb_neq da METAL_BAD_PHYS)) by lia.
  cbn [negb mbind res_bind].
  destruct (in_range da size (rm_da x) (rm_size x)) eqn:E; [|by apply IH].
  apply in_range_spec in E as (?&?&?); [by destruct Hnx|lia..| | |];
    [apply (mk_da _ _ _ Hx)|apply (mk_size _ _ _ Hx)|apply (mk_da _ _ _ Hx)].
Qed.

(** The memory at hand for a device address: the first that contains the range. *)
Definition first_covering (mems : list remoteproc_mem) (m : remoteproc_mem) (da size : Z) : Prop :=
  exists pre post, mems = pre ++ m :: post /\ Forall (fun x => ~ covers_da x da size) pre /\
    covers_da m da size.

Section mmap.
Context {P : Type} (ops : remoteproc_ops P) (w : rpworld P).
Hypothesis Hmems : Forall mem_wf (rp_mems (rw_rproc w)).

Lemma mmap_da_run m io pm pa da size attr oio :
  first_covering (rp_mems (rw_rproc w)) m da size -> mem_ok m io pm -> 0 < size ->
  pa = None \/ pa = Some METAL_BAD_PHYS ->
  remoteproc_mmap ops true w pa (Some da) size attr oio =
  Ok (w, mk_mo ((fun _ => rm_pa m + (da - rm_da m)) <$> pa) (Some da)
           ((fun _ => Some io) <$> oio) (io_virt io + (da - rm_da m))).
Proof.
  intros (pre&post&Hl&Hpre&Hc) Hm Hsz Hpa. pose proof Hc as [Hc1 Hc2].
  pose proof (mk_da _ _ _ Hm) as Hd. unfold METAL_BAD_PHYS in Hd.
  destruct (mem_translate m io pm (da - rm_da m) Hm ltac:(lia)) as (T1&T2&T3&T4&T5).
  replace (rm_da m + (da - rm_da m)) with da in * by lia.
  assert (Elpa : from_option id METAL_BAD_PHYS pa = METAL_BAD_PHYS) by by destruct Hpa as [-> | ->].
  unfold remoteproc_mmap. rewrite Elpa, (proj2 (Z.eqb_neq size 0)) by lia. cbn [negb orb].
  replace (match pa with Some _ => _ | None => _ end) with false by by destruct pa.
  unfold remoteproc_get_mem. cbn [mbind res_bind from_option id].
  rewrite (get_mem_loop_da _ pre m post da size) by (done || unfold METAL_BAD_PHYS; lia).
  cbn [mbind res_bind]. rewrite Z.eqb_refl. cbn [negb].
  rewrite (proj2 (Z.eqb_neq da METAL_BAD_PHYS)) by (unfold METAL_BAD_PHYS; lia). cbn [negb].
  rewrite (mk_io_of _ _ _ Hm), T1, T3. cbn [mbind res_bind].
  by destruct oio.
Qed.

(** No memory contains the range and the platform has neither operation. *)
Lemma mmap_da_none pa da size attr oio :
  rop_get_mem ops = None -> rop_mmap ops = None ->
  0 <= da < METAL_BAD_PHYS -> 0 < size -> da + size < 18446744073709551616 ->
  Forall (fun x => ~ covers_da x da size) (rp_mems (rw_rproc w)) ->
  pa = None \/ pa = Some METAL_BAD_PHYS ->
  remoteproc_mmap ops true w pa (Some da) size attr oio = Ok (w, mk_mo pa (Some da) oio 0).
Proof.
  intros Hg Hm Hda Hsz Hb Hn Hpa.
  assert (Elpa : from_option id METAL_BAD_PHYS pa = METAL_BAD_PHYS) by by destruct Hpa as [-> | ->].
  unfold remoteproc_mmap. rewrite Elpa, (proj2 (Z.eqb_neq size 0)) by lia. cbn [negb orb].
  replace (match pa with Some _ => _ | None => _ end) with false by by destruct pa.
  unfold remoteproc_get_mem. cbn [mbind res_bind from_option id].
  rewrite (get_mem_loop_none _ da size) by done. cbn [mbind res_bind]. rewrite Hg, Hm.
  cbn [mbind res_bind]. destruct Hpa as [-> | ->]; done.
Qed.
End mmap.

(** Mapping a device address range, with no physical address given, finds the
    first memory of the processor that contains the range and returns its region,
    the virtual address in that region and the physical address, all at the same
    distance from the start; when no memory contains the range and the platform
    has no operation for it, nothing is returned and nothing changes. *)
Theorem remoteproc_mmap_spec {P} (ops : remoteproc_ops P) (w : rpworld P) (pa : option Z)
    (da size attr : Z) (oio : option (option metal_io_region)) :
  Forall mem_wf (rp_mems (rw_rproc w)) -> 0 < size ->
  pa = None \/ pa = Some METAL_BAD_PHYS ->
  (forall m, first_covering (rp_mems (rw_rproc w)) m da size ->
   exists io o, rm_io m = Some io /\ da = rm_da m + o /\ 0 <= o /\ o + size <= io_size io /\
     metal_io_phys io o = Ok (rm_pa m + o) /\
     remoteproc_mmap ops true w pa (Some da) size attr oio =
     Ok (w, mk_mo ((fun _ => rm_pa m + o) <$> pa) (Some da) ((fun _ => Some io) <$> oio)
              (io_virt io + o))) /\
  (rop_get_mem ops = None -> rop_mmap ops = None ->
   0 <= da -> da + size < METAL_BAD_PHYS ->
   Forall (fun x => ~ covers_da x da size) (rp_mems (rw_rproc w)) ->
   remoteproc_mmap ops true w pa (Some da) size attr oio = Ok (w, mk_mo pa (Some da) oio 0)).
Proof.
  intros Hw Hsz Hpa. split.
  - intros m Hf. pose proof Hf as (pre&post&Hl&_&Hc1&Hc2). pose proof Hw as Hw'.
    rewrite Hl in Hw'. apply Forall_app in Hw' as [_ Hw']. apply Forall_cons_1 in Hw' as [(io&pm&Hm) _].
    exists io, (da - rm_da m). pose proof (mk_size _ _ _ Hm). split_and!; try lia.
    + apply (mk_io_of _ _ _ Hm).
    + apply (mk_linear _ _ _ Hm). lia.
    + by apply (mmap_da_run ops w) with (pm := pm).
  - intros Hg Hm Hd1 Hd2 Hn. unfold METAL_BAD_PHYS in Hd2.
    apply mmap_da_none; try done; unfold METAL_BAD_PHYS; lia.
Qed.

Definition demo_lin_io : metal_io_region := metal_io_init 0x700000 (Some [0x40000]) 0x3000 64 0 None.
Definition demo_rmem : remoteproc_mem := mk_rmem 0x8000 0x40000 0x3000 (replicate 32 0) (Some demo_lin_io).

Lemma demo_rmem_ok : mem_ok demo_rmem demo_lin_io [0x40000].
Proof.
  split.
  - reflexivity.
  - split; try done.
    + by apply Forall_singleton.
    + left. done.
  - done.
  - done.
  - done.
  - intros o Ho. cbn [rm_size demo_rmem] in Ho. unfold metal_io_phys. cbn.
    rewrite (proj2 (Z.ltb_lt o _)) by lia. cbn.
    change (64 <=? 64) with true. cbn. change (u64 (-1)) with (Z.ones 64).
    rewrite Z.land_ones, Z.mod_small by lia.
    change (rget [262144] 0) with (Ok 262144). cbn [mbind res_bind].
    rewrite u64_id; [done|unfold is_u64; lia].
Qed.

Lemma demo_rmem_wf : Forall mem_wf [demo_rmem].
Proof. constructor; [|constructor]. eexists _, _. apply demo_rmem_ok. Qed.

Lemma remoteproc_mmap_spec_witness :
  exists io o, rm_io demo_rmem = Some io /\ 0x9000 = rm_da demo_rmem + o /\ 0 <= o /\
     o + 16 <= io_size io /\ metal_io_phys io o = Ok (rm_pa demo_rmem + o) /\
     remoteproc_mmap demo_rpops true (demo_rpworld [demo_rmem] 0) None (Some 0x9000) 16 0 None =
     Ok (demo_rpworld [demo_rmem] 0, mk_mo None (Some 0x9000) None (io_virt io + o)).
Proof.
  destruct (remoteproc_mmap_spec demo_rpops (demo_rpworld [demo_rmem] 0) None 0x9000 16 0 None)
    as [H _]; [exact demo_rmem_wf|lia|by left|].
  apply (H demo_rmem). exists [], []. split; [reflexivity|]. split; [constructor|].
  split; vm_compute; discriminate.
Defined.
