(* ===== verification/RscSpec.v ===== *)
(** * Resource tables: identifiers, rollback and look-up

    What the handler of a virtio resource does to the table and to the bitmap of
    identifiers, and which entry [find_rsc] returns. *)

From S2P Require Import Prelude MetalUtil MetalIo ElfLoader Remoteproc RscTable RemoteprocSpec.

(** ** Fields in memory *)

Lemma loadn_inv n m a bs : loadn n m a = Ok bs -> has_bytes m a bs /\ length bs = n.
Proof.
  revert a bs. induction n as [|n IH]; intros a bs H; cbn [loadn] in H.
  { by injection H as <-. }
  unfold load8 in H. destruct (m !! a) as [b|] eqn:E; cbn [mbind res_bind] in H; [|done].
  destruct (loadn n m (a + 1)) as [l|] eqn:El; cbn [mbind res_bind] in H; [|done].
  injection H as <-. apply IH in El as [H1 H2]. cbn. by rewrite H2.
Qed.

Lemma ld_mapped n m a v : ld n m a = Ok v -> mapped m a (Z.of_nat n).
Proof.
  unfold ld. destruct (loadn n m a) as [bs|] eqn:E; cbn [mbind res_bind]; [|done].
  intros _. apply loadn_inv in E as [H <-]. by apply has_bytes_mapped.
Qed.

Lemma loadn_put_disjoint n m a k ks :
  k + zlen ks <= a \/ a + Z.of_nat n <= k ->
  loadn n (put_bytes m k ks) a = loadn n m a.
Proof.
  revert a. induction n as [|n IH]; intros a Hd; [done|]. cbn [loadn]. unfold load8.
  rewrite lookup_put. pose proof (zlen_nonneg ks).
  destruct ((k <=? a) && (a <? k + zlen ks)) eqn:E; [zbool; lia|].
  rewrite IH by lia. done.
Qed.

Lemma ld_put_disjoint n m a k ks :
  k + zlen ks <= a \/ a + Z.of_nat n <= k -> ld n (put_bytes m k ks) a = ld n m a.
Proof. intros H. unfold ld. by rewrite loadn_put_disjoint. Qed.

(** A 32-bit field that can be read can be written. *)
Lemma st32_ok m a v x : ld32 m a = Ok x -> st32 m a v = Ok (put_bytes m a (le_bytes 4 v)).
Proof.
  intros H. apply ld_mapped in H. apply storen_ok. by rewrite zlen_le_bytes.
Qed.

Lemma ld32_put_same m a v : is_u32 v -> ld32 (put_bytes m a (le_bytes 4 v)) a = Ok v.
Proof.
  intros Hv. unfold ld32, ld. pose proof (loadn_ok _ _ _ (has_bytes_put m a (le_bytes 4 v))) as H.
  rewrite length_le_bytes in H. rewrite H. cbn [mbind res_bind].
  rewrite le_val_bytes by (unfold is_u32 in Hv; lia). change (256 ^ Z.of_nat 4) with 4294967296.
  by rewrite Z.mod_small.
Qed.

(** ** The identifiers a request is answered with *)

(** The first identifier of [l] not in use. *)
Definition first_free (used : Z -> bool) (l : list Z) : option Z := List.find (fun i => negb (used i)) l.

(** The answer to a request while the identifiers of [used] are taken.  A request for
    any identifier gets the least free one; a request for [req] gets [req], or else
    the least free one below; with none free the answer is an identifier in use.
    Requests beyond the bitmap are not answered. *)
Definition grant (used : Z -> bool) (req : Z) : option Z :=
  if req =? RSC_NOTIFY_ID_ANY then Some (default 0 (first_free used (zseq 0 64)))
  else if req <? 64 then Some (default req (first_free used (req :: zseq 0 (Z.to_nat req))))
  else None.

(** The answers to a list of requests, up to the first that has none, and whether all
    have one. *)
Fixpoint grants (used : Z -> bool) (reqs : list Z) : list Z * bool :=
  match reqs with
  | [] => ([], true)
  | r :: rs =>
      match grant used r with
      | None => ([], false)
      | Some x => let '(l, ok) := grants (fun j => (j =? x) || used j) rs in (x :: l, ok)
      end
  end.

Lemma first_free_at used (g : Z -> Z) n : forall s r,
  s <= r < s + Z.of_nat n -> (forall k, s <= k < r -> used (g k) = true) -> used (g r) = false ->
  first_free used (g <$> zseq s n) = Some (g r).
Proof.
  induction n as [|n IH]; intros s r Hr Hk Hf; [lia|]. rewrite zseq_S. cbn [fmap list_fmap first_free List.find].
  destruct (decide (r = s)) as [->|Hne]; [by rewrite Hf|]. rewrite (Hk s) by lia. cbn [negb].
  apply (IH (s + 1) r); [lia| |done]. intros k Hk'. apply Hk. lia.
Qed.

Lemma first_free_none used l : (forall i, i ∈ l -> used i = true) -> first_free used l = None.
Proof.
  induction l as [|i l IH]; intros H; [done|]. cbn [first_free List.find]. rewrite (H i) by by left.
  apply IH. intros j Hj. apply H. by right.
Qed.

Lemma first_free_ext used used' l :
  (forall i, i ∈ l -> used i = used' i) -> first_free used l = first_free used' l.
Proof.
  induction l as [|i l IH]; intros H; [done|]. cbn [first_free List.find]. rewrite (H i) by by left.
  destruct (negb (used' i)); [done|]. apply IH. intros j Hj. apply H. by right.
Qed.

(** The positions the search meets, in order. *)
Lemma window_any : (fun k => k mod 64) <$> zseq 0 (Z.to_nat 64) = zseq 0 64.
Proof. reflexivity. Qed.

Lemma window_fixed n : 0 <= n < 64 ->
  (fun k => k mod (n + 1)) <$> zseq n (Z.to_nat (n + 1)) = n :: zseq 0 (Z.to_nat n).
Proof.
  intros Hn. assert (H : Forall (fun n => (fun k => k mod (n + 1)) <$> zseq n (Z.to_nat (n + 1))
    = n :: zseq 0 (Z.to_nat n)) (zseq 0 64)).
  { apply (bool_decide_unpack _). vm_compute. exact I. }
  rewrite list.Forall_forall in H. apply (H n), elem_of_zseq. lia.
Qed.

Section allocate.
Context {P : Type} (w : rpworld P) (used : Z -> bool).
Abbreviation b := (rp_bitmap (rw_rproc w)).
Hypothesis Hb : is_u64 b.
Hypothesis Hused : forall j, 0 <= j < 64 -> used j = id_taken b j.

(** The bitmap [b'] is the one of [w] with [x]. *)
Definition id_added (b' x : Z) : Prop :=
  is_u64 b' /\ forall j, 0 <= j -> id_taken b' j = (j =? x) || id_taken b j.

(** The search from [s] over [f] positions modulo [f]. *)
Lemma allocate_window start fin s f :
  id_start start = s -> id_limit fin = f -> 0 <= s < 64 -> 0 < f <= 64 ->
  let x := default (s mod f) (first_free used ((fun k => k mod f) <$> zseq s (Z.to_nat f))) in
  0 <= x < 64 /\ exists b', remoteproc_allocate_id w start fin = Ok (with_bitmap w b', x) /\ id_added b' x.
Proof.
  intros Es El Hs Hf x. pose proof (fun r => Z.mod_pos_bound r f ltac:(lia)) as Hm.
  destruct (first_free used (zseq 0 (Z.to_nat f))) as [i|] eqn:Ei.
  - apply List.find_some in Ei as [Hi Hfree]. apply list_elem_of_In, elem_of_zseq in Hi.
    rewrite Z2Nat.id in Hi by lia. apply negb_true_iff in Hfree. rewrite Hused in Hfree by lia.
    destruct (allocate_id_found w Hb start fin i) as (r&b'&E&Hr&Hrf&Hk&Hu1&Hu2); rewrite ?Es, ?El in *;
      [lia..|done|].
    assert (x = r mod f) as ->.
    { unfold x. rewrite (first_free_at used (fun k => k mod f) _ s r); [done|lia| |].
      - intros k Hk'. rewrite Hused by (specialize (Hm k); lia). by apply Hk.
      - rewrite Hused by (specialize (Hm r); lia). done. }
    split; [specialize (Hm r); lia|]. exists b'. split; [done|]. split; [done|]. intros j Hj.
    rewrite Hu2 by done. by destruct (j =? r mod f).
  - assert (Hfull : forall i, 0 <= i < f -> id_taken b i = true).
    { intros i Hi. rewrite <- Hused by lia. apply negb_false_iff.
      apply (List.find_none _ _ Ei), list_elem_of_In, elem_of_zseq. lia. }
    destruct (allocate_id_exhausted w Hb start fin) as (b'&E&Hu&Hj); rewrite ?Es, ?El in *; [lia..|done|].
    assert (x = s mod f) as ->.
    { unfold x. rewrite first_free_none; [done|]. intros i (k&->&_)%list_elem_of_fmap.
      rewrite Hused by (specialize (Hm k); lia). apply Hfull, Hm. }
    split; [specialize (Hm s); lia|]. exists b'. split; [done|]. split; [done|]. intros j Hj0.
    rewrite Hj by done. destruct (Z.eqb_spec j (s mod f)) as [->|]; [|done]. rewrite Hfull by apply Hm. done.
Qed.

Lemma allocate_grant req :
  is_u32 req ->
  match grant used req with
  | Some x => 0 <= x < 64 /\
      exists b', remoteproc_allocate_id w req (id_end req) = Ok (with_bitmap w b', x) /\ id_added b' x
  | None => remoteproc_allocate_id w req (id_end req) = Ok (w, RSC_NOTIFY_ID_ANY)
  end.
Proof.
  intros Hr. unfold grant. destruct (Z.eqb_spec req RSC_NOTIFY_ID_ANY) as [->|Hne].
  { rewrite <- window_any. by apply (allocate_window RSC_NOTIFY_ID_ANY (id_end RSC_NOTIFY_ID_ANY) 0 64). }
  assert (Hs : id_start req = req) by (unfold id_start; by rewrite (proj2 (Z.eqb_neq _ _) Hne)).
  destruct (Z.ltb_spec req 64) as [Hlt|Hge]; [|by apply allocate_id_refused; rewrite Hs; left].
  unfold is_u32 in Hr. assert (Hl : id_limit (id_end req) = req + 1).
  { unfold id_end, id_limit. rewrite (proj2 (Z.eqb_neq _ _) Hne), u32_id by (unfold is_u32; lia).
    by rewrite (proj2 (Z.eqb_neq _ _)) by (unfold RSC_NOTIFY_ID_ANY; lia). }
  pose proof (allocate_window req (id_end req) req (req + 1) Hs Hl) as H.
  rewrite window_fixed, Z.mod_small in H by lia. apply H; lia.
Qed.
End allocate.

(** ** What the answers are, when there are enough free identifiers *)

(** The identifiers not in use, in increasing order. *)
Definition free_ids (used : Z -> bool) : list Z := List.filter (fun i => negb (used i)) (zseq 0 64).

Lemma free_ids_spec used i : i ∈ free_ids used <-> 0 <= i < 64 /\ used i = false.
Proof.
  unfold free_ids. rewrite list_elem_of_In, filter_In, <- list_elem_of_In, elem_of_zseq.
  rewrite negb_true_iff. change (0 + Z.of_nat 64) with 64. done.
Qed.

Lemma first_free_filter used l : first_free used l = head (List.filter (fun i => negb (used i)) l).
Proof.
  induction l as [|i l IH]; [done|]. cbn [first_free List.find List.filter]. by destruct (negb (used i)).
Qed.

Lemma first_free_any used : first_free used (zseq 0 64) = head (free_ids used).
Proof. apply first_free_filter. Qed.

(** Changing the value at the head of the filtered range removes the head only. *)
Lemma filter_update (f g : Z -> bool) l x r :
  NoDup l -> List.filter f l = x :: r -> g x = false -> (forall y, y ∈ l -> y <> x -> g y = f y) ->
  List.filter g l = r.
Proof.
  intros Hnd. revert r. induction l as [|y l IH]; intros r H Hx Hg; [done|].
  cbn [List.filter] in H. apply list.NoDup_cons in Hnd as [Hy Hnd]. cbn [List.filter].
  destruct (f y) eqn:E.
  - injection H as -> <-. rewrite Hx. apply List.filter_ext_in. intros z Hz.
    apply list_elem_of_In in Hz. apply Hg; [by right|]. intros ->. done.
  - assert (y <> x).
    { intros ->. assert (Hin : In x (List.filter f l)) by (rewrite H; by left).
      apply filter_In in Hin as [Hin _]. apply list_elem_of_In in Hin. done. }
    rewrite Hg by (done || by left). rewrite E. apply IH; try done.
    intros z Hz Hne. apply Hg; [by right|done].
Qed.

Lemma filter_next used x l r :
  NoDup l -> List.filter (fun i => negb (used i)) l = x :: r ->
  List.filter (fun i => negb ((i =? x) || used i)) l = r.
Proof.
  intros Hnd E. apply (filter_update _ _ _ x r Hnd E); [by rewrite Z.eqb_refl|].
  intros y _ Hne. by rewrite (proj2 (Z.eqb_neq _ _) Hne).
Qed.

Lemma free_ids_next used x l : free_ids used = x :: l -> free_ids (fun j => (j =? x) || used j) = l.
Proof. exact (filter_next used x _ l (NoDup_zseq 0 64)). Qed.

Lemma grant_any used x l : free_ids used = x :: l -> grant used RSC_NOTIFY_ID_ANY = Some x.
Proof. intros E. unfold grant. by rewrite Z.eqb_refl, first_free_any, E. Qed.

(** Requests for any identifier get the least free ones, in order. *)
Lemma grants_any reqs : forall used,
  Forall (eq RSC_NOTIFY_ID_ANY) reqs -> (length reqs <= length (free_ids used))%nat ->
  grants used reqs = (take (length reqs) (free_ids used), true).
Proof.
  induction reqs as [|r reqs IH]; intros used Hany Hl; [done|]. apply Forall_cons_1 in Hany as [<- Hany].
  remember (free_ids used) as fr eqn:E. symmetry in E. destruct fr as [|x l]; [cbn in Hl; lia|].
  cbn [grants]. rewrite (grant_any used x l E). apply free_ids_next in E. cbn [length] in Hl.
  rewrite IH, E; [done|done|]. rewrite E. lia.
Qed.

(** Requests for different free identifiers get them. *)
Lemma grants_fixed reqs : forall used,
  NoDup reqs -> Forall (fun r => 0 <= r < 64 /\ used r = false) reqs -> grants used reqs = (reqs, true).
Proof.
  induction reqs as [|r reqs IH]; intros used Hnd Hf; [done|]. apply Forall_cons_1 in Hf as [[Hr Hu] Hf].
  apply list.NoDup_cons in Hnd as [Hin Hnd]. cbn [grants]. unfold grant.
  rewrite (proj2 (Z.eqb_neq r _)), (proj2 (Z.ltb_lt _ _)) by (unfold RSC_NOTIFY_ID_ANY; lia).
  cbn [first_free List.find]. rewrite Hu. cbn [negb default from_option]. rewrite IH; [done|done|].
  rewrite list.Forall_forall in Hf |- *. intros y Hy. destruct (Hf y Hy) as [Hy1 Hy2]. split; [done|].
  rewrite (proj2 (Z.eqb_neq y (id r))); [done|]. by intros ->.
Qed.

(** ** The identifiers of a virtio resource *)

Abbreviation id_cell rsc j := (rsc + VD_vring j + VR_notifyid).

(** The world with other memory and another bitmap; nothing else differs. *)
Definition reassigned {P} (w : rpworld P) (m : gmap Z Z) (b : Z) : rpworld P :=
  mk_rw m (rp_set_bitmap (rw_rproc w) b) (rw_rest w).

(** The bitmap [b'] holds the identifiers of [b] and those of [ids]. *)
Definition ids_added (b b' : Z) (ids : list Z) : Prop :=
  is_u64 b' /\ forall j, 0 <= j -> id_taken b' j = id_taken b j || bool_decide (j ∈ ids).

(** Reads outside the cells of the vrings [i .. i+k-1] give the same in both
    memories. *)
Definition cells_frame (m m' : gmap Z Z) (rsc i k : Z) : Prop :=
  forall n a, (forall j, i <= j < i + k -> a + Z.of_nat n <= id_cell rsc j \/ id_cell rsc j + 4 <= a) ->
    ld n m' a = ld n m a.

Lemma ids_added_cons {P} (w : rpworld P) b1 b2 x ids :
  id_added w b1 x -> ids_added b1 b2 ids -> ids_added (rp_bitmap (rw_rproc w)) b2 (x :: ids).
Proof.
  intros [_ H1] [Hu H2]. split; [done|]. intros j Hj. rewrite H2, H1 by done.
  destruct (Z.eqb_spec j x) as [->|Hne].
  - rewrite (bool_decide_eq_true_2 (x ∈ x :: ids)) by by left. by rewrite orb_true_r.
  - f_equal. apply bool_decide_ext. rewrite elem_of_cons. naive_solver.
Qed.

Lemma cells_frame_cell m m' rsc i k j :
  cells_frame m m' rsc i k -> j < i \/ i + k <= j ->
  ld32 m' (id_cell rsc j) = ld32 m (id_cell rsc j).
Proof.
  intros Hf Hj. apply Hf. intros j' Hj'. unfold VD_vring, VR_notifyid.
  change (Z.of_nat 4) with 4. lia.
Qed.

Lemma cells_frame_put m m' rsc i k x :
  0 <= k -> cells_frame (put_bytes m (id_cell rsc i) (le_bytes 4 x)) m' rsc (i + 1) k ->
  cells_frame m m' rsc i (k + 1).
Proof.
  intros Hk Hf n a Ha. rewrite Hf by (intros j Hj; apply Ha; lia).
  apply ld_put_disjoint. rewrite zlen_le_bytes. specialize (Ha i ltac:(lia)).
  change (Z.of_nat 4) with 4. lia.
Qed.

Section vdev.
Context {P : Type}.
Implicit Types w : rpworld P.

Lemma assign_grant w used a req :
  is_u64 (rp_bitmap (rw_rproc w)) -> (forall j, 0 <= j < 64 -> used j = id_taken (rp_bitmap (rw_rproc w)) j) ->
  is_u32 req -> ld32 (rw_mem w) a = Ok req ->
  match grant used req with
  | Some x => 0 <= x < 64 /\
      exists b', assign_id w a = Ok (reassigned w (put_bytes (rw_mem w) a (le_bytes 4 x)) b', true) /\ id_added w b' x
  | None => assign_id w a = Ok (w, false)
  end.
Proof.
  intros Hb Hu Hr Hld. pose proof (allocate_grant w used Hb Hu req Hr) as H. unfold assign_id. rewrite Hld.
  cbn [mbind res_bind]. destruct (grant used req) as [x|]; [|by rewrite H].
  destruct H as (Hx&b'&E&Ha). split; [done|]. exists b'. split; [|done]. rewrite E. cbn [mbind res_bind].
  rewrite (proj2 (Z.eqb_neq x RSC_NOTIFY_ID_ANY)) by (unfold RSC_NOTIFY_ID_ANY; lia). cbn [negb].
  by rewrite (st32_ok _ a x req) by exact Hld.
Qed.

(** The identifiers [ids] are in the cells of the vrings from [i] on and in the bitmap. *)
Record assigned w (rsc i : Z) (ids : list Z) (m : gmap Z Z) (b' : Z) : Prop := {
  as_bits : ids_added (rp_bitmap (rw_rproc w)) b' ids;
  as_range : Forall (fun x => 0 <= x < 64) ids;
  as_cells : forall j x, zget ids j = Some x -> ld32 m (id_cell rsc (i + j)) = Ok x;
  as_frame : cells_frame (rw_mem w) m rsc i (zlen ids)
}.

Lemma assigned_nil w rsc i :
  is_u64 (rp_bitmap (rw_rproc w)) -> assigned w rsc i [] (rw_mem w) (rp_bitmap (rw_rproc w)).
Proof.
  intros Hb. split; [|constructor| |done].
  - split; [done|]. intros j _. by rewrite orb_false_r.
  - intros j x Hj. apply zget_Some_lt in Hj. unfold zlen in Hj. cbn in Hj. lia.
Qed.

Lemma assigned_cons w rsc i x ids b1 m b' :
  id_added w b1 x -> 0 <= x < 64 ->
  assigned (reassigned w (put_bytes (rw_mem w) (id_cell rsc i) (le_bytes 4 x)) b1) rsc (i + 1) ids m b' ->
  assigned w rsc i (x :: ids) m b'.
Proof.
  intros Ha Hx [Hbits Hrange Hcells Hframe]. pose proof (zlen_nonneg ids). split.
  - by apply (ids_added_cons w b1).
  - by constructor.
  - intros j y Hj. destruct (decide (j = 0)) as [->|Hne].
    + rewrite zget_cons_0 in Hj. injection Hj as <-. rewrite Z.add_0_r.
      rewrite (cells_frame_cell _ _ _ _ _ i Hframe) by lia. apply ld32_put_same. unfold is_u32. lia.
    + pose proof (zget_Some_lt _ _ _ Hj). rewrite zget_cons_S in Hj by lia.
      apply Hcells in Hj. by replace (i + j) with (i + 1 + (j - 1)) by lia.
  - rewrite zlen_cons, Z.add_comm. by apply (cells_frame_put _ _ _ _ _ x).
Qed.

(** The loop over the vrings answers their requests. *)
Lemma assign_loop_grants reqs : forall w used i rsc ids ok,
  is_u64 (rp_bitmap (rw_rproc w)) -> (forall j, 0 <= j < 64 -> used j = id_taken (rp_bitmap (rw_rproc w)) j) ->
  Forall is_u32 reqs -> (forall j r, zget reqs j = Some r -> ld32 (rw_mem w) (id_cell rsc (i + j)) = Ok r) ->
  grants used reqs = (ids, ok) ->
  exists m b', assign_loop (length reqs) i rsc w
      = Ok (reassigned w m b', if ok then None else Some (i + zlen ids)) /\ assigned w rsc i ids m b'.
Proof.
  assert (Hself : forall w, w = reassigned w (rw_mem w) (rp_bitmap (rw_rproc w))) by (by intros [m [] p]).
  induction reqs as [|r reqs IH]; intros w used i rsc ids ok Hb Hu Hr Hc Hg; cbn [grants] in Hg.
  { injection Hg as <- <-. eexists _, _. split; [|by apply assigned_nil]. by rewrite <- Hself. }
  apply Forall_cons_1 in Hr as [Hr Hrs]. pose proof (Hc 0 r (zget_cons_0 _ _)) as Hc0. rewrite Z.add_0_r in Hc0.
  pose proof (assign_grant w used (id_cell rsc i) r Hb Hu Hr Hc0) as H. cbn [length assign_loop].
  destruct (grant used r) as [x|].
  - destruct H as (Hx&b1&E&Ha). rewrite E. cbn [mbind res_bind].
    destruct (grants _ reqs) as [l ok'] eqn:Eg. injection Hg as <- <-.
    destruct (IH (reassigned w (put_bytes (rw_mem w) (id_cell rsc i) (le_bytes 4 x)) b1)
      (fun j => (j =? x) || used j) (i + 1) rsc l ok' (proj1 Ha)) as (m&b'&E2&Has); [|done| |exact Eg|].
    + intros j Hj. cbn. rewrite (proj2 Ha) by lia. by rewrite Hu.
    + intros j y Hj. pose proof (zget_Some_lt _ _ _ Hj). replace (i + 1 + j) with (i + (j + 1)) by lia.
      rewrite <- (Hc (j + 1) y) by (rewrite zget_cons_S by lia; by replace (j + 1 - 1) with j by lia).
      apply ld_put_disjoint. rewrite zlen_le_bytes. unfold VD_vring, VR_notifyid. change (Z.of_nat 4) with 4. lia.
    + exists m, b'. split; [|by apply (assigned_cons w rsc i x l b1)]. rewrite E2, zlen_cons.
      by rewrite Z.add_assoc.
  - injection Hg as <- <-. rewrite H. eexists _, _. split; [|by apply assigned_nil]. rewrite <- Hself.
    change (zlen (@nil Z)) with 0. by rewrite Z.add_0_r.
Qed.

Definition ids_removed (b b' : Z) (ids : list Z) : Prop :=
  is_u64 b' /\ forall j, 0 <= j -> id_taken b' j = id_taken b j && negb (bool_decide (j ∈ ids)).

Lemma clear_id_spec w a x :
  is_u64 (rp_bitmap (rw_rproc w)) -> ld32 (rw_mem w) a = Ok x -> 0 <= x < 64 ->
  exists b', clear_id w a = Ok (with_bitmap w b') /\
    id_update (rp_bitmap (rw_rproc w)) b' x false.
Proof.
  intros Hb Hld Hx. unfold clear_id. rewrite Hld. cbn [mbind res_bind].
  destruct (clear_id_run _ x Hb Hx) as (b'&->&Hu). by exists b'.
Qed.

Lemma undo_loop_spec rsc w ids :
  is_u64 (rp_bitmap (rw_rproc w)) -> Forall (fun x => 0 <= x < 64) ids ->
  (forall j x, zget ids j = Some x -> ld32 (rw_mem w) (id_cell rsc j) = Ok x) ->
  exists b', undo_loop (length ids) rsc w = Ok (with_bitmap w b') /\
    ids_removed (rp_bitmap (rw_rproc w)) b' ids.
Proof.
  revert w. induction ids as [|x ids IH] using rev_ind; intros w Hb Hr Hc.
  { exists (rp_bitmap (rw_rproc w)). split; [by destruct w as [m [] p]|].
    split; [done|]. intros j _. by rewrite andb_true_r. }
  apply Forall_app in Hr as [Hr Hx]. apply Forall_cons_1 in Hx as [Hx _].
  replace (length (ids ++ [x])) with (S (length ids)) by (rewrite length_app; cbn; lia).
  cbn [undo_loop].
  destruct (clear_id_spec w (id_cell rsc (Z.of_nat (length ids))) x Hb) as (b1&E&Hu&Hj1); [|done|].
  { apply Hc. rewrite zget_app_r by (unfold zlen; lia). unfold zlen.
    rewrite Z.sub_diag. apply zget_cons_0. }
  rewrite E. cbn [mbind res_bind].
  destruct (IH (with_bitmap w b1)) as (b'&E'&Hu'&Hj'); [done|done| |].
  { intros j y Hj. apply Hc. rewrite zget_app_l; [done|]. apply zget_Some_lt in Hj. lia. }
  rewrite E'. exists b'. split; [done|]. split; [done|]. intros j Hj.
  rewrite Hj' by done. cbn [with_bitmap rw_rproc rw_set_rproc rp_set_bitmap rp_bitmap].
  rewrite Hj1 by done. destruct (Z.eqb_spec j x) as [->|Hne].
  - rewrite (bool_decide_eq_true_2 (x ∈ ids ++ [x]))
      by (apply elem_of_app; right; by left). by rewrite andb_false_r.
  - f_equal. f_equal. apply bool_decide_ext. rewrite elem_of_app, list_elem_of_singleton.
    naive_solver.
Qed.
End vdev.

(** The resource at [rsc]: the identifiers its device and its vrings ask for. *)
Record vdev_rsc (m : gmap Z Z) (rsc req : Z) (reqs : list Z) : Prop := {
  vr_id : ld32 m (rsc + VD_notifyid) = Ok req;
  vr_num : ld8 m (rsc + VD_num_of_vrings) = Ok (zlen reqs);
  vr_cells : forall j r, zget reqs j = Some r -> ld32 m (id_cell rsc j) = Ok r;
  vr_range : Forall is_u32 (req :: reqs)
}.

(** The memory once the identifier of the device is stored. *)
Lemma vdev_id_frame m rsc x n a :
  a + Z.of_nat n <= rsc + VD_notifyid \/ rsc + VD_notifyid + 4 <= a ->
  ld n (put_bytes m (rsc + VD_notifyid) (le_bytes 4 x)) a = ld n m a.
Proof. intros H. apply ld_put_disjoint. rewrite zlen_le_bytes. change (Z.of_nat 4) with 4. lia. Qed.

(** What the handler leaves: the identifiers in the table, and the bitmap with them or
    without any of them. *)
Record vdev_answered {P} (w : rpworld P) (rsc : Z) (ids : list Z) (ok : bool) (m : gmap Z Z) (b' : Z) : Prop := {
  va_bits : is_u64 b' /\ forall j, 0 <= j -> id_taken b' j =
    if ok then id_taken (rp_bitmap (rw_rproc w)) j || bool_decide (j ∈ ids)
    else id_taken (rp_bitmap (rw_rproc w)) j && negb (bool_decide (j ∈ ids));
  va_dev : forall x, zget ids 0 = Some x -> ld32 m (rsc + VD_notifyid) = Ok x;
  va_vrings : forall j x, 0 <= j -> zget ids (j + 1) = Some x -> ld32 m (id_cell rsc j) = Ok x;
  va_frame : forall n a, a + Z.of_nat n <= rsc + VD_notifyid \/ rsc + VD_notifyid + 4 <= a ->
    (forall j, 0 <= j < zlen ids - 1 -> a + Z.of_nat n <= id_cell rsc j \/ id_cell rsc j + 4 <= a) ->
    ld n m a = ld n (rw_mem w) a
}.

(** One bit over the undoing. *)
Lemma undone_bit (t : bool) (j x : Z) (l : list Z) :
  (if j =? x then false else (t || bool_decide (j ∈ x :: l)) && negb (bool_decide (j ∈ l)))
  = t && negb (bool_decide (j ∈ x :: l)).
Proof.
  destruct (Z.eqb_spec j x) as [->|Hne].
  { by rewrite (bool_decide_eq_true_2 (x ∈ x :: l)), andb_false_r by by left. }
  rewrite (bool_decide_ext (j ∈ x :: l) (j ∈ l)) by (rewrite elem_of_cons; naive_solver).
  by destruct t, (bool_decide (j ∈ l)).
Qed.

Section vdev_handler.
Context {P : Type} (w : rpworld P) (rsc req : Z) (reqs : list Z).
Abbreviation b := (rp_bitmap (rw_rproc w)).
Abbreviation m1 x := (put_bytes (rw_mem w) (rsc + VD_notifyid) (le_bytes 4 x)).
Hypothesis Hb : is_u64 b.
Hypothesis Hr : vdev_rsc (rw_mem w) rsc req reqs.

(** The answers of the vrings, after the one of the device. *)
Lemma vdev_loop x b1 ids ok :
  id_added w b1 x -> grants (fun j => (j =? x) || id_taken b j) reqs = (ids, ok) ->
  exists m b', (n ← ld8 (m1 x) (rsc + VD_num_of_vrings); assign_loop (Z.to_nat n) 0 rsc (reassigned w (m1 x) b1))
      = Ok (reassigned w m b', if ok then None else Some (zlen ids)) /\
    assigned (reassigned w (m1 x) b1) rsc 0 ids m b'.
Proof.
  intros Ha Hg. destruct Hr as [_ Hn Hc Hu]. apply Forall_cons_1 in Hu as [_ Hu].
  assert (E8 : ld8 (m1 x) (rsc + VD_num_of_vrings) = Ok (zlen reqs)).
  { rewrite <- Hn. apply vdev_id_frame. unfold VD_num_of_vrings, VD_notifyid. lia. }
  rewrite E8. cbn [mbind res_bind]. unfold zlen at 1. rewrite Nat2Z.id.
  destruct (assign_loop_grants reqs (reassigned w (m1 x) b1) (fun j => (j =? x) || id_taken b j) 0 rsc ids ok (proj1 Ha))
    as (m&b'&E&Has); [|done| |exact Hg|by exists m, b'].
  - intros j Hj. cbn. by rewrite (proj2 Ha) by lia.
  - intros j r Hj. pose proof (zget_Some_lt _ _ _ Hj). cbn [rw_mem reassigned]. rewrite <- (Hc j r Hj), Z.add_0_l.
    apply vdev_id_frame. unfold VD_vring, VR_notifyid, VD_notifyid. change (Z.of_nat 4) with 4. lia.
Qed.

Lemma loop_frame x b1 ids m b' :
  0 <= x < 64 -> assigned (reassigned w (m1 x) b1) rsc 0 ids m b' ->
  ld32 m (rsc + VD_notifyid) = Ok x /\
  (forall j y, 0 <= j -> zget (x :: ids) (j + 1) = Some y -> ld32 m (id_cell rsc j) = Ok y) /\
  (forall n a, a + Z.of_nat n <= rsc + VD_notifyid \/ rsc + VD_notifyid + 4 <= a ->
     (forall j, 0 <= j < zlen (x :: ids) - 1 -> a + Z.of_nat n <= id_cell rsc j \/ id_cell rsc j + 4 <= a) ->
     ld n m a = ld n (rw_mem w) a).
Proof.
  intros Hx [_ _ Hc Hf]. split_and!.
  - rewrite <- (ld32_put_same (rw_mem w) (rsc + VD_notifyid) x) by (unfold is_u32; lia). apply Hf. intros j Hj. left.
    unfold VD_vring, VR_notifyid, VD_notifyid. change (Z.of_nat 4) with 4. lia.
  - intros j y Hj Hy. rewrite zget_cons_S in Hy by lia. replace (j + 1 - 1) with j in Hy by lia. by apply Hc in Hy.
  - intros n a H1 H2. rewrite zlen_cons in H2. rewrite (Hf n a) by (intros j Hj; apply H2; lia). by apply vdev_id_frame.
Qed.

Lemma vdev_run ids ok :
  grants (id_taken b) (req :: reqs) = (ids, ok) ->
  exists m b', handle_vdev_rsc w rsc = Ok (reassigned w m b', if ok then 0 else - RPROC_ERR_RSC_TAB_NP) /\
    vdev_answered w rsc ids ok m b'.
Proof.
  intros Hg. cbn [grants] in Hg. destruct (Forall_cons_1 _ _ _ (vr_range _ _ _ _ Hr)) as [Hru _].
  pose proof (assign_grant w (id_taken b) (rsc + VD_notifyid) req Hb ltac:(done) Hru (vr_id _ _ _ _ Hr)) as H.
  unfold handle_vdev_rsc. destruct (grant _ req) as [x|].
  2:{ injection Hg as <- <-. rewrite H. exists (rw_mem w), b. split; [by destruct w as [m [] p]|]. split; [| | |done].
      - split; [done|]. intros j _. by rewrite andb_true_r.
      - intros x Hx%zget_Some_lt. change (zlen (@nil Z)) with 0 in Hx. lia.
      - intros j x Hj Hx%zget_Some_lt. change (zlen (@nil Z)) with 0 in Hx. lia. }
  destruct H as (Hx&b1&E&Ha). rewrite E. destruct (grants _ reqs) as [l ok'] eqn:Eg. injection Hg as <- <-.
  destruct (vdev_loop x b1 l ok' Ha Eg) as (m&b2&El&Has). destruct (loop_frame x b1 l m b2 Hx Has) as (F1&F2&F3).
  cbn [mbind res_bind negb rw_mem reassigned]. pose proof Has as [[Hu2 Hb2] Hrange Hcells _].
  cbn [reassigned rw_rproc rp_set_bitmap rp_bitmap] in Hb2.
  assert (Hbits : forall j, 0 <= j -> id_taken b2 j = id_taken b j || bool_decide (j ∈ x :: l)).
  { intros j Hj. by apply (ids_added_cons w b1 b2 x l Ha (conj Hu2 Hb2)). }
  revert El. destruct (ld8 (m1 x) (rsc + VD_num_of_vrings)) as [n|]; [|done]. cbn [mbind res_bind]. intros ->.
  cbn [mbind res_bind]. destruct ok'.
  { exists m, b2. split; [done|]. split; [done| |done|done]. intros y Hy. rewrite zget_cons_0 in Hy. by injection Hy as <-. }
  destruct (undo_loop_spec rsc (reassigned w m b2) l Hu2 Hrange) as (b3&E3&Hu3&Hb3); [intros j y Hj; by apply Hcells|].
  destruct (clear_id_spec (reassigned w m b3) (rsc + VD_notifyid) x Hu3 F1 Hx) as (b4&E4&Hu4&Hb4).
  exists m, b4. split.
  - unfold zlen. rewrite Nat2Z.id, E3. cbn [mbind res_bind].
    change (with_bitmap (reassigned w m b2) b3) with (reassigned w m b3). by rewrite E4.
  - split; [|intros y Hy; rewrite zget_cons_0 in Hy; by injection Hy as <-|done|done]. split; [done|]. intros j Hj.
    rewrite Hb4 by done. cbn [reassigned rw_rproc rp_set_bitmap rp_bitmap] in Hb3 |- *. rewrite Hb3, Hbits by done.
    by apply undone_bit.
Qed.
End vdev_handler.

(** C23: The handler of a virtio resource answers the requests of the device and of its
    vrings one after the other as [grants] says: the identifiers are stored in the table,
    exactly they are marked in the bitmap, and nothing else changes; when a request has no
    answer (it lies beyond the bitmap) the handler fails and every identifier handed out
    is unmarked again, which is the bitmap before as long as they were free.  Requests
    left to the host get the least free identifiers, in order, when there are enough of
    them, and requests for different free identifiers get these.  (A taken identifier, or
    any one when none is free, is not refused: [grant] says which one in use is handed
    out then.) *)
Theorem handle_vdev_rsc_spec {P} (w : rpworld P) (rsc req : Z) (reqs ids : list Z) (ok : bool) :
  let used := id_taken (rp_bitmap (rw_rproc w)) in
  is_u64 (rp_bitmap (rw_rproc w)) -> vdev_rsc (rw_mem w) rsc req reqs -> grants used (req :: reqs) = (ids, ok) ->
  (exists m b', handle_vdev_rsc w rsc = Ok (reassigned w m b', if ok then 0 else - RPROC_ERR_RSC_TAB_NP) /\
     vdev_answered w rsc ids ok m b' /\
     (ok = false -> Forall (fun x => used x = false) ids -> forall j, 0 <= j -> id_taken b' j = used j)) /\
  (Forall (eq RSC_NOTIFY_ID_ANY) (req :: reqs) -> (length (req :: reqs) <= length (free_ids used))%nat ->
     ok = true /\ ids = take (length (req :: reqs)) (free_ids used)) /\
  (NoDup (req :: reqs) -> Forall (fun r => 0 <= r < 64 /\ used r = false) (req :: reqs) ->
     ok = true /\ ids = req :: reqs).
Proof.
  intros used Hb Hr Hg. split_and!.
  - destruct (vdev_run w rsc req reqs Hb Hr ids ok Hg) as (m&b'&E&Ha). exists m, b'. split; [done|]. split; [done|].
    intros -> Hfree j Hj. rewrite (proj2 (va_bits _ _ _ _ _ _ Ha) j Hj). fold used.
    destruct (decide (j ∈ ids)) as [Hin|Hin].
    + rewrite list.Forall_forall in Hfree. by rewrite (Hfree j Hin).
    + by rewrite (bool_decide_eq_false_2 _ Hin), andb_true_r.
  - intros Hany Hl. rewrite (grants_any _ used Hany Hl) in Hg. by injection Hg as <- <-.
  - intros Hnd Hfree. rewrite (grants_fixed _ used Hnd Hfree) in Hg. by injection Hg as <- <-.
Qed.

(** A virtio resource with two vrings at address 1000, identifiers 0 and 2 in use. *)
Definition demo_vdev_bytes : list Z :=
  le_bytes 4 3 ++ le_bytes 4 7 ++ le_bytes 4 RSC_NOTIFY_ID_ANY ++ le_bytes 4 1 ++ le_bytes 4 0 ++
  le_bytes 4 0 ++ [0; 2; 0; 0] ++
  (le_bytes 4 0x8000 ++ le_bytes 4 16 ++ le_bytes 4 4 ++ le_bytes 4 RSC_NOTIFY_ID_ANY ++ le_bytes 4 0) ++
  (le_bytes 4 0x9000 ++ le_bytes 4 16 ++ le_bytes 4 4 ++ le_bytes 4 RSC_NOTIFY_ID_ANY ++ le_bytes 4 0).
Definition demo_vdev_world : rpworld Z :=
  mk_rw (put_bytes ∅ 1000 demo_vdev_bytes) (rw_rproc (demo_rpworld [] 5)) 0.

Lemma handle_vdev_rsc_spec_witness :
  exists m b', handle_vdev_rsc demo_vdev_world 1000 = Ok (reassigned demo_vdev_world m b', 0) /\
    (forall j, 0 <= j -> id_taken b' j = id_taken 5 j || bool_decide (j ∈ [1; 3; 4])) /\ ld32 m 1008 = Ok 1.
Proof.
  destruct (handle_vdev_rsc_spec demo_vdev_world 1000 RSC_NOTIFY_ID_ANY [RSC_NOTIFY_ID_ANY; RSC_NOTIFY_ID_ANY]
    [1; 3; 4] true) as [(m&b'&E&Ha&_) _].
  - split; vm_compute; [discriminate|reflexivity].
  - split; [vm_compute; reflexivity..| |repeat constructor; vm_compute; congruence].
    intros j r Hj. pose proof (zget_Some_lt _ _ _ Hj) as Hl. change (zlen _) with 2 in Hl.
    assert (j = 0 \/ j = 1) as [-> | ->] by lia; injection Hj as <-; vm_compute; reflexivity.
  - vm_compute. reflexivity.
  - exists m, b'. split; [exact E|]. split; [exact (proj2 (va_bits _ _ _ _ _ _ Ha))|].
    exact (va_dev _ _ _ _ _ _ Ha 1 eq_refl).
Defined.

(** ** Looking up and validating a table *)

(** The table at [t] has the entries [l]: offset and type. *)
Record table_entries (m : gmap Z Z) (t : Z) (l : list (Z * Z)) : Prop := {
  te_num : ld32 m (t + RT_num) = Ok (zlen l);
  te_entry : forall i off ty, zget l i = Some (off, ty) ->
    ld32 m (t + RT_offset i) = Ok off /\ ld32 m (t + off) = Ok ty
}.

Definition of_type (ty : Z) (l : list (Z * Z)) : list (Z * Z) :=
  List.filter (fun e => e.2 =? ty) l.

Lemma find_loop_spec m t ty k index l pre :
  (forall i off ty, zget (pre ++ l) i = Some (off, ty) ->
    ld32 m (t + RT_offset i) = Ok off /\ ld32 m (t + off) = Ok ty) ->
  0 <= k <= index -> index < 4294967295 ->
  find_loop (length l) (zlen pre) m t ty index k
  = Ok (from_option fst 0 (zget (of_type ty l) (index - k))).
Proof.
  revert k pre. induction l as [|[off e] l IH]; intros k pre Hl Hk Hi; cbn [length find_loop].
  { by rewrite zget_None_ge by (unfold of_type, zlen; cbn; lia). }
  destruct (Hl (zlen pre) off e) as [H1 H2].
  { rewrite zget_app_r, Z.sub_diag by lia. apply zget_cons_0. }
  rewrite H1. cbn [mbind res_bind]. rewrite H2. cbn [mbind res_bind of_type List.filter snd].
  assert (Hl' : forall i off0 ty0, zget ((pre ++ [(off, e)]) ++ l) i = Some (off0, ty0) ->
    ld32 m (t + RT_offset i) = Ok off0 /\ ld32 m (t + off0) = Ok ty0).
  { intros i o y. rewrite <- app_assoc. apply Hl. }
  assert (Hz : zlen pre + 1 = zlen (pre ++ [(off, e)])) by (rewrite zlen_app; done).
  rewrite Hz. destruct (Z.eqb_spec e ty) as [->|Hne].
  - destruct (Z.eqb_spec k index) as [->|Hki].
    + by rewrite Z.sub_diag, zget_cons_0.
    + rewrite u32_id by (unfold is_u32; lia). rewrite IH by (done || lia).
      rewrite (zget_cons_S (off, ty)) by lia. unfold of_type. do 2 f_equal. f_equal. lia.
  - by rewrite IH by (done || lia).
Qed.

(** [find_rsc] returns the offset of the entry that is number [index] among
    those of the type, and 0 when there are not so many. *)
Theorem find_rsc_spec (m : gmap Z Z) (t ty index : Z) (l : list (Z * Z)) :
  table_entries m t l -> t <> 0 -> 0 <= index < RSC_NOTIFY_ID_ANY ->
  find_rsc m t ty index = Ok (from_option fst 0 (zget (of_type ty l) index)).
Proof.
  intros [Hn He] Ht Hi. unfold find_rsc. rewrite (proj2 (Z.eqb_neq _ _) Ht).
  cbn [negb rassert mbind res_bind]. rewrite Hn. cbn [mbind res_bind].
  unfold RSC_NOTIFY_ID_ANY in Hi. pose proof (find_loop_spec m t ty 0 index l [] He) as H.
  change (zlen []) with 0 in H. unfold zlen. rewrite Nat2Z.id, H by lia. do 3 f_equal. lia.
Qed.

Definition demo_table : gmap Z Z :=
  put_bytes ∅ 500 (le_bytes 4 1 ++ le_bytes 4 3 ++ le_bytes 8 0 ++
    le_bytes 4 28 ++ le_bytes 4 32 ++ le_bytes 4 36 ++ le_bytes 4 3 ++ le_bytes 4 0 ++ le_bytes 4 3).

Lemma find_rsc_spec_witness : find_rsc demo_table 500 RSC_VDEV 1 = Ok 36.
Proof.
  apply (find_rsc_spec demo_table 500 RSC_VDEV 1 [(28, 3); (32, 0); (36, 3)]).
  - split; [vm_compute; reflexivity|]. intros i off ty Hi.
    pose proof (zget_Some_lt _ _ _ Hi) as Hr. unfold zlen in Hr. cbn in Hr.
    assert (i = 0 \/ i = 1 \/ i = 2) as [-> | [-> | ->]] by lia;
      injection Hi as <- <-; vm_compute; done.
  - discriminate.
  - vm_compute. done.
Defined.

Lemma rsc_loop_unmapped {P} (ops : remoteproc_ops P) k n w t io :
  ld32 (rw_mem w) (t + RT_num) = Ok n -> 0 < n -> rw_mem w !! (t + 16) = None ->
  rsc_loop ops (S k) 0 w t io 0 = Fault Out_of_bounds.
Proof.
  intros Hn Hp Hend. cbn [rsc_loop]. rewrite Hn. cbn [mbind res_bind].
  rewrite (proj2 (Z.leb_gt _ _)) by lia. change (RT_offset 0) with 16.
  assert (El : ld32 (rw_mem w) (t + 16) = Fault Out_of_bounds)
    by (unfold ld32, ld; cbn [loadn]; unfold load8; by rewrite Hend).
  by rewrite El.
Qed.

(** The header of a table is checked before any entry is touched: too short a
    table, another version, more offsets than the size has room for and reserved
    fields that are not zero each have their error and change nothing.  The room
    for the offsets is computed in 32 bits: for [2 ^ 30] entries or more it wraps,
    such a table passes the check and its offsets are read beyond its end. *)
Theorem handle_rsc_table_header {P} (ops : remoteproc_ops P) (w : rpworld P) (t size : Z)
    (io : option metal_io_region) (ver num r0 r1 : Z) :
  ld32 (rw_mem w) (t + RT_ver) = Ok ver -> ld32 (rw_mem w) (t + RT_num) = Ok num ->
  ld32 (rw_mem w) (t + RT_reserved 0) = Ok r0 -> ld32 (rw_mem w) (t + RT_reserved 1) = Ok r1 ->
  0 <= num < 4294967296 ->
  (size < 16 -> handle_rsc_table ops w t size io = Ok (w, - RPROC_ERR_RSC_TAB_TRUNC)) /\
  (16 <= size -> ver <> 1 -> handle_rsc_table ops w t size io = Ok (w, - RPROC_ERR_RSC_TAB_VER)) /\
  (16 <= size < 16 + 4 * num -> ver = 1 -> num < 1073741820 ->
   handle_rsc_table ops w t size io = Ok (w, - RPROC_ERR_RSC_TAB_TRUNC)) /\
  (16 + 4 * num <= size -> ver = 1 -> num < 1073741820 -> r0 <> 0 \/ r1 <> 0 ->
   handle_rsc_table ops w t size io = Ok (w, - RPROC_ERR_RSC_TAB_RSVD)) /\
  (num = 1073741824 -> size = 16 -> ver = 1 -> r0 = 0 -> r1 = 0 -> rw_mem w !! (t + 16) = None ->
   handle_rsc_table ops w t size io = Fault Out_of_bounds).
Proof.
  intros Hv Hn H0 H1 Hnum. unfold handle_rsc_table, SIZEOF_RESOURCE_TABLE.
  rewrite Hv, Hn, H0, H1. cbn [mbind res_bind]. unfold RSC_TAB_SUPPORTED_VERSION.
  split_and!.
  - intros Hs. by rewrite (proj2 (Z.ltb_lt _ _)) by lia.
  - intros Hs Hver. rewrite (proj2 (Z.ltb_ge _ _)) by lia.
    by rewrite (proj2 (Z.eqb_neq _ _) Hver).
  - intros Hs -> Hsmall. rewrite (proj2 (Z.ltb_ge size 16)) by lia. cbn [negb].
    rewrite Z.eqb_refl. cbn [negb]. rewrite u32_id by (unfold is_u32; lia).
    by rewrite (proj2 (Z.ltb_lt _ _)) by lia.
  - intros Hs -> Hsmall Hr. rewrite (proj2 (Z.ltb_ge size 16)) by lia.
    rewrite Z.eqb_refl. cbn [negb]. rewrite u32_id by (unfold is_u32; lia).
    rewrite (proj2 (Z.ltb_ge _ _)) by lia.
    destruct (Z.eqb_spec r0 0), (Z.eqb_spec r1 0); cbn; try done. by destruct Hr.
  - intros -> -> -> -> -> Hend. change (16 <? 16) with false. change (1 =? 1) with true.
    cbn [negb]. change (16 <? u32 (16 + 1073741824 * 4)) with false. cbn [orb].
    rewrite Z.eqb_refl. cbn [negb orb]. by apply (rsc_loop_unmapped _ _ 1073741824).
Qed.

Lemma handle_rsc_table_header_witness :
  handle_rsc_table demo_rpops
    (mk_rw (put_bytes ∅ 500 (le_bytes 4 1 ++ le_bytes 4 1073741824 ++ le_bytes 8 0))
       (rw_rproc (demo_rpworld [] 0)) 0) 500 16 None = Fault Out_of_bounds.
Proof.
  apply (handle_rsc_table_header demo_rpops _ 500 16 None 1 1073741824 0 0);
    vm_compute; done.
Defined.
