(* ===== verification/RemoteprocVirtio.v ===== *)
(** * Virtio devices of a remote processor (lib/remoteproc/remoteproc_virtio.c)

    The structures [struct remoteproc_virtio] are objects of the heap, known by
    their addresses; the part of the device that both sides see (status, features,
    configuration) is the virtio resource in the table, read and written through
    its I/O region.  The notification function of a device made by
    [remoteproc_create_virtio] is [remoteproc_virtio_notify]; here it is a
    parameter. *)

From S2P Require Import Prelude MetalUtil MetalIo Vring Virtqueue Virtio ElfLoader Remoteproc RscTable.

(** ** Data *)

Definition RPROC_MAX_VRING_DESC : Z := 65535.
Definition ERROR_NO_MEM : Z := -3004.

(** [#if VIRTIO_ENABLED(...)]: a macro that is not defined counts as 0. *)
Definition driver_enabled (b : build) : bool :=
  match VIRTIO_DRIVER_SUPPORT b with Some o => VIRTIO_ENABLED o | None => false end.
Definition device_enabled (b : build) : bool :=
  match VIRTIO_DEVICE_SUPPORT b with Some o => VIRTIO_ENABLED o | None => false end.

(** [struct virtio_vring_info]; [None] for a null pointer. *)
Record rvring := mk_rvring {
  rv_vq : option (virtqueue * vring);
  rv_info : vring_alloc_info;
  rv_notifyid : Z;
  rv_io : option metal_io_region
}.

Definition zero_rvring : rvring := mk_rvring None (mk_alloc 0 0 0) 0 None.

Definition rv_set_vq (r : rvring) (q : option (virtqueue * vring)) : rvring :=
  mk_rvring q (rv_info r) (rv_notifyid r) (rv_io r).

(** [struct remoteproc_virtio] with its [struct virtio_device]. *)
Record remoteproc_virtio := mk_rpv {
  rpv_rsc : Z;
  rpv_rsc_io : option metal_io_region;
  rpv_dev : virtio_device;
  rpv_id : Z;
  rpv_reset_cb : Z;
  rpv_vrings : list rvring
}.

Definition rpv_set_vrings (d : remoteproc_virtio) (l : list rvring) : remoteproc_virtio :=
  mk_rpv (rpv_rsc d) (rpv_rsc_io d) (rpv_dev d) (rpv_id d) (rpv_reset_cb d) l.

(** The devices by address, and the rest of the program's state. *)
Record vheap (N : Type) := mk_vh {
  vh_devs : gmap Z remoteproc_virtio;
  vh_env : N
}.
Arguments mk_vh {N} _ _.
Arguments vh_devs {N} _.
Arguments vh_env {N} _.

Section rproc_virtio.
Context {N : Type}.
Abbreviation world := (rpworld (vheap N)).
Variable bld : build.
(** [rpvdev->notify(rpvdev->priv, id)] *)
Variable notify : world -> Z -> res (world * Z).
(** [vq->callback(vq)] for the queue at an index of a device *)
Variable call_vq : Z -> world -> Z -> Z -> res world.

Definition dev_get (w : world) (v : Z) : res remoteproc_virtio :=
  match vh_devs (rw_rest w) !! v with Some d => Ok d | None => Fault Out_of_bounds end.
Definition dev_set (w : world) (v : Z) (d : remoteproc_virtio) : world :=
  rw_set_rest w (mk_vh (<[v := d]> (vh_devs (rw_rest w))) (vh_env (rw_rest w))).
Definition dev_del (w : world) (v : Z) : world :=
  rw_set_rest w (mk_vh (delete v (vh_devs (rw_rest w))) (vh_env (rw_rest w))).

(** A region behind a pointer that is dereferenced. *)
Definition the_io (io : option metal_io_region) : res metal_io_region :=
  match io with Some r => Ok r | None => Fault Out_of_bounds end.

(** ** Status, features and configuration *)

(** A field of the resource at offset [f], read or written through the region. *)
Definition rsc_read (w : world) (v f width : Z) : res Z :=
  d ← dev_get w v;
  io ← the_io (rpv_rsc_io d);
  metal_io_read io (rw_mem w) (metal_io_virt_to_offset io (rpv_rsc d + f)) width.

Definition rsc_write (w : world) (v f value width : Z) : res world :=
  d ← dev_get w v;
  io ← the_io (rpv_rsc_io d);
  m ← metal_io_write io (rw_mem w) (metal_io_virt_to_offset io (rpv_rsc d + f)) value width;
  Ok (rw_set_mem w m).

(** [rpvdev->notify(rpvdev->priv, vdev->notifyid)] *)
Definition notify_dev (w : world) (v : Z) : res world :=
  d ← dev_get w v;
  '(w, _) ← notify w (vdev_notifyid (rpv_dev d));
  Ok w.

Definition rproc_virtio_get_status (w : world) (v : Z) : res Z :=
  status ← rsc_read w v VD_status 1; Ok (u8 status).

Definition rproc_virtio_set_status (w : world) (v status : Z) : res world :=
  w ← rsc_write w v VD_status status 1; notify_dev w v.

Definition rproc_virtio_get_dfeatures (w : world) (v : Z) : res Z := rsc_read w v VD_dfeatures 4.

Definition rproc_virtio_get_features (w : world) (v : Z) : res Z :=
  gfeatures ← rsc_read w v VD_gfeatures 4;
  dfeatures ← rproc_virtio_get_dfeatures w v;
  Ok (Z.land dfeatures gfeatures).

Definition rproc_virtio_set_features (w : world) (v features : Z) : res world :=
  w ← rsc_write w v VD_gfeatures features 4; notify_dev w v.

Definition rproc_virtio_negotiate_features (w : world) (v features : Z) : res (world * Z) :=
  d ← rproc_virtio_get_dfeatures w v;
  let features := Z.land features d in
  w ← rproc_virtio_set_features w v features;
  Ok (w, features).

(** The address of the configuration space: after the vrings. *)
Definition config_addr (d : remoteproc_virtio) : Z := rpv_rsc d + VD_vring (zlen (rpv_vrings d)).

(** [length] is an [int]; the sum is computed in [uint32_t]. *)
Definition rproc_virtio_read_config (w : world) (v offset dst length : Z) : res world :=
  d ← dev_get w v;
  config_len ← ld32 (rw_mem w) (rpv_rsc d + VD_config_len);
  if u32 (offset + length) <=? config_len then
    io ← the_io (rpv_rsc_io d);
    '(m, _) ← metal_io_block_read io (rw_mem w)
                (metal_io_virt_to_offset io (config_addr d + offset)) dst length;
    Ok (rw_set_mem w m)
  else Ok w.

Definition rproc_virtio_write_config (w : world) (v offset src length : Z) : res world :=
  d ← dev_get w v;
  config_len ← ld32 (rw_mem w) (rpv_rsc d + VD_config_len);
  if u32 (offset + length) <=? config_len then
    io ← the_io (rpv_rsc_io d);
    '(m, _) ← metal_io_block_write io (rw_mem w)
                (metal_io_virt_to_offset io (config_addr d + offset)) src length;
    notify_dev (rw_set_mem w m) v
  else Ok w.

Definition rproc_virtio_reset_device (w : world) (v : Z) : res world :=
  d ← dev_get w v;
  if vdev_role (rpv_dev d) =? VIRTIO_DEV_DRIVER then
    rproc_virtio_set_status w v VIRTIO_CONFIG_STATUS_NEEDS_RESET
  else Ok w.

(** ** Virtqueues *)

(** The loop frees the queues that exist; the pointers are not cleared. *)
Definition rproc_virtio_delete_virtqueues (w : world) (v : Z) : res (list Z) :=
  d ← dev_get w v;
  Ok (List.filter
        (fun i => match zget (rpv_vrings d) i with
                  | Some r => match rv_vq r with Some _ => true | None => false end
                  | None => false
                  end) (zseq 0 (length (rpv_vrings d)))).

(** [alloc] is whether the memory for the queue can be had. *)
Definition rproc_virtio_create_virtqueue (alloc : bool) (w : world) (v idx : Z) (name : string)
    (callback fnotify : Z) : res (world * Z) :=
  d ← dev_get w v;
  r ← rget (rpv_vrings d) idx;
  match rv_vq r with
  | Some _ => Ok (w, ERROR_VQUEUE_INVLD_PARAM)
  | None =>
      if negb alloc then Ok (w, ERROR_NO_MEM)
      else
        let info := rv_info r in
        let vq := virtqueue_allocate (ai_num_descs info) in
        w ←
          (if VIRTIO_ROLE_IS_DRIVER bld (rpv_dev d) then
             io ← the_io (rv_io r);
             '(m, _) ← metal_io_block_set io (rw_mem w)
                         (metal_io_virt_to_offset io (ai_vaddr info)) 0
                         (vring_size (ai_num_descs info) (ai_align info));
             Ok (rw_set_mem w m)
           else Ok w);
        ring ← vring_load (rw_mem w)
                 (vring_init (ai_num_descs info) (ai_vaddr info) (i32 (ai_align info)));
        '(ret, vq, ring) ←
          virtqueue_create bld (rpv_dev d) idx name (Some info) callback fnotify vq ring;
        vrings ← rset (rpv_vrings d) idx (rv_set_vq r (Some (vq, ring)));
        Ok (dev_set w v (rpv_set_vrings d vrings), ret)
  end.

(** The loop of [rproc_virtio_create_virtqueues]: [k] remain from [i]; [alloc i] is
    whether the memory of queue [i] can be had. *)
Fixpoint create_vqs_loop (k : nat) (i : Z) (alloc : Z -> bool) (w : world) (v : Z)
    (names : list string) (callbacks : list Z) (fnotify : Z) : res (world * Z) :=
  match k with
  | O => Ok (w, 0)
  | S k' =>
      name ← rget names i;
      cb ← rget callbacks i;
      '(w, ret) ← rproc_virtio_create_virtqueue (alloc i) w v i name cb fnotify;
      if negb (ret =? 0) then Ok (w, ret)
      else create_vqs_loop k' (i + 1) alloc w v names callbacks fnotify
  end.

(** The value returned and the queues freed on the way out.  [vdev->vrings_num] is
    the length of the array. *)
Definition rproc_virtio_create_virtqueues (alloc : Z -> bool) (w : world) (v nvqs : Z)
    (names : list string) (callbacks : list Z) (fnotify : Z) : res (world * Z * list Z) :=
  d ← dev_get w v;
  if zlen (rpv_vrings d) <? nvqs then Ok (w, ERROR_VQUEUE_INVLD_PARAM, [])
  else
    '(w, ret) ← create_vqs_loop (Z.to_nat nvqs) 0 alloc w v names callbacks fnotify;
    if negb (ret =? 0) then
      freed ← rproc_virtio_delete_virtqueues w v; Ok (w, ret, freed)
    else Ok (w, 0, []).

Definition rproc_virtio_virtqueue_notify (w : world) (v : Z) (vq : virtqueue) : res world :=
  d ← dev_get w v;
  _ ← rassert (vq_queue_index vq <? zlen (rpv_vrings d));
  r ← rget (rpv_vrings d) (vq_queue_index vq);
  '(w, _) ← notify w (rv_notifyid r);
  Ok w.

(** The loop of [rproc_virtio_notified]: [k] remain from [i]. *)
Fixpoint notified_loop (k : nat) (i : Z) (w : world) (v notifyid : Z) : res world :=
  match k with
  | O => Ok w
  | S k' =>
      d ← dev_get w v;
      r ← rget (rpv_vrings d) i;
      w ←
        (if (rv_notifyid r =? notifyid) || (notifyid =? RSC_NOTIFY_ID_ANY) then
           match rv_vq r with
           | None => Fault Out_of_bounds
           | Some (vq, _) =>
               match virtqueue_notification vq with
               | Some cb => call_vq cb w v i
               | None => Ok w
               end
           end
         else Ok w);
      notified_loop k' (i + 1) w v notifyid
  end.

Definition rproc_virtio_notified (w : world) (v notifyid : Z) : res (world * Z) :=
  if v =? 0 then Ok (w, - RPROC_EINVAL)
  else
    d ← dev_get w v;
    if vdev_notifyid (rpv_dev d) =? notifyid then Ok (w, 0)
    else w ← notified_loop (length (rpv_vrings d)) 0 w v notifyid; Ok (w, 0).

(** The busy wait, [fuel] rounds of it; [poll] is what [metal_yield] lets the other
    side do between two rounds. *)
Fixpoint wait_ready_loop (fuel : nat) (poll : world -> world) (w : world) (v : Z) : res world :=
  match fuel with
  | O => Fault No_fuel
  | S fuel' =>
      status ← rproc_virtio_get_status w v;
      if negb (Z.land status VIRTIO_CONFIG_STATUS_DRIVER_OK =? 0) then Ok w
      else wait_ready_loop fuel' poll (poll w) v
  end.

Definition rproc_virtio_wait_remote_ready (fuel : nat) (poll : world -> world) (w : world) (v : Z)
  : res world :=
  d ← dev_get w v;
  if VIRTIO_ROLE_IS_DRIVER bld (rpv_dev d) then Ok w else wait_ready_loop fuel poll w v.

(** ** Creation and removal *)

(** [alloc1] and [alloc2]: the address of the structure (0: no memory) and whether
    the array of vrings can be had. *)
Definition rproc_virtio_create_vdev (alloc1 : Z) (alloc2 : bool) (w : world)
    (role notifyid rsc : Z) (rsc_io : option metal_io_region) (rst_cb : Z) : res (world * Z) :=
  num_vrings ← ld8 (rw_mem w) (rsc + VD_num_of_vrings);
  if (alloc1 =? 0) || negb alloc2 then Ok (w, 0)
  else
    id ← ld32 (rw_mem w) (rsc + VD_id);
    let w := dev_set w alloc1
      (mk_rpv rsc rsc_io (mk_vdev notifyid 0 role) id rst_cb
         (replicate (Z.to_nat num_vrings) zero_rvring)) in
    if driver_enabled bld && (role =? VIRTIO_DEV_DRIVER) then
      dfeatures ← rproc_virtio_get_dfeatures w alloc1;
      '(w, _) ← rproc_virtio_negotiate_features w alloc1 dfeatures;
      Ok (w, alloc1)
    else Ok (w, alloc1).

Definition rproc_virtio_remove_vdev (w : world) (v : Z) : world :=
  if v =? 0 then w else dev_del w v.

Definition rproc_virtio_init_vring (w : world) (v index notifyid va : Z)
    (io : option metal_io_region) (num_descs align : Z) : res (world * Z) :=
  d ← dev_get w v;
  if (zlen (rpv_vrings d) <=? index) || (RPROC_MAX_VRING_DESC <? num_descs) then
    Ok (w, - RPROC_EINVAL)
  else
    r ← rget (rpv_vrings d) index;
    vrings ← rset (rpv_vrings d) index
               (mk_rvring (rv_vq r) (mk_alloc va align num_descs) notifyid io);
    Ok (dev_set w v (rpv_set_vrings d vrings), 0).
End rproc_virtio.

(** ** The devices of a remote processor (remoteproc.c) *)

Section devices.
Context {N : Type}.
Abbreviation world := (rpworld (vheap N)).
Variable bld : build.
Variable ops : remoteproc_ops (vheap N).
Variable call_vq : Z -> world -> Z -> Z -> res world.

Definition remoteproc_remove_virtio (w : world) (v : Z) : res world :=
  _ ← rassert (negb (v =? 0));
  let r := rw_rproc w in
  let w := rw_set_rproc w (rp_set_vdevs r (List.filter (fun x => negb (x =? v)) (rp_vdevs r))) in
  Ok (rproc_virtio_remove_vdev w v).

(** The search for a device that was made for the resource before. *)
Fixpoint find_vdev (l : list Z) (w : world) (notifyid : Z) : res (option Z) :=
  match l with
  | [] => Ok None
  | v :: l' =>
      d ← dev_get w v;
      if vdev_notifyid (rpv_dev d) =? notifyid then Ok (Some v) else find_vdev l' w notifyid
  end.

(** The loop over the vrings of the resource: [k] remain from [i]; [false] is the
    jump to [err1]. *)
Fixpoint init_vrings_loop (k : nat) (i : Z) (w : world) (v rsc : Z) : res (world * bool) :=
  match k with
  | O => Ok (w, true)
  | S k' =>
      let vring_rsc := rsc + VD_vring i in
      notifyid ← ld32 (rw_mem w) (vring_rsc + VR_notifyid);
      da ← ld32 (rw_mem w) (vring_rsc + VR_da);
      num_descs ← ld32 (rw_mem w) (vring_rsc + VR_num);
      align ← ld32 (rw_mem w) (vring_rsc + VR_align);
      '(w, o) ← remoteproc_mmap ops true w None (Some da) (vring_size num_descs align) 0 (Some None);
      if mo_va o =? 0 then Ok (w, false)
      else
        '(w, ret) ← rproc_virtio_init_vring w v i notifyid (mo_va o)
                      (from_option id None (mo_io o)) num_descs align;
        if negb (ret =? 0) then Ok (w, false) else init_vrings_loop k' (i + 1) w v rsc
  end.

(** After the device was made: it joins the list and its vrings are set up. *)
Definition setup_vdev (w : world) (v rsc : Z) : res (world * Z) :=
  let r := rw_rproc w in
  let w := rw_set_rproc w (rp_set_vdevs r (rp_vdevs r ++ [v])) in
  num_vrings ← ld8 (rw_mem w) (rsc + VD_num_of_vrings);
  '(w, ok) ← init_vrings_loop (Z.to_nat num_vrings) 0 w v rsc;
  if (ok : bool) then Ok (rp_release w, v)
  else w ← remoteproc_remove_virtio w v; Ok (rp_release w, 0).

(** [vdev_id] is an [int]; the device returned is its address, 0 for [NULL].  [poll]
    and [fuel] bound the wait for the other side. *)
Definition remoteproc_create_virtio (rproc : bool) (w : world) (vdev_id role rst_cb : Z)
    (alloc1 : Z) (alloc2 : bool) (fuel : nat) (poll : world -> world) : res (world * Z) :=
  if negb (driver_enabled bld) && (role =? VIRTIO_DEV_DRIVER) then Ok (w, 0)
  else if negb (device_enabled bld) && (role =? VIRTIO_DEV_DEVICE) then Ok (w, 0)
  else if negb rproc || (negb (role =? VIRTIO_DEV_DEVICE) && negb (role =? VIRTIO_DEV_DRIVER)) then
    Ok (w, 0)
  else
    w ← rp_acquire w;
    let rsc_table := rp_rsc_table (rw_rproc w) in
    let vdev_rsc_io := rp_rsc_io (rw_rproc w) in
    off ← find_rsc (rw_mem w) rsc_table RSC_VDEV (u32 vdev_id);
    if off =? 0 then Ok (rp_release w, 0)
    else
      let vdev_rsc := rsc_table + off in
      notifyid ← ld32 (rw_mem w) (vdev_rsc + VD_notifyid);
      old ← find_vdev (rp_vdevs (rw_rproc w)) w notifyid;
      match old with
      | Some v => Ok (rp_release w, v)
      | None =>
          '(w, v) ← rproc_virtio_create_vdev bld (remoteproc_virtio_notify ops) alloc1 alloc2 w
                      role notifyid vdev_rsc vdev_rsc_io rst_cb;
          if v =? 0 then Ok (rp_release w, 0)
          else
            w ← rproc_virtio_wait_remote_ready bld fuel poll w v;
            setup_vdev w v vdev_rsc
      end.

(** [metal_list_for_each] over the devices on the list. *)
Fixpoint notification_loop (l : list Z) (w : world) (notifyid : Z) : res (world * Z) :=
  match l with
  | [] => Ok (w, 0)
  | v :: l' =>
      '(w, ret) ← rproc_virtio_notified call_vq w v notifyid;
      if negb (ret =? 0) then Ok (w, ret) else notification_loop l' w notifyid
  end.

Definition remoteproc_get_notification (rproc : bool) (w : world) (notifyid : Z)
  : res (world * Z) :=
  if negb rproc then Ok (w, 0) else notification_loop (rp_vdevs (rw_rproc w)) w notifyid.
End devices.
