(* ===== verification/RpvSpec.v ===== *)
(** * Virtio devices of a remote processor: what the two sides agree on

    The driver writes the status and the features to the virtio resource, the
    device reads them there.  Both sides are objects of one heap here, with the
    resource at one address; a notification is a doorbell. *)

From S2P Require Import Prelude MetalUtil MetalIo Vring Virtqueue Virtio ElfLoader Remoteproc RscTable.
From S2P Require Import RemoteprocSpec RscSpec RemoteprocVirtio.

(** ** Fields through a region *)

Lemma io_ptr_at io pm a :
  io_wf io pm -> io_virt io <= a < io_virt io + io_size io ->
  metal_io_virt io (metal_io_virt_to_offset io a) = a /\ a <> 0.
Proof.
  intros Hw Ha. destruct (virt_of_offset io pm Hw (a - io_virt io) ltac:(lia)) as (H1&H2&H3).
  replace (io_virt io + (a - io_virt io)) with a in * by lia. by rewrite H3.
Qed.

Lemma io_read_at io pm m a width :
  io_wf io pm -> io_virt io <= a < io_virt io + io_size io -> io_width_ok width = true ->
  metal_io_read io m (metal_io_virt_to_offset io a) width = ld (Z.to_nat width) m a.
Proof.
  intros Hw Ha Hwd. destruct (io_ptr_at io pm a Hw Ha) as [Hp Hn]. unfold metal_io_read.
  rewrite (wf_nops _ _ Hw), Hp, Hwd, (proj2 (Z.eqb_neq _ _) Hn). done.
Qed.

Lemma io_write_at io pm m a v width :
  io_wf io pm -> io_virt io <= a < io_virt io + io_size io -> io_width_ok width = true ->
  mapped m a width -> 0 <= width ->
  metal_io_write io m (metal_io_virt_to_offset io a) v width
  = Ok (put_bytes m a (le_bytes (Z.to_nat width) v)).
Proof.
  intros Hw Ha Hwd Hm Hp0. destruct (io_ptr_at io pm a Hw Ha) as [Hp Hn]. unfold metal_io_write.
  rewrite (wf_nops _ _ Hw), Hp, Hwd, (proj2 (Z.eqb_neq _ _) Hn). cbn [nops op_write negb andb].
  apply storen_ok. by rewrite zlen_le_bytes, Z2Nat.id.
Qed.

Section handshake.
Context {N : Type}.
Abbreviation world := (rpworld (vheap N)).
Variable notify : world -> Z -> res (world * Z).

(** The two worlds differ at most outside the memory, the processor and the
    devices. *)
Definition same_devs (w w' : world) : Prop :=
  vh_devs (rw_rest w') = vh_devs (rw_rest w) /\ rw_rproc w' = rw_rproc w.

(** The notification is a doorbell: it returns, and neither the shared memory nor
    the processor nor the devices change. *)
Definition doorbell : Prop :=
  forall w id, exists w' r, notify w id = Ok (w', r) /\ rw_mem w' = rw_mem w /\ same_devs w w'.
Hypothesis Hbell : doorbell.

(** A device whose resource lies in its region. *)
Record dev_at (w : world) (v rsc : Z) : Prop := {
  da_io : exists d io pm, vh_devs (rw_rest w) !! v = Some d /\ rpv_rsc d = rsc /\
    rpv_rsc_io d = Some io /\ io_wf io pm /\ io_virt io <= rsc /\
    rsc + 28 <= io_virt io + io_size io;
  da_mapped : mapped (rw_mem w) rsc 28
}.

Lemma rsc_read_run (w : world) v rsc f width :
  dev_at w v rsc -> 0 <= f -> f + width <= 28 -> 0 < width -> io_width_ok width = true ->
  rsc_read w v f width = ld (Z.to_nat width) (rw_mem w) (rsc + f).
Proof.
  intros [(d&io&pm&Hd&Hr&Hio&Hw&Hl&Hh) _] Hf Hfw Hp Hwd. unfold rsc_read, dev_get. rewrite Hd.
  cbn [mbind res_bind]. rewrite Hio, Hr. cbn [the_io mbind res_bind].
  apply (io_read_at io pm); try done. lia.
Qed.

Lemma rsc_write_run (w : world) v rsc f value width :
  dev_at w v rsc -> 0 <= f -> f + width <= 28 -> 0 < width -> io_width_ok width = true ->
  rsc_write w v f value width
  = Ok (rw_set_mem w (put_bytes (rw_mem w) (rsc + f) (le_bytes (Z.to_nat width) value))).
Proof.
  intros [(d&io&pm&Hd&Hr&Hio&Hw&Hl&Hh) Hm] Hf Hfw Hp Hwd. unfold rsc_write, dev_get. rewrite Hd.
  cbn [mbind res_bind]. rewrite Hio, Hr. cbn [the_io mbind res_bind].
  rewrite (io_write_at io pm); try done; try lia.
  apply (mapped_sub _ _ _ _ _ Hm); lia.
Qed.

(** [w'] is what the other side gets to see after device [v] has rung its bell in [w],
    with the notification id of the device. *)
Definition rung (w : world) (v : Z) (w' : world) : Prop :=
  exists d r, vh_devs (rw_rest w) !! v = Some d /\ notify w (vdev_notifyid (rpv_dev d)) = Ok (w', r).

(** The ring of the bell keeps the devices where they are. *)
Lemma notify_dev_run (w : world) v rsc :
  dev_at w v rsc -> exists w', notify_dev notify w v = Ok w' /\ rung w v w' /\
    rw_mem w' = rw_mem w /\ same_devs w w'.
Proof.
  intros [(d&io&pm&Hd&_) _]. unfold notify_dev, dev_get. rewrite Hd. cbn [mbind res_bind].
  destruct (Hbell w (vdev_notifyid (rpv_dev d))) as (w'&r&E&H). rewrite E. exists w'.
  split; [done|]. split; [by exists d, r|done].
Qed.

(** The world with a field of the resource stored. *)
Definition with_field (w : world) (a : Z) (bytes : list Z) : world :=
  rw_set_mem w (put_bytes (rw_mem w) a bytes).

Lemma dev_at_same (w w' : world) v rsc :
  dev_at w v rsc -> vh_devs (rw_rest w') = vh_devs (rw_rest w) ->
  mapped (rw_mem w') rsc 28 -> dev_at w' v rsc.
Proof. intros [Hio _] Hd Hm. split; [|done]. by rewrite Hd. Qed.

(** A field written by one side and a field read by another. *)
Lemma write_field (w : world) v rsc f value width :
  dev_at w v rsc -> 0 <= f -> f + width <= 28 -> 0 < width -> io_width_ok width = true ->
  exists w', (w1 ← rsc_write w v f value width; notify_dev notify w1 v) = Ok w' /\
    rung (with_field w (rsc + f) (le_bytes (Z.to_nat width) value)) v w' /\
    rw_mem w' = put_bytes (rw_mem w) (rsc + f) (le_bytes (Z.to_nat width) value) /\
    same_devs w w' /\ (forall u, dev_at w u rsc -> dev_at w' u rsc).
Proof.
  intros Hd Hf Hfw Hp Hwd. rewrite (rsc_write_run w v rsc f) by done. cbn [mbind res_bind].
  change (rw_set_mem w _) with (with_field w (rsc + f) (le_bytes (Z.to_nat width) value)).
  set (w1 := with_field _ _ _).
  assert (Hm : mapped (rw_mem w1) rsc 28) by apply mapped_put, (da_mapped _ _ _ Hd).
  destruct (notify_dev_run w1 v rsc) as (w'&E&Er&Em&Ed); [by apply (dev_at_same w)|].
  exists w'. split_and!; try done. intros u Hu.
  apply (dev_at_same w); [done|exact (proj1 Ed)|]. by rewrite Em.
Qed.

Lemma read_other (w w' : world) rsc f width g (bs : list Z) :
  rw_mem w' = put_bytes (rw_mem w) (rsc + f) bs -> f + zlen bs <= g \/ g + Z.of_nat width <= f ->
  ld width (rw_mem w') (rsc + g) = ld width (rw_mem w) (rsc + g).
Proof. intros -> H. apply ld_put_disjoint. lia. Qed.

Lemma get_features_run (w : world) v rsc df gf :
  dev_at w v rsc -> ld32 (rw_mem w) (rsc + VD_dfeatures) = Ok df ->
  ld32 (rw_mem w) (rsc + VD_gfeatures) = Ok gf ->
  rproc_virtio_get_features w v = Ok (Z.land df gf).
Proof.
  intros Hd Hdf Hgf. unfold rproc_virtio_get_features, rproc_virtio_get_dfeatures.
  rewrite !(rsc_read_run w v rsc) by (done || unfold VD_gfeatures, VD_dfeatures; lia).
  change (Z.to_nat 4) with 4%nat. fold ld32. rewrite Hgf. cbn [mbind res_bind]. by rewrite Hdf.
Qed.

(** The driver negotiates [f]: the resource holds the common features. *)
Lemma negotiate_run (w : world) v rsc f df :
  dev_at w v rsc -> ld32 (rw_mem w) (rsc + VD_dfeatures) = Ok df -> is_u32 f -> 0 <= df ->
  exists w', rproc_virtio_negotiate_features notify w v f = Ok (w', Z.land f df) /\
    rung (with_field w (rsc + VD_gfeatures) (le_bytes 4 (Z.land f df))) v w' /\
    (forall u, dev_at w u rsc -> dev_at w' u rsc) /\ same_devs w w' /\
    rw_mem w' = put_bytes (rw_mem w) (rsc + VD_gfeatures) (le_bytes 4 (Z.land f df)) /\
    ld32 (rw_mem w') (rsc + VD_dfeatures) = Ok df /\
    ld32 (rw_mem w') (rsc + VD_gfeatures) = Ok (Z.land f df) /\
    ld8 (rw_mem w') (rsc + VD_status) = ld8 (rw_mem w) (rsc + VD_status).
Proof.
  intros Hd Hdf Hf Hdf0. unfold rproc_virtio_negotiate_features, rproc_virtio_get_dfeatures.
  rewrite (rsc_read_run w v rsc) by (done || unfold VD_dfeatures; lia).
  change (Z.to_nat 4) with 4%nat. fold ld32. rewrite Hdf. cbn [mbind res_bind].
  unfold rproc_virtio_set_features.
  destruct (write_field w v rsc VD_gfeatures (Z.land f df) 4) as (w'&->&Er&Em&Ed&Hkeep);
    try done.
  cbn [mbind res_bind]. change (Z.to_nat 4) with 4%nat in Em. exists w'. split_and!; try done.
  - rewrite <- Hdf. apply (read_other w w' _ _ _ _ _ Em). rewrite zlen_le_bytes.
    unfold VD_gfeatures, VD_dfeatures. lia.
  - rewrite Em. apply ld32_put_same. by apply land_u32.
  - apply (read_other w w' _ _ _ _ _ Em). rewrite zlen_le_bytes.
    unfold VD_gfeatures, VD_status. lia.
Qed.

Lemma set_status_run (w : world) v rsc st :
  dev_at w v rsc -> is_u8 st ->
  exists w', rproc_virtio_set_status notify w v st = Ok w' /\
    rung (with_field w (rsc + VD_status) (le_bytes 1 st)) v w' /\
    (forall u, dev_at w u rsc -> dev_at w' u rsc /\ rproc_virtio_get_status w' u = Ok st) /\
    (forall g, g + 4 <= VD_status -> ld32 (rw_mem w') (rsc + g) = ld32 (rw_mem w) (rsc + g)).
Proof.
  intros Hd Hst. unfold rproc_virtio_set_status.
  destruct (write_field w v rsc VD_status st 1) as (w'&E&Er&Em&Ed&Hkeep);
    try done.
  rewrite E. exists w'. change (Z.to_nat 1) with 1%nat in Em. split_and!; try done.
  - intros u Hu. split; [by apply Hkeep|]. unfold rproc_virtio_get_status.
    rewrite (rsc_read_run w' u rsc) by (try (by apply Hkeep); done || unfold VD_status; lia).
    rewrite Em. unfold ld. change (Z.to_nat 1) with (length (le_bytes 1 st)).
    rewrite (loadn_ok _ _ _ (has_bytes_put _ _ _)). cbn [mbind res_bind le_bytes le_val].
    rewrite Z.mul_0_r, Z.add_0_r, (Z.mod_small st) by exact Hst. by rewrite u8_id.
  - intros g Hg. apply (read_other w w' _ _ _ _ _ Em). rewrite zlen_le_bytes. lia.
Qed.

(** The wait ends with the first round that sees [DRIVER_OK]. *)
Lemma wait_ready_spec (poll : world -> world) n (w : world) v :
  (forall k, (k < n)%nat -> exists s, rproc_virtio_get_status (Nat.iter k poll w) v = Ok s /\
     Z.land s VIRTIO_CONFIG_STATUS_DRIVER_OK = 0) ->
  (exists s, rproc_virtio_get_status (Nat.iter n poll w) v = Ok s /\
     Z.land s VIRTIO_CONFIG_STATUS_DRIVER_OK <> 0) ->
  wait_ready_loop (S n) poll w v = Ok (Nat.iter n poll w).
Proof.
  revert w. induction n as [|n IH]; intros w Hno [s [Hs Hok]].
  - cbn [wait_ready_loop]. cbn [Nat.iter nat_rect] in Hs. rewrite Hs. cbn [mbind res_bind].
    by rewrite (proj2 (Z.eqb_neq _ _) Hok).
  - assert (Hit : forall k, Nat.iter k poll (poll w) = Nat.iter (S k) poll w).
    { intros k. symmetry. apply Nat.iter_succ_r. }
    destruct (Hno O ltac:(lia)) as (s0&Hs0&Hz). cbn [Nat.iter nat_rect] in Hs0.
    change (wait_ready_loop (S (S n)) poll w v) with
      (status ← rproc_virtio_get_status w v;
       if negb (Z.land status VIRTIO_CONFIG_STATUS_DRIVER_OK =? 0) then Ok w
       else wait_ready_loop (S n) poll (poll w) v).
    rewrite Hs0. cbn [mbind res_bind]. rewrite Hz, Z.eqb_refl. cbn [negb]. rewrite IH.
    + by rewrite Hit.
    + intros k Hk. rewrite Hit. apply Hno. lia.
    + exists s. by rewrite Hit.
Qed.

(** The whole function: the driver does not wait, the device does. *)
Lemma wait_remote_ready_run bld (poll : world -> world) fuel (w : world) v d :
  vh_devs (rw_rest w) !! v = Some d ->
  rproc_virtio_wait_remote_ready bld fuel poll w v =
    if VIRTIO_ROLE_IS_DRIVER bld (rpv_dev d) then Ok w else wait_ready_loop fuel poll w v.
Proof. intros Hd. unfold rproc_virtio_wait_remote_ready, dev_get. by rewrite Hd. Qed.
End handshake.

(** C22: The driver's [negotiate_features] stores the features both sides have, rings
    the bell with the id of its device once they are stored, and returns them; the
    device then reads exactly these.  [set_status] stores the status and rings the bell
    likewise; the device reads that status, and the features are left alone.  The
    device's [rproc_virtio_wait_remote_ready] ends in the first round in which the
    status has [DRIVER_OK]; in the driver role it returns at once. *)
Theorem rproc_virtio_handshake {N} (bld : build) (notify : rpworld (vheap N) -> Z -> res (rpworld (vheap N) * Z))
    (w : rpworld (vheap N)) (v1 v2 rsc f df st : Z) :
  doorbell notify -> dev_at w v1 rsc -> dev_at w v2 rsc ->
  ld32 (rw_mem w) (rsc + VD_dfeatures) = Ok df -> is_u32 f -> is_u32 df -> is_u8 st ->
  exists w1 w2,
    rproc_virtio_negotiate_features notify w v1 f = Ok (w1, Z.land f df) /\
    rung notify (with_field w (rsc + VD_gfeatures) (le_bytes 4 (Z.land f df))) v1 w1 /\
    rproc_virtio_get_features w1 v2 = Ok (Z.land f df) /\
    rproc_virtio_get_status w1 v2 = rproc_virtio_get_status w v2 /\
    rproc_virtio_set_status notify w1 v1 st = Ok w2 /\
    rung notify (with_field w1 (rsc + VD_status) (le_bytes 1 st)) v1 w2 /\
    rproc_virtio_get_status w2 v2 = Ok st /\
    rproc_virtio_get_features w2 v2 = Ok (Z.land f df) /\
    forall (poll : rpworld (vheap N) -> rpworld (vheap N)) w0 u d, vh_devs (rw_rest w0) !! u = Some d ->
      (VIRTIO_ROLE_IS_DRIVER bld (rpv_dev d) = true ->
         forall fuel, rproc_virtio_wait_remote_ready bld fuel poll w0 u = Ok w0) /\
      (VIRTIO_ROLE_IS_DRIVER bld (rpv_dev d) = false -> u = v2 ->
         forall n, (forall k, (k < n)%nat -> exists s, rproc_virtio_get_status (Nat.iter k poll w0) v2 = Ok s /\
                      Z.land s VIRTIO_CONFIG_STATUS_DRIVER_OK = 0) ->
         Nat.iter n poll w0 = w2 -> Z.land st VIRTIO_CONFIG_STATUS_DRIVER_OK <> 0 ->
         rproc_virtio_wait_remote_ready bld (S n) poll w0 v2 = Ok w2).
Proof.
  intros Hb H1 H2 Hdf Hf Hd Hst.
  assert (Hidem : Z.land df (Z.land f df) = Z.land f df)
    by (rewrite (Z.land_comm f df), Z.land_assoc, Z.land_diag; done).
  destruct (negotiate_run notify Hb w v1 rsc f df H1 Hdf Hf) as (w1&E1&R1&K1&_&_&D1&G1&S1);
    [unfold is_u32 in Hd; lia|].
  destruct (set_status_run notify Hb w1 v1 rsc st (K1 _ H1) Hst) as (w2&E2&R2&K2&F2).
  destruct (K2 v2 (K1 _ H2)) as [H2' Hs2].
  exists w1, w2. split_and!; try done.
  - rewrite (get_features_run w1 v2 rsc df _ (K1 _ H2) D1 G1). by rewrite Hidem.
  - unfold rproc_virtio_get_status.
    rewrite (rsc_read_run w1 v2 rsc), (rsc_read_run w v2 rsc) by (done || by apply K1).
    change (Z.to_nat 1) with 1%nat. fold ld8. by rewrite S1.
  - rewrite (get_features_run w2 v2 rsc df (Z.land f df) H2'); [by rewrite Hidem| |];
      by rewrite F2 by (unfold VD_status, VD_dfeatures, VD_gfeatures; lia).
  - intros poll w0 u d Hu. split.
    + intros Hr fuel. by rewrite (wait_remote_ready_run bld poll fuel w0 u d Hu), Hr.
    + intros Hr -> n Hno Hit Hok. rewrite (wait_remote_ready_run bld poll (S n) w0 v2 d Hu), Hr.
      rewrite (wait_ready_spec poll n w0 v2 Hno); [by rewrite Hit|]. exists st. by rewrite Hit.
Qed.

(** Two sides of the resource of the example, with features [1 + 4]. *)
Definition demo_rpv (role : Z) : remoteproc_virtio :=
  mk_rpv 1000 (Some (metal_io_init 1000 (Some [1000]) 200 64 0 None)) (mk_vdev 9 0 role) 7 0 [].
Definition demo_rpv_world : rpworld (vheap (list Z)) :=
  mk_rw (put_bytes ∅ 1000 (le_bytes 12 0 ++ le_bytes 4 5 ++ le_bytes 12 0))
    (rw_rproc (demo_rpworld [] 0))
    (mk_vh {[1 := demo_rpv VIRTIO_DEV_DRIVER; 2 := demo_rpv VIRTIO_DEV_DEVICE]} []).
(** A bell that records who rang. *)
Definition demo_bell (w : rpworld (vheap (list Z))) (id : Z) : res (rpworld (vheap (list Z)) * Z) :=
  Ok (rw_set_rest w (mk_vh (vh_devs (rw_rest w)) (vh_env (rw_rest w) ++ [id])), 0).

Lemma demo_dev_at v role :
  vh_devs (rw_rest demo_rpv_world) !! v = Some (demo_rpv role) -> dev_at demo_rpv_world v 1000.
Proof.
  intros Hv. split.
  - eexists _, _, [1000]. split; [exact Hv|]. split_and!; try done.
    split; try done; [by apply Forall_singleton|left; done].
  - intros i Hi. unfold demo_rpv_world. cbn [rw_mem]. rewrite lookup_put.
    rewrite (proj2 (Z.leb_le _ _)) by lia. 
    change (zlen _) with 28. rewrite (proj2 (Z.ltb_lt _ _)) by lia. cbn [andb].
    destruct (zget_is_Some (le_bytes 12 0 ++ le_bytes 4 5 ++ le_bytes 12 0) (i - 1000)) as [x Hx].
    { change (zlen _) with 28. lia. }
    by exists x.
Qed.

(** The bell rings once per call, and the device that waits for the driver ends in the
    second round. *)
Lemma rproc_virtio_handshake_witness :
  exists w1 w2,
    rproc_virtio_negotiate_features demo_bell demo_rpv_world 1 3 = Ok (w1, 1) /\
    vh_env (rw_rest w1) = [9] /\
    rproc_virtio_get_features w1 2 = Ok 1 /\
    rproc_virtio_set_status demo_bell w1 1 4 = Ok w2 /\ rproc_virtio_get_status w2 2 = Ok 4 /\
    rproc_virtio_wait_remote_ready (mk_build false None None) 2 (fun _ => w2) demo_rpv_world 2 = Ok w2.
Proof.
  destruct (rproc_virtio_handshake (mk_build false None None) demo_bell demo_rpv_world 1 2 1000 3 5 4)
    as (w1&w2&H1&R1&H2&_&H3&_&H4&_&H5).
  - intros w id. by eexists _, _.
  - by apply (demo_dev_at 1 VIRTIO_DEV_DRIVER).
  - by apply (demo_dev_at 2 VIRTIO_DEV_DEVICE).
  - vm_compute. reflexivity.
  - split; [lia|reflexivity].
  - split; [lia|reflexivity].
  - split; [lia|reflexivity].
  - exists w1, w2. split; [exact H1|]. split; [|split; [exact H2|split; [exact H3|split; [exact H4|]]]].
    + destruct R1 as (d & r & Hd & Hr). injection Hd as <-. injection Hr as <- _. reflexivity.
    + apply (proj2 (H5 (fun _ => w2) demo_rpv_world 2 (demo_rpv VIRTIO_DEV_DEVICE) eq_refl) eq_refl eq_refl 1%nat);
        [|done|done].
      intros k Hk. replace k with O by lia. exists 0. split; vm_compute; reflexivity.
Defined.
