(* ===== verification/RpvCreate.v ===== *)
(** * Creation of the virtio devices of a remote processor

    [remoteproc_create_virtio] in the driver role: the resource is found in the
    table, the device is made once, and its vrings are mapped where the resource
    asks for them. *)

From S2P Require Import Prelude MetalUtil MetalIo Vring Virtqueue Virtio ElfLoader Remoteproc RscTable.
From S2P Require Import RemoteprocSpec RscSpec RemoteprocVirtio RpvSpec StrUtil.

Section create.
Context {N : Type}.
Abbreviation world := (rpworld (vheap N)).
Variable bld : build.
Variable ops : remoteproc_ops (vheap N).

(** The entry of the array for vring [j] of the resource at [rsc]: its memory is one
    of the processor's, and the entry gives the address there. *)
Record vring_entry (m : gmap Z Z) (mems : list remoteproc_mem) (rsc j : Z) (e : rvring) : Prop := {
  ve_fields : exists nid da num align,
    ld32 m (rsc + VD_vring j + VR_notifyid) = Ok nid /\ ld32 m (rsc + VD_vring j + VR_da) = Ok da /\
    ld32 m (rsc + VD_vring j + VR_num) = Ok num /\ ld32 m (rsc + VD_vring j + VR_align) = Ok align /\
    num <= RPROC_MAX_VRING_DESC /\ 0 < vring_size num align /\
    exists mm io pm, first_covering mems mm da (vring_size num align) /\ mem_ok mm io pm /\
      e = mk_rvring None (mk_alloc (io_virt io + (da - rm_da mm)) align num) nid (Some io)
}.

Lemma init_vring_run (w : world) v d pre r post nid va io num align :
  vh_devs (rw_rest w) !! v = Some d -> rpv_vrings d = pre ++ r :: post ->
  num <= RPROC_MAX_VRING_DESC ->
  rproc_virtio_init_vring w v (zlen pre) nid va io num align
  = Ok (dev_set w v (rpv_set_vrings d
          (pre ++ mk_rvring (rv_vq r) (mk_alloc va align num) nid io :: post)), 0).
Proof.
  intros Hd Hv Hn. unfold rproc_virtio_init_vring, dev_get. rewrite Hd. cbn [mbind res_bind].
  assert (Hlt : zlen pre < zlen (rpv_vrings d))
    by (rewrite Hv, zlen_app, zlen_cons; pose proof (zlen_nonneg post); lia).
  rewrite (proj2 (Z.leb_gt _ _)), (proj2 (Z.ltb_ge _ _)) by lia. cbn [orb].
  assert (Hg : zget (rpv_vrings d) (zlen pre) = Some r)
    by (rewrite Hv, zget_app_r, Z.sub_diag by lia; apply zget_cons_0).
  rewrite (rget_Some _ _ _ Hg). cbn [mbind res_bind].
  rewrite rset_ok by (pose proof (zlen_nonneg pre); lia). cbn [mbind res_bind].
  rewrite Hv. by rewrite zset_app_mid.
Qed.

Lemma init_vrings_spec (w : world) v rsc d pre es :
  Forall mem_wf (rp_mems (rw_rproc w)) ->
  vh_devs (rw_rest w) !! v = Some d -> rpv_vrings d = pre ++ replicate (length es) zero_rvring ->
  (forall j e, zget es j = Some e ->
     vring_entry (rw_mem w) (rp_mems (rw_rproc w)) rsc (zlen pre + j) e) ->
  exists w', init_vrings_loop ops (length es) (zlen pre) w v rsc = Ok (w', true) /\
    rw_mem w' = rw_mem w /\ rw_rproc w' = rw_rproc w /\ vh_env (rw_rest w') = vh_env (rw_rest w) /\
    vh_devs (rw_rest w') = <[v := rpv_set_vrings d (pre ++ es)]> (vh_devs (rw_rest w)).
Proof.
  intros Hmems. revert w d pre Hmems. induction es as [|e es IH]; intros w d pre Hmems Hd Hv He;
    cbn [length init_vrings_loop].
  { exists w. cbn [length replicate] in Hv. rewrite app_nil_r in *. split_and!; try done.
    rewrite insert_id; [done|]. rewrite Hd. f_equal. destruct d. cbn in *. by subst. }
  destruct (He 0 e (zget_cons_0 _ _)) as [(nid&da&num&align&H1&H2&H3&H4&Hn&Hs&mm&io&pm&Hf&Hm&->)].
  rewrite (Z.add_0_r (zlen pre)) in *. rewrite H1. cbn [mbind res_bind]. rewrite H2. cbn [mbind res_bind].
  rewrite H3. cbn [mbind res_bind]. rewrite H4. cbn [mbind res_bind].
  rewrite (mmap_da_run ops w Hmems mm io pm None da) by (done || by left).
  cbn [mbind res_bind mo_va mo_io fmap option_fmap option_map from_option id].
  assert (Hne : io_virt io + (da - rm_da mm) <> 0).
  { destruct Hf as (?&?&_&_&Hc1&Hc2).
    apply (mem_translate mm io pm (da - rm_da mm) Hm). lia. }
  rewrite (proj2 (Z.eqb_neq _ _) Hne). cbn [replicate] in Hv.
  rewrite (init_vring_run w v d pre zero_rvring (replicate (length es) zero_rvring)) by done.
  cbn [mbind res_bind negb]. rewrite Z.eqb_refl. cbn [negb rv_vq zero_rvring].
  set (e := mk_rvring None _ _ _) in *.
  set (d' := rpv_set_vrings d (pre ++ e :: replicate (length es) zero_rvring)).
  assert (Hz : zlen pre + 1 = zlen (pre ++ [e])) by (rewrite zlen_app; done). rewrite Hz.
  destruct (IH (dev_set w v d') d' (pre ++ [e])) as (w'&E&E1&E2&E3&E4).
  - done.
  - cbn. by rewrite lookup_insert_eq.
  - subst d'. cbn. by rewrite <- app_assoc.
  - intros j e' Hj. rewrite <- Hz, <- Z.add_assoc. apply He.
    pose proof (zget_Some_lt _ _ _ Hj). rewrite zget_cons_S by lia. by replace (1 + j - 1) with j by lia.
  - exists w'. split_and!; try done. rewrite E4. cbn [dev_set rw_rest rw_set_rest vh_devs].
    rewrite insert_insert_eq, <- app_assoc. done.
Qed.

(** ** The resource in the table *)

Record vdev_table (w : world) (vdev_id rsc nid df : Z) (es : list rvring) : Prop := {
  vt_table : rp_rsc_table (rw_rproc w) <> 0;
  vt_entry : exists l off, table_entries (rw_mem w) (rp_rsc_table (rw_rproc w)) l /\
    zget (of_type RSC_VDEV l) vdev_id = Some (off, RSC_VDEV) /\ off <> 0 /\
    rsc = rp_rsc_table (rw_rproc w) + off;
  vt_io : exists io pm, rp_rsc_io (rw_rproc w) = Some io /\ io_wf io pm /\ io_virt io <= rsc /\
    rsc + 28 <= io_virt io + io_size io;
  vt_mapped : mapped (rw_mem w) rsc 28;
  vt_nid : ld32 (rw_mem w) (rsc + VD_notifyid) = Ok nid;
  vt_df : ld32 (rw_mem w) (rsc + VD_dfeatures) = Ok df /\ is_u32 df;
  vt_num : ld8 (rw_mem w) (rsc + VD_num_of_vrings) = Ok (zlen es);
  vt_vrings : forall j e, zget es j = Some e ->
    vring_entry (rw_mem w) (rp_mems (rw_rproc w)) rsc j e
}.

Lemma mapped_ld32 m a : mapped m a 4 -> exists v, ld32 m a = Ok v.
Proof.
  intros H. unfold ld32, ld. cbn [loadn]. unfold load8.
  destruct (H a ltac:(lia)) as [x0 ->]. destruct (H (a + 1) ltac:(lia)) as [x1 ->].
  destruct (H (a + 1 + 1) ltac:(lia)) as [x2 ->]. destruct (H (a + 1 + 1 + 1) ltac:(lia)) as [x3 ->].
  by eexists.
Qed.

(** Storing the features leaves the entries of the vrings alone. *)
Lemma vring_entry_put m mems rsc j e x :
  0 <= j -> vring_entry m mems rsc j e ->
  vring_entry (put_bytes m (rsc + VD_gfeatures) (le_bytes 4 x)) mems rsc j e.
Proof.
  intros Hj [(nid&da&num&align&H1&H2&H3&H4&H)]. split. exists nid, da, num, align.
  unfold ld32 in *. rewrite !ld_put_disjoint
    by (rewrite zlen_le_bytes; unfold VD_vring, VD_gfeatures, VR_notifyid, VR_da, VR_num, VR_align; lia).
  done.
Qed.

Lemma role_is_driver d :
  driver_enabled bld = true -> vdev_role d = VIRTIO_DEV_DRIVER -> VIRTIO_ROLE_IS_DRIVER bld d = true.
Proof.
  unfold driver_enabled, VIRTIO_ROLE_IS_DRIVER. destruct (VIRTIO_DRIVER_SUPPORT bld) as [o|]; [|done].
  intros -> ->. done.
Qed.

Lemma find_vdev_none (l : list Z) (w : world) nid :
  Forall (fun v => exists d, vh_devs (rw_rest w) !! v = Some d /\ vdev_notifyid (rpv_dev d) <> nid) l ->
  find_vdev l w nid = Ok None.
Proof.
  induction 1 as [|v l (d&Hd&Hn) _ IH]; [done|]. cbn [find_vdev]. unfold dev_get. rewrite Hd.
  cbn [mbind res_bind]. by rewrite (proj2 (Z.eqb_neq _ _) Hn).
Qed.

Lemma find_vdev_some (pre post : list Z) v d (w : world) nid :
  Forall (fun v => exists d, vh_devs (rw_rest w) !! v = Some d /\ vdev_notifyid (rpv_dev d) <> nid) pre ->
  vh_devs (rw_rest w) !! v = Some d -> vdev_notifyid (rpv_dev d) = nid ->
  find_vdev (pre ++ v :: post) w nid = Ok (Some v).
Proof.
  intros Hpre Hd <-. induction Hpre as [|u l (du&Hu&Hn) _ IH]; cbn [app find_vdev]; unfold dev_get.
  - rewrite Hd. cbn [mbind res_bind]. by rewrite Z.eqb_refl.
  - rewrite Hu. cbn [mbind res_bind]. by rewrite (proj2 (Z.eqb_neq _ _) Hn).
Qed.

Hypothesis Hbld : driver_enabled bld = true.
Hypothesis Hbell : doorbell (remoteproc_virtio_notify ops).

(** The device as [rproc_virtio_create_vdev] leaves it. *)
Lemma create_vdev_run (w : world) a nid rsc io pm cb df n :
  a <> 0 -> io_wf io pm -> io_virt io <= rsc -> rsc + 28 <= io_virt io + io_size io ->
  mapped (rw_mem w) rsc 28 -> ld32 (rw_mem w) (rsc + VD_dfeatures) = Ok df -> is_u32 df ->
  ld8 (rw_mem w) (rsc + VD_num_of_vrings) = Ok n ->
  exists w' id, rproc_virtio_create_vdev bld (remoteproc_virtio_notify ops) a true w
      VIRTIO_DEV_DRIVER nid rsc (Some io) cb = Ok (w', a) /\
    rw_rproc w' = rw_rproc w /\
    rw_mem w' = put_bytes (rw_mem w) (rsc + VD_gfeatures) (le_bytes 4 df) /\
    vh_devs (rw_rest w') = <[a := mk_rpv rsc (Some io) (mk_vdev nid 0 VIRTIO_DEV_DRIVER) id cb
                              (replicate (Z.to_nat n) zero_rvring)]> (vh_devs (rw_rest w)).
Proof.
  intros Ha Hio Hl Hh Hm Hdf Hu Hn. unfold rproc_virtio_create_vdev. rewrite Hn.
  cbn [mbind res_bind negb]. rewrite (proj2 (Z.eqb_neq _ _) Ha). cbn [orb].
  destruct (mapped_ld32 (rw_mem w) (rsc + VD_id)) as [id Hid].
  { apply (mapped_sub _ _ _ _ _ Hm); unfold VD_id; lia. }
  rewrite Hid. cbn [mbind res_bind]. rewrite Hbld. cbn [andb]. rewrite Z.eqb_refl.
  set (w1 := dev_set w a _).
  assert (Hat : dev_at w1 a rsc).
  { split; [|done]. eexists _, io, pm. split; [apply lookup_insert_eq|]. done. }
  unfold rproc_virtio_get_dfeatures. rewrite (rsc_read_run w1 a rsc) by done.
  change (Z.to_nat 4) with 4%nat. fold ld32. change (rw_mem w1) with (rw_mem w). rewrite Hdf.
  cbn [mbind res_bind].
  destruct (negotiate_run _ Hbell w1 a rsc df df Hat Hdf Hu) as (w2&E&_&_&[Hdev Hr]&Em&_);
    [unfold is_u32 in Hu; lia|].
  rewrite E. cbn [mbind res_bind]. exists w2, id. rewrite Z.land_diag in Em. done.
Qed.

Lemma setup_run (w : world) a rsc d es :
  Forall mem_wf (rp_mems (rw_rproc w)) -> vh_devs (rw_rest w) !! a = Some d ->
  rpv_vrings d = replicate (length es) zero_rvring ->
  ld8 (rw_mem w) (rsc + VD_num_of_vrings) = Ok (zlen es) ->
  (forall j e, zget es j = Some e ->
     vring_entry (rw_mem w) (rp_mems (rw_rproc w)) rsc j e) ->
  exists w', setup_vdev ops w a rsc = Ok (w', a) /\ rw_mem w' = rw_mem w /\
    rw_rproc w' = rp_set_lock (rp_set_vdevs (rw_rproc w) (rp_vdevs (rw_rproc w) ++ [a])) false /\
    vh_devs (rw_rest w') = <[a := rpv_set_vrings d es]> (vh_devs (rw_rest w)).
Proof.
  intros Hmems Hd Hv Hn He. unfold setup_vdev.
  set (w1 := rw_set_rproc w _). change (rw_mem w1) with (rw_mem w). rewrite Hn.
  cbn [mbind res_bind]. unfold zlen. rewrite Nat2Z.id.
  destruct (init_vrings_spec w1 a rsc d [] es) as (w2&E&E1&E2&E3&E4); [done..|].
  change (zlen []) with 0 in E. rewrite E. cbn [mbind res_bind]. exists (rp_release w2).
  split; [done|]. split; [done|]. split; [|done]. unfold rp_release. cbn. by rewrite E2.
Qed.

(** Up to the search for a device made before. *)
Lemma create_virtio_prefix (w : world) vdev_id rsc nid df es a cb fuel poll :
  rp_lock (rw_rproc w) = false -> vdev_table w vdev_id rsc nid df es ->
  0 <= vdev_id < RSC_NOTIFY_ID_ANY ->
  remoteproc_create_virtio bld ops true w vdev_id VIRTIO_DEV_DRIVER cb a true fuel poll =
  let w0 := rw_set_rproc w (rp_set_lock (rw_rproc w) true) in
  old ← find_vdev (rp_vdevs (rw_rproc w)) w0 nid;
  match old with
  | Some v => Ok (rp_release w0, v)
  | None =>
      '(w, v) ← rproc_virtio_create_vdev bld (remoteproc_virtio_notify ops) a true w0
                  VIRTIO_DEV_DRIVER nid rsc (rp_rsc_io (rw_rproc w)) cb;
      if v =? 0 then Ok (rp_release w, 0)
      else w ← rproc_virtio_wait_remote_ready bld fuel poll w v; setup_vdev ops w v rsc
  end.
Proof.
  intros Hlk [Ht (l&off&Hte&Hz&Hoff&Hrsc) _ _ Hnid _ _ _] Hid.
  unfold remoteproc_create_virtio. rewrite Hbld. cbn [negb andb]. rewrite andb_false_r.
  change (negb (VIRTIO_DEV_DRIVER =? VIRTIO_DEV_DEVICE)) with true.
  change (negb (VIRTIO_DEV_DRIVER =? VIRTIO_DEV_DRIVER)) with false. cbn [orb andb].
  unfold rp_acquire. rewrite Hlk. cbn [mbind res_bind]. unfold RSC_NOTIFY_ID_ANY in Hid.
  change (rw_mem (rw_set_rproc w (rp_set_lock (rw_rproc w) true))) with (rw_mem w).
  change (rp_rsc_table (rw_rproc (rw_set_rproc w (rp_set_lock (rw_rproc w) true))))
    with (rp_rsc_table (rw_rproc w)).
  rewrite u32_id, (find_rsc_spec _ _ RSC_VDEV vdev_id l Hte Ht), Hz
    by (unfold is_u32, RSC_NOTIFY_ID_ANY; lia).
  cbn [mbind res_bind from_option fst]. rewrite (proj2 (Z.eqb_neq _ _) Hoff). rewrite <- Hrsc, Hnid.
  reflexivity.
Qed.

(** The device made for a resource that has none yet. *)
Lemma create_virtio_new (w : world) vdev_id rsc nid df es a cb fuel poll :
  Forall mem_wf (rp_mems (rw_rproc w)) -> rp_lock (rw_rproc w) = false ->
  vdev_table w vdev_id rsc nid df es -> 0 <= vdev_id < RSC_NOTIFY_ID_ANY -> a <> 0 ->
  Forall (fun v => exists d, vh_devs (rw_rest w) !! v = Some d /\ vdev_notifyid (rpv_dev d) <> nid)
    (rp_vdevs (rw_rproc w)) ->
  exists w' id, remoteproc_create_virtio bld ops true w vdev_id VIRTIO_DEV_DRIVER cb a true fuel poll
      = Ok (w', a) /\
    rw_rproc w' = rp_set_vdevs (rw_rproc w) (rp_vdevs (rw_rproc w) ++ [a]) /\
    rw_mem w' = put_bytes (rw_mem w) (rsc + VD_gfeatures) (le_bytes 4 df) /\
    vh_devs (rw_rest w') = <[a := mk_rpv rsc (rp_rsc_io (rw_rproc w))
      (mk_vdev nid 0 VIRTIO_DEV_DRIVER) id cb es]> (vh_devs (rw_rest w)).
Proof.
  intros Hmems Hlk [Ht (l&off&Hte&Hz&Hoff&Hrsc) (io&pm&Hio&Hwf&Hlo&Hhi) Hmap Hnid [Hdf Hu] Hn Hve] Hid Ha Hl.
  rewrite (create_virtio_prefix w vdev_id rsc nid df es) by
    (done || by split; [done|by exists l, off|by exists io, pm|done..]).
  cbv zeta. set (w0 := rw_set_rproc w _). rewrite (find_vdev_none _ w0) by done.
  cbn [mbind res_bind]. rewrite Hio.
  destruct (create_vdev_run w0 a nid rsc io pm cb df (zlen es)) as (w1&id&E1&R1&M1&D1); [done..|].
  rewrite E1. cbn [mbind res_bind]. rewrite (proj2 (Z.eqb_neq _ _) Ha).
  unfold rproc_virtio_wait_remote_ready, dev_get. rewrite D1, lookup_insert_eq.
  cbn [mbind res_bind]. rewrite role_is_driver by done. cbn [mbind res_bind].
  unfold zlen in D1. rewrite Nat2Z.id in D1.
  destruct (setup_run w1 a rsc (mk_rpv rsc (Some io) (mk_vdev nid 0 VIRTIO_DEV_DRIVER) id cb
    (replicate (length es) zero_rvring)) es) as (w2&E2&M2&R2&D2).
  - by rewrite R1.
  - rewrite D1. apply lookup_insert_eq.
  - done.
  - rewrite M1, <- Hn. apply ld_put_disjoint. rewrite zlen_le_bytes.
    unfold VD_num_of_vrings, VD_gfeatures. lia.
  - intros j e Hj. rewrite M1, R1. pose proof (zget_Some_lt _ _ _ Hj).
    apply vring_entry_put; [lia|]. by apply Hve.
  - rewrite E2. exists w2, id. split; [done|]. split; [|split; [by rewrite M2|]].
    + rewrite R2, R1. subst w0. cbn. destruct (rw_rproc w). cbn in *. by subst.
    + rewrite D2, D1, insert_insert_eq. done.
Qed.

(** The device that was made for the resource before is returned. *)
Lemma create_virtio_again (w : world) vdev_id rsc nid df es a cb fuel poll pre v post d :
  rp_lock (rw_rproc w) = false -> vdev_table w vdev_id rsc nid df es ->
  0 <= vdev_id < RSC_NOTIFY_ID_ANY -> rp_vdevs (rw_rproc w) = pre ++ v :: post ->
  Forall (fun v => exists d, vh_devs (rw_rest w) !! v = Some d /\ vdev_notifyid (rpv_dev d) <> nid) pre ->
  vh_devs (rw_rest w) !! v = Some d -> vdev_notifyid (rpv_dev d) = nid ->
  remoteproc_create_virtio bld ops true w vdev_id VIRTIO_DEV_DRIVER cb a true fuel poll = Ok (w, v).
Proof.
  intros Hlk Htab Hid Hl Hpre Hd Hn. rewrite (create_virtio_prefix w vdev_id rsc nid df es) by done.
  cbv zeta. set (w0 := rw_set_rproc w _). rewrite Hl.
  rewrite (find_vdev_some pre post v d w0) by done. cbn [mbind res_bind]. do 2 f_equal.
  subst w0. destruct w as [m r p]. cbn in *. unfold rp_release, rw_set_rproc. cbn.
  destruct r. cbn in *. by subst.
Qed.
End create.

(** C21: In the driver role, [remoteproc_create_virtio] for a resource of the table
    makes one device: the first call returns a new device, on the list of the
    processor, with the identifier of the resource and an entry for every vring
    that gives the mapped address, the size, the alignment and the identifier the
    resource asks for, all the features of the resource are accepted, and the lock
    is free; a call when the list has a device with this identifier returns that
    device and changes nothing. *)
Theorem remoteproc_create_virtio_spec {N} (bld : build) (ops : remoteproc_ops (vheap N))
    (w : rpworld (vheap N)) (vdev_id rsc nid df : Z) (es : list rvring) (a cb : Z) (fuel : nat)
    (poll : rpworld (vheap N) -> rpworld (vheap N)) :
  driver_enabled bld = true -> doorbell (remoteproc_virtio_notify ops) ->
  Forall mem_wf (rp_mems (rw_rproc w)) -> rp_lock (rw_rproc w) = false ->
  vdev_table w vdev_id rsc nid df es -> 0 <= vdev_id < RSC_NOTIFY_ID_ANY -> a <> 0 ->
  let other v := exists d, vh_devs (rw_rest w) !! v = Some d /\ vdev_notifyid (rpv_dev d) <> nid in
  let create := remoteproc_create_virtio bld ops true w vdev_id VIRTIO_DEV_DRIVER cb a true fuel poll in
  (Forall other (rp_vdevs (rw_rproc w)) ->
   exists w' id, create = Ok (w', a) /\
     rw_rproc w' = rp_set_vdevs (rw_rproc w) (rp_vdevs (rw_rproc w) ++ [a]) /\
     rw_mem w' = put_bytes (rw_mem w) (rsc + VD_gfeatures) (le_bytes 4 df) /\
     vh_devs (rw_rest w') = <[a := mk_rpv rsc (rp_rsc_io (rw_rproc w))
       (mk_vdev nid 0 VIRTIO_DEV_DRIVER) id cb es]> (vh_devs (rw_rest w))) /\
  (forall pre v post d, rp_vdevs (rw_rproc w) = pre ++ v :: post -> Forall other pre ->
   vh_devs (rw_rest w) !! v = Some d -> vdev_notifyid (rpv_dev d) = nid -> create = Ok (w, v)).
Proof.
  intros Hbld Hbell Hmems Hlk Htab Hid Ha other create. split.
  - intros Hl. by apply create_virtio_new.
  - intros pre v post d Hl Hpre Hd Hn.
    by apply (create_virtio_again bld ops Hbld w vdev_id rsc nid df es a cb fuel poll pre v post d).
Qed.

(** A table at 1000 with one virtio resource, which has one vring. *)
Definition demo_cv_bytes : list Z :=
  le_bytes 4 1 ++ le_bytes 4 1 ++ le_bytes 8 0 ++ le_bytes 4 20 ++
  le_bytes 4 3 ++ le_bytes 4 7 ++ le_bytes 4 2 ++ le_bytes 4 5 ++ le_bytes 4 0 ++
  le_bytes 4 0 ++ [0; 1; 0; 0] ++
  (le_bytes 4 0x8100 ++ le_bytes 4 16 ++ le_bytes 4 4 ++ le_bytes 4 3 ++ le_bytes 4 0).
Definition demo_cv_io : metal_io_region := metal_io_init 1000 (Some [1000]) 200 64 0 None.
Definition demo_cv_world : rpworld (vheap unit) :=
  mk_rw (put_bytes ∅ 1000 demo_cv_bytes)
    (mk_rproc false 1000 68 (Some demo_cv_io) [demo_rmem] [] 0 0 false RPROC_READY 0)
    (mk_vh ∅ tt).
Definition demo_cv_ops : remoteproc_ops (vheap unit) :=
  mk_rpops None None None None None None None None None None.
Definition demo_cv_vring : rvring := mk_rvring None (mk_alloc 0x700100 16 4) 3 (Some demo_lin_io).

Lemma demo_vdev_table : vdev_table demo_cv_world 0 1020 2 5 [demo_cv_vring].
Proof.
  split; try (vm_compute; discriminate); try (vm_compute; reflexivity).
  - exists [(20, 3)], 20. split.
    { split; [vm_compute; reflexivity|]. intros i off ty Hi.
      pose proof (zget_Some_lt _ _ _ Hi) as Hr. unfold zlen in Hr. cbn in Hr.
      assert (i = 0) as -> by lia. injection Hi as <- <-. vm_compute. done. }
    split; [reflexivity|]. split; [discriminate|reflexivity].
  - exists demo_cv_io, [1000]. split; [reflexivity|]. split; [|vm_compute; done].
    split; try done; [by apply Forall_singleton|left; done].
  - intros i Hi. unfold demo_cv_world. cbn [rw_mem]. rewrite lookup_put.
    rewrite (proj2 (Z.leb_le _ _)) by lia. change (zlen demo_cv_bytes) with 68.
    rewrite (proj2 (Z.ltb_lt _ _)) by lia. cbn [andb].
    destruct (zget_is_Some demo_cv_bytes (i - 1000)) as [x Hx].
    { change (zlen demo_cv_bytes) with 68. lia. } by exists x.
  - split; [vm_compute; reflexivity|]. split; [lia|reflexivity].
  - intros j e Hj. pose proof (zget_Some_lt _ _ _ Hj) as Hr. unfold zlen in Hr. cbn in Hr.
    assert (j = 0) as -> by lia. injection Hj as <-. split.
    exists 3, 0x8100, 4, 16. do 4 (split; [vm_compute; reflexivity|]).
    split; [vm_compute; discriminate|]. split; [vm_compute; reflexivity|].
    exists demo_rmem, demo_lin_io, [0x40000]. split; [|split; [apply demo_rmem_ok|reflexivity]].
    exists [], []. split; [reflexivity|]. split; [constructor|]. split; vm_compute; discriminate.
Qed.

Lemma remoteproc_create_virtio_spec_witness :
  exists w' id, remoteproc_create_virtio (mk_build false (Some 1) (Some 0)) demo_cv_ops true
      demo_cv_world 0 VIRTIO_DEV_DRIVER 0 42 true 0 (fun w => w) = Ok (w', 42) /\
    vh_devs (rw_rest w') !! 42
    = Some (mk_rpv 1020 (Some demo_cv_io) (mk_vdev 2 0 VIRTIO_DEV_DRIVER) id 0 [demo_cv_vring]).
Proof.
  destruct (remoteproc_create_virtio_spec (mk_build false (Some 1) (Some 0)) demo_cv_ops demo_cv_world
    0 1020 2 5 [demo_cv_vring] 42 0 0 (fun w => w)) as [H _].
  - reflexivity.
  - intros w id. by eexists _, _.
  - exact demo_rmem_wf.
  - reflexivity.
  - exact demo_vdev_table.
  - vm_compute. done.
  - discriminate.
  - destruct H as (w'&id&E&_&_&Ed); [constructor|]. exists w', id. split; [exact E|].
    rewrite Ed. apply lookup_insert_eq.
Defined.
