(* ===== verification/RemoteprocLoad.v ===== *)
(** * Loading firmware (lib/remoteproc/remoteproc.c: remoteproc_load and
      remoteproc_load_noblock)

    The image store is the caller's: its operations are functions on the world.
    A pointer to image data is the list of the bytes from it on.  The blocks the
    ELF loader allocates hold what its information records; the copy of the
    resource table lies in the byte memory.  The ELF loader is the only loader. *)

From S2P Require Import Prelude MetalUtil MetalIo StrUtil ElfLoader Remoteproc RscTable.

(** ** Data *)

Definition SUPPORT_SEEK : Z := 1.

Section load.
Context {P : Type}.
Abbreviation world := (rpworld P).
Variable ops : remoteproc_ops P.

(** [struct image_store_ops].  [load] is given and returns the value behind the
    pointer to the image data. *)
Record image_store_ops := mk_store {
  so_open : world -> res (world * Z * option (list Z));
  so_close : world -> res world;
  so_load : world -> Z -> Z -> option (list Z) -> Z -> option metal_io_region ->
            res (world * option (list Z) * Z);
  so_features : Z
}.

(** [metal_allocate_memory] for a block of the loader and for bytes in memory (0:
    there is none), and [metal_free_memory] for these. *)
Variable elf_alloc : world -> Z -> world * bool.
Variable mem_alloc : world -> Z -> world * Z.
Variable elf_free : world -> list block -> world.
Variable mem_free : world -> Z -> world.

(** [&elf_ops] or [NULL] *)
Definition remoteproc_check_fw_format (img_data : option (list Z)) (img_len : Z) : res bool :=
  if img_len <=? 0 then Ok false
  else r ← elf_identify img_data img_len; Ok (r =? 0).

(** The address of the copy of the resource table, 0 for [NULL]. *)
Definition remoteproc_get_rsc_table (st : image_store_ops) (w : world) (offset len : Z)
  : res (world * Z) :=
  let '(w, rsc_table) := mem_alloc w len in
  if rsc_table =? 0 then Ok (w, 0)
  else
    '(w, img_data, ret) ← so_load st w offset len None RPROC_LOAD_ANYADDR None;
    match img_data with
    | Some bs =>
        if (ret <? 0) || (ret <? i32 len) then Ok (mem_free w rsc_table, 0)
        else
          data ← bytes_at bs 0 len;
          m ← storen (rw_mem w) rsc_table data;
          '(w, ret) ← handle_rsc_table ops (rw_set_mem w m) rsc_table len None;
          if ret <? 0 then Ok (mem_free w rsc_table, 0) else Ok (w, rsc_table)
    | None => Ok (mem_free w rsc_table, 0)
    end.

(** ** The loops of [remoteproc_load] *)

(** The local variables: the image data with its offset and length, the image
    information, and the state of the loader. *)
Record lvars := mk_lv {
  lv_img : option (list Z);
  lv_offset : Z;
  lv_len : Z;
  lv_info : option elf_info;
  lv_last : Z
}.

(** The loop over the headers; [inr ret] is a jump to [error2]. *)
Fixpoint header_loop (fuel : nat) (st : image_store_ops) (w : world) (l : lvars) (noffset nlen : Z)
  : res (world * lvars * (unit + Z)) :=
  match fuel with
  | O => Fault No_fuel
  | S fuel' =>
      '(h, ret) ← elf_load_header elf_alloc (lv_img l) (lv_offset l) (lv_len l) (lv_last l)
                    (mk_hs w (lv_info l) noffset nlen);
      let w := hs_alloc h in
      let noffset := hs_noffset h in
      let nlen := hs_nlen h in
      let l := mk_lv (lv_img l) (lv_offset l) (lv_len l) (hs_info h) ret in
      if ret <? 0 then Ok (w, l, inr ret)
      else if negb (Z.land ret RPROC_LOADER_READY_TO_LOAD =? 0) &&
              ((nlen =? 0) ||
               ((u64 (lv_offset l + lv_len l) <? noffset) &&
                (Z.land (so_features st) SUPPORT_SEEK =? 0))) then Ok (w, l, inl tt)
      else
        '(w, img, ret) ← so_load st w noffset nlen None RPROC_LOAD_ANYADDR None;
        let l := mk_lv img (lv_offset l) (lv_len l) (lv_info l) (lv_last l) in
        if ret <? i32 nlen then Ok (w, l, inr ret)
        else header_loop fuel' st w (mk_lv img noffset nlen (lv_info l) (lv_last l)) noffset nlen
  end.

(** The data of a segment, in target memory: the I/O region found, and the value of
    [ret] when the load fails. *)
Definition load_to_target (st : image_store_ops) (w : world) (io : option metal_io_region)
    (da noffset nlen nmemsize padding : Z)
  : res (world * option (list Z) * option metal_io_region * (unit + Z)) :=
  '(w, o) ← remoteproc_mmap ops true w (Some METAL_BAD_PHYS) (Some da) nmemsize 0 (Some io);
  let pa := from_option id METAL_BAD_PHYS (mo_pa o) in
  let io := from_option id None (mo_io o) in
  if pa =? METAL_BAD_PHYS then Ok (w, None, io, inr (- RPROC_EINVAL))
  else
    match io with
    | None => Ok (w, None, io, inr (- RPROC_EINVAL))
    | Some r =>
        '(w, img, ok) ←
          (if 0 <? nlen then
             '(w, img, ret) ← so_load st w noffset nlen None pa io;
             Ok (w, img, ret =? i32 nlen)
           else Ok (w, None, true));
        if negb ok then Ok (w, img, io, inr (- RPROC_EINVAL))
        else if nlen <? nmemsize then
          tmpoffset ← metal_io_phys_to_offset r (u64 (pa + nlen));
          '(m, _) ← metal_io_block_set r (rw_mem w) tmpoffset padding (nmemsize - nlen);
          Ok (rw_set_mem w m, img, io, inl tt)
        else Ok (w, img, io, inl tt)
    end.

(** The loop over the data; [inr ret] is a jump to [error3]. *)
Fixpoint data_loop (fuel : nat) (st : image_store_ops) (w : world) (l : lvars)
    (io : option metal_io_region) (padding : Z)
  : res (world * lvars * option metal_io_region * (unit + Z)) :=
  match fuel with
  | O => Fault No_fuel
  | S fuel' =>
      '(s, ret) ← elf_load elf_alloc (lv_img l) (lv_offset l) (lv_len l) (lv_last l)
                    (mk_ls (mk_hs w (lv_info l) 0 0) RPROC_LOAD_ANYADDR padding 0);
      let h := ls_h s in
      let w := hs_alloc h in
      let noffset := hs_noffset h in
      let nlen := hs_nlen h in
      let padding := ls_padding s in
      if ret <? 0 then
        Ok (w, mk_lv (lv_img l) (lv_offset l) (lv_len l) (hs_info h) (lv_last l), io, inr ret)
      else
        let l := mk_lv (lv_img l) (lv_offset l) (lv_len l) (hs_info h) ret in
        if negb (ls_da s =? RPROC_LOAD_ANYADDR) then
          '(w, img, io, r) ← load_to_target st w io (ls_da s) noffset nlen (ls_nmemsize s) padding;
          let l := mk_lv img (lv_offset l) (lv_len l) (lv_info l) (lv_last l) in
          match r with
          | inr ret => Ok (w, l, io, inr ret)
          | inl _ => data_loop fuel' st w l io padding
          end
        else if negb (nlen =? 0) then
          '(w, img, ret) ← so_load st w noffset nlen (lv_img l) RPROC_LOAD_ANYADDR None;
          let l := mk_lv img (lv_offset l) (lv_len l) (lv_info l) (lv_last l) in
          if ret <? i32 nlen then
            if negb (Z.land (lv_last l) RPROC_LOADER_POST_DATA_LOAD =? 0) then
              Ok (w, l, io, inl tt)
            else Ok (w, l, io, inr ret)
          else data_loop fuel' st w (mk_lv img noffset nlen (lv_info l) (lv_last l)) io padding
        else Ok (w, l, io, inl tt)
  end.

(** [locate_rsc_table], and the copy of the table when there is one: the address of
    the copy, [rsc_da], [offset] and [rsc_size]. *)
Definition locate_and_copy (st : image_store_ops) (w : world) (info : option elf_info)
    (rsc_table rsc_da offset rsc_size : Z) : res (world * (Z * Z * Z * Z)) :=
  '(rsc_da, offset, rsc_size, ret) ← elf_locate_rsc_table info rsc_da offset rsc_size;
  if (ret =? 0) && (0 <? rsc_size) then
    '(w, t) ← remoteproc_get_rsc_table st w offset rsc_size;
    Ok (w, (t, rsc_da, offset, rsc_size))
  else Ok (w, (rsc_table, rsc_da, offset, rsc_size)).

(** The update of the resource table in target memory: the copy at [cp] is written
    there and freed. *)
Definition update_rsc_table (w : world) (io : option metal_io_region) (cp rsc_da rsc_size : Z)
  : res world :=
  if cp =? 0 then Ok w
  else
    '(w, o) ← remoteproc_mmap ops true w None (Some rsc_da) rsc_size 0 (Some io);
    let io := from_option id None (mo_io o) in
    w ←
      (if negb (mo_va o =? 0) then
         match io with
         | None => Fault Out_of_bounds
         | Some r =>
             '(m, _) ← metal_io_block_write r (rw_mem w)
                         (metal_io_virt_to_offset r (mo_va o)) cp rsc_size;
             Ok (mk_rw m (rp_set_rsc (rw_rproc w) (mo_va o) rsc_size io) (rw_rest w))
         end
       else Ok w);
    Ok (mem_free w cp).

(** The exits of [remoteproc_load] after the image was opened. *)
Definition load_error (st : image_store_ops) (w : world) (info : option elf_info) (cp ret : Z)
  : res (world * Z) :=
  let w := if cp =? 0 then w else mem_free w cp in
  w ← so_close st (elf_free w (elf_release info));
  Ok (rp_release w, ret).

(** From [load executable data] on, with the copy of the resource table at [cp].
    [keep] is whether the caller asked for the image information. *)
Definition load_data_part (fuel : nat) (st : image_store_ops) (w : world) (l : lvars)
    (cp rsc_da offset rsc_size : Z) (keep : bool) : res (world * Z * option elf_info) :=
  '(w, l, io, r) ← data_loop fuel st w (mk_lv (lv_img l) 0 0 (lv_info l) (lv_last l)) None 0;
  match r with
  | inr ret => '(w, ret) ← load_error st w (lv_info l) cp ret; Ok (w, ret, None)
  | inl _ =>
      '(w, (cp, rsc_da, _, rsc_size)) ←
        (if rsc_size =? 0 then locate_and_copy st w (lv_info l) cp rsc_da (lv_offset l) rsc_size
         else Ok (w, (cp, rsc_da, offset, rsc_size)));
      w ← update_rsc_table w io cp rsc_da rsc_size;
      entry ← elf_get_entry (lv_info l);
      let w := rp_release
        (rw_set_rproc w (rp_set_state (rp_set_boot (rw_rproc w) entry) RPROC_READY)) in
      let w := if keep then w else elf_free w (elf_release (lv_info l)) in
      w ← so_close st w;
      Ok (w, 0, if keep then lv_info l else None)
  end.

(** From [load executable headers] on: the image was opened with [ret] bytes at
    hand, the loader is selected. *)
Definition load_headers_part (hfuel dfuel : nat) (st : image_store_ops) (w : world)
    (img : option (list Z)) (ret : Z) (keep : bool) : res (world * Z * option elf_info) :=
  '(w, l, r) ← header_loop hfuel st w (mk_lv img 0 ret None RPROC_LOADER_NOT_READY) 0 0;
  match r with
  | inr ret => '(w, ret) ← load_error st w (lv_info l) 0 ret; Ok (w, ret, None)
  | inl _ =>
      '(w, (cp, rsc_da, offset, rsc_size)) ←
        locate_and_copy st w (lv_info l) 0 0 (lv_offset l) 0;
      load_data_part dfuel st w l cp rsc_da offset rsc_size keep
  end.

(** [rproc] and [store_ops] are [false] and [None] for null pointers.  The result is
    the value returned and the image information handed out.  [hfuel] and [dfuel]
    bound the two loops. *)
Definition remoteproc_load (hfuel dfuel : nat) (rproc : bool) (w : world)
    (store_ops : option image_store_ops) (keep : bool) : res (world * Z * option elf_info) :=
  if negb rproc then Ok (w, - RPROC_ENODEV, None)
  else
    w ← rp_acquire w;
    let s := rp_state (rw_rproc w) in
    if negb (s =? RPROC_READY) && negb (s =? RPROC_CONFIGURED) then
      Ok (rp_release w, - RPROC_EINVAL, None)
    else
      match store_ops with
      | None => Ok (rp_release w, - RPROC_EINVAL, None)
      | Some st =>
          '(w, ret, img) ← so_open st w;
          if ret <=? 0 then Ok (rp_release w, - RPROC_EINVAL, None)
          else
            _ ← rassert (match img with Some _ => true | None => false end);
            loader ← (if rp_loader (rw_rproc w) then Ok true
                      else remoteproc_check_fw_format img ret);
            if negb loader then w ← so_close st w; Ok (rp_release w, - RPROC_EINVAL, None)
            else
              load_headers_part hfuel dfuel st
                (rw_set_rproc w (rp_set_loader (rw_rproc w) true)) img ret keep
      end.

(** ** [remoteproc_load_noblock] *)

(** The values behind the pointers of the caller: [*pa], [*io], [*noffset], [*nlen],
    [*nmlen], [*padding]. *)
Record nb_out := mk_nb {
  nb_pa : Z;
  nb_io : option metal_io_region;
  nb_noffset : Z;
  nb_nlen : Z;
  nb_nmlen : Z;
  nb_padding : Z
}.

(** What is left to do: the label [out], the label [error1] with the value of [ret],
    or the statements that follow; with the information and the state. *)
Inductive nb_next : Type :=
| Out
| Error1 (ret : Z)
| Go (last : Z).

Definition nb_state : Type := world * option elf_info * nb_out.

(** The mandatory headers. *)
Definition nb_headers (img_data : option (list Z)) (offset len last : Z) (s : nb_state)
  : res (nb_state * nb_next) :=
  let '(w, info, o) := s in
  if (Z.land last RPROC_LOADER_READY_TO_LOAD =? 0) &&
     (Z.land last RPROC_LOADER_LOAD_COMPLETE =? 0) then
    '(h, ret) ← elf_load_header elf_alloc img_data offset len last
                  (mk_hs w info (nb_noffset o) (nb_nlen o));
    let o := mk_nb (nb_pa o) (nb_io o) (hs_noffset h) (hs_nlen h) (nb_nmlen o) (nb_padding o) in
    let s := (hs_alloc h, hs_info h, o) in
    if ret <? 0 then Ok (s, Error1 ret)
    else if negb (hs_nlen h =? 0) && (Z.land ret RPROC_LOADER_READY_TO_LOAD =? 0) then Ok (s, Out)
    else Ok (s, Go ret)
  else Ok (s, Go last).

(** The next segment, and where it goes. *)
Definition nb_segment (img_data : option (list Z)) (offset len last : Z) (s : nb_state)
  : res (nb_state * nb_next) :=
  let '(w, info, o) := s in
  if negb (Z.land last RPROC_LOADER_READY_TO_LOAD =? 0) ||
     negb (Z.land last RPROC_LOADER_POST_DATA_LOAD =? 0) then
    '(l, ret) ← elf_load elf_alloc img_data offset len last
                  (mk_ls (mk_hs w info (nb_noffset o) (nb_nlen o)) RPROC_LOAD_ANYADDR
                     (nb_padding o) (nb_nmlen o));
    let h := ls_h l in
    let o := mk_nb (nb_pa o) (nb_io o) (hs_noffset h) (hs_nlen h) (ls_nmemsize l) (ls_padding l) in
    let s := (hs_alloc h, hs_info h, o) in
    if ret <? 0 then Ok (s, Error1 ret)
    else
      '(w, o, mapped) ←
        (if negb (ls_da l =? RPROC_LOAD_ANYADDR) then
           '(w, mo) ← remoteproc_mmap ops true (hs_alloc h) (Some METAL_BAD_PHYS) (Some (ls_da l))
                        (nb_nmlen o) 0 (Some (nb_io o));
           let pa := from_option id METAL_BAD_PHYS (mo_pa mo) in
           let o := mk_nb pa (from_option id None (mo_io mo)) (nb_noffset o) (nb_nlen o)
                      (nb_nmlen o) (nb_padding o) in
           Ok (w, o, negb (pa =? METAL_BAD_PHYS))
         else Ok (hs_alloc h, o, true));
      let s := (w, hs_info h, o) in
      if negb mapped then Ok (s, Error1 (- RPROC_EINVAL))
      else if negb (nb_nlen o =? 0) then Ok (s, Out)
      else Ok (s, Go ret)
  else Ok (s, Go last).

(** The resource table: [rsc_table] is its address in target memory, [lrsc] the copy. *)
Definition nb_rsc_table (s : nb_state) (rsc_da rsc_size : Z) : res (nb_state * nb_next) :=
  let '(w, info, o) := s in
  let '(w, lrsc) := mem_alloc w rsc_size in
  if lrsc =? 0 then Ok ((w, info, o), Error1 (- RPROC_ENOMEM))
  else
    '(w, mo) ← remoteproc_mmap ops true w None (Some rsc_da) rsc_size 0 (Some (nb_io o));
    let io := from_option id None (mo_io mo) in
    let o := mk_nb (nb_pa o) io (nb_noffset o) (nb_nlen o) (nb_nmlen o) (nb_padding o) in
    match io with
    | None => Ok ((mem_free w lrsc, info, o), Error1 0)
    | Some r =>
        let rsc_table := mo_va mo in
        let off := metal_io_virt_to_offset r rsc_table in
        '(m, ret) ← metal_io_block_read r (rw_mem w) off lrsc rsc_size;
        let w := rw_set_mem w m in
        if negb (ret =? i32 rsc_size) then Ok ((mem_free w lrsc, info, o), Error1 ret)
        else
          '(w, ret) ← remoteproc_parse_rsc_table ops w lrsc rsc_size;
          if ret <? 0 then Ok ((mem_free w lrsc, info, o), Error1 ret)
          else
            '(m, _) ← metal_io_block_write r (rw_mem w) off lrsc rsc_size;
            let w := mk_rw m (rp_set_rsc (rw_rproc w) rsc_table rsc_size io) (rw_rest w) in
            Ok ((mem_free w lrsc, info, o), Go 0)
    end.

(** The load is complete: the resource table and the entry point. *)
Definition nb_complete (last : Z) (s : nb_state) : res (nb_state * nb_next) :=
  let '(w, info, o) := s in
  if negb (Z.land last RPROC_LOADER_LOAD_COMPLETE =? 0) then
    '(rsc_da, _, rsc_size, ret) ← elf_locate_rsc_table info 0 0 0;
    '(s, n) ← (if (ret =? 0) && (0 <? rsc_size) then nb_rsc_table s rsc_da rsc_size
               else Ok (s, Go 0));
    match n with
    | Go _ =>
        let '(w, info, o) := s in
        entry ← elf_get_entry info;
        Ok ((rw_set_rproc w (rp_set_boot (rw_rproc w) entry), info, o), Out)
    | _ => Ok (s, n)
    end
  else Ok (s, Out).

(** The labels [out] and [error1]; [keep] is whether [img_info] is not null.  The
    last result is [*img_info], which [error1] leaves as it was. *)
Definition nb_finish (keep : bool) (old : option elf_info) (s : nb_state) (n : nb_next)
  : world * Z * nb_out * option elf_info :=
  let '(w, info, o) := s in
  match n with
  | Error1 ret => (rp_release (elf_free w (elf_release info)), ret, o, old)
  | _ =>
      if keep then (rp_release w, 0, o, info)
      else (rp_release (elf_free w (elf_release info)), 0, o, old)
  end.

Definition nb_run (img_data : option (list Z)) (offset len last : Z) (s : nb_state)
  : res (nb_state * nb_next) :=
  '(s, n) ← nb_headers img_data offset len last s;
  match n with
  | Go last =>
      '(s, n) ← nb_segment img_data offset len last s;
      match n with
      | Go last => nb_complete last s
      | _ => Ok (s, n)
      end
  | _ => Ok (s, n)
  end.

(** [img_info] is [None] for a null pointer, else the value behind it. *)
Definition remoteproc_load_noblock (rproc : bool) (w : world) (img_data : option (list Z))
    (offset len : Z) (img_info : option (option elf_info)) (o : nb_out)
  : res (world * Z * nb_out * option elf_info) :=
  let old := from_option id None img_info in
  if negb rproc then Ok (w, - RPROC_ENODEV, o, old)
  else
    w ← rp_acquire w;
    if negb (rp_state (rw_rproc w) =? RPROC_READY) then
      Ok (rp_release w, - RPROC_EINVAL, o, old)
    else
      loader ←
        (if rp_loader (rw_rproc w) then Ok true
         else
           match img_data with
           | None => Ok false
           | Some _ =>
               if negb (offset =? 0) || (len =? 0) then Ok false
               else remoteproc_check_fw_format img_data len
           end);
      if negb loader then Ok (rp_release w, - RPROC_EINVAL, o, old)
      else
        let w := rw_set_rproc w (rp_set_loader (rw_rproc w) true) in
        let last := match old with None => 0 | Some i => ei_load_state i end in
        if last <? 0 then Ok (rp_release w, - RPROC_EINVAL, o, old)
        else
          let o := mk_nb (nb_pa o) (nb_io o) (nb_noffset o) 0 (nb_nmlen o) (nb_padding o) in
          '(s, n) ← nb_run img_data offset len last (w, old, o);
          Ok (nb_finish (match img_info with Some _ => true | None => false end) old s n).
End load.

Arguments mk_store {P} _ _ _ _.
Arguments so_open {P} _ _.
Arguments so_close {P} _ _.
Arguments so_load {P} _ _ _ _ _ _ _.
Arguments so_features {P} _.
