(* ===== verification/LoadSpec.v ===== *)
(** * Loading firmware from an image store

    [remoteproc_load] reads the headers piece by piece, asks for what it misses and
    then places the segments.  For an image that the one-pass parser accepts the
    loop over the headers ends with exactly the information the parser finds, and
    the loop over the data ends with every loadable segment in target memory. *)

From S2P Require Import Prelude MetalUtil MetalIo StrUtil ElfLoader ElfSpec Remoteproc RscTable.
From S2P Require Import RemoteprocSpec RscSpec RemoteprocLoad.

(** ** The image store *)

Section store.
Context {P : Type}.
Abbreviation world := (rpworld P).

(** A store that holds the image [img], supports seeking, and hands out [first]
    bytes when it is opened: a load without a target returns the bytes asked for,
    a load with a target puts them there. *)
Record image_store (st : image_store_ops) (img : list Z) (first : Z) : Prop := {
  is_seek : Z.land (so_features st) SUPPORT_SEEK <> 0;
  is_size : zlen img < 2147483648;
  is_open : forall w : world, exists ch, bytes_at img 0 first = Ok ch /\
    so_open st w = Ok (w, first, Some ch);
  is_close : forall w : world, so_close st w = Ok w;
  is_load : forall (w : world) off n ch old, bytes_at img off n = Ok ch ->
    so_load st w off n old RPROC_LOAD_ANYADDR None = Ok (w, Some ch, n);
  is_target : forall (w : world) off n ch old pa io pm o, bytes_at img off n = Ok ch ->
    io_wf io pm -> pa <> RPROC_LOAD_ANYADDR -> metal_io_phys_to_offset io pa = Ok o ->
    0 <= o -> o + n <= io_size io -> mapped (rw_mem w) (io_virt io + o) n ->
    exists d, so_load st w off n old pa (Some io)
      = Ok (rw_set_mem w (put_bytes (rw_mem w) (io_virt io + o) ch), d, n)
}.

(** An allocator that always serves; its own state is not part of the world. *)
Definition serves (elf_alloc : world -> Z -> world * bool) : Prop :=
  forall w n, elf_alloc w n = (w, true).

Variable elf_alloc : world -> Z -> world * bool.
Hypothesis Hserves : serves elf_alloc.

Lemma alloc_ok : forall w n, (elf_alloc w n).2 = true.
Proof. intros w n. by rewrite Hserves. Qed.

(** The loading of headers does not touch the world. *)
Lemma load_table_world img o len toff tsize set i (h h' : hstate (A := world)) c :
  load_table elf_alloc img o len toff tsize set i h = Ok (h', c) -> hs_alloc h' = hs_alloc h.
Proof.
  unfold load_table. rewrite Hserves. destruct (_ || _); [by intros [= <- _]|].
  destruct (image_at _ _ _); [|done]. by intros [= <- _].
Qed.

Ltac walk H :=
  repeat match type of H with
  | mbind _ (load_table _ _ _ _ _ _ _ _ _) = Ok _ =>
      let E := fresh "E" in
      match type of H with mbind _ ?m = Ok _ =>
        destruct m as [[? []]|] eqn:E; cbn [mbind res_bind] in H; [| |discriminate H];
        apply load_table_world in E
      end
  | mbind _ ?m = Ok _ => destruct m; cbn [mbind res_bind] in H; [|discriminate H]
  | (if ?b then _ else _) = Ok _ => destruct b
  | match ?o with Some _ => _ | None => _ end = Ok _ => destruct o; [|try discriminate H]
  | Ok _ = Ok _ => injection H as <- <-
  | Fault _ = Ok _ => discriminate H
  end.

Lemma load_phdrs_world img o len (h h' : hstate (A := world)) c :
  load_phdrs elf_alloc img o len h = Ok (h', c) -> hs_alloc h' = hs_alloc h.
Proof. unfold load_phdrs. intros H. walk H; done. Qed.

Lemma load_shdrs_world img o len (h h' : hstate (A := world)) c :
  load_shdrs elf_alloc img o len h = Ok (h', c) -> hs_alloc h' = hs_alloc h.
Proof. unfold load_shdrs. intros H. walk H; done. Qed.

Lemma load_shstrtab_world img o len (h h' : hstate (A := world)) c :
  load_shstrtab elf_alloc img o len h = Ok (h', c) -> hs_alloc h' = hs_alloc h.
Proof. unfold load_shstrtab. intros H. walk H; done. Qed.

Lemma load_tables_world img o len last (h h' : hstate (A := world)) r :
  load_tables elf_alloc img o len last h = Ok (h', r) -> hs_alloc h' = hs_alloc h.
Proof.
  unfold load_tables. intros H. destruct (the_info h); cbn [mbind res_bind] in H; [|done].
  destruct (negb _); [by injection H as <- <-|].
  destruct (load_phdrs _ _ _ _ _) as [[h1 [r1|]]|] eqn:E1; cbn [mbind res_bind] in H; [| |done];
    apply load_phdrs_world in E1; [by injection H as <- <-|].
  destruct (load_shdrs _ _ _ _ _) as [[h2 [r2|]]|] eqn:E2; cbn [mbind res_bind] in H; [| |done];
    apply load_shdrs_world in E2; [injection H as <- <-; congruence|].
  destruct (load_shstrtab _ _ _ _ _) as [[h3 [r3|]]|] eqn:E3; cbn [mbind res_bind] in H; [| |done];
    apply load_shstrtab_world in E3; injection H as <- <-; congruence.
Qed.

Lemma load_header_world img o len last (h h' : hstate (A := world)) r :
  elf_load_header elf_alloc img o len last h = Ok (h', r) -> hs_alloc h' = hs_alloc h.
Proof.
  unfold elf_load_header. destruct (_ =? _); [|apply load_tables_world]. intros H.
  destruct (load_ehdr elf_alloc img len h) as [[h1 c]|] eqn:E; cbn [mbind res_bind] in H; [|done].
  assert (E1 : hs_alloc h1 = hs_alloc h).
  { unfold load_ehdr in E. destruct (elf_ehdr_size img); cbn [mbind res_bind] in E; [|done].
    destruct (_ <? _); [by injection E as <- <-|]. destruct img as [bs|]; [|done].
    destruct (elf_info_size bs); cbn [mbind res_bind] in E; [|done]. rewrite Hserves in E.
    destruct (hs_info h); (destruct (negb _); [done|]);
      (destruct (bytes_at _ _ _); cbn [mbind res_bind] in E; [|done]); by injection E as <- <-. }
  destruct c; [injection H as <- <-; done|]. apply load_tables_world in H. congruence.
Qed.

(** ** The loop over the headers *)

Variable st : image_store_ops (P := P).
Variable img : list Z.
Variable first : Z.
Hypothesis Hstore : image_store st img first.

(** The sections the loop waits for are not empty: for an empty table it would stop
    early. *)
Definition sections_filled (p : elf_parts) : Prop :=
  match ep_sh p with Some (sh, str) => 0 < tb_size sh /\ 0 < tb_size str | None => True end.

(** The rest of an iteration, after the call of [elf_load_header]. *)
Definition header_rest (fuel : nat) (l : lvars) (hr : hstate (A := world) * Z)
  : res (world * lvars * (unit + Z)) :=
  let '(h, ret) := hr in
  let w := hs_alloc h in
  let l := mk_lv (lv_img l) (lv_offset l) (lv_len l) (hs_info h) ret in
  if ret <? 0 then Ok (w, l, inr ret)
  else if negb (Z.land ret RPROC_LOADER_READY_TO_LOAD =? 0) &&
          ((hs_nlen h =? 0) ||
           ((u64 (lv_offset l + lv_len l) <? hs_noffset h) &&
            (Z.land (so_features st) SUPPORT_SEEK =? 0))) then Ok (w, l, inl tt)
  else
    '(w, img, ret) ← so_load st w (hs_noffset h) (hs_nlen h) None RPROC_LOAD_ANYADDR None;
    if ret <? i32 (hs_nlen h) then
      Ok (w, mk_lv img (lv_offset l) (lv_len l) (lv_info l) (lv_last l), inr ret)
    else header_loop elf_alloc fuel st w
           (mk_lv img (hs_noffset h) (hs_nlen h) (lv_info l) (lv_last l))
           (hs_noffset h) (hs_nlen h).

Lemma header_loop_step fuel w l no nl :
  header_loop elf_alloc (S fuel) st w l no nl
  = (hr ← elf_load_header elf_alloc (lv_img l) (lv_offset l) (lv_len l) (lv_last l)
            (mk_hs w (lv_info l) no nl);
     header_rest fuel l hr).
Proof. cbn [header_loop]. by destruct (elf_load_header _ _ _ _ _ _) as [[h r]|]. Qed.

(** A request for a part of the image is served, and the loop goes on with it. *)
Lemma header_rest_request fuel l (h : hstate (A := world)) r ch :
  0 <= r -> Z.land r RPROC_LOADER_READY_TO_LOAD = 0 \/ hs_nlen h <> 0 ->
  bytes_at img (hs_noffset h) (hs_nlen h) = Ok ch ->
  header_rest fuel l (h, r)
  = header_loop elf_alloc fuel st (hs_alloc h)
      (mk_lv (Some ch) (hs_noffset h) (hs_nlen h) (hs_info h) r) (hs_noffset h) (hs_nlen h).
Proof.
  intros Hr Hgo Hb. unfold header_rest. rewrite (proj2 (Z.ltb_ge _ _) Hr).
  rewrite (proj2 (Z.eqb_neq _ _) (is_seek _ _ _ Hstore)), andb_false_r, orb_false_r.
  replace (negb _ && _) with false.
  2: { symmetry. apply andb_false_iff. rewrite negb_false_iff, Z.eqb_eq, Z.eqb_neq. done. }
  rewrite (is_load _ _ _ Hstore _ _ _ ch) by done. cbn [mbind res_bind].
  pose proof (bytes_at_inv _ _ _ _ Hb) as (?&?&?&_). pose proof (is_size _ _ _ Hstore).
  rewrite i32_id by lia.
  by rewrite Z.ltb_irrefl.
Qed.

Lemma stage_table_det p s t t' : stage_table p s t -> stage_table p s t' -> t = t'.
Proof. destruct s; cbn; intros; subst; naive_solver. Qed.

Lemma stage_table_bytes p s t :
  parsed img p -> stage_table p s t -> bytes_at img (tb_off t) (tb_size t) = Ok (tb_bytes t).
Proof.
  intros Hp Ht. destruct s; cbn in Ht.
  - subst t. exact (pd_phdrs _ _ Hp).
  - destruct Ht as [str Ht]. pose proof (pd_sections _ _ Hp) as Hs. rewrite Ht in Hs.
    exact (sa_bytes _ _ _ _ Hs).
  - destruct Ht as [sh Ht]. pose proof (pd_sections _ _ Hp) as Hs. rewrite Ht in Hs.
    exact (sa_str_bytes _ _ _ _ Hs).
Qed.

(** Whether the loop over the headers ends with the parts of the image. *)
Definition headers_loaded (p : elf_parts) (w : world) (r : res (world * lvars * (unit + Z))) : Prop :=
  exists l, r = Ok (w, l, inl tt) /\ lv_info l = Some (info_done p) /\
    lv_last l = ei_load_state (info_done p).

Lemma header_rest_done p fuel l (h : hstate (A := world)) :
  hs_info h = Some (info_done p) -> hs_nlen h = 0 ->
  headers_loaded p (hs_alloc h) (header_rest fuel l (h, ei_load_state (info_done p))).
Proof.
  intros Hi Hn. eexists. split; [unfold header_rest; rewrite Hn; reflexivity|]. done.
Qed.

(** After a call that starts at a stage of rank [k], the table that is asked for
    contains what the next call looks for: at most [3 - k] more calls. *)
Lemma header_rest_loaded p fuel l s0 o len (h : hstate (A := world)) r :
  image_wf img -> parsed img p -> sections_filled p ->
  header_outcome p s0 o len h r -> (3 <= stage_rank s0 + fuel)%nat ->
  headers_loaded p (hs_alloc h) (header_rest fuel l (h, r)).
Proof.
  intros Hw Hp Hf. revert l s0 o len h r.
  induction fuel as [|fuel IH]; intros l s0 o len h r [(Hi&Hn&->)|(s&t&Hk&Ht&Hni&Hi&Ho&Hn&->)] Hfu.
  1,3: by apply header_rest_done.
  { exfalso. destruct s0, s; cbn in *; lia. }
  pose proof (stage_table_bytes p s t Hp Ht) as Hb. rewrite <- Ho, <- Hn in Hb.
  rewrite (header_rest_request _ _ _ _ (tb_bytes t)); [|by destruct s| |done].
  2: { destruct s; cbn in Ht; [by left|right..]; destruct Ht as [x Hx];
         unfold sections_filled in Hf; rewrite Hx in Hf; rewrite Hn; lia. }
  rewrite header_loop_step. cbn [lv_img lv_offset lv_len lv_last lv_info].
  destruct (load_tables_spec elf_alloc alloc_ok img p (hs_noffset h) (hs_nlen h) (tb_bytes t) s t
    (mk_hs (hs_alloc h) (hs_info h) (hs_noffset h) (hs_nlen h))) as (h'&r'&E&Hout); [by eauto..|].
  assert (E' : elf_load_header elf_alloc (Some (tb_bytes t)) (hs_noffset h) (hs_nlen h)
    (ei_load_state (stage_info p s)) (mk_hs (hs_alloc h) (hs_info h) (hs_noffset h) (hs_nlen h))
    = Ok (h', r')) by (rewrite <- E; by destruct s).
  rewrite E'. apply load_header_world in E'. cbn [mbind res_bind hs_alloc] in *. rewrite <- E'.
  destruct Hout as [(?&?&->)|(s'&t'&Hk'&Ht'&Hni'&Hrest)].
  - by apply header_rest_done.
  - assert (Hlt : (stage_rank s < stage_rank s')%nat).
    { destruct (decide (stage_rank s = stage_rank s')) as [Eq|]; [|lia]. destruct Hni'.
      assert (s = s') as <- by (by destruct s, s').
      rewrite (stage_table_det _ _ _ _ Ht' Ht). unfold in_chunk. lia. }
    apply (IH _ s' (hs_noffset h) (hs_nlen h)); [right; by exists s', t'|lia].
Qed.

(** The whole loop, from the chunk the store hands out when it is opened. *)
Lemma header_loop_loaded p w ch :
  image_wf img -> parse_elf img = Ok p -> sections_filled p -> 5 <= first ->
  bytes_at img 0 first = Ok ch ->
  headers_loaded p w
    (header_loop elf_alloc 5 st w (mk_lv (Some ch) 0 first None RPROC_LOADER_NOT_READY) 0 0).
Proof.
  intros Hw Hp Hf H5 Hb. apply parse_elf_inv in Hp; [|apply Hw].
  rewrite header_loop_step. cbn [lv_img lv_offset lv_len lv_last lv_info].
  destruct (load_header_init elf_alloc alloc_ok img p first ch w 0 0 Hw H5 Hb Hp)
    as (h&r&E&[(->&->&Hlt)|[Ho _]]).
  - change RPROC_LOADER_NOT_READY with ELF_STATE_INIT. rewrite E. cbn [mbind res_bind].
    destruct (pd_ehdr _ _ Hp) as (c&_&_&He).
    assert (Hz : zlen (ep_ehdr p) = sizeof_Ehdr c) by (by apply bytes_at_inv in He as (_&_&_&_&?)).
    rewrite <- Hz in He. assert (5 <= zlen (ep_ehdr p)) by lia.
    rewrite (header_rest_request _ _ _ _ (ep_ehdr p)); [|done|by left|done].
    rewrite header_loop_step. cbn [lv_img lv_offset lv_len lv_last lv_info hs_alloc hs_info hs_noffset hs_nlen].
    destruct (load_header_init elf_alloc alloc_ok img p (zlen (ep_ehdr p)) (ep_ehdr p) w 0
      (zlen (ep_ehdr p)) Hw) as (h'&r'&E'&[(_&_&?)|[Ho _]]); [done..|lia|].
    rewrite E'. apply load_header_world in E'. cbn [mbind res_bind hs_alloc] in *.
    rewrite <- E' at 1. apply (header_rest_loaded p _ _ _ _ _ _ _ Hw Hp Hf Ho). cbn. lia.
  - change RPROC_LOADER_NOT_READY with ELF_STATE_INIT. rewrite E.
    apply load_header_world in E. cbn [mbind res_bind hs_alloc] in *.
    rewrite <- E at 1. apply (header_rest_loaded p _ _ _ _ _ _ _ Hw Hp Hf Ho). cbn. lia.
Qed.

(** ** The loop over the data *)

Variable ops : remoteproc_ops P.

(** The bytes of a segment in target memory: those of the image, then zeros. *)
Definition segment_bytes (s : segment) : list Z :=
  match bytes_at img (sg_offset s) (sg_filesz s) with
  | Ok d => d ++ fill (sg_memsz s - sg_filesz s) 0
  | Fault _ => []
  end.

Definition covers_da_b (da size : Z) (m : remoteproc_mem) : bool :=
  (rm_da m <=? da) && (da + size <=? rm_da m + rm_size m).

(** Where a segment goes: the address in the region of the first memory that
    contains its range of device addresses. *)
Definition segment_va (mems : list remoteproc_mem) (s : segment) : option Z :=
  m ← List.find (covers_da_b (sg_paddr s) (sg_memsz s)) mems;
  io ← rm_io m;
  Some (io_virt io + (sg_paddr s - rm_da m)).

(** Reference: the memory with the segments in place. *)
Definition place_segment (mems : list remoteproc_mem) (m : gmap Z Z) (s : segment) : gmap Z Z :=
  match segment_va mems s with
  | Some va => put_bytes m va (segment_bytes s)
  | None => m
  end.

Definition place_segments (mems : list remoteproc_mem) (m : gmap Z Z) (l : list segment) : gmap Z Z :=
  fold_left (place_segment mems) l m.

(** A segment that can be loaded: its data is in the image, and a memory of the
    processor, mapped there, has room for it. *)
Definition segment_ok (mems : list remoteproc_mem) (m : gmap Z Z) (s : segment) : Prop :=
  0 < sg_memsz s /\ sg_filesz s <= sg_memsz s /\
  (exists d, bytes_at img (sg_offset s) (sg_filesz s) = Ok d) /\
  exists va, segment_va mems s = Some va /\ mapped m va (sg_memsz s).

Lemma find_first_covering mems da size m :
  List.find (covers_da_b da size) mems = Some m -> first_covering mems m da size.
Proof.
  induction mems as [|x mems IH]; [done|]. cbn [List.find].
  destruct (covers_da_b da size x) eqn:E.
  - intros [= <-]. exists [], mems. split_and!; try done. unfold covers_da_b in E.
    by rewrite andb_true_iff, !Z.leb_le in E.
  - intros H. destruct (IH H) as (pre&post&->&Hpre&Hc). exists (x :: pre), post.
    split_and!; try done. constructor; [|done]. intros [H1 H2]. unfold covers_da_b in E.
    by rewrite andb_false_iff, !Z.leb_gt in E; lia.
Qed.

Lemma segment_va_inv mems s va :
  Forall mem_wf mems -> segment_va mems s = Some va ->
  exists m io pm, first_covering mems m (sg_paddr s) (sg_memsz s) /\ mem_ok m io pm /\
    va = io_virt io + (sg_paddr s - rm_da m).
Proof.
  unfold segment_va. intros Hw H. destruct (List.find _ _) as [m|] eqn:E; [|done].
  apply find_first_covering in E. cbn in H. destruct (rm_io m) as [io'|] eqn:Eio; [|done].
  cbn in H. injection H as <-. pose proof E as (pre&post&Hl&_). rewrite Hl in Hw.
  apply Forall_app in Hw as [_ Hw]. apply Forall_cons_1 in Hw as [(io&pm&Hm) _].
  exists m, io, pm. split_and!; try done. rewrite (mk_io_of _ _ _ Hm) in Eio. by injection Eio as ->.
Qed.

(** One segment: the image data through the store, the rest set to zero. *)
Lemma load_to_target_run w oio s :
  Forall mem_wf (rp_mems (rw_rproc w)) -> segment_ok (rp_mems (rw_rproc w)) (rw_mem w) s ->
  exists d io, load_to_target ops st w oio (sg_paddr s) (sg_offset s) (sg_filesz s) (sg_memsz s) 0
    = Ok (rw_set_mem w (place_segment (rp_mems (rw_rproc w)) (rw_mem w) s), d, Some io, inl tt).
Proof.
  intros Hw (Hms&Hfs&[dat Hd]&va&Hva&Hmap). unfold place_segment. rewrite Hva.
  apply segment_va_inv in Hva as (m&io&pm&Hf&Hm&Eva); [|done].
  pose proof Hf as (_&_&_&_&Hc1&Hc2). pose proof (mk_size _ _ _ Hm) as Hsz.
  pose proof (mk_pa _ _ _ Hm) as Hpa. unfold METAL_BAD_PHYS in Hpa.
  unfold load_to_target. rewrite (mmap_da_run ops w Hw m io pm) by (done || lia || by right).
  cbn [mbind res_bind fmap option_fmap option_map mo_pa mo_io from_option id].
  set (o := sg_paddr s - rm_da m) in *.
  destruct (mem_translate m io pm o Hm ltac:(lia)) as (_&_&_&T&_).
  rewrite (proj2 (Z.eqb_neq (rm_pa m + o) METAL_BAD_PHYS)) by (unfold METAL_BAD_PHYS; lia).
  pose proof (bytes_at_inv _ _ _ _ Hd) as (?&?&?&_&Hz). pose proof (is_size _ _ _ Hstore).
  assert (Edat : exists d, (if 0 <? sg_filesz s then
      '(w, img0, ret) ← so_load st w (sg_offset s) (sg_filesz s) None (rm_pa m + o) (Some io);
      Ok (w, img0, ret =? i32 (sg_filesz s)) else Ok (w, None, true))
    = Ok (rw_set_mem w (put_bytes (rw_mem w) va dat), d, true)).
  { destruct (Z.ltb_spec 0 (sg_filesz s)).
    - destruct (is_target _ _ _ Hstore w (sg_offset s) (sg_filesz s) dat None (rm_pa m + o) io pm o)
        as [d E]; try done; try lia.
      + apply (mk_wf _ _ _ Hm).
      + unfold RPROC_LOAD_ANYADDR. lia.
      + rewrite <- Eva. intros i Hi. apply Hmap. lia.
      + exists d. rewrite E, <- Eva. cbn [mbind res_bind]. by rewrite i32_id, Z.eqb_refl by lia.
    - exists None. destruct dat; [by destruct w|]. unfold zlen in Hz. cbn in Hz. lia. }
  destruct Edat as [d ->]. cbn [mbind res_bind negb]. exists d, io.
  unfold segment_bytes. rewrite Hd, put_bytes_app, Hz.
  destruct (Z.ltb_spec (sg_filesz s) (sg_memsz s)).
  - rewrite u64_id by (unfold is_u64; lia). rewrite <- Z.add_assoc.
    destruct (mem_translate m io pm (o + sg_filesz s) Hm ltac:(lia)) as (_&_&_&T'&_).
    rewrite T'. cbn [mbind res_bind rw_mem rw_set_mem].
    rewrite (block_set_run io pm (mk_wf _ _ _ Hm) _ _ 0 _ (sg_memsz s - sg_filesz s));
      [|lia|done| |lia|].
    + cbn [mbind res_bind]. by rewrite Z.add_assoc, <- Eva.
    + apply (clip_fits io pm (mk_wf _ _ _ Hm)); lia.
    + apply mapped_put. rewrite Z.add_assoc, <- Eva. intros i Hi. apply Hmap. lia.
  - replace (sg_memsz s - sg_filesz s) with 0 by lia. done.
Qed.

(** The segments that are loaded keep what is mapped. *)
Lemma place_mapped mems m s a n : mapped m a n -> mapped (place_segment mems m s) a n.
Proof. unfold place_segment. destruct (segment_va mems s); [apply mapped_put|done]. Qed.

Lemma segment_ok_place mems m s s' : segment_ok mems m s' -> segment_ok mems (place_segment mems m s) s'.
Proof.
  intros (?&?&?&va&?&?). split_and!; try done. exists va. split; [done|]. by apply place_mapped.
Qed.

(** Whether the loop over the data ends with the segments [l] placed and the load
    complete. *)
Definition data_loaded (w : world) (i : elf_info) (num : Z) (l : list segment)
    (r : res (world * lvars * option metal_io_region * (unit + Z))) : Prop :=
  exists lv io, r = Ok (rw_set_mem w (place_segments (rp_mems (rw_rproc w)) (rw_mem w)
                          (List.filter loadable l)), lv, io, inl tt) /\
    lv_info lv = Some (ei_set_state i (complete_state (num mod 256))) /\ lv_offset lv = 0.

(** The call after the last segment. *)
Lemma data_loop_last fuel w i chunk n io :
  ei_load_state i = post_state n -> 0 <= n < 256 ->
  data_loop ops elf_alloc (S fuel) st w (mk_lv chunk 0 0 (Some i) (post_state n)) io 0
  = Ok (w, mk_lv chunk 0 0 (Some (ei_set_state i (complete_state n))) (complete_state n), io, inl tt).
Proof.
  intros Hst Hn. cbn [data_loop lv_img lv_offset lv_len lv_last lv_info].
  rewrite (elf_load_post elf_alloc chunk 0 0 (mk_hs w (Some i) 0 0) i n) by done.
  cbn [mbind res_bind ls_h ls_da ls_padding hs_alloc hs_nlen hs_noffset hs_info].
  rewrite (proj2 (Z.ltb_ge _ _)) by (unfold complete_state, RPROC_LOADER_LOAD_COMPLETE, ELF_STATE_HDRS_COMPLETE; lia).
  done.
Qed.

Lemma ready_nonneg num n : 0 <= after_segment ELF_STATE_HDRS_COMPLETE num n.
Proof.
  pose proof (Z.mod_pos_bound n 256 eq_refl). unfold after_segment, ready_state.
  unfold RPROC_LOADER_POST_DATA_LOAD, RPROC_LOADER_READY_TO_LOAD, ELF_STATE_HDRS_COMPLETE.
  destruct (_ =? _); lia.
Qed.

(** One turn of the loop that loads a segment. *)
Lemma data_loop_segment fuel w i segs pre l chunk io sk s l' :
  phdr_table i segs -> segs = pre ++ l -> zlen pre < 256 ->
  ei_load_state i = ready_state ELF_STATE_HDRS_COMPLETE (zlen pre) ->
  l = sk ++ s :: l' -> next_ref l (zlen pre) = (Some s, zlen pre + zlen sk + 1) ->
  sg_paddr s <> RPROC_LOAD_ANYADDR ->
  Forall mem_wf (rp_mems (rw_rproc w)) -> segment_ok (rp_mems (rw_rproc w)) (rw_mem w) s ->
  let r := after_segment ELF_STATE_HDRS_COMPLETE (zlen segs) (zlen pre + zlen sk + 1) in
  exists d io',
    data_loop ops elf_alloc (S fuel) st w
      (mk_lv chunk 0 0 (Some i) (ready_state ELF_STATE_HDRS_COMPLETE (zlen pre))) io 0
    = data_loop ops elf_alloc fuel st
        (rw_set_mem w (place_segment (rp_mems (rw_rproc w)) (rw_mem w) s))
        (mk_lv d 0 0 (Some (ei_set_state i r)) r) (Some io') 0.
Proof.
  intros Ht Hs Hpre Hst Hl Hr Hda Hw Hok r0.
  cbn [data_loop lv_img lv_offset lv_len lv_last lv_info].
  destruct (elf_load_ready elf_alloc chunk 0 0 (mk_hs w (Some i) 0 0) i segs pre l
    ELF_STATE_HDRS_COMPLETE 0 0) as (l1&r&E&Ep&Ei&Ea&Er); try done.
  { by apply list_elem_of_In; right; right; left. }
  rewrite E. cbn [mbind res_bind]. rewrite Hr in Er. destruct Er as (->&Hp).
  injection Hp as E1 E2 E3 E4. fold r0 in Ei |- *.
  assert (Hr0 : 0 <= r0) by apply ready_nonneg.
  rewrite (proj2 (Z.ltb_ge _ _) Hr0), E1, (proj2 (Z.eqb_neq _ _) Hda).
  cbn [negb]. rewrite Ea, E2, E3, E4, Ep, Ei. cbn [hs_alloc].
  destruct (load_to_target_run w io s Hw Hok) as (d&io'&E'). rewrite E'.
  cbn [mbind res_bind]. by exists d, io'.
Qed.

(** The turn that finds no segment left. *)
Lemma data_loop_none fuel w i segs pre l chunk io :
  phdr_table i segs -> segs = pre ++ l -> zlen pre < 256 ->
  ei_load_state i = ready_state ELF_STATE_HDRS_COMPLETE (zlen pre) ->
  List.filter loadable l = [] -> next_ref l (zlen pre) = (None, zlen pre + zlen l) ->
  data_loaded w i (zlen segs) l (data_loop ops elf_alloc (S fuel) st w
    (mk_lv chunk 0 0 (Some i) (ready_state ELF_STATE_HDRS_COMPLETE (zlen pre))) io 0).
Proof.
  intros Ht Hs Hpre Hst Hfl Hr. cbn [data_loop lv_img lv_offset lv_len lv_last lv_info].
  destruct (elf_load_ready elf_alloc chunk 0 0 (mk_hs w (Some i) 0 0) i segs pre l
    ELF_STATE_HDRS_COMPLETE 0 0) as (l1&r&E&Ep&Ei&Ea&Er); try done.
  { by apply list_elem_of_In; right; right; left. }
  rewrite E. cbn [mbind res_bind]. rewrite Hr in Er. destruct Er as (->&Eda&Enl).
  rewrite <- zlen_app, <- Hs in *.
  change (_ + _ + zlen segs mod 256) with (complete_state (zlen segs mod 256)) in *.
  rewrite (proj2 (Z.ltb_ge _ _)) by (pose proof (Z.mod_pos_bound (zlen segs) 256 eq_refl);
    unfold complete_state, RPROC_LOADER_LOAD_COMPLETE, ELF_STATE_HDRS_COMPLETE; lia).
  rewrite Eda, Enl, Z.eqb_refl, Ea, Ei. cbn [negb hs_alloc hs_nlen].
  eexists _, _. rewrite Hfl. split; [destruct w; reflexivity|]. done.
Qed.

Lemma data_loop_loaded fuel w i segs pre l chunk io :
  phdr_table i segs -> segs = pre ++ l -> zlen segs <= 256 -> zlen pre < 256 ->
  ei_load_state i = ready_state ELF_STATE_HDRS_COMPLETE (zlen pre) ->
  Forall mem_wf (rp_mems (rw_rproc w)) ->
  Forall (fun s => sg_paddr s <> RPROC_LOAD_ANYADDR /\
    (loadable s = true -> segment_ok (rp_mems (rw_rproc w)) (rw_mem w) s)) l ->
  (length l + 1 < fuel)%nat ->
  data_loaded w i (zlen segs) l (data_loop ops elf_alloc fuel st w
    (mk_lv chunk 0 0 (Some i) (ready_state ELF_STATE_HDRS_COMPLETE (zlen pre))) io 0).
Proof.
  revert w i pre l chunk io. induction fuel as [|fuel IH]; [intros; lia|].
  intros w i pre l chunk io Ht Hs Hnum Hpre Hst Hw Hok Hf.
  destruct (next_ref_cases l (zlen pre)) as [[Hfl Hr]|(sk&s&l'&Hl&Hr&Hfl)].
  - by apply (data_loop_none fuel w i segs pre l).
  - rewrite Hl in Hok. apply Forall_app in Hok as [_ Hok]. apply Forall_cons_1 in Hok as [[Hda Hsok] Hok].
    assert (Hld : loadable s = true).
    { assert (Hin : In s (List.filter loadable l)) by (rewrite Hfl; by left).
      by apply filter_In in Hin as [_ ?]. }
    destruct (data_loop_segment fuel w i segs pre l chunk io sk s l') as (d&io'&E); try done; [by apply Hsok|].
    rewrite E. clear E.
    assert (Hz : zlen segs = zlen pre + zlen sk + 1 + zlen l')
      by (rewrite Hs, Hl, !zlen_app, zlen_cons; lia).
    rewrite Hl, length_app in Hf. cbn [length] in Hf.
    unfold after_segment. destruct (Z.eqb_spec (zlen pre + zlen sk + 1) (zlen segs)) as [Heq|Hne].
    + assert (l' = []) as -> by (apply nil_length_inv; unfold zlen in *; lia).
      rewrite Heq. change (_ + _ + zlen segs mod 256) with (post_state (zlen segs mod 256)).
      destruct fuel as [|fuel]; [lia|].
      rewrite data_loop_last; [|done|by apply Z.mod_pos_bound].
      eexists _, _. rewrite Hfl. by split_and!.
    + assert (Hpre' : zlen pre + zlen sk + 1 = zlen (pre ++ sk ++ [s]))
        by (rewrite !zlen_app; change (zlen [s]) with 1; lia).
      pose proof (zlen_nonneg l'). rewrite Hpre' in *.
      rewrite Z.mod_small by (pose proof (zlen_nonneg (pre ++ sk ++ [s])); lia).
      destruct (IH (rw_set_mem w (place_segment (rp_mems (rw_rproc w)) (rw_mem w) s))
        (ei_set_state i (ready_state ELF_STATE_HDRS_COMPLETE (zlen (pre ++ sk ++ [s]))))
        (pre ++ sk ++ [s]) l' d (Some io')) as (lv&io2&E&H1&H2).
      * by apply phdr_table_state.
      * by rewrite Hs, Hl, <- !app_assoc.
      * done.
      * lia.
      * done.
      * done.
      * eapply list.Forall_impl; [exact Hok|]. intros x [Hx Hx']. split; [done|]. intros Hlx.
        by apply segment_ok_place, Hx'.
      * lia.
      * exists lv, io2. rewrite E, Hfl. by split_and!.
Qed.

(** ** The whole load *)

Variable mem_alloc : world -> Z -> world * Z.
Variable elf_free : world -> list block -> world.
Variable mem_free : world -> Z -> world.

Lemma locate_none i w offset :
  Z.land (ei_load_state i) ELF_STATE_HDRS_COMPLETE <> 0 ->
  elf_get_section_from_name i rsc_sect_name = Ok None ->
  locate_and_copy ops mem_alloc mem_free st w (Some i) 0 0 offset 0 = Ok (w, (0, 0, offset, 0)).
Proof.
  intros Hs Hn. unfold locate_and_copy, elf_locate_rsc_table.
  by rewrite (proj2 (Z.eqb_neq _ _) Hs), Hn.
Qed.

Lemma complete_bits n : 0 <= n < 256 -> Z.land (complete_state n) ELF_STATE_HDRS_COMPLETE <> 0.
Proof.
  intros Hn.
  assert (H : forallb (fun n => negb (Z.land (complete_state n) ELF_STATE_HDRS_COMPLETE =? 0))
    (zseq 0 256) = true) by (vm_compute; reflexivity).
  rewrite forallb_forall in H. specialize (H n).
  rewrite negb_true_iff, Z.eqb_neq in H. apply H, list_elem_of_In, elem_of_zseq. lia.
Qed.

(** The [struct remoteproc] after a load. *)
Definition loaded_rproc (r : remoteproc) (entry : Z) : remoteproc :=
  rp_set_lock (rp_set_state (rp_set_boot (rp_set_loader r true) entry) RPROC_READY) false.

(** An image that can be loaded into the memories [mems]: its parts are [p], its
    program headers [segs], the loadable ones fit, there is no resource table. *)
Record loadable_image (mems : list remoteproc_mem) (m : gmap Z Z) (p : elf_parts)
    (segs : list segment) (entry : Z) : Prop := {
  li_wf : image_wf img;
  li_magic : bytes_at img 0 SELFMAG = Ok ELFMAG;
  li_parse : parse_elf img = Ok p;
  li_filled : sections_filled p;
  li_phdrs : program_headers (info_done p) = Ok segs;
  li_num : zlen segs <= 256;
  li_segs : Forall (fun s => sg_paddr s <> RPROC_LOAD_ANYADDR /\
    (loadable s = true -> segment_ok mems m s)) segs;
  li_rsc : elf_get_section_from_name (info_done p) rsc_sect_name = Ok None;
  li_entry : elf_get_entry (Some (info_done p)) = Ok entry
}.

(** From the open headers on. *)
Lemma load_data_part_run w l p segs entry rsc_da offset keep :
  Forall mem_wf (rp_mems (rw_rproc w)) ->
  loadable_image (rp_mems (rw_rproc w)) (rw_mem w) p segs entry ->
  lv_info l = Some (info_done p) -> lv_last l = ei_load_state (info_done p) -> rsc_da = 0 ->
  let i := ei_set_state (info_done p) (complete_state (zlen segs mod 256)) in
  let w' := mk_rw (place_segments (rp_mems (rw_rproc w)) (rw_mem w) (List.filter loadable segs))
    (rp_set_lock (rp_set_state (rp_set_boot (rw_rproc w) entry) RPROC_READY) false) (rw_rest w) in
  load_data_part ops elf_alloc mem_alloc elf_free mem_free (length segs + 2) st w l 0 rsc_da offset 0 keep
  = Ok (if keep then w' else elf_free w' (elf_release (Some i)), 0, if keep then Some i else None).
Proof.
  intros Hw Hli Hi Hl -> i w'. unfold load_data_part. rewrite Hi, Hl.
  assert (Hu : Forall is_u8 (ei_ehdr (info_done p))).
  { pose proof (parse_elf_inv _ _ (proj1 (li_wf _ _ _ _ _ Hli)) (li_parse _ _ _ _ _ Hli)) as Hp.
    destruct (pd_ehdr _ _ Hp) as (c&_&_&E).
    exact (bytes_at_u8 _ _ _ _ (proj1 (li_wf _ _ _ _ _ Hli)) E). }
  destruct (data_loop_loaded (length segs + 2) w (info_done p) segs [] segs (lv_img l) None)
    as (lv&io&E&E1&E2); try done.
  - by apply program_headers_inv, (li_phdrs _ _ _ _ _ Hli).
  - apply (li_num _ _ _ _ _ Hli).
  - apply (li_segs _ _ _ _ _ Hli).
  - lia.
  - change (ei_load_state (info_done p)) with (ready_state ELF_STATE_HDRS_COMPLETE (zlen (@nil segment))).
    rewrite E. cbn [mbind res_bind]. rewrite E1, E2, Z.eqb_refl. fold i.
    rewrite (locate_none i); [|by apply complete_bits, Z.mod_pos_bound|exact (li_rsc _ _ _ _ _ Hli)].
    cbn [mbind res_bind]. unfold update_rsc_table. rewrite Z.eqb_refl. cbn [mbind res_bind].
    change (elf_get_entry (Some i)) with (elf_get_entry (Some (info_done p))).
    rewrite (li_entry _ _ _ _ _ Hli). cbn [mbind res_bind].
    by rewrite (is_close _ _ _ Hstore).
Qed.

Lemma load_headers_part_run w p segs entry ch keep :
  Forall mem_wf (rp_mems (rw_rproc w)) -> 5 <= first -> bytes_at img 0 first = Ok ch ->
  loadable_image (rp_mems (rw_rproc w)) (rw_mem w) p segs entry ->
  let i := ei_set_state (info_done p) (complete_state (zlen segs mod 256)) in
  let w' := mk_rw (place_segments (rp_mems (rw_rproc w)) (rw_mem w) (List.filter loadable segs))
    (rp_set_lock (rp_set_state (rp_set_boot (rw_rproc w) entry) RPROC_READY) false) (rw_rest w) in
  load_headers_part ops elf_alloc mem_alloc elf_free mem_free 5 (length segs + 2) st w (Some ch) first keep
  = Ok (if keep then w' else elf_free w' (elf_release (Some i)), 0, if keep then Some i else None).
Proof.
  intros Hw H5 Hb Hli i w'. unfold load_headers_part.
  destruct (header_loop_loaded p w ch) as (l&E&E1&E2); try apply Hli; try done.
  rewrite E. cbn [mbind res_bind]. rewrite E1.
  rewrite (locate_none (info_done p)) by (done || apply Hli). cbn [mbind res_bind].
  by apply load_data_part_run.
Qed.

Lemma fw_format_ok mems m p segs entry ch :
  loadable_image mems m p segs entry -> 5 <= first -> bytes_at img 0 first = Ok ch ->
  remoteproc_check_fw_format (Some ch) first = Ok true.
Proof.
  intros Hli H5 Hb. unfold remoteproc_check_fw_format, elf_identify.
  rewrite (proj2 (Z.leb_gt _ _)), (proj2 (Z.ltb_ge _ _)) by (unfold SELFMAG; lia).
  assert (Em : bytes_at ch 0 SELFMAG = Ok ELFMAG).
  { apply (bytes_at_chunk img 0 first ch 0 SELFMAG); [done|apply Hli|lia|unfold SELFMAG; lia]. }
  rewrite Em. cbn [mbind res_bind]. by rewrite decide_True.
Qed.

Lemma remoteproc_load_run w p segs entry keep :
  rp_lock (rw_rproc w) = false ->
  rp_state (rw_rproc w) = RPROC_READY \/ rp_state (rw_rproc w) = RPROC_CONFIGURED ->
  Forall mem_wf (rp_mems (rw_rproc w)) -> 5 <= first ->
  loadable_image (rp_mems (rw_rproc w)) (rw_mem w) p segs entry ->
  let i := ei_set_state (info_done p) (complete_state (zlen segs mod 256)) in
  let w' := mk_rw (place_segments (rp_mems (rw_rproc w)) (rw_mem w) (List.filter loadable segs))
    (loaded_rproc (rw_rproc w) entry) (rw_rest w) in
  remoteproc_load ops elf_alloc mem_alloc elf_free mem_free 5 (length segs + 2) true w (Some st) keep
  = Ok (if keep then w' else elf_free w' (elf_release (Some i)), 0, if keep then Some i else None).
Proof.
  intros Hlk Hst Hw H5 Hli i w'. unfold remoteproc_load, rp_acquire. rewrite Hlk.
  cbn [negb mbind res_bind]. set (w0 := rw_set_rproc w _).
  change (rp_state (rw_rproc w0)) with (rp_state (rw_rproc w)).
  replace (negb _ && _) with false by (symmetry; by destruct Hst as [-> | ->]).
  destruct (is_open _ _ _ Hstore w0) as (ch&Hb&Eo). rewrite Eo. cbn [mbind res_bind].
  rewrite (proj2 (Z.leb_gt _ _)) by lia. cbn [rassert mbind res_bind].
  rewrite (fw_format_ok _ _ _ _ _ _ Hli H5 Hb). destruct (rp_loader (rw_rproc w0));
    cbn [mbind res_bind negb]; by rewrite load_headers_part_run with (p := p) (entry := entry).
Qed.
End store.

(** C19: The loop over the headers of [remoteproc_load] computes what the one-pass
    parser of the whole image computes: for an image the parser accepts, whatever
    part of it the store hands out first (if only it shows the class of the file),
    at most five calls of the loader end the loop with the file header, the program
    headers, the section headers and the section names of the parser. *)
Theorem header_loop_parses {P} (elf_alloc : rpworld P -> Z -> rpworld P * bool)
    (st : image_store_ops) (img : list Z) (first : Z) (p : elf_parts) (w : rpworld P) (ch : list Z) :
  serves elf_alloc -> image_store st img first -> image_wf img -> parse_elf img = Ok p ->
  sections_filled p -> 5 <= first -> bytes_at img 0 first = Ok ch ->
  exists l,
    header_loop elf_alloc 5 st w (mk_lv (Some ch) 0 first None RPROC_LOADER_NOT_READY) 0 0
    = Ok (w, l, inl tt) /\
    lv_info l = Some (info_done p) /\ lv_last l = ei_load_state (info_done p).
Proof. intros Hs Hst Hw Hp Hf H5 Hb. by apply (header_loop_loaded elf_alloc Hs st img first). Qed.

(** C18: [remoteproc_load] of an image without a resource table puts every loadable
    segment, its data and the zeros after it, at its place in the memories of the
    processor, and nothing else; the processor is then ready with the entry point of
    the image as its boot address and the lock free, the call returns 0 and hands
    out the image information if it was asked for. *)
Theorem remoteproc_load_spec {P} (ops : remoteproc_ops P)
    (elf_alloc : rpworld P -> Z -> rpworld P * bool) mem_alloc elf_free mem_free
    (st : image_store_ops) (img : list Z) (first : Z) (p : elf_parts) (segs : list segment)
    (entry : Z) (w : rpworld P) (keep : bool) :
  serves elf_alloc -> image_store st img first -> 5 <= first ->
  rp_lock (rw_rproc w) = false ->
  rp_state (rw_rproc w) = RPROC_READY \/ rp_state (rw_rproc w) = RPROC_CONFIGURED ->
  Forall mem_wf (rp_mems (rw_rproc w)) ->
  loadable_image img (rp_mems (rw_rproc w)) (rw_mem w) p segs entry ->
  let i := ei_set_state (info_done p) (complete_state (zlen segs mod 256)) in
  let w' := mk_rw
    (place_segments img (rp_mems (rw_rproc w)) (rw_mem w) (List.filter loadable segs))
    (loaded_rproc (rw_rproc w) entry) (rw_rest w) in
  remoteproc_load ops elf_alloc mem_alloc elf_free mem_free 5 (length segs + 2) true w (Some st) keep
  = Ok (if keep then w' else elf_free w' (elf_release (Some i)), 0, if keep then Some i else None).
Proof.
  intros Hs Hst H5 Hl Hrs Hw Hli.
  by apply (remoteproc_load_run elf_alloc Hs st img first Hst ops).
Qed.

(** ** Witnesses *)

(** A store in memory. *)
Definition demo_store {P} (img : list Z) (first : Z) : image_store_ops (P := P) :=
  mk_store (fun w => ch ← bytes_at img 0 first; Ok (w, first, Some ch))
    (fun w => Ok w)
    (fun w off n _ pa io =>
       ch ← bytes_at img off n;
       match io with
       | None => Ok (w, Some ch, n)
       | Some r =>
           o ← metal_io_phys_to_offset r pa;
           m ← storen (rw_mem w) (io_virt r + o) ch;
           Ok (rw_set_mem w m, Some ch, n)
       end)
    SUPPORT_SEEK.

Lemma demo_store_ok {P} img first :
  zlen img < 2147483648 -> 0 <= first <= zlen img -> image_store (demo_store (P := P) img first) img first.
Proof.
  intros Hz Hf. split; cbn [demo_store so_open so_close so_load so_features].
  - done.
  - done.
  - intros w. rewrite bytes_at_ok by lia. by eexists.
  - done.
  - intros w off n ch old ->. done.
  - intros w off n ch old pa io pm o Hb _ _ Ho _ _ Hm. rewrite Hb. cbn [mbind res_bind].
    rewrite Ho. cbn [mbind res_bind]. apply bytes_at_inv in Hb as (_&_&_&_&<-).
    rewrite storen_ok by done. by eexists.
Qed.

Definition demo_elf_alloc {P} (w : rpworld P) (n : Z) : rpworld P * bool := (w, true).

Lemma header_loop_parses_witness : exists l ch,
  bytes_at demo_image 0 60 = Ok ch /\
  header_loop demo_elf_alloc 5 (demo_store demo_image 60) (demo_rpworld [demo_rmem] 0)
    (mk_lv (Some ch) 0 60 None RPROC_LOADER_NOT_READY) 0 0
  = Ok (demo_rpworld [demo_rmem] 0, l, inl tt) /\
  lv_info l = Some (info_done demo_parts) /\ lv_last l = 0x10800.
Proof.
  destruct (header_loop_parses demo_elf_alloc (demo_store demo_image 60) demo_image 60 demo_parts
    (demo_rpworld [demo_rmem] 0) (take 60 demo_image)) as (l&E&E1&E2).
  - done.
  - apply demo_store_ok; vm_compute; split; discriminate || reflexivity.
  - split; [apply all_u8; vm_compute; reflexivity|vm_compute; reflexivity].
  - vm_compute. reflexivity.
  - vm_compute. split; reflexivity.
  - lia.
  - vm_compute. reflexivity.
  - exists l, (take 60 demo_image). split; [vm_compute; reflexivity|]. by split_and!.
Defined.

(** The demonstration image with other names for its sections. *)
Definition demo_plain : list Z :=
  take 172 demo_image ++ demo_shdr 15 0 156 16 ++ demo_shdr 15 0x9000 156 16.
Definition demo_plain_parts : elf_parts :=
  match parse_elf demo_plain with Ok p => p | Fault _ => mk_parts [] (mk_table 0 0 []) None end.
Definition demo_loadw : rpworld Z :=
  mk_rw (put_bytes (put_bytes ∅ 0x700000 (fill 16 9)) 0x701000 (fill 16 9))
    (mk_rproc false 0 0 None [demo_rmem] [] 0 0 false RPROC_READY 0) 0.

Lemma demo_segment_ok off pa fs d va :
  fs <= 16 -> bytes_at demo_plain off fs = Ok d ->
  segment_va [demo_rmem] (mk_seg 1 off pa pa fs 16) = Some va -> va = 0x700000 \/ va = 0x701000 ->
  segment_ok demo_plain [demo_rmem] (rw_mem demo_loadw) (mk_seg 1 off pa pa fs 16).
Proof.
  intros H1 H2 H3 Hva. split; [cbn; lia|]. split; [exact H1|]. split; [exists d; exact H2|].
  exists va. split; [exact H3|]. unfold demo_loadw. cbn [rw_mem sg_memsz].
  destruct Hva as [-> | ->]; [apply mapped_put|]; apply has_bytes_mapped_fill; lia.
Qed.

Lemma demo_loadable :
  loadable_image demo_plain [demo_rmem] (rw_mem demo_loadw) demo_plain_parts demo_segs 0x8000.
Proof.
  split; try (vm_compute; reflexivity).
  - split; [apply all_u8; vm_compute; reflexivity|vm_compute; reflexivity].
  - vm_compute. split; reflexivity.
  - vm_compute. discriminate.
  - assert (E : demo_segs = [mk_seg 1 148 0x8000 0x8000 8 16; mk_seg 4 0 0 0 0 0;
      mk_seg 1 156 0x9000 0x9000 16 16]) by (vm_compute; reflexivity).
    rewrite E. repeat apply List.Forall_cons; [| | |apply List.Forall_nil]; (split; [discriminate|]);
      intros Hl; [|discriminate Hl|].
    + eapply demo_segment_ok; [lia|vm_compute; reflexivity|vm_compute; reflexivity|by left].
    + eapply demo_segment_ok; [lia|vm_compute; reflexivity|vm_compute; reflexivity|by right].
Qed.

Lemma remoteproc_load_spec_witness : exists w',
  remoteproc_load demo_rpops demo_elf_alloc (fun w _ => (w, 0)) (fun w _ => w) (fun w _ => w)
    5 5 true demo_loadw (Some (demo_store demo_plain 60)) false = Ok (w', 0, None) /\
  rw_mem w' = place_segments demo_plain [demo_rmem] (rw_mem demo_loadw)
    (List.filter loadable demo_segs) /\
  rp_bootaddr (rw_rproc w') = 0x8000.
Proof.
  assert (Hs : serves (demo_elf_alloc (P := Z))) by (intros w n; reflexivity).
  assert (Hst : image_store (demo_store (P := Z) demo_plain 60) demo_plain 60)
    by (apply demo_store_ok; vm_compute; split; discriminate || reflexivity).
  eexists (mk_rw (place_segments demo_plain [demo_rmem] (rw_mem demo_loadw)
    (List.filter loadable demo_segs)) (loaded_rproc (rw_rproc demo_loadw) 0x8000) 0).
  split; [|split; reflexivity].
  exact (remoteproc_load_spec demo_rpops demo_elf_alloc (fun w _ => (w, 0)) (fun w _ => w)
    (fun w _ => w) (demo_store demo_plain 60) demo_plain 60 demo_plain_parts demo_segs 0x8000
    demo_loadw false Hs Hst (proj1 (Z.leb_le 5 60) eq_refl) eq_refl (or_introl eq_refl)
    demo_rmem_wf demo_loadable).
Defined.
