(* ===== verification/MetalMutex.v ===== *)
(** * The mutex of the Linux port (lib/system/linux/mutex.h)

    A lock word and the futex of the kernel.  The atomic operations are the steps:
    a thread is a point in the code of [__metal_mutex_acquire] or
    [__metal_mutex_release], and the threads interleave at every step.  Of the
    kernel the model has what futex(2) promises: a wait sleeps only if the word has
    the expected value, a wake wakes one sleeper if there is one, and a sleeper may
    wake up without cause.  Elsewhere in the library a mutex is a flag; this file
    shows that the code provides it. *)

From S2P Require Import Prelude.

(** ** The code *)

(** [atomic_compare_exchange_strong(&v, &exp, val)]: the word, [exp], the result. *)
Definition compare_exchange (v exp val : Z) : Z * Z * bool :=
  if v =? exp then (val, exp, true) else (v, v, false).

(** [atomic_exchange(&v, val)]: the word and the result. *)
Definition exchange (v val : Z) : Z * Z := (val, v).

(** The points of the code between two atomic operations or system calls. *)
Inductive point : Type :=
| Idle                      (** outside the lock *)
| Try_cas                   (** in [__metal_mutex_try_acquire] *)
| Acq_cas                   (** before the compare-exchange of [acquire] *)
| Acq_mark (c : Z)          (** at [if (c != 2)] *)
| Acq_test (c : Z)          (** at [while (c != 0)] *)
| Acq_wait                  (** before [FUTEX_WAIT] *)
| Asleep                    (** in [FUTEX_WAIT] *)
| Acq_again                 (** before the exchange of the loop *)
| Owner                     (** [acquire] returned *)
| Rel_sub                   (** before the subtraction of [release] *)
| Rel_store                 (** before the store of [release] *)
| Rel_wake.                 (** before [FUTEX_WAKE] *)

#[global] Instance point_eq_dec : EqDecision point.
Proof. solve_decision. Defined.

Definition METAL_MUTEX_INIT : Z := 0.

(** [__metal_mutex_cmpxchg] returns the value found. *)
Definition metal_mutex_cmpxchg (v exp val : Z) : Z * Z :=
  let '(v, exp, _) := compare_exchange v exp val in (v, exp).

Definition metal_mutex_is_acquired (v : Z) : Z := v.

(** One step of [__metal_mutex_try_acquire]. *)
Definition try_acquire_step (v : Z) : Z * point :=
  let '(v, _, ok) := compare_exchange v 0 1 in
  (v, if (ok : bool) then Owner else Idle).

(** One step of [__metal_mutex_acquire]: the word and the next point. *)
Definition acquire_step (v : Z) (p : point) : option (Z * point) :=
  match p with
  | Acq_cas =>
      let '(v, c, ok) := compare_exchange v 0 1 in
      Some (v, if (ok : bool) then Owner else Acq_mark c)
  | Acq_mark c =>
      if negb (c =? 2) then let '(v, c) := exchange v 2 in Some (v, Acq_test c)
      else Some (v, Acq_test c)
  | Acq_test c => Some (v, if negb (c =? 0) then Acq_wait else Owner)
  | Acq_wait => Some (v, if v =? 2 then Asleep else Acq_again)
  | Acq_again => let '(v, c) := exchange v 2 in Some (v, Acq_test c)
  | _ => None
  end.

(** One step of [__metal_mutex_release], up to the wake. *)
Definition release_step (v : Z) (p : point) : option (Z * point) :=
  match p with
  | Rel_sub => Some (i32 (v - 1), if negb (v =? 1) then Rel_store else Idle)
  | Rel_store => Some (0, Rel_wake)
  | _ => None
  end.

Definition mutex_step (v : Z) (p : point) : option (Z * point) :=
  match p with
  | Try_cas => Some (try_acquire_step v)
  | Rel_sub | Rel_store => release_step v p
  | _ => acquire_step v p
  end.

(** ** The threads *)

Record msys := mk_msys {
  ms_v : Z;
  ms_pts : list point
}.

(** A thread calls, runs a step of its code, wakes another, or wakes up. *)
Inductive mstep : msys -> msys -> Prop :=
| Step_call s i c :
    ms_pts s !! i = Some Idle -> c = Acq_cas \/ c = Try_cas ->
    mstep s (mk_msys (ms_v s) (<[i := c]> (ms_pts s)))
| Step_release s i :
    ms_pts s !! i = Some Owner ->
    mstep s (mk_msys (ms_v s) (<[i := Rel_sub]> (ms_pts s)))
| Step_code s i p v' p' :
    ms_pts s !! i = Some p -> mutex_step (ms_v s) p = Some (v', p') ->
    mstep s (mk_msys v' (<[i := p']> (ms_pts s)))
| Step_wake s i j :
    ms_pts s !! i = Some Rel_wake -> ms_pts s !! j = Some Asleep ->
    mstep s (mk_msys (ms_v s) (<[i := Idle]> (<[j := Acq_again]> (ms_pts s))))
| Step_wake_none s i :
    ms_pts s !! i = Some Rel_wake -> ~ In Asleep (ms_pts s) ->
    mstep s (mk_msys (ms_v s) (<[i := Idle]> (ms_pts s)))
| Step_spurious s j :
    ms_pts s !! j = Some Asleep ->
    mstep s (mk_msys (ms_v s) (<[j := Acq_again]> (ms_pts s))).

Definition minit (n : nat) : msys := mk_msys METAL_MUTEX_INIT (replicate n Idle).

(** ** The invariant *)

(** The points at which a thread has the lock. *)
Definition holds_lock (p : point) : bool :=
  match p with
  | Owner | Rel_sub | Rel_store => true
  | Acq_test c => c =? 0
  | _ => false
  end.

(** The points from which a thread is bound to mark the word as contended again,
    or to wake a sleeper. *)
Definition stirring (p : point) : bool :=
  match p with
  | Acq_mark _ | Acq_wait | Acq_again | Rel_store | Rel_wake => true
  | Acq_test c => negb (c =? 0)
  | _ => false
  end.

Definition has (f : point -> bool) (s : msys) : Prop :=
  exists i p, ms_pts s !! i = Some p /\ f p = true.

Definition asleep (p : point) : bool := match p with Asleep => true | _ => false end.

(** A failed compare-exchange saw a word that is not zero. *)
Definition point_ok (p : point) : Prop := match p with Acq_mark c => c <> 0 | _ => True end.

Record minv (s : msys) : Prop := {
  mi_range : ms_v s = 0 \/ ms_v s = 1 \/ ms_v s = 2;
  mi_points : forall i p, ms_pts s !! i = Some p -> point_ok p;
  mi_one : forall i j p q, ms_pts s !! i = Some p -> ms_pts s !! j = Some q ->
    holds_lock p = true -> holds_lock q = true -> i = j;
  mi_word : ms_v s <> 0 <-> has holds_lock s;
  mi_sleep : has asleep s -> ms_v s = 2 \/ has stirring s
}.

(** What the change of one thread from [p] to [p'] and of the word from [v] to [v']
    must respect. *)
Record change_ok (v v' : Z) (p p' : point) : Prop := {
  co_range : v' = 0 \/ v' = 1 \/ v' = 2;
  co_point : point_ok p';
  co_take : holds_lock p' = true -> holds_lock p = true \/ v = 0;
  co_free : v' = 0 -> holds_lock p' = false /\ (holds_lock p = true \/ v = 0);
  co_held : v' <> 0 -> holds_lock p' = true \/ (v <> 0 /\ holds_lock p = false);
  co_sleep : asleep p' = true -> v' = 2;
  co_word : v = 2 -> v' = 2 \/ stirring p' = true
}.

Lemma has_set f s i p' v' :
  (i < length (ms_pts s))%nat -> f p' = true -> has f (mk_msys v' (<[i := p']> (ms_pts s))).
Proof. intros Hi Hf. exists i, p'. cbn. by rewrite list_lookup_insert_eq. Qed.

(** A thread with the property in the new state: the changed one, or one of before. *)
Lemma has_cases f s i p' v' :
  has f (mk_msys v' (<[i := p']> (ms_pts s))) ->
  f p' = true \/ exists j p, j <> i /\ ms_pts s !! j = Some p /\ f p = true.
Proof.
  intros (j&q&Hj&Hf). cbn in Hj. apply list_lookup_insert_Some in Hj as [(->&->&_)|[Hne Hj]].
  - by left.
  - right. by exists j, q.
Qed.

Lemma has_other f s i j p p' v' :
  ms_pts s !! j = Some p -> f p = true -> j <> i -> has f (mk_msys v' (<[i := p']> (ms_pts s))).
Proof. intros Hj Hf Hne. exists j, p. cbn. by rewrite list_lookup_insert_ne. Qed.

Lemma minv_change s i p v' p' :
  minv s -> ms_pts s !! i = Some p -> change_ok (ms_v s) v' p p' ->
  (stirring p = true -> v' = 2 \/ has stirring (mk_msys v' (<[i := p']> (ms_pts s))) \/
    ~ has asleep (mk_msys v' (<[i := p']> (ms_pts s)))) ->
  minv (mk_msys v' (<[i := p']> (ms_pts s))).
Proof.
  intros [Hr Hp Ho Hw Hs] Hi [Cr Cp Ct Cf Ch Cs Cw] Hst. pose proof (lookup_lt_Some _ _ _ Hi) as Hlt.
  split; cbn [ms_v ms_pts].
  - done.
  - intros j q Hj. apply list_lookup_insert_Some in Hj as [(_&->&_)|[_ Hj]]; [done|by eapply Hp].
  - assert (Hnew : forall j q, j <> i -> ms_pts s !! j = Some q -> holds_lock q = true ->
      holds_lock p' = true -> False).
    { intros j q Hne Hj Hq Hp'. destruct (Ct Hp') as [Hpi|Hv]; [by apply Hne, (Ho j i q p)|].
      apply (proj2 Hw); [by exists j, q|done]. }
    intros j k q q' Hj Hk Hq Hq'.
    apply list_lookup_insert_Some in Hj as [(->&->&_)|[Hnj Hj]];
      apply list_lookup_insert_Some in Hk as [(->&->&_)|[Hnk Hk]]; [done| | |by apply (Ho j k q q')].
    + destruct (Hnew k q'); done.
    + destruct (Hnew j q); done.
  - split.
    + intros Hv. destruct (Ch Hv) as [Hp'|[Hv0 Hpf]]; [by apply has_set|].
      destruct (proj1 Hw Hv0) as (j&q&Hj&Hq). apply (has_other _ s i j q); [done..|].
      intros ->. congruence.
    + intros Hh Hv. destruct (Cf Hv) as [Hp' Hold]. apply has_cases in Hh as [?|(j&q&Hne&Hj&Hq)]; [congruence|].
      destruct Hold as [Hpi|Hv0]; [by apply Hne, (Ho j i q p)|].
      apply (proj2 Hw); [by exists j, q|done].
  - intros Ha. pose proof Ha as Ha0. apply has_cases in Ha as [Hp'|(j&q&Hne&Hj&Hq)]; [left; by apply Cs|].
    destruct Hs as [Hv|(k&r&Hk&Hr')]; [by exists j, q| |].
    + destruct (Cw Hv); [by left|right]. by apply has_set.
    + destruct (decide (k = i)) as [->|Hki]; [|right; by apply (has_other _ s i k r)].
      rewrite Hi in Hk. injection Hk as ->. destruct (Hst Hr') as [?|[?|?]]; [by left|by right|done].
Qed.

(** A thread that has the lock finds the word set. *)
Lemma holder_word s i p : minv s -> ms_pts s !! i = Some p -> holds_lock p = true ->
  ms_v s = 1 \/ ms_v s = 2.
Proof.
  intros Hs Hi Hp. destruct (mi_range _ Hs) as [H0|[|]]; [|by left|by right].
  exfalso. apply (proj2 (mi_word _ Hs)); [by exists i, p|done].
Qed.

Ltac change_cases :=
  split; cbn [holds_lock stirring asleep point_ok]; intros; subst; try done; auto; try lia; try congruence.

Lemma acquire_step_ok s i p v' p' :
  minv s -> ms_pts s !! i = Some p -> acquire_step (ms_v s) p = Some (v', p') ->
  change_ok (ms_v s) v' p p' /\ (stirring p = true -> v' = 2 \/ stirring p' = true).
Proof.
  intros Hs Hi E. pose proof (mi_range _ Hs) as Hr. pose proof (mi_points _ Hs _ _ Hi) as Hok.
  destruct p as [| | |c|c| | | | | | |]; cbn in E; try done.
  - unfold compare_exchange in E. destruct (Z.eqb_spec (ms_v s) 0) as [Hv|Hv]; injection E as <- <-;
      (split; [|done]); rewrite ?Hv; change_cases.
  - cbn in Hok. destruct (Z.eqb_spec c 2) as [->|Hc]; injection E as <- <-; (split; [|auto]).
    + change_cases.
    + change_cases; destruct (Z.eqb_spec (ms_v s) 0); auto.
  - destruct (Z.eqb_spec c 0) as [->|Hc]; injection E as <- <-.
    + pose proof (holder_word s i _ Hs Hi eq_refl). split; [change_cases|done].
    + split; [|auto]. rewrite <- Z.eqb_neq in Hc. change_cases. all: rewrite Hc; auto.
  - destruct (Z.eqb_spec (ms_v s) 2) as [Hv|Hv]; injection E as <- <-; (split; [change_cases|auto]).
  - injection E as <- <-. split; [|auto]. change_cases; destruct (Z.eqb_spec (ms_v s) 0); auto.
Qed.

Lemma mutex_step_ok s i p v' p' :
  minv s -> ms_pts s !! i = Some p -> mutex_step (ms_v s) p = Some (v', p') ->
  change_ok (ms_v s) v' p p' /\ (stirring p = true -> v' = 2 \/ stirring p' = true).
Proof.
  intros Hs Hi E. pose proof (mi_range _ Hs) as Hr.
  destruct p as [| | |c|c| | | | | | |]; try (by apply (acquire_step_ok s i)); cbn in E.
  - unfold try_acquire_step, compare_exchange in E.
    destruct (Z.eqb_spec (ms_v s) 0) as [Hv|Hv]; injection E as <- <-; (split; [|done]);
      rewrite ?Hv; change_cases.
  - destruct (holder_word s i _ Hs Hi eq_refl) as [Hv|Hv]; rewrite Hv in *; injection E as <- <-;
      (split; [|done]); split; cbn; auto; try done.
  - injection E as <- <-. split; [|auto]. change_cases.
Qed.

Lemma change_same v p p' :
  v = 0 \/ v = 1 \/ v = 2 -> point_ok p' -> holds_lock p' = holds_lock p -> asleep p' = false ->
  (holds_lock p = true -> v <> 0) -> change_ok v v p p'.
Proof.
  intros Hr Hp Hh Ha Hv. split; try done; rewrite ?Hh; auto.
  - intros ->. split; [|by right]. destruct (holds_lock p); [|done]. by destruct Hv.
  - intros Hn. destruct (holds_lock p); auto.
  - rewrite Ha. done.
Qed.

(** The change of one thread that leaves the word alone. *)
Lemma minv_point s i p p' :
  minv s -> ms_pts s !! i = Some p -> point_ok p' -> holds_lock p' = holds_lock p ->
  asleep p' = false ->
  (stirring p = true -> has stirring (mk_msys (ms_v s) (<[i := p']> (ms_pts s))) \/
    ~ has asleep (mk_msys (ms_v s) (<[i := p']> (ms_pts s)))) ->
  minv (mk_msys (ms_v s) (<[i := p']> (ms_pts s))).
Proof.
  intros Hs Hi Hp Hh Ha Hst. apply (minv_change s i p); [done..| |auto].
  apply change_same; try done; [apply (mi_range _ Hs)|].
  intros Hl. destruct (holder_word s i p Hs Hi Hl); lia.
Qed.

Lemma minv_wake_up s j : minv s -> ms_pts s !! j = Some Asleep ->
  minv (mk_msys (ms_v s) (<[j := Acq_again]> (ms_pts s))).
Proof. intros Hs Hj. by apply (minv_point s j Asleep). Qed.

Lemma minv_step s s' : mstep s s' -> minv s -> minv s'.
Proof.
  intros Hstep Hs. destruct Hstep as [s i c Hi Hc|s i Hi|s i p v' p' Hi E|s i j Hi Hj|s i Hi Hn|s j Hj].
  - by destruct Hc as [-> | ->]; apply (minv_point s i Idle).
  - by apply (minv_point s i Owner).
  - destruct (mutex_step_ok s i p v' p' Hs Hi E) as [Hc Hst]. apply (minv_change s i p); [done..|].
    intros Hp. destruct (Hst Hp); [by left|right; left]. apply has_set; [|done].
    by apply lookup_lt_Some in Hi.
  - assert (Hne : j <> i) by congruence.
    apply (minv_point (mk_msys (ms_v s) (<[j := Acq_again]> (ms_pts s))) i Rel_wake); try done.
    + by apply minv_wake_up.
    + cbn [ms_pts]. transitivity (ms_pts s !! i); [by apply list_lookup_insert_ne|done].
    + intros _. left. apply (has_other _ (mk_msys (ms_v s) (<[j := Acq_again]> (ms_pts s))) i j Acq_again);
        [|done..]. cbn [ms_pts]. apply list_lookup_insert_eq. by apply lookup_lt_Some in Hj.
  - apply (minv_point s i Rel_wake); try done. intros _. right.
    intros Ha. apply has_cases in Ha as [?|(k&q&_&Hk&Hq)]; [done|]. destruct q; try done.
    apply Hn, list_elem_of_In. by eapply list_elem_of_lookup_2.
  - by apply minv_wake_up.
Qed.

Lemma minv_init n : minv (minit n).
Proof.
  assert (Hi : forall i p, ms_pts (minit n) !! i = Some p -> p = Idle)
    by (intros i p Hip; cbn in Hip; by apply lookup_replicate in Hip as [-> _]).
  split.
  - by left.
  - intros i p Hp. by rewrite (Hi _ _ Hp).
  - intros i j p q Hp _ Hl. by rewrite (Hi _ _ Hp) in Hl.
  - split; [done|]. intros (i&p&Hp&Hl). by rewrite (Hi _ _ Hp) in Hl.
  - intros (i&p&Hp&Hl). by rewrite (Hi _ _ Hp) in Hl.
Qed.

Lemma minv_reachable n s : rtc mstep (minit n) s -> minv s.
Proof.
  intros H. remember (minit n) as s0 eqn:E. assert (H0 : minv s0) by (subst; apply minv_init).
  clear E. induction H as [|s0 s1 s Hstep _ IH]; [done|]. by apply IH, (minv_step s0).
Qed.

(** ** The theorem *)

(** C27: In every state that any number of threads can reach by any interleaving of
    their atomic operations, at most one thread has the lock and the lock word tells
    whether one has it.  No wake-up is lost: while a thread sleeps, a thread that is
    awake is inside [acquire] or [release] and will mark the word or wake a sleeper,
    or the lock is held and its word is 2, so that the release of its owner takes
    the path that wakes a sleeper. *)
Theorem metal_mutex_safe (n : nat) (s : msys) :
  rtc mstep (minit n) s ->
  (forall i j, ms_pts s !! i = Some Owner -> ms_pts s !! j = Some Owner -> i = j) /\
  (metal_mutex_is_acquired (ms_v s) <> 0 <-> has holds_lock s) /\
  (forall i, ms_pts s !! i = Some Asleep ->
   has stirring s \/
   (has holds_lock s /\ ms_v s = 2 /\ release_step (ms_v s) Rel_sub = Some (1, Rel_store))).
Proof.
  intros H. apply minv_reachable in H as [Hr Hp Ho Hw Hs]. split_and!.
  - intros i j Hi Hj. by apply (Ho i j Owner Owner).
  - exact Hw.
  - intros i Hi. destruct Hs as [Hv|Hst]; [by exists i, Asleep| |by left].
    right. split_and!; [apply Hw; lia|done|by rewrite Hv].
Qed.

(** Two threads: the first has the lock, the second goes to sleep. *)
Definition demo_msys : msys := mk_msys 2 [Owner; Asleep].

Lemma demo_mrun : rtc mstep (minit 2) demo_msys.
Proof.
  apply (rtc_l _ _ (mk_msys 0 [Acq_cas; Idle])).
  { apply (Step_call (minit 2) 0 Acq_cas); [reflexivity|by left]. }
  apply (rtc_l _ _ (mk_msys 1 [Owner; Idle])).
  { by apply (Step_code (mk_msys 0 [Acq_cas; Idle]) 0 Acq_cas 1 Owner). }
  apply (rtc_l _ _ (mk_msys 1 [Owner; Acq_cas])).
  { apply (Step_call (mk_msys 1 [Owner; Idle]) 1 Acq_cas); [reflexivity|by left]. }
  apply (rtc_l _ _ (mk_msys 1 [Owner; Acq_mark 1])).
  { by apply (Step_code (mk_msys 1 [Owner; Acq_cas]) 1 Acq_cas 1 (Acq_mark 1)). }
  apply (rtc_l _ _ (mk_msys 2 [Owner; Acq_test 1])).
  { by apply (Step_code (mk_msys 1 [Owner; Acq_mark 1]) 1 (Acq_mark 1) 2 (Acq_test 1)). }
  apply (rtc_l _ _ (mk_msys 2 [Owner; Acq_wait])).
  { by apply (Step_code (mk_msys 2 [Owner; Acq_test 1]) 1 (Acq_test 1) 2 Acq_wait). }
  apply rtc_once. by apply (Step_code (mk_msys 2 [Owner; Acq_wait]) 1 Acq_wait 2 Asleep).
Qed.

Lemma metal_mutex_safe_witness :
  has stirring demo_msys \/
  (has holds_lock demo_msys /\ ms_v demo_msys = 2 /\ release_step 2 Rel_sub = Some (1, Rel_store)).
Proof.
  destruct (metal_mutex_safe 2 demo_msys demo_mrun) as (_&_&H). exact (H 1%nat eq_refl).
Defined.
