(* ===== verification/MetalIrq.v ===== *)
(** * Interrupts of libmetal (lib/irq.c, lib/softirq.c, lib/irq_controller.h)

    The controllers are objects known by their addresses; the list of registered
    controllers is the sequence its nodes form.  A function pointer is an address,
    0 for [NULL]; the calls through the pointers of a platform are parameters.  The
    software interrupts are a controller of their own. *)

From S2P Require Import Prelude.

(** ** Data *)

Definition METAL_IRQ_ANY : Z := -1.
Definition METAL_IRQ_DISABLE : Z := 0.
Definition METAL_IRQ_ENABLE : Z := 1.
Definition METAL_IRQ_NOT_HANDLED : Z := 0.
Definition METAL_SOFTIRQ_NUM : Z := 64.

Record metal_irq := mk_irq {
  irq_hd : Z;
  irq_arg : Z
}.

(** [ic_irqs] is [None] for a null pointer. *)
Record metal_irq_controller := mk_cntr {
  ic_base : Z;
  ic_num : Z;
  ic_arg : Z;
  ic_set_enable : Z;
  ic_register : Z;
  ic_irqs : option (list metal_irq)
}.

Definition ic_set_base (c : metal_irq_controller) (b : Z) : metal_irq_controller :=
  mk_cntr b (ic_num c) (ic_arg c) (ic_set_enable c) (ic_register c) (ic_irqs c).
Definition ic_set_irqs (c : metal_irq_controller) (l : list metal_irq) : metal_irq_controller :=
  mk_cntr (ic_base c) (ic_num c) (ic_arg c) (ic_set_enable c) (ic_register c) (Some l).

(** The static variables of irq.c and softirq.c, the controllers, and the rest of
    the program's state. *)
Record iworld (E : Type) := mk_iw {
  iw_cntrs : list Z;
  iw_heap : gmap Z metal_irq_controller;
  iw_avail : Z;
  iw_pending : list Z;
  iw_enabled : list Z;
  iw_env : E
}.
Arguments mk_iw {E} _ _ _ _ _ _.
Arguments iw_cntrs {E} _.
Arguments iw_heap {E} _.
Arguments iw_avail {E} _.
Arguments iw_pending {E} _.
Arguments iw_enabled {E} _.
Arguments iw_env {E} _.

Section irq.
Context {E : Type}.
Abbreviation world := (iworld E).

Definition iw_set_cntrs (w : world) (l : list Z) (h : gmap Z metal_irq_controller) : world :=
  mk_iw l h (iw_avail w) (iw_pending w) (iw_enabled w) (iw_env w).
Definition iw_set_avail (w : world) (n : Z) : world :=
  mk_iw (iw_cntrs w) (iw_heap w) n (iw_pending w) (iw_enabled w) (iw_env w).
Definition iw_set_pending (w : world) (l : list Z) : world :=
  mk_iw (iw_cntrs w) (iw_heap w) (iw_avail w) l (iw_enabled w) (iw_env w).
Definition iw_set_enabled (w : world) (l : list Z) : world :=
  mk_iw (iw_cntrs w) (iw_heap w) (iw_avail w) (iw_pending w) l (iw_env w).

(** The address of [metal_softirq_cntr] and of [metal_softirq_set_enable]; the
    functions of other controllers; the handlers. *)
Variables metal_softirq_cntr soft_set_enable : Z.
Variable cntr_set_enable : Z -> world -> Z -> Z -> Z -> res world.
Variable cntr_register : Z -> world -> Z -> Z -> Z -> Z -> res (world * Z).
Variable call_handler : Z -> world -> Z -> Z -> res (world * Z).

Definition get_cntr (w : world) (a : Z) : res metal_irq_controller :=
  match iw_heap w !! a with Some c => Ok c | None => Fault Out_of_bounds end.

(** ** Controllers *)

(** The [metal_list_for_each] of [metal_irq_allocate]. *)
Fixpoint irq_allocate_loop (l : list Z) (w : world) (irq_base irq_num irq_tocheck irq_end_tocheck : Z)
  : res Z :=
  match l with
  | [] => Ok irq_tocheck
  | a :: l' =>
      c ← get_cntr w a;
      let cntr_irq_base := ic_base c in
      cntr_irq_end ← iadd cntr_irq_base (ic_num c);
      if (irq_tocheck <? cntr_irq_end) && (cntr_irq_base <? irq_end_tocheck) then
        if negb (irq_base =? METAL_IRQ_ANY) then Ok METAL_IRQ_ANY
        else
          irq_end_tocheck ← iadd cntr_irq_end irq_num;
          irq_allocate_loop l' w irq_base irq_num cntr_irq_end irq_end_tocheck
      else irq_allocate_loop l' w irq_base irq_num irq_tocheck irq_end_tocheck
  end.

Definition metal_irq_allocate (w : world) (irq_base irq_num : Z) : res Z :=
  if irq_num =? 0 then Ok METAL_IRQ_ANY
  else
    let irq_tocheck := if irq_base =? METAL_IRQ_ANY then 0 else irq_base in
    irq_end_tocheck ← iadd irq_tocheck irq_num;
    irq_allocate_loop (iw_cntrs w) w irq_base irq_num irq_tocheck irq_end_tocheck.

Definition metal_irq_register_controller (w : world) (cntr : Z) : res (world * Z) :=
  if cntr =? 0 then Ok (w, - EINVAL)
  else if existsb (Z.eqb cntr) (iw_cntrs w) then Ok (w, 0)
  else
    c ← get_cntr w cntr;
    irq_base ← metal_irq_allocate w (ic_base c) (ic_num c);
    if irq_base =? METAL_IRQ_ANY then Ok (w, - EINVAL)
    else
      Ok (iw_set_cntrs w (iw_cntrs w ++ [cntr]) (<[cntr := ic_set_base c irq_base]> (iw_heap w)), 0).

(** The controller, 0 for [NULL]. *)
Fixpoint get_controller_loop (l : list Z) (w : world) (irq : Z) : res Z :=
  match l with
  | [] => Ok 0
  | a :: l' =>
      c ← get_cntr w a;
      irq_end ← iadd (ic_base c) (ic_num c);
      if (ic_base c <=? irq) && (irq <? irq_end) then Ok a else get_controller_loop l' w irq
  end.

Definition metal_irq_get_controller (w : world) (irq : Z) : res Z :=
  get_controller_loop (iw_cntrs w) w irq.

(** ** Software interrupts: enabling *)

(** Whether [irq] is beyond the range of the controller. *)
Definition out_of_cntr (c : metal_irq_controller) (irq : Z) : res bool :=
  if irq <? ic_base c then Ok true
  else e ← iadd (ic_base c) (ic_num c); Ok (e <=? irq).

Definition metal_softirq_set_enable (w : world) (cntr irq enable : Z) : res world :=
  c ← get_cntr w cntr;
  out ← out_of_cntr c irq;
  if out : bool then Ok w
  else
    l ← rset (iw_enabled w) (irq - ic_base c) (if enable =? METAL_IRQ_ENABLE then 1 else 0);
    Ok (iw_set_enabled w l).

(** ** Handlers *)

Definition metal_irq_set_enable (w : world) (irq state : Z) : res world :=
  cntr ← metal_irq_get_controller w irq;
  if cntr =? 0 then Ok w
  else
    c ← get_cntr w cntr;
    if ic_set_enable c =? soft_set_enable then metal_softirq_set_enable w cntr irq state
    else cntr_set_enable (ic_set_enable c) w cntr irq state.

Definition metal_irq_register (w : world) (irq irq_handler arg : Z) : res (world * Z) :=
  cntr ← metal_irq_get_controller w irq;
  if cntr =? 0 then Ok (w, - EINVAL)
  else
    c ← get_cntr w cntr;
    if negb (ic_register c =? 0) then cntr_register (ic_register c) w cntr irq irq_handler arg
    else
      match ic_irqs c with
      | None => Ok (w, - EINVAL)
      | Some irqs =>
          irqs ← rset irqs (irq - ic_base c) (mk_irq irq_handler arg);
          Ok (iw_set_cntrs w (iw_cntrs w) (<[cntr := ic_set_irqs c irqs]> (iw_heap w)), 0)
      end.

Definition metal_irq_enable (w : world) (vector : Z) : res world :=
  metal_irq_set_enable w (i32 vector) METAL_IRQ_ENABLE.
Definition metal_irq_disable (w : world) (vector : Z) : res world :=
  metal_irq_set_enable w (i32 vector) METAL_IRQ_DISABLE.

Definition metal_irq_handle (w : world) (irq_data : metal_irq) (irq : Z) : res (world * Z) :=
  if negb (irq_hd irq_data =? 0) then call_handler (irq_hd irq_data) w irq (irq_arg irq_data)
  else Ok (w, METAL_IRQ_NOT_HANDLED).

(** ** Software interrupts *)

Definition metal_softirq_set (w : world) (irq : Z) : res world :=
  c ← get_cntr w metal_softirq_cntr;
  out ← out_of_cntr c irq;
  if out : bool then Ok w
  else l ← rset (iw_pending w) (irq - ic_base c) 1; Ok (iw_set_pending w l).

Definition metal_softirq_init (w : world) : res (world * Z) :=
  metal_irq_register_controller w metal_softirq_cntr.

Definition metal_softirq_allocate (w : world) (num : Z) : res (world * Z) :=
  n ← iadd (iw_avail w) num;
  if METAL_SOFTIRQ_NUM <=? n then Ok (w, - EINVAL)
  else
    c ← get_cntr w metal_softirq_cntr;
    irq_base ← iadd (iw_avail w) (ic_base c);
    Ok (iw_set_avail w n, irq_base).

(** The loop of [metal_softirq_dispatch]: [k] remain from [i]. *)
Fixpoint dispatch_loop (k : nat) (i : Z) (w : world) : res world :=
  match k with
  | O => Ok w
  | S k' =>
      enabled ← rget (iw_enabled w) i;
      pending ← rget (iw_pending w) i;
      w ←
        (if negb (enabled =? 0) && (pending =? 1) then
           l ← rset (iw_pending w) i 0;
           let w := iw_set_pending w l in
           c ← get_cntr w metal_softirq_cntr;
           match ic_irqs c with
           | None => Fault Out_of_bounds
           | Some irqs =>
               irq ← rget irqs i;
               id ← iadd i (ic_base c);
               '(w, _) ← metal_irq_handle w irq id;
               Ok w
           end
         else Ok w);
      dispatch_loop k' (i + 1) w
  end.

Definition metal_softirq_dispatch (w : world) : res world :=
  dispatch_loop (Z.to_nat METAL_SOFTIRQ_NUM) 0 w.
End irq.
