(* ===== verification/IrqSpec.v ===== *)
(** * Interrupt controllers and software interrupts: theorems

    The ranges of the registered controllers stay apart, an interrupt finds its
    controller, and the dispatcher calls the handlers of what is pending and
    enabled. *)

From S2P Require Import Prelude StrUtil MetalIrq.

(** ** The ranges of the controllers *)

Section cntrs.
Context {Env : Type}.
Implicit Types w : iworld Env.

(** The interrupts of a controller fit in an [int]. *)
Record range_ok (c : metal_irq_controller) : Prop := {
  rk_base : 0 <= ic_base c;
  rk_num : 0 < ic_num c;
  rk_end : ic_base c + ic_num c < 2147483648
}.

(** The range of [n] interrupts from [b] has none of those of the controller. *)
Definition clear_of (c : metal_irq_controller) (b n : Z) : Prop :=
  b + n <= ic_base c \/ ic_base c + ic_num c <= b.

(** The registered controllers exist and their ranges are disjoint. *)
Record cntrs_ok w : Prop := {
  ck_nodup : NoDup (iw_cntrs w);
  ck_null : 0 ∉ iw_cntrs w;
  ck_range : forall a, a ∈ iw_cntrs w -> exists c, iw_heap w !! a = Some c /\ range_ok c;
  ck_apart : forall a b c d, a ∈ iw_cntrs w -> b ∈ iw_cntrs w -> a <> b ->
    iw_heap w !! a = Some c -> iw_heap w !! b = Some d -> clear_of c (ic_base d) (ic_num d)
}.

(** The controllers of the list from the lowest range to the highest. *)
Fixpoint ascending w (l : list Z) (low : Z) : Prop :=
  match l with
  | [] => True
  | a :: l' => exists c, iw_heap w !! a = Some c /\ range_ok c /\ low <= ic_base c /\
      ascending w l' (ic_base c + ic_num c)
  end.

Definition all_clear w (l : list Z) (b n : Z) : Prop :=
  forall a c, a ∈ l -> iw_heap w !! a = Some c -> clear_of c b n.

Lemma get_cntr_run w a c : iw_heap w !! a = Some c -> get_cntr w a = Ok c.
Proof. unfold get_cntr. by intros ->. Qed.

Lemma all_clear_cons w a l c b n :
  iw_heap w !! a = Some c -> clear_of c b n -> all_clear w l b n -> all_clear w (a :: l) b n.
Proof.
  intros Ha Hc Hl x d Hx Hd. apply elem_of_cons in Hx as [->|Hx]; [|by eapply Hl].
  by rewrite Ha in Hd; injection Hd as <-.
Qed.

Lemma overlap_test c b n :
  (b <? ic_base c + ic_num c) && (ic_base c <? b + n) = true <-> ~ clear_of c b n.
Proof. rewrite andb_true_iff, !Z.ltb_lt. unfold clear_of. lia. Qed.

(** A fixed range is taken exactly if it is clear of all controllers. *)
Lemma allocate_fixed_loop w l b n :
  (forall a, a ∈ l -> exists c, iw_heap w !! a = Some c /\ range_ok c) -> b <> METAL_IRQ_ANY ->
  (all_clear w l b n /\ irq_allocate_loop l w b n b (b + n) = Ok b) \/
  (~ all_clear w l b n /\ irq_allocate_loop l w b n b (b + n) = Ok METAL_IRQ_ANY).
Proof.
  intros Hl Hb. induction l as [|a l IH]; [left; split; [by intros ? ? ?%elem_of_nil|done]|].
  destruct (Hl a) as (c&Hc&Hr); [by left|]. cbn [irq_allocate_loop].
  rewrite (get_cntr_run _ _ _ Hc). cbn [mbind res_bind].
  rewrite iadd_ok by (destruct Hr; lia). cbn [mbind res_bind].
  destruct (_ && _) eqn:Eo.
  - apply overlap_test in Eo. right. split; [|by rewrite (proj2 (Z.eqb_neq _ _) Hb)].
    intros H. apply Eo. eapply H; [by left|done].
  - assert (Hcl : clear_of c b n).
    { destruct (decide (b + n <= ic_base c)); [by left|]. right.
      destruct (decide (ic_base c + ic_num c <= b)) as [|Hn]; [done|]. exfalso.
      assert (Et : (b <? ic_base c + ic_num c) && (ic_base c <? b + n) = true)
        by (rewrite andb_true_iff, !Z.ltb_lt; lia). congruence. }
    destruct IH as [[H1 H2]|[H1 H2]]; [intros x Hx; apply Hl; by right| |].
    + left. split; [by apply (all_clear_cons w a l c)|done].
    + right. split; [|done]. intros H. apply H1. intros x d Hx. apply H. by right.
Qed.

(** Controllers beyond the range under test do not change it. *)
Lemma allocate_beyond w l low t n :
  ascending w l low -> t + n <= low ->
  irq_allocate_loop l w METAL_IRQ_ANY n t (t + n) = Ok t /\ all_clear w l t n.
Proof.
  revert low. induction l as [|a l IH]; intros low Ha Hlow; cbn [ascending] in Ha.
  { split; [done|]. by intros ? ? ?%elem_of_nil. }
  destruct Ha as (c&Hc&Hr&Hb&Ha). destruct Hr as [R1 R2 R3]. cbn [irq_allocate_loop].
  rewrite (get_cntr_run _ _ _ Hc). cbn [mbind res_bind]. rewrite iadd_ok by lia. cbn [mbind res_bind].
  rewrite (proj2 (Z.ltb_ge (ic_base c) (t + n))), andb_false_r by lia.
  destruct (IH _ Ha) as [E Hcl]; [lia|]. split; [done|].
  apply (all_clear_cons w a l c); [done| |done]. left. lia.
Qed.

(** A range left to the library is clear of ascending controllers. *)
Lemma allocate_any_loop w l low t n :
  ascending w l low -> 0 <= t -> 0 < n ->
  (forall a c, a ∈ l -> iw_heap w !! a = Some c -> ic_base c + ic_num c + n < 2147483648) ->
  exists r, irq_allocate_loop l w METAL_IRQ_ANY n t (t + n) = Ok r /\ t <= r /\ all_clear w l r n /\
    (r = t \/ exists a c, a ∈ l /\ iw_heap w !! a = Some c /\ r = ic_base c + ic_num c).
Proof.
  revert low t. induction l as [|a l IH]; intros low t Ha Ht Hn Hend; cbn [ascending] in Ha.
  { exists t. split_and!; try done; [by intros ? ? ?%elem_of_nil|by left]. }
  destruct Ha as (c&Hc&Hr&Hb&Ha). pose proof Hr as [R1 R2 R3]. cbn [irq_allocate_loop].
  rewrite (get_cntr_run _ _ _ Hc). cbn [mbind res_bind]. rewrite iadd_ok by lia. cbn [mbind res_bind].
  pose proof (Hend a c ltac:(by left) Hc) as Hac.
  assert (Hend' : forall x d, x ∈ l -> iw_heap w !! x = Some d -> ic_base d + ic_num d + n < 2147483648)
    by (intros x d Hx; apply Hend; by right).
  destruct (_ && _) eqn:Eo.
  - rewrite iadd_ok by lia. cbn [mbind res_bind]. rewrite Z.eqb_refl. cbn [negb].
    destruct (IH _ (ic_base c + ic_num c) Ha) as (r&E'&Hle&Hcl&Hfrom); [lia|done|done|].
    exists r. split_and!; try done; [rewrite overlap_test in Eo; unfold clear_of in Eo; lia| |].
    + apply (all_clear_cons w a l c); [done| |done]. right. lia.
    + right. destruct Hfrom as [->|(x&d&Hx&Hd&->)]; [exists a, c|exists x, d]; split_and!; try done;
        [by left|by right].
  - destruct (decide (t + n <= ic_base c)) as [Hbe|Hbe].
    + destruct (allocate_beyond w l _ t n Ha) as [E' Hcl]; [lia|]. exists t. split_and!; try done; [|by left].
      apply (all_clear_cons w a l c); [done| |done]. by left.
    + assert (Hpast : ic_base c + ic_num c <= t)
        by (rewrite andb_false_iff, !Z.ltb_ge in Eo; lia).
      destruct (IH _ t Ha) as (r&E'&Hle&Hcl&Hfrom); [lia|done|done|].
      exists r. split_and!; try done; [apply (all_clear_cons w a l c); [done|right; lia|done]|].
      destruct Hfrom as [->|(x&d&Hx&Hd&->)]; [by left|]. right. exists x, d. split_and!; try done. by right.
Qed.

(** The state after the registration of a controller with its range at [b]. *)
Definition added w (cntr : Z) (c : metal_irq_controller) (b : Z) : iworld Env :=
  iw_set_cntrs w (iw_cntrs w ++ [cntr]) (<[cntr := ic_set_base c b]> (iw_heap w)).

Lemma cntrs_ok_added w cntr c b :
  cntrs_ok w -> cntr <> 0 -> (cntr ∉ iw_cntrs w) -> range_ok (ic_set_base c b) ->
  all_clear w (iw_cntrs w) b (ic_num c) -> cntrs_ok (added w cntr c b).
Proof.
  intros [H1 H2 H3 H4] Hn Hin Hr Hcl.
  assert (Hold : forall a, a ∈ iw_cntrs w -> <[cntr := ic_set_base c b]> (iw_heap w) !! a = iw_heap w !! a)
    by (intros a Ha; apply lookup_insert_ne; congruence).
  split; cbn [added iw_set_cntrs iw_cntrs iw_heap].
  - apply list.NoDup_app. split_and!; [done| |by apply list.NoDup_singleton].
    intros x Hx. rewrite list_elem_of_singleton. congruence.
  - rewrite elem_of_app, list_elem_of_singleton. naive_solver.
  - intros a Ha. apply elem_of_app in Ha as [Ha|Ha%list_elem_of_singleton].
    + rewrite Hold by done. by apply H3.
    + subst a. rewrite lookup_insert_eq. by exists (ic_set_base c b).
  - intros x y d e Hx Hy Hne Hd He.
    apply elem_of_app in Hx as [Hx|Hx%list_elem_of_singleton];
      apply elem_of_app in Hy as [Hy|Hy%list_elem_of_singleton]; subst; try done;
      rewrite ?Hold in Hd by done; rewrite ?Hold in He by done.
    + by apply (H4 x y).
    + rewrite lookup_insert_eq in He. injection He as <-. by apply (Hcl x).
    + rewrite lookup_insert_eq in Hd. injection Hd as <-.
      pose proof (Hcl y e Hy He) as Hc. unfold clear_of in *. cbn. lia.
Qed.

Lemma not_registered w cntr : (cntr ∉ iw_cntrs w) -> existsb (Z.eqb cntr) (iw_cntrs w) = false.
Proof.
  intros H. apply Bool.not_true_is_false. intros E. apply existsb_exists in E as (x&Hx&Eq).
  apply Z.eqb_eq in Eq. subst x. by apply H, list_elem_of_In.
Qed.

(** The call for a controller that is not registered yet. *)
Lemma register_new w cntr c b :
  iw_heap w !! cntr = Some c -> cntr <> 0 -> (cntr ∉ iw_cntrs w) ->
  metal_irq_allocate w (ic_base c) (ic_num c) = Ok b ->
  metal_irq_register_controller w cntr
  = Ok (if b =? METAL_IRQ_ANY then (w, - EINVAL) else (added w cntr c b, 0)).
Proof.
  intros Hc Hn Hin Ea. unfold metal_irq_register_controller.
  rewrite (proj2 (Z.eqb_neq _ _) Hn), not_registered by done. rewrite (get_cntr_run _ _ _ Hc).
  cbn [mbind res_bind]. rewrite Ea. cbn [mbind res_bind]. by destruct (b =? METAL_IRQ_ANY).
Qed.

Lemma register_fixed w cntr c :
  cntrs_ok w -> iw_heap w !! cntr = Some c -> cntr <> 0 -> (cntr ∉ iw_cntrs w) -> range_ok c ->
  (all_clear w (iw_cntrs w) (ic_base c) (ic_num c) /\
   metal_irq_register_controller w cntr = Ok (added w cntr c (ic_base c), 0)) \/
  (~ all_clear w (iw_cntrs w) (ic_base c) (ic_num c) /\
   metal_irq_register_controller w cntr = Ok (w, - EINVAL)).
Proof.
  intros Hw Hc Hn Hin [R1 R2 R3].
  assert (Hb : ic_base c <> METAL_IRQ_ANY) by (unfold METAL_IRQ_ANY; lia).
  assert (Ea : metal_irq_allocate w (ic_base c) (ic_num c) =
    irq_allocate_loop (iw_cntrs w) w (ic_base c) (ic_num c) (ic_base c) (ic_base c + ic_num c)).
  { unfold metal_irq_allocate. rewrite (proj2 (Z.eqb_neq (ic_num c) 0)) by lia.
    rewrite (proj2 (Z.eqb_neq _ _) Hb), iadd_ok by lia. done. }
  destruct (allocate_fixed_loop w (iw_cntrs w) (ic_base c) (ic_num c) (ck_range _ Hw) Hb)
    as [[Hcl E]|[Hcl E]]; rewrite <- Ea in E; apply (register_new w cntr c) in E; try done.
  - left. by rewrite (proj2 (Z.eqb_neq _ _) Hb) in E.
  - right. by rewrite Z.eqb_refl in E.
Qed.

Lemma register_any w cntr c :
  cntrs_ok w -> iw_heap w !! cntr = Some c -> cntr <> 0 -> (cntr ∉ iw_cntrs w) ->
  ic_base c = METAL_IRQ_ANY -> 0 < ic_num c < 2147483648 -> ascending w (iw_cntrs w) 0 ->
  (forall a d, a ∈ iw_cntrs w -> iw_heap w !! a = Some d ->
    ic_base d + ic_num d + ic_num c < 2147483648) ->
  exists b, metal_irq_register_controller w cntr = Ok (added w cntr c b, 0) /\ 0 <= b /\
    range_ok (ic_set_base c b) /\ all_clear w (iw_cntrs w) b (ic_num c).
Proof.
  intros Hw Hc Hn Hin Hb Hnum Has Hend.
  destruct (allocate_any_loop w (iw_cntrs w) 0 0 (ic_num c) Has) as (r&E&Hr&Hcl&Hfrom); [lia|lia|done|].
  assert (Ea : metal_irq_allocate w (ic_base c) (ic_num c) = Ok r).
  { unfold metal_irq_allocate. rewrite (proj2 (Z.eqb_neq (ic_num c) 0)), Hb, Z.eqb_refl by lia.
    rewrite iadd_ok by lia. exact E. }
  apply (register_new w cntr c) in Ea; try done.
  rewrite (proj2 (Z.eqb_neq r METAL_IRQ_ANY)) in Ea by (unfold METAL_IRQ_ANY; lia).
  exists r. split_and!; try done. destruct Hfrom as [->|(a&d&Ha&Hd&->)]; split; cbn; try lia.
  apply (Hend a d Ha Hd).
Qed.

(** An interrupt finds the controller of its range. *)
Lemma get_controller_run w irq a c :
  cntrs_ok w -> a ∈ iw_cntrs w -> iw_heap w !! a = Some c ->
  ic_base c <= irq < ic_base c + ic_num c -> metal_irq_get_controller w irq = Ok a.
Proof.
  intros [H1 H2 H3 H4] Ha Hc Hirq. unfold metal_irq_get_controller.
  assert (Hl : forall x, x ∈ iw_cntrs w -> x ∈ iw_cntrs w) by done.
  revert Hl Ha. generalize (iw_cntrs w) at 1 3 4. intros l. induction l as [|x l IH]; intros Hl Ha.
  { by apply elem_of_nil in Ha. }
  destruct (H3 x) as (d&Hd&[R1 R2 R3]); [apply Hl; by left|]. cbn [get_controller_loop].
  rewrite (get_cntr_run _ _ _ Hd). cbn [mbind res_bind]. rewrite iadd_ok by lia. cbn [mbind res_bind].
  destruct (decide (x = a)) as [->|Hne].
  - rewrite Hc in Hd. injection Hd as <-.
    by rewrite (proj2 (Z.leb_le _ _)), (proj2 (Z.ltb_lt _ _)) by lia.
  - apply elem_of_cons in Ha as [->|Ha]; [done|].
    assert (Hcl : clear_of d (ic_base c) (ic_num c)).
    { apply (H4 x a); [apply Hl; by left|apply Hl; by right|done..]. }
    replace (_ && _) with false; [apply IH; [intros y Hy; apply Hl; by right|done]|].
    symmetry. rewrite andb_false_iff, Z.leb_gt, Z.ltb_ge. unfold clear_of in Hcl. lia.
Qed.

Lemma get_controller_none w irq :
  cntrs_ok w ->
  (forall a c, a ∈ iw_cntrs w -> iw_heap w !! a = Some c -> clear_of c irq 1) ->
  metal_irq_get_controller w irq = Ok 0.
Proof.
  intros [H1 H2 H3 H4]. unfold metal_irq_get_controller. revert H3. clear H1 H2 H4.
  induction (iw_cntrs w) as [|x l IH]; intros H3 Hn; [done|].
  destruct (H3 x) as (d&Hd&[R1 R2 R3]); [by left|]. cbn [get_controller_loop].
  rewrite (get_cntr_run _ _ _ Hd). cbn [mbind res_bind]. rewrite iadd_ok by lia. cbn [mbind res_bind].
  pose proof (Hn x d ltac:(by left) Hd) as Hcl.
  replace (_ && _) with false.
  - apply IH; [intros a Ha; apply H3; by right|intros a c Ha; apply Hn; by right].
  - symmetry. rewrite andb_false_iff, Z.leb_gt, Z.ltb_ge. unfold clear_of in Hcl. lia.
Qed.
End cntrs.

(** C34: Registering a controller keeps the ranges of the registered controllers
    disjoint and its own range found: a controller on the list is left alone; a
    fixed range is taken exactly if it overlaps none that is registered, and refused
    without a change otherwise; when the library is to choose and the controllers on
    the list have ascending ranges, the range chosen overlaps none.  Every interrupt
    of a registered controller is then routed to that controller. *)
Theorem metal_irq_register_controller_spec {Env} (w : iworld Env) (cntr : Z) (c : metal_irq_controller) :
  cntrs_ok w -> iw_heap w !! cntr = Some c -> cntr <> 0 ->
  (cntr ∈ iw_cntrs w -> metal_irq_register_controller w cntr = Ok (w, 0)) /\
  ((cntr ∉ iw_cntrs w) -> range_ok c ->
   ~ all_clear w (iw_cntrs w) (ic_base c) (ic_num c) ->
   metal_irq_register_controller w cntr = Ok (w, - EINVAL)) /\
  ((cntr ∉ iw_cntrs w) ->
   (range_ok c /\ all_clear w (iw_cntrs w) (ic_base c) (ic_num c)) \/
   (ic_base c = METAL_IRQ_ANY /\ 0 < ic_num c < 2147483648 /\ ascending w (iw_cntrs w) 0 /\
    forall a d, a ∈ iw_cntrs w -> iw_heap w !! a = Some d ->
      ic_base d + ic_num d + ic_num c < 2147483648) ->
   exists b, metal_irq_register_controller w cntr = Ok (added w cntr c b, 0) /\
     cntrs_ok (added w cntr c b) /\ (ic_base c <> METAL_IRQ_ANY -> b = ic_base c) /\
     (forall irq, b <= irq < b + ic_num c ->
      metal_irq_get_controller (added w cntr c b) irq = Ok cntr)).
Proof.
  intros Hw Hc Hn. split_and!.
  - intros Hin. unfold metal_irq_register_controller. rewrite (proj2 (Z.eqb_neq _ _) Hn).
    rewrite (proj2 (existsb_exists _ _)); [done|]. exists cntr.
    split; [by apply list_elem_of_In|apply Z.eqb_refl].
  - intros Hin Hr Hcl. by destruct (register_fixed w cntr c Hw Hc Hn Hin Hr) as [[? _]|[_ ?]].
  - intros Hin Hcase.
    assert (Hreg : exists b, metal_irq_register_controller w cntr = Ok (added w cntr c b, 0) /\
      range_ok (ic_set_base c b) /\ all_clear w (iw_cntrs w) b (ic_num c) /\
      (ic_base c <> METAL_IRQ_ANY -> b = ic_base c)).
    { destruct Hcase as [[Hr Hcl]|(Hb&Hnum&Has&Hend)].
      - destruct (register_fixed w cntr c Hw Hc Hn Hin Hr) as [[_ E]|[? _]]; [|done].
        exists (ic_base c). split_and!; try done. by destruct Hr.
      - destruct (register_any w cntr c Hw Hc Hn Hin Hb Hnum Has Hend) as (b&E&_&Hr&Hcl).
        exists b. split_and!; try done. }
    destruct Hreg as (b&E&Hr&Hcl&Hfix). exists b.
    pose proof (cntrs_ok_added w cntr c b Hw Hn Hin Hr Hcl) as Hok. split_and!; try done.
    intros irq Hirq. apply (get_controller_run _ _ _ (ic_set_base c b)); [done| | |done].
    + cbn. apply elem_of_app. right. by apply list_elem_of_singleton.
    + cbn [added iw_set_cntrs iw_heap]. apply lookup_insert_eq.
Qed.

(** ** Software interrupts *)

Section soft.
Context {Env : Type}.
Implicit Types w : iworld Env.
Variables metal_softirq_cntr : Z.
Variable call_handler : Z -> iworld Env -> Z -> Z -> res (iworld Env * Z).

Definition iw_set_env w (e : Env) : iworld Env :=
  mk_iw (iw_cntrs w) (iw_heap w) (iw_avail w) (iw_pending w) (iw_enabled w) e.

(** Handlers that leave the interrupts alone. *)
Definition effects (heff : Z -> Env -> Z -> Z -> Env) : Prop :=
  forall hd w irq arg, exists r,
    call_handler hd w irq arg = Ok (iw_set_env w (heff hd (iw_env w) irq arg), r).

Definition due (enabled pending : Z) : bool := negb (enabled =? 0) && (pending =? 1).

(** Reference: the handlers of what is due, called in order. *)
Fixpoint serve (heff : Z -> Env -> Z -> Z -> Env) (base i : Z) (l : list (metal_irq * (Z * Z))) (e : Env)
  : Env :=
  match l with
  | [] => e
  | (irq, (en, pe)) :: l' =>
      serve heff base (i + 1) l'
        (if due en pe && negb (irq_hd irq =? 0) then heff (irq_hd irq) e (i + base) (irq_arg irq) else e)
  end.

(** The pending flags afterwards. *)
Definition after (en pe : list Z) : list Z :=
  zip_with (fun e p => if due e p then 0 else p) en pe.

Lemma dispatch_loop_spec heff c irqs k w :
  effects heff -> 0 <= ic_base c -> ic_base c + 64 < 2147483648 -> ic_irqs c = Some irqs ->
  forall ipre il epre el ppre pl,
  irqs = ipre ++ il -> iw_enabled w = epre ++ el -> iw_pending w = ppre ++ pl ->
  iw_heap w !! metal_softirq_cntr = Some c ->
  zlen ipre = zlen ppre -> zlen epre = zlen ppre -> zlen ppre + Z.of_nat k = 64 ->
  length il = k -> length el = k -> length pl = k ->
  dispatch_loop metal_softirq_cntr call_handler k (zlen ppre) w
  = Ok (iw_set_env (iw_set_pending w (ppre ++ after el pl))
          (serve heff (ic_base c) (zlen ppre) (zip il (zip el pl)) (iw_env w))).
Proof.
  intros He Hb0 Hb1 Hirqs. revert w.
  induction k as [|k IH]; intros w ipre il epre el ppre pl Ei Ee Ep Hc Li Le Hk H1 H2 H3.
  - apply nil_length_inv in H1 as ->. apply nil_length_inv in H2 as ->. apply nil_length_inv in H3 as ->.
    cbn. rewrite <- Ep. by destruct w.
  - destruct il as [|irq il]; [done|]. destruct el as [|en el]; [done|]. destruct pl as [|pe pl]; [done|].
    cbn [dispatch_loop]. pose proof (zlen_nonneg ppre) as Hp0.
    rewrite (rget_Some (iw_enabled w) (zlen ppre) en) by (rewrite Ee, <- Le; apply zget_app_mid).
    rewrite (rget_Some (iw_pending w) (zlen ppre) pe) by (rewrite Ep; apply zget_app_mid). cbn [mbind res_bind].
    assert (Hstep : forall w1, iw_enabled w1 = iw_enabled w ->
      iw_heap w1 = iw_heap w -> iw_cntrs w1 = iw_cntrs w -> iw_avail w1 = iw_avail w ->
      iw_pending w1 = ppre ++ (if due en pe then 0 else pe) :: pl ->
      dispatch_loop metal_softirq_cntr call_handler k (zlen ppre + 1) w1
      = Ok (iw_set_env (iw_set_pending w (ppre ++ after (en :: el) (pe :: pl)))
              (serve heff (ic_base c) (zlen ppre + 1) (zip il (zip el pl)) (iw_env w1)))).
    { intros w1 F1 F2 F3 F4 F5.
      replace (zlen ppre + 1) with (zlen (ppre ++ [if due en pe then 0 else pe]))
        by (rewrite zlen_app; done).
      rewrite (IH w1 (ipre ++ [irq]) il (epre ++ [en]) el _ pl); rewrite ?zlen_app; cbn [length] in *;
        try (rewrite <- app_assoc; cbn; congruence); try congruence; try (change (zlen [_]) with 1; lia); try lia.
      rewrite <- app_assoc. cbn [app after zip_with]. unfold iw_set_env, iw_set_pending. cbn.
      by rewrite F1, F2, F3, F4. }
    change (negb (en =? 0) && (pe =? 1)) with (due en pe). destruct (due en pe) eqn:Ed.
    + rewrite Ep, rset_ok, zset_app_mid by (rewrite zlen_app, zlen_cons; pose proof (zlen_nonneg pl); lia).
      cbn [mbind res_bind]. rewrite (get_cntr_run (iw_set_pending w _) _ c) by exact Hc.
      cbn [mbind res_bind]. rewrite Hirqs.
      rewrite (rget_Some irqs (zlen ppre) irq) by (rewrite Ei, <- Li; apply zget_app_mid). cbn [mbind res_bind].
      rewrite iadd_ok by lia. cbn [mbind res_bind]. unfold metal_irq_handle. cbn [serve zip zip_with].
      rewrite Ed. cbn [andb]. destruct (negb (irq_hd irq =? 0)).
      * edestruct He as [r ->]. cbn [mbind res_bind]. by rewrite Hstep.
      * cbn [mbind res_bind]. by rewrite Hstep.
    + cbn [mbind res_bind]. rewrite Hstep; [|done..]. cbn [serve zip zip_with]. by rewrite Ed.
Qed.

(** The software interrupts after [metal_softirq_init]. *)
Record soft_ok w (c : metal_irq_controller) (irqs : list metal_irq) : Prop := {
  so_cntr : iw_heap w !! metal_softirq_cntr = Some c;
  so_irqs : ic_irqs c = Some irqs;
  so_base : 0 <= ic_base c /\ ic_base c + 64 < 2147483648;
  so_num : ic_num c = METAL_SOFTIRQ_NUM;
  so_len : length irqs = 64%nat /\ length (iw_enabled w) = 64%nat /\ length (iw_pending w) = 64%nat
}.

Lemma dispatch_run heff w c irqs :
  effects heff -> soft_ok w c irqs ->
  metal_softirq_dispatch metal_softirq_cntr call_handler w
  = Ok (iw_set_env (iw_set_pending w (after (iw_enabled w) (iw_pending w)))
          (serve heff (ic_base c) 0 (zip irqs (zip (iw_enabled w) (iw_pending w))) (iw_env w))).
Proof.
  intros He [H1 H2 [H3 H4] H5 (H6&H7&H8)]. unfold metal_softirq_dispatch.
  change (Z.to_nat METAL_SOFTIRQ_NUM) with 64%nat.
  apply (dispatch_loop_spec heff c irqs 64 w He H3 H4 H2 [] irqs [] (iw_enabled w) [] (iw_pending w));
    done.
Qed.

(** Nothing is due any more. *)
Lemma after_not_due en pe : Forall (fun x => due x.1 x.2 = false) (zip en (after en pe)).
Proof.
  unfold after. revert pe. induction en as [|e en IH]; intros [|p pe]; cbn; try constructor.
  - cbn. destruct (due e p) eqn:Ed; [|done]. unfold due. cbn. apply andb_false_r.
  - apply IH.
Qed.

Lemma serve_idle heff base i irqs fl e :
  Forall (fun x => due x.1 x.2 = false) fl -> serve heff base i (zip irqs fl) e = e.
Proof.
  revert i irqs. induction fl as [|[en pe] fl IH]; intros i irqs H; [by destruct irqs|].
  destruct irqs as [|irq irqs]; [done|]. apply Forall_cons_1 in H as [Hd H]. cbn in Hd.
  cbn [zip zip_with serve]. rewrite Hd. cbn [andb]. by apply IH.
Qed.

Lemma after_idem en pe : length en = length pe -> after en (after en pe) = after en pe.
Proof.
  unfold after. revert pe. induction en as [|e en IH]; intros [|p pe] H; cbn in *; try done.
  f_equal; [|apply IH; lia]. destruct (due e p) eqn:Ed; [|by rewrite Ed].
  unfold due. cbn. by rewrite andb_false_r.
Qed.

Lemma soft_ok_served w c irqs e :
  soft_ok w c irqs -> soft_ok (iw_set_env (iw_set_pending w (after (iw_enabled w) (iw_pending w))) e) c irqs.
Proof.
  intros [H1 H2 H3 H4 (H5&H6&H7)]. split; try done. cbn. split_and!; try done.
  unfold after. rewrite length_zip_with. lia.
Qed.
End soft.

(** The dispatcher calls the handler of every software interrupt that is enabled
    and pending, once, in the order of the numbers and with its interrupt number and
    argument, and clears exactly those flags; a second dispatch with nothing set in
    between calls no handler. *)
Theorem metal_softirq_dispatch_spec {Env} (soft : Z)
    (call_handler : Z -> iworld Env -> Z -> Z -> res (iworld Env * Z))
    (heff : Z -> Env -> Z -> Z -> Env) (w : iworld Env) (c : metal_irq_controller) (irqs : list metal_irq) :
  effects call_handler heff -> soft_ok soft w c irqs ->
  let w' := iw_set_env (iw_set_pending w (after (iw_enabled w) (iw_pending w)))
    (serve heff (ic_base c) 0 (zip irqs (zip (iw_enabled w) (iw_pending w))) (iw_env w)) in
  metal_softirq_dispatch soft call_handler w = Ok w' /\
  metal_softirq_dispatch soft call_handler w' = Ok w'.
Proof.
  intros He Hw w'. split; [by apply dispatch_run|].
  rewrite (dispatch_run soft call_handler heff w' c irqs He) by by apply soft_ok_served.
  subst w'. cbn [iw_set_env iw_set_pending iw_enabled iw_pending iw_env].
  rewrite after_idem by (destruct (so_len _ _ _ _ Hw) as (_&->&->); done).
  by rewrite (serve_idle heff _ _ irqs (zip (iw_enabled w) (after (iw_enabled w) (iw_pending w))))
    by apply after_not_due.
Qed.

(** Numbers are handed out from the first on, and never the last one: a request
    that would use it is refused. *)
Lemma metal_softirq_allocate_run {Env} (soft : Z) (w : iworld Env) c num :
  iw_heap w !! soft = Some c -> 0 <= ic_base c -> ic_base c + 64 < 2147483648 ->
  0 <= iw_avail w < 64 -> 0 < num < 2147483584 ->
  metal_softirq_allocate soft w num
  = Ok (if iw_avail w + num <? 64 then (iw_set_avail w (iw_avail w + num), ic_base c + iw_avail w)
        else (w, - EINVAL)).
Proof.
  intros Hc H1 H2 H3 H4. unfold metal_softirq_allocate, METAL_SOFTIRQ_NUM. rewrite iadd_ok by lia.
  cbn [mbind res_bind]. destruct (Z.ltb_spec (iw_avail w + num) 64);
    [rewrite (proj2 (Z.leb_gt _ _)) by lia|by rewrite (proj2 (Z.leb_le _ _)) by lia].
  rewrite (get_cntr_run _ _ _ Hc). cbn [mbind res_bind]. rewrite iadd_ok by lia.
  cbn [mbind res_bind]. by rewrite (Z.add_comm (ic_base c)).
Qed.

(** ** Witnesses *)

Definition demo_cntr (base num : Z) : metal_irq_controller := mk_cntr base num 0 1 0 None.

(** Controllers at 0..9 and 20..29, one to register at 12..15, and one that asks for
    four interrupts anywhere. *)
Definition demo_iw (l : list Z) : iworld (list Z) :=
  mk_iw l (<[1 := demo_cntr 0 10]> (<[2 := demo_cntr 20 10]> (<[3 := demo_cntr 12 4]>
    (<[4 := demo_cntr METAL_IRQ_ANY 4]> ∅)))) 0 [] [] [].

Lemma demo_iw_cases a c :
  a ∈ [1; 2] -> iw_heap (demo_iw [1; 2]) !! a = Some c ->
  (a = 1 /\ c = demo_cntr 0 10) \/ (a = 2 /\ c = demo_cntr 20 10).
Proof.
  intros Ha Hc. apply elem_of_cons in Ha as [->|Ha]; [left; by injection Hc as <-|].
  apply list_elem_of_singleton in Ha as ->. right. by injection Hc as <-.
Qed.

Lemma demo_cntrs_ok : cntrs_ok (demo_iw [1; 2]).
Proof.
  split; cbn [iw_cntrs demo_iw].
  - apply list.NoDup_cons. split; [|by apply list.NoDup_singleton]. rewrite list_elem_of_singleton. lia.
  - rewrite elem_of_cons, list_elem_of_singleton. lia.
  - intros a Ha. apply elem_of_cons in Ha as [->|Ha%list_elem_of_singleton]; [|subst a];
      (eexists; split; [reflexivity|split; cbn; lia]).
  - intros a b c d Ha Hb Hne Hc Hd. apply (demo_iw_cases a c Ha) in Hc. apply (demo_iw_cases b d Hb) in Hd.
    unfold clear_of. destruct Hc as [[-> ->]|[-> ->]], Hd as [[-> ->]|[-> ->]]; cbn; lia.
Qed.

Lemma metal_irq_register_controller_spec_witness :
  (exists b, metal_irq_register_controller (demo_iw [1; 2]) 3
     = Ok (added (demo_iw [1; 2]) 3 (demo_cntr 12 4) b, 0) /\ b = 12) /\
  (exists b, metal_irq_register_controller (demo_iw [1; 2]) 4
     = Ok (added (demo_iw [1; 2]) 4 (demo_cntr METAL_IRQ_ANY 4) b, 0) /\
     cntrs_ok (added (demo_iw [1; 2]) 4 (demo_cntr METAL_IRQ_ANY 4) b)).
Proof.
  split.
  - destruct (metal_irq_register_controller_spec (demo_iw [1; 2]) 3 (demo_cntr 12 4) demo_cntrs_ok
      eq_refl ltac:(lia)) as (_&_&H).
    destruct H as (b&E&_&Hb&_).
    + cbn. rewrite elem_of_cons, list_elem_of_singleton. lia.
    + left. split; [split; cbn; lia|]. intros a c Ha Hc. apply (demo_iw_cases a c Ha) in Hc.
      unfold clear_of. destruct Hc as [[_ ->]|[_ ->]]; cbn; lia.
    + exists b. split; [exact E|apply Hb; discriminate].
  - destruct (metal_irq_register_controller_spec (demo_iw [1; 2]) 4 (demo_cntr METAL_IRQ_ANY 4)
      demo_cntrs_ok eq_refl ltac:(lia)) as (_&_&H).
    destruct H as (b&E&Hok&_).
    + cbn. rewrite elem_of_cons, list_elem_of_singleton. lia.
    + right. split_and!; cbn; try lia.
      * exists (demo_cntr 0 10). split_and!; [reflexivity|split; cbn; lia|cbn; lia|].
        exists (demo_cntr 20 10). split_and!; [reflexivity|split; cbn; lia|cbn; lia|done].
      * intros a d Ha Hd. apply (demo_iw_cases a d Ha) in Hd.
        destruct Hd as [[_ ->]|[_ ->]]; cbn; lia.
    + exists b. by split.
Defined.

(** Without the order of the ranges the library can choose a range that overlaps
    one it passed: the controllers at 10..19 and 0..4 were registered in this order,
    the range chosen for ten interrupts is 5..14. *)
Definition demo_unsorted : iworld (list Z) :=
  mk_iw [1; 2] (<[1 := demo_cntr 10 10]> (<[2 := demo_cntr 0 5]>
    (<[3 := demo_cntr METAL_IRQ_ANY 10]> ∅))) 0 [] [] [].

Example metal_irq_any_overlaps :
  metal_irq_register_controller demo_unsorted 3
  = Ok (added demo_unsorted 3 (demo_cntr METAL_IRQ_ANY 10) 5, 0) /\
  ~ clear_of (demo_cntr 10 10) 5 10.
Proof. split; [vm_compute; reflexivity|unfold clear_of; cbn; lia]. Qed.

(** Software interrupts 3 and 5 are pending, 5 is disabled. *)
Definition demo_softw : iworld (list Z) :=
  mk_iw [1] {[1 := mk_cntr 100 64 0 1 0 (Some (replicate 64 (mk_irq 7 8)))]} 6
    (zset (zset (replicate 64 0) 3 1) 5 1) (zset (replicate 64 1) 5 0) [].

Definition demo_handler (hd : Z) (w : iworld (list Z)) (irq arg : Z) : res (iworld (list Z) * Z) :=
  Ok (iw_set_env w (iw_env w ++ [hd; irq; arg]), 1).

Lemma metal_softirq_dispatch_spec_witness : exists w',
  metal_softirq_dispatch 1 demo_handler demo_softw = Ok w' /\ iw_env w' = [7; 103; 8] /\
  metal_softirq_dispatch 1 demo_handler w' = Ok w'.
Proof.
  destruct (metal_softirq_dispatch_spec 1 demo_handler (fun hd e irq arg => e ++ [hd; irq; arg])
    demo_softw (mk_cntr 100 64 0 1 0 (Some (replicate 64 (mk_irq 7 8)))) (replicate 64 (mk_irq 7 8)))
    as [E1 E2].
  - intros hd w irq arg. by eexists.
  - split; [reflexivity|reflexivity|cbn; lia|reflexivity|by split_and!].
  - eexists. split; [exact E1|]. split; [vm_compute; reflexivity|exact E2].
Defined.
