(* ===== verification/MetalDevice.v ===== *)
(** * Buses, devices, shared memory and start-up of libmetal
      (lib/device.c, lib/shmem.c, lib/dma.c, lib/init.c)

    The state of the library is [_metal.common]; buses, devices and shared memories
    are objects known by their addresses, the lists the sequences their nodes form.
    A C string is [None] for [NULL], else its characters before the terminator.  A
    function pointer is an address, 0 for [NULL]; calls through the pointers of a
    bus that is not the generic one, and the functions of the system port, are
    parameters. *)

From S2P Require Import Prelude MetalIo.

(** ** Data *)

Definition METAL_MAX_DEVICE_REGIONS : Z := 32.
Definition METAL_DMA_DEV_R : Z := 1.
Definition METAL_DMA_DEV_W : Z := 2.

Definition cstring : Type := option (list Z).

(** [!s || !strlen(s)] *)
Definition is_blank (s : cstring) : bool :=
  match s with Some (_ :: _) => false | _ => true end.

(** [strcmp(a, b) == 0]; a null pointer is dereferenced. *)
Definition str_eq (a b : cstring) : res bool :=
  match a, b with
  | Some x, Some y => Ok (bool_decide (x = y))
  | _, _ => Fault Out_of_bounds
  end.

Record metal_bus_ops := mk_busops {
  bo_close : Z;
  bo_dev_open : Z;
  bo_dev_close : Z;
  bo_dev_irq_ack : Z;
  bo_dev_dma_map : Z;
  bo_dev_dma_unmap : Z
}.

Record metal_bus := mk_bus {
  bus_name : cstring;
  bus_ops : metal_bus_ops;
  bus_devices : list Z
}.

Record metal_device := mk_device {
  dev_name : cstring;
  dev_bus : Z;
  dev_num_regions : Z;
  dev_regions : list metal_io_region;
  dev_irq_num : Z;
  dev_irq_info : Z
}.

Record metal_generic_shmem := mk_shmem {
  shm_name : cstring;
  shm_io : metal_io_region
}.

Record metal_sg := mk_sg {
  sg_virt : Z;
  sg_io : Z;
  sg_len : Z
}.

(** [struct metal_common_state] with the objects, and the rest of the program's
    state. *)
Record dworld (Env : Type) := mk_dw {
  dw_ref_count : Z;
  dw_log_level : Z;
  dw_log_handler : Z;
  dw_bus_list : list Z;
  dw_shmem_list : list Z;
  dw_device_list : list Z;
  dw_buses : gmap Z metal_bus;
  dw_devices : gmap Z metal_device;
  dw_shmems : gmap Z metal_generic_shmem;
  dw_env : Env
}.
Arguments mk_dw {Env} _ _ _ _ _ _ _ _ _ _.
Arguments dw_ref_count {Env} _.
Arguments dw_log_level {Env} _.
Arguments dw_log_handler {Env} _.
Arguments dw_bus_list {Env} _.
Arguments dw_shmem_list {Env} _.
Arguments dw_device_list {Env} _.
Arguments dw_buses {Env} _.
Arguments dw_devices {Env} _.
Arguments dw_shmems {Env} _.
Arguments dw_env {Env} _.

Record metal_init_params := mk_params {
  par_log_handler : Z;
  par_log_level : Z
}.

(** The cache maintenance the DMA calls ask for. *)
Inductive cache_op : Type :=
| Flush (virt len : Z)
| Invalidate (virt len : Z).

Section device.
Context {Env : Type}.
Abbreviation world := (dworld Env).

Definition dw_set_ref (w : world) (n : Z) : world :=
  mk_dw n (dw_log_level w) (dw_log_handler w) (dw_bus_list w) (dw_shmem_list w) (dw_device_list w)
    (dw_buses w) (dw_devices w) (dw_shmems w) (dw_env w).
Definition dw_set_buses (w : world) (l : list Z) (h : gmap Z metal_bus) : world :=
  mk_dw (dw_ref_count w) (dw_log_level w) (dw_log_handler w) l (dw_shmem_list w) (dw_device_list w)
    h (dw_devices w) (dw_shmems w) (dw_env w).
Definition dw_set_devices (w : world) (l : list Z) (h : gmap Z metal_device) : world :=
  mk_dw (dw_ref_count w) (dw_log_level w) (dw_log_handler w) (dw_bus_list w) (dw_shmem_list w) l
    (dw_buses w) h (dw_shmems w) (dw_env w).
Definition dw_set_shmems (w : world) (l : list Z) : world :=
  mk_dw (dw_ref_count w) (dw_log_level w) (dw_log_handler w) (dw_bus_list w) l (dw_device_list w)
    (dw_buses w) (dw_devices w) (dw_shmems w) (dw_env w).

(** [memset(&_metal, 0, ...)], and the lists and the log as [metal_init] sets them;
    [clear_port] clears the fields of [_metal] that the system port has added. *)
Variable clear_port : Env -> Env.

Definition dw_reset (w : world) (ref : Z) (p : metal_init_params) : world :=
  mk_dw ref (par_log_level p) (par_log_handler p) [] [] [] (dw_buses w) (dw_devices w)
    (dw_shmems w) (clear_port (dw_env w)).

(** The address of [metal_generic_bus] and of its functions; the functions of other
    buses; the functions of the system port. *)
Variables metal_generic_bus generic_open_fn generic_map_fn generic_unmap_fn : Z.
Variable bus_close : Z -> world -> Z -> res world.
Variable bus_dev_open : Z -> world -> Z -> list Z -> res (world * Z * Z).
Variable bus_dev_close : Z -> world -> Z -> Z -> res world.
Variable bus_dma_map : Z -> world -> Z -> Z -> list metal_sg -> Z -> res (world * list metal_sg * Z).
Variable bus_dma_unmap : Z -> world -> Z -> Z -> list metal_sg -> Z -> res world.
Variable metal_generic_dev_sys_open : world -> Z -> res (world * Z).
Variable metal_sys_init : world -> metal_init_params -> res (world * Z).
Variable metal_sys_finish : world -> res world.
Variable do_cache : world -> cache_op -> world.

Definition get_bus (w : world) (a : Z) : res metal_bus :=
  match dw_buses w !! a with Some b => Ok b | None => Fault Out_of_bounds end.
Definition get_dev (w : world) (a : Z) : res metal_device :=
  match dw_devices w !! a with Some d => Ok d | None => Fault Out_of_bounds end.

(** ** Buses *)

(** The loop of [metal_bus_find]; [result] is whether the pointer is not null.  The
    value behind it is the second result, 0 when it was not written. *)
Fixpoint bus_find_loop (l : list Z) (w : world) (name : cstring) (result : bool) : res (Z * Z) :=
  match l with
  | [] => Ok (- ENOENT, 0)
  | a :: l' =>
      b ← get_bus w a;
      eq ← str_eq (bus_name b) name;
      if (eq : bool) && result then Ok (0, a) else bus_find_loop l' w name result
  end.

Definition metal_bus_find (w : world) (name : cstring) (result : bool) : res (Z * Z) :=
  bus_find_loop (dw_bus_list w) w name result.

Definition metal_bus_register (w : world) (bus : Z) : res (world * Z) :=
  if bus =? 0 then Ok (w, - EINVAL)
  else
    b ← get_bus w bus;
    if is_blank (bus_name b) then Ok (w, - EINVAL)
    else
      '(error, _) ← metal_bus_find w (bus_name b) false;
      if error =? 0 then Ok (w, - EEXIST)
      else
        Ok (dw_set_buses w (dw_bus_list w ++ [bus])
              (<[bus := mk_bus (bus_name b) (bus_ops b) []]> (dw_buses w)), 0).

Definition metal_bus_unregister (w : world) (bus : Z) : res (world * Z) :=
  let w := dw_set_buses w (List.filter (fun a => negb (a =? bus)) (dw_bus_list w)) (dw_buses w) in
  b ← get_bus w bus;
  if negb (bo_close (bus_ops b) =? 0) then
    w ← bus_close (bo_close (bus_ops b)) w bus; Ok (w, 0)
  else Ok (w, 0).

(** ** Devices *)

Definition metal_register_generic_device (w : world) (device : Z) : res (world * Z) :=
  d ← get_dev w device;
  if is_blank (dev_name d) || (METAL_MAX_DEVICE_REGIONS <? dev_num_regions d) then Ok (w, - EINVAL)
  else
    Ok (dw_set_devices w (dw_device_list w ++ [device])
          (<[device := mk_device (dev_name d) metal_generic_bus (dev_num_regions d) (dev_regions d)
                         (dev_irq_num d) (dev_irq_info d)]>
             (dw_devices w)), 0).

(** The loop of [metal_generic_dev_open]: the value returned and the device (0 when
    the pointer was not written). *)
Fixpoint generic_open_loop (l : list Z) (w : world) (name : cstring) : res (world * Z * Z) :=
  match l with
  | [] => Ok (w, - ENODEV, 0)
  | a :: l' =>
      d ← get_dev w a;
      eq ← str_eq (dev_name d) name;
      if eq : bool then '(w, ret) ← metal_generic_dev_sys_open w a; Ok (w, ret, a)
      else generic_open_loop l' w name
  end.

Definition metal_generic_dev_open (w : world) (name : cstring) : res (world * Z * Z) :=
  generic_open_loop (dw_device_list w) w name.

(** [device] is whether the pointer is not null. *)
Definition metal_device_open (w : world) (bname dname : cstring) (device : bool) : res (world * Z * Z) :=
  if is_blank bname || is_blank dname || negb device then Ok (w, - EINVAL, 0)
  else
    '(error, bus) ← metal_bus_find w bname true;
    if negb (error =? 0) then Ok (w, error, 0)
    else
      b ← get_bus w bus;
      let f := bo_dev_open (bus_ops b) in
      if f =? 0 then Ok (w, - ENODEV, 0)
      else
        '(w, error, dev) ←
          (if f =? generic_open_fn then metal_generic_dev_open w dname
           else match dname with Some n => bus_dev_open f w bus n | None => Fault Out_of_bounds end);
        Ok (w, error, dev).

Definition metal_device_close (w : world) (device : Z) : res world :=
  _ ← rassert (negb (device =? 0));
  d ← get_dev w device;
  _ ← rassert (negb (dev_bus d =? 0));
  b ← get_bus w (dev_bus d);
  if negb (bo_dev_close (bus_ops b) =? 0) then
    bus_dev_close (bo_dev_close (bus_ops b)) w (dev_bus d) device
  else Ok w.

Definition metal_device_io_region (d : metal_device) (index : Z) : res (option metal_io_region) :=
  if index <? dev_num_regions d then r ← rget (dev_regions d) index; Ok (Some r) else Ok None.

(** ** Shared memory *)

Definition get_shmem (w : world) (a : Z) : res metal_generic_shmem :=
  match dw_shmems w !! a with Some s => Ok s | None => Fault Out_of_bounds end.

(** [has_close] is whether the region has a close operation. *)
Definition metal_shmem_register_generic (w : world) (shmem : Z) (has_close : bool) : res (world * Z) :=
  s ← get_shmem w shmem;
  _ ← rassert (negb (is_blank (shm_name s)));
  _ ← rassert (negb has_close);
  Ok (dw_set_shmems w (dw_shmem_list w ++ [shmem]), 0).

(** The loop of [metal_shmem_open_generic]: the value returned and the region. *)
Fixpoint shmem_open_loop (l : list Z) (w : world) (name : cstring) (size : Z)
  : res (Z * option metal_io_region) :=
  match l with
  | [] => Ok (- ENOENT, None)
  | a :: l' =>
      s ← get_shmem w a;
      eq ← str_eq (shm_name s) name;
      if negb eq then shmem_open_loop l' w name size
      else if size <=? metal_io_region_size (shm_io s) then Ok (0, Some (shm_io s))
      else shmem_open_loop l' w name size
  end.

Definition metal_shmem_open_generic (w : world) (name : cstring) (size : Z)
  : res (Z * option metal_io_region) :=
  shmem_open_loop (dw_shmem_list w) w name size.

(** ** DMA *)

(** The cache operations for one entry. *)
Definition map_entry (dir : Z) (w : world) (s : metal_sg) : world :=
  let w := if dir =? METAL_DMA_DEV_W then do_cache w (Flush (sg_virt s) (sg_len s)) else w in
  do_cache w (Invalidate (sg_virt s) (sg_len s)).

(** [sg_out] becomes a copy of the first [nents_in] entries unless it is the same
    array. *)
Definition metal_generic_dev_dma_map (w : world) (dir : Z) (sg_in : list metal_sg) (nents_in : Z)
  : res (world * list metal_sg * Z) :=
  if zlen sg_in <? nents_in then Fault Out_of_bounds
  else
    let sg_out := take (Z.to_nat nents_in) sg_in in
    Ok (fold_left (map_entry dir) sg_out w, sg_out, nents_in).

Definition metal_generic_dev_dma_unmap (w : world) (sg : list metal_sg) (nents : Z) : res world :=
  if zlen sg <? nents then Fault Out_of_bounds
  else
    Ok (fold_left (fun w s => do_cache w (Invalidate (sg_virt s) (sg_len s)))
          (take (Z.to_nat nents) sg) w).

(** [sg_in] is [None] for a null pointer, [sg_out] whether it is not null. *)
Definition metal_dma_map (w : world) (dev dir : Z) (sg_in : option (list metal_sg)) (nents_in : Z)
    (sg_out : bool) : res (world * list metal_sg * Z) :=
  match sg_in with
  | Some sg =>
      if (dev =? 0) || negb sg_out then Ok (w, [], - EINVAL)
      else
        d ← get_dev w dev;
        b ← get_bus w (dev_bus d);
        let f := bo_dev_dma_map (bus_ops b) in
        if f =? 0 then Ok (w, [], - ENODEV)
        else if f =? generic_map_fn then metal_generic_dev_dma_map w dir sg nents_in
        else bus_dma_map f w dev dir sg nents_in
  | None => Ok (w, [], - EINVAL)
  end.

Definition metal_dma_unmap (w : world) (dev dir : Z) (sg : option (list metal_sg)) (nents : Z) : res world :=
  if dev =? 0 then Ok w
  else
    d ← get_dev w dev;
    b ← get_bus w (dev_bus d);
    let f := bo_dev_dma_unmap (bus_ops b) in
    match sg with
    | Some l =>
        if f =? 0 then Ok w
        else if f =? generic_unmap_fn then metal_generic_dev_dma_unmap w l nents
        else bus_dma_unmap f w dev dir l nents
    | None => Ok w
    end.

(** ** Start-up *)

Definition metal_init (w : world) (params : metal_init_params) : res (world * Z) :=
  n ← iadd (dw_ref_count w) 1;
  if negb (dw_ref_count w =? 0) then Ok (dw_set_ref w n, 0)
  else
    '(w, error) ← metal_sys_init (dw_reset w 0 params) params;
    if negb (error =? 0) then Ok (w, error)
    else n ← iadd (dw_ref_count w) 1; Ok (dw_set_ref w n, error).

Definition metal_finish (w : world) : res world :=
  n ← iadd (dw_ref_count w) (-1);
  let w := dw_set_ref w n in
  if negb (n =? 0) then Ok w
  else
    w ← metal_sys_finish w;
    Ok (dw_reset w 0 (mk_params 0 0)).
End device.

(** ** Theorems *)

Section found.
Context {Env : Type}.
Implicit Types w : dworld Env.

(** Every bus on the list exists and has a name. *)
Definition buses_named w : Prop :=
  forall a, a ∈ dw_bus_list w -> exists b n, dw_buses w !! a = Some b /\ bus_name b = Some n.

(** The first bus of the list with the name. *)
Fixpoint first_bus w (l : list Z) (name : list Z) : option Z :=
  match l with
  | [] => None
  | a :: l' =>
      match dw_buses w !! a with
      | Some b => if bool_decide (bus_name b = Some name) then Some a else first_bus w l' name
      | None => None
      end
  end.

Lemma str_eq_run x y : str_eq (Some x) (Some y) = Ok (bool_decide (x = y)).
Proof. done. Qed.

Lemma bus_find_run w l name result :
  (forall a, a ∈ l -> exists b n, dw_buses w !! a = Some b /\ bus_name b = Some n) ->
  bus_find_loop l w (Some name) result
  = Ok (match first_bus w l name with
        | Some a => if result : bool then (0, a) else (- ENOENT, 0)
        | None => (- ENOENT, 0)
        end).
Proof.
  induction l as [|a l IH]; intros Hl; [done|]. cbn [bus_find_loop first_bus].
  destruct (Hl a) as (b&n&Hb&Hn); [by left|]. unfold get_bus. rewrite Hb. cbn [mbind res_bind].
  rewrite Hn, str_eq_run. cbn [mbind res_bind].
  assert (Hl' : forall x, x ∈ l -> exists b n, dw_buses w !! x = Some b /\ bus_name b = Some n)
    by (intros x Hx; apply Hl; by right).
  replace (bool_decide (Some n = Some name)) with (bool_decide (n = name))
    by (apply bool_decide_ext; naive_solver).
  destruct (bool_decide (n = name)); cbn [andb]; [|by apply IH].
  destruct result; [done|]. rewrite IH by done. by destruct (first_bus w l name).
Qed.

Lemma first_bus_app w l x name :
  first_bus w l name <> None -> first_bus w (l ++ [x]) name = first_bus w l name.
Proof.
  induction l as [|a l IH]; [done|]. cbn [first_bus app]. destruct (dw_buses w !! a) as [b|]; [|done].
  destruct (bool_decide _); [done|]. exact IH.
Qed.

Lemma first_bus_ext w w' l name :
  (forall a, a ∈ l -> bus_name <$> dw_buses w' !! a = bus_name <$> dw_buses w !! a) ->
  first_bus w' l name = first_bus w l name.
Proof.
  induction l as [|a l IH]; intros H; [done|]. cbn [first_bus].
  pose proof (H a ltac:(by left)) as Ha. rewrite IH by (intros x Hx; apply H; by right).
  destruct (dw_buses w' !! a), (dw_buses w !! a); try done. cbn in Ha. injection Ha as ->. done.
Qed.

End found.

(** [metal_bus_register] asks [metal_bus_find] for the name with a null result
    pointer, and with it the search never succeeds: a bus whose name is on the list
    already is registered, never refused as a duplicate, and cannot be found, since
    the name still leads to the first one. *)
Theorem metal_bus_register_duplicate {Env} (w : dworld Env) (bus old : Z) (b : metal_bus) (name : list Z) :
  buses_named w -> bus <> 0 -> (bus ∉ dw_bus_list w) -> dw_buses w !! bus = Some b ->
  bus_name b = Some name -> name <> [] -> first_bus w (dw_bus_list w) name = Some old ->
  exists w', metal_bus_register w bus = Ok (w', 0) /\ dw_bus_list w' = dw_bus_list w ++ [bus] /\
    metal_bus_find w' (Some name) true = Ok (0, old).
Proof.
  intros Hw Hn Hin Hb Hname Hne Hfirst. unfold metal_bus_register, metal_bus_find, get_bus.
  rewrite (proj2 (Z.eqb_neq _ _) Hn), Hb. cbn [mbind res_bind]. rewrite Hname.
  destruct name as [|ch name]; [done|]. cbn [is_blank].
  rewrite (bus_find_run w _ (ch :: name) false Hw), Hfirst. cbn [mbind res_bind].
  change (- ENOENT =? 0) with false. cbv iota.
  eexists. split; [reflexivity|]. split; [reflexivity|]. cbn [dw_set_buses dw_bus_list].
  set (w' := dw_set_buses _ _ _).
  assert (Hsame : forall a, a ∈ dw_bus_list w ++ [bus] ->
    bus_name <$> dw_buses w' !! a = bus_name <$> dw_buses w !! a).
  { intros a Ha. subst w'. cbn [dw_set_buses dw_buses]. destruct (decide (a = bus)) as [->|Hab].
    - rewrite lookup_insert_eq, Hb. cbn. by rewrite ?Hname.
    - by rewrite lookup_insert_ne. }
  rewrite bus_find_run.
  - rewrite (first_bus_ext w w') by done. by rewrite first_bus_app, Hfirst by by rewrite Hfirst.
  - intros a Ha. pose proof (Hsame a Ha) as Hs. apply elem_of_app in Ha as [Ha|Ha%list_elem_of_singleton].
    + destruct (Hw a Ha) as (d&n&Hd&Hn'). rewrite Hd in Hs.
      destruct (dw_buses w' !! a) as [d'|]; [|discriminate Hs]. injection Hs as Hs. exists d', n. by rewrite Hs.
    + subst a. rewrite Hb in Hs. destruct (dw_buses w' !! bus) as [d'|]; [|discriminate Hs].
      injection Hs as Hs. exists d', (ch :: name). by rewrite Hs.
Qed.

(** Two buses of the same name. *)
Definition demo_busops : metal_bus_ops := mk_busops 0 0 0 0 0 0.
Definition demo_dw : dworld unit :=
  mk_dw 1 0 0 [1] [] []
    (<[1 := mk_bus (Some [112; 99; 105]) demo_busops []]>
       (<[2 := mk_bus (Some [112; 99; 105]) demo_busops []]> ∅)) ∅ ∅ tt.

Lemma metal_bus_register_duplicate_witness : exists w',
  metal_bus_register demo_dw 2 = Ok (w', 0) /\ dw_bus_list w' = [1; 2] /\
  metal_bus_find w' (Some [112; 99; 105]) true = Ok (0, 1).
Proof.
  apply (metal_bus_register_duplicate demo_dw 2 1 (mk_bus (Some [112; 99; 105]) demo_busops [])).
  - intros a Ha. apply list_elem_of_singleton in Ha as ->. by eexists _, _.
  - lia.
  - cbn. rewrite list_elem_of_singleton. lia.
  - reflexivity.
  - reflexivity.
  - discriminate.
  - vm_compute. reflexivity.
Defined.
