(* ===== verification/RpmsgRpc.v ===== *)
(** * Remote procedure calls over RPMsg (lib/service/rpmsg/rpc/rpmsg_rpc_client.c
      and rpmsg_rpc_server.c, openamp/rpmsg_rpc_client_server.h)

    A client and a server are structures that begin with their endpoint, so that
    one address names both.  They are part of the program's state beside the
    transport: [rpc_of] and [rpc_set] reach them.  The service functions and the
    callbacks of the application are parameters, by the address of the function.
    The local arrays are memory at given addresses. *)

From S2P Require Import Prelude StrUtil Rpmsg.

(** ** Data *)

Definition RPMSG_RPC_INVALID_ID : Z := -1.
Definition MAX_BUF_LEN : Z := 488.
Definition MAX_FUNC_ID_LEN : Z := 4.

(** [rpmsg-rpc] and its terminator, as the array a name is copied from. *)
Definition RPMSG_RPC_SERVICE_NAME : list Z :=
  [114; 112; 109; 115; 103; 45; 114; 112; 99; 0] ++ replicate 22 0.

(** An entry of the table of a server or a client: the identifier and the function. *)
Record rpmsg_rpc_services := mk_service {
  svc_id : Z;
  svc_cb : Z
}.

(** [struct rpmsg_rpc_clt] and [struct rpmsg_rpc_svr] without the endpoint. *)
Inductive rpc_object : Type :=
| Client (shutdown_cb : Z) (services : list rpmsg_rpc_services) (n_services : Z)
| Server (services : list rpmsg_rpc_services) (n_services : Z).

Section rpc.
Context {T : Type}.
Variable ops : rpmsg_device_ops T.
Variable env : callbacks T.
Variable ns_slot : Z.
Variable rpc_of : T -> gmap Z rpc_object.
Variable rpc_set : T -> gmap Z rpc_object -> T.
(** The addresses of [rpmsg_endpoint_client_cb], [rpmsg_service_client_unbind] and
    [rpmsg_endpoint_server_cb]; of the local arrays [tmpbuf], [buf] and [msg]. *)
Variables client_cb_fn client_unbind_fn server_cb_fn : Z.
Variables tmpbuf_slot buf_slot msg_slot : Z.
Variable call_service : Z -> world T -> Z -> Z -> res (world T * Z).
Variable call_app : Z -> world T -> Z -> Z -> Z -> Z -> res (world T).
Variable call_shutdown : Z -> world T -> Z -> res (world T).

Definition get_rpc (w : world T) (a : Z) : res rpc_object :=
  match rpc_of (w_tr w) !! a with Some o => Ok o | None => Fault Out_of_bounds end.
Definition put_rpc (w : world T) (a : Z) (o : rpc_object) : world T :=
  mk_world (w_mem w) (w_epts w) (w_rdev w) (rpc_set (w_tr w) (<[a := o]> (rpc_of (w_tr w)))).

(** The loop of [find_service]: [k] entries remain from [i]. *)
Fixpoint find_service_loop (k : nat) (i : Z) (services : list rpmsg_rpc_services) (id : Z)
  : res (option rpmsg_rpc_services) :=
  match k with
  | O => Ok None
  | S k' =>
      service ← rget services i;
      if svc_id service =? id then Ok (Some service)
      else find_service_loop k' (i + 1) services id
  end.

Definition find_service (services : list rpmsg_rpc_services) (n_services id : Z)
  : res (option rpmsg_rpc_services) :=
  find_service_loop (Z.to_nat n_services) 0 services id.

(** ** The client *)

Definition rpmsg_service_client_unbind (w : world T) (ept : Z) : res (world T) :=
  w ← rpmsg_destroy_ept ops env ns_slot w ept;
  o ← get_rpc w ept;
  match o with
  | Client shutdown_cb _ _ =>
      if negb (shutdown_cb =? 0) then call_shutdown shutdown_cb w ept else Ok w
  | Server _ _ => Fault Out_of_bounds
  end.

(** [rdev] is whether the pointer to the device is not null. *)
Definition rpmsg_rpc_client_init (w : world T) (rpc : Z) (rdev : bool) (shutdown_cb : Z)
    (services : list rpmsg_rpc_services) (len : Z) : res (world T * Z) :=
  if (rpc =? 0) || negb rdev then Ok (w, - EINVAL)
  else
    rpmsg_create_ept ops env ns_slot (put_rpc w rpc (Client shutdown_cb services (u32 len))) rpc
      (Some RPMSG_RPC_SERVICE_NAME) RPMSG_ADDR_ANY RPMSG_ADDR_ANY client_cb_fn client_unbind_fn.

(** [memcpy] into an array of [size] bytes at [slot]: beyond it is a fault. *)
Definition local_copy (m : gmap Z Z) (slot size : Z) (bs : list Z) : res (gmap Z Z) :=
  if zlen bs <=? size then storen m slot bs else Fault Out_of_bounds.

Definition rpmsg_rpc_client_send (w : world T) (rpc rpc_id request_param req_param_size : Z)
  : res (world T * Z) :=
  if rpc =? 0 then Ok (w, - EINVAL)
  else
    params ← loadn (Z.to_nat req_param_size) (w_mem w) request_param;
    m ← local_copy (w_mem w) tmpbuf_slot MAX_BUF_LEN (le_bytes 4 rpc_id ++ params);
    rpmsg_send ops (set_mem w m) rpc tmpbuf_slot (i32 (MAX_FUNC_ID_LEN + req_param_size)).

Definition rpmsg_rpc_client_release (w : world T) (rpc : Z) : res (world T) :=
  if rpc =? 0 then Ok w else rpmsg_destroy_ept ops env ns_slot w rpc.

Definition rpmsg_endpoint_client_cb (w : world T) (ept data len : Z) : res (world T * Z) :=
  if (data =? 0) || (ept =? 0) then Ok (w, - EINVAL)
  else
    o ← get_rpc w ept;
    match o with
    | Client _ services n_services =>
        id ← rd32 (w_mem w) data;
        service ← find_service services n_services id;
        match service with
        | None => Ok (w, - EINVAL)
        | Some s =>
            status ← rd32 (w_mem w) (data + 4);
            w ← call_app (svc_cb s) w ept (i32 status) (data + 8) len;
            Ok (w, RPMSG_SUCCESS)
        end
    | Server _ _ => Fault Out_of_bounds
    end.

(** ** The server *)

Definition rpmsg_rpc_server_init (w : world T) (rpcs : Z) (services : list rpmsg_rpc_services)
    (len unbind : Z) : res (world T * Z) :=
  rpmsg_create_ept ops env ns_slot (put_rpc w rpcs (Server services (u32 len))) rpcs
    (Some RPMSG_RPC_SERVICE_NAME) RPMSG_ADDR_ANY RPMSG_ADDR_ANY server_cb_fn unbind.

(** The length sent is [MAX_FUNC_ID_LEN + param_size]. *)
Definition rpmsg_rpc_server_send (w : world T) (rpcs rpc_id status request_param param_size : Z)
  : res (world T * Z) :=
  if rpcs =? 0 then Ok (w, - EINVAL)
  else if MAX_BUF_LEN - 4 <? param_size then Ok (w, - EINVAL)
  else
    params ← loadn (Z.to_nat param_size) (w_mem w) request_param;
    m ← storen (w_mem w) msg_slot (le_bytes 4 rpc_id ++ le_bytes 4 (u32 status) ++ params);
    rpmsg_send ops (set_mem w m) rpcs msg_slot (i32 (MAX_FUNC_ID_LEN + param_size)).

(** [id = *buf] reads one byte. *)
Definition rpmsg_endpoint_server_cb (w : world T) (ept data len : Z) : res (world T * Z) :=
  if MAX_BUF_LEN <? len then Ok (w, - EINVAL)
  else
    bs ← loadn (Z.to_nat len) (w_mem w) data;
    m ← storen (w_mem w) buf_slot bs;
    let w := set_mem w m in
    id ← load8 m buf_slot;
    o ← get_rpc w ept;
    match o with
    | Server services n_services =>
        service ← find_service services n_services id;
        match service with
        | Some s => '(w, _) ← call_service (svc_cb s) w buf_slot ept; Ok (w, RPMSG_SUCCESS)
        | None =>
            '(w, _) ← rpmsg_rpc_server_send w ept id RPMSG_RPC_INVALID_ID 0 0;
            Ok (w, RPMSG_SUCCESS)
        end
    | Client _ _ _ => Fault Out_of_bounds
    end.
End rpc.
