(* ===== verification/RpcSpec.v ===== *)
(** * What a remote procedure call carries

    A request and an answer followed from the caller's memory to the transport and
    from the received message to the function that is called. *)

From S2P Require Import Prelude StrUtil Rpmsg RpmsgRpc.

(** [find_service] is the search for the first entry with the identifier. *)
Lemma find_service_loop_find k i services id :
  0 <= i -> i + Z.of_nat k <= zlen services ->
  find_service_loop k i services id =
    Ok (find (fun s => svc_id s =? id) (take k (drop (Z.to_nat i) services))).
Proof.
  revert i. induction k as [|k IH]; intros i Hi Hk; cbn [find_service_loop]; [done|].
  destruct (rget_ok services i ltac:(lia)) as (s & Hs & Hz). rewrite Hs.
  cbn [mbind res_bind]. unfold zget in Hz. rewrite (proj2 (Z.leb_le _ _) Hi) in Hz.
  rewrite (drop_S _ s _ Hz). cbn [take find]. destruct (svc_id s =? id); [done|].
  rewrite IH by lia. by replace (Z.to_nat (i + 1)) with (S (Z.to_nat i)) by lia.
Qed.

Lemma find_service_find services n id :
  0 <= n <= zlen services ->
  find_service services n id = Ok (find (fun s => svc_id s =? id) (take (Z.to_nat n) services)).
Proof.
  intros H. unfold find_service. rewrite find_service_loop_find by lia. by rewrite drop_0.
Qed.

Section requests.
Context {T : Type}.
Variable ops : rpmsg_device_ops T.
Variable rpc_of : T -> gmap Z rpc_object.
Variables tmpbuf_slot buf_slot msg_slot : Z.
Variable call_service : Z -> world T -> Z -> Z -> res (world T * Z).

Abbreviation client_send := (rpmsg_rpc_client_send ops tmpbuf_slot).
Abbreviation server_send := (rpmsg_rpc_server_send ops msg_slot).
Abbreviation server_cb := (rpmsg_endpoint_server_cb ops rpc_of buf_slot msg_slot call_service).

Lemma client_send_message (w : world T) rpc id p params :
  rpc <> 0 -> zlen params <= MAX_BUF_LEN - MAX_FUNC_ID_LEN ->
  has_bytes (w_mem w) p params -> mapped (w_mem w) tmpbuf_slot MAX_BUF_LEN ->
  let msg := le_bytes 4 id ++ params in
  client_send w rpc id p (zlen params) =
    rpmsg_send ops (set_mem w (put_bytes (w_mem w) tmpbuf_slot msg)) rpc tmpbuf_slot (zlen msg).
Proof.
  intros Hr Hn Hp Hm msg. unfold rpmsg_rpc_client_send.
  rewrite (proj2 (Z.eqb_neq _ _) Hr), (loadn_zlen _ _ params) by done.
  cbn [mbind res_bind]. fold msg. unfold local_copy.
  assert (Hz : zlen msg = 4 + zlen params) by (unfold msg; by rewrite zlen_app, zlen_le_bytes).
  unfold MAX_BUF_LEN, MAX_FUNC_ID_LEN in *. pose proof (zlen_nonneg params).
  rewrite (proj2 (Z.leb_le _ _)) by lia.
  rewrite storen_ok by (apply (mapped_sub _ tmpbuf_slot 488); [done|lia..]).
  cbn [mbind res_bind]. rewrite Hz. by rewrite i32_id by lia.
Qed.

Lemma server_cb_message (w : world T) ept data bs services n :
  zlen bs <= MAX_BUF_LEN -> bs <> [] ->
  has_bytes (w_mem w) data bs -> mapped (w_mem w) buf_slot MAX_BUF_LEN ->
  rpc_of (w_tr w) !! ept = Some (Server services n) -> 0 <= n <= zlen services ->
  let w' := set_mem w (put_bytes (w_mem w) buf_slot bs) in
  server_cb w ept data (zlen bs) =
    match find (fun s => svc_id s =? hd 0 bs) (take (Z.to_nat n) services) with
    | Some s => '(w, _) ← call_service (svc_cb s) w' buf_slot ept; Ok (w, RPMSG_SUCCESS)
    | None => '(w, _) ← server_send w' ept (hd 0 bs) RPMSG_RPC_INVALID_ID 0 0;
              Ok (w, RPMSG_SUCCESS)
    end.
Proof.
  intros Hn Hne Hb Hm Ho Hs w'. unfold rpmsg_endpoint_server_cb.
  rewrite (proj2 (Z.ltb_ge _ _)) by done.
  rewrite (loadn_zlen _ _ bs) by done. cbn [mbind res_bind].
  rewrite storen_ok by (by eapply mapped_sub; [exact Hm|lia..]). cbn [mbind res_bind].
  destruct bs as [|b bs]; [done|].
  destruct (has_bytes_put (w_mem w) buf_slot (b :: bs)) as [Hl _].
  unfold load8 at 1. rewrite Hl. cbn [mbind res_bind hd]. unfold get_rpc.
  cbn [set_mem w_tr]. rewrite Ho. cbn [mbind res_bind].
  by rewrite find_service_find.
Qed.

(** A request is dispatched on the low byte of its identifier: the client sends the
    four bytes of the identifier and the parameters, and a server that receives this
    message calls the first of its services whose identifier is [id mod 256], on a
    copy of the message, or, when it has none, answers that identifier with the
    invalid identifier status.  So a service is reached by its own identifier when
    the identifier is below 256. *)
Theorem rpc_request_dispatch (w : world T) (rpc id p : Z) (params : list Z)
    (ws : world T) (ept data : Z) (services : list rpmsg_rpc_services) (n : Z)
    (Hrpc : rpc <> 0) (Hlen : zlen params <= MAX_BUF_LEN - MAX_FUNC_ID_LEN)
    (Hp : has_bytes (w_mem w) p params) (Htmp : mapped (w_mem w) tmpbuf_slot MAX_BUF_LEN)
    (Hbuf : mapped (w_mem ws) buf_slot MAX_BUF_LEN)
    (Hsvr : rpc_of (w_tr ws) !! ept = Some (Server services n)) (Hn : 0 <= n <= zlen services) :
  exists msg,
    msg = le_bytes 4 id ++ params /\
    client_send w rpc id p (zlen params) =
      rpmsg_send ops (set_mem w (put_bytes (w_mem w) tmpbuf_slot msg)) rpc tmpbuf_slot (zlen msg) /\
    (has_bytes (w_mem ws) data msg ->
     server_cb ws ept data (zlen msg) =
       let ws' := set_mem ws (put_bytes (w_mem ws) buf_slot msg) in
       match find (fun s => svc_id s =? id mod 256) (take (Z.to_nat n) services) with
       | Some s => '(w, _) ← call_service (svc_cb s) ws' buf_slot ept; Ok (w, RPMSG_SUCCESS)
       | None => '(w, _) ← server_send ws' ept (id mod 256) RPMSG_RPC_INVALID_ID 0 0;
                 Ok (w, RPMSG_SUCCESS)
       end).
Proof.
  exists (le_bytes 4 id ++ params). split; [done|]. split; [by apply client_send_message|].
  intros Hb. rewrite (server_cb_message ws ept data _ services n); try done.
  rewrite zlen_app, zlen_le_bytes. unfold MAX_FUNC_ID_LEN in Hlen. lia.
Qed.

End requests.

Section answers.
Context {T : Type}.
Variable ops : rpmsg_device_ops T.
Variable rpc_of : T -> gmap Z rpc_object.
Variable msg_slot : Z.
Variable call_app : Z -> world T -> Z -> Z -> Z -> Z -> res (world T).

Abbreviation server_send := (rpmsg_rpc_server_send ops msg_slot).
Abbreviation client_cb := (rpmsg_endpoint_client_cb rpc_of call_app).

Lemma server_send_message (w : world T) rpcs id status p params :
  rpcs <> 0 -> zlen params <= MAX_BUF_LEN - 4 ->
  has_bytes (w_mem w) p params -> mapped (w_mem w) msg_slot (8 + MAX_BUF_LEN) ->
  let msg := le_bytes 4 id ++ le_bytes 4 (u32 status) ++ params in
  server_send w rpcs id status p (zlen params) =
    rpmsg_send ops (set_mem w (put_bytes (w_mem w) msg_slot msg)) rpcs msg_slot (4 + zlen params).
Proof.
  intros Hr Hn Hp Hm msg. unfold rpmsg_rpc_server_send.
  rewrite (proj2 (Z.eqb_neq _ _) Hr), (proj2 (Z.ltb_ge _ _) Hn), (loadn_zlen _ _ params) by done.
  cbn [mbind res_bind]. fold msg. unfold MAX_BUF_LEN, MAX_FUNC_ID_LEN in *.
  pose proof (zlen_nonneg params).
  rewrite storen_ok.
  { cbn [mbind res_bind]. by rewrite i32_id by lia. }
  apply (mapped_sub _ msg_slot (8 + 488)); [done|lia|].
  unfold msg. rewrite !zlen_app, !zlen_le_bytes. lia.
Qed.

Lemma client_cb_message (w : world T) ept data len id status shutdown services n s :
  data <> 0 -> ept <> 0 ->
  rpc_of (w_tr w) !! ept = Some (Client shutdown services n) -> 0 <= n <= zlen services ->
  is_u32 id -> - 2 ^ 31 <= status < 2 ^ 31 ->
  has_bytes (w_mem w) data (le_bytes 4 id) ->
  has_bytes (w_mem w) (data + 4) (le_bytes 4 (u32 status)) ->
  find (fun s => svc_id s =? id) (take (Z.to_nat n) services) = Some s ->
  client_cb w ept data len =
    w ← call_app (svc_cb s) w ept status (data + 8) len; Ok (w, RPMSG_SUCCESS).
Proof.
  intros Hd He Ho Hn Hid Hst H1 H2 Hs. unfold rpmsg_endpoint_client_cb.
  rewrite (proj2 (Z.eqb_neq _ _) Hd), (proj2 (Z.eqb_neq _ _) He). cbn [orb].
  unfold get_rpc. rewrite Ho. cbn [mbind res_bind]. rewrite (rd32_ok (w_mem w) data id) by done.
  cbn [mbind res_bind]. rewrite find_service_find, Hs by done. cbn [mbind res_bind].
  rewrite (rd32_ok (w_mem w) (data + 4) (u32 status)) by (done || apply u32_range). cbn [mbind res_bind].
  by replace (i32 (u32 status)) with status by width.
Qed.

(** An answer loses its last four parameter bytes: the server builds the identifier,
    the status and the [n] parameter bytes, but hands the transport only [4 + n]
    bytes, which are the identifier, the status and the first [n - 4] parameters.
    The client that receives this message calls the function registered for the
    identifier with the status, the address of the parameters and the length
    [4 + n] of the whole message. *)
Theorem rpc_answer_truncated (w : world T) (rpcs id status p : Z) (params : list Z)
    (wc : world T) (ept data : Z) (shutdown : Z) (services : list rpmsg_rpc_services) (n : Z)
    (s : rpmsg_rpc_services)
    (Hrpc : rpcs <> 0) (Hlen : 4 <= zlen params <= MAX_BUF_LEN - 4)
    (Hp : has_bytes (w_mem w) p params) (Hmsg : mapped (w_mem w) msg_slot (8 + MAX_BUF_LEN))
    (Hid : is_u32 id) (Hst : - 2 ^ 31 <= status < 2 ^ 31)
    (Hdata : data <> 0) (Hept : ept <> 0)
    (Hclt : rpc_of (w_tr wc) !! ept = Some (Client shutdown services n)) (Hn : 0 <= n <= zlen services)
    (Hs : find (fun s => svc_id s =? id) (take (Z.to_nat n) services) = Some s) :
  exists sent,
    sent = le_bytes 4 id ++ le_bytes 4 (u32 status) ++ take (length params - 4) params /\
    (exists m, server_send w rpcs id status p (zlen params) =
                 rpmsg_send ops (set_mem w m) rpcs msg_slot (zlen sent) /\
               has_bytes m msg_slot sent) /\
    (has_bytes (w_mem wc) data sent ->
     client_cb wc ept data (zlen sent) =
       w ← call_app (svc_cb s) wc ept status (data + 8) (4 + zlen params); Ok (w, RPMSG_SUCCESS)).
Proof.
  set (full := le_bytes 4 id ++ le_bytes 4 (u32 status) ++ params).
  set (sent := le_bytes 4 id ++ le_bytes 4 (u32 status) ++ take (length params - 4) params).
  assert (Hfull : full = sent ++ drop (length params - 4) params)
    by (unfold sent; by rewrite <- !app_assoc, take_drop).
  assert (Hz : zlen sent = 4 + zlen params).
  { unfold sent. rewrite !zlen_app, !zlen_le_bytes. unfold zlen in *. rewrite length_take. lia. }
  exists sent. split; [done|]. split.
  - exists (put_bytes (w_mem w) msg_slot full). split.
    + rewrite Hz. apply server_send_message; [done|lia|done..].
    + pose proof (has_bytes_put (w_mem w) msg_slot full) as H. rewrite Hfull in H at 2.
      by apply has_bytes_app in H as [H _].
  - intros Hb. unfold sent in Hb. apply has_bytes_app in Hb as [H1 Hb].
    apply has_bytes_app in Hb as [H2 _]. rewrite zlen_le_bytes in H2.
    rewrite Hz.
    by apply (client_cb_message wc ept data _ id status shutdown services n s).
Qed.
End answers.

(** A device that takes every message, the tables of a server and a client with two
    services, and functions that record in memory that they were called. *)
Definition demo_rpc_ops : rpmsg_device_ops (gmap Z rpc_object) :=
  mk_rops (Some (fun w _ _ _ len _ => Ok (w, len))) None None None None None None None.
Definition demo_services : list rpmsg_rpc_services := [mk_service 7 700; mk_service 3 300].
Definition demo_rpc_world (o : rpc_object) (params msg : list Z) : world (gmap Z rpc_object) :=
  mk_world (put_bytes (put_bytes (put_bytes ∅ 1000 (replicate 1600 0)) 100 params) 3000 msg) ∅
    (mk_rdev [] [] 0 false 0 0 false) {[64 := o]}.
Definition demo_service (f : Z) (w : world (gmap Z rpc_object)) (buf ept : Z)
  : res (world (gmap Z rpc_object) * Z) := Ok (set_mem w (<[0 := f]> (w_mem w)), 0).
Definition demo_app (f : Z) (w : world (gmap Z rpc_object)) (ept status params len : Z)
  : res (world (gmap Z rpc_object)) :=
  Ok (set_mem w (<[0 := f]> (<[1 := status]> (<[2 := len]> (w_mem w))))).

Lemma demo_rpc_mapped o params msg a n :
  1000 <= a -> a + n <= 2600 -> mapped (w_mem (demo_rpc_world o params msg)) a n.
Proof.
  intros H1 H2. apply mapped_put, mapped_put.
  apply (mapped_sub _ 1000 1600); [|lia..].
  apply (has_bytes_mapped _ 1000 (replicate 1600 0)), has_bytes_put.
Qed.

Lemma demo_rpc_params o params msg :
  zlen params <= 900 -> has_bytes (w_mem (demo_rpc_world o params msg)) 100 params.
Proof. intros H. apply has_bytes_put_disjoint; [lia|]. apply has_bytes_put. Qed.

(** A request for the identifier 263 runs the service of the identifier 7. *)
Lemma rpc_request_dispatch_witness :
  let ws := demo_rpc_world (Server demo_services 2) [] (le_bytes 4 263 ++ [1; 2; 3]) in
  exists w', rpmsg_endpoint_server_cb demo_rpc_ops id 1500 2000 demo_service ws 64 3000 7 =
               Ok (w', RPMSG_SUCCESS) /\ w_mem w' !! 0 = Some 700.
Proof.
  destruct (rpc_request_dispatch demo_rpc_ops id 1000 1500 2000 demo_service
    (demo_rpc_world (Client 0 [] 0) [1; 2; 3] []) 64 263 100 [1; 2; 3]
    (demo_rpc_world (Server demo_services 2) [] (le_bytes 4 263 ++ [1; 2; 3])) 64 3000
    demo_services 2) as (msg & -> & _ & H).
  - lia.
  - vm_compute. discriminate.
  - apply demo_rpc_params. vm_compute. discriminate.
  - apply demo_rpc_mapped; vm_compute; discriminate.
  - apply demo_rpc_mapped; vm_compute; discriminate.
  - reflexivity.
  - vm_compute. split; discriminate.
  - eexists. split; [apply H, has_bytes_put|reflexivity].
Defined.

(** Of the six parameters of the answer the first two are sent. *)
Lemma rpc_answer_truncated_witness :
  let sent := le_bytes 4 7 ++ le_bytes 4 (u32 (-5)) ++ [1; 2] in
  let wc := demo_rpc_world (Client 0 demo_services 2) [] sent in
  exists w', rpmsg_endpoint_client_cb id demo_app wc 64 3000 (zlen sent) = Ok (w', RPMSG_SUCCESS) /\
    w_mem w' !! 0 = Some 700 /\ w_mem w' !! 1 = Some (-5) /\ w_mem w' !! 2 = Some 10.
Proof.
  intros sent wc.
  destruct (rpc_answer_truncated demo_rpc_ops id 2000 demo_app
    (demo_rpc_world (Server demo_services 2) [1; 2; 3; 4; 5; 6] []) 64 7 (-5) 100 [1; 2; 3; 4; 5; 6]
    wc 64 3000 0 demo_services 2 (mk_service 7 700)) as (sent' & -> & _ & H).
  - lia.
  - vm_compute. split; discriminate.
  - apply demo_rpc_params. vm_compute. discriminate.
  - apply demo_rpc_mapped; vm_compute; discriminate.
  - vm_compute. split; [discriminate|reflexivity].
  - vm_compute. split; [discriminate|reflexivity].
  - lia.
  - lia.
  - reflexivity.
  - vm_compute. split; discriminate.
  - reflexivity.
  - eexists. split; [apply H, has_bytes_put|]. split_and!; reflexivity.
Defined.
