(* ===== verification/VirtioMmio.v ===== *)
(** * The virtio driver over memory-mapped registers
      (lib/virtio_mmio/virtio_mmio_drv.c, openamp/virtio_mmio.h)

    The configuration region is the registers of a device: a read or a write of a
    register is an operation of the device on the other side, a parameter with
    state [D].  Virtqueues are objects the caller allocated; the device structure
    holds their addresses in an array.  A virtqueue comes with its ring and its
    [priv] pointer. *)

From S2P Require Import Prelude MetalUtil MetalIo Vring Virtqueue.

(** ** Registers *)

Definition VIRTIO_MMIO_MAGIC_VALUE : Z := 0.
Definition VIRTIO_MMIO_MAGIC_VALUE_STRING : Z := 1953655158.
Definition VIRTIO_MMIO_VERSION : Z := 4.
Definition VIRTIO_MMIO_DEVICE_ID : Z := 8.
Definition VIRTIO_MMIO_VENDOR_ID : Z := 12.
Definition VIRTIO_MMIO_DEVICE_FEATURES : Z := 16.
Definition VIRTIO_MMIO_DEVICE_FEATURES_SEL : Z := 20.
Definition VIRTIO_MMIO_DRIVER_FEATURES : Z := 32.
Definition VIRTIO_MMIO_GUEST_PAGE_SIZE : Z := 40.
Definition VIRTIO_MMIO_QUEUE_SEL : Z := 48.
Definition VIRTIO_MMIO_QUEUE_NUM_MAX : Z := 52.
Definition VIRTIO_MMIO_QUEUE_NUM : Z := 56.
Definition VIRTIO_MMIO_QUEUE_ALIGN : Z := 60.
Definition VIRTIO_MMIO_QUEUE_PFN : Z := 64.
Definition VIRTIO_MMIO_QUEUE_NOTIFY : Z := 80.
Definition VIRTIO_MMIO_INTERRUPT_STATUS : Z := 96.
Definition VIRTIO_MMIO_INTERRUPT_ACK : Z := 100.
Definition VIRTIO_MMIO_STATUS : Z := 112.
Definition VIRTIO_MMIO_CONFIG : Z := 256.
Definition VIRTIO_MMIO_INT_VRING : Z := 1.
Definition VIRTIO_MMIO_VRING_ALIGNMENT : Z := 4096.
Definition VIRTIO_CONFIG_STATUS_ACK : Z := 1.

(** ** State *)

Record virtio_device_id := mk_vid {
  vid_device : Z;
  vid_vendor : Z;
  vid_version : Z
}.

Record virtio_mmio_dev_mem := mk_dmem {
  dm_base : Z;
  dm_size : Z
}.

(** A virtqueue with its ring and [vq->priv]. *)
Record mmio_queue := mk_mq {
  mq_vq : virtqueue;
  mq_ring : vring;
  mq_priv : Z
}.

(** [struct virtio_mmio_device] and the device it contains; [mm_vrings_info] is the
    array of the addresses of the virtqueues, [None] for a null pointer; [mm_queues]
    is the virtqueues by address, [mm_dev] the device behind the registers. *)
Record virtio_mmio_device (D : Type) := mk_mmio {
  mm_vdev : virtio_device;
  mm_id : virtio_device_id;
  mm_vrings_info : option (list Z);
  mm_vrings_num : Z;
  mm_cfg_io : metal_io_region;
  mm_shm_io : metal_io_region;
  mm_cfg_mem : virtio_mmio_dev_mem;
  mm_shm_mem : virtio_mmio_dev_mem;
  mm_device_mode : Z;
  mm_user_data : Z;
  mm_queues : gmap Z mmio_queue;
  mm_dev : D
}.
Arguments mk_mmio {D} _ _ _ _ _ _ _ _ _ _ _ _.
Arguments mm_vdev {D} _.
Arguments mm_id {D} _.
Arguments mm_vrings_info {D} _.
Arguments mm_vrings_num {D} _.
Arguments mm_cfg_io {D} _.
Arguments mm_shm_io {D} _.
Arguments mm_cfg_mem {D} _.
Arguments mm_shm_mem {D} _.
Arguments mm_device_mode {D} _.
Arguments mm_user_data {D} _.
Arguments mm_queues {D} _.
Arguments mm_dev {D} _.

Section mmio.
Context {D : Type}.
Implicit Types s : virtio_mmio_device D.

(** Assignments. *)
Definition mm_set_dev s (d : D) : virtio_mmio_device D :=
  mk_mmio (mm_vdev s) (mm_id s) (mm_vrings_info s) (mm_vrings_num s) (mm_cfg_io s) (mm_shm_io s)
    (mm_cfg_mem s) (mm_shm_mem s) (mm_device_mode s) (mm_user_data s) (mm_queues s) d.
Definition mm_set_vdev s (v : virtio_device) : virtio_mmio_device D :=
  mk_mmio v (mm_id s) (mm_vrings_info s) (mm_vrings_num s) (mm_cfg_io s) (mm_shm_io s)
    (mm_cfg_mem s) (mm_shm_mem s) (mm_device_mode s) (mm_user_data s) (mm_queues s) (mm_dev s).
Definition mm_set_id s (i : virtio_device_id) : virtio_mmio_device D :=
  mk_mmio (mm_vdev s) i (mm_vrings_info s) (mm_vrings_num s) (mm_cfg_io s) (mm_shm_io s)
    (mm_cfg_mem s) (mm_shm_mem s) (mm_device_mode s) (mm_user_data s) (mm_queues s) (mm_dev s).
Definition mm_set_vrings s (l : list Z) (n : Z) : virtio_mmio_device D :=
  mk_mmio (mm_vdev s) (mm_id s) (Some l) n (mm_cfg_io s) (mm_shm_io s)
    (mm_cfg_mem s) (mm_shm_mem s) (mm_device_mode s) (mm_user_data s) (mm_queues s) (mm_dev s).
Definition mm_set_io s (shm cfg : metal_io_region) : virtio_mmio_device D :=
  mk_mmio (mm_vdev s) (mm_id s) (mm_vrings_info s) (mm_vrings_num s) cfg shm
    (mm_cfg_mem s) (mm_shm_mem s) (mm_device_mode s) (mm_user_data s) (mm_queues s) (mm_dev s).
Definition mm_set_user_data s (u : Z) : virtio_mmio_device D :=
  mk_mmio (mm_vdev s) (mm_id s) (mm_vrings_info s) (mm_vrings_num s) (mm_cfg_io s) (mm_shm_io s)
    (mm_cfg_mem s) (mm_shm_mem s) (mm_device_mode s) u (mm_queues s) (mm_dev s).
Definition mm_set_queue s (a : Z) (q : mmio_queue) : virtio_mmio_device D :=
  mk_mmio (mm_vdev s) (mm_id s) (mm_vrings_info s) (mm_vrings_num s) (mm_cfg_io s) (mm_shm_io s)
    (mm_cfg_mem s) (mm_shm_mem s) (mm_device_mode s) (mm_user_data s) (<[a := q]> (mm_queues s))
    (mm_dev s).

Variable bld : build.
(** The device: a load of [width] bytes and a store of four at an address. *)
Variable bus_read : D -> Z -> Z -> D * Z.
Variable bus_write : D -> Z -> Z -> D.
(** A virtqueue's callback, by its address, on the [priv] pointer. *)
Variable call_vq : Z -> virtio_mmio_device D -> Z -> res (virtio_mmio_device D).
(** [virtio_mmio_dispatch.notify] *)
Variable notify_fn : Z.

(** ** Access to the registers *)

(** The region has no operations of its own: the access is to the address, when the
    offset is in the region. *)
Definition virtio_mmio_write32 s (offset value : Z) : res (virtio_mmio_device D) :=
  let ptr := metal_io_virt (mm_cfg_io s) offset in
  if ptr =? 0 then Fault Assert_failed
  else Ok (mm_set_dev s (bus_write (mm_dev s) ptr (u32 value))).

Definition mmio_load s (offset width : Z) : res (virtio_mmio_device D * Z) :=
  let ptr := metal_io_virt (mm_cfg_io s) offset in
  if ptr =? 0 then Fault Assert_failed
  else let '(d, v) := bus_read (mm_dev s) ptr width in Ok (mm_set_dev s d, v).

Definition virtio_mmio_read32 s (offset : Z) : res (virtio_mmio_device D * Z) :=
  '(s, v) ← mmio_load s offset 4; Ok (s, u32 v).

Definition virtio_mmio_read8 s (offset : Z) : res (virtio_mmio_device D * Z) :=
  '(s, v) ← mmio_load s offset 1; Ok (s, u8 v).

Definition virtio_mmio_set_status s (status : Z) : res (virtio_mmio_device D) :=
  virtio_mmio_write32 s VIRTIO_MMIO_STATUS status.

Definition virtio_mmio_get_status s : res (virtio_mmio_device D * Z) :=
  '(s, v) ← virtio_mmio_read32 s VIRTIO_MMIO_STATUS; Ok (s, u8 v).

(** Logs that it is not supported. *)
Definition virtio_mmio_write_config s (offset dst length : Z) : res (virtio_mmio_device D) := Ok s.

(** The loop of [virtio_mmio_read_config]; [d] is the bytes stored so far. *)
Fixpoint read_config_loop (k : nat) (i : Z) s (d : list Z) : res (virtio_mmio_device D * list Z) :=
  match k with
  | O => Ok (s, d)
  | S k' => '(s, b) ← virtio_mmio_read8 s (VIRTIO_MMIO_CONFIG + i);
            read_config_loop k' (i + 1) s (d ++ [b])
  end.

(** The bytes stored at [dst]; [offset] is not used. *)
Definition virtio_mmio_read_config s (offset length : Z) : res (virtio_mmio_device D * list Z) :=
  read_config_loop (Z.to_nat length) 0 s [].

Definition _virtio_mmio_get_features s (idx : Z) : res (virtio_mmio_device D * Z) :=
  s ← virtio_mmio_write32 s VIRTIO_MMIO_DEVICE_FEATURES_SEL idx;
  '(s, hfeatures) ← virtio_mmio_read32 s VIRTIO_MMIO_DEVICE_FEATURES;
  Ok (s, u32 (Z.land hfeatures (vdev_features (mm_vdev s)))).

Definition virtio_mmio_get_features s : res (virtio_mmio_device D * Z) :=
  _virtio_mmio_get_features s 0.

Definition _virtio_mmio_set_features s (features idx : Z) : res (virtio_mmio_device D) :=
  s ← virtio_mmio_write32 s VIRTIO_MMIO_DEVICE_FEATURES_SEL idx;
  '(s, hfeatures) ← virtio_mmio_read32 s VIRTIO_MMIO_DEVICE_FEATURES;
  let features := Z.land features hfeatures in
  s ← virtio_mmio_write32 s VIRTIO_MMIO_DRIVER_FEATURES features;
  let v := mm_vdev s in
  Ok (mm_set_vdev s (mk_vdev (vdev_notifyid v) features (vdev_role v))).

Definition virtio_mmio_set_features s (features : Z) : res (virtio_mmio_device D) :=
  _virtio_mmio_set_features s features 0.

Definition virtio_mmio_reset_device s : res (virtio_mmio_device D) := virtio_mmio_set_status s 0.

Definition virtio_mmio_notify s (vq : virtqueue) : res (virtio_mmio_device D) :=
  virtio_mmio_write32 s VIRTIO_MMIO_QUEUE_NOTIFY (vq_queue_index vq).

(** ** Initialization *)

Definition virtio_mmio_get_metal_io s (virt_mem_ptr cfg_mem_ptr : Z) : virtio_mmio_device D :=
  mm_set_io s
    (metal_io_init virt_mem_ptr (Some [dm_base (mm_shm_mem s)]) (dm_size (mm_shm_mem s)) (u32 (-1)) 0 None)
    (metal_io_init cfg_mem_ptr (Some [dm_base (mm_cfg_mem s)]) (dm_size (mm_cfg_mem s)) (u32 (-1)) 0 None).

Definition virtio_mmio_get_max_elem s (idx : Z) : res (virtio_mmio_device D * Z) :=
  s ← virtio_mmio_write32 s VIRTIO_MMIO_QUEUE_SEL idx;
  virtio_mmio_read32 s VIRTIO_MMIO_QUEUE_NUM_MAX.

Definition virtio_mmio_device_init s (virt_mem_ptr cfg_mem_ptr user_data : Z)
  : res (virtio_mmio_device D * Z) :=
  let v := mm_vdev s in
  let s := mm_set_vdev s (mk_vdev (vdev_notifyid v) (vdev_features v) (mm_device_mode s)) in
  let s := mm_set_user_data s user_data in
  let s := virtio_mmio_get_metal_io s virt_mem_ptr cfg_mem_ptr in
  '(s, magic) ← virtio_mmio_read32 s VIRTIO_MMIO_MAGIC_VALUE;
  if negb (magic =? VIRTIO_MMIO_MAGIC_VALUE_STRING) then Ok (s, -1)
  else
    '(s, version) ← virtio_mmio_read32 s VIRTIO_MMIO_VERSION;
    '(s, devid) ← virtio_mmio_read32 s VIRTIO_MMIO_DEVICE_ID;
    if devid =? 0 then Ok (s, -1)
    else if negb (version =? 1) then Ok (s, -1)
    else
      '(s, vendor) ← virtio_mmio_read32 s VIRTIO_MMIO_VENDOR_ID;
      let s := mm_set_id s (mk_vid devid vendor version) in
      s ← virtio_mmio_set_status s VIRTIO_CONFIG_STATUS_ACK;
      s ← virtio_mmio_write32 s VIRTIO_MMIO_GUEST_PAGE_SIZE 4096;
      Ok (s, 0).

(** The loop of [virtio_mmio_register_device]. *)
Fixpoint register_loop (k : nat) (i : Z) (infos vqs : list Z) : res (list Z) :=
  match k with
  | O => Ok infos
  | S k' => vq ← rget vqs i; infos ← rset infos i vq; register_loop k' (i + 1) infos vqs
  end.

(** The array has [vq_num] elements.  The allocation succeeds. *)
Definition virtio_mmio_register_device s (vq_num : Z) (vqs : list Z) : res (virtio_mmio_device D) :=
  let infos := replicate (Z.to_nat vq_num) 0 in
  infos ← register_loop (Z.to_nat vq_num) 0 infos vqs;
  Ok (mm_set_vrings s infos (u32 vq_num)).

(** ** Virtqueues *)

Definition get_queue s (a : Z) : res mmio_queue :=
  match mm_queues s !! a with Some q => Ok q | None => Fault Out_of_bounds end.

(** [virtqueue_create] on a null virtqueue: the last check refuses it in a build with
    the checks, and the first assignment is through it in one without. *)
Definition virtqueue_create_null (info : vring_alloc_info) : res Z :=
  let num := ai_num_descs info in
  let status := VQ_PARAM_CHK bld (num =? 0) VQUEUE_SUCCESS ERROR_VQUEUE_INVLD_PARAM in
  let status := VQ_PARAM_CHK bld (negb (Z.land num (num - 1) =? 0)) status ERROR_VRING_ALIGN in
  let status := VQ_PARAM_CHK bld true status ERROR_NO_MEM in
  if status =? VQUEUE_SUCCESS then Fault Out_of_bounds else Ok status.

(** The registers of the queue, once its ring is set up. *)
Definition setup_registers s (idx : Z) (vq : virtqueue) : res (virtio_mmio_device D) :=
  s ← virtio_mmio_write32 s VIRTIO_MMIO_QUEUE_SEL idx;
  '(s, maxq) ← virtio_mmio_read32 s VIRTIO_MMIO_QUEUE_NUM_MAX;
  _ ← rassert (negb (maxq =? 0));
  _ ← rassert (vq_nentries vq <=? maxq);
  s ← virtio_mmio_write32 s VIRTIO_MMIO_QUEUE_NUM (vq_nentries vq);
  s ← virtio_mmio_write32 s VIRTIO_MMIO_QUEUE_ALIGN 4096;
  phys ← metal_io_virt_to_phys (mm_shm_io s) (vr_desc (vq_ring vq));
  virtio_mmio_write32 s VIRTIO_MMIO_QUEUE_PFN (phys / 4096).

(** The queue is added to the array and its interrupts are enabled. *)
Definition setup_finish s (a : Z) (q : mmio_queue) : res (virtio_mmio_device D) :=
  match mm_vrings_info s with
  | None => Fault Out_of_bounds
  | Some infos =>
      infos ← rset infos (mm_vrings_num s) a;
      let s := mm_set_vrings s infos (u32 (mm_vrings_num s + 1)) in
      '(ring, _) ← virtqueue_enable_cb bld (mm_vdev s) (mq_vq q) (mq_ring q);
      Ok (mm_set_queue s a (mk_mq (mq_vq q) ring (mq_priv q)))
  end.

(** The virtqueue is [vq], the address 0 for a null pointer.  The result is the
    address of the virtqueue, 0 for failure. *)
Definition virtio_mmio_setup_virtqueue s (idx vq cb cb_arg : Z) (vq_name : string)
  : res (virtio_mmio_device D * Z) :=
  if negb (vdev_role (mm_vdev s) =? VIRTIO_DEV_DRIVER) then Ok (s, 0)
  else if vq =? 0 then Ok (s, 0)
  else if negb (vid_version (mm_id s) =? 1) then Ok (s, 0)
  else
    '(s, _) ← virtio_mmio_get_max_elem s idx;
    q ← get_queue s vq;
    let v := mq_vq q in
    let configured :=
      negb (vq_nentries v =? 0) && (vq_nentries v =? vq_free_cnt v) &&
      negb (vr_desc (vq_ring v) =? 0) in
    if configured then
      let info := mk_alloc (vr_desc (vq_ring v)) VIRTIO_MMIO_VRING_ALIGNMENT (vq_nentries v) in
      '(ret, v, ring) ←
        virtqueue_create bld (mm_vdev s) (u16 idx) vq_name (Some info) cb notify_fn v (mq_ring q);
      if negb (ret =? 0) then Ok (mm_set_queue s vq (mk_mq v ring (mq_priv q)), 0)
      else
        let q := mk_mq (virtqueue_set_shmem_io v (mm_shm_io s)) ring cb_arg in
        let s := mm_set_queue s vq q in
        s ← setup_registers s idx (mq_vq q);
        s ← setup_finish s vq q;
        Ok (s, vq)
    else
      ret ← virtqueue_create_null (mk_alloc 0 VIRTIO_MMIO_VRING_ALIGNMENT (vq_nentries v));
      Ok (s, 0).

(** The loop of [virtio_mmio_create_virtqueues]; an array is [None] for a null
    pointer. *)
Fixpoint mmio_create_loop (k : nat) (i : Z) s (names : list string)
    (callbacks callback_args : option (list Z)) : res (virtio_mmio_device D * Z) :=
  match k with
  | O => Ok (s, 0)
  | S k' =>
      match mm_vrings_info s with
      | None => Fault Out_of_bounds
      | Some infos =>
          vring_vq ← rget infos i;
          cb ← (match callbacks with Some l => rget l i | None => Ok 0 end);
          cb_arg ← (match callback_args with Some l => rget l i | None => Ok 0 end);
          name ← rget names i;
          '(s, vq) ← virtio_mmio_setup_virtqueue s i vring_vq cb cb_arg name;
          if vq =? 0 then Ok (s, - ENODEV)
          else mmio_create_loop k' (i + 1) s names callbacks callback_args
      end
  end.

Definition virtio_mmio_create_virtqueues s (nvqs : Z) (names : option (list string))
    (callbacks callback_args : option (list Z)) : res (virtio_mmio_device D * Z) :=
  match names, mm_vrings_info s with
  | Some names, Some _ => mmio_create_loop (Z.to_nat nvqs) 0 s names callbacks callback_args
  | _, _ => Ok (s, - EINVAL)
  end.

(** ** Interrupts *)

(** The loop of [virtio_mmio_isr]: [vrings_info] was read before it, [vrings_num] is
    read at each iteration. *)
Fixpoint isr_loop (fuel : nat) (i : Z) s (vrings_info : list Z) : res (virtio_mmio_device D) :=
  if i <? mm_vrings_num s then
    match fuel with
    | O => Fault No_fuel
    | S fuel' =>
        a ← rget vrings_info i;
        q ← get_queue s a;
        s ← (if negb (vq_callback (mq_vq q) =? 0)
             then call_vq (vq_callback (mq_vq q)) s (mq_priv q) else Ok s);
        isr_loop fuel' (u32 (i + 1)) s vrings_info
    end
  else Ok s.

Definition virtio_mmio_isr s : res (virtio_mmio_device D) :=
  let vrings_info := default [] (mm_vrings_info s) in
  '(s, isr) ← virtio_mmio_read32 s VIRTIO_MMIO_INTERRUPT_STATUS;
  s ← (if negb (Z.land isr VIRTIO_MMIO_INT_VRING =? 0)
       then isr_loop (Z.to_nat (mm_vrings_num s)) 0 s vrings_info else Ok s);
  virtio_mmio_write32 s VIRTIO_MMIO_INTERRUPT_ACK isr.
End mmio.
