(* ===== verification/MmioSpec.v ===== *)
(** * What the driver over memory-mapped registers does to a virtio device

    The device is any that keeps the registers the way the virtio standard
    describes them: [FeatureRegs] for the feature words, [IrqRegs] for the interrupt
    status, [QueueRegs] for the registers of each queue.  A property that needs a register states it as an instance. *)

From S2P Require Import Prelude MetalUtil MetalIo Vring Virtqueue VirtqueueInv VirtqueueRefine.
From S2P Require Import VirtqueueSys VirtioMmio.

(** The configuration region is at [base] and holds the registers. *)
Record cfg_at {D} (base : Z) (s : virtio_mmio_device D) : Prop := {
  ca_virt : io_virt (mm_cfg_io s) = base;
  ca_pos : 0 < base;
  ca_size : VIRTIO_MMIO_CONFIG <= io_size (mm_cfg_io s);
  ca_top : base + io_size (mm_cfg_io s) < 2 ^ 64
}.

(** The feature words: reading yields the word that was selected last; the word the
    driver writes is kept. *)
Class FeatureRegs {D} (bus_read : D -> Z -> Z -> D * Z) (bus_write : D -> Z -> Z -> D) (base : Z) := {
  offered : D -> Z -> Z;
  selected : D -> Z;
  accepted : D -> Z;
  offered_u32 : forall d i, is_u32 (offered d i);
  read_features : forall d,
    bus_read d (base + VIRTIO_MMIO_DEVICE_FEATURES) 4 = (d, offered d (selected d));
  select_selected : forall d i,
    selected (bus_write d (base + VIRTIO_MMIO_DEVICE_FEATURES_SEL) i) = i;
  select_offered : forall d i,
    offered (bus_write d (base + VIRTIO_MMIO_DEVICE_FEATURES_SEL) i) = offered d;
  select_accepted : forall d i,
    accepted (bus_write d (base + VIRTIO_MMIO_DEVICE_FEATURES_SEL) i) = accepted d;
  accept_accepted : forall d f,
    accepted (bus_write d (base + VIRTIO_MMIO_DRIVER_FEATURES) f) = f;
  accept_offered : forall d f,
    offered (bus_write d (base + VIRTIO_MMIO_DRIVER_FEATURES) f) = offered d
}.

(** The pending interrupts: reading does not change them, acknowledging clears the
    ones that are named. *)
Class IrqRegs {D} (bus_read : D -> Z -> Z -> D * Z) (bus_write : D -> Z -> Z -> D) (base : Z) := {
  pending : D -> Z;
  pending_u32 : forall d, is_u32 (pending d);
  read_pending : forall d, bus_read d (base + VIRTIO_MMIO_INTERRUPT_STATUS) 4 = (d, pending d);
  ack_pending : forall d x,
    pending (bus_write d (base + VIRTIO_MMIO_INTERRUPT_ACK) x) = Z.ldiff (pending d) x
}.

(** The registers of the queues: an access is to the queue that was selected last. *)
Class QueueRegs {D} (bus_read : D -> Z -> Z -> D * Z) (bus_write : D -> Z -> Z -> D) (base : Z) := {
  qreg : D -> Z -> Z -> Z;
  qsel : D -> Z;
  qmax_u32 : forall d i, is_u32 (qreg d i VIRTIO_MMIO_QUEUE_NUM_MAX);
  select_qsel : forall d i, qsel (bus_write d (base + VIRTIO_MMIO_QUEUE_SEL) i) = i;
  select_qreg : forall d i, qreg (bus_write d (base + VIRTIO_MMIO_QUEUE_SEL) i) = qreg d;
  read_qmax : forall d,
    bus_read d (base + VIRTIO_MMIO_QUEUE_NUM_MAX) 4 = (d, qreg d (qsel d) VIRTIO_MMIO_QUEUE_NUM_MAX);
  write_qsel : forall d r v,
    r = VIRTIO_MMIO_QUEUE_NUM \/ r = VIRTIO_MMIO_QUEUE_ALIGN \/ r = VIRTIO_MMIO_QUEUE_PFN ->
    qsel (bus_write d (base + r) v) = qsel d;
  write_qreg : forall d r v i r',
    r = VIRTIO_MMIO_QUEUE_NUM \/ r = VIRTIO_MMIO_QUEUE_ALIGN \/ r = VIRTIO_MMIO_QUEUE_PFN ->
    qreg (bus_write d (base + r) v) i r' =
      if (i =? qsel d) && (r' =? r) then v else qreg d i r'
}.

Section registers.
Context {D : Type}.
Variable bus_read : D -> Z -> Z -> D * Z.
Variable bus_write : D -> Z -> Z -> D.
Variable base : Z.
Implicit Types s : virtio_mmio_device D.

Lemma cfg_virt s off :
  cfg_at base s -> 0 <= off < VIRTIO_MMIO_CONFIG -> metal_io_virt (mm_cfg_io s) off = base + off.
Proof.
  intros [Hv Hp Hs Ht] Ho. unfold VIRTIO_MMIO_CONFIG in *. unfold metal_io_virt. rewrite Hv.
  rewrite (proj2 (Z.eqb_neq base METAL_BAD_VA)) by (unfold METAL_BAD_VA; lia).
  rewrite (proj2 (Z.ltb_lt off _)) by lia. cbn. width.
Qed.

Lemma write32_run s off v :
  cfg_at base s -> 0 <= off < VIRTIO_MMIO_CONFIG ->
  virtio_mmio_write32 bus_write s off v =
    Ok (mm_set_dev s (bus_write (mm_dev s) (base + off) (u32 v))).
Proof.
  intros H Ho. unfold virtio_mmio_write32. rewrite cfg_virt by done.
  destruct H. by rewrite (proj2 (Z.eqb_neq (base + off) 0)) by lia.
Qed.

Lemma read32_run s off d v :
  cfg_at base s -> 0 <= off < VIRTIO_MMIO_CONFIG -> is_u32 v ->
  bus_read (mm_dev s) (base + off) 4 = (d, v) ->
  virtio_mmio_read32 bus_read s off = Ok (mm_set_dev s d, v).
Proof.
  intros H Ho Hu Hr. unfold virtio_mmio_read32, mmio_load. rewrite cfg_virt by done.
  destruct H. rewrite (proj2 (Z.eqb_neq (base + off) 0)), Hr by lia. cbn [mbind res_bind].
  by rewrite u32_id.
Qed.

Lemma cfg_at_dev s d : cfg_at base s -> cfg_at base (mm_set_dev s d).
Proof. by intros []. Qed.

Context {F : FeatureRegs bus_read bus_write base}.

(** Selecting a word and reading it. *)
Lemma select_read s idx :
  cfg_at base s -> is_u32 idx ->
  exists d, virtio_mmio_write32 bus_write s VIRTIO_MMIO_DEVICE_FEATURES_SEL idx =
              Ok (mm_set_dev s d) /\
    virtio_mmio_read32 bus_read (mm_set_dev s d) VIRTIO_MMIO_DEVICE_FEATURES =
      Ok (mm_set_dev s d, offered (mm_dev s) idx) /\
    offered d = offered (mm_dev s) /\ accepted d = accepted (mm_dev s).
Proof.
  intros H Hi. eexists. split; [by apply write32_run|]. rewrite u32_id by done.
  split; [|by rewrite select_offered, select_accepted].
  set (d := bus_write (mm_dev s) (base + VIRTIO_MMIO_DEVICE_FEATURES_SEL) idx).
  replace (offered (mm_dev s) idx) with (offered d (selected d))
    by (unfold d; by rewrite select_selected, select_offered).
  apply (read32_run (mm_set_dev s d) _ d);
    [by apply cfg_at_dev|done|apply offered_u32|apply read_features].
Qed.
End registers.

(** Feature negotiation over the registers: asked for [f], the driver tells the
    device, and keeps for itself, exactly the features of [f] that the device
    offers; asking for the features afterwards yields the same set, and nothing but
    the feature set of the device structure has changed. *)
Theorem virtio_mmio_negotiates {D : Type} (bus_read : D -> Z -> Z -> D * Z)
    (bus_write : D -> Z -> Z -> D) (base : Z) {F : FeatureRegs bus_read bus_write base}
    (s : virtio_mmio_device D) (f : Z) (Hc : cfg_at base s) (Hf : is_u32 f) :
  let agreed := Z.land f (offered (mm_dev s) 0) in
  let v := mm_vdev s in
  exists d d', virtio_mmio_set_features bus_read bus_write s f =
      Ok (mm_set_vdev (mm_set_dev s d) (mk_vdev (vdev_notifyid v) agreed (vdev_role v))) /\
    accepted d = agreed /\ offered d = offered (mm_dev s) /\
    virtio_mmio_get_features bus_read bus_write
      (mm_set_vdev (mm_set_dev s d) (mk_vdev (vdev_notifyid v) agreed (vdev_role v))) =
    Ok (mm_set_vdev (mm_set_dev s d') (mk_vdev (vdev_notifyid v) agreed (vdev_role v)), agreed) /\
    accepted d' = agreed.
Proof.
  intros agreed v.
  assert (Ha : is_u32 agreed) by (apply land_u32; [done|apply offered_u32]).
  destruct (select_read bus_read bus_write base s 0 Hc ltac:(done)) as (d0 & Hw & Hr & Ho & _).
  set (d := bus_write d0 (base + VIRTIO_MMIO_DRIVER_FEATURES) agreed).
  set (s2 := mm_set_vdev (mm_set_dev s d) (mk_vdev (vdev_notifyid v) agreed (vdev_role v))).
  assert (Hc2 : cfg_at base s2) by by destruct Hc.
  destruct (select_read bus_read bus_write base s2 0 Hc2 ltac:(done)) as (d1 & Hw1 & Hr1 & Ho1 & Ha1).
  exists d, d1. split; [|split_and!].
  - unfold virtio_mmio_set_features, _virtio_mmio_set_features. rewrite Hw. cbn [mbind res_bind].
    rewrite Hr. cbn [mbind res_bind]. fold agreed.
    rewrite (write32_run bus_read bus_write base) by (by destruct Hc || done).
    cbn [mbind res_bind]. by rewrite (u32_id agreed).
  - apply accept_accepted.
  - unfold d. by rewrite accept_offered.
  - fold s2. unfold virtio_mmio_get_features, _virtio_mmio_get_features. rewrite Hw1. cbn [mbind res_bind].
    rewrite Hr1. cbn [mbind res_bind mm_vdev mm_set_dev s2 mm_set_vdev vdev_features mm_dev].
    unfold d. rewrite accept_offered, Ho.
    replace (Z.land (offered (mm_dev s) 0) agreed) with agreed; [by rewrite (u32_id agreed)|].
    unfold agreed. by rewrite (Z.land_comm f), Z.land_assoc, Z.land_diag.
  - rewrite Ha1. apply accept_accepted.
Qed.

(** ** Interrupts *)

(** The callbacks that are due, in the order of the array, with their arguments. *)
Fixpoint due_calls (queues : gmap Z mmio_queue) (vqs : list Z) : list (Z * Z) :=
  match vqs with
  | [] => []
  | a :: vqs' =>
      match queues !! a with
      | Some q => if vq_callback (mq_vq q) =? 0 then due_calls queues vqs'
                  else (vq_callback (mq_vq q), mq_priv q) :: due_calls queues vqs'
      | None => due_calls queues vqs'
      end
  end.

(** Calling them one after the other. *)
Fixpoint run_calls {D} (call_vq : Z -> virtio_mmio_device D -> Z -> res (virtio_mmio_device D))
    (calls : list (Z * Z)) (s : virtio_mmio_device D) : res (virtio_mmio_device D) :=
  match calls with
  | [] => Ok s
  | (f, arg) :: calls' => s ← call_vq f s arg; run_calls call_vq calls' s
  end.

(** What a callback may not change: the number of the virtqueues, the region of the
    registers, and which callback a virtqueue has. *)
Record same_setup {D} (s s' : virtio_mmio_device D) : Prop := {
  ss_num : mm_vrings_num s' = mm_vrings_num s;
  ss_cfg : mm_cfg_io s' = mm_cfg_io s;
  ss_queue : forall a, (fun q => (vq_callback (mq_vq q), mq_priv q)) <$> mm_queues s' !! a =
                       (fun q => (vq_callback (mq_vq q), mq_priv q)) <$> mm_queues s !! a
}.

#[export] Instance same_setup_preorder {D} : PreOrder (@same_setup D).
Proof.
  split; [done|]. intros a b c [A1 A2 A3] [B1 B2 B3].
  split; [congruence..|]. intros x. by rewrite B3.
Qed.

Section interrupts.
Context {D : Type}.
Variable call_vq : Z -> virtio_mmio_device D -> Z -> res (virtio_mmio_device D).
Hypothesis Hcall : forall f s arg s', call_vq f s arg = Ok s' -> same_setup s s'.
Implicit Types s : virtio_mmio_device D.

Lemma due_calls_same s s' vqs :
  same_setup s s' -> due_calls (mm_queues s') vqs = due_calls (mm_queues s) vqs.
Proof.
  intros H. induction vqs as [|a vqs IH]; [done|]. cbn [due_calls].
  pose proof (ss_queue _ _ H a) as Hq.
  destruct (mm_queues s' !! a), (mm_queues s !! a); cbn in Hq; try done.
  injection Hq as -> ->. by rewrite IH.
Qed.

Lemma isr_loop_run pre vqs rest s :
  mm_vrings_num s = zlen pre + zlen vqs -> zlen pre + zlen vqs < 2 ^ 32 ->
  Forall (fun a => is_Some (mm_queues s !! a)) vqs ->
  isr_loop call_vq (length vqs) (zlen pre) s (pre ++ vqs ++ rest) =
    run_calls call_vq (due_calls (mm_queues s) vqs) s.
Proof.
  revert pre s. induction vqs as [|a vqs IH]; intros pre s Hn Hb Hq; cbn [isr_loop length].
  { rewrite Hn, (proj2 (Z.ltb_ge _ _)); [done|]. change (zlen (@nil Z)) with 0. lia. }
  rewrite zlen_cons in *. pose proof (zlen_nonneg vqs). pose proof (zlen_nonneg pre).
  rewrite Hn, (proj2 (Z.ltb_lt _ _)) by lia.
  rewrite (rget_Some _ _ a) by (rewrite zget_app_r, Z.sub_diag by lia; done).
  cbn [mbind res_bind]. apply Forall_cons_1 in Hq as [[q Hq] Hqs].
  unfold get_queue. cbn [due_calls]. rewrite Hq. cbn [mbind res_bind].
  assert (Hrec : forall s', same_setup s s' ->
    isr_loop call_vq (length vqs) (u32 (zlen pre + 1)) s' (pre ++ (a :: vqs) ++ rest) =
    run_calls call_vq (due_calls (mm_queues s) vqs) s').
  { intros s' Hs'. rewrite <- (due_calls_same s s' vqs Hs').
    rewrite u32_id by (unfold is_u32; lia).
    assert (Hz : zlen (pre ++ [a]) = zlen pre + 1) by by rewrite zlen_app.
    rewrite <- Hz, <- app_comm_cons, (cons_middle a pre (vqs ++ rest)), app_assoc.
    apply IH; rewrite ?(ss_num _ _ Hs'), ?Hn, ?Hz; [lia..|].
    eapply list.Forall_impl; [exact Hqs|]. intros x [qx Hx]. pose proof (ss_queue _ _ Hs' x) as Hf.
    rewrite Hx in Hf. destruct (mm_queues s' !! x); [done|]. discriminate. }
  destruct (vq_callback (mq_vq q) =? 0) eqn:E; cbn [negb].
  - cbn [mbind res_bind]. by apply Hrec.
  - cbn [run_calls]. destruct (call_vq _ s _) as [s'|] eqn:Ec; [|done].
    cbn [mbind res_bind]. apply Hrec. by apply (Hcall _ _ _ _ Ec).
Qed.

Lemma run_calls_same calls s s' : run_calls call_vq calls s = Ok s' -> same_setup s s'.
Proof.
  revert s. induction calls as [|[f arg] calls IH]; intros s; cbn [run_calls]; [by intros [= ->]|].
  destruct (call_vq f s arg) as [s1|] eqn:E; [|done]. cbn [mbind res_bind]. intros H.
  etrans; [by apply (Hcall _ _ _ _ E)|by apply IH].
Qed.
End interrupts.

(** C33: An interrupt runs every virtqueue's callback exactly once, in the order the
    virtqueues were set up, when the interrupt is for the virtqueues, and none
    otherwise; then it acknowledges exactly the interrupts that were pending when it
    began, so one that arrives while the callbacks run is not lost.  A failing
    callback is the only failure. *)
Theorem virtio_mmio_isr_spec {D : Type} (bus_read : D -> Z -> Z -> D * Z)
    (bus_write : D -> Z -> Z -> D) (base : Z) {I : IrqRegs bus_read bus_write base}
    (call_vq : Z -> virtio_mmio_device D -> Z -> res (virtio_mmio_device D))
    (s : virtio_mmio_device D) (vqs rest : list Z)
    (Hcall : forall f s arg s', call_vq f s arg = Ok s' -> same_setup s s')
    (Hc : cfg_at base s) (Hinfo : mm_vrings_info s = Some (vqs ++ rest))
    (Hnum : mm_vrings_num s = zlen vqs) (Hmax : zlen vqs < 2 ^ 32)
    (Hq : Forall (fun a => is_Some (mm_queues s !! a)) vqs) :
  let isr := pending (mm_dev s) in
  let calls := if Z.testbit isr 0 then due_calls (mm_queues s) vqs else [] in
  match run_calls call_vq calls s with
  | Ok s1 => exists d, virtio_mmio_isr bus_read bus_write call_vq s = Ok (mm_set_dev s1 d) /\
                       pending d = Z.ldiff (pending (mm_dev s1)) isr
  | Fault e => virtio_mmio_isr bus_read bus_write call_vq s = Fault e
  end.
Proof.
  intros isr calls. unfold virtio_mmio_isr. rewrite Hinfo.
  rewrite (read32_run bus_read bus_write base s _ (mm_dev s) isr);
    [|done|done|apply pending_u32|apply read_pending].
  cbn [mbind res_bind]. change (default [] (Some (vqs ++ rest))) with (vqs ++ rest).
  replace (mm_set_dev s (mm_dev s)) with s by by destruct s.
  assert (Hl : (if negb (Z.land isr VIRTIO_MMIO_INT_VRING =? 0)
       then isr_loop call_vq (Z.to_nat (mm_vrings_num s)) 0 s (vqs ++ rest) else Ok s)
     = run_calls call_vq calls s).
  { unfold calls, VIRTIO_MMIO_INT_VRING. change 1 with (Z.ones 1). rewrite Z.land_ones by lia.
    rewrite Z.bit0_odd. change (2 ^ 1) with 2. rewrite Zmod_odd. destruct (Z.odd isr); [|done].
    cbn [Z.eqb negb]. rewrite Hnum. unfold zlen at 1. rewrite Nat2Z.id.
    apply (isr_loop_run call_vq Hcall [] vqs rest s); [exact Hnum|exact Hmax|exact Hq]. }
  rewrite Hl. destruct (run_calls call_vq calls s) as [s1|] eqn:Er; [|done].
  cbn [mbind res_bind]. apply (run_calls_same call_vq Hcall) in Er as [Hn1 Hc1 Hq1].
  eexists. rewrite (write32_run bus_read bus_write base);
    [|destruct Hc; split; rewrite ?Hc1; done|done].
  rewrite u32_id by apply pending_u32. split; [done|apply ack_pending].
Qed.

(** ** Creating the virtqueues *)

(** Every element of the array is in use. *)
Definition vrings_full {D} (s : virtio_mmio_device D) : Prop :=
  exists infos, mm_vrings_info s = Some infos /\ zlen infos <= mm_vrings_num s.

Section full.
Context {D : Type}.
Variable bld : build.
Variable bus_read : D -> Z -> Z -> D * Z.
Variable bus_write : D -> Z -> Z -> D.
Variable notify_fn : Z.
Implicit Types s : virtio_mmio_device D.

Lemma write32_full s off v s' :
  virtio_mmio_write32 bus_write s off v = Ok s' -> vrings_full s -> vrings_full s'.
Proof. unfold virtio_mmio_write32. destruct (_ =? 0); [done|]. by intros [= <-]. Qed.

Lemma read32_full s off s' v :
  virtio_mmio_read32 bus_read s off = Ok (s', v) -> vrings_full s -> vrings_full s'.
Proof.
  unfold virtio_mmio_read32, mmio_load. destruct (_ =? 0); [done|].
  destruct (bus_read _ _ _) as [d x]. cbn [mbind res_bind]. by intros [= <- _].
Qed.

Lemma setup_registers_full s idx vq s' :
  setup_registers bus_read bus_write s idx vq = Ok s' -> vrings_full s -> vrings_full s'.
Proof.
  unfold setup_registers. intros H Hf. 
  repeat first [res_step H | match type of H with (let '(_, _) := ?p in _) = _ => destruct p end].
  eauto 10 using write32_full, read32_full.
Qed.

Lemma setup_finish_full s a q s' : vrings_full s -> setup_finish bld s a q <> Ok s'.
Proof.
  intros (infos & Hi & Hn) H. unfold setup_finish in H. rewrite Hi in H.
  unfold rset in H. pose proof (zlen_nonneg infos).
  rewrite (zget_None_ge infos) in H by lia. discriminate H.
Qed.

Lemma setup_virtqueue_full s idx vq cb arg name s' r :
  virtio_mmio_setup_virtqueue bld bus_read bus_write notify_fn s idx vq cb arg name = Ok (s', r) ->
  vrings_full s -> r = 0.
Proof.
  unfold virtio_mmio_setup_virtqueue, virtio_mmio_get_max_elem. intros H Hf.
  destruct (negb (_ =? VIRTIO_DEV_DRIVER)); [by injection H as _ <-|].
  destruct (vq =? 0); [by injection H as _ <-|].
  destruct (negb (_ =? 1)); [by injection H as _ <-|].
  destruct (virtio_mmio_write32 _ _ _ _) as [s1|] eqn:E1; [|done]. cbn [mbind res_bind] in H.
  destruct (virtio_mmio_read32 _ _ _) as [[s2 ?]|] eqn:E2; [|done]. cbn [mbind res_bind] in H.
  assert (Hf2 : vrings_full s2) by eauto using write32_full, read32_full.
  destruct (get_queue s2 vq) as [q|]; [|done]. cbn [mbind res_bind] in H.
  destruct (_ && _ && _).
  - destruct (virtqueue_create _ _ _ _ _ _ _ _ _) as [[[ret v] ring]|]; [|done].
    cbn [mbind res_bind] in H. destruct (negb (ret =? 0)); [by injection H as _ <-|].
    destruct (setup_registers _ _ _ _ _) as [s3|] eqn:E3; [|done]. cbn [mbind res_bind] in H.
    destruct (setup_finish _ _ _ _) as [s4|] eqn:E4; [|done].
    destruct (setup_finish_full s3 _ _ s4 (setup_registers_full _ _ _ _ E3 Hf2) E4).
  - destruct (virtqueue_create_null _ _); [|done]. by injection H as _ <-.
Qed.

Lemma register_loop_len k i infos vqs l : register_loop k i infos vqs = Ok l -> zlen l = zlen infos.
Proof.
  revert i infos. induction k as [|k IH]; intros i infos H; cbn [register_loop] in H.
  { by injection H as ->. }
  res_step H. res_step H. rewrite (IH _ _ H). unfold rset in E0.
  destruct (zget infos i); [|done]. injection E0 as <-. apply zlen_zset.
Qed.
End full.

(** The virtqueues of a device set up by [virtio_mmio_register_device] cannot be
    created: registering allocates the array for exactly the virtqueues it is given
    and counts them all, and setting one up stores it after the last one it counts.
    So creating them never reports success, whatever the device; it refuses, or it
    writes past the array. *)
Theorem virtio_mmio_registered_refused {D : Type} (bld : build) (bus_read : D -> Z -> Z -> D * Z)
    (bus_write : D -> Z -> Z -> D) (notify_fn : Z) (s s1 s2 : virtio_mmio_device D)
    (vqs : list Z) (n nvqs r : Z) (names : list string) (cbs args : option (list Z))
    (Hn : 0 <= n < 2 ^ 31)
    (Hreg : virtio_mmio_register_device s n vqs = Ok s1) (Hnvqs : 0 < nvqs)
    (Hcreate : virtio_mmio_create_virtqueues bld bus_read bus_write notify_fn s1 nvqs (Some names) cbs args
               = Ok (s2, r)) :
  r <> 0.
Proof.
  assert (Hf : vrings_full s1).
  { unfold virtio_mmio_register_device in Hreg. res_step Hreg. injection Hreg as <-.
    exists a. split; [done|]. cbn [mm_vrings_num mm_set_vrings].
    rewrite (register_loop_len _ _ _ _ _ E), zlen_replicate, u32_id by (unfold is_u32; lia). lia. }
  unfold virtio_mmio_create_virtqueues in Hcreate.
  destruct (mm_vrings_info s1) as [infos|] eqn:Ei; [|injection Hcreate as _ <-; by vm_compute].
  destruct (Z.to_nat nvqs) as [|k] eqn:Ek; [lia|]. cbn [mmio_create_loop] in Hcreate.
  rewrite Ei in Hcreate. do 4 (res_step Hcreate).
  destruct (virtio_mmio_setup_virtqueue _ _ _ _ _ _ _ _ _ _) as [[s3 r3]|] eqn:Es; [|done].
  cbn [mbind res_bind] in Hcreate. rewrite (setup_virtqueue_full _ _ _ _ _ _ _ _ _ _ _ _ Es Hf) in Hcreate.
  injection Hcreate as _ <-. by vm_compute.
Qed.

Section setup.
Context {D : Type}.
Variable bld : build.
Variable bus_read : D -> Z -> Z -> D * Z.
Variable bus_write : D -> Z -> Z -> D.
Variable base : Z.
Context {Q : QueueRegs bus_read bus_write base}.
Implicit Types s : virtio_mmio_device D.

(** Selecting a queue and reading its maximum. *)
Lemma max_elem_run s idx :
  cfg_at base s -> is_u32 idx ->
  exists d, virtio_mmio_write32 bus_write s VIRTIO_MMIO_QUEUE_SEL idx = Ok (mm_set_dev s d) /\
    virtio_mmio_read32 bus_read (mm_set_dev s d) VIRTIO_MMIO_QUEUE_NUM_MAX =
      Ok (mm_set_dev s d, qreg (mm_dev s) idx VIRTIO_MMIO_QUEUE_NUM_MAX) /\
    qsel d = idx /\ qreg d = qreg (mm_dev s).
Proof.
  intros H Hi. eexists. split; [by apply (write32_run bus_read bus_write base)|].
  rewrite u32_id by done.
  set (d := bus_write (mm_dev s) (base + VIRTIO_MMIO_QUEUE_SEL) idx).
  split; [|split; [apply select_qsel|apply select_qreg]].
  replace (qreg (mm_dev s) idx) with (qreg d (qsel d))
    by (unfold d; by rewrite select_qsel, select_qreg).
  apply (read32_run bus_read bus_write base (mm_set_dev s d) _ d);
    [by apply cfg_at_dev|done|apply qmax_u32|apply read_qmax].
Qed.

(** The registers of the queue once it is set up. *)
Lemma setup_registers_run s idx vq phys :
  cfg_at base s -> is_u32 idx -> 0 < vq_nentries vq < 2 ^ 16 ->
  vq_nentries vq <= qreg (mm_dev s) idx VIRTIO_MMIO_QUEUE_NUM_MAX ->
  metal_io_virt_to_phys (mm_shm_io s) (vr_desc (vq_ring vq)) = Ok phys ->
  0 <= phys < 2 ^ 44 ->
  exists d, setup_registers bus_read bus_write s idx vq = Ok (mm_set_dev s d) /\
    qreg d idx VIRTIO_MMIO_QUEUE_NUM = vq_nentries vq /\
    qreg d idx VIRTIO_MMIO_QUEUE_ALIGN = 4096 /\
    qreg d idx VIRTIO_MMIO_QUEUE_PFN = phys / 4096 /\
    (forall i r, i <> idx -> qreg d i r = qreg (mm_dev s) i r).
Proof.
  intros Hc Hi Hn Hm Hp Hb. unfold setup_registers.
  destruct (max_elem_run s idx Hc Hi) as (d0 & Hw & Hr & Hs & Hq).
  rewrite Hw. cbn [mbind res_bind]. rewrite Hr. cbn [mbind res_bind].
  rewrite (proj2 (Z.eqb_neq (qreg _ _ _) 0)) by lia. cbn [negb rassert mbind res_bind].
  rewrite (proj2 (Z.leb_le _ _) Hm). cbn [rassert mbind res_bind].
  assert (Hwr : forall d off v, 0 <= off < VIRTIO_MMIO_CONFIG -> is_u32 v ->
    virtio_mmio_write32 bus_write (mm_set_dev s d) off v =
      Ok (mm_set_dev s (bus_write d (base + off) v))).
  { intros d off v Ho Hv. rewrite (write32_run bus_read bus_write base) by (done || by apply cfg_at_dev).
    by rewrite u32_id. }
  rewrite Hwr by (done || (unfold is_u32; lia)). cbn [mbind res_bind].
  rewrite Hwr by done. cbn [mbind res_bind mm_shm_io mm_set_dev]. rewrite Hp. cbn [mbind res_bind].
  eexists. split; [apply Hwr; [done|unfold is_u32; mlia]|].
  rewrite !write_qreg, !write_qsel, !Hs, Z.eqb_refl by auto. cbn [andb Z.eqb].
  split_and!; try done. intros i r Hne. rewrite !write_qreg, !write_qsel, !Hs by auto.
  rewrite (proj2 (Z.eqb_neq i idx) Hne). cbn [andb]. by rewrite Hq.
Qed.
End setup.

(** The driver's interrupts can be enabled whenever the used index is within the
    ring; the descriptors are left alone. *)
Lemma enable_cb_driver bld dev vq ring :
  vdev_role dev = VIRTIO_DEV_DRIVER -> VIRTIO_ROLE_IS_DRIVER bld dev = true ->
  u16 (used_idx (r_used ring) - vq_used_cons_idx vq) <= vq_nentries vq ->
  exists ring' r, virtqueue_enable_cb bld dev vq ring = Ok (ring', r) /\ r_desc ring' = r_desc ring.
Proof.
  intros Hr Hd Hu. unfold virtqueue_enable_cb, vq_ring_enable_interrupt.
  assert (He : VIRTIO_ROLE_IS_DEVICE bld dev = false).
  { unfold VIRTIO_ROLE_IS_DEVICE. rewrite Hr. destruct (VIRTIO_DEVICE_SUPPORT bld); [|done].
    apply andb_false_r. }
  rewrite Hd, He. cbn iota.
  set (ring1 := if event_idx_on dev then _ else _).
  assert (H1 : r_used ring1 = r_used ring /\ r_desc ring1 = r_desc ring)
    by (unfold ring1; destruct (event_idx_on dev); done).
  destruct H1 as [H1 H2]. unfold virtqueue_nused. rewrite H1, (proj2 (Z.leb_le _ _) Hu).
  unfold VQASSERT. assert (Ha : (if VQUEUE_DEBUG bld then rassert true else Ok tt) = Ok tt)
    by by destruct (VQUEUE_DEBUG bld).
  rewrite Ha. cbn [mbind res_bind].
  destruct (0 <? _); eexists _, _; (split; [reflexivity|exact H2]).
Qed.

(** The virtqueue a successful set-up leaves: the name, the number, the functions and
    the region are new, the free descriptors are all of them. *)
Definition set_up_vq (vq : virtqueue) (idx : Z) (name : string) (cb notify : Z) (io : metal_io_region)
  : virtqueue :=
  let n := vq_nentries vq in
  mk_vq name (u16 idx) n cb notify (vring_init n (vr_desc (vq_ring vq)) VIRTIO_MMIO_VRING_ALIGNMENT) n
    (vq_queued_cnt vq) io (vq_desc_head_idx vq) (vq_used_cons_idx vq) (vq_available_idx vq)
    (vq_inuse vq) (vq_descx vq).

Lemma create_configured_run bld dev vq ring id name cb notify io :
  VIRTIO_ROLE_IS_DRIVER bld dev = true ->
  pow2 (vq_nentries vq) -> vq_nentries vq <= VQ_RING_DESC_CHAIN_END ->
  zlen (r_desc ring) = vq_nentries vq ->
  let info := mk_alloc (vr_desc (vq_ring vq)) VIRTIO_MMIO_VRING_ALIGNMENT (vq_nentries vq) in
  exists vq' desc,
    virtqueue_create bld dev (u16 id) name (Some info) cb notify vq ring =
      Ok (VQUEUE_SUCCESS, vq', ring_set_desc ring desc) /\
    virtqueue_set_shmem_io vq' io = set_up_vq vq id name cb notify io /\
    free_path desc (zseq 0 (Z.to_nat (vq_nentries vq))).
Proof.
  intros Hd Hn Hm Hl info. pose proof (pow2_pos _ Hn).
  destruct (ring_init_run bld dev
    (mk_vq name (u16 id) (vq_nentries vq) cb notify (vq_ring vq) (vq_nentries vq) (vq_queued_cnt vq)
       (vq_shm_io vq) (vq_desc_head_idx vq) (vq_used_cons_idx vq) (vq_available_idx vq)
       (vq_inuse vq) (vq_descx vq))
    ring (ai_vaddr info) (i32 (ai_align info)) (vq_nentries vq))
    as (desc & vq' & Hrun & _ & Hf & Evq); [done..|lia|].
  exists vq', desc. split; [|split; [by rewrite Evq|done]].
  unfold virtqueue_create. cbn [ai_num_descs info]. rewrite create_status by done.
  change (VQUEUE_SUCCESS =? VQUEUE_SUCCESS) with true. cbn iota. by run (exact Hrun).
Qed.

Lemma setup_finish_run {D} bld (s : virtio_mmio_device D) a q infos :
  mm_vrings_info s = Some infos -> 0 <= mm_vrings_num s < zlen infos ->
  vdev_role (mm_vdev s) = VIRTIO_DEV_DRIVER -> VIRTIO_ROLE_IS_DRIVER bld (mm_vdev s) = true ->
  u16 (used_idx (r_used (mq_ring q)) - vq_used_cons_idx (mq_vq q)) <= vq_nentries (mq_vq q) ->
  exists ring', r_desc ring' = r_desc (mq_ring q) /\
    setup_finish bld s a q =
      Ok (mm_set_queue (mm_set_vrings s (zset infos (mm_vrings_num s) a) (u32 (mm_vrings_num s + 1)))
            a (mk_mq (mq_vq q) ring' (mq_priv q))).
Proof.
  intros Hi Hr H1 H2 Hu. unfold setup_finish. rewrite Hi, rset_ok by done. cbn [mbind res_bind].
  destruct (enable_cb_driver bld (mm_vdev s) (mq_vq q) (mq_ring q) H1 H2 Hu) as (ring' & r & He & Hd).
  exists ring'. split; [done|]. cbn [mm_vdev mm_set_vrings]. by rewrite He.
Qed.

(** Setting up a virtqueue the caller has configured, on a device with room in its
    array: it succeeds, the device's registers of this queue, and of no other, hold
    the size of the ring, its alignment and the page its descriptors are in, which
    is where the ring is when it is aligned to a page; the ring's descriptors are
    one free chain, and the virtqueue is the next one of the device. *)
Theorem virtio_mmio_setup_spec {D : Type} (bld : build) (bus_read : D -> Z -> Z -> D * Z)
    (bus_write : D -> Z -> Z -> D) (base notify : Z) {Q : QueueRegs bus_read bus_write base}
    (s : virtio_mmio_device D) (idx vq cb arg phys : Z) (name : string) (q : mmio_queue)
    (infos : list Z)
    (Hc : cfg_at base s) (Hrole : vdev_role (mm_vdev s) = VIRTIO_DEV_DRIVER)
    (Hdrv : VIRTIO_ROLE_IS_DRIVER bld (mm_vdev s) = true) (Hver : vid_version (mm_id s) = 1)
    (Hidx : is_u32 idx) (Hvq : vq <> 0) (Hq : mm_queues s !! vq = Some q)
    (Hn : pow2 (vq_nentries (mq_vq q))) (Hn' : vq_nentries (mq_vq q) <= VQ_RING_DESC_CHAIN_END)
    (Hfree : vq_free_cnt (mq_vq q) = vq_nentries (mq_vq q)) (Hdesc : vr_desc (vq_ring (mq_vq q)) <> 0)
    (Hlen : zlen (r_desc (mq_ring q)) = vq_nentries (mq_vq q))
    (Hused : u16 (used_idx (r_used (mq_ring q)) - vq_used_cons_idx (mq_vq q)) <= vq_nentries (mq_vq q))
    (Hmax : vq_nentries (mq_vq q) <= qreg (mm_dev s) idx VIRTIO_MMIO_QUEUE_NUM_MAX)
    (Hphys : metal_io_virt_to_phys (mm_shm_io s) (vr_desc (vq_ring (mq_vq q))) = Ok phys)
    (Halign : 0 <= phys < 2 ^ 44 /\ phys mod 4096 = 0)
    (Hinfo : mm_vrings_info s = Some infos) (Hroom : 0 <= mm_vrings_num s < zlen infos) :
  exists s' ring',
    virtio_mmio_setup_virtqueue bld bus_read bus_write notify s idx vq cb arg name = Ok (s', vq) /\
    qreg (mm_dev s') idx VIRTIO_MMIO_QUEUE_NUM = vq_nentries (mq_vq q) /\
    qreg (mm_dev s') idx VIRTIO_MMIO_QUEUE_ALIGN = 4096 /\
    qreg (mm_dev s') idx VIRTIO_MMIO_QUEUE_PFN * 4096 = phys /\
    (forall i r, i <> idx -> qreg (mm_dev s') i r = qreg (mm_dev s) i r) /\
    mm_queues s' = <[vq := mk_mq (set_up_vq (mq_vq q) idx name cb notify (mm_shm_io s)) ring' arg]>
                     (mm_queues s) /\
    free_path (r_desc ring') (zseq 0 (Z.to_nat (vq_nentries (mq_vq q)))) /\
    mm_vrings_info s' = Some (zset infos (mm_vrings_num s) vq) /\
    mm_vrings_num s' = u32 (mm_vrings_num s + 1).
Proof.
  unfold virtio_mmio_setup_virtqueue, virtio_mmio_get_max_elem, get_queue. rewrite Hrole, Hver.
  rewrite (proj2 (Z.eqb_neq _ _) Hvq), !Z.eqb_refl. cbn [negb]. pose proof (pow2_pos _ Hn).
  destruct (max_elem_run bus_read bus_write base s idx Hc Hidx) as (d0 & Hw & Hr & _ & Hq0).
  rewrite Hw. cbn [mbind res_bind]. rewrite Hr. cbn [mbind res_bind mm_queues mm_set_dev].
  rewrite Hq. cbn [mbind res_bind].
  rewrite Hfree, Z.eqb_refl, (proj2 (Z.eqb_neq (vq_nentries _) 0)), (proj2 (Z.eqb_neq _ _) Hdesc) by lia.
  cbn [negb andb mm_vdev].
  destruct (create_configured_run bld (mm_vdev s) (mq_vq q) (mq_ring q) idx name cb notify (mm_shm_io s)
    Hdrv Hn Hn' Hlen) as (v & desc & Hcr & Hv & Hf).
  change (mm_vdev (mm_set_dev s d0)) with (mm_vdev s). rewrite Hcr. cbn [mbind res_bind].
  change (negb (VQUEUE_SUCCESS =? 0)) with false. cbn iota.
  change (mm_shm_io (mm_set_dev s d0)) with (mm_shm_io s). rewrite Hv.
  set (q1 := mk_mq (set_up_vq _ _ _ _ _ _) (ring_set_desc (mq_ring q) desc) arg).
  destruct (setup_registers_run bus_read bus_write base (mm_set_queue (mm_set_dev s d0) vq q1) idx
    (mq_vq q1) phys) as (d1 & Hs1 & R1 & R2 & R3 & R4); [by destruct Hc|done| | |exact Hphys|lia|].
  { cbn. unfold VQ_RING_DESC_CHAIN_END in Hn'. lia. }
  { cbn. by rewrite Hq0. }
  rewrite Hs1. cbn [mbind res_bind].
  destruct (setup_finish_run bld (mm_set_dev (mm_set_queue (mm_set_dev s d0) vq q1) d1) vq q1 infos)
    as (ring' & Hd & Hfin); [done..|].
  rewrite Hfin. cbn [mbind res_bind]. eexists _, ring'. split; [reflexivity|].
  split_and!; [exact R1|exact R2| | | | |done|done].
  - cbn. rewrite R3. mlia.
  - intros i r Hne. cbn. rewrite R4 by done. cbn. by rewrite Hq0.
  - cbn. by rewrite insert_insert_eq.
  - by rewrite Hd.
Qed.

(** ** A device

    Registers of a device with two feature bits, one interrupt and queues of up to
    sixteen descriptors, at the address 4096. *)
Record demo_regs := mk_dr {
  dr_fsel : Z;
  dr_accepted : Z;
  dr_pending : bool;
  dr_qsel : Z;
  dr_queue : Z -> Z -> Z
}.

Definition demo_offered (i : Z) : Z := if i =? 0 then 5 else 0.
Definition demo_qreg (d : demo_regs) (i r : Z) : Z :=
  if r =? VIRTIO_MMIO_QUEUE_NUM_MAX then 16 else dr_queue d i r.

Definition demo_bus_read (d : demo_regs) (a width : Z) : demo_regs * Z :=
  let r := a - 4096 in
  if r =? VIRTIO_MMIO_DEVICE_FEATURES then (d, demo_offered (dr_fsel d))
  else if r =? VIRTIO_MMIO_INTERRUPT_STATUS then (d, Z.b2z (dr_pending d))
  else if r =? VIRTIO_MMIO_QUEUE_NUM_MAX then (d, 16)
  else (d, 0).

Definition demo_bus_write (d : demo_regs) (a v : Z) : demo_regs :=
  let r := a - 4096 in
  if r =? VIRTIO_MMIO_DEVICE_FEATURES_SEL
  then mk_dr v (dr_accepted d) (dr_pending d) (dr_qsel d) (dr_queue d)
  else if r =? VIRTIO_MMIO_DRIVER_FEATURES
  then mk_dr (dr_fsel d) v (dr_pending d) (dr_qsel d) (dr_queue d)
  else if r =? VIRTIO_MMIO_INTERRUPT_ACK
  then mk_dr (dr_fsel d) (dr_accepted d) (dr_pending d && negb (Z.testbit v 0)) (dr_qsel d) (dr_queue d)
  else if r =? VIRTIO_MMIO_QUEUE_SEL
  then mk_dr (dr_fsel d) (dr_accepted d) (dr_pending d) v (dr_queue d)
  else mk_dr (dr_fsel d) (dr_accepted d) (dr_pending d) (dr_qsel d)
         (fun i r' => if (i =? dr_qsel d) && (r' =? r) then v else dr_queue d i r').

#[export, program] Instance demo_features : FeatureRegs demo_bus_read demo_bus_write 4096 := {
  offered := fun _ => demo_offered;
  selected := dr_fsel;
  accepted := dr_accepted
}.
Next Obligation. intros d i. unfold demo_offered, is_u32. destruct (i =? 0); lia. Qed.
Solve All Obligations with done.

#[export, program] Instance demo_irqs : IrqRegs demo_bus_read demo_bus_write 4096 := {
  pending := fun d => Z.b2z (dr_pending d)
}.
Next Obligation. intros d. unfold is_u32. destruct (dr_pending d); cbn; lia. Qed.
Next Obligation. done. Qed.
Next Obligation.
  intros d x. cbv beta. change (dr_pending (demo_bus_write _ _ x)) with (dr_pending d && negb (Z.testbit x 0)).
  apply Z.bits_inj'. intros i Hi. rewrite Z.ldiff_spec.
  destruct (dr_pending d); cbn [andb Z.b2z]; [|by rewrite Z.bits_0].
  destruct (decide (i = 0)) as [->|Hne]; [by destruct (Z.testbit x 0)|].
  change 1 with (2 ^ 0). rewrite Z.pow2_bits_false by lia.
  destruct (Z.testbit x 0); cbn [negb Z.b2z]; [apply Z.bits_0|].
  change 1 with (2 ^ 0). by rewrite Z.pow2_bits_false by lia.
Qed.

#[export, program] Instance demo_queues : QueueRegs demo_bus_read demo_bus_write 4096 := {
  qreg := demo_qreg;
  qsel := dr_qsel
}.
Next Obligation. intros d i. by vm_compute. Qed.
Next Obligation. done. Qed.
Next Obligation. done. Qed.
Next Obligation. done. Qed.
Next Obligation. by intros d r v [->|[->| ->]]. Qed.
Next Obligation.
  intros d r v i r' Hr. unfold demo_qreg.
  destruct Hr as [->|[->| ->]]; cbn [demo_bus_write];
    destruct (r' =? VIRTIO_MMIO_QUEUE_NUM_MAX) eqn:E; try done;
    apply Z.eqb_eq in E as ->; by rewrite andb_false_r.
Qed.

Definition demo_mmio (role : Z) (infos : list Z) (num : Z) : virtio_mmio_device demo_regs :=
  let q := mk_mq (mk_vq "" 0 8 900 0 (vring_init 8 65536 4096) 8 0 NULL_IO 0 0 0 false
                    (replicate 8 (mk_dextra 0 0))) (zero_ring 8) 77 in
  mk_mmio (mk_vdev 0 0 role) (mk_vid 3 1 1) (Some infos) num
    (metal_io_init 4096 (Some [4096]) 512 64 0 None)
    (metal_io_init 65536 (Some [1048576]) 8192 64 0 None)
    (mk_dmem 4096 512) (mk_dmem 1048576 8192) 0 0 {[10 := q; 20 := q]}
    (mk_dr 0 0 true 0 (fun _ _ => 0)).

Lemma demo_mmio_cfg role infos num : cfg_at 4096 (demo_mmio role infos num).
Proof. split; cbn; unfold VIRTIO_MMIO_CONFIG; lia. Qed.

Lemma virtio_mmio_negotiates_witness :
  exists s', virtio_mmio_set_features demo_bus_read demo_bus_write (demo_mmio 0 [] 0) 12 = Ok s' /\
    vdev_features (mm_vdev s') = 4 /\ dr_accepted (mm_dev s') = 4.
Proof.
  destruct (virtio_mmio_negotiates demo_bus_read demo_bus_write 4096 (demo_mmio 0 [] 0) 12)
    as (d & d' & Hrun & Ha & _).
  - apply demo_mmio_cfg.
  - vm_compute. split; [discriminate|reflexivity].
  - eexists. split; [exact Hrun|]. split; [reflexivity|exact Ha].
Defined.

(** The callback counts its calls in the notification number of the device. *)
Definition demo_call (f : Z) (s : virtio_mmio_device demo_regs) (arg : Z)
  : res (virtio_mmio_device demo_regs) :=
  let v := mm_vdev s in
  Ok (mm_set_vdev s (mk_vdev (vdev_notifyid v + arg) (vdev_features v) (vdev_role v))).

Lemma virtio_mmio_isr_spec_witness :
  exists s', virtio_mmio_isr demo_bus_read demo_bus_write demo_call (demo_mmio 0 [10; 20; 0] 2) = Ok s' /\
    vdev_notifyid (mm_vdev s') = 154 /\ Z.b2z (dr_pending (mm_dev s')) = 0.
Proof.
  destruct (virtio_mmio_isr_spec demo_bus_read demo_bus_write 4096 demo_call
    (demo_mmio 0 [10; 20; 0] 2) [10; 20] [0]) as (d & Hrun & Hp).
  - intros f s arg s' [= <-]. split; reflexivity.
  - apply demo_mmio_cfg.
  - reflexivity.
  - reflexivity.
  - reflexivity.
  - repeat constructor; eexists; reflexivity.
  - eexists. split; [exact Hrun|]. split; [reflexivity|exact Hp].
Defined.

(** Refused: the device is not in the driver's role. *)
Lemma virtio_mmio_registered_refused_witness : - ENODEV <> 0.
Proof.
  refine (virtio_mmio_registered_refused demo_release demo_bus_read demo_bus_write 5
    (demo_mmio 1 [] 0) _ _ [10; 20] 2 2 (- ENODEV) ["rx"; "tx"] None None _ eq_refl _ eq_refl); lia.
Defined.

(** The overrun: in the driver's role the first virtqueue is stored past the array. *)
Example virtio_mmio_registered_overrun :
  exists s, virtio_mmio_register_device (demo_mmio 0 [] 0) 2 [10; 20] = Ok s /\
    virtio_mmio_create_virtqueues demo_release demo_bus_read demo_bus_write 5 s 2
      (Some ["rx"; "tx"]) None None = Fault Out_of_bounds.
Proof. eexists. split; reflexivity. Qed.

Lemma virtio_mmio_setup_spec_witness :
  exists s', virtio_mmio_setup_virtqueue demo_release demo_bus_read demo_bus_write 5
               (demo_mmio 0 [0; 0] 0) 0 10 900 77 "rx" = Ok (s', 10) /\
    demo_qreg (mm_dev s') 0 VIRTIO_MMIO_QUEUE_PFN * 4096 = 1048576.
Proof.
  destruct (virtio_mmio_setup_spec demo_release demo_bus_read demo_bus_write 4096 5 (demo_mmio 0 [0; 0] 0)
    0 10 900 77 1048576 "rx"
    (mk_mq (mk_vq "" 0 8 900 0 (vring_init 8 65536 4096) 8 0 NULL_IO 0 0 0 false
              (replicate 8 (mk_dextra 0 0))) (zero_ring 8) 77) [0; 0])
    as (s' & ring' & Hrun & _ & _ & Hpfn & _).
  - apply demo_mmio_cfg.
  - reflexivity.
  - reflexivity.
  - reflexivity.
  - vm_compute. split; [discriminate|reflexivity].
  - lia.
  - reflexivity.
  - exists 3. split; [lia|reflexivity].
  - vm_compute. discriminate.
  - reflexivity.
  - vm_compute. discriminate.
  - reflexivity.
  - vm_compute. discriminate.
  - vm_compute. discriminate.
  - vm_compute. reflexivity.
  - vm_compute. split; [split; [discriminate|reflexivity]|reflexivity].
  - reflexivity.
  - vm_compute. split; [discriminate|reflexivity].
  - exists s'. split; [exact Hrun|exact Hpfn].
Defined.
