(* ===== verification/RpmsgRetarget.v ===== *)
(** * System calls forwarded to the remote side (lib/proxy/rpmsg_retarget.c,
      openamp/rpmsg_retarget.h)

    A system call is a message on an endpoint; the caller polls until the receive
    callback, which the polling runs, has stored the answer.  The data of the
    endpoint is part of the program's state beside the transport, at the address of
    the endpoint: [rpc_of] and [rpc_set] reach it.  Local variables are memory at
    given addresses.  A polling loop has fuel; what is proved of it names the
    number of polls that are needed. *)

From S2P Require Import Prelude StrUtil Rpmsg.

(** ** Data *)

Definition OPEN_SYSCALL_ID : Z := 1.
Definition CLOSE_SYSCALL_ID : Z := 2.
Definition WRITE_SYSCALL_ID : Z := 3.
Definition READ_SYSCALL_ID : Z := 4.
Definition TERM_SYSCALL_ID : Z := 6.
Definition MAX_BUF_LEN : Z := 496.

(** [sizeof(struct rpmsg_rpc_syscall)] *)
Definition SIZEOF_SYSCALL : Z := 16.

(** [struct rpmsg_rpc_syscall] with its header, and its bytes. *)
Record rpmsg_rpc_syscall := mk_syscall {
  sc_id : Z;
  sc_int_field1 : Z;
  sc_int_field2 : Z;
  sc_data_len : Z
}.

Definition syscall_bytes (c : rpmsg_rpc_syscall) : list Z :=
  le_bytes 4 (sc_id c) ++ le_bytes 4 (u32 (sc_int_field1 c)) ++
  le_bytes 4 (u32 (sc_int_field2 c)) ++ le_bytes 4 (sc_data_len c).

(** [struct rpmsg_rpc_data] without the endpoint; [rd_nacked] is the atomic flag. *)
Record rpmsg_rpc_data := mk_rpcd {
  rd_ept_destroyed : bool;
  rd_nacked : bool;
  rd_respbuf : Z;
  rd_respbuf_len : Z;
  rd_poll : Z;
  rd_poll_arg : Z;
  rd_shutdown_cb : Z;
  rd_mutex : bool;
  rd_buflock : bool
}.

Definition rd_set_nacked (r : rpmsg_rpc_data) (b : bool) : rpmsg_rpc_data :=
  mk_rpcd (rd_ept_destroyed r) b (rd_respbuf r) (rd_respbuf_len r) (rd_poll r) (rd_poll_arg r)
    (rd_shutdown_cb r) (rd_mutex r) (rd_buflock r).
Definition rd_set_destroyed (r : rpmsg_rpc_data) (b : bool) : rpmsg_rpc_data :=
  mk_rpcd b (rd_nacked r) (rd_respbuf r) (rd_respbuf_len r) (rd_poll r) (rd_poll_arg r)
    (rd_shutdown_cb r) (rd_mutex r) (rd_buflock r).
Definition rd_set_resp (r : rpmsg_rpc_data) (buf len : Z) : rpmsg_rpc_data :=
  mk_rpcd (rd_ept_destroyed r) (rd_nacked r) buf len (rd_poll r) (rd_poll_arg r)
    (rd_shutdown_cb r) (rd_mutex r) (rd_buflock r).
Definition rd_set_mutex (r : rpmsg_rpc_data) (b : bool) : rpmsg_rpc_data :=
  mk_rpcd (rd_ept_destroyed r) (rd_nacked r) (rd_respbuf r) (rd_respbuf_len r) (rd_poll r)
    (rd_poll_arg r) (rd_shutdown_cb r) b (rd_buflock r).
Definition rd_set_buflock (r : rpmsg_rpc_data) (b : bool) : rpmsg_rpc_data :=
  mk_rpcd (rd_ept_destroyed r) (rd_nacked r) (rd_respbuf r) (rd_respbuf_len r) (rd_poll r)
    (rd_poll_arg r) (rd_shutdown_cb r) (rd_mutex r) b.

(** Taking a lock that this thread holds never returns. *)
Definition lock_buf (r : rpmsg_rpc_data) : res rpmsg_rpc_data :=
  if rd_buflock r then Fault Deadlock else Ok (rd_set_buflock r true).
Definition lock_mutex (r : rpmsg_rpc_data) : res rpmsg_rpc_data :=
  if rd_mutex r then Fault Deadlock else Ok (rd_set_mutex r true).

(** [strlen]: each step reads another address, so the size of the memory bounds them. *)
Fixpoint mem_strlen_loop (fuel : nat) (m : gmap Z Z) (a i : Z) : res Z :=
  match fuel with
  | O => Fault No_fuel
  | S fuel' => c ← load8 m (a + i); if c =? 0 then Ok i else mem_strlen_loop fuel' m a (i + 1)
  end.
Definition mem_strlen (m : gmap Z Z) (a : Z) : res Z := mem_strlen_loop (S (size m)) m a 0.

Section retarget.
Context {T : Type}.
Variable ops : rpmsg_device_ops T.
Variable env : callbacks T.
Variable ns_slot : Z.
Variable rpc_of : T -> gmap Z rpmsg_rpc_data.
Variable rpc_set : T -> gmap Z rpmsg_rpc_data -> T.
(** The addresses of [rpmsg_rpc_ept_cb] and [rpmsg_service_unbind]. *)
Variables ept_cb_fn unbind_fn : Z.
(** The addresses of the local variables [tmpbuf], [syscall] and [resp]. *)
Variables tmpbuf_slot syscall_slot resp_slot : Z.
Variable call_poll : Z -> world T -> Z -> res (world T).
Variable call_shutdown : Z -> world T -> Z -> res (world T).
(** [rpmsg_default_rpc] is a static variable: the functions below take its value. *)

Definition get_rpcd (w : world T) (a : Z) : res rpmsg_rpc_data :=
  match rpc_of (w_tr w) !! a with Some r => Ok r | None => Fault Out_of_bounds end.
Definition put_rpcd (w : world T) (a : Z) (r : rpmsg_rpc_data) : world T :=
  mk_world (w_mem w) (w_epts w) (w_rdev w) (rpc_set (w_tr w) (<[a := r]> (rpc_of (w_tr w)))).

(** ** The endpoint *)

Definition rpmsg_rpc_ept_cb (w : world T) (ept data len : Z) : res (world T * Z) :=
  if (data =? 0) || (ept =? 0) then Ok (w, RPMSG_SUCCESS)
  else
    id ← rd32 (w_mem w) data;
    if id =? TERM_SYSCALL_ID then w ← rpmsg_destroy_ept ops env ns_slot w ept; Ok (w, RPMSG_SUCCESS)
    else
      r ← get_rpcd w ept;
      r ← lock_buf r;
      m ← (if negb (rd_respbuf r =? 0) && negb (rd_respbuf_len r =? 0) then
             let len := if rd_respbuf_len r <? len then rd_respbuf_len r else len in
             bs ← loadn (Z.to_nat len) (w_mem w) data;
             storen (w_mem w) (rd_respbuf r) bs
           else Ok (w_mem w));
      let r := rd_set_buflock (rd_set_nacked r false) false in
      Ok (put_rpcd (set_mem w m) ept r, RPMSG_SUCCESS).

Definition rpmsg_service_unbind (w : world T) (ept : Z) : res (world T) :=
  r ← get_rpcd w ept;
  let w := put_rpcd w ept (rd_set_destroyed r true) in
  w ← rpmsg_destroy_ept ops env ns_slot w ept;
  r ← get_rpcd w ept;
  let w := put_rpcd w ept (rd_set_nacked r false) in
  if negb (rd_shutdown_cb r =? 0) then call_shutdown (rd_shutdown_cb r) w ept else Ok w.

(** [if (rpc->poll) rpc->poll(rpc->poll_arg)] *)
Definition poll_once (w : world T) (rpc : Z) : res (world T) :=
  r ← get_rpcd w rpc;
  if negb (rd_poll r =? 0) then call_poll (rd_poll r) w (rd_poll_arg r) else Ok w.

(** The loop of [rpmsg_rpc_init]. *)
Fixpoint wait_ready (fuel : nat) (w : world T) (rpc : Z) : res (world T) :=
  ready ← is_rpmsg_ept_ready w rpc;
  if ready : bool then Ok w
  else
    match fuel with
    | O => Fault No_fuel
    | S fuel' => w ← poll_once w rpc; wait_ready fuel' w rpc
    end.

(** The locks are created free; on failure a mutex that is not held is released. *)
Definition rpmsg_rpc_init (fuel : nat) (w : world T) (rpc : Z) (rdev : bool) (ept_name : option (list Z))
    (ept_addr ept_raddr poll_arg poll shutdown_cb : Z) : res (world T * Z) :=
  if (rpc =? 0) || negb rdev then Ok (w, - EINVAL)
  else
    let r := mk_rpcd false true 0 0 poll poll_arg shutdown_cb false false in
    '(w, ret) ← rpmsg_create_ept ops env ns_slot (put_rpcd w rpc r) rpc ept_name ept_addr ept_raddr
                  ept_cb_fn unbind_fn;
    if negb (ret =? 0) then
      r ← get_rpcd w rpc;
      Ok (put_rpcd w rpc (rd_set_mutex r false), - EINVAL)
    else
      w ← wait_ready fuel w rpc;
      Ok (w, 0).

Definition rpmsg_rpc_release (w : world T) (rpc : Z) : res (world T) :=
  if rpc =? 0 then Ok w
  else
    r ← get_rpcd w rpc;
    w ← (if negb (rd_ept_destroyed r) then rpmsg_destroy_ept ops env ns_slot w rpc else Ok w);
    r ← get_rpcd w rpc;
    r ← lock_mutex r;
    r ← lock_buf r;
    let r := rd_set_resp r 0 0 in
    let r := rd_set_mutex (rd_set_buflock r false) false in
    Ok (put_rpcd w rpc r).

(** ** Requests *)

(** The loop of [rpmsg_rpc_send]: test and set the flag, poll when it was set. *)
Fixpoint wait_answer (fuel : nat) (w : world T) (rpc : Z) : res (world T) :=
  r ← get_rpcd w rpc;
  let w := put_rpcd w rpc (rd_set_nacked r true) in
  if rd_nacked r then
    match fuel with
    | O => Fault No_fuel
    | S fuel' => w ← poll_once w rpc; wait_answer fuel' w rpc
    end
  else Ok w.

Definition rpmsg_rpc_send (fuel : nat) (w : world T) (rpc req len resp resp_len : Z)
  : res (world T * Z) :=
  if rpc =? 0 then Ok (w, - EINVAL)
  else
    r ← get_rpcd w rpc;
    r ← lock_buf r;
    let r := rd_set_buflock (rd_set_resp r resp resp_len) false in
    let w := put_rpcd w rpc (rd_set_nacked r true) in
    '(w, ret) ← rpmsg_send ops w rpc req (i32 len);
    if ret <? 0 then Ok (w, - EINVAL)
    else if resp =? 0 then Ok (w, ret)
    else w ← wait_answer fuel w rpc; Ok (w, ret).

(** [rpmsg_default_rpc] after the call. *)
Definition rpmsg_set_default_rpc (rpmsg_default_rpc rpc : Z) : Z :=
  if rpc =? 0 then rpmsg_default_rpc else rpc.

(** A store into the array [tmpbuf]: beyond it is a fault. *)
Definition tmpbuf_store (m : gmap Z Z) (offset : Z) (bs : list Z) : res (gmap Z Z) :=
  if offset + zlen bs <=? MAX_BUF_LEN then storen m (tmpbuf_slot + offset) bs
  else Fault Out_of_bounds.

(** The answer to a system call with the identifier [id], at [resp]. *)
Definition answer (w : world T) (resp id ret : Z) : res Z :=
  if 0 <=? ret then
    rid ← rd32 (w_mem w) resp;
    if rid =? id then v ← rd32 (w_mem w) (resp + 4); Ok (i32 v) else Ok (- EINVAL)
  else Ok ret.

(** [resp.id = 0] and the request. *)
Definition ask (fuel : nat) (w : world T) (rpc req payload_size resp resp_len : Z)
  : res (world T * Z) :=
  m ← storen (w_mem w) resp (le_bytes 4 0);
  rpmsg_rpc_send fuel (set_mem w m) rpc req payload_size resp resp_len.

Definition _open (fuel : nat) (w : world T) (rpc filename flags mode : Z) : res (world T * Z) :=
  n ← mem_strlen (w_mem w) filename;
  let filename_len := i32 (n + 1) in
  let payload_size := u32 (SIZEOF_SYSCALL + filename_len) in
  if (filename =? 0) || (MAX_BUF_LEN <? payload_size) then Ok (w, - EINVAL)
  else if rpc =? 0 then Ok (w, - EINVAL)
  else
    m ← tmpbuf_store (w_mem w) 0
          (syscall_bytes (mk_syscall OPEN_SYSCALL_ID flags mode (u32 filename_len)));
    bs ← loadn (Z.to_nat filename_len) m filename;
    m ← tmpbuf_store m SIZEOF_SYSCALL bs;
    '(w, ret) ← ask fuel (set_mem w m) rpc tmpbuf_slot payload_size resp_slot SIZEOF_SYSCALL;
    ret ← answer w resp_slot OPEN_SYSCALL_ID ret;
    Ok (w, ret).

(** What [_read] copies to the caller, from an answer at [resp]: beyond [tmpbuf] is a
    fault. *)
Definition read_copy (m : gmap Z Z) (resp buffer buflen : Z) : res (gmap Z Z) :=
  n ← rd32 m (resp + 12);
  let tmplen := i32 n in
  let tmplen := if buflen <? tmplen then buflen else tmplen in
  if (tmplen <? 0) || (MAX_BUF_LEN - SIZEOF_SYSCALL <? tmplen) then Fault Out_of_bounds
  else
    bs ← loadn (Z.to_nat tmplen) m (resp + SIZEOF_SYSCALL);
    storen m buffer bs.

Definition _read (fuel : nat) (w : world T) (rpc fd buffer buflen : Z) : res (world T * Z) :=
  if (rpc =? 0) || (buffer =? 0) || (buflen =? 0) then Ok (w, - EINVAL)
  else
    m ← storen (w_mem w) syscall_slot (syscall_bytes (mk_syscall READ_SYSCALL_ID fd buflen 0));
    '(w, ret) ← ask fuel (set_mem w m) rpc syscall_slot SIZEOF_SYSCALL tmpbuf_slot MAX_BUF_LEN;
    if 0 <=? ret then
      id ← rd32 (w_mem w) tmpbuf_slot;
      if id =? READ_SYSCALL_ID then
        v ← rd32 (w_mem w) (tmpbuf_slot + 4);
        m ← (if 0 <? i32 v then read_copy (w_mem w) tmpbuf_slot buffer buflen else Ok (w_mem w));
        v ← rd32 m (tmpbuf_slot + 4);
        Ok (set_mem w m, i32 v)
      else Ok (w, - EINVAL)
    else Ok (w, ret).

(** The message of [_write] in [tmpbuf], and its length; the terminator is stored at
    [tmpptr + len + null_term]. *)
Definition write_payload (m : gmap Z Z) (fd ptr len : Z) : res (gmap Z Z * Z) :=
  let payload_size := i32 (SIZEOF_SYSCALL + len) in
  let null_term := if fd =? 1 then 1 else 0 in
  m ← tmpbuf_store m 0
        (syscall_bytes (mk_syscall WRITE_SYSCALL_ID fd len (u32 (len + null_term))));
  (if len <? 0 then Fault Out_of_bounds
   else
     bs ← loadn (Z.to_nat len) m ptr;
     m ← tmpbuf_store m SIZEOF_SYSCALL bs;
     if null_term =? 1 then
       m ← tmpbuf_store m (SIZEOF_SYSCALL + len + null_term) [0];
       Ok (m, i32 (payload_size + 1))
     else Ok (m, payload_size)).

Definition _write (fuel : nat) (w : world T) (rpc fd ptr len : Z) : res (world T * Z) :=
  if rpc =? 0 then Ok (w, - EINVAL)
  else
    '(m, payload_size) ← write_payload (w_mem w) fd ptr len;
    '(w, ret) ← ask fuel (set_mem w m) rpc tmpbuf_slot payload_size resp_slot SIZEOF_SYSCALL;
    ret ← answer w resp_slot WRITE_SYSCALL_ID ret;
    Ok (w, ret).

Definition _close (fuel : nat) (w : world T) (rpc fd : Z) : res (world T * Z) :=
  if rpc =? 0 then Ok (w, - EINVAL)
  else
    m ← storen (w_mem w) syscall_slot (syscall_bytes (mk_syscall CLOSE_SYSCALL_ID fd 0 0));
    '(w, ret) ← ask fuel (set_mem w m) rpc syscall_slot SIZEOF_SYSCALL resp_slot SIZEOF_SYSCALL;
    ret ← answer w resp_slot CLOSE_SYSCALL_ID ret;
    Ok (w, ret).
End retarget.
