(* ===== verification/RetargetSpec.v ===== *)
(** * What a forwarded system call gets back, and what it sends *)

From S2P Require Import Prelude StrUtil Rpmsg RpmsgRetarget.

(** The data of the endpoints is a part of the state: what is put is what is got, and
    putting back what is there changes nothing. *)
Class RpcLens {T} (rpc_of : T -> gmap Z rpmsg_rpc_data) (rpc_set : T -> gmap Z rpmsg_rpc_data -> T) := {
  lens_get : forall t x, rpc_of (rpc_set t x) = x;
  lens_put : forall t, rpc_set t (rpc_of t) = t;
  lens_put_put : forall t x y, rpc_set (rpc_set t x) y = rpc_set t y
}.

Section answers.
Context {T : Type}.
Variable ops : rpmsg_device_ops T.
Variable env : callbacks T.
Variable ns_slot : Z.
Variable rpc_of : T -> gmap Z rpmsg_rpc_data.
Variable rpc_set : T -> gmap Z rpmsg_rpc_data -> T.
Context {L : RpcLens rpc_of rpc_set}.
Variable call_poll : Z -> world T -> Z -> res (world T).
Variable rpc : Z.
Implicit Types w : world T.

Abbreviation put := (put_rpcd rpc_of rpc_set).
Abbreviation wait := (wait_answer rpc_of rpc_set call_poll).
Abbreviation ept_cb := (rpmsg_rpc_ept_cb ops env ns_slot rpc_of rpc_set).

(** [k] polls, after each of which the flag is still set. *)
Inductive polled : nat -> world T -> world T -> Prop :=
| polled_0 w : polled 0 w w
| polled_S k w r w1 w2 :
    rpc_of (w_tr w) !! rpc = Some r -> rd_nacked r = true -> rd_poll r <> 0 ->
    call_poll (rd_poll r) w (rd_poll_arg r) = Ok w1 -> polled k w1 w2 -> polled (S k) w w2.

Lemma put_same w r : rpc_of (w_tr w) !! rpc = Some r -> put w rpc r = w.
Proof. intros H. unfold put_rpcd. rewrite insert_id by done. rewrite lens_put. by destruct w. Qed.

Lemma get_put w a r : get_rpcd rpc_of (put w a r) a = Ok r.
Proof. unfold get_rpcd, put_rpcd. cbn [w_tr]. by rewrite lens_get, lookup_insert_eq. Qed.

Lemma put_put w a r r' : put (put w a r) a r' = put w a r'.
Proof.
  unfold put_rpcd. cbn [w_mem w_epts w_rdev w_tr]. by rewrite lens_get, lens_put_put, insert_insert_eq.
Qed.

Lemma wait_poll_step fuel w r :
  rpc_of (w_tr w) !! rpc = Some r -> rd_nacked r = true -> rd_poll r <> 0 ->
  wait (S fuel) w rpc = w ← call_poll (rd_poll r) w (rd_poll_arg r); wait fuel w rpc.
Proof.
  intros Hr Hf Hp. cbn [wait_answer]. unfold get_rpcd at 1. rewrite Hr. cbn [mbind res_bind].
  rewrite Hf. replace (rd_set_nacked r true) with r by (destruct r; cbn in Hf; by subst).
  rewrite put_same by done. unfold poll_once, get_rpcd. rewrite Hr. cbn [mbind res_bind].
  by rewrite (proj2 (Z.eqb_neq _ _) Hp).
Qed.

Lemma wait_polled k w w' fuel : polled k w w' -> wait (k + fuel) w rpc = wait fuel w' rpc.
Proof.
  induction 1 as [w|k w r w1 w2 Hr Hf Hp Hc _ IH]; [done|]. cbn [Nat.add].
  rewrite (wait_poll_step _ w r) by done. rewrite Hc. exact IH.
Qed.

(** The receive callback on an answer: at most [respbuf_len] bytes of it are stored. *)
Lemma ept_cb_answer w r data id rest :
  data <> 0 -> rpc <> 0 -> rpc_of (w_tr w) !! rpc = Some r -> rd_buflock r = false ->
  rd_respbuf r <> 0 -> 0 < rd_respbuf_len r -> is_u32 id -> id <> TERM_SYSCALL_ID ->
  let msg := le_bytes 4 id ++ rest in
  let got := take (Z.to_nat (rd_respbuf_len r)) msg in
  has_bytes (w_mem w) data msg -> mapped (w_mem w) (rd_respbuf r) (rd_respbuf_len r) ->
  ept_cb w rpc data (zlen msg) =
    Ok (put (set_mem w (put_bytes (w_mem w) (rd_respbuf r) got)) rpc (rd_set_nacked r false),
        RPMSG_SUCCESS).
Proof.
  intros Hd He Hr Hl Hb Hn Hid Ht msg got Hm Hmap. unfold rpmsg_rpc_ept_cb.
  rewrite (proj2 (Z.eqb_neq _ _) Hd), (proj2 (Z.eqb_neq _ _) He). cbn [orb].
  rewrite (rd32_ok _ _ id) by (done || by apply has_bytes_app in Hm as [Hm _]).
  cbn [mbind res_bind]. rewrite (proj2 (Z.eqb_neq _ _) Ht).
  unfold get_rpcd, lock_buf. rewrite Hr. cbn [mbind res_bind]. rewrite Hl. cbn [mbind res_bind].
  change (rd_respbuf (rd_set_buflock r true)) with (rd_respbuf r).
  change (rd_respbuf_len (rd_set_buflock r true)) with (rd_respbuf_len r).
  rewrite (proj2 (Z.eqb_neq _ _) Hb), (proj2 (Z.eqb_neq (rd_respbuf_len r) 0)) by lia. cbn [negb andb].
  assert (Hz : zlen got = Z.min (rd_respbuf_len r) (zlen msg)).
  { unfold got, zlen. rewrite length_take. lia. }
  rewrite (loadn_zlen _ _ got); [|destruct (rd_respbuf_len r <? zlen msg) eqn:E; zbool; lia|].
  2: { rewrite <- (take_drop (Z.to_nat (rd_respbuf_len r)) msg) in Hm.
       by apply has_bytes_app in Hm as [Hm _]. }
  cbn [mbind res_bind]. rewrite storen_ok by (apply (mapped_sub _ _ _ _ _ Hmap); lia).
  cbn [mbind res_bind]. do 3 f_equal. destruct r; cbn in Hl |- *. by rewrite Hl.
Qed.

Lemma wait_answered k w w3 r3 data id rest fuel :
  polled k w w3 -> rpc <> 0 -> data <> 0 ->
  rpc_of (w_tr w3) !! rpc = Some r3 -> rd_nacked r3 = true -> rd_buflock r3 = false ->
  rd_respbuf r3 <> 0 -> 0 < rd_respbuf_len r3 -> rd_poll r3 <> 0 ->
  is_u32 id -> id <> TERM_SYSCALL_ID ->
  let msg := le_bytes 4 id ++ rest in
  has_bytes (w_mem w3) data msg -> mapped (w_mem w3) (rd_respbuf r3) (rd_respbuf_len r3) ->
  call_poll (rd_poll r3) w3 (rd_poll_arg r3) = ('(w, _) ← ept_cb w3 rpc data (zlen msg); Ok w) ->
  (k < fuel)%nat ->
  wait fuel w rpc =
    Ok (put (set_mem w3 (put_bytes (w_mem w3) (rd_respbuf r3)
                           (take (Z.to_nat (rd_respbuf_len r3)) msg))) rpc r3).
Proof.
  intros Hk He Hd Hr Hf Hl Hb Hn Hp Hid Ht msg Hm Hmap Hpoll Hfuel.
  replace fuel with (k + S (fuel - S k))%nat by lia. rewrite (wait_polled _ _ _ _ Hk).
  rewrite (wait_poll_step _ w3 r3), Hpoll by done. unfold msg in *.
  rewrite (ept_cb_answer w3 r3 data id rest) by done. cbn [mbind res_bind].
  set (w4 := set_mem w3 _). destruct (fuel - S k)%nat; cbn [wait_answer]; rewrite get_put;
    cbn [mbind res_bind rd_set_nacked rd_nacked]; rewrite put_put; do 2 f_equal;
    destruct r3; cbn in Hf |- *; by rewrite Hf.
Qed.
(** The request [req] is sent and answered: [k] polls bring nothing, then one runs the
    receive callback on the answer [ans] at [data]. *)
Record answered w (r : rpmsg_rpc_data) (req len resp resp_len ret : Z) (ans : list Z) (k : nat) w3 (r3 : rpmsg_rpc_data)
    (data : Z) : Prop := {
  an_free : rd_buflock r = false;
  an_rpc : rpc_of (w_tr w) !! rpc = Some r;
  an_send : exists w2, rpmsg_send ops (put w rpc (rd_set_nacked (rd_set_resp r resp resp_len) true)) rpc req (i32 len)
      = Ok (w2, ret) /\ polled k w2 w3;
  an_ret : 0 <= ret;
  an_data : data <> 0;
  an_rpc3 : rpc_of (w_tr w3) !! rpc = Some r3;
  an_flag : rd_nacked r3 = true;
  an_free3 : rd_buflock r3 = false;
  an_buf : rd_respbuf r3 = resp /\ rd_respbuf_len r3 = resp_len;
  an_poll : rd_poll r3 <> 0;
  an_msg : has_bytes (w_mem w3) data ans;
  an_map : mapped (w_mem w3) resp resp_len;
  an_deliver : call_poll (rd_poll r3) w3 (rd_poll_arg r3) = ('(w, _) ← ept_cb w3 rpc data (zlen ans); Ok w)
}.

Lemma send_answered w r req len resp resp_len ret id rest k w3 r3 data fuel :
  answered w r req len resp resp_len ret (le_bytes 4 id ++ rest) k w3 r3 data ->
  rpc <> 0 -> resp <> 0 -> 0 < resp_len -> is_u32 id -> id <> TERM_SYSCALL_ID -> (k < fuel)%nat ->
  rpmsg_rpc_send ops rpc_of rpc_set call_poll fuel w rpc req len resp resp_len =
    Ok (put (set_mem w3 (put_bytes (w_mem w3) resp (take (Z.to_nat resp_len) (le_bytes 4 id ++ rest)))) rpc r3, ret).
Proof.
  intros [Hfree Hr (w2 & Hsend & Hpolled) Hret Hdata Hr3 Hflag Hfree3 [Hbuf Hblen] Hp Hmsg Hmap Hpoll] Hrpc Hresp Hlen Hid Hterm Hfuel.
  unfold rpmsg_rpc_send. rewrite (proj2 (Z.eqb_neq _ _) Hrpc).
  unfold get_rpcd at 1, lock_buf. rewrite Hr. cbn [mbind res_bind]. rewrite Hfree. cbn [mbind res_bind].
  replace (rd_set_buflock (rd_set_resp (rd_set_buflock r true) resp resp_len) false)
    with (rd_set_resp r resp resp_len) by (destruct r; cbn in Hfree |- *; by rewrite Hfree).
  rewrite Hsend. cbn [mbind res_bind].
  rewrite (proj2 (Z.ltb_ge _ _) Hret), (proj2 (Z.eqb_neq _ _) Hresp). subst resp resp_len.
  by rewrite (wait_answered k w2 w3 r3 data id rest fuel).
Qed.
End answers.

(** C28: A request that is answered returns: when the message is sent and, after [k] polls
    that bring nothing, a poll runs the receive callback on an answer, the request
    returns with what the send returned, the answer, cut to the length of the
    caller's buffer, is in that buffer, and nothing else in memory has changed since
    the last poll.  The endpoint's data still names the buffer. *)
Theorem rpmsg_rpc_send_answered {T : Type} (ops : rpmsg_device_ops T) (env : callbacks T) (ns_slot : Z)
    (rpc_of : T -> gmap Z rpmsg_rpc_data) (rpc_set : T -> gmap Z rpmsg_rpc_data -> T)
    {L : RpcLens rpc_of rpc_set} (call_poll : Z -> world T -> Z -> res (world T)) (rpc : Z)
    (w w2 w3 : world T) (r r3 : rpmsg_rpc_data) (req len resp resp_len ret data id : Z) (rest : list Z)
    (k fuel : nat)
    (Hrpc : rpc <> 0) (Hresp : resp <> 0) (Hlen : 0 < resp_len) (Hdata : data <> 0)
    (Hr : rpc_of (w_tr w) !! rpc = Some r) (Hfree : rd_buflock r = false)
    (Hsend : rpmsg_send ops
               (put_rpcd rpc_of rpc_set w rpc (rd_set_nacked (rd_set_resp r resp resp_len) true))
               rpc req (i32 len) = Ok (w2, ret)) (Hret : 0 <= ret)
    (Hpolled : polled rpc_of call_poll rpc k w2 w3)
    (Hr3 : rpc_of (w_tr w3) !! rpc = Some r3) (Hflag : rd_nacked r3 = true)
    (Hfree3 : rd_buflock r3 = false) (Hbuf : rd_respbuf r3 = resp) (Hblen : rd_respbuf_len r3 = resp_len)
    (Hp : rd_poll r3 <> 0) (Hid : is_u32 id) (Hterm : id <> TERM_SYSCALL_ID)
    (Hmsg : has_bytes (w_mem w3) data (le_bytes 4 id ++ rest)) (Hmap : mapped (w_mem w3) resp resp_len)
    (Hpoll : call_poll (rd_poll r3) w3 (rd_poll_arg r3) =
               ('(w, _) ← rpmsg_rpc_ept_cb ops env ns_slot rpc_of rpc_set w3 rpc data (4 + zlen rest); Ok w))
    (Hfuel : (k < fuel)%nat) :
  let got := take (Z.to_nat resp_len) (le_bytes 4 id ++ rest) in
  rpmsg_rpc_send ops rpc_of rpc_set call_poll fuel w rpc req len resp resp_len =
    Ok (put_rpcd rpc_of rpc_set (set_mem w3 (put_bytes (w_mem w3) resp got)) rpc r3, ret).
Proof.
  intros got. eapply (send_answered ops env ns_slot rpc_of rpc_set call_poll rpc w r req len resp resp_len ret id rest k w3 r3 data); try done.
  split; try done; [by exists w2|]. by rewrite zlen_app, zlen_le_bytes.
Qed.

(** ** The message of [_write] *)

Lemma zlen_syscall_bytes c : zlen (syscall_bytes c) = SIZEOF_SYSCALL.
Proof. unfold syscall_bytes. by rewrite !zlen_app, !zlen_le_bytes. Qed.

Lemma tmpbuf_store_run slot m off bs :
  mapped m slot MAX_BUF_LEN -> 0 <= off -> off + zlen bs <= MAX_BUF_LEN ->
  tmpbuf_store slot m off bs = Ok (put_bytes m (slot + off) bs).
Proof.
  intros Hm Ho Hl. unfold tmpbuf_store. rewrite (proj2 (Z.leb_le _ _) Hl).
  apply storen_ok. apply (mapped_sub _ _ _ _ _ Hm); lia.
Qed.

Lemma put_bytes_outside m a bs i : i < a \/ a + zlen bs <= i -> put_bytes m a bs !! i = m !! i.
Proof.
  intros H. rewrite lookup_put.
  destruct ((a <=? i) && (i <? a + zlen bs)) eqn:E; [|done]. zbool. lia.
Qed.

(** Written to the standard output, the message of [_write] is not terminated: it is
    the header and the [len] bytes of the caller, then one more byte, which is the
    byte [tmpbuf] held there before the call; the terminating zero is stored after
    the end of the message.  With any other descriptor the message is the header and
    the caller's bytes. *)
Theorem write_payload_terminator (tmpbuf_slot fd ptr : Z) (m : gmap Z Z) (bs : list Z)
    (Hmap : mapped m tmpbuf_slot MAX_BUF_LEN) (Hptr : has_bytes m ptr bs)
    (Hlen : SIZEOF_SYSCALL + zlen bs + 2 <= MAX_BUF_LEN)
    (Happ : ptr + zlen bs <= tmpbuf_slot \/ tmpbuf_slot + MAX_BUF_LEN <= ptr) :
  let last := tmpbuf_slot + SIZEOF_SYSCALL + zlen bs in
  let null_term := if fd =? 1 then 1 else 0 in
  let header := syscall_bytes (mk_syscall WRITE_SYSCALL_ID fd (zlen bs) (u32 (zlen bs + null_term))) in
  exists m', write_payload tmpbuf_slot m fd ptr (zlen bs) =
      Ok (m', SIZEOF_SYSCALL + zlen bs + null_term) /\
    has_bytes m' tmpbuf_slot (header ++ bs) /\ m' !! last = m !! last /\
    m' !! (last + 1) = if fd =? 1 then Some 0 else m !! (last + 1).
Proof.
  intros last null_term header. pose proof (zlen_nonneg bs) as H0. pose proof (zlen_syscall_bytes) as Hz.
  unfold MAX_BUF_LEN, SIZEOF_SYSCALL in *.
  assert (Hh : zlen header = 16) by apply Hz.
  set (m1 := put_bytes m tmpbuf_slot header). set (m2 := put_bytes m1 (tmpbuf_slot + 16) bs).
  assert (Hb2 : has_bytes m2 tmpbuf_slot (header ++ bs)).
  { unfold m2, m1. rewrite <- Hh, <- put_bytes_app. apply has_bytes_put. }
  assert (Ho : forall i, last <= i -> m2 !! i = m !! i).
  { intros i Hi. unfold m2, m1. rewrite !put_bytes_outside by lia. done. }
  assert (Hrun : write_payload tmpbuf_slot m fd ptr (zlen bs) =
    if null_term =? 1 then Ok (put_bytes m2 (last + 1) [0], 16 + zlen bs + 1) else Ok (m2, 16 + zlen bs)).
  { unfold write_payload. fold null_term header. unfold SIZEOF_SYSCALL. 
    rewrite (i32_id (16 + zlen bs)), (i32_id (16 + zlen bs + 1)) by lia.
    rewrite tmpbuf_store_run, Z.add_0_r by (unfold MAX_BUF_LEN; done || lia). fold m1.
    cbn [mbind res_bind]. rewrite (proj2 (Z.ltb_ge _ _) H0).
    rewrite (loadn_zlen _ _ bs); [|done|apply has_bytes_put_disjoint; [lia|done]].
    cbn [mbind res_bind].
    rewrite tmpbuf_store_run by (unfold MAX_BUF_LEN; (by apply mapped_put) || lia). fold m2.
    cbn [mbind res_bind]. destruct (null_term =? 1) eqn:En; [|done]. apply Z.eqb_eq in En.
    rewrite tmpbuf_store_run; [|by do 2 apply mapped_put|lia|].
    2: { change (zlen [0]) with 1. unfold MAX_BUF_LEN. lia. }
    cbn [mbind res_bind]. do 3 f_equal. unfold last. lia. }
  rewrite Hrun. unfold null_term. destruct (fd =? 1); cbn [Z.eqb Pos.eqb].
  - eexists. split; [done|]. split; [|split].
    + apply has_bytes_put_disjoint; [|exact Hb2]. right. rewrite zlen_app, Hh. lia.
    + rewrite put_bytes_outside by lia. apply Ho. lia.
    + cbn. apply lookup_insert_eq.
  - exists m2. split; [by rewrite Z.add_0_r|]. split; [exact Hb2|]. split; apply Ho; lia.
Qed.

Lemma write_payload_terminator_witness :
  exists m', write_payload 1000 (put_bytes (put_bytes ∅ 1000 (replicate 496 90)) 100 [104; 105]) 1 100 2 =
      Ok (m', 19) /\ m' !! 1018 = Some 90 /\ m' !! 1019 = Some 0.
Proof.
  destruct (write_payload_terminator 1000 1 100 (put_bytes (put_bytes ∅ 1000 (replicate 496 90)) 100 [104; 105])
    [104; 105]) as (m' & H1 & _ & H2 & H3).
  - apply mapped_put. apply (has_bytes_mapped _ 1000 (replicate 496 90)), has_bytes_put.
  - apply has_bytes_put.
  - vm_compute. discriminate.
  - left. vm_compute. discriminate.
  - exists m'. split; [exact H1|]. split; [exact H2|exact H3].
Defined.

(** ** A remote side that answers at the second poll *)

#[export, program] Instance id_lens : RpcLens (@id (gmap Z rpmsg_rpc_data)) (fun _ x => x).
Solve All Obligations with done.

Definition demo_rt_ops : rpmsg_device_ops (gmap Z rpmsg_rpc_data) :=
  mk_rops (Some (fun w _ _ _ len _ => Ok (w, len))) None None None None None None None.
Definition demo_rt_env : callbacks (gmap Z rpmsg_rpc_data) :=
  mk_callbacks (fun _ w _ => Ok w) (fun _ w _ _ _ _ _ => Ok (w, 0)) (fun _ w _ => Ok w)
    (fun _ w _ _ => Ok w).
Definition demo_rt_poll (f : Z) (w : world (gmap Z rpmsg_rpc_data)) (arg : Z)
  : res (world (gmap Z rpmsg_rpc_data)) :=
  if bool_decide (w_mem w !! 1 = Some 0) then Ok (set_mem w (<[1 := 1]> (w_mem w)))
  else '(w, _) ← rpmsg_rpc_ept_cb demo_rt_ops demo_rt_env 0 id (fun _ x => x) w 64 3000 20; Ok w.

Definition demo_rt_answer : list Z := le_bytes 4 READ_SYSCALL_ID ++ replicate 16 9.
Definition demo_rt_data (nacked : bool) : rpmsg_rpc_data :=
  mk_rpcd false nacked 2000 8 500 0 0 false false.
Definition demo_rt_world (flag : Z) (nacked : bool) : world (gmap Z rpmsg_rpc_data) :=
  mk_world (put_bytes (put_bytes (put_bytes ∅ 1 [flag]) 2000 (replicate 16 0)) 3000 demo_rt_answer)
    {[64 := mk_ept [] true 1024 1025 1 0 0 0 0]} (mk_rdev [] [] 0 false 0 0 false)
    {[64 := demo_rt_data nacked]}.

(** Of the twenty bytes of the answer the first eight are stored. *)
Lemma rpmsg_rpc_send_answered_witness :
  exists w', rpmsg_rpc_send demo_rt_ops id (fun _ x => x) demo_rt_poll 2 (demo_rt_world 0 false) 64 100 16
               2000 8 = Ok (w', 16) /\
    w_mem w' !! 2000 = Some 4 /\ w_mem w' !! 2007 = Some 9 /\ w_mem w' !! 2008 = Some 0.
Proof.
  eexists. split.
  - apply (rpmsg_rpc_send_answered demo_rt_ops demo_rt_env 0 id (fun _ x => x) demo_rt_poll 64
      (demo_rt_world 0 false) (demo_rt_world 0 true) (demo_rt_world 1 true) (demo_rt_data false)
      (demo_rt_data true) 100 16 2000 8 16 3000 READ_SYSCALL_ID (replicate 16 9) 1 2); try lia; try reflexivity.
    + econstructor; [reflexivity|reflexivity|discriminate|reflexivity|constructor].
    + discriminate.
    + vm_compute. split; [discriminate|reflexivity].
    + discriminate.
    + apply has_bytes_put.
    + apply mapped_put, (mapped_sub _ 2000 16); [|lia..].
      apply (has_bytes_mapped _ 2000 (replicate 16 0)), has_bytes_put.
  - split_and!; reflexivity.
Defined.
