(* ===== verification/OpenampApp.v ===== *)
(** * The application nodes (operation_interface/operation_interface.c and .h, and the
      demonstration openamp_demo/openamp_app.c and openamp_app_echo.c)

    An application node is an endpoint with a name; the nodes are on a list, newest
    first.  A node begins with its endpoint, so that one address names both.  The
    list and the nodes are part of the program's state beside the transport:
    [app_of] and [app_set] reach them.  A string argument is the bytes from its
    address on, [None] for a null pointer; reading beyond them is a fault. *)

From S2P Require Import Prelude StrUtil Rpmsg.

Definition OPENAMP_APP_NODE_NAME_MAXLEN : Z := 20.
Definition APP_NODE_MAXNUM : Z := 16.

(** [echo] and its terminator. *)
Definition ECHO_NAME : list Z := [101; 99; 104; 111; 0].

(** [struct openamp_app_node] without the endpoint and the list node. *)
Record openamp_app_node := mk_node {
  an_name : list Z;
  an_src : Z;
  an_dest : Z;
  an_cb : Z;
  an_unbind_cb : Z
}.

(** [app_node_head.node_list], the nodes on the heap and [opdev] (whether it is set). *)
Record app_state := mk_app {
  app_list : list Z;
  app_nodes : gmap Z openamp_app_node;
  app_opdev : bool
}.

(** What [memset] leaves. *)
Definition zero_node : openamp_app_node := mk_node (replicate 20 0) 0 0 0 0.

(** [strcmp(a, b) == 0] *)
Fixpoint strcmp_eq (a b : list Z) : res bool :=
  match a, b with
  | x :: a', y :: b' =>
      if x =? y then if x =? 0 then Ok true else strcmp_eq a' b' else Ok false
  | _, _ => Fault Out_of_bounds
  end.

(** [strncpy] into an array of [n] bytes. *)
Fixpoint strncpy (n : nat) (src : list Z) : res (list Z) :=
  match n with
  | O => Ok []
  | S n' =>
      match src with
      | [] => Fault Out_of_bounds
      | c :: src' => if c =? 0 then Ok (replicate n 0) else l ← strncpy n' src'; Ok (c :: l)
      end
  end.

(** The bytes from the name of a node on: the array and [src] behind it. *)
Definition name_mem (n : openamp_app_node) : list Z := an_name n ++ le_bytes 4 (an_src n).

Section app.
Context {T : Type}.
Variable ops : rpmsg_device_ops T.
Variable env : callbacks T.
Variable ns_slot : Z.
Variable app_of : T -> app_state.
Variable app_set : T -> app_state -> T.
(** [metal_allocate_memory] of a node: its address, 0 when there is no memory. *)
Variable alloc_node : world T -> Z.
(** The addresses of [default_bind_cb] and [default_unbind_cb]. *)
Variables default_bind_fn default_unbind_fn : Z.
(** [dev->auto_node_register], [None] for a null pointer. *)
Variable auto_node_register : option (world T -> list Z -> res (world T * Z)).

Definition app_st (w : world T) : app_state := app_of (w_tr w).
Definition put_app (w : world T) (s : app_state) : world T :=
  mk_world (w_mem w) (w_epts w) (w_rdev w) (app_set (w_tr w) s).

(** A new node: its memory is cleared. *)
Definition new_node (w : world T) (a : Z) : world T :=
  let s := app_st w in
  put_app (put_ept w a zero_ept) (mk_app (app_list s) (<[a := zero_node]> (app_nodes s)) (app_opdev s)).

(** [metal_free_memory] of a node. *)
Definition free_node (w : world T) (a : Z) : world T :=
  let s := app_st w in
  put_app (set_epts w (delete a (w_epts w)))
    (mk_app (app_list s) (delete a (app_nodes s)) (app_opdev s)).

(** The assignments to the node, and its insertion at the head of the list. *)
Definition add_node (w : world T) (a : Z) (n : openamp_app_node) : world T :=
  let s := app_st w in
  put_app w (mk_app (a :: app_list s) (<[a := n]> (app_nodes s)) (app_opdev s)).

(** The search of the functions below: the first node of the name, 0 when there is
    none. *)
Fixpoint node_loop (nodes : gmap Z openamp_app_node) (l : list Z) (name : list Z) : res Z :=
  match l with
  | [] => Ok 0
  | a :: l' =>
      match nodes !! a with
      | None => Fault Out_of_bounds
      | Some n =>
          same ← strcmp_eq name (name_mem n);
          if same : bool then Ok a else node_loop nodes l' name
      end
  end.

Definition find_node (w : world T) (name : list Z) : res Z :=
  node_loop (app_nodes (app_st w)) (app_list (app_st w)) name.

(** ** Callbacks of the nodes *)

Definition default_bind_cb (w : world T) (data len : Z) : res (world T * Z) :=
  m ← store8 (w_mem w) (data + len) 0; Ok (set_mem w m, 0).

Definition openamp_app_node_unregister (w : world T) (name : option (list Z)) : res (world T * Z) :=
  match name with
  | None => Ok (w, -1)
  | Some name =>
      a ← find_node w name;
      if a =? 0 then Ok (w, -1)
      else
        let s := app_st w in
        let w := put_app w (mk_app (filter (fun x => x <> a) (app_list s)) (app_nodes s) (app_opdev s)) in
        w ← rpmsg_destroy_ept ops env ns_slot w a;
        Ok (free_node w a, 0)
  end.

Definition default_unbind_cb (w : world T) (ept : Z) : res (world T) :=
  e ← get_ept w ept;
  '(w, _) ← openamp_app_node_unregister w (Some (ept_name e));
  Ok w.

(** [rdev] is whether the pointer to the device is not null; what
    [rpmsg_create_ept] returns is not used. *)
Definition openamp_ns_bind_cb (w : world T) (rdev : bool) (name : option (list Z)) (dest : Z)
  : res (world T) :=
  match name, rdev with
  | Some name, true =>
      let a := alloc_node w in
      if a =? 0 then Ok w
      else
        let w := new_node w a in
        x ← find_node w name;
        if negb (x =? 0) then Ok (free_node w a)
        else
          nm ← strncpy (Z.to_nat OPENAMP_APP_NODE_NAME_MAXLEN) name;
          let n := mk_node nm 0 dest default_bind_fn default_unbind_fn in
          let w := add_node w a n in
          '(w, _) ← rpmsg_create_ept ops env ns_slot w a (Some (name_mem n)) RPMSG_ADDR_ANY RPMSG_ADDR_ANY
                      (an_cb n) (an_unbind_cb n);
          e ← get_ept w a;
          let w := put_ept w a (ept_set_dest e dest) in
          match auto_node_register with
          | Some f => '(w, _) ← f w name; Ok w
          | None => Ok w
          end
  | _, _ => Ok w
  end.

(** ** The interface *)

(** [trav_node->ept.cb = cb; trav_node->ept.ns_unbind_cb = unbind_cb] *)
Definition ept_set_cbs (e : rpmsg_endpoint) (cb unbind_cb : Z) : rpmsg_endpoint :=
  mk_ept (ept_name e) (ept_rdev e) (ept_addr e) (ept_dest_addr e) (ept_refcnt e) (ept_release_cb e)
    cb unbind_cb (ept_priv e).

(** A node of the name exists: the callbacks of its endpoint are replaced. *)
Definition register_again (w : world T) (a cb unbind_cb : Z) : res (world T * Z) :=
  match app_nodes (app_st w) !! a with
  | None => Fault Out_of_bounds
  | Some n =>
      if (an_cb n =? 0) && (an_unbind_cb n =? 0) then Ok (w, a)
      else
        e ← get_ept w a;
        if (ept_cb e =? cb) && (ept_ns_unbind_cb e =? unbind_cb) then Ok (w, a)
        else Ok (put_ept w a (ept_set_cbs e cb unbind_cb), a)
  end.

(** [dev] is whether the pointer to the device is not null.  The result is the
    address of the node, 0 for a null pointer. *)
Definition openamp_app_node_register (w : world T) (name : option (list Z)) (cb unbind_cb : Z) (dev : bool)
  : res (world T * Z) :=
  match name, dev with
  | Some name, true =>
      if (cb =? 0) || (unbind_cb =? 0) then Ok (w, 0)
      else
        x ← find_node w name;
        if negb (x =? 0) then register_again w x cb unbind_cb
        else
          let a := alloc_node w in
          if a =? 0 then Ok (w, 0)
          else
            let w := new_node w a in
            nm ← strncpy (Z.to_nat OPENAMP_APP_NODE_NAME_MAXLEN) name;
            let n := mk_node nm 0 0 cb unbind_cb in
            let w := add_node w a n in
            '(w, _) ← rpmsg_create_ept ops env ns_slot w a (Some (name_mem n)) RPMSG_ADDR_ANY RPMSG_ADDR_ANY
                        (an_cb n) (an_unbind_cb n);
            Ok (w, a)
  | _, _ => Ok (w, 0)
  end.

Definition openamp_find_app_node (w : world T) (name : option (list Z)) : res Z :=
  match name with None => Ok 0 | Some name => find_node w name end.

(** [rpmsg_send(ept, data, len) == len] compares as unsigned. *)
Definition openamp_app_send (w : world T) (ept data len : Z) : res (world T * Z) :=
  if (ept =? 0) || (data =? 0) || (len =? 0) then Ok (w, -1)
  else
    '(w, r) ← rpmsg_send ops w ept data (i32 len);
    Ok (w, if u64 r =? len then i32 len else -1).

(** Whether the device was created. *)
Definition openamp_dev_get (w : world T) : bool := app_opdev (app_st w).

(** ** The demonstration *)

Variables echo_fn echo_unbind_fn : Z.

Definition echo_cb (w : world T) (data len : Z) : res (world T * Z) :=
  m ← store8 (w_mem w) (data + len) 0; Ok (set_mem w m, 0).

Definition echo_unbind_cb (w : world T) (ept : Z) : res (world T) :=
  e ← get_ept w ept;
  '(w, _) ← openamp_app_node_unregister w (Some (ept_name e));
  Ok w.

Definition app_echo_init (w : world T) : res (world T) :=
  '(w, _) ← openamp_app_node_register w (Some ECHO_NAME) echo_fn echo_unbind_fn (openamp_dev_get w);
  Ok w.

Definition app_auto_node_register (w : world T) (name : option (list Z)) : res (world T * Z) :=
  match name with
  | None => Ok (w, -1)
  | Some name =>
      same ← strncmp_eq (Z.to_nat APP_NODE_MAXNUM) name ECHO_NAME 0;
      w ← (if same : bool then app_echo_init w else Ok w);
      Ok (w, 0)
  end.

(** [send_buf] is the address of the text, [n] its length. *)
Definition app_echo_send (w : world T) (send_buf n : Z) : res (world T * Z) :=
  a ← openamp_find_app_node w (Some ECHO_NAME);
  if a =? 0 then Ok (w, -1)
  else
    '(w, r) ← openamp_app_send w a send_buf n;
    Ok (w, if u64 r =? n then 0 else -1).
End app.
