(* ===== verification/AppSpec.v ===== *)
(** * The list of application nodes as a map from names to nodes

    The list of nodes represents a list of keys, a key being the first twenty bytes
    of the name a node was registered with; [node_keys] is the relation. *)

From S2P Require Import Prelude MetalUtil StrUtil Rpmsg RpmsgInv OpenampApp.

(** ** Strings *)

Lemma strcmp_eq_cons x a y b :
  strcmp_eq (x :: a) (y :: b) =
    if x =? y then if x =? 0 then Ok true else strcmp_eq a b else Ok false.
Proof. done. Qed.

Lemma strcmp_eq_cstr a b s t :
  is_cstr a s -> is_cstr b t -> strcmp_eq a b = Ok (bool_decide (s = t)).
Proof.
  intros [Hs [ra ->]] [Ht [rb ->]]. revert t Ht. induction Hs as [|c s Hc Hs IH]; intros t Ht;
    destruct Ht as [|d t Hd Ht]; cbn [app]; rewrite strcmp_eq_cons.
  - by rewrite !Z.eqb_refl.
  - rewrite (proj2 (Z.eqb_neq 0 d)) by congruence. by rewrite bool_decide_false.
  - rewrite (proj2 (Z.eqb_neq c 0)) by done. by rewrite bool_decide_false.
  - destruct (c =? d) eqn:E.
    + apply Z.eqb_eq in E as ->. rewrite (proj2 (Z.eqb_neq d 0)), IH by done.
      f_equal. apply bool_decide_ext. split; congruence.
    + apply Z.eqb_neq in E. rewrite bool_decide_false; congruence.
Qed.

(** What is stored of a name, with the zero bytes behind the array, is the string of
    its first [n] bytes. *)
Lemma strncpy_key n a s k :
  is_cstr a s -> Forall is_u8 a -> (0 < k)%nat ->
  exists l, strncpy n a = Ok l /\ zlen l = Z.of_nat n /\ is_cstr (l ++ replicate k 0) (take n s) /\
    Forall is_u8 l.
Proof.
  intros [Hs [ra ->]] Hu Hk. revert s Hs Hu. induction n as [|n IH]; intros s Hs Hu; cbn [strncpy].
  { exists []. split_and!; try done. destruct k; [lia|]. split; [constructor|]. by eexists. }
  destruct Hs as [|c s Hc Hs]; cbn [app].
  - rewrite Z.eqb_refl. exists (replicate (S n) 0). split_and!; [done|by rewrite zlen_replicate| |].
    + split; [constructor|]. by eexists.
    + apply list.Forall_replicate. unfold is_u8. lia.
  - rewrite (proj2 (Z.eqb_neq c 0)) by done. cbn [app] in Hu. apply Forall_cons_1 in Hu as [Hcu Hu].
    destruct (IH s Hs Hu) as (l & -> & Hl & [Hl1 [rest Hl2]] & Hl3). cbn [mbind res_bind].
    exists (c :: l). split_and!; [done|rewrite zlen_cons; lia| |by constructor].
    cbn [take app]. rewrite Hl2. split; [by constructor|]. by eexists.
Qed.

(** ** The nodes and their keys *)

(** The node's bytes hold the key. *)
Definition node_key (nodes : gmap Z openamp_app_node) (k : list Z) (a : Z) : Prop :=
  a <> 0 /\ exists n, nodes !! a = Some n /\ is_cstr (name_mem n) k.

Definition node_keys (s : app_state) (ks : list (list Z * Z)) : Prop :=
  app_list s = ks.*2 /\ NoDup ks.*2 /\ Forall (fun x => node_key (app_nodes s) x.1 x.2) ks.

(** The node of a key, 0 when there is none. *)
Fixpoint key_addr (ks : list (list Z * Z)) (s : list Z) : Z :=
  match ks with
  | [] => 0
  | (k, a) :: ks' => if bool_decide (k = s) then a else key_addr ks' s
  end.

Lemma key_addr_none ks s : (s ∉ ks.*1) -> key_addr ks s = 0.
Proof.
  induction ks as [|[k a] ks IH]; [done|]. cbn. rewrite not_elem_of_cons. intros [H1 H2].
  rewrite bool_decide_false by congruence. auto.
Qed.

Lemma node_loop_keys nodes ks name s :
  Forall (fun x => node_key nodes x.1 x.2) ks -> is_cstr name s ->
  node_loop nodes ks.*2 name = Ok (key_addr ks s).
Proof.
  intros H Hs. induction H as [|[k a] ks (Ha & n & Hn & Hk) H IH]; [done|]. cbn in *.
  rewrite Hn, (strcmp_eq_cstr _ _ s k Hs Hk). cbn [mbind res_bind].
  destruct (decide (s = k)) as [->|Hne]; [by rewrite !bool_decide_true|].
  rewrite !bool_decide_false by congruence. exact IH.
Qed.

(** ** The rest of the program leaves the nodes alone *)

(** The nodes are a part of the state of the program: what is put is what is got, and
    the transport does not depend on them nor change them. *)
Class AppLens {T} (ops : rpmsg_device_ops T) (env : callbacks T) (ns_slot : Z)
    (TR : Transport ops ns_slot) (app_of : T -> app_state) (app_set : T -> app_state -> T) := {
  app_get : forall t x, app_of (app_set t x) = x;
  app_tr : forall m t x, tr_ok m t -> tr_ok m (app_set t x);
  app_send : forall f, ops_send_offchannel_raw ops = Some f ->
    forall w src dst data len wait w' r, f w src dst data len wait = Ok (w', r) ->
      app_of (w_tr w') = app_of (w_tr w);
  app_release : forall f w ept w', call_release env f w ept = Ok w' ->
    app_of (w_tr w') = app_of (w_tr w)
}.

(** Name what the first instruction of a hypothesis [H : ... = Ok _] returns. *)
Tactic Notation "unbind" hyp(H) "as" simple_intropattern(p) ident(E) :=
  match type of H with
  | mbind _ ?m = _ => destruct m as [p|] eqn:E; cbn [mbind res_bind] in H; [|discriminate H]
  end.

Section keeps.
Context {T : Type} (ops : rpmsg_device_ops T) (env : callbacks T) (ns_slot : Z).
Context (TR : Transport ops ns_slot) (app_of : T -> app_state) (app_set : T -> app_state -> T).
Context {L : AppLens ops env ns_slot TR app_of app_set}.
Implicit Types w : world T.

Lemma acquire_keeps w w' : metal_mutex_acquire w = Ok w' -> w_tr w' = w_tr w.
Proof. unfold metal_mutex_acquire. destruct (rd_lock _); [done|]. by intros [= <-]. Qed.

Lemma ns_message_keeps w ept flags w' r :
  rpmsg_send_ns_message ops ns_slot w ept flags = Ok (w', r) -> app_of (w_tr w') = app_of (w_tr w).
Proof.
  unfold rpmsg_send_ns_message, rpmsg_send_offchannel_raw. intros H.
  unbind H as e E1. unbind H as nm E2. unbind H as [nm' z] E3. unbind H as m E4.
  unbind H as [w1 r1] E5. injection H as <- _. unbind E5 as bad E6.
  destruct (_ || _ || _ || _); [by injection E5 as <- _|].
  destruct (ops_send_offchannel_raw ops) as [f|] eqn:Ef; [|by injection E5 as <- _].
  by rewrite (app_send f Ef _ _ _ _ _ _ _ _ E5).
Qed.

Lemma decref_keeps w ept w' :
  rpmsg_ept_decref env w ept = Ok w' -> app_of (w_tr w') = app_of (w_tr w).
Proof.
  unfold rpmsg_ept_decref. intros H. destruct (ept =? 0); [by injection H as <-|].
  unbind H as e E1. destruct (_ =? 0); [|by injection H as <-].
  destruct (_ =? 0); [by injection H as <-|]. by rewrite (app_release _ _ _ _ H).
Qed.

Lemma unregister_keeps w ept w' :
  rpmsg_unregister_endpoint env w ept = Ok w' -> app_of (w_tr w') = app_of (w_tr w).
Proof.
  unfold rpmsg_unregister_endpoint. intros H.
  unbind H as w1 E1. unbind H as e E2. unbind H as bm E3. unbind H as w2 E4. injection H as <-.
  cbn. rewrite (decref_keeps _ _ _ E4). cbn. by rewrite (acquire_keeps _ _ E1).
Qed.

Lemma address_keeps w w' a st go :
  create_address w RPMSG_ADDR_ANY = Ok (w', a, st, go) -> w_tr w' = w_tr w.
Proof.
  unfold create_address. rewrite Z.eqb_refl. intros H. unbind H as [bm addr] E.
  destruct (addr =? RPMSG_ADDR_ANY); by injection H as <- _ _ _.
Qed.

Lemma register_keeps w ept name a dest cb ub st w' r :
  create_register ops env ns_slot w ept name a dest cb ub st = Ok (w', r) ->
  app_of (w_tr w') = app_of (w_tr w).
Proof.
  unfold create_register. intros H. unbind H as e E1. unbind H as w1 E2.
  assert (H1 : w_tr w1 = w_tr w).
  { unfold rpmsg_register_endpoint in E2. unbind E2 as e' E3. unbind E2 as nm E4. by injection E2 as <-. }
  unbind H as e2 E3. unbind H as c E4. unbind H as [w3 st3] E5.
  assert (H3 : app_of (w_tr w3) = app_of (w_tr w)).
  { destruct (_ && _ && _); [|by injection E5 as <- _; cbn; rewrite H1].
    rewrite (ns_message_keeps _ _ _ _ _ E5). cbn. by rewrite H1. }
  destruct (st3 =? 0); cbn [negb] in H; [by injection H as <- _|].
  unbind H as w4 E6. injection H as <- _.
  by rewrite (unregister_keeps _ _ _ E6).
Qed.

Lemma create_keeps w ept name dest cb ub w' r :
  rpmsg_create_ept ops env ns_slot w ept name RPMSG_ADDR_ANY dest cb ub = Ok (w', r) ->
  app_of (w_tr w') = app_of (w_tr w).
Proof.
  unfold rpmsg_create_ept. intros H. destruct (_ || _); [by injection H as <- _|].
  unbind H as w1 E1. unbind H as [[[w2 a] st] go] E2.
  rewrite <- (acquire_keeps _ _ E1), <- (address_keeps _ _ _ _ _ E2).
  destruct go; [by apply register_keeps in H|by injection H as <- _].
Qed.

Lemma destroy_keeps w ept w' :
  rpmsg_destroy_ept ops env ns_slot w ept = Ok w' -> app_of (w_tr w') = app_of (w_tr w).
Proof.
  unfold rpmsg_destroy_ept. intros H. unbind H as bad E1. destruct bad; [by injection H as <-|].
  unbind H as e E2. unbind H as c E3. unbind H as w1 E4. rewrite (unregister_keeps _ _ _ H).
  destruct (_ && _ && _); [|by injection E4 as <-]. unbind E4 as [w2 r] E5.
  injection E4 as <-. by rewrite (ns_message_keeps _ _ _ _ _ E5).
Qed.
End keeps.

(** ** Registering and unregistering *)

Lemma reg_inv_ext d E E' :
  reg_inv d E -> (forall x, x ∈ rd_endpoints d -> E' !! x = E !! x) -> reg_inv d E'.
Proof.
  intros [H1 H2 H3 H4 H5 H6 H7] He. split; try done.
  - intros x Hx. rewrite He by done. by apply H5.
  - intros x e Hx. rewrite He by done. by apply H6.
  - intros x y ex ey Hx Hy. rewrite !He by done. by apply H7.
Qed.

Lemma node_keys_cons s ks a n k op :
  node_keys s ks -> a <> 0 -> (a ∉ ks.*2) -> is_cstr (name_mem n) k ->
  node_keys (mk_app (a :: app_list s) (<[a := n]> (<[a := zero_node]> (app_nodes s))) op) ((k, a) :: ks).
Proof.
  intros (Hl & Hd & Hk) Ha Hf Hc. split_and!; cbn [app_list app_nodes].
  - by rewrite Hl.
  - by apply list.NoDup_cons.
  - constructor; cbn.
    + split; [done|]. exists n. by rewrite lookup_insert_eq.
    + apply list.Forall_forall. intros [k' b] Hb. pose proof (proj1 (list.Forall_forall _ _) Hk _ Hb) as (H0 & n' & Hn & Hc').
      split; [done|]. exists n'. cbn in *. assert (a <> b) by (intros ->; apply Hf; by apply (list_elem_of_fmap_2 snd) in Hb).
      by rewrite !lookup_insert_ne.
Qed.

Lemma node_keys_remove s ks a op :
  node_keys s ks ->
  node_keys (mk_app (filter (fun x => x <> a) (app_list s)) (delete a (app_nodes s)) op)
    (filter (fun x => x.2 <> a) ks).
Proof.
  intros (Hl & Hd & Hk).
  assert (Hf : filter (fun x => x <> a) ks.*2 = (filter (fun x => x.2 <> a) ks).*2).
  { clear. induction ks as [|[k b] ks IH]; [done|]. cbn [fmap list_fmap snd].
    destruct (decide (b = a)) as [->|Hne].
    - rewrite !filter_cons_False by (cbn; tauto). exact IH.
    - rewrite !filter_cons_True by done. cbn. by f_equal. }
  split_and!; cbn [app_list app_nodes].
  - by rewrite Hl, Hf.
  - rewrite <- Hf. by apply list.NoDup_filter.
  - apply list.Forall_forall. intros [k b] Hb. apply list_elem_of_filter in Hb as [Hne Hb].
    pose proof (proj1 (list.Forall_forall _ _) Hk _ Hb) as (H0 & n' & Hn & Hc').
    split; [done|]. exists n'. cbn in *. by rewrite lookup_delete_ne.
Qed.

Lemma key_removed ks s a : NoDup ks.*1 -> key_addr ks s = a -> key_addr (filter (fun x => x.2 <> a) ks) s = 0.
Proof.
  induction ks as [|[k b] ks IH]; [done|]. cbn [fmap list_fmap fst key_addr].
  intros [Hk Hnd]%list.NoDup_cons Ha. destruct (decide (k = s)) as [->|Hne].
  - rewrite bool_decide_true in Ha by done. subst b. rewrite filter_cons_False by (cbn; tauto).
    apply key_addr_none. intros Hs. apply Hk. apply list_elem_of_fmap in Hs as (x & -> & Hx).
    apply list_elem_of_filter in Hx as [_ Hx]. by apply list_elem_of_fmap_2.
  - rewrite bool_decide_false in Ha by done. destruct (decide (b = a)) as [->|Hb].
    + rewrite filter_cons_False by (cbn; tauto). by apply IH.
    + rewrite filter_cons_True by done. cbn [key_addr]. rewrite bool_decide_false by done. by apply IH.
Qed.

(** The world in which the endpoint of a new node is created. *)
Lemma added_ok {T} (ops : rpmsg_device_ops T) env ns_slot TR app_of app_set
    {L : AppLens ops env ns_slot TR app_of app_set} (w : world T) a n :
  w_ok ops ns_slot w -> (a ∉ rd_endpoints (w_rdev w)) ->
  let w1 := add_node app_of app_set (new_node app_of app_set w a) a n in
  w_ok ops ns_slot w1 /\ w_epts w1 !! a = Some zero_ept /\ w_rdev w1 = w_rdev w /\
  app_of (w_tr w1) =
    mk_app (a :: app_list (app_of (w_tr w)))
      (<[a := n]> (<[a := zero_node]> (app_nodes (app_of (w_tr w))))) (app_opdev (app_of (w_tr w))).
Proof.
  intros [HI Hl Ht] Ha w1. split_and!.
  - split; [|done|].
    + apply (reg_inv_ext _ (w_epts w)); [done|]. intros x Hx. cbn.
      rewrite lookup_insert_ne; [done|]. intros ->. by apply Ha.
    + cbn. by do 2 apply app_tr.
  - cbn. apply lookup_insert_eq.
  - done.
  - unfold w1, add_node, new_node, put_app, app_st. cbn [w_tr put_ept set_epts]. by rewrite !app_get.
Qed.

(** The endpoint of the node [a] is the last of the device: attached, with the dynamic address
    of the bit [b], the first twenty bytes of the name [s] and the callbacks. *)
Definition node_ept {T} (w w' : world T) (a b : Z) (s : list Z) (cb ub : Z) : Prop :=
  rd_endpoints (w_rdev w') = rd_endpoints (w_rdev w) ++ [a] /\
  exists e, w_epts w' !! a = Some e /\ ept_rdev e = true /\ ept_addr e = RPMSG_RESERVED_ADDRESSES + b /\
    ept_dest_addr e = RPMSG_ADDR_ANY /\ ept_cb e = cb /\ ept_ns_unbind_cb e = ub /\ is_cstr (ept_name e) (take 20 s).

Lemma created_node {T} (w w1 w' : world T) a b name s cb ub st :
  w_rdev w1 = w_rdev w -> is_cstr name (take 20 s) ->
  created w1 w' a (Some name) (RPMSG_RESERVED_ADDRESSES + b) RPMSG_ADDR_ANY cb ub st -> node_ept w w' a b s cb ub.
Proof.
  intros Er Hn (_ & He & e & H1 & [_ H2] & H3 & H4 & H5 & H6 & _ & H8). split; [by rewrite He, Er|]. exists e. split_and!; try done.
  specialize (H2 _ Hn). by rewrite take_take in H2.
Qed.

Lemma cstr_head l t : is_cstr l t -> negb (hd 0 l =? 0) = negb (bool_decide (t = [])).
Proof.
  intros (Hz & r & ->). destruct t as [|c t]; [done|]. apply Forall_cons_1 in Hz as [Hc _]. cbn [hd app].
  by rewrite (proj2 (Z.eqb_neq _ _) Hc).
Qed.

(** C24: Registering a name no node has, while a dynamic address is free: the call returns a
    new node at the head of the list, whose key is the first twenty bytes of the name.  Its
    endpoint is registered with a free address, that name and the callbacks; when the device
    has the name service and the name is not empty it is announced, and the endpoint stays
    registered exactly when that was sent, otherwise the endpoints and the addresses are
    as before although the node is on the list.  The registry of the endpoints stays
    sound.  Looking the name up afterwards finds the node when the name has at most
    twenty bytes, and finds nothing otherwise. *)
Theorem openamp_node_register_spec {T : Type} (ops : rpmsg_device_ops T) (env : callbacks T) (ns_slot : Z)
    (TR : Transport ops ns_slot) (app_of : T -> app_state) (app_set : T -> app_state -> T)
    {L : AppLens ops env ns_slot TR app_of app_set} (alloc_node : world T -> Z)
    (w : world T) (ks : list (list Z * Z)) (name s : list Z) (cb ub a i : Z)
    (Hok : w_ok ops ns_slot w) (Hks : node_keys (app_of (w_tr w)) ks)
    (Hname : is_cstr name s) (Hu8 : Forall is_u8 name) (Hnew : s ∉ ks.*1)
    (Hcb : cb <> 0) (Hub : ub <> 0) (Halloc : alloc_node w = a) (Ha : a <> 0)
    (Hfresh : a ∉ ks.*2) (Hept : a ∉ rd_endpoints (w_rdev w))
    (Hi : 0 <= i < RPMSG_ADDR_BMP_SIZE) (Hfree : bm_test (rd_bitmap (w_rdev w)) i = false) :
  exists w' b, openamp_app_node_register ops env ns_slot app_of app_set alloc_node w (Some name) cb ub true
      = Ok (w', a) /\
    w_ok ops ns_slot w' /\ node_keys (app_of (w_tr w')) ((take 20 s, a) :: ks) /\
    openamp_find_app_node app_of w' (Some name) = Ok (if zlen s <=? 20 then a else 0) /\
    0 <= b < RPMSG_ADDR_BMP_SIZE /\ bm_test (rd_bitmap (w_rdev w)) b = false /\
    if negb (bool_decide (s = [])) && rd_support_ns (w_rdev w) then
      exists w2 w3 st, node_ept w w2 a b s cb ub /\ rpmsg_send_ns_message ops ns_slot w2 a RPMSG_NS_CREATE = Ok (w3, st) /\
        ((st = RPMSG_SUCCESS /\ w' = w3 /\ node_ept w w' a b s cb ub) \/
         (st < 0 /\ rd_endpoints (w_rdev w') = rd_endpoints (w_rdev w) /\
          (forall j, 0 <= j -> bm_test (rd_bitmap (w_rdev w')) j = bm_test (rd_bitmap (w_rdev w)) j) /\
          exists e, w_epts w' !! a = Some e /\ ept_rdev e = false))
    else node_ept w w' a b s cb ub.
Proof.
  destruct (strncpy_key 20 name s 4 Hname Hu8 ltac:(lia)) as (nm & Hnm & _ & Hkey & Hnu).
  set (n := mk_node nm 0 0 cb ub). change (is_cstr (name_mem n) (take 20 s)) in Hkey.
  destruct (added_ok ops env ns_slot TR app_of app_set w a n Hok Hept) as (Hok1 & He1 & Hr1 & Ha1).
  destruct (create_dynamic_run ops env ns_slot TR (add_node app_of app_set (new_node app_of app_set w a) a n)
    a zero_ept (Some (name_mem n)) RPMSG_ADDR_ANY cb ub i Hok1 Ha Hcb He1)
    as (w' & st & b & Hrun & Hb & Hbf & Hok' & _ & (w2 & Hc2 & Hres)); try done.
  { split; [done|]. apply list.Forall_replicate. unfold is_u8. lia. }
  { split; [by exists (take 20 s)|]. apply Forall_app. split; [done|apply le_bytes_u8]. }
  assert (Hks' : node_keys (app_of (w_tr w')) ((take 20 s, a) :: ks)).
  { rewrite (create_keeps ops env ns_slot TR app_of app_set _ _ _ _ _ _ _ _ Hrun), Ha1. by apply node_keys_cons. }
  exists w', b. split_and!; [|done|done| |lia|lia|by rewrite Hr1 in Hbf|].
  - unfold openamp_app_node_register. rewrite (proj2 (Z.eqb_neq _ _) Hcb), (proj2 (Z.eqb_neq _ _) Hub).
    cbn [orb]. unfold find_node, app_st. destruct Hks as (Hl & _ & Hk). rewrite Hl, (node_loop_keys _ _ _ s) by done.
    rewrite key_addr_none by done. cbn [mbind res_bind]. rewrite Halloc, (proj2 (Z.eqb_neq _ _) Ha).
    change (negb (0 =? 0)) with false. cbn iota. change (Z.to_nat OPENAMP_APP_NODE_NAME_MAXLEN) with 20%nat.
    rewrite Hnm. cbn [mbind res_bind]. fold n.
    change (an_cb n) with cb. change (an_unbind_cb n) with ub. by rewrite Hrun.
  - unfold openamp_find_app_node, find_node, app_st. destruct Hks' as (Hl & _ & Hk).
    rewrite Hl, (node_loop_keys _ _ _ s) by done. cbn [key_addr]. f_equal.
    destruct (zlen s <=? 20) eqn:Es; zbool; unfold zlen in Es.
    + by rewrite bool_decide_true by (apply take_ge; lia).
    + rewrite bool_decide_false by (intros Ht; apply (f_equal length) in Ht; rewrite length_take in Ht; lia).
      by apply key_addr_none.
  - unfold announces in Hres. rewrite Z.eqb_refl, andb_true_r, Hr1, (cstr_head _ _ Hkey) in Hres.
    replace (bool_decide (take 20 s = [])) with (bool_decide (s = [])) in Hres by (apply bool_decide_ext; by destruct s).
    pose proof (created_node w _ w2 a b _ s cb ub _ Hr1 Hkey Hc2) as H2.
    destruct (negb _ && _); [|by destruct Hres as [-> _]].
    destruct Hres as (w3 & Hs & Hr). exists w2, w3, st. split; [done|]. split; [done|].
    destruct Hr as [(H3 & H4 & H5)|(H3 & _ & H4 & H5 & H6)]; [left|right]; rewrite ?Hr1 in *; split_and!; try done.
    by eapply created_node.
Qed.

(** C25: Unregistering a name that a node with a registered endpoint has: that node is
    taken off the list, its endpoint is destroyed and its memory is freed; no other
    node changes, the registry of the endpoints stays sound, and, when the keys are
    distinct, the name is not found afterwards. *)
Theorem openamp_node_unregister_spec {T : Type} (ops : rpmsg_device_ops T) (env : callbacks T) (ns_slot : Z)
    (TR : Transport ops ns_slot) (app_of : T -> app_state) (app_set : T -> app_state -> T)
    {L : AppLens ops env ns_slot TR app_of app_set}
    (w : world T) (ks : list (list Z * Z)) (name s : list Z) (a : Z) (e : rpmsg_endpoint)
    (Hok : w_ok ops ns_slot w) (Hks : node_keys (app_of (w_tr w)) ks)
    (Hname : is_cstr name s) (Hkey : key_addr ks s = a) (Ha : a <> 0)
    (Hin : a ∈ rd_endpoints (w_rdev w)) (He : w_epts w !! a = Some e)
    (Href : ept_refcnt e = 1) (Hrel : ept_release_cb e = 0) :
  exists w', openamp_app_node_unregister ops env ns_slot app_of app_set w (Some name) = Ok (w', 0) /\
    w_ok ops ns_slot w' /\ node_keys (app_of (w_tr w')) (filter (fun x => x.2 <> a) ks) /\
    rd_endpoints (w_rdev w') = filter (fun y => y <> a) (rd_endpoints (w_rdev w)) /\
    w_epts w' !! a = None /\ (forall y, y <> a -> w_epts w' !! y = w_epts w !! y) /\
    (NoDup ks.*1 -> openamp_find_app_node app_of w' (Some name) = Ok 0).
Proof.
  set (st := app_of (w_tr w)) in *.
  set (w1 := put_app app_set w (mk_app (filter (fun x => x <> a) (app_list st)) (app_nodes st) (app_opdev st))).
  assert (Hok1 : w_ok ops ns_slot w1) by (destruct Hok as [wo_reg wo_lock wo_tr]; split; [done..|exact (app_tr _ _ _ wo_tr)]).
  destruct (destroy_ept_run ops env ns_slot TR w1 a e Hok1 Ha Hin He Href Hrel)
    as (w2 & Hrun & [HI2 Hl2 Ht2] & Hend & _ & Hoth & _).
  pose proof (destroy_keeps ops env ns_slot TR app_of app_set _ _ _ Hrun) as Hkp.
  assert (Hst2 : app_of (w_tr w2) = mk_app (filter (fun x => x <> a) (app_list st)) (app_nodes st) (app_opdev st))
    by (rewrite Hkp; exact (app_get (w_tr w) _)).
  assert (Hfst : app_of (w_tr (free_node app_of app_set w2 a)) =
    mk_app (filter (fun x => x <> a) (app_list st)) (delete a (app_nodes st)) (app_opdev st)).
  { unfold free_node, put_app, app_st. cbn [w_tr]. by rewrite app_get, Hst2. }
  assert (Hks' : node_keys (app_of (w_tr (free_node app_of app_set w2 a))) (filter (fun x => x.2 <> a) ks))
    by (rewrite Hfst; by apply node_keys_remove).
  exists (free_node app_of app_set w2 a). split_and!.
  - unfold openamp_app_node_unregister, find_node, app_st. fold st. destruct Hks as (Hl & _ & Hk).
    rewrite Hl at 1. rewrite (node_loop_keys _ _ _ s), Hkey by done. cbn [mbind res_bind].
    rewrite (proj2 (Z.eqb_neq _ _) Ha). fold w1. by rewrite Hrun.
  - split; [|done|exact (app_tr _ _ _ Ht2)]. apply (reg_inv_ext _ (w_epts w2)); [done|]. intros x Hx. cbn.
    cbn in Hx. rewrite Hend in Hx. apply list_elem_of_filter in Hx as [Hne _]. by rewrite lookup_delete_ne.
  - done.
  - exact Hend.
  - cbn. apply lookup_delete_eq.
  - intros y Hy. cbn. rewrite lookup_delete_ne by done. by rewrite Hoth.
  - intros Hnd. unfold openamp_find_app_node, find_node, app_st. destruct Hks' as (Hl & _ & Hk).
    rewrite Hl, (node_loop_keys _ _ _ s) by done. f_equal. by apply key_removed.
Qed.

(** ** Nodes over a transport that accepts every message *)

Definition demo_app_ops : rpmsg_device_ops app_state :=
  mk_rops (Some (fun w _ _ _ len _ => Ok (w, len))) None None None None None None None.
Definition demo_app_env : callbacks app_state :=
  mk_callbacks (fun _ w _ => Ok w) (fun _ w _ _ _ _ _ => Ok (w, 0)) (fun _ w _ => Ok w)
    (fun _ w _ _ => Ok w).

#[export, program] Instance demo_app_transport : Transport demo_app_ops demo_slot := {
  tr_ok m _ := exists bs, zlen bs = SIZEOF_NS_MSG /\ has_bytes m demo_slot bs /\ Forall is_u8 bs
}.
Next Obligation. done. Qed.
Next Obligation. done. Qed.
Next Obligation. intros m t bs _ Hl Hu. exists bs. split; [done|]. split; [apply has_bytes_put|done]. Qed.
Next Obligation.
  intros f [= <-] w src dst bs wait Ht Hl Hz Hb. eexists _, _. split; [done|]. done.
Qed.

#[export, program] Instance demo_app_lens
  : AppLens demo_app_ops demo_app_env demo_slot demo_app_transport id (fun _ x => x).
Next Obligation. done. Qed.
Next Obligation. done. Qed.
Next Obligation. by intros f [= <-] w src dst data len wait w' r [= <- _]. Qed.
Next Obligation. by intros f w ept w' [= <-]. Qed.

(** No node yet; the node of the name "ns", whose endpoint is registered. *)
Definition demo_app_empty : world app_state :=
  mk_world demo_mem ∅ (w_rdev demo_world) (mk_app [] ∅ true).
Definition demo_app_ns : world app_state :=
  mk_world demo_mem (w_epts demo_world3) (w_rdev demo_world3)
    (mk_app [100] {[ 100 := mk_node ([110; 115] ++ replicate 18 0) 0 0 5 6 ]} true).

Lemma demo_app_tr_ok t : tr_ok (Transport := demo_app_transport) demo_mem t.
Proof. exact (wo_tr _ _ _ demo_w_ok). Qed.

Lemma openamp_node_register_spec_witness :
  exists w', openamp_app_node_register demo_app_ops demo_app_env demo_slot id (fun _ x => x) (fun _ => 64)
      demo_app_empty (Some ECHO_NAME) 5 6 true = Ok (w', 64) /\
    openamp_find_app_node id w' (Some ECHO_NAME) = Ok 64.
Proof.
  destruct (openamp_node_register_spec demo_app_ops demo_app_env demo_slot demo_app_transport id (fun _ x => x)
    (fun _ => 64) demo_app_empty [] ECHO_NAME [101; 99; 104; 111] 5 6 64 0)
    as (w' & b & H1 & _ & _ & H2 & _).
  - split; [|reflexivity|apply demo_app_tr_ok].
    apply (reg_inv_ext _ (w_epts demo_world)); [apply (wo_reg _ _ _ demo_w_ok)|].
    intros x Hx. by apply not_elem_of_nil in Hx.
  - split; [reflexivity|]. split; constructor.
  - split; [repeat constructor; lia|]. exists []. reflexivity.
  - repeat constructor; unfold is_u8; lia.
  - apply not_elem_of_nil.
  - lia.
  - lia.
  - reflexivity.
  - lia.
  - apply not_elem_of_nil.
  - apply not_elem_of_nil.
  - vm_compute. split; [discriminate|reflexivity].
  - reflexivity.
  - exists w'. split; [exact H1|exact H2].
Defined.

Lemma openamp_node_unregister_spec_witness :
  exists w', openamp_app_node_unregister demo_app_ops demo_app_env demo_slot id (fun _ x => x)
      demo_app_ns (Some [110; 115; 0]) = Ok (w', 0) /\
    w_epts w' !! 100 = None /\ openamp_find_app_node id w' (Some [110; 115; 0]) = Ok 0.
Proof.
  destruct (openamp_node_unregister_spec demo_app_ops demo_app_env demo_slot demo_app_transport id (fun _ x => x)
    demo_app_ns [([110; 115], 100)] [110; 115; 0] [110; 115] 100 demo_ept3)
    as (w' & H1 & _ & _ & _ & H2 & _ & H3).
  - split; [apply (wo_reg _ _ _ demo_w_ok3)|reflexivity|apply demo_app_tr_ok].
  - split; [reflexivity|]. split; [apply NoDup_singleton|]. constructor; [|constructor].
    split; [discriminate|]. eexists. split; [reflexivity|]. split; [repeat constructor; lia|].
    eexists. reflexivity.
  - split; [repeat constructor; lia|]. exists []. reflexivity.
  - reflexivity.
  - lia.
  - by apply list_elem_of_singleton.
  - reflexivity.
  - reflexivity.
  - reflexivity.
  - exists w'. split; [exact H1|]. split; [exact H2|apply H3, NoDup_singleton].
Defined.

(** A name of twenty-one bytes: the node is made, but it is never found, so that the
    name is registered twice and cannot be unregistered. *)
Example openamp_long_name_lost :
  let name := replicate 21 97 ++ [0] in
  let register w a := openamp_app_node_register demo_app_ops demo_app_env demo_slot id (fun _ x => x)
      (fun _ => a) w (Some name) 5 6 true in
  ('(w1, a) ← register demo_app_empty 64;
   '(w2, b) ← register w1 65;
   '(w3, r) ← openamp_app_node_unregister demo_app_ops demo_app_env demo_slot id (fun _ x => x) w2 (Some name);
   Ok (a, b, r, app_list (w_tr w3))) = Ok (64, 65, -1, [65; 64]).
Proof. vm_compute. reflexivity. Qed.
