(* ===== verification/OpenampDev.v ===== *)
(** * The AMP device (operation_interface/operation_interface.c and .h)

    [openamp_dev_create] maps the shared memory, lays the status byte, the two rings
    and the buffers out in it, and starts RPMsg over a virtio device whose status is
    the first byte of the memory.  The operating system ([open], [ioctl], [mmap],
    threads) is a parameter with state [E].  The status byte is the state of the
    virtio transport: the layout keeps everything else away from it. *)

From S2P Require Import Prelude MetalUtil MetalIo Vring Virtqueue VirtqueueInv VirtqueueRefine.
From S2P Require Import VirtqueueSys Virtio Rpmsg RpmsgVirtio.

(** ** Data *)

Definition RPMSG_HOST : Z := VIRTIO_DEV_DRIVER.
Definition RPMSG_REMOTE : Z := VIRTIO_DEV_DEVICE.
Definition DEFAULT_PAGE_SHIFT : Z := u32 (-1).
Definition EPERM : Z := 1.
Definition MAP_FAILED : Z := u64 (-1).

(** The requests of [ioctl] the program makes. *)
Inductive hw_secondary : Type :=
| HW_SECONDARY_CPU_ONLINE
| HW_SECONDARY_CPU_DOWNLINE
| HW_SECONDARY_LOAD_FIRMWARE
| HW_SECONDARY_SIGNAL_SEND
| HW_SECONDARY_IRQ_INSTALL.

(** The fields of [struct openamp_virtio_device] the caller fills. *)
Record amp_config := mk_amp_config {
  dev_name : bool;
  shm_mpaddr : Z;
  shm_physaddr : Z;
  shm_size : Z;
  cpu_id : Z;
  cfg_entry : Z;
  irq_id : Z;
  tx_num : Z;
  rx_num : Z;
  align_size : Z;
  vdev_status_size : Z
}.

(** The fields [openamp_dev_create] computes; [od_vrings] is empty while the pointers
    to the virtqueues are null; [od_opdev] is whether [opdev] points to the device. *)
Record amp_layout := mk_amp_layout {
  od_fd : Z;
  shm_vaddr : Z;
  vring_tx : Z;
  vring_rx : Z;
  vring_buf : Z;
  od_vring_size : Z;
  shm_physmap : Z;
  io_region : metal_io_region;
  shpool : rpmsg_virtio_shm_pool;
  od_vrings : list virtio_vring_info;
  od_vdev : virtio_device;
  od_opdev : bool
}.

Definition ALIGN (size align : Z) : Z := Z.land (u64 (size + align - 1)) (u64 (Z.lnot (u64 (align - 1)))).

(** [AMP_MASTER] is defined. *)
Definition openamp_dev_role_get : Z := RPMSG_HOST.

(** ** The virtio device: its back end is the status byte *)

Definition Virtio_get_status (v : vdev Z) : res Z := Ok (vd_back v).
Definition Virtio_set_status (v : vdev Z) (status : Z) : res (vdev Z) :=
  Ok (mk_vd (vd_dev v) (u8 status) (vd_vrings v)).
Definition Virtio_get_features (v : vdev Z) : res Z := Ok (Z.shiftl 1 VIRTIO_RPMSG_F_NS).
Definition Virtio_set_features (v : vdev Z) (features : Z) : res (vdev Z) := Ok v.

(** [dispatch], with the address of [Virtio_notify]. *)
Definition dispatch (notify_fn : Z) : virtio_dispatch Z :=
  mk_dispatch None None (Some Virtio_get_status) (Some Virtio_set_status) (Some Virtio_get_features)
    (Some Virtio_set_features) None None None None notify_fn.

(** ** The layout of the shared memory *)

(** A vring's information as the code fills it; the contents of the ring are read
    when its virtqueue is created. *)
Definition amp_vring (io : metal_io_region) (vaddr num : Z) : virtio_vring_info :=
  mk_vinfo (virtqueue_allocate num) (mk_vring [] (mk_avail 0 0 [] 0) (mk_used 0 0 [] 0))
    (mk_alloc vaddr 4 num) 0 io.

(** The addresses, the I/O region and its physical address. *)
Definition lay_memory (c : amp_config) (d : amp_layout) (vaddr : Z) : amp_layout :=
  let tx := ALIGN (vaddr + vdev_status_size c) (align_size c) in
  let rx := ALIGN (tx + u32 ((tx_num c + 1) * 32)) (align_size c) in
  let buf := ALIGN (rx + u32 ((rx_num c + 1) * 32)) (align_size c) in
  let size := u32 (vaddr + shm_size c - buf) in
  let phys := u64 (shm_physaddr c + (buf - vaddr)) in
  let io := metal_io_init buf (Some [phys]) (u32 (shm_size c - vdev_status_size c)) DEFAULT_PAGE_SHIFT 0 None in
  mk_amp_layout (od_fd d) vaddr tx rx buf size phys io (shpool d) (od_vrings d) (od_vdev d) (od_opdev d).

(** The vrings, the role and the pool of buffers. *)
Definition lay_vrings (c : amp_config) (d : amp_layout) : amp_layout :=
  mk_amp_layout (od_fd d) (shm_vaddr d) (vring_tx d) (vring_rx d) (vring_buf d) (od_vring_size d)
    (shm_physmap d) (io_region d)
    (rpmsg_virtio_init_shm_pool (shpool d) (vring_buf d) (od_vring_size d))
    [amp_vring (io_region d) (vring_tx d) (tx_num c); amp_vring (io_region d) (vring_rx d) (rx_num c)]
    (mk_vdev (vdev_notifyid (od_vdev d)) (vdev_features (od_vdev d)) openamp_dev_role_get) (od_opdev d).

Definition amp_lay_out (c : amp_config) (d : amp_layout) (vaddr : Z) : amp_layout :=
  lay_vrings c (lay_memory c d vaddr).

Definition set_fd (d : amp_layout) (fd vaddr : Z) : amp_layout :=
  mk_amp_layout fd vaddr (vring_tx d) (vring_rx d) (vring_buf d) (od_vring_size d) (shm_physmap d)
    (io_region d) (shpool d) (od_vrings d) (od_vdev d) (od_opdev d).

Definition set_opdev (d : amp_layout) : amp_layout :=
  mk_amp_layout (od_fd d) (shm_vaddr d) (vring_tx d) (vring_rx d) (vring_buf d) (od_vring_size d)
    (shm_physmap d) (io_region d) (shpool d) (od_vrings d) (od_vdev d) true.

Section device.
Context {E : Type}.
Abbreviation W := (world (rpmsg_virtio Z)).
(** [open]; [ioctl] on a descriptor; [mmap], with the memory it maps; whether an
    allocation succeeds; [pthread_create]; [munmap] and [close]; the release of a
    virtqueue; [poll]. *)
Variable os_open : E -> E * Z.
Variable os_ioctl : E -> Z -> hw_secondary -> E * Z.
Variable os_mmap : E -> gmap Z Z -> Z -> Z -> Z -> E * gmap Z Z * Z.
Variable os_alloc : E -> Z -> E * bool.
Variable os_thread : E -> E * Z.
Variable os_munmap : E -> gmap Z Z -> Z -> Z -> E * gmap Z Z.
Variable os_close : E -> Z -> E.
Variable os_free : E -> virtqueue -> E.
Variable os_poll : E -> Z -> E * Z * bool.
(** RPMsg over the virtio device; the addresses of [Virtio_notify] and
    [openamp_ns_bind_cb]. *)
Variable bld : build.
Variables notify_fn ns_bind_fn ns_cb ns_ept rx_cb tx_cb rvdev : Z.
Variables (ready_fuel : nat) (ready_poll : gmap Z Z * vdev Z -> gmap Z Z * vdev Z).

Definition Virtio_notify (e : E) (d : amp_layout) : E :=
  (os_ioctl e (od_fd d) HW_SECONDARY_SIGNAL_SEND).1.

(** The tests at the start of [openamp_dev_create]. *)
Definition config_valid (c : amp_config) : bool :=
  negb (negb (dev_name c) || (shm_mpaddr c =? 0) || (shm_physaddr c =? 0) || (shm_size c =? 0)) &&
  negb ((cpu_id c <? 0) || (cfg_entry c =? 0) || (irq_id c <? 0)) &&
  negb ((tx_num c =? 0) || (rx_num c =? 0)) &&
  negb ((vdev_status_size c =? 0) || (align_size c =? 0)).

(** The end of [openamp_dev_create]: the thread and the other processor.  The status
    is [None] when the process exits. *)
Definition create_start (e : E) (w : W) (d : amp_layout) : E * W * amp_layout * option Z :=
  let '(e, ret) := os_thread e in
  if negb (ret =? 0) then (e, w, d, None)
  else
    let '(e, ret) := os_ioctl e (od_fd d) HW_SECONDARY_CPU_DOWNLINE in
    if ret <? 0 then (e, w, d, Some (-1))
    else
      let '(e, ret) := os_ioctl e (od_fd d) HW_SECONDARY_CPU_ONLINE in
      if ret <? 0 then (e, w, d, Some (-1)) else (e, w, d, Some 0).

(** The middle: the layout, the virtqueues and RPMsg, whose result is not used. *)
Definition create_device (e : E) (w : W) (c : amp_config) (d : amp_layout) (vaddr : Z)
  : res (E * W * amp_layout * option Z) :=
  m ← storen (w_mem w) vaddr (replicate (Z.to_nat (shm_size c)) 0);
  let w := set_mem w m in
  let d := lay_memory c d vaddr in
  let '(e, ok) := os_alloc e (tx_num c) in
  if negb ok then Ok (e, w, d, Some (-1))
  else
    let '(e, ok) := os_alloc e (rx_num c) in
    if negb ok then Ok (e, w, d, Some (-1))
    else
      let d := lay_vrings c d in
      '(w, _) ← rpmsg_init_vdev bld (Some (dispatch notify_fn)) ns_cb ns_ept rx_cb tx_cb rvdev ready_fuel
                  ready_poll w (mk_vd (od_vdev d) 0 (od_vrings d)) ns_bind_fn (io_region d) [shpool d];
      Ok (create_start e w (set_opdev d)).

Definition openamp_dev_create (e : E) (w : W) (c : amp_config) (d : amp_layout)
  : res (E * W * amp_layout * option Z) :=
  if negb (config_valid c) then Ok (e, w, d, Some (-1))
  else
    let '(e, fd) := os_open e in
    let d := set_fd d fd (shm_vaddr d) in
    if fd <? 0 then Ok (e, w, d, Some (-1))
    else
      let '(e, ret) := os_ioctl e fd HW_SECONDARY_LOAD_FIRMWARE in
      if ret <? 0 then Ok (e, w, d, Some (-1))
      else
        let '(e, ret) := os_ioctl e fd HW_SECONDARY_IRQ_INSTALL in
        if ret <? 0 then Ok (e, w, d, Some (-1))
        else
          let '(e, m, vaddr) := os_mmap e (w_mem w) (shm_size c) fd (shm_mpaddr c) in
          let w := set_mem w m in
          if vaddr =? MAP_FAILED then Ok (e, w, set_fd d fd vaddr, Some (- EPERM))
          else create_device e w c d vaddr.

(** [dev] is whether the pointer is not null. *)
Definition openamp_dev_delete (e : E) (w : W) (c : amp_config) (d : amp_layout) (dev : bool) : E * W * Z :=
  if negb dev then (e, w, -1)
  else
    let '(e, w) :=
      if negb (shm_vaddr d =? 0)
      then let '(e, m) := os_munmap e (w_mem w) (shm_vaddr d) (shm_size c) in (e, set_mem w m)
      else (e, w) in
    let e := if negb (od_fd d =? 0) then os_close e (od_fd d) else e in
    let e := match od_vrings d with vi :: _ => os_free e (vi_vq vi) | [] => e end in
    let e := match od_vrings d with _ :: vi :: _ => os_free e (vi_vq vi) | _ => e end in
    (e, w, 0).

(** ** The thread that waits for interrupts *)

(** The virtqueue it serves, by position. *)
Definition thread_vq (d : amp_layout) : Z := if vdev_role (od_vdev d) =? RPMSG_HOST then 0 else 1.

(** One round of the loop: whether it goes on, and the callback that is called. *)
Definition thread_round (e : E) (d : amp_layout) (vrings : list virtio_vring_info)
  : res (E * bool * option Z) :=
  let '(e, ret, pollin) := os_poll e (od_fd d) in
  if ret <? 0 then Ok (e, false, None)
  else if pollin : bool then
    vi ← rget vrings (thread_vq d);
    Ok (e, true, virtqueue_notification (vi_vq vi))
  else Ok (e, true, None).
End device.

(** ** Theorems *)

Lemma ALIGN_up x a :
  pow2 a -> a <= 4096 -> 0 <= x -> x + a <= 18446744073709551616 ->
  x <= ALIGN x a < x + a /\ ALIGN x a mod a = 0.
Proof.
  intros Hp Ha Hx Hb. pose proof (pow2_pos _ Hp) as Hpos.
  assert (E : ALIGN x a = x + (- x) mod a).
  { rewrite <- align_up_spec by done. unfold ALIGN, metal_align_down.
    rewrite (u64_id (a - 1)) by (unfold is_u64; lia). done. }
  rewrite E. pose proof (Z.mod_pos_bound (- x) a Hpos). split; [lia|].
  replace (x + (- x) mod a) with (a * - (- x / a)) by (pose proof (Z_div_mod_eq_full (- x) a); lia).
  by rewrite Z.mul_comm, Z.mod_mul by lia.
Qed.

Lemma vring_size_4 n : 0 < n <= VRING_MAX -> vring_size n 4 <= (n + 1) * 32.
Proof.
  intros Hn. rewrite vring_size_eq; [|by exists 2|lia|lia]. cbn zeta.
  pose proof (Z.mod_pos_bound (- (18 * n + 6)) 4). lia.
Qed.

Lemma mod4_of_mod a x : pow2 a -> 4 <= a -> x mod a = 0 -> x mod 4 = 0.
Proof.
  intros (k & Hk & ->) H4 Hx. assert (2 <= k) by (apply (Z.pow_le_mono_r_iff 2); lia).
  apply Z.mod_divide; [lia|]. apply Z.mod_divide in Hx; [|lia]. etrans; [|exact Hx].
  exists (2 ^ (k - 2)). rewrite Z.mul_comm. change 4 with (2 ^ 2). rewrite <- Z.pow_add_r by lia. f_equal. lia.
Qed.

(** The addresses of the rings and the buffers. *)
Lemma amp_addresses c d vaddr :
  pow2 (align_size c) -> 4 <= align_size c <= 4096 -> 0 < tx_num c <= VRING_MAX ->
  0 < rx_num c <= VRING_MAX -> 0 < vdev_status_size c < 2 ^ 32 -> 0 < vaddr < 2 ^ 63 ->
  let l := amp_lay_out c d vaddr in
  vaddr + vdev_status_size c <= vring_tx l < vaddr + 2 ^ 32 + 4096 /\ vring_tx l mod 4 = 0 /\
  vring_tx l + (tx_num c + 1) * 32 <= vring_rx l < vring_tx l + 2 ^ 21 /\ vring_rx l mod 4 = 0 /\
  vring_rx l + (rx_num c + 1) * 32 <= vring_buf l < vring_rx l + 2 ^ 21.
Proof.
  intros Hal Ha Htx Hrx Hst Hv l. unfold VRING_MAX in *.
  assert (E1 : u32 ((tx_num c + 1) * 32) = (tx_num c + 1) * 32) by (apply u32_id; unfold is_u32; lia).
  assert (E2 : u32 ((rx_num c + 1) * 32) = (rx_num c + 1) * 32) by (apply u32_id; unfold is_u32; lia).
  destruct (ALIGN_up (vaddr + vdev_status_size c) (align_size c)) as [T1 T2]; [done|lia..|].
  change (ALIGN _ _) with (vring_tx l) in T1, T2.
  destruct (ALIGN_up (vring_tx l + u32 ((tx_num c + 1) * 32)) (align_size c)) as [R1 R2];
    [done|lia|rewrite E1; lia..|].
  change (ALIGN _ _) with (vring_rx l) in R1, R2.
  destruct (ALIGN_up (vring_rx l + u32 ((rx_num c + 1) * 32)) (align_size c)) as [B1 B2];
    [done|lia|rewrite E2; lia..|].
  change (ALIGN _ _) with (vring_buf l) in B1, B2.
  rewrite E1 in R1. rewrite E2 in B1.
  pose proof (mod4_of_mod _ _ Hal (proj1 Ha) T2). pose proof (mod4_of_mod _ _ Hal (proj1 Ha) R2).
  split_and!; lia.
Qed.

Lemma below_region io v :
  io_virt io < 2 ^ 64 -> io_size io < 2 ^ 32 -> 0 <= v < io_virt io -> io_virt io - v < 2 ^ 63 ->
  metal_io_virt_to_offset io v = METAL_BAD_OFFSET.
Proof.
  intros H1 H2 H3 H4. unfold metal_io_virt_to_offset. rewrite (proj2 (Z.ltb_ge _ _)); [done|]. width.
Qed.

(** C26: The shared memory as [openamp_dev_create] divides it, when it is large enough: the
    status, the two rings (aligned, and laid out as the ring needs it) and the
    buffers follow each other without overlap, and the buffers end with the memory.
    The I/O region, however, begins at the buffers with the size of everything after
    the status: it reaches beyond the end of the shared memory, and neither ring is
    in it. *)
Theorem amp_layout_sound (c : amp_config) (d : amp_layout) (vaddr : Z)
    (Hal : pow2 (align_size c)) (Hal4 : 4 <= align_size c <= 4096)
    (Htx : 0 < tx_num c <= VRING_MAX) (Hrx : 0 < rx_num c <= VRING_MAX)
    (Hst : 0 < vdev_status_size c < 2 ^ 32) (Hsz : 0 < shm_size c < 2 ^ 32)
    (Hv : 0 < vaddr < 2 ^ 63) (Hfit : vring_buf (amp_lay_out c d vaddr) < vaddr + shm_size c) :
  let l := amp_lay_out c d vaddr in
  vaddr + vdev_status_size c <= vring_tx l /\
  layout_ok (vring_init (tx_num c) (vring_tx l) 4) (vring_tx l) 4 /\
  vring_tx l + vring_size (tx_num c) 4 <= vring_rx l /\
  layout_ok (vring_init (rx_num c) (vring_rx l) 4) (vring_rx l) 4 /\
  vring_rx l + vring_size (rx_num c) 4 <= vring_buf l /\
  shpool l = mk_pool (vring_buf l) (od_vring_size l) (od_vring_size l) /\
  vring_buf l + od_vring_size l = vaddr + shm_size c /\
  vaddr + shm_size c < io_virt (io_region l) + io_size (io_region l) /\
  metal_io_virt_to_offset (io_region l) (vring_tx l) = METAL_BAD_OFFSET /\
  metal_io_virt_to_offset (io_region l) (vring_rx l) = METAL_BAD_OFFSET.
Proof.
  intros l. destruct (amp_addresses c d vaddr Hal Hal4 Htx Hrx Hst Hv) as (A1 & A2 & A3 & A4 & A5).
  fold l in A1, A2, A3, A4, A5, Hfit.
  pose proof (vring_size_4 _ Htx). pose proof (vring_size_4 _ Hrx). unfold VRING_MAX in *.
  assert (Hsize : od_vring_size l = vaddr + shm_size c - vring_buf l).
  { change (od_vring_size l) with (u32 (vaddr + shm_size c - vring_buf l)). apply u32_id. unfold is_u32. lia. }
  assert (Hio : io_virt (io_region l) = vring_buf l /\ io_size (io_region l) = shm_size c - vdev_status_size c).
  { split; [done|]. change (io_size (io_region l)) with (u32 (shm_size c - vdev_status_size c)).
    apply u32_id. unfold is_u32. lia. }
  destruct Hio as [Hi1 Hi2].
  split_and!; try lia.
  - apply layout_of_init; [by exists 2|lia|unfold VRING_MAX; lia|lia|done|lia].
  - apply layout_of_init; [by exists 2|lia|unfold VRING_MAX; lia|lia|done|lia].
  - change (shpool l) with (rpmsg_virtio_init_shm_pool (shpool d) (vring_buf l) (od_vring_size l)).
    unfold rpmsg_virtio_init_shm_pool.
    by rewrite (proj2 (Z.eqb_neq (vring_buf l) 0)), (proj2 (Z.eqb_neq (od_vring_size l) 0)) by lia.
  - apply below_region; lia.
  - apply below_region; lia.
Qed.

(** The configuration of the demonstration, mapped at a page. *)
Definition AMP_SHARE_MEMORY_ADDRESS : Z := 2566914048.
Definition AMP_SHARE_MEMORY_PHYSICS_ADDRESS : Z := 9223372039421689856.
Definition AMP_SHARE_MEMORY_SIZE : Z := 65536.
Definition AMP_VDEV_STATUS_SIZE : Z := 4096.
Definition AMP_VDEV_ALIGN_SIZE : Z := 4096.
Definition AMP_DEMO_VRING_TX_DES_NUM : Z := 16.
Definition AMP_DEMO_VRING_RX_DES_NUM : Z := 16.
Definition AMP_SLAVE_CPU_ID : Z := 1.
Definition AMP_SLAVE_ENTRY : Z := 2533359616.
Definition AMP_SLAVE_IRQ_ID : Z := 7.

Definition demo_app_config : amp_config :=
  mk_amp_config true AMP_SHARE_MEMORY_ADDRESS AMP_SHARE_MEMORY_PHYSICS_ADDRESS AMP_SHARE_MEMORY_SIZE
    AMP_SLAVE_CPU_ID AMP_SLAVE_ENTRY AMP_SLAVE_IRQ_ID AMP_DEMO_VRING_TX_DES_NUM AMP_DEMO_VRING_RX_DES_NUM
    AMP_VDEV_ALIGN_SIZE AMP_VDEV_STATUS_SIZE.

(** A structure that was not used before. *)
Definition zero_layout : amp_layout :=
  mk_amp_layout 0 0 0 0 0 0 0 NULL_IO (mk_pool 0 0 0) [] (mk_vdev 0 0 0) false.

Lemma amp_layout_sound_witness :
  let l := amp_lay_out demo_app_config zero_layout 1048576 in
  vring_tx l + vring_size 16 4 <= vring_rx l /\
  1048576 + 65536 < io_virt (io_region l) + io_size (io_region l).
Proof.
  destruct (amp_layout_sound demo_app_config zero_layout 1048576) as (_ & _ & H1 & _ & _ & _ & _ & H2 & _).
  - exists 12. split; [lia|reflexivity].
  - vm_compute. split; discriminate.
  - vm_compute. split; [reflexivity|discriminate].
  - vm_compute. split; [reflexivity|discriminate].
  - vm_compute. split; reflexivity.
  - vm_compute. split; reflexivity.
  - vm_compute. split; reflexivity.
  - vm_compute. reflexivity.
  - split; [exact H1|exact H2].
Defined.

(** ** The whole of [openamp_dev_create], run

    An operating system that grants everything, mapping the memory at 8192; a small
    configuration.  The status is that of the call and the byte the other side
    reads. *)
Definition demo_create (size : Z) : res (option Z * Z) :=
  let c := mk_amp_config true 1 1048576 size 1 1 7 2 2 64 64 in
  let w := mk_world (put_bytes ∅ 100 (replicate 16 0))
      {[300 := mk_ept (replicate 32 0) false 0 0 0 0 0 0 0]} (zero_rdev 0)
      (mk_rv (mk_config 0 0 false) (mk_vd (mk_vdev 0 0 0) 0 []) 0 0 NULL_IO [] 0 100 0 []) in
  '(_, w, _, status) ←
    openamp_dev_create (fun e => (e, 3)) (fun e _ _ => (e, 0))
      (fun e m sz _ _ => (e, put_bytes m 8192 (replicate (Z.to_nat sz) 0), 8192))
      (fun e _ => (e, true)) (fun e => (e, 0)) (mk_build false (Some 1) None) 1 2 3 300 4 5 6 0%nat id
      tt w c zero_layout;
  Ok (status, vd_back (rv_vdev (w_tr w))).

(** With room for the buffers the device reaches [DRIVER_OK]; without it RPMsg is not
    started, the device stays in reset, and the call still returns 0; when not even
    the rings fit, the size of the pool wraps around and buffers are taken beyond the
    memory. *)
Example openamp_dev_create_runs :
  demo_create 4096 = Ok (Some 0, VIRTIO_CONFIG_STATUS_DRIVER_OK) /\ demo_create 800 = Ok (Some 0, 0) /\
  demo_create 300 = Fault Out_of_bounds.
Proof. split_and!; vm_compute; reflexivity. Qed.
