(* ===== verification/MergePass.v ===== *)
(** * Bottom-up merge sort on lists

    The reference for the merge sort of DlistSort: a pass merges neighbouring runs of
    length [k], and passes with growing runs sort.  Elements among which the order does
    not distinguish keep their order. *)

From S2P Require Import Prelude.
From stdpp Require Import sorting.

Section passes.
Context {A : Type} (R : relation A) `{RD : forall x y, Decision (R x y)}.
Implicit Types (xs ys l : list A) (k fuel : nat).

(** One pass; [fuel] is at least the length. *)
Fixpoint run_pass (fuel k : nat) (xs : list A) : list A :=
  match fuel, xs with
  | S fuel', _ :: _ => list_merge R (take k xs) (take k (drop k xs)) ++ run_pass fuel' k (drop k (drop k xs))
  | _, _ => xs
  end.

(** The passes from runs of length [k] on. *)
Fixpoint passes (fuel k : nat) (xs : list A) : list A :=
  match fuel with
  | O => xs
  | S fuel' => if decide (length xs <= k)%nat then xs else passes fuel' (k + k) (run_pass (length xs) k xs)
  end.

(** [xs] consists of sorted runs of length [k]; the last one may be shorter. *)
Inductive blocks (k : nat) : list A -> Prop :=
| blocks_nil : blocks k []
| blocks_run l xs : Sorted R l -> length l = k -> blocks k xs -> blocks k (l ++ xs)
| blocks_last l : Sorted R l -> (length l <= k)%nat -> blocks k l.

Lemma blocks_take k xs : blocks k xs -> Sorted R (take k xs) /\ blocks k (drop k xs).
Proof.
  destruct 1 as [|l xs Hl <- Hx|l Hl Hk].
  - rewrite take_nil, drop_nil. split; constructor.
  - by rewrite take_app_length, drop_app_length.
  - rewrite take_ge, drop_ge by done. split; [done|constructor].
Qed.

Lemma blocks_one xs : blocks 1 xs.
Proof.
  induction xs as [|x xs IH]; [constructor|]. apply (blocks_run 1 [x] xs); [|done|done].
  apply Sorted_cons; constructor.
Qed.

Lemma blocks_sorted k xs : blocks k xs -> (length xs <= k)%nat -> Sorted R xs.
Proof. intros [H _]%blocks_take Hk. by rewrite take_ge in H. Qed.

(** The length of two merged runs. *)
Lemma merged_length k xs :
  length (list_merge R (take k xs) (take k (drop k xs))) = (length (take k xs) + length (take k (drop k xs)))%nat.
Proof. by rewrite merge_Permutation, length_app. Qed.

Lemma run_pass_blocks `{!Total R} fuel k xs :
  (length xs <= fuel)%nat -> (1 <= k)%nat -> blocks k xs -> blocks (k + k) (run_pass fuel k xs).
Proof.
  intros Hf Hk. revert xs Hf. induction fuel as [|fuel IH]; intros [|x xs] Hf Hb; cbn in Hf; try (cbn; constructor; fail); [lia|].
  cbn [run_pass]. set (xx := x :: xs) in *. destruct (blocks_take _ _ Hb) as [H1 Hb2]. destruct (blocks_take _ _ Hb2) as [H2 Hb3].
  assert (Hs : Sorted R (list_merge R (take k xx) (take k (drop k xx)))) by by apply Sorted_list_merge.
  pose proof (merged_length k xx) as Hl. rewrite !length_take, !length_drop in Hl. cbn [length xx] in Hl.
  destruct (decide (k + k <= length xx)%nat) as [Hc|Hc]; cbn [length xx] in Hc.
  - apply blocks_run; [done|cbn in Hl |- *; lia|]. apply IH; [rewrite !length_drop; cbn; lia|done].
  - rewrite (drop_ge (drop k xx)) by (rewrite length_drop; cbn; lia).
    assert (run_pass fuel k [] = []) as -> by by destruct fuel. rewrite app_nil_r.
    apply blocks_last; [done|]. cbn in Hl |- *. lia.
Qed.

Lemma run_pass_all fuel k xs : (length xs <= k)%nat -> run_pass fuel k xs = xs.
Proof.
  intros Hk. destruct fuel as [|fuel], xs as [|x xs]; try done. cbn [run_pass].
  rewrite (take_ge (x :: xs)), (drop_ge (x :: xs)) by done. rewrite take_nil, drop_nil, list_merge_nil_r.
  by destruct fuel; rewrite app_nil_r.
Qed.

Lemma run_pass_perm fuel k xs : run_pass fuel k xs ≡ₚ xs.
Proof.
  revert xs. induction fuel as [|fuel IH]; intros [|x xs]; try done. cbn [run_pass].
  by rewrite IH, merge_Permutation, <- app_assoc, !take_drop.
Qed.

Lemma filter_none (P : A -> Prop) `{PD : forall x, Decision (P x)} l : (forall x, P x -> x ∈ l -> False) -> filter P l = [].
Proof.
  induction l as [|y l IH]; intros Hn; [done|]. rewrite filter_cons. destruct (decide (P y)) as [Hp|].
  - destruct (Hn y Hp). left.
  - apply IH. intros x Hx Hin. apply (Hn x Hx). by right.
Qed.

(** [P] holds of elements that are all equivalent. *)
Lemma merge_filter `{!Transitive R} (P : A -> Prop) `{PD : forall x, Decision (P x)} l1 l2 :
  (forall x y, P x -> P y -> R x y) -> StronglySorted R l1 ->
  filter P (list_merge R l1 l2) = filter P l1 ++ filter P l2.
Proof.
  intros HP H1. revert l2. induction H1 as [|x1 l1 H1 IH1 Hx]; intros l2; [by rewrite list_merge_nil_l|].
  induction l2 as [|x2 l2 IH2]; [by rewrite list_merge_nil_r, app_nil_r|].
  rewrite list_merge_cons. destruct (decide (R x1 x2)) as [Hr|Hr].
  - rewrite !(filter_cons _ x1), IH1. by destruct (decide (P x1)).
  - rewrite (filter_cons _ x2), IH2, (filter_cons _ x2). destruct (decide (P x2)) as [Hp|]; [|done].
    assert (filter P (x1 :: l1) = []) as ->; [|done].
    apply filter_none. intros y Hy Hin. apply Hr. apply elem_of_cons in Hin as [->|Hin]; [by apply HP|].
    rewrite list.Forall_forall in Hx. etrans; [by apply Hx|by apply HP].
Qed.

Lemma run_pass_filter `{!Transitive R} (P : A -> Prop) `{PD : forall x, Decision (P x)} fuel k xs :
  (forall x y, P x -> P y -> R x y) -> blocks k xs -> filter P (run_pass fuel k xs) = filter P xs.
Proof.
  intros HP. revert xs. induction fuel as [|fuel IH]; intros [|x xs] Hb; try done. cbn [run_pass].
  destruct (blocks_take _ _ Hb) as [H1 Hb2]. destruct (blocks_take _ _ Hb2) as [H2 Hb3].
  rewrite filter_app, merge_filter, IH, <- !filter_app by (done || by apply Sorted_StronglySorted).
  by rewrite <- app_assoc, !take_drop.
Qed.

Lemma passes_perm fuel k xs : passes fuel k xs ≡ₚ xs.
Proof.
  revert k xs. induction fuel as [|fuel IH]; intros k xs; cbn; [done|]. case_decide; [done|]. by rewrite IH, run_pass_perm.
Qed.

(** The passes sort, permute, and keep the order of equivalent elements. *)
Lemma passes_spec `{!Total R} `{!Transitive R} fuel k xs :
  (length xs <= fuel + k)%nat -> (1 <= k)%nat -> blocks k xs ->
  Sorted R (passes fuel k xs) /\ passes fuel k xs ≡ₚ xs /\
  forall (P : A -> Prop) `{PD : forall x, Decision (P x)}, (forall x y, P x -> P y -> R x y) ->
    filter P (passes fuel k xs) = filter P xs.
Proof.
  revert k xs. induction fuel as [|fuel IH]; intros k xs Hf Hk Hb; cbn.
  - split_and!; [|done|done]. apply (blocks_sorted k); [done|lia].
  - destruct (decide (length xs <= k)%nat) as [Hc|Hc]; [split_and!; [by eapply blocks_sorted|done|done]|].
    destruct (IH (k + k)%nat (run_pass (length xs) k xs)) as (H1 & H2 & H3);
      [rewrite run_pass_perm; lia|lia|by apply run_pass_blocks|].
    split_and!; [done|by rewrite H2, run_pass_perm|]. intros P HD HP. by rewrite H3, run_pass_filter.
Qed.
End passes.
