(* ===== verification/Dlist.v ===== *)
(** * Doubly linked lists with a marker (sysfsutils, lib/dlist.c and include/dlist.h)

    The lists in which sysfsutils returns devices and attributes to the Linux port of
    libmetal.  A [struct dlist] contains its head node, so the head of the list at [l] is
    the node at [l + 32]; the other nodes are allocated one by one.  Reading a null
    pointer or a node that was freed is a fault, and so is freeing a head node.

    An empty list has two forms: the links of the head node are null in a new list and
    in one emptied by [dlist_move]; they point to the head node itself in a list emptied
    by removing its nodes. *)

From S2P Require Import Prelude.

(** ** Data *)

Record dl_node := mk_node { dn_prev : Z; dn_next : Z; dn_data : Z }.

Record dlist := mk_dlist {
  dl_marker : Z;
  dl_count : Z;
  dl_data_size : Z;
  dl_del_func : Z;
  dl_head : Z
}.

(** [offsetof(struct dlist, headnode)], and the sizes of the two structures. *)
Definition HEADNODE : Z := 32.
Definition sizeof_dlist : Z := 64.
Definition sizeof_dl_node : Z := 24.

(** The nodes and the lists that are allocated, and the rest of the program. *)
Record dlworld (Env : Type) := mk_dlw {
  lw_nodes : gmap Z dl_node;
  lw_lists : gmap Z dlist;
  lw_env : Env
}.
Arguments mk_dlw {Env}.
Arguments lw_nodes {Env}.
Arguments lw_lists {Env}.
Arguments lw_env {Env}.

Section dlist.
Context {Env : Type}.
Abbreviation world := (dlworld Env).
Implicit Types (w : world) (l p v : Z) (direction : bool).

(** ** Memory *)

Definition lget w l : res dlist :=
  match lw_lists w !! l with Some L => Ok L | None => Fault Out_of_bounds end.
Definition nget w p : res dl_node :=
  match lw_nodes w !! p with Some n => Ok n | None => Fault Out_of_bounds end.

Definition set_nodes w (h : gmap Z dl_node) : world := mk_dlw h (lw_lists w) (lw_env w).
Definition set_lists w (ls : gmap Z dlist) : world := mk_dlw (lw_nodes w) ls (lw_env w).

(** Assignments to the fields of a node and of a list. *)
Definition put_prev w p v : res world :=
  n ← nget w p; Ok (set_nodes w (<[p := mk_node v (dn_next n) (dn_data n)]> (lw_nodes w))).
Definition put_next w p v : res world :=
  n ← nget w p; Ok (set_nodes w (<[p := mk_node (dn_prev n) v (dn_data n)]> (lw_nodes w))).
Definition put_data w p v : res world :=
  n ← nget w p; Ok (set_nodes w (<[p := mk_node (dn_prev n) (dn_next n) v]> (lw_nodes w))).

Definition put_marker w l v : res world :=
  L ← lget w l;
  Ok (set_lists w (<[l := mk_dlist v (dl_count L) (dl_data_size L) (dl_del_func L) (dl_head L)]> (lw_lists w))).
Definition put_count w l v : res world :=
  L ← lget w l;
  Ok (set_lists w (<[l := mk_dlist (dl_marker L) v (dl_data_size L) (dl_del_func L) (dl_head L)]> (lw_lists w))).
Definition put_data_size w l v : res world :=
  L ← lget w l;
  Ok (set_lists w (<[l := mk_dlist (dl_marker L) (dl_count L) v (dl_del_func L) (dl_head L)]> (lw_lists w))).
Definition put_del_func w l v : res world :=
  L ← lget w l;
  Ok (set_lists w (<[l := mk_dlist (dl_marker L) (dl_count L) (dl_data_size L) v (dl_head L)]> (lw_lists w))).

(** [malloc], [free], and the call of a delete function on a data pointer. *)
Variable malloc : world -> Z -> Z.
Variable c_free : Z.
Variable call_del : Z -> world -> Z -> res world.

(** [free] of a node: a head node is a part of its list. *)
Definition free_node w p : res world :=
  match lw_nodes w !! p with
  | None => Fault Out_of_bounds
  | Some _ =>
      if bool_decide (is_Some (lw_lists w !! (p - HEADNODE))) then Fault Out_of_bounds
      else Ok (set_nodes w (delete p (lw_nodes w)))
  end.

Definition free_list w l : res world :=
  _ ← lget w l;
  Ok (mk_dlw (delete (l + HEADNODE) (lw_nodes w)) (delete l (lw_lists w)) (lw_env w)).

(** ** The marker *)

Definition dlist_mark w l : res Z :=
  L ← lget w l;
  if negb (dl_marker L =? 0) then n ← nget w (dl_marker L); Ok (dn_data n) else Ok 0.

Definition dlist_start w l : res world := L ← lget w l; put_marker w l (dl_head L).
Definition dlist_end w l : res world := L ← lget w l; put_marker w l (dl_head L).

Definition dlist_mark_move w l direction : res (world * Z) :=
  L ← lget w l;
  if dl_marker L =? 0 then Ok (w, 0)
  else
    m ← nget w (dl_marker L);
    let to := if direction then dn_next m else dn_prev m in
    if to =? 0 then Ok (w, 0)
    else
      w ← put_marker w l to;
      if negb (to =? dl_head L) then n ← nget w to; Ok (w, dn_data n) else Ok (w, 0).

Definition dlist_next w l : res (world * Z) := dlist_mark_move w l true.
Definition dlist_prev w l : res (world * Z) := dlist_mark_move w l false.

(** ** Creation *)

Definition dlist_new w (datasize : Z) : world * Z :=
  let l := malloc w sizeof_dlist in
  if l =? 0 then (w, 0)
  else
    (mk_dlw (<[l + HEADNODE := mk_node 0 0 0]> (lw_nodes w))
       (<[l := mk_dlist 0 0 datasize c_free (l + HEADNODE)]> (lw_lists w)) (lw_env w), l).

Definition dlist_new_with_delete w (datasize del_func : Z) : res (world * Z) :=
  let '(w, l) := dlist_new w datasize in
  if negb (l =? 0) then w ← put_del_func w l del_func; Ok (w, l) else Ok (w, l).

(** ** Removal *)

(** The head node's links away from the node [p]. *)
Definition leave_head w (head p : Z) : res world :=
  hn ← nget w head;
  w ← (if dn_next hn =? p then n ← nget w p; put_next w head (dn_next n) else Ok w);
  hn ← nget w head;
  if dn_prev hn =? p then n ← nget w p; put_prev w head (dn_prev n) else Ok w.

(** The neighbours' links past the node [p]. *)
Definition unhook w p : res world :=
  n ← nget w p;
  w ← (if negb (dn_prev n =? 0) then put_next w (dn_prev n) (dn_next n) else Ok w);
  n ← nget w p;
  if negb (dn_next n =? 0) then put_prev w (dn_next n) (dn_prev n) else Ok w.

Definition count_down w l : res world := L ← lget w l; put_count w l (u64 (dl_count L - 1)).

Definition dlist_delete w l direction : res world :=
  L ← lget w l;
  if negb (dl_marker L =? dl_head L) && negb (dl_marker L =? 0) then
    let corpse := dl_marker L in
    '(w, _) ← dlist_mark_move w l direction;
    w ← leave_head w (dl_head L) corpse;
    w ← unhook w corpse;
    n ← nget w corpse;
    w ← call_del (dl_del_func L) w (dn_data n);
    w ← count_down w l;
    free_node w corpse
  else Ok w.

(** [_dlist_remove] *)
Definition dlist_remove w l (killme : Z) direction : res (world * Z) :=
  if killme =? 0 then Ok (w, 0)
  else
    k ← nget w killme;
    let killer_data := dn_data k in
    L ← lget w l;
    w ← (if dl_marker L =? killme then '(w, _) ← dlist_mark_move w l direction; Ok w else Ok w);
    w ← leave_head w (dl_head L) killme;
    w ← unhook w killme;
    w ← count_down w l;
    w ← free_node w killme;
    Ok (w, killer_data).

(** ** Insertion *)

(** From [list->count++] to the assignment of the marker, which [dlist_insert] and
    [_dlist_insert_dlnode] have in common. *)
Definition link_node w l (new_node : Z) direction : res world :=
  L ← lget w l;
  w ← put_count w l (u64 (dl_count L + 1));
  hn ← nget w (dl_head L);
  w ← (if dn_next hn =? 0 then
         w ← put_prev w (dl_head L) new_node;
         w ← put_next w (dl_head L) new_node;
         w ← put_prev w new_node (dl_head L);
         put_next w new_node (dl_head L)
       else if direction then
         m ← nget w (dl_marker L);
         w ← put_next w new_node (dn_next m);
         w ← put_prev w new_node (dl_marker L);
         m ← nget w (dl_marker L);
         w ← put_prev w (dn_next m) new_node;
         put_next w (dl_marker L) new_node
       else
         m ← nget w (dl_marker L);
         w ← put_prev w new_node (dn_prev m);
         w ← put_next w new_node (dl_marker L);
         m ← nget w (dl_marker L);
         w ← put_next w (dn_prev m) new_node;
         put_prev w (dl_marker L) new_node);
  put_marker w l new_node.

(** A marker that is unset goes to the head. *)
Definition ensure_marker w l : res world :=
  L ← lget w l; if dl_marker L =? 0 then put_marker w l (dl_head L) else Ok w.

Definition dlist_insert w l (data : Z) direction : res (world * Z) :=
  if (l =? 0) || (data =? 0) then Ok (w, 0)
  else
    w ← ensure_marker w l;
    let new_node := malloc w sizeof_dl_node in
    if new_node =? 0 then Ok (w, 0)
    else
      let w := set_nodes w (<[new_node := mk_node 0 0 data]> (lw_nodes w)) in
      w ← link_node w l new_node direction;
      d ← dlist_mark w l;
      Ok (w, d).

(** [_dlist_insert_dlnode] *)
Definition dlist_insert_dlnode w l (new_node : Z) direction : res (world * Z) :=
  if (l =? 0) || (new_node =? 0) then Ok (w, 0)
  else
    w ← ensure_marker w l;
    w ← link_node w l new_node direction;
    L ← lget w l;
    Ok (w, dl_marker L).

(** The part of [dlist_move] that takes the node out of its list; a list that loses its
    only node gets null links again. *)
Definition move_out w (source target : Z) direction : res world :=
  S ← lget w source;
  w ← (if dl_marker S =? target then '(w, _) ← dlist_mark_move w source direction; Ok w else Ok w);
  w ← leave_head w (dl_head S) target;
  w ← (if dl_count S =? 1 then
         w ← put_prev w target 0;
         w ← put_next w target 0;
         w ← put_next w (dl_head S) 0;
         put_prev w (dl_head S) 0
       else
         w ← unhook w target;
         w ← put_prev w target 0;
         put_next w target 0);
  count_down w source.

Definition dlist_move w (source dest target : Z) direction : res world :=
  if target =? 0 then Ok w
  else
    S ← lget w source;
    if target =? dl_head S then Ok w
    else
      w ← move_out w source target direction;
      '(w, _) ← dlist_insert_dlnode w dest target direction;
      Ok w.

Definition dlist_push w l (data : Z) : res world :=
  L ← lget w l;
  h ← nget w (dl_head L);
  w ← put_marker w l (dn_prev h);
  '(w, _) ← dlist_insert w l data true;
  Ok w.

Definition dlist_unshift w l (data : Z) : res world :=
  L ← lget w l;
  h ← nget w (dl_head L);
  w ← put_marker w l (dn_next h);
  '(w, _) ← dlist_insert w l data false;
  Ok w.

Definition dlist_pop w l : res (world * Z) :=
  L ← lget w l; h ← nget w (dl_head L); dlist_remove w l (dn_prev h) false.

Definition dlist_shift w l : res (world * Z) :=
  L ← lget w l; h ← nget w (dl_head L); dlist_remove w l (dn_next h) true.

(** ** Sorted insertion *)

(** The [for] of [dlist_insert_sorted]: the marker moves on until the element should
    go before it. *)
Fixpoint sorted_loop (fuel : nat) (sorter : Z -> Z -> bool) w l (new : Z) : res world :=
  match fuel with
  | O => Fault No_fuel
  | S fuel' =>
      L ← lget w l;
      if dl_marker L =? dl_head L then Ok w
      else
        m ← nget w (dl_marker L);
        if sorter new (dn_data m) then Ok w
        else '(w, _) ← dlist_next w l; sorted_loop fuel' sorter w l new
  end.

Definition dlist_insert_sorted (fuel : nat) (sorter : Z -> Z -> bool) w l (new : Z) : res (world * Z) :=
  w ← dlist_start w l;
  '(w, _) ← dlist_next w l;
  w ← sorted_loop fuel sorter w l new;
  dlist_insert w l new false.

Definition dlist_unshift_sorted (fuel : nat) (sorter : Z -> Z -> bool) w l (data : Z) : res world :=
  L ← lget w l;
  if dl_count L =? 0 then dlist_unshift w l data
  else
    h ← nget w (dl_head L);
    w ← put_marker w l (dn_next h);
    '(w, _) ← dlist_insert_sorted fuel sorter w l data;
    Ok w.

(** ** Loops over a list *)

(** The [while] of [dlist_destroy]. *)
Fixpoint destroy_loop (fuel : nat) w l : res world :=
  match fuel with
  | O => Fault No_fuel
  | S fuel' =>
      d ← dlist_mark w l;
      if d =? 0 then Ok w else w ← dlist_delete w l true; destroy_loop fuel' w l
  end.

Definition dlist_destroy (fuel : nat) w l : res world :=
  if l =? 0 then Ok w
  else
    w ← dlist_start w l;
    '(w, _) ← dlist_next w l;
    w ← destroy_loop fuel w l;
    free_list w l.

(** [dlist_for_each_nomark] from [p] on, with the body of [dlist_find_custom]. *)
Fixpoint find_loop (fuel : nat) (comp : Z -> Z -> bool) w (head p target : Z) : res Z :=
  match fuel with
  | O => Fault No_fuel
  | S fuel' =>
      if p =? head then Ok 0
      else
        n ← nget w p;
        if comp target (dn_data n) then Ok (dn_data n) else find_loop fuel' comp w head (dn_next n) target
  end.

Definition dlist_find_custom (fuel : nat) (comp : Z -> Z -> bool) w l (target : Z) : res Z :=
  L ← lget w l; h ← nget w (dl_head L); find_loop fuel comp w (dl_head L) (dn_next h) target.

Fixpoint transform_loop (fuel : nat) (op : world -> Z -> res world) w (head p : Z) : res world :=
  match fuel with
  | O => Fault No_fuel
  | S fuel' =>
      if p =? head then Ok w
      else
        n ← nget w p;
        w ← op w (dn_data n);
        n ← nget w p;
        transform_loop fuel' op w head (dn_next n)
  end.

Definition dlist_transform (fuel : nat) (op : world -> Z -> res world) w l : res world :=
  L ← lget w l; h ← nget w (dl_head L); transform_loop fuel op w (dl_head L) (dn_next h).

(** ** Merge sort *)

Section sort.
Variable compare : Z -> Z -> Z.

(** The loop that finds the second run: [l2head] and [l1count]. *)
Fixpoint split_loop (fuel : nat) w (head passcount l2head l1count : Z) : res (Z * Z) :=
  match fuel with
  | O => Fault No_fuel
  | S fuel' =>
      if (l1count <? passcount) && negb (l2head =? head) then
        n ← nget w l2head; split_loop fuel' w head passcount (dn_next n) (u32 (l1count + 1))
      else Ok (l2head, l1count)
  end.

(** [target = p; p = p->next; dlist_move(...)]: the new [p]. *)
Definition move_head w (source dest p : Z) : res (world * Z) :=
  n ← nget w p; w ← dlist_move w source dest p true; Ok (w, dn_next n).

(** The loops of [_dlist_merge] when one run is left. *)
Fixpoint rest1_loop (fuel : nat) w (source dest l1head l1count : Z) : res (world * Z) :=
  match fuel with
  | O => Fault No_fuel
  | S fuel' =>
      if 0 <? l1count then
        '(w, l1head) ← move_head w source dest l1head;
        rest1_loop fuel' w source dest l1head (u32 (l1count - 1))
      else Ok (w, l1head)
  end.

Fixpoint rest2_loop (fuel : nat) w (source dest l2head l2count : Z) : res (world * Z) :=
  match fuel with
  | O => Fault No_fuel
  | S fuel' =>
      if 0 <? l2count then
        S ← lget w source;
        if l2head =? dl_head S then rest2_loop fuel' w source dest l2head 0
        else
          '(w, l2head) ← move_head w source dest l2head;
          rest2_loop fuel' w source dest l2head (u32 (l2count - 1))
      else Ok (w, l2head)
  end.

(** The loop that merges the two runs: the world and [mergecount]. *)
Fixpoint merge_loop (fuel : nat) w (source dest l1head l2head l1count l2count mergecount : Z)
  : res (world * Z) :=
  match fuel with
  | O => Fault No_fuel
  | S fuel' =>
      if (0 <? l1count) || (0 <? l2count) then
        let mergecount := u32 (mergecount + 1) in
        if (0 <? l2count) && (0 <? l1count) then
          n1 ← nget w l1head;
          n2 ← nget w l2head;
          if 0 <? compare (dn_data n1) (dn_data n2) then
            '(w, l2head) ← move_head w source dest l2head;
            let l2count := u32 (l2count - 1) in
            S ← lget w source;
            let l2count := if l2head =? dl_head S then 0 else l2count in
            merge_loop fuel' w source dest l1head l2head l1count l2count mergecount
          else
            '(w, l1head) ← move_head w source dest l1head;
            merge_loop fuel' w source dest l1head l2head (u32 (l1count - 1)) l2count mergecount
        else if 0 <? l1count then
          '(w, l1head) ← rest1_loop fuel w source dest l1head l1count;
          merge_loop fuel' w source dest l1head l2head 0 l2count mergecount
        else
          '(w, l2head) ← rest2_loop fuel w source dest l2head l2count;
          merge_loop fuel' w source dest l1head l2head l1count 0 mergecount
      else Ok (w, mergecount)
  end.

(** [_dlist_merge], the outer loop; the counts are 0 when it starts a round. *)
Fixpoint dlist_merge (fuel : nat) w (listsource listdest passcount mergecount : Z) : res (world * Z) :=
  match fuel with
  | O => Fault No_fuel
  | S fuel' =>
      S ← lget w listsource;
      if 0 <? dl_count S then
        h ← nget w (dl_head S);
        let l1head := dn_next h in
        '(l2head, l1count) ← split_loop fuel w (dl_head S) passcount l1head 0;
        let l2count := if l2head =? dl_head S then 0 else passcount in
        '(w, mergecount) ← merge_loop fuel w listsource listdest l1head l2head l1count l2count mergecount;
        dlist_merge fuel' w listsource listdest passcount mergecount
      else Ok (w, mergecount)
  end.

(** The loop over the passes of [dlist_sort_custom]: the world and [listdest]. *)
Fixpoint pass_loop (fuel : nat) w (listsource listdest passcount mergecount : Z) : res (world * Z) :=
  match fuel with
  | O => Fault No_fuel
  | S fuel' =>
      if 0 <? mergecount then
        '(w, mergecount) ← dlist_merge fuel w listsource listdest passcount 0;
        if 1 <? mergecount then pass_loop fuel' w listdest listsource (u32 (passcount * 2)) mergecount
        else pass_loop fuel' w listsource listdest passcount mergecount
      else Ok (w, listdest)
  end.

(** The copy of the head node [from] to the head node [to]; the nodes at the ends are
    linked to the new head. *)
Definition copy_head w (to from : Z) : res world :=
  dh ← nget w from;
  w ← put_prev w to (dn_prev dh);
  dh ← nget w from;
  w ← put_next w to (dn_next dh);
  dh ← nget w from;
  w ← put_data w to (dn_data dh);
  h ← nget w to;
  w ← put_prev w (dn_next h) to;
  h ← nget w to;
  put_next w (dn_prev h) to.

(** The copy of the sorted list back to the list of the caller. *)
Definition copy_back w (list listdest templist : Z) : res world :=
  D ← lget w listdest;
  w ← put_marker w list (dl_marker D);
  w ← put_count w list (dl_count D);
  w ← put_data_size w list (dl_data_size D);
  w ← put_del_func w list (dl_del_func D);
  L ← lget w list;
  D ← lget w listdest;
  w ← copy_head w (dl_head L) (dl_head D);
  T ← lget w templist;
  w ← put_next w (dl_head T) 0;
  w ← put_prev w (dl_head T) 0;
  put_count w templist 0.

Definition dlist_sort_custom (fuel : nat) w (list : Z) : res world :=
  L ← lget w list;
  if dl_count L <? 2 then Ok w
  else
    w ← dlist_start w list;
    let '(w, templist) := dlist_new w (dl_data_size L) in
    w ← put_del_func w templist (dl_del_func L);
    '(w, listdest) ← pass_loop fuel w list templist 1 1;
    L ← lget w list;
    w ← (if dl_count L =? 0 then copy_back w list listdest templist else Ok w);
    dlist_destroy fuel w templist.

(** The [while] of [dlist_filter_sort]. *)
Fixpoint filter_loop (fuel : nat) (filter : Z -> bool) w l (head p : Z) : res world :=
  match fuel with
  | O => Fault No_fuel
  | S fuel' =>
      if p =? head then Ok w
      else
        n ← nget w p;
        if negb (filter (dn_data n)) then
          let temp := dn_next n in
          '(w, data) ← dlist_remove w l p false;
          L ← lget w l;
          w ← (if negb (data =? 0) then call_del (dl_del_func L) w data else Ok w);
          filter_loop fuel' filter w l head temp
        else filter_loop fuel' filter w l head (dn_next n)
  end.

Definition dlist_filter_sort (fuel : nat) (filter : option (Z -> bool)) w (list : Z) : res world :=
  L ← lget w list;
  if dl_count L =? 0 then Ok w
  else
    w ← (match filter with
         | None => Ok w
         | Some f => h ← nget w (dl_head L); filter_loop fuel f w list (dl_head L) (dn_next h)
         end);
    dlist_sort_custom fuel w list.
End sort.

(** [_dlist_swap]; its list is not used. *)
Definition dlist_swap w (a b : Z) : res world :=
  na ← nget w a;
  nb ← nget w b;
  w ← put_data w a (dn_data nb);
  put_data w b (dn_data na).
End dlist.
