(* ===== verification/DlistRep.v ===== *)
(** * Doubly linked lists with a marker: representation

    [drep] says which sequence of nodes and data a list stands for, in both forms of the
    empty list.  The writes of an insertion splice a node into the links of the list and
    those of a removal take it out; the lemmas on links are those of MetalList, read
    through [lk]. *)

From S2P Require Import Prelude.
From S2P Require Import MetalList.
From S2P Require Import Dlist.

(** ** Nodes as cells of links *)

Definition lk (h : gmap Z dl_node) : gmap Z metal_list := (fun n => mk_list (dn_next n) (dn_prev n)) <$> h.
Definition dt (h : gmap Z dl_node) (p : Z) : option Z := dn_data <$> h !! p.

Definition wprev (h : gmap Z dl_node) (p v : Z) : gmap Z dl_node :=
  alter (fun n => mk_node v (dn_next n) (dn_data n)) p h.
Definition wnext (h : gmap Z dl_node) (p v : Z) : gmap Z dl_node :=
  alter (fun n => mk_node (dn_prev n) v (dn_data n)) p h.

Section cells.
Implicit Types (h : gmap Z dl_node) (p q v : Z).

Lemma lk_wprev h p v : lk (wprev h p v) = aprev (lk h) p v.
Proof.
  apply map_eq. intros q. unfold lk, wprev, aprev. rewrite lookup_fmap. destruct (decide (q = p)) as [->|Hne].
  - rewrite !lookup_alter_eq, lookup_fmap. by destruct (h !! p).
  - by rewrite !lookup_alter_ne, lookup_fmap by done.
Qed.
Lemma lk_wnext h p v : lk (wnext h p v) = anext (lk h) p v.
Proof.
  apply map_eq. intros q. unfold lk, wnext, anext. rewrite lookup_fmap. destruct (decide (q = p)) as [->|Hne].
  - rewrite !lookup_alter_eq, lookup_fmap. by destruct (h !! p).
  - by rewrite !lookup_alter_ne, lookup_fmap by done.
Qed.

Lemma dt_wprev h p v q : dt (wprev h p v) q = dt h q.
Proof. unfold dt, wprev. rewrite lookup_alter. case_decide; subst; [|done]. by destruct (h !! _). Qed.
Lemma dt_wnext h p v q : dt (wnext h p v) q = dt h q.
Proof. unfold dt, wnext. rewrite lookup_alter. case_decide; subst; [|done]. by destruct (h !! _). Qed.

Lemma lookup_wprev_ne h p v q : q <> p -> wprev h p v !! q = h !! q.
Proof. intros. by apply lookup_alter_ne. Qed.
Lemma lookup_wnext_ne h p v q : q <> p -> wnext h p v !! q = h !! q.
Proof. intros. by apply lookup_alter_ne. Qed.

Lemma is_Some_lk h p : is_Some (lk h !! p) <-> is_Some (h !! p).
Proof. unfold lk. rewrite lookup_fmap. apply fmap_is_Some. Qed.
Lemma nx_lk_is h p v : nx (lk h) p = Some v -> is_Some (h !! p).
Proof. intros H. apply is_Some_lk. by eapply nx_Some_is. Qed.
Lemma pv_lk_is h p v : pv (lk h) p = Some v -> is_Some (h !! p).
Proof. intros H. apply is_Some_lk. by eapply pv_Some_is. Qed.
Lemma dt_is h p d : dt h p = Some d -> is_Some (h !! p).
Proof. unfold dt. destruct (h !! p); [eauto|done]. Qed.

Lemma lookup_cell h p a b d :
  nx (lk h) p = Some a -> pv (lk h) p = Some b -> dt h p = Some d -> h !! p = Some (mk_node b a d).
Proof.
  unfold nx, pv, dt, lk. rewrite !lookup_fmap. destruct (h !! p) as [[b' a' d']|]; [|done]. cbn. congruence.
Qed.
End cells.

Section ops.
Context {Env : Type}.
Abbreviation world := (dlworld Env).
Implicit Types (w : world) (l p v x y : Z) (L : dlist) (h : gmap Z dl_node) (ns : list Z) (xs : list (Z * Z)).

Lemma nget_cell w p a b d :
  nx (lk (lw_nodes w)) p = Some a -> pv (lk (lw_nodes w)) p = Some b -> dt (lw_nodes w) p = Some d ->
  nget w p = Ok (mk_node b a d).
Proof. intros H1 H2 H3. unfold nget. by rewrite (lookup_cell _ _ _ _ _ H1 H2 H3). Qed.

Lemma nget_ok w p : is_Some (lw_nodes w !! p) ->
  exists a b d, nget w p = Ok (mk_node b a d) /\ nx (lk (lw_nodes w)) p = Some a /\
    pv (lk (lw_nodes w)) p = Some b /\ dt (lw_nodes w) p = Some d.
Proof.
  intros [[b a d] Hn]. exists a, b, d. unfold nget, nx, pv, dt, lk. rewrite !lookup_fmap, Hn. done.
Qed.

Lemma put_prev_ok w p v : is_Some (lw_nodes w !! p) -> put_prev w p v = Ok (set_nodes w (wprev (lw_nodes w) p v)).
Proof.
  intros [n Hn]. unfold put_prev, nget, wprev. rewrite Hn. cbn. do 2 f_equal. apply map_eq. intros q.
  rewrite lookup_insert, lookup_alter. case_decide; subst; by rewrite ?Hn.
Qed.
Lemma put_next_ok w p v : is_Some (lw_nodes w !! p) -> put_next w p v = Ok (set_nodes w (wnext (lw_nodes w) p v)).
Proof.
  intros [n Hn]. unfold put_next, nget, wnext. rewrite Hn. cbn. do 2 f_equal. apply map_eq. intros q.
  rewrite lookup_insert, lookup_alter. case_decide; subst; by rewrite ?Hn.
Qed.

Lemma is_Some_wprev h p v q : is_Some (wprev h p v !! q) <-> is_Some (h !! q).
Proof. rewrite <- !is_Some_lk, lk_wprev. apply is_Some_aprev. Qed.
Lemma is_Some_wnext h p v q : is_Some (wnext h p v !! q) <-> is_Some (h !! q).
Proof. rewrite <- !is_Some_lk, lk_wnext. apply is_Some_anext. Qed.
End ops.

(** Read links through a sequence of writes. *)
Ltac lks :=
  cbn [lw_nodes lw_lists set_nodes set_lists]; 
  repeat first [rewrite lk_wprev | rewrite lk_wnext | rewrite dt_wprev | rewrite dt_wnext
    | rewrite is_Some_wprev | rewrite is_Some_wnext].
Ltac lkd := lks; dl.

(** ** Removing a node from the links *)

Section links_of_a_list.
Context {Env : Type}.
Abbreviation world := (dlworld Env).
Implicit Types (w : world) (p v x y : Z) (L : dlist) (h : gmap Z dl_node) (ns : list Z) (xs : list (Z * Z)).

(** [h'] has the nodes and the data of [h] and differs in the links of the nodes [ns]. *)
Definition relinked h h' ns : Prop :=
  (forall q, dt h' q = dt h q) /\ (forall q, q ∉ ns -> h' !! q = h !! q).

Lemma relinked_is h h' ns q : relinked h h' ns -> is_Some (h' !! q) <-> is_Some (h !! q).
Proof.
  intros [H _]. specialize (H q). unfold dt in H. rewrite <- (fmap_is_Some dn_data (h' !! q)), H.
  apply fmap_is_Some.
Qed.

(** In a circular list a node follows the one before it. *)
Lemma ring_back h head ns q : is_dlist (lk h) head ns -> q ∈ head :: ns ->
  exists a, nx (lk h) q = Some a /\ pv (lk h) a = Some q.
Proof.
  intros [_ Hl] Hq. revert Hl Hq. generalize head at 1 3. induction ns as [|b ns IH]; intros a Hl Hq; cbn in Hl.
  - apply list_elem_of_singleton in Hq as ->. exists head. tauto.
  - destruct Hl as (H1 & H2 & Hl). apply elem_of_cons in Hq as [->|Hq]; [eauto|]. by apply (IH b).
Qed.
Lemma ring_forth h head ns q : is_dlist (lk h) head ns -> q ∈ head :: ns ->
  exists a, pv (lk h) q = Some a /\ nx (lk h) a = Some q.
Proof.
  intros [_ Hl] Hq. assert (Hq' : q ∈ ns ++ [head]) by set_solver. clear Hq. revert Hl Hq'. generalize head at 1.
  generalize (ns ++ [head]). intros k. induction k as [|b k IH]; intros a Hl Hq; [by apply elem_of_nil in Hq|].
  cbn in Hl. destruct Hl as (H1 & H2 & Hl). apply elem_of_cons in Hq as [->|Hq]; [eauto|]. by apply (IH b).
Qed.

Lemma leave_head_run w head l1 x l2 l' p y rest :
  is_dlist (lk (lw_nodes w)) head (l1 ++ x :: l2) -> is_Some (dt (lw_nodes w) head) ->
  is_Some (dt (lw_nodes w) x) -> head :: l1 = l' ++ [p] -> l2 ++ [head] = y :: rest ->
  exists h', leave_head w head x = Ok (set_nodes w h') /\ relinked (lw_nodes w) h' [head] /\
    (forall q, nx (lk h') q = if (q =? head) && (p =? head) then Some y else nx (lk (lw_nodes w)) q) /\
    (forall q, pv (lk h') q = if (q =? head) && (y =? head) then Some p else pv (lk (lw_nodes w)) q).
Proof.
  intros Hd [dh Hdh] [dx Hdx] Hp Hy.
  destruct (dlist_neighbours _ _ _ _ _ _ _ _ _ Hd Hp Hy) as (Hpx & Hxp & Hxy & Hyx & Hne & Hne' & Hpin & Hyin).
  destruct (nget_ok w head) as (a & b & d & Hg & Ha & Hb & _); [by eapply dt_is|].
  assert (Hxh : x <> head) by (pose proof Hd as [Hnd%NoDup_cons_1_1 _]; set_solver).
  assert (Pa : a = x <-> p = head) by (split; intros ->; [destruct (ring_back _ _ _ head Hd ltac:(left)) as (? & ? & ?)|]; congruence).
  assert (Pb : b = x <-> y = head) by (split; intros ->; [destruct (ring_forth _ _ _ head Hd ltac:(left)) as (? & ? & ?)|]; congruence).
  set (h1 := if a =? x then wnext (lw_nodes w) head y else lw_nodes w).
  set (h2 := if b =? x then wprev h1 head p else h1).
  assert (E1 : (if a =? x then n ← nget w x; put_next w head (dn_next n) else Ok w) = Ok (set_nodes w h1)).
  { unfold h1. destruct (Z.eqb_spec a x); [|by destruct w]. rewrite (nget_cell w x y p dx) by done. cbn.
    by rewrite put_next_ok by by eapply dt_is. }
  assert (N1 : forall q, dt h1 q = dt (lw_nodes w) q /\ pv (lk h1) q = pv (lk (lw_nodes w)) q /\
    nx (lk h1) q = if (q =? head) && (a =? x) then Some y else nx (lk (lw_nodes w)) q).
  { intros q. unfold h1. destruct (a =? x); rewrite ?andb_true_r, ?andb_false_r; [|done].
    rewrite dt_wnext, lk_wnext, pv_anext, nx_anext by (apply is_Some_lk; by eapply dt_is). done. }
  assert (Hs : is_Some (h1 !! head)) by (eapply dt_is; destruct (N1 head) as [-> _]; done).
  assert (Ea : (a =? x) = (p =? head)) by (apply eq_bool_prop_intro; rewrite !Is_true_true, !Z.eqb_eq; tauto).
  assert (Eb : (b =? x) = (y =? head)) by (apply eq_bool_prop_intro; rewrite !Is_true_true, !Z.eqb_eq; tauto).
  rewrite Ea in N1. exists h2. split_and!; [| |intros q; unfold h2; rewrite Eb; destruct (y =? head); lks..].
  - unfold leave_head. rewrite Hg. cbn [mbind res_bind dn_next]. rewrite E1. cbn [mbind res_bind].
    destruct (nget_ok (set_nodes w h1) head Hs) as (a1 & b1 & d1 & Hg1 & _ & Hb1 & _). rewrite Hg1. cbn [mbind res_bind dn_prev].
    destruct (N1 head) as (_ & Hpv & _). cbn [lw_nodes set_nodes] in Hb1. assert (b1 = b) as -> by congruence. unfold h2.
    destruct (Z.eqb_spec b x) as [->|]; [|done]. destruct (N1 x) as (Dx & Px & Nx).
    rewrite (nget_cell (set_nodes w h1) x y p dx); cbn [lw_nodes set_nodes]; [|rewrite Nx|congruence|congruence].
    + cbn [mbind res_bind dn_prev]. by rewrite put_prev_ok.
    + by rewrite (proj2 (Z.eqb_neq x head)).
  - split; intros q; unfold h2, h1; destruct (b =? x), (a =? x); rewrite ?dt_wprev, ?dt_wnext; try done;
      intros Hq%not_elem_of_cons; rewrite ?lookup_wprev_ne, ?lookup_wnext_ne by tauto; done.
  - rewrite nx_aprev. apply N1.
  - apply N1.
  - rewrite pv_aprev by by apply is_Some_lk. rewrite andb_true_r. destruct (N1 q) as (_ & -> & _). done.
  - rewrite andb_false_r. apply N1.
Qed.

Lemma unhook_run w x p y :
  nx (lk (lw_nodes w)) x = Some y -> pv (lk (lw_nodes w)) x = Some p -> is_Some (lw_nodes w !! p) ->
  is_Some (lw_nodes w !! y) -> x <> p -> x <> y -> p <> 0 -> y <> 0 ->
  unhook w x = Ok (set_nodes w (wprev (wnext (lw_nodes w) p y) y p)).
Proof.
  intros Hn Hv Hp Hy Hxp Hxy Hp0 Hy0. destruct (nget_ok w x) as (a & b & d & Hg & Ha & Hb & Hd); [by eapply nx_lk_is|].
  unfold unhook. rewrite Hg. cbn [mbind res_bind dn_prev dn_next]. assert (a = y) as -> by congruence.
  assert (b = p) as -> by congruence. rewrite (proj2 (Z.eqb_neq p 0)) by done. cbn [negb].
  rewrite put_next_ok by done. cbn [mbind res_bind]. assert (is_Some (lk (lw_nodes w) !! p)) by by apply is_Some_lk.
  rewrite (nget_cell _ x y p d) by (lkd). cbn [mbind res_bind dn_prev dn_next].
  rewrite (proj2 (Z.eqb_neq y 0)) by done. cbn [negb]. by rewrite put_prev_ok by (lks; done).
Qed.

(** Both steps of a removal. *)
Lemma cut_run w head l1 x l2 :
  is_dlist (lk (lw_nodes w)) head (l1 ++ x :: l2) -> is_Some (dt (lw_nodes w) head) ->
  is_Some (dt (lw_nodes w) x) -> (0 ∉ head :: l1 ++ l2) ->
  exists h', (w1 ← leave_head w head x; unhook w1 x) = Ok (set_nodes w h') /\
    is_dlist (lk h') head (l1 ++ l2) /\ relinked (lw_nodes w) h' (head :: l1 ++ l2).
Proof.
  intros Hd Hh Hx H0. destruct (snoc_view head l1) as (l' & p & Hp).
  destruct (l2 ++ [head]) as [|y rest] eqn:Hy; [by destruct l2|].
  destruct (dlist_neighbours _ _ _ _ _ _ _ _ _ Hd Hp Hy) as (Hpx & Hxp & Hxy & Hyx & Hne & Hne' & Hpin & Hyin).
  destruct (leave_head_run w head l1 x l2 l' p y rest Hd Hh Hx Hp Hy) as (h1 & R & Hr & N & V).
  assert (Hxh : x <> head) by (pose proof Hd as [Hnd%NoDup_cons_1_1 _]; set_solver).
  assert (Sp : is_Some (h1 !! p)) by (eapply relinked_is; [done|]; by eapply nx_lk_is).
  assert (Sy : is_Some (h1 !! y)) by (eapply relinked_is; [done|]; by eapply pv_lk_is).
  rewrite R. cbn [mbind res_bind]. rewrite (unhook_run (set_nodes w h1) x p y);
    cbn [lw_nodes set_nodes]; try done; [|by rewrite N, (proj2 (Z.eqb_neq x head))|by rewrite V, (proj2 (Z.eqb_neq x head))|set_solver..].
  eexists. split; [done|]. split.
  - eapply unlinked_dlist; [exact Hd|exact Hp|exact Hy|]. apply is_Some_lk in Sp, Sy. split; intros q Hq; lks.
    + rewrite nx_aprev, nx_anext, N by done. destruct (Z.eqb_spec q p) as [->|]; [done|].
      destruct (Z.eqb_spec q head) as [->|], (Z.eqb_spec p head) as [->|]; done.
    + rewrite pv_aprev, pv_anext, V by (rewrite ?is_Some_anext; done). destruct (Z.eqb_spec q y) as [->|]; [done|].
      destruct (Z.eqb_spec q head) as [->|], (Z.eqb_spec y head) as [->|]; done.
  - destruct Hr as [Hr1 Hr2]. split; intros q; [by rewrite dt_wprev, dt_wnext|]. intros Hq.
    rewrite lookup_wprev_ne, lookup_wnext_ne by set_solver. apply Hr2. set_solver.
Qed.
End links_of_a_list.

(** ** The sequence a list stands for *)

Definition with_marker (L : dlist) (v : Z) : dlist := mk_dlist v (dl_count L) (dl_data_size L) (dl_del_func L) (dl_head L).
Definition with_count (L : dlist) (v : Z) : dlist := mk_dlist (dl_marker L) v (dl_data_size L) (dl_del_func L) (dl_head L).

(** The head node is linked to nothing. *)
Definition virgin (h : gmap Z dl_node) (head : Z) : Prop := nx (lk h) head = Some 0 /\ pv (lk h) head = Some 0.

(** A node of its own with data that is not null. *)
Definition node_ok (h : gmap Z dl_node) (ls : gmap Z dlist) (x : Z * Z) : Prop :=
  dt h x.1 = Some x.2 /\ x.2 <> 0 /\ x.1 <> 0 /\ ls !! (x.1 - HEADNODE) = None.

(** The list at [l] has the nodes and data [xs]. *)
Record drep {Env} (w : dlworld Env) (l : Z) (L : dlist) (xs : list (Z * Z)) : Prop := {
  dr_list : lw_lists w !! l = Some L;
  dr_addr : 0 < l;
  dr_head : dl_head L = l + HEADNODE;
  dr_count : dl_count L = zlen xs;
  dr_bound : is_u64 (zlen xs);
  dr_data : dt (lw_nodes w) (l + HEADNODE) = Some 0;
  dr_nodes : Forall (node_ok (lw_nodes w) (lw_lists w)) xs;
  dr_ring : is_dlist (lk (lw_nodes w)) (l + HEADNODE) xs.*1 \/ xs = [] /\ virgin (lw_nodes w) (l + HEADNODE)
}.

Section rep.
Context {Env : Type}.
Abbreviation world := (dlworld Env).
Implicit Types (w : world) (L : dlist) (h : gmap Z dl_node) (ls : gmap Z dlist) (xs : list (Z * Z)).

Lemma put_marker_ok w l L v : lw_lists w !! l = Some L ->
  put_marker w l v = Ok (set_lists w (<[l := with_marker L v]> (lw_lists w))).
Proof. intros H. unfold put_marker, lget. by rewrite H. Qed.
Lemma put_count_ok w l L v : lw_lists w !! l = Some L ->
  put_count w l v = Ok (set_lists w (<[l := with_count L v]> (lw_lists w))).
Proof. intros H. unfold put_count, lget. by rewrite H. Qed.
Lemma put_data_size_ok w l L v : lw_lists w !! l = Some L ->
  put_data_size w l v = Ok (set_lists w (<[l := mk_dlist (dl_marker L) (dl_count L) v (dl_del_func L) (dl_head L)]> (lw_lists w))).
Proof. intros H. unfold put_data_size, lget. by rewrite H. Qed.
Lemma put_del_func_ok w l L v : lw_lists w !! l = Some L ->
  put_del_func w l v = Ok (set_lists w (<[l := mk_dlist (dl_marker L) (dl_count L) (dl_data_size L) v (dl_head L)]> (lw_lists w))).
Proof. intros H. unfold put_del_func, lget. by rewrite H. Qed.
Lemma lget_ok w l L : lw_lists w !! l = Some L -> lget w l = Ok L.
Proof. intros H. unfold lget. by rewrite H. Qed.

Lemma node_ok_frame h h' ls ls' xs :
  (forall x, x ∈ xs -> dt h' x.1 = dt h x.1) ->
  (forall x, x ∈ xs -> ls !! (x.1 - HEADNODE) = None -> ls' !! (x.1 - HEADNODE) = None) ->
  Forall (node_ok h ls) xs -> Forall (node_ok h' ls') xs.
Proof.
  intros H1 H2. rewrite !list.Forall_forall. intros H x Hx. destruct (H x Hx) as (Ha & Hb & Hc & Hd).
  split_and!; [by rewrite H1|done|done|by apply H2].
Qed.

(** An assignment to an existing list makes no new one. *)
Lemma insert_None ls l L L' a : ls !! l = Some L -> ls !! a = None -> <[l := L']> ls !! a = None.
Proof. intros H1 H2. rewrite lookup_insert_ne; [done|congruence]. Qed.

Lemma drep_nonzero w l L xs : drep w l L xs -> (0 ∉ l + HEADNODE :: xs.*1).
Proof.
  intros [_ Ha _ _ _ _ Hn _]. unfold HEADNODE. rewrite elem_of_cons. intros [?|H]; [lia|].
  apply list_elem_of_fmap in H as (x & Hx & Hin). rewrite list.Forall_forall in Hn. by destruct (Hn x Hin) as (_ & _ & ? & _).
Qed.

(** The marker and the memory of other lists do not matter. *)
Lemma drep_frame' w w' l L L' xs :
  drep w l L xs -> lw_lists w' !! l = Some L' -> dl_head L' = dl_head L -> dl_count L' = dl_count L ->
  (forall q, q ∈ l + HEADNODE :: xs.*1 -> lw_nodes w' !! q = lw_nodes w !! q) ->
  (forall x, x ∈ xs -> lw_lists w !! (x.1 - HEADNODE) = None -> lw_lists w' !! (x.1 - HEADNODE) = None) -> drep w' l L' xs.
Proof.
  intros [H1 H2 H3 H4 H5 H6 H7 H8] HL Hh Hc Hq Hls.
  assert (Hd : forall q, q ∈ l + HEADNODE :: xs.*1 -> dt (lw_nodes w') q = dt (lw_nodes w) q /\
    nx (lk (lw_nodes w')) q = nx (lk (lw_nodes w)) q /\ pv (lk (lw_nodes w')) q = pv (lk (lw_nodes w)) q).
  { intros q Hin. unfold dt, nx, pv, lk. rewrite !lookup_fmap, (Hq q Hin). done. }
  split; try done; [congruence|congruence|rewrite (proj1 (Hd _ ltac:(left))); done| |].
  - eapply node_ok_frame; [|exact Hls|exact H7]. intros x Hx. apply Hd. right. by apply list_elem_of_fmap_2.
  - destruct H8 as [[Hnd Hl]|[-> [Hv1 Hv2]]].
    + left. split; [done|]. revert Hl. apply links_frame; intros q Hin; apply Hd;
        [rewrite srcs_app in Hin; done|set_solver].
    + right. split; [done|]. destruct (Hd _ ltac:(left)) as (_ & E1 & E2). split; congruence.
Qed.
Lemma drep_frame w w' l L L' xs :
  drep w l L xs -> lw_lists w' !! l = Some L' -> dl_head L' = dl_head L -> dl_count L' = dl_count L ->
  (forall q, q ∈ l + HEADNODE :: xs.*1 -> lw_nodes w' !! q = lw_nodes w !! q) ->
  (forall a, lw_lists w !! a = None -> lw_lists w' !! a = None) -> drep w' l L' xs.
Proof. intros H HL Hh Hc Hq Hls. apply (drep_frame' w w' l L L' xs H HL Hh Hc Hq). intros x _. apply Hls. Qed.
End rep.

(** ** Inserting a node *)

Section insert.
Context {Env : Type}.
Abbreviation world := (dlworld Env).
Implicit Types (w : world) (L : dlist) (h : gmap Z dl_node) (xs : list (Z * Z)).

(** The writes of [link_node] that put [new] after [m], before [m], and into an empty
    list. *)
Lemma link_after w m new x :
  nx (lk (lw_nodes w)) m = Some x -> is_Some (lw_nodes w !! x) -> is_Some (lw_nodes w !! new) -> new <> m -> new <> x ->
  exists h', (m1 ← nget w m; w ← put_next w new (dn_next m1); w ← put_prev w new m; m1 ← nget w m;
              w ← put_prev w (dn_next m1) new; put_next w m new) = Ok (set_nodes w h') /\
    spliced (lk (lw_nodes w)) (lk h') m new x /\ relinked (lw_nodes w) h' [m; new; x].
Proof.
  intros Hn Hx Hnew N1 N2. assert (Hm : is_Some (lw_nodes w !! m)) by by eapply nx_lk_is.
  assert (Lm : is_Some (lk (lw_nodes w) !! m)) by by apply is_Some_lk.
  assert (Ln : is_Some (lk (lw_nodes w) !! new)) by by apply is_Some_lk.
  assert (Lx : is_Some (lk (lw_nodes w) !! x)) by by apply is_Some_lk.
  destruct (nget_ok w m Hm) as (a & b & d & Hg & Ha & Hb & Hd). rewrite Hg. cbn [mbind res_bind dn_next].
  assert (a = x) as -> by congruence. rewrite put_next_ok by done. cbn [mbind res_bind].
  rewrite put_prev_ok by (lks; done). cbn [mbind res_bind]. rewrite (nget_cell _ m x b d) by lkd.
  cbn [mbind res_bind dn_next]. rewrite put_prev_ok by (lks; done). cbn [mbind res_bind]. rewrite put_next_ok by (lks; done).
  eexists. split; [reflexivity|]. split; [split_and!|split]; intros q; intros; lkd.
  - rewrite lookup_anext_ne, !lookup_aprev_ne, lookup_anext_ne by done. done.
  - rewrite lookup_wnext_ne, !lookup_wprev_ne, lookup_wnext_ne by set_solver. done.
Qed.

Lemma link_before w m new p :
  pv (lk (lw_nodes w)) m = Some p -> is_Some (lw_nodes w !! p) -> is_Some (lw_nodes w !! new) -> new <> m -> new <> p ->
  exists h', (m1 ← nget w m; w ← put_prev w new (dn_prev m1); w ← put_next w new m; m1 ← nget w m;
              w ← put_next w (dn_prev m1) new; put_prev w m new) = Ok (set_nodes w h') /\
    spliced (lk (lw_nodes w)) (lk h') p new m /\ relinked (lw_nodes w) h' [p; new; m].
Proof.
  intros Hn Hp Hnew N1 N2. assert (Hm : is_Some (lw_nodes w !! m)) by by eapply pv_lk_is.
  assert (Lm : is_Some (lk (lw_nodes w) !! m)) by by apply is_Some_lk.
  assert (Ln : is_Some (lk (lw_nodes w) !! new)) by by apply is_Some_lk.
  assert (Lp : is_Some (lk (lw_nodes w) !! p)) by by apply is_Some_lk.
  destruct (nget_ok w m Hm) as (a & b & d & Hg & Ha & Hb & Hd). rewrite Hg. cbn [mbind res_bind dn_prev].
  assert (b = p) as -> by congruence. rewrite put_prev_ok by done. cbn [mbind res_bind].
  rewrite put_next_ok by (lks; done). cbn [mbind res_bind]. rewrite (nget_cell _ m a p d) by lkd.
  cbn [mbind res_bind dn_prev]. rewrite put_next_ok by (lks; done). cbn [mbind res_bind]. rewrite put_prev_ok by (lks; done).
  eexists. split; [reflexivity|]. split; [split_and!|split]; intros q; intros; lkd.
  - rewrite lookup_aprev_ne, !lookup_anext_ne, lookup_aprev_ne by done. done.
  - rewrite lookup_wprev_ne, !lookup_wnext_ne, lookup_wprev_ne by set_solver. done.
Qed.

Lemma link_first w head new :
  is_Some (lw_nodes w !! head) -> is_Some (lw_nodes w !! new) -> new <> head ->
  exists h', (w ← put_prev w head new; w ← put_next w head new; w ← put_prev w new head; put_next w new head)
      = Ok (set_nodes w h') /\
    is_dlist (lk h') head [new] /\ relinked (lw_nodes w) h' [head; new].
Proof.
  intros Hh Hnew Hne. assert (Lh : is_Some (lk (lw_nodes w) !! head)) by by apply is_Some_lk.
  assert (Ln : is_Some (lk (lw_nodes w) !! new)) by by apply is_Some_lk.
  rewrite put_prev_ok by done. cbn [mbind res_bind]. rewrite put_next_ok by (lks; done). cbn [mbind res_bind].
  rewrite put_prev_ok by (lks; done). cbn [mbind res_bind]. rewrite put_next_ok by (lks; done).
  eexists. split; [reflexivity|]. split; [split|split].
  - apply NoDup_cons_2; [set_solver|apply NoDup_singleton].
  - cbn [app links]. split_and!; try done; lkd.
  - intros q. lkd.
  - intros q Hq. cbn. rewrite lookup_wnext_ne, lookup_wprev_ne, lookup_wnext_ne, lookup_wprev_ne by set_solver. done.
Qed.

(** Where [link_node] inserts: the marker is the last node of [a] or the first of [b],
    unless the list is empty and unlinked. *)
Definition at_marker (direction : bool) w (l : Z) L (a b : list (Z * Z)) : Prop :=
  virgin (lw_nodes w) (l + HEADNODE) \/
  if direction then exists k, l + HEADNODE :: a.*1 = k ++ [dl_marker L]
  else exists k, b.*1 ++ [l + HEADNODE] = dl_marker L :: k.

(** The list at [l] after an insertion at the marker. *)
Definition grown w (l : Z) L (new n : Z) (h : gmap Z dl_node) : world :=
  mk_dlw h (<[l := mk_dlist new n (dl_data_size L) (dl_del_func L) (dl_head L)]> (lw_lists w)) (lw_env w).

(** The links alone. *)
Lemma link_body_run w w0 l L a b new direction :
  drep w0 l L (a ++ b) -> lw_nodes w = lw_nodes w0 -> at_marker direction w l L a b -> is_Some (lw_nodes w !! new) ->
  (new ∉ l + HEADNODE :: (a ++ b).*1) ->
  exists h', (hn ← nget w (dl_head L);
     if dn_next hn =? 0 then
       w ← put_prev w (dl_head L) new; w ← put_next w (dl_head L) new;
       w ← put_prev w new (dl_head L); put_next w new (dl_head L)
     else if direction then
       m ← nget w (dl_marker L); w ← put_next w new (dn_next m); w ← put_prev w new (dl_marker L);
       m ← nget w (dl_marker L); w ← put_prev w (dn_next m) new; put_next w (dl_marker L) new
     else
       m ← nget w (dl_marker L); w ← put_prev w new (dn_prev m); w ← put_next w new (dl_marker L);
       m ← nget w (dl_marker L); w ← put_next w (dn_prev m) new; put_prev w (dl_marker L) new) = Ok (set_nodes w h') /\
    is_dlist (lk h') (l + HEADNODE) (a.*1 ++ new :: b.*1) /\
    relinked (lw_nodes w) h' (new :: l + HEADNODE :: (a ++ b).*1).
Proof.
  intros Hr En Hm Hnew Hfresh. pose proof (drep_nonzero _ _ _ _ Hr) as H0.
  destruct Hr as [H1 H2 H3 H4 H5 H6 H7 H8]. rewrite <- En in H6, H8.
  rewrite H3. destruct (nget_ok w (l + HEADNODE)) as (x & y & d & Hg & Hx & _ & _); [by eapply dt_is|].
  rewrite Hg. cbn [mbind res_bind dn_next]. destruct H8 as [Hd|[Hnil [Hv1 Hv2]]].
  - rewrite fmap_app in *. assert (Hx0 : x <> 0).
    { destruct (dlist_nx _ _ _ Hd) as [E _]. intros ->. rewrite E in Hx. destruct (a.*1 ++ b.*1); cbn in Hx; injection Hx as ?; set_solver. }
    destruct Hm as [[Hv _]|Hm]; [congruence|]. rewrite (proj2 (Z.eqb_neq x 0) Hx0).
    destruct (snoc_view (l + HEADNODE) a.*1) as (k & p & Hp).
    destruct (b.*1 ++ [l + HEADNODE]) as [|z rest] eqn:Hz; [by destruct (b.*1)|].
    destruct (dlist_boundary _ _ _ _ _ _ _ _ Hd Hp Hz) as (_ & Hpz & Hzp & _).
    assert (Hpin : p ∈ l + HEADNODE :: a.*1) by (rewrite Hp; set_solver).
    assert (Hzin : z ∈ b.*1 ++ [l + HEADNODE]) by (rewrite Hz; left).
    destruct direction; destruct Hm as (k' & Hk).
    + rewrite Hp in Hk. apply app_inj_2 in Hk as [_ [= <-]]; [|done].
      destruct (link_after w p new z) as (h' & R & Sp & Rl); [done|by eapply pv_lk_is|done|set_solver..|].
      exists h'. split_and!; [exact R|by eapply spliced_dlist|]. destruct Rl as [Rl1 Rl2]. split; [done|].
      intros q Hq. apply Rl2. set_solver.
    + injection Hk as <- <-.
      destruct (link_before w z new p) as (h' & R & Sp & Rl); [done|by eapply nx_lk_is|done|set_solver..|].
      exists h'. split_and!; [exact R|by eapply spliced_dlist|]. destruct Rl as [Rl1 Rl2]. split; [done|].
      intros q Hq. apply Rl2. set_solver.
  - apply app_nil in Hnil as [-> ->]. assert (x = 0) as -> by congruence. rewrite Z.eqb_refl.
    destruct (link_first w (l + HEADNODE) new) as (h' & R & Sp & Rl1 & Rl2); [by eapply dt_is|done|set_solver|].
    exists h'. split_and!; [exact R|exact Sp|]. split; [done|]. intros q Hq. apply Rl2. set_solver.
Qed.

Lemma link_node_run w l L a b new d direction :
  drep w l L (a ++ b) -> at_marker direction w l L a b -> node_ok (lw_nodes w) (lw_lists w) (new, d) ->
  (new ∉ l + HEADNODE :: (a ++ b).*1) -> is_u64 (zlen (a ++ b) + 1) ->
  exists h', link_node w l new direction = Ok (grown w l L new (zlen (a ++ b) + 1) h') /\
    drep (grown w l L new (zlen (a ++ b) + 1) h') l
      (mk_dlist new (zlen (a ++ b) + 1) (dl_data_size L) (dl_del_func L) (dl_head L)) (a ++ (new, d) :: b) /\
    relinked (lw_nodes w) h' (new :: l + HEADNODE :: (a ++ b).*1).
Proof.
  intros Hr Hm Hok Hfresh Hu. pose proof Hok as (N1 & N2 & N3 & N4). cbn in N1, N2, N3, N4.
  set (w1 := set_lists w (<[l := with_count L (u64 (dl_count L + 1))]> (lw_lists w))).
  destruct (link_body_run w1 w l L a b new direction Hr eq_refl Hm ltac:(by eapply dt_is) Hfresh)
    as (h' & R & Hd & Rl). exists h'. destruct Hr as [H1 H2 H3 H4 H5 H6 H7 H8].
  assert (Ec : u64 (dl_count L + 1) = zlen (a ++ b) + 1) by (rewrite H4; by apply u64_id).
  split_and!; [|split; cbn [grown lw_lists lw_nodes dl_head dl_count]|exact Rl]; try done.
  - unfold link_node. rewrite (lget_ok _ _ _ H1). cbn [mbind res_bind]. rewrite (put_count_ok _ _ _ _ H1).
    cbn [mbind res_bind]. fold w1. refine (bind_then _ _ _ _ _ R _).
    rewrite (put_marker_ok _ _ (with_count L (u64 (dl_count L + 1)))) by apply lookup_insert_eq.
    unfold grown, w1. cbn. by rewrite insert_insert_eq, Ec.
  - apply lookup_insert_eq.
  - rewrite !zlen_app, zlen_cons. lia.
  - rewrite zlen_app, zlen_cons. rewrite zlen_app in Hu. unfold is_u64 in *. lia.
  - destruct Rl as [Rl _]. cbn in Rl. by rewrite Rl.
  - assert (Forall (node_ok (lw_nodes w) (lw_lists w)) (a ++ (new, d) :: b)) as Hall
      by (rewrite Forall_app in *; destruct H7; split; [done|by constructor]).
    eapply node_ok_frame; [intros x _; apply Rl|by intros; eapply insert_None|exact Hall].
  - left. by rewrite fmap_app.
Qed.
End insert.

(** ** Allocation *)

(** What [malloc] returns overlaps nothing that is allocated. *)
Class MallocFresh {Env : Type} (malloc : dlworld Env -> Z -> Z) : Prop := {
  malloc_fresh w n : malloc w n <> 0 ->
    0 < malloc w n /\ lw_nodes w !! malloc w n = None /\ lw_lists w !! malloc w n = None /\
    lw_nodes w !! (malloc w n + HEADNODE) = None /\ lw_lists w !! (malloc w n - HEADNODE) = None
}.
