(* ===== verification/DlistSpec.v ===== *)
(** * Doubly linked lists with a marker: theorems

    The operations as functions of the sequence a list stands for: the ends behave as a
    double-ended queue, sorted insertion puts an element before the first one that
    should follow it, and destroying a list deletes every element once, in order, and
    frees everything. *)

From S2P Require Import Prelude.
From S2P Require Import MetalList.
From S2P Require Import Dlist.
From S2P Require Import DlistRep.

(** ** The marker *)

(** The node after [a] and before [b]; both are the head at the ends. *)
Definition first_of (head : Z) (b : list (Z * Z)) : Z := default head (b.*1 !! 0%nat).
Definition last_of (head : Z) (a : list (Z * Z)) : Z := default head (list.last a.*1).

Lemma last_of_snoc head a x : last_of head (a ++ [x]) = x.1.
Proof. unfold last_of. rewrite fmap_app. cbn [fmap list_fmap]. by rewrite last_snoc. Qed.
Lemma last_of_view head a : exists k, head :: a.*1 = k ++ [last_of head a].
Proof.
  destruct a as [|x a _] using rev_ind; [by exists []|]. exists (head :: a.*1). by rewrite last_of_snoc, fmap_app.
Qed.
Lemma first_of_view head b : exists k, b.*1 ++ [head] = first_of head b :: k.
Proof. destruct b as [|x b]; cbn; eauto. Qed.
Lemma first_of_in head b : first_of head b ∈ head :: b.*1.
Proof. destruct b; cbn; [left|right; left]. Qed.
Lemma last_of_in head a : last_of head a ∈ head :: a.*1.
Proof. destruct (last_of_view head a) as [k ->]. set_solver. Qed.

Section marker.
Context {Env : Type}.
Abbreviation world := (dlworld Env).
Implicit Types (w : world) (L : dlist) (h : gmap Z dl_node) (xs a b : list (Z * Z)).

Definition marked w (l : Z) L (v : Z) : world := set_lists w (<[l := with_marker L v]> (lw_lists w)).

Lemma drep_marked w l L xs v : drep w l L xs -> drep (marked w l L v) l (with_marker L v) xs.
Proof.
  intros H. apply (drep_frame w _ l L _ xs H); [apply lookup_insert_eq|done..|].
  intros q Hq. eapply insert_None; [apply H|done].
Qed.

Lemma marked_marked w l L u v : marked (marked w l L u) l (with_marker L u) v = marked w l L v.
Proof. unfold marked, set_lists. cbn. by rewrite insert_insert_eq. Qed.
Lemma marked_id w l L : lw_lists w !! l = Some L -> marked w l L (dl_marker L) = w.
Proof. intros H. destruct w, L. unfold marked, set_lists, with_marker. cbn in *. by rewrite insert_id. Qed.

Lemma drep_ring w l L xs : drep w l L xs -> xs <> [] -> is_dlist (lk (lw_nodes w)) (l + HEADNODE) xs.*1.
Proof. intros [_ _ _ _ _ _ _ [H|[H _]]]; [done|congruence]. Qed.

(** The data of a node and of the head. *)
Lemma drep_dt w l L xs x : drep w l L xs -> x ∈ xs -> dt (lw_nodes w) x.1 = Some x.2.
Proof. intros H Hx. pose proof (dr_nodes _ _ _ _ H) as Hn. rewrite list.Forall_forall in Hn. by apply Hn. Qed.

(** The marker moves by one node. *)
Lemma mark_move_run w l L xs (direction : bool) to :
  drep w l L xs -> dl_marker L <> 0 -> to <> 0 ->
  (if direction then nx else pv) (lk (lw_nodes w)) (dl_marker L) = Some to ->
  (to <> l + HEADNODE -> is_Some (lw_nodes w !! to)) ->
  exists d, dlist_mark_move w l direction = Ok (marked w l L to, d) /\
    (to = l + HEADNODE -> d = 0) /\ (to <> l + HEADNODE -> dt (lw_nodes w) to = Some d).
Proof.
  intros Hr Hm Ht0 Hto Hs. pose proof (dr_list _ _ _ _ Hr) as HL. unfold dlist_mark_move.
  rewrite (lget_ok _ _ _ HL). cbn [mbind res_bind]. rewrite (proj2 (Z.eqb_neq _ _) Hm).
  destruct (nget_ok w (dl_marker L)) as (x & y & d & Hg & Hx & Hy & _); [destruct direction; [by eapply nx_lk_is|by eapply pv_lk_is]|].
  rewrite Hg. cbn [mbind res_bind dn_next dn_prev].
  assert ((if direction then x else y) = to) as -> by (destruct direction; congruence).
  rewrite (proj2 (Z.eqb_neq _ _) Ht0), (put_marker_ok _ _ _ _ HL). cbn [mbind res_bind]. rewrite (dr_head _ _ _ _ Hr).
  fold (marked w l L to). destruct (Z.eqb_spec to (l + HEADNODE)) as [->|Hne]; cbn [negb].
  - exists 0. split; [done|]. split; [done|congruence].
  - destruct (nget_ok (marked w l L to) to) as (x' & y' & d' & Hg' & _ & _ & Hd'); [by apply Hs|].
    rewrite Hg'. cbn [mbind res_bind dn_data]. exists d'. split; [done|]. split; [congruence|intros _; exact Hd'].
Qed.

(** From the node [p] between [a] and [b] the marker goes to the neighbour. *)
Definition neighbour (direction : bool) (head : Z) a b : Z := if direction then first_of head b else last_of head a.

Lemma mark_move_node w l L a p d b (direction : bool) :
  drep w l L (a ++ (p, d) :: b) -> dl_marker L = p ->
  exists r, dlist_mark_move w l direction = Ok (marked w l L (neighbour direction (l + HEADNODE) a b), r).
Proof.
  intros Hr Hm. pose proof (drep_nonzero _ _ _ _ Hr) as H0.
  pose proof (drep_ring _ _ _ _ Hr ltac:(by destruct a)) as Hd. rewrite !fmap_app in *. cbn in Hd, H0.
  destruct (last_of_view (l + HEADNODE) a) as [k Hk]. destruct (first_of_view (l + HEADNODE) b) as [k' Hk'].
  destruct (dlist_neighbours _ _ _ _ _ _ _ _ _ Hd Hk Hk') as (Hpx & Hxp & Hxy & Hyx & _ & _ & Hpin & Hyin).
  destruct (mark_move_run w l L _ direction (neighbour direction (l + HEADNODE) a b) Hr) as (r & R & _); eauto.
  - rewrite Hm. set_solver.
  - destruct direction; cbn [neighbour]; intros E; rewrite E in *; apply H0; set_solver.
  - rewrite Hm. by destruct direction.
  - intros _. destruct direction; cbn; [by eapply pv_lk_is|by eapply nx_lk_is].
Qed.
End marker.

(** ** Removing a node *)

Section remove.
Context {Env : Type}.
Abbreviation world := (dlworld Env).
Implicit Types (w : world) (L : dlist) (h : gmap Z dl_node) (xs a b : list (Z * Z)).

Lemma bound_without a (x : Z * Z) b : is_u64 (zlen (a ++ x :: b)) -> is_u64 (zlen (a ++ b)).
Proof. rewrite !zlen_app, zlen_cons. pose proof (zlen_nonneg a). pose proof (zlen_nonneg b). unfold is_u64. lia. Qed.

Lemma zlen_0 {A} (k : list A) : zlen k = 0 -> k = [].
Proof. destruct k; [done|]. rewrite zlen_cons. pose proof (zlen_nonneg k). lia. Qed.

(** The list without [p], its node anywhere or freed. *)
Lemma drep_shrunk w l L L' a p d b h1 h2 ls (e : Env) :
  drep w l L (a ++ (p, d) :: b) ->
  is_dlist (lk h1) (l + HEADNODE) (a ++ b).*1 \/ a ++ b = [] /\ virgin h1 (l + HEADNODE) ->
  (forall q, dt h1 q = dt (lw_nodes w) q) ->
  (forall q, q ∈ l + HEADNODE :: (a ++ b).*1 -> h2 !! q = h1 !! q) ->
  ls !! l = Some L' -> (forall x, lw_lists w !! x = None -> ls !! x = None) ->
  dl_head L' = dl_head L -> dl_count L' = zlen (a ++ b) ->
  drep (mk_dlw h2 ls e) l L' (a ++ b).
Proof.
  intros [H1 H2 H3 H4 H5 H6 H7 H8] Hd Hr Hq Hl Hls Hh Hc.
  assert (Hall : Forall (node_ok (lw_nodes w) (lw_lists w)) (a ++ b)).
  { rewrite Forall_app in *. destruct H7 as [? H7]. by apply Forall_cons_1 in H7 as [_ ?]. }
  pose proof (bound_without _ _ _ H5) as Hb.
  assert (D1 : drep (mk_dlw h1 ls e) l L' (a ++ b)).
  { split; cbn; try done; [congruence|by rewrite Hr|].
    eapply node_ok_frame; [intros; apply Hr|intros x _; apply Hls|exact Hall]. }
  by apply (drep_frame _ _ _ _ L' _ D1).
Qed.

(** [p] is not a node of the rest. *)
Lemma drep_notin w l L a p d b : drep w l L (a ++ (p, d) :: b) -> (p ∉ l + HEADNODE :: (a ++ b).*1).
Proof.
  intros H. destruct (drep_ring _ _ _ _ H ltac:(by destruct a)) as [Hnd _]. rewrite fmap_app in Hnd. cbn in Hnd.
  rewrite app_comm_cons, <- (Permutation_middle (_ :: _)) in Hnd. apply NoDup_cons_1_1 in Hnd. by rewrite fmap_app.
Qed.

(** Both steps of the removal from the links, at the level of the list. *)
Lemma drep_cut w w1 l L a p d b :
  drep w l L (a ++ (p, d) :: b) -> lw_nodes w1 = lw_nodes w ->
  exists h, (w2 ← leave_head w1 (l + HEADNODE) p; unhook w2 p) = Ok (set_nodes w1 h) /\
    is_dlist (lk h) (l + HEADNODE) (a ++ b).*1 /\ relinked (lw_nodes w) h (l + HEADNODE :: (a ++ b).*1).
Proof.
  intros H E. pose proof (drep_nonzero _ _ _ _ H) as H0. pose proof (drep_ring _ _ _ _ H ltac:(by destruct a)) as Hd.
  rewrite fmap_app in *. cbn in Hd, H0. rewrite <- E in Hd |- *.
  apply (cut_run w1); [done|eexists; rewrite E; apply H| |set_solver].
  rewrite E. eexists. apply (drep_dt w l L _ (p, d) H). set_solver.
Qed.

Lemma count_down_run w l L n :
  lw_lists w !! l = Some L -> dl_count L = n + 1 -> is_u64 n ->
  count_down w l = Ok (set_lists w (<[l := with_count L n]> (lw_lists w))).
Proof.
  intros HL Hc Hn. unfold count_down. rewrite (lget_ok _ _ _ HL). cbn [mbind res_bind].
  rewrite (put_count_ok _ _ _ _ HL), Hc. replace (n + 1 - 1) with n by lia. by rewrite u64_id.
Qed.

(** The marker of a list from which [p] is removed. *)
Definition mark_after (direction : bool) (head p m : Z) a b : Z :=
  if m =? p then neighbour direction head a b else m.

(** The list at [l] and the memory after the removal. *)
Definition shrunk w (l : Z) L (m n : Z) h : world :=
  mk_dlw h (<[l := mk_dlist m n (dl_data_size L) (dl_del_func L) (dl_head L)]> (lw_lists w)) (lw_env w).

Lemma marker_leaves w l L a p d b direction :
  drep w l L (a ++ (p, d) :: b) ->
  (if dl_marker L =? p then '(w, _) ← dlist_mark_move w l direction; Ok w else Ok w)
    = Ok (marked w l L (mark_after direction (l + HEADNODE) p (dl_marker L) a b)).
Proof.
  intros H. unfold mark_after. destruct (Z.eqb_spec (dl_marker L) p) as [E|].
  - destruct (mark_move_node w l L a p d b direction H E) as [r R]. by rewrite R.
  - rewrite marked_id; [done|apply H].
Qed.

(** The end of a removal: the count and the memory of the node. *)
Lemma drop_run w l L n p :
  lw_lists w !! l = Some L -> dl_count L = n + 1 -> is_u64 n -> is_Some (lw_nodes w !! p) -> lw_lists w !! (p - HEADNODE) = None ->
  (w ← count_down w l; free_node w p) = Ok (mk_dlw (delete p (lw_nodes w)) (<[l := with_count L n]> (lw_lists w)) (lw_env w)).
Proof.
  intros HL Hc Hn [x Hx] Hp. rewrite (count_down_run _ _ _ _ HL Hc Hn). cbn [mbind res_bind]. unfold free_node.
  cbn [lw_nodes lw_lists set_lists set_nodes]. rewrite Hx, bool_decide_false; [done|].
  rewrite (insert_None _ _ _ _ _ HL Hp). by intros [].
Qed.

(** The list once the node is cut out and freed. *)
Lemma cut_drep w l L L' a p d b h (e : Env) :
  drep w l L (a ++ (p, d) :: b) -> is_dlist (lk h) (l + HEADNODE) (a ++ b).*1 ->
  relinked (lw_nodes w) h (l + HEADNODE :: (a ++ b).*1) -> dl_head L' = dl_head L -> dl_count L' = zlen (a ++ b) ->
  drep (mk_dlw (delete p h) (<[l := L']> (lw_lists w)) e) l L' (a ++ b) /\
  is_dlist (lk (delete p h)) (l + HEADNODE) (a ++ b).*1 /\ delete p h !! p = None /\
  (forall q, q ∉ l + HEADNODE :: (a ++ (p, d) :: b).*1 -> delete p h !! q = lw_nodes w !! q).
Proof.
  intros H Hd Hr Hh Hc. pose proof (drep_notin _ _ _ _ _ _ _ H) as Hp. split_and!.
  - eapply drep_shrunk; [exact H|left; exact Hd|apply Hr| |apply lookup_insert_eq| |done..].
    + intros q Hq. apply lookup_delete_ne. congruence.
    + intros x Hx. eapply insert_None; [apply H|done].
  - destruct Hd as [Hnd Hl]. split; [done|]. revert Hl. apply links_frame; intros q Hq; unfold nx, pv, lk;
      rewrite !lookup_fmap, lookup_delete_ne; try done; intros <-; apply Hp; [rewrite srcs_app in Hq; done|set_solver].
  - apply lookup_delete_eq.
  - intros q Hq. rewrite fmap_app in Hq. cbn in Hq. rewrite lookup_delete_ne by set_solver. apply Hr.
    rewrite fmap_app. set_solver.
Qed.

(** What [drop_run] needs of a node cut out of its list. *)
Lemma cut_node w l L a p d b h :
  drep w l L (a ++ (p, d) :: b) -> relinked (lw_nodes w) h (l + HEADNODE :: (a ++ b).*1) ->
  dt (lw_nodes w) p = Some d /\ dt h p = Some d /\ p <> 0 /\ is_Some (h !! p) /\ d <> 0 /\
  (forall L', <[l := L']> (lw_lists w) !! (p - HEADNODE) = None) /\
  is_u64 (zlen (a ++ b)) /\ dl_count L = zlen (a ++ b) + 1.
Proof.
  intros H Hr. pose proof (dr_nodes _ _ _ _ H) as Hall. rewrite list.Forall_forall in Hall.
  destruct (Hall (p, d) ltac:(set_solver)) as (Hdt & Hd0 & Hp0 & Hfree). cbn in Hdt, Hd0, Hp0, Hfree.
  split_and!; try done.
  - by rewrite (proj1 Hr).
  - apply (relinked_is _ _ _ _ Hr). by eapply dt_is.
  - intros L'. eapply insert_None; [apply H|done].
  - eapply bound_without, dr_bound, H.
  - rewrite (dr_count _ _ _ _ H), !zlen_app, zlen_cons. lia.
Qed.

Lemma dlist_remove_run w l L a p d b direction :
  drep w l L (a ++ (p, d) :: b) ->
  let m := mark_after direction (l + HEADNODE) p (dl_marker L) a b in
  exists h, dlist_remove w l p direction = Ok (shrunk w l L m (zlen (a ++ b)) h, d) /\
    drep (shrunk w l L m (zlen (a ++ b)) h) l (mk_dlist m (zlen (a ++ b)) (dl_data_size L) (dl_del_func L) (dl_head L)) (a ++ b) /\
    is_dlist (lk h) (l + HEADNODE) (a ++ b).*1 /\ h !! p = None /\
    (forall q, q ∉ l + HEADNODE :: (a ++ (p, d) :: b).*1 -> h !! q = lw_nodes w !! q).
Proof.
  intros H m. destruct (drep_cut w (marked w l L m) l L a p d b H eq_refl) as (h & R & Hd & Hr).
  destruct (cut_node _ _ _ _ _ _ _ _ H Hr) as (Hdt & _ & Hp0 & Sp & _ & Hfree & Hb & Hc).
  exists (delete p h). split; [|by eapply cut_drep].
  unfold dlist_remove. rewrite (proj2 (Z.eqb_neq _ _) Hp0).
  destruct (nget_ok w p) as (x & y & d' & Hg & _ & _ & Hd'); [by eapply dt_is|]. rewrite Hg. cbn [mbind res_bind dn_data].
  assert (d' = d) as -> by congruence. rewrite (lget_ok _ _ _ (dr_list _ _ _ _ H)). cbn [mbind res_bind].
  rewrite (marker_leaves _ _ _ _ _ _ _ _ H). cbn [mbind res_bind]. fold m. rewrite (dr_head _ _ _ _ H).
  refine (bind_then _ _ _ _ _ R _). refine (bind_then _ _ _ _ _ (drop_run _ _ (with_marker L m) (zlen (a ++ b)) _ _ _ _ _ _) _);
    [apply lookup_insert_eq|exact Hc|done|done|apply Hfree|].
  unfold shrunk, marked, set_lists, set_nodes. cbn. by rewrite insert_insert_eq.
Qed.
End remove.

(** ** Inserting at the marker *)

Section insert.
Context {Env : Type}.
Abbreviation world := (dlworld Env).
Implicit Types (w : world) (L : dlist) (h : gmap Z dl_node) (xs a b : list (Z * Z)).

(** The marker is set, to the head if it was not. *)
Definition mark_set L : Z := if dl_marker L =? 0 then dl_head L else dl_marker L.

Lemma ensure_marker_run w l L : lw_lists w !! l = Some L -> ensure_marker w l = Ok (marked w l L (mark_set L)).
Proof.
  intros H. unfold ensure_marker, mark_set. rewrite (lget_ok _ _ _ H). cbn [mbind res_bind].
  destruct (dl_marker L =? 0); [by rewrite (put_marker_ok _ _ _ _ H)|by rewrite marked_id].
Qed.

Lemma at_marker_set w l L a b direction :
  drep w l L (a ++ b) -> at_marker direction w l L a b ->
  at_marker direction (marked w l L (mark_set L)) l (with_marker L (mark_set L)) a b.
Proof.
  intros H Hm. pose proof (drep_nonzero _ _ _ _ H) as H0. rewrite fmap_app in H0. unfold at_marker, mark_set in *. cbn [dl_marker with_marker].
  destruct Hm as [Hv|Hm]; [by left|]. right. destruct (Z.eqb_spec (dl_marker L) 0) as [E|]; [|exact Hm].
  exfalso. apply H0. destruct direction; destruct Hm as [k Hk]; rewrite E in Hk.
  - rewrite app_comm_cons, Hk. set_solver.
  - assert (0 ∈ b.*1 ++ [l + HEADNODE]) by (rewrite Hk; left). set_solver.
Qed.

(** The common part of both insertions. *)
Lemma insert_node_run w l L a b new d direction :
  drep w l L (a ++ b) -> at_marker direction w l L a b -> node_ok (lw_nodes w) (lw_lists w) (new, d) ->
  (new ∉ l + HEADNODE :: (a ++ b).*1) -> is_u64 (zlen (a ++ b) + 1) ->
  exists h, (w ← ensure_marker w l; link_node w l new direction) = Ok (grown w l L new (zlen (a ++ b) + 1) h) /\
    drep (grown w l L new (zlen (a ++ b) + 1) h) l
      (mk_dlist new (zlen (a ++ b) + 1) (dl_data_size L) (dl_del_func L) (dl_head L)) (a ++ (new, d) :: b) /\
    relinked (lw_nodes w) h (new :: l + HEADNODE :: (a ++ b).*1).
Proof.
  intros H Hm Hok Hf Hu. rewrite (ensure_marker_run _ _ _ (dr_list _ _ _ _ H)). cbn [mbind res_bind].
  destruct (link_node_run (marked w l L (mark_set L)) l (with_marker L (mark_set L)) a b new d direction)
    as (h & R & Hd & Hr); try done.
  - by apply drep_marked.
  - by apply at_marker_set.
  - destruct Hok as (? & ? & ? & ?). split_and!; try done. eapply insert_None; [apply H|done].
  - assert (E : grown (marked w l L (mark_set L)) l (with_marker L (mark_set L)) new (zlen (a ++ b) + 1) h
        = grown w l L new (zlen (a ++ b) + 1) h) by (unfold grown, marked, set_lists; cbn; by rewrite insert_insert_eq).
    rewrite E in R, Hd. exists h. split_and!; [exact R|exact Hd|exact Hr].
Qed.

Lemma dlist_insert_dlnode_run w l L a b new d direction :
  drep w l L (a ++ b) -> at_marker direction w l L a b -> node_ok (lw_nodes w) (lw_lists w) (new, d) ->
  (new ∉ l + HEADNODE :: (a ++ b).*1) -> is_u64 (zlen (a ++ b) + 1) ->
  exists h, dlist_insert_dlnode w l new direction = Ok (grown w l L new (zlen (a ++ b) + 1) h, new) /\
    drep (grown w l L new (zlen (a ++ b) + 1) h) l
      (mk_dlist new (zlen (a ++ b) + 1) (dl_data_size L) (dl_del_func L) (dl_head L)) (a ++ (new, d) :: b) /\
    relinked (lw_nodes w) h (new :: l + HEADNODE :: (a ++ b).*1).
Proof.
  intros H Hm Hok Hf Hu. destruct (insert_node_run w l L a b new d direction H Hm Hok Hf Hu) as (h & R & Hd & Hr).
  exists h. split_and!; [|done|done]. unfold dlist_insert_dlnode. pose proof (dr_addr _ _ _ _ H). destruct Hok as (_ & _ & Hn0 & _).
  rewrite (proj2 (Z.eqb_neq l 0)), (proj2 (Z.eqb_neq new 0)) by (done || lia). cbn [orb].
  refine (bind_then _ _ _ _ _ R _). by rewrite (lget_ok _ _ _ (dr_list _ _ _ _ Hd)).
Qed.
End insert.

(** ** Moving a node to another list *)

Section move.
Context {Env : Type}.
Abbreviation world := (dlworld Env).
Implicit Types (w : world) (S T L : dlist) (h : gmap Z dl_node) (xs ds a b : list (Z * Z)).

(** The head node and the node taken out, unlinked. *)
Lemma unlink_last w head p :
  is_Some (lw_nodes w !! p) -> is_Some (lw_nodes w !! head) -> p <> head ->
  exists h, (w ← put_prev w p 0; w ← put_next w p 0; w ← put_next w head 0; put_prev w head 0) = Ok (set_nodes w h) /\
    virgin h head /\ relinked (lw_nodes w) h [p; head].
Proof.
  intros Hp Hh Hne. assert (is_Some (lk (lw_nodes w) !! head)) by by apply is_Some_lk.
  rewrite put_prev_ok by done. cbn [mbind res_bind]. rewrite put_next_ok by (lks; done). cbn [mbind res_bind].
  rewrite put_next_ok by (lks; done). cbn [mbind res_bind]. rewrite put_prev_ok by (lks; done).
  eexists. split; [reflexivity|]. split; [split; lkd|]. split; [intros q; lkd|].
  intros q Hq. cbn. rewrite lookup_wprev_ne, !lookup_wnext_ne, lookup_wprev_ne by set_solver. done.
Qed.

Lemma unlink_node w p :
  is_Some (lw_nodes w !! p) ->
  exists h, (w ← put_prev w p 0; put_next w p 0) = Ok (set_nodes w h) /\ relinked (lw_nodes w) h [p].
Proof.
  intros Hp. rewrite put_prev_ok by done. cbn [mbind res_bind]. rewrite put_next_ok by (lks; done).
  eexists. split; [reflexivity|]. split; [intros q; lkd|].
  intros q Hq. cbn. rewrite lookup_wnext_ne, lookup_wprev_ne by set_solver. done.
Qed.

Lemma relinked_trans h1 h2 h3 ns ks : relinked h1 h2 ns -> relinked h2 h3 ks -> relinked h1 h3 (ns ++ ks).
Proof. intros [A1 A2] [B1 B2]. split; intros q; [by rewrite B1|]. intros Hq. rewrite B2, A2 by set_solver. done. Qed.
Lemma relinked_sub h h' ns ks : relinked h h' ns -> (forall q, q ∈ ns -> q ∈ ks) -> relinked h h' ks.
Proof. intros [A1 A2] Hs. split; [done|]. intros q Hq. apply A2. by intros ?%Hs. Qed.

Lemma move_links w w1 s S a p d b :
  drep w s S (a ++ (p, d) :: b) -> lw_nodes w1 = lw_nodes w ->
  exists h, (w ← leave_head w1 (s + HEADNODE) p;
     if dl_count S =? 1 then
       w ← put_prev w p 0; w ← put_next w p 0; w ← put_next w (s + HEADNODE) 0; put_prev w (s + HEADNODE) 0
     else w ← unhook w p; w ← put_prev w p 0; put_next w p 0) = Ok (set_nodes w1 h) /\
    (is_dlist (lk h) (s + HEADNODE) (a ++ b).*1 /\ a ++ b <> [] \/ a ++ b = [] /\ virgin h (s + HEADNODE)) /\
    relinked (lw_nodes w) h (p :: s + HEADNODE :: (a ++ b).*1).
Proof.
  intros H E. destruct (drep_cut w w1 s S a p d b H E) as (h & R & Hd & Hr). pose proof (drep_notin _ _ _ _ _ _ _ H) as Hp.
  assert (Sp : is_Some (lw_nodes w !! p)) by (eapply dt_is, (drep_dt _ _ _ _ (p, d) H); set_solver).
  assert (Sh : is_Some (lw_nodes w !! (s + HEADNODE))) by (eapply dt_is, H).
  rewrite (dr_count _ _ _ _ H), zlen_app, zlen_cons. pose proof (zlen_nonneg a) as Za. pose proof (zlen_nonneg b) as Zb.
  destruct (leave_head w1 (s + HEADNODE) p) as [w2|] eqn:El; cbn [mbind res_bind] in R |- *; [|discriminate].
  destruct (Z.eqb_spec (zlen a + (1 + zlen b)) 1) as [Ec|Ec].
  - assert (Ea : zlen a = 0) by lia. assert (Eb : zlen b = 0) by lia. apply zlen_0 in Ea as ->, Eb as ->.
    destruct (leave_head_run w1 (s + HEADNODE) [] p [] [] (s + HEADNODE) (s + HEADNODE) []) as (h1 & R1 & Hr1 & _);
      rewrite ?E; try done; [apply (drep_ring _ _ _ _ H); done|eexists; apply H|eexists; apply (drep_dt _ _ _ _ (p, d) H); set_solver|].
    rewrite El in R1. injection R1 as ->. rewrite E in Hr1.
    destruct (unlink_last (set_nodes w1 h1) (s + HEADNODE) p) as (h2 & R2 & Hv & Hr2);
      [by apply (relinked_is _ _ _ _ Hr1)|by apply (relinked_is _ _ _ _ Hr1)|set_solver|].
    exists h2. split; [exact R2|]. split; [by right|].
    eapply relinked_sub; [eapply relinked_trans; [exact Hr1|exact Hr2]|]. set_solver.
  - rewrite R. cbn [mbind res_bind].
    destruct (unlink_node (set_nodes w1 h) p) as (h2 & R2 & Hr2); [by apply (relinked_is _ _ _ _ Hr)|].
    exists h2. split; [exact R2|]. split; [|eapply relinked_sub; [eapply relinked_trans; [exact Hr|exact Hr2]|set_solver]].
    left. split; [|intros [-> ->]%app_nil; by apply Ec].
    destruct Hd as [Hnd Hl], Hr2 as [_ Hr2]. split; [done|]. revert Hl. apply links_frame; intros q Hq; unfold nx, pv, lk;
      rewrite !lookup_fmap, Hr2; try done; rewrite list_elem_of_singleton; intros ->; apply Hp; [rewrite srcs_app in Hq; done|set_solver].
Qed.

Lemma move_out_run w s S a p d b direction :
  drep w s S (a ++ (p, d) :: b) ->
  let m := mark_after direction (s + HEADNODE) p (dl_marker S) a b in
  exists h, move_out w s p direction = Ok (shrunk w s S m (zlen (a ++ b)) h) /\
    drep (shrunk w s S m (zlen (a ++ b)) h) s (mk_dlist m (zlen (a ++ b)) (dl_data_size S) (dl_del_func S) (dl_head S)) (a ++ b) /\
    (a ++ b = [] -> virgin h (s + HEADNODE)) /\ relinked (lw_nodes w) h (p :: s + HEADNODE :: (a ++ b).*1).
Proof.
  intros H m. destruct (move_links w (marked w s S m) s S a p d b H eq_refl) as (h & R & Hd & Hr).
  pose proof (drep_notin _ _ _ _ _ _ _ H) as Hp. exists h. split_and!; [| | |done].
  - unfold move_out. rewrite (lget_ok _ _ _ (dr_list _ _ _ _ H)). cbn [mbind res_bind].
    rewrite (marker_leaves _ _ _ _ _ _ _ _ H). cbn [mbind res_bind]. fold m. rewrite (dr_head _ _ _ _ H).
    refine (bind_then _ _ _ _ _ R _). rewrite (count_down_run _ s (with_marker S m) (zlen (a ++ b))).
    + unfold shrunk, marked, set_lists, set_nodes. cbn. by rewrite insert_insert_eq.
    + apply lookup_insert_eq.
    + cbn. rewrite (dr_count _ _ _ _ H), !zlen_app, zlen_cons. lia.
    + by eapply bound_without, dr_bound.
  - eapply (drep_shrunk w s S); [exact H|destruct Hd as [[Hd _]|Hd]; [left; exact Hd|right; exact Hd]|apply Hr|done|apply lookup_insert_eq| |done..].
    intros x Hx. eapply insert_None; [apply H|done].
  - intros E. by destruct Hd as [[_ ?]|[_ ?]].
Qed.
End move.
