(* ===== verification/DlistProps.v ===== *)
(** * Doubly linked lists: properties of the operations

    The ends of a list behave as a double-ended queue; sorted insertion puts an element
    before the first one that should follow it; destroying a list deletes every element
    once, in order, and frees everything; a list emptied by removals cannot be popped. *)

From stdpp Require Import sorting.
From S2P Require Import Prelude.
From S2P Require Import MetalList.
From S2P Require Import Dlist.
From S2P Require Import DlistRep.
From S2P Require Import DlistSpec.

(** ** Nodes of a list *)

Section nodes.
Context {Env : Type}.
Abbreviation world := (dlworld Env).
Implicit Types (w : world) (L : dlist) (xs a b : list (Z * Z)).

(** The nodes of a list are allocated. *)
Lemma drep_allocated w l L xs q : drep w l L xs -> q ∈ l + HEADNODE :: xs.*1 -> is_Some (lw_nodes w !! q).
Proof.
  intros H [->|Hq]%elem_of_cons; [eapply dt_is, H|]. apply list_elem_of_fmap in Hq as (x & -> & Hx).
  eapply dt_is, (drep_dt _ _ _ _ x H Hx).
Qed.

(** A node of a list points to the next one. *)
Lemma drep_node w l L a p d b : drep w l L (a ++ (p, d) :: b) ->
  exists n, nget w p = Ok n /\ dn_next n = first_of (l + HEADNODE) b /\ dn_data n = d.
Proof.
  intros H. pose proof (drep_ring _ _ _ _ H ltac:(by destruct a)) as Hd. rewrite fmap_app in Hd. cbn in Hd.
  destruct (last_of_view (l + HEADNODE) a) as [k Hk]. destruct (first_of_view (l + HEADNODE) b) as [k' Hk'].
  destruct (dlist_neighbours _ _ _ _ _ _ _ _ _ Hd Hk Hk') as (_ & Hxp & Hxy & _).
  eexists. split; [apply (nget_cell w p _ _ d Hxy Hxp)|done]. apply (drep_dt _ _ _ _ (p, d) H). set_solver.
Qed.

(** What the head node of a list says. *)
Lemma head_node w l L xs : drep w l L xs ->
  exists h, nget w (l + HEADNODE) = Ok h /\
    (xs = [] /\ virgin (lw_nodes w) (l + HEADNODE) /\ dn_next h = 0 /\ dn_prev h = 0 \/
     is_dlist (lk (lw_nodes w)) (l + HEADNODE) xs.*1 /\ dn_next h = first_of (l + HEADNODE) xs /\
     dn_prev h = last_of (l + HEADNODE) xs).
Proof.
  intros H. destruct (nget_ok w (l + HEADNODE)) as (a & b & d & Hg & Ha & Hb & _); [eapply dt_is, H|].
  eexists. split; [exact Hg|]. cbn. destruct (dr_ring _ _ _ _ H) as [Hd|[-> [V1 V2]]].
  - right. split; [done|]. destruct (last_of_view (l + HEADNODE) xs) as [k Hk]. destruct (first_of_view (l + HEADNODE) xs) as [k' Hk'].
    destruct (dlist_boundary _ _ [] xs.*1 [] _ _ _ Hd eq_refl Hk') as (_ & H1 & _).
    assert (Hd' : is_dlist (lk (lw_nodes w)) (l + HEADNODE) (xs.*1 ++ [])) by by rewrite app_nil_r.
    destruct (dlist_boundary _ _ xs.*1 [] _ _ _ [] Hd' Hk eq_refl) as (_ & _ & H2 & _). split; congruence.
  - left. split_and!; [done|done|congruence|congruence].
Qed.
End nodes.

(** ** Insertion *)

Section insertion.
Context {Env : Type}.
Abbreviation world := (dlworld Env).
Variable malloc : world -> Z -> Z.
Context `{!MallocFresh malloc}.
Implicit Types (w : world) (L : dlist) (xs a b : list (Z * Z)).

(** The node [dlist_insert] allocates. *)
Definition new_node w (l : Z) L : Z := malloc (marked w l L (mark_set L)) sizeof_dl_node.

Lemma dlist_insert_run w l L a b d direction :
  drep w l L (a ++ b) -> at_marker direction w l L a b -> d <> 0 -> is_u64 (zlen (a ++ b) + 1) -> new_node w l L <> 0 ->
  let p := new_node w l L in
  exists h, dlist_insert malloc w l d direction = Ok (grown w l L p (zlen (a ++ b) + 1) h, d) /\
    drep (grown w l L p (zlen (a ++ b) + 1) h) l
      (mk_dlist p (zlen (a ++ b) + 1) (dl_data_size L) (dl_del_func L) (dl_head L)) (a ++ (p, d) :: b) /\
    relinked (<[p := mk_node 0 0 d]> (lw_nodes w)) h (p :: l + HEADNODE :: (a ++ b).*1).
Proof.
  intros H Hm Hd Hu Hp p. pose proof (dr_addr _ _ _ _ H) as Ha.
  set (m := mark_set L) in *. set (w1 := marked w l L m). pose proof (drep_marked w l L _ m H) as H1.
  destruct (malloc_fresh w1 sizeof_dl_node Hp) as (F1 & F2 & F3 & F4 & F5).
  assert (Hf : p ∉ l + HEADNODE :: (a ++ b).*1).
  { intros Hin. destruct (drep_allocated w1 l _ _ p H1 Hin) as [? E]. change (lw_nodes w1 !! p = None) in F2. congruence. }
  set (w2 := set_nodes w1 (<[p := mk_node 0 0 d]> (lw_nodes w))).
  assert (H2 : drep w2 l (with_marker L m) (a ++ b)).
  { apply (drep_frame w1 _ _ _ _ _ H1); try done; [apply H1|]. intros q Hq. cbn. apply lookup_insert_ne. congruence. }
  assert (Hm2 : at_marker direction w2 l (with_marker L m) a b).
  { destruct (at_marker_set w l L a b direction H Hm) as [[V1 V2]|Hmm]; [left|by right].
    unfold virgin, nx, pv, lk in *. cbn in *. rewrite !lookup_fmap in *. rewrite lookup_insert_ne; [done|]. intros ->. apply Hf. left. }
  destruct (link_node_run w2 l (with_marker L m) a b p d direction) as (h & R & D & Hr); try done.
  { split_and!; cbn; try done; [unfold dt; by rewrite lookup_insert_eq]. }
  assert (E : grown w2 l (with_marker L m) p (zlen (a ++ b) + 1) h = grown w l L p (zlen (a ++ b) + 1) h)
    by (unfold grown, w2, w1, marked, set_nodes, set_lists; cbn; by rewrite insert_insert_eq).
  rewrite E in R, D. exists h. split_and!; [|exact D|exact Hr]. unfold dlist_insert.
  rewrite (proj2 (Z.eqb_neq l 0)), (proj2 (Z.eqb_neq d 0)) by (done || lia). cbn [orb].
  rewrite (ensure_marker_run _ _ _ (dr_list _ _ _ _ H)). cbn [mbind res_bind]. fold m w1.
  change (malloc w1 sizeof_dl_node) with p. rewrite (proj2 (Z.eqb_neq p 0)) by done.
  change (set_nodes w1 _) with w2. rewrite R. cbn [mbind res_bind]. unfold dlist_mark. rewrite (lget_ok _ _ _ (dr_list _ _ _ _ D)).
  cbn [mbind res_bind dl_marker]. rewrite (proj2 (Z.eqb_neq p 0)) by done. cbn [negb].
  destruct (nget_ok (grown w l L p (zlen (a ++ b) + 1) h) p) as (x & y & d' & -> & _ & _ & Hd').
  { eapply drep_allocated; [exact D|]. rewrite fmap_app. cbn. set_solver. }
  cbn [mbind res_bind dn_data]. pose proof (drep_dt _ _ _ _ (p, d) D ltac:(set_solver)) as E'. cbn in E', Hd'. congruence.
Qed.

(** Without memory the list keeps its elements. *)
Lemma dlist_insert_fail w l L xs d direction :
  drep w l L xs -> new_node w l L = 0 ->
  exists w' L', dlist_insert malloc w l d direction = Ok (w', 0) /\ drep w' l L' xs.
Proof.
  intros H Hp. unfold dlist_insert. pose proof (dr_addr _ _ _ _ H) as Ha. rewrite (proj2 (Z.eqb_neq l 0)) by lia. cbn [orb].
  destruct (d =? 0); [by exists w, L|]. rewrite (ensure_marker_run _ _ _ (dr_list _ _ _ _ H)). cbn [mbind res_bind].
  change (malloc _ _) with (new_node w l L). rewrite Hp. cbn. eexists _, _. split; [done|]. by apply drep_marked.
Qed.

(** The list has a new node [p], and nothing else has changed. *)
Definition added w w' (l : Z) L L' (p : Z) xs : Prop :=
  lw_env w' = lw_env w /\ lw_lists w' = <[l := L']> (lw_lists w) /\ lw_nodes w !! p = None /\
  (forall q, q ∉ p :: l + HEADNODE :: xs.*1 -> lw_nodes w' !! q = lw_nodes w !! q) /\
  dl_del_func L' = dl_del_func L /\ dl_data_size L' = dl_data_size L.

Lemma grown_added w l L L0 v d n h xs : let p := new_node (marked w l L v) l L0 in new_node (marked w l L v) l L0 <> 0 ->
  dl_del_func L0 = dl_del_func L -> dl_data_size L0 = dl_data_size L ->
  relinked (<[p := mk_node 0 0 d]> (lw_nodes w)) h (p :: l + HEADNODE :: xs.*1) ->
  added w (grown (marked w l L v) l L0 p n h) l L (mk_dlist p n (dl_data_size L0) (dl_del_func L0) (dl_head L0)) p xs.
Proof.
  intros p Hp E1 E2 [_ Hr]. destruct (malloc_fresh _ _ Hp) as (_ & F & _). split_and!; try done.
  - cbn. by rewrite insert_insert_eq.
  - intros q Hq. cbn. rewrite Hr by done. apply lookup_insert_ne. set_solver.
Qed.

Lemma dlist_push_run w l L xs d :
  drep w l L xs -> d <> 0 -> is_u64 (zlen xs + 1) -> (forall w n, malloc w n <> 0) ->
  exists w' L' p, dlist_push malloc w l d = Ok w' /\ drep w' l L' (xs ++ [(p, d)]) /\
    dl_del_func L' = dl_del_func L /\ lw_env w' = lw_env w.
Proof.
  intros H Hd Hu Hm. destruct (head_node _ _ _ _ H) as (h & Hg & Hh).
  pose proof (drep_marked w l L xs (dn_prev h) H) as H1. rewrite <- (app_nil_r xs) in H1, Hu.
  destruct (dlist_insert_run _ l _ xs [] d true H1) as (h' & R & D & _); try done.
  - destruct Hh as [(_ & V & _)|(_ & _ & E)]; [by left|]. right. cbn. rewrite E. apply last_of_view.
  - apply Hm.
  - eexists _, _, _. split_and!; [|exact D|done|done]. unfold dlist_push. rewrite (lget_ok _ _ _ (dr_list _ _ _ _ H)). cbn [mbind res_bind].
    rewrite (dr_head _ _ _ _ H), Hg. cbn [mbind res_bind]. rewrite (put_marker_ok _ _ _ _ (dr_list _ _ _ _ H)). cbn [mbind res_bind].
    fold (marked w l L (dn_prev h)). by rewrite R.
Qed.

Lemma dlist_unshift_run w l L xs d :
  drep w l L xs -> d <> 0 -> is_u64 (zlen xs + 1) -> (forall w n, malloc w n <> 0) ->
  exists w' L' p, dlist_unshift malloc w l d = Ok w' /\ drep w' l L' ((p, d) :: xs) /\ added w w' l L L' p xs.
Proof.
  intros H Hd Hu Hm. destruct (head_node _ _ _ _ H) as (h & Hg & Hh).
  pose proof (drep_marked w l L xs (dn_next h) H) as H1.
  destruct (dlist_insert_run _ l _ [] xs d false H1) as (h' & R & D & Hrl); try done.
  - destruct Hh as [(_ & V & _)|(_ & E & _)]; [by left|]. right. cbn. rewrite E. apply first_of_view.
  - apply Hm.
  - eexists _, _, _. split_and!; [|exact D|apply (grown_added w l L (with_marker L (dn_next h)) (dn_next h) d _ h'); [apply Hm|done|done|exact Hrl]]. unfold dlist_unshift. rewrite (lget_ok _ _ _ (dr_list _ _ _ _ H)). cbn [mbind res_bind].
    rewrite (dr_head _ _ _ _ H), Hg. cbn [mbind res_bind]. rewrite (put_marker_ok _ _ _ _ (dr_list _ _ _ _ H)). cbn [mbind res_bind].
    fold (marked w l L (dn_next h)). by rewrite R.
Qed.

End insertion.

Section ends.
Context {Env : Type}.
Abbreviation world := (dlworld Env).
Implicit Types (w : world) (L : dlist) (xs a b : list (Z * Z)).

Lemma dlist_pop_run w l L xs p d :
  drep w l L (xs ++ [(p, d)]) ->
  exists w' L', dlist_pop w l = Ok (w', d) /\ drep w' l L' xs /\ is_dlist (lk (lw_nodes w')) (l + HEADNODE) xs.*1.
Proof.
  intros H. destruct (head_node _ _ _ _ H) as (h & Hg & [(E & _)|(_ & _ & E)]); [by apply app_nil in E as [_ ?]|].
  rewrite last_of_snoc in E. destruct (dlist_remove_run w l L xs p d [] false H) as (h' & R & D & Hd & _). rewrite !app_nil_r in *.
  eexists _, _. split_and!; [|exact D|exact Hd]. unfold dlist_pop. rewrite (lget_ok _ _ _ (dr_list _ _ _ _ H)). cbn [mbind res_bind].
  rewrite (dr_head _ _ _ _ H), Hg. cbn [mbind res_bind]. by rewrite E.
Qed.

Lemma dlist_shift_run w l L xs p d :
  drep w l L ((p, d) :: xs) ->
  exists w' L', dlist_shift w l = Ok (w', d) /\ drep w' l L' xs /\ is_dlist (lk (lw_nodes w')) (l + HEADNODE) xs.*1.
Proof.
  intros H. destruct (head_node _ _ _ _ H) as (h & Hg & [(E & _)|(_ & E & _)]); [done|].
  destruct (dlist_remove_run w l L [] p d xs true H) as (h' & R & D & Hd & _). cbn [app] in *.
  eexists _, _. split_and!; [|exact D|exact Hd]. unfold dlist_shift. rewrite (lget_ok _ _ _ (dr_list _ _ _ _ H)). cbn [mbind res_bind].
  rewrite (dr_head _ _ _ _ H), Hg. cbn [mbind res_bind]. by rewrite E.
Qed.

(** ** An empty list *)

(** A list that never had an element, or lost them all to [dlist_move], gives null. *)
Lemma dlist_pop_new w l L : drep w l L [] -> virgin (lw_nodes w) (l + HEADNODE) -> dlist_pop w l = Ok (w, 0) /\ dlist_shift w l = Ok (w, 0).
Proof.
  intros H [V1 V2]. unfold dlist_pop, dlist_shift. rewrite (lget_ok _ _ _ (dr_list _ _ _ _ H)). cbn [mbind res_bind].
  rewrite (dr_head _ _ _ _ H), (nget_cell w _ 0 0 0) by (done || apply H). done.
Qed.

(** Removing a head node that is linked to itself changes no link, and frees it. *)
Lemma remove_head w l L direction :
  drep w l L [] -> lw_nodes w !! (l + HEADNODE) = Some (mk_node (l + HEADNODE) (l + HEADNODE) 0) ->
  dlist_remove w l (l + HEADNODE) direction = Fault Out_of_bounds.
Proof.
  intros H Hc. pose proof (dr_list _ _ _ _ H) as HL. set (p := l + HEADNODE) in *.
  assert (Hp : (p =? 0) = false) by (apply Z.eqb_neq; pose proof (dr_addr _ _ _ _ H); unfold p, HEADNODE; lia).
  assert (G : forall w1, lw_nodes w1 = lw_nodes w -> nget w1 p = Ok (mk_node p p 0)) by (intros w1 E; unfold nget; by rewrite E, Hc).
  assert (Pn : forall w1, lw_nodes w1 = lw_nodes w -> put_next w1 p p = Ok w1 /\ put_prev w1 p p = Ok w1).
  { intros [h ls e] E. cbn in E. subst h. unfold put_next, put_prev, nget. cbn. rewrite Hc. cbn. unfold set_nodes. cbn. by rewrite insert_id. }
  assert (Lh : forall w1, lw_nodes w1 = lw_nodes w -> leave_head w1 p p = Ok w1 /\ unhook w1 p = Ok w1).
  { intros w1 E. destruct (Pn w1 E) as [E1 E2]. unfold leave_head, unhook. rewrite (G _ E). cbn [mbind res_bind dn_next dn_prev].
    rewrite Z.eqb_refl, Hp. cbn [negb]. rewrite E1. cbn [mbind res_bind]. rewrite (G _ E). cbn [mbind res_bind dn_next dn_prev].
    by rewrite Z.eqb_refl, Hp, E2. }
  unfold dlist_remove. rewrite Hp, (G w eq_refl). cbn [mbind res_bind]. rewrite (lget_ok _ _ _ HL). cbn [mbind res_bind].
  assert (Em : exists v, (if dl_marker L =? p then '(w, _) ← dlist_mark_move w l direction; Ok w else Ok w) = Ok (marked w l L v)).
  { destruct (Z.eqb_spec (dl_marker L) p) as [E|]; [|exists (dl_marker L); by rewrite marked_id].
    exists p. unfold dlist_mark_move. rewrite (lget_ok _ _ _ HL). cbn [mbind res_bind]. rewrite E, Hp, (G w eq_refl).
    cbn [mbind res_bind dn_next dn_prev]. rewrite (dr_head _ _ _ _ H). fold p.
    destruct direction; rewrite Hp, (put_marker_ok _ _ _ _ HL); cbn [mbind res_bind]; by rewrite Z.eqb_refl. }
  destruct Em as [v ->]. cbn [mbind res_bind]. rewrite (dr_head _ _ _ _ H). fold p.
  destruct (Lh (marked w l L v) eq_refl) as [-> E2]. cbn [mbind res_bind]. rewrite E2. cbn [mbind res_bind].
  unfold count_down. rewrite (lget_ok _ l (with_marker L v)) by apply lookup_insert_eq. cbn [mbind res_bind].
  erewrite put_count_ok by apply lookup_insert_eq. cbn [mbind res_bind]. unfold free_node. cbn. rewrite Hc.
  rewrite bool_decide_true; [done|]. unfold p. replace (l + HEADNODE - HEADNODE) with l by lia. rewrite lookup_insert_eq. by eexists.
Qed.

(** In a list that lost its elements to removals they remove and free the head node. *)
Lemma dlist_pop_emptied w l L :
  drep w l L [] -> is_dlist (lk (lw_nodes w)) (l + HEADNODE) [] ->
  dlist_pop w l = Fault Out_of_bounds /\ dlist_shift w l = Fault Out_of_bounds.
Proof.
  intros H [_ (Hn & Hp & _)].
  pose proof (lookup_cell _ _ _ _ _ Hn Hp (dr_data _ _ _ _ H)) as Hc.
  unfold dlist_pop, dlist_shift. rewrite (lget_ok _ _ _ (dr_list _ _ _ _ H)). cbn [mbind res_bind].
  rewrite (dr_head _ _ _ _ H), (nget_cell w _ _ _ 0 Hn Hp) by apply H. cbn. by rewrite !(remove_head w l L _ H Hc).
Qed.
End ends.

(** ** Searching *)

Section find.
Context {Env : Type}.
Abbreviation world := (dlworld Env).
Variable comp : Z -> Z -> bool.
Implicit Types (w : world) (L : dlist) (xs a b : list (Z * Z)).

Lemma find_loop_run fuel w l L a b target : drep w l L (a ++ b) -> (length b < fuel)%nat ->
  find_loop fuel comp w (l + HEADNODE) (first_of (l + HEADNODE) b) target
    = Ok (default 0 (snd <$> find (fun x => comp target x.2) b)).
Proof.
  revert fuel a. induction b as [|[p d] b IH]; intros fuel a H Hf; (destruct fuel as [|fuel]; [cbn in Hf; lia|]); cbn [find_loop].
  - change (first_of _ []) with (l + HEADNODE). by rewrite Z.eqb_refl.
  - change (first_of (l + HEADNODE) ((p, d) :: b)) with p. pose proof (drep_notin _ _ _ _ _ _ _ H) as Hp.
    rewrite (proj2 (Z.eqb_neq p _)) by (intros E; apply Hp; rewrite E; left).
    destruct (drep_node _ _ _ _ _ _ _ H) as (n & -> & En & Ed). cbn [mbind res_bind find snd]. rewrite Ed, En.
    destruct (comp target d); [done|]. apply (IH fuel (a ++ [(p, d)])); [by rewrite <- app_assoc|cbn in Hf; lia].
Qed.

(** [dlist_find_custom] returns the data of the first element that matches, or null; in a
    list that never had an element it reads a null pointer. *)
Lemma dlist_find_custom_spec fuel w l L xs target : drep w l L xs -> (length xs < fuel)%nat ->
  dlist_find_custom fuel comp w l target =
    match lw_nodes w !! (l + HEADNODE) with
    | Some h => if dn_next h =? 0 then find_loop fuel comp w (l + HEADNODE) 0 target
                else Ok (default 0 (snd <$> find (fun x => comp target x.2) xs))
    | None => Fault Out_of_bounds
    end.
Proof.
  intros H Hf. unfold dlist_find_custom. rewrite (lget_ok _ _ _ (dr_list _ _ _ _ H)). cbn [mbind res_bind]. rewrite (dr_head _ _ _ _ H).
  destruct (head_node _ _ _ _ H) as (h & Hg & Hh). pose proof Hg as Hn. unfold nget in Hn.
  destruct (lw_nodes w !! (l + HEADNODE)) as [h'|]; [injection Hn as ->|done]. rewrite Hg. cbn [mbind res_bind].
  destruct Hh as [(-> & _ & E & _)|(_ & E & _)]; rewrite E; [by rewrite Z.eqb_refl|].
  pose proof (drep_nonzero _ _ _ _ H). pose proof (first_of_in (l + HEADNODE) xs).
  rewrite (proj2 (Z.eqb_neq _ 0)) by congruence. by apply (find_loop_run fuel w l L []).
Qed.

Lemma dlist_find_custom_new fuel w l L target :
  drep w l L [] -> virgin (lw_nodes w) (l + HEADNODE) -> lw_nodes w !! 0 = None ->
  dlist_find_custom (S fuel) comp w l target = Fault Out_of_bounds.
Proof.
  intros H [V1 V2] H0. unfold dlist_find_custom. rewrite (lget_ok _ _ _ (dr_list _ _ _ _ H)). cbn [mbind res_bind].
  rewrite (dr_head _ _ _ _ H), (nget_cell w _ 0 0 0) by (done || apply H). cbn [mbind res_bind dn_next find_loop].
  rewrite (proj2 (Z.eqb_neq 0 (l + HEADNODE))) by (pose proof (dr_addr _ _ _ _ H); unfold HEADNODE; lia). unfold nget. by rewrite H0.
Qed.
End find.

(** ** Deleting and destroying *)

Section destroy.
Context {Env : Type}.
Abbreviation world := (dlworld Env).
Variable call_del : Z -> world -> Z -> res world.
Implicit Types (w : world) (L : dlist) (xs a b : list (Z * Z)).

(** The delete function [f] can be run on each of [ds] in turn when the rest of the program
    is in the state [e]: it leaves the lists alone, and [del] is what it does to the rest. *)
Fixpoint deletes (f : Z) (del : Env -> Z -> Env) (e : Env) (ds : list Z) : Prop :=
  match ds with
  | [] => True
  | d :: ds =>
      (forall w, lw_env w = e -> call_del f w d = Ok (mk_dlw (lw_nodes w) (lw_lists w) (del e d))) /\ deletes f del (del e d) ds
  end.

Lemma dlist_delete_run w l L a p d b direction del :
  drep w l L (a ++ (p, d) :: b) -> dl_marker L = p -> deletes (dl_del_func L) del (lw_env w) [d] ->
  let m := neighbour direction (l + HEADNODE) a b in
  let L' := mk_dlist m (zlen (a ++ b)) (dl_data_size L) (dl_del_func L) (dl_head L) in
  exists h, let w' := mk_dlw h (<[l := L']> (lw_lists w)) (del (lw_env w) d) in
    dlist_delete call_del w l direction = Ok w' /\ drep w' l L' (a ++ b) /\
    is_dlist (lk h) (l + HEADNODE) (a ++ b).*1 /\ h !! p = None /\
    (forall q, q ∉ l + HEADNODE :: (a ++ (p, d) :: b).*1 -> h !! q = lw_nodes w !! q).
Proof.
  intros H Hm [Hdel _] m L'. destruct (drep_cut w (marked w l L m) l L a p d b H eq_refl) as (h & R & Hd & Hr).
  destruct (cut_node _ _ _ _ _ _ _ _ H Hr) as (_ & Hdt & Hp0 & Sp & _ & Hfree & Hb & Hc).
  exists (delete p h). cbv zeta. split; [|by eapply cut_drep].
  destruct (mark_move_node w l L a p d b direction H Hm) as [r E]. fold m in E.
  assert (Hne : p <> l + HEADNODE) by (pose proof (drep_notin _ _ _ _ _ _ _ H) as Hn; intros E'; apply Hn; rewrite E'; left).
  unfold dlist_delete. rewrite (lget_ok _ _ _ (dr_list _ _ _ _ H)). cbn [mbind res_bind]. rewrite (dr_head _ _ _ _ H), Hm.
  rewrite (proj2 (Z.eqb_neq p (l + HEADNODE))), (proj2 (Z.eqb_neq p 0)) by done. cbn [negb andb]. rewrite E. cbn [mbind res_bind].
  refine (bind_then _ _ _ _ _ R _). destruct (nget_ok (set_nodes (marked w l L m) h) p Sp) as (x & y & d' & Hg & _ & _ & Hd').
  rewrite Hg. cbn [mbind res_bind dn_data]. cbn in Hd'. assert (d' = d) as -> by congruence. rewrite Hdel by done. cbn [mbind res_bind].
  rewrite (drop_run _ l (with_marker L m) (zlen (a ++ b))); [|apply lookup_insert_eq|exact Hc|done|done|apply Hfree].
  cbn. by rewrite insert_insert_eq.
Qed.

(** The marker is at the first element, and every element goes. *)
Lemma destroy_loop_run fuel w l L xs del :
  drep w l L xs -> dl_marker L = first_of (l + HEADNODE) xs -> deletes (dl_del_func L) del (lw_env w) xs.*2 -> (length xs < fuel)%nat ->
  exists w' L', destroy_loop call_del fuel w l = Ok w' /\ drep w' l L' [] /\ lw_lists w' = <[l := L']> (lw_lists w) /\
    lw_env w' = foldl del (lw_env w) xs.*2 /\
    (forall q, q ∈ xs.*1 -> lw_nodes w' !! q = None) /\
    (forall q, q ∉ l + HEADNODE :: xs.*1 -> lw_nodes w' !! q = lw_nodes w !! q).
Proof.
  revert fuel w L. induction xs as [|[p d] xs IH]; intros fuel w L H Hm Hdel Hf; (destruct fuel as [|fuel]; [cbn in Hf; lia|]);
    cbn [destroy_loop]; unfold dlist_mark; rewrite (lget_ok _ _ _ (dr_list _ _ _ _ H)); cbn [mbind res_bind]; rewrite Hm.
  - cbn [first_of]. change (first_of (l + HEADNODE) []) with (l + HEADNODE).
    rewrite (proj2 (Z.eqb_neq (l + HEADNODE) 0)) by (pose proof (dr_addr _ _ _ _ H); unfold HEADNODE; lia). cbn [negb].
    destruct (nget_ok w (l + HEADNODE)) as (x & y & d & Hg & _ & _ & Hd); [eapply dt_is, H|]. rewrite Hg. cbn [mbind res_bind dn_data].
    assert (d = 0) as -> by (pose proof (dr_data _ _ _ _ H); congruence). rewrite Z.eqb_refl.
    exists w, L. split_and!; try done; [rewrite insert_id; [done|apply H]|]. intros q ?%elem_of_nil. done.
  - change (first_of (l + HEADNODE) ((p, d) :: xs)) with p in *.
    pose proof (dr_nodes _ _ _ _ H) as Hall. apply Forall_cons_1 in Hall as [(Hdt & Hd0 & Hp0 & _) _]. cbn in Hdt, Hd0, Hp0.
    rewrite (proj2 (Z.eqb_neq p 0)) by done. cbn [negb]. destruct (nget_ok w p) as (x & y & d' & Hg & _ & _ & Hd'); [by eapply dt_is|].
    rewrite Hg. cbn [mbind res_bind dn_data]. assert (d' = d) as -> by congruence. rewrite (proj2 (Z.eqb_neq d 0)) by done.
    cbn in Hdel. destruct Hdel as [Hdel Hdel'].
    destruct (dlist_delete_run w l L [] p d xs true del H Hm (conj Hdel I)) as (h & R & D & _ & Hp & Hq). rewrite R. cbn [mbind res_bind].
    destruct (IH fuel _ _ D eq_refl Hdel' ltac:(cbn in Hf; lia)) as (w' & L' & R' & D' & E1 & E2 & E3 & E4).
    exists w', L'. split_and!; [exact R'|exact D'|rewrite E1; cbn; by rewrite insert_insert_eq|exact E2| |].
    + intros q [->|Hin]%elem_of_cons; [|by apply E3]. cbn. rewrite E4; [exact Hp|]. apply (drep_notin w l L [] p d xs H).
    + intros q Hin. cbn in Hin. rewrite E4 by set_solver. apply Hq. cbn. set_solver.
Qed.

(** The marker starts at the first element; in an unlinked list it stays at the head. *)
Lemma start_next_run w l L xs : drep w l L xs ->
  exists d, (w1 ← dlist_start w l; dlist_next w1 l) = Ok (marked w l L (first_of (l + HEADNODE) xs), d).
Proof.
  intros H. pose proof (dr_list _ _ _ _ H) as HL. pose proof (dr_head _ _ _ _ H) as Hh.
  assert (E0 : l + HEADNODE <> 0) by (pose proof (dr_addr _ _ _ _ H); unfold HEADNODE; lia).
  unfold dlist_start. rewrite (lget_ok _ _ _ HL). cbn [mbind res_bind]. rewrite (put_marker_ok _ _ _ _ HL), Hh. cbn [mbind res_bind].
  fold (marked w l L (l + HEADNODE)). pose proof (drep_marked w l L xs (l + HEADNODE) H) as H1. unfold dlist_next.
  destruct (dr_ring _ _ _ _ H) as [Hd|[-> [V1 V2]]].
  - destruct (first_of_view (l + HEADNODE) xs) as [k Hk].
    destruct (dlist_boundary _ _ [] xs.*1 [] _ _ _ Hd eq_refl Hk) as (_ & Hn & Hv & _).
    destruct (mark_move_run _ l _ xs true (first_of (l + HEADNODE) xs) H1) as (d & R & _); [done| |exact Hn|intros _; by eapply pv_lk_is|].
    + pose proof (drep_nonzero _ _ _ _ H) as Hz. pose proof (first_of_in (l + HEADNODE) xs). congruence.
    + exists d. rewrite R. by rewrite marked_marked.
  - exists 0. unfold dlist_mark_move. rewrite (lget_ok _ _ _ (dr_list _ _ _ _ H1)). cbn [mbind res_bind with_marker dl_marker].
    rewrite (proj2 (Z.eqb_neq _ _) E0), (nget_cell _ _ 0 0 0) by (done || apply H). done.
Qed.
(** [dlist_destroy] as a whole. *)
Lemma destroy_run fuel w l L xs del :
  drep w l L xs -> deletes (dl_del_func L) del (lw_env w) xs.*2 -> (length xs < fuel)%nat ->
  exists w', dlist_destroy call_del fuel w l = Ok w' /\ lw_lists w' = delete l (lw_lists w) /\
    lw_env w' = foldl del (lw_env w) xs.*2 /\
    (forall q, q ∈ l + HEADNODE :: xs.*1 -> lw_nodes w' !! q = None) /\
    (forall q, q ∉ l + HEADNODE :: xs.*1 -> lw_nodes w' !! q = lw_nodes w !! q).
Proof.
  intros Hr Hdel Hf. destruct (start_next_run w l L xs Hr) as [d0 R0]. pose proof (dr_addr _ _ _ _ Hr) as Ha.
  destruct (destroy_loop_run fuel _ l _ xs del (drep_marked w l L xs (first_of (l + HEADNODE) xs) Hr) eq_refl Hdel Hf)
    as (w1 & L1 & R1 & D1 & E1 & E2 & E3 & E4). cbn in E1, E2, E4. rewrite insert_insert_eq in E1.
  eexists. split; [|split_and!].
  - unfold dlist_destroy. rewrite (proj2 (Z.eqb_neq l 0)) by lia. refine (bind_then _ _ _ _ _ R0 _). rewrite R1. cbn [mbind res_bind].
    unfold free_list. by rewrite (lget_ok _ _ _ (dr_list _ _ _ _ D1)).
  - cbn. by rewrite E1, delete_insert_eq.
  - exact E2.
  - intros q [->|Hq]%elem_of_cons; cbn; [apply lookup_delete_eq|]. destruct (decide (q = l + HEADNODE)) as [->|]; [apply lookup_delete_eq|].
    rewrite lookup_delete_ne by done. by apply E3.
  - intros q Hq. cbn. rewrite lookup_delete_ne by set_solver. by apply E4.
Qed.
End destroy.

(** ** Sorted insertion *)

Section sorted.
Context {Env : Type}.
Abbreviation world := (dlworld Env).
Variable malloc : world -> Z -> Z.
Context `{!MallocFresh malloc}.
Variable sorter : Z -> Z -> bool.
Implicit Types (w : world) (L : dlist) (xs a b : list (Z * Z)).

(** [d] goes between [a] and [b]: before the first element it should precede. *)
Definition place (d : Z) a b : Prop :=
  Forall (fun x => sorter d x.2 = false) a /\ match b with [] => True | y :: _ => sorter d y.2 = true end.

Lemma sorted_loop_run fuel w l L a b d :
  drep w l L (a ++ b) -> dl_marker L = first_of (l + HEADNODE) b -> Forall (fun x => sorter d x.2 = false) a ->
  (length b < fuel)%nat ->
  exists a' b', a ++ b = a' ++ b' /\ place d a' b' /\
    sorted_loop fuel sorter w l d = Ok (marked w l L (first_of (l + HEADNODE) b')).
Proof.
  revert w L a fuel. induction b as [|[p v] b IH]; intros w L a fuel H Hm Ha Hf; (destruct fuel as [|fuel]; [cbn in Hf; lia|]);
    cbn [sorted_loop]; rewrite (lget_ok _ _ _ (dr_list _ _ _ _ H)); cbn [mbind res_bind]; rewrite Hm, (dr_head _ _ _ _ H).
  - change (first_of (l + HEADNODE) []) with (l + HEADNODE) in *. rewrite Z.eqb_refl. exists a, []. split_and!; [done|by split|].
    rewrite <- Hm at 1. rewrite marked_id; [done|apply H].
  - change (first_of (l + HEADNODE) ((p, v) :: b)) with p in *.
    rewrite (proj2 (Z.eqb_neq p (l + HEADNODE))) by (intros E; apply (drep_notin _ _ _ _ _ _ _ H); rewrite E; left).
    destruct (nget_ok w p) as (x & y & v' & Hg & _ & _ & Hv); [eapply drep_allocated; [exact H|rewrite fmap_app; set_solver]|].
    rewrite Hg. cbn [mbind res_bind dn_data]. pose proof (drep_dt _ _ _ _ (p, v) H ltac:(set_solver)) as Hv'. cbn in Hv'.
    assert (v' = v) as -> by congruence. destruct (sorter d v) eqn:Es.
    + exists a, ((p, v) :: b). split_and!; [done|by split|]. change (first_of _ ((p, v) :: b)) with p. rewrite <- Hm, marked_id; [done|apply H].
    + destruct (mark_move_node w l L a p v b true H Hm) as [r R]. unfold dlist_next. rewrite R. cbn [mbind res_bind neighbour].
      pose proof (drep_marked w l L _ (first_of (l + HEADNODE) b) H) as H1.
      destruct (IH _ _ (a ++ [(p, v)]) fuel ltac:(rewrite <- app_assoc; exact H1) eq_refl) as (a' & b' & E & Hp & R').
      * apply Forall_app. split; [done|]. by constructor.
      * cbn in Hf. lia.
      * rewrite <- app_assoc in E. exists a', b'. split_and!; [exact E|exact Hp|]. by rewrite R', marked_marked.
Qed.

Lemma dlist_insert_sorted_run fuel w l L xs d :
  drep w l L xs -> d <> 0 -> is_u64 (zlen xs + 1) -> (forall w n, malloc w n <> 0) -> (length xs < fuel)%nat ->
  exists w' L' a b p, dlist_insert_sorted malloc fuel sorter w l d = Ok (w', d) /\ xs = a ++ b /\ place d a b /\
    drep w' l L' (a ++ (p, d) :: b) /\ added w w' l L L' p xs.
Proof.
  intros H Hd Hu Hm Hf. destruct (start_next_run w l L xs H) as [r R].
  pose proof (drep_marked w l L xs (first_of (l + HEADNODE) xs) H) as H1.
  destruct (sorted_loop_run fuel _ l _ [] xs d H1 eq_refl (Forall_nil_2 _) Hf) as (a & b & E & Hp & R2). cbn in E.
  rewrite marked_marked in R2. pose proof (drep_marked w l L xs (first_of (l + HEADNODE) b) H) as H2. rewrite E in H2, Hu.
  destruct (dlist_insert_run malloc _ l _ a b d false H2) as (h & R3 & D & Hrl); try done.
  - right. cbn. apply first_of_view.
  - apply Hm.
  - eexists _, _, a, b, _. split_and!; [|done|done|exact D|rewrite E; apply (grown_added malloc w l L (with_marker L (first_of (l + HEADNODE) b)) (first_of (l + HEADNODE) b) d _ h); [apply Hm|done|done|exact Hrl]]. unfold dlist_insert_sorted.
    refine (bind_then _ _ _ _ _ R _). rewrite R2. cbn [mbind res_bind]. exact R3.
Qed.

Lemma unshift_sorted_run fuel w l L xs d :
  drep w l L xs -> d <> 0 -> is_u64 (zlen xs + 1) -> (forall w n, malloc w n <> 0) -> (length xs < fuel)%nat ->
  exists w' L' a b p, dlist_unshift_sorted malloc fuel sorter w l d = Ok w' /\ xs = a ++ b /\ place d a b /\
    drep w' l L' (a ++ (p, d) :: b) /\ added w w' l L L' p xs.
Proof.
  intros Hr Hd Hu Hm Hf. unfold dlist_unshift_sorted. rewrite (lget_ok _ _ _ (dr_list _ _ _ _ Hr)). cbn [mbind res_bind].
  rewrite (dr_count _ _ _ _ Hr). destruct (Z.eqb_spec (zlen xs) 0) as [E|E].
  - apply zlen_0 in E as ->. destruct (dlist_unshift_run malloc w l L [] d Hr Hd Hu Hm) as (w' & L' & p & R1 & D & A).
    exists w', L', [], [], p. split_and!; done.
  - destruct (head_node _ _ _ _ Hr) as (h & Hg & _). rewrite (dr_head _ _ _ _ Hr), Hg. cbn [mbind res_bind].
    rewrite (put_marker_ok _ _ _ _ (dr_list _ _ _ _ Hr)). cbn [mbind res_bind]. fold (marked w l L (dn_next h)).
    destruct (dlist_insert_sorted_run fuel _ l _ xs d (drep_marked w l L xs (dn_next h) Hr) Hd Hu Hm Hf)
      as (w' & L' & a & b & p & R1 & E1 & Hp & D & (A1 & A2 & A3 & A4 & A5 & A6)).
    exists w', L', a, b, p. rewrite R1. split_and!; try done. cbn in A1, A2, A3, A4, A5, A6.
    split_and!; try done. by rewrite A2, insert_insert_eq.
Qed.

(** Sortedness as [sorter] means it. *)
Lemma place_sorted (R : Z -> Z -> Prop) d a b :
  (forall x y, sorter x y = true -> R x y) -> (forall x y, sorter x y = false -> R y x) ->
  place d a b -> Sorted R (a ++ b).*2 -> forall p, Sorted R (a ++ (p, d) :: b).*2.
Proof.
  intros Ht Hf [Ha Hb] Hs p. revert Ha Hs. induction a as [|x a IH]; intros Ha Hs; cbn in *.
  - apply Sorted_cons; [done|]. destruct b as [|y b]; constructor. by apply Ht.
  - apply Forall_cons_1 in Ha as [Hx Ha]. apply Sorted_inv in Hs as [Hs Hr]. apply Sorted_cons; [by apply IH|].
    destruct a as [|y a]; cbn in *; constructor; [by apply Hf|]. by apply HdRel_inv in Hr.
Qed.
End sorted.

(** ** Properties *)

(** [dlist_destroy] ends, calls the delete function once on the data of every element,
    from the first to the last, and frees every node and the list; other lists and nodes
    are as before. *)
Theorem dlist_destroy_spec {Env : Type} (call_del : Z -> dlworld Env -> Z -> res (dlworld Env)) (del : Env -> Z -> Env)
    (fuel : nat) (w : dlworld Env) (l : Z) (L : dlist) (xs : list (Z * Z))
    (Hr : drep w l L xs) (Hdel : deletes call_del (dl_del_func L) del (lw_env w) xs.*2) (Hf : (length xs < fuel)%nat) :
  exists w', dlist_destroy call_del fuel w l = Ok w' /\ lw_lists w' = delete l (lw_lists w) /\
    lw_env w' = foldl del (lw_env w) xs.*2 /\
    (forall q, q ∈ l + HEADNODE :: xs.*1 -> lw_nodes w' !! q = None) /\
    (forall q, q ∉ l + HEADNODE :: xs.*1 -> lw_nodes w' !! q = lw_nodes w !! q).
Proof. by eapply destroy_run. Qed.

(** A list is a double-ended queue.  An element pushed at the end is the last one and is
    what the next pop returns, one put at the start is the first one and is what the next
    shift returns; either way the list then has the elements it had. *)
Theorem dlist_ends_spec {Env : Type} (malloc : dlworld Env -> Z -> Z) `{!MallocFresh malloc} (w : dlworld Env) (l : Z)
    (L : dlist) (xs : list (Z * Z)) (d : Z) (Hr : drep w l L xs) (Hd : d <> 0) (Hu : is_u64 (zlen xs + 1))
    (Hm : forall w n, malloc w n <> 0) :
  (exists w1 L1 p w2 L2, dlist_push malloc w l d = Ok w1 /\ drep w1 l L1 (xs ++ [(p, d)]) /\
     dlist_pop w1 l = Ok (w2, d) /\ drep w2 l L2 xs) /\
  (exists w1 L1 p w2 L2, dlist_unshift malloc w l d = Ok w1 /\ drep w1 l L1 ((p, d) :: xs) /\
     dlist_shift w1 l = Ok (w2, d) /\ drep w2 l L2 xs).
Proof.
  split.
  - destruct (dlist_push_run malloc w l L xs d Hr Hd Hu Hm) as (w1 & L1 & p & R1 & D1 & _).
    destruct (dlist_pop_run w1 l L1 xs p d D1) as (w2 & L2 & R2 & D2 & _). exists w1, L1, p, w2, L2. by split_and!.
  - destruct (dlist_unshift_run malloc w l L xs d Hr Hd Hu Hm) as (w1 & L1 & p & R1 & D1 & _).
    destruct (dlist_shift_run w1 l L1 xs p d D1) as (w2 & L2 & R2 & D2 & _). exists w1, L1, p, w2, L2. by split_and!.
Qed.

(** [dlist_unshift_sorted] ends and puts the element before the first one it should
    precede, after all others; so a list that was sorted in the order of [sorter] stays
    sorted. *)
Theorem dlist_unshift_sorted_spec {Env : Type} (malloc : dlworld Env -> Z -> Z) `{!MallocFresh malloc}
    (sorter : Z -> Z -> bool) (fuel : nat) (w : dlworld Env) (l : Z) (L : dlist) (xs : list (Z * Z)) (d : Z)
    (R : Z -> Z -> Prop) (Ht : forall x y, sorter x y = true -> R x y) (Hn : forall x y, sorter x y = false -> R y x)
    (Hr : drep w l L xs) (Hd : d <> 0) (Hu : is_u64 (zlen xs + 1)) (Hm : forall w n, malloc w n <> 0)
    (Hf : (length xs < fuel)%nat) (Hs : Sorted R xs.*2) :
  exists w' L' a b p, dlist_unshift_sorted malloc fuel sorter w l d = Ok w' /\ xs = a ++ b /\
    drep w' l L' (a ++ (p, d) :: b) /\ place sorter d a b /\ Sorted R (a ++ (p, d) :: b).*2.
Proof.
  destruct (unshift_sorted_run malloc sorter fuel w l L xs d Hr Hd Hu Hm Hf) as (w' & L' & a & b & p & R1 & -> & Hp & D & _).
  exists w', L', a, b, p. split_and!; try done. by eapply place_sorted.
Qed.

(** ** Demonstration *)

(** An allocator: addresses above everything allocated. *)
Definition top {A} (m : gmap Z A) : Z := foldr Z.max 0 (map_to_list m).*1.

Lemma top_ge {A} (m : gmap Z A) k v : m !! k = Some v -> k <= top m.
Proof.
  intros H%elem_of_map_to_list. unfold top. revert H. generalize (map_to_list m). intros ks.
  induction ks as [|[k' v'] ks IH]; [by intros ?%elem_of_nil|]. cbn. intros [[= -> ->]|Hin]%elem_of_cons; [lia|]. specialize (IH Hin). lia.
Qed.
Lemma top_none {A} (m : gmap Z A) k : top m < k -> m !! k = None.
Proof. intros H. destruct (m !! k) eqn:E; [|done]. apply top_ge in E. lia. Qed.

Definition demo_malloc (w : dlworld (list Z)) (n : Z) : Z := 100 + Z.max (top (lw_nodes w)) (top (lw_lists w)).

Lemma top_nonneg {A} (m : gmap Z A) : 0 <= top m.
Proof. unfold top. induction (map_to_list m).*1; cbn; lia. Qed.

#[global] Instance demo_malloc_fresh : MallocFresh demo_malloc.
Proof.
  split. intros w n _. unfold demo_malloc. pose proof (top_nonneg (lw_nodes w)).
  split_and!; [lia|apply top_none; unfold HEADNODE; lia..].
Qed.

Lemma demo_malloc_nonzero w n : demo_malloc w n <> 0.
Proof. unfold demo_malloc. pose proof (top_nonneg (lw_nodes w)). lia. Qed.

(** A list with three elements; deleting one notes its data. *)
Definition demo_list : dlist := mk_dlist 0 3 8 7 132.
Definition demo_dlw : dlworld (list Z) :=
  mk_dlw {[ 132 := mk_node 3000 1000 0; 1000 := mk_node 132 2000 25; 2000 := mk_node 1000 3000 11; 3000 := mk_node 2000 132 21 ]}
    {[ 100 := demo_list ]} [].
Definition demo_xs : list (Z * Z) := [(1000, 25); (2000, 11); (3000, 21)].
Definition demo_note (e : list Z) (d : Z) : list Z := d :: e.
Definition demo_del (f : Z) (w : dlworld (list Z)) (d : Z) : res (dlworld (list Z)) :=
  Ok (mk_dlw (lw_nodes w) (lw_lists w) (demo_note (lw_env w) d)).

Lemma demo_drep : drep demo_dlw 100 demo_list demo_xs.
Proof.
  split; try done.
  - repeat constructor; done.
  - left. split; [|cbn; repeat split]. apply (bool_decide_unpack (NoDup [132; 1000; 2000; 3000])). vm_compute. exact I.
Qed.

Lemma dlist_destroy_spec_witness :
  exists w', dlist_destroy demo_del 4 demo_dlw 100 = Ok w' /\ lw_env w' = [21; 11; 25] /\ lw_lists w' = ∅.
Proof.
  destruct (dlist_destroy_spec demo_del demo_note 4 demo_dlw 100 demo_list demo_xs demo_drep
    ltac:(do 3 (split; [by intros w <-|]); exact I) ltac:(cbn; lia))
    as (w' & R & E1 & E2 & _).
  exists w'. split; [exact R|]. split; [exact E2|]. rewrite E1. apply (delete_singleton_eq 100 demo_list).
Defined.

Lemma dlist_ends_spec_witness :
  exists w1 L1 p, dlist_push demo_malloc demo_dlw 100 40 = Ok w1 /\ drep w1 100 L1 (demo_xs ++ [(p, 40)]).
Proof.
  destruct (dlist_ends_spec demo_malloc demo_dlw 100 demo_list demo_xs 40 demo_drep) as [(w1 & L1 & p & w2 & L2 & R & D & _) _].
  - discriminate.
  - split; vm_compute; [discriminate|reflexivity].
  - apply demo_malloc_nonzero.
  - exists w1, L1, p. split; [exact R|exact D].
Defined.

(** One element, and a smaller one inserted by tens. *)
Definition demo_before (x y : Z) : bool := x / 10 <? y / 10.
Definition demo_one : dlworld (list Z) :=
  mk_dlw {[ 132 := mk_node 1000 1000 0; 1000 := mk_node 132 132 25 ]} {[ 100 := mk_dlist 0 1 8 7 132 ]} [].

Lemma dlist_unshift_sorted_spec_witness :
  exists w' L' a b p, dlist_unshift_sorted demo_malloc 2 demo_before demo_one 100 11 = Ok w' /\
    [(1000, 25)] = a ++ b /\ drep w' 100 L' (a ++ (p, 11) :: b) /\ Sorted (fun x y => x / 10 <= y / 10) (a ++ (p, 11) :: b).*2.
Proof.
  destruct (dlist_unshift_sorted_spec demo_malloc demo_before 2 demo_one 100 (mk_dlist 0 1 8 7 132) [(1000, 25)] 11
    (fun x y => x / 10 <= y / 10)) as (w' & L' & a & b & p & R & E & D & _ & S).
  - intros x y H%Z.ltb_lt. lia.
  - intros x y H%Z.ltb_ge. lia.
  - split; try done; [repeat constructor; done|]. left. split; [|cbn; repeat split].
    apply (bool_decide_unpack (NoDup [132; 1000])). vm_compute. exact I.
  - discriminate.
  - split; vm_compute; [discriminate|reflexivity].
  - apply demo_malloc_nonzero.
  - cbn. lia.
  - repeat constructor.
  - exists w', L', a, b, p. split; [exact R|]. split; [exact E|]. split; [exact D|exact S].
Defined.
