(* ===== verification/DlistPair.v ===== *)
(** * Moving nodes between two lists

    [dlist_move] as the merge sort uses it: the node goes to the end of the second list,
    and both lists keep the sequences they stand for. *)

From S2P Require Import Prelude.
From S2P Require Import MetalList.
From S2P Require Import Dlist.
From S2P Require Import DlistRep.
From S2P Require Import DlistSpec.

Section pair.
Context {Env : Type}.
Abbreviation world := (dlworld Env).
Implicit Types (w : world) (S T L : dlist) (h : gmap Z dl_node) (xs ds a b : list (Z * Z)).

(** Two lists between which nodes are moved, of one kind and with no node in common; the
    nodes go to the end of the second one.  The rest of the memory is that of [w0]. *)
Record pair_of (w0 w : world) (s t : Z) (size del : Z) xs ds : Prop := {
  po_src : exists S, drep w s S xs /\ dl_data_size S = size /\ dl_del_func S = del;
  po_dst : exists T, drep w t T ds /\ dl_data_size T = size /\ dl_del_func T = del /\
    (ds <> [] -> dl_marker T = last_of (t + HEADNODE) ds);
  po_ne : s <> t;
  po_apart : forall q, q ∈ s + HEADNODE :: xs.*1 -> q ∈ t + HEADNODE :: ds.*1 -> False;
  po_src_nil : xs = [] -> virgin (lw_nodes w) (s + HEADNODE);
  po_dst_nil : ds = [] -> virgin (lw_nodes w) (t + HEADNODE);
  po_bound : is_u64 (zlen xs + zlen ds);
  po_nodes : relinked (lw_nodes w0) (lw_nodes w) (s + HEADNODE :: t + HEADNODE :: (xs ++ ds).*1);
  po_lists : forall l, l <> s -> l <> t -> lw_lists w !! l = lw_lists w0 !! l;
  po_env : lw_env w = lw_env w0
}.

(** The first half of a move leaves the second list as it is. *)
Lemma pair_out w s t S T a p d b ds :
  drep w s S (a ++ (p, d) :: b) -> drep w t T ds -> s <> t ->
  (forall q, q ∈ s + HEADNODE :: (a ++ (p, d) :: b).*1 -> q ∈ t + HEADNODE :: ds.*1 -> False) ->
  (ds = [] -> virgin (lw_nodes w) (t + HEADNODE)) -> (ds <> [] -> dl_marker T = last_of (t + HEADNODE) ds) ->
  exists h m, let S1 := mk_dlist m (zlen (a ++ b)) (dl_data_size S) (dl_del_func S) (dl_head S) in
    let w1 := shrunk w s S m (zlen (a ++ b)) h in
    move_out w s p true = Ok w1 /\ drep w1 s S1 (a ++ b) /\ (a ++ b = [] -> virgin h (s + HEADNODE)) /\
    drep w1 t T (ds ++ []) /\ at_marker true w1 t T ds [] /\ node_ok h (lw_lists w1) (p, d) /\
    (p ∉ t + HEADNODE :: (ds ++ []).*1) /\ relinked (lw_nodes w) h (p :: s + HEADNODE :: (a ++ b).*1).
Proof.
  intros HS HT Hne Hap Hdn HT3. destruct (move_out_run w s S a p d b true HS) as (h & R1 & D1 & V1 & L1).
  exists h. eexists. cbv zeta. set (w1 := shrunk w s S _ _ h) in R1, D1 |- *.
  assert (Hpin : (p, d) ∈ a ++ (p, d) :: b) by set_solver.
  assert (Hall : Forall (node_ok (lw_nodes w) (lw_lists w)) (a ++ (p, d) :: b)) by apply HS.
  rewrite fmap_app in Hap. cbn in Hap. rewrite list.Forall_forall in Hall.
  destruct (Hall _ Hpin) as (P1 & P2 & P3 & P4). cbn in P1, P2, P3, P4.
  assert (Out : forall q, q ∈ t + HEADNODE :: ds.*1 -> h !! q = lw_nodes w !! q).
  { intros q Hq. apply L1. intros Hin. apply (Hap q); [|done]. rewrite fmap_app in Hin. set_solver. }
  rewrite app_nil_r. split_and!; [exact R1|exact D1|exact V1| | | | |exact L1].
  - apply (drep_frame w _ t T T ds HT); try done; [unfold w1; cbn; by rewrite lookup_insert_ne, (dr_list _ _ _ _ HT)|].
    intros x Hx. eapply insert_None; [apply HS|done].
  - destruct ds as [|x ds]; [left|right].
    + unfold virgin, nx, pv, lk, w1. cbn. rewrite !lookup_fmap, Out by left. specialize (Hdn eq_refl).
      unfold virgin, nx, pv, lk in Hdn. by rewrite !lookup_fmap in Hdn.
    + destruct (last_of_view (t + HEADNODE) (x :: ds)) as [k Hk]. exists k. by rewrite HT3.
  - split_and!; cbn; try done; [by rewrite (proj1 L1)|]. eapply insert_None; [apply HS|done].
  - intros Hin. apply (Hap p); [set_solver|done].
Qed.

Lemma pair_move w0 w s t size del a p d b ds :
  pair_of w0 w s t size del (a ++ (p, d) :: b) ds ->
  exists w', dlist_move w s t p true = Ok w' /\ pair_of w0 w' s t size del (a ++ b) (ds ++ [(p, d)]).
Proof.
  intros [(S & HS & HS1 & HS2) (T & HT & HT1 & HT2 & HT3) Hne Hap Hsn Hdn Hb Hn Hls He].
  destruct (pair_out w s t S T a p d b ds) as (h1 & m & R1 & D1 & V1 & D2 & M2 & N2 & F2 & L1); try done.
  set (w1 := shrunk w s S m _ h1) in *. pose proof (drep_notin _ _ _ _ _ _ _ HS) as Hp.
  assert (Hu : is_u64 (zlen (ds ++ []) + 1)).
  { rewrite zlen_app, zlen_cons in Hb. rewrite app_nil_r. unfold is_u64 in *. pose proof (zlen_nonneg a).
    pose proof (zlen_nonneg b). pose proof (zlen_nonneg ds). lia. }
  destruct (dlist_insert_dlnode_run w1 t T ds [] p d true D2 M2 N2 F2 Hu) as (h2 & R2 & D3 & L2).
  rewrite app_nil_r in *. rewrite fmap_app in Hap. cbn in Hap.
  assert (Keep : forall q, q ∈ s + HEADNODE :: (a ++ b).*1 -> h2 !! q = h1 !! q).
  { intros q Hq. apply L2. intros [->|Hin]%elem_of_cons; [done|]. apply (Hap q); [|done]. rewrite fmap_app in Hq. set_solver. }
  exists (grown w1 t T p (zlen ds + 1) h2). split.
  { unfold dlist_move. destruct N2 as (_ & _ & Hp0 & _). rewrite (proj2 (Z.eqb_neq p 0)) by done.
    rewrite (lget_ok _ _ _ (dr_list _ _ _ _ HS)). cbn [mbind res_bind]. rewrite (dr_head _ _ _ _ HS).
    rewrite (proj2 (Z.eqb_neq p (s + HEADNODE))) by set_solver. rewrite R1. cbn [mbind res_bind]. by rewrite R2. }
  split; cbn [grown lw_nodes lw_lists lw_env]; try done.
  - exists (mk_dlist m (zlen (a ++ b)) (dl_data_size S) (dl_del_func S) (dl_head S)). split; [|done].
    apply (drep_frame w1 _ s _ _ _ D1); try done; cbn.
    + rewrite lookup_insert_ne by done. unfold w1. cbn. apply lookup_insert_eq.
    + intros x Hx. eapply insert_None; [apply D2|done].
  - eexists. split_and!; [exact D3|done|done|]. intros _. by rewrite last_of_snoc.
  - intros q. rewrite !fmap_app. intros H1 H2. apply (Hap q); [set_solver|]. cbn in H2. rewrite fmap_app in Hp. set_solver.
  - intros E. specialize (V1 E). unfold virgin, nx, pv, lk in *. rewrite !lookup_fmap in *. by rewrite Keep by left.
  - intros E%app_nil. by destruct E.
  - rewrite !zlen_app, zlen_cons in Hb. rewrite !zlen_app. change (zlen [(p, d)]) with 1. unfold is_u64 in *. lia.
  - eapply relinked_sub; [eapply relinked_trans; [exact Hn|]; eapply relinked_trans; [exact L1|exact L2]|].
    intros q. rewrite !fmap_app. cbn. set_solver.
  - intros l H1 H2. unfold w1. cbn. rewrite !lookup_insert_ne by done. by apply Hls.
Qed.
End pair.
