(* ===== verification/DlistSort.v ===== *)
(** * Merge sort of doubly linked lists

    [dlist_sort_custom] moves the nodes between the list and a temporary one, pass by
    pass, with runs twice as long each time.  A pass on lists is compared with [run_pass];
    the theorem is that the list ends sorted, with the nodes it had, elements that compare
    equal in their old order, and that nothing of the temporary list is left. *)

From stdpp Require Import sorting.
From S2P Require Import Prelude.
From S2P Require Import MetalList.
From S2P Require Import Dlist.
From S2P Require Import DlistRep.
From S2P Require Import DlistSpec.
From S2P Require Import DlistProps.
From S2P Require Import DlistPair.
From S2P Require Import MergePass.

(** ** The loops of a merge *)

Section merge.
Context {Env : Type}.
Abbreviation world := (dlworld Env).
Variable compare : Z -> Z -> Z.
Variables (w0 : world) (s t size del : Z).
Abbreviation pair := (fun w => pair_of w0 w s t size del).
Implicit Types (w : world) (xs ds a b : list (Z * Z)).

(** [x] may go before [y]. *)
Definition before (x y : Z * Z) : Prop := compare x.2 y.2 <= 0.
#[global] Instance before_dec x y : Decision (before x y).
Proof. unfold before. apply _. Defined.

Abbreviation hd xs := (first_of (s + HEADNODE) xs).

Lemma hd_app_cons x b c : hd ((x :: b) ++ c) = x.1.
Proof. done. Qed.

Lemma pair_node w a x b ds : pair w (a ++ x :: b) ds ->
  exists n, nget w x.1 = Ok n /\ dn_next n = hd b /\ dn_data n = x.2.
Proof.
  intros [(S & HS & _) _ _ _ _ _ _ _ _ _]. destruct x as [p d]. by eapply drep_node.
Qed.

Lemma move_head_run w a x b ds : pair w (a ++ x :: b) ds ->
  exists w', move_head w s t x.1 = Ok (w', hd b) /\ pair w' (a ++ b) (ds ++ [x]).
Proof.
  intros H. destruct (pair_node _ _ _ _ _ H) as (n & Hn & Hx & _). destruct x as [p d].
  destruct (pair_move _ _ _ _ _ _ _ _ _ _ _ H) as (w' & R & H'). exists w'. split; [|done].
  unfold move_head. cbn [fst] in *. rewrite Hn. cbn [mbind res_bind]. rewrite R. cbn. by rewrite Hx.
Qed.

Lemma pair_head w xs ds : pair w xs ds -> exists S, lget w s = Ok S /\ dl_head S = s + HEADNODE /\ dl_count S = zlen xs.
Proof.
  intros [(S & HS & _) _ _ _ _ _ _ _ _ _]. exists S.
  split_and!; [apply (lget_ok _ _ _ (dr_list _ _ _ _ HS))|apply HS|apply HS].
Qed.

(** A node is not the head. *)
Lemma pair_ne w a x b ds : pair w (a ++ x :: b) ds -> (x.1 =? s + HEADNODE) = false.
Proof.
  intros [(S & HS & _) _ _ _ _ _ _ _ _ _]. apply Z.eqb_neq. destruct (drep_ring _ _ _ _ HS ltac:(by destruct a)) as [Hnd _].
  apply NoDup_cons_1_1 in Hnd. intros E. apply Hnd. rewrite <- E, fmap_app. cbn. set_solver.
Qed.

Lemma rest1_run fuel w a b ds :
  (length a < fuel)%nat -> is_u32 (zlen a) -> pair w (a ++ b) ds ->
  exists w', rest1_loop fuel w s t (hd (a ++ b)) (zlen a) = Ok (w', hd b) /\ pair w' b (ds ++ a).
Proof.
  revert fuel w ds. induction a as [|x a IH]; intros fuel w ds Hf Hu H; (destruct fuel as [|fuel]; [cbn in Hf; lia|]); cbn [rest1_loop].
  - exists w. rewrite app_nil_r. done.
  - pose proof (zlen_nonneg a). rewrite zlen_cons in *. rewrite (proj2 (Z.ltb_lt 0 _)) by lia.
    destruct (move_head_run w [] x (a ++ b) ds H) as (w1 & R & H1). rewrite hd_app_cons, R. cbn [mbind res_bind].
    replace (1 + zlen a - 1) with (zlen a) by lia. rewrite u32_id by (unfold is_u32 in *; lia).
    destruct (IH fuel w1 (ds ++ [x])) as (w' & R' & H'); [cbn in Hf; lia|unfold is_u32 in *; lia|done|].
    exists w'. split; [exact R'|]. by rewrite <- app_assoc in H'.
Qed.

(** [c] elements at most remain of the second run, [a]; [b] comes after it. *)
Definition run_left (c : Z) a b : Prop := c = zlen a \/ b = [] /\ zlen a <= c.

Lemma rest2_run fuel w a b ds c :
  (length a + 1 < fuel)%nat -> is_u32 c -> run_left c a b -> pair w (a ++ b) ds ->
  exists w', rest2_loop fuel w s t (hd (a ++ b)) c = Ok (w', hd b) /\ pair w' b (ds ++ a).
Proof.
  revert fuel w ds c. induction a as [|x a IH]; intros fuel w ds c Hf Hu Hc H;
    (destruct fuel as [|fuel]; [cbn in Hf; lia|]); cbn [rest2_loop].
  - exists w. rewrite app_nil_r. split; [|done]. cbn [app]. destruct Hc as [->|[-> Hc]]; [done|].
    destruct (Z.ltb_spec 0 c); [|done]. destruct (pair_head _ _ _ H) as (S & -> & E & _). cbn [mbind res_bind]. rewrite E, Z.eqb_refl.
    destruct fuel; [cbn in Hf; lia|done].
  - pose proof (zlen_nonneg a). unfold run_left in Hc. rewrite zlen_cons in Hc.
    rewrite (proj2 (Z.ltb_lt 0 _)) by (destruct Hc as [->|[_ ?]]; lia).
    destruct (move_head_run w [] x (a ++ b) ds H) as (w1 & R & H1). destruct (pair_head _ _ _ H) as (S & -> & E & _).
    cbn [mbind res_bind]. rewrite E, hd_app_cons, (pair_ne w [] x (a ++ b) ds H), R. cbn [mbind res_bind]. rewrite u32_id by (unfold is_u32 in *; destruct Hc as [->|[_ ?]]; lia).
    destruct (IH fuel w1 (ds ++ [x]) (c - 1)) as (w' & R' & H'); [cbn in Hf; lia|unfold is_u32 in *; destruct Hc as [->|[_ ?]]; lia| |done|].
    { destruct Hc as [->|[-> ?]]; [left; lia|right; split; [done|lia]]. }
    exists w'. split; [exact R'|]. by rewrite <- app_assoc in H'.
Qed.

(** The rounds of a merge of two runs. *)
Definition merge_rounds (n : Z) a b : Prop :=
  match a, b with
  | [], [] => n = 0
  | _ :: _, _ :: _ => 2 <= n <= zlen a + zlen b
  | _, _ => n = 1
  end.

(** Where the second run is after its first element went. *)
Lemma run_left_tail c x a b : run_left c (x :: a) b -> is_u32 c ->
  0 < c /\ u32 (c - 1) = c - 1 /\ is_u32 (c - 1) /\ run_left (c - 1) a b.
Proof.
  unfold run_left, is_u32. rewrite zlen_cons. pose proof (zlen_nonneg a). intros Hc Hu.
  assert (0 < c) by (destruct Hc as [->|[_ ?]]; lia). split_and!; try lia; [apply u32_id; unfold is_u32; lia|].
  destruct Hc as [->|[-> ?]]; [left|right; split; [done|]]; lia.
Qed.

(** The count of the second run after its first element went; it is 0 at the end of the
    list. *)
Lemma next_count w a x b tl ds c :
  run_left c (x :: b) tl -> is_u32 c -> pair w (a ++ b ++ tl) ds ->
  let c' := if hd (b ++ tl) =? s + HEADNODE then 0 else u32 (c - 1) in
  is_u32 c' /\ run_left c' b tl /\ (b = [] -> c' = 0).
Proof.
  intros Hc Hu H. destruct (run_left_tail _ _ _ _ Hc Hu) as (Hpos & -> & Hu' & Hr). destruct b as [|y b].
  - destruct tl as [|y tl]; cbn zeta; cbn [app].
    + change (hd []) with (s + HEADNODE). rewrite Z.eqb_refl. split_and!; [unfold is_u32; lia|by left|done].
    + change (hd (y :: tl)) with y.1. rewrite (pair_ne w a y tl ds H). split_and!; [done..|].
      intros _. by destruct Hr as [->|[? _]].
  - cbn zeta. rewrite hd_app_cons, (pair_ne w a y (b ++ tl) ds H). by split_and!.
Qed.

Lemma merge_run fuel w a b tl ds c mc h1 h2 :
  (length a + length b + 2 < fuel)%nat -> is_u32 c -> run_left c b tl -> (b = [] -> c = 0) ->
  (a <> [] -> h1 = hd (a ++ b ++ tl)) -> (b <> [] -> h2 = hd (b ++ tl)) ->
  0 <= mc -> mc + zlen a + zlen b < 4294967296 -> pair w (a ++ b ++ tl) ds ->
  exists w' n, merge_loop compare fuel w s t h1 h2 (zlen a) c mc = Ok (w', mc + n) /\
    pair w' tl (ds ++ list_merge before a b) /\ merge_rounds n a b.
Proof.
  revert w a b ds c mc h1 h2. induction fuel as [|fuel IH]; intros w a b ds c mc h1 h2 Hf Hu Hc Hb0 Hh1 Hh2 Hmc Hsum H; [lia|].
  pose proof (zlen_nonneg a) as Za. pose proof (zlen_nonneg b) as Zb. cbn [merge_loop].
  destruct a as [|x1 a], b as [|x2 b]; rewrite ?zlen_cons in *; try pose proof (zlen_nonneg a) as Ya; try pose proof (zlen_nonneg b) as Yb.
  - rewrite (Hb0 eq_refl). exists w, 0. rewrite app_nil_r, Z.add_0_r. done.
  - destruct (run_left_tail _ _ _ _ Hc Hu) as (Hpos & _). rewrite (proj2 (Z.ltb_lt 0 c)) by done. cbn [orb andb].
    rewrite (Hh2 ltac:(done)). change (zlen []) with 0. rewrite Z.ltb_irrefl. cbn [orb andb].
    destruct (rest2_run (S fuel) w (x2 :: b) tl ds c) as (w1 & R & H1); [cbn in *; lia|done..|].
    rewrite R. cbn [mbind res_bind]. rewrite u32_id by (unfold is_u32; lia).
    exists w1, 1. destruct fuel; [lia|]. by rewrite list_merge_nil_l.
  - rewrite (Hb0 eq_refl), (Hh1 ltac:(done)). cbn [app] in H. rewrite (proj2 (Z.ltb_lt 0 (1 + zlen _))) by lia.
    cbn [orb andb]. rewrite Z.ltb_irrefl. cbn [andb].
    destruct (rest1_run (S fuel) w (x1 :: a) tl ds) as (w1 & R & H1); [cbn in *; lia|rewrite zlen_cons; unfold is_u32; lia|done|].
    rewrite zlen_cons in R. cbn [app] in R |- *. rewrite R. cbn [mbind res_bind]. rewrite u32_id by (unfold is_u32; lia).
    exists w1, 1. destruct fuel; [lia|]. by rewrite list_merge_nil_r.
  - destruct (run_left_tail _ _ _ _ Hc Hu) as (Hpos & _). rewrite (proj2 (Z.ltb_lt 0 (1 + zlen a))), (proj2 (Z.ltb_lt 0 c)) by lia. cbn [orb andb].
    rewrite (u32_id (mc + 1)) by (unfold is_u32; lia). rewrite (Hh1 ltac:(done)), (Hh2 ltac:(done)), !hd_app_cons.
    destruct (pair_node w [] x1 (a ++ (x2 :: b) ++ tl) ds H) as (n1 & -> & _ & E1).
    destruct (pair_node w (x1 :: a) x2 (b ++ tl) ds H) as (n2 & -> & _ & E2). cbn [mbind res_bind].
    rewrite E1, E2, list_merge_cons. unfold before at 1. destruct (Z.ltb_spec 0 (compare x1.2 x2.2)) as [Hlt|Hle], (decide (compare x1.2 x2.2 <= 0)) as [Hd|Hd]; try lia.
    + destruct (move_head_run w (x1 :: a) x2 (b ++ tl) ds H) as (w1 & -> & H1). cbn [mbind res_bind].
      destruct (pair_head _ _ _ H1) as (S & -> & ES & _). cbn [mbind res_bind]. rewrite ES.
      destruct (next_count w1 (x1 :: a) x2 b tl _ c Hc Hu H1) as (C1 & C2 & C3).
      destruct (IH w1 (x1 :: a) b (ds ++ [x2]) _ (mc + 1) x1.1 (hd (b ++ tl)) ltac:(cbn in *; lia) C1 C2 C3) as (w' & n & R & H' & Hn);
        rewrite ?zlen_cons in *; try done; [lia..|]. exists w', (n + 1). rewrite R. split_and!; [do 2 f_equal; lia|by rewrite <- app_assoc in H'|].
      unfold merge_rounds in *. rewrite !zlen_cons in *. destruct b; [cbn|rewrite zlen_cons in *]; lia.
    + destruct (move_head_run w [] x1 (a ++ (x2 :: b) ++ tl) ds H) as (w1 & -> & H1). cbn [mbind res_bind].
      replace (1 + zlen a - 1) with (zlen a) by lia. rewrite u32_id by (unfold is_u32; lia).
      destruct (IH w1 a (x2 :: b) (ds ++ [x1]) c (mc + 1) (hd (a ++ (x2 :: b) ++ tl)) x2.1 ltac:(cbn in *; lia) Hu Hc ltac:(done))
        as (w' & n & R & H' & Hn); rewrite ?zlen_cons in *; try done; [lia..|].
      exists w', (n + 1). rewrite R. split_and!; [do 2 f_equal; lia|by rewrite <- app_assoc in H'|].
      unfold merge_rounds in *. rewrite !zlen_cons in *. destruct a; [cbn|rewrite zlen_cons in *]; lia.
Qed.

(** ** A pass *)

Lemma split_run fuel w pre xs ds k c :
  (length xs < fuel)%nat -> 0 <= c <= k -> is_u32 k -> pair w (pre ++ xs) ds ->
  split_loop fuel w (s + HEADNODE) k (hd xs) c =
    Ok (hd (drop (Z.to_nat (k - c)) xs), c + zlen (take (Z.to_nat (k - c)) xs)).
Proof.
  revert pre xs c. induction fuel as [|fuel IH]; intros pre xs c Hf Hc Hk H; [lia|]. cbn [split_loop].
  destruct (Z.ltb_spec c k) as [Hlt|].
  - destruct xs as [|x xs]; cbn [andb].
    + change (hd []) with (s + HEADNODE). rewrite Z.eqb_refl. cbn [negb]. rewrite drop_nil, take_nil. cbn. by rewrite Z.add_0_r.
    + change (hd (x :: xs)) with x.1. rewrite (pair_ne _ _ _ _ _ H). cbn [negb].
      destruct (pair_node _ _ _ _ _ H) as (n & -> & Hn & _). cbn [mbind res_bind]. rewrite Hn.
      rewrite u32_id by (unfold is_u32 in *; lia). rewrite (IH (pre ++ [x]) xs (c + 1)); [|cbn in Hf; lia|lia|done|by rewrite <- app_assoc].
      replace (Z.to_nat (k - c)) with (S (Z.to_nat (k - (c + 1)))) by lia. cbn [drop take]. rewrite zlen_cons. do 2 f_equal. lia.
  - cbn [andb]. replace (Z.to_nat (k - c)) with 0%nat by lia. rewrite drop_0, take_0. cbn. by rewrite Z.add_0_r.
Qed.

(** The rounds of a pass tell whether there was more than one run. *)
Definition pass_rounds (n k : Z) xs : Prop :=
  0 <= n <= zlen xs /\ (xs <> [] -> zlen xs <= k -> n = 1) /\ (k < zlen xs -> 2 <= n).

(** One round of a pass. *)
Lemma round_run fuel w xs ds k mc :
  (length xs + 2 < fuel)%nat -> 1 <= k -> is_u32 k -> 0 <= mc -> mc + zlen xs < 4294967296 -> xs <> [] -> pair w xs ds ->
  let a := take (Z.to_nat k) xs in let b := take (Z.to_nat k) (drop (Z.to_nat k) xs) in
  exists w' n,
    ('(l2head, l1count) ← split_loop fuel w (s + HEADNODE) k (hd xs) 0;
     let l2count := if l2head =? s + HEADNODE then 0 else k in
     merge_loop compare fuel w s t (hd xs) l2head l1count l2count mc) = Ok (w', mc + n) /\
    pair w' (drop (Z.to_nat k) (drop (Z.to_nat k) xs)) (ds ++ list_merge before a b) /\
    merge_rounds n a b.
Proof.
  intros Hf Hk Hu Hmc Hsum Hne H a b. set (tl := drop (Z.to_nat k) (drop (Z.to_nat k) xs)).
  assert (E : xs = a ++ b ++ tl) by (unfold a, b, tl; by rewrite !take_drop).
  assert (Ed : drop (Z.to_nat k) xs = b ++ tl) by (unfold b, tl; by rewrite take_drop).
  rewrite (split_run fuel w [] xs ds k 0) by (done || lia). cbn [mbind res_bind]. rewrite Z.sub_0_r, Z.add_0_l, Ed.
  fold a. assert (Hlen : length xs = (length a + (length b + length tl))%nat) by (rewrite E at 1; by rewrite !length_app).
  assert (Hrl : is_u32 (if hd (b ++ tl) =? s + HEADNODE then 0 else k) /\
    run_left (if hd (b ++ tl) =? s + HEADNODE then 0 else k) b tl /\
    (b = [] -> (if hd (b ++ tl) =? s + HEADNODE then 0 else k) = 0)).
  { destruct (b ++ tl) as [|y r] eqn:Eb.
    - apply app_nil in Eb as [-> ->]. change (hd []) with (s + HEADNODE). rewrite Z.eqb_refl.
      split_and!; [unfold is_u32; lia|by left|done].
    - change (hd (y :: r)) with y.1. assert (Hp : pair w (a ++ y :: r) ds) by (rewrite <- E; exact H).
      rewrite (pair_ne _ _ _ _ _ Hp). split_and!; [done| |].
      + unfold run_left, b, tl, zlen. rewrite Ed. destruct (decide (length (y :: r) <= Z.to_nat k)%nat) as [Hc|Hc].
        * right. rewrite drop_ge, take_ge by done. split; [done|lia].
        * left. rewrite length_take. lia.
      + unfold b. rewrite Ed. destruct (Z.to_nat k) eqn:Ek; [lia|done]. }
  destruct Hrl as (C1 & C2 & C3). apply merge_run; try done; try lia; unfold zlen in *; try lia.
  - intros _. by rewrite <- E.
  - by rewrite <- E.
Qed.

Lemma pair_first w xs ds : pair w xs ds -> xs <> [] -> exists h, nget w (s + HEADNODE) = Ok h /\ dn_next h = hd xs.
Proof.
  intros [(S & HS & _) _ _ _ _ _ _ _ _ _] Hne. destruct (nget_ok w (s + HEADNODE)) as (a & b & d & Hg & Ha & _); [eapply dt_is, HS|].
  eexists. split; [exact Hg|]. cbn. destruct (dlist_nx _ _ _ (drep_ring _ _ _ _ HS Hne)) as [E _].
  destruct xs; [done|]. cbn in E. rewrite E in Ha. by injection Ha as <-.
Qed.

Lemma merge_rounds_le n a b : merge_rounds n a b -> 0 <= n <= zlen a + zlen b.
Proof.
  unfold merge_rounds, zlen. destruct a, b; cbn [length]; lia.
Qed.

(** The rounds add up. *)
Lemma pass_rounds_step n n' k xs :
  1 <= k -> xs <> [] -> let a := take (Z.to_nat k) xs in let b := take (Z.to_nat k) (drop (Z.to_nat k) xs) in
  let tl := drop (Z.to_nat k) (drop (Z.to_nat k) xs) in
  merge_rounds n a b -> pass_rounds n' k tl -> pass_rounds (n + n') k xs.
Proof.
  intros Hk Hne a b tl Hn (Hn1 & _ & _).
  assert (E : zlen xs = zlen a + zlen b + zlen tl) by (rewrite <- (take_drop (Z.to_nat k) xs), <- (take_drop (Z.to_nat k) (drop (Z.to_nat k) xs)), !zlen_app; fold a b tl; lia).
  assert (Ha : zlen a = Z.min k (zlen xs)) by (unfold a, zlen; rewrite length_take; lia).
  assert (Hb : zlen b = Z.min k (zlen xs - zlen a)) by (unfold a, b, zlen; rewrite !length_take, length_drop; lia).
  pose proof (zlen_nonneg tl) as Ht. destruct xs as [|x xs]; [done|]. rewrite zlen_cons in *. pose proof (zlen_nonneg xs) as Hx.
  clearbody a b tl. unfold merge_rounds in Hn. destruct a as [|y a], b as [|z b]; rewrite ?zlen_cons in *;
    try pose proof (zlen_nonneg a) as Ya; try pose proof (zlen_nonneg b) as Yb; change (zlen (@nil (Z * Z))) with 0 in *;
    unfold pass_rounds; rewrite zlen_cons; try lia.
Qed.

Lemma pass_run fuel f w xs ds k mc :
  (length xs + 3 < fuel)%nat -> (length xs <= f)%nat -> 1 <= k -> is_u32 k -> 0 <= mc -> mc + zlen xs < 4294967296 -> pair w xs ds ->
  exists w' n, dlist_merge compare fuel w s t k mc = Ok (w', mc + n) /\
    pair w' [] (ds ++ run_pass before f (Z.to_nat k) xs) /\ pass_rounds n k xs /\ (xs = [] -> n = 0).
Proof.
  revert f w xs ds mc. induction fuel as [|fuel IH]; intros f w xs ds mc Hf Hff Hk Hu Hmc Hsum H; [lia|].
  cbn [dlist_merge]. destruct (pair_head _ _ _ H) as (S & -> & ES & EC). cbn [mbind res_bind]. rewrite EC.
  destruct xs as [|x xs].
  - exists w, 0. assert (run_pass before f (Z.to_nat k) [] = []) as -> by by destruct f. rewrite app_nil_r, Z.add_0_r.
    split_and!; [done|done| |done]. unfold pass_rounds, zlen. cbn. split_and!; [lia|lia|done|lia].
  - set (xx := x :: xs) in *. rewrite (proj2 (Z.ltb_lt 0 _)) by (unfold xx; rewrite zlen_cons; pose proof (zlen_nonneg xs); lia).
    destruct (round_run (Datatypes.S fuel) w xx ds k mc) as (w1 & n & R & H1 & Hn); try done; [lia|].
    destruct (pair_first w xx ds H) as (h & Gh & Eh); [done|]. rewrite ES, Gh. cbn [mbind res_bind]. rewrite Eh.
    destruct (split_loop _ _ _ _ _ _) as [[l2 l1]|]; cbn [mbind res_bind] in R |- *; [rewrite R|discriminate].
    destruct f as [|f]; [cbn in Hff; lia|]. cbn [run_pass mbind res_bind]. fold xx.
    set (tl := drop (Z.to_nat k) (drop (Z.to_nat k) xx)) in *.
    assert (Hl : (length tl < length xx)%nat) by (unfold tl; rewrite !length_drop; unfold xx; cbn; lia).
    assert (Hz : 0 <= n /\ n + zlen tl <= zlen xx).
    { pose proof (merge_rounds_le _ _ _ Hn) as Hle. rewrite <- (take_drop (Z.to_nat k) xx) at 1.
      rewrite <- (take_drop (Z.to_nat k) (drop (Z.to_nat k) xx)) at 1. rewrite !zlen_app. fold tl. lia. }
    destruct (IH f w1 tl (ds ++ list_merge before (take (Z.to_nat k) xx) (take (Z.to_nat k) (drop (Z.to_nat k) xx))) (mc + n))
      as (w' & n' & R' & H' & Hn' & _); try done; try lia.
    exists w', (n + n'). split_and!; [|by rewrite <- app_assoc in H'| |done].
    + rewrite R'. do 2 f_equal. lia.
    + by apply pass_rounds_step.
Qed.
End merge.

(** ** The passes *)

Section passes.
Context {Env : Type}.
Abbreviation world := (dlworld Env).
Variable compare : Z -> Z -> Z.
Variables (w0 : world) (size del : Z).
Implicit Types (w : world) (xs ds : list (Z * Z)).

(** The lists change roles once the first one is empty. *)
Lemma pair_swap w s t ds : pair_of w0 w s t size del [] ds -> pair_of w0 w t s size del ds [].
Proof.
  intros [(S & HS & HS1 & HS2) (T & HT & HT1 & HT2 & _) B2 B3 B4 B5 B6 B7 B8 B9]. split; auto.
  - by exists T.
  - exists S. by split_and!.
  - intros q H1 H2. by apply (B3 q).
  - by rewrite Z.add_comm.
  - eapply relinked_sub; [exact B7|]. rewrite app_nil_r. cbn. set_solver.
Qed.

Lemma passes_run fuel f w s t xs k mc :
  (2 * length xs + 5 < fuel + Z.to_nat k)%nat -> (length xs + 5 < fuel)%nat -> (length xs <= f + Z.to_nat k)%nat ->
  1 <= k -> is_u32 k -> 0 < mc -> xs <> [] -> zlen xs <= 2147483648 -> pair_of w0 w s t size del xs [] ->
  exists w' s' t', pass_loop compare fuel w s t k mc = Ok (w', t') /\
    (s' = s /\ t' = t \/ s' = t /\ t' = s) /\
    pair_of w0 w' s' t' size del [] (passes (before compare) f (Z.to_nat k) xs).
Proof.
  revert f w s t xs k mc. induction fuel as [|fuel IH]; intros f w s t xs k mc Hf Hf2 Hff Hk Hu Hmc Hne Hlen H; [lia|].
  cbn [pass_loop]. rewrite (proj2 (Z.ltb_lt 0 mc)) by done.
  destruct (pass_run compare w0 s t size del (S fuel) (length xs) w xs [] k 0) as (w1 & n & R & H1 & (Hn & Hn1 & Hn2) & _);
    try done; try lia. rewrite R. cbn [mbind res_bind]. rewrite Z.add_0_l. cbn [app] in H1.
  destruct (decide (zlen xs <= k)) as [Hc|Hc].
  - rewrite (Hn1 Hne Hc). change (1 <? 1) with false. cbn match. rewrite run_pass_all in H1 by (unfold zlen in Hc; lia).
    destruct fuel as [|[|fuel]]; [lia..|]. set (g := S fuel). cbn [pass_loop]. change (0 <? 1) with true. cbn match.
    destruct (pass_run compare w0 s t size del (S g) 0 w1 [] xs k 0) as (w2 & n2 & R2 & H2 & _ & Hn0);
      try done; [unfold g; cbn; lia|]. rewrite R2, (Hn0 eq_refl). cbn [mbind res_bind]. cbn [run_pass] in H2. rewrite app_nil_r in H2.
    exists w2, s, t. split_and!; [done|by left|]. destruct f; cbn [passes]; [done|].
    rewrite decide_True by (unfold zlen in Hc; lia). done.
  - specialize (Hn2 ltac:(lia)). rewrite (proj2 (Z.ltb_lt 1 n)) by lia. rewrite u32_id by (unfold is_u32 in *; lia).
    destruct f as [|f]; [unfold zlen in *; lia|]. cbn [passes]. rewrite decide_False by (unfold zlen in Hc; lia).
    apply pair_swap in H1. set (ys := run_pass (before compare) (length xs) (Z.to_nat k) xs) in *.
    assert (Hp : length ys = length xs) by (unfold ys; by rewrite run_pass_perm).
    replace (Z.to_nat k + Z.to_nat k)%nat with (Z.to_nat (k * 2)) by lia.
    destruct (IH f w1 t s ys (k * 2) n) as (w' & s' & t' & R' & Hst & H'); unfold zlen, is_u32 in *; try lia.
    + intros E. rewrite E in Hp. by destruct xs.
    + done.
    + exists w', s', t'. split_and!; [exact R'|tauto|exact H'].
Qed.
End passes.

(** ** The sorted list goes back to the list of the caller *)

(** A circular list gets another head. *)
Lemma rehead h h' old new y ys k z :
  is_dlist h old (y :: ys) -> (new ∉ y :: ys) -> y :: ys = k ++ [z] ->
  nx h' new = Some y -> pv h' new = Some z -> pv h' y = Some new -> nx h' z = Some new ->
  (forall q, q ∈ y :: ys -> q <> z -> nx h' q = nx h q) -> (forall q, q ∈ ys -> pv h' q = pv h q) ->
  is_dlist h' new (y :: ys).
Proof.
  intros [Hnd Hl] Hnew Hz H1 H2 H3 H4 Hn Hp. apply NoDup_cons_1_2 in Hnd as Hnd'. split; [by apply NoDup_cons_2|].
  cbn in Hl |- *. destruct Hl as (_ & _ & Hl). split_and!; [done|done|].
  rewrite (links_snoc _ _ _ _ _ _ Hz) in Hl. rewrite (links_snoc _ _ _ _ _ _ Hz). destruct Hl as (Hl & _). split_and!; [|done|done].
  revert Hl. apply links_frame; [|exact Hp]. intros q Hq. apply Hn; [by apply srcs_incl|].
  intros ->. by apply (srcs_last_notin y ys k z).
Qed.

Section copy.
Context {Env : Type}.
Abbreviation world := (dlworld Env).
Implicit Types (w : world) (xs : list (Z * Z)).

Lemma put_data_same w p d : dt (lw_nodes w) p = Some d -> put_data w p d = Ok w.
Proof.
  unfold dt, put_data, nget. destruct w as [h ls e]. cbn. destruct (h !! p) as [[a b c]|] eqn:E; [|done]. cbn.
  intros [= ->]. unfold set_nodes. cbn. by rewrite insert_id.
Qed.

(** The writes to the nodes. *)
Lemma copy_nodes w l t y ys :
  is_dlist (lk (lw_nodes w)) (t + HEADNODE) (y :: ys) -> dt (lw_nodes w) (t + HEADNODE) = Some 0 ->
  dt (lw_nodes w) (l + HEADNODE) = Some 0 -> (l + HEADNODE ∉ t + HEADNODE :: y :: ys) ->
  exists h, copy_head w (l + HEADNODE) (t + HEADNODE) = Ok (set_nodes w h) /\
    is_dlist (lk h) (l + HEADNODE) (y :: ys) /\ relinked (lw_nodes w) h (l + HEADNODE :: y :: ys).
Proof.
  intros Hd Dt Dl Hnew. destruct (snoc_view y ys) as (k & z & Hk).
  pose proof Hd as [Hnd Hl]. cbn in Hl. destruct Hl as (Hy & Hyt & Hl). rewrite (links_snoc _ _ _ _ _ _ Hk) in Hl.
  destruct Hl as (_ & Hz & Hzt). assert (Hzin : z ∈ y :: ys) by (rewrite Hk; set_solver).
  assert (Sl : is_Some (lk (lw_nodes w) !! (l + HEADNODE))) by (apply is_Some_lk; by eapply dt_is).
  assert (Sy : is_Some (lk (lw_nodes w) !! y)) by by eapply pv_Some_is.
  assert (Sz : is_Some (lk (lw_nodes w) !! z)) by by eapply nx_Some_is.
  pose proof Sl as Sl'. pose proof Sy as Sy'. pose proof Sz as Sz'. rewrite is_Some_lk in Sl', Sy', Sz'.
  assert (N1 : l + HEADNODE <> t + HEADNODE) by set_solver. assert (N2 : l + HEADNODE <> y) by set_solver.
  assert (N3 : l + HEADNODE <> z) by set_solver. assert (N4 : t + HEADNODE <> y) by (apply NoDup_cons_1_1 in Hnd; set_solver).
  assert (N5 : t + HEADNODE <> z) by (apply NoDup_cons_1_1 in Hnd; set_solver).
  set (hl := l + HEADNODE) in *. set (ht := t + HEADNODE) in *.
  unfold copy_head. rewrite (nget_cell w ht y z 0) by done. cbn [mbind res_bind dn_prev]. rewrite put_prev_ok by done. cbn [mbind res_bind].
  rewrite (nget_cell _ ht y z 0) by lkd. cbn [mbind res_bind dn_next]. rewrite put_next_ok by (lks; done). cbn [mbind res_bind].
  rewrite (nget_cell _ ht y z 0) by lkd. cbn [mbind res_bind dn_data]. rewrite put_data_same by lkd. cbn [mbind res_bind].
  rewrite (nget_cell _ hl y z 0) by lkd. cbn [mbind res_bind dn_next]. rewrite put_prev_ok by (lks; done). cbn [mbind res_bind].
  rewrite (nget_cell _ hl y z 0) by lkd. cbn [mbind res_bind dn_prev]. rewrite put_next_ok by (lks; done).
  eexists. split; [reflexivity|]. split.
  - eapply (rehead _ _ ht hl y ys k z Hd); [set_solver|done|lkd..| |].
    + intros q Hq Hqz. assert (q <> hl) by set_solver. lkd.
    + intros q Hq. assert (q <> hl) by set_solver. assert (q <> y) by (apply NoDup_cons_1_2, NoDup_cons_1_1 in Hnd; set_solver). lkd.
  - split; [intros q; lkd|]. intros q Hq. cbn.
    rewrite lookup_wnext_ne, lookup_wprev_ne, lookup_wnext_ne, lookup_wprev_ne by set_solver. done.
Qed.

Lemma copy_back_run w l t L T ys :
  drep w l L [] -> drep w t T ys -> ys <> [] -> l <> t -> (l + HEADNODE ∉ t + HEADNODE :: ys.*1) ->
  let L' := mk_dlist (dl_marker T) (dl_count T) (dl_data_size T) (dl_del_func T) (dl_head L) in
  exists h, let w' := mk_dlw h (<[t := with_count T 0]> (<[l := L']> (lw_lists w))) (lw_env w) in
    copy_back w l t t = Ok w' /\ drep w' l L' ys /\ drep w' t (with_count T 0) [] /\
    virgin h (t + HEADNODE) /\ relinked (lw_nodes w) h (l + HEADNODE :: t + HEADNODE :: ys.*1).
Proof.
  intros HL HT Hne Hlt Hap L'. destruct ys as [|[y d] ys]; [done|].
  set (w1 := set_lists w (<[l := L']> (lw_lists w))).
  destruct (copy_nodes w1 l t y ys.*1) as (h1 & R & Hd & Hr); [apply (drep_ring _ _ _ _ HT); done|apply HT|apply HL|done|].
  assert (ET : lw_lists w1 !! t = Some T) by (cbn; rewrite lookup_insert_ne by done; apply HT).
  assert (EL : lw_lists w1 !! l = Some L') by apply lookup_insert_eq.
  assert (St : is_Some (h1 !! (t + HEADNODE))) by (apply (relinked_is _ _ _ _ Hr); eapply dt_is, HT).
  assert (Hls : forall a, lw_lists w !! a = None -> <[t := with_count T 0]> (<[l := L']> (lw_lists w)) !! a = None).
  { intros a Ha. eapply insert_None; [exact ET|]. eapply insert_None; [apply HL|done]. }
  set (h := wprev (wnext h1 (t + HEADNODE) 0) (t + HEADNODE) 0).
  assert (Hh : relinked (lw_nodes w) h (l + HEADNODE :: t + HEADNODE :: ((y, d) :: ys).*1)).
  { destruct Hr as [Hr1 Hr2]. split; intros q; unfold h; [rewrite dt_wprev, dt_wnext; apply Hr1|]. intros Hq.
    rewrite lookup_wprev_ne, lookup_wnext_ne by set_solver. apply Hr2. set_solver. }
  assert (Hv : virgin h (t + HEADNODE)) by (unfold h; rewrite <- is_Some_lk in St; split; lkd).
  exists h. cbv zeta. split_and!; [| | |done|done].
  - unfold copy_back. rewrite (lget_ok w t T) by apply HT. cbn [mbind res_bind].
    rewrite (put_marker_ok w l L) by apply HL. cbn [mbind res_bind].
    erewrite put_count_ok by apply lookup_insert_eq. cbn [mbind res_bind].
    erewrite put_data_size_ok by apply lookup_insert_eq. cbn [mbind res_bind].
    erewrite put_del_func_ok by apply lookup_insert_eq. cbn [mbind res_bind]. unfold set_lists. cbn [lw_lists lw_nodes lw_env].
    rewrite !insert_insert_eq. cbn [with_marker with_count dl_marker dl_count dl_data_size dl_del_func dl_head].
    change (mk_dlw (lw_nodes w) (<[l := _]> (lw_lists w)) (lw_env w)) with w1.
    rewrite (lget_ok _ _ _ EL), (lget_ok _ _ _ ET). cbn [mbind res_bind L' dl_head]. rewrite (dr_head _ _ _ _ HL), (dr_head _ _ _ _ HT), R.
    cbn [mbind res_bind]. rewrite (lget_ok (set_nodes w1 h1) t T ET). cbn [mbind res_bind]. rewrite (dr_head _ _ _ _ HT).
    rewrite put_next_ok by done. cbn [mbind res_bind]. rewrite put_prev_ok by (lks; done). cbn [mbind res_bind].
    by rewrite (put_count_ok _ t T) by exact ET.
  - split; cbn [lw_lists lw_nodes L' dl_head dl_count]; try apply HT; try apply HL.
    + by rewrite lookup_insert_ne by done.
    + rewrite (proj1 Hh). apply HL.
    + eapply node_ok_frame; [intros x _; apply Hh|intros x _; apply Hls|apply HT].
    + assert (Ht : t + HEADNODE ∉ l + HEADNODE :: y :: ys.*1).
      { destruct (drep_ring _ _ _ _ HT ltac:(done)) as [Hnt%NoDup_cons_1_1 _]. cbn in Hnt. set_solver. }
      left. unfold h. destruct Hd as [Hnd Hl]. split; [done|]. revert Hl. rewrite lk_wprev, lk_wnext.
      rewrite <- is_Some_lk in St. apply links_frame; intros q Hq.
      * rewrite srcs_app in Hq. assert (q <> t + HEADNODE) by (intros ->; by apply Ht). dl.
      * assert (q <> t + HEADNODE) by (intros ->; apply Ht; cbn in Hq; set_solver). dl.
  - split; cbn; try apply HT; try done; [apply lookup_insert_eq|rewrite (proj1 Hh); apply HT|by right].
Qed.
End copy.

(** ** The whole sort *)

Section sort.
Context {Env : Type}.
Abbreviation world := (dlworld Env).
Variable malloc : world -> Z -> Z.
Context `{!MallocFresh malloc}.
Variable c_free : Z.
Variable call_del : Z -> world -> Z -> res world.
Variable compare : Z -> Z -> Z.
Implicit Types (w : world) (xs : list (Z * Z)).

(** An unlinked list is freed at once. *)
Lemma destroy_empty fuel w t T :
  drep w t T [] -> virgin (lw_nodes w) (t + HEADNODE) ->
  dlist_destroy call_del (S fuel) w t
    = Ok (mk_dlw (delete (t + HEADNODE) (lw_nodes w)) (delete t (lw_lists w)) (lw_env w)).
Proof.
  intros H [Hn Hp]. pose proof (dr_addr _ _ _ _ H) as Ha. pose proof (dr_head _ _ _ _ H) as Hh.
  assert (E : dlist_start w t = Ok (marked w t T (t + HEADNODE))).
  { unfold dlist_start. rewrite (lget_ok _ _ _ (dr_list _ _ _ _ H)). cbn. by rewrite (put_marker_ok _ _ _ _ (dr_list _ _ _ _ H)), Hh. }
  pose proof (drep_marked w t T [] (t + HEADNODE) H) as H1. set (w1 := marked w t T (t + HEADNODE)) in *.
  pose proof (nget_cell w1 (t + HEADNODE) 0 0 0 Hn Hp (dr_data _ _ _ _ H)) as G.
  unfold dlist_destroy. rewrite (proj2 (Z.eqb_neq t 0)) by lia. rewrite E. cbn [mbind res_bind].
  assert (E0 : (t + HEADNODE =? 0) = false) by (apply Z.eqb_neq; unfold HEADNODE; lia).
  unfold dlist_next, dlist_mark_move. rewrite (lget_ok _ _ _ (dr_list _ _ _ _ H1)). cbn [mbind res_bind with_marker dl_marker].
  rewrite E0, G. cbn [mbind res_bind dn_next]. rewrite Z.eqb_refl. cbn [mbind res_bind destroy_loop]. unfold dlist_mark.
  rewrite (lget_ok _ _ _ (dr_list _ _ _ _ H1)). cbn [mbind res_bind with_marker dl_marker]. rewrite E0. cbn [negb].
  rewrite G. cbn [mbind res_bind dn_data]. rewrite Z.eqb_refl. unfold free_list.
  cbn [mbind res_bind]. rewrite (lget_ok _ _ _ (dr_list _ _ _ _ H1)). cbn. by rewrite delete_insert_eq.
Qed.

(** The temporary list beside the list to sort. *)
Definition with_temp w (t : Z) L : world :=
  mk_dlw (<[t + HEADNODE := mk_node 0 0 0]> (lw_nodes w))
    (<[t := mk_dlist 0 0 (dl_data_size L) (dl_del_func L) (t + HEADNODE)]> (lw_lists w)) (lw_env w).

Lemma start_pair w l L xs n :
  drep w l L xs -> xs <> [] -> malloc w n <> 0 ->
  pair_of (with_temp w (malloc w n) L) (with_temp w (malloc w n) L) l (malloc w n) (dl_data_size L) (dl_del_func L) xs [].
Proof.
  intros H Hne Hm. destruct (malloc_fresh w n Hm) as (F1 & F2 & F3 & F4 & F5). set (t := malloc w n) in *.
  assert (Hl : l <> t) by (intros <-; pose proof (dr_list _ _ _ _ H); congruence).
  assert (Hin : forall q, q ∈ l + HEADNODE :: xs.*1 -> is_Some (lw_nodes w !! q)).
  { intros q [->|Hq]%elem_of_cons; [eapply dt_is, H|]. apply list_elem_of_fmap in Hq as (x & -> & Hx).
    eapply dt_is, (drep_dt _ _ _ _ x H Hx). }
  assert (Ht : forall q, q ∈ l + HEADNODE :: xs.*1 -> q <> t + HEADNODE).
  { intros q Hq ->. destruct (Hin _ Hq) as [? E]. congruence. }
  split; try done.
  - exists L. split; [|done]. apply (drep_frame' w _ l L L xs H); cbn; try done.
    + rewrite lookup_insert_ne by done. apply H.
    + intros q Hq. apply lookup_insert_ne. by apply not_eq_sym, Ht.
    + intros x Hx E. rewrite lookup_insert_ne; [done|]. intros Et. apply (Ht x.1); [right; by apply list_elem_of_fmap_2|lia].
  - exists (mk_dlist 0 0 (dl_data_size L) (dl_del_func L) (t + HEADNODE)). split; [|done].
    split; cbn; try done; [apply lookup_insert_eq| |right; split; [done|]].
    + unfold dt. by rewrite lookup_insert_eq.
    + unfold virgin, nx, pv, lk. cbn. by rewrite lookup_fmap, lookup_insert_eq.
  - intros q Hq [->|?%elem_of_nil]%elem_of_cons; [|done]. by apply (Ht _ Hq).
  - intros _. unfold virgin, nx, pv, lk. cbn. by rewrite lookup_fmap, lookup_insert_eq.
  - rewrite Z.add_0_r. apply H.
Qed.

(** Without the temporary list only the links of the list have changed. *)
Lemma temp_gone (h0 h : gmap Z dl_node) t l n ns :
  h0 !! t = None -> relinked (<[t := n]> h0) h (l :: t :: ns) -> relinked h0 (delete t h) (l :: ns).
Proof.
  intros H0 [Hd Hq]. split; intros q.
  - destruct (decide (q = t)) as [->|Hne]; unfold dt; [by rewrite lookup_delete_eq, H0|].
    rewrite lookup_delete_ne by done. specialize (Hd q). unfold dt in Hd. by rewrite lookup_insert_ne in Hd.
  - intros Hn. destruct (decide (q = t)) as [->|Hne]; [by rewrite lookup_delete_eq, H0|].
    rewrite lookup_delete_ne, Hq by set_solver. by apply lookup_insert_ne.
Qed.

(** The state a sort of [xs] to [ys] ends in, seen from [w]. *)
Record sorted_to (w w' : world) (l : Z) (L : dlist) (ys : list (Z * Z)) : Prop := {
  st_list : exists L', drep w' l L' ys /\ dl_data_size L' = dl_data_size L /\ dl_del_func L' = dl_del_func L /\
    lw_lists w' = <[l := L']> (lw_lists w);
  st_nodes : relinked (lw_nodes w) (lw_nodes w') (l + HEADNODE :: ys.*1);
  st_env : lw_env w' = lw_env w
}.

(** Freeing the temporary list [t] leaves the sorted list. *)
Lemma temp_freed w w4 l t L L4 ys :
  lw_nodes w !! (t + HEADNODE) = None -> lw_lists w !! t = None -> l <> t -> (t + HEADNODE ∉ l + HEADNODE :: ys.*1) ->
  drep w4 l L4 ys -> dl_data_size L4 = dl_data_size L -> dl_del_func L4 = dl_del_func L ->
  relinked (lw_nodes (with_temp w t L)) (lw_nodes w4) (l + HEADNODE :: t + HEADNODE :: ys.*1) ->
  (forall q, q <> l -> q <> t -> lw_lists w4 !! q = lw_lists (with_temp w t L) !! q) -> lw_env w4 = lw_env w ->
  sorted_to w (mk_dlw (delete (t + HEADNODE) (lw_nodes w4)) (delete t (lw_lists w4)) (lw_env w4)) l L ys.
Proof.
  intros Hn Ht Hlt Hap D E1 E2 Hr Hls He. split; cbn; [|eapply temp_gone; [exact Hn|exact Hr]|done].
  exists L4. split_and!; [|done|done|].
  - apply (drep_frame w4 _ l L4 L4 ys D); cbn; try done; [by rewrite lookup_delete_ne by done; apply D| |].
    + intros q Hq. apply lookup_delete_ne. congruence.
    + intros a Ha. destruct (decide (a = t)) as [->|]; [apply lookup_delete_eq|by rewrite lookup_delete_ne].
  - apply map_eq. intros q. destruct (decide (q = t)) as [->|Hqt]; [by rewrite lookup_delete_eq, lookup_insert_ne, Ht|].
    rewrite lookup_delete_ne by done. destruct (decide (q = l)) as [->|Hql]; [rewrite lookup_insert_eq; apply D|].
    rewrite Hls by done. cbn. by rewrite !lookup_insert_ne.
Qed.

Lemma finish_run fuel w t l L ys w3 s' t' :
  lw_nodes w !! (t + HEADNODE) = None -> lw_lists w !! t = None -> ys <> [] ->
  s' = l /\ t' = t \/ s' = t /\ t' = l ->
  pair_of (with_temp w t L) w3 s' t' (dl_data_size L) (dl_del_func L) [] ys ->
  exists w', (L3 ← lget w3 l; w4 ← (if dl_count L3 =? 0 then copy_back w3 l t' t else Ok w3);
     dlist_destroy call_del (S fuel) w4 t) = Ok w' /\ sorted_to w w' l L ys.
Proof.
  intros Hn Ht Hne Hst [(S & HS & HS1 & HS2) (T & HT & HT1 & HT2 & _) B2 B3 B4 B5 B6 B7 B8 B9]. cbn in B7.
  destruct Hst as [[-> ->]|[-> ->]].
  - assert (Hap : l + HEADNODE ∉ t + HEADNODE :: ys.*1) by (intros ?; by apply (B3 (l + HEADNODE)); [left|]).
    destruct (copy_back_run w3 l t S T ys HS HT Hne B2 Hap) as (h & R & D1 & D2 & V & Hr).
    rewrite (lget_ok _ _ _ (dr_list _ _ _ _ HS)). cbn [mbind res_bind]. rewrite (dr_count _ _ _ _ HS).
    change (zlen [] =? 0) with true. cbn match. rewrite R. cbn [mbind res_bind]. rewrite (destroy_empty fuel _ t _ D2 V).
    eexists. split; [reflexivity|]. eapply temp_freed; try done.
    + destruct (drep_ring _ _ _ _ HT Hne) as [Hnd%NoDup_cons_1_1 _]. set_solver.
    + eapply relinked_sub; [eapply relinked_trans; [exact B7|exact Hr]|]. set_solver.
    + intros q H1 H2. cbn. rewrite !lookup_insert_ne by done. rewrite B8 by done. cbn. by rewrite lookup_insert_ne by done.
  - rewrite (lget_ok _ _ _ (dr_list _ _ _ _ HT)). cbn [mbind res_bind]. rewrite (dr_count _ _ _ _ HT).
    rewrite (proj2 (Z.eqb_neq _ 0)) by (intros ?%zlen_0; done). cbn [mbind res_bind].
    rewrite (destroy_empty fuel _ t _ HS (B4 eq_refl)). eexists. split; [reflexivity|]. eapply temp_freed; try done.
    + intros ?. by apply (B3 (t + HEADNODE)); [left|].
    + eapply relinked_sub; [exact B7|]. set_solver.
    + intros q H1 H2. by apply B8.
Qed.

(** The marker of the list does not matter. *)
Lemma sorted_to_marked w w' l L v ys :
  sorted_to (marked w l L v) w' l (with_marker L v) ys -> sorted_to w w' l L ys.
Proof.
  intros [(L' & H1 & H2 & H3 & H4) Hn He]. split; [|exact Hn|exact He]. exists L'. split_and!; try done.
  rewrite H4. cbn. by rewrite insert_insert_eq.
Qed.

(** The sort of a list with two elements or more. *)
Lemma sort_run fuel w l L xs :
  drep w l L xs -> 2 <= zlen xs <= 2147483648 -> malloc (marked w l L (l + HEADNODE)) sizeof_dlist <> 0 ->
  (2 * length xs + 6 < fuel)%nat ->
  exists w', dlist_sort_custom malloc c_free call_del compare fuel w l = Ok w' /\
    sorted_to w w' l L (passes (before compare) (length xs) 1 xs).
Proof.
  intros Hr [Hc Hlen] Hm Hf. unfold dlist_sort_custom. pose proof (dr_list _ _ _ _ Hr) as HL.
  rewrite (lget_ok _ _ _ HL). cbn [mbind res_bind]. rewrite (dr_count _ _ _ _ Hr), (proj2 (Z.ltb_ge (zlen xs) 2)) by done.
  assert (Hne : xs <> []) by (intros ->; done). unfold dlist_start. rewrite (lget_ok _ _ _ HL). cbn [mbind res_bind].
  rewrite (put_marker_ok _ _ _ _ HL), (dr_head _ _ _ _ Hr). cbn [mbind res_bind]. fold (marked w l L (l + HEADNODE)).
  pose proof (drep_marked w l L xs (l + HEADNODE) Hr) as Hr1. set (w1 := marked w l L (l + HEADNODE)) in *.
  destruct (malloc_fresh w1 sizeof_dlist Hm) as (F1 & F2 & F3 & F4 & F5).
  pose proof (start_pair w1 l _ xs sizeof_dlist Hr1 Hne Hm) as Hp. unfold dlist_new. rewrite (proj2 (Z.eqb_neq _ _) Hm).
  erewrite put_del_func_ok by apply lookup_insert_eq. cbn [mbind res_bind]. set (t := malloc w1 sizeof_dlist) in *.
  set (L1 := with_marker L (l + HEADNODE)) in *.
  replace (set_lists _ _) with (with_temp w1 t L1) by (unfold with_temp, set_lists; cbn; by rewrite insert_insert_eq).
  destruct (passes_run compare (with_temp w1 t L1) (dl_data_size L1) (dl_del_func L1) fuel (length xs) (with_temp w1 t L1) l t xs 1 1)
    as (w3 & s' & t' & R & Hst & H3); try done; try lia.
  rewrite R. cbn [mbind res_bind]. change (Z.to_nat 1) with 1%nat in H3. set (ys := passes _ _ _ _) in *.
  assert (Hy : ys <> []) by (intros E; apply Hne, Permutation_nil_r; by rewrite <- E; unfold ys; rewrite passes_perm).
  destruct fuel as [|fuel]; [lia|]. destruct (finish_run fuel w1 t l L1 ys w3 s' t' F4 F3 Hy Hst H3) as (w' & R' & H').
  exists w'. split; [exact R'|]. by eapply sorted_to_marked.
Qed.
End sort.

(** ** Filtering *)

Section filtering.
Context {Env : Type}.
Abbreviation world := (dlworld Env).
Variable call_del : Z -> world -> Z -> res world.
Variable f : Z -> bool.
Implicit Types (w : world) (L : dlist) (a b : list (Z * Z)).

(** The elements that stay and those that go. *)
Definition kept b : list (Z * Z) := filter (fun x => f x.2 = true) b.
Definition dropped b : list (Z * Z) := filter (fun x => f x.2 = false) b.

Lemma filter_loop_run fuel w l L a b del :
  drep w l L (a ++ b) -> deletes call_del (dl_del_func L) del (lw_env w) (dropped b).*2 -> (length b < fuel)%nat ->
  exists w' L', filter_loop call_del fuel f w l (l + HEADNODE) (first_of (l + HEADNODE) b) = Ok w' /\
    drep w' l L' (a ++ kept b) /\ dl_data_size L' = dl_data_size L /\ dl_del_func L' = dl_del_func L /\
    lw_lists w' = <[l := L']> (lw_lists w) /\ lw_env w' = foldl del (lw_env w) (dropped b).*2 /\
    (forall q, q ∈ (dropped b).*1 -> lw_nodes w' !! q = None) /\
    (forall q, q ∉ l + HEADNODE :: (a ++ b).*1 -> lw_nodes w' !! q = lw_nodes w !! q).
Proof.
  revert fuel w L a. induction b as [|[p d] b IH]; intros fuel w L a H Hdel Hf; (destruct fuel as [|fuel]; [cbn in Hf; lia|]); cbn [filter_loop].
  - change (first_of _ []) with (l + HEADNODE). rewrite Z.eqb_refl. exists w, L. split_and!; try done.
    + rewrite insert_id; [done|apply H].
    + intros q ?%elem_of_nil. done.
  - change (first_of (l + HEADNODE) ((p, d) :: b)) with p. pose proof (drep_notin _ _ _ _ _ _ _ H) as Hp.
    rewrite (proj2 (Z.eqb_neq p _)) by (intros E; apply Hp; rewrite E; left).
    assert (Hring : exists n, nget w p = Ok n /\ dn_next n = first_of (l + HEADNODE) b /\ dn_data n = d).
    { by eapply drep_node. }
    destruct Hring as (n & -> & En & Ed). cbn [mbind res_bind]. rewrite Ed, En. unfold kept, dropped in *. rewrite !filter_cons in *. cbn [snd] in *.
    destruct (f d) eqn:Ef; cbn [negb]; rewrite ?decide_True, ?decide_False in Hdel |- * by done.
    + destruct (IH fuel w L (a ++ [(p, d)])) as (w' & L' & R & D & B1 & B2 & B3 & B4 & B5 & B6);
        [by rewrite <- app_assoc|done|cbn in Hf; lia|]. exists w', L'. rewrite <- !app_assoc in *. by split_and!.
    + destruct (dlist_remove_run w l L a p d b false H) as (h & R & D & _ & Hn & Hq).
      set (m := mark_after _ _ _ _ _ _) in *. rewrite R. cbn [mbind res_bind]. rewrite (lget_ok _ _ _ (dr_list _ _ _ _ D)). cbn [mbind res_bind].
      destruct (cut_node w l L a p d b (lw_nodes w) H ltac:(done)) as (_ & _ & _ & _ & Hd0 & _).
      rewrite (proj2 (Z.eqb_neq d 0)) by done. cbn [negb dl_del_func]. destruct Hdel as [Hdel Hdel']. rewrite Hdel by done. cbn [mbind res_bind].
      set (w1 := mk_dlw _ _ _). set (L1 := mk_dlist m _ _ _ _) in D.
      assert (D1 : drep w1 l L1 (a ++ b)) by (apply (drep_frame _ _ _ _ _ _ D); try done; apply D).
      destruct (IH fuel w1 L1 a D1 Hdel' ltac:(cbn in Hf; lia)) as (w' & L' & R' & D' & B1 & B2 & B3 & B4 & B5 & B6).
      exists w', L'. split_and!; [exact R'|exact D'|exact B1|exact B2|rewrite B3; cbn; by rewrite insert_insert_eq|exact B4| |].
      * intros q [->|Hin]%elem_of_cons; [|by apply B5]. rewrite B6; [exact Hn|done].
      * intros q Hin. rewrite fmap_app in Hin. cbn in Hin. rewrite B6; [apply Hq|]; rewrite fmap_app; cbn; set_solver.
Qed.
End filtering.

(** ** Properties *)

(** The elements that compare equal to [d]. *)
Definition same_rank (compare : Z -> Z -> Z) (d : Z) (x : Z * Z) : Prop := compare x.2 d <= 0 /\ compare d x.2 <= 0.
#[global] Instance same_rank_dec compare d x : Decision (same_rank compare d x).
Proof. unfold same_rank. apply _. Defined.

(** The sort, for both users of it. *)
Lemma sort_sound {Env : Type} (malloc : dlworld Env -> Z -> Z) `{!MallocFresh malloc} (c_free : Z)
    (call_del : Z -> dlworld Env -> Z -> res (dlworld Env)) (compare : Z -> Z -> Z) (fuel : nat)
    (w : dlworld Env) (l : Z) (L : dlist) (xs : list (Z * Z))
    (Htot : forall a b, compare a b <= 0 \/ compare b a <= 0)
    (Htr : forall a b c, compare a b <= 0 -> compare b c <= 0 -> compare a c <= 0)
    (Hr : drep w l L xs) (Hlen : zlen xs <= 2147483648)
    (Hm : malloc (marked w l L (l + HEADNODE)) sizeof_dlist <> 0) (Hf : (2 * length xs + 6 < fuel)%nat) :
  exists w' ys, dlist_sort_custom malloc c_free call_del compare fuel w l = Ok w' /\
    sorted_to w w' l L ys /\ ys ≡ₚ xs /\ Sorted (before compare) ys /\
    forall d, filter (same_rank compare d) ys = filter (same_rank compare d) xs.
Proof.
  destruct (Z.lt_ge_cases (zlen xs) 2) as [Hc|Hc].
  - exists w, xs. split_and!; try done.
    + unfold dlist_sort_custom. rewrite (lget_ok _ _ _ (dr_list _ _ _ _ Hr)). cbn [mbind res_bind].
      by rewrite (dr_count _ _ _ _ Hr), (proj2 (Z.ltb_lt _ _) Hc).
    + split; [|by split|done]. exists L. split_and!; try done. rewrite insert_id; [done|apply Hr].
    + destruct xs as [|x [|y xs]]; [constructor|by repeat constructor|]. rewrite !zlen_cons in Hc. pose proof (zlen_nonneg xs). lia.
  - destruct (sort_run malloc c_free call_del compare fuel w l L xs Hr ltac:(lia) Hm Hf) as (w' & R & H').
    assert (Tot : Total (before compare)) by (intros x y; apply Htot).
    assert (Tr : Transitive (before compare)) by (intros x y z; apply Htr).
    destruct (passes_spec (before compare) (length xs) 1 xs ltac:(lia) ltac:(lia) (blocks_one _ xs)) as (S1 & S2 & S3).
    exists w'. eexists. split_and!; [exact R|exact H'|exact S2|exact S1|].
    intros d. apply S3. intros x y [H1 _] [_ H2]. by eapply Htr.
Qed.


(** The elements a filter lets pass; without a filter, all. *)
Definition passing (filter : option (Z -> bool)) (x : Z) : bool := match filter with Some f => f x | None => true end.

(** [dlist_filter_sort] ends; it deletes the elements the filter refuses, in the order of
    the list and each once, frees their nodes, and leaves the others sorted, equal ones in
    their old order.  Other lists are as before. *)
Theorem dlist_filter_sort_spec {Env : Type} (malloc : dlworld Env -> Z -> Z) `{!MallocFresh malloc} (c_free : Z)
    (call_del : Z -> dlworld Env -> Z -> res (dlworld Env)) (compare : Z -> Z -> Z) (filt : option (Z -> bool))
    (del : Env -> Z -> Env) (fuel : nat) (w : dlworld Env) (l : Z) (L : dlist) (xs : list (Z * Z))
    (Htot : forall a b, compare a b <= 0 \/ compare b a <= 0)
    (Htr : forall a b c, compare a b <= 0 -> compare b c <= 0 -> compare a c <= 0)
    (Hr : drep w l L xs) (Hdel : deletes call_del (dl_del_func L) del (lw_env w) (dropped (passing filt) xs).*2) (Hlen : zlen xs <= 2147483648)
    (Hm : forall w n, malloc w n <> 0) (Hf : (2 * length xs + 6 < fuel)%nat) :
  exists w' L' ys, dlist_filter_sort malloc c_free call_del compare fuel filt w l = Ok w' /\ drep w' l L' ys /\
    ys ≡ₚ kept (passing filt) xs /\ Sorted (before compare) ys /\
    (forall d, filter (same_rank compare d) ys = filter (same_rank compare d) (kept (passing filt) xs)) /\
    lw_env w' = foldl del (lw_env w) (dropped (passing filt) xs).*2 /\
    (forall q, q ∈ (dropped (passing filt) xs).*1 -> lw_nodes w' !! q = None) /\
    lw_lists w' = <[l := L']> (lw_lists w).
Proof.
  unfold dlist_filter_sort. rewrite (lget_ok _ _ _ (dr_list _ _ _ _ Hr)). cbn [mbind res_bind]. rewrite (dr_count _ _ _ _ Hr).
  assert (Hall : forall k : list (Z * Z), kept (fun _ => true) k = k /\ dropped (fun _ => true) k = []).
  { intros k. unfold kept, dropped. induction k as [|x k [IH1 IH2]]; [done|]. rewrite !filter_cons. by rewrite decide_True, decide_False, IH1, IH2. }
  destruct (Z.eqb_spec (zlen xs) 0) as [E|E].
  { apply zlen_0 in E as ->. exists w, L, []. split_and!; try done; [intros q Hq; by apply not_elem_of_nil in Hq|rewrite insert_id; [done|apply Hr]]. }
  assert (Hloop : exists w1 L1, (match filt with
      | None => Ok w
      | Some f => h ← nget w (dl_head L); filter_loop call_del fuel f w l (dl_head L) (dn_next h) end) = Ok w1 /\
      drep w1 l L1 (kept (passing filt) xs) /\ lw_lists w1 = <[l := L1]> (lw_lists w) /\
      lw_env w1 = foldl del (lw_env w) (dropped (passing filt) xs).*2 /\
      (forall q, q ∈ (dropped (passing filt) xs).*1 -> lw_nodes w1 !! q = None)).
  { destruct filt as [f|]; cbn [passing].
    - destruct (head_node _ _ _ _ Hr) as (h & Hg & [(-> & _)|(_ & En & _)]); [done|].
      rewrite (dr_head _ _ _ _ Hr), Hg. cbn [mbind res_bind]. rewrite En.
      destruct (filter_loop_run call_del f fuel w l L [] xs del Hr Hdel ltac:(lia)) as (w1 & L1 & R & D & _ & _ & B3 & B4 & B5 & _).
      exists w1, L1. by split_and!.
    - destruct (Hall xs) as [E1 E2]. exists w, L. unfold passing. rewrite E1, E2.
      split_and!; try done; [rewrite insert_id; [done|apply Hr]|intros q Hq; by apply not_elem_of_nil in Hq]. }
  destruct Hloop as (w1 & L1 & R1 & D1 & B3 & B4 & B5). rewrite R1. cbn [mbind res_bind]. set (ks := kept (passing filt) xs) in *.
  assert (Hk : (length ks <= length xs)%nat) by apply length_filter.
  destruct (sort_sound malloc c_free call_del compare fuel w1 l L1 ks) as (w' & ys & R & [(L' & D & _ & _ & E1) [En _] E2] & P1 & P2 & P3);
    try done; [unfold zlen in *; lia|lia|].
  exists w', L', ys. split_and!; try done; [by rewrite E2| |rewrite E1, B3; by rewrite insert_insert_eq].
  intros q Hq. specialize (En q). unfold dt in En. rewrite (B5 q Hq) in En. by destruct (lw_nodes w' !! q).
Qed.

(** ** Demonstration *)

(** Elements compared by their tens, and those above 11 pass. *)
Definition demo_compare (a b : Z) : Z := a / 10 - b / 10.


Lemma dlist_filter_sort_spec_witness :
  exists w' L' ys, dlist_filter_sort demo_malloc 0 demo_del demo_compare 13 (Some (fun x => 11 <? x)) demo_dlw 100 = Ok w' /\
    drep w' 100 L' ys /\ lw_env w' = [11].
Proof.
  destruct (dlist_filter_sort_spec demo_malloc 0 demo_del demo_compare (Some (fun x => 11 <? x)) demo_note 13 demo_dlw 100
    demo_list demo_xs) as (w' & L' & ys & R & D & _ & _ & _ & E & _).
  - intros a b. unfold demo_compare. lia.
  - intros a b c. unfold demo_compare. lia.
  - apply demo_drep.
  - split; [by intros w <-|done].
  - vm_compute. discriminate.
  - apply demo_malloc_nonzero.
  - cbn. lia.
  - exists w', L', ys. split; [exact R|]. split; [exact D|]. exact E.
Defined.

(** Run: the order of equal tens is kept. *)
Definition contents (fuel : nat) (w : dlworld (list Z)) (l : Z) : res (list Z) :=
  w1 ← dlist_transform fuel (fun w d => Ok (mk_dlw (lw_nodes w) (lw_lists w) (d :: lw_env w))) w l; Ok (lw_env w1).

Example sort_runs :
  (w ← dlist_sort_custom demo_malloc 0 demo_del demo_compare 13 demo_dlw 100; contents 5 w 100) = Ok [21; 25; 11].
Proof. vm_compute. reflexivity. Qed.
