(* ===== verification/SysfsUtils.v ===== *)
(** * Names and paths of sysfs (sysfsutils/lib/sysfs_utils.c, lib/sysfs.h)

    A [char] array is the list of its bytes, as in StrUtil; a pointer into an array is an
    index, and the index -1 is the pointer before its first byte.  The file system is the
    class [sysfs_fs]; [errno] and the debug output are left out. *)

From S2P Require Import Prelude StrUtil.

(** ** Data *)

Definition SYSFS_PATH_MAX : Z := 256.
Definition SYSFS_NAME_LEN : Z := 64.
Definition SLASH : Z := 47.
Definition DOT : Z := 46.

Inductive ftype := F_dir | F_link | F_reg | F_other.

(** What lstat(2), stat(2) with the owner's permission to read and to write, readlink(2),
    getenv(3) and the table of the mounts give. *)
Class sysfs_fs := {
  fs_lstat : list Z -> option ftype;
  fs_stat : list Z -> option (ftype * bool * bool);
  fs_readlink : list Z -> option (list Z);
  fs_sysfs_env : option (list Z);
  fs_mounts : option (list (list Z * list Z))
}.

(** ** Strings of the C library *)

(** The string in an array. *)
Fixpoint c_string (a : list Z) : res (list Z) :=
  match a with
  | [] => Fault Out_of_bounds
  | c :: a' => if c =? 0 then Ok [] else s ← c_string a'; Ok (c :: s)
  end.
Definition strlen (a : list Z) : res Z := s ← c_string a; Ok (zlen s).

Fixpoint last_index (s : list Z) (c i : Z) (found : option Z) : option Z :=
  match s with
  | [] => found
  | x :: s' => last_index s' c (i + 1) (if x =? c then Some i else found)
  end.
Definition strrchr (a : list Z) (c : Z) : res (option Z) := s ← c_string a; Ok (last_index s c 0 None).

(** [strncat(a, from, n)]: at most [n] bytes and a terminator. *)
Fixpoint put_string (a : list Z) (i : Z) (s : list Z) : res (list Z) :=
  match s with
  | [] => rset a i 0
  | c :: s' => a ← rset a i c; put_string a (i + 1) s'
  end.
Definition strncat (a from : list Z) (n : Z) : res (list Z) :=
  i ← strlen a; s ← c_string from; put_string a i (take (Z.to_nat n) s).

(** ** Bounded copies *)

(** The [for] of [my_strncpy] with [to] at the index [o] of its array: the array and [i]. *)
Fixpoint strncpy_loop (fuel : nat) (to : list Z) (o : Z) (from : list Z) (i max : Z) : res (list Z * Z) :=
  match fuel with
  | O => Fault No_fuel
  | S fuel' =>
      if i <? max then
        c ← rget from i;
        if c =? 0 then Ok (to, i)
        else to ← rset to (o + i) c; strncpy_loop fuel' to o from (i + 1) max
      else Ok (to, i)
  end.

(** With [max] 0 the index of the last write is before [to]. *)
Definition my_strncpy (to : list Z) (o : Z) (from : list Z) (max : Z) : res (list Z) :=
  '(to, i) ← strncpy_loop (S (length from)) to o from 0 max;
  if i <? max then rset to (o + i) 0 else rset to (o + max - 1) 0.

Fixpoint strend_loop (fuel : nat) (to : list Z) (i max : Z) : res Z :=
  match fuel with
  | O => Fault No_fuel
  | S fuel' =>
      if i <? max then c ← rget to i; if negb (c =? 0) then strend_loop fuel' to (i + 1) max else Ok i
      else Ok i
  end.

Definition my_strncat (to from : list Z) (max : Z) : res (list Z) :=
  i ← strend_loop (S (length to)) to 0 max; my_strncpy to i from (max - i).

Definition safestrcpy (to from : list Z) : res (list Z) := my_strncpy to 0 from (zlen to).
Definition safestrcpymax (to from : list Z) (max : Z) : res (list Z) := my_strncpy to 0 from max.
Definition safestrcat (to from : list Z) : res (list Z) := n ← strlen to; my_strncat to from (u64 (zlen to - n - 1)).
Definition safestrcatmax (to from : list Z) (max : Z) : res (list Z) :=
  to ← rset to (max - 1) 0; n ← strlen to; strncat to from (u64 (max - n - 1)).

(** ** Paths *)

Fixpoint slash_loop (fuel : nat) (path : list Z) (len : Z) : res (list Z) :=
  match fuel with
  | O => Fault No_fuel
  | S fuel' =>
      if 0 <? len then
        c ← rget path (len - 1);
        if c =? SLASH then path ← rset path (len - 1) 0; slash_loop fuel' path (len - 1) else Ok path
      else Ok path
  end.

Definition sysfs_remove_trailing_slash (path : list Z) : res (list Z) :=
  len ← strlen path; slash_loop (S (length path)) path len.

(** The null pointers are [None]; on an error the array is as it was. *)
Definition sysfs_get_name_from_path (path : option (list Z)) (name : list Z) (len : Z) : res (list Z * Z) :=
  match path with
  | None => Ok (name, -1)
  | Some path =>
      if len =? 0 then Ok (name, -1)
      else
        tmp ← safestrcpy (replicate (Z.to_nat SYSFS_PATH_MAX) 0) path;
        n ← strrchr tmp SLASH;
        match n with
        | None => Ok (name, -1)
        | Some n =>
            c ← rget tmp (n + 1);
            '(tmp, n) ← (if c =? 0 then tmp ← rset tmp n 0; n ← strrchr tmp SLASH; Ok (tmp, n) else Ok (tmp, Some n));
            match n with
            | None => Ok (name, -1)
            | Some n => name ← safestrcpymax name (drop (Z.to_nat (n + 1)) tmp) len; Ok (name, 0)
            end
        end
  end.

Section fs.
Context `{sysfs_fs}.

Definition sysfs_path_is_dir (path : list Z) : Z :=
  match fs_lstat path with Some F_dir => 0 | _ => 1 end.
Definition sysfs_path_is_link (path : list Z) : Z :=
  match fs_lstat path with Some F_link => 0 | _ => 1 end.
Definition sysfs_path_is_file (path : list Z) : Z :=
  match fs_stat path with Some (F_reg, _, _) => 0 | _ => 1 end.

Definition SYSFS_FSTYPE_NAME : list Z := [115; 121; 115; 102; 115].
Definition SYSFS_MNT_PATH : list Z := [47; 115; 121; 115].

(** [sysfs_path] is never assigned, so that the environment is looked at in every call. *)
Definition sysfs_get_mnt_path (mnt_path : list Z) (len : Z) : res (list Z * Z) :=
  if len =? 0 then Ok (mnt_path, -1)
  else
    mnt_path ← (match fs_sysfs_env with
                | Some e => m ← safestrcpymax mnt_path (e ++ [0]) len; sysfs_remove_trailing_slash m
                | None => safestrcpymax mnt_path (SYSFS_MNT_PATH ++ [0]) len
                end);
    match fs_mounts with
    | None => Ok (mnt_path, -1)
    | Some mounts =>
        s ← c_string mnt_path;
        Ok (mnt_path, if bool_decide ((SYSFS_FSTYPE_NAME, s) ∈ mounts) then 0 else -1)
    end.

(** ** The target of a link *)

(** [while ( *d == '/') d++] *)
Fixpoint skip_slashes (fuel : nat) (a : list Z) (d : Z) : res Z :=
  match fuel with
  | O => Fault No_fuel
  | S fuel' => c ← rget a d; if c =? SLASH then skip_slashes fuel' a (d + 1) else Ok d
  end.

(** The slashes, and the components [.], that end at [s]. *)
Fixpoint strip_loop (fuel : nat) (devdir : list Z) (s : Z) : res Z :=
  match fuel with
  | O => Fault No_fuel
  | S fuel' =>
      if 0 <? s then
        c ← rget devdir s;
        if c =? SLASH then
          c ← rget devdir (s - 1);
          if c =? DOT then
            alone ← (if s - 1 =? 0 then Ok true else c ← rget devdir (s - 1 - 1); Ok (c =? SLASH));
            strip_loop fuel' devdir (if alone : bool then s - 1 - 1 else s - 1)
          else strip_loop fuel' devdir (s - 1)
        else Ok s
      else Ok s
  end.

(** The [for (;;)]: [devdir] cut after [s], and while it is a link, what it points to.
    [None] is the return with an error. *)
Fixpoint parent_loop (fuel : nat) (get_link : list Z -> list Z -> res (list Z * Z)) (devdir : list Z) (s : Z)
  : res (option (list Z * Z)) :=
  match fuel with
  | O => Fault No_fuel
  | S fuel' =>
      s ← strip_loop (S (length devdir)) devdir s;
      devdir ← rset devdir (s + 1) 0;
      p ← c_string devdir;
      c ← rget devdir 0;
      if (c =? 0) || negb (sysfs_path_is_link p =? 0) then Ok (Some (devdir, s))
      else
        '(devdir, r) ← get_link devdir devdir;
        if negb (r =? 0) then Ok None
        else n ← strlen devdir; parent_loop fuel' get_link devdir (n - 1)
  end.

(** Does [devdir] end in [/..] from [s] on? *)
Definition ends_dotdot (devdir : list Z) (s : Z) : res bool :=
  c1 ← rget devdir (s + 1);
  if negb (c1 =? DOT) then Ok false
  else
    c2 ← rget devdir (s + 2);
    if negb (c2 =? DOT) then Ok false else c3 ← rget devdir (s + 3); Ok (c3 =? 0).

(** The [while (s >= devdir)]: the last slash, and [d] behind the [../] that it takes. *)
Fixpoint last_loop (fuel : nat) (devdir linkpath : list Z) (s d : Z) : res (Z * Z) :=
  match fuel with
  | O => Fault No_fuel
  | S fuel' =>
      if 0 <=? s then
        c ← rget devdir s;
        if c =? SLASH then
          dd ← ends_dotdot devdir s;
          if dd : bool then Ok (s + 2, d) else d ← skip_slashes (S (length linkpath)) linkpath (d + 3); Ok (s, d)
        else last_loop fuel' devdir linkpath (s - 1) d
      else Ok (s, d)
  end.

(** The [while ( *d == '.')]; [None] is the return with an error. *)
Fixpoint up_loop (fuel : nat) (get_link : list Z -> list Z -> res (list Z * Z)) (devdir linkpath : list Z) (s d : Z)
  : res (option (list Z * Z * Z)) :=
  match fuel with
  | O => Fault No_fuel
  | S fuel' =>
      c ← rget linkpath d;
      if negb (c =? DOT) then Ok (Some (devdir, s, d))
      else
        c1 ← rget linkpath (d + 1);
        if c1 =? SLASH then
          d ← skip_slashes (S (length linkpath)) linkpath (d + 2);
          up_loop fuel' get_link devdir linkpath s d
        else
          up ← (if negb (c1 =? DOT) then Ok false else c2 ← rget linkpath (d + 2); Ok (c2 =? SLASH));
          if negb up then Ok (Some (devdir, s, d))
          else
            r ← parent_loop fuel get_link devdir s;
            match r with
            | None => Ok None
            | Some (devdir, s) =>
                '(s, d) ← last_loop (S (length devdir)) devdir linkpath s d;
                if s <? 0 then Ok (Some (devdir, s, d))
                else
                  c ← rget devdir (s + 1);
                  if c =? 0 then Ok (Some (devdir, s, d)) else up_loop fuel' get_link devdir linkpath s d
            end
  end.

(** The slash, and the rest of the link from [d] on, behind [devdir]. *)
Definition append_link (devdir linkpath : list Z) (s d : Z) : res (list Z) :=
  let s := s + 1 in
  c ← rget devdir s;
  '(devdir, s) ← (if (0 <? s) && (c =? 0) then devdir ← rset devdir s SLASH; Ok (devdir, s + 1) else Ok (devdir, s));
  devdir ← rset devdir s 0;
  my_strncpy devdir s (drop (Z.to_nat d) linkpath) (SYSFS_PATH_MAX - s).

(** [devdir] and [linkpath] are given as they are on entry; the link text is cut to the
    buffer by the system. *)
Fixpoint sysfs_get_link (fuel : nat) (devdir linkpath path target : list Z) (len : Z) : res (list Z * Z) :=
  match fuel with
  | O => Fault No_fuel
  | S fuel' =>
      if len =? 0 then Ok (target, -1)
      else
        p ← c_string path;
        match fs_readlink p with
        | None => Ok (target, -1)
        | Some text =>
            let got := take (Z.to_nat SYSFS_PATH_MAX) text in
            linkpath ← rset (got ++ drop (length got) linkpath) (zlen got) 0;
            c ← rget linkpath 0;
            if c =? SLASH then target ← safestrcpymax target linkpath len; Ok (target, 0)
            else
              devdir ← safestrcpy devdir path;
              s ← strrchr devdir SLASH;
              r ← up_loop fuel' (fun p t => sysfs_get_link fuel' devdir linkpath p t SYSFS_PATH_MAX) devdir linkpath
                    (default (-1) s) 0;
              match r with
              | None => Ok (target, -1)
              | Some (devdir, s, d) =>
                  devdir ← append_link devdir linkpath s d;
                  target ← safestrcpymax target devdir len;
                  Ok (target, 0)
              end
        end
  end.
End fs.
