(* ===== verification/SysfsSpec.v ===== *)
(** * Names and paths of sysfs: theorems

    The string of an array after the bounded copies, the last name of a path, and the
    target of a link. *)

From S2P Require Import Prelude StrUtil SysfsUtils.

(** Bytes of a string. *)
Abbreviation nz := (Forall (fun c : Z => c <> 0)).

(** ** Strings in arrays *)

Section strings.
Implicit Types (s t a r pre old : list Z) (i o max : Z).

Lemma c_string_run s r : nz s -> c_string (s ++ 0 :: r) = Ok s.
Proof. induction 1 as [|c s Hc Hs IH]; cbn; [done|]. rewrite (proj2 (Z.eqb_neq _ _) Hc). by rewrite IH. Qed.

Lemma strlen_run s r : nz s -> strlen (s ++ 0 :: r) = Ok (zlen s).
Proof. intros Hs. unfold strlen. by rewrite c_string_run. Qed.

Lemma nz_take n s : nz s -> nz (take n s).
Proof. apply Forall_take. Qed.

Lemma zlen_take_z n s : zlen (take (Z.to_nat n) s) = Z.min (Z.max n 0) (zlen s).
Proof. unfold zlen. rewrite length_take. lia. Qed.
Lemma zlen_drop_z n s : zlen (drop (Z.to_nat n) s) = Z.max 0 (zlen s - Z.max n 0).
Proof. unfold zlen. rewrite length_drop. lia. Qed.

(** The index of the last slash. *)
Lemma last_index_none s c i f : Forall (fun x => x <> c) s -> last_index s c i f = f.
Proof.
  revert i f. induction s as [|x s IH]; intros i f Hs; cbn; [done|]. apply Forall_cons_1 in Hs as [Hx Hs].
  by rewrite (proj2 (Z.eqb_neq _ _) Hx), IH.
Qed.
Lemma last_index_app s c t i f : Forall (fun x => x <> c) t -> last_index (s ++ c :: t) c i f = Some (i + zlen s).
Proof.
  revert i f. induction s as [|x s IH]; intros i f Ht; cbn [app last_index].
  - rewrite Z.eqb_refl, last_index_none by done. f_equal. unfold zlen. cbn. lia.
  - rewrite IH by done. f_equal. rewrite zlen_cons. lia.
Qed.
Lemma strrchr_run s t r : nz s -> nz t -> Forall (fun x => x <> SLASH) t ->
  strrchr (s ++ SLASH :: t ++ 0 :: r) SLASH = Ok (Some (zlen s)).
Proof.
  intros Hs Ht Hns. unfold strrchr. replace (s ++ SLASH :: t ++ 0 :: r) with ((s ++ SLASH :: t) ++ 0 :: r) by (by rewrite <- app_assoc).
  rewrite c_string_run; [cbn; by rewrite last_index_app|]. apply list.Forall_app. split; [done|]. by constructor.
Qed.
Lemma strrchr_none s r : nz s -> Forall (fun x => x <> SLASH) s -> strrchr (s ++ 0 :: r) SLASH = Ok None.
Proof. intros Hs Hns. unfold strrchr. rewrite c_string_run by done. cbn. by rewrite last_index_none. Qed.

(** A write in the middle of an array. *)
Lemma rset_mid a x r i y : i = zlen a -> rset (a ++ x :: r) i y = Ok (a ++ y :: r).
Proof. intros ->. unfold rset. by rewrite zget_app_mid, zset_app_mid. Qed.
Lemma rget_mid a x r i : i = zlen a -> rget (a ++ x :: r) i = Ok x.
Proof. intros ->. unfold rget. by rewrite zget_app_mid. Qed.

(** ** Bounded copies *)

Lemma strncpy_loop_run s r o max : nz s -> forall fuel pre old dn,
  zlen pre = o + zlen dn -> let n := Z.min (max - zlen dn) (zlen s) in 0 <= n -> n <= zlen old -> (length s < fuel)%nat ->
  strncpy_loop fuel (pre ++ old) o (dn ++ s ++ 0 :: r) (zlen dn) max =
    Ok (pre ++ take (Z.to_nat n) s ++ drop (Z.to_nat n) old, zlen dn + n).
Proof.
  induction 1 as [|c s Hc Hs IH]; intros fuel pre old dn Hp n Hn Hold Hf;
    (destruct fuel as [|fuel]; [cbn in Hf; lia|]); cbn [strncpy_loop app].
  - rewrite rget_mid by done. cbn [mbind res_bind]. replace n with 0 by (unfold n, zlen in *; cbn in *; lia).
    cbn. rewrite Z.add_0_r. by destruct (zlen dn <? max).
  - pose proof (zlen_cons c s) as Hz. pose proof (zlen_nonneg s) as Hs0.
    destruct (Z.ltb_spec (zlen dn) max) as [Hlt|Hge].
    + rewrite rget_mid by done. cbn [mbind res_bind]. rewrite (proj2 (Z.eqb_neq _ _) Hc).
      destruct old as [|x old]; [unfold n, zlen in *; cbn in *; lia|]. rewrite rset_mid by lia. cbn [mbind res_bind].
      replace (zlen dn + 1) with (zlen (dn ++ [c])) by (by rewrite zlen_app).
      replace (pre ++ c :: old) with ((pre ++ [c]) ++ old) by (by rewrite <- app_assoc).
      replace (dn ++ c :: s ++ 0 :: r) with ((dn ++ [c]) ++ s ++ 0 :: r) by (by rewrite <- app_assoc).
      rewrite zlen_cons in Hold. cbn in Hf.
      assert (E : zlen (dn ++ [c]) = zlen dn + 1) by (by rewrite zlen_app).
      rewrite IH; [|rewrite !zlen_app; change (zlen [c]) with 1; lia|rewrite E; lia..|lia].
      rewrite E. replace (Z.min (max - (zlen dn + 1)) (zlen s)) with (n - 1) by lia.
      replace (Z.to_nat n) with (S (Z.to_nat (n - 1))) by (pose proof (zlen_nonneg s); lia). cbn [take drop].
      rewrite <- app_assoc. cbn [app]. do 2 f_equal. lia.
    + replace n with 0 by lia. cbn. by rewrite Z.add_0_r.
Qed.

(** [my_strncpy] to the index of [old]: at most [max - 1] bytes and the terminator. *)
Lemma my_strncpy_run pre old s r max : nz s -> 0 < max -> Z.min max (zlen s + 1) <= zlen old ->
  let cut := take (Z.to_nat (max - 1)) s in
  my_strncpy (pre ++ old) (zlen pre) (s ++ 0 :: r) max = Ok (pre ++ cut ++ 0 :: drop (S (length cut)) old).
Proof.
  intros Hs Hm Ho cut. unfold my_strncpy. pose proof (zlen_nonneg s) as H0.
  pose proof (strncpy_loop_run s r (zlen pre) max Hs (S (length (s ++ 0 :: r))) pre old []) as E.
  change (zlen []) with 0 in E. cbn [app] in E. rewrite E; [|lia..|rewrite length_app; lia]. clear E.
  cbn [mbind res_bind]. rewrite Z.sub_0_r, Z.add_0_l. set (n := Z.min max (zlen s)).
  destruct (Z.ltb_spec n max) as [Hlt|Hge].
  - assert (En : n = zlen s) by lia. assert (Ec : cut = s) by (unfold cut; rewrite take_ge; [done|unfold zlen in *; lia]).
    rewrite take_ge by (unfold zlen in *; lia). rewrite Ec.
    destruct (drop (Z.to_nat n) old) as [|x old'] eqn:Ed.
    { apply (f_equal zlen) in Ed. rewrite zlen_drop_z in Ed. change (zlen []) with 0 in Ed. lia. }
    rewrite app_assoc, rset_mid by (rewrite zlen_app; lia). rewrite <- app_assoc.
    replace (drop (S (length s)) old) with old'; [done|]. replace (length s) with (Z.to_nat n) by (rewrite En; unfold zlen; lia).
    replace (S (Z.to_nat n)) with (Z.to_nat n + 1)%nat by lia. by rewrite <- drop_drop, Ed.
  - assert (En : n = max) by lia. assert (Hc : zlen cut = max - 1) by (unfold cut; rewrite zlen_take_z; lia).
    assert (Ht : exists c, take (Z.to_nat n) s = cut ++ [c]).
    { unfold cut. replace (Z.to_nat n) with (S (Z.to_nat (max - 1))) by lia.
      destruct (lookup_lt_is_Some_2 s (Z.to_nat (max - 1))) as [c Hc']; [unfold zlen in *; lia|].
      exists c. by apply take_S_r. }
    destruct Ht as [c ->]. rewrite <- app_assoc. cbn [app]. rewrite app_assoc, rset_mid by (rewrite zlen_app; lia).
    rewrite <- app_assoc. replace (Z.to_nat n) with (S (length cut)) by (unfold zlen in Hc; lia). done.
Qed.

(** The array is the string [s], its terminator, and something of the rest of its size. *)
Definition holds a s : Prop := nz s /\ exists r, a = s ++ 0 :: r.

Lemma holds_size a s : holds a s -> zlen s < zlen a.
Proof. intros (_ & r & ->). rewrite zlen_app, zlen_cons. pose proof (zlen_nonneg r). lia. Qed.

(** A copy to the start of an array that has room for it. *)
Lemma safestrcpymax_run to a s max : holds a s -> 0 < max -> Z.min max (zlen s + 1) <= zlen to ->
  exists to', safestrcpymax to a max = Ok to' /\ holds to' (take (Z.to_nat (max - 1)) s) /\ zlen to' = zlen to.
Proof.
  intros (Hs & r & ->) Hm Hl. unfold safestrcpymax.
  pose proof (my_strncpy_run [] to s r max Hs Hm Hl) as E. cbn [app] in E. change (zlen []) with 0 in E. rewrite E.
  eexists. split; [done|]. pose proof (zlen_nonneg s) as H0. split.
  - split; [by apply nz_take|by eexists].
  - rewrite zlen_app, zlen_cons. set (cut := take _ s). replace (S (length cut)) with (Z.to_nat (zlen cut + 1)) by (unfold zlen; lia).
    rewrite zlen_drop_z. assert (zlen cut = Z.min (max - 1) (zlen s)) by (unfold cut; rewrite zlen_take_z; lia). lia.
Qed.
Lemma safestrcpy_run to a s : holds a s -> 0 < zlen to ->
  exists to', safestrcpy to a = Ok to' /\ holds to' (take (Z.to_nat (zlen to - 1)) s) /\ zlen to' = zlen to.
Proof. intros Ha Ht. apply safestrcpymax_run; [done..|lia]. Qed.

Lemma strend_loop_run t r max : nz t -> 0 <= max -> forall fuel dn,
  let n := Z.min max (zlen dn + zlen t) in zlen dn <= n -> (length t < fuel)%nat ->
  strend_loop fuel (dn ++ t ++ 0 :: r) (zlen dn) max = Ok n.
Proof.
  intros Ht Hm. induction Ht as [|c t Hc Ht IH]; intros fuel dn n Hn Hf; (destruct fuel as [|fuel]; [cbn in Hf; lia|]); cbn [strend_loop app].
  - rewrite rget_mid by done. change (zlen []) with 0 in n. cbn. destruct (Z.ltb_spec (zlen dn) max); f_equal; lia.
  - pose proof (zlen_cons c t) as Hz. pose proof (zlen_nonneg t) as H0. destruct (Z.ltb_spec (zlen dn) max); [|f_equal; lia].
    rewrite rget_mid by done. cbn [mbind res_bind]. rewrite (proj2 (Z.eqb_neq _ _) Hc). cbn [negb].
    assert (E : zlen (dn ++ [c]) = zlen dn + 1) by (by rewrite zlen_app). rewrite <- E.
    replace (dn ++ c :: t ++ 0 :: r) with ((dn ++ [c]) ++ t ++ 0 :: r) by (by rewrite <- app_assoc).
    cbn in Hf. rewrite IH by lia. f_equal. lia.
Qed.

(** What [safestrcat] leaves: the bound it passes is the room left, while [my_strncat]
    takes it for the size. *)
Definition cat_string (size : Z) t f : list Z :=
  let max := size - zlen t - 1 in
  if zlen t <? max then t ++ take (Z.to_nat (max - zlen t - 1)) f else take (Z.to_nat (max - 1)) t.

Lemma safestrcat_run to t from f : holds to t -> holds from f -> zlen t + 1 < zlen to -> is_u64 (zlen to) ->
  exists to', safestrcat to from = Ok to' /\ holds to' (cat_string (zlen to) t f) /\ zlen to' = zlen to.
Proof.
  intros (Ht & r & ->) (Hf & r' & ->) Hlen Hu. unfold safestrcat. rewrite strlen_run by done. cbn [mbind res_bind].
  rewrite zlen_app, zlen_cons in *. pose proof (zlen_nonneg t) as H0. pose proof (zlen_nonneg r) as H1. unfold is_u64 in Hu.
  rewrite u64_id by (unfold is_u64; lia). unfold my_strncat, cat_string. set (max := zlen t + (1 + zlen r) - zlen t - 1).
  pose proof (strend_loop_run t r max Ht ltac:(lia) (S (length (t ++ 0 :: r))) []) as E.
  change (zlen []) with 0 in E. cbn [app] in E. rewrite E by (rewrite ?length_app; lia). cbn [mbind res_bind]. clear E.
  destruct (Z.ltb_spec (zlen t) max) as [Hlt|Hge].
  - rewrite Z.min_r by lia. rewrite Z.add_0_l. rewrite my_strncpy_run by (done || rewrite ?zlen_cons; lia).
    set (cut := take _ f). eexists. split; [done|].
    assert (Hc : zlen cut <= max - zlen t - 1) by (unfold cut; rewrite zlen_take_z; lia). split.
    + split; [apply list.Forall_app; split; [done|by apply nz_take]|]. eexists. by rewrite <- app_assoc.
    + rewrite !zlen_app, zlen_cons. replace (S (length cut)) with (Z.to_nat (zlen cut + 1)) by (unfold zlen; lia).
      rewrite zlen_drop_z, zlen_cons. pose proof (zlen_nonneg cut). lia.
  - rewrite Z.min_l, Z.sub_diag by lia. unfold my_strncpy. cbn [strncpy_loop].
    change (0 <? 0) with false. cbn [mbind res_bind]. replace (max + 0 - 1) with (max - 1) by lia.
    assert (Hm : 0 <= max - 1 < zlen t) by lia. set (k := Z.to_nat (max - 1)).
    destruct (lookup_lt_is_Some_2 t k) as [c Hc]; [unfold k, zlen in *; lia|].
    assert (Hz : zlen (take k t) = max - 1) by (unfold k; rewrite zlen_take_z; lia).
    replace (t ++ 0 :: r) with (take k t ++ c :: drop (S k) t ++ 0 :: r)
      by (transitivity ((take k t ++ c :: drop (S k) t) ++ 0 :: r); [by rewrite <- app_assoc|by rewrite take_drop_middle]).
    change (0 <? 0) with false. cbn iota. rewrite rset_mid by done.
    eexists. split; [done|]. split; [split; [by apply nz_take|by eexists]|].
    rewrite zlen_app, zlen_cons, zlen_app, zlen_cons, Hz.
    replace (S k) with (Z.to_nat max) by lia. rewrite zlen_drop_z. lia.
Qed.
End strings.

(** ** Names *)

Section names.
Implicit Types (s t a r dir name : list Z).

Lemma slash_loop_run s r : (forall s' , s <> s' ++ [SLASH]) -> nz s -> forall k fuel, (k + length s < fuel)%nat -> forall r,
  exists r', slash_loop fuel (s ++ replicate k SLASH ++ 0 :: r) (zlen s + Z.of_nat k) = Ok (s ++ 0 :: r').
Proof.
  intros Hs Hz. induction k as [|k IH]; intros [|fuel] Hf r2; try lia; cbn [slash_loop].
  - exists r2. rewrite Z.add_0_r. cbn [replicate app]. destruct (Z.ltb_spec 0 (zlen s)) as [Hl|]; [|done].
    destruct s as [|c s' _] using rev_ind; [unfold zlen in Hl; cbn in Hl; lia|].
    rewrite <- app_assoc. cbn [app]. rewrite rget_mid by (rewrite zlen_app; change (zlen [c]) with 1; lia). cbn [mbind res_bind].
    destruct (Z.eqb_spec c SLASH) as [->|]; [by destruct (Hs s')|done].
  - pose proof (zlen_nonneg s) as H0. rewrite (proj2 (Z.ltb_lt _ _)) by lia.
    assert (E : zlen (s ++ replicate k SLASH) = zlen s + Z.of_nat (S k) - 1) by (rewrite zlen_app, zlen_replicate; lia).
    rewrite replicate_S_end, <- app_assoc, app_assoc. cbn [app]. rewrite rget_mid by lia. cbn [mbind res_bind].
    change (SLASH =? SLASH) with true. cbn iota. rewrite rset_mid by lia. cbn [mbind res_bind].
    replace (zlen s + Z.of_nat (S k) - 1) with (zlen s + Z.of_nat k) by lia. rewrite <- app_assoc. apply IH. lia.
Qed.

(** Every slash at the end of a path is removed. *)
Lemma remove_trailing_slash_run path s k : holds path (s ++ replicate k SLASH) -> (forall s', s <> s' ++ [SLASH]) ->
  exists path', sysfs_remove_trailing_slash path = Ok path' /\ holds path' s.
Proof.
  intros (Hz & r & ->) Hs. unfold sysfs_remove_trailing_slash. rewrite strlen_run by done. cbn [mbind res_bind].
  apply list.Forall_app in Hz as [Hz _]. rewrite zlen_app, zlen_replicate, <- app_assoc.
  destruct (slash_loop_run s r Hs Hz k (S (length (s ++ replicate k SLASH ++ 0 :: r))) ltac:(rewrite !length_app, length_replicate; lia) r)
    as [r' E]. rewrite E. eexists. split; [done|]. split; [done|by eexists].
Qed.

(** The copy of a path that fits. *)
Lemma tmp_run path p : holds path p -> zlen p < SYSFS_PATH_MAX ->
  exists r, safestrcpy (replicate (Z.to_nat SYSFS_PATH_MAX) 0) path = Ok (p ++ 0 :: r).
Proof.
  intros Hp Hl. destruct (safestrcpy_run (replicate (Z.to_nat SYSFS_PATH_MAX) 0) path p Hp) as (to & E & (Hz & r & ->) & _).
  { rewrite zlen_replicate. unfold SYSFS_PATH_MAX. lia. }
  rewrite E. exists r. rewrite take_ge; [done|]. rewrite zlen_replicate. unfold zlen in Hl. unfold SYSFS_PATH_MAX in *. lia.
Qed.

Definition plain (c : Z) : Prop := c <> 0 /\ c <> SLASH.
Lemma plain_nz s : Forall plain s -> nz s.
Proof. apply Forall_impl. by intros c [? _]. Qed.
Lemma plain_ns s : Forall plain s -> Forall (fun c => c <> SLASH) s.
Proof. apply Forall_impl. by intros c [_ ?]. Qed.

(** The name at the end of a path, with or without a slash after it. *)
Lemma get_name_run path dir name (tail : list Z) buf len :
  holds path (dir ++ SLASH :: name ++ tail) -> tail = [] \/ tail = [SLASH] -> Forall plain name -> name <> [] ->
  zlen (dir ++ SLASH :: name ++ tail) < SYSFS_PATH_MAX -> 0 < len -> Z.min len (zlen name + 1) <= zlen buf ->
  exists buf', sysfs_get_name_from_path (Some path) buf len = Ok (buf', 0) /\ holds buf' (take (Z.to_nat (len - 1)) name) /\
    zlen buf' = zlen buf.
Proof.
  intros Hp Htail Hname Hne Hl Hlen Hbuf. destruct (tmp_run _ _ Hp Hl) as [r E]. destruct Hp as [Hz _].
  pose proof (plain_nz _ Hname) as Hn1. pose proof (plain_ns _ Hname) as Hn2. apply list.Forall_app in Hz as [Hd _].
  assert (Hcopy : forall tmp, exists buf', safestrcpymax buf (drop (Z.to_nat (zlen dir + 1)) (dir ++ SLASH :: name ++ 0 :: tmp)) len = Ok buf' /\
    holds buf' (take (Z.to_nat (len - 1)) name) /\ zlen buf' = zlen buf).
  { intros tmp. replace (Z.to_nat (zlen dir + 1)) with (length dir + 1)%nat by (unfold zlen; lia).
    rewrite <- drop_drop, drop_app_length. cbn [drop]. apply safestrcpymax_run; [split; [done|by eexists]|done..]. }
  unfold sysfs_get_name_from_path. rewrite (proj2 (Z.eqb_neq len 0)), E by lia. cbn [mbind res_bind].
  destruct Htail as [-> | ->].
  - rewrite app_nil_r, <- app_assoc in *. cbn [app]. rewrite strrchr_run by done. cbn [mbind res_bind].
    destruct name as [|c name]; [done|].
    replace (dir ++ SLASH :: (c :: name) ++ 0 :: r) with ((dir ++ [SLASH]) ++ c :: name ++ 0 :: r) by (by rewrite <- app_assoc).
    rewrite rget_mid by (by rewrite zlen_app). cbn [mbind res_bind]. apply Forall_cons_1 in Hn1 as [Hc _].
    rewrite (proj2 (Z.eqb_neq _ _) Hc). cbn [mbind res_bind]. rewrite <- app_assoc. cbn [app].
    destruct (Hcopy r) as (b & E' & H1 & H2). cbn [app] in E'. rewrite E'. by exists b.
  - replace ((dir ++ SLASH :: name ++ [SLASH]) ++ 0 :: r) with ((dir ++ SLASH :: name) ++ SLASH :: [] ++ 0 :: r)
      by (by rewrite <- !app_assoc; cbn [app]; rewrite <- app_assoc).
    rewrite strrchr_run; [|apply list.Forall_app; by repeat constructor|by constructor|by constructor]. cbn [mbind res_bind].
    assert (Eg : rget ((dir ++ SLASH :: name) ++ SLASH :: [] ++ 0 :: r) (zlen (dir ++ SLASH :: name) + 1) = Ok 0).
    { set (q := dir ++ SLASH :: name). change (q ++ SLASH :: [] ++ 0 :: r) with (q ++ [SLASH] ++ 0 :: r). rewrite app_assoc.
      apply rget_mid. by rewrite zlen_app. }
    rewrite Eg. cbn [mbind res_bind]. change (0 =? 0) with true. cbn iota.
    rewrite rset_mid by done. cbn [mbind res_bind app]. rewrite <- app_assoc. cbn [app]. rewrite strrchr_run by done.
    cbn [mbind res_bind]. destruct (Hcopy (0 :: r)) as (b & E' & H1 & H2). rewrite E'. by exists b.
Qed.

(** A path without a slash has no name. *)
Lemma get_name_none path p buf len : holds path p -> Forall (fun c => c <> SLASH) p -> zlen p < SYSFS_PATH_MAX -> 0 < len ->
  sysfs_get_name_from_path (Some path) buf len = Ok (buf, -1).
Proof.
  intros Hp Hns Hl Hlen. destruct (tmp_run _ _ Hp Hl) as [r E]. destruct Hp as [Hz _].
  unfold sysfs_get_name_from_path. rewrite (proj2 (Z.eqb_neq len 0)), E by lia. cbn [mbind res_bind].
  by rewrite strrchr_none.
Qed.
End names.
