(* ===== verification/SysfsLink.v ===== *)
(** * The target of a link of sysfs

    [sysfs_get_link] on an absolute path without links on the way gives what resolving the
    text of the link by its components gives. *)

From S2P Require Import Prelude StrUtil SysfsUtils SysfsSpec.

(** ** Paths as components *)

Definition path_of (cs : list (list Z)) : list Z := concat (map (fun c => SLASH :: c) cs).

Definition component (c : list Z) : Prop := Forall plain c /\ c <> [] /\ c <> [DOT] /\ c <> [DOT; DOT].

(** [../] taken [k] times. *)
Definition ups (k : nat) : list Z := concat (replicate k [DOT; DOT; SLASH]).

Lemma path_of_snoc cs c : path_of (cs ++ [c]) = path_of cs ++ SLASH :: c.
Proof. unfold path_of. rewrite map_app, concat_app. cbn. by rewrite app_nil_r. Qed.

Lemma path_of_nz cs : Forall component cs -> nz (path_of cs).
Proof.
  induction 1 as [|c cs [Hc _] _ IH]; cbn; [done|]. constructor; [done|]. apply list.Forall_app. split; [by apply plain_nz|done].
Qed.

(** ** Bytes of an array written as its pieces *)

Ltac zl := rewrite ?zlen_app, ?zlen_cons; change (zlen (@nil Z)) with 0; lia.
Ltac zat := apply rget_Some; cbn [app]; repeat (rewrite <- app_assoc; cbn [app]);
  repeat first [rewrite zget_app_r by zl | rewrite zget_app_l by zl | rewrite zget_cons_S by zl];
  match goal with |- zget (_ :: _) ?i = _ => replace i with 0 by zl; reflexivity end.

Section link.
Context `{sysfs_fs}.
Implicit Types (P c r link : list Z) (ds : list (list Z)) (s d : Z).

(** ** The loops *)

Lemma skip_slashes_stop fuel link d x : rget link d = Ok x -> x <> SLASH -> skip_slashes (S fuel) link d = Ok d.
Proof. intros E Hx. cbn [skip_slashes]. rewrite E. cbn [mbind res_bind]. by rewrite (proj2 (Z.eqb_neq _ _) Hx). Qed.

Lemma strip_run P c r fuel : component c -> strip_loop (S (S fuel)) (P ++ SLASH :: c ++ SLASH :: r) (zlen P + 1 + zlen c) = Ok (zlen P + zlen c).
Proof.
  intros (Hp & Hne & Hdot & _). destruct c as [|x c0 _] using rev_ind; [done|]. apply list.Forall_app in Hp as [Hp Hx].
  apply Forall_cons_1 in Hx as [[Hx0 Hx] _]. pose proof (zlen_nonneg P) as H0. pose proof (zlen_nonneg c0) as H1.
  set (a := P ++ SLASH :: (c0 ++ [x]) ++ SLASH :: r). rewrite zlen_app. change (zlen [x]) with 1.
  assert (E1 : rget a (zlen P + 1 + (zlen c0 + 1)) = Ok SLASH) by (unfold a; zat).
  assert (E2 : rget a (zlen P + 1 + (zlen c0 + 1) - 1) = Ok x) by (unfold a; zat).
  assert (Hend : strip_loop (S fuel) a (zlen P + (zlen c0 + 1)) = Ok (zlen P + (zlen c0 + 1))).
  { cbn [strip_loop]. rewrite (proj2 (Z.ltb_lt _ _)) by lia.
    replace (rget a (zlen P + (zlen c0 + 1))) with (Ok x) by (symmetry; unfold a; zat). cbn [mbind res_bind].
    by rewrite (proj2 (Z.eqb_neq _ _) Hx). }
  revert Hend. generalize (S fuel). intros f Hend.
  cbn [strip_loop]. rewrite (proj2 (Z.ltb_lt _ _)), E1 by lia. cbn [mbind res_bind]. change (SLASH =? SLASH) with true. cbn iota.
  rewrite E2. cbn [mbind res_bind]. replace (zlen P + 1 + (zlen c0 + 1) - 1) with (zlen P + (zlen c0 + 1)) by lia.
  destruct (x =? DOT) eqn:Ex; [|exact Hend]. zbool. rewrite (proj2 (Z.eqb_neq _ 0)) by lia.
  destruct c0 as [|y c1 _] using rev_ind; [by subst|]. apply list.Forall_app in Hp as [_ Hy].
  apply Forall_cons_1 in Hy as [[_ Hy] _].
  pose proof (zlen_nonneg c1). assert (E3 : rget a (zlen P + (zlen (c1 ++ [y]) + 1) - 1) = Ok y) by (unfold a; zat).
  rewrite E3. cbn [mbind res_bind]. rewrite (proj2 (Z.eqb_neq _ _) Hy). exact Hend.
Qed.

(** [devdir] is cut before its last component; it is not a link. *)
Lemma parent_run P c r fuel g : component c -> nz P -> fs_lstat (P ++ SLASH :: c) <> Some F_link ->
  parent_loop (S fuel) g (P ++ SLASH :: c ++ SLASH :: r) (zlen P + 1 + zlen c) = Ok (Some (P ++ SLASH :: c ++ 0 :: r, zlen P + zlen c)).
Proof.
  intros Hc HP Hl. cbn [parent_loop].
  assert (Hf : exists f, S (length (P ++ SLASH :: c ++ SLASH :: r)) = S (S f)) by (rewrite length_app; eexists; cbn; by rewrite Nat.add_succ_r).
  destruct Hf as [f ->]. rewrite strip_run by done. cbn [mbind res_bind].
  replace (P ++ SLASH :: c ++ SLASH :: r) with ((P ++ SLASH :: c) ++ SLASH :: r) by (by rewrite <- app_assoc).
  rewrite rset_mid by zl. cbn [mbind res_bind].
  rewrite c_string_run by (apply list.Forall_app; split; [done|]; constructor; [done|]; apply plain_nz, Hc). cbn [mbind res_bind].
  destruct (rget_ok ((P ++ SLASH :: c) ++ 0 :: r) 0) as (x & -> & _).
  { pose proof (zlen_nonneg P). pose proof (zlen_nonneg c). pose proof (zlen_nonneg r). zl. }
  cbn [mbind res_bind]. unfold sysfs_path_is_link. destruct (fs_lstat (P ++ SLASH :: c)) as [[]|]; try done;
    rewrite orb_true_r, <- app_assoc; done.
Qed.

Lemma last_loop_run P c r link d fuel : Forall plain c -> (length c < fuel)%nat ->
  exists f, last_loop fuel (P ++ SLASH :: c ++ r) link (zlen P + zlen c) d = last_loop (S f) (P ++ SLASH :: c ++ r) link (zlen P) d.
Proof.
  revert r fuel. induction c as [|x c IH] using rev_ind; intros r fuel Hc Hf.
  { destruct fuel; [cbn in Hf; lia|]. exists fuel. f_equal. zl. }
  apply list.Forall_app in Hc as [Hc Hx]. apply Forall_cons_1 in Hx as [[_ Hx] _]. rewrite length_app in Hf. cbn in Hf.
  destruct fuel as [|fuel]; [lia|]. destruct (IH (x :: r) fuel Hc ltac:(lia)) as [f E]. exists f. rewrite <- app_assoc. cbn [app].
  rewrite <- E. pose proof (zlen_nonneg P). pose proof (zlen_nonneg c). cbn [last_loop]. rewrite (proj2 (Z.leb_le 0 _)) by zl.
  assert (E1 : rget (P ++ SLASH :: c ++ x :: r) (zlen P + zlen (c ++ [x])) = Ok x) by zat.
  rewrite E1. cbn [mbind res_bind]. rewrite (proj2 (Z.eqb_neq _ _) Hx). f_equal. zl.
Qed.

Lemma ends_dotdot_run P c r : component c -> ends_dotdot (P ++ SLASH :: c ++ 0 :: r) (zlen P) = Ok false.
Proof.
  intros (Hp & Hne & Hd & Hdd). destruct c as [|x c]; [done|]. unfold ends_dotdot. pose proof (zlen_nonneg P).
  replace (rget _ (zlen P + 1)) with (Ok x) by (symmetry; zat). cbn [mbind res_bind].
  destruct (Z.eqb_spec x DOT) as [->|]; [|done]. destruct c as [|y c]; [done|]. cbn [negb].
  replace (rget _ (zlen P + 2)) with (Ok y) by (symmetry; zat). cbn [mbind res_bind].
  destruct (Z.eqb_spec y DOT) as [->|]; [|done]. destruct c as [|z c]; [done|]. cbn [negb].
  replace (rget _ (zlen P + 3)) with (Ok z) by (symmetry; zat). cbn [mbind res_bind].
  do 2 apply Forall_cons_1 in Hp as [_ Hp]. apply Forall_cons_1 in Hp as [[Hz _] _]. by rewrite (proj2 (Z.eqb_neq _ _) Hz).
Qed.

(** One [../] of the link takes the last component of [devdir]. *)
Lemma up_step P c r link d g fuel x : component c -> nz P -> fs_lstat (P ++ SLASH :: c) <> Some F_link ->
  rget link d = Ok DOT -> rget link (d + 1) = Ok DOT -> rget link (d + 2) = Ok SLASH -> rget link (d + 3) = Ok x -> x <> SLASH ->
  up_loop (S fuel) g (P ++ SLASH :: c ++ SLASH :: r) link (zlen P + 1 + zlen c) d =
  up_loop fuel g (P ++ SLASH :: c ++ 0 :: r) link (zlen P) (d + 3).
Proof.
  intros Hc HP Hl E0 E1 E2 E3 Hx. cbn [up_loop]. rewrite E0, E1. cbn [mbind res_bind]. change (negb (DOT =? DOT)) with false.
  change (DOT =? SLASH) with false. cbn iota. rewrite E2. cbn [mbind res_bind]. change (negb (SLASH =? SLASH)) with false. cbn iota.
  rewrite parent_run by done. cbn [mbind res_bind].
  destruct (last_loop_run P c (0 :: r) link d (S (length (P ++ SLASH :: c ++ 0 :: r)))) as [f ->];
    [apply Hc|rewrite length_app; cbn; rewrite length_app; lia|].
  pose proof (zlen_nonneg P) as H0. cbn [last_loop]. rewrite (proj2 (Z.leb_le 0 _)) by lia.
  rewrite rget_mid by done. cbn [mbind res_bind]. change (SLASH =? SLASH) with true. cbn iota.
  rewrite ends_dotdot_run by done. cbn [mbind res_bind]. rewrite (skip_slashes_stop _ _ _ x E3 Hx). cbn [mbind res_bind].
  rewrite (proj2 (Z.ltb_ge _ 0)) by lia. destruct Hc as (Hp & Hne & _). destruct c as [|y c]; [done|].
  replace (rget (P ++ SLASH :: (y :: c) ++ 0 :: r) (zlen P + 1)) with (Ok y) by (symmetry; zat). cbn [mbind res_bind].
  apply Forall_cons_1 in Hp as [[Hy _] _]. by rewrite (proj2 (Z.eqb_neq _ _) Hy).
Qed.

(** What is left of the link behind its [k] times [../]. *)
Lemma up_run k : forall fuel g ds c r dn x lr,
  Forall component ds -> (k <= length ds)%nat -> (k < fuel)%nat -> c <> [] -> Forall plain c -> x <> DOT -> x <> SLASH ->
  (forall j, (length ds - k < j <= length ds)%nat -> fs_lstat (path_of (take j ds)) <> Some F_link) ->
  let Q := path_of (take (length ds - k) ds) in
  exists c2 r2, c2 <> [] /\ Forall plain c2 /\
    up_loop fuel g (path_of ds ++ SLASH :: c ++ 0 :: r) (dn ++ ups k ++ x :: lr) (zlen (path_of ds)) (zlen dn) =
      Ok (Some (Q ++ SLASH :: c2 ++ 0 :: r2, zlen Q, zlen (dn ++ ups k))) /\
    zlen (Q ++ SLASH :: c2 ++ 0 :: r2) = zlen (path_of ds ++ SLASH :: c ++ 0 :: r).
Proof.
  induction k as [|k IH]; intros fuel g ds c r dn x lr Hds Hk Hf Hc0 Hc Hx1 Hx2 Hl.
  - exists c, r. rewrite Nat.sub_0_r, firstn_all, app_nil_r. split_and!; try done. destruct fuel as [|fuel]; [lia|].
    change (dn ++ ups 0 ++ x :: lr) with (dn ++ x :: lr). cbn [up_loop]. rewrite (rget_mid dn x lr _ eq_refl). cbn [mbind res_bind].
    by rewrite (proj2 (Z.eqb_neq _ _) Hx1).
  - destruct ds as [|e ds _] using rev_ind; [cbn in Hk; lia|]. rewrite length_app in *. cbn [length] in *.
    apply list.Forall_app in Hds as [Hds He]. apply Forall_cons_1 in He as [He _]. destruct fuel as [|fuel]; [lia|].
    assert (Hn : exists y, rget (dn ++ ups (S k) ++ x :: lr) (zlen dn + 3) = Ok y /\ y <> SLASH).
    { change (ups (S k)) with ([DOT; DOT; SLASH] ++ ups k). pose proof (zlen_nonneg dn). destruct k as [|k].
      - exists x. split; [|done]. change (ups 0) with (@nil Z). zat.
      - exists DOT. split; [|done]. change (ups (S k)) with ([DOT; DOT; SLASH] ++ ups k). zat. }
    destruct Hn as (y & Ey & Hy). pose proof (zlen_nonneg dn) as H0.
    rewrite path_of_snoc, <- app_assoc. cbn [app]. replace (zlen (path_of ds ++ SLASH :: e)) with (zlen (path_of ds) + 1 + zlen e) by zl.
    rewrite (up_step (path_of ds) e (c ++ 0 :: r) _ (zlen dn) g fuel y); try done.
    2: by apply path_of_nz.
    2: { rewrite <- path_of_snoc. rewrite <- (firstn_all (ds ++ [e])). apply Hl. rewrite length_app. cbn. lia. }
    2-4: change (ups (S k)) with ([DOT; DOT; SLASH] ++ ups k); zat.
    assert (Ed : dn ++ ups (S k) ++ x :: lr = (dn ++ [DOT; DOT; SLASH]) ++ ups k ++ x :: lr)
      by (change (ups (S k)) with ([DOT; DOT; SLASH] ++ ups k); by rewrite <- !app_assoc).
    replace (zlen dn + 3) with (zlen (dn ++ [DOT; DOT; SLASH])) by zl. rewrite Ed.
    destruct (IH fuel g ds e (c ++ 0 :: r) (dn ++ [DOT; DOT; SLASH]) x lr) as (c2 & r2 & H1 & H2 & H3 & H4);
      [done|lia|lia|apply He|apply He|done|done| |].
    { intros j Hj. specialize (Hl j ltac:(lia)). by rewrite take_app_le in Hl by lia. }
    exists c2, r2. replace (length ds + 1 - S k)%nat with (length ds - k)%nat by lia. rewrite take_app_le by lia.
    split_and!; [done..| |]; [rewrite H3|rewrite H4; rewrite !zlen_app, !zlen_cons, !zlen_app, !zlen_cons; lia].
    do 3 f_equal. change (ups (S k)) with ([DOT; DOT; SLASH] ++ ups k). by rewrite app_assoc.
Qed.

Lemma append_run Q c2 r2 link d tl lr : c2 <> [] -> Forall plain c2 -> nz tl ->
  zlen (Q ++ SLASH :: c2 ++ 0 :: r2) = SYSFS_PATH_MAX -> drop (Z.to_nat d) link = tl ++ 0 :: lr ->
  zlen Q + 1 + zlen tl < SYSFS_PATH_MAX ->
  exists r, append_link (Q ++ SLASH :: c2 ++ 0 :: r2) link (zlen Q) d = Ok (Q ++ SLASH :: tl ++ 0 :: r).
Proof.
  intros Hne Hc Htl Hz Hd Hl. unfold append_link. destruct c2 as [|y c2]; [done|]. pose proof (zlen_nonneg Q) as H0.
  pose proof (zlen_nonneg tl) as H1. unfold SYSFS_PATH_MAX in *.
  replace (rget (Q ++ SLASH :: (y :: c2) ++ 0 :: r2) (zlen Q + 1)) with (Ok y) by (symmetry; zat). cbn [mbind res_bind].
  apply Forall_cons_1 in Hc as [[Hy _] _]. rewrite (proj2 (Z.eqb_neq _ _) Hy), andb_false_r. cbn [mbind res_bind].
  set (old := c2 ++ 0 :: r2). replace (Q ++ SLASH :: (y :: c2) ++ 0 :: r2) with ((Q ++ [SLASH]) ++ y :: old) by (by rewrite <- app_assoc).
  rewrite rset_mid by zl. cbn [mbind res_bind]. rewrite Hd.
  assert (Eo : zlen Q + 1 + (1 + zlen old) = 256).
  { rewrite <- Hz. unfold old. rewrite !zlen_app, !zlen_cons, !zlen_app, !zlen_cons. lia. }
  replace (zlen Q + 1) with (zlen (Q ++ [SLASH])) by zl.
  rewrite my_strncpy_run; [|done|zl..]. rewrite take_ge; [|rewrite zlen_app; change (zlen [SLASH]) with 1; unfold zlen in *; lia].
  eexists. by rewrite <- app_assoc.
Qed.
End link.

(** ** The text of a link in its buffer *)

Lemma link_text (linkpath text : list Z) : zlen text < zlen linkpath -> zlen linkpath = SYSFS_PATH_MAX ->
  exists lr, rset (take (Z.to_nat SYSFS_PATH_MAX) text ++ drop (length (take (Z.to_nat SYSFS_PATH_MAX) text)) linkpath)
    (zlen (take (Z.to_nat SYSFS_PATH_MAX) text)) 0 = Ok (text ++ 0 :: lr).
Proof.
  intros Hl Hz. rewrite take_ge by (unfold zlen, SYSFS_PATH_MAX in *; lia).
  destruct (drop (length text) linkpath) as [|x lr] eqn:E.
  - apply (f_equal length) in E. rewrite length_drop in E. unfold zlen in *. cbn in E. lia.
  - exists lr. by rewrite rset_mid.
Qed.

Lemma head_of_link k x tl lr : x <> SLASH -> exists h, rget ((ups k ++ x :: tl) ++ 0 :: lr) 0 = Ok h /\ h <> SLASH.
Proof. intros Hx. destruct k as [|k]; [by exists x|]. by exists DOT. Qed.

(** The target of a link whose text climbs [k] directories and then goes down [x :: tl].
    The link is in the directory of the components [dirs], and no directory the text
    climbs through is a link itself: the call ends and [target] gets the directory that
    is left, a slash and the rest of the text, cut to its length. *)
Theorem sysfs_get_link_spec `{sysfs_fs} (fuel k : nat) (devdir linkpath path target tl name : list Z) (dirs : list (list Z)) (x len : Z)
    (Hdev : zlen devdir = SYSFS_PATH_MAX) (Hlink : zlen linkpath = SYSFS_PATH_MAX)
    (Hpath : holds path (path_of (dirs ++ [name]))) (Hfit : zlen (path_of (dirs ++ [name])) < SYSFS_PATH_MAX)
    (Hdirs : Forall component dirs) (Hname : component name)
    (Hread : fs_readlink (path_of (dirs ++ [name])) = Some (ups k ++ x :: tl))
    (Htext : zlen (ups k ++ x :: tl) < SYSFS_PATH_MAX) (Htl : nz (x :: tl)) (Hx : x <> DOT /\ x <> SLASH)
    (Hk : (k <= length dirs)%nat)
    (Hup : forall j, (length dirs - k < j <= length dirs)%nat -> fs_lstat (path_of (take j dirs)) <> Some F_link)
    (Hfuel : (S k < fuel)%nat) (Hlen : 0 < len <= zlen target) :
  let result := path_of (take (length dirs - k) dirs) ++ SLASH :: x :: tl in
  zlen result < SYSFS_PATH_MAX ->
  exists target', sysfs_get_link fuel devdir linkpath path target len = Ok (target', 0) /\
    holds target' (take (Z.to_nat (len - 1)) result).
Proof.
  intros result Hres. destruct fuel as [|fuel]; [lia|]. cbn [sysfs_get_link]. rewrite (proj2 (Z.eqb_neq len 0)) by lia.
  pose proof Hpath as (Hz & rp & Ep). rewrite Ep, c_string_run by done. cbn [mbind res_bind]. rewrite Hread, <- Ep. clear Ep rp.
  destruct (link_text linkpath (ups k ++ x :: tl)) as [lr ->]; [lia|done|]. cbn [mbind res_bind].
  destruct Hx as [Hx1 Hx2]. destruct (head_of_link k x tl lr Hx2) as (h & -> & Hh). cbn [mbind res_bind].
  rewrite (proj2 (Z.eqb_neq _ _) Hh).
  destruct (safestrcpy_run devdir path _ Hpath) as (dev & -> & (_ & r & ->) & Hzd); [rewrite Hdev; unfold SYSFS_PATH_MAX; lia|].
  cbn [mbind res_bind]. rewrite take_ge in * by (rewrite Hdev; unfold zlen, SYSFS_PATH_MAX in *; lia).
  assert (Edev : path_of (dirs ++ [name]) ++ 0 :: r = path_of dirs ++ SLASH :: name ++ 0 :: r) by (by rewrite path_of_snoc, <- app_assoc).
  rewrite Edev in *. rewrite path_of_snoc in Hz. apply list.Forall_app in Hz as [Hz Hzn].
  rewrite strrchr_run; [|done|by apply Forall_cons_1 in Hzn as [_ ?]|apply plain_ns, Hname]. cbn [mbind res_bind default from_option id].
  rewrite <- app_assoc. cbn [app]. set (g := fun p t => _).
  destruct (up_run k fuel g dirs name r [] x (tl ++ 0 :: lr)) as (c2 & r2 & H1 & H2 & H3 & H4); [done|done|lia|apply Hname|apply Hname|done|done|done|].
  cbn [app] in H3. change (zlen (@nil Z)) with 0 in H3. rewrite H3. cbn [mbind res_bind].
  destruct (append_run (path_of (take (length dirs - k) dirs)) c2 r2 (ups k ++ x :: tl ++ 0 :: lr) (zlen (ups k)) (x :: tl) lr)
    as [r3 ->]; [done|done|done|rewrite H4, Hzd; done| | |].
  { unfold zlen. by rewrite Nat2Z.id, drop_app_length. }
  { unfold result in Hres. rewrite zlen_app, zlen_cons in Hres. lia. }
  cbn [mbind res_bind].
  destruct (safestrcpymax_run target (result ++ 0 :: r3) result len) as (t & Et & Ht & _); [|lia|lia|].
  { split; [|by eexists]. unfold result. apply list.Forall_app. split; [by apply path_of_nz, Forall_take|by constructor]. }
  replace (path_of (take (length dirs - k) dirs) ++ SLASH :: (x :: tl) ++ 0 :: r3) with (result ++ 0 :: r3)
    by (unfold result; by rewrite <- app_assoc).
  rewrite Et. by exists t.
Qed.

(** A text of 256 bytes or more is read up to the size of the buffer, and its terminator
    is stored behind the buffer. *)
Lemma sysfs_get_link_overrun `{sysfs_fs} (fuel : nat) (devdir linkpath path target text p : list Z) (len : Z) :
  zlen linkpath = SYSFS_PATH_MAX -> holds path p -> fs_readlink p = Some text -> SYSFS_PATH_MAX <= zlen text -> len <> 0 ->
  sysfs_get_link (S fuel) devdir linkpath path target len = Fault Out_of_bounds.
Proof.
  intros Hl (Hz & r & ->) Hr Ht Hlen. cbn [sysfs_get_link]. rewrite (proj2 (Z.eqb_neq _ _) Hlen), c_string_run by done.
  cbn [mbind res_bind]. rewrite Hr.
  assert (Hg : zlen (take (Z.to_nat SYSFS_PATH_MAX) text) = SYSFS_PATH_MAX) by (rewrite zlen_take_z; unfold SYSFS_PATH_MAX in *; lia).
  unfold rset. rewrite zget_None_ge; [done|apply zlen_nonneg|]. rewrite zlen_app. set (got := take _ _) in *.
  replace (length got) with (Z.to_nat SYSFS_PATH_MAX) by (unfold zlen in Hg; lia). rewrite zlen_drop_z, Hl. lia.
Qed.

(** A link in a directory named without a slash: the [../] stays, although the directory
    it should take is gone. *)
Definition demo_links : sysfs_fs := {|
  fs_lstat p := if bool_decide (p = [100; 47; 108]) then Some F_link else Some F_dir;
  fs_stat p := Some (F_dir, true, true);
  fs_readlink p := if bool_decide (p = [100; 47; 108]) then Some [46; 46; 47; 120]
    else if bool_decide (p = [47; 97; 47; 98; 47; 108]) then Some [46; 46; 47; 46; 46; 47; 120; 47; 121] else None;
  fs_sysfs_env := None;
  fs_mounts := Some [(SYSFS_FSTYPE_NAME, SYSFS_MNT_PATH)]
|}.

Example sysfs_get_link_relative :
  (let H := demo_links in
   '(t, r) ← sysfs_get_link 9 (replicate 256 0) (replicate 256 0) ([100; 47; 108] ++ [0]) (replicate 16 0) 16;
   s ← c_string t; Ok (s, r)) = Ok ([46; 46; 47; 120], 0).
Proof. vm_compute. reflexivity. Qed.

(** /a/b/l is a link to ../../x/y. *)
Lemma sysfs_get_link_spec_witness :
  exists t, @sysfs_get_link demo_links 4 (replicate 256 0) (replicate 256 0) ([47; 97; 47; 98; 47; 108] ++ [0]) (replicate 16 0) 16 = Ok (t, 0) /\
    holds t [47; 120; 47; 121].
Proof.
  apply (@sysfs_get_link_spec demo_links 4 2 (replicate 256 0) (replicate 256 0) ([47; 97; 47; 98; 47; 108] ++ [0]) (replicate 16 0)
    [47; 121] [108] [[97]; [98]] 120 16); try reflexivity; try (vm_compute; lia); try lia.
  - split; [by repeat constructor|by eexists].
  - by repeat constructor.
  - split_and!; try done. by repeat constructor.
  - by repeat constructor.
  - intros j Hj. cbn in Hj. assert (j = 1%nat \/ j = 2%nat) as [-> | ->] by lia; vm_compute; discriminate.
  - split; [lia|vm_compute; discriminate].
Defined.
