(* ===== verification/SysfsAttr.v ===== *)
(** * Attributes and directories of sysfs (sysfsutils/lib/sysfs_attr.c, include/libsysfs.h)

    Attributes with their values, and the sorted lists of the names in a directory and of
    the attributes of a device, on the lists of Dlist.  The heap is the world of Dlist:
    beside nodes and lists it has character buffers, attributes and devices.  Using a
    pointer that is null or was freed is a fault.  The kinds of the files are the class
    [sysfs_fs]; reading, writing and listing them the class [sysfs_io]. *)

From S2P Require Import Prelude StrUtil SysfsUtils Dlist.

(** ** Data *)

Definition SYSFS_METHOD_SHOW : Z := 1.
Definition SYSFS_METHOD_STORE : Z := 2.
Definition sizeof_sysfs_attribute : Z := 336.

Record sysfs_attribute := mk_attr {
  sa_name : list Z;
  sa_path : list Z;
  sa_value : Z;
  sa_len : Z;
  sa_method : Z
}.

(** The first members of every other structure: the path and the list of attributes. *)
Record sysfs_dev := mk_sdev { sd_path : list Z; sd_attrlist : Z }.

(** getpagesize, open (for writing or for reading), read with the bytes, write, close, and
    the entries that opendir and readdir give. *)
Class sysfs_io (Sys : Type) := {
  io_pagesize : Z;
  io_open : Sys -> list Z -> bool -> Sys * Z;
  io_read : Sys -> Z -> Z -> Sys * Z * list Z;
  io_write : Sys -> Z -> list Z -> Sys * Z;
  io_close : Sys -> Z -> Sys;
  io_entries : list Z -> option (list (list Z))
}.

Record senv (Sys : Type) := mk_senv {
  se_bufs : gmap Z (list Z);
  se_attrs : gmap Z sysfs_attribute;
  se_devs : gmap Z sysfs_dev;
  se_sys : Sys
}.
Arguments mk_senv {Sys}.
Arguments se_bufs {Sys}.
Arguments se_attrs {Sys}.
Arguments se_devs {Sys}.
Arguments se_sys {Sys}.

(** The bytes of an array before its terminator. *)
Fixpoint cstr (a : list Z) : list Z :=
  match a with [] => [] | c :: a' => if c =? 0 then [] else c :: cstr a' end.

(** [strncmp(a, b, strlen(a)) < 0] *)
Fixpoint str_before (a b : list Z) : bool :=
  match a, b with
  | x :: a', y :: b' => (x <? y) || ((x =? y) && str_before a' b')
  | _, _ => false
  end.

Section attr.
Context {Sys : Type} `{sysfs_fs} `{sysfs_io Sys}.
Abbreviation env := (senv Sys).
Abbreviation world := (dlworld env).
Implicit Types (w : world) (a l p : Z) (path name : list Z).

Variable malloc : world -> Z -> Z.
(** The addresses of [free], [sysfs_del_name] and [sysfs_del_attribute]. *)
Variables c_free del_name_fn del_attribute_fn : Z.

(** ** The heap *)

Definition set_env w (e : env) : world := mk_dlw (lw_nodes w) (lw_lists w) e.
Definition set_bufs w (b : gmap Z (list Z)) : world :=
  set_env w (mk_senv b (se_attrs (lw_env w)) (se_devs (lw_env w)) (se_sys (lw_env w))).
Definition set_attrs w (m : gmap Z sysfs_attribute) : world :=
  set_env w (mk_senv (se_bufs (lw_env w)) m (se_devs (lw_env w)) (se_sys (lw_env w))).
Definition set_devs w (m : gmap Z sysfs_dev) : world :=
  set_env w (mk_senv (se_bufs (lw_env w)) (se_attrs (lw_env w)) m (se_sys (lw_env w))).
Definition set_sys w (s : Sys) : world :=
  set_env w (mk_senv (se_bufs (lw_env w)) (se_attrs (lw_env w)) (se_devs (lw_env w)) s).

Definition bget w p : res (list Z) :=
  match se_bufs (lw_env w) !! p with Some b => Ok b | None => Fault Out_of_bounds end.
Definition bput w p (b : list Z) : world := set_bufs w (<[p := b]> (se_bufs (lw_env w))).
Definition aget w a : res sysfs_attribute :=
  match se_attrs (lw_env w) !! a with Some A => Ok A | None => Fault Out_of_bounds end.
Definition aput w a (A : sysfs_attribute) : world := set_attrs w (<[a := A]> (se_attrs (lw_env w))).
Definition dvget w (d : Z) : res sysfs_dev :=
  match se_devs (lw_env w) !! d with Some D => Ok D | None => Fault Out_of_bounds end.

Definition calloc w (n : Z) : world * Z :=
  let p := malloc w n in if p =? 0 then (w, 0) else (bput w p (replicate (Z.to_nat n) 0), p).
(** [free] of a buffer; of a null pointer it does nothing. *)
Definition free_buf w p : res world :=
  if p =? 0 then Ok w else _ ← bget w p; Ok (set_bufs w (delete p (se_bufs (lw_env w)))).
(** The buffer moves. *)
Definition realloc w p (n : Z) : res (world * Z) :=
  b ← bget w p;
  let q := malloc w n in
  if q =? 0 then Ok (w, 0)
  else
    w ← free_buf w p;
    Ok (bput w q (take (Z.to_nat n) b ++ replicate (Z.to_nat (n - zlen b)) 0), q).

(** ** Attributes *)

Definition sysfs_close_attribute w a : res world :=
  if a =? 0 then Ok w
  else
    A ← aget w a;
    w ← free_buf w (sa_value A);
    Ok (set_attrs w (delete a (se_attrs (lw_env w)))).

Definition alloc_attribute w : world * Z :=
  let a := malloc w sizeof_sysfs_attribute in
  if a =? 0 then (w, 0)
  else (aput w a (mk_attr (replicate (Z.to_nat SYSFS_NAME_LEN) 0) (replicate (Z.to_nat SYSFS_PATH_MAX) 0) 0 0 0), a).

Definition sysfs_open_attribute w (path : option (list Z)) : res (world * Z) :=
  match path with
  | None => Ok (w, 0)
  | Some path =>
      let '(w, a) := alloc_attribute w in
      if a =? 0 then Ok (w, 0)
      else
        A ← aget w a;
        '(name, r) ← sysfs_get_name_from_path (Some path) (sa_name A) SYSFS_NAME_LEN;
        if negb (r =? 0) then w ← sysfs_close_attribute w a; Ok (w, 0)
        else
          pth ← safestrcpy (sa_path A) path;
          p ← c_string pth;
          match fs_stat p with
          | None => Ok (set_attrs w (delete a (se_attrs (lw_env w))), 0)
          | Some (_, rd, wr) =>
              let method := Z.lor (if rd : bool then SYSFS_METHOD_SHOW else 0) (if wr : bool then SYSFS_METHOD_STORE else 0) in
              Ok (aput w a (mk_attr name pth (sa_value A) (sa_len A) method), a)
          end
  end.

Definition has_method (A : sysfs_attribute) (m : Z) : bool := negb (Z.land (sa_method A) m =? 0).

(** The end of [sysfs_read_attribute]: what was read becomes the value. *)
Definition take_value w a (fbuf length : Z) : res (world * Z) :=
  A ← aget w a;
  w ← (if 0 <? sa_len A then free_buf w (sa_value A) else Ok w);
  let w := aput w a (mk_attr (sa_name A) (sa_path A) (sa_value A) (u16 length) (sa_method A)) in
  '(w, vbuf) ← realloc w fbuf (length + 1);
  if vbuf =? 0 then w ← free_buf w fbuf; Ok (w, -1)
  else Ok (aput w a (mk_attr (sa_name A) (sa_path A) vbuf (u16 length) (sa_method A)), 0).

Definition sysfs_read_attribute w a : res (world * Z) :=
  if a =? 0 then Ok (w, -1)
  else
    A ← aget w a;
    if negb (has_method A SYSFS_METHOD_SHOW) then Ok (w, -1)
    else
      let pgsize := io_pagesize in
      let '(w, fbuf) := calloc w (pgsize + 1) in
      if fbuf =? 0 then Ok (w, -1)
      else
        p ← c_string (sa_path A);
        let '(s, fd) := io_open (se_sys (lw_env w)) p false in
        let w := set_sys w s in
        if fd <? 0 then w ← free_buf w fbuf; Ok (w, -1)
        else
          let '(s, length, bs) := io_read (se_sys (lw_env w)) fd pgsize in
          let w := set_sys w s in
          if length <? 0 then
            let w := set_sys w (io_close s fd) in w ← free_buf w fbuf; Ok (w, -1)
          else if pgsize <? zlen bs then Fault Out_of_bounds
          else
            b ← bget w fbuf;
            let w := bput w fbuf (bs ++ drop (Datatypes.length bs) b) in
            fb ← bget w fbuf;
            same ← (if (0 <? sa_len A) && (sa_len A =? length) then
                      v ← bget w (sa_value A); strncmp_eq (Z.to_nat length) v fb 0
                    else Ok false);
            let w := set_sys w (io_close s fd) in
            if same : bool then w ← free_buf w fbuf; Ok (w, 0) else take_value w a fbuf length.

(** Does the attribute have the value already? *)
Definition same_value w a (new_value : list Z) (len : Z) : res bool :=
  A ← aget w a;
  v ← bget w (sa_value A);
  same ← strncmp_eq (Z.to_nat (sa_len A)) v new_value 0;
  Ok (same && (len =? sa_len A)).

(** The value after a successful write; it is kept only if it can be read. *)
Definition store_value w a (new_value : list Z) (length : Z) : res world :=
  A ← aget w a;
  if has_method A SYSFS_METHOD_SHOW then
    '(w, v) ← (if negb (length =? sa_len A) then realloc w (sa_value A) length else Ok (w, sa_value A));
    let w := aput w a (mk_attr (sa_name A) (sa_path A) v (u16 length) (sa_method A)) in
    b ← bget w v;
    b ← safestrcpymax b new_value length;
    Ok (bput w v b)
  else Ok w.

Definition sysfs_write_attribute w a (new_value : list Z) (len : Z) : res (world * Z) :=
  if (a =? 0) || (len =? 0) then Ok (w, -1)
  else
    A ← aget w a;
    if negb (has_method A SYSFS_METHOD_STORE) then Ok (w, -1)
    else
      let show := has_method A SYSFS_METHOD_SHOW in
      '(w, r) ← (if show then sysfs_read_attribute w a else Ok (w, 0));
      if negb (r =? 0) then Ok (w, -1)
      else
        same ← (if show then same_value w a new_value len else Ok false);
        if same : bool then Ok (w, 0)
        else
          A ← aget w a;
          p ← c_string (sa_path A);
          let '(s, fd) := io_open (se_sys (lw_env w)) p true in
          let w := set_sys w s in
          if fd <? 0 then Ok (w, -1)
          else if zlen new_value <? len then Fault Out_of_bounds
          else
            let '(s, length) := io_write s fd (take (Z.to_nat len) new_value) in
            let w := set_sys w s in
            if length <? 0 then Ok (set_sys w (io_close s fd), -1)
            else if negb (u32 length =? len) && show then
              v ← bget w (sa_value A);
              let '(s, _) := io_write s fd (take (Z.to_nat (sa_len A)) v) in
              Ok (set_sys w (io_close s fd), -1)
            else
              w ← store_value w a new_value length;
              Ok (set_sys w (io_close (se_sys (lw_env w)) fd), 0).

(** ** Lists *)

Definition sysfs_del_name w (name : Z) : res world := free_buf w name.
Definition sysfs_del_attribute w a : res world := sysfs_close_attribute w a.
(** The delete functions of the lists. *)
Definition call_del (f : Z) w (d : Z) : res world :=
  if f =? del_name_fn then sysfs_del_name w d
  else if f =? del_attribute_fn then sysfs_del_attribute w d
  else Fault Out_of_bounds.

Definition buf_of w p : list Z := cstr (default [] (se_bufs (lw_env w) !! p)).
Definition attr_name w a : list Z :=
  match se_attrs (lw_env w) !! a with Some A => cstr (sa_name A) | None => [] end.

Definition sort_char w (new old : Z) : bool := str_before (buf_of w new) (buf_of w old).
Definition sort_list w (new old : Z) : bool := str_before (attr_name w new) (attr_name w old).

(** The name given as the first argument is a string of the caller. *)
Definition attr_name_equal w (name : list Z) (b : Z) : bool :=
  negb (b =? 0) && bool_decide (name = attr_name w b).

Definition sysfs_close_list (fuel : nat) w (list : Z) : res world :=
  if list =? 0 then Ok w else dlist_destroy call_del fuel w list.

(** The path of an entry of a directory. *)
Definition entry_path path name : res (list Z) :=
  f ← safestrcpy (replicate (Z.to_nat SYSFS_PATH_MAX) 0) path;
  f ← safestrcat f [SLASH; 0];
  safestrcat f (name ++ [0]).

Definition is_dots name : bool := bool_decide (name = [DOT]) || bool_decide (name = [DOT; DOT]).

(** A new name in the list, which is made when there is none yet; [None] is the return
    without a list.  A name that cannot be allocated is written to at address 0. *)
Definition add_name (fuel : nat) w (l : Z) name : res (option (world * Z)) :=
  '(w, l) ← (if l =? 0 then dlist_new_with_delete malloc c_free w SYSFS_NAME_LEN del_name_fn else Ok (w, l));
  if l =? 0 then Ok None
  else
    let '(w, p) := calloc w SYSFS_NAME_LEN in
    b ← bget w p;
    b ← safestrcpymax b (name ++ [0]) SYSFS_NAME_LEN;
    let w := bput w p b in
    w ← dlist_unshift_sorted malloc fuel (sort_char w) w l p;
    Ok (Some (w, l)).

(** The loop over the entries of [read_dir_links] and [read_dir_subdirs]; [wanted] is the
    test of the path. *)
Fixpoint names_loop (fuel : nat) (wanted : list Z -> Z) w (l : Z) path (entries : list (list Z)) : res (world * Z) :=
  match entries with
  | [] => Ok (w, l)
  | name :: entries =>
      if is_dots name then names_loop fuel wanted w l path entries
      else
        f ← entry_path path name;
        p ← c_string f;
        if wanted p =? 0 then
          r ← add_name fuel w l name;
          match r with
          | None => Ok (w, 0)
          | Some (w, l) => names_loop fuel wanted w l path entries
          end
        else names_loop fuel wanted w l path entries
  end.

Definition read_dir (fuel : nat) (wanted : list Z -> Z) w (path : option (list Z)) : res (world * Z) :=
  match path with
  | None => Ok (w, 0)
  | Some path =>
      p ← c_string path;
      match io_entries p with
      | None => Ok (w, 0)
      | Some entries => names_loop fuel wanted w 0 path entries
      end
  end.

Definition read_dir_links (fuel : nat) w (path : option (list Z)) : res (world * Z) := read_dir fuel sysfs_path_is_link w path.
Definition read_dir_subdirs (fuel : nat) w (path : option (list Z)) : res (world * Z) := read_dir fuel sysfs_path_is_dir w path.

Definition sysfs_open_directory_list (fuel : nat) w (path : option (list Z)) : res (world * Z) := read_dir_subdirs fuel w path.
Definition sysfs_open_link_list (fuel : nat) w (path : option (list Z)) : res (world * Z) := read_dir_links fuel w path.

(** An attribute that is opened, and read when it can be: what [add_attribute_to_list] and
    [add_attribute] begin with. *)
Definition fetch_attribute w path : res (world * Z) :=
  '(w, a) ← sysfs_open_attribute w (Some path);
  if a =? 0 then Ok (w, 0)
  else
    A ← aget w a;
    '(w, r) ← (if has_method A SYSFS_METHOD_SHOW then sysfs_read_attribute w a else Ok (w, 0));
    if negb (r =? 0) then w ← sysfs_close_attribute w a; Ok (w, 0) else Ok (w, a).

Definition add_attribute_to_list (fuel : nat) w (alist : Z) path : res (world * Z) :=
  '(w, a) ← fetch_attribute w path;
  if a =? 0 then Ok (w, 0)
  else
    '(w, alist) ← (if alist =? 0 then dlist_new_with_delete malloc c_free w sizeof_sysfs_attribute del_attribute_fn else Ok (w, alist));
    w ← dlist_unshift_sorted malloc fuel (sort_list w) w alist a;
    Ok (w, a).

Definition add_attribute (fuel : nat) w (dev : Z) path : res (world * Z) :=
  '(w, a) ← fetch_attribute w path;
  if a =? 0 then Ok (w, 0)
  else
    D ← dvget w dev;
    '(w, l) ← (if sd_attrlist D =? 0 then dlist_new_with_delete malloc c_free w sizeof_sysfs_attribute del_attribute_fn
               else Ok (w, sd_attrlist D));
    let w := set_devs w (<[dev := mk_sdev (sd_path D) l]> (se_devs (lw_env w))) in
    w ← dlist_unshift_sorted malloc fuel (sort_list w) w l a;
    Ok (w, a).

(** The attribute of the name in the list of a device, 0 when there is no list. *)
Definition find_attribute (fuel : nat) w (dev : Z) name : res Z :=
  D ← dvget w dev;
  if sd_attrlist D =? 0 then Ok 0 else dlist_find_custom fuel (fun _ b => attr_name_equal w name b) w (sd_attrlist D) 0.

Definition get_attribute (fuel : nat) w (dev : Z) (name : option (list Z)) : res (world * Z) :=
  match name with
  | None => Ok (w, 0)
  | Some name =>
      if dev =? 0 then Ok (w, 0)
      else
        cur ← find_attribute fuel w dev name;
        if negb (cur =? 0) then Ok (w, cur)
        else
          D ← dvget w dev;
          path ← safestrcpymax (replicate (Z.to_nat SYSFS_PATH_MAX) 0) (sd_path D) SYSFS_PATH_MAX;
          path ← safestrcatmax path [SLASH; 0] SYSFS_PATH_MAX;
          path ← safestrcatmax path (name ++ [0]) SYSFS_PATH_MAX;
          p ← c_string path;
          if sysfs_path_is_file p =? 0 then add_attribute fuel w dev path else Ok (w, cur)
  end.

Fixpoint attributes_loop (fuel : nat) w (alist : Z) path (entries : list (list Z)) : res (world * Z) :=
  match entries with
  | [] => Ok (w, alist)
  | name :: entries =>
      if is_dots name then attributes_loop fuel w alist path entries
      else
        f ← entry_path path name;
        p ← c_string f;
        if sysfs_path_is_file p =? 0 then
          '(w, alist) ← (if alist =? 0 then dlist_new_with_delete malloc c_free w sizeof_sysfs_attribute del_attribute_fn
                         else Ok (w, alist));
          if alist =? 0 then Ok (w, 0)
          else '(w, _) ← add_attribute_to_list fuel w alist f; attributes_loop fuel w alist path entries
        else attributes_loop fuel w alist path entries
  end.

Definition get_attributes_list (fuel : nat) w (alist : Z) (path : option (list Z)) : res (world * Z) :=
  match path with
  | None => Ok (w, 0)
  | Some path =>
      p ← c_string path;
      match io_entries p with
      | None => Ok (w, 0)
      | Some entries => attributes_loop fuel w alist path entries
      end
  end.

Fixpoint dev_attributes_loop (fuel : nat) w (dev : Z) path (entries : list (list Z)) : res world :=
  match entries with
  | [] => Ok w
  | name :: entries =>
      if is_dots name then dev_attributes_loop fuel w dev path entries
      else
        f ← entry_path path name;
        p ← c_string f;
        if sysfs_path_is_file p =? 0 then
          attr ← find_attribute fuel w dev name;
          if negb (attr =? 0) then dev_attributes_loop fuel w dev path entries
          else '(w, _) ← add_attribute fuel w dev f; dev_attributes_loop fuel w dev path entries
        else dev_attributes_loop fuel w dev path entries
  end.

Definition get_dev_attributes_list (fuel : nat) w (dev : Z) : res (world * Z) :=
  if dev =? 0 then Ok (w, 0)
  else
    D ← dvget w dev;
    path ← safestrcpy (replicate (Z.to_nat SYSFS_PATH_MAX) 0) (sd_path D);
    p ← c_string path;
    match io_entries p with
    | None => Ok (w, 0)
    | Some entries =>
        w ← dev_attributes_loop fuel w dev path entries;
        D ← dvget w dev;
        Ok (w, sd_attrlist D)
    end.
End attr.
