(* ===== verification/SysfsAttrSpec.v ===== *)
(** * Directories of sysfs: theorems

    The names in a directory become an ordered list, and closing the list gives back
    everything that opening it took. *)

From stdpp Require Import sorting.
From S2P Require Import Prelude.
From S2P Require Import StrUtil SysfsUtils SysfsSpec Dlist DlistRep DlistSpec DlistProps SysfsAttr.

(** ** Strings *)

Lemma cstr_holds a s : holds a s -> cstr a = s.
Proof.
  intros (Hs & r & ->). induction Hs as [|c s Hc Hs IH]; cbn; [done|]. by rewrite (proj2 (Z.eqb_neq _ _) Hc), IH.
Qed.

(** The first place in which two strings differ. *)
Definition first_diff (a b : list Z) : option (Z * Z) := List.find (fun p => negb (p.1 =? p.2)) (zip a b).

(** The name goes before [b]: it has the smaller byte where they differ first, within the
    length of both. *)
Definition goes_before (a b : list Z) : bool :=
  match first_diff a b with Some (x, y) => x <? y | None => false end.

Lemma str_before_diff a b : str_before a b = goes_before a b.
Proof.
  revert b. induction a as [|x a IH]; intros [|y b]; [done..|]. cbn [str_before].
  unfold goes_before, first_diff in *. cbn [zip List.find fst snd]. rewrite IH.
  destruct (Z.eqb_spec x y) as [->|Hne]; cbn [negb]; [by rewrite Z.ltb_irrefl|]. by rewrite orb_false_r.
Qed.

(** The new name is put before the first one it goes before. *)
Fixpoint put_name (n : list Z) (l : list (list Z)) : list (list Z) :=
  match l with [] => [n] | o :: l' => if goes_before n o then n :: o :: l' else o :: put_name n l' end.

(** The list of the names, which come one after the other. *)
Definition put_names (l names : list (list Z)) : list (list Z) := foldl (fun l n => put_name n l) l names.

Lemma put_name_place n l1 l2 : Forall (fun o => goes_before n o = false) l1 ->
  match l2 with [] => True | o :: _ => goes_before n o = true end -> put_name n (l1 ++ l2) = l1 ++ n :: l2.
Proof.
  intros H1 H2. induction H1 as [|o l1 Ho _ IH]; cbn [app put_name]; [|by rewrite Ho, IH].
  destruct l2 as [|o l2]; [done|]. cbn [put_name]. by rewrite H2.
Qed.

Lemma put_name_perm n l : put_name n l ≡ₚ n :: l.
Proof.
  induction l as [|o l IH]; cbn [put_name]; [done|]. destruct (goes_before n o); [done|]. rewrite IH. constructor.
Qed.

Lemma put_names_perm names : forall l, put_names l names ≡ₚ names ++ l.
Proof.
  induction names as [|n names IH]; intros l; cbn; [done|]. rewrite IH, put_name_perm. by rewrite Permutation_middle.
Qed.

(** *** Alphabetical order *)

(** The order of dictionaries, [strcmp(a, b) <= 0]: the byte where two strings differ first
    decides, and a string goes before its extensions. *)
Fixpoint alphabetical (a b : list Z) : Prop :=
  match a, b with
  | [], _ => True
  | _ :: _, [] => False
  | x :: a', y :: b' => x < y \/ (x = y /\ alphabetical a' b')
  end.

#[export] Instance alphabetical_trans : Transitive alphabetical.
Proof.
  intros a. induction a as [|x a IH]; intros [|y b] [|z c]; cbn; try done. intros [H1|[-> H1]] [H2|[-> H2]].
  - left. lia.
  - by left.
  - by left.
  - right. split; [done|]. by apply (IH b).
Qed.

(** Neither of two names is a proper part of the other's start. *)
Definition not_prefix (a b : list Z) : Prop := a `prefix_of` b -> a = b.

Lemma goes_before_alpha a b : goes_before a b = true -> alphabetical a b.
Proof.
  rewrite <- str_before_diff. revert b. induction a as [|x a IH]; intros [|y b] H; try done. cbn in *.
  apply orb_true_iff in H as [H|[H1 H2]%andb_true_iff]; zbool; [by left|]. right. auto.
Qed.

Lemma not_before_alpha a b : not_prefix a b -> goes_before a b = false -> alphabetical b a.
Proof.
  rewrite <- str_before_diff. revert b. induction a as [|x a IH]; intros [|y b] Hp H; try done; cbn in *.
  - specialize (Hp (prefix_nil _)). done.
  - apply orb_false_iff in H as [H1 H2]. zbool. destruct (Z.eqb_spec x y) as [->|Hne]; [|left; lia].
    right. split; [done|]. apply IH; [|done]. intros Hpre. specialize (Hp (prefix_cons _ _ _ Hpre)). by injection Hp.
Qed.

Lemma put_name_sorted n l : Forall (not_prefix n) l -> Sorted alphabetical l -> Sorted alphabetical (put_name n l).
Proof.
  intros Hp. induction Hp as [|o l Ho Hp IH]; intros [Hs Hh]%Sorted_inv || intros Hs; cbn [put_name]; [by repeat constructor|].
  destruct (goes_before n o) eqn:E.
  - constructor; [by constructor|]. constructor. by apply goes_before_alpha.
  - constructor; [by apply IH|]. pose proof (not_before_alpha n o Ho E) as Hon.
    destruct l as [|o' l]; cbn [put_name]; [by constructor|]. destruct (goes_before n o'); constructor; [done|].
    by apply HdRel_inv in Hh.
Qed.

Lemma put_names_sorted names : forall l, Sorted alphabetical l ->
  (forall a b, a ∈ names -> b ∈ names ++ l -> not_prefix a b) -> Sorted alphabetical (put_names l names).
Proof.
  induction names as [|n names IH]; intros l Hs Hp; [done|]. cbn. apply IH.
  - apply put_name_sorted; [|done]. apply list.Forall_forall. intros b Hb. apply Hp; [left|]. set_solver.
  - intros a b Ha Hb. apply Hp; [by right|]. rewrite put_name_perm in Hb. set_solver.
Qed.

(** The path of an entry; of the name as many bytes stay as twice the length of the path
    leaves of the buffer. *)
Lemma entry_path_run path p name : holds path p -> zlen p <= 126 -> nz name ->
  exists f, entry_path path name = Ok f /\ holds f (p ++ SLASH :: take (Z.to_nat (252 - 2 * zlen p)) name).
Proof.
  intros Hp Hl Hn. destruct (tmp_run path p Hp ltac:(unfold SYSFS_PATH_MAX; lia)) as [r0 E0]. pose proof (zlen_nonneg p) as H0.
  unfold entry_path. rewrite E0. cbn [mbind res_bind].
  assert (Hz : zlen (p ++ 0 :: r0) = 256).
  { destruct (safestrcpy_run (replicate (Z.to_nat SYSFS_PATH_MAX) 0) path p Hp) as (t & E & _ & Ht); [by rewrite zlen_replicate|].
    rewrite E0 in E. injection E as <-. rewrite Ht. by rewrite zlen_replicate. }
  destruct (safestrcat_run (p ++ 0 :: r0) p [SLASH; 0] [SLASH]) as (f1 & E1 & H1 & Z1);
    [split; [apply Hp|by eexists]|split; [by repeat constructor|by exists []]|lia|rewrite Hz; by vm_compute|].
  rewrite E1. cbn [mbind res_bind]. rewrite Hz in *. unfold cat_string in H1.
  rewrite (proj2 (Z.ltb_lt _ _)), take_ge in H1 by (cbn; lia).
  destruct (safestrcat_run f1 (p ++ [SLASH]) (name ++ [0]) name) as (f2 & E2 & H2 & _);
    [done|split; [done|by exists []]|rewrite Z1, zlen_app; change (zlen [SLASH]) with 1; lia|rewrite Z1; by vm_compute|].
  exists f2. split; [done|]. rewrite Z1 in H2. unfold cat_string in H2. rewrite zlen_app in H2. change (zlen [SLASH]) with 1 in H2.
  rewrite (proj2 (Z.ltb_lt _ _)) in H2 by lia. rewrite <- app_assoc in H2. cbn [app] in H2.
  by replace (256 - (zlen p + 1) - 1 - (zlen p + 1) - 1) with (252 - 2 * zlen p) in H2 by lia.
Qed.

(** ** Allocation *)

(** Buffers and attributes are fresh too, and there is always memory. *)
Class HeapFresh {Sys : Type} (malloc : dlworld (senv Sys) -> Z -> Z) : Prop := {
  heap_fresh w n : se_bufs (lw_env w) !! malloc w n = None /\ se_attrs (lw_env w) !! malloc w n = None;
  heap_nonzero w n : malloc w n <> 0
}.

Lemma new_drep {Env} (malloc : dlworld Env -> Z -> Z) `{!MallocFresh malloc} c_free w size f : malloc w sizeof_dlist <> 0 ->
  let l := malloc w sizeof_dlist in
  let L := mk_dlist 0 0 size f (l + HEADNODE) in
  let w' := mk_dlw (<[l + HEADNODE := mk_node 0 0 0]> (lw_nodes w)) (<[l := L]> (lw_lists w)) (lw_env w) in
  dlist_new_with_delete malloc c_free w size f = Ok (w', l) /\ drep w' l L [].
Proof.
  intros Hm l L w'. destruct (malloc_fresh w _ Hm) as (F1 & F2 & F3 & F4 & F5). split.
  - unfold dlist_new_with_delete, dlist_new. fold l. rewrite (proj2 (Z.eqb_neq l 0) Hm). cbn [negb].
    unfold put_del_func, lget. cbn [lw_lists]. rewrite lookup_insert_eq. cbn [mbind res_bind]. rewrite (proj2 (Z.eqb_neq l 0) Hm).
    cbn [negb]. unfold set_lists. cbn [lw_nodes lw_lists lw_env dl_marker dl_count dl_data_size dl_head]. by rewrite insert_insert_eq.
  - split; cbn [lw_lists lw_nodes w' L dl_head dl_count].
    + apply lookup_insert_eq.
    + done.
    + done.
    + done.
    + by vm_compute.
    + unfold dt. by rewrite lookup_insert_eq.
    + constructor.
    + right. split; [done|]. unfold virgin, MetalList.nx, MetalList.pv, lk. by rewrite !lookup_fmap, lookup_insert_eq.
Qed.

Section names.
Context {Sys : Type} `{sysfs_fs} `{sysfs_io Sys}.
Abbreviation world := (dlworld (senv Sys)).
Variable malloc : world -> Z -> Z.
Context `{!MallocFresh malloc} `{!HeapFresh malloc}.
Variables c_free del_name_fn del_attribute_fn : Z.
Implicit Types (w : world) (xs : list (Z * Z)) (names : list (list Z)).

(** The rest of the program: the attributes, the devices and the system. *)
Definition same_rest w w' : Prop :=
  se_attrs (lw_env w') = se_attrs (lw_env w) /\ se_devs (lw_env w') = se_devs (lw_env w) /\ se_sys (lw_env w') = se_sys (lw_env w).

(** The list [l] of the names [names], in order, is all that [w] has more than [w0]. *)
Record names_in w0 w (l : Z) names : Prop := {
  ni_list : exists L xs, drep w l L xs /\ dl_del_func L = del_name_fn /\ lw_lists w = <[l := L]> (lw_lists w0) /\
    length xs = length names /\ NoDup xs.*2 /\
    (forall d, d ∈ xs.*2 -> se_bufs (lw_env w0) !! d = None /\ is_Some (se_bufs (lw_env w) !! d)) /\
    (forall d, d ∉ xs.*2 -> se_bufs (lw_env w) !! d = se_bufs (lw_env w0) !! d) /\
    (forall q, q ∈ l + HEADNODE :: xs.*1 -> lw_nodes w0 !! q = None) /\
    (forall q, q ∉ l + HEADNODE :: xs.*1 -> lw_nodes w !! q = lw_nodes w0 !! q) /\
    map (buf_of w) xs.*2 = names;
  ni_new : lw_lists w0 !! l = None;
  ni_rest : same_rest w0 w
}.

Lemma names_new w : let l := malloc w sizeof_dlist in
  let L := mk_dlist 0 0 SYSFS_NAME_LEN del_name_fn (l + HEADNODE) in
  let w' := mk_dlw (<[l + HEADNODE := mk_node 0 0 0]> (lw_nodes w)) (<[l := L]> (lw_lists w)) (lw_env w) in
  dlist_new_with_delete malloc c_free w SYSFS_NAME_LEN del_name_fn = Ok (w', l) /\ names_in w w' l [] /\ l <> 0.
Proof.
  intros l L w'. pose proof (heap_nonzero w sizeof_dlist) as Hm. destruct (new_drep malloc c_free w SYSFS_NAME_LEN del_name_fn Hm) as [R D].
  destruct (malloc_fresh w _ Hm) as (F1 & F2 & F3 & F4 & F5). split_and!; [exact R| |exact Hm]. split; [|exact F3|done].
  exists L, []. split_and!; try done.
  - constructor.
  - intros d ?%not_elem_of_nil. done.
  - intros q ->%list_elem_of_singleton. exact F4.
  - intros q Hq. cbn. apply lookup_insert_ne. intros <-. apply Hq. left.
Qed.

(** A buffer that is fresh leaves the strings of the list as they are. *)
Lemma buf_of_bput w p b d : d <> p -> buf_of (bput w p b) d = buf_of w d.
Proof. intros Hd. unfold buf_of, bput, set_bufs, set_env. cbn. by rewrite lookup_insert_ne. Qed.
Lemma buf_of_bput_eq w p b : buf_of (bput w p b) p = cstr b.
Proof. unfold buf_of, bput, set_bufs, set_env. cbn. by rewrite lookup_insert_eq. Qed.
Lemma bget_bput w p b : bget (bput w p b) p = Ok b.
Proof. unfold bget, bput, set_bufs, set_env. cbn [lw_env se_bufs]. by rewrite lookup_insert_eq. Qed.
Lemma bput_bput w p b b' : bput (bput w p b) p b' = bput w p b'.
Proof. unfold bput, set_bufs, set_env. cbn [lw_env se_bufs lw_nodes lw_lists se_attrs se_devs se_sys]. by rewrite insert_insert_eq. Qed.

(** The new name in its buffer. *)
Lemma name_buffer w name : nz name -> let p := malloc w SYSFS_NAME_LEN in
  exists b, holds b (take 63 name) /\
    forall (B : Type) (k : world * Z -> res B), 
    (let '(w1, p) := calloc malloc w SYSFS_NAME_LEN in
     b ← bget w1 p; b ← safestrcpymax b (name ++ [0]) SYSFS_NAME_LEN; k (bput w1 p b, p)) = k (bput w p b, p).
Proof.
  intros Hn p. unfold calloc. fold p. pose proof (heap_nonzero w SYSFS_NAME_LEN) as Hp. fold p in Hp.
  destruct (safestrcpymax_run (replicate (Z.to_nat SYSFS_NAME_LEN) 0) (name ++ [0]) name SYSFS_NAME_LEN) as (b & E & Hb & _);
    [split; [done|by exists []]|done|rewrite zlen_replicate; unfold SYSFS_NAME_LEN; lia|].
  exists b. split; [done|]. intros B k. rewrite (proj2 (Z.eqb_neq _ _) Hp), bget_bput. cbn [mbind res_bind]. rewrite E. cbn [mbind res_bind].
  by rewrite bput_bput.
Qed.

(** Where the list puts a new element, [put_name] puts its name. *)
Lemma place_names (before : Z -> Z -> bool) (f : Z -> list Z) q p (a c : list (Z * Z)) :
  (forall x, before p x = str_before (f p) (f x)) -> place before p a c ->
  map f (a ++ (q, p) :: c).*2 = put_name (f p) (map f (a ++ c).*2).
Proof.
  intros Hb [Ha Hc]. rewrite !fmap_app. cbn [fmap list_fmap map snd]. symmetry. apply put_name_place.
  - apply list.Forall_forall. intros o Ho. apply list_elem_of_fmap in Ho as (x & -> & Hx).
    apply list_elem_of_fmap in Hx as (y & -> & Hy). rewrite list.Forall_forall in Ha.
    rewrite <- str_before_diff, <- Hb. by apply Ha.
  - destruct c as [|y c]; [done|]. cbn. by rewrite <- str_before_diff, <- Hb.
Qed.

Lemma add_name_run fuel w0 w l names name :
  names_in w0 w l names -> l <> 0 -> nz name -> is_u64 (zlen names + 1) -> (length names < fuel)%nat ->
  exists w', add_name malloc c_free del_name_fn fuel w l name = Ok (Some (w', l)) /\ names_in w0 w' l (put_name (take 63 name) names).
Proof.
  intros [(L & xs & D & Hf & Hls & Hlen & Hnd & B1 & B2 & N1 & N2 & <-) Hnew Hrest] Hl Hn Hu Hfuel.
  rewrite length_map, length_fmap in Hlen. unfold zlen in Hu. rewrite length_map, length_fmap in Hu, Hfuel.
  set (p := malloc w SYSFS_NAME_LEN). destruct (name_buffer w name Hn) as (b & Hb & Eb).
  destruct (heap_fresh w SYSFS_NAME_LEN) as [Fb _]. fold p in Fb. pose proof (heap_nonzero w SYSFS_NAME_LEN) as Hp.
  unfold add_name. rewrite (proj2 (Z.eqb_neq _ _) Hl). cbn [mbind res_bind]. rewrite (proj2 (Z.eqb_neq _ _) Hl).
  rewrite (Eb _ (fun '(w, p) => w ← dlist_unshift_sorted malloc fuel (sort_char w) w l p; Ok (Some (w, l)))). fold p. set (w2 := bput w p b).
  assert (D2 : drep w2 l L xs) by (apply (drep_frame w w2 l L L xs D); [apply D|done..]).
  assert (Hpx : p ∉ xs.*2).
  { intros Hin. destruct (B1 p Hin) as [_ [? Hs]]. congruence. }
  destruct (unshift_sorted_run malloc (sort_char w2) fuel w2 l L xs p D2 Hp Hu heap_nonzero ltac:(lia))
    as (w' & L' & a & c & q & R & Exs & Hpl & D' & (A1 & A2 & A3 & A4 & A5 & A6)).
  exists w'. rewrite R. split; [done|]. split; [|done|by unfold same_rest; rewrite A1].
  assert (Hmap : map (buf_of w') xs.*2 = map (buf_of w) xs.*2).
  { apply map_ext_in. intros d Hd%list_elem_of_In. unfold buf_of. rewrite A1.
    apply (buf_of_bput w p b d). intros ->. done. }
  assert (Hnew' : buf_of w' p = take 63 name) by (unfold buf_of; rewrite A1; unfold w2; rewrite <- (cstr_holds _ _ Hb); apply buf_of_bput_eq).
  set (ys := a ++ (q, p) :: c) in *. assert (Hys : ys ≡ₚ (q, p) :: xs) by (unfold ys; by rewrite <- Permutation_middle, <- Exs).
  assert (H1 : ys.*1 ≡ₚ q :: xs.*1) by (by rewrite Hys). assert (H2 : ys.*2 ≡ₚ p :: xs.*2) by (by rewrite Hys).
  assert (Hbuf : forall d, d <> p -> se_bufs (lw_env w') !! d = se_bufs (lw_env w) !! d).
  { intros d Hd. rewrite A1. cbn. by apply lookup_insert_ne. }
  assert (Hq : q ∉ l + HEADNODE :: xs.*1).
  { intros Hin. destruct (drep_allocated w2 l L xs q D2 Hin). congruence. }
  exists L', ys. split_and!.
  - exact D'.
  - by rewrite A5.
  - rewrite A2. cbn. by rewrite Hls, insert_insert_eq.
  - rewrite (Permutation_length Hys), put_name_perm. cbn. by rewrite length_map, length_fmap.
  - rewrite H2. apply list.NoDup_cons. done.
  - intros d Hd. rewrite H2 in Hd. apply elem_of_cons in Hd as [->|Hd].
    + split; [by rewrite <- B2|]. rewrite A1. cbn. rewrite lookup_insert_eq. eauto.
    + rewrite Hbuf by (intros ->; done). by apply B1.
  - intros d Hd. rewrite H2 in Hd. apply not_elem_of_cons in Hd as [Hdp Hd]. rewrite Hbuf by done. by apply B2.
  - intros x Hx. rewrite H1 in Hx. destruct (decide (x = q)) as [->|Hxq]; [by rewrite <- N2|]. apply N1. set_solver.
  - intros x Hx. rewrite H1 in Hx. rewrite A4 by set_solver. apply N2. set_solver.
  - rewrite <- Hmap, Exs, <- Hnew'. apply (place_names (sort_char w2)); [|exact Hpl].
    intros x. unfold sort_char, buf_of. by rewrite A1.
Qed.

(** The names of the entries that are wanted. *)
Definition found (wanted : list Z -> Z) (p : list Z) (entries : list (list Z)) : list (list Z) :=
  filter (fun n => is_dots n = false /\ wanted (p ++ SLASH :: n) = 0) entries.

(** An entry whose path fits. *)
Definition fits (p n : list Z) : Prop := nz n /\ zlen n <= 252 - 2 * zlen p.

(** One entry: skipped, or its name is added. *)
Lemma names_step fuel wanted w l path p n entries : holds path p -> zlen p <= 126 -> fits p n ->
  names_loop malloc c_free del_name_fn fuel wanted w l path (n :: entries) =
    if decide (is_dots n = false /\ wanted (p ++ SLASH :: n) = 0) then
      r ← add_name malloc c_free del_name_fn fuel w l n;
      match r with
      | None => Ok (w, 0)
      | Some (w, l) => names_loop malloc c_free del_name_fn fuel wanted w l path entries
      end
    else names_loop malloc c_free del_name_fn fuel wanted w l path entries.
Proof.
  intros Hp Hl [Hn Hz]. cbn [names_loop]. destruct (is_dots n); [by rewrite decide_False by (intros [? _]; done)|].
  destruct (entry_path_run path p n Hp Hl Hn) as (f & Ef & (Hf & r & ->)). rewrite Ef. cbn [mbind res_bind].
  rewrite take_ge in * by (unfold zlen in *; lia). rewrite c_string_run by done. cbn [mbind res_bind].
  destruct (Z.eqb_spec (wanted (p ++ SLASH :: n)) 0) as [E|E]; [by rewrite decide_True|].
  by rewrite decide_False by (intros [_ ?]; done).
Qed.

Lemma names_loop_run fuel wanted w0 path p entries : holds path p -> zlen p <= 126 -> Forall (fits p) entries -> forall w l names,
  names_in w0 w l names -> l <> 0 -> is_u64 (zlen names + zlen entries + 1) -> (length names + length entries < fuel)%nat ->
  exists w', names_loop malloc c_free del_name_fn fuel wanted w l path entries = Ok (w', l) /\
    names_in w0 w' l (put_names names (map (take 63) (found wanted p entries))).
Proof.
  intros Hp Hl. induction 1 as [|n entries Hn _ IH]; intros w l names Hin Hnz Hu Hf.
  { by exists w. }
  pose proof (zlen_nonneg entries) as H1. pose proof (zlen_nonneg names) as H2. unfold is_u64 in *. rewrite zlen_cons in Hu. cbn [length] in Hf.
  rewrite (names_step fuel wanted w l path p n entries Hp Hl Hn). unfold found. rewrite filter_cons. case_decide as Hd.
  - destruct (add_name_run fuel w0 w l names n Hin Hnz) as (w1 & R & Hin1); [apply Hn|unfold is_u64; lia|lia|].
    rewrite R. cbn [mbind res_bind]. destruct (IH w1 l _ Hin1 Hnz) as (w' & R' & Hin');
      [unfold zlen in *; rewrite put_name_perm; cbn [length]; lia|rewrite put_name_perm; cbn [length]; lia|].
    exists w'. split; [exact R'|]. exact Hin'.
  - apply IH; try done; lia.
Qed.

(** The list is made with the first name. *)
Lemma add_name_first fuel w name : exists w' l, names_in w w' l [] /\ l <> 0 /\
  add_name malloc c_free del_name_fn fuel w 0 name = add_name malloc c_free del_name_fn fuel w' l name.
Proof.
  destruct (names_new w) as (R & Hin & Hl). eexists _, _. split_and!; [exact Hin|exact Hl|]. unfold add_name. rewrite Z.eqb_refl, R.
  cbn [mbind res_bind]. rewrite (proj2 (Z.eqb_neq _ 0) Hl). cbn [mbind res_bind]. by rewrite (proj2 (Z.eqb_neq _ 0) Hl).
Qed.

Lemma names_loop_start fuel wanted w path p entries : holds path p -> zlen p <= 126 -> Forall (fits p) entries ->
  is_u64 (zlen entries + 1) -> (length entries < fuel)%nat -> let ns := found wanted p entries in
  exists w' l, names_loop malloc c_free del_name_fn fuel wanted w 0 path entries = Ok (w', l) /\
    ((ns = [] /\ l = 0 /\ w' = w) \/ (ns <> [] /\ l <> 0 /\ names_in w w' l (put_names [] (map (take 63) ns)))).
Proof.
  intros Hp Hl He Hu Hf ns. unfold ns. clear ns. induction He as [|n entries Hn He IH].
  { exists w, 0. split; [done|]. by left. }
  pose proof (zlen_nonneg entries) as H1. unfold is_u64 in *. rewrite zlen_cons in Hu. cbn [length] in Hf.
  rewrite (names_step fuel wanted w 0 path p n entries Hp Hl Hn). unfold found. rewrite filter_cons. case_decide as Hd; [|apply IH; lia].
  destruct (add_name_first fuel w n) as (w1 & l & Hin & Hnz & ->).
  destruct (add_name_run fuel w w1 l [] n Hin Hnz) as (w2 & R & Hin2); [apply Hn|by vm_compute|cbn; lia|].
  rewrite R. cbn [mbind res_bind].
  destruct (names_loop_run fuel wanted w path p entries Hp Hl He w2 l [take 63 n] Hin2 Hnz) as (w' & R' & Hin');
    [unfold is_u64; change (zlen [take 63 n]) with 1; lia|cbn; lia|].
  exists w', l. split; [exact R'|]. right. split_and!; [done|done|]. exact Hin'.
Qed.

(** ** Closing the list *)

Definition del_name (e : senv Sys) (d : Z) : senv Sys :=
  mk_senv (delete d (se_bufs e)) (se_attrs e) (se_devs e) (se_sys e).

Lemma names_deletes ds e : NoDup ds -> (forall d, d ∈ ds -> d <> 0 /\ is_Some (se_bufs e !! d)) ->
  deletes (call_del del_name_fn del_attribute_fn) del_name_fn del_name e ds.
Proof.
  revert e. induction ds as [|d ds IH]; intros e Hnd Hd; [done|]. apply list.NoDup_cons in Hnd as [Hn Hnd].
  destruct (Hd d) as [Hd0 [b Hb]]; [left|]. split.
  - intros w <-. unfold call_del, sysfs_del_name, free_buf, bget. rewrite Z.eqb_refl, (proj2 (Z.eqb_neq d 0)), Hb by done. done.
  - apply IH; [done|]. intros d' Hd'. cbn. rewrite lookup_delete_ne by (intros ->; done). apply Hd. by right.
Qed.

Lemma foldl_del_name ds e : foldl del_name e ds = mk_senv (foldl (fun m d => delete d m) (se_bufs e) ds) (se_attrs e) (se_devs e) (se_sys e).
Proof. revert e. induction ds as [|d ds IH]; intros e; cbn; [by destruct e|]. by rewrite IH. Qed.
Lemma lookup_foldl_delete (ds : list Z) (m : gmap Z (list Z)) q :
  foldl (fun m d => delete d m) m ds !! q = if decide (q ∈ ds) then None else m !! q.
Proof.
  revert m. induction ds as [|d ds IH]; intros m; cbn; [by rewrite decide_False by apply not_elem_of_nil|].
  rewrite IH. destruct (decide (q = d)) as [->|Hne].
  - rewrite (decide_True (P := d ∈ d :: ds)) by left. case_decide; [done|]. apply lookup_delete_eq.
  - rewrite lookup_delete_ne by done. destruct (decide (q ∈ ds)); [rewrite decide_True by (by right)|rewrite decide_False by set_solver]; done.
Qed.

(** Closing the list leaves the world as it was before the list was made. *)
Lemma names_close fuel w0 w l names : names_in w0 w l names -> l <> 0 -> (length names < fuel)%nat ->
  sysfs_close_list del_name_fn del_attribute_fn fuel w l = Ok w0.
Proof.
  intros [(L & xs & D & Hf & Hls & Hlen & Hnd & B1 & B2 & N1 & N2 & _) Hnew (R1 & R2 & R3)] Hl Hfuel.
  unfold sysfs_close_list. rewrite (proj2 (Z.eqb_neq _ _) Hl).
  destruct (destroy_run (call_del del_name_fn del_attribute_fn) fuel w l L xs del_name D) as (w' & -> & E1 & E2 & E3 & E4).
  - rewrite Hf. apply names_deletes; [done|]. intros d Hd. split; [|by apply B1].
    apply list_elem_of_fmap in Hd as (x & -> & Hx). pose proof (dr_nodes _ _ _ _ D) as Hall.
    rewrite list.Forall_forall in Hall. by apply Hall.
  - lia.
  - f_equal. destruct w' as [h' ls' e']. destruct w0 as [h0 ls0 [b0 a0 d0 s0]]. cbn in *. f_equal.
    + apply map_eq. intros q. destruct (decide (q ∈ l + HEADNODE :: xs.*1)) as [Hq|Hq].
      * by rewrite (E3 q Hq), (N1 q Hq).
      * by rewrite (E4 q Hq), (N2 q Hq).
    + rewrite E1, Hls. by apply delete_insert_id.
    + rewrite E2, foldl_del_name, R1, R2, R3. f_equal. apply map_eq. intros q. rewrite lookup_foldl_delete.
      case_decide as Hq; [symmetry; by apply B1|by apply B2].
Qed.
End names.

(** ** Properties *)

(** C32: The list of the links in a directory has the name of every entry that is a link, cut to
    63 bytes, once, each put before the first name it goes before; it is null when there
    is none.  When no name is the start of another one, this is the alphabetical order
    that libsysfs.h promises (in general it is not: see [link_list_not_alphabetical]).
    Closing the list gives back every list, node and buffer: the world is the one before
    the list was opened.  The path has at most 126 bytes, and the names fit behind it. *)
Theorem sysfs_link_list_roundtrip {Sys : Type} `{sysfs_fs} `{sysfs_io Sys} (malloc : dlworld (senv Sys) -> Z -> Z)
    `{!MallocFresh malloc} `{!HeapFresh malloc} (c_free del_name_fn del_attribute_fn : Z) (fuel : nat) (w : dlworld (senv Sys))
    (path p : list Z) (entries : list (list Z))
    (Hp : holds path p) (Hl : zlen p <= 126) (Hdir : io_entries p = Some entries) (He : Forall (fits p) entries)
    (Hu : is_u64 (zlen entries + 1)) (Hf : (length entries < fuel)%nat) :
  let links := found sysfs_path_is_link p entries in
  exists w' l, sysfs_open_link_list malloc c_free del_name_fn fuel w (Some path) = Ok (w', l) /\
    (links = [] -> l = 0) /\
    (links <> [] -> exists L xs, let names := map (buf_of w') xs.*2 in
       drep w' l L xs /\ names = put_names [] (map (take 63) links) /\ names ≡ₚ map (take 63) links /\
       ((forall a b, a ∈ names -> b ∈ names -> not_prefix a b) -> StronglySorted alphabetical names)) /\
    sysfs_close_list del_name_fn del_attribute_fn fuel w' l = Ok w.
Proof.
  intros links. unfold sysfs_open_link_list, read_dir_links, read_dir. destruct Hp as (Hz & r & ->).
  rewrite c_string_run by done. cbn [mbind res_bind]. rewrite Hdir.
  destruct (names_loop_start malloc c_free del_name_fn fuel sysfs_path_is_link w (p ++ 0 :: r) p entries)
    as (w' & l & R & [(E & -> & ->)|(E & Hl' & Hin)]); try done; [split; [done|by eexists]| |].
  - exists w, 0. split_and!; try done.
  - assert (Hlen : (length links <= length entries)%nat) by apply length_filter.
    exists w', l. split_and!; [exact R|done| |eapply (names_close malloc); [exact Hin|done|]].
    + intros _. destruct (ni_list _ _ _ _ _ Hin) as (L & xs & D & _ & _ & _ & _ & _ & _ & _ & _ & P). exists L, xs. cbn zeta.
      fold links in P. rewrite P. pose proof (put_names_perm (map (take 63) links) []) as Hperm. rewrite app_nil_r in Hperm.
      split_and!; [done|done|done|]. intros Hpre. apply Sorted_StronglySorted; [apply alphabetical_trans|].
      apply put_names_sorted; [constructor|]. intros a b Ha Hb. rewrite app_nil_r in Hb. apply Hpre; by rewrite Hperm.
    + rewrite put_names_perm, app_nil_r, length_map. fold links. lia.
Qed.

(** ** The value of an attribute *)

Section values.
Context {Sys : Type} `{sysfs_fs} `{sysfs_io Sys}.
Abbreviation world := (dlworld (senv Sys)).
Variable malloc : world -> Z -> Z.
Context `{!MallocFresh malloc} `{!HeapFresh malloc}.
Implicit Types (w : world) (A : sysfs_attribute).

(** After a write of as many bytes as the value had, the value kept is the new one without
    its last byte. *)
Lemma store_value_cut w a A b new s : se_attrs (lw_env w) !! a = Some A -> has_method A SYSFS_METHOD_SHOW = true ->
  se_bufs (lw_env w) !! sa_value A = Some b -> holds new s -> 0 < sa_len A -> sa_len A <= zlen s -> sa_len A <= zlen b ->
  0 <= sa_len A < 65536 ->
  exists w' b', store_value malloc w a new (sa_len A) = Ok w' /\ se_bufs (lw_env w') !! sa_value A = Some b' /\
    holds b' (take (Z.to_nat (sa_len A - 1)) s).
Proof.
  intros Ha Hs Hb Hn Hl0 Hl1 Hl2 Hl3. unfold store_value, aget. rewrite Ha. cbn [mbind res_bind]. rewrite Hs, Z.eqb_refl. cbn [negb mbind res_bind].
  unfold bget, aput, set_attrs, set_env. cbn [lw_env se_bufs]. rewrite Hb. cbn [mbind res_bind].
  destruct (safestrcpymax_run b new s (sa_len A) Hn) as (b' & E & Hb' & _); [lia|lia|]. rewrite E. cbn [mbind res_bind].
  eexists _, b'. split; [done|]. split; [|done]. cbn. apply lookup_insert_eq.
Qed.
(** [realloc] of a buffer to a part of it. *)
Lemma realloc_run w p b n : se_bufs (lw_env w) !! p = Some b -> p <> 0 -> 0 <= n <= zlen b ->
  let q := malloc w n in
  q <> p /\ q <> 0 /\ realloc malloc w p n = Ok (bput (set_bufs w (delete p (se_bufs (lw_env w)))) q (take (Z.to_nat n) b), q).
Proof.
  intros Hb Hp Hn q. destruct (heap_fresh w n) as [Fb _]. fold q in Fb. pose proof (heap_nonzero w n) as Hq. fold q in Hq.
  split_and!; [congruence|done|]. unfold realloc, free_buf, bget. rewrite Hb. cbn [mbind res_bind]. fold q.
  rewrite (proj2 (Z.eqb_neq _ _) Hq), (proj2 (Z.eqb_neq _ _) Hp). cbn [mbind res_bind].
  replace (Z.to_nat (n - zlen b)) with 0%nat by lia. cbn [replicate]. by rewrite app_nil_r.
Qed.

(** The buffers when the value of the attribute becomes the one in [fbuf]: the old value
    is freed if the attribute had one. *)
Definition without_value (A : sysfs_attribute) (B : gmap Z (list Z)) : gmap Z (list Z) :=
  if 0 <? sa_len A then delete (sa_value A) B else B.

Lemma take_value_run w a A fbuf b n : se_attrs (lw_env w) !! a = Some A -> se_bufs (lw_env w) !! fbuf = Some b -> fbuf <> 0 ->
  (0 < sa_len A -> sa_value A <> 0 /\ sa_value A <> fbuf /\ is_Some (se_bufs (lw_env w) !! sa_value A)) -> 0 <= n < zlen b ->
  exists w' v, take_value malloc w a fbuf n = Ok (w', 0) /\ v <> 0 /\
    se_attrs (lw_env w') = <[a := mk_attr (sa_name A) (sa_path A) v (u16 n) (sa_method A)]> (se_attrs (lw_env w)) /\
    se_bufs (lw_env w') = <[v := take (Z.to_nat (n + 1)) b]> (delete fbuf (without_value A (se_bufs (lw_env w)))) /\
    (v <> fbuf) /\ without_value A (se_bufs (lw_env w)) !! v = None /\ se_sys (lw_env w') = se_sys (lw_env w).
Proof.
  intros Ha Hb Hf Hv Hn. unfold take_value, aget. rewrite Ha. cbn [mbind res_bind].
  assert (Hfree : (if 0 <? sa_len A then free_buf w (sa_value A) else Ok w) = Ok (set_bufs w (without_value A (se_bufs (lw_env w))))).
  { unfold without_value. destruct (Z.ltb_spec 0 (sa_len A)) as [Hlt|]; [|by destruct w as [? ? []]].
    destruct (Hv Hlt) as (Hv0 & _ & [x Hx]). unfold free_buf, bget. by rewrite (proj2 (Z.eqb_neq _ _) Hv0), Hx. }
  rewrite Hfree. cbn [mbind res_bind]. set (w1 := aput _ _ _).
  assert (Hb1 : se_bufs (lw_env w1) !! fbuf = Some b).
  { cbn. unfold without_value. destruct (Z.ltb_spec 0 (sa_len A)) as [Hlt|]; [|done].
    destruct (Hv Hlt) as (_ & Hne & _). by rewrite lookup_delete_ne. }
  destruct (realloc_run w1 fbuf b (n + 1) Hb1 Hf ltac:(lia)) as (Q1 & Q2 & ->). set (v := malloc w1 (n + 1)) in *. cbn [mbind res_bind].
  rewrite (proj2 (Z.eqb_neq _ _) Q2). destruct (heap_fresh w1 (n + 1)) as [Fv _]. fold v in Fv.
  eexists _, v. split_and!; try done. cbn. by rewrite insert_insert_eq.
Qed.

Lemma without_value_insert A B fbuf (x : list Z) : B !! fbuf = None -> (0 < sa_len A -> sa_value A <> fbuf) ->
  delete fbuf (without_value A (<[fbuf := x]> B)) = without_value A B.
Proof.
  intros Hf Hne. unfold without_value. destruct (Z.ltb_spec 0 (sa_len A)) as [Hlt|].
  - rewrite delete_delete, delete_insert_eq. specialize (Hne Hlt). rewrite (delete_id _ fbuf); [done|done].
  - by apply delete_insert_id.
Qed.

Lemma content_read (bs : list Z) (size : Z) : zlen bs <= size ->
  take (Z.to_nat (zlen bs + 1)) (bs ++ drop (length bs) (replicate (Z.to_nat (size + 1)) 0)) = bs ++ [0].
Proof.
  intros Hl. unfold zlen in *. rewrite take_app_ge by lia. f_equal. rewrite drop_replicate, take_replicate.
  by replace (Z.to_nat (Z.of_nat (length bs) + 1) - length bs)%nat with 1%nat by lia; replace (1 `min` _)%nat with 1%nat by lia.
Qed.
End values.

(** Reading an attribute whose file has changed: the value becomes a buffer with what the
    file has and a terminator, the old value is freed, and the buffer of the read and the
    file are given back. *)
Theorem sysfs_read_attribute_spec {Sys : Type} `{sysfs_fs} `{sysfs_io Sys} (malloc : dlworld (senv Sys) -> Z -> Z)
    `{!MallocFresh malloc} `{!HeapFresh malloc} (w : dlworld (senv Sys)) (a fd : Z) (A : sysfs_attribute) (p bs : list Z) (s1 s2 : Sys)
    (Ha : se_attrs (lw_env w) !! a = Some A) (Ha0 : a <> 0) (Hshow : has_method A SYSFS_METHOD_SHOW = true)
    (Hpath : holds (sa_path A) p) (Hopen : io_open (se_sys (lw_env w)) p false = (s1, fd)) (Hfd : 0 <= fd)
    (Hread : io_read s1 fd io_pagesize = (s2, zlen bs, bs)) (Hfit : zlen bs <= io_pagesize)
    (Hval : 0 < sa_len A -> sa_value A <> 0 /\ is_Some (se_bufs (lw_env w) !! sa_value A)) (Hnew : sa_len A <> zlen bs \/ sa_len A <= 0) :
  exists w' v, sysfs_read_attribute malloc w a = Ok (w', 0) /\ v <> 0 /\
    se_attrs (lw_env w') = <[a := mk_attr (sa_name A) (sa_path A) v (u16 (zlen bs)) (sa_method A)]> (se_attrs (lw_env w)) /\
    se_bufs (lw_env w') = <[v := bs ++ [0]]> (without_value A (se_bufs (lw_env w))) /\
    without_value A (se_bufs (lw_env w)) !! v = None /\ se_sys (lw_env w') = io_close s2 fd.
Proof.
  unfold sysfs_read_attribute, aget. rewrite (proj2 (Z.eqb_neq _ _) Ha0), Ha. cbn [mbind res_bind]. rewrite Hshow. cbn [negb].
  unfold calloc. set (fbuf := malloc w (io_pagesize + 1)). pose proof (heap_nonzero w (io_pagesize + 1)) as Hf. fold fbuf in Hf.
  destruct (heap_fresh w (io_pagesize + 1)) as [Ff _]. fold fbuf in Ff. pose proof (zlen_nonneg bs) as H1.
  rewrite (proj2 (Z.eqb_neq _ _) Hf). destruct Hpath as (Hz & r & Ep).
  assert (Ec : c_string (sa_path A) = Ok p) by (rewrite Ep; by apply c_string_run). rewrite Ec. cbn [mbind res_bind].
  change (se_sys (lw_env (bput w fbuf (replicate (Z.to_nat (io_pagesize + 1)) 0)))) with (se_sys (lw_env w)). rewrite Hopen.
  rewrite (proj2 (Z.ltb_ge _ _) Hfd). cbn [set_sys set_env lw_env se_sys]. rewrite Hread.
  rewrite (proj2 (Z.ltb_ge _ _) H1), (proj2 (Z.ltb_ge _ _) Hfit), (proj2 (Z.eqb_neq _ _) Hf). set (zs := replicate _ 0).
  set (w1 := set_sys (set_sys (bput w fbuf zs) s1) s2).
  assert (Eb : bget w1 fbuf = Ok zs) by apply bget_bput. rewrite Eb. cbn [mbind res_bind]. rewrite bget_bput. cbn [mbind res_bind].
  replace ((0 <? sa_len A) && (sa_len A =? zlen bs)) with false
    by (symmetry; apply andb_false_iff; destruct Hnew; [right; by apply Z.eqb_neq|left; by apply Z.ltb_ge]).
  cbn [mbind res_bind]. set (fb := bs ++ drop (length bs) zs). set (w2 := set_sys (bput w1 fbuf fb) (io_close s2 fd)).
  assert (Hne : 0 < sa_len A -> sa_value A <> fbuf) by (intros Hp E; destruct (Hval Hp) as [_ [x Hx]]; congruence).
  assert (EB : se_bufs (lw_env w2) = <[fbuf := fb]> (se_bufs (lw_env w))) by (cbn; by rewrite insert_insert_eq).
  assert (Hz2 : zlen fb = io_pagesize + 1).
  { unfold fb, zs, zlen in *. rewrite length_app, length_drop, length_replicate. lia. }
  destruct (take_value_run malloc w2 a A fbuf fb (zlen bs)) as (w' & v & R & V0 & V1 & V2 & V3 & V4 & V5);
    [exact Ha|rewrite EB; apply lookup_insert_eq|done| |lia|].
  { intros Hp. destruct (Hval Hp) as [Hv0 Hv]. split_and!; [done|by apply Hne|]. rewrite EB. rewrite lookup_insert_ne by (intros E; by apply Hne).
    done. }
  rewrite EB in V2, V4. rewrite without_value_insert in V2 by done. unfold fb, zs in V2. rewrite content_read in V2 by done.
  exists w', v. split_and!; [exact R|exact V0|exact V1|exact V2| |exact V5].
  rewrite <- (without_value_insert A (se_bufs (lw_env w)) fbuf fb Ff Hne). by rewrite lookup_delete_ne by done.
Qed.

(** ** A directory with links *)

Definition sys_malloc {Sys} (w : dlworld (senv Sys)) (n : Z) : Z :=
  100 + Z.max (Z.max (top (lw_nodes w)) (top (lw_lists w))) (Z.max (top (se_bufs (lw_env w))) (top (se_attrs (lw_env w)))).

#[global] Instance sys_malloc_fresh {Sys} : MallocFresh (@sys_malloc Sys).
Proof.
  split. intros w n _. unfold sys_malloc. pose proof (top_nonneg (lw_nodes w)).
  split_and!; [lia|apply top_none; unfold HEADNODE; lia..].
Qed.
#[global] Instance sys_heap_fresh {Sys} : HeapFresh (@sys_malloc Sys).
Proof.
  split; intros w n; unfold sys_malloc; pose proof (top_nonneg (lw_nodes w)); [split; apply top_none; lia|lia].
Qed.

(** /d has the links b and a and the file f, which is empty; other files have three bytes. *)
#[export] Instance demo_dir : sysfs_fs := {|
  fs_lstat p := if bool_decide (p = [47; 100; 47; 102]) then Some F_reg else Some F_link;
  fs_stat p := Some (F_reg, true, false);
  fs_readlink p := None;
  fs_sysfs_env := None;
  fs_mounts := None
|}.
#[export] Instance demo_io : sysfs_io unit := {|
  io_pagesize := 16;
  io_open s p _ := (s, if bool_decide (p = [47; 100; 47; 102]) then 3 else 4);
  io_read s fd _ := if fd =? 3 then (s, 0, []) else (s, 3, [104; 105; 10]);
  io_write s _ bs := (s, zlen bs);
  io_close s _ := s;
  io_entries p := if bool_decide (p = [47; 100]) then Some [[46]; [46; 46]; [98]; [102]; [97]] else None
|}.
Definition demo_world : dlworld (senv unit) := mk_dlw ∅ ∅ (mk_senv ∅ ∅ ∅ tt).

Lemma sysfs_link_list_roundtrip_witness :
  exists w' l L xs, sysfs_open_link_list sys_malloc 1 2 9 demo_world (Some [47; 100; 0]) = Ok (w', l) /\ drep w' l L xs /\
    map (buf_of w') xs.*2 = [[97]; [98]] /\ StronglySorted alphabetical [[97]; [98]] /\ sysfs_close_list 2 3 9 w' l = Ok demo_world.
Proof.
  destruct (sysfs_link_list_roundtrip sys_malloc 1 2 3 9 demo_world [47; 100; 0] [47; 100] [[46]; [46; 46]; [98]; [102]; [97]])
    as (w' & l & R & _ & Hl & C).
  - split; [by repeat constructor|by exists []].
  - vm_compute. discriminate.
  - reflexivity.
  - repeat constructor; try done; vm_compute; discriminate.
  - by vm_compute.
  - cbn. lia.
  - destruct Hl as (L & xs & D & P & _ & S); [vm_compute; discriminate|]. rewrite P in S.
    exists w', l, L, xs. split; [exact R|]. split; [exact D|]. split; [exact P|]. split; [|exact C]. apply S.
    intros a b Ha Hb Hp. apply prefix_length_eq; [exact Hp|]. vm_compute in Ha, Hb.
    apply elem_of_cons in Ha as [->|Ha%list_elem_of_singleton]; apply elem_of_cons in Hb as [->|Hb%list_elem_of_singleton]; subst; done.
Defined.

(** The link a after the link ab: the comparison ends with the new name, which is then
    not before ab, so that the list is not in alphabetical order. *)
Lemma link_list_not_alphabetical :
  put_names [] [[97; 98]; [97]] = [[97; 98]; [97]] /\ ~ alphabetical [97; 98] [97] /\ alphabetical [97] [97; 98].
Proof. split; [reflexivity|]. cbn. lia. Qed.

(** Run: the order of the names. *)
Example sysfs_link_list_runs :
  ('(w, l) ← sysfs_open_link_list sys_malloc 1 2 9 demo_world (Some [47; 100; 0]);
   '(w, d1) ← (w ← dlist_start w l; dlist_next w l);
   '(w, d2) ← dlist_next w l;
   Ok (buf_of w d1, buf_of w d2)) = Ok ([97], [98]).
Proof. vm_compute. reflexivity. Qed.

(** An attribute without content that is read twice: the buffer of the first read is lost. *)
Example read_empty_attribute_leaks :
  ('(w, a) ← sysfs_open_attribute sys_malloc demo_world (Some [47; 100; 47; 102; 0]);
   '(w, _) ← sysfs_read_attribute sys_malloc w a;
   '(w, _) ← sysfs_read_attribute sys_malloc w a;
   w ← sysfs_close_attribute w a;
   Ok (size (se_bufs (lw_env w)), size (se_attrs (lw_env w)))) = Ok (1%nat, 0%nat).
Proof. vm_compute. reflexivity. Qed.

Definition demo_attr : sysfs_attribute := mk_attr [103; 0] [47; 100; 47; 103; 0] 700 2 1.
Definition demo_attr_world : dlworld (senv unit) := mk_dlw ∅ ∅ (mk_senv {[ 700 := [120; 121; 0] ]} {[ 500 := demo_attr ]} ∅ tt).

(** The value of two bytes is replaced by the one of three. *)
Lemma sysfs_read_attribute_spec_witness :
  exists w' v, sysfs_read_attribute sys_malloc demo_attr_world 500 = Ok (w', 0) /\
    se_bufs (lw_env w') = <[v := [104; 105; 10; 0]]> ∅ /\
    se_attrs (lw_env w') !! 500 = Some (mk_attr [103; 0] [47; 100; 47; 103; 0] v 3 1).
Proof.
  destruct (sysfs_read_attribute_spec sys_malloc demo_attr_world 500 4 demo_attr [47; 100; 47; 103] [104; 105; 10] tt tt)
    as (w' & v & R & _ & E1 & E2 & _ & _); try reflexivity; try done.
  - split; [by repeat constructor|by exists []].
  - left. done.
  - exists w', v. split_and!; [exact R|rewrite E2; reflexivity|rewrite E1; apply lookup_insert_eq].
Defined.
