(* ===== verification/SysfsLaws.v ===== *)
(** * Handles of sysfsutils

    The functions on attributes and on directory lists, as they are modelled, deal with
    their handles the way the Linux port of libmetal relies on: opening returns null and
    changes nothing, or a new handle; reading and writing make and lose none; closing
    gives back the one that was opened. *)

From S2P Require Import Prelude StrUtil SysfsUtils SysfsSpec Dlist DlistRep DlistSpec DlistProps SysfsAttr SysfsAttrSpec.

Section laws.
Context {Sys : Type} `{sysfs_fs} `{sysfs_io Sys}.
Abbreviation world := (dlworld (senv Sys)).
Variable malloc : world -> Z -> Z.
Context `{!MallocFresh malloc} `{!HeapFresh malloc}.
Variables c_free del_name_fn del_attribute_fn : Z.
Implicit Types (w : world) (a : Z).

(** The attributes that are open. *)
Definition attr_handles w : gset Z := dom (se_attrs (lw_env w)).

(** No attribute, list or device is made or lost. *)
Definition keeps w w' : Prop :=
  attr_handles w' = attr_handles w /\ lw_lists w' = lw_lists w /\ lw_nodes w' = lw_nodes w /\
  se_devs (lw_env w') = se_devs (lw_env w).

#[local] Instance keeps_refl : Reflexive keeps.
Proof. done. Qed.
#[local] Instance keeps_trans : Transitive keeps.
Proof. intros w1 w2 w3 (A1 & A2 & A3 & A4) (B1 & B2 & B3 & B4). unfold keeps. split_and!; congruence. Qed.

Lemma keeps_aput w a A A' : se_attrs (lw_env w) !! a = Some A -> keeps w (aput w a A').
Proof.
  intros Ha. split_and!; try done. unfold attr_handles. cbn. rewrite dom_insert_L.
  assert (a ∈ dom (se_attrs (lw_env w))) by (by apply elem_of_dom; exists A). set_solver.
Qed.

Lemma aget_Ok w a A : aget w a = Ok A -> se_attrs (lw_env w) !! a = Some A.
Proof. unfold aget. destruct (_ !! a); congruence. Qed.

Lemma free_buf_keeps w p w' : free_buf w p = Ok w' -> keeps w w' /\ se_attrs (lw_env w') = se_attrs (lw_env w).
Proof.
  unfold free_buf. destruct (p =? 0); [by intros [= <-]|]. destruct (bget w p); [|done]. by intros [= <-].
Qed.

Lemma realloc_keeps w p n w' q : realloc malloc w p n = Ok (w', q) -> keeps w w' /\ se_attrs (lw_env w') = se_attrs (lw_env w).
Proof.
  unfold realloc. destruct (bget w p); [|done]. cbn [mbind res_bind]. destruct (_ =? 0); [by intros [= <- <-]|].
  destruct (free_buf w p) as [w1|] eqn:E; [|done]. apply free_buf_keeps in E as [K E]. cbn [mbind res_bind]. by intros [= <- <-].
Qed.

Lemma calloc_keeps w n w' p : calloc malloc w n = (w', p) -> keeps w w' /\ se_attrs (lw_env w') = se_attrs (lw_env w).
Proof. unfold calloc. destruct (_ =? 0); by intros [= <- <-]. Qed.

(** ** Attributes *)

Lemma close_attribute_law w a w' : sysfs_close_attribute w a = Ok w' ->
  attr_handles w' = (if a =? 0 then attr_handles w else attr_handles w ∖ {[a]}) /\
  lw_lists w' = lw_lists w /\ se_devs (lw_env w') = se_devs (lw_env w).
Proof.
  unfold sysfs_close_attribute. destruct (a =? 0); [by intros [= <-]|]. destruct (aget w a) as [A|]; [|done].
  cbn [mbind res_bind]. destruct (free_buf w _) as [w1|] eqn:E; [|done]. apply free_buf_keeps in E as [(K1 & K2 & _ & K3) E].
  cbn [mbind res_bind]. intros [= <-]. unfold attr_handles. cbn. rewrite dom_delete_L, E. done.
Qed.

Lemma open_attribute_law w path w' a : sysfs_open_attribute malloc w path = Ok (w', a) ->
  lw_lists w' = lw_lists w /\ se_devs (lw_env w') = se_devs (lw_env w) /\
  ((a = 0 /\ attr_handles w' = attr_handles w) \/
   (a <> 0 /\ (a ∉ attr_handles w) /\ attr_handles w' = {[a]} ∪ attr_handles w)).
Proof.
  unfold sysfs_open_attribute. destruct path as [path|]; [|intros [= <- <-]; split_and!; auto].
  unfold alloc_attribute. set (p := malloc w _). pose proof (heap_nonzero w sizeof_sysfs_attribute) as Hp. fold p in Hp.
  destruct (heap_fresh w sizeof_sysfs_attribute) as [_ Hf]. fold p in Hf.
  assert (Hnew : p ∉ attr_handles w) by (by apply not_elem_of_dom).
  rewrite (proj2 (Z.eqb_neq _ _) Hp), (proj2 (Z.eqb_neq _ _) Hp). set (w1 := aput w p _).
  assert (H1 : attr_handles w1 = {[p]} ∪ attr_handles w) by (unfold attr_handles; cbn; by rewrite dom_insert_L).
  destruct (aget w1 p) as [A|] eqn:Ea; [|done]. apply aget_Ok in Ea. cbn [mbind res_bind].
  destruct (sysfs_get_name_from_path _ _ _) as [[name r]|]; [|done]. cbn [mbind res_bind].
  destruct (negb (r =? 0)).
  { destruct (sysfs_close_attribute w1 p) as [w2|] eqn:Ec; [|done]. apply close_attribute_law in Ec as (C1 & C2 & C3).
    cbn [mbind res_bind]. intros [= <- <-]. rewrite (proj2 (Z.eqb_neq _ _) Hp), H1 in C1. split_and!; [done..|].
    left. split; [done|]. rewrite C1. set_solver. }
  destruct (safestrcpy _ _) as [pth|]; [|done]. cbn [mbind res_bind]. destruct (c_string pth) as [s|]; [|done]. cbn [mbind res_bind].
  destruct (fs_stat s) as [[[? rd] wr]|]; intros [= <- <-]; (split; [done|]); (split; [done|]).
  - right. split; [done|]. split; [done|]. by rewrite (proj1 (keeps_aput w1 p A _ Ea)).
  - left. split; [done|]. transitivity (attr_handles w1 ∖ {[p]}); [apply dom_delete_L|]. rewrite H1. set_solver.
Qed.

Lemma take_value_keeps w a fbuf n w' r : take_value malloc w a fbuf n = Ok (w', r) -> keeps w w'.
Proof.
  unfold take_value. intros E. res_step E. rename E0 into Ea. apply aget_Ok in Ea. set (A := _ : sysfs_attribute) in *.
  match type of E with mbind _ ?m = _ => destruct m as [w1|] eqn:Ef; cbn [mbind res_bind] in E; [|done] end.
  assert (K1 : keeps w w1 /\ se_attrs (lw_env w1) = se_attrs (lw_env w)).
  { destruct (0 <? _); [by apply free_buf_keeps in Ef|]. by injection Ef as <-. }
  destruct K1 as [K1 S1]. set (w2 := aput w1 a _) in *.
  assert (K2 : keeps w w2) by (etransitivity; [exact K1|]; apply (keeps_aput w1 a A); by rewrite S1).
  assert (S2 : is_Some (se_attrs (lw_env w2) !! a)) by (eexists; apply lookup_insert_eq).
  destruct (realloc malloc w2 fbuf (n + 1)) as [[w3 q]|] eqn:Er; [|done]. cbn [mbind res_bind] in E.
  apply realloc_keeps in Er as [K3 S3]. destruct (q =? 0).
  - destruct (free_buf w3 fbuf) as [w4|] eqn:Ef'; [|done]. apply free_buf_keeps in Ef' as [K4 _]. cbn [mbind res_bind] in E.
    injection E as <- <-. by do 2 (etransitivity; [eassumption|]).
  - injection E as <- <-. etransitivity; [exact K2|]. etransitivity; [exact K3|]. destruct S2 as [A2 S2]. rewrite <- S3 in S2.
    by apply (keeps_aput w3 a A2).
Qed.

Lemma freed_keeps w p (x : Z) w' r : (w1 ← free_buf w p; Ok (w1, x)) = Ok (w', r) -> keeps w w'.
Proof.
  destruct (free_buf w p) as [w1|] eqn:E; [|done]. apply free_buf_keeps in E as [K _]. cbn [mbind res_bind]. by intros [= <- <-].
Qed.

Lemma read_attribute_law w a w' r : sysfs_read_attribute malloc w a = Ok (w', r) -> keeps w w'.
Proof.
  unfold sysfs_read_attribute. destruct (a =? 0); [by intros [= <- <-]|]. destruct (aget w a) as [A|]; [|done]. cbn [mbind res_bind].
  destruct (negb _); [by intros [= <- <-]|]. destruct (calloc malloc w _) as [w1 fbuf] eqn:Ec. apply calloc_keeps in Ec as [K1 _].
  destruct (fbuf =? 0); [by intros [= <- <-]|]. destruct (c_string _) as [p|]; [|done]. cbn [mbind res_bind].
  destruct (io_open _ p false) as [s fd]. intros E. destruct (fd <? 0).
  { apply freed_keeps in E. etransitivity; [exact K1|]. exact E. }
  destruct (io_read _ fd _) as [[s' n] bs]. destruct (n <? 0).
  { apply freed_keeps in E. etransitivity; [exact K1|]. exact E. }
  destruct (io_pagesize <? zlen bs); [done|]. destruct (bget _ fbuf) as [b|]; [|done]. cbn [mbind res_bind] in E.
  destruct (bget _ fbuf) as [fb|]; [|done]. cbn [mbind res_bind] in E.
  match type of E with mbind _ ?m = _ => destruct m as [same|]; cbn [mbind res_bind] in E; [|done] end.
  etransitivity; [exact K1|]. destruct same; [by apply freed_keeps in E|by apply take_value_keeps in E].
Qed.

Lemma store_value_keeps w a v n w' : store_value malloc w a v n = Ok w' -> keeps w w'.
Proof.
  unfold store_value. destruct (aget w a) as [A|] eqn:Ea; [|done]. apply aget_Ok in Ea. cbn [mbind res_bind].
  destruct (has_method A _); [|by intros [= <-]]. intros E.
  match type of E with mbind _ ?m = _ => destruct m as [[w1 q]|] eqn:Er; cbn [mbind res_bind] in E; [|done] end.
  assert (K : keeps w w1 /\ se_attrs (lw_env w1) = se_attrs (lw_env w)).
  { destruct (negb _); [by apply realloc_keeps in Er|]. by injection Er as <- <-. }
  destruct K as [K1 S1]. res_step E. res_step E. injection E as <-. etransitivity; [exact K1|]. by apply (keeps_aput w1 a A); rewrite S1.
Qed.

Lemma write_attribute_law w a v n w' r : sysfs_write_attribute malloc w a v n = Ok (w', r) -> keeps w w'.
Proof.
  unfold sysfs_write_attribute. destruct (_ || _); [by intros [= <- <-]|]. destruct (aget w a) as [A|]; [|done]. cbn [mbind res_bind].
  destruct (negb _); [by intros [= <- <-]|]. intros E.
  match type of E with mbind _ ?m = _ => destruct m as [[w1 r1]|] eqn:Er; cbn [mbind res_bind] in E; [|done] end.
  assert (K1 : keeps w w1) by (destruct (has_method A SYSFS_METHOD_SHOW); [by apply read_attribute_law in Er|by injection Er as <- <-]).
  etransitivity; [exact K1|]. clear Er K1. destruct (negb (r1 =? 0)); [by injection E as <- <-|].
  match type of E with mbind _ ?m = _ => destruct m as [same|]; cbn [mbind res_bind] in E; [|done] end.
  destruct same; [by injection E as <- <-|]. destruct (aget w1 a) as [A1|]; [|done]. cbn [mbind res_bind] in E.
  destruct (c_string _) as [p|]; [|done]. cbn [mbind res_bind] in E. destruct (io_open _ p true) as [s fd].
  destruct (fd <? 0); [by injection E as <- <-|]. destruct (zlen v <? n); [done|]. destruct (io_write s fd _) as [s1 k].
  destruct (k <? 0); [by injection E as <- <-|]. destruct (negb _ && _).
  - destruct (bget _ _) as [b|]; [|done]. cbn [mbind res_bind] in E. destruct (io_write s1 fd _) as [s2 ?]. by injection E as <- <-.
  - destruct (store_value malloc _ a v k) as [w2|] eqn:Es; [|done]. apply store_value_keeps in Es. cbn [mbind res_bind] in E.
    injection E as <- <-. exact Es.
Qed.

(** ** Directory lists *)

(** The list of the directories in a directory is null when there is none; otherwise it is a
    new list that has each name once, and closing it leaves the world as it was. *)
Lemma directory_list_law fuel w path p entries :
  holds path p -> zlen p <= 126 -> io_entries p = Some entries -> Forall (fits p) entries ->
  is_u64 (zlen entries + 1) -> (length entries < fuel)%nat ->
  exists w' l, sysfs_open_directory_list malloc c_free del_name_fn fuel w (Some path) = Ok (w', l) /\
    ((l = 0 /\ w' = w) \/
     (l <> 0 /\ lw_lists w !! l = None /\ dom (lw_lists w') = {[l]} ∪ dom (lw_lists w) /\ attr_handles w' = attr_handles w /\
      exists L xs, drep w' l L xs /\ map (buf_of w') xs.*2 ≡ₚ map (take 63) (found sysfs_path_is_dir p entries))) /\
    sysfs_close_list del_name_fn del_attribute_fn fuel w' l = Ok w.
Proof.
  intros (Hz & r & ->) Hl Hdir He Hu Hf. unfold sysfs_open_directory_list, read_dir_subdirs, read_dir.
  rewrite c_string_run by done. cbn [mbind res_bind]. rewrite Hdir.
  destruct (names_loop_start malloc c_free del_name_fn fuel sysfs_path_is_dir w (p ++ 0 :: r) p entries)
    as (w' & l & R & [(E & -> & ->)|(E & Hl' & Hin)]); try done; [split; [done|by eexists]| |].
  - exists w, 0. split; [exact R|]. split; [by left|done].
  - pose proof (put_names_perm (map (take 63) (found sysfs_path_is_dir p entries)) []) as Hperm. rewrite app_nil_r in Hperm.
    exists w', l. split; [exact R|]. split; [right|eapply (names_close malloc); [exact Hin|done|]].
    + destruct Hin as [(L & xs & D & _ & Hls & _ & _ & _ & _ & _ & _ & P) Hnew (R1 & R2 & R3)]. split; [done|]. split; [done|].
      split; [by rewrite Hls, dom_insert_L|]. split; [unfold attr_handles; by rewrite R1|]. exists L, xs. by rewrite P.
    + rewrite Hperm, length_map. pose proof (length_filter (fun n => is_dots n = false /\ sysfs_path_is_dir (p ++ SLASH :: n) = 0) entries).
      unfold found. lia.
Qed.
End laws.
