(* ===== verification/SysfsDevice.v ===== *)
(** * Devices, drivers and buses of sysfs (sysfsutils/lib/sysfs_device.c, sysfs_driver.c,
      sysfs_bus.c)

    Opening a device, a driver or a bus: the structure that is filled in from the paths
    and the links of the file system.  [alloc] says whether the structure could be
    allocated; the lists of attributes and devices are empty after opening.  Trees of
    devices and the lists of a bus are left out. *)

From S2P Require Import Prelude StrUtil SysfsUtils.

(** ** Data *)

Record sysfs_device := mk_device {
  de_name : list Z;
  de_path : list Z;
  de_bus_id : list Z;
  de_bus : list Z;
  de_driver_name : list Z;
  de_subsystem : list Z
}.

Record sysfs_driver := mk_driver { dr_name : list Z; dr_path : list Z; dr_bus : list Z }.
Record sysfs_bus := mk_bus { bu_name : list Z; bu_path : list Z }.

Definition name_buf : list Z := replicate (Z.to_nat SYSFS_NAME_LEN) 0.
Definition path_buf : list Z := replicate (Z.to_nat SYSFS_PATH_MAX) 0.

Definition SYSFS_UNKNOWN : list Z := [117; 110; 107; 110; 111; 119; 110].
Definition SYSFS_BUS_NAME : list Z := [98; 117; 115].
Definition SYSFS_DEVICES_NAME : list Z := [100; 101; 118; 105; 99; 101; 115].
Definition SYSFS_DRIVERS_NAME : list Z := [100; 114; 105; 118; 101; 114; 115].
Definition L_DRIVER : list Z := SLASH :: [100; 114; 105; 118; 101; 114].
Definition L_BUS : list Z := SLASH :: SYSFS_BUS_NAME.
Definition L_SUBSYSTEM : list Z := SLASH :: [115; 117; 98; 115; 121; 115; 116; 101; 109].

(** [strstr(a, s)]: the index of the first occurrence at or after [i]. *)
Fixpoint strstr_loop (a s : list Z) (i : Z) : option Z :=
  if bool_decide (take (length s) a = s) then Some i
  else match a with [] => None | _ :: a' => strstr_loop a' s (i + 1) end.
Definition strstr (a s : list Z) (from : Z) : res (option Z) :=
  t ← c_string (drop (Z.to_nat from) a); Ok (strstr_loop t s from).

(** Several [safestrcat] in a row. *)
Fixpoint safestrcats (to : list Z) (parts : list (list Z)) : res (list Z) :=
  match parts with [] => Ok to | s :: parts => to ← safestrcat to (s ++ [0]); safestrcats to parts end.
Fixpoint safestrcatmaxs (to : list Z) (parts : list (list Z)) (max : Z) : res (list Z) :=
  match parts with [] => Ok to | s :: parts => to ← safestrcatmax to (s ++ [0]) max; safestrcatmaxs to parts max end.

Section device.
Context `{sysfs_fs}.

(** What [get_dev_driver], [sysfs_get_device_bus] and [get_dev_subsystem] have in common:
    the last name of the path the link [link] of the device points to. *)
Definition link_name (fuel : nat) (devpath link name : list Z) : res (list Z * Z) :=
  path ← safestrcpymax path_buf devpath SYSFS_PATH_MAX;
  path ← safestrcatmax path (link ++ [0]) SYSFS_PATH_MAX;
  p ← c_string path;
  if sysfs_path_is_link p =? 0 then
    '(target, r) ← sysfs_get_link fuel path_buf path_buf path path_buf SYSFS_PATH_MAX;
    if r =? 0 then
      '(name, r) ← sysfs_get_name_from_path (Some target) name SYSFS_NAME_LEN;
      if r =? 0 then Ok (name, 0) else Ok (name, -1)
    else Ok (name, -1)
  else Ok (name, -1).

Definition get_dev_driver (fuel : nat) (d : sysfs_device) : res (sysfs_device * Z) :=
  '(n, r) ← link_name fuel (de_path d) L_DRIVER (de_driver_name d);
  Ok (mk_device (de_name d) (de_path d) (de_bus_id d) (de_bus d) n (de_subsystem d), r).
Definition sysfs_get_device_bus (fuel : nat) (d : sysfs_device) : res (sysfs_device * Z) :=
  '(n, r) ← link_name fuel (de_path d) L_BUS (de_bus d);
  Ok (mk_device (de_name d) (de_path d) (de_bus_id d) n (de_driver_name d) (de_subsystem d), r).
Definition get_dev_subsystem (fuel : nat) (d : sysfs_device) : res (sysfs_device * Z) :=
  '(n, r) ← link_name fuel (de_path d) L_SUBSYSTEM (de_subsystem d);
  Ok (mk_device (de_name d) (de_path d) (de_bus_id d) (de_bus d) (de_driver_name d) n, r).

(** [safestrcpy(name, SYSFS_UNKNOWN)] *)
Definition unknown (name : list Z) : res (list Z) := safestrcpy name (SYSFS_UNKNOWN ++ [0]).

Definition sysfs_open_device_path (fuel : nat) (alloc : bool) (path : option (list Z)) : res (option sysfs_device) :=
  match path with
  | None => Ok None
  | Some path =>
      p ← c_string path;
      if negb (sysfs_path_is_dir p =? 0) then Ok None
      else if negb alloc then Ok None
      else
        '(bus_id, r) ← sysfs_get_name_from_path (Some path) name_buf SYSFS_NAME_LEN;
        if negb (r =? 0) then Ok None
        else
          pth ← safestrcpy path_buf path;
          pth ← sysfs_remove_trailing_slash pth;
          name ← safestrcpy name_buf bus_id;
          '(d, _) ← sysfs_get_device_bus fuel (mk_device name pth bus_id name_buf name_buf name_buf);
          '(d, r) ← get_dev_driver fuel d;
          n ← (if negb (r =? 0) then unknown (de_driver_name d) else Ok (de_driver_name d));
          let d := mk_device (de_name d) (de_path d) (de_bus_id d) (de_bus d) n (de_subsystem d) in
          '(d, r) ← get_dev_subsystem fuel d;
          n ← (if negb (r =? 0) then unknown (de_subsystem d) else Ok (de_subsystem d));
          Ok (Some (mk_device (de_name d) (de_path d) (de_bus_id d) (de_bus d) (de_driver_name d) n))
  end.

Definition get_device_absolute_path (fuel : nat) (device bus path : list Z) (psize : Z) : res (list Z * Z) :=
  '(bus_path, r) ← sysfs_get_mnt_path path_buf SYSFS_PATH_MAX;
  if negb (r =? 0) then Ok (path, -1)
  else
    bus_path ← safestrcats bus_path [[SLASH]; SYSFS_BUS_NAME; [SLASH]; bus; [SLASH]; SYSFS_DEVICES_NAME; [SLASH]; device];
    '(path, r) ← sysfs_get_link fuel path_buf path_buf bus_path path psize;
    if negb (r =? 0) then Ok (path, -1) else Ok (path, 0).

Definition sysfs_open_device (fuel : nat) (alloc : bool) (bus bus_id : option (list Z)) : res (option sysfs_device) :=
  match bus, bus_id with
  | Some bus, Some bus_id =>
      '(sysfs_path, r) ← get_device_absolute_path fuel bus_id bus path_buf SYSFS_PATH_MAX;
      if negb (r =? 0) then Ok None else sysfs_open_device_path fuel alloc (Some sysfs_path)
  | _, _ => Ok None
  end.

(** ** Drivers *)

Definition get_driver_bus (d : sysfs_driver) : res (sysfs_driver * Z) :=
  drvpath ← safestrcpy path_buf (dr_path d);
  c ← strstr drvpath SYSFS_DRIVERS_NAME 0;
  match c with
  | None => Ok (d, 1)
  | Some c =>
      drvpath ← rset drvpath (c - 1) 0;
      c ← strstr drvpath SYSFS_BUS_NAME 0;
      match c with
      | None => Ok (d, 1)
      | Some c =>
          c ← strstr drvpath [SLASH] c;
          match c with
          | None => Ok (d, 1)
          | Some c => b ← safestrcpy (dr_bus d) (drop (Z.to_nat (c + 1)) drvpath); Ok (mk_driver (dr_name d) (dr_path d) b, 0)
          end
      end
  end.

Definition sysfs_open_driver_path (alloc : bool) (path : option (list Z)) : res (option sysfs_driver) :=
  match path with
  | None => Ok None
  | Some path =>
      p ← c_string path;
      if negb (sysfs_path_is_dir p =? 0) then Ok None
      else if negb alloc then Ok None
      else
        '(name, r) ← sysfs_get_name_from_path (Some path) name_buf SYSFS_NAME_LEN;
        if negb (r =? 0) then Ok None
        else
          pth ← safestrcpy path_buf path;
          pth ← sysfs_remove_trailing_slash pth;
          '(d, r) ← get_driver_bus (mk_driver name pth name_buf);
          if negb (r =? 0) then Ok None else Ok (Some d)
  end.

Definition get_driver_path (bus drv path : list Z) (psize : Z) : res (list Z * Z) :=
  if psize =? 0 then Ok (path, -1)
  else
    '(path, r) ← sysfs_get_mnt_path path psize;
    if negb (r =? 0) then Ok (path, -1)
    else
      path ← safestrcatmaxs path [[SLASH]; SYSFS_BUS_NAME; [SLASH]; bus; [SLASH]; SYSFS_DRIVERS_NAME; [SLASH]; drv] psize;
      Ok (path, 0).

Definition sysfs_open_driver (alloc : bool) (bus_name drv_name : option (list Z)) : res (option sysfs_driver) :=
  match bus_name, drv_name with
  | Some bus_name, Some drv_name =>
      '(path, r) ← get_driver_path bus_name drv_name path_buf SYSFS_PATH_MAX;
      if negb (r =? 0) then Ok None else sysfs_open_driver_path alloc (Some path)
  | _, _ => Ok None
  end.

(** ** Buses *)

Definition sysfs_open_bus (alloc : bool) (name : option (list Z)) : res (option sysfs_bus) :=
  match name with
  | None => Ok None
  | Some name =>
      '(buspath, r) ← sysfs_get_mnt_path path_buf SYSFS_PATH_MAX;
      if negb (r =? 0) then Ok None
      else
        buspath ← safestrcats buspath [[SLASH]; SYSFS_BUS_NAME; [SLASH]; name];
        p ← c_string buspath;
        if negb (sysfs_path_is_dir p =? 0) then Ok None
        else if negb alloc then Ok None
        else
          nm ← safestrcpy name_buf (name ++ [0]);
          pth ← safestrcpy path_buf buspath;
          pth ← sysfs_remove_trailing_slash pth;
          Ok (Some (mk_bus nm pth))
  end.
End device.
