(* ===== verification/SysfsDeviceSpec.v ===== *)
(** * Opening a device of sysfs: theorems

    What [sysfs_open_device_path] fills in, in terms of the components of the path and of
    the links in the directory of the device. *)

From S2P Require Import Prelude StrUtil SysfsUtils SysfsSpec SysfsLink SysfsDevice.

(** ** [safestrcatmax] *)

Section cat.
Implicit Types (s t a r pre old to from f : list Z) (max : Z).

Lemma put_string_run s : forall pre old, zlen s < zlen old ->
  put_string (pre ++ old) (zlen pre) s = Ok (pre ++ s ++ 0 :: drop (S (length s)) old).
Proof.
  induction s as [|c s IH]; intros pre old Hl; (destruct old as [|x old]; [unfold zlen in Hl; cbn in Hl; lia|]); cbn [put_string].
  - rewrite rset_mid by done. cbn. by rewrite drop_0.
  - rewrite rset_mid by done. cbn [mbind res_bind]. rewrite !zlen_cons in Hl.
    replace (pre ++ c :: old) with ((pre ++ [c]) ++ old) by (by rewrite <- app_assoc).
    replace (zlen pre + 1) with (zlen (pre ++ [c])) by (by rewrite zlen_app). rewrite IH by lia. by rewrite <- app_assoc.
Qed.

(** The string stays where the last byte of the array is cleared behind it. *)
Lemma rset_holds to t i : holds to t -> zlen t <= i < zlen to -> exists to', rset to i 0 = Ok to' /\ holds to' t /\ zlen to' = zlen to.
Proof.
  intros (Ht & r & ->) Hi. rewrite zlen_app, zlen_cons in Hi. pose proof (zlen_nonneg t) as H0.
  destruct (decide (i = zlen t)) as [->|Hne]; [rewrite rset_mid by done; eexists; split_and!; [done|split; [done|by eexists]|done]|].
  set (k := Z.to_nat (i - zlen t - 1)). destruct (lookup_lt_is_Some_2 r k) as [y Hy]; [unfold k, zlen in *; lia|].
  rewrite <- (take_drop_middle r k y Hy). rewrite app_comm_cons, app_assoc.
  assert (Hk : zlen (take k r) = i - zlen t - 1) by (unfold k; rewrite zlen_take_z; lia).
  rewrite rset_mid by (rewrite zlen_app, zlen_cons, Hk; lia). eexists. split_and!; [done| |by rewrite !zlen_app, !zlen_cons].
  split; [done|]. rewrite <- app_assoc. by eexists.
Qed.

(** What fits behind the string is appended. *)
Lemma safestrcatmax_run to t from f max : holds to t -> holds from f -> zlen t < max <= zlen to -> is_u64 max ->
  exists to', safestrcatmax to from max = Ok to' /\ holds to' (t ++ take (Z.to_nat (max - zlen t - 1)) f) /\ zlen to' = zlen to.
Proof.
  intros Hto (Hf & rf & ->) Hm Hu. unfold safestrcatmax.
  destruct (rset_holds to t (max - 1) Hto ltac:(lia)) as (to1 & -> & (Ht & r & ->) & Hz). cbn [mbind res_bind].
  rewrite strlen_run by done. cbn [mbind res_bind]. pose proof (zlen_nonneg t) as H0. unfold is_u64 in Hu.
  rewrite u64_id by (unfold is_u64; lia). unfold strncat. rewrite strlen_run, c_string_run by done. cbn [mbind res_bind].
  set (cut := take _ f). assert (Hc : zlen cut <= max - zlen t - 1) by (unfold cut; rewrite zlen_take_z; lia).
  rewrite <- Hz, zlen_app in *. rewrite put_string_run by lia. eexists. split; [done|]. split.
  - split; [apply list.Forall_app; split; [done|by apply nz_take]|]. eexists. by rewrite <- app_assoc.
  - rewrite !zlen_app, zlen_cons. replace (S (length cut)) with (Z.to_nat (zlen cut + 1)) by (unfold zlen; lia).
    rewrite zlen_drop_z. pose proof (zlen_nonneg cut). lia.
Qed.
End cat.

(** ** The directory of a device *)

Section device.
Context `{sysfs_fs}.
Implicit Types (dirs rest : list (list Z)) (l n path name : list Z).

(** The entry [l] of the directory is a link that climbs [k] directories and goes down to
    the name [n]. *)
Definition linked dirs l n : Prop :=
  fs_lstat (path_of (dirs ++ [l])) = Some F_link /\ exists k rest,
    fs_readlink (path_of (dirs ++ [l])) = Some (ups k ++ drop 1 (path_of (rest ++ [n]))) /\
    zlen (ups k ++ drop 1 (path_of (rest ++ [n]))) < SYSFS_PATH_MAX /\
    zlen (path_of (take (length dirs - k) dirs ++ rest ++ [n])) < SYSFS_PATH_MAX /\
    (k <= length dirs)%nat /\ Forall component (rest ++ [n]) /\ (forall t, drop 1 (path_of (rest ++ [n])) <> DOT :: t).

(** The entry is not a link, or its text cannot be read. *)
Definition unlinked dirs l : Prop := fs_lstat (path_of (dirs ++ [l])) <> Some F_link \/ fs_readlink (path_of (dirs ++ [l])) = None.

Definition entry dirs l (e : option (list Z)) : Prop := match e with Some n => linked dirs l n | None => unlinked dirs l end.

(** No directory on the way is a link. *)
Definition real_dirs dirs : Prop := forall j, (0 < j <= length dirs)%nat -> fs_lstat (path_of (take j dirs)) <> Some F_link.

Lemma path_of_app ds es : path_of (ds ++ es) = path_of ds ++ path_of es.
Proof. unfold path_of. by rewrite map_app, concat_app. Qed.

(** The first byte of a path behind its slash. *)
Lemma path_of_head ds n : Forall component (ds ++ [n]) -> exists x tl,
  path_of (ds ++ [n]) = SLASH :: x :: tl /\ x <> SLASH /\ nz (x :: tl).
Proof.
  intros Hc. assert (Hz := path_of_nz _ Hc). destruct (ds ++ [n]) as [|c cs] eqn:E; [by destruct ds|].
  apply Forall_cons_1 in Hc as [(Hp & Hne & _) _]. destruct c as [|x c]; [done|]. apply Forall_cons_1 in Hp as [[_ Hx] _].
  exists x, (c ++ path_of cs). split_and!; [done..|]. by apply Forall_cons_1 in Hz as [_ ?].
Qed.

(** The target of an entry of the directory. *)
Lemma entry_target fuel dirs l n path : holds path (path_of (dirs ++ [l])) -> zlen (path_of (dirs ++ [l])) < SYSFS_PATH_MAX ->
  Forall component dirs -> component l -> real_dirs dirs -> linked dirs l n -> (S (length dirs) < fuel)%nat ->
  exists target dir, sysfs_get_link fuel path_buf path_buf path path_buf SYSFS_PATH_MAX = Ok (target, 0) /\
    holds target (dir ++ SLASH :: n) /\ zlen (dir ++ SLASH :: n) < SYSFS_PATH_MAX /\ component n.
Proof.
  intros Hp Hl Hd Hcl Hr (_ & k & rest & Hread & Htxt & Hres & Hk & Hc & Hdot) Hf.
  destruct (path_of_head rest n Hc) as (x & tl & E & Hx & Hz).
  rewrite E in Hread, Htxt, Hdot. cbn [drop] in Hread, Htxt, Hdot.
  assert (Er : path_of (take (length dirs - k) dirs) ++ SLASH :: x :: tl = path_of (take (length dirs - k) dirs ++ rest ++ [n]))
    by (by rewrite path_of_app, E).
  assert (Hb : zlen path_buf = SYSFS_PATH_MAX) by (unfold path_buf; by rewrite zlen_replicate).
  destruct (sysfs_get_link_spec fuel k path_buf path_buf path path_buf tl l dirs x SYSFS_PATH_MAX) as (target & Et & Ht); try done.
  { split; [intros ->; by apply (Hdot tl)|done]. }
  { intros j Hj. apply Hr. lia. }
  { lia. }
  { by rewrite Er. }
  exists target, (path_of (take (length dirs - k) dirs ++ rest)). rewrite Er in Ht.
  rewrite take_ge in Ht by (unfold zlen, SYSFS_PATH_MAX in *; lia).
  rewrite <- path_of_snoc, <- app_assoc. split_and!; try done. apply list.Forall_app in Hc as [_ Hc]. by apply Forall_cons_1 in Hc as [? _].
Qed.

Lemma path_buf_size : zlen path_buf = SYSFS_PATH_MAX.
Proof. unfold path_buf. by rewrite zlen_replicate. Qed.

(** The path of the entry [l] of a device. *)
Lemma link_path_run dirs l devpath : holds devpath (path_of dirs) -> Forall plain l -> zlen (path_of (dirs ++ [l])) < SYSFS_PATH_MAX ->
  exists path0 path, safestrcpymax path_buf devpath SYSFS_PATH_MAX = Ok path0 /\
    safestrcatmax path0 ((SLASH :: l) ++ [0]) SYSFS_PATH_MAX = Ok path /\ holds path (path_of (dirs ++ [l])).
Proof.
  intros Hp Hl Hz. rewrite path_of_snoc in *. rewrite zlen_app, zlen_cons in Hz. pose proof (zlen_nonneg l) as H0.
  pose proof (zlen_nonneg (path_of dirs)) as H1. pose proof path_buf_size as Hb. unfold SYSFS_PATH_MAX in *.
  destruct (safestrcpymax_run path_buf devpath _ 256 Hp) as (path0 & E0 & Hh & Hs); [lia..|].
  rewrite take_ge in Hh by (unfold zlen in *; lia).
  destruct (safestrcatmax_run path0 (path_of dirs) ((SLASH :: l) ++ [0]) (SLASH :: l) 256) as (path & E & Hh' & _).
  { done. } { split; [constructor; [done|by apply plain_nz]|by eexists]. } { lia. } { unfold is_u64. lia. }
  rewrite take_ge in Hh' by (unfold zlen in *; cbn [length]; lia). by exists path0, path.
Qed.

(** The name a link of the device stands for. *)
Lemma link_name_run fuel dirs l e devpath name : holds devpath (path_of dirs) -> component l ->
  zlen (path_of (dirs ++ [l])) < SYSFS_PATH_MAX -> Forall component dirs -> real_dirs dirs -> entry dirs l e ->
  (S (length dirs) < fuel)%nat -> zlen name = SYSFS_NAME_LEN ->
  exists name', link_name fuel devpath (SLASH :: l) name = Ok (name', match e with Some _ => 0 | None => -1 end) /\
    zlen name' = SYSFS_NAME_LEN /\ match e with Some n => holds name' (take 63 n) | None => name' = name end.
Proof.
  intros Hp Hl Hz Hd Hr He Hf Hn. destruct (link_path_run dirs l devpath Hp (proj1 Hl) Hz) as (path0 & path & E0 & E1 & Hh).
  unfold link_name. rewrite E0. cbn [mbind res_bind]. rewrite E1. cbn [mbind res_bind].
  assert (Es : c_string path = Ok (path_of (dirs ++ [l]))) by (destruct Hh as (? & r & ->); by apply c_string_run).
  rewrite Es. cbn [mbind res_bind]. unfold sysfs_path_is_link.
  destruct e as [n|]; cbn [entry] in He.
  - destruct (entry_target fuel dirs l n path Hh Hz Hd Hl Hr He Hf) as (target & dir & Et & Ht & Hlt & Hc).
    destruct He as (-> & _). change (0 =? 0) with true. cbn iota. rewrite Et. cbn [mbind res_bind]. change (0 =? 0) with true. cbn iota.
    destruct (get_name_run target dir n [] name SYSFS_NAME_LEN) as (name' & E & Hh' & Hs); rewrite ?app_nil_r; try done.
    { by left. } { apply Hc. } { apply Hc. } { lia. }
    rewrite E. cbn [mbind res_bind]. change (0 =? 0) with true. cbn iota. exists name'. split_and!; [done|by rewrite Hs|done].
  - exists name. split_and!; [|done..]. destruct He as [He|He]; [by destruct (fs_lstat (path_of (dirs ++ [l]))) as [[]|]|].
    destruct fuel as [|fuel]; [lia|]. cbn [sysfs_get_link]. change (SYSFS_PATH_MAX =? 0) with false. cbn iota. rewrite Es.
    cbn [mbind res_bind]. rewrite He. by destruct (fs_lstat (path_of (dirs ++ [l]))) as [[]|].
Qed.

(** A name that is not known. *)
Lemma named_or_unknown name name' e : zlen name = SYSFS_NAME_LEN -> zlen name' = SYSFS_NAME_LEN ->
  match e with Some n => holds name' (take 63 n) | None => name' = name end ->
  exists name2, (if negb (match e with Some _ => 0 | None => -1 end =? 0) then unknown name' else Ok name') = Ok name2 /\
    holds name2 (take 63 (default SYSFS_UNKNOWN e)).
Proof.
  intros Hz Hz' He. destruct e as [n|]; [by exists name'|]. unfold unknown.
  destruct (safestrcpy_run name' (SYSFS_UNKNOWN ++ [0]) SYSFS_UNKNOWN) as (name2 & -> & Hh & _).
  { split; [by repeat constructor|by exists []]. } { rewrite Hz'. unfold SYSFS_NAME_LEN. lia. }
  exists name2. split; [done|]. by rewrite Hz' in Hh.
Qed.

(** The path of the device, without the slash at its end. *)
Lemma device_path_run ds nm path tail : holds path (path_of (ds ++ [nm]) ++ tail) -> tail = [] \/ tail = [SLASH] -> component nm ->
  zlen (path_of (ds ++ [nm])) + 1 < SYSFS_PATH_MAX ->
  exists pth0 pth, safestrcpy path_buf path = Ok pth0 /\ sysfs_remove_trailing_slash pth0 = Ok pth /\ holds pth (path_of (ds ++ [nm])).
Proof.
  intros Hp Ht Hn Hz. assert (Htl : zlen tail <= 1) by (destruct Ht as [-> | ->]; vm_compute; discriminate).
  destruct (tmp_run path _ Hp) as [r E]; [rewrite zlen_app; lia|]. fold path_buf in E.
  assert (Hh : holds ((path_of (ds ++ [nm]) ++ tail) ++ 0 :: r) (path_of (ds ++ [nm]) ++ tail)) by (split; [apply Hp|by eexists]).
  assert (Hk : exists k, tail = replicate k SLASH) by (destruct Ht as [-> | ->]; [by exists 0%nat|by exists 1%nat]).
  destruct Hk as [k ->]. destruct (remove_trailing_slash_run _ _ k Hh) as (pth & E' & Hpth).
  - intros s' Hs. destruct Hn as (Hpl & Hne & _). destruct nm as [|c nm' _] using rev_ind; [done|].
    rewrite path_of_snoc, app_comm_cons, app_assoc in Hs. apply app_inj_tail in Hs as [_ ->].
    apply list.Forall_app in Hpl as [_ Hc]. by apply Forall_cons_1 in Hc as [[_ ?] _].
  - by exists ((path_of (ds ++ [nm]) ++ replicate k SLASH) ++ 0 :: r), pth.
Qed.

(** The names of the links are components. *)
Lemma links_ok : Forall (fun l => component (drop 1 l) /\ zlen (drop 1 l) <= 9 /\ SLASH :: drop 1 l = l) [L_BUS; L_DRIVER; L_SUBSYSTEM].
Proof. repeat constructor; try done; try (vm_compute; discriminate). Qed.

(** The name one of these links stands for. *)
Lemma device_link_run fuel ds link e devpath name : link ∈ [L_BUS; L_DRIVER; L_SUBSYSTEM] -> holds devpath (path_of ds) ->
  zlen (path_of ds) + 10 < SYSFS_PATH_MAX -> Forall component ds -> real_dirs ds -> entry ds (drop 1 link) e ->
  (S (length ds) < fuel)%nat -> zlen name = SYSFS_NAME_LEN ->
  exists name', link_name fuel devpath link name = Ok (name', match e with Some _ => 0 | None => -1 end) /\
    zlen name' = SYSFS_NAME_LEN /\ match e with Some n => holds name' (take 63 n) | None => name' = name end.
Proof.
  intros Hin Hp Hz Hds Hr He Hf Hn. pose proof links_ok as Hok. rewrite list.Forall_forall in Hok.
  destruct (Hok link Hin) as (Hc & Hs & El). 
  pose proof (link_name_run fuel ds (drop 1 link) e devpath name) as Hrun. rewrite El in Hrun.
  apply Hrun; try done. rewrite path_of_snoc, zlen_app, zlen_cons. lia.
Qed.
End device.

(** C31: Opening the directory [nm] of a device below [dirs], with or without a slash at the end.
    The name and the bus identifier are the last name of the path, the path has no slash at
    its end, and the bus, the driver and the subsystem are the last names of what the links
    [bus], [driver] and [subsystem] of the device resolve to; where there is no such link the
    driver and the subsystem are unknown, and the bus is empty. *)
Theorem sysfs_open_device_path_spec `{sysfs_fs} (fuel : nat) (dirs : list (list Z)) (nm path tail : list Z) (bus drv sub : option (list Z))
    (Hpath : holds path (path_of (dirs ++ [nm]) ++ tail)) (Htail : tail = [] \/ tail = [SLASH])
    (Hsize : zlen (path_of (dirs ++ [nm])) + 10 < SYSFS_PATH_MAX) (Hdirs : Forall component (dirs ++ [nm]))
    (Hdir : fs_lstat (path_of (dirs ++ [nm]) ++ tail) = Some F_dir) (Hreal : real_dirs (dirs ++ [nm]))
    (Hbus : entry (dirs ++ [nm]) (drop 1 L_BUS) bus) (Hdrv : entry (dirs ++ [nm]) (drop 1 L_DRIVER) drv)
    (Hsub : entry (dirs ++ [nm]) (drop 1 L_SUBSYSTEM) sub) (Hfuel : (S (length (dirs ++ [nm])) < fuel)%nat) :
  exists d, sysfs_open_device_path fuel true (Some path) = Ok (Some d) /\
    holds (de_name d) (take 63 nm) /\ holds (de_bus_id d) (take 63 nm) /\ holds (de_path d) (path_of (dirs ++ [nm])) /\
    holds (de_bus d) (take 63 (default [] bus)) /\ holds (de_driver_name d) (take 63 (default SYSFS_UNKNOWN drv)) /\
    holds (de_subsystem d) (take 63 (default SYSFS_UNKNOWN sub)).
Proof.
  assert (Hnb : zlen name_buf = SYSFS_NAME_LEN) by (unfold name_buf; by rewrite zlen_replicate).
  assert (Htl : zlen tail <= 1) by (destruct Htail as [-> | ->]; vm_compute; discriminate).
  assert (Hnm : component nm) by (apply list.Forall_app in Hdirs as [_ Hn]; by apply Forall_cons_1 in Hn as [? _]).
  unfold sysfs_open_device_path.
  assert (Es : c_string path = Ok (path_of (dirs ++ [nm]) ++ tail)) by (destruct Hpath as (? & r & ->); by apply c_string_run).
  rewrite Es. cbn [mbind res_bind]. unfold sysfs_path_is_dir. rewrite Hdir. change (negb (0 =? 0)) with false. cbn [negb]. cbn iota.
  assert (Hpath' := Hpath). rewrite path_of_snoc, <- app_assoc in Hpath'. cbn [app] in Hpath'.
  destruct (get_name_run path (path_of dirs) nm tail name_buf SYSFS_NAME_LEN Hpath' Htail (proj1 Hnm)) as (bid & -> & Hbid & Hzb).
  { apply Hnm. } { rewrite path_of_snoc in Hsize. rewrite !zlen_app, zlen_cons in *. rewrite zlen_app. lia. } { done. }
  { rewrite Hnb. lia. }
  cbn [mbind res_bind]. change (negb (0 =? 0)) with false. cbn iota.
  destruct (device_path_run dirs nm path tail Hpath Htail Hnm ltac:(lia)) as (pth0 & pth & -> & Er & Hpth).
  cbn [mbind res_bind]. rewrite Er. cbn [mbind res_bind]. clear Er.
  destruct (safestrcpy_run name_buf bid _ Hbid) as (name & -> & Hname & _); [rewrite Hnb; done|]. rewrite Hnb in Hname.
  cbn [mbind res_bind]. unfold sysfs_get_device_bus. cbn [de_path de_bus de_name de_bus_id de_driver_name de_subsystem].
  destruct (device_link_run fuel (dirs ++ [nm]) L_BUS bus pth name_buf) as (nb & -> & _ & Hb); try done; [set_solver|].
  cbn [mbind res_bind]. unfold get_dev_driver. cbn [de_path de_bus de_name de_bus_id de_driver_name de_subsystem].
  destruct (device_link_run fuel (dirs ++ [nm]) L_DRIVER drv pth name_buf) as (nd & -> & Hzd & Hd); try done; [set_solver|].
  destruct (named_or_unknown name_buf nd drv Hnb Hzd Hd) as (nd2 & E2 & Hd2).
  cbn [mbind res_bind de_driver_name]. rewrite E2. cbn [mbind res_bind]. unfold get_dev_subsystem.
  cbn [de_path de_bus de_name de_bus_id de_driver_name de_subsystem].
  destruct (device_link_run fuel (dirs ++ [nm]) L_SUBSYSTEM sub pth name_buf) as (ns & -> & Hzs & Hs); try done; [set_solver|].
  destruct (named_or_unknown name_buf ns sub Hnb Hzs Hs) as (ns2 & E3 & Hs2).
  cbn [mbind res_bind de_subsystem]. rewrite E3. cbn [mbind res_bind].
  eexists. split; [done|]. cbn. rewrite take_take in Hname. split_and!; try done.
  destruct bus; [done|]. subst. split; [done|by eexists].
Qed.

(** ** Concrete devices and drivers *)

(** /s/d is a device with the links bus to ../b/pci and driver to ../../x. *)
Definition demo_devices : sysfs_fs := {|
  fs_lstat p := if bool_decide (p ∈ [path_of [[115]; [100]; SYSFS_BUS_NAME]; path_of [[115]; [100]] ++ L_DRIVER]) then Some F_link else Some F_dir;
  fs_stat p := Some (F_dir, true, true);
  fs_readlink p :=
    if bool_decide (p = path_of [[115]; [100]; SYSFS_BUS_NAME]) then Some [46; 46; 47; 98; 47; 112; 99; 105]
    else if bool_decide (p = path_of [[115]; [100]] ++ L_DRIVER) then Some [46; 46; 47; 46; 46; 47; 120] else None;
  fs_sysfs_env := None;
  fs_mounts := Some [(SYSFS_FSTYPE_NAME, SYSFS_MNT_PATH)]
|}.

(** Opened as /s/d/: the bus is pci, the driver x and the subsystem unknown. *)
Lemma sysfs_open_device_path_spec_witness :
  exists d, @sysfs_open_device_path demo_devices 5 true (Some [47; 115; 47; 100; 47; 0]) = Ok (Some d) /\
    holds (de_name d) [100] /\ holds (de_bus_id d) [100] /\ holds (de_path d) [47; 115; 47; 100] /\
    holds (de_bus d) [112; 99; 105] /\ holds (de_driver_name d) [120] /\ holds (de_subsystem d) SYSFS_UNKNOWN.
Proof.
  apply (@sysfs_open_device_path_spec demo_devices 5 [[115]] [100] [47; 115; 47; 100; 47; 0] [SLASH] (Some [112; 99; 105]) (Some [120]) None).
  - split; [by repeat constructor|by exists []].
  - by right.
  - reflexivity.
  - by repeat constructor.
  - reflexivity.
  - intros j Hj. cbn in Hj. assert (j = 1%nat \/ j = 2%nat) as [-> | ->] by lia; vm_compute; discriminate.
  - split; [reflexivity|]. exists 1%nat, [[98]]. split_and!; try reflexivity; [cbn; lia|by repeat constructor|done].
  - split; [reflexivity|]. exists 2%nat, []. split_and!; try reflexivity; [by repeat constructor|done].
  - left. vm_compute. discriminate.
  - cbn. lia.
Defined.

(** /sys/bus/b/drivers/x is a driver of the bus b. *)
Example get_driver_bus_runs :
  ('(d, r) ← get_driver_bus (mk_driver name_buf (SYSFS_MNT_PATH ++ L_BUS ++ [47; 98; 47] ++ SYSFS_DRIVERS_NAME ++ [47; 120; 0]) name_buf);
   b ← c_string (dr_bus d); Ok (b, r)) = Ok ([98], 0).
Proof. vm_compute. reflexivity. Qed.

(** With the file system mounted at /bus/s the first "bus" of the path is not the directory
    of the buses, and the bus of the driver is "s/bus/b". *)
Example get_driver_bus_mount :
  ('(d, r) ← get_driver_bus (mk_driver name_buf (L_BUS ++ [47; 115] ++ L_BUS ++ [47; 98; 47] ++ SYSFS_DRIVERS_NAME ++ [47; 120; 0]) name_buf);
   b ← c_string (dr_bus d); Ok (b, r)) = Ok ([115] ++ L_BUS ++ [47; 98], 0).
Proof. vm_compute. reflexivity. Qed.

(** A driver of a bus whose name begins with "drivers" has no bus of that name. *)
Example get_driver_bus_named_drivers :
  ('(d, r) ← get_driver_bus (mk_driver name_buf (SYSFS_MNT_PATH ++ L_BUS ++ [47] ++ SYSFS_DRIVERS_NAME ++ [98; 47] ++ SYSFS_DRIVERS_NAME ++ [47; 120; 0]) name_buf);
   b ← c_string (dr_bus d); Ok (b, r)) = Ok ([], 1).
Proof. vm_compute. reflexivity. Qed.
