(* ===== verification/SysfsClass.v ===== *)
(** * Classes, modules and parents of sysfs (sysfsutils/lib/sysfs_class.c, sysfs_module.c,
      sysfs_device.c)

    Opening a class, a class device or a module, and the parents of a device and of a
    class device, in the style of SysfsDevice: a structure is the values of its arrays,
    [alloc] says whether it could be allocated.  Pointers to structures that were opened
    before, which the calls return at once, and the lists of a class are left out. *)

From S2P Require Import Prelude StrUtil SysfsUtils SysfsDevice.

Record sysfs_class_device := mk_cdev { cd_name : list Z; cd_path : list Z; cd_classname : list Z }.
Record sysfs_class := mk_class { cl_name : list Z; cl_path : list Z }.
Record sysfs_module := mk_module { mo_name : list Z; mo_path : list Z }.

Definition SYSFS_CLASS_NAME : list Z := [99; 108; 97; 115; 115].
Definition SYSFS_BLOCK_NAME : list Z := [98; 108; 111; 99; 107].
Definition SYSFS_MODULE_NAME : list Z := [109; 111; 100; 117; 108; 101].
Definition L_DEVICE : list Z := SLASH :: [100; 101; 118; 105; 99; 101].
Definition COLON : Z := 58.

(** [strcpy] and [strcat]: without a bound. *)
Definition strcpy (a from : list Z) : res (list Z) := s ← c_string from; put_string a 0 s.
Definition strcat (a from : list Z) : res (list Z) := i ← strlen a; s ← c_string from; put_string a i s.

(** [strncpy(to, from, n)]: [n] bytes, with zeros behind the string. *)
Fixpoint put_bytes_at (a : list Z) (i : Z) (bs : list Z) : res (list Z) :=
  match bs with [] => Ok a | b :: bs => a ← rset a i b; put_bytes_at a (i + 1) bs end.
Definition strncpy (to from : list Z) (n : Z) : res (list Z) :=
  s ← c_string from;
  let s := take (Z.to_nat n) s in
  put_bytes_at to 0 (s ++ replicate (Z.to_nat n - length s) 0).

(** The bytes from [e] on up to a slash or the end. *)
Fixpoint count_loop (fuel : nat) (a : list Z) (e : Z) (count : Z) : res Z :=
  match fuel with
  | O => Fault No_fuel
  | S fuel' => b ← rget a e; if negb (b =? SLASH) && negb (b =? 0) then count_loop fuel' a (e + 1) (count + 1) else Ok count
  end.

Section class.
Context `{sysfs_fs}.

(** ** Class devices *)

(** Where the class name starts in the path: behind the slash after "class", or at "block". *)
Definition class_start (path : list Z) : res (option Z) :=
  c ← strstr path SYSFS_CLASS_NAME 0;
  match c with
  | None => strstr path SYSFS_BLOCK_NAME 0
  | Some c => strstr path [SLASH] c
  end.

(** The class name from the target of the link [subsystem]; [name] is the array that holds
    the name when there is no target. *)
Definition subsystem_classname (fuel : nat) (d : sysfs_class_device) (name : list Z) : res (list Z) :=
  link ← strcpy path_buf (cd_path d);
  link ← strcat link (L_SUBSYSTEM ++ [0]);
  '(name, _) ← sysfs_get_link fuel path_buf path_buf link name SYSFS_PATH_MAX;
  n ← c_string name;
  match fs_lstat n with
  | None => unknown (cd_classname d)
  | Some _ =>
      c ← strrchr name SLASH;
      match c with
      | Some c => safestrcpy (cd_classname d) (drop (Z.to_nat (c + 1)) name)
      | None => unknown (cd_classname d)
      end
  end.

Definition set_classdev_classname (fuel : nat) (d : sysfs_class_device) : res sysfs_class_device :=
  name ← safestrcpy path_buf (cd_name d);
  c ← strstr name [COLON] 0;
  match c with
  | Some c =>
      n ← safestrcpy (cd_name d) (drop (Z.to_nat (c + 1)) name);
      name ← rset name c 0;
      cl ← safestrcpy (cd_classname d) name;
      Ok (mk_cdev n (cd_path d) cl)
  | None =>
      c ← class_start (cd_path d);
      match c with
      | Some c =>
          b ← rget (cd_path d) c;
          let c := if b =? SLASH then c + 1 else c in
          count ← count_loop (S (length (cd_path d))) (cd_path d) c 0;
          cl ← strncpy (cd_classname d) (drop (Z.to_nat c) (cd_path d)) count;
          Ok (mk_cdev (cd_name d) (cd_path d) cl)
      | None => cl ← subsystem_classname fuel d name; Ok (mk_cdev (cd_name d) (cd_path d) cl)
      end
  end.

(** The directory of the class device, or what the link stands for; [None] without either. *)
Definition classdev_dir (fuel : nat) (path : list Z) : res (option (list Z)) :=
  p ← c_string path;
  if negb (sysfs_path_is_dir p =? 0) then
    if sysfs_path_is_link p =? 0 then
      '(temp_path, r) ← sysfs_get_link fuel path_buf path_buf path path_buf SYSFS_PATH_MAX;
      if negb (r =? 0) then Ok None else Ok (Some temp_path)
    else Ok None
  else temp_path ← safestrcpy path_buf path; Ok (Some temp_path).

Definition sysfs_open_class_device_path (fuel : nat) (alloc : bool) (path : option (list Z)) : res (option sysfs_class_device) :=
  match path with
  | None => Ok None
  | Some path =>
      dir ← classdev_dir fuel path;
      match dir with
      | None => Ok None
      | Some temp_path =>
          if negb alloc then Ok None
          else
            '(name, r) ← sysfs_get_name_from_path (Some temp_path) name_buf SYSFS_NAME_LEN;
            if negb (r =? 0) then Ok None
            else
              pth ← safestrcpy path_buf temp_path;
              pth ← sysfs_remove_trailing_slash pth;
              d ← set_classdev_classname fuel (mk_cdev name pth name_buf);
              Ok (Some d)
      end
  end.

(** [sysfs_get_classdev_parent] of a class device whose parent was not opened before. *)
Definition sysfs_get_classdev_parent (fuel : nat) (alloc : bool) (d : sysfs_class_device) : res (option sysfs_class_device) :=
  tmp_path ← safestrcpy path_buf (cd_path d);
  cls ← c_string (cd_classname d);
  c ← strstr tmp_path cls 0;
  match c with
  | None => Fault Out_of_bounds
  | Some c =>
      c ← strstr tmp_path [SLASH] c;
      match c with
      | None => Fault Out_of_bounds
      | Some c =>
          tmp_path ← rset tmp_path c 0;
          abs_path ← safestrcpy path_buf (cd_path d);
          c ← strrchr abs_path SLASH;
          match c with
          | None => Fault Out_of_bounds
          | Some c =>
              abs_path ← rset abs_path c 0;
              n ← strlen abs_path;
              same ← strncmp_eq (Z.to_nat n) tmp_path abs_path 0;
              if same : bool then Ok None else sysfs_open_class_device_path fuel alloc (Some abs_path)
          end
      end
  end.

(** Block devices are looked for in the directory block first, then below class. *)
Definition get_classdev_path (classname clsdev path : list Z) (len : Z) : res (list Z * Z) :=
  '(path, r) ← sysfs_get_mnt_path path len;
  if negb (r =? 0) then Ok (path, -1)
  else
    path ← safestrcatmax path [SLASH; 0] len;
    '(path, done) ←
      (if bool_decide (classname = SYSFS_BLOCK_NAME) then
         path ← safestrcatmax path (SYSFS_BLOCK_NAME ++ [0]) len;
         p ← c_string path;
         if sysfs_path_is_dir p =? 0 then Ok (path, true)
         else
           c ← strrchr path SLASH;
           match c with None => Fault Out_of_bounds | Some c => path ← rset path (c + 1) 0; Ok (path, false) end
       else Ok (path, false));
    path ← (if done : bool then Ok path else safestrcatmaxs path [SYSFS_CLASS_NAME; [SLASH]; classname] len);
    path ← safestrcatmaxs path [[SLASH]; clsdev] len;
    Ok (path, 0).

Definition sysfs_open_class_device (fuel : nat) (alloc : bool) (classname name : option (list Z)) : res (option sysfs_class_device) :=
  match classname, name with
  | Some classname, Some name =>
      '(devpath, r) ← get_classdev_path classname name path_buf SYSFS_PATH_MAX;
      if negb (r =? 0) then Ok None else sysfs_open_class_device_path fuel alloc (Some devpath)
  | _, _ => Ok None
  end.

(** [sysfs_get_classdev_device] of a class device whose device was not opened before. *)
Definition sysfs_get_classdev_device (fuel : nat) (alloc : bool) (d : sysfs_class_device) : res (option sysfs_device) :=
  linkpath ← safestrcpy path_buf (cd_path d);
  linkpath ← safestrcat linkpath (L_DEVICE ++ [0]);
  p ← c_string linkpath;
  if sysfs_path_is_link p =? 0 then
    '(devpath, r) ← sysfs_get_link fuel path_buf path_buf linkpath path_buf SYSFS_PATH_MAX;
    if r =? 0 then sysfs_open_device_path fuel alloc (Some devpath) else Ok None
  else Ok None.

(** ** Classes and modules *)

Definition sysfs_open_class (alloc : bool) (name : option (list Z)) : res (option sysfs_class) :=
  match name with
  | None => Ok None
  | Some name =>
      '(classpath, r) ← sysfs_get_mnt_path path_buf SYSFS_PATH_MAX;
      if negb (r =? 0) then Ok None
      else
        classpath ← safestrcat classpath [SLASH; 0];
        '(classpath, done) ←
          (if bool_decide (name = SYSFS_BLOCK_NAME) then
             classpath ← safestrcat classpath (SYSFS_BLOCK_NAME ++ [0]);
             p ← c_string classpath;
             if sysfs_path_is_dir p =? 0 then Ok (classpath, true)
             else
               c ← strrchr classpath SLASH;
               match c with None => Fault Out_of_bounds | Some c => classpath ← rset classpath (c + 1) 0; Ok (classpath, false) end
           else Ok (classpath, false));
        classpath ← (if done : bool then Ok classpath else safestrcats classpath [SYSFS_CLASS_NAME; [SLASH]; name]);
        p ← c_string classpath;
        if negb (sysfs_path_is_dir p =? 0) then Ok None
        else if negb alloc then Ok None
        else
          nm ← safestrcpy name_buf (name ++ [0]);
          pth ← safestrcpy path_buf classpath;
          pth ← sysfs_remove_trailing_slash pth;
          Ok (Some (mk_class nm pth))
  end.

Definition sysfs_open_module_path (alloc : bool) (path : option (list Z)) : res (option sysfs_module) :=
  match path with
  | None => Ok None
  | Some path =>
      p ← c_string path;
      if negb (sysfs_path_is_dir p =? 0) then Ok None
      else if negb alloc then Ok None
      else
        '(name, r) ← sysfs_get_name_from_path (Some path) name_buf SYSFS_NAME_LEN;
        if negb (r =? 0) then Ok None
        else
          pth ← safestrcpy path_buf path;
          pth ← sysfs_remove_trailing_slash pth;
          Ok (Some (mk_module name pth))
  end.

Definition sysfs_open_module (alloc : bool) (name : option (list Z)) : res (option sysfs_module) :=
  match name with
  | None => Ok None
  | Some name =>
      '(modpath, r) ← sysfs_get_mnt_path path_buf SYSFS_PATH_MAX;
      if negb (r =? 0) then Ok None
      else
        modpath ← safestrcats modpath [[SLASH]; SYSFS_MODULE_NAME; [SLASH]; name];
        p ← c_string modpath;
        if negb (sysfs_path_is_dir p =? 0) then Ok None
        else if negb alloc then Ok None
        else
          nm ← safestrcpy name_buf (name ++ [0]);
          pth ← safestrcpy path_buf modpath;
          pth ← sysfs_remove_trailing_slash pth;
          Ok (Some (mk_module nm pth))
  end.

(** ** The parent of a device *)

(** The path without its last name; a path that ends in a slash has the second search start
    at the byte that was just cleared, and so finds nothing. *)
Definition parent_path (path : list Z) : res (option (list Z)) :=
  ppath ← safestrcpy path_buf path;
  tmp ← strrchr ppath SLASH;
  match tmp with
  | None => Ok None
  | Some tmp =>
      c ← rget ppath (tmp + 1);
      if c =? 0 then
        ppath ← rset ppath tmp 0;
        again ← strrchr (drop (Z.to_nat tmp) ppath) SLASH;
        match again with
        | None => Ok None
        | Some i => ppath ← rset ppath (tmp + i) 0; Ok (Some ppath)
        end
      else ppath ← rset ppath tmp 0; Ok (Some ppath)
  end.

(** [sysfs_get_device_parent] of a device whose parent was not opened before. *)
Definition sysfs_get_device_parent (fuel : nat) (alloc : bool) (d : sysfs_device) : res (option sysfs_device) :=
  pp ← parent_path (de_path d);
  match pp with
  | None => Ok None
  | Some ppath =>
      '(dpath, r) ← sysfs_get_mnt_path path_buf SYSFS_PATH_MAX;
      if negb (r =? 0) then Ok None
      else
        dpath ← safestrcats dpath [[SLASH]; SYSFS_DEVICES_NAME];
        a ← c_string dpath;
        b ← c_string ppath;
        if bool_decide (a = b) then Ok None else sysfs_open_device_path fuel alloc (Some ppath)
  end.
End class.

(** ** Concrete class devices *)

(** Every path is a directory. *)
Definition demo_dirs : sysfs_fs := {|
  fs_lstat p := Some F_dir;
  fs_stat p := Some (F_dir, true, true);
  fs_readlink p := None;
  fs_sysfs_env := None;
  fs_mounts := Some [(SYSFS_FSTYPE_NAME, SYSFS_MNT_PATH)]
|}.

(** The strings of a class device. *)
Definition cdev_strings (r : res (option sysfs_class_device)) : res (option (list Z * list Z * list Z)) :=
  d ← r;
  match d with
  | None => Ok None
  | Some d => n ← c_string (cd_name d); p ← c_string (cd_path d); c ← c_string (cd_classname d); Ok (Some (n, p, c))
  end.

(** The device e of the class n is opened as /sys/class/n/e with that class. *)
Example open_class_device_runs :
  cdev_strings (let H := demo_dirs in sysfs_open_class_device 3 true (Some [110]) (Some [101])) =
    Ok (Some ([101], SYSFS_MNT_PATH ++ SLASH :: SYSFS_CLASS_NAME ++ [47; 110; 47; 101], [110])).
Proof. vm_compute. reflexivity. Qed.

(** A block device is found below block. *)
Example open_block_device_runs :
  cdev_strings (let H := demo_dirs in sysfs_open_class_device 3 true (Some SYSFS_BLOCK_NAME) (Some [101])) =
    Ok (Some ([101], SYSFS_MNT_PATH ++ SLASH :: SYSFS_BLOCK_NAME ++ [47; 101], SYSFS_BLOCK_NAME)).
Proof. vm_compute. reflexivity. Qed.

(** A class device with the name n:e has the class n; its path has no slash behind the class,
    and looking for its parent follows a null pointer. *)
Example classdev_parent_null :
  let H := demo_dirs in
  cdev_strings (sysfs_open_class_device_path 3 true (Some [47; 100; 47; 110; 58; 101; 0])) = Ok (Some ([101], [47; 100; 47; 110; 58; 101], [110])) /\
  (d ← sysfs_open_class_device_path 3 true (Some [47; 100; 47; 110; 58; 101; 0]);
   match d with None => Ok None | Some d => sysfs_get_classdev_parent 3 true d end) = Fault Out_of_bounds.
Proof. vm_compute. done. Qed.

(** The name of a class with more than 64 bytes is copied beyond its array. *)
Example classname_overrun :
  (let H := demo_dirs in
   sysfs_open_class_device_path 3 true (Some (SLASH :: SYSFS_CLASS_NAME ++ SLASH :: replicate 65 110 ++ [47; 101; 0]))) = Fault Out_of_bounds.
Proof. vm_compute. reflexivity. Qed.

(** The module m is opened as /sys/module/m. *)
Example open_module_runs :
  (let H := demo_dirs in
   m ← sysfs_open_module true (Some [109]);
   match m with None => Ok [] | Some m => c_string (mo_path m) end) = Ok (SYSFS_MNT_PATH ++ SLASH :: SYSFS_MODULE_NAME ++ [47; 109]).
Proof. vm_compute. reflexivity. Qed.

(** /sys/devices/a has no parent; that of /sys/devices/a/b is /sys/devices/a. *)
Example device_parent_runs :
  let H := demo_dirs in
  let dev p := mk_device name_buf (SYSFS_MNT_PATH ++ SLASH :: SYSFS_DEVICES_NAME ++ p ++ [0]) name_buf name_buf name_buf name_buf in
  let path (r : res (option sysfs_device)) := d ← r; match d with None => Ok [] | Some d => c_string (de_path d) end in
  path (sysfs_get_device_parent 3 true (dev [47; 97])) = Ok [] /\
  path (sysfs_get_device_parent 3 true (dev [47; 97; 47; 98])) = Ok (SYSFS_MNT_PATH ++ SLASH :: SYSFS_DEVICES_NAME ++ [47; 97]).
Proof. vm_compute. done. Qed.
