(* ===== verification/RpcDemod.v ===== *)
(** * The server of forwarded system calls (apps/examples/rpc_demo/rpc_demod.c)

    The application on the host that carries out the system calls of the remote side: its
    endpoint callback copies a request out of the shared memory, runs it on the host's
    files and sends the answer.  Its static variables are a part of the program's state
    beside the transport, reached by [srv_of] and [srv_set]; the files are the class
    [files].  The local arrays are memory at given addresses; signals and printing are
    left out. *)

From S2P Require Import Prelude MetalIo StrUtil Rpmsg RpmsgRetarget.

(** ** Data *)

Definition RPC_BUFF_SIZE : Z := 1024.
Definition ENOMEM_RET : Z := -12.

(** open(2), close(2), read(2) with the bytes it stores, and write(2). *)
Class files (Sys : Type) := {
  f_open : Sys -> list Z -> Z -> Z -> Sys * Z;
  f_close : Sys -> Z -> Sys * Z;
  f_read : Sys -> Z -> Z -> Sys * Z * list Z;
  f_write : Sys -> Z -> list Z -> Sys * Z
}.

(** The static variables [request_termination], [ept_deleted] and [err_cnt], and the
    files. *)
Record server (Sys : Type) := mk_server {
  sv_request_termination : bool;
  sv_ept_deleted : bool;
  sv_err_cnt : Z;
  sv_os : Sys
}.
Arguments mk_server {Sys}.
Arguments sv_request_termination {Sys}.
Arguments sv_ept_deleted {Sys}.
Arguments sv_err_cnt {Sys}.
Arguments sv_os {Sys}.

Section server.
Context {Sys : Type} `{files Sys} {T : Type}.
Variable ops : rpmsg_device_ops T.
Variable env : callbacks T.
Variable ns_slot : Z.
Variable srv_of : T -> server Sys.
Variable srv_set : T -> server Sys -> T.
(** [shbuf_io]; the addresses of [app_ept], of the callback's [buf], of the [resp] of a
    handler and of the [buf] of [handle_read]. *)
Variable shbuf_io : metal_io_region.
Variables app_ept buf_slot resp_slot rbuf_slot : Z.
Implicit Types w : world T.

Definition srv w : server Sys := srv_of (w_tr w).
Definition put_srv w (s : server Sys) : world T := mk_world (w_mem w) (w_epts w) (w_rdev w) (srv_set (w_tr w) s).
Definition put_os w (o : Sys) : world T :=
  put_srv w (mk_server (sv_request_termination (srv w)) (sv_ept_deleted (srv w)) (sv_err_cnt (srv w)) o).
Definition count_error w : world T :=
  put_srv w (mk_server (sv_request_termination (srv w)) (sv_ept_deleted (srv w)) (i32 (sv_err_cnt (srv w) + 1)) (sv_os (srv w))).

Definition copy_from_shbuf w (dst shbuf len : Z) : res (world T * Z) :=
  let offset := metal_io_virt_to_offset shbuf_io shbuf in
  if offset =? METAL_BAD_OFFSET then Ok (w, - EINVAL)
  else '(m, ret) ← metal_io_block_read shbuf_io (w_mem w) offset dst len; Ok (set_mem w m, ret).

(** ** The handlers *)

(** The fields of the request in [buf]. *)
Definition arg1 w : res Z := v ← rd32 (w_mem w) (buf_slot + 4); Ok (i32 v).
Definition arg2 w : res Z := v ← rd32 (w_mem w) (buf_slot + 8); Ok (i32 v).

(** The response in [resp] and its transmission. *)
Definition respond w (ept id v : Z) : res (world T * Z) :=
  m ← storen (w_mem w) resp_slot (syscall_bytes (mk_syscall id v 0 0));
  '(w, ret) ← rpmsg_send ops (set_mem w m) ept resp_slot SIZEOF_SYSCALL;
  Ok (w, if 0 <? ret then 0 else ret).

(** The file name ends within [buf]. *)
Definition handle_open w (ept : Z) : res (world T * Z) :=
  if ept =? 0 then Ok (w, - EINVAL)
  else
    let name := buf_slot + SIZEOF_SYSCALL in
    n ← mem_strlen (w_mem w) name;
    if RPC_BUFF_SIZE - SIZEOF_SYSCALL <=? n then Fault Out_of_bounds
    else
      path ← loadn (Z.to_nat n) (w_mem w) name;
      flags ← arg1 w;
      mode ← arg2 w;
      let '(o, fd) := f_open (sv_os (srv w)) path flags mode in
      respond (put_os w o) ept OPEN_SYSCALL_ID fd.

Definition handle_close w (ept : Z) : res (world T * Z) :=
  if ept =? 0 then Ok (w, - EINVAL)
  else
    fd ← arg1 w;
    let '(o, ret) := f_close (sv_os (srv w)) fd in
    respond (put_os w o) ept CLOSE_SYSCALL_ID ret.

(** How many bytes [handle_read] asks for. *)
Definition read_count (fd n : Z) : Z :=
  let bytes_read := RPC_BUFF_SIZE - SIZEOF_SYSCALL in
  if (fd =? 0) && (n <? bytes_read) then n else bytes_read.

Definition handle_read w (ept : Z) : res (world T * Z) :=
  if ept =? 0 then Ok (w, - EINVAL)
  else
    fd ← arg1 w;
    n ← arg2 w;
    let '(o, bytes_read, bs) := f_read (sv_os (srv w)) fd (u64 (read_count fd n)) in
    if RPC_BUFF_SIZE - SIZEOF_SYSCALL <? zlen bs then Fault Out_of_bounds
    else
      m ← storen (w_mem w) (rbuf_slot + SIZEOF_SYSCALL) bs;
      m ← storen m rbuf_slot (syscall_bytes (mk_syscall READ_SYSCALL_ID bytes_read 0 (u32 bytes_read)));
      let payload_size := SIZEOF_SYSCALL + (if 0 <? bytes_read then bytes_read else 0) in
      '(w, ret) ← rpmsg_send ops (set_mem (put_os w o) m) ept rbuf_slot payload_size;
      Ok (w, if 0 <? ret then 0 else ret).

(** The bytes to write lie in [buf]. *)
Definition handle_write w (ept : Z) : res (world T * Z) :=
  if ept =? 0 then Ok (w, - EINVAL)
  else
    fd ← arg1 w;
    n ← arg2 w;
    if (n <? 0) || (RPC_BUFF_SIZE - SIZEOF_SYSCALL <? n) then Fault Out_of_bounds
    else
      bs ← loadn (Z.to_nat n) (w_mem w) (buf_slot + SIZEOF_SYSCALL);
      let '(o, bytes_written) := f_write (sv_os (srv w)) fd bs in
      respond (put_os w o) ept WRITE_SYSCALL_ID bytes_written.

Definition handle_rpc w (ept : Z) : res (world T * Z) :=
  id ← rd32 (w_mem w) buf_slot;
  if id =? OPEN_SYSCALL_ID then handle_open w ept
  else if id =? CLOSE_SYSCALL_ID then handle_close w ept
  else if id =? READ_SYSCALL_ID then handle_read w ept
  else if id =? WRITE_SYSCALL_ID then handle_write w ept
  else if id =? TERM_SYSCALL_ID then
    Ok (put_srv w (mk_server true (sv_ept_deleted (srv w)) (sv_err_cnt (srv w)) (sv_os (srv w))), 0)
  else Ok (w, -1).

(** ** The endpoint and the application *)

Definition rpmsg_service_unbind w (ept : Z) : res (world T) :=
  w ← rpmsg_destroy_ept ops env ns_slot w app_ept;
  Ok (put_srv w (mk_server (sv_request_termination (srv w)) true (sv_err_cnt (srv w)) (sv_os (srv w)))).

Definition rpmsg_endpoint_cb w (ept data len : Z) : res (world T * Z) :=
  if len <? SIZEOF_SYSCALL then Ok (count_error w, RPMSG_SUCCESS)
  else
    let len := if RPC_BUFF_SIZE <? len then RPC_BUFF_SIZE else len in
    '(w, ret) ← copy_from_shbuf w buf_slot data len;
    if ret <? 0 then Ok (w, ret)
    else
      '(w, e) ← handle_rpc w ept;
      Ok (if negb (e =? 0) then count_error w else w, RPMSG_SUCCESS).

Definition terminate_rpc_app w : res (world T) :=
  if negb (sv_ept_deleted (srv w)) then rpmsg_destroy_ept ops env ns_slot w app_ept else Ok w.

(** The loop of [app]: poll until an error or a request to end; [platform_poll] is the
    platform's. *)
Fixpoint app_loop (fuel : nat) (platform_poll : world T -> res (world T)) w : res (world T * Z) :=
  match fuel with
  | O => Fault No_fuel
  | S fuel' =>
      w ← platform_poll w;
      if negb (sv_err_cnt (srv w) =? 0) then Ok (w, - EINVAL)
      else if sv_ept_deleted (srv w) || sv_request_termination (srv w) then Ok (w, 0)
      else app_loop fuel' platform_poll w
  end.

(** [app], with whether the device has an I/O region, and the name and the callbacks of
    the endpoint. *)
Definition app (fuel : nat) (platform_poll : world T -> res (world T)) (has_io : bool) (name : list Z)
    (cb_fn unbind_fn : Z) w : res (world T * Z) :=
  '(w, ret) ← rpmsg_create_ept ops env ns_slot w app_ept (Some name) RPMSG_ADDR_ANY RPMSG_ADDR_ANY cb_fn unbind_fn;
  if negb (ret =? 0) then Ok (w, - EINVAL)
  else if negb has_io then Ok (w, ENOMEM_RET)
  else
    '(w, ret) ← app_loop fuel platform_poll w;
    w ← terminate_rpc_app w;
    Ok (w, ret).
End server.
