(* ===== verification/ForwardSpec.v ===== *)
(** * A forwarded system call from end to end

    The client of RpmsgRetarget and the server of RpcDemod agree on the bytes of a request
    and of an answer: a call on the remote side gives what the call on the host gave. *)

From S2P Require Import Prelude MetalIo StrUtil Rpmsg RpmsgRetarget RetargetSpec RpcDemod.

(** ** The fields of a message *)

Lemma i32_u32 z : -2147483648 <= z < 2147483648 -> i32 (u32 z) = z.
Proof. intros H. unfold i32, u32. rewrite Zplus_mod_idemp_l. rewrite Z.mod_small; lia. Qed.

Lemma syscall_fields m a c : is_u32 (sc_id c) -> is_u32 (sc_data_len c) -> has_bytes m a (syscall_bytes c) ->
  rd32 m a = Ok (sc_id c) /\ rd32 m (a + 4) = Ok (u32 (sc_int_field1 c)) /\
  rd32 m (a + 8) = Ok (u32 (sc_int_field2 c)) /\ rd32 m (a + 12) = Ok (sc_data_len c).
Proof.
  intros Hid Hdl H. unfold syscall_bytes in H.
  apply has_bytes_app in H as [H1 H]. apply has_bytes_app in H as [H2 H]. apply has_bytes_app in H as [H3 H4].
  rewrite !zlen_le_bytes in *. replace (a + Z.of_nat 4 + Z.of_nat 4 + Z.of_nat 4) with (a + 12) in H4 by lia.
  replace (a + Z.of_nat 4 + Z.of_nat 4) with (a + 8) in H3 by lia. change (Z.of_nat 4) with 4 in H2.
  split_and!; apply rd32_ok; done || apply u32_range.
Qed.

(** ** The length of a string *)

Lemma mem_strlen_loop_run m a s : Forall (fun c => c <> 0) s -> forall i fuel,
  has_bytes m (a + i) (s ++ [0]) -> (length s < fuel)%nat -> mem_strlen_loop fuel m a i = Ok (i + zlen s).
Proof.
  induction 1 as [|c s Hc Hs IH]; intros i [|fuel] Hb Hf; cbn [length] in Hf; try lia; cbn [mem_strlen_loop];
    destruct Hb as [Hb1 Hb2]; unfold load8; rewrite Hb1; cbn [mbind res_bind].
  - by rewrite Z.add_0_r.
  - rewrite (proj2 (Z.eqb_neq _ _) Hc), IH; [f_equal; rewrite zlen_cons; lia| |lia].
    by replace (a + (i + 1)) with (a + i + 1) by lia.
Qed.

Lemma mapped_size m a n : 0 <= n -> mapped m a n -> (Z.to_nat n <= size m)%nat.
Proof.
  intros Hn Hm. rewrite <- size_dom, <- (length_seqZ a n).
  rewrite <- (size_list_to_set (C := gset Z) (seqZ a n)) by apply NoDup_seqZ.
  apply subseteq_size. intros i Hi. apply elem_of_dom, Hm. apply elem_of_list_to_set, elem_of_seqZ in Hi. lia.
Qed.

Lemma mem_strlen_run m a s : Forall (fun c => c <> 0) s -> has_bytes m a (s ++ [0]) -> mem_strlen m a = Ok (zlen s).
Proof.
  intros Hs Hb. unfold mem_strlen. rewrite (mem_strlen_loop_run m a s Hs); [done|by rewrite Z.add_0_r|].
  pose proof (mapped_size _ _ _ (zlen_nonneg _) (has_bytes_mapped _ _ _ Hb)) as Hz.
  unfold zlen in Hz. rewrite Nat2Z.id, length_app in Hz. lia.
Qed.

(** ** The server *)

(** What [files] promises: a count within what was asked for, and that many bytes. *)
Class FilesLaws (Sys : Type) `{files Sys} : Prop := {
  f_read_count s fd n s' r bs : 0 <= n -> f_read s fd n = (s', r, bs) -> r <= n /\ (0 <= r -> zlen bs = r) /\ (r < 0 -> bs = [])
}.

(** What is put into the static variables is what is got. *)
Class SrvLens {T Sys} (srv_of : T -> server Sys) (srv_set : T -> server Sys -> T) : Prop := {
  srv_get : forall t x, srv_of (srv_set t x) = x
}.

Section serving.
Context {Sys : Type} `{files Sys} {T : Type}.
Variable ops : rpmsg_device_ops T.
Variable srv_of : T -> server Sys.
Variable srv_set : T -> server Sys -> T.
Context `{!SrvLens srv_of srv_set}.
Variable shbuf_io : metal_io_region.
Variables buf_slot resp_slot rbuf_slot : Z.
Implicit Types w : world T.

Abbreviation callback := (rpmsg_endpoint_cb ops srv_of srv_set shbuf_io buf_slot resp_slot rbuf_slot).

(** A message at [data] in the shared buffers, the callback's [buf] outside them. *)
Record arrived w (data : Z) (msg : list Z) : Prop := {
  ar_io : exists physmap, io_wf shbuf_io physmap;
  ar_in : io_virt shbuf_io <= data /\ data + zlen msg <= io_virt shbuf_io + io_size shbuf_io;
  ar_copy : copy_state (w_mem w) buf_slot data msg;
  ar_size : SIZEOF_SYSCALL <= zlen msg <= RPC_BUFF_SIZE
}.

Lemma callback_run w ept data msg : arrived w data msg ->
  callback w ept data (zlen msg) =
    ('(w, e) ← handle_rpc ops srv_of srv_set buf_slot resp_slot rbuf_slot (set_mem w (put_bytes (w_mem w) buf_slot msg)) ept;
     Ok (if negb (e =? 0) then count_error srv_of srv_set w else w, RPMSG_SUCCESS)).
Proof.
  intros [[pm Hw] [Hi1 Hi2] Hc [Hs1 Hs2]]. unfold rpmsg_endpoint_cb, copy_from_shbuf.
  assert (Hpos : 0 < zlen msg) by (unfold SIZEOF_SYSCALL in Hs1; lia).
  rewrite (proj2 (Z.ltb_ge _ _) Hs1), (proj2 (Z.ltb_ge _ _) Hs2).
  pose proof (wf_virt _ _ Hw) as [Hv1 Hv2]. pose proof (io_size_bound _ _ Hw) as Hb. unfold METAL_BAD_VA in Hv2.
  assert (E : metal_io_virt_to_offset shbuf_io data = data - io_virt shbuf_io).
  { unfold metal_io_virt_to_offset. rewrite u64_id by (unfold is_u64; lia). by rewrite (proj2 (Z.ltb_lt _ _)) by lia. }
  rewrite E, (proj2 (Z.eqb_neq _ METAL_BAD_OFFSET)) by (unfold METAL_BAD_OFFSET; lia).
  rewrite (block_read_run _ _ Hw) by (replace (io_virt shbuf_io + (data - io_virt shbuf_io)) with data by lia; done || lia).
  cbn [mbind res_bind]. by rewrite (proj2 (Z.ltb_ge (zlen msg) 0)) by lia.
Qed.

(** The answer of [len] bytes at [slot] is sent, and a send that fails is counted. *)
Definition reply w (ept slot len : Z) : res (world T * Z) :=
  '(w, ret) ← rpmsg_send ops w ept slot len;
  Ok (if ret <? 0 then count_error srv_of srv_set w else w, RPMSG_SUCCESS).

Abbreviation os w := (sv_os (srv srv_of w)).

Lemma os_put w o : os (put_os srv_of srv_set w o) = o.
Proof. unfold srv, put_os, put_srv. cbn [w_tr]. by rewrite srv_get. Qed.

Lemma reply_run w ept slot len :
  ('(w, e) ← ('(w, ret) ← rpmsg_send ops w ept slot len; Ok (w, if 0 <? ret then 0 else ret));
   Ok (if negb (e =? 0) then count_error srv_of srv_set w else w, RPMSG_SUCCESS)) = reply w ept slot len.
Proof.
  unfold reply. destruct (rpmsg_send ops w ept slot len) as [[w' ret]|]; cbn [mbind res_bind]; [|done].
  do 2 f_equal. destruct (0 <? ret) eqn:E1; destruct (ret <? 0) eqn:E2; zbool; try lia; cbn; [done| |].
  - by rewrite (proj2 (Z.eqb_neq ret 0)) by lia.
  - by replace ret with 0 by lia.
Qed.

(** A request that the server holds in [buf], with its fields. *)
Definition in_buf m (c : rpmsg_rpc_syscall) : Prop :=
  rd32 m buf_slot = Ok (sc_id c) /\ rd32 m (buf_slot + 4) = Ok (u32 (sc_int_field1 c)) /\
  rd32 m (buf_slot + 8) = Ok (u32 (sc_int_field2 c)).

Definition int_fields (c : rpmsg_rpc_syscall) : Prop :=
  is_u32 (sc_id c) /\ is_u32 (sc_data_len c) /\ -2147483648 <= sc_int_field1 c < 2147483648 /\
  -2147483648 <= sc_int_field2 c < 2147483648.

Lemma in_buf_put m c rest : int_fields c -> in_buf (put_bytes m buf_slot (syscall_bytes c ++ rest)) c.
Proof.
  intros (H1 & H2 & _). destruct (syscall_fields (put_bytes m buf_slot (syscall_bytes c ++ rest)) buf_slot c)
    as (? & ? & ? & ?); [done..| |by split_and!].
  pose proof (has_bytes_put m buf_slot (syscall_bytes c ++ rest)) as H3. by apply has_bytes_app in H3 as [? _].
Qed.

Lemma args_run w c : int_fields c -> in_buf (w_mem w) c ->
  arg1 buf_slot w = Ok (sc_int_field1 c) /\ arg2 buf_slot w = Ok (sc_int_field2 c).
Proof.
  intros (_ & _ & H3 & H4) (_ & E1 & E2). unfold arg1, arg2. rewrite E1, E2. cbn [mbind res_bind].
  by rewrite !i32_u32.
Qed.

(** A read: the answer carries the count and the bytes of the host's read. *)
Lemma serve_read `{!FilesLaws Sys} w ept data fd n o r bs :
  let c := mk_syscall READ_SYSCALL_ID fd n 0 in
  arrived w data (syscall_bytes c) -> int_fields c -> ept <> 0 -> 0 <= n ->
  f_read (os w) fd (u64 (read_count fd n)) = (o, r, bs) -> mapped (w_mem w) rbuf_slot RPC_BUFF_SIZE ->
  let ans := syscall_bytes (mk_syscall READ_SYSCALL_ID r 0 (u32 r)) ++ bs in
  exists w1, has_bytes (w_mem w1) rbuf_slot ans /\ os w1 = o /\
    callback w ept data SIZEOF_SYSCALL = reply w1 ept rbuf_slot (zlen ans).
Proof.
  intros c Ha Hc Hept Hn Hr Hmap ans. destruct (f_read_count _ _ _ _ _ _ (proj1 (u64_range _)) Hr) as (Hle & Hnn & Hneg).
  assert (Hrc : 0 <= read_count fd n <= 1008).
  { unfold read_count, RPC_BUFF_SIZE, SIZEOF_SYSCALL. zcase; lia. }
  rewrite u64_id in Hle by (unfold is_u64; lia).
  assert (Hz : zlen bs = if 0 <? r then r else 0).
  { destruct (0 <? r) eqn:E; zbool; [apply Hnn; lia|]. destruct (decide (r = 0)) as [->|]; [by apply Hnn|].
    by rewrite Hneg by lia. }
  pose proof (zlen_syscall_bytes c) as Hzc.
  set (w0 := set_mem w (put_bytes (w_mem w) buf_slot (syscall_bytes c))).
  set (h := syscall_bytes (mk_syscall READ_SYSCALL_ID r 0 (u32 r))) in *.
  assert (Hh : zlen h = 16) by apply zlen_syscall_bytes.
  pose proof (in_buf_put (w_mem w) c [] Hc) as Hb. rewrite app_nil_r in Hb. change (in_buf (w_mem w0) c) in Hb.
  destruct (args_run w0 c Hc Hb) as [A1 A2].
  set (m1 := put_bytes (w_mem w0) (rbuf_slot + SIZEOF_SYSCALL) bs). set (m2 := put_bytes m1 rbuf_slot h).
  assert (Hmap0 : mapped (w_mem w0) rbuf_slot RPC_BUFF_SIZE) by (by apply mapped_put).
  assert (Hbs : zlen bs <= 1008) by (rewrite Hz; zcase; lia).
  pose proof (zlen_nonneg bs) as Hbs0. unfold RPC_BUFF_SIZE in *.
  exists (set_mem (put_os srv_of srv_set w0 o) m2). split_and!.
  - apply has_bytes_app. split; [apply has_bytes_put|]. rewrite Hh. unfold m2.
    apply has_bytes_put_disjoint; [lia|]. apply has_bytes_put.
  - apply os_put.
  - rewrite <- Hzc, callback_run by done. fold w0. unfold handle_rpc. rewrite (proj1 Hb). cbn [mbind res_bind].
    cbn [sc_id c]. unfold handle_read. rewrite (proj2 (Z.eqb_neq _ _) Hept), A1, A2.
    change (os w0) with (os w). cbn [sc_int_field1 sc_int_field2 c READ_SYSCALL_ID OPEN_SYSCALL_ID CLOSE_SYSCALL_ID Z.eqb Pos.eqb mbind res_bind].
    rewrite Hr. unfold RPC_BUFF_SIZE, SIZEOF_SYSCALL. rewrite (proj2 (Z.ltb_ge _ _)) by lia.
    rewrite storen_ok by (apply (mapped_sub _ _ _ _ _ Hmap0); lia). fold m1. cbn [mbind res_bind].
    rewrite storen_ok by (fold h; rewrite Hh; apply mapped_put, (mapped_sub _ _ _ _ _ Hmap0); lia).
    fold h m2. etransitivity; [apply reply_run|]. unfold ans. rewrite zlen_app, Hh, Hz. done.
Qed.

(** The other calls answer with a header that carries the result. *)
Lemma respond_run w0 ept id v (o : Sys) : mapped (w_mem w0) resp_slot SIZEOF_SYSCALL ->
  let ans := syscall_bytes (mk_syscall id v 0 0) in
  exists w1, has_bytes (w_mem w1) resp_slot ans /\ os w1 = o /\
    ('(w, e) ← respond ops resp_slot (put_os srv_of srv_set w0 o) ept id v;
     Ok (if negb (e =? 0) then count_error srv_of srv_set w else w, RPMSG_SUCCESS)) = reply w1 ept resp_slot (zlen ans).
Proof.
  intros Hmap ans. exists (set_mem (put_os srv_of srv_set w0 o) (put_bytes (w_mem w0) resp_slot ans)).
  split_and!; [apply has_bytes_put|apply os_put|]. unfold respond.
  rewrite storen_ok by (by rewrite zlen_syscall_bytes). cbn [mbind res_bind]. unfold ans. rewrite zlen_syscall_bytes.
  apply reply_run.
Qed.

(** The request of [c] with [payload] is held in [buf], the fields in [arg1] and [arg2]. *)
Lemma request_held w c payload : int_fields c ->
  let w0 := set_mem w (put_bytes (w_mem w) buf_slot (syscall_bytes c ++ payload)) in
  rd32 (w_mem w0) buf_slot = Ok (sc_id c) /\ arg1 buf_slot w0 = Ok (sc_int_field1 c) /\
  arg2 buf_slot w0 = Ok (sc_int_field2 c) /\ has_bytes (w_mem w0) (buf_slot + SIZEOF_SYSCALL) payload.
Proof.
  intros Hc w0. pose proof (in_buf_put (w_mem w) c payload Hc) as Hb. destruct (args_run w0 c Hc Hb) as [A1 A2].
  split_and!; [apply Hb|done..|]. pose proof (has_bytes_put (w_mem w) buf_slot (syscall_bytes c ++ payload)) as H1.
  apply has_bytes_app in H1 as [_ H1]. by rewrite zlen_syscall_bytes in H1.
Qed.

(** A write: the bytes that follow the header, as many as the request says. *)
Lemma serve_write w ept data fd dl bs rest o v :
  let c := mk_syscall WRITE_SYSCALL_ID fd (zlen bs) dl in
  let msg := syscall_bytes c ++ bs ++ rest in
  arrived w data msg -> int_fields c -> ept <> 0 ->
  f_write (os w) fd bs = (o, v) -> mapped (w_mem w) resp_slot SIZEOF_SYSCALL ->
  let ans := syscall_bytes (mk_syscall WRITE_SYSCALL_ID v 0 0) in
  exists w1, has_bytes (w_mem w1) resp_slot ans /\ os w1 = o /\
    callback w ept data (zlen msg) = reply w1 ept resp_slot (zlen ans).
Proof.
  intros c msg Ha Hc Hept Hw Hmap ans. destruct (request_held w c (bs ++ rest) Hc) as (E1 & E2 & E3 & E4).
  rewrite callback_run by done. fold msg in E1, E2, E3, E4. set (w0 := set_mem w _) in *.
  destruct (respond_run w0 ept WRITE_SYSCALL_ID v o) as (w1 & R1 & R2 & R3); [by apply mapped_put|].
  exists w1. split_and!; [done..|]. etransitivity; [|exact R3]. unfold handle_rpc. rewrite E1. cbn [mbind res_bind].
  change (sc_id c) with 3. cbn [OPEN_SYSCALL_ID CLOSE_SYSCALL_ID READ_SYSCALL_ID WRITE_SYSCALL_ID Z.eqb Pos.eqb].
  unfold handle_write. rewrite (proj2 (Z.eqb_neq _ _) Hept), E2, E3. cbn [mbind res_bind sc_int_field1 sc_int_field2 c].
  pose proof (ar_size _ _ _ Ha) as [_ Hs]. unfold msg in Hs. rewrite !zlen_app, zlen_syscall_bytes in Hs.
  pose proof (zlen_nonneg bs). pose proof (zlen_nonneg rest). unfold RPC_BUFF_SIZE, SIZEOF_SYSCALL in *.
  rewrite (proj2 (Z.ltb_ge (zlen bs) 0)), (proj2 (Z.ltb_ge (1024 - 16) (zlen bs))) by lia. cbn [orb].
  apply has_bytes_app in E4 as [E4 _]. rewrite (loadn_zlen _ _ bs) by done. cbn [mbind res_bind].
  change (os w0) with (os w). by rewrite Hw.
Qed.

Lemma serve_close w ept data fd o v :
  let c := mk_syscall CLOSE_SYSCALL_ID fd 0 0 in
  arrived w data (syscall_bytes c) -> int_fields c -> ept <> 0 ->
  f_close (os w) fd = (o, v) -> mapped (w_mem w) resp_slot SIZEOF_SYSCALL ->
  let ans := syscall_bytes (mk_syscall CLOSE_SYSCALL_ID v 0 0) in
  exists w1, has_bytes (w_mem w1) resp_slot ans /\ os w1 = o /\
    callback w ept data SIZEOF_SYSCALL = reply w1 ept resp_slot (zlen ans).
Proof.
  intros c Ha Hc Hept Hw Hmap ans. destruct (request_held w c [] Hc) as (E1 & E2 & _ & _).
  rewrite app_nil_r in E1, E2. rewrite <- (zlen_syscall_bytes c), callback_run by done. set (w0 := set_mem w _) in *.
  destruct (respond_run w0 ept CLOSE_SYSCALL_ID v o) as (w1 & R1 & R2 & R3); [by apply mapped_put|].
  exists w1. split_and!; [done..|]. etransitivity; [|exact R3]. unfold handle_rpc. rewrite E1. cbn [mbind res_bind].
  change (sc_id c) with 2. cbn [OPEN_SYSCALL_ID CLOSE_SYSCALL_ID Z.eqb Pos.eqb].
  unfold handle_close. rewrite (proj2 (Z.eqb_neq _ _) Hept), E2. cbn [mbind res_bind sc_int_field1 c].
  change (os w0) with (os w). by rewrite Hw.
Qed.

(** An open: the name ends at its terminator. *)
Lemma serve_open w ept data flags mode dl name o v :
  let c := mk_syscall OPEN_SYSCALL_ID flags mode dl in
  let msg := syscall_bytes c ++ name ++ [0] in
  arrived w data msg -> int_fields c -> ept <> 0 -> Forall (fun b => b <> 0) name ->
  f_open (os w) name flags mode = (o, v) -> mapped (w_mem w) resp_slot SIZEOF_SYSCALL ->
  let ans := syscall_bytes (mk_syscall OPEN_SYSCALL_ID v 0 0) in
  exists w1, has_bytes (w_mem w1) resp_slot ans /\ os w1 = o /\
    callback w ept data (zlen msg) = reply w1 ept resp_slot (zlen ans).
Proof.
  intros c msg Ha Hc Hept Hname Hw Hmap ans. destruct (request_held w c (name ++ [0]) Hc) as (E1 & E2 & E3 & E4).
  rewrite callback_run by done. fold msg in E1, E2, E3, E4. set (w0 := set_mem w _) in *.
  destruct (respond_run w0 ept OPEN_SYSCALL_ID v o) as (w1 & R1 & R2 & R3); [by apply mapped_put|].
  exists w1. split_and!; [done..|]. etransitivity; [|exact R3]. unfold handle_rpc. rewrite E1. cbn [mbind res_bind].
  change (sc_id c) with 1. cbn [OPEN_SYSCALL_ID Z.eqb Pos.eqb].
  unfold handle_open. rewrite (proj2 (Z.eqb_neq _ _) Hept), (mem_strlen_run _ _ name), E2, E3 by done. cbn [mbind res_bind].
  pose proof (ar_size _ _ _ Ha) as [_ Hs]. unfold msg in Hs. rewrite !zlen_app, zlen_syscall_bytes in Hs.
  change (zlen [0]) with 1 in Hs. unfold RPC_BUFF_SIZE, SIZEOF_SYSCALL in *.
  rewrite (proj2 (Z.leb_gt (1024 - 16) (zlen name))) by lia.
  apply has_bytes_app in E4 as [E4 _]. rewrite (loadn_zlen _ _ name) by done. cbn [mbind res_bind sc_int_field1 sc_int_field2 c].
  change (os w0) with (os w). by rewrite Hw.
Qed.
End serving.

(** ** The client *)

Section asking.
Context {T : Type}.
Variable ops : rpmsg_device_ops T.
Variable env : callbacks T.
Variable ns_slot : Z.
Variable rpc_of : T -> gmap Z rpmsg_rpc_data.
Variable rpc_set : T -> gmap Z rpmsg_rpc_data -> T.
Context {L : RpcLens rpc_of rpc_set}.
Variables tmpbuf_slot syscall_slot resp_slot : Z.
Variable call_poll : Z -> world T -> Z -> res (world T).
Variable rpc : Z.
Implicit Types w : world T.

Abbreviation ans_of := (answered ops env ns_slot rpc_of rpc_set call_poll rpc).

(** [resp.id = 0] *)
Definition id_cleared w (resp : Z) : world T := set_mem w (put_bytes (w_mem w) resp (le_bytes 4 0)).

Lemma ask_run w r req len resp resp_len ret c bs k w3 r3 data fuel : int_fields c -> sc_id c <> TERM_SYSCALL_ID ->
  rpc <> 0 -> resp <> 0 -> SIZEOF_SYSCALL <= resp_len -> mapped (w_mem w) resp 4 ->
  ans_of (id_cleared w resp) r req len resp resp_len ret (syscall_bytes c ++ bs) k w3 r3 data ->
  (k < fuel)%nat ->
  exists w', ask ops rpc_of rpc_set call_poll fuel w rpc req len resp resp_len = Ok (w', ret) /\
    (forall i, i < resp \/ resp + resp_len <= i -> w_mem w' !! i = w_mem w3 !! i) /\
    has_bytes (w_mem w') resp (take (Z.to_nat resp_len) (syscall_bytes c ++ bs)) /\ mapped (w_mem w') resp resp_len.
Proof.
  intros (Hid & _) Hterm Hrpc Hresp Hlen Hmap Ha Hk. unfold ask. unfold SIZEOF_SYSCALL in *.
  rewrite storen_ok by (by rewrite zlen_le_bytes). cbn [mbind res_bind]. fold (id_cleared w resp).
  assert (Hc : exists rest, syscall_bytes c ++ bs = le_bytes 4 (sc_id c) ++ rest).
  { unfold syscall_bytes. rewrite <- app_assoc. eauto. }
  destruct Hc as [rest Hc]. rewrite Hc in *.
  rewrite (send_answered ops env ns_slot rpc_of rpc_set call_poll rpc _ r req len resp resp_len ret (sc_id c) rest k w3 r3 data) by (done || lia).
  eexists. split; [done|]. cbn [w_mem put_rpcd set_mem]. set (got := take _ _).
  assert (Hg : zlen got <= resp_len) by (unfold got, zlen; rewrite length_take; lia).
  split_and!; [intros i Hi; apply put_bytes_outside; lia|apply has_bytes_put|apply mapped_put, (an_map _ _ _ _ _ _ _ _ _ _ _ _ _ _ _ _ _ _ _ Ha)].
Qed.

(** A request with a header as the answer gives the result in it. *)
Lemma ask_result w r req len ret id v k w3 r3 data fuel : int_fields (mk_syscall id v 0 0) -> id <> TERM_SYSCALL_ID ->
  rpc <> 0 -> resp_slot <> 0 -> mapped (w_mem w) resp_slot 4 -> 0 <= ret ->
  ans_of (id_cleared w resp_slot) r req len resp_slot SIZEOF_SYSCALL ret (syscall_bytes (mk_syscall id v 0 0)) k w3 r3 data ->
  (k < fuel)%nat ->
  exists w', ('(w, ret) ← ask ops rpc_of rpc_set call_poll fuel w rpc req len resp_slot SIZEOF_SYSCALL;
      ret ← answer w resp_slot id ret; Ok (w, ret)) = Ok (w', v).
Proof.
  intros Hc Ht Hrpc Hresp Hmap Hret Ha Hk.
  destruct (ask_run w r req len resp_slot SIZEOF_SYSCALL ret (mk_syscall id v 0 0) [] k w3 r3 data fuel)
    as (w' & E & _ & Hb & _); [done|done|done|done|done|done|by rewrite app_nil_r|done|].
  rewrite app_nil_r, take_ge in Hb by (unfold syscall_bytes; by rewrite !length_app, !length_le_bytes).
  exists w'. rewrite E. cbn [mbind res_bind]. unfold answer. rewrite (proj2 (Z.leb_le _ _) Hret).
  destruct Hc as (H1 & H2 & H3 & _). destruct (syscall_fields _ _ _ H1 H2 Hb) as (F1 & F2 & _).
  rewrite F1. cbn [mbind res_bind sc_id]. rewrite Z.eqb_refl, F2. cbn [mbind res_bind]. by rewrite i32_u32.
Qed.

(** The copy of [_read]: as many of the bytes of the answer as the caller's buffer takes. *)
Lemma read_copy_run m resp buffer buflen c bs : 0 <= buflen -> is_u32 (sc_id c) -> sc_data_len c = zlen bs ->
  zlen bs <= MAX_BUF_LEN - SIZEOF_SYSCALL -> has_bytes m resp (syscall_bytes c ++ bs) -> mapped m buffer (Z.min buflen (zlen bs)) ->
  read_copy m resp buffer buflen = Ok (put_bytes m buffer (take (Z.to_nat buflen) bs)).
Proof.
  intros Hl Hid Hd Hz Hb Hmap. apply has_bytes_app in Hb as [Hb1 Hb2]. rewrite zlen_syscall_bytes in Hb2.
  pose proof (zlen_nonneg bs) as H0. unfold MAX_BUF_LEN, SIZEOF_SYSCALL in *.
  assert (Hdl : is_u32 (sc_data_len c)) by (unfold is_u32; lia).
  destruct (syscall_fields _ _ _ Hid Hdl Hb1) as (_ & _ & _ & F). unfold read_copy. rewrite F. cbn [mbind res_bind].
  rewrite Hd, i32_id by lia. replace (if buflen <? zlen bs then buflen else zlen bs) with (Z.min buflen (zlen bs)) by (zcase; lia).
  unfold MAX_BUF_LEN, SIZEOF_SYSCALL.
  rewrite (proj2 (Z.ltb_ge (Z.min buflen (zlen bs)) 0)), (proj2 (Z.ltb_ge (496 - 16) (Z.min buflen (zlen bs)))) by lia. cbn [orb].
  assert (Ht : zlen (take (Z.to_nat buflen) bs) = Z.min buflen (zlen bs)) by (unfold zlen; rewrite length_take; lia).
  rewrite (loadn_zlen _ _ (take (Z.to_nat buflen) bs)); [|done|].
  - cbn [mbind res_bind]. apply storen_ok. by rewrite Ht.
  - rewrite <- (take_drop (Z.to_nat buflen) bs) in Hb2. by apply has_bytes_app in Hb2 as [? _].
Qed.

(** What [_read] does with an answer in [tmpbuf]. *)
Lemma read_result w' v bs buffer buflen : let c := mk_syscall READ_SYSCALL_ID v 0 (u32 v) in
  -2147483648 <= v < 2147483648 -> zlen bs = Z.max v 0 -> zlen bs <= MAX_BUF_LEN - SIZEOF_SYSCALL -> 0 < buflen ->
  has_bytes (w_mem w') tmpbuf_slot (syscall_bytes c ++ bs) -> mapped (w_mem w') buffer (Z.min buflen (zlen bs)) ->
  buffer + buflen <= tmpbuf_slot \/ tmpbuf_slot + SIZEOF_SYSCALL <= buffer ->
  exists w2 : world T,
    (id ← rd32 (w_mem w') tmpbuf_slot;
     if id =? READ_SYSCALL_ID then
       x ← rd32 (w_mem w') (tmpbuf_slot + 4);
       m ← (if 0 <? i32 x then read_copy (w_mem w') tmpbuf_slot buffer buflen else Ok (w_mem w'));
       x ← rd32 m (tmpbuf_slot + 4);
       Ok (set_mem w' m, i32 x)
     else Ok (w', - EINVAL)) = Ok (w2, v) /\
    has_bytes (w_mem w2) buffer (take (Z.to_nat buflen) bs).
Proof.
  intros c Hv Hz Hmax Hlen Hb Hm Hdis.
  assert (Hc : int_fields c) by (split_and!; cbn; try lia; try apply u32_range; by vm_compute).
  pose proof Hb as Hb'. apply has_bytes_app in Hb' as [Hh _]. destruct Hc as (Hc1 & Hc2 & Hc3 & _).
  destruct (syscall_fields _ _ _ Hc1 Hc2 Hh) as (F1 & F2 & _). rewrite F1. cbn [mbind res_bind].
  change (sc_id c =? READ_SYSCALL_ID) with true. rewrite F2. cbn [mbind res_bind]. rewrite i32_u32 by done.
  change (sc_int_field1 c) with v in *. pose proof (zlen_nonneg bs) as H0. destruct (0 <? v) eqn:Ev; zbool.
  - rewrite (read_copy_run _ _ _ _ c bs) by (done || (cbn [sc_data_len c]; rewrite u32_id by (unfold is_u32; lia); lia) || lia).
    cbn [mbind res_bind]. eexists (set_mem w' _). split; [|apply has_bytes_put].
    assert (Ht : zlen (take (Z.to_nat buflen) bs) <= buflen) by (unfold zlen; rewrite length_take; lia).
    assert (Hh' : has_bytes (put_bytes (w_mem w') buffer (take (Z.to_nat buflen) bs)) tmpbuf_slot (syscall_bytes c)).
    { apply has_bytes_put_disjoint; [|done]. rewrite zlen_syscall_bytes. unfold SIZEOF_SYSCALL in *. lia. }
    destruct (syscall_fields _ _ _ Hc1 Hc2 Hh') as (_ & G & _). rewrite G. cbn [mbind res_bind].
    by rewrite i32_u32 by done.
  - cbn [mbind res_bind]. rewrite F2. cbn [mbind res_bind]. rewrite i32_u32 by done.
    eexists. split; [done|]. destruct bs as [|b bs]; [by rewrite take_nil|].
    rewrite zlen_cons in Hz. pose proof (zlen_nonneg bs). lia.
Qed.

(** The world at the send of [_read]'s request. *)
Definition read_asks w (fd buflen : Z) : world T :=
  id_cleared (set_mem w (put_bytes (w_mem w) syscall_slot (syscall_bytes (mk_syscall READ_SYSCALL_ID fd buflen 0)))) tmpbuf_slot.

Lemma client_read w r ret fd buffer buflen v bs k w3 r3 data fuel :
  rpc <> 0 -> buffer <> 0 -> 0 < buflen -> tmpbuf_slot <> 0 -> 0 <= ret ->
  mapped (w_mem w) syscall_slot SIZEOF_SYSCALL -> mapped (w_mem w) tmpbuf_slot 4 ->
  -2147483648 <= v < 2147483648 -> zlen bs = Z.max v 0 -> zlen bs <= MAX_BUF_LEN - SIZEOF_SYSCALL ->
  ans_of (read_asks w fd buflen) r syscall_slot SIZEOF_SYSCALL tmpbuf_slot MAX_BUF_LEN ret
    (syscall_bytes (mk_syscall READ_SYSCALL_ID v 0 (u32 v)) ++ bs) k w3 r3 data ->
  mapped (w_mem w3) buffer buflen ->
  buffer + buflen <= tmpbuf_slot \/ tmpbuf_slot + MAX_BUF_LEN <= buffer -> (k < fuel)%nat ->
  exists w', _read ops rpc_of rpc_set tmpbuf_slot syscall_slot call_poll fuel w rpc fd buffer buflen = Ok (w', v) /\
    has_bytes (w_mem w') buffer (take (Z.to_nat buflen) bs).
Proof.
  intros Hrpc Hbuf Hlen Htmp Hret Hm1 Hm2 Hv Hz Hmax Ha Hm3 Hdis Hk. set (c := mk_syscall READ_SYSCALL_ID v 0 (u32 v)) in *.
  set (w0 := set_mem w (put_bytes (w_mem w) syscall_slot (syscall_bytes (mk_syscall READ_SYSCALL_ID fd buflen 0)))) in *.
  assert (Hc : int_fields c) by (split_and!; cbn; try lia; try apply u32_range; by vm_compute).
  destruct (ask_run w0 r syscall_slot SIZEOF_SYSCALL tmpbuf_slot MAX_BUF_LEN ret c bs k w3 r3 data fuel)
    as (w' & E & Hout & Hb & Hm); try done; [by apply mapped_put|].
  unfold MAX_BUF_LEN, SIZEOF_SYSCALL in *. rewrite take_ge in Hb.
  2: { pose proof (zlen_syscall_bytes c) as Hs. unfold zlen, SIZEOF_SYSCALL in *. rewrite length_app. lia. }
  unfold _read. rewrite (proj2 (Z.eqb_neq _ _) Hrpc), (proj2 (Z.eqb_neq _ _) Hbuf), (proj2 (Z.eqb_neq buflen 0)) by lia.
  cbn [orb]. rewrite storen_ok by (by rewrite zlen_syscall_bytes). cbn [mbind res_bind]. fold w0.
  unfold MAX_BUF_LEN, SIZEOF_SYSCALL. rewrite E. cbn [mbind res_bind]. rewrite (proj2 (Z.leb_le _ _) Hret).
  apply read_result; try done; [|unfold SIZEOF_SYSCALL; lia]. intros i Hi. rewrite Hout by lia. apply Hm3. lia.
Qed.
End asking.
