(* ===== verification/ForwardCalls.v ===== *)
(** * Forwarded system calls from end to end

    For each call: the bytes the client sends are a request that the server's callback
    carries out on the host, and the bytes the server sends, delivered to the client, are
    the answer with which the call returns the host's result. *)

From S2P Require Import Prelude MetalIo StrUtil Rpmsg RpmsgRetarget RetargetSpec RpcDemod ForwardSpec.

(** ** Memory that a store leaves mapped *)

Lemma store8_mapped m a b m' c n : store8 m a b = Ok m' -> mapped m c n -> mapped m' c n.
Proof. unfold store8. destruct (m !! a); [|done]. intros [= <-]. apply mapped_insert. Qed.

Lemma storen_mapped bs : forall m a m' c n, storen m a bs = Ok m' -> mapped m c n -> mapped m' c n.
Proof.
  induction bs as [|b bs IH]; intros m a m' c n E Hm; cbn [storen] in E; [by injection E as <-|].
  destruct (store8 m a b) as [m1|] eqn:E1; cbn [mbind res_bind] in E; [|done].
  eapply IH; [exact E|]. by eapply store8_mapped.
Qed.

Lemma tmpbuf_store_mapped slot m off bs m' c n : tmpbuf_store slot m off bs = Ok m' -> mapped m c n -> mapped m' c n.
Proof. unfold tmpbuf_store. case_match; [|done]. apply storen_mapped. Qed.

Lemma write_payload_mapped slot m fd ptr len m' k c n :
  write_payload slot m fd ptr len = Ok (m', k) -> mapped m c n -> mapped m' c n.
Proof.
  unfold write_payload. intros E Hm. set (h := syscall_bytes _) in E.
  destruct (tmpbuf_store slot m 0 h) as [m1|] eqn:E1; cbn [mbind res_bind] in E; [|done].
  destruct (len <? 0); [done|]. destruct (loadn (Z.to_nat len) m1 ptr) as [bs|]; cbn [mbind res_bind] in E; [|done].
  destruct (tmpbuf_store slot m1 SIZEOF_SYSCALL bs) as [m2|] eqn:E2; cbn [mbind res_bind] in E; [|done].
  apply (tmpbuf_store_mapped _ _ _ _ _ c n) in E1; [|done]. apply (tmpbuf_store_mapped _ _ _ _ _ c n) in E2; [|done].
  destruct ((if fd =? 1 then 1 else 0) =? 1); [|by simplify_eq].
  destruct (tmpbuf_store slot m2 _ [0]) as [m3|] eqn:E3; cbn [mbind res_bind] in E; [|done].
  apply (tmpbuf_store_mapped _ _ _ _ _ c n) in E3; [|done]. by simplify_eq.
Qed.

(** Mapped bytes after a message. *)
Lemma has_bytes_extend m a bs n : 0 <= n -> has_bytes m a bs -> mapped m (a + zlen bs) n ->
  exists rest, zlen rest = n /\ has_bytes m a (bs ++ rest).
Proof.
  intros Hn Hb Hm. exists (map (fun i => default 0 (m !! i)) (seqZ (a + zlen bs) n)). split.
  { unfold zlen. rewrite length_map, length_seqZ. lia. }
  apply has_bytes_app. split; [done|]. apply has_bytes_lookup. intros i Hi. unfold zlen in Hi.
  rewrite length_map, length_seqZ in Hi. destruct (Hm (a + zlen bs + i)) as [x Hx]; [unfold zlen; lia|].
  rewrite Hx. unfold zget. rewrite (proj2 (Z.leb_le 0 i)) by lia. symmetry. change (@map Z Z) with (@fmap list _ Z Z).
  rewrite list_lookup_fmap, lookup_seqZ_lt by lia. cbn. by rewrite Z2Nat.id, Hx by lia.
Qed.

Section forwarded.
(** The client. *)
Context {T : Type}.
Variable ops : rpmsg_device_ops T.
Variable env : callbacks T.
Variable ns_slot : Z.
Variable rpc_of : T -> gmap Z rpmsg_rpc_data.
Variable rpc_set : T -> gmap Z rpmsg_rpc_data -> T.
Context {L : RpcLens rpc_of rpc_set}.
Variables tmpbuf_slot syscall_slot resp_slot : Z.
Variable call_poll : Z -> world T -> Z -> res (world T).
Variable rpc : Z.
(** The server. *)
Context {Sys : Type} `{files Sys} `{!FilesLaws Sys} {T' : Type}.
Variable sops : rpmsg_device_ops T'.
Variable srv_of : T' -> server Sys.
Variable srv_set : T' -> server Sys -> T'.
Context `{!SrvLens srv_of srv_set}.
Variable shbuf_io : metal_io_region.
Variables buf_slot sresp_slot rbuf_slot : Z.
Variable ept : Z.
Implicit Types (w : world T) (ws : world T').

Abbreviation callback := (rpmsg_endpoint_cb sops srv_of srv_set shbuf_io buf_slot sresp_slot rbuf_slot).
Abbreviation os ws := (sv_os (srv srv_of ws)).
Abbreviation answers := (answered ops env ns_slot rpc_of rpc_set call_poll rpc).

(** The local variables of the client's calls are apart from each other and mapped. *)
Record client_ready w : Prop := {
  cr_rpc : rpc <> 0;
  cr_locals : tmpbuf_slot <> 0 /\ resp_slot <> 0;
  cr_tmpbuf : mapped (w_mem w) tmpbuf_slot MAX_BUF_LEN;
  cr_syscall : mapped (w_mem w) syscall_slot SIZEOF_SYSCALL;
  cr_resp : mapped (w_mem w) resp_slot SIZEOF_SYSCALL;
  cr_apart_syscall : syscall_slot + SIZEOF_SYSCALL <= tmpbuf_slot \/ tmpbuf_slot + MAX_BUF_LEN <= syscall_slot;
  cr_apart_resp : resp_slot + SIZEOF_SYSCALL <= tmpbuf_slot \/ tmpbuf_slot + MAX_BUF_LEN <= resp_slot;
  cr_apart : resp_slot + SIZEOF_SYSCALL <= syscall_slot \/ syscall_slot + SIZEOF_SYSCALL <= resp_slot
}.

(** The message [req] has reached the server, whose local variables are mapped. *)
Record server_ready ws (data : Z) (req : list Z) : Prop := {
  sr_arrived : arrived shbuf_io buf_slot ws data req;
  sr_ept : ept <> 0;
  sr_resp : mapped (w_mem ws) sresp_slot SIZEOF_SYSCALL;
  sr_rbuf : mapped (w_mem ws) rbuf_slot RPC_BUFF_SIZE
}.

(** The server carries out the request at [data], which leaves the host in the state [o],
    and sends the bytes [ans] at [slot]. *)
Definition serves ws (data len : Z) (o : Sys) (slot : Z) (ans : list Z) : Prop :=
  exists ws1, callback ws ept data len = reply sops srv_of srv_set ws1 ept slot (zlen ans) /\
    has_bytes (w_mem ws1) slot ans /\ os ws1 = o.

(** The request [req] of [len] bytes leaves [asks] of the world, [ans] is its answer and
    the call [run] then returns [v] in a world that has [P]. *)
Definition returns_with (asks : world T) (req len resp resp_len : Z) (ans : list Z)
    (run : nat -> res (world T * Z)) (v : Z) (R : world T -> Prop) (P : world T -> Prop) : Prop :=
  forall r ret k w3 r3 data fuel,
    answers asks r req len resp resp_len ret ans k w3 r3 data -> R w3 -> (k < fuel)%nat ->
    exists w', run fuel = Ok (w', v) /\ P w'.

Abbreviation read_bytes fd buflen := (syscall_bytes (mk_syscall READ_SYSCALL_ID fd buflen 0)).
Abbreviation read_asks := (read_asks tmpbuf_slot syscall_slot).
Abbreviation c_read := (_read ops rpc_of rpc_set tmpbuf_slot syscall_slot call_poll).


Abbreviation returns asks req len ans run v :=
  (returns_with asks req len resp_slot SIZEOF_SYSCALL ans run v (fun _ => True) (fun _ => True)).

(** The request [msg] at [req] of the client's world [asks]; what [host] makes of it is the
    answer of the call [id], and the result of the call [run]. *)
Definition forwards (id : Z) (asks : world T) (req : Z) (msg : list Z) (host : Sys -> Sys * Z)
    (run : nat -> res (world T * Z)) : Prop :=
  has_bytes (w_mem asks) req msg /\
  forall ws data o v, server_ready ws data msg -> host (os ws) = (o, v) -> -2147483648 <= v < 2147483648 ->
    let ans := syscall_bytes (mk_syscall id v 0 0) in
    serves ws data (zlen msg) o sresp_slot ans /\ returns asks req (zlen msg) ans run v.

(** A call that sends a request in [asks] and returns the result in the answer. *)
Lemma returns_answer w m req len id v run : client_ready w -> sc_id (mk_syscall id v 0 0) <> TERM_SYSCALL_ID -> is_u32 id ->
  -2147483648 <= v < 2147483648 -> mapped m resp_slot SIZEOF_SYSCALL ->
  (forall fuel, run fuel = ('(w, ret) ← ask ops rpc_of rpc_set call_poll fuel (set_mem w m) rpc req len resp_slot SIZEOF_SYSCALL;
     ret ← answer w resp_slot id ret; Ok (w, ret))) ->
  returns (id_cleared (set_mem w m) resp_slot) req len (syscall_bytes (mk_syscall id v 0 0)) run v.
Proof.
  intros Hc Ht Hid Hv Hm Hrun r ret k w3 r3 data fuel Ha _ Hk. rewrite Hrun.
  destruct (ask_result ops env ns_slot rpc_of rpc_set resp_slot call_poll rpc (set_mem w m) r req len ret id v k w3 r3 data fuel)
    as [w' E]; try done.
  - apply Hc.
  - apply (cr_locals _ Hc).
  - apply (mapped_sub _ _ _ _ _ Hm); unfold SIZEOF_SYSCALL; lia.
  - by destruct Ha.
  - by exists w'.
Qed.

(** The request stays when the identifier of the answer is cleared. *)
Lemma request_kept w m req bs : has_bytes m req bs -> resp_slot + SIZEOF_SYSCALL <= req \/ req + zlen bs <= resp_slot ->
  has_bytes (w_mem (id_cleared (set_mem w m) resp_slot)) req bs.
Proof.
  intros Hb Hd. apply has_bytes_put_disjoint; [|done]. rewrite zlen_le_bytes. unfold SIZEOF_SYSCALL in Hd. lia.
Qed.

(** A close. *)
Theorem forwarded_close (w : world T) (fd : Z) (Hc : client_ready w) (Hfd : -2147483648 <= fd < 2147483648) :
  exists asks, forwards CLOSE_SYSCALL_ID asks syscall_slot (syscall_bytes (mk_syscall CLOSE_SYSCALL_ID fd 0 0)) (fun s => f_close s fd)
    (fun fuel => _close ops rpc_of rpc_set syscall_slot resp_slot call_poll fuel w rpc fd).
Proof.
  set (c := mk_syscall CLOSE_SYSCALL_ID fd 0 0).
  exists (id_cleared (set_mem w (put_bytes (w_mem w) syscall_slot (syscall_bytes c))) resp_slot). split.
  { apply request_kept; [apply has_bytes_put|]. rewrite zlen_syscall_bytes. by destruct Hc. }
  intros ws data o v [Har Hept Hresp _] Hh Hv ans. rewrite zlen_syscall_bytes.
  destruct (serve_close sops srv_of srv_set shbuf_io buf_slot sresp_slot rbuf_slot ws ept data fd o v)
    as (w1 & H1 & H2 & H3); try done.
  split; [by exists w1|]. apply returns_answer; try done; [apply mapped_put; by destruct Hc|].
  intros fuel. unfold _close. rewrite (proj2 (Z.eqb_neq _ _) (cr_rpc _ Hc)).
  rewrite storen_ok by (rewrite zlen_syscall_bytes; by destruct Hc). done.
Qed.

(** A write: the host writes the caller's bytes. *)
Theorem forwarded_write (w : world T) (fd ptr : Z) (bs : list Z) (Hc : client_ready w)
    (Hfd : -2147483648 <= fd < 2147483648) (Hptr : has_bytes (w_mem w) ptr bs)
    (Hlen : SIZEOF_SYSCALL + zlen bs + 2 <= MAX_BUF_LEN)
    (Happ : ptr + zlen bs <= tmpbuf_slot \/ tmpbuf_slot + MAX_BUF_LEN <= ptr) :
  exists asks msg, forwards WRITE_SYSCALL_ID asks tmpbuf_slot msg (fun s => f_write s fd bs)
    (fun fuel => _write ops rpc_of rpc_set tmpbuf_slot resp_slot call_poll fuel w rpc fd ptr (zlen bs)).
Proof.
  destruct (write_payload_terminator tmpbuf_slot fd ptr (w_mem w) bs (cr_tmpbuf _ Hc) Hptr Hlen Happ)
    as (m' & E & Hb & _ & _). set (c := mk_syscall _ fd (zlen bs) _) in Hb. pose proof (zlen_nonneg bs) as H0.
  assert (Hkeep : forall a n, mapped (w_mem w) a n -> mapped m' a n) by (intros; by eapply write_payload_mapped).
  set (null_term := if fd =? 1 then 1 else 0) in E. assert (Hnt : 0 <= null_term <= 1) by (unfold null_term; zcase; lia).
  unfold MAX_BUF_LEN, SIZEOF_SYSCALL in Hlen.
  destruct (has_bytes_extend m' tmpbuf_slot (syscall_bytes c ++ bs) null_term) as (rest & Hz & Hb'); [lia|done| |].
  { rewrite zlen_app, zlen_syscall_bytes. apply (mapped_sub _ tmpbuf_slot MAX_BUF_LEN); [apply Hkeep; by destruct Hc| |];
      unfold MAX_BUF_LEN, SIZEOF_SYSCALL; lia. }
  rewrite <- app_assoc in Hb'. set (msg := syscall_bytes c ++ bs ++ rest) in Hb'.
  assert (Hl : zlen msg = 16 + zlen bs + null_term) by (unfold msg; rewrite !zlen_app, zlen_syscall_bytes, Hz; unfold SIZEOF_SYSCALL; lia).
  exists (id_cleared (set_mem w m') resp_slot), msg. split.
  { apply request_kept; [done|]. pose proof (cr_apart_resp _ Hc) as Hd. unfold MAX_BUF_LEN in Hd. lia. }
  intros ws data o v [Har Hept Hresp _] Hh Hv ans.
  destruct (serve_write sops srv_of srv_set shbuf_io buf_slot sresp_slot rbuf_slot ws ept data fd (u32 (zlen bs + null_term)) bs rest o v)
    as (w1 & H1 & H2 & H3); try done; [split_and!; cbn; try lia; apply u32_range || by vm_compute|].
  split; [by exists w1|]. apply returns_answer; try done; [apply Hkeep; by destruct Hc|].
  intros fuel. unfold _write. rewrite (proj2 (Z.eqb_neq _ _) (cr_rpc _ Hc)), E, Hl. done.
Qed.

(** An open: the host opens the file of the caller's name. *)
Theorem forwarded_open (w : world T) (filename flags mode : Z) (name : list Z) (Hc : client_ready w)
    (Hflags : -2147483648 <= flags < 2147483648) (Hmode : -2147483648 <= mode < 2147483648) (Hfile : filename <> 0)
    (Hstr : has_bytes (w_mem w) filename (name ++ [0])) (Hname : Forall (fun b => b <> 0) name)
    (Hlen : SIZEOF_SYSCALL + zlen name + 1 <= MAX_BUF_LEN)
    (Happ : filename + zlen name + 1 <= tmpbuf_slot \/ tmpbuf_slot + MAX_BUF_LEN <= filename) :
  let msg := syscall_bytes (mk_syscall OPEN_SYSCALL_ID flags mode (zlen name + 1)) ++ name ++ [0] in
  exists asks, forwards OPEN_SYSCALL_ID asks tmpbuf_slot msg (fun s => f_open s name flags mode)
    (fun fuel => _open ops rpc_of rpc_set tmpbuf_slot resp_slot call_poll fuel w rpc filename flags mode).
Proof.
  intros msg. set (c := mk_syscall _ flags mode _) in msg. pose proof (zlen_nonneg name) as H0.
  pose proof (zlen_syscall_bytes c) as Hzc. unfold MAX_BUF_LEN, SIZEOF_SYSCALL in *.
  assert (Hl : zlen msg = 16 + (zlen name + 1)) by (unfold msg; rewrite !zlen_app, Hzc; change (zlen [0]) with 1; lia).
  set (m' := put_bytes (w_mem w) tmpbuf_slot msg).
  exists (id_cleared (set_mem w m') resp_slot). split.
  { apply request_kept; [apply has_bytes_put|]. pose proof (cr_apart_resp _ Hc) as Hd. unfold MAX_BUF_LEN in Hd. lia. }
  intros ws data o v [Har Hept Hresp _] Hh Hv ans.
  destruct (serve_open sops srv_of srv_set shbuf_io buf_slot sresp_slot rbuf_slot ws ept data flags mode (zlen name + 1) name o v)
    as (w1 & H1 & H2 & H3); [exact Har| |exact Hept|exact Hname|exact Hh|exact Hresp|].
  { unfold int_fields, is_u32. cbn [sc_id sc_data_len sc_int_field1 sc_int_field2]. unfold OPEN_SYSCALL_ID. lia. }
  split; [by exists w1|]. apply returns_answer; [done|done|by vm_compute|done|apply mapped_put; by destruct Hc|].
  intros fuel. unfold _open. rewrite (mem_strlen_run _ _ name) by done. cbn [mbind res_bind]. unfold SIZEOF_SYSCALL, MAX_BUF_LEN.
  rewrite (i32_id (zlen name + 1)), (u32_id (16 + (zlen name + 1))), (u32_id (zlen name + 1)) by (unfold is_u32; lia).
  rewrite (proj2 (Z.eqb_neq _ _) Hfile), (proj2 (Z.ltb_ge 496 _)), (proj2 (Z.eqb_neq _ _) (cr_rpc _ Hc)) by lia.
  cbn [orb]. fold c. pose proof (cr_tmpbuf _ Hc) as Htmp.
  rewrite tmpbuf_store_run, Z.add_0_r by (done || lia || (rewrite Hzc; unfold MAX_BUF_LEN; lia)). cbn [mbind res_bind].
  rewrite (loadn_zlen _ _ (name ++ [0])); [|by rewrite zlen_app|].
  2: { apply has_bytes_put_disjoint; [|done]. rewrite Hzc, zlen_app. change (zlen [0]) with 1. lia. }
  cbn [mbind res_bind]. rewrite tmpbuf_store_run; [|by apply mapped_put|lia|].
  2: { rewrite zlen_app. change (zlen [0]) with 1. unfold MAX_BUF_LEN. lia. }
  replace (put_bytes (put_bytes (w_mem w) tmpbuf_slot (syscall_bytes c)) (tmpbuf_slot + 16) (name ++ [0])) with m'
    by (unfold m', msg; by rewrite put_bytes_app, Hzc).
  by rewrite Hl.
Qed.
End forwarded.

(** ** A file of twelve bytes read with a buffer of eight *)

(** Descriptors with the bytes that are left. *)
#[export] Instance demo_files : files (gmap Z (list Z)) := {
  f_open s name _ _ := (<[3 := name]> s, 3);
  f_close s fd := (delete fd s, if bool_decide (is_Some (s !! fd)) then 0 else -1);
  f_read s fd n :=
    match s !! fd with
    | Some bs => (<[fd := drop (Z.to_nat n) bs]> s, zlen (take (Z.to_nat n) bs), take (Z.to_nat n) bs)
    | None => (s, -1, [])
    end;
  f_write s fd bs := (<[fd := default [] (s !! fd) ++ bs]> s, zlen bs)
}.

#[export] Instance demo_files_laws : FilesLaws (gmap Z (list Z)).
Proof.
  split. intros s fd n s' r bs Hn. unfold f_read, demo_files. destruct (s !! fd) as [l|]; intros [= <- <- <-].
  - split_and!; [unfold zlen; rewrite length_take; lia|done|]. pose proof (zlen_nonneg (take (Z.to_nat n) l)). lia.
  - split_and!; [lia|lia|done].
Qed.

#[export] Instance demo_srv_lens : SrvLens (@id (server (gmap Z (list Z)))) (fun _ x => x).
Proof. by split. Qed.

Definition demo_srv_ops : rpmsg_device_ops (server (gmap Z (list Z))) :=
  mk_rops (Some (fun w _ _ _ len _ => Ok (w, len))) None None None None None None None.
Definition demo_content : list Z := [97; 98; 99; 100; 101; 102; 103; 104; 105; 106; 107; 108].
Definition demo_request : list Z := syscall_bytes (mk_syscall READ_SYSCALL_ID 3 8 0).
Definition demo_read_answer : list Z := syscall_bytes (mk_syscall READ_SYSCALL_ID 12 0 12) ++ demo_content.

(** The request is at 4112 of the shared buffers. *)
Definition demo_srv : world (server (gmap Z (list Z))) :=
  mk_world (put_bytes (put_bytes (put_bytes (put_bytes ∅ 8192 (replicate 1024 0)) 9300 (replicate 16 0)) 10000 (replicate 1024 0))
      4112 demo_request)
    {[64 := mk_ept [] true 1024 1025 1 0 0 0 0]} (mk_rdev [] [] 0 false 0 0 false)
    (mk_server false false 0 {[3 := demo_content]}).

Definition demo_cl : world (gmap Z rpmsg_rpc_data) :=
  mk_world (put_bytes (put_bytes (put_bytes (put_bytes (put_bytes ∅ 2000 (replicate 496 0)) 100 (replicate 16 0)) 200 (replicate 16 0))
      700 (replicate 8 0)) 3000 demo_read_answer)
    {[64 := mk_ept [] true 1024 1025 1 0 0 0 0]} (mk_rdev [] [] 0 false 0 0 false)
    {[64 := mk_rpcd false false 0 0 500 0 0 false false]}.
Definition demo_cl_poll (f : Z) (w : world (gmap Z rpmsg_rpc_data)) (arg : Z) : res (world (gmap Z rpmsg_rpc_data)) :=
  '(w, _) ← rpmsg_rpc_ept_cb demo_rt_ops demo_rt_env 0 id (fun _ x => x) w 64 3000 (zlen demo_read_answer); Ok w.

Lemma mapped_fill m a k n : n = Z.of_nat k -> mapped (put_bytes m a (replicate k 0)) a n.
Proof. intros ->. rewrite <- (zlen_replicate k 0). apply has_bytes_mapped, has_bytes_put. Qed.

Lemma demo_client_ready : client_ready 2000 100 200 64 demo_cl.
Proof.
  split; try (unfold SIZEOF_SYSCALL, MAX_BUF_LEN; lia).
  - cbn [w_mem demo_cl]. do 4 apply mapped_put. by apply mapped_fill.
  - cbn [w_mem demo_cl]. do 3 apply mapped_put. by apply mapped_fill.
  - cbn [w_mem demo_cl]. do 2 apply mapped_put. by apply mapped_fill.
Qed.

Lemma demo_server_ready : server_ready demo_region 8192 9300 10000 64 demo_srv 4112 demo_request.
Proof.
  assert (Hz : zlen demo_request = 16) by reflexivity.
  split; cbn [w_mem demo_srv].
  - split; [eexists; apply demo_region_wf|rewrite Hz; cbn; lia| |rewrite Hz; unfold SIZEOF_SYSCALL, RPC_BUFF_SIZE; lia].
    split; [apply has_bytes_put| | |rewrite Hz; lia].
    + do 3 apply mapped_put. apply (mapped_sub _ 8192 1024); [by apply mapped_fill|rewrite ?Hz; lia..].
    + unfold demo_request, syscall_bytes. rewrite !list.Forall_app. split_and!; apply le_bytes_u8.
  - done.
  - do 2 apply mapped_put. by apply mapped_fill.
  - apply mapped_put. by apply mapped_fill.
Qed.

