(* ===== verification/RpmsgInit.v ===== *)
(** * Start of the transport in the driver role (rpmsg_virtio.c)

    [rpmsg_init_vdev_with_config] of the driver builds the state the properties of
    transmission start from: both virtqueues are created over cleared rings, the
    receive queue offers a cleared buffer in every descriptor, the transmit side
    satisfies its invariant with every buffer still in the pool, and the registry of
    endpoints holds the name service only. *)

From S2P Require Import Prelude MetalUtil MetalIo StrUtil Vring Virtqueue VirtqueueInv VirtqueueRefine.
From S2P Require Import VirtqueueSys Virtio Rpmsg RpmsgInv RpmsgVirtio RpmsgBuf RpmsgTx.

(** The bytes of a vring in memory. *)
Definition vring_bytes (vi : virtio_vring_info) : Z * Z :=
  (ai_vaddr (vi_info vi), vring_size (ai_num_descs (vi_info vi)) (ai_align (vi_info vi))).

(** The addresses of [k] consecutive buffers of [size] bytes. *)
Definition buffers (a size : Z) (k : nat) : list Z := (fun i => a + Z.of_nat i * size) <$> seq 0 k.

Lemma buffers_S a size k : buffers a size (S k) = a :: buffers (a + size) size k.
Proof.
  unfold buffers. cbn [seq fmap list_fmap]. f_equal; [lia|].
  rewrite <- fmap_S_seq, <- list_fmap_compose. apply list_fmap_ext. intros ? i _. cbn. lia.
Qed.

Section init.
Context {B : Type} (bld : build).
Implicit Types (t : rpmsg_virtio B) (m : gmap Z Z) (w : world (rpmsg_virtio B)).

(** ** The two virtqueues *)

Lemma memstep_fill m a s rs x y :
  0 <= s -> (x, y) ∈ rs -> x <= a -> a + s <= x + y -> memstep rs m (put_bytes m a (fill s 0)).
Proof.
  intros Hs Hin H1 H2. eapply memstep_weaken; [|apply memstep_put].
  - eapply covers_one; [exact Hin|..]; rewrite ?zlen_fill by lia; lia.
  - unfold fill. apply list.Forall_replicate. by unfold is_u8.
Qed.

Lemma memstep_clear m vi rs :
  vring_ready m vi -> vring_bytes vi ∈ rs ->
  memstep rs m (put_bytes m (ai_vaddr (vi_info vi))
    (fill (vring_size (ai_num_descs (vi_info vi)) (ai_align (vi_info vi))) 0)).
Proof.
  intros Hy Hin. pose proof (vy_num _ _ Hy) as [Hp Hm]. pose proof (vy_align _ _ Hy) as [Ha Ha'].
  pose proof (pow2_pos _ Hp). pose proof (vring_size_pos _ _ Ha Ha' (conj (Z.lt_le_incl _ _ H) Hm)).
  eapply memstep_fill; [lia|exact Hin|cbn; lia..].
Qed.

Lemma create_two (f : virtio_dispatch B) (v : vdev B) m vi0 vi1 n0 n1 c0 c1 :
  VIRTIO_ROLE_IS_DRIVER bld (vd_dev v) = true -> f_create_virtqueues f = None ->
  vd_vrings v = [vi0; vi1] -> vring_ready m vi0 -> vring_ready m vi1 ->
  exists vi0' vi1' m',
    virtio_create_virtqueues bld (Some f) v m 2 [n0; n1] [c0; c1]
      = Ok (vd_set_vrings v [vi0'; vi1'], m', 0) /\
    vring_created vi0 vi0' 0 n0 c0 (f_notify f) /\ vring_created vi1 vi1' 1 n1 c1 (f_notify f) /\
    memstep [vring_bytes vi0; vring_bytes vi1] m m'.
Proof.
  intros Hd Hf Hv Y0 Y1. unfold virtio_create_virtqueues, entry. rewrite Hf, Hv.
  change (zlen [vi0; vi1] <? 2) with false. cbn iota. change (Z.to_nat 2) with 2%nat.
  destruct (create_step bld f v m [n0; n1] [c0; c1] 0 vi0 n0 c0 1 Hd) as (vi0' & m1 & -> & C0 & E1);
    [by rewrite Hv|done..|]. rewrite Hv. change (zset [vi0; vi1] 0 vi0') with [vi0'; vi1].
  assert (Y1' : vring_ready m1 vi1) by (rewrite E1; by apply vring_ready_put).
  destruct (create_step bld f (vd_set_vrings v [vi0'; vi1]) m1 [n0; n1] [c0; c1] 1 vi1 n1 c1 0 Hd)
    as (vi1' & m2 & E & C1 & E2); [done..|].
  exists vi0', vi1', m2. split; [|split_and!; try done].
  - change (0 + 1) with 1. rewrite E. reflexivity.
  - transitivity m1; [rewrite E1|rewrite E2]; (eapply memstep_clear; [done|]); [left|right; left].
Qed.

(** ** The receive buffers *)

(** A buffer for the device to write into. *)
Definition rx_chain t (c : chain) : Prop :=
  exists a, c_bufs c = [(a, r2h_buf_size (rv_config t), true)] /\
    metal_io_virt_to_phys (rv_shbuf_io t) (c_cookie c) = Ok a.

(** [q'] offers the buffers [bs] in addition to what [q] has. *)
Record offered t (q q' : queue) (bs : list Z) : Prop := {
  of_avail : exists cs, q_avail q' = q_avail q ++ cs /\ c_cookie <$> cs = bs /\ Forall (rx_chain t) cs;
  of_held : q_held q' = q_held q;
  of_used : q_used q' = q_used q;
  of_recl : q_recl q' = q_recl q;
  of_free : q_free q' = drop (length bs) (q_free q)
}.

Lemma offered_more t t' q b a q' bs :
  rv_config t' = rv_config t -> rv_shbuf_io t' = rv_shbuf_io t ->
  metal_io_virt_to_phys (rv_shbuf_io t) b = Ok a ->
  offered t' (q_add q [(a, r2h_buf_size (rv_config t), true)] b) q' bs -> offered t q q' (b :: bs).
Proof.
  intros Ec Ei Ha [(cs & E1 & E2 & E3) E4 E5 E5' E6]. split; try done.
  - eexists (_ :: cs). split; [|split].
    + rewrite E1. unfold q_add. cbn [q_avail]. rewrite <- app_assoc. reflexivity.
    + cbn. by rewrite E2.
    + constructor; [by exists a|]. unfold rx_chain in *. by rewrite Ec, Ei in E3.
  - rewrite E6. unfold q_add. cbn [q_free length]. by rewrite drop_drop.
Qed.

(** What the fill needs of the transport: [pool] is the first pool. *)
Record rx_ready t m (vi : virtio_vring_info) (n : Z) (q : queue) (devq : virtqueue)
    (pool : rpmsg_virtio_shm_pool) : Prop := {
  fy_rvq : rv_rvq t = 0;
  fy_vring : zget (vd_vrings (rv_vdev t)) 0 = Some vi;
  fy_rel : vq_rel n q (vi_vq vi) devq (vi_ring vi);
  fy_shm : vq_shm_io (vi_vq vi) = rv_shbuf_io t;
  fy_io : exists pm, io_wf (rv_shbuf_io t) pm;
  fy_map : mapped m (io_virt (rv_shbuf_io t)) (io_size (rv_shbuf_io t));
  fy_size : 0 < r2h_buf_size (rv_config t) < 2147483648;
  fy_pool : zget (rv_pools t) 0 = Some pool;
  fy_ok : pool_ok pool;
  fy_room : inside (rv_shbuf_io t) (pool_next pool) (sp_avail pool)
}.

Definition taken (pool : rpmsg_virtio_shm_pool) (s : Z) : rpmsg_virtio_shm_pool :=
  mk_pool (sp_base pool) (sp_avail pool - s) (sp_size pool).

Lemma taken_next pool s : pool_next (taken pool s) = pool_next pool + s.
Proof. unfold pool_next, taken. cbn. lia. Qed.

Definition rx_filled t (vi : virtio_vring_info) (pool : rpmsg_virtio_shm_pool) (drv : virtqueue)
    (ring : vring) : rpmsg_virtio B :=
  put_vring (rv_set_pools t (zset (rv_pools t) 0 pool)) 0 vi drv ring.

Lemma rx_filled_twice t vi p p' d d' r r' :
  rx_filled (rx_filled t vi p d r) (set_vring vi d r) p' d' r' = rx_filled t vi p' d' r'.
Proof. unfold rx_filled, put_vring. cbn. by rewrite !zset_zset. Qed.

Lemma rx_filled_id t vi p :
  zget (rv_pools t) 0 = Some p -> zget (vd_vrings (rv_vdev t)) 0 = Some vi ->
  rx_filled t vi p (vi_vq vi) (vi_ring vi) = t.
Proof.
  intros Hp Hv. unfold rx_filled, put_vring. rewrite (zset_id _ _ _ Hp).
  replace (set_vring vi (vi_vq vi) (vi_ring vi)) with vi by (by destruct vi).
  cbn. rewrite (zset_id _ _ _ Hv). by destruct t as [? []].
Qed.

(** One buffer. *)
Lemma rx_fill_step w vi n q devq pool k :
  let t := w_tr w in let s := r2h_buf_size (rv_config t) in let b := pool_next pool in
  rx_ready t (w_mem w) vi n q devq pool -> s <= sp_avail pool -> q_free q <> [] ->
  exists a drv' ring',
    metal_io_virt_to_phys (rv_shbuf_io t) b = Ok a /\
    rx_fill_loop bld (S k) w =
      rx_fill_loop bld k (set_tr (set_mem w (put_bytes (w_mem w) b (fill s 0)))
                            (rx_filled t vi (taken pool s) drv' ring')) /\
    rx_ready (rx_filled t vi (taken pool s) drv' ring') (put_bytes (w_mem w) b (fill s 0))
      (set_vring vi drv' ring') n (q_add q [(a, s, true)] b) devq (taken pool s).
Proof.
  intros t s b [F1 F2 F3 F4 [pm F5] F6 F7 F8 F9 F10] Hs Hq. pose proof F9 as [P1 P2 P3].
  fold t s in F7. assert (Hin : inside (rv_shbuf_io t) b s) by (unfold inside in *; fold b in F10; lia).
  destruct (region_offset _ pm b s F5 Hin) as (Ho & Eo & a & Ha); [lia|].
  destruct (add_buffer_refines bld n q (vi_vq vi) devq (vi_ring vi) [mk_buf b s] [(a, s, true)] 0 1 b)
    as (drv' & ring' & Hadd & Hrel & Hcf); [done| |done| | |].
  { cbn. rewrite F4. split_and!; try done. by rewrite u32_id by (unfold is_u32; lia). }
  { change (zlen [(a, s, true)]) with 1. destruct (q_free q); [done|]. rewrite zlen_cons.
    pose proof (zlen_nonneg l). lia. }
  { unfold b, pool_next. lia. }
  exists a, drv', ring'. split; [done|split].
  - cbn [rx_fill_loop]. change (rv_pools (tr w)) with (rv_pools t). run (by apply rget_Some).
    change (r2h_buf_size (rv_config (tr w))) with s. rewrite pool_get_run by (done || lia). cbn iota.
    run (apply rset_ok; exact (zget_Some_lt _ _ _ F8)). fold b. fold (taken pool s).
    rewrite (proj2 (Z.eqb_neq b 0)) by (unfold b, pool_next; lia).
    change (tr w) with t. set (t1 := rv_set_pools t (zset (rv_pools t) 0 (taken pool s))).
    change (rv_shbuf_io (tr (set_tr w t1))) with (rv_shbuf_io t).
    change (w_mem (set_tr w t1)) with (w_mem w).
    change (rv_rvq (tr (set_tr w t1))) with (rv_rvq t). rewrite F1, Eo, (i32_id s) by lia.
    unfold inside in Hin.
    pose proof (block_set_run _ pm F5 (w_mem w) (b - io_virt (rv_shbuf_io t)) 0 s s Ho) as Hb.
    replace (io_virt (rv_shbuf_io t) + (b - io_virt (rv_shbuf_io t))) with b in Hb by lia.
    run (apply Hb; [by unfold is_u8|apply (clip_fits _ pm F5); lia|lia|eapply mapped_sub; [exact F6|lia..]]).
    unfold vq_add_buffer. rewrite (vring_at_run _ 0 vi) by exact F2. cbn [mbind res_bind].
    rewrite Hadd. cbn [mbind res_bind]. rewrite (vring_put_run _ 0 vi) by exact F2. reflexivity.
  - injection Hcf as _ _ _ Hio. split; try done.
    + by apply put_vring_get.
    + cbn [set_vring vi_vq]. by rewrite Hio.
    + by exists pm.
    + by apply mapped_put.
    + apply zget_zset_eq. exact (zget_Some_lt _ _ _ F8).
    + split; cbn; lia.
    + rewrite taken_next. unfold inside in *. cbn. fold b. lia.
Qed.

Lemma put_fill_zeros m a s : 0 <= s -> zeros (put_bytes m a (fill s 0)) a s.
Proof.
  intros Hs i Hi. rewrite lookup_put, zlen_fill by lia.
  rewrite (proj2 (Z.leb_le _ _)), (proj2 (Z.ltb_lt _ _)) by lia. cbn [andb].
  unfold fill. apply zget_replicate. lia.
Qed.

Lemma rx_fill_run k w vi n q devq pool :
  let t := w_tr w in let s := r2h_buf_size (rv_config t) in let b := pool_next pool in
  rx_ready t (w_mem w) vi n q devq pool -> Z.of_nat k * s <= sp_avail pool ->
  Z.of_nat k <= zlen (q_free q) ->
  exists m' drv' ring' q',
    let pool' := taken pool (Z.of_nat k * s) in
    rx_fill_loop bld k w = Ok (set_tr (set_mem w m') (rx_filled t vi pool' drv' ring'), RPMSG_SUCCESS) /\
    rx_ready (rx_filled t vi pool' drv' ring') m' (set_vring vi drv' ring') n q' devq pool' /\
    offered t q q' (buffers b s k) /\
    memstep [(b, Z.of_nat k * s)] (w_mem w) m' /\ zeros m' b (Z.of_nat k * s).
Proof.
  revert w vi q pool. induction k as [|k IH]; intros w vi q pool t s b F Hk Hf.
  - assert (Ep : taken pool (Z.of_nat 0 * s) = pool) by (destruct pool; unfold taken; cbn; f_equal; lia).
    pose proof (rx_filled_id t vi pool (fy_pool _ _ _ _ _ _ _ F) (fy_vring _ _ _ _ _ _ _ F)) as Et.
    exists (w_mem w), (vi_vq vi), (vi_ring vi), q. cbn zeta. rewrite Ep, Et. split_and!.
    + by destruct w.
    + by destruct vi.
    + split; [exists []; split; [by rewrite app_nil_r|done]|done..].
    + reflexivity.
    + intros i Hi. lia.
  - pose proof F as [_ _ _ _ _ _ F7 _ F9 _]. fold t s in F7. pose proof F9 as [_ _ P3].
    destruct (rx_fill_step w vi n q devq pool k F) as (a & d1 & r1 & Ha & -> & F'); [fold t s; nia| |].
    { intros E. rewrite E in Hf. change (zlen []) with 0 in Hf. lia. }
    fold t s b in Ha, F' |- *. set (m1 := put_bytes (w_mem w) b (fill s 0)) in *.
    set (t1 := rx_filled t vi (taken pool s) d1 r1) in *.
    destruct (IH (set_tr (set_mem w m1) t1) _ _ _ F') as (m' & d2 & r2 & q' & R & F2 & Hof & Hms & Hz);
      cbn [set_tr w_tr] in *; change (r2h_buf_size (rv_config t1)) with s in *.
    { cbn [taken sp_avail]. nia. }
    { unfold q_add. cbn [q_free length]. destruct (q_free q) as [|z l]; [change (zlen []) with 0 in Hf; lia|].
      rewrite zlen_cons in Hf. change (drop 1 (z :: l)) with l. lia. }
    assert (Ep : taken (taken pool s) (Z.of_nat k * s) = taken pool (Z.of_nat (S k) * s)).
    { unfold taken. cbn [sp_base sp_avail sp_size]. f_equal. nia. }
    rewrite taken_next in *. fold b in Hof, Hms, Hz. unfold t1 in R, F2. rewrite Ep, rx_filled_twice in R, F2.
    exists m', d2, r2, q'. cbn zeta. split_and!.
    + exact R.
    + by destruct vi.
    + rewrite buffers_S. by eapply offered_more; [| | |exact Hof].
    + transitivity m1.
      * eapply memstep_fill; [lia|left|nia..].
      * eapply memstep_weaken; [|exact Hms]. eapply covers_one; [left|..]; nia.
    + intros i Hi. destruct (Z.lt_ge_cases i (b + s)) as [Hl|Hl]; [|apply Hz; nia].
      rewrite (ms_same _ _ _ Hms); [apply put_fill_zeros; lia|].
      intros x y [= -> ->]%list_elem_of_singleton. lia.
Qed.

Lemma offered_dev n t q q' bs devq : offered t q q' bs -> dev_rel n q devq -> dev_rel n q' devq.
Proof.
  intros [_ H1 H2 H3 _] [D1 D2 D3]. split; [done| |done]. rewrite D2. unfold q_taken, q_cons.
  by rewrite H1, H2, H3.
Qed.

(** Setting the region of the shared memory and suppressing the callback. *)
Lemma vq_rel_shmem n q drv devq ring ring' io :
  vq_rel n q drv devq ring -> ring_core ring' = ring_core ring ->
  vq_rel n q (virtqueue_set_shmem_io drv io) devq ring'.
Proof.
  intros [R [D1 D2 D3 D4 D5 D6] E] Hc. split; [by apply (ring_rel_core _ _ ring)|by split|done].
Qed.

Context (f : virtio_dispatch B) (ns_cb ns_ept rx_cb tx_cb rvdev : Z).

(** ** The name service and the status *)

(** The registry after the start. *)
Record registry_made (ns : bool) w : Prop := {
  rm_inv : reg_inv (w_rdev w) (w_epts w);
  rm_lock : rd_lock (w_rdev w) = false;
  rm_epts : rd_endpoints (w_rdev w) = if ns then [ns_ept] else [];
  rm_ns : ns = true -> exists e, w_epts w !! ns_ept = Some e /\ ept_addr e = RPMSG_NS_EPT_ADDR /\ ept_cb e = ns_cb
}.

Lemma zero_registry (bind : Z) (ns : bool) E :
  reg_inv (mk_rdev [] (replicate 2 0) 0 false bind 0 ns) E.
Proof.
  split; cbn; try done; try (intros; by exfalso; eapply not_elem_of_nil).
  - unfold bm_wf. repeat constructor; unfold is_u64; lia.
  - constructor.
Qed.

Lemma ns_name_arg : name_arg (Some [78; 83; 0]).
Proof.
  split; [exists [78; 83]; split; [repeat constructor; lia|by exists []]|].
  repeat constructor; unfold is_u8; lia.
Qed.

(** The status at the end, which only the driver sets. *)
Definition finish_status w : res (world (rpmsg_virtio B) * Z) :=
  if is_driver bld w then
    '(v, status) ← virtio_set_status (Some f) (rv_vdev (tr w)) VIRTIO_CONFIG_STATUS_DRIVER_OK;
    let w := set_tr w (rv_set_vdev (tr w) v) in
    if negb (status =? 0) then
      v ← virtio_delete_virtqueues (Some f) (rv_vdev (tr w));
      Ok (set_tr w (rv_set_vdev (tr w) v), status)
    else Ok (w, RPMSG_SUCCESS)
  else Ok (w, RPMSG_SUCCESS).

Lemma init_finish_reg w (bind : Z) (ns : bool) e0 t' :
  w_rdev w = mk_rdev [] (replicate 2 0) 0 false bind 0 ns ->
  w_epts w !! ns_ept = Some e0 -> char_array (ept_name e0) ->
  (forall w1, w_tr w1 = w_tr w -> finish_status w1 = Ok (set_tr w1 t', RPMSG_SUCCESS)) ->
  exists w', init_finish bld (Some f) ns_cb ns_ept rvdev w = Ok (w', RPMSG_SUCCESS) /\
    w_mem w' = w_mem w /\ w_tr w' = t' /\ registry_made ns w'.
Proof.
  intros Er He Hn Hst. unfold init_finish. rewrite Er. cbn [rd_support_ns rd_set_endpoints].
  pose proof (zero_registry bind ns (w_epts w)) as Hz. destruct ns.
  - set (w1 := set_rdev w (mk_rdev [] (replicate 2 0) 0 false bind 0 true)).
    destruct (register_run w1 ns_ept e0 (Some [78; 83; 0]) RPMSG_NS_EPT_ADDR RPMSG_NS_EPT_ADDR ns_cb 0 rvdev)
      as (stored & [Hs1 Hs2] & E); [done|done|exact ns_name_arg|].
    assert (Hs3 : is_cstr stored [78; 83]).
    { apply (Hs2 [78; 83]). split; [repeat constructor; lia|by exists []]. }
    eexists. split; [|split; [|split]].
    + match goal with |- context [rpmsg_register_endpoint ?x] => change (rpmsg_register_endpoint x) with
        (rpmsg_register_endpoint w1) end. rewrite E. cbn [mbind res_bind]. apply Hst. reflexivity.
    + reflexivity.
    + reflexivity.
    + split; [|done|done|].
      * apply (reg_inv_add _ _ ns_ept _ (replicate 2 0) 0 Hz); try done.
        -- apply not_elem_of_nil.
        -- split; cbn; [done|lia|done|by exists [78; 83]|].
           unfold addr_ok, RPMSG_NS_EPT_ADDR, RPMSG_RESERVED_ADDRESSES, RPMSG_ADDR_BMP_SIZE. lia.
        -- exact (ri_wf _ _ Hz).
      * intros _. eexists. split; [apply lookup_insert_eq|done].
  - eexists. split; [cbn [mbind res_bind]; apply Hst; reflexivity|]. split_and!; [done..|]. by split.
Qed.

Lemma init_finish_run w (bind : Z) (ns : bool) e0 g v' :
  w_rdev w = mk_rdev [] (replicate 2 0) 0 false bind 0 ns ->
  w_epts w !! ns_ept = Some e0 -> char_array (ept_name e0) ->
  VIRTIO_ROLE_IS_DRIVER bld (vd_dev (rv_vdev (w_tr w))) = true ->
  f_set_status f = Some g -> g (rv_vdev (w_tr w)) VIRTIO_CONFIG_STATUS_DRIVER_OK = Ok v' ->
  exists w', init_finish bld (Some f) ns_cb ns_ept rvdev w = Ok (w', RPMSG_SUCCESS) /\
    w_mem w' = w_mem w /\ w_tr w' = rv_set_vdev (w_tr w) v' /\ registry_made ns w'.
Proof.
  intros Er He Hn Hd Hg Hv. apply (init_finish_reg w bind ns e0); try done. intros w1 E.
  unfold finish_status, is_driver, dev_of, tr. rewrite E, Hd. unfold virtio_set_status, entry.
  rewrite Hg. cbn [mbind res_bind]. rewrite Hv. reflexivity.
Qed.

(** In the device role nothing is set. *)
Lemma init_finish_dev w (bind : Z) (ns : bool) e0 :
  w_rdev w = mk_rdev [] (replicate 2 0) 0 false bind 0 ns ->
  w_epts w !! ns_ept = Some e0 -> char_array (ept_name e0) ->
  VIRTIO_ROLE_IS_DRIVER bld (vd_dev (rv_vdev (w_tr w))) = false ->
  exists w', init_finish bld (Some f) ns_cb ns_ept rvdev w = Ok (w', RPMSG_SUCCESS) /\
    w_mem w' = w_mem w /\ w_tr w' = w_tr w /\ registry_made ns w'.
Proof.
  intros Er He Hn Hd. apply (init_finish_reg w bind ns e0); try done. intros w1 E.
  unfold finish_status, is_driver, dev_of, tr. rewrite E, Hd. by destruct w1; cbn in *; subst.
Qed.

(** ** The virtqueues and their buffers *)

Context (vi0 vi1 : virtio_vring_info) (pool : rpmsg_virtio_shm_pool).
Let n0 : Z := ai_num_descs (vi_info vi0).
Let n1 : Z := ai_num_descs (vi_info vi1).

(** The transport when the virtqueues are created. *)
Record queues_ready w : Prop := {
  qy_drv : VIRTIO_ROLE_IS_DRIVER bld (vd_dev (rv_vdev (w_tr w))) = true;
  qy_create : f_create_virtqueues f = None;
  qy_vrings : vd_vrings (rv_vdev (w_tr w)) = [vi0; vi1];
  qy_ready0 : vring_ready (w_mem w) vi0;
  qy_ready1 : vring_ready (w_mem w) vi1;
  qy_io : exists pm, io_wf (rv_shbuf_io (w_tr w)) pm;
  qy_map : mapped (w_mem w) (io_virt (rv_shbuf_io (w_tr w))) (io_size (rv_shbuf_io (w_tr w)));
  qy_list : mapped (w_mem w) (rv_reclaimer (w_tr w)) 16 /\ 0 < rv_reclaimer (w_tr w) < 18446744073709551616;
  qy_apart : out_of (rv_shbuf_io (w_tr w)) (rv_reclaimer (w_tr w)) 16 /\
    forall a s, (a, s) ∈ [vring_bytes vi0; vring_bytes vi1] ->
      rv_reclaimer (w_tr w) + 16 <= a \/ a + s <= rv_reclaimer (w_tr w);
  qy_size : 0 < r2h_buf_size (rv_config (w_tr w)) < 2147483648;
  qy_pool : zget (rv_pools (w_tr w)) 0 = Some pool;
  qy_ok : pool_ok pool;
  qy_room : inside (rv_shbuf_io (w_tr w)) (pool_next pool) (sp_avail pool);
  qy_fit : n0 * r2h_buf_size (rv_config (w_tr w)) <= sp_avail pool
}.

(** What the start writes. *)
Definition init_ranges t : list (Z * Z) :=
  [(rv_reclaimer t, 16); vring_bytes vi0; vring_bytes vi1;
   (pool_next pool, n0 * r2h_buf_size (rv_config t))].

(** The transport with its queues. *)
Definition queues_made t (vi0' vi1' : virtio_vring_info) : rpmsg_virtio B :=
  mk_rv (rv_config t) (vd_set_vrings (rv_vdev t) [vi0'; vi1']) 0 1 (rv_shbuf_io t)
    (zset (rv_pools t) 0 (taken pool (n0 * r2h_buf_size (rv_config t)))) (rv_shpool t) (rv_reclaimer t)
    (rv_notify_wait_cb t) (rv_calls t).

Record queues_done t m (vi0' vi1' : virtio_vring_info) (q0 : queue) : Prop := {
  qd_rx : forall devq, dev_rel n0 (q_init n0) devq -> vq_rel n0 q0 (vi_vq vi0') devq (vi_ring vi0');
  qd_tx : forall devq, dev_rel n1 (q_init n1) devq -> vq_rel n1 (q_init n1) (vi_vq vi1') devq (vi_ring vi1');
  qd_io : vq_shm_io (vi_vq vi0') = rv_shbuf_io t /\ vq_shm_io (vi_vq vi1') = rv_shbuf_io t;
  qd_offered : offered t (q_init n0) q0
    (buffers (pool_next pool) (r2h_buf_size (rv_config t)) (Z.to_nat n0));
  qd_clear : zeros m (pool_next pool) (n0 * r2h_buf_size (rv_config t));
  qd_list : rlist m (rv_reclaimer t) []
}.

(** Up to the receive buffers: the cleared rings, with the region set and the
    transmit callback suppressed. *)
Lemma queues_start w :
  queues_ready w ->
  exists m2 a0 a1 ring1',
    (m ← mem_list_init (w_mem w) (rv_reclaimer (w_tr w));
     virtio_create_virtqueues bld (Some f) (rv_vdev (w_tr w)) m 2 ["rx_vq"; "tx_vq"] [rx_cb; tx_cb])
      = Ok (vd_set_vrings (rv_vdev (w_tr w)) [a0; a1], m2, 0) /\
    vring_created vi0 a0 0 "rx_vq" rx_cb (f_notify f) /\ vring_created vi1 a1 1 "tx_vq" tx_cb (f_notify f) /\
    virtqueue_disable_cb bld (vd_dev (rv_vdev (w_tr w))) (vi_vq a1) (vi_ring a1) = Ok (vi_vq a1, ring1') /\
    ring_core ring1' = ring_core (vi_ring a1) /\
    rlist m2 (rv_reclaimer (w_tr w)) [] /\
    memstep [(rv_reclaimer (w_tr w), 16); vring_bytes vi0; vring_bytes vi1] (w_mem w) m2.
Proof.
  intros [Q1 Q2 Q3 Q4 Q5 _ _ [Q8 Q8'] [_ Q9] _ _ _ _ _].
  destruct (rlist_init _ _ Q8 Q8') as (m1 & E1 & Hl & Hs1).
  assert (Hy : forall vi, vring_ready (w_mem w) vi -> vring_ready m1 vi).
  { intros vi []. split; try done. by eapply memstep_mapped. }
  destruct (create_two f (rv_vdev (w_tr w)) m1 vi0 vi1 "rx_vq" "tx_vq" rx_cb tx_cb Q1 Q2 Q3 (Hy _ Q4) (Hy _ Q5))
    as (a0 & a1 & m2 & E2 & C0 & C1 & Hs2).
  pose proof C1 as (_ & _ & _ & _ & [_ D _]).
  destruct (disable_cb_core bld (vd_dev (rv_vdev (w_tr w))) (vi_vq a1) (vi_ring a1) (dr_idle _ _ _ D)) as (r & E3 & Hc).
  exists m2, a0, a1, r. split; [by rewrite E1; cbn [mbind res_bind]|]. split_and!; try done.
  - eapply rlist_step; [exact Hs2| |exact Hl]. intros x a s ->%list_elem_of_singleton. apply Q9.
  - transitivity m1.
    + eapply memstep_weaken; [|exact Hs1]. eapply covers_one; [left|lia..].
    + eapply memstep_weaken; [|exact Hs2]. intros a s Hin. exists a, s. split; [by right|lia].
Qed.

(** The receive queue with its region set is ready to be filled. *)
Lemma rx_ready_start w m2 a0 b1 :
  queues_ready w -> vring_created vi0 a0 0 "rx_vq" rx_cb (f_notify f) -> mapped m2 (io_virt (rv_shbuf_io (w_tr w)))
    (io_size (rv_shbuf_io (w_tr w))) ->
  let t := w_tr w in let io := rv_shbuf_io t in
  let b0 := set_vring a0 (virtqueue_set_shmem_io (vi_vq a0) io) (vi_ring a0) in
  rx_ready (mk_rv (rv_config t) (vd_set_vrings (rv_vdev t) [b0; b1]) 0 1 io (rv_pools t) (rv_shpool t)
              (rv_reclaimer t) (rv_notify_wait_cb t) (rv_calls t)) m2 b0 n0 (q_init n0) (vi_vq a0) pool.
Proof.
  intros [_ _ _ _ _ Q6 _ _ _ Q10 Q11 Q12 Q13 _] (_ & _ & _ & _ & C) Hm t io b0.
  split; try done. by eapply vq_rel_shmem.
Qed.

Lemma num_pos m vi : vring_ready m vi -> 0 < ai_num_descs (vi_info vi).
Proof. intros Hy. exact (pow2_pos _ (proj1 (vy_num _ _ Hy))). Qed.

(** The transport with the queues at [b0] and [b1], before the fill. *)
Definition with_queues t (b0 b1 : virtio_vring_info) : rpmsg_virtio B :=
  mk_rv (rv_config t) (vd_set_vrings (rv_vdev t) [b0; b1]) 0 1 (rv_shbuf_io t) (rv_pools t) (rv_shpool t)
    (rv_reclaimer t) (rv_notify_wait_cb t) (rv_calls t).

Definition shared_vring t (vi : virtio_vring_info) (ring : vring) : virtio_vring_info :=
  set_vring vi (virtqueue_set_shmem_io (vi_vq vi) (rv_shbuf_io t)) ring.

Lemma queues_fill w m2 a0 a1 r1 :
  let t := w_tr w in
  let b0 := shared_vring t a0 (vi_ring a0) in let b1 := shared_vring t a1 r1 in
  queues_ready w -> vring_created vi0 a0 0 "rx_vq" rx_cb (f_notify f) ->
  vring_created vi1 a1 1 "tx_vq" tx_cb (f_notify f) -> ring_core r1 = ring_core (vi_ring a1) ->
  rlist m2 (rv_reclaimer t) [] ->
  memstep [(rv_reclaimer t, 16); vring_bytes vi0; vring_bytes vi1] (w_mem w) m2 ->
  exists m' vi0' q0,
    rx_fill_loop bld (Z.to_nat n0) (set_tr (set_mem w m2) (with_queues t b0 b1)) =
      Ok (set_tr (set_mem w m') (queues_made t vi0' b1), RPMSG_SUCCESS) /\
    queues_done t m' vi0' b1 q0 /\ memstep (init_ranges t) (w_mem w) m'.
Proof.
  intros t b0 b1 Hq C0 C1 Hc Hl Hs.
  pose proof Hq as [_ _ _ Q4 _ _ Q7 _ [Q9 _] _ _ _ Q13 Q14]. pose proof (num_pos _ _ Q4) as Hn0. fold n0 in Hn0.
  fold t in Q9, Q13, Q14. set (s := r2h_buf_size (rv_config t)) in *.
  pose proof (rx_ready_start w m2 a0 b1 Hq C0 (memstep_mapped _ _ _ _ _ Hs Q7)) as F. cbn zeta in F.
  destruct (rx_fill_run (Z.to_nat n0) (set_tr (set_mem w m2) (with_queues t b0 b1)) b0 n0 (q_init n0) (vi_vq a0) pool F)
    as (m' & d & r & q0 & E3 & F' & Hof & Hs' & Hz); rewrite ?Z2Nat.id by lia; cbn [set_tr set_mem w_tr w_mem]; [exact Q14| |].
  { cbn [q_init q_free]. unfold zlen. rewrite length_zseq. lia. }
  rewrite ?Z2Nat.id in * by lia. cbn [set_tr set_mem w_tr w_mem] in *.
  change (r2h_buf_size (rv_config (with_queues t b0 b1))) with s in *.
  change (rx_filled (with_queues t b0 b1) b0 (taken pool (n0 * s)) d r) with (queues_made t (set_vring b0 d r) b1) in E3, F'.
  exists m', (set_vring b0 d r), q0. split; [exact E3|split].
  - destruct F' as [_ _ F3 F4 _ _ _ _ _ _]. destruct C1 as (_ & _ & _ & _ & [R1 D1 _]). split.
    + intros devq De. destruct F3 as [R0 D0 _]. split; [done|done|by eapply offered_dev].
    + intros devq De. apply (vq_rel_shmem n1 (q_init n1) (vi_vq a1) devq (vi_ring a1) r1); [by split|done].
    + split; [exact F4|done].
    + by destruct Hof.
    + exact Hz.
    + eapply rlist_step; [exact Hs'| |exact Hl]. intros x a y ->%list_elem_of_singleton [= -> ->]%list_elem_of_singleton.
      unfold inside, out_of in *. lia.
  - transitivity m2; (eapply memstep_weaken; [|eassumption]); intros a y Hin; exists a, y; (split; [|lia]);
      unfold init_ranges; set_solver.
Qed.

Lemma init_queues_run w :
  queues_ready w ->
  exists m' vi0' vi1' q0,
    init_queues bld (Some f) ns_cb ns_ept rx_cb tx_cb rvdev w =
      init_finish bld (Some f) ns_cb ns_ept rvdev (set_tr (set_mem w m') (queues_made (w_tr w) vi0' vi1')) /\
    queues_done (w_tr w) m' vi0' vi1' q0 /\ memstep (init_ranges (w_tr w)) (w_mem w) m'.
Proof.
  intros Hq. destruct (queues_start w Hq) as (m2 & a0 & a1 & r1 & E1 & C0 & C1 & E2 & Hc & Hl & Hs).
  destruct (queues_fill w m2 a0 a1 r1 Hq C0 C1 Hc Hl Hs) as (m' & vi0' & q0 & E3 & Hd & Hs').
  set (t := w_tr w) in *. set (b0 := shared_vring t a0 (vi_ring a0)) in *. set (b1 := shared_vring t a1 r1) in *.
  exists m', vi0', b1, q0. split; [|done].
  unfold init_queues, is_driver, dev_of, tr. fold t. rewrite (qy_drv _ Hq : VIRTIO_ROLE_IS_DRIVER bld (vd_dev (rv_vdev t)) = true).
  cbn iota. destruct (mem_list_init (w_mem w) (rv_reclaimer t)) as [m0|]; [|discriminate E1].
  cbn [mbind res_bind] in E1 |- *. change RPMSG_NUM_VRINGS with 2. rewrite E1. cbn [mbind res_bind].
  change (negb (0 =? RPMSG_SUCCESS)) with false. cbn iota. unfold vring_at.
  cbn [tr set_tr set_mem w_tr rv_vdev vd_set_vrings vd_vrings vd_dev rv_set_vdev].
  change (rget [a0; a1] 1) with (Ok a1). cbn [mbind res_bind]. rewrite E2. cbn [mbind res_bind].
  rewrite (vring_put_run _ 1 a1) by reflexivity. cbn [mbind res_bind].
  match goal with |- context [set_io_loop ?k 0 ?x ?l] => change (set_io_loop k 0 x l) with (Ok [b0; b1]) end.
  cbn [mbind res_bind].
  match goal with |- context [rget ?l 0] => change (rget l 0) with (Ok b0) end. cbn [mbind res_bind].
  destruct C0 as (_ & _ & _ & C04 & _).
  change (vi_vq b0) with (virtqueue_set_shmem_io (vi_vq a0) (rv_shbuf_io t)). rewrite C04.
  cbn [vq_nentries virtqueue_set_shmem_io new_vq]. fold n0.
  match goal with |- context [rx_fill_loop bld ?k ?x] => change (rx_fill_loop bld k x) with
    (rx_fill_loop bld k (set_tr (set_mem w m2) (with_queues t b0 b1))) end. rewrite E3. reflexivity.
Qed.
End init.

(** ** The start *)

Lemma zero_ept_name : char_array (ept_name zero_ept).
Proof. split; [done|]. repeat constructor; unfold is_u8; lia. Qed.

(** The pool of the transmit buffers. *)
Definition tx_pool (c : rpmsg_virtio_config) : Z := if split_shpool c then 1 else 0.

Section start.
Context {B : Type} (bld : build) (f : virtio_dispatch B) (ns_cb ns_ept rx_cb tx_cb rvdev hdr_slot bind : Z).
Context (ready_fuel : nat) (poll : gmap Z Z * vdev B -> gmap Z Z * vdev B).
Context (w : world (rpmsg_virtio B)) (v : vdev B) (shm_io : metal_io_region) (c : rpmsg_virtio_config).
Context (pools : list rpmsg_virtio_shm_pool) (vi0 vi1 : virtio_vring_info) (pool0 pool1 : rpmsg_virtio_shm_pool).
Context (features : Z) (status : vdev B -> vdev B).
Let n0 : Z := ai_num_descs (vi_info vi0).
Let n1 : Z := ai_num_descs (vi_info vi1).
Let recl : Z := rv_reclaimer (w_tr w).

(** The free parts of two pools do not overlap. *)
Definition pools_apart (p q : rpmsg_virtio_shm_pool) : Prop :=
  pool_next p + sp_avail p <= pool_next q \/ pool_next q + sp_avail q <= pool_next p.

(** What the caller provides: a virtio device in the driver role whose table has the
    functions the start needs and whose two vrings lie in memory, shared memory with
    pools inside, and room for the list of reclaimed buffers and the header. *)
Record init_ready : Prop := {
  iy_role : VIRTIO_ROLE_IS_DRIVER bld (vd_dev v) = true /\ VIRTIO_ROLE_IS_DEVICE bld (vd_dev v) = false;
  iy_create : f_create_virtqueues f = None;
  iy_features : exists g, f_get_features f = Some g /\ g v = Ok features;
  iy_status : exists g, f_set_status f = Some g /\ forall x, g x VIRTIO_CONFIG_STATUS_DRIVER_OK = Ok (status x) /\
    vd_dev (status x) = vd_dev x /\ vd_vrings (status x) = vd_vrings x;
  iy_vrings : vd_vrings v = [vi0; vi1] /\ vring_ready (w_mem w) vi0 /\ vring_ready (w_mem w) vi1;
  iy_mem : mem_wf (w_mem w) /\ mapped (w_mem w) (io_virt shm_io) (io_size shm_io) /\
    mapped (w_mem w) hdr_slot 16 /\ mapped (w_mem w) recl 16;
  iy_io : exists pm, io_wf shm_io pm;
  iy_list : 0 < recl < 18446744073709551616 /\
    forall a s, (a, s) ∈ [vring_bytes vi0; vring_bytes vi1] -> recl + 16 <= a \/ a + s <= recl;
  iy_out : out_of shm_io recl 16 /\ out_of shm_io hdr_slot 16 /\ (recl + 16 <= hdr_slot \/ hdr_slot + 16 <= recl);
  iy_sizes : 18 <= h2r_buf_size c < 2147483648 /\ 0 < r2h_buf_size c < 2147483648;
  iy_pools : zget pools 0 = Some pool0 /\ zget pools (tx_pool c) = Some pool1 /\ sp_size pool1 <> 0;
  iy_ok : pool_ok pool0 /\ pool_ok pool1;
  iy_room : inside shm_io (pool_next pool0) (sp_avail pool0) /\ inside shm_io (pool_next pool1) (sp_avail pool1);
  iy_apart : split_shpool c = true -> pools_apart pool0 pool1;
  iy_fit : n0 * r2h_buf_size c <= sp_avail pool0
}.

(** The world the virtqueues are created in. *)
Definition before_queues : world (rpmsg_virtio B) :=
  let ns := negb (Z.land features (Z.shiftl 1 VIRTIO_RPMSG_F_NS) =? 0) in
  mk_world (w_mem w) (<[ns_ept := zero_ept]> (w_epts w)) (mk_rdev [] (replicate 2 0) 0 false bind 0 ns)
    (mk_rv c v (rv_rvq (w_tr w)) (rv_svq (w_tr w)) shm_io pools (tx_pool c) recl 0 (rv_calls (w_tr w))).

Lemma init_before :
  init_ready ->
  rpmsg_init_vdev_with_config bld (Some f) ns_cb ns_ept rx_cb tx_cb rvdev ready_fuel poll w v bind shm_io pools (Some c)
    = init_queues bld (Some f) ns_cb ns_ept rx_cb tx_cb rvdev before_queues.
Proof.
  intros [[Hd He] _ (g & Hg & Hv) _ (_ & Hy & _) _ _ _ _ Hs (P0 & P1 & P2) [[O1 O2 O3] _] _ _ Hfit].
  pose proof (num_pos _ _ Hy) as Hn. fold n0 in Hn. unfold rpmsg_init_vdev_with_config, before_queues, is_driver, is_device, dev_of, tr.
  cbn [set_rdev set_tr put_ept set_epts w_tr rv_vdev]. rewrite Hd, He. cbn iota. cbn [mbind res_bind].
  change (negb (0 =? 0)) with false. cbn iota. unfold virtio_get_features, entry. rewrite Hg.
  cbn [mbind res_bind rv_set_vdev rv_vdev]. rewrite Hv. cbn [mbind res_bind].
  change (negb (0 =? 0)) with false. rewrite He. cbn [andb].
  destruct pools as [|p0 rest]; [done|]. injection P0 as ->. fold (tx_pool c).
  rewrite (rget_Some _ _ _ P1). cbn [mbind res_bind].
  rewrite (proj2 (Z.eqb_neq (sp_size pool1) 0)) by done.
  rewrite (proj2 (Z.eqb_neq (sp_size pool0) 0)) by nia. reflexivity.
Qed.

Lemma before_ready : init_ready -> queues_ready bld f vi0 vi1 pool0 before_queues.
Proof.
  intros [[Hd _] Hc _ _ (V1 & V2 & V3) (_ & M2 & _ & M4) Hio [L1 L2] (O1 & _) [_ S2] (P0 & _) [K _] [R _] _ Hfit].
  by split.
Qed.

(** The transmit side of the transport with its queues. *)
Lemma init_tx_inv m' vi0' vi1' q0 devq :
  init_ready -> queues_done vi0 vi1 pool0 (w_tr before_queues) m' vi0' vi1' q0 ->
  memstep (init_ranges vi0 vi1 pool0 (w_tr before_queues)) (w_mem w) m' -> dev_rel n1 (q_init n1) devq ->
  let t' := rv_set_vdev (queues_made vi0 pool0 (w_tr before_queues) vi0' vi1')
              (status (vd_set_vrings v [vi0'; vi1'])) in
  tx_inv bld hdr_slot n1 m' t' (q_init n1) devq [] [].
Proof.
  intros [[Hd He] _ _ (g & _ & Hst) (_ & Hy & Hy1) (M1 & M2 & M3 & _) Hio _ Ho [S1 S2] (P0 & P1 & _) [[K1 K2 K3] Kok] [R0 R1] _ Hfit]
    [_ Qt [_ Qi] _ _ Ql] Hms Hdev t'.
  destruct (Hst (vd_set_vrings v [vi0'; vi1'])) as (_ & Sd & Sv).
  pose proof (num_pos _ _ Hy) as Hn. pose proof (num_pos _ _ Hy1) as Hn1. fold n0 in Hn. fold n1 in Hn1. split.
  - split; cbn; rewrite ?Sd; done.
  - split; [by apply (ms_u8 _ _ _ Hms)|by eapply memstep_mapped|by eapply memstep_mapped|exact Ql].
  - exists vi1'. split; cbn; rewrite ?Sv; try done; [by apply Qt|by constructor..].
  - assert (Hpool : exists p, zget (rv_pools t') (rv_shpool t') = Some p /\ pool_ok p /\
        inside shm_io (pool_next p) (sp_avail p)).
    { change (rv_shpool t') with (tx_pool c). unfold t', queues_made. cbn [rv_pools rv_set_vdev w_tr before_queues]. fold n0.
      unfold tx_pool in P1 |- *. destruct (split_shpool c).
      - exists pool1. rewrite zget_zset_ne by lia. done.
      - eexists. rewrite zget_zset_eq by exact (zget_Some_lt _ _ _ P0). split; [done|]. split; [split; cbn; nia|].
        rewrite taken_next. unfold inside in *. cbn. nia. }
    destruct Hpool as (p & Hp & Hok & Hr). exists p. split; [| |done..|].
    + split; [constructor|]. intros a b Ha. by apply not_elem_of_nil in Ha.
    + constructor.
    + cbn [q_init q_free]. change (zlen (@nil Z)) with 0. pose proof (zlen_nonneg (zseq 0 (Z.to_nat n1))). lia.
Qed.

(** The receive buffers and the free part of the transmit pool do not overlap. *)
Lemma init_pools_apart vi0' vi1' :
  init_ready ->
  exists p, zget (rv_pools (queues_made vi0 pool0 (w_tr before_queues) vi0' vi1')) (tx_pool c) = Some p /\
    (pool_next pool0 + n0 * r2h_buf_size c <= pool_next p \/ pool_next p + sp_avail p <= pool_next pool0).
Proof.
  intros [_ _ _ _ _ _ _ _ _ _ (P0 & P1 & _) _ _ Hap Hfit]. unfold queues_made. cbn [rv_pools w_tr before_queues]. fold n0.
  unfold tx_pool in *. destruct (split_shpool c).
  - exists pool1. rewrite zget_zset_ne by lia. split; [done|]. specialize (Hap eq_refl). unfold pools_apart in Hap. lia.
  - eexists. rewrite zget_zset_eq by exact (zget_Some_lt _ _ _ P0). split; [done|]. rewrite taken_next. by left.
Qed.

Lemma offered_all (t : rpmsg_virtio B) q0 :
  0 <= n0 -> offered t (q_init n0) q0 (buffers (pool_next pool0) (r2h_buf_size c) (Z.to_nat n0)) ->
  c_cookie <$> q_avail q0 = buffers (pool_next pool0) (r2h_buf_size c) (Z.to_nat n0) /\
  Forall (rx_chain t) (q_avail q0) /\ q_held q0 = [] /\ q_used q0 = [] /\ q_free q0 = [].
Proof.
  intros Hn [(cs & E1 & E2 & E3) E4 E5 _ E6]. cbn [q_init q_avail app] in E1. rewrite E1. split_and!; try done.
  rewrite E6. apply nil_length_inv. cbn [q_init q_free]. rewrite length_drop, length_zseq. unfold buffers.
  rewrite length_fmap, length_seq. lia.
Qed.

(** C11: [rpmsg_init_vdev_with_config] in the driver role, over a device whose vrings, pools
    and list head lie in memory as [init_ready] says: it returns [RPMSG_SUCCESS].  The
    transmit queue is empty and, together with any device side just created, satisfies
    the invariant the sends need, with every transmit buffer still in the pool; every
    descriptor of the receive queue offers the device one cleared buffer, consecutive
    in the first pool and apart from what is left for transmission; nothing but the
    rings, the list head and those buffers is written; the registry holds the name
    service endpoint exactly when the feature was negotiated; and the status is set to
    DRIVER_OK last, on the device with its queues. *)
Theorem rpmsg_init_vdev_driver_spec (H : init_ready) :
  let ns := negb (Z.land features (Z.shiftl 1 VIRTIO_RPMSG_F_NS) =? 0) in
  exists w' vi0' vi1' q0,
    rpmsg_init_vdev_with_config bld (Some f) ns_cb ns_ept rx_cb tx_cb rvdev ready_fuel poll w v bind shm_io
      pools (Some c) = Ok (w', RPMSG_SUCCESS) /\
    rv_vdev (w_tr w') = status (vd_set_vrings v [vi0'; vi1']) /\
    (forall devq, dev_rel n1 (q_init n1) devq ->
       tx_inv bld hdr_slot n1 (w_mem w') (w_tr w') (q_init n1) devq [] []) /\
    (forall devq, dev_rel n0 (q_init n0) devq -> vq_rel n0 q0 (vi_vq vi0') devq (vi_ring vi0')) /\
    c_cookie <$> q_avail q0 = buffers (pool_next pool0) (r2h_buf_size c) (Z.to_nat n0) /\
    Forall (rx_chain (w_tr w')) (q_avail q0) /\ q_held q0 = [] /\ q_used q0 = [] /\ q_free q0 = [] /\
    zeros (w_mem w') (pool_next pool0) (n0 * r2h_buf_size c) /\
    (exists p, zget (rv_pools (w_tr w')) (rv_shpool (w_tr w')) = Some p /\
       (pool_next pool0 + n0 * r2h_buf_size c <= pool_next p \/ pool_next p + sp_avail p <= pool_next pool0)) /\
    memstep [(recl, 16); vring_bytes vi0; vring_bytes vi1; (pool_next pool0, n0 * r2h_buf_size c)]
      (w_mem w) (w_mem w') /\
    registry_made ns_cb ns_ept ns w'.
Proof.
  intros ns. rewrite (init_before H).
  destruct (init_queues_run bld f ns_cb ns_ept rx_cb tx_cb rvdev vi0 vi1 pool0 before_queues (before_ready H))
    as (m' & vi0' & vi1' & q0 & -> & Hq & Hms).
  destruct (iy_status H) as (g & Hg & Hst).
  destruct (Hst (vd_set_vrings v [vi0'; vi1'])) as (Hv & _ & _).
  destruct (init_finish_run bld f ns_cb ns_ept rvdev (set_tr (set_mem before_queues m')
    (queues_made vi0 pool0 (w_tr before_queues) vi0' vi1')) bind ns zero_ept g (status (vd_set_vrings v [vi0'; vi1'])))
    as (w' & -> & Em & Et & Hr); [done|apply lookup_insert_eq|exact zero_ept_name|apply (iy_role H)|done|done|].
  pose proof (num_pos _ _ (proj1 (proj2 (iy_vrings H)))) as Hn. fold n0 in Hn.
  destruct (offered_all _ q0 (Z.lt_le_incl _ _ Hn) (qd_offered _ _ _ _ _ _ _ _ Hq)) as (A1 & A2 & A3 & A4 & A5).
  cbn [w_mem w_tr set_tr set_mem] in Em, Et. exists w', vi0', vi1', q0. rewrite Em, Et. split_and!; try done.
  - intros devq. by eapply init_tx_inv.
  - exact (qd_rx _ _ _ _ _ _ _ _ Hq).
  - exact (qd_clear _ _ _ _ _ _ _ _ Hq).
  - exact (init_pools_apart vi0' vi1' H).
Qed.
End start.

(** ** A device with two rings of four, and one pool for both directions *)

Definition demo_init_status (x : vdev Z) : vdev Z := mk_vd (vd_dev x) VIRTIO_CONFIG_STATUS_DRIVER_OK (vd_vrings x).
Definition demo_init_func : virtio_dispatch Z :=
  mk_dispatch None None None (Some (fun x _ => Ok (demo_init_status x))) (Some (fun _ => Ok 1)) None None None None None 9.
Definition demo_init_vdev : vdev Z := mk_vd (mk_vdev 0 0 0) 0 [demo_vinfo 4096; demo_vinfo 5120].
Definition demo_init_io : metal_io_region := metal_io_init 16384 (Some [2097152]) 1024 64 0 None.
Definition demo_init_mem : gmap Z Z :=
  put_bytes (put_bytes (put_bytes (put_bytes ∅ 4096 (fill 4096 170)) 16384 (fill 1024 7)) 2048 (fill 16 0))
    1024 (fill 16 0).
Definition demo_init_world : world (rpmsg_virtio Z) :=
  mk_world demo_init_mem ∅
    (mk_rdev [] [] 0 false 0 0 false)
    (mk_rv (mk_config 0 0 false) demo_init_vdev 0 0 NULL_IO [] 0 1024 0 []).
Definition demo_init_pool : rpmsg_virtio_shm_pool := mk_pool 16384 1024 1024.

Lemma demo_init_ready :
  init_ready demo_release demo_init_func 2048 demo_init_world demo_init_vdev demo_init_io
    (mk_config 32 32 false) [demo_init_pool] (demo_vinfo 4096) (demo_vinfo 5120) demo_init_pool demo_init_pool
    1 demo_init_status.
Proof.
  assert (Hs : vring_size 4 4 = 118) by reflexivity.
  assert (Hr : forall a, a = 4096 \/ a = 5120 -> vring_ready demo_init_mem (demo_vinfo a)).
  { intros a Ha. unfold demo_init_mem. do 3 apply vring_ready_put. by apply demo_ready. }
  split; cbn [w_mem w_tr demo_init_world rv_reclaimer].
  - done.
  - done.
  - eexists. split; reflexivity.
  - eexists. split; [reflexivity|]. done.
  - split; [done|]. split; apply Hr; auto.
  - unfold demo_init_mem. split_and!.
    + repeat apply mem_wf_put; try (apply fill_u8; unfold is_u8; lia). intros k x. by rewrite lookup_empty.
    + do 2 apply mapped_put. apply has_bytes_mapped_fill; cbn; lia.
    + apply mapped_put. apply has_bytes_mapped_fill; lia.
    + apply has_bytes_mapped_fill; lia.
  - exists [2097152]. split; try done; [repeat constructor; done|]. by left.
  - split; [lia|]. intros a s. unfold vring_bytes. cbn [demo_vinfo vi_info ai_vaddr ai_num_descs ai_align].
    rewrite Hs. intros [[= -> ->]|[= -> ->]%list_elem_of_singleton]%elem_of_cons; lia.
  - unfold out_of. cbn. lia.
  - cbn. lia.
  - done.
  - split; split; cbn; lia.
  - unfold inside, pool_next. cbn. lia.
  - done.
  - cbn. lia.
Qed.

Lemma rpmsg_init_vdev_driver_spec_witness :
  exists w' q0,
    rpmsg_init_vdev_with_config demo_release (Some demo_init_func) 600 500 7 8 700 0 (fun x => x) demo_init_world
      demo_init_vdev 0 demo_init_io [demo_init_pool] (Some (mk_config 32 32 false)) = Ok (w', RPMSG_SUCCESS) /\
    vd_back (rv_vdev (w_tr w')) = VIRTIO_CONFIG_STATUS_DRIVER_OK /\
    c_cookie <$> q_avail q0 = [16384; 16416; 16448; 16480] /\ rd_endpoints (w_rdev w') = [500].
Proof.
  destruct (rpmsg_init_vdev_driver_spec demo_release demo_init_func 600 500 7 8 700 2048 0 0 (fun x => x)
    demo_init_world demo_init_vdev demo_init_io (mk_config 32 32 false) [demo_init_pool] (demo_vinfo 4096)
    (demo_vinfo 5120) demo_init_pool demo_init_pool 1 demo_init_status demo_init_ready)
    as (w' & vi0' & vi1' & q0 & E & Ev & _ & _ & Ec & _ & _ & _ & _ & _ & _ & _ & Hr).
  exists w', q0. split; [exact E|]. split; [by rewrite Ev|]. split; [exact Ec|exact (rm_epts _ _ _ _ Hr)].
Defined.
