(* ===== verification/RpmsgBack.v ===== *)
(** * The way back: the device sends, the driver receives (rpmsg_virtio.c)

    In the device role a transmit buffer is the oldest receive buffer the driver
    offered; a send fills it and returns it over the used ring.  In the driver role
    the receive callback takes the returned buffers, calls the endpoints, and offers
    the buffers again.  The reserved word of a received header holds the slot of the
    used ring, and the length of the buffer is read from the descriptor of that
    number: this is right because all descriptors of the queue have one length, which
    is part of the invariant here. *)

From S2P Require Import Prelude MetalUtil MetalIo Vring Virtqueue VirtqueueInv VirtqueueRefine.
From S2P Require Import VirtqueueSys Virtio Rpmsg RpmsgInv RpmsgVirtio RpmsgBuf RpmsgTx RpmsgRx RpmsgDelivery.

(** Writing bytes from outside the region into it. *)
Lemma io_write_run io pm m dst src bs :
  io_wf io pm -> inside io dst (zlen bs) -> dst < io_virt io + io_size io ->
  mapped m (io_virt io) (io_size io) -> has_bytes m src bs -> Forall is_u8 bs -> out_of io src (zlen bs) ->
  metal_io_block_write io m (metal_io_virt_to_offset io dst) src (zlen bs) = Ok (put_bytes m dst bs, zlen bs).
Proof.
  intros Hw [I1 I2] Hd Hm Hb Hu Ho. assert (Hr : 0 <= dst - io_virt io < io_size io) by lia.
  destruct (virt_of_offset _ pm Hw _ Hr) as (_ & _ & E).
  replace (io_virt io + (dst - io_virt io)) with dst in E by lia.
  rewrite E, (block_write_run _ pm Hw); [|done|lia|].
  - do 3 f_equal. lia.
  - replace (io_virt io + (dst - io_virt io)) with dst by lia.
    split; [done|eapply mapped_sub; [exact Hm|lia..]|done|]. unfold out_of in Ho. lia.
Qed.

(** ** The device sends *)

Section device.
Context {B : Type} (bld : build) (hdr_slot n : Z).
Implicit Types (t : rpmsg_virtio B) (m : gmap Z Z) (w : world (rpmsg_virtio B)).

Record dtx_env t : Prop := {
  de_role : VIRTIO_ROLE_IS_DRIVER bld (vd_dev (rv_vdev t)) = false /\
    VIRTIO_ROLE_IS_DEVICE bld (vd_dev (rv_vdev t)) = true;
  de_io : exists pm, io_wf (rv_shbuf_io t) pm;
  de_out : out_of (rv_shbuf_io t) (rv_reclaimer t) 16 /\ out_of (rv_shbuf_io t) hdr_slot 16 /\
    (rv_reclaimer t + 16 <= hdr_slot \/ hdr_slot + 16 <= rv_reclaimer t)
}.

(** The device's transmit queue represents [q]. *)
Record dtx_queue t (vi : virtio_vring_info) (q : queue) (drv : virtqueue) : Prop := {
  dq_vring : zget (vd_vrings (rv_vdev t)) (rv_svq t) = Some vi;
  dq_rel : vq_rel n q drv (vi_vq vi) (vi_ring vi);
  dq_io : vq_shm_io (vi_vq vi) = rv_shbuf_io t
}.

(** The chain is one buffer of [l] bytes at [b]. *)
Definition tx_room t (c : chain) (b l : Z) : Prop :=
  exists a wr, c_bufs c = [(a, l, wr)] /\ metal_io_phys_to_virt (rv_shbuf_io t) a = Ok b /\
    inside (rv_shbuf_io t) b l /\ 18 <= l < 2147483648.

Definition q_taken1 (q : queue) (c : chain) (rest : list chain) : queue :=
  mk_queue rest (q_held q ++ [c]) (q_used q) (q_free q) (q_recl q).

Lemma dtx_env_fixed t t' : tx_fixed t' = tx_fixed t -> dtx_env t -> dtx_env t'.
Proof.
  intros E [H1 H2 H3]. injection E as E1 E2 E3 E4 E5 E6 E7 E8 E9.
  split; rewrite ?E2, ?E3, ?E8; done.
Qed.

Lemma room_pos t c b l : dtx_env t -> tx_room t c b l -> 0 < b.
Proof.
  intros He (a & wr & _ & _ & [H1 H2] & Hl). destruct (de_io _ He) as [pm Hw].
  pose proof (wf_virt _ _ Hw) as [H3 H4]. lia.
Qed.

Lemma get_tx_dev w vi q drv c rest b l :
  dtx_env (w_tr w) -> dtx_queue (w_tr w) vi q drv -> rlist (w_mem w) (rv_reclaimer (w_tr w)) [] ->
  q_avail q = c :: rest -> tx_room (w_tr w) c b l ->
  exists t' vi', rpmsg_virtio_get_tx_buffer bld w = Ok (set_tr w t', b, l, c_head c) /\
    tx_fixed t' = tx_fixed (w_tr w) /\ dtx_queue t' vi' (q_taken1 q c rest) drv.
Proof.
  intros [[E1 E2] _ _] [Q1 Q2 Q3] Hl Ha (a & wr & Hc & Hp & _).
  pose proof (get_available_refines bld n q drv (vi_vq vi) (vi_ring vi) Q2) as Hg.
  unfold q_take in Hg. rewrite Ha in Hg. rewrite <- Q3 in Hp.
  destruct (Hg a l wr [] b Hc Hp) as (devq' & Hrun & Hrel & Hcf).
  eexists _, _. split; [|split].
  - unfold rpmsg_virtio_get_tx_buffer, is_driver, is_device, dev_of, tr. run (apply (rlist_first _ _ _ Hl)). cbn [hd].
    change (negb (0 =? 0)) with false. cbn iota. rewrite E1, E2. unfold vq_get_available.
    run (by apply vring_at_run). run (exact Hrun). run (by apply vring_put_run). reflexivity.
  - done.
  - split; [by apply put_vring_get|exact Hrel|]. cbn [set_vring vi_vq]. injection Hcf as _ _ _ ->. done.
Qed.

Lemma get_tx_dev_none w vi q drv :
  dtx_env (w_tr w) -> dtx_queue (w_tr w) vi q drv -> rlist (w_mem w) (rv_reclaimer (w_tr w)) [] ->
  q_avail q = [] -> rpmsg_virtio_get_tx_buffer bld w = Ok (w, 0, 0, 0).
Proof.
  intros [[E1 E2] _ _] [Q1 Q2 Q3] Hl Ha.
  pose proof (get_available_refines bld n q drv (vi_vq vi) (vi_ring vi) Q2) as Hg.
  unfold q_take in Hg. rewrite Ha in Hg.
  unfold rpmsg_virtio_get_tx_buffer, is_driver, is_device, dev_of, tr. run (apply (rlist_first _ _ _ Hl)). cbn [hd].
  change (negb (0 =? 0)) with false. cbn iota. rewrite E1, E2. unfold vq_get_available.
  run (by apply vring_at_run). run (exact Hg). run (by apply vring_put_run).
  rewrite put_vring_id by done. by destruct w.
Qed.

(** The payload buffer, without waiting. *)
Lemma dev_payload func sleep wait_cb w st vi q drv c rest b l :
  dtx_env (w_tr w) -> dtx_queue (w_tr w) vi q drv -> tx_mem hdr_slot (w_mem w) (w_tr w) [] ->
  q_avail q = c :: rest -> tx_room (w_tr w) c b l -> rd_lock (w_rdev w) = false ->
  virtio_get_status func (rv_vdev (w_tr w)) = Ok (0, st) -> Z.land st VIRTIO_CONFIG_STATUS_DRIVER_OK <> 0 ->
  exists m' t' vi',
    rpmsg_virtio_get_tx_payload_buffer bld func sleep wait_cb w 0
      = Ok (mk_world m' (w_epts w) (w_rdev w) t', b + SIZEOF_HDR, l - SIZEOF_HDR) /\
    tx_fixed t' = tx_fixed (w_tr w) /\ dtx_queue t' vi' (q_taken1 q c rest) drv /\
    held_at b (c_head c) m' 1 /\ is_u16 (c_head c) /\ memstep [(b + HDR_RESERVED, 4)] (w_mem w) m'.
Proof.
  intros He Hq [M1 M2 M3 M4] Ha Hr Hl Hst Hok. set (w0 := set_rdev w (rd_set_lock (w_rdev w) true)).
  destruct (get_tx_dev w0 vi q drv c rest b l He Hq M4 Ha Hr) as (t' & vi' & R & F & Hq').
  assert (Hi : is_u16 (c_head c)).
  { pose proof (vr_ring _ _ _ _ _ (dq_rel _ _ _ _ Hq)) as R1.
    assert (Hin : c ∈ q_live q) by (unfold q_live; rewrite Ha; left).
    pose proof (rel_head_range R1 c Hin). pose proof (rel_bounds R1). unfold is_u16. lia. }
  pose proof (room_pos _ _ _ _ He Hr) as Hb. destruct Hr as (a & wr & _ & _ & [I1 I2] & Hlen).
  set (m1 := put_bytes (w_mem w) (b + HDR_RESERVED) (le_bytes 4 (c_head c))).
  destruct (held_inc_run b (c_head c) Hi m1 0) as (m2 & R2 & Hh & Hs2); [|lia|].
  { unfold held_at. rewrite Z.mul_0_r, Z.add_0_r. apply word_put. }
  exists m2, t', vi'. split; [|split_and!; try done].
  - unfold rpmsg_virtio_get_tx_payload_buffer, tr. rewrite Hst. cbn [mbind res_bind].
    change (negb (0 =? 0)) with false. rewrite (proj2 (Z.eqb_neq _ 0)) by done. cbn [orb].
    change (tx_fuel 0) with 1%nat.
    assert (Hw : ('(w, b, len, idx) ← rpmsg_virtio_get_tx_buffer bld w0; Ok (metal_mutex_release w, b, len, idx))
              = Ok (mk_world (w_mem w) (w_epts w) (w_rdev w) t', b, l, c_head c)).
    { rewrite R. cbn [mbind res_bind]. unfold metal_mutex_release, set_tr, set_rdev, w0. cbn.
      by rewrite unlock_relock. }
    rewrite (wait_step bld sleep wait_cb 0 w 0 _ _ _ _ Hl Hw), orb_true_r. cbn [mbind res_bind].
    rewrite (proj2 (Z.eqb_neq b 0)) by lia. cbn [w_mem].
    run (apply st_word; eapply mapped_sub; [exact M2|unfold HDR_RESERVED; lia..]). fold m1. run (exact R2).
    unfold SIZEOF_HDR. rewrite u32_id by (unfold is_u32; lia). done.
  - etransitivity; [|exact Hs2]. apply (memstep_put _ _ (le_bytes 4 (c_head c))), le_bytes_u8.
Qed.

(** The filled buffer goes to the driver over the used ring, with its length. *)
Lemma dev_enqueue w vi q drv k c b l :
  dtx_env (w_tr w) -> dtx_queue (w_tr w) vi q drv -> q_held q !! k = Some c -> tx_room (w_tr w) c b l ->
  exists t' vi',
    (buff_len ← vq_buffer_length w (rv_svq (w_tr w)) (c_head c);
     '(w, status) ← rpmsg_virtio_enqueue_buffer bld w b buff_len (c_head c);
     _ ← rassert (status =? VQUEUE_SUCCESS);
     vq_kick bld w (rv_svq (tr w))) = Ok (set_tr w t') /\
    tx_fixed t' = tx_fixed (w_tr w) /\ dtx_queue t' vi' (q_consume q k c l) drv.
Proof.
  intros [[E1 E2] _ _] [Q1 Q2 Q3] Hk (a & wr & Hc & _). pose proof Q2 as [R1 _ _].
  assert (Hin : c ∈ q_live q).
  { unfold q_live. rewrite !elem_of_app. right. left. by eapply list_elem_of_lookup_2. }
  destruct (chain_path_head _ _ _ (rel_path R1 c Hin)) as (a' & l' & w' & bs & more & nx & Eb & Ed).
  rewrite Hc in Eb. injection Eb as <- <- <- <-. fold (c_head c) in Ed.
  destruct (add_consumed_refines bld n q drv (vi_vq vi) (vi_ring vi) k c l Q2 Hk)
    as (devq' & ring' & Hrun & Hrel & Hcf).
  set (t1 := put_vring (w_tr w) (rv_svq (w_tr w)) vi devq' ring'). set (vi1 := set_vring vi devq' ring').
  pose proof (kick_core bld (dev_of w) devq' ring' (de_idle _ _ _ (vr_dev _ _ _ _ _ Hrel))) as Hkick.
  set (call := if vq_ring_must_notify bld (dev_of w) devq' ring' then vq_ring_notify devq' else None) in Hkick.
  assert (G1 : zget (vd_vrings (rv_vdev t1)) (rv_svq (w_tr w)) = Some vi1) by (by apply put_vring_get).
  set (t2 := put_vring t1 (rv_svq (w_tr w)) vi1 (set_queued_cnt devq' 0) ring').
  exists (match call with Some f => rv_set_calls t2 (rv_calls t2 ++ [f]) | None => t2 end),
    (set_vring vi1 (set_queued_cnt devq' 0) ring'). split; [|split].
  - run (unfold vq_buffer_length; run (by apply vring_at_run); unfold virtqueue_get_buffer_length;
         run (by apply rget_Some); reflexivity). cbn [d_len].
    unfold rpmsg_virtio_enqueue_buffer, is_driver, is_device. unfold dev_of, tr. rewrite E1, E2.
    run (unfold vq_add_consumed; run (by apply vring_at_run); run (exact Hrun);
         run (by apply vring_put_run); reflexivity). run (reflexivity).
    unfold vq_kick, tr. cbn [set_tr w_tr]. fold t1. change (rv_svq t1) with (rv_svq (w_tr w)).
    run (by apply vring_at_run). run (exact Hkick). run (by apply vring_put_run). fold t2. by destruct call.
  - by destruct call.
  - assert (Hq2 : dtx_queue t2 (set_vring vi1 (set_queued_cnt devq' 0) ring') (q_consume q k c l) drv).
    { split; [by apply put_vring_get| |].
      - destruct Hrel as [R2 D2 V2]. split; [done|done|by apply dev_rel_queued].
      - cbn. injection Hcf as _ _ _ ->. done. }
    destruct Hq2 as [A1 A2 A3]. destruct call; by split.
Qed.

(** The message goes out: what a send leaves in the world. *)
Record dev_sent w w' (q : queue) (drv : virtqueue) (c : chain) (b l src dst : Z) (bs : list Z) : Prop := {
  ds_rdev : w_rdev w' = w_rdev w;
  ds_epts : w_epts w' = w_epts w;
  ds_fixed : tx_fixed (w_tr w') = tx_fixed (w_tr w);
  ds_queue : exists vi', dtx_queue (w_tr w') vi' q drv;
  ds_bytes : has_bytes (w_mem w') b (hdr_bytes src dst 0 (u16 (zlen bs)) 0 ++ bs);
  ds_mem : memstep [(hdr_slot, 16); (b, l)] (w_mem w) (w_mem w')
}.

Lemma dev_nocopy w vi q drv k c b l src dst len :
  dtx_env (w_tr w) -> dtx_queue (w_tr w) vi q drv -> q_held q !! k = Some c -> tx_room (w_tr w) c b l ->
  mapped (w_mem w) (io_virt (rv_shbuf_io (w_tr w))) (io_size (rv_shbuf_io (w_tr w))) ->
  mapped (w_mem w) hdr_slot 16 -> held_at b (c_head c) (w_mem w) 1 -> is_u16 (c_head c) ->
  rd_lock (w_rdev w) = false ->
  let hb := hdr_bytes src dst 0 (u16 len) 0 in
  exists t' vi',
    rpmsg_virtio_send_offchannel_nocopy bld hdr_slot w src dst (b + SIZEOF_HDR) len =
      Ok (mk_world (put_bytes (put_bytes (w_mem w) hdr_slot hb) b hb) (w_epts w) (w_rdev w) t', len) /\
    tx_fixed t' = tx_fixed (w_tr w) /\ dtx_queue t' vi' (q_consume q k c l) drv.
Proof.
  intros He Hq Hk Hr M2 M3 Hh Hi Hl hb. pose proof He as [[E1 E2] [pm Hw] (_ & Hout & _)].
  pose proof Hr as (a & wr & _ & _ & [I1 I2] & Hlen).
  pose proof (hdr_bytes_u8 src dst 0 (u16 len) 0 : Forall is_u8 hb) as Hu8.
  pose proof (zlen_hdr_bytes src dst 0 (u16 len) 0 : zlen hb = 16) as Hz.
  set (m1 := put_bytes (w_mem w) hdr_slot hb). set (m2 := put_bytes m1 b hb).
  set (w3 := set_rdev (set_mem w m2) (rd_set_lock (w_rdev w) true)).
  destruct (dev_enqueue w3 vi q drv k c b l He Hq Hk Hr) as (t' & vi' & R & F & Hq').
  exists t', vi'. split; [|done].
  unfold rpmsg_virtio_send_offchannel_nocopy, RPMSG_LOCATE_HDR.
  replace (b + SIZEOF_HDR - SIZEOF_HDR) with b by lia.
  run (by apply (held_ld b (c_head c) Hi (w_mem w) 1); [|lia]).
  replace (u16 (c_head c + 65536 * 1)) with (c_head c) by (unfold u16, is_u16 in *; mlia).
  fold hb. run (apply storen_ok; rewrite Hz; exact M3). unfold tr. fold m1.
  run (replace SIZEOF_HDR with (zlen hb); apply (io_write_run _ pm); [done|unfold inside; rewrite Hz; lia|lia
    |by apply mapped_put|apply has_bytes_put|done|by rewrite Hz]).
  rewrite Hz. run (reflexivity). run (by apply acquire_run). fold m2.
  change (set_rdev (set_mem w m2) (rd_set_lock (w_rdev (set_mem w m2)) true)) with w3.
  replace (is_driver bld w3) with false by (symmetry; exact E1).
  change (w_tr w3) with (w_tr w) in R. unfold tr in R |- *. change (w_tr w3) with (w_tr w).
  destruct (vq_buffer_length w3 _ _) as [bl|]; [|discriminate R]. cbn [mbind res_bind] in R |- *.
  destruct (rpmsg_virtio_enqueue_buffer bld w3 b _ _) as [[w4 st]|]; [|discriminate R].
  cbn [mbind res_bind] in R |- *. destruct (rassert _); [|discriminate R].
  cbn [mbind res_bind] in R |- *. run (exact R).
  unfold metal_mutex_release, set_tr, set_rdev, w3. cbn. by rewrite unlock_relock.
Qed.

(** The header over the start of a buffer that holds the payload, by way of its copy. *)
Lemma put_message m b l src dst len bk :
  zlen bk <= l - 16 -> hdr_slot + 16 <= b \/ b + l <= hdr_slot ->
  let hb := hdr_bytes src dst 0 len 0 in
  let m2 := put_bytes m (b + SIZEOF_HDR) bk in
  let m' := put_bytes (put_bytes m2 hdr_slot hb) b hb in
  has_bytes m' b (hb ++ bk) /\ memstep [(hdr_slot, 16); (b, l)] m2 m'.
Proof.
  intros Hk Ho hb m2 m'. pose proof (zlen_nonneg bk).
  pose proof (hdr_bytes_u8 src dst 0 len 0 : Forall is_u8 hb) as Hu8.
  pose proof (zlen_hdr_bytes src dst 0 len 0 : zlen hb = 16) as Hzh.
  pose proof (put_two m2 hdr_slot hb b hb Hu8 Hu8 : memstep _ m2 m') as Hs3. rewrite Hzh in Hs3. split.
  - apply has_bytes_app. split; [apply has_bytes_put|]. rewrite Hzh.
    eapply memstep_bytes; [exact Hs3| |apply has_bytes_put].
    intros x s [[= -> ->]|[= -> ->]%list_elem_of_singleton]%elem_of_cons; lia.
  - eapply memstep_weaken; [|exact Hs3]. intros x s [[= -> ->]|[= -> ->]%list_elem_of_singleton]%elem_of_cons.
    + exists hdr_slot, 16. split; [left|lia].
    + exists b, l. split; [right; left|lia].
Qed.

(** Sending without waiting into the oldest buffer offered. *)
Lemma dev_send_run func sleep wait_cb w st vi q drv c rest b l src dst data bs :
  dtx_env (w_tr w) -> dtx_queue (w_tr w) vi q drv -> tx_mem hdr_slot (w_mem w) (w_tr w) [] ->
  q_avail q = c :: rest -> tx_room (w_tr w) c b l -> rd_lock (w_rdev w) = false ->
  virtio_get_status func (rv_vdev (w_tr w)) = Ok (0, st) -> Z.land st VIRTIO_CONFIG_STATUS_DRIVER_OK <> 0 ->
  has_bytes (w_mem w) data bs -> out_of (rv_shbuf_io (w_tr w)) data (zlen bs) ->
  let k := Z.min (zlen bs) (l - SIZEOF_HDR) in
  exists w',
    rpmsg_virtio_send_offchannel_raw bld func sleep wait_cb hdr_slot w src dst data (zlen bs) 0 = Ok (w', k) /\
    dev_sent w w' (q_served q rest c l) drv c b l src dst (take (Z.to_nat k) bs).
Proof.
  intros He Hq Hm Ha Hr Hl Hst Hok Hb Ho k. pose proof Hm as [M1 M2 M3 _].
  destruct (dev_payload func sleep wait_cb w st vi q drv c rest b l He Hq Hm Ha Hr Hl Hst Hok)
    as (m1 & t1 & vi1 & R1 & F1 & Hq1 & Hh & Hi & Hs1).
  pose proof (room_pos _ _ _ _ He Hr) as Hpos. pose proof He as [_ [pm Hw] (_ & Hout & _)].
  pose proof Hr as (a & wr & _ & _ & [I1 I2] & Hlen). pose proof (dtx_env_fixed _ _ F1 He) as He1.
  assert (Fio : rv_shbuf_io t1 = rv_shbuf_io (w_tr w)) by (injection F1; done). pose proof (zlen_nonneg bs) as Hbs.
  assert (Hk : 0 <= k <= zlen bs /\ k <= l - 16) by (unfold k, SIZEOF_HDR; lia).
  set (bk := take (Z.to_nat k) bs). pose proof (zlen_take bs k ltac:(lia)) as Hz. fold bk in Hz.
  assert (Hb1 : has_bytes m1 data bk).
  { apply (take_bytes _ _ _ (Z.to_nat k)). eapply memstep_bytes; [exact Hs1| |exact Hb].
    intros x s [= -> ->]%list_elem_of_singleton. unfold out_of, HDR_RESERVED in *. lia. }
  pose proof (has_bytes_u8 _ _ _ (ms_u8 _ _ _ Hs1 M1) Hb1) as Hu.
  set (m2 := put_bytes m1 (b + SIZEOF_HDR) bk).
  assert (Hs2 : memstep [(b, l)] (w_mem w) m2).
  { transitivity m1.
    - eapply memstep_weaken; [|exact Hs1]. eapply covers_one; [left|unfold HDR_RESERVED; lia..].
    - eapply memstep_weaken; [|by apply memstep_put]. rewrite Hz. eapply covers_one; [left|unfold SIZEOF_HDR; lia..]. }
  destruct (dev_nocopy (mk_world m2 (w_epts w) (w_rdev w) t1) vi1 (q_taken1 q c rest) drv (length (q_held q)) c b l src dst k)
    as (t' & vi' & R2 & F2 & Hq2); cbn [w_tr w_mem w_rdev]; try done.
  { apply held_taken. } { unfold tx_room. rewrite Fio. exact Hr. }
  { rewrite Fio. by eapply memstep_mapped. } { by eapply memstep_mapped. }
  { apply has_bytes_put_disjoint; [rewrite zlen_le_bytes; unfold HDR_RESERVED, SIZEOF_HDR; lia|exact Hh]. }
  eexists. split.
  - unfold rpmsg_virtio_send_offchannel_raw, tr. rewrite R1. cbn [mbind res_bind].
    rewrite (proj2 (Z.eqb_neq (b + SIZEOF_HDR) 0)) by (unfold SIZEOF_HDR; lia). cbn [w_tr w_mem].
    replace (if i32 (l - SIZEOF_HDR) <? zlen bs then i32 (l - SIZEOF_HDR) else zlen bs) with k
      by (unfold k, SIZEOF_HDR; rewrite i32_id by lia; zcase; lia).
    rewrite Fio. rewrite <- Hz at 1.
    run (apply (io_write_run _ pm); [done|unfold inside, SIZEOF_HDR; rewrite Hz; lia|unfold SIZEOF_HDR; lia
      |by eapply memstep_mapped|done|done|unfold out_of in *; rewrite Hz; lia]).
    rewrite Hz, Z.eqb_refl. run (reflexivity). exact R2.
  - destruct (put_message m1 b l src dst (u16 k) bk ltac:(lia) ltac:(unfold out_of in Hout; lia)) as [Hmsg Hs3].
    split; cbn [w_rdev w_epts w_tr w_mem]; try done.
    + by rewrite F2.
    + exists vi'. by rewrite <- served_eq.
    + by rewrite Hz.
    + transitivity m2; [|exact Hs3]. eapply memstep_weaken; [|exact Hs2]. eapply covers_one; [right; left|lia..].
Qed.
End device.

(** ** The lengths of the descriptors *)

Definition desc_lens (size : Z) (ring : vring) : Prop := Forall (fun d => d_len d = size) (r_desc ring).

Lemma rset_Forall {A} (P : A -> Prop) l i x l' : rset l i x = Ok l' -> Forall P l -> P x -> Forall P l'.
Proof. unfold rset. destruct (zget l i); [|discriminate]. intros [= <-]. apply Forall_zset. Qed.

(** Names the parts of the pair a step returned. *)
Tactic Notation "pair_as" ident(x) ident(y) :=
  match goal with p : (_ * _)%type |- _ => destruct p as [x y] end.

Lemma free_chain_lens bld size vq ring i vq' ring' :
  vq_ring_free_chain bld vq ring i = Ok (vq', ring') -> desc_lens size ring -> desc_lens size ring'.
Proof.
  unfold vq_ring_free_chain, desc_lens. intros H Hf. do 4 res_step H. res_step H. pair_as last nd.
  cbn [mbind res_bind] in H. do 3 res_step H. injection H as <- <-. cbn [ring_set_desc r_desc].
  unfold set_next_at in E6. res_step E6. apply (rset_Forall _ _ _ _ _ E6 Hf). cbn.
  exact (Forall_zget _ _ _ _ Hf (rget_inv _ _ _ E7)).
Qed.

Lemma get_buffer_lens bld size vq ring vq' ring' r :
  virtqueue_get_buffer bld vq ring = Ok (vq', ring', r) -> desc_lens size ring -> desc_lens size ring'.
Proof.
  unfold virtqueue_get_buffer. destruct (_ =? _); [by intros [= <- <- <-]|]. intros H Hf.
  do 2 res_step H. res_step H. pair_as vq1 ring1. cbn [mbind res_bind] in H. do 2 res_step H.
  injection H as <- <- <-. by eapply free_chain_lens.
Qed.

Lemma add_loop_lens bld size bl readable needed k vq desc idx i desc' idx' :
  Forall (fun b => u32 (vb_len b) = size) bl ->
  ring_add_loop bld k vq desc idx i bl readable needed = Ok (desc', idx') ->
  Forall (fun d => d_len d = size) desc -> Forall (fun d => d_len d = size) desc'.
Proof.
  intros Hb. revert desc idx i. induction k as [|k IH]; intros desc idx i H Hf; cbn [ring_add_loop] in H.
  - by injection H as <- <-.
  - do 5 res_step H. apply (IH _ _ _ H). apply (rset_Forall _ _ _ _ _ E3 Hf). cbn.
    exact (Forall_zget _ _ _ _ Hb (rget_inv _ _ _ E1)).
Qed.

Lemma add_buffer_lens bld size vq ring bl r wr cookie ret vq' ring' :
  Forall (fun b => u32 (vb_len b) = size) bl ->
  virtqueue_add_buffer bld vq ring bl r wr cookie = Ok (ret, vq', ring') -> desc_lens size ring -> desc_lens size ring'.
Proof.
  intros Hb H Hf. unfold virtqueue_add_buffer, vq_ring_update_avail in H. res_step H. res_step H.
  pair_as vq1 ring1. injection H as <- <- <-.
  destruct (VQ_PARAM_CHK bld _ _ _ =? VQUEUE_SUCCESS); [|by injection E0 as <- <-].
  do 5 res_step E0. res_step E0. pair_as desc idx. cbn [mbind res_bind] in E0.
  res_step E0. res_step E0. injection E0 as <- <-. by eapply add_loop_lens.
Qed.

(** ** The driver receives *)

Section driver.
Context {B : Type} (bld : build) (empty_notify : bool) (env : callbacks (rpmsg_virtio B)).
Context (name_slot ns_cb n : Z).
Implicit Types (t : rpmsg_virtio B) (w : world (rpmsg_virtio B)).

(** The driver's receive queue represents [q], and all its descriptors have the
    length of the receive buffers. *)
Record drx t (q : queue) (devq : virtqueue) (vi : virtio_vring_info) : Prop := {
  dx_role : VIRTIO_ROLE_IS_DRIVER bld (vd_dev (rv_vdev t)) = true /\
    VIRTIO_ROLE_IS_DEVICE bld (vd_dev (rv_vdev t)) = false;
  dx_io : exists pm, io_wf (rv_shbuf_io t) pm;
  dx_size : 16 <= r2h_buf_size (rv_config t) < 2147483648;
  dx_vring : zget (vd_vrings (rv_vdev t)) (rv_rvq t) = Some vi;
  dx_rel : vq_rel n q (vi_vq vi) devq (vi_ring vi);
  dx_shm : vq_shm_io (vi_vq vi) = rv_shbuf_io t;
  dx_lens : desc_lens (r2h_buf_size (rv_config t)) (vi_ring vi)
}.

(** What reception leaves alone. *)
Definition drx_same t t' : Prop :=
  rv_config t' = rv_config t /\ rv_shbuf_io t' = rv_shbuf_io t /\ rv_rvq t' = rv_rvq t /\
  vd_dev (rv_vdev t') = vd_dev (rv_vdev t).

Lemma drx_put t q devq vi q' drv' ring' :
  drx t q devq vi -> vq_rel n q' drv' devq ring' -> vq_conf drv' = vq_conf (vi_vq vi) ->
  desc_lens (r2h_buf_size (rv_config t)) ring' ->
  drx (put_vring t (rv_rvq t) vi drv' ring') q' devq (set_vring vi drv' ring').
Proof.
  intros [R1 R2 R3 R4 R5 R6 R7] Hr Hcf Hl. split; try done.
  - by apply put_vring_get.
  - cbn. injection Hcf as _ _ _ ->. done.
Qed.

Lemma slot_range t q devq vi : drx t q devq vi -> 0 <= q_recl q mod n < n /\ is_u16 (q_recl q mod n).
Proof.
  intros H. pose proof (vr_ring _ _ _ _ _ (dx_rel _ _ _ _ H)) as R. pose proof (rel_bounds R) as Hb.
  pose proof (pow2_pos _ (rr_pow2 _ _ _ R)) as Hp. pose proof (Z.mod_pos_bound (q_recl q) n Hp).
  unfold is_u16. lia.
Qed.

Lemma get_rx_drv w q devq vi c l rest :
  drx (w_tr w) q devq vi -> q_used q = (c, l) :: rest ->
  exists t' vi', rpmsg_virtio_get_rx_buffer bld w = Ok (set_tr w t', c_cookie c, l, q_recl q mod n) /\
    drx t' (q_rest q rest c) devq vi' /\ drx_same (w_tr w) t'.
Proof.
  intros H Hu. pose proof H as [[E1 E2] _ _ V R _ L].
  pose proof (get_buffer_refines bld n q (vi_vq vi) devq (vi_ring vi) R) as Hg.
  unfold q_reclaim in Hg. rewrite Hu in Hg. destruct Hg as (drv' & ring' & Hrun & Hrel & Hcf).
  eexists _, _. split; [|split].
  - unfold rpmsg_virtio_get_rx_buffer, is_driver, is_device, dev_of, tr. rewrite E1.
    run (unfold vq_get_buffer; run (by apply vring_at_run); run (exact Hrun); run (by apply vring_put_run); reflexivity).
    cbn [set_tr w_tr]. change (vd_dev (rv_vdev (put_vring (w_tr w) (rv_rvq (w_tr w)) vi drv' ring')))
      with (vd_dev (rv_vdev (w_tr w))). rewrite E2. reflexivity.
  - eapply drx_put; [exact H|exact Hrel|exact Hcf|]. by eapply get_buffer_lens.
  - done.
Qed.

Lemma get_rx_drv_none w q devq vi :
  drx (w_tr w) q devq vi -> q_used q = [] -> rpmsg_virtio_get_rx_buffer bld w = Ok (w, 0, 0, 0).
Proof.
  intros [[E1 E2] _ _ V R _ L] Hu.
  pose proof (get_buffer_refines bld n q (vi_vq vi) devq (vi_ring vi) R) as Hg.
  unfold q_reclaim in Hg. rewrite Hu in Hg.
  unfold rpmsg_virtio_get_rx_buffer, is_driver, is_device, dev_of, tr. rewrite E1.
  run (unfold vq_get_buffer; run (by apply vring_at_run); run (exact Hg); run (by apply vring_put_run); reflexivity).
  rewrite put_vring_id by done. replace (set_tr w (w_tr w)) with w by (by destruct w). by rewrite E2.
Qed.

(** The buffer is offered again. *)
Lemma return_drv w q devq vi b idx a :
  drx (w_tr w) q devq vi -> 0 <= idx < n -> is_u16 idx -> held_at b idx (w_mem w) 0 ->
  q_free q <> [] -> b <> 0 -> metal_io_virt_to_phys (rv_shbuf_io (w_tr w)) b = Ok a ->
  let s := r2h_buf_size (rv_config (w_tr w)) in
  exists t' vi', rpmsg_virtio_release_rx_buffer_nolock bld w b = Ok (set_tr w t') /\
    drx t' (q_add q [(a, s, true)] b) devq vi' /\ drx_same (w_tr w) t'.
Proof.
  intros H Hi Hiu Hh Hf Hb Ha s. pose proof H as [[E1 E2] _ Hs V R S L]. fold s in Hs, L.
  destruct (zget_is_Some (r_desc (vi_ring vi)) idx) as [d Hd]; [by rewrite (rr_desc_len _ _ _ (vr_ring _ _ _ _ _ R))|].
  pose proof (Forall_zget _ _ _ _ L Hd) as El. cbn in El.
  destruct (add_buffer_refines bld n q (vi_vq vi) devq (vi_ring vi) [mk_buf b (i32 s)] [(a, s, true)] 0 1 b)
    as (drv' & ring' & Hrun & Hrel & Hcf); [done| |done| |done|].
  { cbn. rewrite S, i32_id, u32_id by (unfold is_u32; lia). done. }
  { change (zlen [(a, s, true)]) with 1. destruct (q_free q) as [|x l]; [done|]. rewrite zlen_cons.
    pose proof (zlen_nonneg l). lia. }
  eexists _, _. split; [|split].
  - unfold rpmsg_virtio_release_rx_buffer_nolock. run (by apply (held_ld b idx Hiu (w_mem w) 0); [|lia]).
    rewrite buf_index by (done || lia).
    run (unfold vq_buffer_length; run (by apply vring_at_run); unfold virtqueue_get_buffer_length;
         run (by apply rget_Some); reflexivity). rewrite El.
    unfold rpmsg_virtio_return_buffer, is_driver, is_device, dev_of, tr. rewrite E1.
    run (run (unfold vq_add_buffer; run (by apply vring_at_run); run (exact Hrun); run (by apply vring_put_run); reflexivity);
         run (reflexivity); reflexivity).
    cbn [set_tr w_tr]. change (vd_dev (rv_vdev (put_vring (w_tr w) (rv_rvq (w_tr w)) vi drv' ring')))
      with (vd_dev (rv_vdev (w_tr w))). rewrite E2. reflexivity.
  - eapply drx_put; [exact H|exact Hrel|exact Hcf|]. eapply add_buffer_lens; [|exact Hrun|exact L].
    constructor; [|constructor]. cbn. by rewrite i32_id, u32_id by (unfold is_u32; lia).
  - done.
Qed.

Lemma kick_drv w q devq vi :
  drx (w_tr w) q devq vi ->
  exists t' vi', vq_kick bld w (rv_rvq (w_tr w)) = Ok (set_tr w t') /\ drx t' q devq vi' /\ drx_same (w_tr w) t'.
Proof.
  intros H. pose proof H as [_ _ _ V R _ L]. pose proof R as [R1 R2 R3].
  pose proof (kick_core bld (dev_of w) (vi_vq vi) (vi_ring vi) (dr_idle _ _ _ R2)) as Hk.
  set (t1 := put_vring (w_tr w) (rv_rvq (w_tr w)) vi (set_queued_cnt (vi_vq vi) 0) (vi_ring vi)).
  set (call := if vq_ring_must_notify bld (dev_of w) (vi_vq vi) (vi_ring vi)
               then vq_ring_notify (vi_vq vi) else None) in Hk.
  assert (H1 : drx t1 q devq (set_vring vi (set_queued_cnt (vi_vq vi) 0) (vi_ring vi))).
  { eapply drx_put; [exact H| |done|exact L]. split; [done|by apply drv_rel_queued|done]. }
  exists (match call with Some f => rv_set_calls t1 (rv_calls t1 ++ [f]) | None => t1 end),
    (set_vring vi (set_queued_cnt (vi_vq vi) 0) (vi_ring vi)). split; [|split].
  - unfold vq_kick. run (by apply vring_at_run). run (exact Hk). run (by apply vring_put_run). by destruct call.
  - destruct H1. destruct call; by split.
  - by destruct call.
Qed.

Lemma give_back_drv w q devq vi b idx a release :
  drx (w_tr w) q devq vi -> 0 <= idx < n -> is_u16 idx -> held_at b idx (w_mem w) 0 ->
  q_free q <> [] -> b <> 0 -> metal_io_virt_to_phys (rv_shbuf_io (w_tr w)) b = Ok a ->
  let s := r2h_buf_size (rv_config (w_tr w)) in
  exists t' vi' release', give_back bld empty_notify w b release = Ok (set_tr w t', release') /\
    drx t' (q_add q [(a, s, true)] b) devq vi' /\ drx_same (w_tr w) t'.
Proof.
  intros H Hi Hiu Hh Hf Hb Ha s. unfold give_back.
  destruct (return_drv w q devq vi b idx a H Hi Hiu Hh Hf Hb Ha) as (t1 & vi1 & R1 & H1 & S1).
  destruct empty_notify.
  - exists t1, vi1, true. split_and!; try done. by run (exact R1).
  - destruct (kick_drv (set_tr w t1) _ devq vi1 H1) as (t2 & vi2 & R2 & H2 & S2).
    exists t2, vi2, release. split; [run (exact R1); by run (exact R2)|]. split; [done|].
    destruct S1 as (? & ? & ? & ?), S2 as (? & ? & ? & ?). cbn in *. split_and!; congruence.
Qed.

(** A message the device returned, [l] the length in the used ring. *)
Record dmsg := mk_dmsg { y_chain : chain; y_len : Z; y_src : Z; y_dst : Z; y_size : Z }.

(** A receive buffer: one descriptor the device writes. *)
Definition rx_buffer t (c : chain) : Prop :=
  exists a, c_bufs c = [(a, r2h_buf_size (rv_config t), true)] /\
    metal_io_virt_to_phys (rv_shbuf_io t) (c_cookie c) = Ok a /\ c_cookie c <> 0 /\ inside (rv_shbuf_io t) (c_cookie c) 16.

Record dmsg_ready w (y : dmsg) : Prop := {
  yy_buf : rx_buffer (w_tr w) (y_chain y);
  yy_msg : msg_at (w_mem w) (c_cookie (y_chain y)) (y_src y) (y_dst y) (y_size y);
  yy_dst : dst_ok ns_cb w (y_dst y)
}.

(** The queue after the oldest return was taken and its chain offered again. *)
Definition q_again (q : queue) (rest : list (chain * Z)) (c : chain) : queue :=
  mk_queue (q_avail q ++ [c]) (q_held q) rest (q_free q) (q_recl q + 1).

Lemma again_eq q c rest a s :
  c_bufs c = [(a, s, true)] -> length (c_idxs c) = 1%nat ->
  q_add (q_rest q rest c) [(a, s, true)] (c_cookie c) = q_again q rest c.
Proof.
  intros Hc Hl. destruct c as [[|i [|j l]] bufs cookie]; try discriminate Hl. cbn in Hc. subst bufs.
  unfold q_add, q_rest, q_again. cbn. by rewrite drop_0, take_0.
Qed.

(** The endpoint's callback ran, or there was no endpoint: what is left of the round.
    The chain taken is offered again. *)
Record dserved w w3 (q : queue) (devq : virtqueue) (b : Z) : Prop := {
  dv_queue : exists vi, drx (w_tr w3) q devq vi;
  dv_same : drx_same (w_tr w) (w_tr w3);
  dv_rdev : w_rdev w3 = w_rdev w;
  dv_epts : same_view (w_epts w) (w_epts w3);
  dv_msgs : forall b' src dst len, inside (rv_shbuf_io (w_tr w)) b' 16 -> b' + 16 <= b \/ b + 16 <= b' ->
    msg_at (w_mem w) b' src dst len -> msg_at (w_mem w3) b' src dst len
}.

(** The end of a round of a chain just taken, whose buffer nobody else holds. *)
Lemma drv_after w2 fuel ept E' q c l rest devq vi release :
  drx (w_tr w2) (q_rest q rest c) devq vi -> q_used q = (c, l) :: rest -> rx_buffer (w_tr w2) c ->
  length (c_idxs c) = 1%nat -> 0 <= q_recl q mod n < n -> is_u16 (q_recl q mod n) -> rd_lock (w_rdev w2) = false ->
  rpmsg_ept_decref env (set_rdev w2 (rd_set_lock (w_rdev w2) true)) ept
    = Ok (set_epts (set_rdev w2 (rd_set_lock (w_rdev w2) true)) E') ->
  held_at (c_cookie c) (q_recl q mod n) (w_mem w2) 1 ->
  exists m3 t3 release',
    rx_after bld empty_notify env name_slot ns_cb fuel w2 ept (c_cookie c) release =
      rx_loop bld empty_notify env name_slot ns_cb fuel (mk_world m3 E' (w_rdev w2) t3) release' /\
    (exists vi3, drx t3 (q_again q rest c) devq vi3) /\ drx_same (w_tr w2) t3 /\
    memstep [(c_cookie c + HDR_RESERVED, 4)] (w_mem w2) m3.
Proof.
  intros H Hu (a & Hc & Ha & Hb & _) Hl1 Hi Hiu Hl Hdec Hh.
  destruct (round_after bld empty_notify env name_slot ns_cb w2 fuel ept E' (c_cookie c) (q_recl q mod n) 1 release
    Hiu Hl Hdec Hh ltac:(lia)) as (m3 & Hs3 & Hh3 & Hr). cbn zeta in Hr.
  set (wl := mk_world m3 E' (rd_set_lock (w_rdev w2) true) (w_tr w2)) in Hr.
  destruct (give_back_drv wl (q_rest q rest c) devq vi (c_cookie c) (q_recl q mod n) a release H Hi Hiu Hh3)
    as (t3 & vi3 & release' & R & H3 & S3); [|done|done|].
  { unfold q_rest. cbn. by destruct (c_idxs c). }
  exists m3, t3, release'. split; [exact (Hr _ _ R)|]. split; [|done]. exists vi3.
  rewrite <- (again_eq q c rest a (r2h_buf_size (rv_config (w_tr w2))) Hc Hl1). exact H3.
Qed.

Lemma one_desc t q devq vi c l rest :
  drx t q devq vi -> q_used q = (c, l) :: rest -> rx_buffer t c -> length (c_idxs c) = 1%nat.
Proof.
  intros H Hu (a & Hc & _). pose proof (vr_ring _ _ _ _ _ (dx_rel _ _ _ _ H)) as R.
  assert (Hin : c ∈ q_live q).
  { unfold q_live. rewrite Hu. rewrite !elem_of_app. do 2 right. left. }
  pose proof (chain_path_length _ _ _ (rel_path R c Hin)) as E. by rewrite Hc in E.
Qed.

Lemma rx_buffer_same t t' c : drx_same t t' -> rx_buffer t c -> rx_buffer t' c.
Proof. unfold rx_buffer. by intros (-> & -> & _). Qed.

Lemma drx_same_trans t1 t2 t3 : drx_same t1 t2 -> drx_same t2 t3 -> drx_same t1 t3.
Proof. intros (? & ? & ? & ?) (? & ? & ? & ?). split_and!; congruence. Qed.

(** The start of a round in the driver role. *)
Lemma drv_start w fuel release q devq vi y rest ept E1 :
  drx (w_tr w) q devq vi -> rd_lock (w_rdev w) = false -> q_used q = (y_chain y, y_len y) :: rest ->
  dmsg_ready w y -> rpmsg_get_ept_from_addr w (y_dst y) = Ok ept ->
  (forall w', w_epts w' = w_epts w -> rpmsg_ept_incref w' ept = Ok (set_epts w' E1)) ->
  let b := c_cookie (y_chain y) in
  exists m2 t1 vi1,
    rx_loop bld empty_notify env name_slot ns_cb (S fuel) w release =
      (w2 ← rx_deliver env name_slot ns_cb (mk_world m2 E1 (w_rdev w) t1) ept b;
       rx_after bld empty_notify env name_slot ns_cb fuel w2 ept b release) /\
    drx t1 (q_rest q rest (y_chain y)) devq vi1 /\ drx_same (w_tr w) t1 /\
    memstep [(b + HDR_RESERVED, 4)] (w_mem w) m2 /\ held_at b (q_recl q mod n) m2 1 /\
    msg_at m2 b (y_src y) (y_dst y) (y_size y).
Proof.
  intros H Hl Hu [(a & Hc & Ha & Hb & Hin) M2 M3] Hf Hinc b.
  destruct (get_rx_drv (set_rdev w (rd_set_lock (w_rdev w) true)) q devq vi _ _ rest H Hu) as (t1 & vi1 & R & H1 & S1).
  destruct (slot_range _ _ _ _ H) as [Hi Hiu].
  destruct (round_start bld empty_notify env name_slot ns_cb w fuel release t1 _ _ _ _ _ _ ept E1 Hl R Hiu Hb M2 Hf Hinc)
    as (m2 & Hr & Hs & Hh & Hm).
  exists m2, t1, vi1. done.
Qed.

Lemma drv_one_nobody w fuel release q devq vi y rest :
  drx (w_tr w) q devq vi -> rd_lock (w_rdev w) = false -> q_used q = (y_chain y, y_len y) :: rest ->
  dmsg_ready w y -> rpmsg_get_ept_from_addr w (y_dst y) = Ok 0 ->
  exists w3 release',
    rx_loop bld empty_notify env name_slot ns_cb (S fuel) w release =
      rx_loop bld empty_notify env name_slot ns_cb fuel w3 release' /\
    dserved w w3 (q_again q rest (y_chain y)) devq (c_cookie (y_chain y)).
Proof.
  intros H Hl Hu Hy Hf. destruct (slot_range _ _ _ _ H) as [Hi Hiu]. pose proof (yy_buf _ _ Hy) as Hbuf.
  destruct (drv_start w fuel release q devq vi y rest 0 (w_epts w) H Hl Hu Hy Hf) as (m2 & t1 & vi1 & R & H1 & S1 & Hs & Hh & Hm).
  { intros w' Ew. unfold rpmsg_ept_incref. cbn. by destruct w'; cbn in *; subst. }
  set (w1 := mk_world m2 (w_epts w) (w_rdev w) t1) in R.
  destruct (drv_after w1 fuel 0 (w_epts w) q (y_chain y) (y_len y) rest devq vi1 release H1 Hu
    (rx_buffer_same _ _ _ S1 Hbuf) (one_desc _ _ _ _ _ _ _ H Hu Hbuf) Hi Hiu Hl eq_refl Hh)
    as (m3 & t3 & release' & R3 & Hq3 & S3 & Hs3).
  eexists _, release'. split; [rewrite R; exact R3|]. split; cbn [w_tr w_rdev w_epts w_mem]; try done.
  - by eapply drx_same_trans.
  - intros b' src dst len Hin Hfar Hm'. pose proof (hdr_far _ _ _ eq_refl Hfar) as Hd.
    eapply msg_at_far; [exact Hs3|exact Hd|]. by eapply msg_at_far.
Qed.

Lemma drv_one_called w fuel release q devq vi y rest ept e :
  calm env (rv_shbuf_io (w_tr w)) ->
  drx (w_tr w) q devq vi -> rd_lock (w_rdev w) = false -> q_used q = (y_chain y, y_len y) :: rest ->
  dmsg_ready w y -> rpmsg_get_ept_from_addr w (y_dst y) = Ok ept -> ept <> 0 -> w_epts w !! ept = Some e ->
  ept_cb e <> ns_cb -> 1 <= ept_refcnt e < 4294967295 ->
  exists w3 release',
    rx_loop bld empty_notify env name_slot ns_cb (S fuel) w release =
      rx_loop bld empty_notify env name_slot ns_cb fuel w3 release' /\
    dserved w w3 (q_again q rest (y_chain y)) devq (c_cookie (y_chain y)).
Proof.
  intros Hcalm H Hl Hu Hy Hf Hne Hept Hcb Href. destruct (slot_range _ _ _ _ H) as [Hi Hiu].
  pose proof (yy_buf _ _ Hy) as Hbuf. pose proof Hbuf as (_ & _ & _ & _ & Hins). set (b := c_cookie (y_chain y)) in *.
  destruct (drv_start w fuel release q devq vi y rest ept _ H Hl Hu Hy Hf (incref_run w ept e Hne Hept))
    as (m2 & t1 & vi1 & R & H1 & S1 & Hs & Hh & Hm). cbn zeta in R. fold b in R, Hs, Hh, Hm.
  rewrite (round_call bld empty_notify env name_slot ns_cb m2 t1 w fuel release ept e b _ _ _ Hm Hne Hcb) in R.
  set (w1 := mk_world m2 (<[ept := ept_called e (y_src y)]> (w_epts w)) (w_rdev w) t1) in R.
  destruct (Hcalm (ept_cb e) w1 ept (b + SIZEOF_HDR) (y_size y) (y_src y) (ept_priv e) Hl)
    as (w2 & st & Rc & Hst & C1 & C2 & C3 & C4).
  rewrite Rc in R. cbn [mbind res_bind] in R. rewrite (proj2 (Z.leb_le _ _) Hst) in R. cbn [rassert mbind res_bind] in R.
  destruct (view_called e (y_src y) Href) as [V1 V2].
  assert (Hh2 : held_at b (q_recl q mod n) (w_mem w2) 1).
  { eapply region_same_bytes; [exact C4| |exact Hh]. rewrite zlen_le_bytes. unfold inside, HDR_RESERVED in *. lia. }
  assert (Hept2 : w_epts w2 !! ept = Some (ept_called e (y_src y))) by (rewrite C3; apply lookup_insert_eq).
  change (w_tr w1) with t1 in C1. change (w_rdev w1) with (w_rdev w) in C2. rewrite <- C1 in H1, S1.
  destruct (drv_after w2 fuel ept _ q (y_chain y) (y_len y) rest devq vi1 release H1 Hu
    (rx_buffer_same _ _ _ S1 Hbuf) (one_desc _ _ _ _ _ _ _ H Hu Hbuf) Hi Hiu ltac:(by rewrite C2)
    (decref_keep env (set_rdev w2 (rd_set_lock (w_rdev w2) true)) ept _ Hne Hept2 V2) Hh2)
    as (m3 & t3 & release' & R3 & Hq3 & S3 & Hs3).
  eexists _, release'. split; [rewrite R; exact R3|]. split; cbn [w_tr w_rdev w_epts w_mem]; try done.
  - by eapply drx_same_trans.
  - intros k. cbn [set_rdev w_epts]. rewrite C3. unfold w1. cbn [w_epts]. rewrite insert_insert_eq.
    destruct (decide (k = ept)) as [->|Hk]; [|by rewrite lookup_insert_ne].
    rewrite lookup_insert_eq, Hept. cbn [fmap option_fmap option_map]. by rewrite V1.
  - intros b' src dst len Hin Hfar Hm'. pose proof (hdr_far _ _ _ eq_refl Hfar) as Hd.
    eapply msg_at_far; [exact Hs3|exact Hd|]. eapply msg_at_region; [exact C4|done|]. by eapply msg_at_far.
Qed.

Lemma drv_done w fuel release q devq vi :
  drx (w_tr w) q devq vi -> rd_lock (w_rdev w) = false -> q_used q = [] ->
  exists t' vi',
    rx_loop bld empty_notify env name_slot ns_cb (S fuel) w release = Ok (set_tr w t') /\
    drx t' q devq vi' /\ drx_same (w_tr w) t'.
Proof.
  intros H Hl Hu. set (w0 := set_rdev w (rd_set_lock (w_rdev w) true)).
  pose proof (get_rx_drv_none w0 q devq vi H Hu) as R.
  assert (Hw : forall t, metal_mutex_release (set_tr w0 t) = set_tr w t).
  { intros t. unfold metal_mutex_release, set_tr, set_rdev, w0. cbn. by rewrite unlock_relock. }
  assert (Hrun : rx_loop bld empty_notify env name_slot ns_cb (S fuel) w release =
    (w ← (if empty_notify && release then vq_kick bld w0 (rv_rvq (tr w0)) else Ok w0);
     Ok (metal_mutex_release w))).
  { cbn [rx_loop]. rewrite acquire_run by done. cbn [mbind res_bind]. fold w0. rewrite R. done. }
  rewrite Hrun. destruct (empty_notify && release).
  - destruct (kick_drv w0 q devq vi H) as (t2 & vi2 & R2 & H2 & S2).
    exists t2, vi2. split_and!; try done. run (exact R2). by rewrite Hw.
  - exists (w_tr w), vi. split_and!; try done. cbn [mbind res_bind]. by rewrite <- Hw.
Qed.

Definition q_all_again (q : queue) (ms : list dmsg) : queue :=
  mk_queue (q_avail q ++ (y_chain <$> ms)) (q_held q) [] (q_free q) (q_recl q + zlen ms).

Lemma drv_all ms w fuel release q devq vi :
  calm env (rv_shbuf_io (w_tr w)) -> drx (w_tr w) q devq vi -> rd_lock (w_rdev w) = false ->
  q_used q = (fun y => (y_chain y, y_len y)) <$> ms -> Forall (dmsg_ready w) ms ->
  apart 16 ((fun y => c_cookie (y_chain y)) <$> ms) -> (length ms < fuel)%nat ->
  exists w' vi',
    rx_loop bld empty_notify env name_slot ns_cb fuel w release = Ok w' /\
    drx (w_tr w') (q_all_again q ms) devq vi' /\ w_rdev w' = w_rdev w /\ same_view (w_epts w) (w_epts w').
Proof.
  revert w fuel release q vi. induction ms as [|y ms IH];
    intros w fuel release q vi Hcalm H Hl Hu Hm Hap Hf; (destruct fuel as [|fuel]; [cbn in Hf; lia|]).
  { destruct (drv_done w fuel release q devq vi H Hl Hu) as (t' & vi' & R & H' & _).
    exists (set_tr w t'), vi'. split_and!; try done. unfold q_all_again. cbn in Hu |- *.
    change (zlen (@nil dmsg)) with 0. rewrite app_nil_r, Z.add_0_r. destruct q. cbn in *. by subst. }
  apply Forall_cons_1 in Hm as [Hy Hm]. cbn [fmap list_fmap] in Hu, Hap.
  apply apart_cons in Hap as (_ & Hd & Hap). cbn [length] in Hf.
  assert (Hone : exists w3 release',
    rx_loop bld empty_notify env name_slot ns_cb (S fuel) w release =
      rx_loop bld empty_notify env name_slot ns_cb fuel w3 release' /\
    dserved w w3 (q_again q ((fun y => (y_chain y, y_len y)) <$> ms) (y_chain y)) devq (c_cookie (y_chain y))).
  { destruct (yy_dst _ _ Hy) as (ept & Hfd & [->|(Hne & e & Hept & Hcb & Href)]);
      [by eapply drv_one_nobody|by eapply drv_one_called]. }
  destruct Hone as (w3 & release' & R & [(vi3 & S2) S1 S3 S4 S5]).
  assert (Hcalm3 : calm env (rv_shbuf_io (w_tr w3))) by (destruct S1 as (_ & -> & _); exact Hcalm).
  destruct (IH w3 fuel release' _ vi3 Hcalm3 S2) as (w' & vi' & R' & H' & Hr' & Hv'); [by rewrite S3|done| |done|lia|].
  - apply list.Forall_forall. intros z Hz. pose proof (proj1 (list.Forall_forall _ _) Hm z Hz) as [Z1 Z2 Z3].
    split; [by eapply rx_buffer_same| |eapply dst_ok_view; [by rewrite S3|exact S4|done]].
    destruct Z1 as (_ & _ & _ & _ & Zin). apply S5; [done| |done]. apply (Hd (c_cookie (y_chain z))).
    by apply (list_elem_of_fmap_2 (fun y => c_cookie (y_chain y))).
  - exists w', vi'. split_and!; [by rewrite R| |by rewrite Hr', S3|intros k; by rewrite Hv', S4].
    unfold q_all_again, q_again in H' |- *. cbn [q_avail q_held q_free q_recl fmap list_fmap] in H' |- *.
    rewrite <- app_assoc in H'. rewrite zlen_cons, Z.add_assoc. exact H'.
Qed.
End driver.

(** ** Properties *)

(** C17: [rpmsg_virtio_rx_callback] in the driver role.  For callbacks that read their
    message and return, it ends after one round per message the device returned; every
    chain is offered to the device again, in the order of the returns and unaltered,
    whether or not an endpoint had the message's destination; no descriptor is lost, the
    lock is free, and the endpoints keep their addresses, callbacks and references. *)
Theorem rpmsg_virtio_driver_rx_spec {B : Type} (bld : build) (empty_notify : bool)
    (env : callbacks (rpmsg_virtio B)) (name_slot ns_cb n : Z) (ms : list dmsg) (w : world (rpmsg_virtio B))
    (fuel : nat) (q : queue) (devq : virtqueue) (vi : virtio_vring_info)
    (Hcalm : calm env (rv_shbuf_io (w_tr w))) (H : drx bld n (w_tr w) q devq vi)
    (Hl : rd_lock (w_rdev w) = false) (Hu : q_used q = (fun y => (y_chain y, y_len y)) <$> ms)
    (Hm : Forall (dmsg_ready ns_cb w) ms) (Hap : apart 16 ((fun y => c_cookie (y_chain y)) <$> ms))
    (Hf : (length ms < fuel)%nat) :
  exists w' vi',
    rpmsg_virtio_rx_callback bld empty_notify env name_slot ns_cb fuel w = Ok w' /\
    drx bld n (w_tr w')
      (mk_queue (q_avail q ++ (y_chain <$> ms)) (q_held q) [] (q_free q) (q_recl q + zlen ms)) devq vi' /\
    w_rdev w' = w_rdev w /\ same_view (w_epts w) (w_epts w').
Proof. by apply (drv_all bld empty_notify env name_slot ns_cb n ms w fuel false q devq vi). Qed.

(** The driver's side of the device's world [wv]: the same ring, the driver's
    virtqueue, and the same bytes in the shared region. *)
Record driver_side {B B' : Type} (bld : build) (n : Z) (wv : world (rpmsg_virtio B))
    (wd : world (rpmsg_virtio B')) (drv : virtqueue) (vi : virtio_vring_info) : Prop := {
  dd_role : VIRTIO_ROLE_IS_DRIVER bld (vd_dev (rv_vdev (w_tr wd))) = true /\
    VIRTIO_ROLE_IS_DEVICE bld (vd_dev (rv_vdev (w_tr wd))) = false;
  dd_vring : zget (vd_vrings (rv_vdev (w_tr wd))) (rv_rvq (w_tr wd)) = Some vi;
  dd_vq : vi_vq vi = drv;
  dd_ring : exists vd, zget (vd_vrings (rv_vdev (w_tr wv))) (rv_svq (w_tr wv)) = Some vd /\ vi_ring vi = vi_ring vd;
  dd_io : vq_shm_io drv = rv_shbuf_io (w_tr wd) /\ rv_shbuf_io (w_tr wd) = rv_shbuf_io (w_tr wv);
  dd_size : 16 <= r2h_buf_size (rv_config (w_tr wd)) < 2147483648;
  dd_lens : desc_lens (r2h_buf_size (rv_config (w_tr wd))) (vi_ring vi);
  dd_mem : forall k, io_virt (rv_shbuf_io (w_tr wv)) <= k < io_virt (rv_shbuf_io (w_tr wv)) + io_size (rv_shbuf_io (w_tr wv)) ->
    w_mem wd !! k = w_mem wv !! k
}.

(** C2: A message arrives in the other direction.  The device sends a payload that fits the
    oldest buffer the driver offered; the send returns the payload's length.  Whatever
    the driver's world, as long as it sees the same ring and the same shared bytes, has
    taken the earlier returns and has an endpoint with the address [dst], its receive
    callback calls that endpoint's callback with exactly the payload sent, its length
    and the sender's address. *)
Theorem rpmsg_virtio_reply_delivered {B B' : Type} (be bd : build) (func : option (virtio_dispatch B))
    (sleep : world (rpmsg_virtio B) -> world (rpmsg_virtio B))
    (wait_cb : Z -> world (rpmsg_virtio B) -> Z -> res (world (rpmsg_virtio B) * Z))
    (hdr_slot n : Z) (wv : world (rpmsg_virtio B)) (vi : virtio_vring_info) (q : queue) (drv : virtqueue)
    (c : chain) (rest : list chain) (b l src dst data st : Z) (bs : list Z)
    (He : dtx_env be hdr_slot (w_tr wv)) (Hq : dtx_queue n (w_tr wv) vi q drv)
    (Hm : tx_mem hdr_slot (w_mem wv) (w_tr wv) []) (Ha : q_avail q = c :: rest) (Hup : q_used q = [])
    (Hr : tx_room (w_tr wv) c b l) (Hl : rd_lock (w_rdev wv) = false)
    (Hst : virtio_get_status func (rv_vdev (w_tr wv)) = Ok (0, st))
    (Hok : Z.land st VIRTIO_CONFIG_STATUS_DRIVER_OK <> 0)
    (Hb : has_bytes (w_mem wv) data bs) (Ho : out_of (rv_shbuf_io (w_tr wv)) data (zlen bs))
    (Hfit : zlen bs <= l - SIZEOF_HDR) (H16 : zlen bs < 65536) (Hsrc : is_u32 src) (Hdst : is_u32 dst)
    (Hphys : forall a wr, c_bufs c = [(a, l, wr)] -> a <> METAL_BAD_PHYS) :
  exists wv',
    rpmsg_virtio_send_offchannel_raw be func sleep wait_cb hdr_slot wv src dst data (zlen bs) 0
      = Ok (wv', zlen bs) /\
    forall (empty_notify : bool) (env : callbacks (rpmsg_virtio B')) (name_slot ns_cb : Z)
      (wd : world (rpmsg_virtio B')) (vd : virtio_vring_info) (ept : Z) (e : rpmsg_endpoint) (fuel : nat),
      driver_side bd n wv' wd drv vd -> rx_buffer (w_tr wd) c -> rd_lock (w_rdev wd) = false ->
      rpmsg_get_ept_from_addr wd dst = Ok ept -> ept <> 0 -> w_epts wd !! ept = Some e -> ept_cb e <> ns_cb ->
      exists w1, has_bytes (w_mem w1) (b + SIZEOF_HDR) bs /\ rd_lock (w_rdev w1) = false /\
        w_epts w1 !! ept = Some (ept_called e src) /\
        rpmsg_virtio_rx_callback bd empty_notify env name_slot ns_cb (S fuel) wd =
          ('(w2, st) ← call_ept env (ept_cb e) w1 ept (b + SIZEOF_HDR) (zlen bs) src (ept_priv e);
           _ ← rassert (0 <=? st);
           rx_after bd empty_notify env name_slot ns_cb fuel w2 ept b false).
Proof.
  destruct (dev_send_run be hdr_slot n func sleep wait_cb wv st vi q drv c rest b l src dst data bs
    He Hq Hm Ha Hr Hl Hst Hok Hb Ho) as (wv' & R & [S1 S2 S3 (vi' & [V1 V2 V3]) S5 S6]).
  rewrite (Z.min_l _ _ Hfit) in R, S5. rewrite take_ge in S5 by (unfold zlen; lia). pose proof (zlen_nonneg bs) as Hnn.
  exists wv'. split; [exact R|].
  intros en env ns nsc wd vd ept e fuel [D1 D2 D3 (vd' & D4 & D4') [D5 D5'] D6 D7 D8] Hbuf Hlv Hf Hne Hept Hcb.
  assert (vd' = vi') as -> by congruence. assert (Fio : rv_shbuf_io (w_tr wv') = rv_shbuf_io (w_tr wv)) by (injection S3; done).
  destruct (de_io _ _ _ He) as [pm Hw]. pose proof Hbuf as (a & Hc & Hva & Hb0 & Hin). pose proof Hr as (a' & wr & Hc' & Hpv & Hi & Hlen).
  rewrite Hc in Hc'. injection Hc' as <- El Ewr. rewrite D5', Fio in Hva, Hin.
  assert (Eb : c_cookie c = b).
  { pose proof (virt_phys_back _ pm _ 16 a Hw Hin ltac:(lia) Hva ltac:(eapply Hphys; by rewrite Hc, El)) as Hback. congruence. }
  assert (H : drx bd n (w_tr wd) (q_served q rest c l) (vi_vq vi') vd).
  { split; try done; [rewrite D5', Fio; by exists pm| |by rewrite D3]. by rewrite D3, D4'. }
  rewrite Fio in D8. rewrite u16_id in S5 by (unfold is_u16; lia).
  assert (Hmsg : has_bytes (w_mem wd) b (hdr_bytes src dst 0 (zlen bs) 0 ++ bs)).
  { eapply region_same_bytes; [exact D8| |exact S5]. rewrite zlen_app, zlen_hdr_bytes.
    unfold inside, SIZEOF_HDR in *. lia. }
  apply has_bytes_app in Hmsg as [Hh Hp]. rewrite zlen_hdr_bytes in Hp.
  destruct (get_rx_drv bd n (set_rdev wd (rd_set_lock (w_rdev wd) true)) _ _ vd c l [] H) as (t1 & vi1 & Rg & H1 & _).
  { unfold q_served. cbn. by rewrite Hup. }
  rewrite Eb in Rg. destruct (slot_range _ _ _ _ _ _ H) as [_ Hiu].
  destruct (round_start bd en env ns nsc wd fuel false t1 b l _ src dst (zlen bs) ept _ Hlv Rg Hiu ltac:(congruence)
    (hdr_msg_at _ _ _ _ _ _ _ Hh Hsrc Hdst ltac:(unfold is_u16; lia)) Hf (incref_run wd ept e Hne Hept))
    as (m2 & Rr & Hs & _ & Hm2).
  rewrite (round_call bd en env ns nsc m2 t1 wd fuel false ept e b _ _ _ Hm2 Hne Hcb) in Rr.
  eexists. split; [|split; [|split; [|exact Rr]]]; cbn [w_mem w_rdev w_epts]; [|done|apply lookup_insert_eq].
  eapply memstep_bytes; [exact Hs| |exact Hp]. intros x s [= -> ->]%list_elem_of_singleton.
  unfold HDR_RESERVED, SIZEOF_HDR. lia.
Qed.

(** ** A device that answers into the one buffer offered *)

Definition demo_back_ring : vring :=
  ring_set_desc (zero_ring 8)
    ((fun k => mk_desc 0 32 0 (if k =? 7 then VQ_RING_DESC_CHAIN_END else k + 1)) <$> zseq 0 8).
(** The driver's virtqueue and the ring once the buffer at 4096 is offered. *)
Definition demo_offered : virtqueue * vring :=
  match virtqueue_add_buffer demo_release demo_tx_dev demo_back_ring [mk_buf 4096 32] 0 1 4096 with
  | Ok (_, drv, ring) => (drv, ring)
  | Fault _ => (demo_tx_dev, demo_back_ring)
  end.
Definition demo_back_chain : chain := mk_chain [0] [(1048576, 32, true)] 4096.
Definition demo_back_queue : queue := q_add (q_init 8) [(1048576, 32, true)] 4096.

Lemma demo_offered_rel :
  vq_rel 8 demo_back_queue demo_offered.1 demo_tx_dev demo_offered.2 /\ vq_shm_io demo_offered.1 = demo_tx_io.
Proof.
  destruct (add_buffer_refines demo_release 8 (q_init 8) demo_tx_dev demo_tx_dev demo_back_ring
    [mk_buf 4096 32] [(1048576, 32, true)] 0 1 4096) as (drv & ring & R & H & Hcf).
  - apply init_rel; try done.
    + exists 3. split; [lia|done].
    + vm_compute. repeat split; eexists; split; reflexivity.
  - vm_compute. repeat split.
  - reflexivity.
  - vm_compute. intuition discriminate.
  - lia.
  - unfold demo_offered. rewrite R. split; [exact H|]. injection Hcf as _ _ _ Eio. exact Eio.
Qed.

Definition demo_back_vi : virtio_vring_info := mk_vinfo demo_tx_dev demo_offered.2 (mk_alloc 0 4 8) 0 demo_tx_io.
Definition demo_dev_world : world (rpmsg_virtio unit) :=
  mk_world demo_tx_mem ∅ (mk_rdev [] [0; 0] 0 false 0 0 true)
    (mk_rv (mk_config 32 32 false) (mk_vd (mk_vdev 0 0 1) tt [demo_back_vi]) 0 0 demo_tx_io [] 0 1024 0 []).

Lemma demo_dev_ready :
  dtx_env demo_release 2048 (w_tr demo_dev_world) /\ dtx_queue 8 (w_tr demo_dev_world) demo_back_vi demo_back_queue demo_offered.1 /\
  tx_mem 2048 (w_mem demo_dev_world) (w_tr demo_dev_world) [] /\ tx_room (w_tr demo_dev_world) demo_back_chain 4096 32.
Proof.
  split_and!.
  - destruct demo_tx_env as [_ _ _ Hio _ Hout]. by split.
  - split; [done|apply demo_offered_rel|done].
  - by destruct demo_tx_memory.
  - exists 1048576, true. split; [done|]. split; [vm_compute; reflexivity|]. split; [vm_compute; intuition discriminate|lia].
Qed.

(** The device's world after the answer, and its side of the queue. *)
Definition demo_replied : world (rpmsg_virtio unit) :=
  match rpmsg_virtio_send_offchannel_raw demo_release demo_tx_func id (fun _ w _ => Ok (w, 0)) 2048
          demo_dev_world 5 1027 3072 3 0 with
  | Ok (w, _) => w
  | Fault _ => demo_dev_world
  end.
Definition demo_replied_vi : virtio_vring_info :=
  match zget (vd_vrings (rv_vdev (w_tr demo_replied))) 0 with Some vi => vi | None => demo_back_vi end.
(** The driver's world over a memory and a ring. *)
Definition demo_drv_vi (ring : vring) : virtio_vring_info :=
  mk_vinfo demo_offered.1 ring (mk_alloc 0 4 8) 0 demo_tx_io.
Definition demo_drv_world (m : gmap Z Z) (ring : vring) : world (rpmsg_virtio unit) :=
  mk_world m {[ 100 := demo_rx_ept ]} (mk_rdev [100] [8; 0] 4 false 0 0 true)
    (mk_rv (mk_config 32 32 false) (mk_vd (mk_vdev 0 0 0) tt [demo_drv_vi ring]) 0 0 demo_tx_io [] 0 1024 0 []).

Lemma demo_replied_ring :
  zget (vd_vrings (rv_vdev (w_tr demo_replied))) (rv_svq (w_tr demo_replied)) = Some demo_replied_vi /\
  rv_shbuf_io (w_tr demo_replied) = demo_tx_io.
Proof. split; vm_compute; reflexivity. Qed.

Lemma demo_replied_lens : desc_lens 32 (vi_ring demo_replied_vi).
Proof. unfold desc_lens. vm_compute. repeat constructor. Qed.

Lemma demo_driver_side (wv : world (rpmsg_virtio unit)) (vi : virtio_vring_info) :
  zget (vd_vrings (rv_vdev (w_tr wv))) (rv_svq (w_tr wv)) = Some vi -> rv_shbuf_io (w_tr wv) = demo_tx_io ->
  desc_lens 32 (vi_ring vi) ->
  driver_side demo_release 8 wv (demo_drv_world (w_mem wv) (vi_ring vi)) demo_offered.1 (demo_drv_vi (vi_ring vi)).
Proof.
  intros E1 E2 Hl. split; [done|done|done| | | |exact Hl|done].
  - by exists vi.
  - rewrite E2. split; [apply demo_offered_rel|done].
  - cbn. lia.
Qed.

Lemma demo_rx_buffer m ring : rx_buffer (w_tr (demo_drv_world m ring)) demo_back_chain.
Proof.
  exists 1048576. split; [done|]. split; [vm_compute; reflexivity|]. split; [cbn; lia|vm_compute; intuition discriminate].
Qed.

Lemma demo_drv_found m ring :
  rpmsg_get_ept_from_addr (demo_drv_world m ring) 1027 = Ok 100 /\
  w_epts (demo_drv_world m ring) !! 100 = Some demo_rx_ept.
Proof. split; [vm_compute; reflexivity|apply lookup_singleton_eq]. Qed.

Lemma rpmsg_virtio_reply_delivered_witness :
  exists w1 : world (rpmsg_virtio unit), has_bytes (w_mem w1) (4096 + SIZEOF_HDR) [10; 20; 30] /\
    rpmsg_virtio_rx_callback demo_release false demo_rx_env 0 99 2
      (demo_drv_world (w_mem demo_replied) (vi_ring demo_replied_vi)) =
      rx_after demo_release false demo_rx_env 0 99 1 w1 100 4096 false.
Proof.
  destruct demo_dev_ready as (He & Hq & Hm & Hr).
  destruct (@rpmsg_virtio_reply_delivered unit unit demo_release demo_release demo_tx_func id
    (fun _ w _ => Ok (w, 0)) 2048 8 demo_dev_world demo_back_vi demo_back_queue demo_offered.1 demo_back_chain [] 4096 32
    5 1027 3072 VIRTIO_CONFIG_STATUS_DRIVER_OK [10; 20; 30] He Hq Hm eq_refl eq_refl Hr eq_refl eq_refl ltac:(done)
    (has_bytes_put _ _ _)) as (wv' & R & H).
  - left. vm_compute. discriminate.
  - vm_compute. discriminate.
  - vm_compute. reflexivity.
  - unfold is_u32. lia.
  - unfold is_u32. lia.
  - intros a wr [= <- <-]. unfold METAL_BAD_PHYS. lia.
  - assert (Ew : demo_replied = wv') by (unfold demo_replied; change 3 with (zlen [10; 20; 30]); by rewrite R).
    rewrite <- Ew in H.
    destruct (H false demo_rx_env 0 99 _ _ 100 demo_rx_ept 1%nat
      (demo_driver_side _ _ (proj1 demo_replied_ring) (proj2 demo_replied_ring) demo_replied_lens)
      (demo_rx_buffer _ _) eq_refl (proj1 (demo_drv_found _ _)) ltac:(lia) (proj2 (demo_drv_found _ _)) ltac:(cbn; lia))
      as (w1 & Hp & _ & _ & E).
    exists w1. split; [exact Hp|exact E].
Defined.

Lemma demo_replied_sent :
  exists devq, vq_rel 8 (q_served demo_back_queue [] demo_back_chain 32) demo_offered.1 devq (vi_ring demo_replied_vi) /\
  has_bytes (w_mem demo_replied) 4096 (hdr_bytes 5 1027 0 3 0 ++ [10; 20; 30]).
Proof.
  destruct demo_dev_ready as (He & Hq & Hm & Hr).
  destruct (dev_send_run demo_release 2048 8 demo_tx_func id (fun _ w _ => Ok (w, 0)) demo_dev_world
    VIRTIO_CONFIG_STATUS_DRIVER_OK demo_back_vi demo_back_queue demo_offered.1 demo_back_chain [] 4096 32 5 1027 3072
    [10; 20; 30] He Hq Hm eq_refl Hr eq_refl eq_refl ltac:(done) (has_bytes_put _ _ _)) as (wv' & R & [S1 S2 S3 (vi' & [V1 V2 V3]) S5 S6]).
  { left. vm_compute. discriminate. }
  assert (Ew : demo_replied = wv') by (unfold demo_replied; change 3 with (zlen [10; 20; 30]); by rewrite R).
  rewrite <- Ew in V1, S5. destruct demo_replied_ring as [E1 _]. rewrite E1 in V1. apply (inj Some) in V1. subst vi'.
  exists (vi_vq demo_replied_vi). split; [exact V2|exact S5].
Qed.

Lemma rpmsg_virtio_driver_rx_spec_witness :
  exists (w' : world (rpmsg_virtio unit)) devq vi',
    rpmsg_virtio_rx_callback demo_release true demo_rx_env 0 99 2
      (demo_drv_world (w_mem demo_replied) (vi_ring demo_replied_vi)) = Ok w' /\
    drx demo_release 8 (w_tr w') (mk_queue [demo_back_chain] [] [] [1; 2; 3; 4; 5; 6; 7] 1) devq vi'.
Proof.
  destruct demo_replied_sent as (devq & Hrel & Hb). apply has_bytes_app in Hb as [Hh _].
  destruct (rpmsg_virtio_driver_rx_spec demo_release true demo_rx_env 0 99 8 [mk_dmsg demo_back_chain 32 5 1027 3]
    (demo_drv_world (w_mem demo_replied) (vi_ring demo_replied_vi)) 2 (q_served demo_back_queue [] demo_back_chain 32) devq
    (demo_drv_vi (vi_ring demo_replied_vi)) (demo_calm _)) as (w' & vi' & R & Hq & _).
  - destruct demo_tx_env as [_ _ _ Hio _ _]. split; [done|exact Hio|cbn; lia|done|exact Hrel|apply demo_offered_rel|].
    exact demo_replied_lens.
  - reflexivity.
  - reflexivity.
  - constructor; [|constructor]. split.
    + apply demo_rx_buffer.
    + eapply hdr_msg_at; [exact Hh| | |]; unfold is_u32, is_u16; cbn; lia.
    + exists 100. split; [apply demo_drv_found|]. right. split; [lia|]. exists demo_rx_ept.
      split; [apply demo_drv_found|]. vm_compute. intuition discriminate.
  - split; [apply NoDup_singleton|]. intros x y ->%list_elem_of_singleton ->%list_elem_of_singleton. done.
  - cbn. lia.
  - exists w', devq, vi'. split; [exact R|exact Hq].
Defined.
