(* ===== verification/RpmsgInitDev.v ===== *)
(** * Start of the transport in the device role (rpmsg_virtio.c)

    [rpmsg_init_vdev_with_config] of the device waits until the driver is ready, creates
    its sides of the two virtqueues over the rings the driver has left in memory by then,
    and registers the name service.  What the driver has offered is what the two queues
    hold.  From the creation on a ring is the record its virtqueue works on ([vi_ring]),
    no longer the bytes it was read from: the words the start sets in it are stated there. *)

From S2P Require Import Prelude MetalUtil MetalIo StrUtil Vring Virtqueue VirtqueueInv VirtqueueRefine.
From S2P Require Import VirtqueueSys Virtio Rpmsg RpmsgInv RpmsgVirtio RpmsgBuf RpmsgTx RpmsgRx RpmsgDelivery RpmsgInit RpmsgBack.

(** ** A ring read from memory depends on its bytes only *)

Definition agree (m m' : gmap Z Z) (a n : Z) : Prop := forall i, a <= i < a + n -> m' !! i = m !! i.

Lemma agree_sub m m' a n b k : agree m m' a n -> a <= b -> b + k <= a + n -> agree m m' b k.
Proof. intros H H1 H2 i Hi. apply H. lia. Qed.

Lemma loadn_agree k m m' a : agree m m' a (Z.of_nat k) -> loadn k m' a = loadn k m a.
Proof.
  revert a. induction k as [|k IH]; intros a H; [done|]. cbn [loadn].
  rewrite IH by (eapply agree_sub; [exact H|lia..]). unfold load8. by rewrite H by lia.
Qed.

Lemma load_array_agree {A} k size (f : list Z -> A) m m' a :
  agree m m' a (Z.of_nat k * Z.of_nat size) -> load_array k size f m' a = load_array k size f m a.
Proof.
  revert a. induction k as [|k IH]; intros a H; [done|]. cbn [load_array].
  rewrite (loadn_agree size m m') by (eapply agree_sub; [exact H|lia..]).
  by rewrite IH by (eapply agree_sub; [exact H|nia..]).
Qed.

Lemma vring_load_agree m m' l p align :
  layout_ok l p align -> 0 <= vr_num l -> agree m m' p (vring_size (vr_num l) align) ->
  vring_load m' l = vring_load m l.
Proof.
  intros [L1 L2 L3 L4 L5] Hn Ha.
  unfold SIZEOF_VRING_DESC, SIZEOF_VRING_AVAIL, SIZEOF_UINT16, SIZEOF_VRING_USED, SIZEOF_VRING_USED_ELEM in *.
  unfold vring_load, SIZEOF_VRING_AVAIL, SIZEOF_VRING_USED.
  rewrite !(load_array_agree _ _ _ m m') by (eapply agree_sub; [exact Ha|lia..]).
  by rewrite !(loadn_agree _ m m') by (eapply agree_sub; [exact Ha|lia..]).
Qed.

(** The ring of a vring as memory has it. *)
Definition ring_in (m : gmap Z Z) (vi : virtio_vring_info) : res vring :=
  vring_load m (vring_init (ai_num_descs (vi_info vi)) (ai_vaddr (vi_info vi)) (i32 (ai_align (vi_info vi)))).

Lemma ring_in_step m m' rs vi : vring_ready m vi -> memstep rs m m' ->
  (forall a s, (a, s) ∈ rs -> a + s <= (vring_bytes vi).1 \/ (vring_bytes vi).1 + (vring_bytes vi).2 <= a) ->
  ring_in m' vi = ring_in m vi.
Proof.
  intros [[pm Y1] _ [Y3 Y3'] [Y4 Y4'] Y5 [Y6 _] Y7 _ _] Hms Hd. pose proof (proj1 (wf_virt _ _ Y1)) as Hv. unfold ring_in. pose proof (pow2_pos _ Y3) as Hn. pose proof (pow2_pos _ Y4).
  unfold VRING_MAX in Y3'. rewrite (i32_id (ai_align _)) by lia.
  destruct (layout_of_init (ai_num_descs (vi_info vi)) (ai_vaddr (vi_info vi)) (ai_align (vi_info vi))) as [Hl Hn']; try done.
  { unfold VRING_MAX. lia. } { lia. }
  eapply vring_load_agree; [exact Hl|lia|]. rewrite Hn'. intros i Hi. apply (ms_same _ _ _ Hms).
  intros a s Hin. specialize (Hd a s Hin). cbn [vring_bytes fst snd] in Hd. lia.
Qed.

Section device.
Context {B : Type} (bld : build) (f : virtio_dispatch B).
Implicit Types (v : vdev B) (t : rpmsg_virtio B) (w : world (rpmsg_virtio B)) (m : gmap Z Z).

(** ** Waiting for the driver *)

(** The driver, which shares the memory and the virtio device, is ready after [k] looks at
    its status, and asks for no reset before.  It may write any memory meanwhile. *)
Record ready_after (poll : gmap Z Z * vdev B -> gmap Z Z * vdev B) (p : gmap Z Z * vdev B) (k : nat) : Prop := {
  ra_status : exists g, f_get_status f = Some g /\ forall i, (i <= k)%nat -> exists s,
    g (Nat.iter i poll p).2 = Ok s /\ Z.land s VIRTIO_CONFIG_STATUS_NEEDS_RESET = 0 /\
    (Z.land s VIRTIO_CONFIG_STATUS_DRIVER_OK <> 0 <-> i = k);
  ra_keeps : forall x, vd_dev (poll x).2 = vd_dev x.2 /\ vd_vrings (poll x).2 = vd_vrings x.2
}.

Lemma ready_keeps poll p k i : ready_after poll p k ->
  vd_dev (Nat.iter i poll p).2 = vd_dev p.2 /\ vd_vrings (Nat.iter i poll p).2 = vd_vrings p.2.
Proof.
  intros H. induction i as [|i [IH1 IH2]]; [done|]. cbn [Nat.iter nat_rect].
  destruct (ra_keeps _ _ _ H (Nat.iter i poll p)) as [E1 E2]. unfold Nat.iter in *. by rewrite E1, E2.
Qed.

Lemma wait_ready_run poll k : forall fuel p, ready_after poll p k -> (k < fuel)%nat ->
  rpmsg_virtio_wait_remote_ready (Some f) fuel poll p = Ok (Nat.iter k poll p, 0).
Proof.
  induction k as [|k IH]; intros [|fuel] [m v] H Hf; try lia; destruct (ra_status _ _ _ H) as (g & Hg & Hs);
    destruct (Hs 0%nat) as (s & Es & Hr & Hk); try lia; cbn [rpmsg_virtio_wait_remote_ready]; unfold virtio_get_status, entry;
    rewrite Hg; cbn [mbind res_bind]; change (Nat.iter 0 poll (m, v)).2 with v in Es; rewrite Es; cbn [mbind res_bind];
    change (negb (0 =? 0)) with false; rewrite Hr; change (negb (0 =? 0)) with false; cbn iota.
  - rewrite (proj2 (Z.eqb_neq _ _)) by (by apply Hk). done.
  - destruct (Z.eqb_spec (Z.land s VIRTIO_CONFIG_STATUS_DRIVER_OK) 0) as [E|E]; [|apply Hk in E; lia]. cbn [negb].
    rewrite IH; [by rewrite Nat.iter_succ_r| |lia]. split; [|apply H]. exists g. split; [done|]. intros i Hi.
    destruct (Hs (S i) ltac:(lia)) as (s' & Es' & Hr' & Hk'). exists s'. rewrite Nat.iter_succ_r in Es'.
    split_and!; [done..|]. rewrite Hk'. lia.
Qed.

(** ** The two virtqueues *)

(** The device's side of a vring: a virtqueue just created over the ring in memory. *)
Definition dev_vring (vi : virtio_vring_info) (i : Z) (name : string) (cb : Z) (ring : vring) : virtio_vring_info :=
  set_vring vi (new_vq i name (vi_info vi) cb (f_notify f)) ring.

Lemma create_step_dev v m names cbs i vi name cb k ring :
  VIRTIO_ROLE_IS_DRIVER bld (vd_dev v) = false ->
  zget (vd_vrings v) i = Some vi -> zget names i = Some name -> zget cbs i = Some cb ->
  vring_ready m vi -> ring_in m vi = Ok ring ->
  create_loop bld (Some f) (S k) i v m names cbs =
    create_loop bld (Some f) k (i + 1) (vd_set_vrings v (zset (vd_vrings v) i (dev_vring vi i name cb ring))) m names cbs.
Proof.
  intros Hd Hvi Hnm Hcb Hy Hr. cbn [create_loop]. rewrite (rget_Some _ _ _ Hvi). cbn [mbind res_bind]. rewrite Hd. cbn [mbind res_bind].
  rewrite (rget_Some _ _ _ Hnm). cbn [mbind res_bind]. rewrite (rget_Some _ _ _ Hcb). cbn [mbind res_bind].
  unfold ring_in in Hr. rewrite Hr. cbn [mbind res_bind]. rewrite (vy_vq _ _ Hy), create_device_run by (done || apply (vy_num _ _ Hy)).
  cbn [mbind res_bind]. rewrite rset_ok by exact (zget_Some_lt _ _ _ Hvi). reflexivity.
Qed.

Lemma create_two_dev v m vi0 vi1 n0 n1 c0 c1 ring0 ring1 :
  VIRTIO_ROLE_IS_DRIVER bld (vd_dev v) = false -> f_create_virtqueues f = None ->
  vd_vrings v = [vi0; vi1] -> vring_ready m vi0 -> vring_ready m vi1 -> ring_in m vi0 = Ok ring0 -> ring_in m vi1 = Ok ring1 ->
  virtio_create_virtqueues bld (Some f) v m 2 [n0; n1] [c0; c1] =
    Ok (vd_set_vrings v [dev_vring vi0 0 n0 c0 ring0; dev_vring vi1 1 n1 c1 ring1], m, 0).
Proof.
  intros Hd Hf Hv Y0 Y1 R0 R1. unfold virtio_create_virtqueues, entry. rewrite Hf, Hv.
  change (zlen [vi0; vi1] <? 2) with false. cbn iota. change (Z.to_nat 2) with 2%nat.
  rewrite (create_step_dev v m [n0; n1] [c0; c1] 0 vi0 n0 c0 1 ring0) by (done || by rewrite Hv). rewrite Hv.
  match goal with |- context [zset [vi0; vi1] 0 ?x] => change (zset [vi0; vi1] 0 x) with [x; vi1] end. change (0 + 1) with 1.
  by rewrite (create_step_dev _ m [n0; n1] [c0; c1] 1 vi1 n1 c1 0 ring1).
Qed.

(** The ring with the notifications of the driver suppressed, as [virtqueue_disable_cb] of the
    device leaves it: one word of the used ring, the rest as it was. *)
Definition quiet_ring (dev : virtio_device) (n : Z) (ring : vring) : vring :=
  if event_idx_on dev then set_avail_event ring (u16 (- n - 1))
  else set_used_flags ring (Z.lor (used_flags (r_used ring)) VRING_USED_F_NO_NOTIFY).

Lemma quiet_core dev n ring : ring_core (quiet_ring dev n ring) = ring_core ring.
Proof. unfold quiet_ring. by destruct (event_idx_on dev). Qed.

Lemma disable_cb_dev dev vi i name cb ring :
  VIRTIO_ROLE_IS_DRIVER bld dev = false -> VIRTIO_ROLE_IS_DEVICE bld dev = true ->
  let vq := vi_vq (dev_vring vi i name cb ring) in
  virtqueue_disable_cb bld dev vq ring = Ok (vq, quiet_ring dev (ai_num_descs (vi_info vi)) ring).
Proof.
  intros Hd He vq. unfold virtqueue_disable_cb. rewrite busy_ok by done. cbn [mbind res_bind].
  rewrite idle_ok, set_inuse_back by done. rewrite Hd, He. reflexivity.
Qed.

(** The device's side, with the region of the shared memory, takes up what the driver has
    offered as long as nothing was taken yet. *)
Lemma dev_vring_rel vi i name cb ring ring' io q drv :
  let n := ai_num_descs (vi_info vi) in
  ring_core ring' = ring_core ring -> ring_rel n q ring -> drv_rel n q drv -> q_taken q = 0 ->
  vq_rel n q drv (virtqueue_set_shmem_io (vi_vq (dev_vring vi i name cb ring)) io) ring'.
Proof. intros n Hc Hr Hd Ht. split; [by apply (ring_rel_core _ _ ring)|done|]. split; cbn; [done|by rewrite Ht|done]. Qed.
End device.

(** ** The start *)

Section start.
Context {B : Type} (bld : build) (f : virtio_dispatch B) (ns_cb ns_ept rx_cb tx_cb rvdev hdr_slot bind : Z).
Context (ready_fuel k : nat) (poll : gmap Z Z * vdev B -> gmap Z Z * vdev B).
Context (w : world (rpmsg_virtio B)) (v : vdev B) (shm_io : metal_io_region) (pools : list rpmsg_virtio_shm_pool).
Context (c : option rpmsg_virtio_config) (vi0 vi1 : virtio_vring_info) (ring0 ring1 : vring) (features : Z).
Let n0 : Z := ai_num_descs (vi_info vi0).
Let n1 : Z := ai_num_descs (vi_info vi1).
Let recl : Z := rv_reclaimer (w_tr w).
Let m1 : gmap Z Z := (Nat.iter k poll (w_mem w, v)).1.
Let v1 : vdev B := (Nat.iter k poll (w_mem w, v)).2.

(** What the caller provides: a virtio device in the device role whose driver gets ready
    while the device waits; the memory the driver leaves has the two vrings. *)
Record dev_init_ready : Prop := {
  dy_role : VIRTIO_ROLE_IS_DRIVER bld (vd_dev v) = false /\ VIRTIO_ROLE_IS_DEVICE bld (vd_dev v) = true;
  dy_create : f_create_virtqueues f = None;
  dy_wait : ready_after f poll (w_mem w, v) k /\ (k < ready_fuel)%nat;
  dy_features : exists g, f_get_features f = Some g /\ g v1 = Ok features;
  dy_vrings : vd_vrings v = [vi0; vi1] /\ vring_ready m1 vi0 /\ vring_ready m1 vi1;
  dy_rings : ring_in m1 vi0 = Ok ring0 /\ ring_in m1 vi1 = Ok ring1;
  dy_io : exists pm, io_wf shm_io pm;
  dy_list : mapped m1 recl 16 /\ 0 < recl < 18446744073709551616 /\
    forall a s, (a, s) ∈ [vring_bytes vi0; vring_bytes vi1] -> recl + 16 <= a \/ a + s <= recl;
  dy_out : out_of shm_io recl 16 /\ out_of shm_io hdr_slot 16 /\ (recl + 16 <= hdr_slot \/ hdr_slot + 16 <= recl)
}.

(** The device with the features it has read. *)
Let v2 : vdev B := vd_set_features v1 features.
Let ns : bool := negb (Z.land features (Z.shiftl 1 VIRTIO_RPMSG_F_NS) =? 0).

Definition dev_before : world (rpmsg_virtio B) :=
  let t := w_tr w in
  mk_world m1 (<[ns_ept := zero_ept]> (w_epts w)) (mk_rdev [] (replicate 2 0) 0 false bind 0 ns)
    (mk_rv (rv_config t) v2 (rv_rvq t) (rv_svq t) shm_io (rv_pools t) (rv_shpool t) recl 0 (rv_calls t)).

Lemma dev_role : dev_init_ready ->
  VIRTIO_ROLE_IS_DRIVER bld (vd_dev v1) = false /\ VIRTIO_ROLE_IS_DEVICE bld (vd_dev v1) = true /\
  VIRTIO_ROLE_IS_DRIVER bld (vd_dev v2) = false /\ VIRTIO_ROLE_IS_DEVICE bld (vd_dev v2) = true /\ vd_vrings v2 = [vi0; vi1].
Proof.
  intros [[R1 R2] _ [Hw _] _ (Hv & _) _ _ _ _]. destruct (ready_keeps f poll (w_mem w, v) k k Hw) as [E1 E2]. fold v1 in E1, E2.
  cbn [snd] in E1, E2.
  unfold v2, VIRTIO_ROLE_IS_DRIVER, VIRTIO_ROLE_IS_DEVICE in *. cbn. rewrite E1, E2. done.
Qed.

Lemma dev_init_before : dev_init_ready ->
  rpmsg_init_vdev_with_config bld (Some f) ns_cb ns_ept rx_cb tx_cb rvdev ready_fuel poll w v bind shm_io pools c
    = init_queues bld (Some f) ns_cb ns_ept rx_cb tx_cb rvdev dev_before.
Proof.
  intros H. destruct (dev_role H) as (D1 & D2 & D3 & D4 & _). destruct H as [[R1 R2] _ [Hw Hk] (g & Hg & Hv) _ _ _ _ _].
  unfold rpmsg_init_vdev_with_config, is_driver, is_device, dev_of, tr. cbn [set_rdev set_tr put_ept set_epts w_tr w_mem rv_vdev].
  rewrite R1, R2. cbn iota. rewrite (wait_ready_run f poll k ready_fuel (w_mem w, v) Hw Hk). rewrite (surjective_pairing (Nat.iter k poll _)).
  fold v1 m1. cbn [mbind res_bind]. change (negb (0 =? 0)) with false. cbn iota.
  unfold virtio_get_features, entry. rewrite Hg. cbn [mbind res_bind]. rewrite Hv. cbn [mbind res_bind].
  change (negb (0 =? 0)) with false. rewrite D2. reflexivity.
Qed.

(** The transport with its queues. *)
Definition dev_made (b0 b1 : virtio_vring_info) : rpmsg_virtio B :=
  let t := w_tr w in
  mk_rv (rv_config t) (vd_set_vrings v2 [b0; b1]) 1 0 shm_io (rv_pools t) (rv_shpool t) recl 0 (rv_calls t).

Lemma dev_queues_run : dev_init_ready ->
  exists m',
    let b0 := shared_vring (w_tr dev_before) (dev_vring f vi0 0 "tx_vq" tx_cb ring0) (quiet_ring (vd_dev v2) n0 ring0) in
    let b1 := shared_vring (w_tr dev_before) (dev_vring f vi1 1 "rx_vq" rx_cb ring1) ring1 in
    init_queues bld (Some f) ns_cb ns_ept rx_cb tx_cb rvdev dev_before =
      init_finish bld (Some f) ns_cb ns_ept rvdev (set_tr (set_mem dev_before m') (dev_made b0 b1)) /\
    rlist m' recl [] /\ memstep [(recl, 16)] m1 m'.
Proof.
  intros H. destruct (dev_role H) as (_ & _ & D3 & D4 & Dv).
  destruct H as [_ Hc _ _ (_ & Y0 & Y1) (G0 & G1) _ (L1 & L2 & L3) _].
  destruct (rlist_init _ _ L1 L2) as (m2 & E1 & Hl & Hs1).
  assert (Hy : forall vi, vring_ready m1 vi -> vring_ready m2 vi).
  { intros vi []. split; try done. by eapply memstep_mapped. }
  assert (Hr : forall vi, vring_bytes vi ∈ [vring_bytes vi0; vring_bytes vi1] -> vring_ready m1 vi -> ring_in m2 vi = ring_in m1 vi).
  { intros vi Hin Hvi. eapply ring_in_step; [done|exact Hs1|]. intros a s [= -> ->]%list_elem_of_singleton. cbn.
    specialize (L3 _ _ Hin). cbn in L3. lia. }
  set (a0 := dev_vring f vi0 0 "tx_vq" tx_cb ring0). set (a1 := dev_vring f vi1 1 "rx_vq" rx_cb ring1).
  pose proof (disable_cb_dev bld f (vd_dev v2) vi0 0 "tx_vq" tx_cb ring0 D3 D4) as E3. cbn zeta in E3. fold a0 n0 in E3.
  set (r := quiet_ring (vd_dev v2) n0 ring0) in *. exists m2. cbn zeta. split; [|done]. unfold init_queues, is_driver, dev_of, tr. cbn [dev_before w_tr rv_vdev w_mem rv_reclaimer].
  rewrite D3. cbn iota. rewrite E1. cbn [mbind res_bind]. change RPMSG_NUM_VRINGS with 2.
  rewrite (create_two_dev bld f v2 m2 vi0 vi1 "tx_vq" "rx_vq" tx_cb rx_cb ring0 ring1); try done;
    [|by apply Hy|by apply Hy|rewrite Hr by (done || set_solver); done|rewrite Hr by (done || set_solver); done].
  fold a0 a1. cbn [mbind res_bind]. change (negb (0 =? RPMSG_SUCCESS)) with false. cbn iota. unfold vring_at.
  cbn [tr set_tr set_mem w_tr rv_vdev vd_set_vrings vd_vrings vd_dev rv_set_vdev].
  change (rget [a0; a1] 0) with (Ok a0). cbn [mbind res_bind]. change (vi_ring a0) with ring0. rewrite E3. cbn [mbind res_bind].
  rewrite (vring_put_run _ 0 a0) by reflexivity. cbn [mbind res_bind].
  match goal with |- context [set_io_loop ?k 0 ?x ?l] => change (set_io_loop k 0 x l) with
    (Ok [shared_vring (w_tr dev_before) a0 r; shared_vring (w_tr dev_before) a1 ring1]) end.
  reflexivity.
Qed.

(** C12: [rpmsg_init_vdev_with_config] in the device role, whose driver gets ready after [k] looks
    at the status and may write memory until then: the call ends with [RPMSG_SUCCESS].  The
    first vring is the transmit and the second the receive queue; whatever the driver has
    put into the rings by the end of the wait, and nothing was taken from, is what they hold,
    so that the device can send and receive.  In the transmit ring the driver's notifications
    are suppressed (the flags of the used ring, or its event index), in the receive ring
    nothing changes; no other memory than the head of the list of reclaimed buffers is
    written after the wait, the status is not set, and the registry holds the name service
    endpoint exactly when the feature was negotiated. *)
Theorem rpmsg_init_vdev_device_spec (H : dev_init_ready) :
  exists w' vi0' vi1',
    rpmsg_init_vdev_with_config bld (Some f) ns_cb ns_ept rx_cb tx_cb rvdev ready_fuel poll w v bind shm_io pools c
      = Ok (w', RPMSG_SUCCESS) /\
    rv_vdev (w_tr w') = vd_set_vrings (vd_set_features (Nat.iter k poll (w_mem w, v)).2 features) [vi0'; vi1'] /\
    vi_ring vi0' = quiet_ring (vd_dev (rv_vdev (w_tr w'))) n0 ring0 /\ vi_ring vi1' = ring1 /\
    rx_env bld (w_tr w') /\ dtx_env bld hdr_slot (w_tr w') /\
    (forall q drv, ring_rel n0 q ring0 -> drv_rel n0 q drv -> q_taken q = 0 -> dtx_queue n0 (w_tr w') vi0' q drv) /\
    (forall q drv, ring_rel n1 q ring1 -> drv_rel n1 q drv -> q_taken q = 0 -> rx_queue n1 (w_tr w') q drv vi1') /\
    vq_shm_io (vi_vq vi1') = shm_io /\ rlist (w_mem w') recl [] /\
    memstep [(recl, 16)] (Nat.iter k poll (w_mem w, v)).1 (w_mem w') /\
    registry_made ns_cb ns_ept (negb (Z.land features (Z.shiftl 1 VIRTIO_RPMSG_F_NS) =? 0)) w'.
Proof.
  rewrite (dev_init_before H). destruct (dev_role H) as (_ & _ & D3 & D4 & _).
  destruct (dev_queues_run H) as (m' & E & Hl & Hm). cbn zeta in E. rewrite E.
  set (b0 := shared_vring _ (dev_vring f vi0 _ _ _ _) _). set (b1 := shared_vring _ (dev_vring f vi1 _ _ _ _) _).
  destruct (init_finish_dev bld f ns_cb ns_ept rvdev (set_tr (set_mem dev_before m') (dev_made b0 b1)) bind ns zero_ept)
    as (w' & -> & Em & Et & Hr); [done|apply lookup_insert_eq|exact zero_ept_name|done|].
  exists w', b0, b1. rewrite Em, Et. split_and!; try done.
  - split; [done|apply (dy_io H)|apply (dy_out H)].
  - intros q drv Q1 Q2 Q3. split; [done| |done].
    apply (dev_vring_rel f vi0 0 "tx_vq" tx_cb ring0 (quiet_ring (vd_dev v2) n0 ring0) shm_io q drv); [apply quiet_core|done..].
  - intros q drv Q1 Q2 Q3. split; [done|]. by apply (dev_vring_rel f vi1 1 "rx_vq" rx_cb ring1 ring1 shm_io q drv).
Qed.
End start.

(** ** A device whose driver sets up the rings and is ready at the third look *)

Definition demo_dev_func : virtio_dispatch Z :=
  mk_dispatch None None (Some (fun x => Ok (if 2 <=? vd_back x then VIRTIO_CONFIG_STATUS_DRIVER_OK else 0)))
    None (Some (fun _ => Ok 1)) None None None None None 9.
Definition demo_dev_vdev : vdev Z := mk_vd (mk_vdev 0 0 1) 0 [demo_vinfo 4096; demo_vinfo 5120].
(** The bytes of a ring of four that its driver has just set up. *)
Definition demo_ring_bytes : list Z :=
  concat (map (fun nx => fill 14 0 ++ [nx mod 256; nx / 256]) [1; 2; 3; VQ_RING_DESC_CHAIN_END]) ++ fill 54 0.
Definition demo_dev_mem0 : gmap Z Z := put_bytes (put_bytes ∅ 4096 (fill 4096 170)) 1024 (fill 16 0).
Definition demo_dev_mem : gmap Z Z := put_bytes (put_bytes demo_dev_mem0 4096 demo_ring_bytes) 5120 demo_ring_bytes.
(** The driver: the first ring before the second look, the second one before the third. *)
Definition demo_dev_poll (p : gmap Z Z * vdev Z) : gmap Z Z * vdev Z :=
  let '(m, x) := p in
  (put_bytes m (if vd_back x =? 0 then 4096 else 5120) demo_ring_bytes, mk_vd (vd_dev x) (vd_back x + 1) (vd_vrings x)).
Definition demo_dev_init : world (rpmsg_virtio Z) :=
  mk_world demo_dev_mem0 ∅ (mk_rdev [] [] 0 false 0 0 false)
    (mk_rv (mk_config 0 0 false) demo_dev_vdev 0 0 NULL_IO [] 0 1024 0 []).

(** The ring the driver made. *)
Definition demo_made (a : Z) : vring :=
  match virtqueue_create demo_release (mk_vdev 0 0 0) 0 "rx_vq" (Some (mk_alloc a 4 4)) 1 2 (virtqueue_allocate 4) (zero_ring 4) with
  | Ok (_, _, ring) => ring
  | Fault _ => zero_ring 4
  end.

Lemma demo_dev_start_ready :
  dev_init_ready demo_release demo_dev_func 2048 5 2 demo_dev_poll demo_dev_init demo_dev_vdev demo_init_io
    (demo_vinfo 4096) (demo_vinfo 5120) (demo_made 4096) (demo_made 5120) 1.
Proof.
  assert (Hs : vring_size 4 4 = 118) by reflexivity.
  assert (Hr : forall a, a = 4096 \/ a = 5120 -> vring_ready demo_dev_mem (demo_vinfo a)).
  { intros a Ha. unfold demo_dev_mem, demo_dev_mem0. do 3 apply vring_ready_put. by apply demo_ready. }
  assert (Hi : Nat.iter 2 demo_dev_poll (w_mem demo_dev_init, demo_dev_vdev) =
    (demo_dev_mem, mk_vd (mk_vdev 0 0 1) 2 [demo_vinfo 4096; demo_vinfo 5120])) by reflexivity.
  split; rewrite ?Hi; clear Hi; cbn [w_mem w_tr demo_dev_init rv_reclaimer fst snd].
  - split; reflexivity.
  - reflexivity.
  - split; [|lia]. split; [|by intros []]. eexists. split; [reflexivity|]. intros i Hi.
    destruct i as [|[|[|i]]]; [..|lia]; eexists; (split; [reflexivity|]); (split; [done|]); (split; intros Hx; first [done|by destruct Hx]).
  - eexists. split; reflexivity.
  - split; [done|]. split; apply Hr; auto.
  - split; vm_compute; reflexivity.
  - exists [2097152]. split; try done; [repeat constructor; done|]. by left.
  - unfold demo_dev_mem, demo_dev_mem0. split; [do 2 apply mapped_put; apply has_bytes_mapped_fill; lia|]. split; [lia|]. intros a s. unfold vring_bytes.
    cbn [demo_vinfo vi_info ai_vaddr ai_num_descs ai_align]. rewrite Hs.
    intros [[= -> ->]|[= -> ->]%list_elem_of_singleton]%elem_of_cons; lia.
  - unfold out_of. cbn. lia.
Qed.

(** The driver sets up both rings during the wait and offers nothing yet: both queues are empty, and the
    name service is registered. *)
Lemma rpmsg_init_vdev_device_spec_witness :
  exists w' vi0' vi1' drv,
    rpmsg_init_vdev_with_config demo_release (Some demo_dev_func) 600 500 7 8 700 5 demo_dev_poll demo_dev_init
      demo_dev_vdev 0 demo_init_io [] None = Ok (w', RPMSG_SUCCESS) /\
    vd_back (rv_vdev (w_tr w')) = 2 /\ used_flags (r_used (vi_ring vi0')) = VRING_USED_F_NO_NOTIFY /\ dtx_queue 4 (w_tr w') vi0' (q_init 4) drv /\
    rx_queue 4 (w_tr w') (q_init 4) drv vi1' /\ rd_endpoints (w_rdev w') = [500].
Proof.
  destruct (rpmsg_init_vdev_device_spec demo_release demo_dev_func 600 500 7 8 700 2048 0 5 2 demo_dev_poll demo_dev_init
    demo_dev_vdev demo_init_io [] None (demo_vinfo 4096) (demo_vinfo 5120) (demo_made 4096) (demo_made 5120) 1 demo_dev_start_ready)
    as (w' & vi0' & vi1' & E & Ev & Eq & _ & _ & _ & H0 & H1 & _ & _ & _ & Hr).
  assert (Hp : pow2 4) by (exists 2; lia).
  destruct (create_driver_run demo_release (mk_vdev 0 0 0) 0 "rx_vq" (mk_alloc 4096 4 4) 1 2 Hp) as (desc & Ec & Hl & Hf); [done..|].
  assert (Hrel : vq_rel 4 (q_init 4) (new_vq 0 "rx_vq" (mk_alloc 4096 4 4) 1 2) (new_vq 0 "rx_vq" (mk_alloc 4096 4 4) 1 2) (demo_made 4096)).
  { unfold demo_made. cbn [ai_num_descs] in Ec. rewrite Ec. by apply init_rel. }
  destruct Hrel as [R1 R2 _]. exists w', vi0', vi1', (new_vq 0 "rx_vq" (mk_alloc 4096 4 4) 1 2).
  split; [exact E|]. split; [by rewrite Ev|]. split; [rewrite Eq, Ev; vm_compute; reflexivity|].
  split; [by apply H0|]. split; [|exact (rm_epts _ _ _ _ Hr)].
  apply H1; [|done..]. exact R1.
Defined.
