(* ===== verification/LinuxIrq.v ===== *)
(** * Interrupts of the Linux port (lib/system/linux/irq.c)

    On Linux an interrupt is a file descriptor that becomes readable.  A thread of
    the library polls the enabled descriptors and an eventfd; who changes the set of
    enabled interrupts, or stops the thread, writes to the eventfd so that the poll
    returns.  The static variables are a record, the environment of the controllers
    of [MetalIrq]; the calls of the system are parameters over its own state. *)

From S2P Require Import Prelude MetalUtil MetalIrq.

(** ** Data *)

(** [FD_SETSIZE] of glibc. *)
Definition FD_SETSIZE : Z := 1024.
Definition MAX_IRQS : Z := FD_SETSIZE - 1.
Definition METAL_IRQ_HANDLED : Z := 1.
Definition EAGAIN : Z := 11.
Definition POLLIN : Z := 1.
Definition POLLRDNORM : Z := 64.

Record pollfd := mk_pfd {
  pf_fd : Z;
  pf_events : Z;
  pf_revents : Z
}.

(** The static variables of irq.c, except the array [irqs], which is the one of the
    controller; [li_lock] is the thread that has [irq_lock]. *)
Record lirq (Sys : Type) := mk_lirq {
  li_devs : list Z;
  li_notify_fd : Z;
  li_lock : option Z;
  li_stop : bool;
  li_pthread : Z;
  li_enabled : list Z;
  li_sys : Sys
}.
Arguments mk_lirq {Sys} _ _ _ _ _ _ _.
Arguments li_devs {Sys} _.
Arguments li_notify_fd {Sys} _.
Arguments li_lock {Sys} _.
Arguments li_stop {Sys} _.
Arguments li_pthread {Sys} _.
Arguments li_enabled {Sys} _.
Arguments li_sys {Sys} _.

Section updates.
Context {Sys : Type}.
Implicit Type l : lirq Sys.

Definition li_set_devs l (d : list Z) : lirq Sys :=
  mk_lirq d (li_notify_fd l) (li_lock l) (li_stop l) (li_pthread l) (li_enabled l) (li_sys l).
Definition li_set_fd l (fd : Z) : lirq Sys :=
  mk_lirq (li_devs l) fd (li_lock l) (li_stop l) (li_pthread l) (li_enabled l) (li_sys l).
Definition li_set_lock l (o : option Z) : lirq Sys :=
  mk_lirq (li_devs l) (li_notify_fd l) o (li_stop l) (li_pthread l) (li_enabled l) (li_sys l).
Definition li_set_stop l (b : bool) : lirq Sys :=
  mk_lirq (li_devs l) (li_notify_fd l) (li_lock l) b (li_pthread l) (li_enabled l) (li_sys l).
Definition li_set_pthread l (t : Z) : lirq Sys :=
  mk_lirq (li_devs l) (li_notify_fd l) (li_lock l) (li_stop l) t (li_enabled l) (li_sys l).
Definition li_set_enabled l (b : list Z) : lirq Sys :=
  mk_lirq (li_devs l) (li_notify_fd l) (li_lock l) (li_stop l) (li_pthread l) b (li_sys l).
Definition li_set_sys l (s : Sys) : lirq Sys :=
  mk_lirq (li_devs l) (li_notify_fd l) (li_lock l) (li_stop l) (li_pthread l) (li_enabled l) s.

(** ** The lock *)

(** [metal_mutex_acquire(&irq_lock)] by the thread [self]: it returns only when
    nobody has the lock; the lock is not recursive. *)
Definition irq_lock_acquire (self : Z) l : res (lirq Sys) :=
  match li_lock l with
  | None => Ok (li_set_lock l (Some self))
  | Some _ => Fault Deadlock
  end.

Definition irq_lock_release l : lirq Sys := li_set_lock l None.

Definition metal_irq_save_disable (self : Z) l : res (lirq Sys * Z) :=
  if self =? li_pthread l then Ok (l, 0)
  else l ← irq_lock_acquire self l; Ok (l, 0).

Definition metal_irq_restore_enable (self : Z) l (flags : Z) : lirq Sys :=
  if negb (self =? li_pthread l) then irq_lock_release l else l.

(** ** The poll set *)

(** The body of [metal_bitmap_for_each_set_bit(irqs_enabled, i, irq_num)]: the
    entries from [j] on are filled. *)
Fixpoint fill_pfds (fuel : nat) (enabled : list Z) (i max : Z) (pfds : list pollfd) (j : Z)
  : res (list pollfd * Z) :=
  match fuel with
  | O => Fault No_fuel
  | S fuel' =>
      if i <? max then
        p ← rget pfds j;
        pfds ← rset pfds j (mk_pfd i POLLIN (pf_revents p));
        i ← metal_bitmap_next_set_bit enabled (u32 (i + 1)) max;
        fill_pfds fuel' enabled i max pfds (j + 1)
      else Ok (pfds, j)
  end.

(** [memset(pfds, 0, MAX_IRQS * sizeof(struct pollfd))] *)
Definition clear_pfds (pfds : list pollfd) : res (list pollfd) :=
  if zlen pfds <? MAX_IRQS then Fault Out_of_bounds
  else Ok (replicate (Z.to_nat MAX_IRQS) (mk_pfd 0 0 0) ++ drop (Z.to_nat MAX_IRQS) pfds).

(** From the [memset] to the end of the loop: the array and [j]. *)
Definition build_pfds l (irq_num : Z) (pfds : list pollfd) : res (list pollfd * Z) :=
  pfds ← clear_pfds pfds;
  pfds ← rset pfds 0 (mk_pfd (li_notify_fd l) POLLIN 0);
  i ← metal_bitmap_next_set_bit (li_enabled l) 0 irq_num;
  fill_pfds (S (Z.to_nat irq_num)) (li_enabled l) i irq_num pfds 1.
End updates.

(** ** The operations *)

Section linux_irq.
Context {Sys : Type}.
Abbreviation world := (iworld (lirq Sys)).

Definition iw_set_env (w : world) (l : lirq Sys) : world :=
  mk_iw (iw_cntrs w) (iw_heap w) (iw_avail w) (iw_pending w) (iw_enabled w) l.

(** The address of the controller; write(2) of an eventfd or of a UIO device,
    read(2), poll(2) with no timeout (the result and the [revents] it writes),
    eventfd(2), close(2), pthread_create, pthread_join, malloc of the array, the
    scheduling class. *)
Variable linux_irq_cntr : Z.
Variable sys_write : Sys -> Z -> Z -> Sys * Z.
Variable sys_read : Sys -> Z -> Sys * Z.
Variable sys_poll : Sys -> list pollfd -> Sys * Z * list Z.
Variable sys_eventfd : Sys -> Sys * Z.
Variable sys_close : Sys -> Z -> Sys.
Variable sys_pthread_create : Sys -> Sys * Z * Z.
Variable sys_pthread_join : Sys -> Z -> Sys * Z.
Variable sys_malloc_pfds : Sys -> Sys * option (list pollfd).
Variable sys_setscheduler : Sys -> Sys * Z.

(** The handlers; [dev->bus->ops.dev_irq_ack] of a device and the call through it. *)
Variable call_handler : Z -> world -> Z -> Z -> res (world * Z).
Variable dev_irq_ack : world -> Z -> res Z.
Variable call_irq_ack : Z -> world -> Z -> Z -> res world.

Definition metal_linux_irq_notify (w : world) : world * Z :=
  let '(s, ret) := sys_write (li_sys (iw_env w)) (li_notify_fd (iw_env w)) 1 in
  (iw_set_env w (li_set_sys (iw_env w) s), ret).

Definition metal_linux_irq_set_enable (self : Z) (w : world) (irq_cntr irq state : Z) : res world :=
  c ← get_cntr w irq_cntr;
  out ← out_of_cntr c irq;
  if out : bool then Ok w
  else
    lc ← get_cntr w linux_irq_cntr;
    let offset := irq - ic_base lc in
    l ← irq_lock_acquire self (iw_env w);
    b ← (if state =? METAL_IRQ_ENABLE then metal_bitmap_set_bit (li_enabled l) offset
         else metal_bitmap_clear_bit (li_enabled l) offset);
    let l := irq_lock_release (li_set_enabled l b) in
    let '(w, ret) := metal_linux_irq_notify (iw_set_env w l) in
    Ok w.

(** ** The thread *)

Definition readable (p : pollfd) : bool := negb (Z.land (pf_revents p) (Z.lor POLLIN POLLRDNORM) =? 0).

(** The body of the [for] over the descriptors that were polled. *)
Definition serve_pfd (self : Z) (w : world) (p : pollfd) : res world :=
  if (pf_fd p =? li_notify_fd (iw_env w)) && readable p then
    let '(s, _) := sys_read (li_sys (iw_env w)) (pf_fd p) in
    Ok (iw_set_env w (li_set_sys (iw_env w) s))
  else if readable p then
    let fd := pf_fd p in
    dev ← rget (li_devs (iw_env w)) fd;
    l ← irq_lock_acquire self (iw_env w);
    let w := iw_set_env w l in
    c ← get_cntr w linux_irq_cntr;
    match ic_irqs c with
    | None => Fault Out_of_bounds
    | Some irqs =>
        irq ← rget irqs fd;
        '(w, h) ← metal_irq_handle call_handler w irq fd;
        w ← (if (h =? METAL_IRQ_HANDLED) && negb (dev =? 0) then
               ack ← dev_irq_ack w dev;
               if negb (ack =? 0) then call_irq_ack ack w dev fd else Ok w
             else Ok w);
        Ok (iw_set_env w (irq_lock_release (iw_env w)))
    end
  else Ok w.

Fixpoint serve_pfds (self : Z) (w : world) (pfds : list pollfd) : res world :=
  match pfds with
  | [] => Ok w
  | p :: pfds' => w ← serve_pfd self w p; serve_pfds self w pfds'
  end.

(** The [revents] poll writes. *)
Definition with_revents (pfds : list pollfd) (rev : list Z) : list pollfd :=
  zip_with (fun p r => mk_pfd (pf_fd p) (pf_events p) r) pfds rev.

(** The body of [while (1)]: the world, the array, and whether the loop goes on. *)
Definition irq_handling_pass (self : Z) (w : world) (pfds : list pollfd)
  : res (world * list pollfd * bool) :=
  l ← irq_lock_acquire self (iw_env w);
  if li_stop l then Ok (iw_set_env w (irq_lock_release l), pfds, false)
  else
    c ← get_cntr w linux_irq_cntr;
    '(pfds, j) ← build_pfds l (ic_num c) pfds;
    let l := irq_lock_release l in
    let '(s, ret, rev) := sys_poll (li_sys l) (take (Z.to_nat j) pfds) in
    let w := iw_set_env w (li_set_sys l s) in
    if ret <? 0 then Ok (w, pfds, false)
    else
      let polled := with_revents (take (Z.to_nat j) pfds) rev in
      w ← serve_pfds self w polled;
      Ok (w, polled ++ drop (Z.to_nat j) pfds, true).

(** [fuel] bounds the passes. *)
Fixpoint irq_handling_loop (fuel : nat) (self : Z) (w : world) (pfds : list pollfd) : res world :=
  match fuel with
  | O => Fault No_fuel
  | S fuel' =>
      '(w, pfds, go) ← irq_handling_pass self w pfds;
      if go : bool then irq_handling_loop fuel' self w pfds else Ok w
  end.

Definition metal_linux_irq_handling (fuel : nat) (self : Z) (w : world) : res world :=
  let '(s, pfds) := sys_malloc_pfds (li_sys (iw_env w)) in
  let w := iw_set_env w (li_set_sys (iw_env w) s) in
  match pfds with
  | None => Ok w
  | Some pfds =>
      let '(s, _) := sys_setscheduler (li_sys (iw_env w)) in
      irq_handling_loop fuel self (iw_set_env w (li_set_sys (iw_env w) s)) pfds
  end.

(** ** Start and stop *)

(** [memset(&irqs, 0, sizeof(irqs))] *)
Definition clear_irqs (w : world) : res world :=
  c ← get_cntr w linux_irq_cntr;
  Ok (iw_set_cntrs w (iw_cntrs w)
        (<[linux_irq_cntr := ic_set_irqs c (replicate (Z.to_nat MAX_IRQS) (mk_irq 0 0))]> (iw_heap w))).

Definition metal_linux_irq_init (w : world) : res (world * Z) :=
  w ← clear_irqs w;
  let '(s, fd) := sys_eventfd (li_sys (iw_env w)) in
  let w := iw_set_env w (li_set_fd (li_set_sys (iw_env w) s) fd) in
  if fd <? 0 then Ok (w, - EAGAIN)
  else
    let w := iw_set_env w (li_set_stop (li_set_lock (iw_env w) None) false) in
    '(w, ret) ← metal_irq_register_controller w linux_irq_cntr;
    if ret <? 0 then Ok (w, - EINVAL)
    else
      let '(s, ret, t) := sys_pthread_create (li_sys (iw_env w)) in
      let w := iw_set_env w (li_set_pthread (li_set_sys (iw_env w) s) t) in
      if negb (ret =? 0) then Ok (w, - EAGAIN) else Ok (w, 0).

Definition metal_linux_irq_shutdown (w : world) : world :=
  let w := iw_set_env w (li_set_stop (iw_env w) true) in
  let '(w, _) := metal_linux_irq_notify w in
  let '(s, _) := sys_pthread_join (li_sys (iw_env w)) (li_pthread (iw_env w)) in
  let s := sys_close s (li_notify_fd (iw_env w)) in
  iw_set_env w (li_set_sys (iw_env w) s).

Definition metal_linux_irq_register_dev (l : lirq Sys) (dev irq : Z) : res (lirq Sys) :=
  if MAX_IRQS <? irq then Ok l
  else d ← rset (li_devs l) irq dev; Ok (li_set_devs l d).
End linux_irq.
