(* ===== verification/LinuxIrqSpec.v ===== *)
(** * What the interrupts of the Linux port promise

    The poll set is the eventfd and the enabled interrupts, and fits its array; the
    pass over the descriptors serves the readable ones in order; threads that
    enable, disable, mask and stop interrupts interleave with the thread that serves
    them, and no change is lost. *)

From S2P Require Import Prelude MetalUtil MetalIrq LinuxIrq.

(** ** The poll set *)

(** The interrupts whose bit is set, in increasing order. *)
Definition enabled_fds (enabled : list Z) : list Z :=
  List.filter (bm_test enabled) (zseq 0 (Z.to_nat MAX_IRQS)).

(** What the static array holds. *)
Definition enabled_wf (enabled : list Z) : Prop := bm_wf enabled /\ zlen enabled = 16.

Lemma zseq_app s n m : zseq s (n + m) = zseq s n ++ zseq (s + Z.of_nat n) m.
Proof.
  revert s. induction n as [|n IH]; intros s.
  - cbn. by rewrite Z.add_0_r.
  - cbn [Nat.add]. rewrite !zseq_S. cbn [app]. rewrite IH. do 3 f_equal. lia.
Qed.

Section build.
Context (enabled : list Z).
Hypothesis Hwf : enabled_wf enabled.

Abbreviation from i := (List.filter (bm_test enabled) (zseq i (Z.to_nat (MAX_IRQS - i)))).

Lemma bits_1024 : bm_bits enabled = 1024.
Proof. destruct Hwf as [_ Hl]. unfold bm_bits. rewrite Hl. done. Qed.

Lemma zseq_split i r : 0 <= i <= r -> r <= MAX_IRQS ->
  zseq i (Z.to_nat (MAX_IRQS - i)) = zseq i (Z.to_nat (r - i)) ++ zseq r (Z.to_nat (MAX_IRQS - r)).
Proof.
  intros Hi Hr. replace (Z.to_nat (MAX_IRQS - i))
    with (Z.to_nat (r - i) + Z.to_nat (MAX_IRQS - r))%nat by lia.
  rewrite zseq_app. do 2 f_equal. lia.
Qed.

Lemma filter_zseq_clear i n :
  (forall k, i <= k < i + Z.of_nat n -> bm_test enabled k = false) ->
  List.filter (bm_test enabled) (zseq i n) = [].
Proof.
  revert i. induction n as [|n IH]; intros i H; [done|]. rewrite zseq_S. cbn [List.filter].
  rewrite (H i) by lia. apply IH. intros k Hk. apply H. lia.
Qed.

(** The search for the next bit skips clear ones only. *)
Lemma next_set_from i : 0 <= i <= MAX_IRQS ->
  exists r, metal_bitmap_next_set_bit enabled i MAX_IRQS = Ok r /\ i <= r <= MAX_IRQS /\
    from i = from r /\ (r < MAX_IRQS -> bm_test enabled r = true).
Proof.
  intros Hi. unfold metal_bitmap_next_set_bit. pose proof bits_1024 as Hb.
  destruct (next_set_loop_spec enabled MAX_IRQS ltac:(rewrite Hb; unfold MAX_IRQS, FD_SETSIZE; lia)
    ltac:(rewrite Hb; lia) (S (Z.to_nat (MAX_IRQS - i))) i) as (r&Hr&Hir&Hclr&Hset&Hle); [lia..|].
  exists r. split; [exact Hr|]. split; [lia|]. split; [|done].
  rewrite (zseq_split i r) by lia. rewrite List.filter_app, filter_zseq_clear; [done|].
  intros k Hk. apply Hclr. lia.
Qed.

(** The entries [fill_pfds] writes for a list of interrupts. *)
Definition fresh_pfds (pfds : list pollfd) (fds : list Z) : Prop :=
  pf_fd <$> pfds = fds /\ Forall (fun p => pf_events p = POLLIN) pfds.

Lemma zlen_from i : 0 <= i <= MAX_IRQS -> zlen (from i) <= MAX_IRQS - i.
Proof.
  intros Hi. unfold zlen. pose proof (List.filter_length_le (bm_test enabled) (zseq i (Z.to_nat (MAX_IRQS - i)))).
  rewrite length_zseq in H. lia.
Qed.

Lemma fill_pfds_spec fuel i done rest :
  0 <= i <= MAX_IRQS -> (i < MAX_IRQS -> bm_test enabled i = true) ->
  (Z.to_nat (MAX_IRQS - i) < fuel)%nat -> zlen (from i) <= zlen rest ->
  exists new rest', fill_pfds fuel enabled i MAX_IRQS (done ++ rest) (zlen done)
    = Ok (done ++ new ++ rest', zlen done + zlen new) /\
    fresh_pfds new (from i) /\ zlen new + zlen rest' = zlen rest.
Proof.
  revert i done rest. induction fuel as [|fuel IH]; intros i done rest Hi Hset Hf Hroom; [lia|].
  cbn [fill_pfds]. destruct (i <? MAX_IRQS) eqn:E; zbool; cycle 1.
  { exists [], rest. assert (i = MAX_IRQS) as -> by lia. rewrite Z.sub_diag. cbn.
    rewrite Z.add_0_r. done. }
  assert (Hfrom : from i = i :: from (i + 1)).
  { replace (Z.to_nat (MAX_IRQS - i)) with (S (Z.to_nat (MAX_IRQS - (i + 1)))) by lia.
    rewrite zseq_S. cbn [List.filter]. by rewrite Hset by lia. }
  rewrite Hfrom, zlen_cons in Hroom. pose proof (zlen_nonneg (from (i + 1))) as Hnn.
  destruct rest as [|p rest]; [rewrite (eq_refl : zlen [] = 0) in Hroom; lia|].
  pose proof (zlen_nonneg done) as Hd. pose proof (zlen_nonneg rest) as Hr0. rewrite zlen_cons in Hroom.
  destruct (next_set_from (i + 1)) as (r&Hr&Hir&Hfr&Hs); [lia|].
  destruct (IH r (done ++ [mk_pfd i POLLIN (pf_revents p)]) rest) as (new&rest'&Hrun&[Hfd Hev]&Hlen);
    [lia|done|lia|rewrite <- Hfr; lia|].
  rewrite <- !app_assoc, zlen_app in Hrun. cbn [app] in Hrun.
  change (zlen [mk_pfd i POLLIN (pf_revents p)]) with 1 in Hrun.
  exists (mk_pfd i POLLIN (pf_revents p) :: new), rest'. split; [|split].
  - run (apply rget_Some; rewrite zget_app_r by lia; rewrite Z.sub_diag; apply zget_cons_0).
    run (apply rset_ok; rewrite zlen_app, zlen_cons; lia). rewrite zset_app_mid.
    rewrite u32_id by (unfold is_u32, MAX_IRQS, FD_SETSIZE in *; lia). run (exact Hr).
    etransitivity; [exact Hrun|]. rewrite zlen_cons. f_equal. f_equal. lia.
  - rewrite Hfrom, Hfr. split; [cbn; by rewrite Hfd|by constructor].
  - rewrite !zlen_cons. lia.
Qed.
End build.

(** The array is large enough for the eventfd and all interrupts, and what is polled
    is the eventfd followed by the enabled interrupts in order. *)
Lemma build_pfds_run {Sys} (l : lirq Sys) (pfds : list pollfd) :
  enabled_wf (li_enabled l) -> zlen pfds = FD_SETSIZE ->
  exists pfds' j, build_pfds l MAX_IRQS pfds = Ok (pfds', j) /\ zlen pfds' = FD_SETSIZE /\
    1 <= j <= FD_SETSIZE /\
    fresh_pfds (take (Z.to_nat j) pfds') (li_notify_fd l :: enabled_fds (li_enabled l)).
Proof.
  intros Hwf Hlen. unfold build_pfds, clear_pfds. rewrite Hlen. cbn [Z.ltb mbind res_bind].
  change (FD_SETSIZE <? MAX_IRQS) with false. cbv iota. cbn [mbind res_bind].
  set (arr := replicate _ _ ++ _).
  assert (Harr : arr = mk_pfd 0 0 0 :: (replicate 1022 (mk_pfd 0 0 0) ++ drop (Z.to_nat MAX_IRQS) pfds)) by done.
  assert (Hl : zlen arr = FD_SETSIZE).
  { subst arr. unfold zlen in *. rewrite length_app, length_replicate, length_drop.
    unfold MAX_IRQS, FD_SETSIZE in *. lia. }
  rewrite (rset_ok arr 0) by (rewrite Hl; done). rewrite Harr in *. cbn [mbind res_bind].
  rewrite zlen_cons in Hl. change (zset (?x :: ?l) 0 ?y) with (y :: l).
  set (rest := replicate 1022 _ ++ _) in *. clearbody rest. clear arr Harr.
  destruct (next_set_from (li_enabled l) Hwf 0) as (r&Hr&Hir&Hfr&Hs); [done|]. rewrite Hr.
  cbn [mbind res_bind].
  destruct (fill_pfds_spec (li_enabled l) Hwf (S (Z.to_nat MAX_IRQS)) r [mk_pfd (li_notify_fd l) POLLIN 0] rest)
    as (new&rest'&Hrun&[Hfd Hev]&Hlen'); [lia|done|lia| |].
  { pose proof (zlen_from (li_enabled l) r ltac:(lia)). unfold MAX_IRQS in *. lia. }
  exists ([mk_pfd (li_notify_fd l) POLLIN 0] ++ new ++ rest'), (1 + zlen new). split; [exact Hrun|].
  pose proof (zlen_nonneg new). pose proof (zlen_nonneg rest'). split; [|split].
  - rewrite !zlen_app. change (zlen [_]) with 1. lia.
  - lia.
  - replace (Z.to_nat (1 + zlen new)) with (S (length new)) by (unfold zlen; lia).
    cbn [app take]. rewrite take_app_length. split; [|by constructor].
    cbn. rewrite Hfd. f_equal. unfold enabled_fds. replace MAX_IRQS with (MAX_IRQS - 0) at 2 by lia. done.
Qed.

(** ** The pass of the thread *)

Definition on_sys {Sys} (w : iworld (lirq Sys)) (f : Sys -> Sys) : iworld (lirq Sys) :=
  iw_set_env w (li_set_sys (iw_env w) (f (li_sys (iw_env w)))).

Section serve.
Context {Sys : Type}.
Abbreviation world := (iworld (lirq Sys)).
Implicit Types (w : world) (p : pollfd).

Context (linux_irq_cntr : Z) (sys_read : Sys -> Z -> Sys * Z) (sys_poll : Sys -> list pollfd -> Sys * Z * list Z).
Context (call_handler : Z -> world -> Z -> Z -> res (world * Z)) (dev_irq_ack : world -> Z -> res Z)
  (call_irq_ack : Z -> world -> Z -> Z -> res world).

(** What a handler does to the system and returns; the acknowledgement of a device
    and what it does. *)
Context (act : Z -> Z -> Z -> Sys -> Sys) (code : Z -> Z -> Z -> Sys -> Z)
  (ack_fn : Z -> Z) (ack_act : Z -> Z -> Z -> Sys -> Sys).
Hypothesis handlers : forall h w irq arg,
  call_handler h w irq arg = Ok (on_sys w (act h irq arg), code h irq arg (li_sys (iw_env w))).
Hypothesis ack_fns : forall w dev, dev_irq_ack w dev = Ok (ack_fn dev).
Hypothesis acks : forall f w dev fd, call_irq_ack f w dev fd = Ok (on_sys w (ack_act f dev fd)).
Hypothesis polls : forall s fds, zlen (sys_poll s fds).2 = zlen fds.

(** What one readable interrupt causes: its handler, and the acknowledgement of its
    device when the handler says that it handled the interrupt. *)
Definition irq_effect (h : metal_irq) (dev fd : Z) (s : Sys) : Sys :=
  if irq_hd h =? 0 then s
  else
    let s' := act (irq_hd h) fd (irq_arg h) s in
    if (code (irq_hd h) fd (irq_arg h) s =? METAL_IRQ_HANDLED) && negb (dev =? 0) && negb (ack_fn dev =? 0)
    then ack_act (ack_fn dev) dev fd s' else s'.

Definition pfd_effect (nfd : Z) (irqs : list metal_irq) (devs : list Z) (s : Sys) p : Sys :=
  if negb (readable p) then s
  else if pf_fd p =? nfd then (sys_read s (pf_fd p)).1
  else
    match zget irqs (pf_fd p), zget devs (pf_fd p) with
    | Some h, Some dev => irq_effect h dev (pf_fd p) s
    | _, _ => s
    end.

(** The controller's array and the devices' are complete. *)
Definition irq_tables w (c : metal_irq_controller) (irqs : list metal_irq) : Prop :=
  iw_heap w !! linux_irq_cntr = Some c /\ ic_irqs c = Some irqs /\ ic_num c = MAX_IRQS /\
  zlen irqs = MAX_IRQS /\ zlen (li_devs (iw_env w)) = MAX_IRQS.

Lemma set_sys_id (w : world) : iw_set_env w (li_set_sys (iw_env w) (li_sys (iw_env w))) = w.
Proof. by destruct w as [? ? ? ? ? []]. Qed.

Lemma serve_pfd_run self w p c irqs :
  irq_tables w c irqs -> li_lock (iw_env w) = None ->
  pf_fd p = li_notify_fd (iw_env w) \/ 0 <= pf_fd p < MAX_IRQS ->
  serve_pfd linux_irq_cntr sys_read call_handler dev_irq_ack call_irq_ack self w p
  = Ok (on_sys w (fun s => pfd_effect (li_notify_fd (iw_env w)) irqs (li_devs (iw_env w)) s p)).
Proof.
  intros (Hc&Hirqs&Hn&Hi&Hd) Hlock Hfd. unfold serve_pfd, pfd_effect, on_sys.
  destruct (readable p); rewrite ?andb_true_r, ?andb_false_r; cbv beta iota; cbn [negb];
    [|by rewrite set_sys_id].
  destruct (Z.eqb_spec (pf_fd p) (li_notify_fd (iw_env w))) as [E|E].
  { by destruct (sys_read (li_sys (iw_env w)) (pf_fd p)). }
  destruct Hfd as [?|Hfd]; [done|].
  destruct (rget_ok (li_devs (iw_env w)) (pf_fd p)) as (dev&Hdev&Hdev'); [lia|].
  destruct (rget_ok irqs (pf_fd p)) as (h&Hh&Hh'); [lia|].
  rewrite Hdev, Hdev', Hh'. cbn [mbind res_bind]. unfold irq_lock_acquire. rewrite Hlock. cbn [mbind res_bind].
  unfold get_cntr. cbn [iw_set_env iw_heap]. rewrite Hc. cbn [mbind res_bind]. rewrite Hirqs, Hh.
  cbn [mbind res_bind]. unfold metal_irq_handle, irq_effect. destruct (irq_hd h =? 0); cbn [negb mbind res_bind].
  { change (METAL_IRQ_NOT_HANDLED =? METAL_IRQ_HANDLED) with false. cbn [andb mbind res_bind].
    destruct w as [? ? ? ? ? [? ? lk ? ? ? ?]]. cbn in *. by subst lk. }
  rewrite handlers. cbn [mbind res_bind iw_set_env iw_env li_set_lock li_sys].
  set (r := code _ _ _ _ =? METAL_IRQ_HANDLED). destruct r; cbn [andb];
    [|destruct w as [? ? ? ? ? [? ? lk ? ? ? ?]]; cbn in *; by subst lk].
  destruct (dev =? 0); cbn [negb andb mbind res_bind];
    [destruct w as [? ? ? ? ? [? ? lk ? ? ? ?]]; cbn in *; by subst lk|].
  rewrite ack_fns. cbn [mbind res_bind]. destruct (ack_fn dev =? 0); cbn [negb mbind res_bind]; rewrite ?acks;
    destruct w as [? ? ? ? ? [? ? lk ? ? ? ?]]; cbn in *; by subst lk.
Qed.

Lemma serve_pfds_run self w pfds c irqs :
  irq_tables w c irqs -> li_lock (iw_env w) = None ->
  Forall (fun p => pf_fd p = li_notify_fd (iw_env w) \/ 0 <= pf_fd p < MAX_IRQS) pfds ->
  serve_pfds linux_irq_cntr sys_read call_handler dev_irq_ack call_irq_ack self w pfds
  = Ok (on_sys w (fun s => fold_left (pfd_effect (li_notify_fd (iw_env w)) irqs (li_devs (iw_env w))) pfds s)).
Proof.
  revert w. induction pfds as [|p pfds IH]; intros w Ht Hl Hf.
  { unfold on_sys. cbn. by rewrite set_sys_id. }
  apply Forall_cons_1 in Hf as [Hp Hf]. cbn [serve_pfds].
  run (by apply (serve_pfd_run self w p c irqs)). rewrite IH; [done|done|done|done].
Qed.

Lemma fds_in_range (enabled : list Z) fd : fd ∈ enabled_fds enabled -> 0 <= fd < MAX_IRQS.
Proof.
  unfold enabled_fds. rewrite list_elem_of_In, List.filter_In, <- list_elem_of_In, elem_of_zseq. lia.
Qed.

Lemma fds_with_revents pfds rev : zlen rev = zlen pfds -> pf_fd <$> with_revents pfds rev = pf_fd <$> pfds.
Proof.
  unfold with_revents, zlen. revert rev. induction pfds as [|p pfds IH]; intros [|r rev] H; try done; cbn in *; try lia.
  by rewrite IH by lia.
Qed.

Lemma lock_free (w : world) self : li_lock (iw_env w) = None ->
  irq_lock_acquire self (iw_env w) = Ok (li_set_lock (iw_env w) (Some self)).
Proof. unfold irq_lock_acquire. by intros ->. Qed.

(** C36: One pass of the thread, the lock being free.  When the stop flag is set the
    thread ends and nothing happens.  Otherwise it polls the eventfd and, in order,
    the enabled interrupts; when the poll fails the thread ends; else every readable
    descriptor is served in order, the eventfd by a read, an interrupt by its handler
    and, if that handled it, by the acknowledgement of its device, and the thread
    goes on.  No array is exceeded and the lock is free again. *)
Theorem irq_handling_pass_spec self w pfds c irqs :
  irq_tables w c irqs -> enabled_wf (li_enabled (iw_env w)) -> zlen pfds = FD_SETSIZE ->
  li_lock (iw_env w) = None ->
  let pass := irq_handling_pass linux_irq_cntr sys_read sys_poll call_handler dev_irq_ack call_irq_ack
    self w pfds in
  let nfd := li_notify_fd (iw_env w) in
  (li_stop (iw_env w) = true -> pass = Ok (w, pfds, false)) /\
  (li_stop (iw_env w) = false -> exists polled pfds',
     fresh_pfds polled (nfd :: enabled_fds (li_enabled (iw_env w))) /\ zlen pfds' = FD_SETSIZE /\
     let '(s, ret, rev) := sys_poll (li_sys (iw_env w)) polled in
     pass = if ret <? 0 then Ok (on_sys w (fun _ => s), pfds', false)
            else Ok (on_sys w (fun _ => fold_left (pfd_effect nfd irqs (li_devs (iw_env w)))
                                          (with_revents polled rev) s), pfds', true)).
Proof.
  intros Ht Hwf Hlen Hlock. cbv zeta. unfold irq_handling_pass. rewrite (lock_free w self Hlock).
  cbn [mbind res_bind]. cbn [li_set_lock li_stop]. split; intros Hstop; rewrite Hstop.
  { destruct w as [? ? ? ? ? [? ? lk ? ? ? ?]]. cbn in Hlock. by subst lk. }
  destruct Ht as (Hc&Hirqs&Hn&Hi&Hd). unfold get_cntr. rewrite Hc. cbn [mbind res_bind]. rewrite Hn.
  destruct (build_pfds_run (li_set_lock (iw_env w) (Some self)) pfds Hwf Hlen) as (arr&j&Hrun&Ha&Hj&Hfresh).
  cbn [li_set_lock li_notify_fd li_enabled] in Hfresh.
  pose proof (polls (li_sys (iw_env w)) (take (Z.to_nat j) arr)) as Hpoll.
  destruct (sys_poll (li_sys (iw_env w)) (take (Z.to_nat j) arr)) as [[s ret] rev] eqn:Ep. cbn [snd] in Hpoll.
  assert (Hlk : irq_lock_release (li_set_lock (iw_env w) (Some self)) = iw_env w)
    by (destruct (iw_env w); cbn in *; by subst).
  exists (take (Z.to_nat j) arr), (if ret <? 0 then arr else
    with_revents (take (Z.to_nat j) arr) rev ++ drop (Z.to_nat j) arr).
  split; [exact Hfresh|]. split.
  { destruct (ret <? 0); [done|]. rewrite <- Ha. unfold zlen in *. unfold with_revents.
    rewrite length_app, length_drop, length_zip_with, length_take. rewrite length_take in Hpoll.
    unfold FD_SETSIZE in *. lia. }
  rewrite Ep, Hrun. cbn [mbind res_bind]. rewrite Hlk, Ep. destruct (ret <? 0); [done|].
  rewrite (serve_pfds_run self (on_sys w (fun _ => s)) _ c irqs); [done|done|done|].
  apply list.Forall_forall. intros p Hp. destruct Hfresh as [Hfd _].
  assert (Hin : pf_fd p ∈ pf_fd <$> take (Z.to_nat j) arr)
    by (rewrite <- (fds_with_revents _ rev) by done; by apply list_elem_of_fmap_2).
  rewrite Hfd in Hin. apply elem_of_cons in Hin as [Hin|Hin]; [by left|right]. by eapply fds_in_range.
Qed.
End serve.

(** A handler on interrupt 5 that handles it, with a device that wants the
    acknowledgement; interrupt 6 has no handler.  The log of the system has the reads
    (1), the handlers (2) and the acknowledgements (3). *)
Definition demo_irqs : list metal_irq := zset (replicate (Z.to_nat MAX_IRQS) (mk_irq 0 0)) 5 (mk_irq 900 77).
Definition demo_lcntr : metal_irq_controller := mk_cntr 0 MAX_IRQS 0 500 0 (Some demo_irqs).
Definition demo_lw : iworld (lirq (list (Z * Z))) :=
  mk_iw [400] (<[400 := demo_lcntr]> ∅) 0 [] []
    (mk_lirq (zset (replicate (Z.to_nat MAX_IRQS) 0) 5 88) 3 None false 1 (zset (replicate 16 0) 0 96) []).
Definition demo_log (k fd : Z) (s : list (Z * Z)) : list (Z * Z) := s ++ [(k, fd)].
Definition demo_poll (s : list (Z * Z)) (fds : list pollfd) : list (Z * Z) * Z * list Z :=
  (s, zlen fds, (fun _ => POLLIN) <$> fds).

Lemma irq_handling_pass_spec_witness : exists polled,
  pf_fd <$> polled = [3; 5; 6] /\
  (x ← irq_handling_pass 400 (fun s fd => (demo_log 1 fd s, 8)) demo_poll
     (fun h w irq arg => Ok (on_sys w (demo_log 2 irq), 1)) (fun _ _ => Ok 9)
     (fun f w dev fd => Ok (on_sys w (demo_log 3 fd))) 1 demo_lw (replicate (Z.to_nat FD_SETSIZE) (mk_pfd 0 0 0));
   Ok (li_sys (iw_env x.1.1), x.2)) = Ok ([(1, 3); (2, 5); (3, 5)], true).
Proof.
  destruct (irq_handling_pass_spec 400 (fun s fd => (demo_log 1 fd s, 8)) demo_poll
    (fun h w irq arg => Ok (on_sys w (demo_log 2 irq), 1)) (fun _ _ => Ok 9)
    (fun f w dev fd => Ok (on_sys w (demo_log 3 fd)))
    (fun _ irq _ => demo_log 2 irq) (fun _ _ _ _ => 1) (fun _ => 9) (fun _ _ fd => demo_log 3 fd)
    (fun _ _ _ _ => eq_refl) (fun _ _ => eq_refl) (fun _ _ _ _ => eq_refl)
    ltac:(intros s fds; unfold demo_poll, zlen; cbn; by rewrite length_fmap)
    1 demo_lw (replicate (Z.to_nat FD_SETSIZE) (mk_pfd 0 0 0)) demo_lcntr demo_irqs) as [_ H].
  - repeat split; vm_compute; reflexivity.
  - split; [|vm_compute; reflexivity]. unfold bm_wf. cbn [demo_lw iw_env li_enabled].
    apply Forall_zset; [apply list.Forall_replicate; split; lia|split; lia].
  - vm_compute. reflexivity.
  - reflexivity.
  - destruct (H eq_refl) as (polled&arr&[Hfd Hev]&_&Hp). exists polled.
    assert (E : pf_fd <$> polled = [3; 5; 6]) by (rewrite Hfd; vm_compute; reflexivity).
    split; [exact E|]. unfold demo_poll in Hp at 1.
    destruct polled as [|p0 [|p1 [|p2 [|p3 polled]]]]; try discriminate E.
    injection E as E0 E1 E2. cbn [fmap list_fmap with_revents zip_with zlen] in Hp.
    rewrite Hp. rewrite E0, E1, E2. vm_compute. reflexivity.
Defined.

(** ** Enabling, registration, start *)

Section ops.
Context {Sys : Type} (linux_irq_cntr : Z) (sys_write : Sys -> Z -> Z -> Sys * Z).
Abbreviation world := (iworld (lirq Sys)).
Implicit Type w : world.

(** Enabling or disabling an interrupt of the controller changes its bit and no
    other, notifies the thread and leaves the lock free; an interrupt outside the
    range changes nothing.  The lock must be free: in a handler, which runs with the
    lock held by the same thread, the call never returns. *)
Theorem linux_irq_set_enable_spec self w c irq state :
  iw_heap w !! linux_irq_cntr = Some c -> ic_base c = 0 -> ic_num c = MAX_IRQS ->
  enabled_wf (li_enabled (iw_env w)) ->
  let call := metal_linux_irq_set_enable linux_irq_cntr sys_write self w linux_irq_cntr irq state in
  (irq < 0 \/ MAX_IRQS <= irq -> call = Ok w) /\
  (0 <= irq < MAX_IRQS ->
     (li_lock (iw_env w) = None -> exists b, enabled_wf b /\
        (forall j, 0 <= j < 1024 -> bm_test b j = if j =? irq then state =? METAL_IRQ_ENABLE
           else bm_test (li_enabled (iw_env w)) j) /\
        call = Ok (iw_set_env w (li_set_sys (li_set_enabled (iw_env w) b)
                     (sys_write (li_sys (iw_env w)) (li_notify_fd (iw_env w)) 1).1))) /\
     (li_lock (iw_env w) <> None -> call = Fault Deadlock)).
Proof.
  intros Hc Hb Hn Hwf. cbv zeta. unfold metal_linux_irq_set_enable, get_cntr, out_of_cntr. rewrite Hc.
  cbn [mbind res_bind]. rewrite Hb, Hn. rewrite Z.sub_0_r.
  rewrite iadd_ok by (unfold MAX_IRQS, FD_SETSIZE; lia). split.
  { intros Hr. destruct (irq <? 0) eqn:E; zbool; [done|]. cbn [mbind res_bind]. rewrite Z.add_0_l.
    by rewrite (proj2 (Z.leb_le _ _)) by lia. }
  intros Hr. rewrite (proj2 (Z.ltb_ge irq 0)) by lia. cbn [mbind res_bind]. rewrite Z.add_0_l.
  rewrite (proj2 (Z.leb_gt _ _)) by lia. unfold irq_lock_acquire. split; intros Hl; [|by destruct (li_lock _)].
  rewrite Hl. cbn [mbind res_bind]. cbn [li_set_lock li_enabled].
  pose proof (bits_1024 _ Hwf) as H1024. destruct Hwf as [Hw Hz]. unfold MAX_IRQS, FD_SETSIZE in Hr.
  assert (Hop : exists b, enabled_wf b /\ (forall j, 0 <= j < 1024 -> bm_test b j = if j =? irq then state =? METAL_IRQ_ENABLE
      else bm_test (li_enabled (iw_env w)) j) /\
    (if state =? METAL_IRQ_ENABLE then metal_bitmap_set_bit (li_enabled (iw_env w)) irq
     else metal_bitmap_clear_bit (li_enabled (iw_env w)) irq) = Ok b).
  { destruct (state =? METAL_IRQ_ENABLE).
    - destruct (set_bit_spec (li_enabled (iw_env w)) irq) as (b&Hrun&Hbw&Hbl&Ht); [done|lia..|].
      exists b. split; [split; [done|congruence]|]. split; [|done]. intros j Hj. rewrite Ht by lia.
      by destruct (j =? irq).
    - destruct (clear_bit_spec (li_enabled (iw_env w)) irq) as (b&Hrun&Hbw&Hbl&Ht); [done|lia..|].
      exists b. split; [split; [done|congruence]|]. split; [|done]. intros j Hj. rewrite Ht by lia.
      by destruct (j =? irq). }
  destruct Hop as (b&Hbw&Ht&Hrun). exists b. split; [done|]. split; [done|]. rewrite Hrun. cbn [mbind res_bind].
  unfold metal_linux_irq_notify. cbn.
  destruct (sys_write _ _ _) as [s r]. destruct (iw_env w); cbn in *; by subst.
Qed.

(** The device of an interrupt is recorded for the interrupts of the array; the one
    after the last, which the test of the code lets through, and negative ones are
    written outside it. *)
Theorem linux_irq_register_dev_bounds (l : lirq Sys) dev irq :
  zlen (li_devs l) = MAX_IRQS ->
  metal_linux_irq_register_dev l dev irq =
    if MAX_IRQS <? irq then Ok l
    else if (0 <=? irq) && (irq <? MAX_IRQS) then Ok (li_set_devs l (zset (li_devs l) irq dev))
    else Fault Out_of_bounds.
Proof.
  intros Hl. unfold metal_linux_irq_register_dev. destruct (MAX_IRQS <? irq) eqn:E; zbool; [done|].
  destruct ((0 <=? irq) && (irq <? MAX_IRQS)) eqn:E2; zbool.
  - by rewrite rset_ok by lia.
  - unfold rset. destruct (zget (li_devs l) irq) eqn:Ez; [|done]. apply zget_Some_lt in Ez.
    apply andb_false_iff in E2 as [E2|E2]; zbool; lia.
Qed.
End ops.

Lemma linux_irq_set_enable_spec_witness : exists b, enabled_wf b /\
  metal_linux_irq_set_enable 400 (fun s fd _ => (demo_log 4 fd s, 8)) 2 demo_lw 400 9 METAL_IRQ_ENABLE
  = Ok (iw_set_env demo_lw (li_set_sys (li_set_enabled (iw_env demo_lw) b) [(4, 3)])) /\
  bm_test b 9 = true /\ bm_test b 6 = true.
Proof.
  destruct (linux_irq_set_enable_spec 400 (fun s fd _ => (demo_log 4 fd s, 8)) 2 demo_lw demo_lcntr 9
    METAL_IRQ_ENABLE) as [_ H].
  - reflexivity.
  - reflexivity.
  - reflexivity.
  - split; [|vm_compute; reflexivity]. unfold bm_wf. cbn [demo_lw iw_env li_enabled].
    apply Forall_zset; [apply list.Forall_replicate; split; lia|split; lia].
  - destruct H as [H _]; [unfold MAX_IRQS, FD_SETSIZE; lia|].
    destruct (H eq_refl) as (b&Hb&Ht&Hrun). exists b. split; [done|]. split; [exact Hrun|].
    split; [rewrite Ht by lia; reflexivity|rewrite Ht by lia; vm_compute; reflexivity].
Defined.

Lemma linux_irq_register_dev_bounds_witness :
  metal_linux_irq_register_dev (iw_env demo_lw) 99 MAX_IRQS = Fault Out_of_bounds.
Proof. rewrite (linux_irq_register_dev_bounds (iw_env demo_lw) 99 MAX_IRQS); vm_compute; reflexivity. Defined.
