(* ===== verification/LinuxIrqSys.v ===== *)
(** * The threads around the interrupts of the Linux port

    The thread that serves interrupts ([metal_linux_irq_handling]) and any number of
    threads that enable and disable interrupts ([metal_linux_irq_set_enable]), mask
    them ([metal_irq_save_disable]) and stop the serving
    ([metal_linux_irq_shutdown]).  A thread is a point of its code; a step is a lock
    operation, an access to the shared variables or a system call.  Of the kernel the
    model has what eventfd(2) and poll(2) promise: a write adds to the counter, a read
    takes it all, the eventfd is readable while the counter is positive, and a poll
    without timeout returns once a descriptor is ready. *)

From S2P Require Import Prelude MetalUtil MetalIrq LinuxIrq LinuxIrqSpec.

(** ** The points of the code *)

(** Of [metal_linux_irq_handling]. *)
Inductive tpoint : Type :=
| T_lock                                        (** before the lock of the pass *)
| T_test                                        (** at [if (irq_handling_stop)] *)
| T_leave                                       (** before the unlock that precedes the [break] *)
| T_build                                       (** before the poll set is built *)
| T_unlock (set : list pollfd)                  (** before the unlock of the pass *)
| T_poll (set : list pollfd)                    (** in [poll] *)
| T_serve (rest : list pollfd)                  (** in the [for] *)
| T_irq_lock (fd : Z) (rest : list pollfd)      (** before the lock around a handler *)
| T_handle (fd : Z) (rest : list pollfd)        (** handler and acknowledgement *)
| T_irq_unlock (rest : list pollfd)             (** before the unlock after them *)
| T_done.                                       (** the thread ended *)

(** Of a client. *)
Inductive cpoint : Type :=
| C_idle
| C_set_lock (offset state : Z)                 (** [set_enable] before the lock *)
| C_set_bit (offset state : Z)                  (** before the bitmap is changed *)
| C_set_unlock                                  (** before the unlock *)
| C_notify                                      (** before the write to the eventfd *)
| C_save_lock                                   (** [save_disable] before the lock *)
| C_saved                                       (** interrupts are masked *)
| C_stop_notify                                 (** [shutdown] before the write *)
| C_join.                                       (** [shutdown] in [pthread_join] *)

(** The state of the system is the counter of the eventfd. *)
Record lsys := mk_lsys {
  ls_l : lirq Z;
  ls_t : tpoint;
  ls_c : list cpoint
}.

(** The serving thread is number 0, the clients follow. *)
Definition client_id (i : nat) : Z := Z.of_nat i + 1.

(** [write(irq_notify_fd, 1)]: it blocks when the counter would overflow. *)
Definition eventfd_write (l : lirq Z) : option (lirq Z) :=
  if li_sys l <? 18446744073709551614 then Some (li_set_sys l (li_sys l + 1)) else None.

(** A lock operation that cannot proceed blocks. *)
Definition try_lock (self : Z) (l : lirq Z) : option (lirq Z) :=
  match irq_lock_acquire self l with Ok l => Some l | Fault _ => None end.

(** One step of a client inside a call. *)
Definition cstep (self : Z) (l : lirq Z) (p : cpoint) : option (lirq Z * cpoint) :=
  match p with
  | C_idle | C_join => None
  | C_set_lock offset state => l ← try_lock self l; Some (l, C_set_bit offset state)
  | C_set_bit offset state =>
      match (if state =? METAL_IRQ_ENABLE then metal_bitmap_set_bit (li_enabled l) offset
             else metal_bitmap_clear_bit (li_enabled l) offset) with
      | Ok b => Some (li_set_enabled l b, C_set_unlock)
      | Fault _ => None
      end
  | C_set_unlock => Some (irq_lock_release l, C_notify)
  | C_notify => l ← eventfd_write l; Some (l, C_idle)
  | C_save_lock => l ← try_lock self l; Some (l, C_saved)
  | C_saved => Some (metal_irq_restore_enable self l 0, C_idle)
  | C_stop_notify => l ← eventfd_write l; Some (l, C_join)
  end.

(** The calls of an idle client: [set_enable] of an interrupt of the controller,
    [save_disable], and [shutdown] up to the assignment of the flag. *)
Inductive ccall (l : lirq Z) : lirq Z -> cpoint -> Prop :=
| Call_set offset state : 0 <= offset < MAX_IRQS -> ccall l l (C_set_lock offset state)
| Call_save : ccall l l C_save_lock
| Call_stop : ccall l (li_set_stop l true) C_stop_notify.

(** One step of the serving thread, except in [poll]. *)
Definition tstep (arr : list pollfd) (l : lirq Z) (p : tpoint) : option (lirq Z * tpoint) :=
  match p with
  | T_lock => l ← try_lock 0 l; Some (l, T_test)
  | T_test => Some (l, if li_stop l then T_leave else T_build)
  | T_leave => Some (irq_lock_release l, T_done)
  | T_build =>
      match build_pfds l MAX_IRQS arr with
      | Ok (arr', j) => Some (l, T_unlock (take (Z.to_nat j) arr'))
      | Fault _ => None
      end
  | T_unlock set => Some (irq_lock_release l, T_poll set)
  | T_serve [] => Some (l, T_lock)
  | T_serve (p :: rest) =>
      if (pf_fd p =? li_notify_fd l) && readable p then Some (li_set_sys l 0, T_serve rest)
      else if readable p then Some (l, T_irq_lock (pf_fd p) rest)
      else Some (l, T_serve rest)
  | T_irq_lock fd rest => l ← try_lock 0 l; Some (l, T_handle fd rest)
  | T_handle fd rest => Some (l, T_irq_unlock rest)
  | T_irq_unlock rest => Some (irq_lock_release l, T_serve rest)
  | T_poll _ | T_done => None
  end.

(** What poll may report: something, and the eventfd as readable as it is. *)
Definition poll_reports (l : lirq Z) (set polled : list pollfd) : Prop :=
  (exists rev, length rev = length set /\ polled = with_revents set rev) /\
  Exists (fun p => pf_revents p <> 0) polled /\
  Forall (fun p => pf_fd p = li_notify_fd l -> readable p = (0 <? li_sys l)) polled.

Inductive lstep : lsys -> lsys -> Prop :=
| Step_call l t c i l' p :
    c !! i = Some C_idle -> ccall l l' p -> lstep (mk_lsys l t c) (mk_lsys l' t (<[i := p]> c))
| Step_client l t c i p l' p' :
    c !! i = Some p -> cstep (client_id i) l p = Some (l', p') ->
    lstep (mk_lsys l t c) (mk_lsys l' t (<[i := p']> c))
| Step_thread l t c arr l' t' :
    zlen arr = FD_SETSIZE -> tstep arr l t = Some (l', t') -> lstep (mk_lsys l t c) (mk_lsys l' t' c)
| Step_poll l c set polled :
    poll_reports l set polled -> lstep (mk_lsys l (T_poll set) c) (mk_lsys l (T_serve polled) c)
| Step_poll_fails l c set :
    lstep (mk_lsys l (T_poll set) c) (mk_lsys l T_done c).

(** After [metal_linux_irq_init]: no interrupt enabled, nothing to report. *)
Definition linit (nfd : Z) (devs : list Z) (n : nat) : lsys :=
  mk_lsys (mk_lirq devs nfd None false 0 (replicate 16 0) 0) T_lock (replicate n C_idle).

(** ** The invariant *)

(** Who is inside the lock. *)
Definition t_holds (t : tpoint) : bool :=
  match t with
  | T_test | T_leave | T_build | T_unlock _ | T_handle _ _ | T_irq_unlock _ => true
  | _ => false
  end.
Definition c_holds (p : cpoint) : bool :=
  match p with C_set_bit _ _ | C_set_unlock | C_saved => true | _ => false end.

(** A client that changed the bitmap, or set the flag, and has not written yet. *)
Definition c_changed (p : cpoint) : bool :=
  match p with C_set_unlock | C_notify => true | _ => false end.
Definition c_stopping (p : cpoint) : bool :=
  match p with C_stop_notify => true | _ => false end.

Definition c_ok (p : cpoint) : Prop :=
  match p with C_set_lock o _ | C_set_bit o _ => 0 <= o < MAX_IRQS | _ => True end.

Definition some_client (f : cpoint -> bool) (c : list cpoint) : Prop :=
  exists i p, c !! i = Some p /\ f p = true.

(** The set the thread is about to wait for, or waits for. *)
Definition waits_for (t : tpoint) : option (list pollfd) :=
  match t with T_unlock set | T_poll set => Some set | _ => None end.
(** The points at which the thread has read the flag and will poll. *)
Definition will_poll (t : tpoint) : bool :=
  match t with T_build | T_unlock _ | T_poll _ => true | _ => false end.

Definition up_to_date (l : lirq Z) (set : list pollfd) : Prop :=
  fresh_pfds set (li_notify_fd l :: enabled_fds (li_enabled l)).

Record linv (s : lsys) : Prop := {
  lv_thread : li_pthread (ls_l s) = 0;
  lv_bitmap : enabled_wf (li_enabled (ls_l s));
  lv_count : 0 <= li_sys (ls_l s);
  lv_points : forall i p, ls_c s !! i = Some p -> c_ok p;
  lv_lock_t : t_holds (ls_t s) = true <-> li_lock (ls_l s) = Some 0;
  lv_lock_c : forall i, li_lock (ls_l s) = Some (client_id i) <->
    exists p, ls_c s !! i = Some p /\ c_holds p = true;
  lv_set : forall set, waits_for (ls_t s) = Some set ->
    set <> [] /\ (pf_fd <$> take 1 set = [li_notify_fd (ls_l s)]) /\
    (up_to_date (ls_l s) set \/ 0 < li_sys (ls_l s) \/ some_client c_changed (ls_c s));
  lv_stop : will_poll (ls_t s) = true -> li_stop (ls_l s) = true ->
    0 < li_sys (ls_l s) \/ some_client c_stopping (ls_c s)
}.

Lemma client_id_inj i j : client_id i = client_id j -> i = j.
Proof. unfold client_id. lia. Qed.
Lemma client_id_ne i : client_id i <> 0.
Proof. unfold client_id. lia. Qed.

Lemma some_client_new f c i p : (i < length c)%nat -> f p = true -> some_client f (<[i := p]> c).
Proof. intros Hi Hf. exists i, p. by rewrite list_lookup_insert_eq. Qed.

Lemma some_client_keep f c i p p' :
  c !! i = Some p -> (f p = true -> f p' = true) -> some_client f c -> some_client f (<[i := p']> c).
Proof.
  intros Hi Hf (j&q&Hj&Hq). destruct (decide (j = i)) as [->|Hne].
  - apply some_client_new; [by eapply lookup_lt_Some|]. apply Hf. congruence.
  - exists j, q. by rewrite list_lookup_insert_ne.
Qed.

(** How one participant may change the lock: not at all, by taking it or by leaving
    it. *)
Definition lock_moves (self : Z) (l l' : lirq Z) (h h' : bool) : Prop :=
  (li_lock l' = li_lock l /\ h' = h) \/
  (li_lock l = None /\ li_lock l' = Some self /\ h' = true) \/
  (h = true /\ li_lock l' = None /\ h' = false).

Lemma lock_c_client l t c i p l' p' :
  linv (mk_lsys l t c) -> c !! i = Some p -> lock_moves (client_id i) l l' (c_holds p) (c_holds p') ->
  (t_holds t = true <-> li_lock l' = Some 0) /\
  forall j, li_lock l' = Some (client_id j) <-> exists q, <[i := p']> c !! j = Some q /\ c_holds q = true.
Proof.
  intros Hs Hi Hm. pose proof (lv_lock_t _ Hs) as Ht. pose proof (lv_lock_c _ Hs) as Hc. cbn in Ht, Hc.
  pose proof (lookup_lt_Some _ _ _ Hi) as Hlt.
  assert (Hself : li_lock l = Some (client_id i) <-> c_holds p = true).
  { rewrite Hc. split; [intros (q&Hq&?); congruence|intros; by exists p]. }
  assert (Hother : forall j, j <> i -> (exists q, <[i := p']> c !! j = Some q /\ c_holds q = true)
    <-> li_lock l = Some (client_id j)) by (intros j Hj; by rewrite Hc, list_lookup_insert_ne).
  assert (Hnew : (exists q, <[i := p']> c !! i = Some q /\ c_holds q = true) <-> c_holds p' = true).
  { rewrite list_lookup_insert_eq by done. split; [intros (q&Hq&?); congruence|intros; by exists p']. }
  destruct Hm as [[Hl Hh]|[(Hl&Hl'&Hh)|(Hh&Hl'&Hh')]].
  - split; [by rewrite Hl|]. intros j. destruct (decide (j = i)) as [->|Hj]; [|by rewrite Hother, Hl].
    by rewrite Hnew, Hl, Hh.
  - split; [rewrite Ht, Hl, Hl'; split; [done|]; intros [= E]; by apply client_id_ne in E|].
    intros j. destruct (decide (j = i)) as [->|Hj]; [by rewrite Hnew, Hl', Hh|].
    rewrite Hother by done. rewrite Hl, Hl'. split; [intros [= E]; by apply client_id_inj in E|done].
  - apply Hself in Hh. split; [rewrite Ht, Hh, Hl'; split; [|done]; intros [= E]; by apply client_id_ne in E|].
    intros j. destruct (decide (j = i)) as [->|Hj]; [by rewrite Hnew, Hl', Hh'|].
    rewrite Hother by done. rewrite Hh, Hl'. split; [done|]. intros [= E]. by apply client_id_inj in E.
Qed.

Lemma linv_client l t c i p l' p' :
  linv (mk_lsys l t c) -> c !! i = Some p ->
  li_pthread l' = li_pthread l -> li_notify_fd l' = li_notify_fd l -> li_sys l <= li_sys l' ->
  enabled_wf (li_enabled l') -> c_ok p' -> lock_moves (client_id i) l l' (c_holds p) (c_holds p') ->
  (li_enabled l' = li_enabled l /\ (c_changed p = true -> c_changed p' = true)) \/
    c_changed p' = true \/ (li_enabled l' = li_enabled l /\ 0 < li_sys l') ->
  (li_stop l' = li_stop l /\ (c_stopping p = true -> c_stopping p' = true)) \/
    c_stopping p' = true \/ 0 < li_sys l' ->
  linv (mk_lsys l' t (<[i := p']> c)).
Proof.
  intros Hs Hi Hth Hn Hsys Hwf Hok Hm He Hst. pose proof (lookup_lt_Some _ _ _ Hi) as Hlt.
  destruct (lock_c_client l t c i p l' p' Hs Hi Hm) as [Hlt' Hlc].
  pose proof (lv_count _ Hs) as H0. cbn in H0.
  split; cbn [ls_l ls_t ls_c]; try done.
  - rewrite Hth. apply (lv_thread _ Hs).
  - lia.
  - intros j q Hj. apply list_lookup_insert_Some in Hj as [(_&->&_)|[_ Hj]]; [done|].
    by apply (lv_points _ Hs j).
  - intros set Hset. destruct (lv_set _ Hs set Hset) as (Hne&Hfd&Hup). cbn in Hfd, Hup. rewrite Hn.
    split; [done|]. split; [done|]. unfold up_to_date in *. rewrite Hn.
    destruct He as [[-> Hk]|[Hp|[_ Hp]]]; [|right; right; by apply some_client_new|by right; left].
    destruct Hup as [?|[?|?]]; [by left|right; left; lia|right; right; by eapply some_client_keep].
  - intros Hw Hstop. destruct Hst as [[Hs' Hk]|[Hp|Hp]]; [|right; by apply some_client_new|by left].
    destruct (lv_stop _ Hs) as [?|?]; cbn in *; [done|congruence|left; lia|right; by eapply some_client_keep].
Qed.

Lemma linv_thread l t c l' t' :
  linv (mk_lsys l t c) ->
  li_pthread l' = li_pthread l -> 0 <= li_sys l' -> li_enabled l' = li_enabled l ->
  lock_moves 0 l l' (t_holds t) (t_holds t') ->
  (forall set, waits_for t' = Some set -> set <> [] /\ (pf_fd <$> take 1 set = [li_notify_fd l']) /\
    (up_to_date l' set \/ 0 < li_sys l' \/ some_client c_changed c)) ->
  (will_poll t' = true -> li_stop l' = true -> 0 < li_sys l' \/ some_client c_stopping c) ->
  linv (mk_lsys l' t' c).
Proof.
  intros Hs Hth Hsys He Hm Hset Hstop. pose proof (lv_lock_t _ Hs) as Ht. pose proof (lv_lock_c _ Hs) as Hc.
  cbn in Ht, Hc. split; cbn [ls_l ls_t ls_c]; try done.
  - rewrite Hth. apply (lv_thread _ Hs).
  - rewrite He. apply (lv_bitmap _ Hs).
  - apply (lv_points _ Hs).
  - destruct Hm as [[-> ->]|[(_&->&->)|(_&->&->)]]; done.
  - intros j. rewrite <- Hc. destruct Hm as [[-> _]|[(->&->&_)|(Hh&->&_)]]; [done| |].
    + split; [intros [= E]; symmetry in E; by apply client_id_ne in E|done].
    + apply Ht in Hh. rewrite Hh. split; [done|]. intros [= E]. symmetry in E. by apply client_id_ne in E.
Qed.

(** ** The steps keep the invariant *)

Lemma try_lock_Some self l l' : try_lock self l = Some l' -> li_lock l = None /\ l' = li_set_lock l (Some self).
Proof. unfold try_lock, irq_lock_acquire. destruct (li_lock l); [done|]. by intros [= <-]. Qed.

Lemma eventfd_write_Some l l' : eventfd_write l = Some l' -> l' = li_set_sys l (li_sys l + 1).
Proof. unfold eventfd_write. destruct (_ <? _); [|done]. by intros [= <-]. Qed.

Lemma linv_call l t c i l' p :
  linv (mk_lsys l t c) -> c !! i = Some C_idle -> ccall l l' p -> linv (mk_lsys l' t (<[i := p]> c)).
Proof.
  intros Hs Hi [o st Ho| |]; apply (linv_client l t c i C_idle); try done; try apply (lv_bitmap _ Hs);
    cbn; auto; by left.
Qed.

Lemma set_bit_wf b o st b' :
  enabled_wf b -> 0 <= o < MAX_IRQS ->
  (if st =? METAL_IRQ_ENABLE then metal_bitmap_set_bit b o else metal_bitmap_clear_bit b o) = Ok b' ->
  enabled_wf b'.
Proof.
  intros Hb Ho. pose proof (bits_1024 b Hb) as H1024. destruct Hb as [Hwf Hl].
  unfold MAX_IRQS, FD_SETSIZE in Ho.
  destruct (_ =? _).
  - destruct (set_bit_spec b o) as (b2&Hr&Hw&Hz&_); [done|lia..|]. rewrite Hr. intros [= <-].
    split; [done|congruence].
  - destruct (clear_bit_spec b o) as (b2&Hr&Hw&Hz&_); [done|lia..|]. rewrite Hr. intros [= <-].
    split; [done|congruence].
Qed.

Lemma linv_cstep l t c i p l' p' :
  linv (mk_lsys l t c) -> c !! i = Some p -> cstep (client_id i) l p = Some (l', p') ->
  linv (mk_lsys l' t (<[i := p']> c)).
Proof.
  intros Hs Hi E. pose proof (lv_points _ Hs i p Hi) as Hok. pose proof (lv_bitmap _ Hs) as Hwf.
  pose proof (lv_thread _ Hs) as Hth. pose proof (lv_count _ Hs) as H0. cbn in Hwf, Hth, H0.
  destruct p as [|o st|o st| | | | | |]; cbn [cstep] in E; try discriminate E.
  - destruct (try_lock _ l) as [l1|] eqn:El; [|discriminate E]. injection E as <- <-.
    apply try_lock_Some in El as [Hl ->]. apply (linv_client l t c i (C_set_lock o st)); cbn; auto; [done|].
    right; left. done.
  - destruct (if st =? METAL_IRQ_ENABLE then _ else _) as [b|] eqn:Eb; [|discriminate E]. injection E as <- <-.
    apply (linv_client l t c i (C_set_bit o st)); cbn; auto; [done| |by left].
    by apply (set_bit_wf (li_enabled l) o st).
  - injection E as <- <-. apply (linv_client l t c i C_set_unlock); cbn; auto; [done|].
    right; right. done.
  - destruct (eventfd_write l) as [l1|] eqn:El; [|discriminate E]. injection E as <- <-.
    apply eventfd_write_Some in El as ->. apply (linv_client l t c i C_notify); cbn; auto; [lia|by left|].
    right; right. split; [done|lia].
  - destruct (try_lock _ l) as [l1|] eqn:El; [|discriminate E]. injection E as <- <-.
    apply try_lock_Some in El as [Hl ->]. apply (linv_client l t c i C_save_lock); cbn; auto; [done|].
    right; left. done.
  - injection E as <- <-. unfold metal_irq_restore_enable. rewrite Hth.
    rewrite (proj2 (Z.eqb_neq _ _) (client_id_ne i)). cbn [negb].
    apply (linv_client l t c i C_saved); cbn; auto; [done|]. right; right. done.
  - destruct (eventfd_write l) as [l1|] eqn:El; [|discriminate E]. injection E as <- <-.
    apply eventfd_write_Some in El as ->. apply (linv_client l t c i C_stop_notify); cbn; auto; [lia|by left|].
    right; right. lia.
Qed.

Lemma linv_tstep arr l t c l' t' :
  linv (mk_lsys l t c) -> zlen arr = FD_SETSIZE -> tstep arr l t = Some (l', t') -> linv (mk_lsys l' t' c).
Proof.
  intros Hs Harr E. pose proof (lv_bitmap _ Hs) as Hwf. pose proof (lv_count _ Hs) as H0.
  cbn in Hwf, H0.
  destruct t as [| | | |set|set|[|p rest]|fd rest|fd rest|rest|]; cbn [tstep] in E; try discriminate E.
  - destruct (try_lock 0 l) as [l1|] eqn:El; [|discriminate E]. injection E as <- <-.
    apply try_lock_Some in El as [Hl ->]. apply (linv_thread l T_lock c); try done. right; left. done.
  - injection E as <- <-. apply (linv_thread l T_test c); try done.
    + left. by destruct (li_stop l).
    + by destruct (li_stop l).
    + intros Hw Hstop. by rewrite Hstop in Hw.
  - injection E as <- <-. apply (linv_thread l T_leave c); try done. right; right. done.
  - destruct (build_pfds_run l arr Hwf Harr) as (arr'&j&Hrun&Ha&Hj&Hfresh). rewrite Hrun in E.
    injection E as <- <-. apply (linv_thread l T_build c); try done; [by left| |].
    + intros set [= <-]. pose proof Hfresh as [Hfd _]. split; [|split]; [| |by left].
      * intros Hn. by rewrite Hn in Hfd.
      * destruct (take (Z.to_nat j) arr') as [|p0 l0]; [done|]. cbn in Hfd |- *. injection Hfd as Hfd _. by rewrite take_0, <- Hfd.
    + intros _ Hstop. by apply (lv_stop _ Hs).
  - injection E as <- <-. apply (linv_thread l (T_unlock set) c); try done.
    + right; right. done.
    + intros set' [= <-]. by apply (lv_set _ Hs).
    + intros _ Hstop. by apply (lv_stop _ Hs).
  - injection E as <- <-. apply (linv_thread l (T_serve []) c); try done. by left.
  - destruct (_ && _); [|destruct (readable p)]; injection E as <- <-;
      (apply (linv_thread l (T_serve (p :: rest)) c); [done|done|cbn; lia|done|by left|done|done]).
  - destruct (try_lock 0 l) as [l1|] eqn:El; [|discriminate E]. injection E as <- <-.
    apply try_lock_Some in El as [Hl ->]. apply (linv_thread l (T_irq_lock fd rest) c); try done.
    right; left. done.
  - injection E as <- <-. apply (linv_thread l (T_handle fd rest) c); try done. by left.
  - injection E as <- <-. apply (linv_thread l (T_irq_unlock rest) c); try done. right; right. done.
Qed.

Lemma linv_step s s' : lstep s s' -> linv s -> linv s'.
Proof.
  intros Hstep Hs. destruct Hstep as [l t c i l' p Hi Hc|l t c i p l' p' Hi E|l t c arr l' t' Ha E
    |l c set polled Hp|l c set].
  - by apply (linv_call l).
  - by apply (linv_cstep l t c i p).
  - by apply (linv_tstep arr l t).
  - apply (linv_thread l (T_poll set) c); try done; [apply (lv_count _ Hs)|by left].
  - apply (linv_thread l (T_poll set) c); try done; [apply (lv_count _ Hs)|by left].
Qed.

Lemma linv_init nfd devs n : linv (linit nfd devs n).
Proof.
  split; cbn; try done.
  - split; [|done]. unfold bm_wf. by repeat constructor.
  - intros i p Hp. apply lookup_replicate in Hp as [-> _]. done.
  - intros i. split; [done|]. intros (p&Hp&Hh). apply lookup_replicate in Hp as [-> _]. done.
Qed.

Lemma linv_reachable nfd devs n s : rtc lstep (linit nfd devs n) s -> linv s.
Proof.
  intros H. remember (linit nfd devs n) as s0 eqn:E. assert (H0 : linv s0) by (subst; apply linv_init).
  clear E. induction H as [|s0 s1 s Hstep _ IH]; [done|]. by apply IH, (linv_step s0).
Qed.

(** ** The theorem *)

(** While the counter is positive, a poll that has the eventfd can return. *)
Lemma poll_returns l set :
  0 < li_sys l -> set <> [] -> pf_fd <$> take 1 set = [li_notify_fd l] -> exists polled, poll_reports l set polled.
Proof.
  intros Hc Hne Hfd. set (rv := fun p => if pf_fd p =? li_notify_fd l then POLLIN else 0).
  exists (with_revents set (rv <$> set)). split; [|split].
  - exists (rv <$> set). by rewrite length_fmap.
  - destruct set as [|p set]; [done|]. cbn in *. rewrite take_0 in Hfd. injection Hfd as Hfd.
    left. cbn. unfold rv. by rewrite Hfd, Z.eqb_refl.
  - rewrite (proj2 (Z.ltb_lt 0 _) Hc). clear Hne Hfd. induction set as [|p set IH]; constructor; [|done].
    cbn. unfold rv. intros ->. by rewrite Z.eqb_refl.
Qed.

(** C35: In every state that the serving thread and any number of clients can reach by
    any interleaving: when the thread waits in poll, it waits for exactly the enabled
    interrupts and has not been told to stop, or the eventfd is readable so that the
    poll returns, or a client that made the change is about to write to the eventfd.
    While a client has the interrupts masked, no handler runs and no other client has
    them masked. *)
Theorem linux_irq_change_not_lost (nfd : Z) (devs : list Z) (n : nat) (s : lsys) :
  rtc lstep (linit nfd devs n) s ->
  (forall set, ls_t s = T_poll set ->
     (up_to_date (ls_l s) set /\ li_stop (ls_l s) = false) \/
     (0 < li_sys (ls_l s) /\ exists polled, poll_reports (ls_l s) set polled) \/
     some_client (fun p => c_changed p || c_stopping p) (ls_c s)) /\
  (forall i fd rest, ls_c s !! i = Some C_saved -> ls_t s <> T_handle fd rest) /\
  (forall i j, ls_c s !! i = Some C_saved -> ls_c s !! j = Some C_saved -> i = j).
Proof.
  intros Hr. pose proof (linv_reachable nfd devs n s Hr) as Hs. clear Hr.
  assert (Hown : forall i, ls_c s !! i = Some C_saved -> li_lock (ls_l s) = Some (client_id i))
    by (intros i Hi; apply (lv_lock_c _ Hs); by exists C_saved).
  split; [|split].
  - intros set Et. pose proof (lv_set _ Hs set) as Hset. rewrite Et in Hset.
    destruct Hset as (Hne&Hfd&Hup); [done|].
    destruct (Z.lt_ge_cases 0 (li_sys (ls_l s))) as [Hc|Hc].
    { right; left. split; [done|]. by apply poll_returns. }
    destruct Hup as [Hup|[?|(i&p&Hi&Hp)]]; [|lia|right; right; exists i, p; by rewrite Hp].
    destruct (li_stop (ls_l s)) eqn:Estop; [|by left].
    right; right. destruct (lv_stop _ Hs) as [?|(i&p&Hi&Hp)]; [by rewrite Et|done|lia|].
    exists i, p. by rewrite Hp, orb_true_r.
  - intros i fd rest Hi Et. pose proof (proj1 (lv_lock_t _ Hs)) as Ht. rewrite Et in Ht.
    rewrite (Hown i Hi) in Ht. specialize (Ht eq_refl). injection Ht as Ht. by apply client_id_ne in Ht.
  - intros i j Hi Hj. apply client_id_inj. apply Hown in Hi, Hj. congruence.
Qed.

(** A run in which a client enables interrupt 5 while the thread already waits. *)
Definition demo_set : list pollfd := [mk_pfd 3 POLLIN 0].
Definition demo_ls : lsys :=
  mk_lsys (mk_lirq [] 3 None false 0 (zset (replicate 16 0) 0 32) 1) (T_poll demo_set) [C_idle].

Lemma demo_run : rtc lstep (linit 3 [] 1) demo_ls.
Proof.
  pose (arr := replicate (Z.to_nat FD_SETSIZE) (mk_pfd 0 0 0)).
  assert (Ha : zlen arr = FD_SETSIZE) by (vm_compute; reflexivity).
  do 4 (eapply rtc_l; [apply (Step_thread _ _ _ arr); [exact Ha|vm_compute; reflexivity]|]).
  eapply rtc_l; [apply (Step_call _ _ _ 0); [reflexivity|apply (Call_set _ 5 1); split; vm_compute; congruence]|].
  do 4 (eapply rtc_l; [eapply (Step_client _ _ _ 0); [reflexivity|vm_compute; reflexivity]|]).
  apply rtc_refl.
Qed.

Lemma linux_irq_change_not_lost_witness :
  up_to_date (ls_l demo_ls) demo_set /\ li_stop (ls_l demo_ls) = false \/
  (0 < li_sys (ls_l demo_ls) /\ exists polled, poll_reports (ls_l demo_ls) demo_set polled) \/
  some_client (fun p => c_changed p || c_stopping p) (ls_c demo_ls).
Proof.
  apply (proj1 (linux_irq_change_not_lost 3 [] 1 demo_ls demo_run) demo_set). reflexivity.
Defined.
