(* ===== verification/LinuxSys.v ===== *)
(** * Files, mappings, page sizes and shared memory of the Linux port
      (lib/system/linux/utilities.c, init.c, shmem.c, sys.h)

    The system calls and the functions of libhugetlbfs are the operations of a class
    over the state of the system; what the code relies on are its laws. *)

From stdpp Require Import sorting.
From S2P Require Import Prelude MetalUtil MetalIo MetalDevice.

(** ** The system *)

(** What a process owns: open descriptors, mappings, allocated blocks, handles of
    libsysfs. *)
Inductive resource : Type :=
| R_fd (fd : Z)
| R_map (addr size : Z)
| R_block (addr : Z)
| R_handle (h : Z).

#[global] Instance resource_eq_dec : EqDecision resource.
Proof. solve_decision. Defined.
#[global] Instance resource_countable : Countable resource.
Proof.
  apply (inj_countable'
    (fun r => match r with R_fd a => (0, a, 0) | R_map a b => (1, a, b) | R_block a => (2, a, 0)
              | R_handle a => (3, a, 0) end)
    (fun x => match x with (0, a, _) => R_fd a | (1, a, b) => R_map a b | (2, a, _) => R_block a
              | (_, a, _) => R_handle a end)).
  by intros [].
Defined.

(** The result of a call comes with the new state; a call that fails returns a
    negative value (for [mmap] the address [MAP_FAILED], for an allocation 0) and
    [os_errno] is the reason.  [os_fstat] has the size of the file as well, [os_pread]
    the eight bytes read, [os_malloc_phys] the contents of the array. *)
Class os (Sys : Type) := {
  os_errno : Sys -> Z;
  os_open : Sys -> list Z -> Z -> Z -> Sys * Z;
  os_shm_open : Sys -> list Z -> Z -> Z -> Sys * Z;
  os_close : Sys -> Z -> Sys * Z;
  os_flock : Sys -> Z -> Z -> Sys * Z;
  os_fstat : Sys -> Z -> Sys * Z * Z;
  os_ftruncate : Sys -> Z -> Z -> Sys * Z;
  os_mmap : Sys -> Z -> Z -> Z -> Z -> Z -> Sys * Z;
  os_munmap : Sys -> Z -> Z -> Sys * Z;
  os_mlock : Sys -> Z -> Z -> Sys * Z;
  os_pread : Sys -> Z -> Z -> Sys * Z * Z;
  os_malloc_phys : Sys -> Z -> Sys * Z * list Z;
  os_malloc : Sys -> Z -> Sys * Z;
  os_free : Sys -> Z -> Sys;
  os_getpagesize : Sys -> Z;
  os_gethugepagesize : Sys -> Z;
  os_gethugepagesizes : Sys -> Z -> list Z;
  os_hugetlbfs_find_path_for_size : Sys -> Z -> cstring
}.

(** ** Constants *)

Definition ENOMEM : Z := 12.
Definition EOVERFLOW : Z := 75.
Definition PATH_MAX : Z := 4096.
Definition O_RDWR_CREAT_CLOEXEC : Z := 524354.
Definition S_IRUSR_IWUSR : Z := 384.
Definition PROT_READ_WRITE : Z := 3.
Definition MAP_SHARED : Z := 1.
Definition MAP_PRIVATE_ANONYMOUS : Z := 34.
Definition MAP_FAILED : Z := 18446744073709551615.
Definition MAP_HUGETLB : Z := 262144.
Definition MAP_HUGE_SHIFT : Z := 26.
Definition MAP_HUGE_MASK : Z := 63.
Definition LOCK_EX : Z := 2.
Definition LOCK_UN : Z := 8.
Definition MAX_PAGE_SIZES : Z := 32.
Definition sizeof_metal_io_region : Z := 112.

(** A 64-bit two's complement value, for [long] and [off_t]. *)
Definition i64 (z : Z) : Z := (z + 9223372036854775808) mod 18446744073709551616 - 9223372036854775808.

(** ** Data *)

Record metal_page_size := mk_ps {
  ps_size : Z;
  ps_shift : Z;
  ps_path : list Z;
  ps_flags : Z
}.

(** The fields of [struct metal_state] after [common]. *)
Record linux_state := mk_lst {
  lm_data_fd : Z;
  lm_page_size : Z;
  lm_page_shift : Z;
  lm_tmp_path : cstring;
  lm_page_sizes : list metal_page_size;
  lm_num_page_sizes : Z;
  lm_pagemap_fd : Z
}.

Definition no_page_size : metal_page_size := mk_ps 0 0 [] 0.

(** [memset(&_metal, 0, sizeof(_metal))] *)
Definition clear_linux_state : linux_state :=
  mk_lst 0 0 0 None (replicate (Z.to_nat MAX_PAGE_SIZES) no_page_size) 0 0.

Definition lm_set_page (st : linux_state) (size shift : Z) : linux_state :=
  mk_lst (lm_data_fd st) size shift (lm_tmp_path st) (lm_page_sizes st) (lm_num_page_sizes st) (lm_pagemap_fd st).
Definition lm_set_tmp (st : linux_state) (p : cstring) : linux_state :=
  mk_lst (lm_data_fd st) (lm_page_size st) (lm_page_shift st) p (lm_page_sizes st) (lm_num_page_sizes st)
    (lm_pagemap_fd st).
Definition lm_set_sizes (st : linux_state) (l : list metal_page_size) (n : Z) : linux_state :=
  mk_lst (lm_data_fd st) (lm_page_size st) (lm_page_shift st) (lm_tmp_path st) l n (lm_pagemap_fd st).
Definition lm_set_pagemap (st : linux_state) (fd : Z) : linux_state :=
  mk_lst (lm_data_fd st) (lm_page_size st) (lm_page_shift st) (lm_tmp_path st) (lm_page_sizes st)
    (lm_num_page_sizes st) fd.

(** ** Page sizes (init.c) *)

Definition metal_sign (x : Z) : Z := if x <? 0 then -1 else if 0 <? x then 1 else 0.

Definition metal_pagesize_compare (a b : metal_page_size) : Z :=
  metal_sign (i64 (u64 (ps_size a - ps_size b))).

(** The order [qsort] puts the elements in. *)
Definition pagesize_le (a b : metal_page_size) : Prop := metal_pagesize_compare a b <= 0.

#[global] Instance pagesize_le_dec a b : Decision (pagesize_le a b).
Proof. apply Z_le_dec. Defined.

(** [strncpy(dst, path, PATH_MAX)]: the bytes before a terminator, if there is one. *)
Definition strncpy_path (path : list Z) : list Z := take (Z.to_nat PATH_MAX) path.

Definition metal_add_page_size (st : linux_state) (path : cstring) (shift mmap_flags : Z)
  : res (linux_state * Z) :=
  let index := lm_num_page_sizes st in
  let size := u64 (Z.shiftl 1 shift) in
  if MAX_PAGE_SIZES <=? index then Ok (st, - EOVERFLOW)
  else
    match path with
    | None => Ok (st, - EINVAL)
    | Some p =>
        if shift <=? 0 then Ok (st, - EINVAL)
        else
          l ← rset (lm_page_sizes st) index (mk_ps size shift (strncpy_path p) mmap_flags);
          Ok (lm_set_sizes st l (index + 1), 0)
    end.

Section page_sizes.
Context {Sys : Type} `{os Sys}.

(** The loop over the sizes libhugetlbfs reports. *)
Fixpoint add_huge_sizes (s : Sys) (sizes : list Z) (st : linux_state) : res linux_state :=
  match sizes with
  | [] => Ok st
  | size :: sizes' =>
      shift ← metal_log2 (u64 size);
      if negb (Z.land shift MAP_HUGE_MASK =? shift) then add_huge_sizes s sizes' st
      else
        '(st, _) ← metal_add_page_size st (os_hugetlbfs_find_path_for_size s size) shift
          (i32 (Z.lor MAP_HUGETLB (Z.shiftl shift MAP_HUGE_SHIFT)));
        add_huge_sizes s sizes' st
  end.

(** [qsort] of the first [num_page_sizes] elements. *)
Definition sort_page_sizes (st : linux_state) : linux_state :=
  let n := Z.to_nat (lm_num_page_sizes st) in
  lm_set_sizes st (merge_sort pagesize_le (take n (lm_page_sizes st)) ++ drop n (lm_page_sizes st))
    (lm_num_page_sizes st).

(** With libhugetlbfs and several huge page sizes ([MAP_HUGE_SHIFT] is defined). *)
Definition metal_init_page_sizes (s : Sys) (st : linux_state) : res (linux_state * Z) :=
  let max_sizes := MAX_PAGE_SIZES - 1 in
  let size := os_getpagesize s in
  if size <=? 0 then Ok (st, - EINVAL)
  else
    shift ← metal_log2 size;
    let st := lm_set_page st size shift in
    '(st, _) ← metal_add_page_size st (lm_tmp_path st) shift 0;
    st ← (if 0 <=? os_gethugepagesize s then add_huge_sizes s (os_gethugepagesizes s max_sizes) st
          else Ok st);
    Ok (sort_page_sizes st, 0).
End page_sizes.

(** ** Files and mappings (utilities.c) *)

Section files.
Context {Sys : Type} `{os Sys}.
Implicit Type s : Sys.

(** The result of a call as 0 or the negated reason. *)
Definition or_errno (r : Sys * Z) : Sys * Z := (r.1, if r.2 <? 0 then - os_errno r.1 else 0).

Definition metal_open s (path : cstring) (shm : Z) : Sys * Z :=
  match path with
  | Some (c :: p) =>
      let '(s, fd) := (if negb (shm =? 0) then os_shm_open else os_open) s (c :: p)
                        O_RDWR_CREAT_CLOEXEC S_IRUSR_IWUSR in
      (s, if fd <? 0 then - os_errno s else fd)
  | _ => (s, - EINVAL)
  end.

(** The expansion of the file: the state and whether an error was met. *)
Definition expand_file s (fd reqsize : Z) : Sys * bool :=
  let '(s, error) := os_flock s fd LOCK_EX in
  if error <? 0 then (s, true)
  else
    let '(s, error, st_size) := os_fstat s fd in
    if negb (error =? 0) then (s, true)
    else
      let '(s, error) := if st_size <? reqsize then os_ftruncate s fd reqsize else (s, 0) in
      if negb (error =? 0) then (s, true)
      else let '(s, _) := os_flock s fd LOCK_UN in (s, false).

(** The value returned and the address. *)
Definition metal_map s (fd offset size expand flags : Z) : Sys * Z * Z :=
  let flags := Z.lor flags MAP_SHARED in
  let map s fd flags :=
    let '(s, mem) := os_mmap s size PROT_READ_WRITE flags fd offset in
    if mem =? MAP_FAILED then (s, - os_errno s, 0) else (s, 0, mem) in
  if fd <? 0 then map s (-1) MAP_PRIVATE_ANONYMOUS
  else if negb (expand =? 0) then
    let '(s, error) := expand_file s fd (i64 (u64 (offset + size))) in
    if error : bool then (s, - os_errno s, 0) else map s fd flags
  else map s fd flags.

Definition metal_unmap s (mem size : Z) : Sys * Z := or_errno (os_munmap s mem size).

(** ** Shared memory (shmem.c) *)

(** [physaddr] is the address of the array of the region. *)
Definition metal_shmem_io_close s (io : metal_io_region) (physaddr : Z) : Sys :=
  let '(s, _) := metal_unmap s (io_virt io) (io_size io) in os_free s physaddr.

(** The address of [metal_shmem_io_close]. *)
Variable shmem_io_close_fn : Z.

Definition metal_shmem_io_ops : metal_io_ops := mk_ops None None None None None shmem_io_close_fn None None.

(** The value returned and the physical address. *)
Definition metal_virt2phys s (st : linux_state) (addr : Z) : Sys * Z * Z :=
  if lm_pagemap_fd st <? 0 then (s, - EINVAL, 0)
  else
    let offset := i64 (u64 (Z.shiftr addr (lm_page_shift st) * 8)) in
    let '(s, error, entry) := os_pread s (lm_pagemap_fd st) offset in
    if error <? 0 then (s, - os_errno s, 0)
    else if negb (Z.shiftr entry 62 =? 2) then (s, - ENOENT, 0)
    else (s, 0, u64 (Z.shiftl (Z.land entry (u64 (Z.shiftl 1 54 - 1))) (lm_page_shift st))).

(** The loop that looks up the page frames: [k] remain from [page]. *)
Fixpoint phys_loop (k : nat) s (st : linux_state) (ps : metal_page_size) (virt page : Z) (phys : list Z)
  : res (Sys * list Z) :=
  match k with
  | O => Ok (s, phys)
  | S k' =>
      let offset := u64 (page * ps_size ps) in
      let '(s, error, p) := metal_virt2phys s st (u64 (virt + offset)) in
      phys ← rset phys page (if error <? 0 then METAL_BAD_OFFSET else p);
      phys_loop k' s st ps virt (page + 1) phys
  end.

(** The value returned, and the region with the address of its array. *)
Definition metal_shmem_try_map s (st : linux_state) (ps : metal_page_size) (fd size : Z)
  : res (Sys * Z * option (metal_io_region * Z)) :=
  let size := metal_align_up size (ps_size ps) in
  if ps_size ps =? 0 then Fault Div_by_zero
  else
    let pages := size / ps_size ps in
    let '(s, error, mem) := metal_map s fd 0 size 1 (ps_flags ps) in
    if negb (error =? 0) then Ok (s, error, None)
    else
      let '(s, _) := os_mlock s mem size in
      let '(s, physaddr, phys) := os_malloc_phys s pages in
      if physaddr =? 0 then let '(s, _) := metal_unmap s mem size in Ok (s, - ENOMEM, None)
      else
        let '(s, io) := os_malloc s sizeof_metal_io_region in
        if io =? 0 then
          let s := os_free s physaddr in
          let '(s, _) := metal_unmap s mem size in Ok (s, - ENOMEM, None)
        else if lm_pagemap_fd st <? 0 then
          phys ← rset phys 0 0;
          Ok (s, 0, Some (metal_io_init mem (Some phys) size (u32 (-1)) 0 (Some metal_shmem_io_ops), physaddr))
        else
          '(s, phys) ← phys_loop (Z.to_nat pages) s st ps mem 0 phys;
          Ok (s, 0, Some (metal_io_init mem (Some phys) size (ps_shift ps) 0 (Some metal_shmem_io_ops), physaddr)).

(** The loop over the page sizes, given from the largest; [error] is the variable of
    the caller. *)
Fixpoint try_page_sizes (l : list metal_page_size) s (st : linux_state) (fd size error : Z)
  : res (Sys * Z * option (metal_io_region * Z)) :=
  match l with
  | [] => Ok (s, error, None)
  | ps :: l' =>
      if u64 (2 * size) <? ps_size ps then try_page_sizes l' s st fd size error
      else
        '(s, error, r) ← metal_shmem_try_map s st ps fd size;
        if error =? 0 then Ok (s, error, r) else try_page_sizes l' s st fd size error
  end.

(** The page sizes in use, from the largest. *)
Definition page_sizes_down (st : linux_state) : list metal_page_size :=
  rev (take (Z.to_nat (lm_num_page_sizes st)) (lm_page_sizes st)).

(** A generic region has no array of its own; its address is given as 0. *)
Definition metal_shmem_open {Env} (w : dworld Env) s (st : linux_state) (name : cstring) (size : Z)
  : res (Sys * Z * option (metal_io_region * Z)) :=
  '(error, r) ← metal_shmem_open_generic w name size;
  if error =? 0 then Ok (s, error, match r with Some io => Some (io, 0) | None => None end)
  else
    let '(s, fd) := metal_open s name 1 in
    if fd <? 0 then Ok (s, fd, None)
    else
      '(s, error, r) ← try_page_sizes (page_sizes_down st) s st fd size fd;
      let '(s, _) := os_close s fd in
      Ok (s, error, r).
End files.
