(* ===== verification/LinuxSysSpec.v ===== *)
(** * What files, page sizes and shared memory of the Linux port promise *)

From stdpp Require Import sorting.
From S2P Require Import Prelude MetalUtil MetalIo MetalDevice LinuxSys.

(** ** What the code relies on *)

(** The manual pages: a call that fails sets errno and changes nothing the process
    owns; a call that opens, maps or allocates adds something new; closing, unmapping
    and freeing take it away. *)
Class os_laws (Sys : Type) `{os Sys} := {
  os_owned : Sys -> gset resource;
  law_shm_open : forall s p f m s' fd, os_shm_open s p f m = (s', fd) ->
    (fd < 0 /\ 0 < os_errno s' /\ os_owned s' = os_owned s) \/
    (0 <= fd /\ (R_fd fd ∉ os_owned s) /\ os_owned s' = {[R_fd fd]} ∪ os_owned s);
  law_open : forall s p f m s' fd, os_open s p f m = (s', fd) ->
    (fd < 0 /\ 0 < os_errno s' /\ os_owned s' = os_owned s) \/
    (0 <= fd /\ (R_fd fd ∉ os_owned s) /\ os_owned s' = {[R_fd fd]} ∪ os_owned s);
  law_close : forall s fd s' r, os_close s fd = (s', r) -> os_owned s' = os_owned s ∖ {[R_fd fd]};
  law_flock : forall s fd op s' r, os_flock s fd op = (s', r) ->
    os_owned s' = os_owned s /\ (r < 0 -> 0 < os_errno s');
  law_fstat : forall s fd s' r n, os_fstat s fd = (s', r, n) ->
    os_owned s' = os_owned s /\ (r <> 0 -> 0 < os_errno s');
  law_ftruncate : forall s fd n s' r, os_ftruncate s fd n = (s', r) ->
    os_owned s' = os_owned s /\ (r <> 0 -> 0 < os_errno s');
  law_mmap : forall s n prot fl fd off s' a, os_mmap s n prot fl fd off = (s', a) ->
    (a = MAP_FAILED /\ 0 < os_errno s' /\ os_owned s' = os_owned s) \/
    (a <> MAP_FAILED /\ (R_map a n ∉ os_owned s) /\ os_owned s' = {[R_map a n]} ∪ os_owned s);
  law_munmap : forall s a n s' r, R_map a n ∈ os_owned s -> os_munmap s a n = (s', r) ->
    os_owned s' = os_owned s ∖ {[R_map a n]};
  law_mlock : forall s a n s' r, os_mlock s a n = (s', r) -> os_owned s' = os_owned s;
  law_pread : forall s fd off s' r e, os_pread s fd off = (s', r, e) -> os_owned s' = os_owned s;
  law_malloc_phys : forall s n s' a l, os_malloc_phys s n = (s', a, l) ->
    (a = 0 /\ os_owned s' = os_owned s) \/
    (a <> 0 /\ (R_block a ∉ os_owned s) /\ os_owned s' = {[R_block a]} ∪ os_owned s /\ zlen l = n);
  law_malloc : forall s n s' a, os_malloc s n = (s', a) ->
    (a = 0 /\ os_owned s' = os_owned s) \/
    (a <> 0 /\ (R_block a ∉ os_owned s) /\ os_owned s' = {[R_block a]} ∪ os_owned s);
  law_free : forall s a, os_owned (os_free s a) = os_owned s ∖ {[R_block a]}
}.

(** ** Page sizes *)

(** An entry as [metal_add_page_size] makes it. *)
Definition page_size_ok (ps : metal_page_size) : Prop := 0 < ps_shift ps < 64 /\ ps_size ps = 2 ^ ps_shift ps.

(** The table: [num_page_sizes] good entries. *)
Record sizes_wf (st : linux_state) : Prop := {
  sw_len : zlen (lm_page_sizes st) = MAX_PAGE_SIZES;
  sw_num : 0 <= lm_num_page_sizes st <= MAX_PAGE_SIZES;
  sw_ok : Forall page_size_ok (take (Z.to_nat (lm_num_page_sizes st)) (lm_page_sizes st))
}.

(** The sizes in use. *)
Definition sizes_of (st : linux_state) : list metal_page_size :=
  take (Z.to_nat (lm_num_page_sizes st)) (lm_page_sizes st).

Lemma sign_le x : metal_sign x <= 0 <-> x <= 0.
Proof. unfold metal_sign. destruct (Z.ltb_spec x 0), (Z.ltb_spec 0 x); lia. Qed.

Lemma i64_u64_sub a b : 0 < a <= 9223372036854775808 -> 0 < b <= 9223372036854775808 ->
  i64 (u64 (a - b)) = a - b.
Proof. intros. unfold i64, u64. mlia. Qed.

Lemma page_size_range ps : page_size_ok ps -> 0 < ps_size ps <= 9223372036854775808.
Proof.
  intros [Hs ->]. split; [apply Z.pow_pos_nonneg; lia|].
  change 9223372036854775808 with (2 ^ 63). apply Z.pow_le_mono_r; lia.
Qed.

(** On the sizes of the table the comparison is the order of the sizes: the
    difference of two sizes fits a [long]. *)
Lemma pagesize_le_iff a b : page_size_ok a -> page_size_ok b -> pagesize_le a b <-> ps_size a <= ps_size b.
Proof.
  intros Ha%page_size_range Hb%page_size_range. unfold pagesize_le, metal_pagesize_compare.
  rewrite i64_u64_sub by done. rewrite sign_le. lia.
Qed.

#[global] Instance pagesize_le_total : Total pagesize_le.
Proof.
  intros a b. unfold pagesize_le, metal_pagesize_compare. rewrite !sign_le. unfold i64, u64. mlia.
Qed.

Section tables.
Context {Sys : Type} `{os Sys}.

(** The entry of a huge page size, when its file system is mounted. *)
Definition huge_entry (s : Sys) (size : Z) : option metal_page_size :=
  match os_hugetlbfs_find_path_for_size s size with
  | Some p =>
      if 0 <? Z.log2 size then
        Some (mk_ps size (Z.log2 size) (strncpy_path p)
                (i32 (Z.lor MAP_HUGETLB (Z.shiftl (Z.log2 size) MAP_HUGE_SHIFT))))
      else None
  | None => None
  end.

Definition is_size (size : Z) : Prop := exists k, 0 <= k < 64 /\ size = 2 ^ k.

Lemma log2_size k : 0 <= k < 64 -> metal_log2 (2 ^ k) = Ok k.
Proof. intros Hk. by apply metal_log2_spec. Qed.

Lemma zlen_sizes_of st : sizes_wf st -> zlen (sizes_of st) = lm_num_page_sizes st.
Proof.
  intros [Hl Hn _]. unfold sizes_of, zlen in *. rewrite length_take. unfold MAX_PAGE_SIZES in *. lia.
Qed.

(** Adding an entry: at the end, or nothing when the table is full. *)
Lemma add_page_size_run st e p shift flags :
  sizes_wf st -> 0 < shift < 64 -> e = mk_ps (2 ^ shift) shift (strncpy_path p) flags ->
  exists st' r, metal_add_page_size st (Some p) shift flags = Ok (st', r) /\ sizes_wf st' /\
    sizes_of st' = take (Z.to_nat MAX_PAGE_SIZES) (sizes_of st ++ [e]) /\
    lm_page_shift st' = lm_page_shift st /\ lm_pagemap_fd st' = lm_pagemap_fd st.
Proof.
  intros Hwf Hs ->. pose proof (zlen_sizes_of st Hwf) as Hz. pose proof Hwf as [Hl Hn Hok].
  unfold metal_add_page_size. destruct (MAX_PAGE_SIZES <=? lm_num_page_sizes st) eqn:E; zbool.
  - eexists _, _. split; [reflexivity|]. split; [done|]. split; [|done].
    rewrite take_app_le by (unfold zlen in Hz; lia). rewrite take_ge; [done|].
    unfold zlen in Hz. lia.
  - rewrite (proj2 (Z.leb_gt shift 0)) by lia. rewrite rset_ok by lia. cbn [mbind res_bind].
    fold (metal_bit shift). rewrite metal_bit_pow by lia.
    set (e := mk_ps _ _ _ _). set (st' := lm_set_sizes _ _ _).
    assert (Hsz : sizes_of st' = sizes_of st ++ [e]).
    { unfold sizes_of, st'. cbn [lm_set_sizes lm_num_page_sizes lm_page_sizes].
      replace (Z.to_nat (lm_num_page_sizes st + 1)) with (S (Z.to_nat (lm_num_page_sizes st))) by lia.
      unfold zset. rewrite (proj2 (Z.leb_le 0 _)) by lia. unfold zlen in Hl.
      rewrite (take_S_r _ _ e); [by rewrite take_insert_ge by lia|].
      apply list_lookup_insert_eq. lia. }
    exists st', 0. split; [done|]. split; [|split; [|done]].
    + split; cbn [st' lm_set_sizes lm_num_page_sizes lm_page_sizes]; [by rewrite zlen_zset|lia|].
      fold (sizes_of st'). change (Forall page_size_ok (sizes_of st')). rewrite Hsz.
      apply Forall_app. split; [done|]. by constructor.
    + rewrite Hsz, take_ge; [done|]. rewrite length_app. cbn. unfold zlen in Hz. lia.
Qed.

Lemma take_take_app {A} n (l l2 : list A) : take n (take n l ++ l2) = take n (l ++ l2).
Proof.
  destruct (decide (n <= length l)%nat) as [Hle|Hgt].
  - rewrite !take_app_le; [by rewrite take_idemp|done|rewrite length_take; lia].
  - by rewrite (take_ge l) by lia.
Qed.

Lemma mask_63 k : 0 <= k < 64 -> Z.land k MAP_HUGE_MASK = k.
Proof. intros Hk. unfold MAP_HUGE_MASK. change 63 with (Z.ones 6). rewrite Z.land_ones by lia. apply Z.mod_small. lia. Qed.

Lemma add_huge_sizes_run (s : Sys) sizes st :
  sizes_wf st -> Forall is_size sizes ->
  exists st', add_huge_sizes s sizes st = Ok st' /\ sizes_wf st' /\
    sizes_of st' = take (Z.to_nat MAX_PAGE_SIZES) (sizes_of st ++ omap (huge_entry s) sizes) /\
    lm_page_shift st' = lm_page_shift st /\ lm_pagemap_fd st' = lm_pagemap_fd st.
Proof.
  revert st. induction sizes as [|z sizes IH]; intros st Hwf Hall.
  { exists st. split; [done|]. split; [done|]. split; [|done]. cbn. rewrite app_nil_r.
    pose proof (zlen_sizes_of st Hwf) as Hz. destruct Hwf as [_ Hn _]. rewrite take_ge; [done|].
    unfold zlen in Hz. lia. }
  apply Forall_cons_1 in Hall as [(k&Hk&->) Hall]. cbn [add_huge_sizes].
  assert (Hb : 0 < 2 ^ k < 2 ^ 64) by (split; [apply Z.pow_pos_nonneg|apply Z.pow_lt_mono_r]; lia).
  rewrite u64_id by (unfold is_u64; lia). rewrite log2_size by done. cbn [mbind res_bind].
  rewrite mask_63, Z.eqb_refl by done. cbn [negb]. cbn [omap list_omap]. unfold huge_entry at 1.
  rewrite Z.log2_pow2 by lia.
  assert (Hskip : forall r, metal_add_page_size st r k (i32 (Z.lor MAP_HUGETLB (Z.shiftl k MAP_HUGE_SHIFT))) =
      Ok (st, - EOVERFLOW) \/ metal_add_page_size st r k (i32 (Z.lor MAP_HUGETLB (Z.shiftl k MAP_HUGE_SHIFT))) = Ok (st, - EINVAL)
      \/ (exists p, r = Some p /\ 0 < k)).
  { intros [p|]; unfold metal_add_page_size; (destruct (MAX_PAGE_SIZES <=? _); [by left|]); [|by right; left].
    destruct (k <=? 0) eqn:E; zbool; [by right; left|]. right; right. exists p. split; [done|lia]. }
  destruct (os_hugetlbfs_find_path_for_size s (2 ^ k)) as [p|]; cycle 1.
  { destruct (Hskip None) as [-> |[-> |(p&?&_)]]; [| |done]; cbn [mbind res_bind]; by apply IH. }
  destruct (0 <? k) eqn:E; zbool; cycle 1.
  { destruct (Hskip (Some p)) as [-> |[-> |(?&_&?)]]; [| |lia]; cbn [mbind res_bind]; by apply IH. }
  destruct (add_page_size_run st _ p k (i32 (Z.lor MAP_HUGETLB (Z.shiftl k MAP_HUGE_SHIFT))) Hwf ltac:(lia) eq_refl)
    as (st1&r&Hrun&Hwf1&Hsz&Hsh&Hpm). rewrite Hrun. cbn [mbind res_bind].
  destruct (IH st1 Hwf1 Hall) as (st2&Hrun2&Hwf2&Hsz2&Hsh2&Hpm2). exists st2. rewrite Hsz2, Hsz, take_take_app.
  rewrite <- app_assoc. split; [done|]. split; [done|]. split; [done|]. by rewrite Hsh2, Hpm2.
Qed.
End tables.

(** ** The sort *)

Definition size_le (a b : metal_page_size) : Prop := ps_size a <= ps_size b.

#[global] Instance size_le_trans : Transitive size_le.
Proof. intros a b c. unfold size_le. lia. Qed.

Lemma Sorted_size_le l : Forall page_size_ok l -> Sorted pagesize_le l -> Sorted size_le l.
Proof.
  induction l as [|a l IH]; intros Hok Hs; [constructor|].
  apply Forall_cons_1 in Hok as [Ha Hok]. inversion Hs as [|? ? Hs' Hd]; subst.
  constructor; [by apply IH|]. destruct Hd as [|b l' Hab]; constructor.
  apply Forall_cons_1 in Hok as [Hb _]. by apply pagesize_le_iff.
Qed.

Lemma sort_page_sizes_run st :
  sizes_wf st -> sizes_wf (sort_page_sizes st) /\ sizes_of (sort_page_sizes st) ≡ₚ sizes_of st /\
    StronglySorted size_le (sizes_of (sort_page_sizes st)).
Proof.
  intros Hwf. pose proof Hwf as [Hl Hn Hok]. pose proof (zlen_sizes_of st Hwf) as Hz.
  set (n := Z.to_nat (lm_num_page_sizes st)) in *.
  pose proof (merge_sort_Permutation pagesize_le (sizes_of st)) as Hp.
  assert (Hsz : sizes_of (sort_page_sizes st) = merge_sort pagesize_le (sizes_of st)).
  { unfold sizes_of at 1, sort_page_sizes. cbn [lm_set_sizes lm_num_page_sizes lm_page_sizes].
    fold n. change (take n (lm_page_sizes st)) with (sizes_of st).
    rewrite take_app_le; [apply take_ge|]; rewrite Hp; unfold zlen in Hz; lia. }
  rewrite Hsz. split; [|split; [done|]].
  - split; [|done|].
    + unfold sort_page_sizes. cbn [lm_set_sizes lm_page_sizes]. fold n.
      change (take n (lm_page_sizes st)) with (sizes_of st).
      unfold zlen in *. rewrite length_app, Hp, length_drop. unfold MAX_PAGE_SIZES in *. lia.
    + change (Forall page_size_ok (sizes_of (sort_page_sizes st))). rewrite Hsz.
      by rewrite Hp.
  - apply Sorted_StronglySorted; [apply _|]. apply Sorted_size_le; [|apply (Sorted_merge_sort _)].
    by rewrite Hp.
Qed.

(** C39: Start-up fills the table of page sizes: the system's size and every huge page
    size with a mounted file system, at most 32 of them, each a power of two with
    its exponent, in increasing order of size. *)
Theorem init_page_sizes_spec {Sys} `{os Sys} (s : Sys) (st : linux_state) (k : Z) (tmp : list Z) :
  sizes_wf st -> lm_num_page_sizes st = 0 -> lm_tmp_path st = Some tmp ->
  os_getpagesize s = 2 ^ k -> 0 < k < 64 ->
  Forall is_size (os_gethugepagesizes s (MAX_PAGE_SIZES - 1)) ->
  let huge := if 0 <=? os_gethugepagesize s
    then omap (huge_entry s) (os_gethugepagesizes s (MAX_PAGE_SIZES - 1)) else [] in
  exists st', metal_init_page_sizes s st = Ok (st', 0) /\ sizes_wf st' /\ lm_page_shift st' = k /\
    StronglySorted size_le (sizes_of st') /\
    sizes_of st' ≡ₚ take (Z.to_nat MAX_PAGE_SIZES) (mk_ps (2 ^ k) k (strncpy_path tmp) 0 :: huge).
Proof.
  intros Hwf H0 Htmp Hps Hk Hall. cbv zeta. unfold metal_init_page_sizes. rewrite Hps.
  pose proof (Z.pow_pos_nonneg 2 k ltac:(lia) ltac:(lia)).
  rewrite (proj2 (Z.leb_gt _ 0)) by lia. rewrite log2_size by lia. cbn [mbind res_bind].
  set (st1 := lm_set_page st (2 ^ k) k). change (lm_tmp_path st1) with (lm_tmp_path st). rewrite Htmp.
  assert (Hwf1 : sizes_wf st1) by (destruct Hwf; by split).
  destruct (add_page_size_run st1 _ tmp k 0 Hwf1 Hk eq_refl) as (st2&r&Hrun&Hwf2&Hsz&Hsh&_).
  rewrite Hrun. cbn [mbind res_bind].
  assert (E1 : sizes_of st1 = []) by (unfold sizes_of; cbn; by rewrite H0).
  rewrite E1 in Hsz. cbn [app] in Hsz. rewrite take_ge in Hsz by (cbn; unfold MAX_PAGE_SIZES; lia).
  assert (Hst : exists st3, (if 0 <=? os_gethugepagesize s
      then add_huge_sizes s (os_gethugepagesizes s (MAX_PAGE_SIZES - 1)) st2 else Ok st2) = Ok st3 /\ sizes_wf st3 /\
    lm_page_shift st3 = k /\
    sizes_of st3 = take (Z.to_nat MAX_PAGE_SIZES) (mk_ps (2 ^ k) k (strncpy_path tmp) 0 ::
      (if 0 <=? os_gethugepagesize s then omap (huge_entry s) (os_gethugepagesizes s (MAX_PAGE_SIZES - 1)) else []))).
  { destruct (0 <=? os_gethugepagesize s).
    - destruct (add_huge_sizes_run s _ st2 Hwf2 Hall) as (st3&Hrun3&Hwf3&Hsz3&Hsh3&_). exists st3.
      rewrite Hsz3, Hsz, Hsh3, Hsh. done.
    - exists st2. rewrite Hsz, Hsh. done. }
  destruct Hst as (st3&Hrun3&Hwf3&Hsh3&Hsz3). rewrite Hrun3. cbn [mbind res_bind].
  destruct (sort_page_sizes_run st3 Hwf3) as (Hwf4&Hp&Hs).
  exists (sort_page_sizes st3). split; [done|]. split; [done|]. split; [done|]. split; [done|].
  by rewrite Hp, Hsz3.
Qed.

(** ** Mappings and shared memory *)

Lemma align_up_pages size p :
  pow2 p -> p <= 9223372036854775808 -> 0 < size -> size + p <= 18446744073709551616 ->
  exists n, 0 < n /\ metal_align_up size p = n * p /\ size <= n * p < size + p.
Proof.
  intros Hp Hle Hs Hsum. pose proof (pow2_pos p Hp) as H0. unfold metal_align_up.
  rewrite align_down_spec by (try done; unfold is_u64; lia).
  exists ((size + p - 1) / p). pose proof (Z_div_mod_eq_full (size + p - 1) p) as Hd.
  pose proof (Z.mod_pos_bound (size + p - 1) p H0) as Hm. split; [|lia].
  apply Z.div_str_pos. lia.
Qed.

Section shmem.
Context {Sys : Type} `{os_laws Sys}.
Implicit Type s : Sys.

Lemma expand_file_run s fd n s' e : expand_file s fd n = (s', e) ->
  os_owned s' = os_owned s /\ (e = true -> 0 < os_errno s').
Proof.
  unfold expand_file. destruct (os_flock s fd LOCK_EX) as [s1 r1] eqn:E1.
  apply law_flock in E1 as [Ho1 He1]. destruct (r1 <? 0) eqn:Er1; zbool.
  { intros [= <- <-]. split; [done|]. intros _. by apply He1. }
  destruct (os_fstat s1 fd) as [[s2 r2] sz] eqn:E2. apply law_fstat in E2 as [Ho2 He2].
  destruct (Z.eqb_spec r2 0) as [->|Hr2]; cbn [negb]; cycle 1.
  { intros [= <- <-]. split; [congruence|]. intros _. by apply He2. }
  destruct (if sz <? n then os_ftruncate s2 fd n else (s2, 0)) as [s3 r3] eqn:E3.
  assert (H3 : os_owned s3 = os_owned s2 /\ (r3 <> 0 -> 0 < os_errno s3)).
  { destruct (sz <? n); [by apply law_ftruncate in E3|]. injection E3 as <- <-. done. }
  destruct H3 as [Ho3 He3]. destruct (Z.eqb_spec r3 0) as [->|Hr3]; cbn [negb]; cycle 1.
  { intros [= <- <-]. split; [congruence|]. intros _. by apply He3. }
  destruct (os_flock s3 fd LOCK_UN) as [s4 r4] eqn:E4. apply law_flock in E4 as [Ho4 _].
  intros [= <- <-]. split; [congruence|done].
Qed.

(** [metal_map] returns a new mapping, or an error and nothing is new. *)
Lemma metal_map_run s fd offset size expand flags s' r mem :
  metal_map s fd offset size expand flags = (s', r, mem) ->
  (r < 0 /\ os_owned s' = os_owned s) \/
  (r = 0 /\ (R_map mem size ∉ os_owned s) /\ os_owned s' = {[R_map mem size]} ∪ os_owned s).
Proof.
  assert (Hmap : forall s0 fd0 fl, os_owned s0 = os_owned s ->
    (let '(s, mem) := os_mmap s0 size PROT_READ_WRITE fl fd0 offset in
     if mem =? MAP_FAILED then (s, - os_errno s, 0) else (s, 0, mem)) = (s', r, mem) ->
    (r < 0 /\ os_owned s' = os_owned s) \/
    (r = 0 /\ (R_map mem size ∉ os_owned s) /\ os_owned s' = {[R_map mem size]} ∪ os_owned s)).
  { intros s0 fd0 fl Ho. destruct (os_mmap s0 _ _ _ _ _) as [s1 a] eqn:Em. apply law_mmap in Em.
    destruct (Z.eqb_spec a MAP_FAILED) as [->|Hne]; intros [= <- <- <-]; destruct Em as [(Ha&He&Hs)|(Ha&Hn&Hs)];
      try done; [left|right]; rewrite Hs, ?Ho in *; [split; [lia|done]|done]. }
  unfold metal_map. destruct (fd <? 0); [by apply Hmap|]. destruct (negb (expand =? 0)); [|by apply Hmap].
  destruct (expand_file s fd _) as [s1 e] eqn:Ee. apply expand_file_run in Ee as [Ho He].
  destruct e; [|by apply Hmap]. intros [= <- <- <-]. left. specialize (He eq_refl). split; [lia|done].
Qed.

Lemma metal_unmap_run s a n s' r :
  R_map a n ∈ os_owned s -> metal_unmap s a n = (s', r) -> os_owned s' = os_owned s ∖ {[R_map a n]}.
Proof.
  intros Hin. unfold metal_unmap, or_errno. destruct (os_munmap s a n) as [s1 r1] eqn:E.
  intros [= <- <-]. by apply (law_munmap s a n s1 r1).
Qed.

Lemma virt2phys_owned s st addr s' r p : metal_virt2phys s st addr = (s', r, p) -> os_owned s' = os_owned s.
Proof.
  unfold metal_virt2phys. destruct (lm_pagemap_fd st <? 0); [by intros [= <- <- <-]|].
  destruct (os_pread _ _ _) as [[s1 e] entry] eqn:E. apply law_pread in E.
  destruct (e <? 0); [by intros [= <- <- <-]|]. destruct (negb _); by intros [= <- <- <-].
Qed.

Lemma phys_loop_run k s st ps virt page phys :
  0 <= page -> page + Z.of_nat k <= zlen phys ->
  exists s' phys', phys_loop k s st ps virt page phys = Ok (s', phys') /\ os_owned s' = os_owned s /\
    zlen phys' = zlen phys.
Proof.
  revert s page phys. induction k as [|k IH]; intros s page phys Hp Hk; [by exists s, phys|].
  cbn [phys_loop]. destruct (metal_virt2phys s st _) as [[s1 e] p] eqn:E. apply virt2phys_owned in E.
  rewrite rset_ok by lia. cbn [mbind res_bind].
  destruct (IH s1 (page + 1) (zset phys page (if e <? 0 then METAL_BAD_OFFSET else p))) as (s2&phys2&Hr&Ho&Hl);
    [lia|rewrite zlen_zset; lia|]. exists s2, phys2. rewrite zlen_zset in Hl. split; [done|].
  split; [congruence|done].
Qed.

Variable shmem_io_close_fn : Z.

(** A region for [size] bytes in pages of [ps]. *)
Record shmem_region (ps : metal_page_size) (size : Z) (io : metal_io_region) : Prop := {
  sr_size : size <= io_size io < size + ps_size ps;
  sr_pages : exists phys, io_physmap io = Some phys /\ zlen phys * ps_size ps = io_size io;
  sr_ops : io_ops io = metal_shmem_io_ops shmem_io_close_fn
}.

(** What a successful call leaves with its caller. *)
Definition region_owned (io : metal_io_region) (physaddr block : Z) : gset resource :=
  {[R_map (io_virt io) (io_size io); R_block physaddr; R_block block]}.

Lemma try_map_run s st ps fd size :
  page_size_ok ps -> 0 < size -> size + ps_size ps <= 18446744073709551616 ->
  exists s' e r, metal_shmem_try_map shmem_io_close_fn s st ps fd size = Ok (s', e, r) /\
    ((e < 0 /\ r = None /\ os_owned s' = os_owned s) \/
     (e = 0 /\ exists io pa blk, r = Some (io, pa) /\ shmem_region ps size io /\
        region_owned io pa blk ## os_owned s /\ os_owned s' = region_owned io pa blk ∪ os_owned s)).
Proof.
  intros Hok Hs Hsum. pose proof (page_size_range ps Hok) as Hr. unfold metal_shmem_try_map.
  rewrite (proj2 (Z.eqb_neq (ps_size ps) 0)) by lia.
  destruct (align_up_pages size (ps_size ps)) as (n&Hn&Hal&Hrange); [|lia..|].
  { destruct Hok as [Hsh ->]. exists (ps_shift ps). split; [lia|done]. }
  rewrite Hal, Z.div_mul by lia.
  destruct (metal_map s fd 0 (n * ps_size ps) 1 (ps_flags ps)) as [[s1 e1] mem] eqn:Em.
  apply metal_map_run in Em as [[He Ho]|(->&Hf1&Ho1)].
  { rewrite (proj2 (Z.eqb_neq e1 0)) by lia. eexists _, _, _. split; [reflexivity|]. left. done. }
  cbn [negb Z.eqb]. destruct (os_mlock s1 mem _) as [s2 r2] eqn:El. apply law_mlock in El.
  destruct (os_malloc_phys s2 n) as [[s3 pa] phys] eqn:Ep. apply law_malloc_phys in Ep as [[-> Ho3]|(Hpa&Hf3&Ho3&Hlen)].
  { cbn [Z.eqb]. destruct (metal_unmap s3 mem _) as [s4 r4] eqn:Eu. eexists _, _, _. split; [reflexivity|].
    left. split; [unfold ENOMEM; lia|]. split; [done|].
    apply metal_unmap_run in Eu; rewrite Ho3, El, Ho1 in *; [|set_solver]. set_solver. }
  rewrite (proj2 (Z.eqb_neq pa 0) Hpa). destruct (os_malloc s3 _) as [s4 blk] eqn:Eb.
  apply law_malloc in Eb as [[-> Ho4]|(Hb&Hf4&Ho4)].
  { cbn [Z.eqb]. destruct (metal_unmap (os_free s4 pa) mem _) as [s5 r5] eqn:Eu. eexists _, _, _.
    split; [reflexivity|]. left. split; [unfold ENOMEM; lia|]. split; [done|].
    apply metal_unmap_run in Eu; rewrite law_free, Ho4, Ho3, El, Ho1 in *; set_solver. }
  rewrite (proj2 (Z.eqb_neq blk 0) Hb).
  assert (Hdone : forall s5 phys' shift, os_owned s5 = os_owned s4 -> zlen phys' = zlen phys ->
    (0 = 0 /\ exists io pa0 blk0, Some (metal_io_init mem (Some phys') (n * ps_size ps) shift 0
        (Some (metal_shmem_io_ops shmem_io_close_fn)), pa) = Some (io, pa0) /\
      shmem_region ps size io /\ region_owned io pa0 blk0 ## os_owned s /\
      os_owned s5 = region_owned io pa0 blk0 ∪ os_owned s)).
  { intros s5 phys' shift Ho5 Hl'. split; [done|]. eexists _, pa, blk. split; [reflexivity|].
    unfold region_owned. cbn [metal_io_init io_virt io_size]. rewrite Ho5, Ho4, Ho3, El, Ho1 in *.
    split; [|split; set_solver]. split; [exact Hrange| |done]. exists phys'. split; [done|]. rewrite Hl', Hlen. done. }
  destruct (lm_pagemap_fd st <? 0).
  - rewrite rset_ok by lia. cbn [mbind res_bind]. eexists _, _, _. split; [reflexivity|]. right.
    apply Hdone; [done|by rewrite zlen_zset].
  - destruct (phys_loop_run (Z.to_nat n) s4 st ps mem 0 phys) as (s5&phys'&Hrun&Ho5&Hl5); [lia..|].
    rewrite Hrun. cbn [mbind res_bind]. eexists _, _, _. split; [reflexivity|]. right. by apply Hdone.
Qed.

(** The sizes that [metal_shmem_open] does not skip. *)
Definition eligible (size : Z) (ps : metal_page_size) : Prop := ps_size ps <= u64 (2 * size).

#[local] Instance eligible_dec size ps : Decision (eligible size ps).
Proof. apply Z_le_dec. Defined.

(** The sizes of [l] that are eligible were tried one after the other from [s] on, and each
    attempt failed. *)
Inductive all_failed (st : linux_state) (fd size : Z) : list metal_page_size -> Sys -> Sys -> Prop :=
| failed_nil s : all_failed st fd size [] s s
| failed_skip ps l s s' : ~ eligible size ps -> all_failed st fd size l s s' -> all_failed st fd size (ps :: l) s s'
| failed_try ps l s s1 e s' : eligible size ps ->
    metal_shmem_try_map shmem_io_close_fn s st ps fd size = Ok (s1, e, None) -> e < 0 ->
    all_failed st fd size l s1 s' -> all_failed st fd size (ps :: l) s s'.

Lemma try_page_sizes_run l s st fd size e0 :
  Forall page_size_ok l -> Forall (fun ps => size + ps_size ps <= 18446744073709551616) l -> 0 < size ->
  exists s' e r, try_page_sizes shmem_io_close_fn l s st fd size e0 = Ok (s', e, r) /\
    ((r = None /\ os_owned s' = os_owned s /\ all_failed st fd size l s s' /\
        (Exists (eligible size) l -> e < 0) /\ (~ Exists (eligible size) l -> e = e0)) \/
     (e = 0 /\ exists l1 ps l2 s1 io pa blk, l = l1 ++ ps :: l2 /\ all_failed st fd size l1 s s1 /\
        eligible size ps /\ metal_shmem_try_map shmem_io_close_fn s1 st ps fd size = Ok (s', 0, Some (io, pa)) /\
        r = Some (io, pa) /\ shmem_region ps size io /\
        region_owned io pa blk ## os_owned s /\ os_owned s' = region_owned io pa blk ∪ os_owned s)).
Proof.
  revert s e0. induction l as [|ps l IH]; intros s e0 Hok Hsum Hs.
  { exists s, e0, None. split; [done|]. left. split; [done|]. split; [done|]. split; [constructor|].
    split; [intros H1; inversion H1|done]. }
  apply Forall_cons_1 in Hok as [Hps Hok]. apply Forall_cons_1 in Hsum as [Hp Hsum]. cbn [try_page_sizes].
  destruct (u64 (2 * size) <? ps_size ps) eqn:E; zbool.
  - assert (Hn : ~ eligible size ps) by (unfold eligible; lia).
    destruct (IH s e0 Hok Hsum Hs) as (s'&e&r&Hrun&Hres). exists s', e, r. split; [done|].
    destruct Hres as [(Hr&Ho&Ha&Hex&Hno)|(He&l1&ps'&l2&s1&io&pa&blk&->&Ha&Hrest)]; [left|right].
    + split; [done|]. split; [done|]. split; [by apply failed_skip|]. rewrite Exists_cons. tauto.
    + split; [done|]. exists (ps :: l1), ps', l2, s1, io, pa, blk. split; [done|]. split; [by apply failed_skip|done].
  - destruct (try_map_run s st ps fd size Hps Hs Hp) as (s1&e1&r1&Hrun1&Hres1). rewrite Hrun1. cbn [mbind res_bind].
    destruct Hres1 as [(He1&->&Ho1)|(->&io&pa&blk&->&Hrest)].
    + rewrite (proj2 (Z.eqb_neq e1 0)) by lia. destruct (IH s1 e1 Hok Hsum Hs) as (s'&e&r&Hrun&Hres).
      exists s', e, r. split; [done|]. rewrite Ho1 in Hres.
      destruct Hres as [(Hr&Ho&Ha&Hex&Hno)|(He&l1&ps'&l2&s2&io&pa&blk&->&Ha&Hrest)]; [left|right].
      * split; [done|]. split; [done|]. split; [by eapply failed_try|]. split; intros Hx; [|destruct Hx; by left].
        destruct (decide (Exists (eligible size) l)) as [Hy|Hy]; [by apply Hex|]. by rewrite (Hno Hy).
      * split; [done|]. exists (ps :: l1), ps', l2, s2, io, pa, blk. split; [done|]. split; [by eapply failed_try|done].
    + cbn [Z.eqb]. eexists _, _, _. split; [reflexivity|]. right. split; [done|].
      exists [], ps, l, s, io, pa, blk. split; [done|]. split; [constructor|]. done.
Qed.

(** The sizes behind one of a list in decreasing order are not larger. *)
Lemma larger_first st l1 ps l2 ps' :
  StronglySorted size_le (sizes_of st) -> page_sizes_down st = l1 ++ ps :: l2 ->
  ps' ∈ sizes_of st -> ps_size ps < ps_size ps' -> ps' ∈ l1.
Proof.
  intros Hs Hd Hin Hlt. unfold page_sizes_down in Hd. fold (sizes_of st) in Hd.
  assert (E : sizes_of st = rev l2 ++ ps :: rev l1).
  { rewrite <- (rev_involutive (sizes_of st)), Hd, rev_app_distr. cbn [rev]. by rewrite <- app_assoc. }
  rewrite E in Hs, Hin. apply elem_of_app in Hin as [Hin|[->|Hin]%elem_of_cons]; [|lia|].
  - pose proof (StronglySorted_app_1_elem_of size_le _ _ ps' ps Hs Hin ltac:(by left)) as Hle. unfold size_le in Hle. lia.
  - by rewrite list_elem_of_In, <- List.in_rev, <- list_elem_of_In in Hin.
Qed.

Lemma elem_sizes_down st ps : ps ∈ page_sizes_down st <-> ps ∈ sizes_of st.
Proof. unfold page_sizes_down. rewrite !list_elem_of_In, <- List.in_rev. done. Qed.

Lemma Forall_down (P : metal_page_size -> Prop) st : Forall P (sizes_of st) -> Forall P (page_sizes_down st).
Proof. rewrite !list.Forall_forall. intros Hall ps Hps. apply Hall. by apply elem_sizes_down. Qed.

(** C38: Opening a shared memory that no generic region provides, with a table of page sizes
    as start-up leaves it.  Either a region comes back whose size is the one asked for
    rounded up to pages of a size of the table that is at most twice the request, the
    largest with which it can be mapped: every larger size that is eligible was tried
    before and failed.  It has one entry of the physical map per page, and the process
    owns its mapping and two blocks more than before (not the file, whose descriptor is
    closed).  Or no region comes back and the process owns exactly what it owned: the
    descriptor is closed on every path, and every partial mapping is undone.  Then the
    value is the error of opening the file, or negative after every eligible size was
    tried, or, when no page size of the table is eligible, the number of the closed
    descriptor. *)
Theorem metal_shmem_open_spec {Env} (w : dworld Env) s st (name : list Z) (size : Z) :
  name <> [] -> metal_shmem_open_generic w (Some name) size = Ok (- ENOENT, None) ->
  sizes_wf st -> StronglySorted size_le (sizes_of st) -> 0 < size ->
  Forall (fun ps => size + ps_size ps <= 18446744073709551616) (sizes_of st) ->
  exists s' e r s1 fd, metal_shmem_open shmem_io_close_fn w s st (Some name) size = Ok (s', e, r) /\
    metal_open s (Some name) 1 = (s1, fd) /\
    match r with
    | Some (io, pa) => e = 0 /\ exists ps blk larger s2 s3, ps ∈ sizes_of st /\ eligible size ps /\
        (forall ps', ps' ∈ sizes_of st -> ps_size ps < ps_size ps' -> ps' ∈ larger) /\
        all_failed st fd size larger s1 s2 /\
        metal_shmem_try_map shmem_io_close_fn s2 st ps fd size = Ok (s3, 0, Some (io, pa)) /\
        shmem_region ps size io /\ region_owned io pa blk ## os_owned s /\
        os_owned s' = region_owned io pa blk ∪ os_owned s
    | None => os_owned s' = os_owned s /\
        ((fd < 0 /\ e = fd) \/
         (0 <= fd /\ e < 0 /\ exists tried s2, tried ≡ₚ sizes_of st /\ all_failed st fd size tried s1 s2) \/
         (0 <= fd /\ e = fd /\ Forall (fun ps => u64 (2 * size) < ps_size ps) (sizes_of st)))
    end.
Proof.
  intros Hname Hgen Hwf Hsort Hs Hsum. unfold metal_shmem_open. rewrite Hgen. cbn [mbind res_bind].
  change (- ENOENT =? 0) with false. cbv iota. unfold metal_open.
  destruct name as [|ch name]; [done|]. change (negb (1 =? 0)) with true. cbv iota.
  destruct (os_shm_open s _ _ _) as [s1 fd] eqn:Eo. apply law_shm_open in Eo as [(Hfd&He&Ho)|(Hfd&Hf&Ho)].
  { rewrite (proj2 (Z.ltb_lt fd 0) Hfd), (proj2 (Z.ltb_lt (- _) 0)) by lia.
    eexists _, _, _, _, _. split; [reflexivity|]. split; [reflexivity|]. split; [done|left; lia]. }
  rewrite (proj2 (Z.ltb_ge fd 0) Hfd), (proj2 (Z.ltb_ge fd 0) Hfd).
  destruct (try_page_sizes_run (page_sizes_down st) s1 st fd size fd) as (s2&e&r&Hrun&Hres);
    [apply Forall_down, (sw_ok _ Hwf)|by apply Forall_down|done|].
  rewrite Hrun. cbn [mbind res_bind]. destruct (os_close s2 fd) as [s3 rc] eqn:Ec. apply law_close in Ec.
  exists s3, e, r, s1, fd. split; [done|]. split; [done|].
  destruct Hres as [(->&Ho2&Ha&Hex&Hno)|(->&l1&ps&l2&sa&io&pa&blk&Hl&Ha&Hel&Hmap&->&Hreg&Hdis&Ho2)].
  - split; [rewrite Ec, Ho2, Ho; set_solver|]. right.
    destruct (decide (Exists (eligible size) (page_sizes_down st))) as [Hy|Hy]; [left|right].
    + split; [done|]. split; [by apply Hex|]. exists (page_sizes_down st), s2. split; [|done]. symmetry. apply Permutation_rev.
    + rewrite (Hno Hy). split; [done|]. split; [done|]. apply list.Forall_forall. intros ps Hps.
      apply Z.nle_gt. intros Hle. apply Hy, list.Exists_exists. exists ps. by rewrite elem_sizes_down.
  - split; [done|]. exists ps, blk, l1, sa, s2.
    assert (Hin : ps ∈ sizes_of st) by (apply elem_sizes_down; rewrite Hl, elem_of_app; right; by left).
    split; [done|]. split; [done|]. split; [intros ps'; by apply (larger_first st l1 ps l2)|]. split; [done|]. split; [done|].
    split; [done|]. rewrite Ec, Ho2, Ho in *. unfold region_owned in *. split; set_solver.
Qed.
End shmem.

(** ** A system that satisfies the laws *)

(** It owns what it owns; every call succeeds with the next free number; a file has
    no bytes yet, and the page map is empty. *)
Definition res_number (r : resource) : Z := match r with R_fd a | R_map a _ | R_block a | R_handle a => a end.
Definition res_bound (X : gset resource) : Z := set_fold (fun r b => Z.max (res_number r) b) 0 X.
Definition next_number (X : gset resource) : Z :=
  if 1 + res_bound X =? MAP_FAILED then 2 + res_bound X else 1 + res_bound X.

(** A descriptor, never the number of interrupts of the port. *)
Definition next_fd (X : gset resource) : Z :=
  if next_number X =? 1023 then 1024 else next_number X.

Lemma res_bound_spec X : 0 <= res_bound X /\ forall r, r ∈ X -> res_number r <= res_bound X.
Proof.
  unfold res_bound. apply (set_fold_ind_L (fun b X => 0 <= b /\ forall r, r ∈ X -> res_number r <= b)).
  - split; [done|]. intros r. set_solver.
  - intros r X' b _ [H0 IH]. split; [lia|]. intros r'. rewrite elem_of_union, elem_of_singleton.
    intros [->|Hr]; [lia|]. specialize (IH r' Hr). lia.
Qed.

Lemma next_number_fresh X r : res_number r = next_number X -> r ∉ X.
Proof.
  intros Hr Hin. pose proof (proj2 (res_bound_spec X) r Hin) as Hb. unfold next_number in Hr.
  destruct (_ =? _); lia.
Qed.

Lemma next_number_range X : 0 < next_number X /\ next_number X <> MAP_FAILED.
Proof.
  pose proof (proj1 (res_bound_spec X)). unfold next_number. destruct (Z.eqb_spec (1 + res_bound X) MAP_FAILED); lia.
Qed.

Lemma next_fd_fresh X : 0 < next_fd X /\ (R_fd (next_fd X) ∉ X) /\ next_fd X <> 1023.
Proof.
  pose proof (next_number_range X) as [H0 _]. unfold next_fd. destruct (Z.eqb_spec (next_number X) 1023) as [E|E].
  - split; [done|]. split; [|done]. intros Hin. pose proof (proj2 (res_bound_spec X) _ Hin) as Hb. cbn in Hb.
    unfold next_number in E. destruct (_ =? _); lia.
  - split; [done|]. split; [by apply next_number_fresh|done].
Qed.

#[local] Instance demo_os : os (gset resource) := {
  os_errno _ := 5;
  os_open s _ _ _ := ({[R_fd (next_fd s)]} ∪ s, next_fd s);
  os_shm_open s _ _ _ := ({[R_fd (next_number s)]} ∪ s, next_number s);
  os_close s fd := (s ∖ {[R_fd fd]}, 0);
  os_flock s _ _ := (s, 0);
  os_fstat s _ := (s, 0, 0);
  os_ftruncate s _ _ := (s, 0);
  os_mmap s n _ _ _ _ := ({[R_map (next_number s) n]} ∪ s, next_number s);
  os_munmap s a n := (s ∖ {[R_map a n]}, 0);
  os_mlock s _ _ := (s, 0);
  os_pread s _ _ := (s, 8, 0);
  os_malloc_phys s n :=
    if 0 <=? n then ({[R_block (next_number s)]} ∪ s, next_number s, replicate (Z.to_nat n) 0) else (s, 0, []);
  os_malloc s _ := ({[R_block (next_number s)]} ∪ s, next_number s);
  os_free s a := s ∖ {[R_block a]};
  os_getpagesize _ := 4096;
  os_gethugepagesize _ := 2097152;
  os_gethugepagesizes _ _ := [1073741824; 2097152];
  os_hugetlbfs_find_path_for_size _ _ := Some [104]
}.

#[local] Instance demo_os_laws : os_laws (gset resource).
Proof.
  refine {| os_owned s := s |}; cbn; intros; simplify_eq; try done.
  - right. pose proof (next_number_range s). split; [lia|]. split; [by apply next_number_fresh|done].
  - right. destruct (next_fd_fresh s) as (?&?&_). split; [lia|done].
  - right. pose proof (next_number_range s). split; [lia|]. split; [by apply next_number_fresh|done].
  - destruct (0 <=? n) eqn:E; zbool; simplify_eq; [right|by left]. pose proof (next_number_range s).
    split; [lia|]. split; [by apply next_number_fresh|]. split; [done|]. rewrite zlen_replicate. lia.
  - right. pose proof (next_number_range s). split; [lia|]. split; [by apply next_number_fresh|done].
Defined.

Definition demo_st : linux_state := lm_set_tmp clear_linux_state (Some [47; 116]).

Lemma demo_st_wf : sizes_wf demo_st.
Proof. split; [reflexivity|split; vm_compute; congruence|constructor]. Qed.

Lemma init_page_sizes_spec_witness : exists st',
  metal_init_page_sizes (∅ : gset resource) demo_st = Ok (st', 0) /\ sizes_wf st' /\
  (ps_size <$> sizes_of st') ≡ₚ [4096; 1073741824; 2097152] /\ StronglySorted size_le (sizes_of st').
Proof.
  destruct (init_page_sizes_spec (∅ : gset resource) demo_st 12 [47; 116]) as (st'&Hrun&Hwf&_&Hs&Hp).
  - exact demo_st_wf.
  - reflexivity.
  - reflexivity.
  - reflexivity.
  - lia.
  - constructor; [exists 30; split; [lia|reflexivity]|]. constructor; [exists 21; split; [lia|reflexivity]|constructor].
  - exists st'. split; [exact Hrun|]. split; [exact Hwf|]. split; [rewrite Hp; reflexivity|exact Hs].
Defined.

(** Three pages of 4096 bytes; and a request of one byte, for which every page size
    is too large. *)
Definition demo_st2 : linux_state :=
  lm_set_pagemap (lm_set_sizes demo_st
    (mk_ps 4096 12 [47; 116] 0 :: replicate 31 no_page_size) 1) (-1).
Definition demo_dw0 : dworld unit := mk_dw 1 0 0 [] [] [] ∅ ∅ ∅ tt.

Lemma demo_st2_wf : sizes_wf demo_st2.
Proof.
  split; [reflexivity|split; vm_compute; congruence|]. cbn. constructor; [|constructor].
  split; [split; reflexivity|reflexivity].
Qed.

Lemma metal_shmem_open_spec_witness :
  (exists s' r, metal_shmem_open 77 demo_dw0 (∅ : gset resource) demo_st2 (Some [120]) 1 = Ok (s', r, None) /\
     0 < r /\ s' = ∅) /\
  (exists s' io pa, metal_shmem_open 77 demo_dw0 (∅ : gset resource) demo_st2 (Some [120]) 9000 = Ok (s', 0, Some (io, pa)) /\
     9000 <= io_size io).
Proof.
  split.
  - destruct (metal_shmem_open_spec 77 demo_dw0 (∅ : gset resource) demo_st2 [120] 1) as (s'&e&r&s1&fd&Hrun&Hop&Hr).
    + discriminate.
    + reflexivity.
    + exact demo_st2_wf.
    + repeat constructor.
    + lia.
    + constructor; [vm_compute; congruence|constructor].
    + assert (E : (x ← metal_shmem_open 77 demo_dw0 (∅ : gset resource) demo_st2 (Some [120]) 1;
          Ok (x.1.2, bool_decide (x.2 = None))) = Ok (1, true)) by (vm_compute; reflexivity).
      rewrite Hrun in E. cbn [mbind res_bind fst snd] in E. injection E as E1 E2.
      apply bool_decide_eq_true in E2. subst e r. destruct Hr as [Ho _].
      exists s', 1. split; [exact Hrun|]. split; [lia|exact Ho].
  - destruct (metal_shmem_open_spec 77 demo_dw0 (∅ : gset resource) demo_st2 [120] 9000) as (s'&e&r&s1&fd&Hrun&Hop&Hr).
    + discriminate.
    + reflexivity.
    + exact demo_st2_wf.
    + repeat constructor.
    + lia.
    + constructor; [vm_compute; congruence|constructor].
    + destruct r as [[io pa]|].
      * destruct Hr as (->&ps&blk&lg&s2&s3&_&_&_&_&_&[Hsz _ _]&_). exists s', io, pa. split; [exact Hrun|lia].
      * exfalso. assert (E : (x ← metal_shmem_open 77 demo_dw0 (∅ : gset resource) demo_st2 (Some [120]) 9000;
          Ok (match x.2 with Some _ => true | None => false end)) = Ok true) by (vm_compute; reflexivity).
        rewrite Hrun in E. discriminate E.
Defined.
