(* ===== verification/LinuxDevice.v ===== *)
(** * Devices of the Linux port (lib/system/linux/device.c)

    A device of a platform or PCI bus is driven through UIO: sysfs gives its class
    directory and the sizes of its regions, the device file their mappings and its
    interrupts.  The functions of libsysfs and the system calls are the operations of
    classes over the state of the system.  A handle is an address, 0 for [NULL]; a
    string is the list of its characters. *)

From Stdlib Require Import Ascii String.
From S2P Require Import Prelude MetalUtil MetalIo MetalIrq MetalDevice LinuxIrq LinuxSys.

(** ** Strings *)

Definition bytes (s : string) : list Z := (fun c => Z.of_nat (nat_of_ascii c)) <$> list_ascii_of_string s.

(** [%u] *)
Fixpoint dec_loop (fuel : nat) (n : Z) (acc : list Z) : list Z :=
  match fuel with
  | O => acc
  | S fuel' =>
      let acc := (48 + n mod 10) :: acc in
      if n <? 10 then acc else dec_loop fuel' (n / 10) acc
  end.
Definition dec (n : Z) : list Z := dec_loop 10 n [].

(** [strtoul(s, NULL, 0)] *)
Definition digit (base c : Z) : option Z :=
  let d := if (48 <=? c) && (c <=? 57) then c - 48
           else if (97 <=? c) && (c <=? 122) then c - 87
           else if (65 <=? c) && (c <=? 90) then c - 55 else 36 in
  if d <? base then Some d else None.
Fixpoint digits (base : Z) (s : list Z) (acc : Z) : Z :=
  match s with
  | c :: s' =>
      match digit base c with
      | Some d => digits base s' (Z.min 18446744073709551615 (acc * base + d))
      | None => acc
      end
  | [] => acc
  end.
Fixpoint skip_blanks (s : list Z) : list Z :=
  match s with
  | c :: s' => if (c =? 32) || ((9 <=? c) && (c <=? 13)) then skip_blanks s' else s
  | [] => []
  end.
Definition strtoul_digits (s : list Z) : Z :=
  match s with
  | 48 :: x :: h :: s' =>
      if ((x =? 120) || (x =? 88)) && (match digit 16 h with Some _ => true | None => false end)
      then digits 16 (h :: s') 0 else digits 8 (x :: h :: s') 0
  | 48 :: s' => digits 8 s' 0
  | _ => digits 10 s 0
  end.
Definition strtoul (s : list Z) : Z :=
  match skip_blanks s with
  | 45 :: s' => let v := strtoul_digits s' in if v =? 18446744073709551615 then v else u64 (- v)
  | 43 :: s' => strtoul_digits s'
  | s' => strtoul_digits s'
  end.

(** ** The system *)

Definition SYSFS_PATH_MAX : Z := 256.
Definition EBUSY : Z := 16.
Definition ENOTSUP : Z := 95.
Definition sysfs_unknown : list Z := bytes "unknown".

(** libsysfs; the driver's name and the path of a device, and the value of an
    attribute, are fields of its structures; a directory list is a handle and the
    names it has.  Of the system: access(2), usleep, reads and writes of an [int] on
    a UIO device, read(2) into a buffer, system(3), and what the interrupts need. *)
Class sysfs (Sys : Type) := {
  sysfs_open_attribute : Sys -> list Z -> Sys * Z;
  sysfs_read_attribute : Sys -> Z -> Sys * Z;
  sysfs_write_attribute : Sys -> Z -> list Z -> Sys * Z;
  sysfs_close_attribute : Sys -> Z -> Sys;
  sysfs_attr_value : Sys -> Z -> list Z;
  sysfs_open_device : Sys -> list Z -> list Z -> Sys * Z;
  sysfs_close_device : Sys -> Z -> Sys;
  sysfs_driver_name : Sys -> Z -> list Z;
  sysfs_device_path : Sys -> Z -> list Z;
  sysfs_get_device_attr : Sys -> Z -> list Z -> Sys * Z;
  sysfs_open_directory_list : Sys -> list Z -> Sys * Z * list (list Z);
  sysfs_close_list : Sys -> Z -> Sys;
  sysfs_path_is_dir : Sys -> list Z -> Sys * Z;
  sysfs_open_driver : Sys -> list Z -> list Z -> Sys * Z;
  sysfs_close_driver : Sys -> Z -> Sys;
  sysfs_get_driver_attr : Sys -> Z -> list Z -> Sys * Z;
  sysfs_open_bus : Sys -> list Z -> Sys * Z;
  sysfs_close_bus : Sys -> Z -> Sys;
  os_access : Sys -> list Z -> Sys * Z;
  os_usleep : Sys -> Z -> Sys;
  os_write_int : Sys -> Z -> Z -> Sys * Z;
  os_read_int : Sys -> Z -> Sys * Z;
  os_read : Sys -> Z -> Z -> Sys * Z * list Z;
  os_system : Sys -> list Z -> Sys * Z
}.

(** ** Data *)

(** A function of a driver is known by a number, 0 for [NULL]. *)
Definition uio_dev_open_fn : Z := 1.
Definition uio_dev_close_fn : Z := 2.
Definition uio_dev_irq_ack_fn : Z := 3.
Definition uio_dev_dma_map_fn : Z := 4.
Definition uio_dev_dma_unmap_fn : Z := 5.

Record linux_driver := mk_ldrv {
  ldrv_name : list Z;
  ldrv_mod_name : list Z;
  ldrv_cls_name : cstring;
  ldrv_sdrv : Z;
  ldrv_dev_open : Z;
  ldrv_dev_close : Z;
  ldrv_dev_irq_ack : Z;
  ldrv_dev_dma_map : Z;
  ldrv_dev_dma_unmap : Z
}.

Definition ldrv_set_sdrv (d : linux_driver) (h : Z) : linux_driver :=
  mk_ldrv (ldrv_name d) (ldrv_mod_name d) (ldrv_cls_name d) h (ldrv_dev_open d) (ldrv_dev_close d)
    (ldrv_dev_irq_ack d) (ldrv_dev_dma_map d) (ldrv_dev_dma_unmap d).

(** The structure, whose first member is the [metal_bus], is at [lb_addr]; the
    sentinels at the end of the arrays are left out. *)
Record linux_bus := mk_lbus {
  lb_addr : Z;
  lb_name : list Z;
  lb_drivers : list linux_driver;
  lb_sbus : Z
}.

Definition lb_set_drivers (b : linux_bus) (l : list linux_driver) : linux_bus :=
  mk_lbus (lb_addr b) (lb_name b) l (lb_sbus b).
Definition lb_set_sbus (b : linux_bus) (h : Z) : linux_bus :=
  mk_lbus (lb_addr b) (lb_name b) (lb_drivers b) h.

(** Besides its first member, the [metal_device]; [ldv_ldrv] is the position of the
    driver in the array of the bus. *)
Record linux_device := mk_ldev {
  ldv_dev_name : list Z;
  ldv_dev_path : list Z;
  ldv_cls_path : list Z;
  ldv_region_phys : list Z;
  ldv_ldrv : nat;
  ldv_sdev : Z;
  ldv_override : Z;
  ldv_fd : Z
}.

Definition ldv_set_paths (v : linux_device) (cls dev : list Z) : linux_device :=
  mk_ldev (ldv_dev_name v) dev cls (ldv_region_phys v) (ldv_ldrv v) (ldv_sdev v) (ldv_override v) (ldv_fd v).
Definition ldv_set_phys (v : linux_device) (l : list Z) : linux_device :=
  mk_ldev (ldv_dev_name v) (ldv_dev_path v) (ldv_cls_path v) l (ldv_ldrv v) (ldv_sdev v) (ldv_override v) (ldv_fd v).
Definition ldv_set_sdev (v : linux_device) (h : Z) : linux_device :=
  mk_ldev (ldv_dev_name v) (ldv_dev_path v) (ldv_cls_path v) (ldv_region_phys v) (ldv_ldrv v) h (ldv_override v)
    (ldv_fd v).
Definition ldv_set_override (v : linux_device) (h : Z) : linux_device :=
  mk_ldev (ldv_dev_name v) (ldv_dev_path v) (ldv_cls_path v) (ldv_region_phys v) (ldv_ldrv v) (ldv_sdev v) h
    (ldv_fd v).
Definition ldv_set_fd (v : linux_device) (fd : Z) : linux_device :=
  mk_ldev (ldv_dev_name v) (ldv_dev_path v) (ldv_cls_path v) (ldv_region_phys v) (ldv_ldrv v) (ldv_sdev v)
    (ldv_override v) fd.

Definition no_region : metal_io_region := mk_io 0 None 0 0 0 0 nops.

Definition dev_set_regions (d : metal_device) (n : Z) (l : list metal_io_region) : metal_device :=
  mk_device (dev_name d) (dev_bus d) n l (dev_irq_num d) (dev_irq_info d).
Definition dev_set_irq (d : metal_device) (num info : Z) : metal_device :=
  mk_device (dev_name d) (dev_bus d) (dev_num_regions d) (dev_regions d) num info.
Definition dev_set_name (d : metal_device) (n : cstring) : metal_device :=
  mk_device n (dev_bus d) (dev_num_regions d) (dev_regions d) (dev_irq_num d) (dev_irq_info d).

(** [static struct linux_bus linux_bus[]], at the addresses given. *)
Definition uio_driver (name : list Z) : linux_driver :=
  mk_ldrv name name (Some (bytes "uio")) 0 uio_dev_open_fn uio_dev_close_fn uio_dev_irq_ack_fn
    uio_dev_dma_map_fn uio_dev_dma_unmap_fn.
Definition linux_buses (platform pci : Z) : list linux_bus :=
  [ mk_lbus platform (bytes "platform")
      [uio_driver (bytes "uio_pdrv_genirq"); uio_driver (bytes "uio_dmem_genirq")] 0;
    mk_lbus pci (bytes "pci")
      [mk_ldrv (bytes "vfio-pci") (bytes "vfio-pci") None 0 0 0 0 0 0; uio_driver (bytes "uio_pci_generic")] 0 ].

(** ** UIO devices *)

Section uio.
Context {Sys : Type} `{os Sys} `{sysfs Sys}.
Implicit Type s : Sys.

(** The value returned and the number read. *)
Definition metal_uio_read_map_attr s (ldev : linux_device) (index : Z) (name : list Z) : Sys * Z * Z :=
  let path := (ldv_cls_path ldev ++ bytes "/maps/map" ++ dec index ++ bytes "/" ++ name)%list in
  if SYSFS_PATH_MAX <=? zlen path then (s, - EOVERFLOW, 0)
  else
    let '(s, attr) := sysfs_open_attribute s path in
    let '(s, bad) := if attr =? 0 then (s, true)
                     else let '(s, r) := sysfs_read_attribute s attr in (s, negb (r =? 0)) in
    if bad : bool then let s := sysfs_close_attribute s attr in (s, - os_errno s, 0)
    else
      let value := strtoul (sysfs_attr_value s attr) in
      (sysfs_close_attribute s attr, 0, value).

Definition metal_uio_dev_bind s (ldev : linux_device) (ldrv : linux_driver) : Sys * linux_device * Z :=
  let name := sysfs_driver_name s (ldv_sdev ldev) in
  if bool_decide (name = ldrv_name ldrv) then (s, ldev, 0)
  else if negb (bool_decide (name = sysfs_unknown)) then (s, ldev, - EBUSY)
  else
    let '(s, attr) := sysfs_get_device_attr s (ldv_sdev ldev) (bytes "driver_override") in
    if attr =? 0 then (s, ldev, - os_errno s)
    else
      let '(s, result) := sysfs_write_attribute s attr (ldrv_name ldrv) in
      if negb (result =? 0) then (s, ldev, - os_errno s)
      else
        let ldev := ldv_set_override ldev attr in
        let '(s, attr) := sysfs_get_driver_attr s (ldrv_sdrv ldrv) (bytes "bind") in
        if attr =? 0 then (s, ldev, - ENOTSUP)
        else
          let '(s, result) := sysfs_write_attribute s attr (ldv_dev_name ldev) in
          if negb (result =? 0) then (s, ldev, - os_errno s) else (s, ldev, 0).

(** The [do ... while] that waits for the device file; [k] tries remain. *)
Fixpoint wait_for_file (k : nat) s (path : list Z) : Sys * bool :=
  match k with
  | O => (s, false)
  | S k' =>
      let '(s, r) := os_access s path in
      if r =? 0 then (s, true) else wait_for_file k' (os_usleep s 10) path
  end.

(** The body of the loop over the directory, which ends after the first name. *)
Definition uio_instance (path : list Z) (names : list (list Z)) (ldev : linux_device) : linux_device * Z :=
  match names with
  | [] => (ldev, 0)
  | instance :: _ =>
      let cls := (path ++ bytes "/" ++ instance)%list in
      let ldev := ldv_set_paths ldev (take (Z.to_nat (PATH_MAX - 1)) cls) (ldv_dev_path ldev) in
      if PATH_MAX <=? zlen cls then (ldev, - EOVERFLOW)
      else
        let dev := (bytes "/dev/" ++ instance)%list in
        let ldev := ldv_set_paths ldev (ldv_cls_path ldev) (take (Z.to_nat (PATH_MAX - 1)) dev) in
        if PATH_MAX <=? zlen dev then (ldev, - EOVERFLOW) else (ldev, 0)
  end.

(** The class directory and the device file of the first instance; an early return
    leaves the list open. *)
Definition uio_find_class s (ldev : linux_device) : Sys * linux_device * Z :=
  let path := (sysfs_device_path s (ldv_sdev ldev) ++ bytes "/uio")%list in
  if SYSFS_PATH_MAX <=? zlen path then (s, ldev, - EOVERFLOW)
  else
    let '(s, dlist, names) := sysfs_open_directory_list s path in
    if dlist =? 0 then (s, ldev, - os_errno s)
    else
      let '(ldev, result) := uio_instance path names ldev in
      if negb (result =? 0) then (s, ldev, result)
      else
        let s := sysfs_close_list s dlist in
        let '(s, r) := sysfs_path_is_dir s (ldv_cls_path ldev) in
        if negb (r =? 0) then (s, ldev, - ENODEV) else (s, ldev, 0).

(** The device file. *)
Definition uio_open_file s (ldev : linux_device) : Sys * linux_device * Z :=
  let '(s, found) := wait_for_file 1000 s (ldv_dev_path ldev) in
  if negb found then (s, ldev, - ENODEV)
  else
    let '(s, result) := metal_open s (Some (ldv_dev_path ldev)) 0 in
    if result <? 0 then (s, ldev, result) else (s, ldv_set_fd ldev result, 0).

(** The loop over the regions: [k] remain from [i]; it ends with the first that
    cannot be read or mapped. *)
Fixpoint uio_regions (k : nat) (i : Z) s (ldev : linux_device) (d : metal_device)
  : res (Sys * linux_device * metal_device) :=
  match k with
  | O => Ok (s, ldev, d)
  | S k' =>
      let '(s, result, _) := metal_uio_read_map_attr s ldev i (bytes "offset") in
      if negb (result =? 0) then Ok (s, ldev, d)
      else
        let '(s, result, addr) := metal_uio_read_map_attr s ldev i (bytes "addr") in
        if negb (result =? 0) then Ok (s, ldev, d)
        else
          phys ← rset (ldv_region_phys ldev) (dev_num_regions d) addr;
          let ldev := ldv_set_phys ldev phys in
          let '(s, result, size) := metal_uio_read_map_attr s ldev i (bytes "size") in
          if negb (result =? 0) then Ok (s, ldev, d)
          else
            let '(s, result, virt) := metal_map s (ldv_fd ldev) (i32 (i * os_getpagesize s)) size 0 0 in
            if negb (result =? 0) then Ok (s, ldev, d)
            else
              let io := metal_io_init virt (Some (drop (Z.to_nat (dev_num_regions d)) phys)) size (u32 (-1)) 0 None in
              l ← rset (dev_regions d) (dev_num_regions d) io;
              uio_regions k' (i + 1) s ldev (dev_set_regions d (u32 (dev_num_regions d + 1)) l)
  end.

(** [device] is the address of the device. *)
Definition metal_uio_dev_open (l : lirq Sys) (lbus : linux_bus) (ldrv : linux_driver) (device : Z)
    (ldev : linux_device) (d : metal_device) : res (lirq Sys * linux_device * metal_device * Z) :=
  let ldev := ldv_set_fd ldev (-1) in
  let d := dev_set_irq d (dev_irq_num d) (-1) in
  let '(s, sdev) := sysfs_open_device (li_sys l) (lb_name lbus) (ldv_dev_name ldev) in
  let ldev := ldv_set_sdev ldev sdev in
  if sdev =? 0 then Ok (li_set_sys l s, ldev, d, - ENODEV)
  else
    let '(s, ldev, result) := metal_uio_dev_bind s ldev ldrv in
    if negb (result =? 0) then Ok (li_set_sys l s, ldev, d, result)
    else
      let '(s, ldev, result) := uio_find_class s ldev in
      if negb (result =? 0) then Ok (li_set_sys l s, ldev, d, result)
      else
        let '(s, ldev, result) := uio_open_file s ldev in
        if negb (result =? 0) then Ok (li_set_sys l s, ldev, d, result)
        else
          '(s, ldev, d) ← uio_regions (Z.to_nat METAL_MAX_DEVICE_REGIONS) 0 s ldev d;
          let '(s, r) := os_write_int s (ldv_fd ldev) 1 in
          let l := li_set_sys l s in
          if r <=? 0 then Ok (l, ldev, dev_set_irq d 0 (-1), 0)
          else
            l ← metal_linux_irq_register_dev l device (ldv_fd ldev);
            Ok (l, ldev, dev_set_irq d 1 (ldv_fd ldev), 0).

(** The regions are unmapped: [k] remain from [i]. *)
Fixpoint unmap_regions (k : nat) (i : Z) s (d : metal_device) : res Sys :=
  match k with
  | O => Ok s
  | S k' =>
      io ← rget (dev_regions d) i;
      let '(s, _) := metal_unmap s (io_virt io) (io_size io) in
      unmap_regions k' (i + 1) s d
  end.

Definition metal_uio_dev_close s (ldev : linux_device) (d : metal_device) : res (Sys * linux_device) :=
  s ← unmap_regions (Z.to_nat (dev_num_regions d)) 0 s d;
  let '(s, ldev) :=
    if negb (ldv_override ldev =? 0) then
      let '(s, _) := sysfs_write_attribute s (ldv_override ldev) [0] in (s, ldv_set_override ldev 0)
    else (s, ldev) in
  let '(s, ldev) :=
    if negb (ldv_sdev ldev =? 0) then (sysfs_close_device s (ldv_sdev ldev), ldv_set_sdev ldev 0)
    else (s, ldev) in
  let s := if 0 <=? ldv_fd ldev then (os_close s (ldv_fd ldev)).1 else s in
  Ok (s, ldev).

Definition metal_uio_dev_irq_ack s (ldev : linux_device) (irq : Z) : Sys :=
  let '(s, ret) := os_read_int s (ldv_fd ldev) in
  if ret <? 0 then s else (os_write_int s (ldv_fd ldev) 1).1.

(** Whether the range lies in a region, and the loops over the regions and the
    entries. *)
Definition in_region (lo len : Z) (io : metal_io_region) : bool :=
  (io_virt io <=? lo) && (u64 (lo + len) <=? u64 (io_virt io + io_size io)).
Definition metal_uio_dev_dma_map (d : metal_device) (sg_in : list metal_sg) (nents_in : Z)
  : res (list metal_sg * Z) :=
  if (zlen sg_in <? nents_in) || (zlen (dev_regions d) <? dev_num_regions d) then Fault Out_of_bounds
  else
    let entries := take (Z.to_nat nents_in) sg_in in
    let regions := take (Z.to_nat (dev_num_regions d)) (dev_regions d) in
    if forallb (fun sg => existsb (in_region (sg_virt sg) (sg_len sg)) regions) entries
    then Ok (entries, nents_in) else Ok ([], - EINVAL).

Definition metal_uio_dev_dma_unmap (d : metal_device) (sg : list metal_sg) (nents : Z) : unit := tt.
End uio.

(** ** Buses *)

(** The state of the port: its part of [_metal], the interrupts (which hold the
    state of the system), the static table of buses, the devices that are open. *)
Record lenv (Sys : Type) := mk_lenv {
  le_state : linux_state;
  le_irq : iworld (lirq Sys);
  le_lbus : list linux_bus;
  le_ldev : gmap Z linux_device
}.
Arguments mk_lenv {Sys} _ _ _ _.
Arguments le_state {Sys} _.
Arguments le_irq {Sys} _.
Arguments le_lbus {Sys} _.
Arguments le_ldev {Sys} _.

(** The functions of the bus operations, by number. *)
Definition linux_bus_close_fn : Z := 11.
Definition linux_dev_open_fn : Z := 12.
Definition linux_dev_close_fn : Z := 13.
Definition linux_dev_irq_ack_fn : Z := 14.
Definition linux_dev_dma_map_fn : Z := 15.
Definition linux_dev_dma_unmap_fn : Z := 16.

Definition metal_linux_bus_ops : metal_bus_ops :=
  mk_busops linux_bus_close_fn linux_dev_open_fn linux_dev_close_fn linux_dev_irq_ack_fn
    linux_dev_dma_map_fn linux_dev_dma_unmap_fn.

Section bus.
Context {Sys : Type} `{os Sys} `{sysfs Sys}.
Abbreviation world := (dworld (lenv Sys)).
Implicit Types (s : Sys) (w : world).

Definition dw_set_env w (e : lenv Sys) : world :=
  mk_dw (dw_ref_count w) (dw_log_level w) (dw_log_handler w) (dw_bus_list w) (dw_shmem_list w) (dw_device_list w)
    (dw_buses w) (dw_devices w) (dw_shmems w) e.
Definition le_lirq (e : lenv Sys) : lirq Sys := iw_env (le_irq e).
Definition le_set_lirq (e : lenv Sys) (l : lirq Sys) : lenv Sys :=
  mk_lenv (le_state e) (iw_set_env (le_irq e) l) (le_lbus e) (le_ldev e).
Definition le_set_lbus (e : lenv Sys) (l : list linux_bus) : lenv Sys :=
  mk_lenv (le_state e) (le_irq e) l (le_ldev e).
Definition le_set_ldev (e : lenv Sys) (m : gmap Z linux_device) : lenv Sys :=
  mk_lenv (le_state e) (le_irq e) (le_lbus e) m.

(** The state of the system. *)
Definition dw_sys w : Sys := li_sys (le_lirq (dw_env w)).
Definition dw_set_lirq w (l : lirq Sys) : world := dw_set_env w (le_set_lirq (dw_env w) l).
Definition dw_set_sys w s : world := dw_set_lirq w (li_set_sys (le_lirq (dw_env w)) s).

(** [to_linux_bus] and [to_linux_device]. *)
Definition to_linux_bus w (bus : Z) : res linux_bus :=
  match list_find (fun b => lb_addr b = bus) (le_lbus (dw_env w)) with
  | Some (_, b) => Ok b
  | None => Fault Out_of_bounds
  end.
Definition set_linux_bus w (b : linux_bus) : world :=
  dw_set_env w (le_set_lbus (dw_env w)
    ((fun b' => if lb_addr b' =? lb_addr b then b else b') <$> le_lbus (dw_env w))).
Definition to_linux_device w (device : Z) : res linux_device :=
  match le_ldev (dw_env w) !! device with Some v => Ok v | None => Fault Out_of_bounds end.
Definition get_driver (b : linux_bus) (i : nat) : res linux_driver :=
  match lb_drivers b !! i with Some d => Ok d | None => Fault Out_of_bounds end.

(** The calls through the pointers of a driver; a null pointer faults. *)
Definition call_dev_open (fn : Z) (l : lirq Sys) (lbus : linux_bus) (ldrv : linux_driver) (device : Z)
    (ldev : linux_device) (d : metal_device) : res (lirq Sys * linux_device * metal_device * Z) :=
  if fn =? uio_dev_open_fn then metal_uio_dev_open l lbus ldrv device ldev d else Fault Out_of_bounds.
Definition call_dev_close (fn : Z) s (ldev : linux_device) (d : metal_device) : res (Sys * linux_device) :=
  if fn =? uio_dev_close_fn then metal_uio_dev_close s ldev d else Fault Out_of_bounds.

(** [memset(ldev, 0, ...)] and the fields set after it. *)
Definition fresh_ldev (name : list Z) (i : nat) : linux_device :=
  mk_ldev (take (Z.to_nat (PATH_MAX - 1)) name) [] [] (replicate (Z.to_nat METAL_MAX_DEVICE_REGIONS) 0) i 0 0 (-1).
Definition fresh_dev (bus : Z) : metal_device :=
  mk_device None bus 0 (replicate (Z.to_nat METAL_MAX_DEVICE_REGIONS) no_region) 0 0.

(** The loop over the drivers from position [i]; [ldev] is the block allocated.  The
    block is there in every iteration, so that the second allocation of the code
    never happens. *)
Fixpoint open_with_drivers (drivers : list linux_driver) (i : nat) w (bus : Z) (lbus : linux_bus) (name : list Z)
    (ldev : Z) : res (world * Z * Z) :=
  match drivers with
  | [] => Ok (dw_set_sys w (os_free (dw_sys w) ldev), - ENODEV, 0)
  | ldrv :: drivers' =>
      if (ldrv_sdrv ldrv =? 0) || (ldrv_dev_open ldrv =? 0) then
        open_with_drivers drivers' (S i) w bus lbus name ldev
      else
        '(l, v, d, error) ← call_dev_open (ldrv_dev_open ldrv) (le_lirq (dw_env w)) lbus ldrv ldev
          (fresh_ldev name i) (fresh_dev bus);
        let w := dw_set_lirq w l in
        if negb (error =? 0) then
          '(s, _) ← call_dev_close (ldrv_dev_close ldrv) (dw_sys w) v d;
          open_with_drivers drivers' (S i) (dw_set_sys w s) bus lbus name ldev
        else
          b ← get_bus w bus;
          let w := dw_set_env w (le_set_ldev (dw_env w) (<[ldev := v]> (le_ldev (dw_env w)))) in
          let w := dw_set_devices w (dw_device_list w)
                     (<[ldev := dev_set_name d (Some (ldv_dev_name v))]> (dw_devices w)) in
          Ok (dw_set_buses w (dw_bus_list w)
                (<[bus := mk_bus (bus_name b) (bus_ops b) (bus_devices b ++ [ldev])]> (dw_buses w)), 0, ldev)
  end.

(** The size given to [malloc] is of no interest. *)
Variable sizeof_linux_device : Z.

Definition metal_linux_dev_open w (bus : Z) (name : list Z) : res (world * Z * Z) :=
  lbus ← to_linux_bus w bus;
  let '(s, ldev) := os_malloc (dw_sys w) sizeof_linux_device in
  let w := dw_set_sys w s in
  if ldev =? 0 then Ok (w, - ENOMEM, 0)
  else open_with_drivers (lb_drivers lbus) 0 w bus lbus name ldev.

Definition metal_linux_dev_close w (bus device : Z) : res world :=
  v ← to_linux_device w device;
  lbus ← to_linux_bus w bus;
  ldrv ← get_driver lbus (ldv_ldrv v);
  d ← get_dev w device;
  '(s, _) ← call_dev_close (ldrv_dev_close ldrv) (dw_sys w) v d;
  b ← get_bus w bus;
  let w := dw_set_sys w s in
  let w := dw_set_buses w (dw_bus_list w)
    (<[bus := mk_bus (bus_name b) (bus_ops b) (List.filter (fun a => negb (a =? device)) (bus_devices b))]>
       (dw_buses w)) in
  let w := dw_set_devices w (dw_device_list w) (delete device (dw_devices w)) in
  let w := dw_set_env w (le_set_ldev (dw_env w) (delete device (le_ldev (dw_env w)))) in
  Ok (dw_set_sys w (os_free (dw_sys w) device)).

(** The drivers are closed. *)
Fixpoint close_drivers s (l : list linux_driver) : Sys * list linux_driver :=
  match l with
  | [] => (s, [])
  | d :: l' =>
      let s := if negb (ldrv_sdrv d =? 0) then sysfs_close_driver s (ldrv_sdrv d) else s in
      let '(s, l') := close_drivers s l' in
      (s, ldrv_set_sdrv d 0 :: l')
  end.

Definition close_linux_bus s (lbus : linux_bus) : Sys * linux_bus :=
  let '(s, drivers) := close_drivers s (lb_drivers lbus) in
  (sysfs_close_bus s (lb_sbus lbus), lb_set_sbus (lb_set_drivers lbus drivers) 0).

Definition metal_linux_bus_close w (bus : Z) : res world :=
  lbus ← to_linux_bus w bus;
  let '(s, lbus) := close_linux_bus (dw_sys w) lbus in
  Ok (set_linux_bus (dw_set_sys w s) lbus).

Definition metal_linux_dev_irq_ack w (bus device irq : Z) : res world :=
  v ← to_linux_device w device;
  lbus ← to_linux_bus w bus;
  ldrv ← get_driver lbus (ldv_ldrv v);
  if ldrv_dev_irq_ack ldrv =? uio_dev_irq_ack_fn then Ok (dw_set_sys w (metal_uio_dev_irq_ack (dw_sys w) v irq))
  else Fault Out_of_bounds.

Definition metal_linux_dev_dma_map w (bus device dir : Z) (sg_in : list metal_sg) (nents_in : Z)
  : res (world * list metal_sg * Z) :=
  v ← to_linux_device w device;
  lbus ← to_linux_bus w bus;
  ldrv ← get_driver lbus (ldv_ldrv v);
  d ← get_dev w device;
  if ldrv_dev_dma_map ldrv =? uio_dev_dma_map_fn then
    '(sg_out, r) ← metal_uio_dev_dma_map d sg_in nents_in; Ok (w, sg_out, r)
  else Fault Out_of_bounds.

Definition metal_linux_dev_dma_unmap w (bus device dir : Z) (sg : list metal_sg) (nents : Z) : res world :=
  v ← to_linux_device w device;
  lbus ← to_linux_bus w bus;
  ldrv ← get_driver lbus (ldv_ldrv v);
  d ← get_dev w device;
  if ldrv_dev_dma_unmap ldrv =? uio_dev_dma_unmap_fn then
    let _ := metal_uio_dev_dma_unmap d sg nents in Ok w
  else Fault Out_of_bounds.

Definition metal_linux_register_bus w (lbus : linux_bus) : res (world * Z) :=
  let devices := match dw_buses w !! lb_addr lbus with Some b => bus_devices b | None => [] end in
  let w := dw_set_buses w (dw_bus_list w)
    (<[lb_addr lbus := mk_bus (Some (lb_name lbus)) metal_linux_bus_ops devices]> (dw_buses w)) in
  metal_bus_register w (lb_addr lbus).

(** One attempt to load the module with [command] and to open the driver, when the
    driver is not open yet: whether the command was too long, and the handle. *)
Definition modprobe_driver s (lbus : linux_bus) (ldrv : linux_driver) (prefix : list Z) (sdrv : Z)
  : Sys * bool * Z :=
  if negb (sdrv =? 0) then (s, false, sdrv)
  else
    let command := (prefix ++ ldrv_mod_name ldrv ++ bytes " > /dev/null 2>&1")%list in
    if 256 <=? zlen command then (s, true, sdrv)
    else
      let '(s, _) := os_system s command in
      let '(s, sdrv) := sysfs_open_driver s (lb_name lbus) (ldrv_name ldrv) in (s, false, sdrv).

(** The driver with its handle, and the value returned. *)
Definition metal_linux_probe_driver s (lbus : linux_bus) (ldrv : linux_driver) : Sys * linux_driver * Z :=
  let '(s, sdrv) := sysfs_open_driver s (lb_name lbus) (ldrv_name ldrv) in
  let '(s, long, sdrv) := modprobe_driver s lbus ldrv (bytes "modprobe ") sdrv in
  if long : bool then (s, ldrv_set_sdrv ldrv sdrv, - EOVERFLOW)
  else
    let '(s, long, sdrv) := modprobe_driver s lbus ldrv (bytes "sudo modprobe ") sdrv in
    if long : bool then (s, ldrv_set_sdrv ldrv sdrv, - EOVERFLOW)
    else (s, ldrv_set_sdrv ldrv sdrv, if negb (sdrv =? 0) then 0 else - ENODEV).

(** The loop over the drivers: the drivers probed and [error]. *)
Fixpoint probe_drivers s (lbus : linux_bus) (l : list linux_driver) (error : Z)
  : Sys * list linux_driver * Z :=
  match l with
  | [] => (s, [], error)
  | d :: l' =>
      let '(s, d, ret) := metal_linux_probe_driver s lbus d in
      let '(s, l', error) := probe_drivers s lbus l' (if ret =? 0 then ret else error) in
      (s, d :: l', error)
  end.

Definition metal_linux_probe_bus w (lbus : linux_bus) : res (world * Z) :=
  let '(s, sbus) := sysfs_open_bus (dw_sys w) (lb_name lbus) in
  let lbus := lb_set_sbus lbus sbus in
  if sbus =? 0 then Ok (set_linux_bus (dw_set_sys w s) lbus, - ENODEV)
  else
    let '(s, drivers, error) := probe_drivers s lbus (lb_drivers lbus) (- ENODEV) in
    let lbus := lb_set_drivers lbus drivers in
    let w := set_linux_bus (dw_set_sys w s) lbus in
    if negb (error =? 0) then w ← metal_linux_bus_close w (lb_addr lbus); Ok (w, error)
    else
      '(w, error) ← metal_linux_register_bus w lbus;
      if negb (error =? 0) then w ← metal_linux_bus_close w (lb_addr lbus); Ok (w, error)
      else Ok (w, error).

(** The loop of [metal_linux_bus_init] counts the buses that are valid. *)
Fixpoint probe_buses (l : list linux_bus) w (valid : Z) : res (world * Z) :=
  match l with
  | [] => Ok (w, valid)
  | lbus :: l' =>
      '(w, error) ← metal_linux_probe_bus w lbus;
      probe_buses l' w (if negb (error =? 0) then valid else valid + 1)
  end.

Definition metal_linux_bus_init w : res (world * Z) :=
  '(w, valid) ← probe_buses (le_lbus (dw_env w)) w 0;
  Ok (w, if negb (valid =? 0) then 0 else - ENODEV).

(** Of the functions of a bus only the port's own can be met. *)
Definition call_bus_close (fn : Z) w (bus : Z) : res world :=
  if fn =? linux_bus_close_fn then metal_linux_bus_close w bus else Fault Out_of_bounds.

Fixpoint finish_buses (l : list linux_bus) w : res world :=
  match l with
  | [] => Ok w
  | lbus :: l' =>
      '(r, bus) ← metal_bus_find w (Some (lb_name lbus)) true;
      w ← (if r =? 0 then '(w, _) ← metal_bus_unregister call_bus_close w bus; Ok w else Ok w);
      finish_buses l' w
  end.

Definition metal_linux_bus_finish w : res world := finish_buses (le_lbus (dw_env w)) w.

Definition metal_generic_dev_sys_open w (dev : Z) : res (world * Z) := Ok (w, 0).

(** The value returned and the bytes read. *)
Definition metal_linux_get_device_property w (device : Z) (property_name : list Z) (len : Z)
  : res (world * Z * list Z) :=
  v ← to_linux_device w device;
  let s := dw_sys w in
  let path := take (Z.to_nat (PATH_MAX - 1)) (sysfs_device_path s (ldv_sdev v) ++ bytes "/of_node/" ++ property_name) in
  let '(s, fd) := os_open s path 0 292 in
  if fd <? 0 then Ok (dw_set_sys w s, - os_errno s, [])
  else
    let '(s, r, output) := os_read s fd len in
    if r <? 0 then
      let status := - os_errno s in
      let '(s, _) := os_close s fd in Ok (dw_set_sys w s, status, [])
    else
      let '(s, status) := os_close s fd in
      Ok (dw_set_sys w s, if status <? 0 then - os_errno s else 0, output).
End bus.

(** ** Start-up of the port (init.c) *)

(** getenv(TMPDIR), fopen of /dev/urandom, the bytes of the seed (with whatever the
    variable held when nothing could be read), fclose, srand, and the calls of the
    interrupts. *)
Class os_start (Sys : Type) := {
  os_getenv_tmpdir : Sys -> cstring;
  os_fopen_urandom : Sys -> Sys * Z;
  os_fread_seed : Sys -> Z -> Sys * Z;
  os_fclose : Sys -> Z -> Sys;
  os_srand : Sys -> Z -> Sys;
  os_eventfd : Sys -> Sys * Z;
  os_write_eventfd : Sys -> Z -> Z -> Sys * Z;
  os_pthread_create : Sys -> Sys * Z * Z;
  os_pthread_join : Sys -> Z -> Sys * Z
}.

Section start.
Context {Sys : Type} `{os Sys} `{sysfs Sys} `{os_start Sys}.
Abbreviation world := (dworld (lenv Sys)).
Implicit Type w : world.
Variable linux_irq_cntr : Z.

(** [memset(&_metal, 0, sizeof(_metal))] on the part of the port. *)
Definition clear_port (e : lenv Sys) : lenv Sys :=
  mk_lenv clear_linux_state (le_irq e) (le_lbus e) (le_ldev e).
Definition set_state w (st : linux_state) : world :=
  dw_set_env w (mk_lenv st (le_irq (dw_env w)) (le_lbus (dw_env w)) (le_ldev (dw_env w))).
Definition set_irq w (i : iworld (lirq Sys)) : world :=
  dw_set_env w (mk_lenv (le_state (dw_env w)) i (le_lbus (dw_env w)) (le_ldev (dw_env w))).

Definition linux_sys_init w (params : metal_init_params) : res (world * Z) :=
  let tmp := match os_getenv_tmpdir (dw_sys w) with Some p => p | None => bytes "/tmp" end in
  let w := set_state w (lm_set_tmp (le_state (dw_env w)) (Some tmp)) in
  let '(s, urandom) := os_fopen_urandom (dw_sys w) in
  if urandom =? 0 then Ok (dw_set_sys w s, - os_errno s)
  else
    let '(s, seed) := os_fread_seed s urandom in
    let w := dw_set_sys w (os_srand (os_fclose s urandom) seed) in
    '(st, result) ← metal_init_page_sizes (dw_sys w) (le_state (dw_env w));
    let w := set_state w st in
    if result <? 0 then Ok (w, result)
    else
      '(w, result) ← metal_linux_bus_init w;
      if result <? 0 then Ok (w, result)
      else
        let '(s, fd) := os_open (dw_sys w) (bytes "/proc/self/pagemap") 524288 0 in
        let w := dw_set_sys w s in
        let w := set_state w (lm_set_pagemap (le_state (dw_env w)) fd) in
        '(i, _) ← metal_linux_irq_init linux_irq_cntr os_eventfd os_pthread_create (le_irq (dw_env w));
        Ok (set_irq w i, 0).

Definition linux_sys_finish w : res world :=
  let w := set_irq w (metal_linux_irq_shutdown os_write_eventfd (fun s fd => (os_close s fd).1) os_pthread_join
                        (le_irq (dw_env w))) in
  w ← metal_linux_bus_finish w;
  Ok (dw_set_sys w (os_close (dw_sys w) (lm_pagemap_fd (le_state (dw_env w)))).1).
End start.
