(* ===== verification/LinuxDevSpec.v ===== *)
(** * What the devices of the Linux port promise

    Opening a UIO device that fails leaves the process with what it owned before; a
    device that was opened owns its sysfs handle, its file, its mappings and its
    block, and closing it gives all of them back. *)

From S2P Require Import Prelude MetalUtil MetalIo MetalIrq MetalDevice LinuxIrq LinuxSys LinuxSysSpec LinuxDevice.

(** ** What the code relies on *)

(** A function of libsysfs returns null and changes nothing, or a new handle; closing
    gives it back, and closing a null attribute does nothing; reading and writing own
    nothing new.  A name in a directory has at most [NAME_MAX] (255) characters. *)
Class sysfs_laws (Sys : Type) `{os_laws Sys} `{sysfs Sys} := {
  law_open_attribute : forall s p s' h, sysfs_open_attribute s p = (s', h) ->
    (h = 0 /\ os_owned s' = os_owned s) \/
    (h <> 0 /\ (R_handle h ∉ os_owned s) /\ os_owned s' = {[R_handle h]} ∪ os_owned s);
  law_read_attribute : forall s h, os_owned (sysfs_read_attribute s h).1 = os_owned s;
  law_write_attribute : forall s h b, os_owned (sysfs_write_attribute s h b).1 = os_owned s;
  law_close_attribute : forall s h, os_owned (sysfs_close_attribute s h) =
    if h =? 0 then os_owned s else os_owned s ∖ {[R_handle h]};
  law_open_device : forall s b n s' h, sysfs_open_device s b n = (s', h) ->
    (h = 0 /\ os_owned s' = os_owned s) \/
    (h <> 0 /\ (R_handle h ∉ os_owned s) /\ os_owned s' = {[R_handle h]} ∪ os_owned s);
  law_close_device : forall s h, os_owned (sysfs_close_device s h) = os_owned s ∖ {[R_handle h]};
  law_get_device_attr : forall s h n, os_owned (sysfs_get_device_attr s h n).1 = os_owned s;
  law_get_driver_attr : forall s h n, os_owned (sysfs_get_driver_attr s h n).1 = os_owned s;
  law_open_list : forall s p s' h l, sysfs_open_directory_list s p = (s', h, l) ->
    Forall (fun n => zlen n <= 255) l /\
    ((h = 0 /\ os_owned s' = os_owned s) \/
     (h <> 0 /\ (R_handle h ∉ os_owned s) /\ os_owned s' = {[R_handle h]} ∪ os_owned s));
  law_close_list : forall s h, os_owned (sysfs_close_list s h) = os_owned s ∖ {[R_handle h]};
  law_path_is_dir : forall s p, os_owned (sysfs_path_is_dir s p).1 = os_owned s;
  law_access : forall s p, os_owned (os_access s p).1 = os_owned s;
  law_usleep : forall s n, os_owned (os_usleep s n) = os_owned s;
  law_write_int : forall s fd v, os_owned (os_write_int s fd v).1 = os_owned s
}.

(** ** What a device owns *)

Definition handle_res (h : Z) : gset resource := if h =? 0 then ∅ else {[R_handle h]}.
Definition fd_res (fd : Z) : gset resource := if 0 <=? fd then {[R_fd fd]} else ∅.
Definition region_res (io : metal_io_region) : resource := R_map (io_virt io) (io_size io).
Definition maps_of (d : metal_device) : list resource :=
  region_res <$> take (Z.to_nat (dev_num_regions d)) (dev_regions d).

Definition dev_resources (v : linux_device) (d : metal_device) : gset resource :=
  handle_res (ldv_sdev v) ∪ fd_res (ldv_fd v) ∪ list_to_set (maps_of d).

(** The process owns [base] and, besides, what the device has acquired so far. *)
Record dev_owns (base own : gset resource) (v : linux_device) (d : metal_device) : Prop := {
  do_split : own = dev_resources v d ∪ base;
  do_new : dev_resources v d ## base;
  do_maps : NoDup (maps_of d);
  do_room : zlen (dev_regions d) = METAL_MAX_DEVICE_REGIONS;
  do_num : 0 <= dev_num_regions d <= METAL_MAX_DEVICE_REGIONS;
  do_phys : zlen (ldv_region_phys v) = METAL_MAX_DEVICE_REGIONS
}.

(** Changes of the device that acquire nothing. *)
Lemma dev_owns_same base own v d v' d' :
  dev_owns base own v d -> ldv_sdev v' = ldv_sdev v -> ldv_fd v' = ldv_fd v ->
  zlen (ldv_region_phys v') = zlen (ldv_region_phys v) ->
  dev_num_regions d' = dev_num_regions d -> dev_regions d' = dev_regions d -> dev_owns base own v' d'.
Proof.
  intros [] Hs Hf Hp Hn Hr. unfold dev_resources, maps_of in *.
  split; unfold dev_resources, maps_of; rewrite ?Hs, ?Hf, ?Hn, ?Hr; try done. congruence.
Qed.

Section uio.
Context {Sys : Type} `{sysfs_laws Sys}.
Implicit Types (s : Sys) (v : linux_device) (d : metal_device) (base : gset resource).

Lemma dev_owns_sdev base v d h :
  dev_owns base base v d -> ldv_sdev v = 0 -> ldv_fd v = -1 -> dev_num_regions d = 0 ->
  h <> 0 -> (R_handle h ∉ base) -> dev_owns base ({[R_handle h]} ∪ base) (ldv_set_sdev v h) d.
Proof.
  intros [Hs Hn Hm Hr Hnum Hp] Hsd Hfd Hge Hh Hfresh.
  assert (E : dev_resources (ldv_set_sdev v h) d = {[R_handle h]}).
  { unfold dev_resources, maps_of, handle_res, fd_res. cbn [ldv_set_sdev ldv_sdev ldv_fd].
    rewrite Hfd, Hge, (proj2 (Z.eqb_neq h 0) Hh). cbn. set_solver. }
  split; rewrite ?E; try done. set_solver.
Qed.

Lemma dev_owns_fd base own v d fd :
  dev_owns base own v d -> ldv_fd v = -1 -> 0 <= fd -> (R_fd fd ∉ own) ->
  dev_owns base ({[R_fd fd]} ∪ own) (ldv_set_fd v fd) d.
Proof.
  intros [-> Hn Hm Hr Hnum Hp] Hfd Hge Hfresh.
  assert (E : dev_resources (ldv_set_fd v fd) d = {[R_fd fd]} ∪ dev_resources v d).
  { unfold dev_resources, fd_res. cbn [ldv_set_fd ldv_sdev ldv_fd]. rewrite Hfd, (proj2 (Z.leb_le 0 fd) Hge).
    change (0 <=? -1) with false. cbv iota. set_solver. }
  split; rewrite ?E; try done; set_solver.
Qed.

Lemma maps_add d io : 0 <= dev_num_regions d -> dev_num_regions d < zlen (dev_regions d) ->
  maps_of (dev_set_regions d (dev_num_regions d + 1) (zset (dev_regions d) (dev_num_regions d) io))
  = maps_of d ++ [region_res io].
Proof.
  intros Hge Hlt. unfold maps_of. cbn [dev_set_regions dev_num_regions dev_regions].
  replace (Z.to_nat (dev_num_regions d + 1)) with (S (Z.to_nat (dev_num_regions d))) by lia.
  unfold zset, zlen in *. rewrite (proj2 (Z.leb_le 0 _) Hge).
  rewrite (take_S_r _ _ io) by (apply list_lookup_insert_eq; lia).
  rewrite take_insert_ge by lia. by rewrite fmap_app.
Qed.

Lemma dev_owns_map base own v d io :
  dev_owns base own v d -> dev_num_regions d < METAL_MAX_DEVICE_REGIONS -> (region_res io ∉ own) ->
  dev_owns base ({[region_res io]} ∪ own) v
    (dev_set_regions d (dev_num_regions d + 1) (zset (dev_regions d) (dev_num_regions d) io)).
Proof.
  intros [-> Hn Hm Hr Hnum Hp] Hlt Hfresh. set (d' := dev_set_regions _ _ _).
  assert (E : maps_of d' = maps_of d ++ [region_res io]) by (apply maps_add; lia).
  assert (E2 : dev_resources v d' = {[region_res io]} ∪ dev_resources v d).
  { unfold dev_resources. rewrite E, list_to_set_app_L. cbn. set_solver. }
  split; rewrite ?E2, ?E; try done; [set_solver|set_solver| | |cbn; lia].
  - apply list.NoDup_app. split; [done|]. split; [|apply NoDup_singleton]. intros r Hr1 ->%list_elem_of_singleton.
    apply Hfresh. unfold dev_resources. rewrite !elem_of_union, elem_of_list_to_set. by left; right.
  - cbn [d' dev_set_regions dev_regions]. by rewrite zlen_zset.
Qed.

(** ** The stages of opening *)

Lemma read_map_attr_owned s v i n : os_owned (metal_uio_read_map_attr s v i n).1.1 = os_owned s.
Proof.
  unfold metal_uio_read_map_attr. destruct (SYSFS_PATH_MAX <=? _); [done|].
  destruct (sysfs_open_attribute s _) as [s1 h] eqn:E. apply law_open_attribute in E.
  destruct (Z.eqb_spec h 0) as [->|Hh].
  - destruct E as [[_ Ho]|[? _]]; [|done]. cbn. by rewrite law_close_attribute.
  - destruct E as [[? _]|(_&Hf&Ho)]; [done|]. pose proof (law_read_attribute s1 h) as Hr.
    destruct (sysfs_read_attribute s1 h) as [s2 r]. cbn [fst] in Hr.
    destruct (negb (r =? 0)); cbn [fst]; rewrite law_close_attribute, (proj2 (Z.eqb_neq h 0) Hh), Hr, Ho; set_solver.
Qed.

(** What the stages leave alone. *)
Definition same_parts v v' : Prop :=
  ldv_sdev v' = ldv_sdev v /\ ldv_region_phys v' = ldv_region_phys v /\ ldv_dev_name v' = ldv_dev_name v /\
  ldv_ldrv v' = ldv_ldrv v.

Lemma bind_run s v ldrv s' v' r : metal_uio_dev_bind s v ldrv = (s', v', r) ->
  os_owned s' = os_owned s /\ same_parts v v' /\ ldv_fd v' = ldv_fd v.
Proof.
  unfold metal_uio_dev_bind. destruct (bool_decide _); [by intros [= <- <- <-]|].
  destruct (negb _); [by intros [= <- <- <-]|].
  pose proof (law_get_device_attr s (ldv_sdev v) (bytes "driver_override")) as E1.
  destruct (sysfs_get_device_attr s _ _) as [s1 a1]. cbn [fst] in E1.
  destruct (a1 =? 0); [by intros [= <- <- <-]|].
  pose proof (law_write_attribute s1 a1 (ldrv_name ldrv)) as E2.
  destruct (sysfs_write_attribute s1 a1 _) as [s2 r2]. cbn [fst] in E2.
  destruct (negb (r2 =? 0)); [intros [= <- <- <-]; split; [congruence|done]|].
  pose proof (law_get_driver_attr s2 (ldrv_sdrv ldrv) (bytes "bind")) as E3.
  destruct (sysfs_get_driver_attr s2 _ _) as [s3 a3]. cbn [fst] in E3.
  destruct (a3 =? 0); [intros [= <- <- <-]; split; [congruence|done]|].
  match goal with |- context [sysfs_write_attribute s3 a3 ?n] => pose proof (law_write_attribute s3 a3 n) as E4 end.
  destruct (sysfs_write_attribute s3 a3 _) as [s4 r4]. cbn [fst] in E4.
  destruct (negb (r4 =? 0)); intros [= <- <- <-]; (split; [congruence|done]).
Qed.

Lemma find_class_run s v s' v' r : uio_find_class s v = (s', v', r) ->
  os_owned s' = os_owned s /\ same_parts v v' /\ ldv_fd v' = ldv_fd v.
Proof.
  unfold uio_find_class. destruct (SYSFS_PATH_MAX <=? _) eqn:Ep; [by intros [= <- <- <-]|].
  set (path := _ ++ _) in *. zbool. unfold SYSFS_PATH_MAX in Ep.
  destruct (sysfs_open_directory_list s path) as [[s1 h] names] eqn:E. apply law_open_list in E as [Hnames E].
  destruct (Z.eqb_spec h 0) as [->|Hh].
  { destruct E as [[_ Ho]|[? _]]; [|done]. intros [= <- <- <-]. done. }
  destruct E as [[? _]|(_&Hf&Ho)]; [done|].
  assert (Hinst : exists v1, uio_instance path names v = (v1, 0) /\ same_parts v v1 /\ ldv_fd v1 = ldv_fd v).
  { unfold uio_instance. destruct names as [|n names]; [by exists v|]. apply Forall_cons_1 in Hnames as [Hn _]. cbv zeta.
    rewrite (proj2 (Z.leb_gt PATH_MAX _)) by (rewrite !zlen_app; change (zlen (bytes "/")) with 1; unfold PATH_MAX; lia).
    rewrite (proj2 (Z.leb_gt PATH_MAX _)) by (rewrite !zlen_app; change (zlen (bytes "/dev/")) with 5; unfold PATH_MAX; lia).
    eexists. split; [reflexivity|]. done. }
  destruct Hinst as (v1&Hi&Hv1&Hfd1). rewrite Hi. change (negb (0 =? 0)) with false. cbv iota.
  pose proof (law_path_is_dir (sysfs_close_list s1 h) (ldv_cls_path v1)) as Hd.
  destruct (sysfs_path_is_dir _ _) as [s2 r2]. cbn [fst] in Hd. rewrite law_close_list, Ho in Hd.
  assert (Hown : os_owned s2 = os_owned s) by (rewrite Hd; set_solver).
  destruct (negb (r2 =? 0)); intros [= <- <- <-]; done.
Qed.

Lemma wait_for_file_owned k s p : os_owned (wait_for_file k s p).1 = os_owned s.
Proof.
  revert s. induction k as [|k IH]; intros s; [done|]. cbn [wait_for_file].
  pose proof (law_access s p) as E. destruct (os_access s p) as [s1 r]. cbn [fst] in E.
  destruct (r =? 0); [done|]. by rewrite IH, law_usleep.
Qed.

Lemma open_file_run s v s' v' r : ldv_fd v = -1 -> uio_open_file s v = (s', v', r) ->
  (r <> 0 /\ os_owned s' = os_owned s /\ v' = v) \/
  (r = 0 /\ exists fd, 0 <= fd /\ (R_fd fd ∉ os_owned s) /\ os_owned s' = {[R_fd fd]} ∪ os_owned s /\
     v' = ldv_set_fd v fd).
Proof.
  intros Hfd. unfold uio_open_file. pose proof (wait_for_file_owned 1000 s (ldv_dev_path v)) as Hw.
  destruct (wait_for_file 1000 s _) as [s1 found]. cbn [fst] in Hw.
  destruct found; cbn [negb]; [|intros [= <- <- <-]; by left].
  unfold metal_open. destruct (ldv_dev_path v) as [|ch p]; [intros [= <- <- <-]; by left|].
  change (negb (0 =? 0)) with false. cbv iota.
  match goal with |- context [os_open s1 ?a ?b ?c] => destruct (os_open s1 a b c) as [s2 fd] eqn:Eo end.
  apply law_open in Eo as [(Hlt&He&Ho)|(Hge&Hf&Ho)].
  - rewrite (proj2 (Z.ltb_lt fd 0) Hlt). rewrite (proj2 (Z.ltb_lt (- os_errno s2) 0)) by lia.
    intros [= <- <- <-]. left. split; [lia|]. split; [congruence|done].
  - rewrite !(proj2 (Z.ltb_ge fd 0) Hge). intros [= <- <- <-]. right. split; [done|].
    exists fd. rewrite <- Hw. done.
Qed.

(** The identity of the device, which the loop leaves alone. *)
Definition same_dev v d v' d' : Prop :=
  ldv_sdev v' = ldv_sdev v /\ ldv_fd v' = ldv_fd v /\ ldv_dev_name v' = ldv_dev_name v /\
  ldv_ldrv v' = ldv_ldrv v /\ dev_bus d' = dev_bus d.

Lemma regions_run base k i s v d :
  dev_owns base (os_owned s) v d -> dev_num_regions d + Z.of_nat k <= METAL_MAX_DEVICE_REGIONS ->
  exists s' v' d', uio_regions k i s v d = Ok (s', v', d') /\ dev_owns base (os_owned s') v' d' /\ same_dev v d v' d'.
Proof.
  revert i s v d. induction k as [|k IH]; intros i s v d Hown Hk; [by exists s, v, d|]. cbn [uio_regions].
  pose proof (read_map_attr_owned s v i (bytes "offset")) as E1.
  destruct (metal_uio_read_map_attr s v i _) as [[s1 r1] x1]. cbn [fst] in E1. rewrite <- E1 in Hown.
  destruct (negb (r1 =? 0)); [by exists s1, v, d|].
  pose proof (read_map_attr_owned s1 v i (bytes "addr")) as E2.
  destruct (metal_uio_read_map_attr s1 v i _) as [[s2 r2] addr]. cbn [fst] in E2. rewrite <- E2 in Hown.
  destruct (negb (r2 =? 0)); [by exists s2, v, d|].
  pose proof Hown as [_ _ _ Hroom Hnum Hphys].
  rewrite rset_ok by lia. cbn [mbind res_bind]. set (phys := zset _ _ addr). set (v1 := ldv_set_phys v phys).
  assert (Hown1 : dev_owns base (os_owned s2) v1 d).
  { apply (dev_owns_same base _ v d); try done. cbn. unfold phys. by rewrite zlen_zset. }
  pose proof (read_map_attr_owned s2 v1 i (bytes "size")) as E3.
  destruct (metal_uio_read_map_attr s2 v1 i _) as [[s3 r3] size]. cbn [fst] in E3. rewrite <- E3 in Hown1.
  destruct (negb (r3 =? 0)); [by exists s3, v1, d|].
  destruct (metal_map s3 (ldv_fd v1) _ size 0 0) as [[s4 r4] virt] eqn:Em. apply metal_map_run in Em.
  destruct (Z.eqb_spec r4 0) as [->|Hr4]; cbn [negb]; cycle 1.
  { destruct Em as [[_ Ho]|[? _]]; [|done]. rewrite <- Ho in Hown1. by exists s4, v1, d. }
  destruct Em as [[? _]|(_&Hf&Ho)]; [lia|]. rewrite rset_ok by lia. cbn [mbind res_bind].
  set (io := metal_io_init virt _ size _ _ _).
  assert (Hu : u32 (dev_num_regions d + 1) = dev_num_regions d + 1)
    by (apply u32_id; unfold is_u32, METAL_MAX_DEVICE_REGIONS in *; lia). rewrite Hu.
  pose proof (dev_owns_map base (os_owned s3) v1 d io Hown1 ltac:(lia) Hf) as Hown2.
  change (region_res io) with (R_map virt size) in Hown2. rewrite <- Ho in Hown2.
  destruct (IH (i + 1) s4 v1 _ Hown2) as (s'&v'&d'&Hrun&Hown'&Hsame); [cbn; lia|].
  exists s', v', d'. split; [exact Hrun|]. split; [done|]. exact Hsame.
Qed.

(** ** Closing *)

Lemma unmap_regions_run k i s d (rest : gset resource) :
  dev_num_regions d = i + Z.of_nat k -> 0 <= i -> i + Z.of_nat k <= zlen (dev_regions d) ->
  let maps := drop (Z.to_nat i) (maps_of d) in
  NoDup maps -> list_to_set maps ## rest -> os_owned s = list_to_set maps ∪ rest ->
  exists s', unmap_regions k i s d = Ok s' /\ os_owned s' = rest.
Proof.
  intros Hn. revert i s Hn. induction k as [|k IH]; intros i s Hn Hi Hlen; cbv zeta; intros Hnd Hdis Ho.
  { exists s. split; [done|]. rewrite Ho. rewrite drop_ge; [cbn [list_to_set]; set_solver|].
    unfold maps_of. rewrite length_fmap, length_take. lia. }
  cbn [unmap_regions]. destruct (rget_ok (dev_regions d) i) as (io&Hr&Hz); [lia|]. rewrite Hr. cbn [mbind res_bind].
  assert (Hd : drop (Z.to_nat i) (maps_of d) = region_res io :: drop (Z.to_nat (i + 1)) (maps_of d)).
  { replace (Z.to_nat (i + 1)) with (S (Z.to_nat i)) by lia. apply drop_S. unfold maps_of.
    rewrite list_lookup_fmap, lookup_take_lt by lia. unfold zget in Hz. destruct (0 <=? i); [|done]. by rewrite Hz. }
  rewrite Hd in *. apply list.NoDup_cons in Hnd as [Hnin Hnd]. cbn [list_to_set] in *.
  destruct (metal_unmap s (io_virt io) (io_size io)) as [s1 r1] eqn:Eu.
  apply metal_unmap_run in Eu; [|rewrite Ho; unfold region_res; set_solver].
  apply (IH (i + 1) s1); [lia|lia|lia|done|set_solver|].
  rewrite Eu, Ho. change (R_map _ _) with (region_res io). rewrite <- (elem_of_list_to_set (C := gset resource)) in Hnin.
  set_solver.
Qed.

Lemma maps_of_maps d r : r ∈ maps_of d -> exists a n, r = R_map a n.
Proof. unfold maps_of. intros (io&->&_)%list_elem_of_fmap. by eexists _, _. Qed.

Lemma uio_close_run base s v d : dev_owns base (os_owned s) v d ->
  exists s' v', metal_uio_dev_close s v d = Ok (s', v') /\ os_owned s' = base.
Proof.
  intros [Ho Hnew Hm Hr Hn Hp]. unfold metal_uio_dev_close.
  assert (Hmaps : forall r, r ∈ maps_of d -> r ∉ handle_res (ldv_sdev v) ∪ fd_res (ldv_fd v)).
  { intros r (a&n&->)%maps_of_maps. unfold handle_res, fd_res. destruct (_ =? _), (_ <=? _); set_solver. }
  destruct (unmap_regions_run (Z.to_nat (dev_num_regions d)) 0 s d
    (handle_res (ldv_sdev v) ∪ fd_res (ldv_fd v) ∪ base)) as (s1&Hrun&Ho1); [lia|lia|lia|exact Hm| | |].
  { change (drop (Z.to_nat 0) (maps_of d)) with (maps_of d). unfold dev_resources in Hnew.
    intros r Hr1%elem_of_list_to_set Hr2. specialize (Hmaps r Hr1). set_solver. }
  { rewrite Ho. change (drop (Z.to_nat 0) (maps_of d)) with (maps_of d). unfold dev_resources. set_solver. }
  rewrite Hrun. cbn [mbind res_bind].
  assert (Hnew' : handle_res (ldv_sdev v) ## base /\ fd_res (ldv_fd v) ## base) by (unfold dev_resources in Hnew; set_solver).
  clear Hnew Hmaps Hm Ho Hrun. destruct Hnew' as [Hnh Hnf].
  pose proof (law_write_attribute s1 (ldv_override v) [0]) as Ew.
  destruct (sysfs_write_attribute s1 (ldv_override v) [0]) as [s2 r2]. cbn [fst] in Ew.
  assert (Hafter : forall s3 v3, os_owned s3 = os_owned s1 -> ldv_sdev v3 = ldv_sdev v -> ldv_fd v3 = ldv_fd v ->
    exists s' v', (let '(s, ldev) := if negb (ldv_sdev v3 =? 0)
        then (sysfs_close_device s3 (ldv_sdev v3), ldv_set_sdev v3 0) else (s3, v3) in
      let s := if 0 <=? ldv_fd ldev then (os_close s (ldv_fd ldev)).1 else s in Ok (s, ldev)) = Ok (s', v') /\
      os_owned s' = base).
  { intros s3 v3 Ho3 Hs3 Hf3. unfold handle_res in *. rewrite Hs3.
    assert (Hfd : forall s4 v4, os_owned s4 = fd_res (ldv_fd v) ∪ base -> ldv_fd v4 = ldv_fd v -> exists s' v',
      Ok (if 0 <=? ldv_fd v4 then (os_close s4 (ldv_fd v4)).1 else s4, v4) = Ok (s', v') /\ os_owned s' = base).
    { intros s4 v4 Ho4 Hf4. eexists _, _. split; [reflexivity|]. rewrite Hf4. unfold fd_res in *.
      destruct (0 <=? ldv_fd v); [|rewrite Ho4; set_solver]. destruct (os_close s4 (ldv_fd v)) as [s5 r5] eqn:Ec.
      apply law_close in Ec. cbn [fst]. rewrite Ec, Ho4. set_solver. }
    destruct (ldv_sdev v =? 0); cbn [negb]; apply Hfd; try done.
    - rewrite Ho3, Ho1. set_solver.
    - rewrite law_close_device, Ho3, Ho1. unfold fd_res. destruct (0 <=? ldv_fd v); set_solver. }
  destruct (negb (ldv_override v =? 0)); by apply Hafter.
Qed.

(** ** Opening *)

(** The device files are not so many that a descriptor is [MAX_IRQS] itself. *)
Hypothesis few_files : forall s p f m, (os_open s p f m).2 <> MAX_IRQS.

Lemma open_file_limit s v s' v' : uio_open_file s v = (s', v', 0) -> ldv_fd v' <> MAX_IRQS.
Proof.
  unfold uio_open_file. destruct (wait_for_file 1000 s _) as [s1 found]. destruct found; cbn [negb]; [|done].
  unfold metal_open. destruct (ldv_dev_path v) as [|ch p]; [done|].
  change (negb (0 =? 0)) with false. cbv iota.
  match goal with |- context [os_open s1 ?a ?b ?c] =>
    pose proof (few_files s1 a b c) as Hl; destruct (os_open s1 a b c) as [s2 fd] eqn:Eo end. cbn [snd] in Hl.
  apply law_open in Eo.
  destruct (fd <? 0) eqn:E.
  - destruct (- os_errno s2 <? 0) eqn:E2; [intros [= _ _ Hr]|intros _]; zbool; lia.
  - rewrite E. intros [= <- <-]. done.
Qed.

(** A device that has acquired nothing. *)
Definition fresh v d : Prop :=
  ldv_sdev v = 0 /\ ldv_fd v = -1 /\ dev_num_regions d = 0 /\
  zlen (dev_regions d) = METAL_MAX_DEVICE_REGIONS /\ zlen (ldv_region_phys v) = METAL_MAX_DEVICE_REGIONS.

Lemma fresh_owns base v d : fresh v d -> dev_owns base base v d.
Proof.
  intros (Hs&Hf&Hn&Hr&Hp).
  assert (Em : maps_of d = []) by (unfold maps_of; by rewrite Hn).
  assert (E : dev_resources v d = ∅).
  { unfold dev_resources. rewrite Em. unfold handle_res, fd_res. rewrite Hs, Hf. change (0 =? 0) with true.
    change (0 <=? -1) with false. cbv iota. by rewrite !(left_id_L ∅ _). }
  split; rewrite ?E, ?Em; try done; [set_solver|constructor|].
  rewrite Hn. unfold METAL_MAX_DEVICE_REGIONS. lia.
Qed.

(** The interrupt of the device [v] at [dev]: it has none and the table is as it was, or its
    descriptor is the interrupt and the table names the device there (a descriptor beyond
    the table is not entered). *)
Definition irq_entered (devs devs' : list Z) v d (dev : Z) : Prop :=
  (dev_irq_num d = 0 /\ dev_irq_info d = -1 /\ devs' = devs) \/
  (dev_irq_num d = 1 /\ dev_irq_info d = ldv_fd v /\
     devs' = if ldv_fd v <? MAX_IRQS then zset devs (ldv_fd v) dev else devs).

(** What [metal_uio_dev_open] guarantees on every path. *)
Lemma uio_open_run l lbus ldrv device v d :
  fresh v d -> zlen (li_devs l) = MAX_IRQS ->
  exists l' v' d' r, metal_uio_dev_open l lbus ldrv device v d = Ok (l', v', d', r) /\
    dev_owns (os_owned (li_sys l)) (os_owned (li_sys l')) v' d' /\
    zlen (li_devs l') = MAX_IRQS /\ (r <> 0 -> li_devs l' = li_devs l) /\
    (r = 0 -> ldv_sdev v' <> 0 /\ 0 <= ldv_fd v' /\ ldv_dev_name v' = ldv_dev_name v /\
       ldv_ldrv v' = ldv_ldrv v /\ dev_bus d' = dev_bus d /\
       irq_entered (li_devs l) (li_devs l') v' d' device).
Proof.
  intros Hfresh Hdevs. unfold metal_uio_dev_open.
  set (v1 := ldv_set_fd v (-1)). set (d1 := dev_set_irq d (dev_irq_num d) (-1)).
  assert (Hf1 : fresh v1 d1) by (destruct Hfresh as (?&?&?&?&?); done).
  pose proof (fresh_owns (os_owned (li_sys l)) v1 d1 Hf1) as Hown. set (base := os_owned (li_sys l)) in *.
  destruct (sysfs_open_device (li_sys l) _ _) as [s1 h] eqn:E1. apply law_open_device in E1. fold base in E1.
  assert (Hfail : forall (s2 : Sys) v2 r2, r2 <> 0 -> dev_owns base (os_owned s2) v2 d1 -> exists l' v' d' r,
    Ok (li_set_sys l s2, v2, d1, r2) = Ok (l', v', d', r) /\ dev_owns base (os_owned (li_sys l')) v' d' /\
    zlen (li_devs l') = MAX_IRQS /\ (r <> 0 -> li_devs l' = li_devs l) /\ (r = 0 -> ldv_sdev v' <> 0 /\ 0 <= ldv_fd v' /\
       ldv_dev_name v' = ldv_dev_name v /\ ldv_ldrv v' = ldv_ldrv v /\ dev_bus d' = dev_bus d /\
       irq_entered (li_devs l) (li_devs l') v' d' device)).
  { intros s2 v2 r2 Hr Ho. eexists _, _, _, _. split; [reflexivity|]. done. }
  destruct (Z.eqb_spec h 0) as [->|Hh].
  { destruct E1 as [[_ Ho]|[? _]]; [|done]. apply Hfail; [done|]. rewrite Ho. apply fresh_owns.
    destruct Hf1 as (?&?&?&?&?). done. }
  destruct E1 as [[? _]|(_&Hf&Ho)]; [done|].
  assert (Hown1 : dev_owns base (os_owned s1) (ldv_set_sdev v1 h) d1).
  { rewrite Ho. destruct Hf1 as (?&?&?&_). by apply dev_owns_sdev. }
  set (v2 := ldv_set_sdev v1 h) in *. clearbody base. clear Hown.
  destruct (metal_uio_dev_bind s1 v2 ldrv) as [[s3 v3] r3] eqn:E3. apply bind_run in E3 as (Ho3&(Hs3&Hp3&Hn3&Hl3)&Hfd3).
  assert (Hown3 : dev_owns base (os_owned s3) v3 d1) by (rewrite Ho3; apply (dev_owns_same _ _ v2 d1); by rewrite ?Hp3).
  destruct (Z.eqb_spec r3 0) as [->|Hr3]; cbn [negb]; [|by apply Hfail].
  destruct (uio_find_class s3 v3) as [[s4 v4] r4] eqn:E4. apply find_class_run in E4 as (Ho4&(Hs4&Hp4&Hn4&Hl4)&Hfd4).
  assert (Hown4 : dev_owns base (os_owned s4) v4 d1) by (rewrite Ho4; apply (dev_owns_same _ _ v3 d1); by rewrite ?Hp4).
  destruct (Z.eqb_spec r4 0) as [->|Hr4]; cbn [negb]; [|by apply Hfail].
  destruct (uio_open_file s4 v4) as [[s5 v5] r5] eqn:E5. pose proof E5 as E5'.
  apply open_file_run in E5; [|rewrite Hfd4, Hfd3; done].
  destruct (Z.eqb_spec r5 0) as [->|Hr5]; cbn [negb]; cycle 1.
  { destruct E5 as [(_&Ho5&->)|[? _]]; [|done]. apply Hfail; [done|]. by rewrite Ho5. }
  destruct E5 as [[? _]|(_&fd&Hge&Hff&Ho5&->)]; [done|]. apply open_file_limit in E5'. cbn in E5'.
  assert (Hown5 : dev_owns base (os_owned s5) (ldv_set_fd v4 fd) d1).
  { rewrite Ho5. apply dev_owns_fd; try done. rewrite Hfd4, Hfd3. done. }
  destruct (regions_run base (Z.to_nat METAL_MAX_DEVICE_REGIONS) 0 s5 _ d1 Hown5) as (s6&v6&d6&Hrun&Hown6&Hsame).
  { destruct Hf1 as (_&_&->&_). done. }
  rewrite Hrun. cbn [mbind res_bind]. destruct Hsame as (Hs6&Hfd6&Hn6&Hl6&Hb6). cbn in Hs6, Hfd6, Hn6, Hl6, Hb6.
  pose proof (law_write_int s6 (ldv_fd v6) 1) as Ew. destruct (os_write_int s6 (ldv_fd v6) 1) as [s7 r7]. cbn [fst] in Ew.
  rewrite <- Ew in Hown6.
  assert (Hid : ldv_sdev v6 <> 0 /\ 0 <= ldv_fd v6 /\ ldv_dev_name v6 = ldv_dev_name v /\
    ldv_ldrv v6 = ldv_ldrv v /\ dev_bus d6 = dev_bus d).
  { rewrite Hs6, Hs4, Hs3, Hfd6, Hn6, Hn4, Hn3, Hl6, Hl4, Hl3, Hb6. done. }
  assert (Hirq : forall n i, dev_owns base (os_owned s7) v6 (dev_set_irq d6 n i))
    by (intros n i; by apply (dev_owns_same _ _ v6 d6)).
  destruct (r7 <=? 0).
  - eexists _, _, _, _. split; [reflexivity|]. split; [apply Hirq|]. split; [done|]. split; [done|]. intros _.
    split_and!; try apply Hid. left. done.
  - unfold metal_linux_irq_register_dev. destruct (MAX_IRQS <? ldv_fd v6) eqn:El; zbool.
    + cbn [mbind res_bind]. eexists _, _, _, _. split; [reflexivity|]. split; [apply Hirq|]. split; [done|].
      split; [done|]. intros _. split_and!; try apply Hid. right. split; [done|]. split; [done|].
      by rewrite (proj2 (Z.ltb_ge _ _)) by lia.
    + rewrite rset_ok by (cbn [li_set_sys li_devs]; lia). cbn [mbind res_bind]. eexists _, _, _, _.
      split; [reflexivity|]. split; [apply Hirq|]. split; [cbn; by rewrite zlen_zset|].
      split; [done|]. intros _. split_and!; try apply Hid. right. split; [done|]. split; [done|].
      assert (ldv_fd v6 <> MAX_IRQS) by (by rewrite Hfd6). by rewrite (proj2 (Z.ltb_lt _ _)) by lia.
Qed.

End uio.

(** ** Opening and closing through the bus *)

Section bus.
Context {Sys : Type} `{sysfs_laws Sys}.
Abbreviation world := (dworld (lenv Sys)).
Implicit Type w : world.
Hypothesis few_files : forall (s : Sys) p f m, (os_open s p f m).2 <> MAX_IRQS.

(** The drivers of the table: either the functions of UIO, or none. *)
Definition driver_ok (d : linux_driver) : Prop :=
  ldrv_dev_open d = 0 \/ (ldrv_dev_open d = uio_dev_open_fn /\ ldrv_dev_close d = uio_dev_close_fn).

Definition owned w : gset resource := os_owned (dw_sys w).

(** The table of the devices the interrupts belong to. *)
Definition irq_table w : list Z := li_devs (le_lirq (dw_env w)).

(** What the port knows besides the state of the system and of the interrupts. *)
Definition same_tables w w' : Prop :=
  dw_buses w' = dw_buses w /\ dw_devices w' = dw_devices w /\ dw_bus_list w' = dw_bus_list w /\
  le_lbus (dw_env w') = le_lbus (dw_env w) /\ le_ldev (dw_env w') = le_ldev (dw_env w).

(** The devices of the tables have their blocks. *)
Definition devices_live w : Prop :=
  forall a, is_Some (dw_devices w !! a) \/ is_Some (le_ldev (dw_env w) !! a) -> R_block a ∈ owned w.

(** The device [dev] is open on [bus]: it is entered in the tables, it has its driver's
    position and its name, it is the last device of the bus, and it owns its resources
    besides [base]. *)
Record dev_opened w (base : gset resource) (bus dev : Z) (b : metal_bus) (drivers : list linux_driver) (k : nat)
    (name : list Z) w' : Prop := {
  dp_same : dw_bus_list w' = dw_bus_list w /\ le_lbus (dw_env w') = le_lbus (dw_env w);
  dp_buses : dw_buses w' = <[bus := mk_bus (bus_name b) (bus_ops b) (bus_devices b ++ [dev])]> (dw_buses w);
  dp_dev : exists v d i ldrv,
    le_ldev (dw_env w') = <[dev := v]> (le_ldev (dw_env w)) /\ dw_devices w' = <[dev := d]> (dw_devices w) /\
    irq_entered (irq_table w) (irq_table w') v d dev /\
    ldv_ldrv v = (k + i)%nat /\ drivers !! i = Some ldrv /\ ldrv_sdrv ldrv <> 0 /\
    ldrv_dev_close ldrv = uio_dev_close_fn /\
    dev_name d = Some (take (Z.to_nat (PATH_MAX - 1)) name) /\ dev_bus d = bus /\
    ldv_sdev v <> 0 /\ 0 <= ldv_fd v /\ dev_owns base (owned w') v d
}.

Lemma dw_sys_set_lirq w l : dw_sys (dw_set_lirq w l) = li_sys l.
Proof. done. Qed.

Lemma fresh_is_fresh name i bus : fresh (fresh_ldev name i) (fresh_dev bus).
Proof. repeat split; reflexivity. Qed.

Lemma open_with_drivers_run drivers k w bus lbus name ldev b base :
  Forall driver_ok drivers -> zlen (li_devs (le_lirq (dw_env w))) = MAX_IRQS ->
  dw_buses w !! bus = Some b -> (R_block ldev ∉ base) -> owned w = {[R_block ldev]} ∪ base ->
  exists w' r dev, open_with_drivers drivers k w bus lbus name ldev = Ok (w', r, dev) /\
    zlen (li_devs (le_lirq (dw_env w'))) = MAX_IRQS /\
    ((r = - ENODEV /\ dev = 0 /\ same_tables w w' /\ irq_table w' = irq_table w /\ owned w' = base) \/
     (r = 0 /\ dev = ldev /\ dev_opened w ({[R_block ldev]} ∪ base) bus ldev b drivers k name w')).
Proof.
  revert k w. induction drivers as [|ldrv drivers IH]; intros k w Hok Hdevs Hb Hnew Hown.
  { cbn [open_with_drivers]. eexists _, _, _. split; [reflexivity|]. split; [done|]. left.
    split; [done|]. split; [done|]. split; [done|]. split; [done|]. unfold owned, dw_set_sys. rewrite dw_sys_set_lirq.
    cbn [li_set_sys li_sys]. rewrite law_free. fold (owned w). rewrite Hown. set_solver. }
  apply Forall_cons_1 in Hok as [Hdrv Hok]. cbn [open_with_drivers].
  assert (Hskip : forall w1, same_tables w w1 -> irq_table w1 = irq_table w -> owned w1 = owned w ->
    exists w' r dev, open_with_drivers drivers (S k) w1 bus lbus name ldev = Ok (w', r, dev) /\
    zlen (li_devs (le_lirq (dw_env w'))) = MAX_IRQS /\
    ((r = - ENODEV /\ dev = 0 /\ same_tables w w' /\ irq_table w' = irq_table w /\ owned w' = base) \/
     (r = 0 /\ dev = ldev /\ dev_opened w ({[R_block ldev]} ∪ base) bus ldev b (ldrv :: drivers) k name w'))).
  { intros w1 (Hb1&Hd1&Hl1&Hlb1&Hld1) Hi1 Ho1.
    destruct (IH (S k) w1 Hok ltac:(rewrite <- Hdevs; exact (f_equal zlen Hi1))) as (w'&r&dev&Hrun&Hdv&Hres); [congruence|done|congruence|].
    exists w', r, dev. split; [done|]. split; [done|].
    destruct Hres as [(Hr&Hd&(?&?&?&?&?)&Hi'&Ho)|(Hr&Hd&[[Hs1 Hs2] Hbs (v&d&i&dr&Hv&Hdd&Hq&Hi&Hdr&Hrest)])].
    - left. split; [done|]. split; [done|]. split; [repeat split; congruence|]. split; [congruence|done].
    - right. split; [done|]. split; [done|]. split; [split; congruence|congruence|].
      exists v, d, (S i), dr. rewrite Hi1 in Hq. split; [congruence|]. split; [congruence|]. split; [done|]. split; [lia|]. done. }
  destruct (Z.eqb_spec (ldrv_sdrv ldrv) 0) as [|Hsd]; cbn [orb]; [by apply Hskip|].
  destruct Hdrv as [->|[-> Hclose]]; [change (0 =? 0) with true; by apply Hskip|].
  change (uio_dev_open_fn =? 0) with false. cbv iota. unfold call_dev_open. rewrite Z.eqb_refl.
  destruct (uio_open_run few_files (le_lirq (dw_env w)) lbus ldrv ldev (fresh_ldev name k) (fresh_dev bus)
    (fresh_is_fresh name k bus) Hdevs) as (l'&v'&d'&r&Hrun&Hdo&Hdv&Hbad&Hsucc).
  rewrite Hrun. cbn [mbind res_bind]. destruct (Z.eqb_spec r 0) as [->|Hr]; cbn [negb].
  - destruct (Hsucc eq_refl) as (Hs'&Hf'&Hn'&Hl'&Hb'&Hq'). clear Hsucc.
    unfold get_bus. change (dw_buses (dw_set_lirq w l')) with (dw_buses w). rewrite Hb. cbn [mbind res_bind].
    eexists _, _, _. split; [reflexivity|]. split; [done|]. right. split; [done|]. split; [done|].
    split; [done|done|]. exists v', (dev_set_name d' (Some (ldv_dev_name v'))), 0%nat, ldrv.
    split; [done|]. split; [done|]. split; [exact Hq'|]. split; [rewrite Hl'; cbn; lia|].
    split; [done|]. split; [done|]. split; [done|]. split; [cbn; by rewrite Hn'|]. split; [done|].
    split; [done|]. split; [done|]. rewrite <- Hown. apply (dev_owns_same _ _ v' d'); done.
  - rewrite dw_sys_set_lirq. destruct (uio_close_run _ _ _ _ Hdo) as (s'&v2&Hc&Ho').
    unfold call_dev_close. rewrite Hclose, Z.eqb_refl, Hc. cbn [mbind res_bind]. apply Hskip; [done|exact (Hbad Hr)|exact Ho'].
Qed.

Lemma filter_app_new (l : list Z) x : (x ∉ l) -> List.filter (fun a => negb (a =? x)) (l ++ [x]) = l.
Proof.
  intros Hx. rewrite List.filter_app. cbn. rewrite Z.eqb_refl. cbn. rewrite app_nil_r.
  induction l as [|a l IH]; [done|]. cbn. apply not_elem_of_cons in Hx as [Hne Hx].
  rewrite (proj2 (Z.eqb_neq a x)) by done. cbn. by rewrite IH.
Qed.

Lemma dev_close_run w base bus dev lbus b drivers name w' :
  to_linux_bus w bus = Ok lbus -> lb_drivers lbus = drivers -> dw_buses w !! bus = Some b ->
  (dev ∉ bus_devices b) -> (R_block dev ∉ base) ->
  dev_opened w ({[R_block dev]} ∪ base) bus dev b drivers 0 name w' ->
  exists w'', metal_linux_dev_close w' bus dev = Ok w'' /\ owned w'' = base /\
    dw_buses w'' = dw_buses w /\ dw_bus_list w'' = dw_bus_list w /\ le_lbus (dw_env w'') = le_lbus (dw_env w) /\
    dw_devices w'' = delete dev (dw_devices w) /\ le_ldev (dw_env w'') = delete dev (le_ldev (dw_env w)) /\
    irq_table w'' = irq_table w'.
Proof.
  intros Hlb Hdrs Hb Hnin Hnew [[Hs1 Hs2] Hbs (v&d&i&ldrv&Hv&Hd&_&Hi&Hdr&_&Hc&_&_&_&_&Hown)].
  unfold metal_linux_dev_close, to_linux_device. rewrite Hv, lookup_insert_eq. cbn [mbind res_bind].
  unfold to_linux_bus in *. rewrite Hs2.
  destruct (list_find _ (le_lbus (dw_env w))) as [[? lb]|]; [|done]. injection Hlb as ->. cbn [mbind res_bind].
  unfold get_driver. rewrite Hi, Hdrs. cbn [Nat.add]. rewrite Hdr. cbn [mbind res_bind].
  unfold get_dev. rewrite Hd, lookup_insert_eq. cbn [mbind res_bind]. unfold call_dev_close. rewrite Hc, Z.eqb_refl.
  destruct (uio_close_run _ _ _ _ Hown) as (s'&v'&Hrun&Ho). rewrite Hrun. cbn [mbind res_bind].
  unfold get_bus. rewrite Hbs, lookup_insert_eq. cbn [mbind res_bind bus_name bus_ops bus_devices].
  eexists. split; [reflexivity|]. split; [|split; [|split; [done|split; [done|split; [|split; [|done]]]]]].
  - unfold owned, dw_set_sys. rewrite dw_sys_set_lirq. cbn [li_set_sys li_sys]. rewrite law_free.
    etransitivity; [apply (f_equal (fun X => X ∖ _)); exact Ho|]. set_solver.
  - cbn [dw_set_sys dw_set_lirq dw_set_env dw_set_devices dw_set_buses dw_buses]. rewrite filter_app_new by done.
    rewrite Hbs, insert_insert_eq. apply insert_id. rewrite Hb. by destruct b.
  - cbn. by rewrite Hd, delete_insert_eq.
  - cbn. by rewrite Hv, delete_insert_eq.
Qed.

(** C37: Opening a device through a bus whose drivers are those of the table.  When no
    driver serves it, or memory is short, the process owns exactly what it owned
    before and the tables are unchanged: every driver that failed half-way has given
    back its handle, its file and its mappings.  Otherwise the device is the last of
    its bus, under its name and with the driver that opened it, it is entered in the
    tables of the devices and, when it has an interrupt, in the table of the interrupts;
    it owns a sysfs handle, a file and its mapped regions.  Closing it gives all of them
    back and takes it from its bus and from the tables of the devices: when the other
    devices have their blocks, these tables are as before it was opened.  Its entry in
    the table of the interrupts stays.  The functions of sysfsutils enter as handles
    with the laws [sysfs_laws] (proved of the modelled attributes and directory lists in
    SysfsLaws.v), and no file is given the descriptor [MAX_IRQS] ([few_files]). *)
Theorem linux_dev_open_close (sizeof_linux_device : Z) w bus lbus b name :
  to_linux_bus w bus = Ok lbus -> Forall driver_ok (lb_drivers lbus) ->
  zlen (li_devs (le_lirq (dw_env w))) = MAX_IRQS -> dw_buses w !! bus = Some b ->
  Forall (fun a => R_block a ∈ owned w) (bus_devices b) ->
  exists w' r dev, metal_linux_dev_open sizeof_linux_device w bus name = Ok (w', r, dev) /\
    (((r = - ENODEV \/ r = - ENOMEM) /\ dev = 0 /\ same_tables w w' /\ irq_table w' = irq_table w /\ owned w' = owned w) \/
     (r = 0 /\ dev_opened w ({[R_block dev]} ∪ owned w) bus dev b (lb_drivers lbus) 0 name w' /\
      exists w'', metal_linux_dev_close w' bus dev = Ok w'' /\ owned w'' = owned w /\ dw_buses w'' = dw_buses w /\
        dw_devices w'' = delete dev (dw_devices w) /\ le_ldev (dw_env w'') = delete dev (le_ldev (dw_env w)) /\
        (devices_live w -> same_tables w w'') /\ irq_table w'' = irq_table w')).
Proof.
  intros Hlb Hok Hdevs Hb Hlive. unfold metal_linux_dev_open. rewrite Hlb. cbn [mbind res_bind].
  destruct (os_malloc (dw_sys w) sizeof_linux_device) as [s dev] eqn:Em. apply law_malloc in Em.
  destruct (Z.eqb_spec dev 0) as [->|Hdev].
  { destruct Em as [[_ Ho]|[? _]]; [|done]. eexists _, _, _. split; [reflexivity|]. left.
    split; [by right|]. split; [done|]. split; [done|]. split; [done|]. exact Ho. }
  destruct Em as [[? _]|(_&Hf&Ho)]; [done|].
  destruct (open_with_drivers_run (lb_drivers lbus) 0 (dw_set_sys w s) bus lbus name dev b (owned w) Hok Hdevs Hb Hf Ho)
    as (w'&r&dev'&Hrun&_&Hres).
  exists w', r, dev'. split; [done|]. destruct Hres as [(->&->&Hsame&Hirq&Hown)|(->&->&Hop)]; [left|right].
  - split; [by left|]. done.
  - assert (Hop' : dev_opened w ({[R_block dev]} ∪ owned w) bus dev b (lb_drivers lbus) 0 name w')
      by (destruct Hop; by split).
    split; [done|]. split; [exact Hop'|].
    destruct (dev_close_run w (owned w) bus dev lbus b (lb_drivers lbus) name w') as (w''&Hc&Ho'&C1&C2&C3&C4&C5&C6); try done.
    { intros Hin. apply Hf. by apply (proj1 (list.Forall_forall _ _) Hlive). }
    exists w''. split_and!; try done. intros Hdl. unfold same_tables. split_and!; try done.
    + rewrite C4. apply delete_id. destruct (dw_devices w !! dev) eqn:E; [|done]. exfalso. apply Hf, Hdl. rewrite E. by left.
    + rewrite C5. apply delete_id. destruct (le_ldev (dw_env w) !! dev) eqn:E; [|done]. exfalso. apply Hf, Hdl. rewrite E. by right.
Qed.

(** Closing a device leaves the table of the interrupts alone: the entry of its
    descriptor still names the device, whose memory is free. *)
Theorem linux_dev_close_keeps_irq_entry w bus dev w' :
  metal_linux_dev_close w bus dev = Ok w' ->
  li_devs (le_lirq (dw_env w')) = li_devs (le_lirq (dw_env w)) /\
  dw_devices w' !! dev = None /\ le_ldev (dw_env w') !! dev = None.
Proof.
  unfold metal_linux_dev_close. intros Hc. do 4 res_step Hc.
  match type of Hc with (mbind _ ?m) = _ => destruct m as [[s v']|] eqn:Ec; cbn [mbind res_bind] in Hc; [|done] end.
  res_step Hc. injection Hc as <-. split; [done|]. split; cbn; apply lookup_delete_eq.
Qed.
End bus.

(** ** A system with one UIO device *)

#[local] Existing Instances demo_os demo_os_laws.

(** Its driver is bound, its regions are of 4096 bytes each. *)
#[local] Instance demo_sysfs : sysfs (gset resource) := {
  sysfs_open_attribute s _ := ({[R_handle (next_number s)]} ∪ s, next_number s);
  sysfs_read_attribute s _ := (s, 0);
  sysfs_write_attribute s _ _ := (s, 0);
  sysfs_close_attribute s h := if h =? 0 then s else s ∖ {[R_handle h]};
  sysfs_attr_value _ _ := bytes "0x1000";
  sysfs_open_device s _ _ := ({[R_handle (next_number s)]} ∪ s, next_number s);
  sysfs_close_device s h := s ∖ {[R_handle h]};
  sysfs_driver_name _ _ := bytes "uio_pdrv_genirq";
  sysfs_device_path _ _ := bytes "/sys/d";
  sysfs_get_device_attr s _ _ := (s, 1);
  sysfs_open_directory_list s _ := ({[R_handle (next_number s)]} ∪ s, next_number s, [bytes "uio0"]);
  sysfs_close_list s h := s ∖ {[R_handle h]};
  sysfs_path_is_dir s _ := (s, 0);
  sysfs_open_driver s _ _ := (s, 1);
  sysfs_close_driver s _ := s;
  sysfs_get_driver_attr s _ _ := (s, 1);
  sysfs_open_bus s _ := (s, 1);
  sysfs_close_bus s _ := s;
  os_access s _ := (s, 0);
  os_usleep s _ := s;
  os_write_int s _ _ := (s, 4);
  os_read_int s _ := (s, 4);
  os_read s _ _ := (s, 0, []);
  os_system s _ := (s, 0)
}.

Lemma demo_handle (s s' : gset resource) h :
  ({[R_handle (next_number s)]} ∪ s, next_number s) = (s', h) ->
  (h = 0 /\ s' = s) \/ (h <> 0 /\ (R_handle h ∉ s) /\ s' = {[R_handle h]} ∪ s).
Proof.
  intros [= <- <-]. right. pose proof (next_number_range s). split; [lia|]. split; [by apply next_number_fresh|done].
Qed.

#[local] Instance demo_sysfs_laws : sysfs_laws (gset resource).
Proof.
  split; cbn; intros; try done; try (by apply demo_handle).
  injection H as <- <- <-. split; [by constructor|]. by apply demo_handle.
Defined.

Definition demo_lenv : lenv (gset resource) :=
  mk_lenv demo_st2
    (mk_iw [] ∅ 0 [] [] (mk_lirq (replicate (Z.to_nat MAX_IRQS) 0) 3 None false 0 (replicate 16 0) ∅))
    ((fun b => lb_set_drivers b ((fun d => ldrv_set_sdrv d 9) <$> lb_drivers b)) <$> linux_buses 100 200) ∅.
Definition demo_world : dworld (lenv (gset resource)) :=
  mk_dw 1 0 0 [100] [] [] {[100 := mk_bus (Some (bytes "platform")) metal_linux_bus_ops []]} ∅ ∅ demo_lenv.

Lemma demo_few_files (s : gset resource) p f m : (os_open s p f m).2 <> MAX_IRQS.
Proof. apply next_fd_fresh. Qed.

Lemma linux_dev_open_close_witness : exists w' dev w'',
  metal_linux_dev_open 5000 demo_world 100 (bytes "d") = Ok (w', 0, dev) /\
  metal_linux_dev_close w' 100 dev = Ok w'' /\ owned w'' = ∅ /\ dw_devices w'' = ∅ /\
  irq_table w'' = irq_table w' /\ (dev_num_regions <$> dw_devices w' !! dev) = Some 32.
Proof.
  assert (E : (x ← metal_linux_dev_open 5000 demo_world 100 (bytes "d");
      Ok (x.1.2, dev_num_regions <$> dw_devices x.1.1 !! x.2)) = Ok (0, Some 32)) by (vm_compute; reflexivity).
  destruct (linux_dev_open_close demo_few_files 5000 demo_world 100
    (mk_lbus 100 (bytes "platform") ((fun d => ldrv_set_sdrv d 9) <$>
       [uio_driver (bytes "uio_pdrv_genirq"); uio_driver (bytes "uio_dmem_genirq")]) 0)
    (mk_bus (Some (bytes "platform")) metal_linux_bus_ops []) (bytes "d")) as (w'&r&dev&Hrun&Hres).
  - vm_compute. reflexivity.
  - constructor; [right; split; reflexivity|]. constructor; [right; split; reflexivity|constructor].
  - vm_compute. reflexivity.
  - apply lookup_singleton_eq.
  - constructor.
  - rewrite Hrun in E. cbn [mbind res_bind fst snd] in E. injection E as -> E.
    destruct Hres as [([Hr|Hr]&_)|(_&_&w''&Hc&Ho&_&Hd&_&_&Hi)]; [discriminate Hr|discriminate Hr|].
    exists w', dev, w''. split; [exact Hrun|]. split; [exact Hc|]. split; [exact Ho|]. split; [|split; [exact Hi|exact E]].
    rewrite Hd. apply delete_empty.
Defined.

Lemma demo_open_close : exists w' dev w'',
  metal_linux_dev_open 5000 demo_world 100 (bytes "d") = Ok (w', 0, dev) /\
  metal_linux_dev_close w' 100 dev = Ok w'' /\ zget (li_devs (le_lirq (dw_env w'))) 3 = Some dev.
Proof.
  assert (E : (x ← metal_linux_dev_open 5000 demo_world 100 (bytes "d");
      _ ← metal_linux_dev_close x.1.1 100 x.2;
      Ok (x.1.2, bool_decide (zget (li_devs (le_lirq (dw_env x.1.1))) 3 = Some x.2))) = Ok (0, true))
    by (vm_compute; reflexivity).
  destruct (metal_linux_dev_open 5000 demo_world 100 (bytes "d")) as [[[w' r] dev]|]; [|discriminate E].
  cbn [mbind res_bind fst snd] in E. destruct (metal_linux_dev_close w' 100 dev) as [w''|] eqn:Ec; [|discriminate E].
  cbn [mbind res_bind] in E. injection E as -> E. apply bool_decide_eq_true in E. by exists w', dev, w''.
Qed.

Lemma linux_dev_close_keeps_irq_entry_witness : exists w' dev w'',
  metal_linux_dev_close w' 100 dev = Ok w'' /\ dw_devices w'' !! dev = None /\
  zget (li_devs (le_lirq (dw_env w''))) 3 = Some dev.
Proof.
  destruct demo_open_close as (w'&dev&w''&_&Hc&Hz).
  destruct (linux_dev_close_keeps_irq_entry w' 100 dev w'' Hc) as (Hd&Hn&_).
  exists w', dev, w''. split; [exact Hc|]. split; [exact Hn|]. rewrite Hd. exact Hz.
Defined.
