(* ===== verification/LinuxCond.v ===== *)
(** * The condition variable of the Linux port (lib/system/linux/condition.c,
      condition.h)

    A waiter notes the number of wake-ups, releases the mutex and sleeps on that
    number; who signals adds one to the number and wakes sleepers if there are
    waiters.  A thread is a point of its code, the threads interleave at every atomic
    operation, and of the kernel the model has what futex(2) promises.  The mutex is
    the flag that [MetalMutex] shows the code provides. *)

From S2P Require Import Prelude.

(** ** The code *)

(** [cv_wakeups] counts without bound; the word of the C code is its value modulo
    [2 ^ 32].  [cv_last] is the count right after the latest broadcast; no code
    reads it. *)
Record metal_condition := mk_cv {
  cv_mptr : Z;
  cv_waiters : Z;
  cv_wakeups : Z;
  cv_last : Z
}.

Definition metal_condition_init : metal_condition := mk_cv 0 0 0 0.

(** The points of the code. *)
Inductive cvpoint : Type :=
| Out                       (** without the mutex *)
| In                        (** with the mutex *)
| Lock                      (** before [metal_mutex_acquire] *)
| W_attach                  (** [wait]: before the compare-exchange of [mptr] *)
| W_load                    (** before the load of [wakeups] *)
| W_add (v : Z)             (** before [waiters] is incremented *)
| W_unlock (v : Z)          (** before the mutex is released *)
| W_futex (v : Z)           (** before [FUTEX_WAIT] *)
| W_asleep (v : Z)          (** in [FUTEX_WAIT] *)
| W_sub                     (** before [waiters] is decremented *)
| W_lock                    (** before the mutex is acquired again *)
| S_add (all h : bool)      (** [signal] or [broadcast], with the mutex if [h] *)
| S_load (all h : bool)     (** before the load of [waiters] *)
| S_wake (all h : bool).    (** before [FUTEX_WAKE] *)

(** The mutex of the variable, and its address. *)
Definition mutex_addr : Z := 1.

(** [wait] up to the compare-exchange: the test of the arguments, whose failure is
    the negative value returned. *)
Definition wait_check (cv m : bool) (acquired : Z) : Z :=
  if negb cv || negb m || (acquired =? 0) then - EINVAL else 0.

(** The compare-exchange of [mptr] and the test after it: the word, and the value
    returned when the variable belongs to another mutex. *)
Definition wait_attach (mptr m : Z) : Z * Z :=
  if mptr =? 0 then (m, 0) else (mptr, if negb (mptr =? m) then - EINVAL else 0).

(** A step of a thread: the variable, whether the mutex is taken, the next point.
    [self] has the mutex if its point says so. *)
Definition cv_step (c : metal_condition) (locked : bool) (p : cvpoint) : option (metal_condition * bool * cvpoint) :=
  match p with
  | Lock => if locked then None else Some (c, true, In)
  | W_attach =>
      let '(mptr, r) := wait_attach (cv_mptr c) mutex_addr in
      Some (mk_cv mptr (cv_waiters c) (cv_wakeups c) (cv_last c), locked, if r =? 0 then W_load else In)
  | W_load => Some (c, locked, W_add (cv_wakeups c))
  | W_add v => Some (mk_cv (cv_mptr c) (i32 (cv_waiters c + 1)) (cv_wakeups c) (cv_last c), locked, W_unlock v)
  | W_unlock v => Some (c, false, W_futex v)
  | W_futex v => Some (c, locked, if i32 (cv_wakeups c) =? i32 v then W_asleep v else W_sub)
  | W_sub => Some (mk_cv (cv_mptr c) (i32 (cv_waiters c - 1)) (cv_wakeups c) (cv_last c), locked, W_lock)
  | W_lock => if locked then None else Some (c, true, In)
  | S_add all h =>
      let n := cv_wakeups c + 1 in
      Some (mk_cv (cv_mptr c) (cv_waiters c) n (if all then n else cv_last c), locked, S_load all h)
  | S_load all h =>
      Some (c, locked, if 0 <? cv_waiters c then S_wake all h else if h then In else Out)
  | _ => None
  end.

(** ** The threads *)

Record cvsys := mk_cvsys {
  cs_cv : metal_condition;
  cs_locked : bool;
  cs_pts : list cvpoint
}.

(** Where a sleeper goes on. *)
Definition wake_point (p : cvpoint) : cvpoint := match p with W_asleep _ => W_sub | _ => p end.
Definition back (h : bool) : cvpoint := if h then In else Out.

Inductive cvstep : cvsys -> cvsys -> Prop :=
| Cv_call c (l : bool) pts i p p' :
    pts !! i = Some p ->
    p = Out /\ (p' = Lock \/ exists all, p' = S_add all false) \/
    p = In /\ (p' = W_attach /\ wait_check true true (if l then 1 else 0) = 0 \/ exists all, p' = S_add all true) ->
    cvstep (mk_cvsys c l pts) (mk_cvsys c l (<[i := p']> pts))
| Cv_unlock c l pts i :
    pts !! i = Some In -> cvstep (mk_cvsys c l pts) (mk_cvsys c false (<[i := Out]> pts))
| Cv_code c l pts i p c' l' p' :
    pts !! i = Some p -> cv_step c l p = Some (c', l', p') ->
    cvstep (mk_cvsys c l pts) (mk_cvsys c' l' (<[i := p']> pts))
| Cv_wake_one c l pts i h j v :
    pts !! i = Some (S_wake false h) -> pts !! j = Some (W_asleep v) ->
    cvstep (mk_cvsys c l pts) (mk_cvsys c l (<[i := back h]> (<[j := W_sub]> pts)))
| Cv_wake_none c l pts i h :
    pts !! i = Some (S_wake false h) -> (forall j v, pts !! j <> Some (W_asleep v)) ->
    cvstep (mk_cvsys c l pts) (mk_cvsys c l (<[i := back h]> pts))
| Cv_wake_all c l pts i h :
    pts !! i = Some (S_wake true h) ->
    cvstep (mk_cvsys c l pts) (mk_cvsys c l (<[i := back h]> (wake_point <$> pts)))
| Cv_spurious c l pts j v :
    pts !! j = Some (W_asleep v) -> cvstep (mk_cvsys c l pts) (mk_cvsys c l (<[j := W_sub]> pts)).

Definition cvinit (n : nat) : cvsys := mk_cvsys metal_condition_init false (replicate n Out).

(** ** The invariant *)

(** Who has the mutex, who is counted in [waiters], who will wake everybody. *)
Definition holds (p : cvpoint) : bool :=
  match p with
  | In | W_attach | W_load | W_add _ | W_unlock _ => true
  | S_add _ h | S_load _ h | S_wake _ h => h
  | _ => false
  end.
Definition counted (p : cvpoint) : bool :=
  match p with W_unlock _ | W_futex _ | W_asleep _ | W_sub => true | _ => false end.
Definition waking (p : cvpoint) : bool :=
  match p with S_load true _ | S_wake true _ => true | _ => false end.
Definition seen (p : cvpoint) : option Z :=
  match p with W_add v | W_unlock v | W_futex v | W_asleep v => Some v | _ => None end.

Definition b2z (b : bool) : Z := if b then 1 else 0.
Fixpoint count (f : cvpoint -> bool) (l : list cvpoint) : Z :=
  match l with [] => 0 | p :: l' => b2z (f p) + count f l' end.

(** The words and the points, for less than [2 ^ 32] wake-ups so far. *)
Record cvinv (s : cvsys) : Prop := {
  ci_waiters : cv_waiters (cs_cv s) = count counted (cs_pts s);
  ci_lock : count holds (cs_pts s) = b2z (cs_locked s);
  ci_last : 0 <= cv_last (cs_cv s) <= cv_wakeups (cs_cv s);
  ci_seen : forall i p v, cs_pts s !! i = Some p -> seen p = Some v -> 0 <= v <= cv_wakeups (cs_cv s);
  ci_mptr : cv_mptr (cs_cv s) = 0 \/ cv_mptr (cs_cv s) = mutex_addr;
  ci_sleep : forall i v, cs_pts s !! i = Some (W_asleep v) -> v < cv_last (cs_cv s) ->
    exists j p, cs_pts s !! j = Some p /\ waking p = true
}.

Lemma count_insert f l i p p' : l !! i = Some p -> count f (<[i := p']> l) = count f l - b2z (f p) + b2z (f p').
Proof.
  revert i. induction l as [|q l IH]; intros [|i] Hi; [done|done| |].
  - injection Hi as ->. cbn. lia.
  - change (<[S i := p']> (q :: l)) with (q :: <[i := p']> l). cbn [count]. rewrite (IH i Hi). lia.
Qed.

Lemma count_bounds f l : 0 <= count f l <= Z.of_nat (length l).
Proof. induction l as [|p l IH]; [done|]. cbn [count length]. unfold b2z. destruct (f p); lia. Qed.

Lemma count_pos f l i p : l !! i = Some p -> f p = true -> 0 < count f l.
Proof.
  revert i. induction l as [|q l IH]; intros [|i] Hi Hf; [done|done| |].
  - injection Hi as ->. cbn. rewrite Hf. pose proof (count_bounds f l). cbn. lia.
  - cbn in Hi |- *. specialize (IH i Hi Hf). unfold b2z. destruct (f q); lia.
Qed.

Lemma count_fmap f g l : (forall p, f (g p) = f p) -> count f (g <$> l) = count f l.
Proof. intros Hfg. induction l as [|p l IH]; [done|]. cbn. by rewrite Hfg, IH. Qed.

Lemma holder_locked s i p : cvinv s -> cs_pts s !! i = Some p -> holds p = true -> cs_locked s = true.
Proof.
  intros Hs Hi Hp. pose proof (count_pos holds _ i p Hi Hp) as Hc. rewrite (ci_lock _ Hs) in Hc.
  destruct (cs_locked s); [done|]. cbn in Hc. lia.
Qed.

(** The change of one thread. *)
Lemma cv_change c l pts i p c' l' p' :
  cvinv (mk_cvsys c l pts) -> pts !! i = Some p ->
  cv_waiters c' = cv_waiters c - b2z (counted p) + b2z (counted p') ->
  b2z l' = b2z l - b2z (holds p) + b2z (holds p') ->
  cv_wakeups c <= cv_wakeups c' -> 0 <= cv_last c' <= cv_wakeups c' ->
  cv_mptr c' = 0 \/ cv_mptr c' = mutex_addr ->
  (forall v, seen p' = Some v -> 0 <= v <= cv_wakeups c') ->
  (forall v, p' = W_asleep v -> cv_last c' <= v) ->
  cv_last c' = cv_last c \/ waking p' = true ->
  (waking p = true -> waking p' = true \/ forall j v, pts !! j <> Some (W_asleep v)) ->
  cvinv (mk_cvsys c' l' (<[i := p']> pts)).
Proof.
  intros [Hw Hl Hla Hse Hm Hsl] Hi Hcw Hcl Hwk Hlast Hmp Hseen Hasl Hlk Hwake. cbn in *.
  split; cbn [cs_cv cs_locked cs_pts]; try done.
  - rewrite (count_insert counted pts i p p' Hi). lia.
  - rewrite (count_insert holds pts i p p' Hi). lia.
  - intros j q v Hj Hq. apply list_lookup_insert_Some in Hj as [(->&->&_)|[_ Hj]]; [by apply Hseen|].
    specialize (Hse j q v Hj Hq). lia.
  - intros j v Hj Hv. apply list_lookup_insert_Some in Hj as [(->&Hp&_)|[Hne Hj]];
      [specialize (Hasl v Hp); lia|].
    pose proof (lookup_lt_Some _ _ _ Hi) as Hlt.
    destruct Hlk as [Hsame|Hwk']; [|exists i, p'; by rewrite list_lookup_insert_eq].
    rewrite Hsame in Hv. destruct (Hsl j v Hj Hv) as (k&q&Hk&Hq).
    destruct (decide (k = i)) as [->|Hki]; [|exists k, q; by rewrite list_lookup_insert_ne].
    rewrite Hi in Hk. injection Hk as ->. destruct (Hwake Hq) as [Hp'|Hno]; [|by destruct (Hno j v)].
    exists i, p'. by rewrite list_lookup_insert_eq.
Qed.

(** The thread's own bound on [waiters], before and after its step. *)
Lemma waiters_i32 c l pts i p p' d :
  cvinv (mk_cvsys c l pts) -> pts !! i = Some p -> Z.of_nat (length pts) < 2147483648 ->
  d = b2z (counted p') - b2z (counted p) -> i32 (cv_waiters c + d) = cv_waiters c + d.
Proof.
  intros Hs Hi Hn ->. pose proof (ci_waiters _ Hs) as Hw. cbn in Hw. apply i32_id.
  pose proof (count_bounds counted (<[i := p']> pts)) as Hb. rewrite length_insert in Hb.
  rewrite (count_insert counted pts i p p' Hi) in Hb. lia.
Qed.

Lemma i32_inj a b : 0 <= a <= b -> b < 4294967296 -> i32 b = i32 a -> a = b.
Proof. unfold i32. intros. mlia. Qed.

Ltac cv_side := cbn; intros; subst; try done; auto; try lia; try congruence.

Lemma cvinv_code c l pts i p c' l' p' :
  cvinv (mk_cvsys c l pts) -> pts !! i = Some p -> Z.of_nat (length pts) < 2147483648 ->
  cv_wakeups c < 4294967296 -> cv_step c l p = Some (c', l', p') ->
  cvinv (mk_cvsys c' l' (<[i := p']> pts)).
Proof.
  intros Hs Hi Hn Hw E. pose proof (ci_last _ Hs) as Hla. pose proof (ci_mptr _ Hs) as Hm.
  pose proof (ci_seen _ Hs i p) as Hse. pose proof (holder_locked _ i p Hs Hi) as Hl. cbn in Hla, Hm, Hse, Hl.
  destruct p as [| | | | |v|v|v|v| | |all h|all h|all h]; cbn [cv_step] in E; try discriminate E.
  - destruct l; [discriminate E|]. injection E as <- <- <-. apply (cv_change c false pts i Lock); cv_side.
  - unfold wait_attach in E. specialize (Hl eq_refl). subst l.
    destruct Hm as [Hm|Hm]; rewrite Hm in E; cbn in E; injection E as <- <- <-;
      apply (cv_change c true pts i W_attach); cv_side.
  - injection E as <- <- <-. specialize (Hl eq_refl). subst l. apply (cv_change c true pts i W_load); cv_side.
    injection H as <-. lia.
  - injection E as <- <- <-. specialize (Hl eq_refl). subst l. specialize (Hse v Hi eq_refl).
    apply (cv_change c true pts i (W_add v)); cv_side.
    rewrite (waiters_i32 c true pts i (W_add v) (W_unlock v) 1); cv_side.
  - injection E as <- <- <-. specialize (Hl eq_refl). subst l. specialize (Hse v Hi eq_refl).
    apply (cv_change c true pts i (W_unlock v)); cv_side.
  - specialize (Hse v Hi eq_refl). destruct (Z.eqb_spec (i32 (cv_wakeups c)) (i32 v)) as [Ev|Ev]; injection E as <- <- <-.
    + apply i32_inj in Ev; [|lia|done]. subst v. apply (cv_change c l pts i (W_futex (cv_wakeups c))); cv_side.
      injection H as <-. lia.
    + apply (cv_change c l pts i (W_futex v)); cv_side.
  - injection E as <- <- <-. apply (cv_change c l pts i W_sub); cv_side.
    pose proof (waiters_i32 c l pts i W_sub W_lock (-1) Hs Hi Hn eq_refl) as Hd.
    change (cv_waiters c + -1) with (cv_waiters c - 1) in Hd. lia.
  - destruct l; [discriminate E|]. injection E as <- <- <-. apply (cv_change c false pts i W_lock); cv_side.
  - injection E as <- <- <-. apply (cv_change c l pts i (S_add all h)); cv_side; destruct all; cv_side.
  - injection E as <- <- <-. destruct (0 <? cv_waiters c) eqn:Ew; zbool.
    + apply (cv_change c l pts i (S_load all h)); cv_side.
    + assert (Hno : forall j v, pts !! j <> Some (W_asleep v)).
      { intros j v Hj. pose proof (count_pos counted pts j _ Hj eq_refl) as Hc. pose proof (ci_waiters _ Hs). cbn in *. lia. }
      apply (cv_change c l pts i (S_load all h)); destruct h; cv_side.
Qed.

Lemma cvinv_wake c l pts j v : cvinv (mk_cvsys c l pts) -> pts !! j = Some (W_asleep v) ->
  cvinv (mk_cvsys c l (<[j := W_sub]> pts)).
Proof.
  intros Hs Hj. pose proof (ci_last _ Hs) as Hla. pose proof (ci_mptr _ Hs) as Hm. cbn in Hla, Hm.
  apply (cv_change c l pts j (W_asleep v)); cv_side.
Qed.

(** The waker returns. *)
Lemma cvinv_back c l pts i all h : cvinv (mk_cvsys c l pts) -> pts !! i = Some (S_wake all h) ->
  (all = true -> forall j v, pts !! j <> Some (W_asleep v)) -> cvinv (mk_cvsys c l (<[i := back h]> pts)).
Proof.
  intros Hs Hi Hno. pose proof (ci_last _ Hs) as Hla. pose proof (ci_mptr _ Hs) as Hm. cbn in Hla, Hm.
  apply (cv_change c l pts i (S_wake all h)); destruct h; cv_side; destruct all; cv_side.
Qed.

Lemma cvinv_wake_all c l pts i h : cvinv (mk_cvsys c l pts) -> pts !! i = Some (S_wake true h) ->
  cvinv (mk_cvsys c l (<[i := back h]> (wake_point <$> pts))).
Proof.
  intros [Hw Hl Hla Hse Hm Hsl] Hi. cbn in *.
  assert (Hno : forall j v, (wake_point <$> pts) !! j <> Some (W_asleep v)).
  { intros j v Hj. rewrite list_lookup_fmap in Hj. destruct (pts !! j) as [q|]; [|done]. by destruct q. }
  apply (cvinv_back c l _ i true h); [|by rewrite list_lookup_fmap, Hi|by intros _].
  split; cbn [cs_cv cs_locked cs_pts]; try done.
  - rewrite count_fmap; [done|by intros []].
  - rewrite count_fmap; [done|by intros []].
  - intros j p v Hj Hp. rewrite list_lookup_fmap in Hj. destruct (pts !! j) as [q|] eqn:Eq; [|done].
    injection Hj as <-. apply (Hse j q v Eq). by destruct q.
  - intros j v Hj. by destruct (Hno j v).
Qed.

Lemma cvinv_step s s' : cvstep s s' -> Z.of_nat (length (cs_pts s)) < 2147483648 ->
  cv_wakeups (cs_cv s) < 4294967296 -> cvinv s -> cvinv s'.
Proof.
  intros Hstep Hn Hw Hs. pose proof (ci_last _ Hs) as Hla. pose proof (ci_mptr _ Hs) as Hm.
  destruct Hstep as [c l pts i p p' Hi Hc|c l pts i Hi|c l pts i p c' l' p' Hi E|c l pts i h j v Hi Hj
    |c l pts i h Hi Hno|c l pts i h Hi|c l pts j v Hj]; cbn in *.
  - destruct Hc as [(->&[->|[all ->]])|(->&[[-> _]|[all ->]])]; [apply (cv_change c l pts i Out)
      |apply (cv_change c l pts i Out)|apply (cv_change c l pts i In)|apply (cv_change c l pts i In)]; cv_side.
  - pose proof (holder_locked _ i In Hs Hi eq_refl) as Hl. cbn in Hl. subst l.
    apply (cv_change c true pts i In); cv_side.
  - by apply (cvinv_code c l pts i p).
  - assert (i <> j) by congruence. apply (cvinv_back c l _ i false h); [by apply (cvinv_wake c l pts j v)| |done].
    by rewrite list_lookup_insert_ne.
  - by apply (cvinv_back c l pts i false h).
  - by apply cvinv_wake_all.
  - by apply (cvinv_wake c l pts j v).
Qed.

Lemma cvstep_mono s s' : cvstep s s' ->
  length (cs_pts s') = length (cs_pts s) /\ cv_wakeups (cs_cv s) <= cv_wakeups (cs_cv s').
Proof.
  intros Hstep. split.
  - destruct Hstep; cbn; by rewrite ?length_insert, ?length_fmap, ?length_insert.
  - destruct Hstep as [| |c l pts i p c' l' p' Hi E| | | |]; cbn; try lia.
    unfold cv_step, wait_attach in E. repeat case_match; simplify_eq; cbn; lia.
Qed.

Lemma cvinv_reachable n s : rtc cvstep (cvinit n) s -> Z.of_nat n < 2147483648 ->
  cv_wakeups (cs_cv s) < 4294967296 -> cvinv s.
Proof.
  intros Hr Hn. apply rtc_nsteps in Hr as [k Hr]. revert s Hr.
  assert (Hgen : forall s, nsteps cvstep k (cvinit n) s -> length (cs_pts s) = n /\
    (cv_wakeups (cs_cv s) < 4294967296 -> cvinv s)); [|intros s Hs; by apply Hgen].
  induction k as [|k IH]; intros s Hs.
  - inversion Hs; subst. split; [cbn; apply length_replicate|]. intros _.
    assert (H0 : forall f, f Out = false -> count f (replicate n Out) = 0).
    { intros f Hf. clear -Hf. induction n as [|n IHn]; [done|]. cbn. by rewrite Hf, IHn. }
    split; cbn; try done; [by rewrite H0|by rewrite H0| |by left|].
    + intros i p v Hp. apply lookup_replicate in Hp as [-> _]. done.
    + intros i v Hp. apply lookup_replicate in Hp as [? _]. done.
  - apply nsteps_inv_r in Hs as (s1&Hs1&Hstep). destruct (IH s1 Hs1) as [Hlen Hinv].
    destruct (cvstep_mono s1 s Hstep) as [Hl Hm]. split; [congruence|]. intros Hw.
    apply (cvinv_step s1); [done|lia|lia|]. apply Hinv. lia.
Qed.

(** ** The theorem *)

(** C40: In every state that fewer than [2 ^ 31] threads can reach by any interleaving of
    their atomic operations, with fewer than [2 ^ 32] wake-ups so far: at most one
    thread has the mutex, also when it comes back from [wait].  A broadcast is not
    lost: a thread that sleeps although it noted the number of wake-ups before the
    latest broadcast is about to be woken, for a broadcaster is still on its way to
    [FUTEX_WAKE], and it will take that path, since [waiters] is positive. *)
Theorem metal_condition_broadcast_not_lost (n : nat) (s : cvsys) :
  rtc cvstep (cvinit n) s -> Z.of_nat n < 2147483648 -> cv_wakeups (cs_cv s) < 4294967296 ->
  count holds (cs_pts s) <= 1 /\
  (forall i v, cs_pts s !! i = Some (W_asleep v) -> v < cv_last (cs_cv s) ->
     0 < cv_waiters (cs_cv s) /\ exists j p, cs_pts s !! j = Some p /\ waking p = true).
Proof.
  intros Hr Hn Hw. pose proof (cvinv_reachable n s Hr Hn Hw) as Hs. split.
  - rewrite (ci_lock _ Hs). unfold b2z. destruct (cs_locked s); lia.
  - intros i v Hi Hv. split; [|by apply (ci_sleep _ Hs i v)].
    rewrite (ci_waiters _ Hs). by apply (count_pos _ _ i (W_asleep v)).
Qed.

(** A thread sleeps; another has added its wake-up and not woken it yet. *)
Definition demo_cv : cvsys := mk_cvsys (mk_cv 1 1 1 1) false [W_asleep 0; S_load true false].

Lemma demo_cv_run : rtc cvstep (cvinit 2) demo_cv.
Proof.
  eapply rtc_l; [apply (Cv_call _ _ _ 0 Out Lock); [reflexivity|left; split; [done|by left]]|].
  eapply rtc_l; [eapply (Cv_code _ _ _ 0); reflexivity|].
  eapply rtc_l; [apply (Cv_call _ _ _ 0 In W_attach); [reflexivity|right; split; [done|by left]]|].
  do 5 (eapply rtc_l; [eapply (Cv_code _ _ _ 0); reflexivity|]).
  eapply rtc_l; [apply (Cv_call _ _ _ 1 Out (S_add true false)); [reflexivity|left; split; [done|right; by exists true]]|].
  eapply rtc_l; [eapply (Cv_code _ _ _ 1); reflexivity|].
  apply rtc_refl.
Qed.

Lemma metal_condition_broadcast_not_lost_witness :
  0 < cv_waiters (cs_cv demo_cv) /\ exists j p, cs_pts demo_cv !! j = Some p /\ waking p = true.
Proof.
  apply (proj2 (metal_condition_broadcast_not_lost 2 demo_cv demo_cv_run ltac:(lia) ltac:(cbn; lia)) 0%nat 0).
  - reflexivity.
  - cbn. lia.
Defined.
